(* ===== verification/_CoqProject ===== *)
-Q . S2P
Prelude.v
CLib.v
Xdp.v
OnesComplement.v
XdpRun.v
RuntimeHelpers.v
Jhash.v
KatranDefs.v
KatranCsum.v
KatranParse.v
KatranIcmp.v
KatranEncap.v
KatranBalancer.v
KatranSafety.v
KatranForward.v
KatranRouting.v
KatranInline.v
KatranDeliver.v
KatranLoader.v
KatranExamples.v
HashMap.v
LpmTrie.v
RuntimeMaps.v
XdpLb.v
XdpLbLoader.v
XdpLbInline.v
XdpFirewall.v
XdpFw.v
XdpTunnel.v
XdpAdjustTail.v
AdjustTailLoader.v
Xdping.v
PingLoader.v
XdpSamples.v
CsumInline.v
AclLoader.v
SampleLoaders.v
ParsingHelpers.v
MemBuiltins.v
XdpTunnelLoader.v
BpfStandalone.v
XdpFwAdmin.v
XdpExamples.v
ControlExamples.v
JsonWriter.v
XskOptions.v
XskKern.v
XskPktgen.v
XskDriver.v
XskRings.v
XskForward.v
XskExamples.v
XskStats.v
XskMain.v
XskMainForward.v
XskMainExamples.v
RuntimeLoader.v
DpdkConfig.v
DpdkDriver.v
DpdkForward.v
DpdkExamples.v
KatranHealth.v
