(* ===== verification/Prelude.v ===== *)
(** * Verification of the XDP programs and the userspace XDP runtime

    The repository runs XDP packet programs outside the kernel: BPF programs
    (src/xdp_progs), among them Meta's layer-4 load balancer katran, and the
    runtime library (src/module) that supplies the kernel helpers and the maps
    those programs call.  A driver (DPDK or AF_XDP) receives a packet, hands its
    buffer to the program, and acts on the verdict.

    ** How programs are modelled

    - Xdp.v is the machine.  A packet is a [frame]: headroom, the bytes between
      [data] and [data_end], tailroom.  A program is a function of type
      [xdp E A] from a state (frame, maps [E], clock ticks) to a result and a
      state; [None] is a read or write outside [data]..[data_end], so memory
      safety is the statement that a program never returns [None].  The kernel
      helpers are a class [XdpHelpers]; their documented behaviour is the class
      [XdpHelperLaws].  [need n else r ;; k] is the guard
      [if (data + n > data_end) return r;], [x ←? m; k] a call that may return
      early.
    - C integers are [Z] with the wrap-around written out: [u8] .. [u64], [s32]
      (this file).  Packets and map values are little-endian byte lists.
    - Two judgements carry the proofs: [fits] (Xdp.v) bounds every access by the
      length that has been checked and gives memory safety; [runs] (XdpRun.v)
      states the exact result on a packet whose bytes are given.
    - OnesComplement.v is the arithmetic of the Internet checksum: congruence
      modulo 65535 as a setoid, [sum16], the receiver's check [csum_ok], and the
      law of [bpf_csum_diff] ([CsumDiffLaws]).

    ** Katran (src/xdp_progs/katran/lib/bpf)

    - KatranDefs.v: constants, structures and maps.  [Features] are the compile
      time options, [Tables] the maps that only the control plane writes, [kenv]
      the maps that the data plane writes, [LruPolicy] the kernel's eviction.
    - KatranParse.v (pckt_parsing.h, balancer_helpers.h), KatranCsum.v
      (csum_helpers.h, encap_helpers.h), KatranIcmp.v (handle_icmp.h),
      KatranEncap.v (pckt_encap.h, flow_debug_helpers.h), Jhash.v (jhash.h),
      KatranBalancer.v (balancer.bpf.c up to the entry point; [balancer_run] is
      the entry point with the recirculation by tail call).
    - KatranSafety.v: for every packet, configuration and helper behaviour the
      balancer stays inside the packet and ends with a verdict.
    - KatranForward.v: the packets it produces.  Encapsulation adds a correct
      outer header and keeps the inner packet, decapsulation undoes it, the time
      to live and its checksum, ICMP replies.
    - KatranRouting.v: the choice of the server.  A flow stays with its server,
      ring indices are in range, the rate limit of new connections, server ids in
      QUIC connection ids and in the TCP option.
    - KatranInline.v (lib-inline/linux_includes/aot_map_id.h): the build that reads four maps
      from arrays of the module, and where it sends connections.
    - KatranDeliver.v: the parts put together for TCP segments over IPv4.  From wire to wire,
      a segment of a VIP is sent to the server of the connection table or of the ring, behind
      an outer header, and all segments of a connection go to one server whatever comes in
      between; over every state, with the packets of one CPU as a list.
    - KatranLoader.v (xdp_tx.c): the loader of the benchmark and its failures; composed with
      KatranDeliver.v: what becomes of every TCP segment.
    - KatranExamples.v: one configuration on which the theorems are instantiated.
    - KatranHealth.v (healthchecking.bpf.c, healthchecking_helpers.h,
      healthchecking_ipip.c, xdp_root.c, xdp_pktcntr.c): the health checker as a
      function of the packet, complete on every branch, and its accounts over a
      sequence of packets; the root program and the packet counter.

    ** The runtime (src/module) and the inlined hash map

    - RuntimeHelpers.v (helpers.c): [do_csum] at every alignment, csum_diff, the
      pointer arithmetic of adjust_head and adjust_tail.  [runtime_helpers] shows
      that the laws of the helper classes can be met, with csum_diff being the
      runtime's own code.
    - CsumInline.v (helpers.c, xdp_progs/includes/inline_csum.h): the 64-bit sum behind the
      preprocessor switch and the copy for inlined programs, with the programs that use it; all
      versions agree.
    - RuntimeMaps.v (LRUCache11.hpp, maps.cpp): every operation of the LRU cache, the map behind
      katran's connection tables and the device map.
    - LpmTrie.v (lpm_trie.h, maps.cpp): the longest-prefix-match trie on a heap of
      node blocks, the BPF map built on it, and its test program.
    - RuntimeLoader.v (xdp-runtime.cpp): which program of the shared memory the drivers execute,
      with which helpers and in which form, and the runner that measures a program on a file.
    - HashMap.v (xdp_progs/includes/hash_map.h): the open-addressing table, byte
      by byte, refines a finite map as long as nothing is deleted, and which keys a deletion
      makes unreachable; test_hash.c.

    ** Other programs (src/xdp_progs)

    - XdpLb.v (xdp_lb.bpf.c) with XXH32; XdpFirewall.v (xdp_firewall.bpf.c);
      XdpFw.v (xdp_fw.bpf.c), whose theorems are about sequences of packets;
      XdpTunnel.v (xdp_tx_iptunnel.bpf.c); XdpAdjustTail.v
      (xdp_adjust_tail.bpf.c); Xdping.v (xdping.bpf.c).  Each has a theorem on the
      packets it sends and, where the packet is written, a theorem of safety.
      XdpExamples.v instantiates their theorems and states the safety of all the samples
      together.
    - XdpSamples.v: the echo, counting, hashing, checksum and reporting programs and
      the access control list (xdp_tx, xdp_map_access, xdp_hash_sum, xdp_csum, xdp-maps,
      xdp-tcpclassify, xdp-observer, xdp-dump, xdp-acl), each with the packet it leaves.

    ** Control planes

    - XdpTunnelLoader.v (xdp_tx_iptunnel.c): the command line, the table that it fills, the
      attachment and the statistics; composed with XdpTunnel.v: what a deployed tunnel does
      with every packet.
    - XdpFwAdmin.v (xdp-firewall/xdpfwadm): the commands on the maps of the kernel and the paths
      that name them; composed with XdpFirewall.v: whatever commands (unloads included) and IPv4
      packets are interleaved on whatever CPUs, the verdicts are those of the administrator's
      policy, for objects whose maps the loader finds.
    - BpfStandalone.v (xdpfwadm/bpf_standalone.c): the object loader of that tool, byte by byte:
      which maps it creates, which instructions it rewrites, what it gives to the kernel; and
      the request that puts a program on a link.
    - XdpLbLoader.v (xdp_lb.c): the two configurations that it writes, its failures and the
      attachment; composed with XdpLb.v: which server a packet goes to.
    - XdpLbInline.v (xdp_lb.bpf.inline.aot.c): the build with constant tables; it is the
      program of XdpLb.v on the tables of the loader without the last hash, except for packets
      whose first hash is 0 or 1.
    - AclLoader.v (xdp-acl/standard_acl.c, load_standard_acl.c): the rules that are written;
      composed with XdpSamples.v: which packets get past the list, on the trie of the kernel and on
      that of the runtime (LpmTrie.v).
    - PingLoader.v (xdping.c, xdping_no_check.c), AdjustTailLoader.v (xdp_adjust_tail.c): the
      tools of the ping and the packet-too-big program.
    - SampleLoaders.v: the loaders of the samples and the consumers of their maps and events
      (xdp_pass, xdp_drop, xdp_hash_sum, xdp-maps, xdp_firewall, xdp_csum, xdp_csum_only,
      xdp_map_access, xdp_fw, xdp-tcpclassify, xdp-observer, xdp-dump), composed with the programs;
      the stateful firewall with its loader and the redirection.
    - ControlExamples.v: command lines on which the theorems are instantiated.

    ** The DPDK driver (src/dpdk/main.c)

    - DpdkConfig.v: the command line, the pairs of ports, the ports of the cores; the theorems
      relate the result of [configure] to a reference pairing and distribution.
    - DpdkDriver.v: the set-up, the loop of a core, and [l2fwd_simple_forward], which runs a
      program of type [xdp] on a packet buffer.  DPDK is a class, [DpdkApi]; what is not
      defined in C, such as an index outside an array, is an outcome of its own.
    - DpdkForward.v: from the command line to the end of [main], the packets received are run
      through the program in order and those with a sending verdict are handed on.
    - DpdkExamples.v: devices that meet the laws, with the ping and the tunnel program.
    - CLib.v: the functions of the C library both drivers parse their command lines with.

    ** The AF_XDP driver (src/afxdp)

    - XskOptions.v (l2fwd/xdpsock.c): the command line; its theorem is that the options that
      pass the checks are those that were asked for and have the types and relations that the
      rest of the driver assumes.
    - XskKern.v (l2fwd/xdpsock_kern.c): the program that hands the packets to the sockets in turn.
    - XskPktgen.v: the packets of the transmit mode: the frame that is written into every
      chunk of the memory has correct lengths and IP and UDP checksums.
    - XskDriver.v: the receive, forward and transmit modes, in a monad whose outcome is a
      value, an exit with an error or the end of the fuel of a waiting loop.  The ring
      operations of libxdp are a class, [XskApi].
    - XskRings.v: the laws of the rings, over a view of them as queues, with the kernel moving
      between any two calls.
    - XskForward.v: a calculus of weakest preconditions for the monad, and the theorems: no
      frame of the memory is lost, [l2fwd] sends what it receives in order, a turn ends.
    - XskExamples.v: a kernel that meets the laws, on which the theorems are instantiated.
    - XskStats.v: what the statistics thread reports, the end of the benchmark, the dump of a packet.
    - XskMain.v: main from the options to the clean-up, with several sockets on one memory, each
      with its own [XskApi]; a function of XskDriver.v runs on one of them by [on_socket].
    - XskMainForward.v: for one socket, what xsk_forwarding says holds from the command line on
      and for any number of turns, without a fault and, in copy mode, without an endless wait.
    - XskMainExamples.v: a host that accepts everything.
    - JsonWriter.v (lib/util/json_writer.c): what the writer prints for a JSON document is
      read back as that document.
    - ParsingHelpers.v (include/xdp/parsing_helpers.h): the header parsers; they read inside the
      packet only, and skip VLAN tags and IPv6 extension headers.
    - MemBuiltins.v (include/bpf/builtins.h, include/xdp/context_helpers.h, lib/util/logging.c):
      clearing, copying, comparing and moving memory by jumps into lists of accesses, which do
      what the C library does; packet access on top of them; the filter of messages.

    ** Bounds and fuel

    Loops of the source with a literal bound are recursions on that number.
    [balancer_run] takes the number of tail calls the kernel allows (33), after
    which a tail call falls through, as in the kernel.  [h16bytes_4] takes the
    length of its input and one more, each turn consuming 16 bytes.
    [prune_loop] takes the size of the index, of which each turn removes one key.
    [probe] takes the number of buckets.  [TRIE_MEMORY_CELL_SIZE] cells make a
    block; the heap is unbounded.  The waiting loops of the AF_XDP driver take
    fuel and end in [Spin] without it: [l2fwd_turn_ends] shows that the number of
    frames of the memory is enough, [rx_drop_returns_frames] that none is needed
    in the drop mode.  The loops over turns run until the benchmark is done.
    [find_lcore] takes the number of cores, [parse_pairs] the length of its string
    ([parse_pairs_fuel]), [main_loop] the number of turns until the DPDK driver is told to stop.

    ** Not modelled

    The capabilities that the AF_XDP driver drops, and the layout of what the programs print;
    the copies of katran and of the samples for the ahead-of-time build, which differ in the name
    of the lookup helper, and xdp-lb/xdp_lb.cpp, a copy of a loader; the headers of the kernel and
    of libbpf under linux_includes, headers and aot-header and the declarations of base.c and
    def.bpf.h, which declare only; the Rust loaders; the experiments under documents and the results
    under bench. The concurrency of several CPUs is not modelled: per-CPU maps are the copy
    of the CPU at hand, and in XdpFwAdmin.v packets and commands are atomic. The statistics
    thread of the AF_XDP driver is not interleaved with its loops. [bpf_printk] has no effect. *)
From Stdlib Require Import ZArith Lia Zbitwise.
From stdpp Require Import base numbers list option.
#[global] Open Scope Z_scope.

(** Linear arithmetic with divisions and remainders by literals. *)
Ltac zlia := Z.to_euclidean_division_equations; lia.

(** * Record updates

    [r <| p := v |>] is [r] with field [p] replaced, for a record with an [Eta]
    instance that rebuilds it from its fields. *)
Class Eta (R : Type) := eta : R -> R.
Ltac set_field p v r :=
  let e := eval hnf in (eta r) in
  lazymatch eval pattern (p r) in e with
  | ?g _ => let r' := eval cbv beta in (g v) in exact r'
  end.
Notation "r '<|' p ':=' v '|>'" := ltac:(set_field p v r)
  (at level 1, p at level 200, v at level 200, only parsing).

(** * Machine integers

    A C unsigned integer of width [w] is a [Z]; the functions below are the
    conversions to [__u8], [__u16], [__u32], [__u64] and to the signed [int]. *)

Definition u8 (x : Z) : Z := x mod 256.
Definition u16 (x : Z) : Z := x mod 65536.
Definition u32 (x : Z) : Z := x mod 4294967296.
Definition u64 (x : Z) : Z := x mod 18446744073709551616.
Definition s32 (x : Z) : Z := (x + 2147483648) mod 4294967296 - 2147483648.

Definition is_u8 (x : Z) : Prop := 0 <= x < 256.
Definition is_u16 (x : Z) : Prop := 0 <= x < 65536.
Definition is_u32 (x : Z) : Prop := 0 <= x < 4294967296.
Definition is_u64 (x : Z) : Prop := 0 <= x < 18446744073709551616.

Lemma u8_range x : is_u8 (u8 x).
Proof. unfold is_u8, u8; zlia. Qed.
Lemma u16_range x : is_u16 (u16 x).
Proof. unfold is_u16, u16; zlia. Qed.
Lemma u32_range x : is_u32 (u32 x).
Proof. unfold is_u32, u32; zlia. Qed.
Lemma u64_range x : is_u64 (u64 x).
Proof. unfold is_u64, u64; zlia. Qed.

Lemma u8_id x : is_u8 x -> u8 x = x.
Proof. unfold is_u8, u8; zlia. Qed.
Lemma u16_id x : is_u16 x -> u16 x = x.
Proof. unfold is_u16, u16; zlia. Qed.
Lemma u32_id x : is_u32 x -> u32 x = x.
Proof. unfold is_u32, u32; zlia. Qed.
Lemma u64_id x : is_u64 x -> u64 x = x.
Proof. unfold is_u64, u64; zlia. Qed.

(** The C comparison [x != 0] and the conversion of a boolean to an integer. *)
Definition nz (x : Z) : bool := negb (x =? 0).
Lemma nz_false x : nz x = false <-> x = 0.
Proof. unfold nz. rewrite negb_false_iff. apply Z.eqb_eq. Qed.
Lemma nz_true x : nz x = true <-> x <> 0.
Proof. unfold nz. rewrite negb_true_iff. apply Z.eqb_neq. Qed.
Definition b2z (b : bool) : Z := if b then 1 else 0.

(** ** Bit operations as arithmetic, for [lia] *)

Lemma land_u8 x : Z.land x 255 = x mod 256.
Proof. change 255 with (Z.ones 8). now rewrite Z.land_ones. Qed.
Lemma land_u16 x : Z.land x 65535 = x mod 65536.
Proof. change 65535 with (Z.ones 16). now rewrite Z.land_ones. Qed.
Lemma land_u32 x : Z.land x 4294967295 = x mod 4294967296.
Proof. change 4294967295 with (Z.ones 32). now rewrite Z.land_ones. Qed.
Lemma shiftr_8 x : Z.shiftr x 8 = x / 256.
Proof. now rewrite Z.shiftr_div_pow2. Qed.
Lemma shiftr_16 x : Z.shiftr x 16 = x / 65536.
Proof. now rewrite Z.shiftr_div_pow2. Qed.
Lemma shiftl_8 x : Z.shiftl x 8 = x * 256.
Proof. now rewrite Z.shiftl_mul_pow2. Qed.
Lemma shiftl_16 x : Z.shiftl x 16 = x * 65536.
Proof. now rewrite Z.shiftl_mul_pow2. Qed.
Lemma lnot_arith x : Z.lnot x = - x - 1.
Proof. unfold Z.lnot. lia. Qed.

(** A single bit. *)
Lemma nz_land_pow2 x k : 0 <= k -> nz (Z.land x (2 ^ k)) = Z.testbit x k.
Proof.
  intros Hk. assert (Z.land x (2 ^ k) = if Z.testbit x k then 2 ^ k else 0) as ->.
  { apply Z.bits_inj'. intros i Hi. rewrite Z.land_spec, Z.pow2_bits_eqb by done.
    destruct (Z.eqb_spec k i) as [<-|Hne]; [rewrite andb_true_r|rewrite andb_false_r];
      destruct (Z.testbit x k) eqn:E; rewrite ?Z.bits_0, ?Z.pow2_bits_true, ?Z.pow2_bits_false by (done || lia); done. }
  unfold nz. destruct (Z.testbit x k); [|done]. now rewrite (proj2 (Z.eqb_neq _ _)) by lia.
Qed.

(** A value below [2 ^ n] and a multiple of [2 ^ n] have no bit in common. *)
Lemma lor_disjoint_add n a b :
  0 <= n -> 0 <= a < 2 ^ n -> Z.lor a (b * 2 ^ n) = a + b * 2 ^ n.
Proof.
  intros Hn Ha. rewrite <- Z.add_lor_land.
  enough (Z.land a (b * 2 ^ n) = 0) as -> by lia.
  apply Z.bits_inj'. intros i Hi. rewrite Z.land_spec, Z.bits_0.
  destruct (Z.lt_ge_cases i n).
  - rewrite (Z.mul_pow2_bits_low b n i) by lia. apply andb_false_r.
  - destruct (decide (a = 0)) as [->|]; [now rewrite Z.bits_0|].
    rewrite (Z.bits_above_log2 a i); [done|lia|].
    apply Z.lt_le_trans with n; [|lia]. apply Z.log2_lt_pow2; lia.
Qed.

Lemma land_pos_range a n : 0 <= n -> 0 <= Z.land a n <= n.
Proof.
  intros Hn. split; [apply Z.land_nonneg; lia|].
  enough (n - Z.land a n = Z.ldiff n (Z.land a n)) as Heq.
  { assert (0 <= Z.ldiff n (Z.land a n)) by (apply Z.ldiff_nonneg; lia). lia. }
  apply Z.sub_nocarry_ldiff. apply Z.bits_inj'. intros i Hi.
  rewrite Z.ldiff_spec, Z.land_spec, Z.bits_0.
  destruct (Z.testbit a i), (Z.testbit n i); done.
Qed.

Lemma lor_range n a b :
  0 <= n -> 0 <= a < 2 ^ n -> 0 <= b < 2 ^ n -> 0 <= Z.lor a b < 2 ^ n.
Proof.
  intros Hn Ha Hb. split; [apply Z.lor_nonneg; lia|].
  destruct (decide (Z.lor a b = 0)) as [->|]; [lia|].
  assert (0 <= Z.lor a b) by (apply Z.lor_nonneg; lia).
  apply Z.log2_lt_pow2; [lia|].
  rewrite Z.log2_lor by lia.
  destruct (decide (n = 0)) as [->|].
  { assert (a = 0) as -> by lia. assert (b = 0) as -> by lia. done. }
  apply Z.max_lub_lt.
  - destruct (decide (a = 0)) as [->|]; [cbn; lia|apply Z.log2_lt_pow2; lia].
  - destruct (decide (b = 0)) as [->|]; [cbn; lia|apply Z.log2_lt_pow2; lia].
Qed.

Lemma lxor_range n a b :
  0 <= n -> 0 <= a < 2 ^ n -> 0 <= b < 2 ^ n -> 0 <= Z.lxor a b < 2 ^ n.
Proof.
  intros Hn Ha Hb. split; [apply Z.lxor_nonneg; lia|].
  destruct (decide (Z.lxor a b = 0)) as [->|]; [lia|].
  assert (0 <= Z.lxor a b) by (apply Z.lxor_nonneg; lia).
  apply Z.log2_lt_pow2; [lia|].
  eapply Z.le_lt_trans; [apply Z.log2_lxor; lia|].
  destruct (decide (n = 0)) as [->|].
  { assert (a = 0) as -> by lia. assert (b = 0) as -> by lia. done. }
  apply Z.max_lub_lt.
  - destruct (decide (a = 0)) as [->|]; [cbn; lia|apply Z.log2_lt_pow2; lia].
  - destruct (decide (b = 0)) as [->|]; [cbn; lia|apply Z.log2_lt_pow2; lia].
Qed.
