(* ===== verification/CLib.v ===== *)
(** * The C library

    The functions of the C library on strings and numbers that the command lines of the
    drivers are parsed with. *)
From Stdlib Require Import ZArith Lia Ascii String.
From stdpp Require Import base numbers list option.
From S2P Require Import Prelude.
#[local] Open Scope Z_scope.
#[local] Open Scope list_scope.

Definition code_of (c : ascii) : Z := Z.of_N (N_of_ascii c).
Definition tolower (c : ascii) : ascii :=
  if (65 <=? code_of c) && (code_of c <=? 90) then ascii_of_N (Z.to_N (code_of c + 32)) else c.
Fixpoint strcasecmp_eq (a b : string) : bool :=
  match a, b with
  | EmptyString, EmptyString => true
  | String c a, String d b => Ascii.eqb (tolower c) (tolower d) && strcasecmp_eq a b
  | _, _ => false
  end.
Definition isspace (c : ascii) : bool := existsb (Z.eqb (code_of c)) [32; 9; 10; 11; 12; 13].
Definition digit_value (base : Z) (c : ascii) : option Z :=
  let n := code_of c in
  let d := if (48 <=? n) && (n <=? 57) then n - 48
           else if (97 <=? n) && (n <=? 122) then n - 87
           else if (65 <=? n) && (n <=? 90) then n - 55 else 99 in
  if d <? base then Some d else None.
Fixpoint skip_space (s : string) : string :=
  match s with String c r => if isspace c then skip_space r else s | EmptyString => s end.
(** In base 16 a prefix 0x is allowed when a digit follows. *)
Definition skip_prefix (base : Z) (s : string) : string :=
  match s with
  | String c (String x (String d _ as r)) =>
      if (base =? 16) && (code_of c =? 48) && (code_of (tolower x) =? 120)
         && (match digit_value 16 d with Some _ => true | None => false end) then r else s
  | _ => s
  end.
(** The number that the digits stand for, whether there are any, and what follows them. *)
Fixpoint scan_digits (base acc : Z) (some : bool) (s : string) : Z * bool * string :=
  match s with
  | String c r =>
      match digit_value base c with
      | Some d => scan_digits base (base * acc + d) true r
      | None => (acc, some, s)
      end
  | EmptyString => (acc, some, s)
  end.
Definition sign (s : string) : bool * string :=
  match s with
  | String c r => if code_of c =? 45 then (true, r) else if code_of c =? 43 then (false, r) else (false, s)
  | EmptyString => (false, s)
  end.
(** Base 0 stands for 16 after 0x, 8 after 0 and 10 otherwise. *)
Definition real_base (base : Z) (s : string) : Z :=
  if base =? 0 then
    match s with
    | String c r => if code_of c =? 48 then
                      match r with String x _ => if code_of (tolower x) =? 120 then 16 else 8 | _ => 8 end
                    else 10
    | EmptyString => 10
    end
  else base.
(** The signed number, whether there is one, and what follows it. *)
Definition scan_number (base : Z) (s : string) : Z * bool * string :=
  let '(neg, r) := sign (skip_space s) in
  let base := real_base base r in
  let '(n, some, rest) := scan_digits base 0 false (skip_prefix base r) in
  ((if neg then - n else n), some, rest).

(** [strtoul] and [strtol]: the result, the rest from [*end], and whether [errno] is set. *)
Definition strtoul (base : Z) (s : string) : Z * string * bool :=
  let '(n, some, rest) := scan_number base s in
  if negb some then (0, s, false)
  else if Z.abs n >? 18446744073709551615 then (18446744073709551615, rest, true)
  else (u64 n, rest, false).
Definition clamp64 (n : Z) : Z := Z.max (-9223372036854775808) (Z.min n 9223372036854775807).
Definition strtol_end (base : Z) (s : string) : Z * string :=
  let '(n, some, rest) := scan_number base s in
  if negb some then (0, s) else (clamp64 n, rest).
Definition strtol (base : Z) (s : string) : Z := (strtol_end base s).1.
Definition atoi (s : string) : Z := s32 (strtol 10 s).
(** The tokens that repeated calls of [strtok] return. *)
Fixpoint strtok (delim : ascii) (token s : string) : list string :=
  let flush := match token with EmptyString => [] | _ => [token] end in
  match s with
  | EmptyString => flush
  | String c r => if Ascii.eqb c delim then flush ++ strtok delim EmptyString r
                  else strtok delim (token ++ String c EmptyString)%string r
  end.
Definition ends_line (s : string) : bool :=
  match String.get (String.length s - 1) s with Some c => code_of c =? 10 | None => false end.
Definition strstr (s sub : string) : bool := match String.index 0 sub s with Some _ => true | None => false end.
(** The string from the first [c]. *)
Fixpoint strchr (c : ascii) (s : string) : option string :=
  match s with
  | String d r => if Ascii.eqb c d then Some s else strchr c r
  | EmptyString => None
  end.
Definition is_empty (s : string) : bool := match s with EmptyString => true | _ => false end.

(** The parts of a string between the occurrences of a character. *)
Fixpoint split_at (c : ascii) (part s : string) : list string :=
  match s with
  | EmptyString => [part]
  | String d r => if Ascii.eqb c d then part :: split_at c EmptyString r
                  else split_at c (part ++ String d EmptyString)%string r
  end.
(** A decimal number of one to three digits below 256, without leading zeros. *)
Definition octet (s : string) : option Z :=
  match s with
  | String c r =>
      let '(n, some, rest) := scan_digits 10 0 false s in
      if some && is_empty rest && (n <=? 255) && ((negb (code_of c =? 48)) || is_empty r) then Some n else None
  | EmptyString => None
  end.
(** [inet_pton] for IPv4: the bytes of a dotted quad. *)
Definition inet_pton4 (s : string) : option (list Z) :=
  match map octet (split_at "."%char EmptyString s) with
  | [Some a; Some b; Some c; Some d] => Some [a; b; c; d]
  | _ => None
  end.
(** [inet_pton] for IPv6: the four words of the address. *)
Class Inet6 := inet_pton6 : string -> option (list Z).

Lemma strtoul_range base s : is_u64 (strtoul base s).1.1.
Proof.
  unfold strtoul. destruct (scan_number base s) as [[n some] rest]. destruct (negb some); [now compute|].
  destruct (_ >? _); [now compute|apply u64_range].
Qed.

(** An address in dotted notation is four bytes. *)
Lemma scan_digits_nonneg base acc some s : 0 <= base -> 0 <= acc -> 0 <= (scan_digits base acc some s).1.1.
Proof.
  intros Hb. revert acc some. induction s as [|c s IH]; intros acc some Ha; cbn [scan_digits]; [done|].
  destruct (digit_value base c) as [d|] eqn:E; [|done]. apply IH.
  assert (0 <= d); [|nia]. revert E. unfold digit_value. cbv zeta.
  repeat match goal with |- context [if ?b then _ else _] => destruct b eqn:? end; intros [= <-]; lia.
Qed.
Lemma octet_range s n : octet s = Some n -> is_u8 n.
Proof.
  unfold octet. destruct s as [|c r]; [discriminate|].
  pose proof (scan_digits_nonneg 10 0 false (String c r) ltac:(lia) ltac:(lia)) as H.
  destruct (scan_digits 10 0 false (String c r)) as [[m some] rest]. cbn [fst] in H.
  destruct (some && is_empty rest && (m <=? 255) && _) eqn:E; [|discriminate]. intros [= <-].
  rewrite !andb_true_iff, Z.leb_le in E. unfold is_u8. lia.
Qed.
Lemma inet_pton4_ok s bs : inet_pton4 s = Some bs -> length bs = 4%nat /\ Forall is_u8 bs.
Proof.
  unfold inet_pton4. destruct (map octet _) as [|[a|] [|[b|] [|[c|] [|[d|] [|]]]]] eqn:E; try discriminate.
  intros [= <-]. split; [done|].
  assert (H : forall x, In (Some x) (map octet (split_at "."%char EmptyString s)) -> is_u8 x).
  { intros x Hx. apply in_map_iff in Hx as (y & Hy & _). now apply octet_range in Hy. }
  rewrite E in H. repeat constructor; apply H; cbn; tauto.
Qed.
