(* ===== verification/Xdp.v ===== *)
(** * The XDP execution environment

    An XDP program of the repository runs on a packet held in a memory area
    with some headroom before it and some tailroom behind it, reads and writes
    bytes between [data] and [data_end], moves the two ends with
    [bpf_xdp_adjust_head] and [bpf_xdp_adjust_tail], and keeps its own state in
    maps.  This file gives that machine: the frame, a state and fault monad on
    it, the memory accesses, the kernel helpers as a type class with their
    documented laws, and the judgement [fits], which bounds every access of a
    program by the length it has checked. *)
From Stdlib Require Import ZArith Lia.
From stdpp Require Import base numbers list option.
From S2P Require Import Prelude.
#[local] Open Scope Z_scope.

(** ** Bytes in memory: little-endian integers *)

(** The integer that the bytes [bs] hold on a little-endian machine. *)
Fixpoint le_join (bs : list Z) : Z :=
  match bs with
  | [] => 0
  | b :: bs' => b + 256 * le_join bs'
  end.

(** The [n] low bytes of [x], lowest first. *)
Fixpoint le_split (n : nat) (x : Z) : list Z :=
  match n with
  | O => []
  | S n' => x mod 256 :: le_split n' (x / 256)
  end.

(** Lists of bytes. *)
Definition bytes_ok (bs : list Z) : Prop := Forall is_u8 bs.

Lemma bytes_ok_cons b bs : bytes_ok (b :: bs) <-> is_u8 b /\ bytes_ok bs.
Proof. unfold bytes_ok. split; [inversion 1; auto|intros [? ?]; constructor; auto]. Qed.
Lemma bytes_ok_app l1 l2 : bytes_ok (l1 ++ l2) <-> bytes_ok l1 /\ bytes_ok l2.
Proof. apply Forall_app. Qed.
Lemma bytes_ok_nil : bytes_ok [].
Proof. constructor. Qed.

Lemma length_le_split n x : length (le_split n x) = n.
Proof. revert x; induction n; intros; simpl; auto. Qed.

Lemma le_split_ok n x : bytes_ok (le_split n x).
Proof.
  revert x; induction n as [|n IH]; intros; simpl; constructor; [apply u8_range|apply IH].
Qed.

Lemma le_join_split n x : le_join (le_split n x) = x mod (256 ^ Z.of_nat n).
Proof.
  revert x; induction n as [|n IH]; intros x; simpl le_join.
  { now rewrite Z.mod_1_r. }
  rewrite IH, Nat2Z.inj_succ, Z.pow_succ_r by lia.
  rewrite Z.rem_mul_r by (try apply Z.pow_nonzero; lia). lia.
Qed.

Lemma le_join_range bs :
  bytes_ok bs -> 0 <= le_join bs < 256 ^ Z.of_nat (length bs).
Proof.
  induction 1 as [|b bs Hb _ IH]; simpl le_join; simpl length; [lia|].
  rewrite Nat2Z.inj_succ, Z.pow_succ_r by lia. unfold is_u8 in Hb. lia.
Qed.

Lemma le_split_join bs :
  bytes_ok bs -> le_split (length bs) (le_join bs) = bs.
Proof.
  induction 1 as [|b bs Hb _ IH]; simpl; [done|]. unfold is_u8 in Hb.
  replace ((b + 256 * le_join bs) mod 256) with b by zlia.
  replace ((b + 256 * le_join bs) / 256) with (le_join bs) by zlia.
  now rewrite IH.
Qed.

(** [__builtin_bswap16] and [__builtin_bswap32]: the bytes in the opposite
    order; on a little-endian machine [bpf_htons], [bpf_ntohs], [bpf_htonl] and
    [bpf_ntohl] are these functions. *)
(** @src xdp_progs/katran/lib/linux_includes/bpf_endian.h 22-30 __bpf_ntohs *)
Definition bswap16 (x : Z) : Z := le_join (rev (le_split 2 x)).
(** @src xdp_progs/katran/lib/linux_includes/bpf_endian.h 44-51 bpf_htonl *)
Definition bswap32 (x : Z) : Z := le_join (rev (le_split 4 x)).

Lemma bytes_ok_rev bs : bytes_ok bs -> bytes_ok (rev bs).
Proof. apply Forall_rev. Qed.

Lemma bswap16_range x : is_u16 (bswap16 x).
Proof.
  pose proof (le_join_range _ (bytes_ok_rev _ (le_split_ok 2 x))) as H.
  rewrite length_rev, length_le_split in H. exact H.
Qed.

Lemma bswap32_range x : is_u32 (bswap32 x).
Proof.
  pose proof (le_join_range _ (bytes_ok_rev _ (le_split_ok 4 x))) as H.
  rewrite length_rev, length_le_split in H. exact H.
Qed.

Lemma bswap16_involutive x : is_u16 x -> bswap16 (bswap16 x) = x.
Proof. intros [? ?]. unfold bswap16; simpl. zlia. Qed.

Lemma bswap32_involutive x : is_u32 x -> bswap32 (bswap32 x) = x.
Proof.
  intros Hx. unfold bswap32.
  pose proof (le_split_join (rev (le_split 4 x)) (bytes_ok_rev _ (le_split_ok 4 x))) as H.
  rewrite length_rev, length_le_split in H. rewrite H, rev_involutive, le_join_split.
  unfold is_u32 in Hx. rewrite Z.mod_small; [done|]. exact Hx.
Qed.

(** ** Slices of a byte list *)

(** [n] bytes at offset [off], when all of them are there. *)
Definition slice (off : Z) (n : nat) (l : list Z) : option (list Z) :=
  if off <? 0 then None
  else let r := take n (drop (Z.to_nat off) l) in
       if Nat.eqb (length r) n then Some r else None.

(** The list with the bytes [bs] written at offset [off]. *)
Definition splice (off : Z) (bs : list Z) (l : list Z) : option (list Z) :=
  match slice off (length bs) l with
  | Some _ => Some (take (Z.to_nat off) l ++ bs ++ drop (Z.to_nat off + length bs) l)
  | None => None
  end.

Definition zlen (l : list Z) : Z := Z.of_nat (length l).

Lemma zlen_drop n bs : zlen (drop n bs) = Z.max 0 (zlen bs - Z.of_nat n).
Proof. unfold zlen. rewrite length_drop. lia. Qed.
Lemma zlen_app l1 l2 : zlen (l1 ++ l2) = zlen l1 + zlen l2.
Proof. unfold zlen. rewrite length_app. lia. Qed.

Lemma slice_some off n l :
  0 <= off -> off + Z.of_nat n <= zlen l ->
  slice off n l = Some (take n (drop (Z.to_nat off) l)).
Proof.
  unfold slice, zlen. intros H0 H1.
  destruct (Z.ltb_spec off 0); [lia|]. cbv zeta.
  rewrite length_take, length_drop.
  rewrite (proj2 (Nat.eqb_eq _ _)); [done|lia].
Qed.

Lemma slice_inv off n l bs :
  slice off n l = Some bs ->
  0 <= off /\ (n = O \/ off + Z.of_nat n <= zlen l) /\ length bs = n
  /\ bs = take n (drop (Z.to_nat off) l).
Proof.
  unfold slice, zlen. destruct (Z.ltb_spec off 0); [done|]. cbv zeta.
  destruct (Nat.eqb_spec (length (take n (drop (Z.to_nat off) l))) n) as [E|]; [|done].
  intros [= <-]. split; [done|]. split; [|done].
  rewrite length_take, length_drop in E. lia.
Qed.

Lemma slice_ok off n l bs :
  bytes_ok l -> slice off n l = Some bs -> bytes_ok bs.
Proof.
  intros Hl (_ & _ & _ & ->)%slice_inv.
  unfold bytes_ok. apply Forall_take, Forall_drop, Hl.
Qed.

Lemma splice_some off bs l :
  0 <= off -> off + zlen bs <= zlen l ->
  splice off bs l = Some (take (Z.to_nat off) l ++ bs ++ drop (Z.to_nat off + length bs) l).
Proof. intros. unfold splice. rewrite slice_some; auto. Qed.

Lemma splice_inv off bs l l' :
  splice off bs l = Some l' ->
  l' = take (Z.to_nat off) l ++ bs ++ drop (Z.to_nat off + length bs) l
  /\ (bs <> [] -> length l' = length l).
Proof.
  unfold splice. destruct (slice off (length bs) l) eqn:E; [|done].
  intros [= <-]. split; [done|]. intros Hne.
  apply slice_inv in E as (H0 & [H1|H1] & _); [destruct bs; done|]. unfold zlen in H1.
  rewrite !length_app, length_take, length_drop. lia.
Qed.

Lemma splice_ok off bs l l' :
  bytes_ok l -> bytes_ok bs -> splice off bs l = Some l' -> bytes_ok l'.
Proof.
  intros Hl Hb (-> & _)%splice_inv. unfold bytes_ok in *.
  rewrite !Forall_app. repeat split; auto using Forall_take, Forall_drop.
Qed.

(** Reading back what has just been written, and reading beside it. *)
Lemma slice_splice_same off bs l l' :
  splice off bs l = Some l' -> slice off (length bs) l' = Some bs.
Proof.
  unfold splice. destruct (slice off (length bs) l) eqn:E; [|done]. intros [= <-].
  apply slice_inv in E as (H0 & H1 & _).
  unfold slice. destruct (Z.ltb_spec off 0); [lia|]. cbv zeta.
  destruct H1 as [H1|H1].
  { destruct bs; done. }
  unfold zlen in H1.
  rewrite drop_app_length' by (rewrite length_take; lia).
  rewrite take_app_length' by done. now rewrite Nat.eqb_refl.
Qed.

Lemma slice_app_ge off n l1 l2 :
  zlen l1 <= off -> slice off n (l1 ++ l2) = slice (off - zlen l1) n l2.
Proof.
  unfold zlen. intros H. unfold slice.
  destruct (Z.ltb_spec off 0), (Z.ltb_spec (off - Z.of_nat (length l1)) 0); try lia; auto.
  rewrite drop_app_ge by lia. do 2 f_equal.
  all: replace (Z.to_nat off - length l1)%nat with (Z.to_nat (off - Z.of_nat (length l1))) by lia; done.
Qed.

Lemma splice_app_ge off bs l1 l2 :
  zlen l1 <= off ->
  splice off bs (l1 ++ l2) = (fun l => l1 ++ l) <$> splice (off - zlen l1) bs l2.
Proof.
  intros H. unfold splice. rewrite slice_app_ge by done. unfold zlen in *.
  destruct (slice _ _ l2) eqn:E; [|done]. apply slice_inv in E as (H0 & _).
  cbn [fmap option_fmap option_map]. f_equal.
  replace (Z.to_nat off) with (length l1 + Z.to_nat (off - Z.of_nat (length l1)))%nat by lia.
  rewrite take_app_add. rewrite <- Nat.add_assoc, drop_app_add.
  now rewrite <- app_assoc.
Qed.

(** ** The machine *)

(** XDP verdicts and the value by which katran's functions say "continue". *)
Definition XDP_ABORTED : Z := 0.
Definition XDP_DROP : Z := 1.
Definition XDP_PASS : Z := 2.
Definition XDP_TX : Z := 3.
Definition XDP_REDIRECT : Z := 4.

(** The memory of one packet: [f_head] lies before [data], [f_data] is the
    area from [data] to [data_end], [f_tail] follows [data_end]. *)
Record frame := Frame { f_head : list Z; f_data : list Z; f_tail : list Z }.

(** The state of a run: the frame, the program's maps, and how many times the
    clock has been read. *)
Record xst (E : Type) := Xst { x_frame : frame; x_env : E; x_tick : nat }.
Arguments Xst {E}.
Arguments x_frame {E}.
Arguments x_env {E}.
Arguments x_tick {E}.

(** A program step; [None] is an access outside the packet. *)
Definition xdp (E A : Type) : Type := xst E -> option (A * xst E).

#[global] Instance xdp_ret E : MRet (xdp E) := fun A a s => Some (a, s).
#[global] Instance xdp_bind E : MBind (xdp E) := fun A B k m s =>
  match m s with
  | Some (a, s') => k a s'
  | None => None
  end.
#[global] Instance xdp_fmap E : FMap (xdp E) := fun A B f m s =>
  match m s with
  | Some (a, s') => Some (f a, s')
  | None => None
  end.

Section machine.
Context {E : Type}.

Definition fault {A} : xdp E A := fun _ => None.
Definition lift {A} (o : option A) : xdp E A := fun s =>
  match o with Some a => Some (a, s) | None => None end.

(** The maps. *)
Definition get_env : xdp E E := fun s => Some (x_env s, s).
Definition asks {A} (f : E -> A) : xdp E A := fun s => Some (f (x_env s), s).
Definition modify (f : E -> E) : xdp E unit := fun s =>
  Some (tt, Xst (x_frame s) (f (x_env s)) (x_tick s)).

(** [data_end - data]. *)
Definition data_len : xdp E Z := fun s => Some (zlen (f_data (x_frame s)), s).

(** Reads and writes at [data + off]. *)
Definition load (n : nat) (off : Z) : xdp E (list Z) := fun s =>
  match slice off n (f_data (x_frame s)) with
  | Some bs => Some (bs, s)
  | None => None
  end.
Definition store (off : Z) (bs : list Z) : xdp E unit := fun s =>
  match splice off bs (f_data (x_frame s)) with
  | Some d => Some (tt, Xst (Frame (f_head (x_frame s)) d (f_tail (x_frame s)))
                            (x_env s) (x_tick s))
  | None => None
  end.
Definition load8 (off : Z) : xdp E Z := bs ← load 1 off; mret (le_join bs).
Definition load16 (off : Z) : xdp E Z := bs ← load 2 off; mret (le_join bs).
Definition load32 (off : Z) : xdp E Z := bs ← load 4 off; mret (le_join bs).
Definition load64 (off : Z) : xdp E Z := bs ← load 8 off; mret (le_join bs).
Definition store8 (off x : Z) : xdp E unit := store off (le_split 1 x).
Definition store16 (off x : Z) : xdp E unit := store off (le_split 2 x).
Definition store32 (off x : Z) : xdp E unit := store off (le_split 4 x).
(** [memcpy] inside the packet, in the order load, store. *)
Definition move (dst src : Z) (n : nat) : xdp E unit :=
  bs ← load n src; store dst bs.

Definition when (b : bool) (m : xdp E unit) : xdp E unit :=
  if b then m else mret tt.
End machine.

(** The guard [if (data + n > data_end) return r;]. *)
Notation "'need' n 'else' r ;; k" :=
  (L ← data_len; if L <? n then mret r else k)
  (at level 20, n at level 50, r at level 50, k at level 200, right associativity, only parsing) : stdpp_scope.

(** A block that may return early: [inl v] is [return v]. *)
Notation "x '←?' m ; k" :=
  (mbind (fun r => match r with inl v => mret v | inr x => k end) m)
  (at level 20, m at level 100, k at level 200, right associativity, only parsing)
  : stdpp_scope.

(** ** The helpers of the kernel

    [bpf_xdp_adjust_head], [bpf_xdp_adjust_tail], [bpf_csum_diff],
    [bpf_ktime_get_ns] and [bpf_get_smp_processor_id]; the laws are what their
    documentation promises. *)

(** [data] moved by [delta] bytes ([delta < 0] takes bytes from the headroom). *)
Definition shift_head (f : frame) (delta : Z) : frame :=
  if 0 <=? delta then
    let k := Z.to_nat delta in
    Frame (f_head f ++ take k (f_data f)) (drop k (f_data f)) (f_tail f)
  else
    let k := (length (f_head f) - Z.to_nat (- delta))%nat in
    Frame (take k (f_head f)) (drop k (f_head f) ++ f_data f) (f_tail f).

(** [data_end] moved by [delta] bytes ([delta < 0] shrinks the packet). *)
Definition shift_tail (f : frame) (delta : Z) : frame :=
  if 0 <=? delta then
    let k := Z.to_nat delta in
    Frame (f_head f) (f_data f ++ take k (f_tail f)) (drop k (f_tail f))
  else
    let k := (length (f_data f) - Z.to_nat (- delta))%nat in
    Frame (f_head f) (take k (f_data f)) (drop k (f_data f) ++ f_tail f).

Class XdpHelpers := {
  h_adjust_head : frame -> Z -> Z * frame;
  h_adjust_tail : frame -> Z -> Z * frame;
  h_csum_diff : list Z -> list Z -> Z -> Z;
  h_ktime : nat -> Z;
  h_cpu : Z
}.

Definition frame_ok (f : frame) : Prop :=
  bytes_ok (f_head f) /\ bytes_ok (f_data f) /\ bytes_ok (f_tail f).

Class XdpHelperLaws (H : XdpHelpers) : Prop := {
  adjust_head_fail f d : fst (h_adjust_head f d) <> 0 -> snd (h_adjust_head f d) = f;
  adjust_head_done f d :
    fst (h_adjust_head f d) = 0 ->
    snd (h_adjust_head f d) = shift_head f d /\ - d <= zlen (f_head f) /\ d <= zlen (f_data f);
  adjust_tail_fail f d : fst (h_adjust_tail f d) <> 0 -> snd (h_adjust_tail f d) = f;
  adjust_tail_done f d :
    fst (h_adjust_tail f d) = 0 ->
    zlen (f_data (snd (h_adjust_tail f d))) = zlen (f_data f) + d
    /\ f_head (snd (h_adjust_tail f d)) = f_head f
    /\ take (Z.to_nat (Z.min (zlen (f_data f)) (zlen (f_data f) + d))) (f_data (snd (h_adjust_tail f d)))
       = take (Z.to_nat (Z.min (zlen (f_data f)) (zlen (f_data f) + d))) (f_data f)
    /\ (frame_ok f -> frame_ok (snd (h_adjust_tail f d)));
  ktime_range n : is_u64 (h_ktime n);
  cpu_range : is_u32 h_cpu
}.

Section helpers.
Context {E : Type} {H : XdpHelpers}.

Definition adjust_head (delta : Z) : xdp E Z := fun s =>
  let '(r, f) := h_adjust_head (x_frame s) delta in
  Some (r, Xst f (x_env s) (x_tick s)).
Definition adjust_tail (delta : Z) : xdp E Z := fun s =>
  let '(r, f) := h_adjust_tail (x_frame s) delta in
  Some (r, Xst f (x_env s) (x_tick s)).
Definition ktime_get_ns : xdp E Z := fun s =>
  Some (h_ktime (x_tick s), Xst (x_frame s) (x_env s) (S (x_tick s))).
End helpers.

(** ** Memory safety as a judgement

    [fits L m Q]: started on a packet of [L] bytes, [m] never accesses a byte
    outside the packet, and its result [a] and the length [L'] of the packet
    when it returns satisfy [Q a L'].  It is what the kernel's verifier
    establishes of a program, and it contains totality: [m] returns. *)

Section fits.
Context {E : Type}.
Implicit Types (L : Z).

Definition fits {A} (L : Z) (m : xdp E A) (Q : A -> Z -> Prop) : Prop :=
  forall s, frame_ok (x_frame s) -> zlen (f_data (x_frame s)) = L ->
  match m s with
  | Some (a, s') => frame_ok (x_frame s') /\ Q a (zlen (f_data (x_frame s')))
  | None => False
  end.

Lemma fits_ret {A} L (a : A) (Q : A -> Z -> Prop) : Q a L -> fits L (mret a) Q.
Proof. intros HQ s Hs HL. simpl. now rewrite HL. Qed.

Lemma fits_bind {A B} L (m : xdp E A) (k : A -> xdp E B) Q :
  fits L m (fun a L' => fits L' (k a) Q) -> fits L (m ≫= k) Q.
Proof.
  intros Hm s Hs HL. specialize (Hm s Hs HL).
  change ((m ≫= k) s) with (match m s with Some (a, s') => k a s' | None => None end).
  destruct (m s) as [[a s']|]; [|done]. destruct Hm as [Hs' Hk]. now apply Hk.
Qed.

Lemma fits_fmap {A B} L (f : A -> B) (m : xdp E A) Q :
  fits L m (fun a L' => Q (f a) L') -> fits L (f <$> m) Q.
Proof.
  intros Hm s Hs HL. specialize (Hm s Hs HL).
  change ((f <$> m) s) with (match m s with Some (a, s') => Some (f a, s') | None => None end).
  destruct (m s) as [[a s']|]; done.
Qed.

Lemma fits_weaken {A} L (m : xdp E A) (P Q : A -> Z -> Prop) :
  fits L m P -> (forall a L', P a L' -> Q a L') -> fits L m Q.
Proof.
  intros Hm HPQ s Hs HL. specialize (Hm s Hs HL).
  destruct (m s) as [[a s']|]; [|done]. destruct Hm; auto.
Qed.

Lemma fits_asks {A} L (f : E -> A) (Q : A -> Z -> Prop) :
  (forall a, Q a L) -> fits L (asks f) Q.
Proof. intros HQ s Hs HL. simpl. rewrite HL. auto. Qed.

Lemma fits_modify L f (Q : unit -> Z -> Prop) : Q tt L -> fits L (modify f) Q.
Proof. intros HQ s Hs HL. simpl. rewrite HL. auto. Qed.

Lemma fits_data_len L (Q : Z -> Z -> Prop) : Q L L -> fits L data_len Q.
Proof. intros HQ s Hs HL. simpl. rewrite HL. auto. Qed.

Lemma fits_load L n off (Q : list Z -> Z -> Prop) :
  0 <= off -> off + Z.of_nat n <= L ->
  (forall bs, bytes_ok bs -> length bs = n -> Q bs L) ->
  fits L (load n off) Q.
Proof.
  intros H0 H1 HQ s Hs HL. unfold load. destruct (slice off n (f_data (x_frame s))) as [bs|] eqn:Hb.
  - split; [done|]. rewrite HL. apply HQ.
    + eapply slice_ok; [|exact Hb]. apply Hs.
    + now apply slice_inv in Hb.
  - rewrite slice_some in Hb by lia. done.
Qed.

Lemma fits_store L off bs (Q : unit -> Z -> Prop) :
  0 <= off -> off + zlen bs <= L -> bytes_ok bs -> Q tt L ->
  fits L (store off bs) Q.
Proof.
  intros H0 H1 Hb HQ s (Hh & Hd & Ht) HL. unfold store.
  rewrite splice_some by lia. simpl. split.
  - repeat split; [done| |done]. cbn [f_data]. unfold bytes_ok in *.
    rewrite !Forall_app. repeat split; auto using Forall_take, Forall_drop.
  - revert HQ. unfold zlen in *.
    rewrite !length_app, length_take, length_drop.
    replace (Z.of_nat _) with L by lia. done.
Qed.

Lemma fits_load_int L n off (Q : Z -> Z -> Prop) :
  0 <= off -> off + Z.of_nat n <= L ->
  (forall x, 0 <= x < 256 ^ Z.of_nat n -> Q x L) ->
  fits L (bs ← load n off; mret (le_join bs)) Q.
Proof.
  intros H0 H1 HQ. apply fits_bind, fits_load; [done..|].
  intros bs Hb Hl. apply fits_ret, HQ. rewrite <- Hl. now apply le_join_range.
Qed.

Lemma fits_load8 L off (Q : Z -> Z -> Prop) :
  0 <= off -> off + 1 <= L -> (forall x, is_u8 x -> Q x L) -> fits L (load8 off) Q.
Proof. intros. apply fits_load_int; auto. Qed.
Lemma fits_load16 L off (Q : Z -> Z -> Prop) :
  0 <= off -> off + 2 <= L -> (forall x, is_u16 x -> Q x L) -> fits L (load16 off) Q.
Proof. intros. apply fits_load_int; auto. Qed.
Lemma fits_load32 L off (Q : Z -> Z -> Prop) :
  0 <= off -> off + 4 <= L -> (forall x, is_u32 x -> Q x L) -> fits L (load32 off) Q.
Proof. intros. apply fits_load_int; auto. Qed.
Lemma fits_load64 L off (Q : Z -> Z -> Prop) :
  0 <= off -> off + 8 <= L -> (forall x, is_u64 x -> Q x L) -> fits L (load64 off) Q.
Proof. intros. apply fits_load_int; auto. Qed.

Lemma fits_store_int L n off x (Q : unit -> Z -> Prop) :
  0 <= off -> off + Z.of_nat n <= L -> Q tt L -> fits L (store off (le_split n x)) Q.
Proof.
  intros. apply fits_store; auto using le_split_ok. unfold zlen. now rewrite length_le_split.
Qed.
Lemma fits_store8 L off x (Q : unit -> Z -> Prop) :
  0 <= off -> off + 1 <= L -> Q tt L -> fits L (store8 off x) Q.
Proof. intros. now apply fits_store_int. Qed.
Lemma fits_store16 L off x (Q : unit -> Z -> Prop) :
  0 <= off -> off + 2 <= L -> Q tt L -> fits L (store16 off x) Q.
Proof. intros. now apply fits_store_int. Qed.
Lemma fits_store32 L off x (Q : unit -> Z -> Prop) :
  0 <= off -> off + 4 <= L -> Q tt L -> fits L (store32 off x) Q.
Proof. intros. now apply fits_store_int. Qed.

Lemma fits_move L dst src n (Q : unit -> Z -> Prop) :
  0 <= dst -> dst + Z.of_nat n <= L -> 0 <= src -> src + Z.of_nat n <= L -> Q tt L ->
  fits L (move dst src n) Q.
Proof.
  intros. apply fits_bind, fits_load; [done..|]. intros bs Hb Hl.
  apply fits_store; auto. unfold zlen. lia.
Qed.

Lemma fits_when L b m (Q : unit -> Z -> Prop) :
  (b = true -> fits L m Q) -> (b = false -> Q tt L) -> fits L (when b m) Q.
Proof. destruct b; simpl; [auto|]. intros _ HQ. apply fits_ret. auto. Qed.

Lemma fits_if {A} L (b : bool) (m1 m2 : xdp E A) Q :
  (b = true -> fits L m1 Q) -> (b = false -> fits L m2 Q) ->
  fits L (if b then m1 else m2) Q.
Proof. destruct b; auto. Qed.

Lemma fits_lift {A} L (o : option A) (Q : A -> Z -> Prop) :
  (exists a, o = Some a /\ Q a L) -> fits L (lift o) Q.
Proof. intros (a & -> & HQ) s Hs HL. simpl. now rewrite HL. Qed.

Context {H : XdpHelpers} {HL : XdpHelperLaws H}.

Lemma shift_head_ok f d : frame_ok f -> frame_ok (shift_head f d).
Proof.
  intros (Hh & Hd & Ht). unfold shift_head. unfold frame_ok, bytes_ok in *.
  destruct (0 <=? d); simpl; rewrite ?Forall_app;
    repeat split; auto using Forall_take, Forall_drop.
Qed.

Lemma zlen_shift_head f d :
  - d <= zlen (f_head f) -> d <= zlen (f_data f) ->
  zlen (f_data (shift_head f d)) = zlen (f_data f) - d.
Proof.
  unfold shift_head, zlen. intros ? ?. destruct (Z.leb_spec 0 d); simpl;
    rewrite ?length_app, length_drop; lia.
Qed.

Lemma fits_adjust_head L d (Q : Z -> Z -> Prop) :
  (0 <= L - d -> Q 0 (L - d)) -> (forall r, r <> 0 -> Q r L) ->
  fits L (adjust_head d) Q.
Proof.
  intros H0 H1 s Hs HLs. unfold adjust_head.
  destruct (h_adjust_head (x_frame s) d) as [r f] eqn:Heq.
  destruct (decide (r = 0)) as [->|Hr].
  - destruct (adjust_head_done (x_frame s) d) as (Hf & ? & ?); [now rewrite Heq|].
    rewrite Heq in Hf. simpl in Hf. subst f. simpl.
    split; [now apply shift_head_ok|]. rewrite zlen_shift_head, HLs by done.
    apply H0. lia.
  - pose proof (adjust_head_fail (x_frame s) d) as Hf. rewrite Heq in Hf. simpl in Hf.
    rewrite (Hf Hr). simpl. rewrite HLs. auto.
Qed.

Lemma fits_adjust_tail L d (Q : Z -> Z -> Prop) :
  (0 <= L + d -> Q 0 (L + d)) -> (forall r, r <> 0 -> Q r L) ->
  fits L (adjust_tail d) Q.
Proof.
  intros H0 H1 s Hs HLs. unfold adjust_tail.
  destruct (h_adjust_tail (x_frame s) d) as [r f] eqn:Heq.
  destruct (decide (r = 0)) as [->|Hr].
  - destruct (adjust_tail_done (x_frame s) d) as (Hf & _ & _ & Hok); [now rewrite Heq|].
    rewrite Heq in Hf, Hok. simpl in Hf, Hok |- *. split; [auto|].
    rewrite Hf, HLs. apply H0. unfold zlen in *. lia.
  - pose proof (adjust_tail_fail (x_frame s) d) as Hf. rewrite Heq in Hf. simpl in Hf.
    rewrite (Hf Hr). simpl. rewrite HLs. auto.
Qed.

Lemma fits_ktime L (Q : Z -> Z -> Prop) :
  (forall t, is_u64 t -> Q t L) -> fits L ktime_get_ns Q.
Proof. intros HQ s Hs HLs. simpl. rewrite HLs. split; [done|]. apply HQ, ktime_range. Qed.
End fits.

(** One step of a proof of [fits]; the side conditions are bounds. *)
Ltac fits_bound := unfold is_u8, is_u16, is_u32, is_u64, zlen in *; simpl length in *; lia.
(** Branches on the result of a helper that the case at hand excludes. *)
Ltac fits_contra :=
  try lazymatch goal with
  | H : nz 0 = true |- _ => discriminate H
  | H : ?r <> 0, H' : nz ?r = false |- _ => exfalso; apply H; now apply nz_false
  end.
Ltac fits_atom :=
  lazymatch goal with
  | |- fits _ (mret _) _ => apply fits_ret
  | |- fits _ (_ ≫= _) _ => apply fits_bind
  | |- fits _ (_ <$> _) _ => apply fits_fmap
  | |- fits _ (asks _) _ => apply fits_asks; intros ?
  | |- fits _ get_env _ => apply fits_asks; intros ?
  | |- fits _ (modify _) _ => apply fits_modify
  | |- fits _ data_len _ => apply fits_data_len
  | |- fits _ (load8 _) _ => apply fits_load8; [try fits_bound..|intros ? ?]
  | |- fits _ (load16 _) _ => apply fits_load16; [try fits_bound..|intros ? ?]
  | |- fits _ (load32 _) _ => apply fits_load32; [try fits_bound..|intros ? ?]
  | |- fits _ (load64 _) _ => apply fits_load64; [try fits_bound..|intros ? ?]
  | |- fits _ (load _ _) _ => apply fits_load; [try fits_bound..|intros ? ? ?]
  | |- fits _ (store8 _ _) _ => apply fits_store8; [try fits_bound..|]
  | |- fits _ (store16 _ _) _ => apply fits_store16; [try fits_bound..|]
  | |- fits _ (store32 _ _) _ => apply fits_store32; [try fits_bound..|]
  | |- fits _ (store _ _) _ => apply fits_store; [try fits_bound..|]
  | |- fits _ (move _ _ _) _ => apply fits_move; [try fits_bound..|]
  | |- fits _ (when _ _) _ => apply fits_when; intros ?
  | |- fits _ (if ?b then _ else _) _ =>
      first [apply fits_if; intros ?; fits_contra | destruct b eqn:?]
  | |- fits _ (lift _) _ => apply fits_lift
  | |- fits _ (adjust_head _) _ => apply fits_adjust_head; [intros ?|intros ? ?]
  | |- fits _ (adjust_tail _) _ => apply fits_adjust_tail; [intros ?|intros ? ?]
  | |- fits _ ktime_get_ns _ => apply fits_ktime; intros ? ?
  | |- fits _ (match ?x with _ => _ end) _ => destruct x eqn:?
  end.
Ltac fits_step := fits_atom; cbv beta zeta.
Ltac fits_auto := repeat (cbv beta zeta; fits_step).
