(* ===== verification/OnesComplement.v ===== *)
(** * One's complement arithmetic

    The Internet checksum (RFC 1071) is a sum of 16-bit words modulo 65535.
    This file gives the congruence, the sum of the words of a byte list, the
    check a receiver makes, and the lemmas by which the checksum routines of the
    repository (katran's [csum_fold_helper], the runtime's [do_csum], the load
    balancer's [csum_reduce_helper], xdping's [csum_fold_helper]) are related to
    that sum. *)
From Stdlib Require Import ZArith Lia Setoid Morphisms.
From stdpp Require Import base numbers list.
From S2P Require Import Prelude Xdp.
#[local] Open Scope Z_scope.

(** ** Congruence modulo 65535 *)

Definition oc (a b : Z) : Prop := a mod 65535 = b mod 65535.
Infix "=oc" := oc (at level 70) : Z_scope.

#[global] Instance oc_equiv : Equivalence oc.
Proof. split; unfold oc; congruence. Qed.
#[global] Instance oc_add : Proper (oc ==> oc ==> oc) Z.add.
Proof. intros a a' Ha b b' Hb. unfold oc in *. zlia. Qed.
#[global] Instance oc_sub : Proper (oc ==> oc ==> oc) Z.sub.
Proof. intros a a' Ha b b' Hb. unfold oc in *. zlia. Qed.
#[global] Instance oc_mul : Proper (oc ==> oc ==> oc) Z.mul.
Proof.
  intros a a' Ha b b' Hb. unfold oc in *.
  now rewrite (Z.mul_mod a b), (Z.mul_mod a' b'), Ha, Hb by lia.
Qed.

Lemma oc_65536 x : 65536 * x =oc x.
Proof. unfold oc. zlia. Qed.
Lemma oc_2_32 x : 4294967296 * x =oc x.
Proof. unfold oc. zlia. Qed.

(** Two folded sums that are congruent are equal unless they are the two zeros. *)
Lemma oc_folded a b :
  0 <= a <= 65535 -> 0 <= b <= 65535 -> a =oc b -> (a = 0 <-> b = 0) -> a = b.
Proof. unfold oc. intros. zlia. Qed.

(** ** The sum of a byte list *)

(** The sum of the 16-bit words of [bs], in memory order; an odd last byte
    counts as a word whose second byte is zero. *)
Fixpoint sum16 (bs : list Z) : Z :=
  match bs with
  | [] => 0
  | [b] => b
  | b1 :: b2 :: bs' => b1 + 256 * b2 + sum16 bs'
  end.

(** The check of RFC 1071: the words, checksum included, sum to minus zero. *)
Definition csum_ok (bs : list Z) : Prop := sum16 bs mod 65535 = 0 /\ 0 < sum16 bs.

(** Induction on a list two elements at a time. *)
Lemma list_pair_ind {A} (P : list A -> Prop) :
  P [] -> (forall a, P [a]) -> (forall a b l, P l -> P (a :: b :: l)) -> forall l, P l.
Proof.
  intros H0 H1 H2. fix IH 1. intros [|a [|b l]]; [exact H0|exact (H1 a)|].
  apply H2, IH.
Qed.

Lemma sum16_nonneg bs : bytes_ok bs -> 0 <= sum16 bs.
Proof.
  induction bs as [|a|a b bs IH] using list_pair_ind; simpl; [lia| |];
    unfold bytes_ok; rewrite ?Forall_cons; unfold is_u8.
  - lia.
  - intros (? & ? & ?). specialize (IH ltac:(assumption)). lia.
Qed.

Lemma sum16_le_join bs : sum16 bs =oc le_join bs.
Proof.
  induction bs as [|a|a b bs IH] using list_pair_ind; [done| |].
  - simpl. now rewrite Z.mul_0_r, Z.add_0_r.
  - change (sum16 (a :: b :: bs)) with (a + 256 * b + sum16 bs). simpl le_join.
    rewrite IH. unfold oc. zlia.
Qed.

Lemma sum16_app_even l1 l2 :
  Nat.Even (length l1) -> sum16 (l1 ++ l2) = sum16 l1 + sum16 l2.
Proof.
  induction l1 as [|a|a b l1 IH] using list_pair_ind; intros Hev.
  - done.
  - exfalso. destruct Hev as [k Hk]. simpl in Hk. lia.
  - assert (Nat.Even (length l1)) as Hev'.
    { destruct Hev as [k Hk]. exists (k - 1)%nat. simpl in Hk. lia. }
    specialize (IH Hev'). simpl app.
    change (sum16 (a :: b :: l1 ++ l2)) with (a + 256 * b + sum16 (l1 ++ l2)).
    change (sum16 (a :: b :: l1)) with (a + 256 * b + sum16 l1). lia.
Qed.

Lemma le_join_app l1 l2 :
  le_join (l1 ++ l2) = le_join l1 + 256 ^ Z.of_nat (length l1) * le_join l2.
Proof.
  induction l1 as [|b l1 IH]; simpl le_join; simpl length; [lia|].
  rewrite IH, Nat2Z.inj_succ, Z.pow_succ_r by lia. ring.
Qed.

(** A sum over bytes is an upper bound for the word sum; it is zero only when
    every byte is. *)
Lemma sum16_zero bs : bytes_ok bs -> sum16 bs = 0 -> Forall (fun b => b = 0) bs.
Proof.
  induction bs as [|a|a b bs IH] using list_pair_ind; simpl; [constructor| |];
    unfold bytes_ok; rewrite ?Forall_cons; unfold is_u8.
  - intros (? & ?) ?. split; [lia|constructor].
  - intros (? & ? & Hbs) Hs. pose proof (sum16_nonneg bs Hbs).
    split; [lia|]. split; [lia|]. apply IH; [done|lia].
Qed.

Lemma sum16_bound bs :
  bytes_ok bs -> sum16 bs <= 65535 * ((Z.of_nat (length bs) + 1) / 2).
Proof.
  induction bs as [|a|a b bs IH] using list_pair_ind; simpl length; simpl sum16.
  - intros _. done.
  - unfold bytes_ok; rewrite Forall_cons; unfold is_u8. intros (? & _).
    change ((Z.of_nat 1 + 1) / 2) with 1. lia.
  - unfold bytes_ok; rewrite !Forall_cons; unfold is_u8. intros (? & ? & Hbs).
    specialize (IH Hbs). change (sum16 (a :: b :: bs)) with (a + 256 * b + sum16 bs).
    rewrite !Nat2Z.inj_succ. zlia.
Qed.

(** ** Folding *)

(** One end-around carry: [(x & 0xffff) + (x >> 16)]. *)
Definition fold16 (x : Z) : Z := Z.land x 65535 + Z.shiftr x 16.

Lemma fold16_arith x : fold16 x = x mod 65536 + x / 65536.
Proof. unfold fold16. now rewrite land_u16, shiftr_16. Qed.

Lemma fold16_oc x : fold16 x =oc x.
Proof. rewrite fold16_arith. unfold oc. zlia. Qed.

Lemma fold16_nonneg x : 0 <= x -> 0 <= fold16 x.
Proof. intros. rewrite fold16_arith. zlia. Qed.

Lemma fold16_zero x : 0 <= x -> fold16 x = 0 <-> x = 0.
Proof. intros. rewrite fold16_arith. zlia. Qed.

Lemma fold16_bound x n : 0 <= x < 65536 * n -> fold16 x < 65536 + n.
Proof. intros. rewrite fold16_arith. zlia. Qed.

(** The one's complement sum of [x]: the canonical folded value, 0 only for 0. *)
Definition oc_norm (x : Z) : Z := if x =? 0 then 0 else (x - 1) mod 65535 + 1.

Lemma oc_norm_spec x r :
  0 <= x -> 0 <= r <= 65535 -> r =oc x -> (r = 0 <-> x = 0) -> r = oc_norm x.
Proof.
  intros Hx Hr Hoc Hz. unfold oc_norm. destruct (Z.eqb_spec x 0) as [->|Hn].
  - apply Hz. done.
  - unfold oc in Hoc. assert (r <> 0) by (intros ->; apply Hn, Hz; done). zlia.
Qed.

Lemma oc_norm_range x : 0 <= oc_norm x <= 65535.
Proof. unfold oc_norm. destruct (x =? 0); zlia. Qed.

Lemma oc_norm_oc x : oc_norm x =oc x.
Proof. unfold oc_norm, oc. destruct (Z.eqb_spec x 0) as [->|]; zlia. Qed.

(** A checksum field that holds the complement of the folded sum of the other
    words makes the whole sum check. *)
Lemma complement_checks s : 0 < s -> (s + (65535 - oc_norm s)) mod 65535 = 0.
Proof.
  intros. pose proof (oc_norm_oc s). unfold oc in *. zlia.
Qed.

(** ** Partial sums

    [rep x s]: the accumulator [x] stands for the sum [s], that is, it is
    congruent to it and is zero only when it is. *)
Definition rep (x s : Z) : Prop := 0 <= x /\ 0 <= s /\ x =oc s /\ (x = 0 <-> s = 0).

Lemma rep_refl x : 0 <= x -> rep x x.
Proof. repeat split; auto; lia. Qed.
Lemma rep_add x y s t : rep x s -> rep y t -> rep (x + y) (s + t).
Proof. unfold rep, oc. intros. zlia. Qed.
Lemma rep_trans x y z : rep x y -> rep y z -> rep x z.
Proof. unfold rep, oc. intros. zlia. Qed.
Lemma rep_fold16 x s : rep x s -> rep (fold16 x) s.
Proof.
  intros (H0 & H1 & H2 & H3). pose proof (fold16_oc x). pose proof (fold16_zero x H0).
  pose proof (fold16_nonneg x H0). unfold rep, oc in *. lia.
Qed.
Lemma rep_mul x s k : 0 < k -> k =oc 1 -> rep x s -> rep x (k * s).
Proof.
  intros Hk Hoc (H0 & H1 & H2 & H3). split; [done|]. split; [nia|]. split.
  - rewrite Hoc, H2. now rewrite Z.mul_1_l.
  - nia.
Qed.
Lemma rep_norm x s : rep x s -> x <= 65535 -> x = oc_norm s.
Proof. intros (H0 & H1 & H2 & H3) ?. apply oc_norm_spec; auto. Qed.

Lemma pow_256_even n : 256 ^ Z.of_nat (2 * n) =oc 1.
Proof.
  induction n as [|n IH]; [done|].
  replace (Z.of_nat (2 * S n)) with (2 + Z.of_nat (2 * n)) by lia.
  rewrite Z.pow_add_r by lia. change (256 ^ 2) with 65536. now rewrite oc_65536.
Qed.

Lemma rep_app x y l1 l2 :
  rep x (le_join l1) -> rep y (le_join l2) -> Nat.Even (length l1) ->
  rep (x + y) (le_join (l1 ++ l2)).
Proof.
  intros Hx Hy [k Hk]. rewrite le_join_app, Hk. apply rep_add; [done|].
  apply rep_mul; [lia|apply pow_256_even|done].
Qed.

Lemma le_join_nonneg bs : bytes_ok bs -> 0 <= le_join bs.
Proof. intros H. apply le_join_range in H. lia. Qed.

Lemma rep_sum16 bs : bytes_ok bs -> rep (sum16 bs) (le_join bs).
Proof.
  intros Hb. split; [now apply sum16_nonneg|]. split; [now apply le_join_nonneg|].
  split; [apply sum16_le_join|].
  induction bs as [|a|a b bs IH] using list_pair_ind; [done|simpl; lia|].
  change (sum16 (a :: b :: bs)) with (a + 256 * b + sum16 bs). simpl le_join.
  unfold bytes_ok in Hb. rewrite !Forall_cons in Hb. unfold is_u8 in Hb.
  destruct Hb as (? & ? & Hbs). specialize (IH Hbs).
  pose proof (sum16_nonneg bs Hbs). pose proof (le_join_nonneg bs Hbs). lia.
Qed.

Lemma oc_norm_rep x s : rep x s -> oc_norm x = oc_norm s.
Proof.
  intros (H0 & H1 & H2 & H3). apply oc_norm_spec; [done|apply oc_norm_range| |].
  - now rewrite oc_norm_oc.
  - rewrite <- H3. unfold oc_norm. destruct (Z.eqb_spec x 0); [lia|]. zlia.
Qed.

(** A single fold of a 32-bit sum, complemented: the checksum that several sample
    programs store.  It is right unless the fold itself carries. *)
Definition one_fold_check (x : Z) : Z := u16 (Z.lnot (fold16 x)).

Lemma one_fold_checks x s :
  rep x s -> is_u32 x -> 0 < s -> (s + one_fold_check x) mod 65535 = 0 <-> fold16 x <= 65535.
Proof.
  intros (H0 & H1 & H2 & H3) Hx Hs. unfold is_u32 in Hx. unfold one_fold_check.
  pose proof (fold16_oc x) as Hf. pose proof (fold16_nonneg x H0). pose proof (fold16_arith x) as Ha.
  assert (fold16 x <= 131070) by zlia. assert (0 < fold16 x) by zlia.
  rewrite lnot_arith. unfold u16, oc in *. split; intros; zlia.
Qed.
Lemma one_fold_check_range x : 0 <= one_fold_check x <= 65535.
Proof. unfold one_fold_check. pose proof (u16_range (Z.lnot (fold16 x))) as H. unfold is_u16 in H. lia. Qed.

(** Two folds of a 32-bit sum are enough. *)
Lemma two_folds_norm x s : rep x s -> is_u32 x -> u16 (Z.lnot (fold16 (u32 (fold16 x)))) = 65535 - oc_norm s.
Proof.
  intros Hr Hx. destruct Hr as (H0 & Hrest). unfold is_u32 in Hx.
  assert (Hb : 0 <= fold16 x <= 131070) by (rewrite fold16_arith; zlia).
  rewrite (u32_id (fold16 x)) by (unfold is_u32; lia).
  assert (Hb2 : 0 <= fold16 (fold16 x) <= 65535) by (rewrite (fold16_arith (fold16 x)); zlia).
  rewrite (rep_norm (fold16 (fold16 x)) s) by (lia || now apply rep_fold16, rep_fold16).
  pose proof (oc_norm_range s). rewrite lnot_arith. unfold u16. zlia.
Qed.

(** ** [bpf_csum_diff]

    The documented behaviour of the helper that the checksum code of the XDP
    programs is built on: for buffers whose sizes are multiples of four and fit
    the kernel's scratch pad it returns a 32-bit partial sum, otherwise a
    negative error. *)
Definition csum_diff_sizes (from to : list Z) : Prop :=
  zlen from mod 4 = 0 /\ zlen to mod 4 = 0 /\ zlen from + zlen to <= 512.

Class CsumDiffLaws (H : XdpHelpers) : Prop := {
  csum_diff_done from to seed :
    bytes_ok from -> bytes_ok to -> is_u32 seed -> csum_diff_sizes from to ->
    is_u32 (h_csum_diff from to seed)
    /\ h_csum_diff from to seed =oc seed - sum16 from + sum16 to;
  csum_diff_zero to seed :
    bytes_ok to -> is_u32 seed -> csum_diff_sizes [] to ->
    h_csum_diff [] to seed = 0 <-> seed + sum16 to = 0;
  csum_diff_fail from to seed :
    ~ csum_diff_sizes from to -> h_csum_diff from to seed < 0
}.

Lemma sum16_complement bs :
  Nat.Even (length bs) -> sum16 (map (fun b => 255 - b) bs) =oc - sum16 bs.
Proof.
  induction bs as [|a|a b bs IH] using list_pair_ind; intros Hev; [done| |].
  - exfalso. destruct Hev as [k Hk]. simpl in Hk. lia.
  - assert (Nat.Even (length bs)) as Hev'.
    { destruct Hev as [k Hk]. exists (k - 1)%nat. simpl in Hk. lia. }
    specialize (IH Hev'). simpl map.
    change (sum16 (255 - a :: 255 - b :: map (fun b => 255 - b) bs))
      with (255 - a + 256 * (255 - b) + sum16 (map (fun b => 255 - b) bs)).
    change (sum16 (a :: b :: bs)) with (a + 256 * b + sum16 bs).
    rewrite IH. unfold oc. zlia.
Qed.

Lemma even_of_mod4 bs : zlen bs mod 4 = 0 -> Nat.Even (length bs).
Proof.
  unfold zlen. intros H. exists (Z.to_nat (Z.of_nat (length bs) / 2)). zlia.
Qed.
