(* ===== verification/XdpRun.v ===== *)
(** * Exact runs

    Where [fits] bounds a program, [runs] says what it computes: the result and
    the state it ends in, on a packet whose first bytes are given one by one.
    The tactic [xrun] executes a straight-line program step by step; it reduces
    only list operations and never the arithmetic on packet bytes. *)
From Stdlib Require Import ZArith Lia.
From stdpp Require Import base numbers list option.
From S2P Require Import Prelude Xdp OnesComplement.
#[local] Open Scope Z_scope.

Definition runs {E A} (s : xst E) (m : xdp E A) (a : A) (s' : xst E) : Prop := m s = Some (a, s').

Definition set_data {E} (s : xst E) (d : list Z) : xst E :=
  Xst (Frame (f_head (x_frame s)) d (f_tail (x_frame s))) (x_env s) (x_tick s).

Section runs.
Context {E : Type}.
Implicit Types s : xst E.

Lemma runs_ret {A} s (a : A) : runs s (mret a) a s.
Proof. done. Qed.
Lemma runs_bind {A B} s s1 s2 (m : xdp E A) (k : A -> xdp E B) a b :
  runs s m a s1 -> runs s1 (k a) b s2 -> runs s (m ≫= k) b s2.
Proof.
  unfold runs. intros Hm Hk.
  change ((m ≫= k) s) with (match m s with Some (a, s') => k a s' | None => None end).
  now rewrite Hm.
Qed.
Lemma runs_data_len s : runs s data_len (zlen (f_data (x_frame s))) s.
Proof. done. Qed.
Lemma runs_asks {A} s (f : E -> A) : runs s (asks f) (f (x_env s)) s.
Proof. done. Qed.
Lemma runs_modify s f : runs s (modify f) tt (Xst (x_frame s) (f (x_env s)) (x_tick s)).
Proof. done. Qed.
Lemma runs_load s n off bs :
  slice off n (f_data (x_frame s)) = Some bs -> runs s (load n off) bs s.
Proof. intros Hs. unfold runs, load. now rewrite Hs. Qed.
Lemma runs_load8 s off bs :
  slice off 1 (f_data (x_frame s)) = Some bs -> runs s (load8 off) (le_join bs) s.
Proof. intros Hs. unfold load8. eapply runs_bind; [eapply runs_load, Hs|apply runs_ret]. Qed.
Lemma runs_load16 s off bs :
  slice off 2 (f_data (x_frame s)) = Some bs -> runs s (load16 off) (le_join bs) s.
Proof. intros Hs. unfold load16. eapply runs_bind; [eapply runs_load, Hs|apply runs_ret]. Qed.
Lemma runs_load32 s off bs :
  slice off 4 (f_data (x_frame s)) = Some bs -> runs s (load32 off) (le_join bs) s.
Proof. intros Hs. unfold load32. eapply runs_bind; [eapply runs_load, Hs|apply runs_ret]. Qed.
Lemma runs_store hd d tl e k off bs d' :
  splice off bs d = Some d' ->
  runs (Xst (Frame hd d tl) e k) (store off bs) tt (Xst (E := E) (Frame hd d' tl) e k).
Proof. intros Hs. unfold runs, store. cbn [x_frame f_data]. now rewrite Hs. Qed.
Lemma runs_move hd d tl e k dst src n bs d' :
  slice src n d = Some bs -> splice dst bs d = Some d' ->
  runs (Xst (Frame hd d tl) e k) (move dst src n) tt (Xst (E := E) (Frame hd d' tl) e k).
Proof.
  intros Hs Hd. unfold move. eapply runs_bind; [eapply runs_load, Hs|now apply runs_store].
Qed.
Lemma runs_if {A} s (b : bool) (m1 m2 : xdp E A) a s' b' :
  b = b' -> runs s (if b' then m1 else m2) a s' -> runs s (if b then m1 else m2) a s'.
Proof. now intros ->. Qed.
Lemma runs_eq {A} s (m : xdp E A) a s1 s2 : runs s m a s1 -> s1 = s2 -> runs s m a s2.
Proof. now intros ? <-. Qed.

Lemma runs_val {A} s (m : xdp E A) a b s' : runs s m a s' -> a = b -> runs s m b s'.
Proof. now intros ? <-. Qed.

(** Reads behind a prefix of known length, and the guard of [need]. *)
Lemma slice_at pre x off n : zlen pre = off -> slice off n (pre ++ x) = slice 0 n x.
Proof. intros <-. rewrite slice_app_ge by lia. f_equal. lia. Qed.
Lemma slice_at_plus pre x off k n :
  zlen pre = off -> 0 <= k -> slice (off + k) n (pre ++ x) = slice k n x.
Proof. intros <- Hk. rewrite slice_app_ge by lia. f_equal. lia. Qed.
Lemma slice_between d pre mid rest off n :
  d = pre ++ mid ++ rest -> zlen pre = off -> length mid = n -> slice off n d = Some mid.
Proof.
  intros -> Hp <-. rewrite slice_at by done. unfold slice. cbv zeta.
  change (0 <? 0) with false. cbv iota. change (drop (Z.to_nat 0) (mid ++ rest)) with (mid ++ rest).
  now rewrite take_app_length, Nat.eqb_refl.
Qed.
Lemma run_need {A} s n (r : A) (k : xdp E A) a s' :
  n <= zlen (f_data (x_frame s)) -> runs s k a s' -> runs s (need n else r ;; k) a s'.
Proof.
  intros Hn Hk. eapply runs_bind; [apply runs_data_len|]. cbv beta.
  destruct (Z.ltb_spec (zlen (f_data (x_frame s))) n); [lia|done].
Qed.

(** One byte read as a number. *)
Lemma le_join_nth n l : (n < length l)%nat -> le_join (take 1 (drop n l)) = nth n l 0.
Proof.
  intros Hn. revert l Hn. induction n as [|n IH]; intros [|x l] Hn; simpl in Hn; try lia.
  - cbn [take drop nth le_join]. now destruct l; cbn [take le_join]; rewrite Z.mul_0_r, Z.add_0_r.
  - cbn [drop nth]. apply IH. lia.
Qed.

(** [need] when the packet is too short. *)
Lemma run_need_short {A} s n (r : A) (k : xdp E A) :
  zlen (f_data (x_frame s)) < n -> runs s (need n else r ;; k) r s.
Proof.
  intros Hn. eapply runs_bind; [apply runs_data_len|]. cbv beta.
  destruct (Z.ltb_spec (zlen (f_data (x_frame s))) n); [apply runs_ret|lia].
Qed.

(** Reads at an offset that has been checked. *)
Lemma runs_load_at s n off :
  0 <= off -> off + Z.of_nat n <= zlen (f_data (x_frame s)) ->
  runs s (load n off) (take n (drop (Z.to_nat off) (f_data (x_frame s)))) s.
Proof. intros. apply runs_load. now apply slice_some. Qed.
Lemma runs_load8_at s off :
  0 <= off -> off + 1 <= zlen (f_data (x_frame s)) ->
  runs s (load8 off) (nth (Z.to_nat off) (f_data (x_frame s)) 0) s.
Proof.
  intros. eapply runs_val; [apply runs_load8; now apply slice_some|].
  apply le_join_nth. unfold zlen in *. lia.
Qed.
Lemma runs_load16_at s off :
  0 <= off -> off + 2 <= zlen (f_data (x_frame s)) ->
  runs s (load16 off) (le_join (take 2 (drop (Z.to_nat off) (f_data (x_frame s))))) s.
Proof. intros. apply runs_load16. now apply slice_some. Qed.
Lemma runs_load32_at s off :
  0 <= off -> off + 4 <= zlen (f_data (x_frame s)) ->
  runs s (load32 off) (le_join (take 4 (drop (Z.to_nat off) (f_data (x_frame s))))) s.
Proof. intros. apply runs_load32. now apply slice_some. Qed.

(** The first step of a run whose last state is described by [Q]. *)
Lemma runs_bind_ex {A B} s s1 (m : xdp E A) (k : A -> xdp E B) a b (Q : xst E -> Prop) :
  runs s m a s1 -> (exists s2, runs s1 (k a) b s2 /\ Q s2) ->
  exists s2, runs s (m ≫= k) b s2 /\ Q s2.
Proof. intros Hm (s2 & Hk & HQ). exists s2. split; [eapply runs_bind; eauto|done]. Qed.

Lemma runs_assoc_ex {A B D} s s1 (m1 : xdp E A) (m2 : xdp E B) (k : B -> xdp E D) a b (Q : xst E -> Prop) :
  runs s (m1 ;; m2) a s1 -> (exists s2, runs s1 (k a) b s2 /\ Q s2) ->
  exists s2, runs s (m1 ;; (m2 ≫= k)) b s2 /\ Q s2.
Proof.
  intros Hm (s2 & Hk & HQ). exists s2. split; [|done]. unfold runs in *.
  change ((m1 ;; m2) s) with (match m1 s with Some (_, s') => m2 s' | None => None end) in Hm.
  change (match m1 s with Some (_, s') => (m2 ≫= k) s' | None => None end = Some (b, s2)).
  destruct (m1 s) as [[x s']|]; [|done].
  change (match m2 s' with Some (y, s'') => k y s'' | None => None end = Some (b, s2)). now rewrite Hm.
Qed.

(** The helper that moves [data], seen through its law. *)
Lemma runs_adjust_head_done {H : XdpHelpers} {HL : XdpHelperLaws H} s d :
  (h_adjust_head (x_frame s) d).1 = 0 ->
  runs s (adjust_head d) 0 (Xst (shift_head (x_frame s) d) (x_env s) (x_tick s))
  /\ - d <= zlen (f_head (x_frame s)) /\ d <= zlen (f_data (x_frame s)).
Proof.
  intros Hr. destruct (adjust_head_done _ _ Hr) as (Hs & H1 & H2). split; [|done].
  unfold runs, adjust_head. rewrite <- Hs. destruct (h_adjust_head (x_frame s) d) as [r f].
  simpl in *. now subst r.
Qed.
Lemma runs_adjust_head_fail {H : XdpHelpers} {HL : XdpHelperLaws H} s d :
  (h_adjust_head (x_frame s) d).1 <> 0 ->
  runs s (adjust_head d) (h_adjust_head (x_frame s) d).1 s.
Proof.
  intros Hr. pose proof (adjust_head_fail _ _ Hr) as Hs. unfold runs, adjust_head.
  destruct (h_adjust_head (x_frame s) d) as [r f]. simpl in *. subst f. now destruct s.
Qed.
End runs.

(** Bytes of a concrete packet, by computation. *)
Lemma bytes_ok_check l : forallb (fun b => (0 <=? b) && (b <? 256)) l = true -> bytes_ok l.
Proof.
  induction l as [|b l IH]; simpl; [constructor|].
  intros [Hb Hl]%andb_true_iff. apply andb_true_iff in Hb as [H0 H1].
  apply Z.leb_le in H0. apply Z.ltb_lt in H1. apply bytes_ok_cons. split; [done|auto].
Qed.

(** A packet known to be long enough: [need] lets it through. *)
Lemma zlen_cons x l : zlen (x :: l) = 1 + zlen l.
Proof. unfold zlen. simpl length. lia. Qed.
Lemma zlen_nil : zlen [] = 0. Proof. done. Qed.
Lemma zlen_nonneg l : 0 <= zlen l. Proof. unfold zlen. lia. Qed.

(** Reduce accesses at closed offsets to an explicit prefix. *)
Ltac xlist :=
  cbv [splice slice set_data x_frame x_env x_tick f_head f_data f_tail le_split length take drop app
       Z.to_nat Pos.to_nat Pos.iter_op Init.Nat.add Nat.add Z.ltb Z.compare Pos.compare Pos.compare_cont
       Nat.eqb].
Ltac xoff off := let o := eval vm_compute in off in change off with o.

(** One step of a run; conditions are left to the caller. *)
Ltac xstep :=
  cbv beta zeta;
  lazymatch goal with
  | |- runs _ (mret _) _ _ => eapply runs_ret
  | |- runs _ (_ ≫= _) _ _ => eapply runs_bind
  | |- runs _ data_len _ _ => eapply runs_data_len
  | |- runs _ (asks _) _ _ => eapply runs_asks
  | |- runs _ (modify _) _ _ => eapply runs_modify
  | |- runs _ (load _ ?o) _ _ => xoff o; eapply runs_load; xlist; reflexivity
  | |- runs _ (load8 ?o) _ _ => xoff o; eapply runs_load8; xlist; reflexivity
  | |- runs _ (load16 ?o) _ _ => xoff o; eapply runs_load16; xlist; reflexivity
  | |- runs _ (load32 ?o) _ _ => xoff o; eapply runs_load32; xlist; reflexivity
  | |- runs _ (store8 ?o _) _ _ => unfold store8; xoff o; eapply runs_store; xlist; reflexivity
  | |- runs _ (store16 ?o _) _ _ => unfold store16; xoff o; eapply runs_store; xlist; reflexivity
  | |- runs _ (store32 ?o _) _ _ => unfold store32; xoff o; eapply runs_store; xlist; reflexivity
  | |- runs _ (store ?o _) _ _ => xoff o; eapply runs_store; xlist; reflexivity
  | |- runs _ (move ?d ?o _) _ _ =>
      xoff d; xoff o; eapply runs_move; [xlist; reflexivity|xlist; reflexivity]
  end.
Ltac xrun := repeat xstep.

(** The guard of [need] on a packet with an explicit prefix: it lets the run through. *)
Ltac xneed :=
  eapply runs_if;
  [ apply Z.ltb_ge; xlist; rewrite ?zlen_cons, ?zlen_nil;
    repeat match goal with |- context [zlen ?l] =>
      let H := fresh in pose proof (zlen_nonneg l) as H; revert H; generalize (zlen l); intros ? ?
    end; lia
  | cbv iota beta ].

(** The first bytes of a longer list, one by one. *)
Ltac explode l H :=
  repeat lazymatch type of H with
  | length l = S _ => destruct l as [|? l]; [discriminate H|apply (f_equal pred) in H; cbn [length pred] in H]
  | length l = O => destruct l; [clear H|discriminate H]
  end.

(** ** Parts that several programs share *)

(** The first byte of an IPv4 header, its two halves written one by one. *)
Lemma version_ihl b :
  Z.lor (Z.land (le_join [Z.lor (Z.land b 15) (Z.shiftl 4 4) mod 256]) 240) 5 mod 256 = 0x45.
Proof.
  pose proof (land_pos_range b 15 ltac:(lia)) as Ha. generalize dependent (Z.land b 15). intros a Ha.
  assert (a = 0 \/ a = 1 \/ a = 2 \/ a = 3 \/ a = 4 \/ a = 5 \/ a = 6 \/ a = 7 \/ a = 8 \/ a = 9 \/
          a = 10 \/ a = 11 \/ a = 12 \/ a = 13 \/ a = 14 \/ a = 15) as Hc by lia.
  repeat (destruct Hc as [->|Hc]; [reflexivity|]). now subst a.
Qed.

(** The frame after [bpf_xdp_adjust_head] has granted [n] bytes in front. *)
Lemma granted_head {E} (s : xst E) (n : nat) :
  Z.of_nat n <= zlen (f_head (x_frame s)) ->
  exists junk, length junk = n /\
    shift_head (x_frame s) (- Z.of_nat n)
    = Frame (take (length (f_head (x_frame s)) - n) (f_head (x_frame s)))
            (junk ++ f_data (x_frame s)) (f_tail (x_frame s)).
Proof.
  intros Hn. unfold zlen in Hn. unfold shift_head.
  destruct (Z.leb_spec 0 (- Z.of_nat n)) as [H0|H0].
  - assert (n = 0%nat) as -> by lia. exists []. split; [done|].
    rewrite Nat.sub_0_r, firstn_all. simpl. rewrite app_nil_r.
    now destruct (x_frame s).
  - exists (drop (length (f_head (x_frame s)) - n) (f_head (x_frame s))).
    rewrite length_drop, Z.opp_involutive, Nat2Z.id. split; [lia|done].
Qed.

(** The same function in the firewall, the ping program and other samples.
    @src xdp_progs/xdp_firewall.bpf.c 295-309 swap_src_dst_mac *)
Definition swap_src_dst_mac {E} : xdp E unit :=
  dst0 ← load16 0; dst1 ← load16 2; dst2 ← load16 4;
  p3 ← load16 6; store16 0 p3 ;;
  p4 ← load16 8; store16 2 p4 ;;
  p5 ← load16 10; store16 4 p5 ;;
  store16 6 dst0 ;; store16 8 dst1 ;; store16 10 dst2.

Lemma pair_low a b : is_u8 a -> is_u8 b -> le_join [a; b] mod 256 = a.
Proof. unfold is_u8. intros. cbn. zlia. Qed.
Lemma pair_high a b : is_u8 a -> is_u8 b -> (le_join [a; b] / 256) mod 256 = b.
Proof. unfold is_u8. intros. cbn. zlia. Qed.

Lemma swap_macs_runs {E} (s : xst E) m1 m2 rest :
  f_data (x_frame s) = m1 ++ m2 ++ rest -> length m1 = 6%nat -> length m2 = 6%nat ->
  bytes_ok m1 -> bytes_ok m2 ->
  runs s swap_src_dst_mac tt (set_data s (m2 ++ m1 ++ rest)).
Proof.
  intros Hd H1 H2 B1 B2. destruct s as [[hd d tl] env tk]. cbn [f_data x_frame] in Hd. subst d.
  explode m1 H1. explode m2 H2. rewrite !bytes_ok_cons in B1, B2. destruct_and?.
  unfold swap_src_dst_mac. cbn [app].
  repeat (first [eapply runs_bind; [xstep|]; cbv beta | eapply runs_eq; [xstep|]]).
  now rewrite !pair_low, !pair_high by done.
Qed.

