(* ===== verification/RuntimeHelpers.v ===== *)
(** * The runtime's implementation of the kernel helpers (module/helpers.c)

    The userspace runtime replaces [bpf_csum_diff], [bpf_xdp_adjust_head],
    [bpf_xdp_adjust_tail] and [bpf_xdp_load_bytes] by functions of its own.
    The checksum code is shown to compute the one's complement sum at every
    alignment of its buffer; the pointer arithmetic of the other helpers is
    modelled at 64 bits, wrap-around included. *)
From Stdlib Require Import ZArith Lia.
From stdpp Require Import base numbers list option.
From S2P Require Import Prelude Xdp OnesComplement.
#[local] Open Scope Z_scope.

(** ** Checksums *)

(** @src module/helpers.c 61-68 from32to16 *)
Definition from32to16 (x : Z) : Z :=
  let x := u32 (Z.land x 65535 + Z.shiftr x 16) in
  let x := u32 (Z.land x 65535 + Z.shiftr x 16) in
  u16 x.

(** The loop over 32-bit words: the accumulator, the pending carry, and the
    bytes that are left.
    @src module/helpers.c 96-105 do_csum *)
Fixpoint csum_words (bs : list Z) (result carry : Z) : Z * Z * list Z :=
  match bs with
  | b0 :: b1 :: b2 :: b3 :: bs' =>
      let w := le_join [b0; b1; b2; b3] in
      let result := u32 (result + carry) in
      let result := u32 (result + w) in
      csum_words bs' result (b2z (result <? w))
  | _ => (result, carry, bs)
  end.

(** The part of [do_csum] for [len >= 2], with the buffer at an even address:
    the accumulator and the bytes that are left.
    @src module/helpers.c 90-113 do_csum *)
Definition do_csum_even (addr : Z) (bs : list Z) (result : Z) : Z * list Z :=
  let '(result, bs) :=
    if nz (Z.land 2 addr) then (u32 (result + le_join (take 2 bs)), drop 2 bs)
    else (result, bs) in
  let len := zlen bs in
  let '(result, bs) :=
    if 4 <=? len then
      let '(result, carry, bs) := csum_words bs result 0 in
      let result := u32 (result + carry) in
      (u32 (Z.land result 65535 + Z.shiftr result 16), bs)
    else (result, bs) in
  if nz (Z.land len 2) then (u32 (result + le_join (take 2 bs)), drop 2 bs)
  else (result, bs).

(** [addr] is the address of the buffer, [bs] its [len] bytes.
    @src module/helpers.c 73-125 do_csum *)
Definition do_csum (addr : Z) (bs : list Z) : Z :=
  match bs with
  | [] => 0
  | b0 :: bs' =>
      let odd := nz (Z.land 1 addr) in
      let '(result, addr, bs) :=
        if odd then (u32 (0 + Z.shiftl b0 8), addr + 1, bs') else (0, addr, bs) in
      let '(result, bs1) :=
        if 2 <=? zlen bs then do_csum_even addr bs result else (result, bs) in
      let result :=
        if nz (Z.land (zlen bs) 1) then u32 (result + le_join (take 1 bs1)) else result in
      let result := from32to16 result in
      if odd then
        Z.lor (Z.land (Z.shiftr result 8) 255) (Z.shiftl (Z.land result 255) 8)
      else result
  end.

(** @src module/helpers.c 127-137 csum_partial *)
Definition csum_partial (addr : Z) (bs : list Z) (wsum : Z) : Z :=
  let sum := u32 wsum in
  let result := do_csum addr bs in
  let result := u32 (result + sum) in
  if result <? sum then u32 (result + 1) else result.

(** The bytes of [sp->diff]: the words of [from] complemented, then those of [to].
    @src module/helpers.c 285-288 bpftime_csum_diff_runtime *)
Definition csum_diff_words (from to : list Z) : list Z :=
  map (fun b => 255 - b) from ++ to.

Definition EINVAL : Z := 22.

(** [sp] is the address of the scratch pad on the stack; the result is the
    [uint64_t] that the function returns.
    @src module/helpers.c 263-291 bpftime_csum_diff_runtime *)
Definition bpftime_csum_diff_runtime (sp : Z) (from to : list Z) (seed : Z) : Z :=
  let diff_size := zlen from + zlen to in
  if nz (Z.land (Z.lor (zlen from) (zlen to)) 3) || (512 <? diff_size)
  then u64 (- EINVAL)
  else csum_partial sp (csum_diff_words from to) seed.

(** ** Correctness of the checksum *)

Lemma list_four_ind {A} (P : list A -> Prop) :
  (forall l, (length l < 4)%nat -> P l) ->
  (forall a b c d l, P l -> P (a :: b :: c :: d :: l)) -> forall l, P l.
Proof.
  intros H0 H1. fix IH 1. intros [|a [|b [|c [|d l]]]]; [apply H0; simpl; lia..|].
  apply H1, IH.
Qed.

(** The accumulator and its carry: a pending carry leaves room to add it. *)
Definition carry_ok (r c : Z) : Prop :=
  is_u32 r /\ 0 <= c <= 1 /\ (c = 1 -> r <= 4294967294).

Lemma carry_step r c w :
  carry_ok r c -> is_u32 w ->
  let r2 := u32 (u32 (r + c) + w) in
  carry_ok r2 (b2z (r2 <? w)) /\ rep (r2 + b2z (r2 <? w)) (r + c + w).
Proof.
  intros (Hr & Hc & Hrc) Hw r2. unfold is_u32 in *.
  assert (u32 (r + c) = r + c) as Hrc' by (apply u32_id; unfold is_u32; lia).
  assert (r2 = r + c + w - 4294967296 * b2z (r2 <? w) /\ 0 <= r2 < 4294967296) as [E Hr2].
  { unfold r2. rewrite Hrc'. unfold b2z, u32. destruct (_ <? w) eqn:E; zlia. }
  clearbody r2. unfold carry_ok, rep, oc, is_u32, b2z in *.
  destruct (r2 <? w) eqn:Hlt; zlia.
Qed.

Lemma csum_words_spec bs r c :
  bytes_ok bs -> carry_ok r c ->
  let '(r', c', rest) := csum_words bs r c in
  carry_ok r' c' /\ exists ws, bs = ws ++ rest /\ (length rest < 4)%nat
    /\ (exists k, length ws = 4 * k)%nat /\ rep (r' + c') (r + c + le_join ws).
Proof.
  revert r c. induction bs as [l Hl|b0 b1 b2 b3 bs IH] using list_four_ind; intros r c Hb Hc.
  - destruct l as [|b0 [|b1 [|b2 [|b3 l]]]]; simpl in Hl; try lia; cbn [csum_words];
      (split; [done|]; exists []; split; [done|]; split; [simpl; lia|];
       split; [now exists 0%nat|]; replace (r + c + le_join []) with (r + c) by (simpl; lia);
       destruct Hc as ([? ?] & ? & ?); apply rep_refl; lia).
  - cbn [csum_words]. rewrite !bytes_ok_cons in Hb.
    destruct Hb as (H0 & H1 & H2 & H3 & Hbs).
    set (w := le_join [b0; b1; b2; b3]).
    assert (is_u32 w) as Hw.
    { apply (le_join_range [b0; b1; b2; b3]). rewrite !bytes_ok_cons. auto using bytes_ok_nil. }
    destruct (carry_step r c w Hc Hw) as [Hc' Hrep].
    cbv zeta. set (r2 := u32 (u32 (r + c) + w)) in *.
    specialize (IH r2 (b2z (r2 <? w)) Hbs Hc').
    destruct (csum_words bs r2 (b2z (r2 <? w))) as [[r' c'] rest].
    destruct IH as (Hok & ws & -> & Hlen & (k & Hk) & IH).
    split; [done|]. exists (b0 :: b1 :: b2 :: b3 :: ws). split; [done|]. split; [done|].
    split; [exists (S k); simpl; lia|].
    change (b0 :: b1 :: b2 :: b3 :: ws) with ([b0; b1; b2; b3] ++ ws).
    rewrite le_join_app. fold w. simpl length. rewrite Z.add_assoc.
    eapply rep_trans; [exact IH|]. apply rep_add; [exact Hrep|].
    apply bytes_ok_app in Hbs as [Hws _].
    pose proof (le_join_nonneg ws Hws).
    apply (rep_mul _ _ (256 ^ Z.of_nat 4)); [lia|reflexivity|].
    now apply rep_refl.
Qed.

(** A prefix [ws] of even length has been summed into [r]. *)
Definition summed (r r0 : Z) (ws rest bs : list Z) : Prop :=
  bs = ws ++ rest /\ Nat.Even (length ws) /\ rep r (r0 + le_join ws).

Lemma summed_trans r1 r2 r0 ws1 ws2 bs rest1 rest2 :
  bytes_ok bs ->
  summed r1 r0 ws1 rest1 bs -> summed r2 r1 ws2 rest2 rest1 ->
  summed r2 r0 (ws1 ++ ws2) rest2 bs.
Proof.
  intros Hb (-> & E1 & R1) (-> & E2 & R2). split; [now rewrite app_assoc|].
  rewrite length_app. split; [now apply Nat.Even_Even_add|].
  rewrite !bytes_ok_app in Hb. destruct Hb as (Hb1 & Hb2 & Hb3).
  rewrite le_join_app, Z.add_assoc. eapply rep_trans; [exact R2|].
  destruct E1 as [k ->]. apply rep_add; [exact R1|].
  apply rep_mul; [lia|apply pow_256_even|]. now apply rep_refl, le_join_nonneg.
Qed.

(** One halfword, when there is one. *)
Lemma summed_half r0 bs :
  bytes_ok bs -> 2 <= zlen bs -> 0 <= r0 < 4294901760 ->
  summed (u32 (r0 + le_join (take 2 bs))) r0 (take 2 bs) (drop 2 bs) bs
  /\ r0 <= u32 (r0 + le_join (take 2 bs)) <= r0 + 65535.
Proof.
  intros Hb Hl Hr. unfold zlen in Hl.
  assert (length (take 2 bs) = 2%nat) as H2 by (rewrite length_take; lia).
  assert (bytes_ok (take 2 bs)) as Ht by now apply Forall_take.
  pose proof (le_join_range _ Ht) as Hj. rewrite H2 in Hj. change (256 ^ Z.of_nat 2) with 65536 in Hj.
  rewrite u32_id by (unfold is_u32; lia). split; [|lia].
  split; [now rewrite take_drop|]. split; [rewrite H2; now exists 1%nat|].
  apply rep_refl. lia.
Qed.

Lemma summed_nothing r0 bs : 0 <= r0 -> summed r0 r0 [] bs bs.
Proof.
  intros. split; [done|]. split; [now exists 0%nat|]. simpl.
  replace (r0 + 0) with r0 by lia. now apply rep_refl.
Qed.

Lemma u32_fold16 x : is_u32 x -> u32 (Z.land x 65535 + Z.shiftr x 16) = fold16 x.
Proof.
  intros Hx. fold (fold16 x). apply u32_id. rewrite fold16_arith. unfold is_u32 in *. zlia.
Qed.

(** The words, the carry and the fold after them. *)
Lemma summed_words r0 bs :
  bytes_ok bs -> 0 <= r0 < 4294967295 ->
  let '(r, c, rest) := csum_words bs r0 0 in
  exists ws, summed (fold16 (r + c)) r0 ws rest bs /\ (length rest < 4)%nat
    /\ u32 (r + c) = r + c /\ is_u32 (r + c) /\ (length ws mod 4 = 0)%nat.
Proof.
  intros Hb Hr. pose proof (csum_words_spec bs r0 0 Hb) as H.
  assert (carry_ok r0 0) as Hc by (unfold carry_ok, is_u32; lia).
  specialize (H Hc). destruct (csum_words bs r0 0) as [[r c] rest].
  destruct H as ((Hr' & Hc' & Hcr) & ws & -> & Hlen & (k & Hk) & Hrep).
  unfold is_u32 in *. assert (is_u32 (r + c)) as Hu by (unfold is_u32; lia).
  exists ws. split; [|split; [done|split; [now apply u32_id|split; [exact Hu|]]]].
  - split; [done|]. split; [exists (2 * k)%nat; lia|].
    apply rep_fold16. now replace (r0 + le_join ws) with (r0 + 0 + le_join ws) by lia.
  - rewrite Hk, Nat.mul_comm. apply Nat.Div0.mod_mul.
Qed.

Lemma land_1_parity n : nz (Z.land n 1) = Z.odd n.
Proof.
  change 1 with (Z.ones 1). rewrite Z.land_ones by lia. change (2 ^ 1) with 2.
  rewrite Zmod_odd. now destruct (Z.odd n).
Qed.
Lemma land_2_bit n : nz (Z.land n 2) = Z.odd (n / 2).
Proof.
  assert (Z.land n 2 = 2 * Z.land (n / 2) 1) as ->.
  { apply Z.bits_inj'. intros i Hi. rewrite Z.land_spec.
    rewrite (Z.mul_comm 2), <- Z.shiftl_mul_pow2 with (n := 1), Z.shiftl_spec by lia.
    rewrite Z.land_spec.
    destruct (decide (i = 0)) as [->|]; [cbn; now rewrite andb_false_r|].
    rewrite Z.div2_div, <- Z.div2_spec || rewrite <- Z.div2_div, Z.div2_spec.
    rewrite Z.shiftr_spec by lia. replace (i - 1 + 1) with i by lia. f_equal.
    destruct (decide (i = 1)) as [->|]; [done|].
    rewrite (Z.bits_above_log2 2 i), (Z.bits_above_log2 1 (i - 1)); cbn; lia. }
  rewrite <- land_1_parity. unfold nz. f_equal.
  destruct (Z.eqb_spec (Z.land (n / 2) 1) 0) as [->|]; [done|]. lia.
Qed.


(** The words and the half-word after them: what is left has at most one byte. *)
Lemma summed_tail r0 bs :
  bytes_ok bs -> 0 <= r0 <= 4294836224 ->
  let len := zlen bs in
  let '(r1, rest1) :=
    if 4 <=? len then
      let '(r, c, rest) := csum_words bs r0 0 in
      (u32 (Z.land (u32 (r + c)) 65535 + Z.shiftr (u32 (r + c)) 16), rest)
    else (r0, bs) in
  let '(r2, rest2) :=
    if nz (Z.land len 2) then (u32 (r1 + le_join (take 2 rest1)), drop 2 rest1)
    else (r1, rest1) in
  exists ws, summed r2 r0 ws rest2 bs /\ zlen rest2 = len mod 2 /\ r2 <= Z.max r0 131070 + 65535.
Proof.
  intros Hb Hr len.
  assert (exists r1 rest1 ws,
    (if 4 <=? len then
      let '(r, c, rest) := csum_words bs r0 0 in
      (u32 (Z.land (u32 (r + c)) 65535 + Z.shiftr (u32 (r + c)) 16), rest)
    else (r0, bs)) = (r1, rest1) /\ summed r1 r0 ws rest1 bs /\ zlen rest1 = len mod 4
    /\ 0 <= r1 <= Z.max r0 131070) as (r1 & rest1 & ws1 & -> & Hs1 & Hl1 & Hr1).
  { destruct (Z.leb_spec 4 len) as [Hlen|Hlen].
    - pose proof (summed_words r0 bs Hb ltac:(lia)) as H.
      destruct (csum_words bs r0 0) as [[r c] rest].
      destruct H as (ws & Hs & Hrest & Hw & Hu & Hmod).
      exists (fold16 (r + c)), rest, ws. rewrite Hw, u32_fold16 by done.
      split; [done|]. split; [done|]. destruct Hs as (-> & _ & _).
      unfold len. rewrite zlen_app. unfold zlen. split.
      + apply (f_equal Z.of_nat) in Hmod. rewrite Nat2Z.inj_mod in Hmod. zlia.
      + rewrite fold16_arith. unfold is_u32 in Hu. zlia.
    - exists r0, bs, []. split; [done|]. split; [apply summed_nothing; lia|].
      unfold len, zlen in *. split; [zlia|lia]. }
  cbv beta iota.
  assert (bytes_ok rest1) as Hb1.
  { destruct Hs1 as (-> & _). now apply bytes_ok_app in Hb. }
  rewrite land_2_bit. destruct (Z.odd (len / 2)) eqn:Hodd.
  - assert (2 <= zlen rest1) as H2.
    { rewrite Hl1. pose proof (Zmod_odd (len / 2)) as Hm. rewrite Hodd in Hm. zlia. }
    destruct (summed_half r1 rest1 Hb1 H2 ltac:(lia)) as [Hh Hhr].
    exists (ws1 ++ take 2 rest1). split; [eapply summed_trans; eauto|].
    rewrite zlen_drop, Hl1. split; [|lia].
    rewrite Hl1 in H2. clearbody len. clear -H2. zlia.
  - exists ws1. split; [done|]. rewrite Hl1. split; [|lia].
    pose proof (Zmod_odd (len / 2)) as Hm. rewrite Hodd in Hm. clearbody len. clear -Hm. zlia.
Qed.

Lemma do_csum_even_spec addr bs r0 :
  bytes_ok bs -> 2 <= zlen bs -> 0 <= r0 <= 65280 ->
  let '(r, rest) := do_csum_even addr bs r0 in
  exists ws, summed r r0 ws rest bs /\ zlen rest = zlen bs mod 2 /\ r <= 327675.
Proof.
  intros Hb Hl Hr. unfold do_csum_even.
  destruct (nz (Z.land 2 addr)).
  - destruct (summed_half r0 bs Hb Hl ltac:(lia)) as [Hh Hhr].
    assert (bytes_ok (drop 2 bs)) as Hbd by now apply Forall_drop.
    pose proof (summed_tail (u32 (r0 + le_join (take 2 bs))) (drop 2 bs) Hbd ltac:(lia)) as Ht.
    cbv zeta in Ht |- *. destruct (if 4 <=? zlen (drop 2 bs) then _ else _) as [r1 rest1].
    destruct (if nz (Z.land (zlen (drop 2 bs)) 2) then _ else _) as [r2 rest2].
    destruct Ht as (ws & Hs & Hz & Hb2). exists (take 2 bs ++ ws).
    split; [eapply summed_trans; eauto|]. split; [|lia].
    rewrite Hz, zlen_drop. clear -Hl. zlia.
  - pose proof (summed_tail r0 bs Hb ltac:(lia)) as Ht.
    cbv zeta in Ht |- *. destruct (if 4 <=? zlen bs then _ else _) as [r1 rest1].
    destruct (if nz (Z.land (zlen bs) 2) then _ else _) as [r2 rest2].
    destruct Ht as (ws & Hs & Hz & Hb2). exists ws. split; [done|]. split; [done|lia].
Qed.

(** The accumulator before it is folded, from the value [r0] it starts with. *)
Lemma do_csum_acc addr bs r0 :
  bytes_ok bs -> 0 <= r0 <= 65280 ->
  let '(r1, rest) := if 2 <=? zlen bs then do_csum_even addr bs r0 else (r0, bs) in
  let r2 := if nz (Z.land (zlen bs) 1) then u32 (r1 + le_join (take 1 rest)) else r1 in
  rep r2 (r0 + le_join bs) /\ r2 <= 327930.
Proof.
  intros Hb Hr.
  assert (let '(r1, rest) := if 2 <=? zlen bs then do_csum_even addr bs r0 else (r0, bs) in
          exists ws, summed r1 r0 ws rest bs /\ zlen rest = zlen bs mod 2 /\ r1 <= 327675) as H.
  { destruct (Z.leb_spec 2 (zlen bs)) as [Hl|Hl]; [now apply do_csum_even_spec|].
    exists []. split; [apply summed_nothing; lia|]. unfold zlen in *. split; [zlia|lia]. }
  destruct (if 2 <=? zlen bs then _ else _) as [r1 rest]. cbv zeta.
  destruct H as (ws & (-> & Hev & Hrep) & Hz & Hb1).
  apply bytes_ok_app in Hb as [Hws Hrest].
  rewrite land_1_parity. pose proof (Zmod_odd (zlen (ws ++ rest))) as Hm. rewrite <- Hz in Hm.
  destruct (Z.odd (zlen (ws ++ rest))).
  - destruct rest as [|b [|? ?]]; unfold zlen in Hm; simpl in Hm; [lia| |lia].
    apply bytes_ok_cons in Hrest as [Hb _]. unfold is_u8 in Hb. cbn [take].
    assert (0 <= r1) by apply Hrep.
    rewrite u32_id by (unfold is_u32; cbn; lia). split; [|cbn; lia].
    rewrite le_join_app, Z.add_assoc. destruct Hev as [k ->]. apply rep_add; [done|].
    apply rep_mul; [lia|apply pow_256_even|]. apply rep_refl. cbn; lia.
  - destruct rest; [|unfold zlen in Hm; simpl in Hm; lia]. rewrite app_nil_r. split; [done|lia].
Qed.

Lemma from32to16_norm x s : rep x s -> x < 4294967296 -> from32to16 x = oc_norm s.
Proof.
  intros Hx Hlt. assert (0 <= x) by apply Hx. unfold from32to16. cbv zeta.
  rewrite (u32_fold16 x) by (unfold is_u32; lia).
  pose proof (fold16_nonneg x ltac:(lia)). pose proof (fold16_bound x 65536 ltac:(lia)).
  pose proof (fold16_bound (fold16 x) 2 ltac:(lia)) as Hb2.
  rewrite u32_fold16 by (unfold is_u32; lia).
  assert (rep (fold16 (fold16 x)) s) as Hr by now apply rep_fold16, rep_fold16.
  assert (0 <= fold16 (fold16 x) <= 65535) as Hf.
  { split; [apply Hr|]. rewrite (fold16_arith (fold16 x)). clear Hr.
    rewrite (fold16_arith x) in *. zlia. }
  rewrite u16_id by (unfold is_u16; lia). apply rep_norm; [done|lia].
Qed.

(** Exchanging the two bytes of a halfword multiplies it by 256. *)
Lemma swap16_rep r : is_u16 r ->
  let r' := Z.lor (Z.land (Z.shiftr r 8) 255) (Z.shiftl (Z.land r 255) 8) in
  rep r' (256 * r) /\ r' <= 65535.
Proof.
  intros Hr. cbv zeta. rewrite !land_u8, shiftr_8, shiftl_8.
  pose proof (lor_disjoint_add 8 ((r / 256) mod 256) (r mod 256)) as Hlor.
  change (2 ^ 8) with 256 in Hlor. rewrite Hlor by zlia. unfold is_u16, rep, oc in *. zlia.
Qed.

Lemma do_csum_norm addr bs : bytes_ok bs -> do_csum addr bs = oc_norm (le_join bs).
Proof.
  intros Hb. destruct bs as [|b0 bs]; [done|]. unfold do_csum.
  destruct (nz (Z.land 1 addr)).
  - apply bytes_ok_cons in Hb as [H0 Hb]. unfold is_u8 in H0. rewrite shiftl_8.
    rewrite u32_id by (unfold is_u32; lia).
    pose proof (do_csum_acc (addr + 1) bs (0 + b0 * 256) Hb ltac:(lia)) as H. cbv beta iota zeta in H |- *.
    destruct (if 2 <=? zlen bs then _ else _) as [r1 rest].
    destruct H as [Hrep Hlt]. rewrite (from32to16_norm _ _ Hrep) by lia.
    pose proof (oc_norm_range (0 + b0 * 256 + le_join bs)).
    pose proof (swap16_rep (oc_norm (0 + b0 * 256 + le_join bs)) ltac:(unfold is_u16; lia)) as [Hs Hs2].
    apply rep_norm; [|exact Hs2]. eapply rep_trans; [exact Hs|].
    pose proof (le_join_nonneg bs Hb) as Hj. simpl le_join.
    pose proof (oc_norm_oc (0 + b0 * 256 + le_join bs)) as Hoc.
    assert (oc_norm (0 + b0 * 256 + le_join bs) = 0 <-> 0 + b0 * 256 + le_join bs = 0) as Hz.
    { unfold oc_norm. destruct (Z.eqb_spec (0 + b0 * 256 + le_join bs) 0); [lia|zlia]. }
    split; [lia|]. split; [lia|]. split; [|lia].
    rewrite Hoc. unfold oc. zlia.
  - pose proof (do_csum_acc addr (b0 :: bs) 0 Hb ltac:(lia)) as H. cbv beta iota zeta in H |- *.
    destruct (if 2 <=? zlen (b0 :: bs) then _ else _) as [r1 rest].
    destruct H as [Hrep Hlt]. now apply from32to16_norm; [|lia].
Qed.

Lemma oc_norm_sum16 bs : bytes_ok bs -> oc_norm (le_join bs) = oc_norm (sum16 bs).
Proof. intros. symmetry. now apply oc_norm_rep, rep_sum16. Qed.

(** [do_csum] is the folded sum of the 16-bit words of the buffer, whatever
    the alignment of its address and its length: the shortcuts for odd and
    half-aligned addresses and the carries of the 32-bit loop cancel out. *)
Theorem do_csum_correct (addr : Z) (bs : list Z) :
  bytes_ok bs -> do_csum addr bs = oc_norm (sum16 bs).
Proof. intros Hb. rewrite do_csum_norm by done. now apply oc_norm_sum16. Qed.

Lemma csum_partial_rep addr bs wsum :
  bytes_ok bs -> is_u32 wsum ->
  rep (csum_partial addr bs wsum) (sum16 bs + wsum) /\ is_u32 (csum_partial addr bs wsum).
Proof.
  intros Hb Hw. unfold csum_partial. rewrite do_csum_norm, oc_norm_sum16, (u32_id wsum) by done.
  pose proof (oc_norm_range (sum16 bs)). pose proof (oc_norm_oc (sum16 bs)) as Hoc.
  pose proof (sum16_nonneg bs Hb).
  assert (oc_norm (sum16 bs) = 0 <-> sum16 bs = 0) as Hz.
  { unfold oc_norm. destruct (Z.eqb_spec (sum16 bs) 0); [lia|zlia]. }
  set (n := oc_norm (sum16 bs)) in *. clearbody n. cbv zeta.
  unfold is_u32, rep, oc, u32 in *. destruct (Z.ltb_spec ((n + wsum) mod 4294967296) wsum); zlia.
Qed.

Lemma csum_diff_words_ok from to :
  bytes_ok from -> bytes_ok to -> bytes_ok (csum_diff_words from to).
Proof.
  intros Hf Ht. apply bytes_ok_app. split; [|done].
  unfold bytes_ok in *. induction Hf as [|b bs Hb _ IH]; simpl; constructor; [|done].
  unfold is_u8 in *. lia.
Qed.

Lemma csum_diff_guard from to :
  nz (Z.land (Z.lor (zlen from) (zlen to)) 3) || (512 <? zlen from + zlen to) = false
  <-> csum_diff_sizes from to.
Proof.
  rewrite orb_false_iff, Z.ltb_ge. unfold csum_diff_sizes, nz.
  rewrite negb_false_iff, Z.eqb_eq, Z.land_lor_distr_l, Z.lor_eq_0_iff.
  change 3 with (Z.ones 2). rewrite !Z.land_ones by lia. change (2 ^ 2) with 4. tauto.
Qed.

(** C11: [bpftime_csum_diff_runtime] returns the 32-bit one's complement sum of
    the seed, the words of [to] and the complemented words of [from], and
    [-EINVAL] exactly when a size is not a multiple of four or the two together
    exceed the 512 bytes of the scratch pad. *)
Theorem csum_diff_runtime_correct (sp : Z) (from to : list Z) (seed : Z) :
  bytes_ok from -> bytes_ok to -> is_u32 seed ->
  (csum_diff_sizes from to ->
     is_u32 (bpftime_csum_diff_runtime sp from to seed)
     /\ bpftime_csum_diff_runtime sp from to seed =oc seed - sum16 from + sum16 to)
  /\ (~ csum_diff_sizes from to ->
     bpftime_csum_diff_runtime sp from to seed = u64 (- EINVAL)).
Proof.
  intros Hf Ht Hs. unfold bpftime_csum_diff_runtime.
  pose proof (csum_diff_guard from to) as Hg. cbv zeta.
  destruct (nz _ || _).
  - split; [intros Hc; now apply Hg in Hc|done].
  - split; [intros Hc|intros Hc; destruct Hc; now apply Hg].
    destruct (csum_partial_rep sp _ seed (csum_diff_words_ok from to Hf Ht) Hs) as [Hr Hu].
    split; [done|]. destruct Hc as (Hm & _ & _). apply even_of_mod4 in Hm.
    destruct Hr as (_ & _ & Hoc & _). rewrite Hoc. unfold csum_diff_words.
    rewrite sum16_app_even by now rewrite length_map.
    rewrite sum16_complement by done. unfold oc. f_equal. lia.
Qed.

(** ** Moving the ends of the packet

    The packet is described by addresses.  [xdp_md_userspace] is the context
    object the runtime hands to a program; [bpftime_xdp_adjust_tail_runtime]
    reads the same object as a [struct xdp_buff]. *)

(** @src module/xdp-runtime.h 11-22 xdp_md_userspace *)
Record xdp_md_userspace := XdpMd {
  md_data : Z; md_data_end : Z; md_data_meta : Z; md_ingress_ifindex : Z;
  md_rx_queue_index : Z; md_egress_ifindex : Z;
  md_buffer_start : Z; md_buffer_end : Z }.

(** @src module/helpers.c 293-302 xdp_buff *)
Record xdp_buff := XdpBuff {
  xb_data : Z; xb_data_end : Z; xb_data_meta : Z; xb_data_hard_start : Z;
  xb_rxq : Z; xb_txq : Z; xb_frame_sz : Z; xb_flags : Z }.

(** [sizeof(struct skb_shared_info)] with the fields of lines 331-346, on a
    64-bit target, and [SMP_CACHE_BYTES].
    @src module/helpers.c 331-346 skb_shared_info *)
Definition sizeof_skb_shared_info : Z := 4 + 2 + 2 + 8 + 8 + 4 + 4 + 4 + 4 + 8.
(** @src module/helpers.c 36-52 SKB_DATA_ALIGN *)
Definition SKB_DATA_ALIGN (x : Z) : Z :=
  let bytes := Z.shiftl 1 5 in Z.land (x + (bytes - 1)) (Z.lnot (bytes - 1)).
(** @src module/helpers.c 450-458 xdp_data_hard_end *)
Definition xdp_data_hard_end (xdp : xdp_buff) : Z :=
  u64 (xb_data_hard_start xdp + xb_frame_sz xdp - SKB_DATA_ALIGN sizeof_skb_shared_info).

(** The result, the new [data_end], and the address and size given to [memset].
    @src module/helpers.c 460-488 bpftime_xdp_adjust_tail_runtime *)
Definition bpftime_xdp_adjust_tail_runtime (xdp : xdp_buff) (offset : Z)
    : Z * Z * option (Z * Z) :=
  let data_hard_end := xdp_data_hard_end xdp in
  let data_end := u64 (xb_data_end xdp + offset) in
  if data_hard_end <? data_end then (u64 (- EINVAL), xb_data_end xdp, None)
  else if data_end <? u64 (xb_data xdp + 14) then (u64 (- EINVAL), xb_data_end xdp, None)
  else (0, data_end,
        if 0 <? offset then Some (xb_data_end xdp, offset) else None).

(** @src module/helpers.c 510-516 bpftime_xdp_adjust_head_runtime *)
Definition bpftime_xdp_adjust_head_runtime (xdp : xdp_md_userspace) (offset : Z)
    : Z * xdp_md_userspace :=
  let data := u64 (md_data xdp + offset) in
  (0, XdpMd data (md_data_end xdp) (md_data_meta xdp) (md_ingress_ifindex xdp)
            (md_rx_queue_index xdp) (md_egress_ifindex xdp)
            (md_buffer_start xdp) (md_buffer_end xdp)).

(** The result and, when it is 0, the source address and size of the copy.
    @src module/helpers.c 518-525 bpftime_xdp_load_bytes_runtime *)
Definition bpftime_xdp_load_bytes_runtime (xdp : xdp_md_userspace) (offset len : Z)
    : Z * option (Z * Z) :=
  let data := u64 (md_data xdp + offset) in
  if md_data_end xdp <? u64 (data + len) then (- EINVAL, None)
  else (0, Some (data, len)).

(** The registered callback, the verdict, and the call made to it.
    @src module/helpers.c 499-508 bpftime_redirect_map_runtime *)
Definition bpftime_redirect_map_runtime (cb : option (Z -> Z -> unit)) (map key : Z)
    : Z * option (Z * Z) :=
  match cb with
  | Some _ => (XDP_TX, Some (map, key))
  | None => (XDP_DROP, None)
  end.

(** @src module/helpers.c 527-530 bpf_get_link_xdp_id_runtime *)
Definition bpf_get_link_xdp_id_runtime (ifindex flags : Z) : Z := -1.
(** @src module/helpers.c 532-536 bpf_get_link_xdp_info_runtime *)
Definition bpf_get_link_xdp_info_runtime (ifindex info_size flags : Z) : Z := -1.

(** C39: growing by [0 < k] keeps [data_end] below the reserved tailroom and clears
    exactly the bytes gained; but the offset is unsigned, so shrinking by [k]
    (the helper's documented use) passes the checks and asks [memset] for
    [2^64 - k] bytes from the old [data_end]. *)
Theorem adjust_tail_runtime_behaviour (xdp : xdp_buff) (k : Z) :
  is_u64 (xb_data xdp + 14) -> is_u64 (xb_data_end xdp) ->
  xb_data xdp + 14 <= xb_data_end xdp <= xdp_data_hard_end xdp -> 0 < k ->
  (xb_data_end xdp + k <= xdp_data_hard_end xdp ->
     bpftime_xdp_adjust_tail_runtime xdp k
     = (0, xb_data_end xdp + k, Some (xb_data_end xdp, k)))
  /\ (xdp_data_hard_end xdp < xb_data_end xdp + k < 18446744073709551616 ->
     bpftime_xdp_adjust_tail_runtime xdp k = (u64 (- EINVAL), xb_data_end xdp, None))
  /\ (xb_data xdp + 14 <= xb_data_end xdp - k ->
     bpftime_xdp_adjust_tail_runtime xdp (u64 (- k))
     = (0, xb_data_end xdp - k, Some (xb_data_end xdp, 18446744073709551616 - k))).
Proof.
  intros Hd He Hb Hk. unfold bpftime_xdp_adjust_tail_runtime.
  assert (is_u64 (xdp_data_hard_end xdp)) as Hh by apply u64_range.
  set (hard := xdp_data_hard_end xdp) in *. clearbody hard.
  rewrite (u64_id (xb_data xdp + 14)) by done.
  unfold is_u64 in *. cbv zeta. repeat split.
  - intros. rewrite u64_id by (unfold is_u64; lia).
    destruct (Z.ltb_spec hard (xb_data_end xdp + k)); [lia|].
    destruct (Z.ltb_spec (xb_data_end xdp + k) (xb_data xdp + 14)); [lia|].
    destruct (Z.ltb_spec 0 k); [done|lia].
  - intros. rewrite u64_id by (unfold is_u64; lia).
    destruct (Z.ltb_spec hard (xb_data_end xdp + k)); [done|lia].
  - intros Hs. assert (u64 (- k) = 18446744073709551616 - k) as -> by (unfold u64; zlia).
    assert (u64 (xb_data_end xdp + (18446744073709551616 - k)) = xb_data_end xdp - k) as ->
      by (unfold u64; zlia).
    destruct (Z.ltb_spec hard (xb_data_end xdp - k)); [lia|].
    destruct (Z.ltb_spec (xb_data_end xdp - k) (xb_data xdp + 14)); [lia|].
    destruct (Z.ltb_spec 0 (18446744073709551616 - k)); [done|lia].
Qed.

Lemma adjust_tail_runtime_behaviour_witness :
  bpftime_xdp_adjust_tail_runtime (XdpBuff 1000 1500 0 512 0 0 4096 0) (u64 (- 100))
  = (0, 1400, Some (1500, 18446744073709551516)).
Proof.
  exact (proj2 (proj2 (adjust_tail_runtime_behaviour (XdpBuff 1000 1500 0 512 0 0 4096 0) 100
    ltac:(cbv; intuition discriminate) ltac:(cbv; intuition discriminate)
    ltac:(cbv; intuition discriminate) ltac:(lia))) ltac:(cbv; discriminate)).
Defined.

Lemma csum_diff_runtime_witness :
  is_u32 (bpftime_csum_diff_runtime 4096 [1; 2; 3; 4] [9; 8; 7; 6] 5)
  /\ bpftime_csum_diff_runtime 4096 [1; 2; 3; 4] [9; 8; 7; 6] 5 =oc 5 - 1540 + 3600.
Proof.
  refine (proj1 (csum_diff_runtime_correct 4096 [1; 2; 3; 4] [9; 8; 7; 6] 5 _ _ _) _).
  - repeat constructor; done.
  - repeat constructor; done.
  - split; done.
  - repeat split; done.
Defined.

Lemma do_csum_witness : do_csum 4097 [1; 2; 3; 4; 5; 6; 7] = oc_norm (sum16 [1; 2; 3; 4; 5; 6; 7]).
Proof. apply (do_csum_correct 4097). repeat constructor; done. Defined.

(** ** The runtime's checksum helper meets the interface of the programs *)

(** The [uint64_t] result read as the [__s64] of the helper's prototype. *)
Definition s64 (x : Z) : Z :=
  if x <? 9223372036854775808 then x else x - 18446744073709551616.

(** The packet helpers as the kernel documents them: [bpf_xdp_adjust_head]
    refuses to leave the headroom or less than an Ethernet header,
    [bpf_xdp_adjust_tail] refuses to leave the tailroom or less than an Ethernet
    header and zeroes the bytes it gains.  They are a concrete instance of the
    interface; the programs are proved against the interface only. *)
Definition doc_adjust_head (f : frame) (d : Z) : Z * frame :=
  if (zlen (f_head f) <? - d) || (zlen (f_data f) - 14 <? d)
  then (- EINVAL, f) else (0, shift_head f d).
Definition doc_adjust_tail (f : frame) (d : Z) : Z * frame :=
  if (zlen (f_tail f) <? d) || (zlen (f_data f) + d <? 14) then (- EINVAL, f)
  else if 0 <=? d then
    (0, Frame (f_head f) (f_data f ++ repeat 0 (Z.to_nat d)) (drop (Z.to_nat d) (f_tail f)))
  else (0, shift_tail f d).

Definition runtime_helpers (sp cpu : Z) (clock : nat -> Z) : XdpHelpers := {|
  h_adjust_head := doc_adjust_head;
  h_adjust_tail := doc_adjust_tail;
  h_csum_diff := fun from to seed => s64 (bpftime_csum_diff_runtime sp from to seed);
  h_ktime := fun n => u64 (clock n);
  h_cpu := u32 cpu
|}.

#[global] Instance runtime_helper_laws sp cpu clock :
  XdpHelperLaws (runtime_helpers sp cpu clock).
Proof.
  split; unfold h_adjust_head, h_adjust_tail, h_ktime, h_cpu, runtime_helpers.
  - intros f d. unfold doc_adjust_head. now destruct (_ || _).
  - intros f d. unfold doc_adjust_head.
    destruct (_ || _) eqn:E; [done|]. intros _. apply orb_false_iff in E as [E1 E2].
    apply Z.ltb_ge in E1, E2. split; [done|lia].
  - intros f d. unfold doc_adjust_tail. destruct (_ || _); [done|]. now destruct (0 <=? d).
  - intros f d. unfold doc_adjust_tail.
    destruct (_ || _) eqn:E; [done|]. intros _. apply orb_false_iff in E as [E1 E2].
    apply Z.ltb_ge in E1, E2. unfold shift_tail. destruct (Z.leb_spec 0 d) as [Hd|Hd]; simpl.
    + unfold zlen in *. rewrite length_app, repeat_length. split; [lia|]. split; [done|].
      split; [now rewrite take_app_le by lia|].
      intros (Hh & Hf & Ht). split; [done|]. split; [|now apply Forall_drop].
      apply bytes_ok_app. split; [done|]. clear.
      induction (Z.to_nat d); simpl; constructor; done.
    + unfold zlen in *. rewrite length_take. split; [lia|]. split; [done|].
      split; [rewrite take_take; f_equal; lia|].
      intros (Hh & Hf & Ht). split; [done|]. split; [now apply Forall_take|].
      apply bytes_ok_app. split; [now apply Forall_drop|done].
  - intros n. apply u64_range.
  - apply u32_range.
Qed.

#[global] Instance runtime_csum_laws sp cpu clock :
  CsumDiffLaws (runtime_helpers sp cpu clock).
Proof.
  split; unfold h_csum_diff, runtime_helpers.
  - intros from to seed Hf Ht Hs Hsz. unfold bpftime_csum_diff_runtime.
    apply csum_diff_guard in Hsz as Hg. cbv zeta. rewrite Hg.
    destruct (csum_partial_rep sp _ seed (csum_diff_words_ok from to Hf Ht) Hs) as [Hr Hu].
    unfold s64. unfold is_u32 in Hu.
    destruct (Z.ltb_spec (csum_partial sp (csum_diff_words from to) seed) 9223372036854775808); [|lia].
    split; [done|]. destruct Hsz as (Hm & _ & _). apply even_of_mod4 in Hm.
    destruct Hr as (_ & _ & Hoc & _). rewrite Hoc. unfold csum_diff_words.
    rewrite sum16_app_even by now rewrite length_map.
    rewrite sum16_complement by done. unfold oc. f_equal. lia.
  - intros to seed Ht Hs Hsz. unfold bpftime_csum_diff_runtime.
    apply csum_diff_guard in Hsz as Hg. cbv zeta. rewrite Hg.
    destruct (csum_partial_rep sp _ seed (csum_diff_words_ok [] to bytes_ok_nil Ht) Hs) as [Hr Hu].
    unfold s64. unfold is_u32 in Hu.
    destruct (Z.ltb_spec (csum_partial sp (csum_diff_words [] to) seed) 9223372036854775808); [|lia].
    destruct Hr as (_ & _ & _ & Hz). rewrite Hz. unfold csum_diff_words. simpl. lia.
  - intros from to seed Hsz. unfold bpftime_csum_diff_runtime.
    pose proof (csum_diff_guard from to) as Hg. cbv zeta. destruct (nz _ || _); [done|].
    destruct Hsz. now apply Hg.
Qed.
