(* ===== verification/Jhash.v ===== *)
(** * Jenkins' hash (katran/lib/linux_includes/jhash.h)

    The hash by which katran picks a slot of a VIP's consistent-hashing ring. *)
From Stdlib Require Import ZArith Lia.
From stdpp Require Import base numbers list.
From S2P Require Import Prelude Xdp.
#[local] Open Scope Z_scope.

(** [word << shift] at 32 bits is 0-filled; [-shift] is an [unsigned int].
    @src xdp_progs/katran/lib/linux_includes/jhash.h 7-9 rol32 *)
Definition rol32 (word shift : Z) : Z :=
  Z.lor (u32 (Z.shiftl word shift)) (Z.shiftr word (Z.land (u32 (- shift)) 31)).

(** @src xdp_progs/katran/lib/linux_includes/jhash.h 11-31 __jhash_mix *)
Definition jhash_mix (abc : Z * Z * Z) : Z * Z * Z :=
  let '(a, b, c) := abc in
  let a := u32 (a - c) in let a := Z.lxor a (rol32 c 4) in let c := u32 (c + b) in
  let b := u32 (b - a) in let b := Z.lxor b (rol32 a 6) in let a := u32 (a + c) in
  let c := u32 (c - b) in let c := Z.lxor c (rol32 b 8) in let b := u32 (b + a) in
  let a := u32 (a - c) in let a := Z.lxor a (rol32 c 16) in let c := u32 (c + b) in
  let b := u32 (b - a) in let b := Z.lxor b (rol32 a 19) in let a := u32 (a + c) in
  let c := u32 (c - b) in let c := Z.lxor c (rol32 b 4) in let b := u32 (b + a) in
  (a, b, c).

(** @src xdp_progs/katran/lib/linux_includes/jhash.h 33-49 __jhash_final *)
Definition jhash_final (abc : Z * Z * Z) : Z * Z * Z :=
  let '(a, b, c) := abc in
  let c := Z.lxor c b in let c := u32 (c - rol32 b 14) in
  let a := Z.lxor a c in let a := u32 (a - rol32 c 11) in
  let b := Z.lxor b a in let b := u32 (b - rol32 a 25) in
  let c := Z.lxor c b in let c := u32 (c - rol32 b 16) in
  let a := Z.lxor a c in let a := u32 (a - rol32 c 4) in
  let b := Z.lxor b a in let b := u32 (b - rol32 a 14) in
  let c := Z.lxor c b in let c := u32 (c - rol32 b 24) in
  (a, b, c).

(** @src xdp_progs/katran/lib/linux_includes/jhash.h 51-51 JHASH_INITVAL *)
Definition JHASH_INITVAL : Z := 0xdeadbeef.

(** The [switch] over the last [length <= 12] bytes, which falls through: byte
    [i] of the tail is added, shifted, to the word it belongs to.
    @src xdp_progs/katran/lib/linux_includes/jhash.h 69-97 jhash *)
Definition jhash_tail (k : list Z) (abc : Z * Z * Z) : Z * Z * Z :=
  let '(a, b, c) := abc in
  let length := length k in
  let byte i := nth i k 0 in
  let on i x y := if Nat.leb (S i) length then u32 (x + y) else x in
  let c := on 11%nat c (Z.shiftl (byte 11%nat) 24) in
  let c := on 10%nat c (Z.shiftl (byte 10%nat) 16) in
  let c := on 9%nat c (Z.shiftl (byte 9%nat) 8) in
  let c := on 8%nat c (byte 8%nat) in
  let b := on 7%nat b (Z.shiftl (byte 7%nat) 24) in
  let b := on 6%nat b (Z.shiftl (byte 6%nat) 16) in
  let b := on 5%nat b (Z.shiftl (byte 5%nat) 8) in
  let b := on 4%nat b (byte 4%nat) in
  let a := on 3%nat a (Z.shiftl (byte 3%nat) 24) in
  let a := on 2%nat a (Z.shiftl (byte 2%nat) 16) in
  let a := on 1%nat a (Z.shiftl (byte 1%nat) 8) in
  let a := on 0%nat a (byte 0%nat) in
  if Nat.eqb length 0 then (a, b, c) else jhash_final (a, b, c).

(** The loop [while (length > 12)]; [fuel] bounds its iterations.
    @src xdp_progs/katran/lib/linux_includes/jhash.h 61-68 jhash *)
Fixpoint jhash_loop (fuel : nat) (k : list Z) (abc : Z * Z * Z) : list Z * (Z * Z * Z) :=
  match fuel with
  | O => (k, abc)
  | S fuel =>
      if Nat.ltb 12 (length k) then
        let '(a, b, c) := abc in
        let a := u32 (a + le_join (take 4 k)) in
        let b := u32 (b + le_join (take 4 (drop 4 k))) in
        let c := u32 (c + le_join (take 4 (drop 8 k))) in
        jhash_loop fuel (drop 12 k) (jhash_mix (a, b, c))
      else (k, abc)
  end.

(** [key] is the list of the [length] bytes hashed.
    @src xdp_progs/katran/lib/linux_includes/jhash.h 55-100 jhash *)
Definition jhash (key : list Z) (initval : Z) : Z :=
  let x := u32 (JHASH_INITVAL + zlen key + initval) in
  let '(k, abc) := jhash_loop (length key) key (x, x, x) in
  (jhash_tail k abc).2.

(** @src xdp_progs/katran/lib/linux_includes/jhash.h 102-108 __jhash_nwords *)
Definition jhash_nwords (a b c initval : Z) : Z :=
  (jhash_final (u32 (a + initval), u32 (b + initval), u32 (c + initval))).2.

(** @src xdp_progs/katran/lib/linux_includes/jhash.h 110-112 jhash_2words *)
Definition jhash_2words (a b initval : Z) : Z :=
  jhash_nwords a b 0 (u32 (initval + JHASH_INITVAL + Z.shiftl 2 2)).
(** @src xdp_progs/katran/lib/linux_includes/jhash.h 114-116 jhash_1word *)
Definition jhash_1word (a initval : Z) : Z :=
  jhash_nwords a 0 0 (u32 (initval + JHASH_INITVAL + Z.shiftl 1 2)).

(** ** The fuel suffices, and the result is a 32-bit word *)

Lemma jhash_loop_done fuel k abc :
  (length k <= fuel)%nat -> (length (jhash_loop fuel k abc).1 <= 12)%nat.
Proof.
  revert k abc; induction fuel as [|fuel IH]; intros k abc Hk; cbn [jhash_loop].
  - simpl. lia.
  - destruct (Nat.ltb_spec 12 (length k)); [|simpl; lia].
    destruct abc as [[a b] c]. apply IH. rewrite length_drop. lia.
Qed.

Lemma jhash_final_range abc : is_u32 (jhash_final abc).2.
Proof. destruct abc as [[a b] c]. cbn. apply u32_range. Qed.

Lemma jhash_nwords_range a b c i : is_u32 (jhash_nwords a b c i).
Proof. apply jhash_final_range. Qed.

(** The macro [__jhash_mix] is six rounds of one shape, on rotated arguments;
    [unround] undoes a round. *)
Definition round (s : Z) (abc : Z * Z * Z) : Z * Z * Z :=
  let '(x, y, z) := abc in
  let x := Z.lxor (u32 (x - z)) (rol32 z s) in let z := u32 (z + y) in (x, y, z).
Definition unround (s : Z) (abc : Z * Z * Z) : Z * Z * Z :=
  let '(x, y, z) := abc in
  let z := u32 (z - y) in let x := u32 (Z.lxor x (rol32 z s) + z) in (x, y, z).
Definition rot (abc : Z * Z * Z) : Z * Z * Z := let '(a, b, c) := abc in (b, c, a).
Definition unrot (abc : Z * Z * Z) : Z * Z * Z := let '(b, c, a) := abc in (a, b, c).

Definition jhash_unmix (abc : Z * Z * Z) : Z * Z * Z :=
  unround 4 (unrot (unround 6 (unrot (unround 8 (unrot
    (unround 16 (unrot (unround 19 (unrot (unround 4 (unrot abc))))))))))).

Definition is_word3 (abc : Z * Z * Z) : Prop :=
  is_u32 abc.1.1 /\ is_u32 abc.1.2 /\ is_u32 abc.2.

Lemma rol32_range w s : is_u32 w -> 0 <= s -> is_u32 (rol32 w s).
Proof.
  intros Hw Hs. unfold rol32, is_u32. change 4294967296 with (2 ^ 32).
  apply lor_range; [lia|apply u32_range|].
  rewrite Z.shiftr_div_pow2 by (apply Z.land_nonneg; lia). unfold is_u32 in Hw.
  assert (1 <= 2 ^ Z.land (u32 (- s)) 31).
  { assert (0 < 2 ^ Z.land (u32 (- s)) 31); [|lia]. apply Z.pow_pos_nonneg; [lia|].
    apply Z.land_nonneg; lia. }
  split; [apply Z.div_pos; lia|]. apply Z.div_lt_upper_bound; nia.
Qed.

Lemma lxor_u32 a b : is_u32 a -> is_u32 b -> is_u32 (Z.lxor a b).
Proof. apply (lxor_range 32). lia. Qed.

Lemma lxor_cancel a b : Z.lxor (Z.lxor a b) b = a.
Proof. now rewrite Z.lxor_assoc, Z.lxor_nilpotent, Z.lxor_0_r. Qed.

Lemma u32_add_sub a b : is_u32 a -> u32 (u32 (a - b) + b) = a.
Proof. unfold is_u32, u32. intros. zlia. Qed.
Lemma u32_sub_add a b : is_u32 a -> u32 (u32 (a + b) - b) = a.
Proof. unfold is_u32, u32. intros. zlia. Qed.

Create HintDb jhash.
#[export] Hint Resolve u32_range rol32_range lxor_u32 : jhash.
#[export] Hint Extern 1 (0 <= _) => lia : jhash.

Lemma round_ok s abc :
  0 <= s -> is_word3 abc -> is_word3 (round s abc) /\ unround s (round s abc) = abc.
Proof.
  destruct abc as [[x y] z]. intros Hs (Hx & Hy & Hz). cbn in Hx, Hy, Hz.
  unfold is_word3, round, unround. cbn [fst snd].
  rewrite u32_sub_add by done. rewrite lxor_cancel, u32_add_sub by done.
  auto 10 with jhash.
Qed.

Lemma rot_ok abc : is_word3 abc -> is_word3 (rot abc) /\ unrot (rot abc) = abc.
Proof. destruct abc as [[x y] z]. intros (Hx & Hy & Hz). unfold is_word3 in *. cbn in *. auto. Qed.

Lemma jhash_mix_rounds abc :
  jhash_mix abc = rot (round 4 (rot (round 19 (rot (round 16 (rot (round 8 (rot
                    (round 6 (rot (round 4 abc))))))))))).
Proof. now destruct abc as [[a b] c]. Qed.

(** One round of the hash is a bijection of the three 32-bit words: no entropy
    of the key is lost before the final mixing. *)
Lemma jhash_mix_invertible (abc : Z * Z * Z) :
  is_word3 abc -> is_word3 (jhash_mix abc) /\ jhash_unmix (jhash_mix abc) = abc.
Proof.
  intros H0. rewrite jhash_mix_rounds. unfold jhash_unmix.
  destruct (round_ok 4 _ ltac:(lia) H0) as [H1 E1]. destruct (rot_ok _ H1) as [H2 E2].
  destruct (round_ok 6 _ ltac:(lia) H2) as [H3 E3]. destruct (rot_ok _ H3) as [H4 E4].
  destruct (round_ok 8 _ ltac:(lia) H4) as [H5 E5]. destruct (rot_ok _ H5) as [H6 E6].
  destruct (round_ok 16 _ ltac:(lia) H6) as [H7 E7]. destruct (rot_ok _ H7) as [H8 E8].
  destruct (round_ok 19 _ ltac:(lia) H8) as [H9 E9]. destruct (rot_ok _ H9) as [H10 E10].
  destruct (round_ok 4 _ ltac:(lia) H10) as [H11 E11]. destruct (rot_ok _ H11) as [H12 E12].
  split; [done|].
  now rewrite E12, E11, E10, E9, E8, E7, E6, E5, E4, E3, E2, E1.
Qed.

Lemma jhash_mix_invertible_witness :
  jhash_unmix (jhash_mix (1, 2, 3)) = (1, 2, 3).
Proof. apply (jhash_mix_invertible (1, 2, 3)). repeat split; done. Defined.
