(* ===== verification/KatranDefs.v ===== *)
(** * Katran: constants, structures, maps

    The data of the layer-4 load balancer under xdp_progs/katran/lib/bpf: the
    compile-time features and constants (balancer_consts.h, introspection.h), the
    structures (balancer_structs.h) and the BPF maps (balancer_maps.h,
    control_data_maps.h, flow_debug_maps.h).  Maps that only the control plane
    writes are the fields of [Tables]; the ones the data plane writes are the
    fields of [kenv].  Per-CPU maps are the copy of the CPU that runs the program. *)
From Stdlib Require Import ZArith Lia.
From stdpp Require Import base numbers list option gmap countable.
From S2P Require Import Prelude Xdp.
#[local] Open Scope Z_scope.

(** ** Compile-time features

    One flag per optional feature; the [#define]s of the file make some imply
    others, which is what the functions below compute. *)
(** @src xdp_progs/katran/lib/bpf/balancer_consts.h 328-355 optional features *)
Class Features := {
  ICMP_TOOBIG_GENERATION : bool;
  LPM_SRC_LOOKUP : bool;
  DEF_INLINE_DECAP : bool;
  DEF_INLINE_DECAP_IPIP : bool;
  INLINE_DECAP_GUE : bool;
  GUE_ENCAP : bool;
  KATRAN_INTROSPECTION : bool;
  LOCAL_DELIVERY_OPTIMIZATION : bool;
  TCP_SERVER_ID_ROUTING : bool;
  GLOBAL_LRU_LOOKUP : bool;
  DECAP_STRICT_DESTINATION : bool;
  SERVER_ID_HASH_MAP : bool;
  RECORD_FLOW_INFO : bool
}.

(** @src xdp_progs/katran/lib/bpf/balancer_consts.h 356-362 INLINE_DECAP *)
Definition INLINE_DECAP `{Features} : bool :=
  DEF_INLINE_DECAP || (LPM_SRC_LOOKUP && negb INLINE_DECAP_GUE).
(** @src xdp_progs/katran/lib/bpf/balancer_consts.h 364-368 INLINE_DECAP_IPIP *)
Definition INLINE_DECAP_IPIP `{Features} : bool := DEF_INLINE_DECAP_IPIP || INLINE_DECAP.
(** @src xdp_progs/katran/lib/bpf/balancer_consts.h 370-380 INLINE_DECAP_GENERIC *)
Definition INLINE_DECAP_GENERIC `{Features} : bool := INLINE_DECAP_IPIP || INLINE_DECAP_GUE.

(** ** Constants *)

(** @src xdp_progs/katran/lib/bpf/balancer_consts.h 23-25 BE_ETH_P_IP *)
Definition BE_ETH_P_IP : Z := 8.
(** @src xdp_progs/katran/lib/bpf/balancer_consts.h 26-26 BE_ETH_P_IPV6 *)
Definition BE_ETH_P_IPV6 : Z := 56710.
(** @src xdp_progs/katran/lib/bpf/balancer_consts.h 28-31 GUEV1_IPV6MASK *)
Definition GUEV1_IPV6MASK : Z := 0x30.
(** @src xdp_progs/katran/lib/bpf/balancer_consts.h 33-35 FURTHER_PROCESSING *)
Definition FURTHER_PROCESSING : Z := -1.
(** @src xdp_progs/katran/lib/bpf/balancer_consts.h 37-39 PCKT_FRAGMENTED *)
Definition PCKT_FRAGMENTED : Z := 65343.
(** @src xdp_progs/katran/lib/bpf/balancer_consts.h 41-41 IPV4_HDR_LEN_NO_OPT *)
Definition IPV4_HDR_LEN_NO_OPT : Z := 20.
(** @src xdp_progs/katran/lib/bpf/balancer_consts.h 45-48 RING_SIZE *)
Definition RING_SIZE : Z := 65537.
(** @src xdp_progs/katran/lib/bpf/balancer_consts.h 50-52 MAX_VIPS *)
Definition MAX_VIPS : Z := 512.
(** @src xdp_progs/katran/lib/bpf/balancer_consts.h 54-58 MAX_REALS *)
Definition MAX_REALS : Z := 4096.
(** The two variants of the server-id map.
    @src xdp_progs/katran/lib/bpf/balancer_consts.h 69-82 MAX_QUIC_REALS *)
Definition MAX_QUIC_REALS : Z := 0x00fffffe.
(** @src xdp_progs/katran/lib/bpf/balancer_consts.h 84-90 CTL_MAP_SIZE *)
Definition CTL_MAP_SIZE : Z := 16.
(** @src xdp_progs/katran/lib/bpf/balancer_consts.h 92-92 CH_RINGS_SIZE *)
Definition CH_RINGS_SIZE : Z := MAX_VIPS * RING_SIZE.
(** @src xdp_progs/katran/lib/bpf/balancer_consts.h 93-93 STATS_MAP_SIZE *)
Definition STATS_MAP_SIZE : Z := MAX_VIPS * 2.
(** @src xdp_progs/katran/lib/bpf/balancer_consts.h 95-97 QUIC_STATS_MAP_SIZE *)
Definition QUIC_STATS_MAP_SIZE : Z := 1.
Definition TPR_STATS_MAP_SIZE : Z := 1.
(** @src xdp_progs/katran/lib/bpf/balancer_consts.h 99-102 MAX_SUPPORTED_CPUS *)
Definition MAX_SUPPORTED_CPUS : Z := 128.
(** @src xdp_progs/katran/lib/bpf/balancer_consts.h 117-117 ONE_SEC *)
Definition ONE_SEC : Z := 1000000000.
(** [30000000000U] does not fit [unsigned int] and has type [unsigned long].
    @src xdp_progs/katran/lib/bpf/balancer_consts.h 119-122 LRU_UDP_TIMEOUT *)
Definition LRU_UDP_TIMEOUT : Z := 30000000000.

(** @src xdp_progs/katran/lib/bpf/balancer_consts.h 124-127 F_IPV6 *)
Definition F_IPV6 : Z := 1.
(** @src xdp_progs/katran/lib/bpf/balancer_consts.h 128-129 F_LOCAL_REAL *)
Definition F_LOCAL_REAL : Z := 2.
(** @src xdp_progs/katran/lib/bpf/balancer_consts.h 130-132 F_HASH_NO_SRC_PORT *)
Definition F_HASH_NO_SRC_PORT : Z := 1.
(** @src xdp_progs/katran/lib/bpf/balancer_consts.h 133-134 F_LRU_BYPASS *)
Definition F_LRU_BYPASS : Z := 2.
(** @src xdp_progs/katran/lib/bpf/balancer_consts.h 135-136 F_QUIC_VIP *)
Definition F_QUIC_VIP : Z := 4.
(** @src xdp_progs/katran/lib/bpf/balancer_consts.h 137-138 F_HASH_DPORT_ONLY *)
Definition F_HASH_DPORT_ONLY : Z := 8.
(** @src xdp_progs/katran/lib/bpf/balancer_consts.h 139-140 F_SRC_ROUTING *)
Definition F_SRC_ROUTING : Z := 16.
(** @src xdp_progs/katran/lib/bpf/balancer_consts.h 141-142 F_LOCAL_VIP *)
Definition F_LOCAL_VIP : Z := 32.
(** @src xdp_progs/katran/lib/bpf/balancer_consts.h 143-144 F_GLOBAL_LRU *)
Definition F_GLOBAL_LRU : Z := 64.
(** @src xdp_progs/katran/lib/bpf/balancer_consts.h 145-147 F_HASH_SRC_DST_PORT *)
Definition F_HASH_SRC_DST_PORT : Z := 128.
(** @src xdp_progs/katran/lib/bpf/balancer_consts.h 148-150 F_ICMP *)
Definition F_ICMP : Z := 1.
(** @src xdp_progs/katran/lib/bpf/balancer_consts.h 151-152 F_SYN_SET *)
Definition F_SYN_SET : Z := 2.
(** @src xdp_progs/katran/lib/bpf/balancer_consts.h 154-157 DEFAULT_TTL *)
Definition DEFAULT_TTL : Z := 64.
(** @src xdp_progs/katran/lib/bpf/balancer_consts.h 163-172 QUIC_LONG_HEADER *)
Definition QUIC_LONG_HEADER : Z := 0x80.
Definition QUIC_HANDSHAKE : Z := 0x20.
Definition QUIC_PACKET_TYPE_MASK : Z := 0x30.
(** @src xdp_progs/katran/lib/bpf/balancer_consts.h 174-178 QUIC_MIN_CONNID_LEN *)
Definition QUIC_MIN_CONNID_LEN : Z := 8.
(** @src xdp_progs/katran/lib/bpf/balancer_consts.h 179-182 QUIC_CONNID_VERSION_V1 *)
Definition QUIC_CONNID_VERSION_V1 : Z := 1.
(** @src xdp_progs/katran/lib/bpf/balancer_consts.h 183-185 QUIC_CONNID_VERSION_V2 *)
Definition QUIC_CONNID_VERSION_V2 : Z := 2.
(** @src xdp_progs/katran/lib/bpf/balancer_consts.h 186-189 QUIC_CONNID_VERSION_V3 *)
Definition QUIC_CONNID_VERSION_V3 : Z := 3.
(** @src xdp_progs/katran/lib/bpf/balancer_consts.h 191-197 TCP_HDR_OPT_KIND_TPR *)
Definition TCP_HDR_OPT_KIND_TPR : Z := 0xB7.
(** @src xdp_progs/katran/lib/bpf/balancer_consts.h 198-199 TCP_HDR_OPT_LEN_TPR *)
Definition TCP_HDR_OPT_LEN_TPR : Z := 6.
(** @src xdp_progs/katran/lib/bpf/balancer_consts.h 200-201 TCP_HDR_OPT_MAX_OPT_CHECKS *)
Definition TCP_HDR_OPT_MAX_OPT_CHECKS : nat := 15.
(** @src xdp_progs/katran/lib/bpf/balancer_consts.h 202-203 TCP_OPT_EOL *)
Definition TCP_OPT_EOL : Z := 0.
(** @src xdp_progs/katran/lib/bpf/balancer_consts.h 204-205 TCP_OPT_NOP *)
Definition TCP_OPT_NOP : Z := 1.
(** @src xdp_progs/katran/lib/bpf/balancer_consts.h 208-214 MAX_PCKT_SIZE *)
Definition MAX_PCKT_SIZE : Z := 1514.
(** @src xdp_progs/katran/lib/bpf/balancer_consts.h 216-218 ICMP_TOOBIG_SIZE *)
Definition ICMP_TOOBIG_SIZE : Z := 98.
(** @src xdp_progs/katran/lib/bpf/balancer_consts.h 219-219 ICMP6_TOOBIG_SIZE *)
Definition ICMP6_TOOBIG_SIZE : Z := 262.
(** @src xdp_progs/katran/lib/bpf/balancer_consts.h 221-221 ICMP6_TOOBIG_PAYLOAD_SIZE *)
Definition ICMP6_TOOBIG_PAYLOAD_SIZE : Z := ICMP6_TOOBIG_SIZE - 6.
(** @src xdp_progs/katran/lib/bpf/balancer_consts.h 222-222 ICMP_TOOBIG_PAYLOAD_SIZE *)
Definition ICMP_TOOBIG_PAYLOAD_SIZE : Z := ICMP_TOOBIG_SIZE - 6.
(** @src xdp_progs/katran/lib/bpf/balancer_consts.h 224-236 MAX_MTU_IN_PTB_TO_DROP *)
Definition MAX_MTU_IN_PTB_TO_DROP : Z := 1280.
(** @src xdp_progs/katran/lib/bpf/balancer_consts.h 240-241 LRU_CNTRS *)
Definition LRU_CNTRS : Z := 0.
(** @src xdp_progs/katran/lib/bpf/balancer_consts.h 242-242 LRU_MISS_CNTR *)
Definition LRU_MISS_CNTR : Z := 1.
(** @src xdp_progs/katran/lib/bpf/balancer_consts.h 243-243 NEW_CONN_RATE_CNTR *)
Definition NEW_CONN_RATE_CNTR : Z := 2.
(** @src xdp_progs/katran/lib/bpf/balancer_consts.h 244-244 FALLBACK_LRU_CNTR *)
Definition FALLBACK_LRU_CNTR : Z := 3.
(** @src xdp_progs/katran/lib/bpf/balancer_consts.h 245-246 ICMP_TOOBIG_CNTRS *)
Definition ICMP_TOOBIG_CNTRS : Z := 4.
(** @src xdp_progs/katran/lib/bpf/balancer_consts.h 247-248 LPM_SRC_CNTRS *)
Definition LPM_SRC_CNTRS : Z := 5.
(** @src xdp_progs/katran/lib/bpf/balancer_consts.h 249-250 REMOTE_ENCAP_CNTRS *)
Definition REMOTE_ENCAP_CNTRS : Z := 6.
(** @src xdp_progs/katran/lib/bpf/balancer_consts.h 252-253 GLOBAL_LRU_CNTR *)
Definition GLOBAL_LRU_CNTR : Z := 8.
(** @src xdp_progs/katran/lib/bpf/balancer_consts.h 254-255 CH_DROP_STATS *)
Definition CH_DROP_STATS : Z := 9.
(** @src xdp_progs/katran/lib/bpf/balancer_consts.h 256-257 DECAP_CNTR *)
Definition DECAP_CNTR : Z := 10.
(** @src xdp_progs/katran/lib/bpf/balancer_consts.h 258-259 QUIC_ICMP_STATS *)
Definition QUIC_ICMP_STATS : Z := 11.
(** @src xdp_progs/katran/lib/bpf/balancer_consts.h 260-261 ICMP_PTB_V6_STATS *)
Definition ICMP_PTB_V6_STATS : Z := 12.
(** @src xdp_progs/katran/lib/bpf/balancer_consts.h 262-263 ICMP_PTB_V4_STATS *)
Definition ICMP_PTB_V4_STATS : Z := 13.
(** @src xdp_progs/katran/lib/bpf/balancer_consts.h 270-274 MAX_CONN_RATE *)
Definition MAX_CONN_RATE : Z := 125000.
(** @src xdp_progs/katran/lib/bpf/balancer_consts.h 276-280 IPIP_V4_PREFIX *)
Definition IPIP_V4_PREFIX : Z := 4268.
(** @src xdp_progs/katran/lib/bpf/balancer_consts.h 282-288 IPIP_V6_PREFIX1 *)
Definition IPIP_V6_PREFIX1 : Z := 1.
(** @src xdp_progs/katran/lib/bpf/balancer_consts.h 290-292 IPIP_V6_PREFIX2 *)
Definition IPIP_V6_PREFIX2 : Z := 0.
(** @src xdp_progs/katran/lib/bpf/balancer_consts.h 294-296 IPIP_V6_PREFIX3 *)
Definition IPIP_V6_PREFIX3 : Z := 0.
(** [COPY_INNER_PACKET_TOS] is always defined, so [DEFAULT_TOS] is never used.
    @src xdp_progs/katran/lib/bpf/balancer_consts.h 298-306 COPY_INNER_PACKET_TOS *)
Definition COPY_INNER_PACKET_TOS : bool := true.
Definition DEFAULT_TOS : Z := 0.
(** @src xdp_progs/katran/lib/bpf/balancer_consts.h 308-311 GUE_DPORT *)
Definition GUE_DPORT : Z := 6080.
(** @src xdp_progs/katran/lib/bpf/balancer_consts.h 317-320 INIT_JHASH_SEED *)
Definition INIT_JHASH_SEED : Z := CH_RINGS_SIZE.
(** @src xdp_progs/katran/lib/bpf/balancer_consts.h 322-326 INIT_JHASH_SEED_V6 *)
Definition INIT_JHASH_SEED_V6 : Z := MAX_VIPS.
(** @src xdp_progs/katran/lib/bpf/balancer_consts.h 392-396 V4_SRC_INDEX *)
Definition V4_SRC_INDEX : Z := 0.
Definition V6_SRC_INDEX : Z := 1.
(** @src xdp_progs/katran/lib/bpf/balancer_consts.h 398-403 DST_MATCH_IN_LRU *)
Definition DST_MATCH_IN_LRU : Z := 0.
Definition DST_MISMATCH_IN_LRU : Z := 1.
Definition DST_NOT_FOUND_IN_LRU : Z := 2.
(** @src xdp_progs/katran/lib/bpf/introspection.h 17-24 MAX_EVENT_SIZE *)
Definition MAX_EVENT_SIZE : Z := 128.
Definition TCP_NONSYN_LRUMISS : Z := 0.
Definition PACKET_TOOBIG : Z := 1.
Definition QUIC_PACKET_DROP_NO_REAL : Z := 2.

(** Protocol numbers and ICMP types of the system headers. *)
Definition IPPROTO_ICMP : Z := 1.
Definition IPPROTO_IPIP : Z := 4.
Definition IPPROTO_TCP : Z := 6.
Definition IPPROTO_UDP : Z := 17.
Definition IPPROTO_IPV6 : Z := 41.
Definition IPPROTO_FRAGMENT : Z := 44.
Definition IPPROTO_ICMPV6 : Z := 58.
Definition ICMP_ECHOREPLY : Z := 0.
Definition ICMP_DEST_UNREACH : Z := 3.
Definition ICMP_ECHO : Z := 8.
Definition ICMP_HOST_UNREACH : Z := 1.
Definition ICMP_PORT_UNREACH : Z := 3.
Definition ICMP_FRAG_NEEDED : Z := 4.
Definition ICMPV6_DEST_UNREACH : Z := 1.
Definition ICMPV6_PKT_TOOBIG : Z := 2.
Definition ICMPV6_ECHO_REQUEST : Z := 128.
Definition ICMPV6_ECHO_REPLY : Z := 129.
Definition ICMPV6_ADDR_UNREACH : Z := 3.
Definition ICMPV6_PORT_UNREACH : Z := 4.

(** ** Structures *)

(** [__be32 a[4]]; a union with a [__be32] is word 0 of it. *)
Record v6addr := V6 { w0 : Z; w1 : Z; w2 : Z; w3 : Z }.
Definition v6_zero : v6addr := V6 0 0 0 0.
Definition set_w0 (a : v6addr) (x : Z) : v6addr := V6 x (w1 a) (w2 a) (w3 a).
Definition v6_of_bytes (bs : list Z) : v6addr :=
  V6 (le_join (take 4 bs)) (le_join (take 4 (drop 4 bs)))
     (le_join (take 4 (drop 8 bs))) (le_join (take 4 (drop 12 bs))).
Definition v6_bytes (a : v6addr) : list Z :=
  le_split 4 (w0 a) ++ le_split 4 (w1 a) ++ le_split 4 (w2 a) ++ le_split 4 (w3 a).

#[global] Instance v6addr_eq_dec : EqDecision v6addr.
Proof. solve_decision. Defined.
#[global] Instance v6addr_countable : Countable v6addr.
Proof.
  apply (inj_countable' (fun a => (w0 a, w1 a, w2 a, w3 a)) (fun '(a, b, c, d) => V6 a b c d)).
  now intros [].
Defined.

(** [ports] is the two 16-bit ports read as one little-endian word.
    @src xdp_progs/katran/lib/bpf/balancer_structs.h 25-40 flow_key *)
Record flow_key := FlowKey {
  srcv6 : v6addr; dstv6 : v6addr; port16_0 : Z; port16_1 : Z; fk_proto : Z }.
Definition fk_src (f : flow_key) : Z := w0 (srcv6 f).
Definition fk_dst (f : flow_key) : Z := w0 (dstv6 f).
Definition fk_ports (f : flow_key) : Z := port16_0 f + 65536 * port16_1 f.
Definition flow_zero : flow_key := FlowKey v6_zero v6_zero 0 0 0.

#[global] Instance flow_key_eq_dec : EqDecision flow_key.
Proof. solve_decision. Defined.
#[global] Instance flow_key_countable : Countable flow_key.
Proof.
  apply (inj_countable' (fun f => (srcv6 f, dstv6 f, port16_0 f, port16_1 f, fk_proto f))
           (fun '(a, b, c, d, e) => FlowKey a b c d e)).
  now intros [].
Defined.

(** @src xdp_progs/katran/lib/bpf/balancer_structs.h 42-49 packet_description *)
Record packet_description := PktDesc {
  pd_flow : flow_key; real_index : Z; pd_flags : Z; tos : Z }.
Definition pckt_zero : packet_description := PktDesc flow_zero 0 0 0.

(** Assignments to the fields of [pckt]. *)
Definition set_flow (g : flow_key -> flow_key) (p : packet_description) : packet_description :=
  PktDesc (g (pd_flow p)) (real_index p) (pd_flags p) (tos p).
Definition set_real_index (x : Z) (p : packet_description) : packet_description :=
  PktDesc (pd_flow p) x (pd_flags p) (tos p).
Definition or_flags (x : Z) (p : packet_description) : packet_description :=
  PktDesc (pd_flow p) (real_index p) (Z.lor (pd_flags p) x) (tos p).
Definition set_tos (x : Z) (p : packet_description) : packet_description :=
  PktDesc (pd_flow p) (real_index p) (pd_flags p) x.
Definition set_srcv6 (a : v6addr) : packet_description -> packet_description :=
  set_flow (fun f => FlowKey a (dstv6 f) (port16_0 f) (port16_1 f) (fk_proto f)).
Definition set_dstv6 (a : v6addr) : packet_description -> packet_description :=
  set_flow (fun f => FlowKey (srcv6 f) a (port16_0 f) (port16_1 f) (fk_proto f)).
Definition set_src (x : Z) : packet_description -> packet_description :=
  set_flow (fun f => FlowKey (set_w0 (srcv6 f) x) (dstv6 f) (port16_0 f) (port16_1 f) (fk_proto f)).
Definition set_dst (x : Z) : packet_description -> packet_description :=
  set_flow (fun f => FlowKey (srcv6 f) (set_w0 (dstv6 f) x) (port16_0 f) (port16_1 f) (fk_proto f)).
Definition set_port0 (x : Z) : packet_description -> packet_description :=
  set_flow (fun f => FlowKey (srcv6 f) (dstv6 f) x (port16_1 f) (fk_proto f)).
Definition set_port1 (x : Z) : packet_description -> packet_description :=
  set_flow (fun f => FlowKey (srcv6 f) (dstv6 f) (port16_0 f) x (fk_proto f)).
Definition set_proto (x : Z) : packet_description -> packet_description :=
  set_flow (fun f => FlowKey (srcv6 f) (dstv6 f) (port16_0 f) (port16_1 f) x).

(** The union is its 64-bit [value]; [mac] is the first six bytes of it.
    @src xdp_progs/katran/lib/bpf/balancer_structs.h 51-59 ctl_value *)
Record ctl_value := CtlValue { ctl_u64 : Z }.
Definition ctl_mac (c : ctl_value) : list Z := le_split 6 (ctl_u64 c).

(** @src xdp_progs/katran/lib/bpf/balancer_structs.h 61-69 vip_definition *)
Record vip_definition := VipDef { vipv6 : v6addr; vip_port : Z; vip_proto : Z }.
Definition vip_w0 (v : vip_definition) : Z := w0 (vipv6 v).
#[global] Instance vip_definition_eq_dec : EqDecision vip_definition.
Proof. solve_decision. Defined.
#[global] Instance vip_definition_countable : Countable vip_definition.
Proof.
  apply (inj_countable' (fun v => (vipv6 v, vip_port v, vip_proto v)) (fun '(a, b, c) => VipDef a b c)).
  now intros [].
Defined.

(** @src xdp_progs/katran/lib/bpf/balancer_structs.h 71-75 vip_meta *)
Record vip_meta := VipMeta { vip_flags : Z; vip_num : Z }.
(** @src xdp_progs/katran/lib/bpf/balancer_structs.h 77-81 real_pos_lru *)
Record real_pos_lru := RealPosLru { pos : Z; atime : Z }.
(** @src xdp_progs/katran/lib/bpf/balancer_structs.h 83-90 real_definition *)
Record real_definition := RealDef { rd_dstv6 : v6addr; rd_flags : Z }.
Definition rd_dst (r : real_definition) : Z := w0 (rd_dstv6 r).
Definition real_zero : real_definition := RealDef v6_zero 0.
(** @src xdp_progs/katran/lib/bpf/balancer_structs.h 92-96 lb_stats *)
Record lb_stats := LbStats { v1 : Z; v2 : Z }.
Definition stats_zero : lb_stats := LbStats 0 0.
(** @src xdp_progs/katran/lib/bpf/balancer_structs.h 98-102 v4_lpm_key *)
Record v4_lpm_key := V4Lpm { v4_prefixlen : Z; v4_addr : Z }.
(** @src xdp_progs/katran/lib/bpf/balancer_structs.h 104-108 v6_lpm_key *)
Record v6_lpm_key := V6Lpm { v6_prefixlen : Z; v6_addr : v6addr }.
(** @src xdp_progs/katran/lib/bpf/balancer_structs.h 110-115 address *)
Record address := Address { addrv6 : v6addr }.
#[global] Instance address_eq_dec : EqDecision address.
Proof. solve_decision. Defined.
#[global] Instance address_countable : Countable address.
Proof. apply (inj_countable' addrv6 Address). now intros []. Defined.
(** @src xdp_progs/katran/lib/bpf/balancer_structs.h 117-125 event_metadata *)
Record event_metadata := EventMeta { ev_event : Z; ev_pkt_size : Z; ev_data_len : Z }.
(** @src xdp_progs/katran/lib/bpf/balancer_structs.h 127-139 flow_debug_info *)
Record flow_debug_info := FlowDebug { l4_hopv6 : v6addr; this_hopv6 : v6addr }.
(** @src xdp_progs/katran/lib/bpf/balancer_structs.h 141-156 lb_quic_packets_stats *)
Record lb_quic_packets_stats := QuicStats {
  q_ch_routed : Z; q_cid_initial : Z; q_cid_invalid_server_id : Z;
  q_cid_invalid_server_id_sample : Z; q_cid_routed : Z; q_cid_unknown_real_dropped : Z;
  q_cid_v0 : Z; q_cid_v1 : Z; q_cid_v2 : Z; q_cid_v3 : Z;
  q_dst_match_in_lru : Z; q_dst_mismatch_in_lru : Z; q_dst_not_found_in_lru : Z }.
Definition quic_zero : lb_quic_packets_stats := QuicStats 0 0 0 0 0 0 0 0 0 0 0 0 0.
(** @src xdp_progs/katran/lib/bpf/balancer_structs.h 158-164 lb_tpr_packets_stats *)
Record lb_tpr_packets_stats := TprStats {
  t_ch_routed : Z; t_dst_mismatch_in_lru : Z; t_sid_routed : Z; t_tcp_syn : Z }.
Definition tpr_zero : lb_tpr_packets_stats := TprStats 0 0 0 0.

(** ** Maps *)

(** A BPF array of [n] elements: every element exists and starts as zero. *)
Definition array_lookup {V} (n : Z) (zero : V) (m : gmap Z V) (k : Z) : option V :=
  if (0 <=? k) && (k <? n) then Some (default zero (m !! k)) else None.
Definition array_update {V} (zero : V) (k : Z) (g : V -> V) (m : gmap Z V) : gmap Z V :=
  <[k := g (default zero (m !! k))]> m.

(** The maps that the control plane writes.  The longest-prefix-match maps are
    the kernel's, and are functions here. *)
Class Tables := {
  vip_map : gmap vip_definition vip_meta;
  ch_rings : gmap Z Z;
  reals : gmap Z real_definition;
  ctl_array : gmap Z ctl_value;
  server_id_map : gmap Z Z;
  lpm_src_v4 : v4_lpm_key -> option Z;
  lpm_src_v6 : v6_lpm_key -> option Z;
  decap_dst : gmap address Z;
  pckt_srcs : gmap Z real_definition;
  subprograms : bool
}.

(** @src xdp_progs/katran/lib/bpf/balancer_maps.h 31-38 vip_map *)
Definition lookup_vip `{Tables} (v : vip_definition) : option vip_meta := vip_map !! v.
(** @src xdp_progs/katran/lib/bpf/balancer_maps.h 66-73 ch_rings *)
Definition lookup_ch_ring `{Tables} (k : Z) : option Z := array_lookup CH_RINGS_SIZE 0 ch_rings k.
(** @src xdp_progs/katran/lib/bpf/balancer_maps.h 75-82 reals *)
Definition lookup_real `{Tables} (k : Z) : option real_definition :=
  array_lookup MAX_REALS real_zero reals k.
(** @src xdp_progs/katran/lib/bpf/balancer_maps.h 137-155 server_id_map *)
Definition lookup_server_id `{Features, Tables} (k : Z) : option Z :=
  if SERVER_ID_HASH_MAP then server_id_map !! k
  else array_lookup MAX_QUIC_REALS 0 server_id_map k.
(** @src xdp_progs/katran/lib/bpf/balancer_maps.h 157-164 lpm_src_v4 *)
Definition lookup_lpm_v4 `{Tables} (k : v4_lpm_key) : option Z := lpm_src_v4 k.
(** @src xdp_progs/katran/lib/bpf/balancer_maps.h 166-174 lpm_src_v6 *)
Definition lookup_lpm_v6 `{Tables} (k : v6_lpm_key) : option Z := lpm_src_v6 k.
(** @src xdp_progs/katran/lib/bpf/control_data_maps.h 31-41 ctl_array *)
Definition lookup_ctl `{Tables} (k : Z) : option ctl_value :=
  array_lookup CTL_MAP_SIZE (CtlValue 0) ctl_array k.
(** @src xdp_progs/katran/lib/bpf/control_data_maps.h 56-62 decap_dst *)
Definition lookup_decap_dst `{Tables} (a : address) : option Z := decap_dst !! a.
(** @src xdp_progs/katran/lib/bpf/control_data_maps.h 72-84 pckt_srcs *)
Definition lookup_pckt_src `{Tables} (k : Z) : option real_definition :=
  array_lookup 2 real_zero pckt_srcs k.

(** The maps that the data plane writes. *)
(** @src xdp_progs/katran/lib/bpf/balancer_maps.h 40-64 fallback_cache *)
Record kenv := KEnv {
  fallback_cache : gmap flow_key real_pos_lru;
  lru_mapping : gmap Z (gmap flow_key real_pos_lru);
  reals_stats : gmap Z lb_stats;
  lru_miss_stats : gmap Z Z;
  vip_miss_stats : gmap Z vip_definition;
  stats : gmap Z lb_stats;
  quic_stats_map : gmap Z lb_quic_packets_stats;
  decap_vip_stats : gmap Z lb_stats;
  tpr_stats_map : gmap Z lb_tpr_packets_stats;
  server_id_stats : gmap Z lb_stats;
  global_lru_maps : gmap Z (gmap flow_key Z);
  fallback_glru : gmap flow_key Z;
  flow_debug_maps : gmap Z (gmap flow_key flow_debug_info);
  event_pipe : list event_metadata
}.

Definition upd_fallback_cache g (e : kenv) : kenv :=
  KEnv (g (fallback_cache e)) (lru_mapping e) (reals_stats e) (lru_miss_stats e) (vip_miss_stats e) (stats e) (quic_stats_map e) (decap_vip_stats e) (tpr_stats_map e) (server_id_stats e) (global_lru_maps e) (fallback_glru e) (flow_debug_maps e) (event_pipe e).
Definition upd_lru_mapping g (e : kenv) : kenv :=
  KEnv (fallback_cache e) (g (lru_mapping e)) (reals_stats e) (lru_miss_stats e) (vip_miss_stats e) (stats e) (quic_stats_map e) (decap_vip_stats e) (tpr_stats_map e) (server_id_stats e) (global_lru_maps e) (fallback_glru e) (flow_debug_maps e) (event_pipe e).
Definition upd_reals_stats g (e : kenv) : kenv :=
  KEnv (fallback_cache e) (lru_mapping e) (g (reals_stats e)) (lru_miss_stats e) (vip_miss_stats e) (stats e) (quic_stats_map e) (decap_vip_stats e) (tpr_stats_map e) (server_id_stats e) (global_lru_maps e) (fallback_glru e) (flow_debug_maps e) (event_pipe e).
Definition upd_lru_miss_stats g (e : kenv) : kenv :=
  KEnv (fallback_cache e) (lru_mapping e) (reals_stats e) (g (lru_miss_stats e)) (vip_miss_stats e) (stats e) (quic_stats_map e) (decap_vip_stats e) (tpr_stats_map e) (server_id_stats e) (global_lru_maps e) (fallback_glru e) (flow_debug_maps e) (event_pipe e).
Definition upd_vip_miss_stats g (e : kenv) : kenv :=
  KEnv (fallback_cache e) (lru_mapping e) (reals_stats e) (lru_miss_stats e) (g (vip_miss_stats e)) (stats e) (quic_stats_map e) (decap_vip_stats e) (tpr_stats_map e) (server_id_stats e) (global_lru_maps e) (fallback_glru e) (flow_debug_maps e) (event_pipe e).
Definition upd_stats g (e : kenv) : kenv :=
  KEnv (fallback_cache e) (lru_mapping e) (reals_stats e) (lru_miss_stats e) (vip_miss_stats e) (g (stats e)) (quic_stats_map e) (decap_vip_stats e) (tpr_stats_map e) (server_id_stats e) (global_lru_maps e) (fallback_glru e) (flow_debug_maps e) (event_pipe e).
Definition upd_quic_stats_map g (e : kenv) : kenv :=
  KEnv (fallback_cache e) (lru_mapping e) (reals_stats e) (lru_miss_stats e) (vip_miss_stats e) (stats e) (g (quic_stats_map e)) (decap_vip_stats e) (tpr_stats_map e) (server_id_stats e) (global_lru_maps e) (fallback_glru e) (flow_debug_maps e) (event_pipe e).
Definition upd_decap_vip_stats g (e : kenv) : kenv :=
  KEnv (fallback_cache e) (lru_mapping e) (reals_stats e) (lru_miss_stats e) (vip_miss_stats e) (stats e) (quic_stats_map e) (g (decap_vip_stats e)) (tpr_stats_map e) (server_id_stats e) (global_lru_maps e) (fallback_glru e) (flow_debug_maps e) (event_pipe e).
Definition upd_tpr_stats_map g (e : kenv) : kenv :=
  KEnv (fallback_cache e) (lru_mapping e) (reals_stats e) (lru_miss_stats e) (vip_miss_stats e) (stats e) (quic_stats_map e) (decap_vip_stats e) (g (tpr_stats_map e)) (server_id_stats e) (global_lru_maps e) (fallback_glru e) (flow_debug_maps e) (event_pipe e).
Definition upd_server_id_stats g (e : kenv) : kenv :=
  KEnv (fallback_cache e) (lru_mapping e) (reals_stats e) (lru_miss_stats e) (vip_miss_stats e) (stats e) (quic_stats_map e) (decap_vip_stats e) (tpr_stats_map e) (g (server_id_stats e)) (global_lru_maps e) (fallback_glru e) (flow_debug_maps e) (event_pipe e).
Definition upd_global_lru_maps g (e : kenv) : kenv :=
  KEnv (fallback_cache e) (lru_mapping e) (reals_stats e) (lru_miss_stats e) (vip_miss_stats e) (stats e) (quic_stats_map e) (decap_vip_stats e) (tpr_stats_map e) (server_id_stats e) (g (global_lru_maps e)) (fallback_glru e) (flow_debug_maps e) (event_pipe e).
Definition upd_fallback_glru g (e : kenv) : kenv :=
  KEnv (fallback_cache e) (lru_mapping e) (reals_stats e) (lru_miss_stats e) (vip_miss_stats e) (stats e) (quic_stats_map e) (decap_vip_stats e) (tpr_stats_map e) (server_id_stats e) (global_lru_maps e) (g (fallback_glru e)) (flow_debug_maps e) (event_pipe e).
Definition upd_flow_debug_maps g (e : kenv) : kenv :=
  KEnv (fallback_cache e) (lru_mapping e) (reals_stats e) (lru_miss_stats e) (vip_miss_stats e) (stats e) (quic_stats_map e) (decap_vip_stats e) (tpr_stats_map e) (server_id_stats e) (global_lru_maps e) (fallback_glru e) (g (flow_debug_maps e)) (event_pipe e).
Definition upd_event_pipe g (e : kenv) : kenv :=
  KEnv (fallback_cache e) (lru_mapping e) (reals_stats e) (lru_miss_stats e) (vip_miss_stats e) (stats e) (quic_stats_map e) (decap_vip_stats e) (tpr_stats_map e) (server_id_stats e) (global_lru_maps e) (fallback_glru e) (flow_debug_maps e) (g (event_pipe e)).

(** A run of the data plane. *)
Notation kat := (xdp kenv).

(** *** Statistics

    A pointer to an element of an array map is its index: [stats_ptr k] is the
    result of [bpf_map_lookup_elem(&stats, &k)]. *)
Definition array_ptr (n k : Z) : option Z := if (0 <=? k) && (k <? n) then Some k else None.

(** [x += n] on a [__u64] field. *)
Definition add_v1 (n : Z) (s : lb_stats) : lb_stats := LbStats (u64 (v1 s + n)) (v2 s).
Definition add_v2 (n : Z) (s : lb_stats) : lb_stats := LbStats (v1 s) (u64 (v2 s + n)).

(** @src xdp_progs/katran/lib/bpf/balancer_maps.h 110-117 stats *)
Definition stats_ptr (k : Z) : kat (option Z) := mret (array_ptr STATS_MAP_SIZE k).
Definition stats_get (k : Z) : kat lb_stats := asks (fun e => default stats_zero (stats e !! k)).
Definition stats_upd (k : Z) (g : lb_stats -> lb_stats) : kat unit :=
  modify (upd_stats (array_update stats_zero k g)).
(** @src xdp_progs/katran/lib/bpf/balancer_maps.h 84-91 reals_stats *)
Definition reals_stats_ptr (k : Z) : kat (option Z) := mret (array_ptr MAX_REALS k).
Definition reals_stats_upd (k : Z) (g : lb_stats -> lb_stats) : kat unit :=
  modify (upd_reals_stats (array_update stats_zero k g)).
(** @src xdp_progs/katran/lib/bpf/balancer_maps.h 93-100 lru_miss_stats *)
Definition lru_miss_stats_ptr (k : Z) : kat (option Z) := mret (array_ptr MAX_REALS k).
Definition lru_miss_stats_upd (k : Z) (g : Z -> Z) : kat unit :=
  modify (upd_lru_miss_stats (array_update 0 k g)).
(** @src xdp_progs/katran/lib/bpf/balancer_maps.h 102-108 vip_miss_stats *)
Definition vip_miss_stats_ptr (k : Z) : kat (option Z) := mret (array_ptr 1 k).
Definition vip_def_zero : vip_definition := VipDef v6_zero 0 0.
Definition vip_miss_stats_get (k : Z) : kat vip_definition :=
  asks (fun e => default vip_def_zero (vip_miss_stats e !! k)).
Definition vip_miss_stats_upd (k : Z) (g : vip_definition -> vip_definition) : kat unit :=
  modify (upd_vip_miss_stats (array_update vip_def_zero k g)).
(** @src xdp_progs/katran/lib/bpf/balancer_maps.h 119-126 quic_stats_map *)
Definition quic_stats_ptr (k : Z) : kat (option Z) := mret (array_ptr QUIC_STATS_MAP_SIZE k).
Definition quic_stats_upd (k : Z) (g : lb_quic_packets_stats -> lb_quic_packets_stats) : kat unit :=
  modify (upd_quic_stats_map (array_update quic_zero k g)).
(** @src xdp_progs/katran/lib/bpf/balancer_maps.h 128-135 decap_vip_stats *)
Definition decap_vip_stats_ptr (k : Z) : kat (option Z) := mret (array_ptr MAX_VIPS k).
Definition decap_vip_stats_upd (k : Z) (g : lb_stats -> lb_stats) : kat unit :=
  modify (upd_decap_vip_stats (array_update stats_zero k g)).
(** @src xdp_progs/katran/lib/bpf/balancer_maps.h 204-211 tpr_stats_map *)
Definition tpr_stats_ptr (k : Z) : kat (option Z) := mret (array_ptr TPR_STATS_MAP_SIZE k).
Definition tpr_stats_upd (k : Z) (g : lb_tpr_packets_stats -> lb_tpr_packets_stats) : kat unit :=
  modify (upd_tpr_stats_map (array_update tpr_zero k g)).
(** @src xdp_progs/katran/lib/bpf/balancer_maps.h 213-219 server_id_stats *)
Definition server_id_stats_ptr (k : Z) : kat (option Z) := mret (array_ptr MAX_VIPS k).
Definition server_id_stats_upd (k : Z) (g : lb_stats -> lb_stats) : kat unit :=
  modify (upd_server_id_stats (array_update stats_zero k g)).

(** *** Connection tables

    [lru_map] in the code is a [void*]: the LRU map of this CPU, the fallback
    cache, or one of the global LRU maps.  Which entry an LRU map evicts when it
    is full is the kernel's choice. *)
Class LruPolicy := {
  lru_insert : forall V, gmap flow_key V -> flow_key -> V -> gmap flow_key V
}.
Arguments lru_insert {_ V}.

Class LruPolicyLaws (P : LruPolicy) : Prop := {
  lru_insert_same V (m : gmap flow_key V) k v : lru_insert m k v !! k = Some v;
  lru_insert_other V (m : gmap flow_key V) k v k' :
    k' <> k -> lru_insert m k v !! k' = m !! k' \/ lru_insert m k v !! k' = None
}.

Inductive lru_ref := LruCpu (cpu : Z) | LruFallback | GlruCpu (cpu : Z) | GlruFallback.

(** The LRU map of a CPU, when the control plane has created one.
    @src xdp_progs/katran/lib/bpf/balancer_maps.h 49-64 lru_mapping *)
Definition lru_mapping_lookup (cpu : Z) : kat (option lru_ref) :=
  asks (fun e => if (0 <=? cpu) && (cpu <? MAX_SUPPORTED_CPUS) then
                   (fun _ => LruCpu cpu) <$> lru_mapping e !! cpu else None).
(** @src xdp_progs/katran/lib/bpf/balancer_maps.h 178-200 global_lru_maps *)
Definition global_lru_lookup (cpu : Z) : kat (option lru_ref) :=
  asks (fun e => if (0 <=? cpu) && (cpu <? MAX_SUPPORTED_CPUS) then
                   (fun _ => GlruCpu cpu) <$> global_lru_maps e !! cpu else None).

(** The contents of a connection table; a global LRU holds only the position. *)
Definition lru_find (e : kenv) (r : lru_ref) (f : flow_key) : option real_pos_lru :=
  match r with
  | LruCpu c => m ← lru_mapping e !! c; m !! f
  | LruFallback => fallback_cache e !! f
  | GlruCpu c => m ← global_lru_maps e !! c; p ← m !! f; Some (RealPosLru p 0)
  | GlruFallback => p ← fallback_glru e !! f; Some (RealPosLru p 0)
  end.
Definition lru_lookup (r : lru_ref) (f : flow_key) : kat (option real_pos_lru) :=
  asks (fun e => lru_find e r f).
(** Assignments through the pointer to an element. *)
Definition lru_alter (r : lru_ref) (f : flow_key) (g : real_pos_lru -> real_pos_lru) : kat unit :=
  modify (match r with
          | LruCpu c => upd_lru_mapping (alter (alter g f) c)
          | LruFallback => upd_fallback_cache (alter g f)
          | GlruCpu c => upd_global_lru_maps (alter (alter (fun p => pos (g (RealPosLru p 0))) f) c)
          | GlruFallback => upd_fallback_glru (alter (fun p => pos (g (RealPosLru p 0))) f)
          end).
(** [bpf_map_update_elem(lru_map, &flow, &v, BPF_ANY)]. *)
Definition lru_update `{LruPolicy} (r : lru_ref) (f : flow_key) (v : real_pos_lru) : kat unit :=
  modify (match r with
          | LruCpu c => upd_lru_mapping (alter (fun m => lru_insert m f v) c)
          | LruFallback => upd_fallback_cache (fun m => lru_insert m f v)
          | GlruCpu c => upd_global_lru_maps (alter (fun m => lru_insert m f (pos v)) c)
          | GlruFallback => upd_fallback_glru (fun m => lru_insert m f (pos v))
          end).

(** *** Flags *)
Definition has (flags f : Z) : bool := nz (Z.land flags f).

Lemma array_ptr_some n k p : array_ptr n k = Some p <-> p = k /\ 0 <= k < n.
Proof.
  unfold array_ptr. destruct (Z.leb_spec 0 k), (Z.ltb_spec k n); simpl; split; intros; try congruence;
    try lia; try (split; [congruence|lia]).
  destruct H1 as [-> _]. done.
Qed.
Lemma array_ptr_in n k : 0 <= k < n -> array_ptr n k = Some k.
Proof. intros. now apply array_ptr_some. Qed.
