(* ===== verification/KatranCsum.v ===== *)
(** * Katran: checksums and outer headers

    csum_helpers.h and encap_helpers.h under xdp_progs/katran/lib/bpf: folding a
    one's complement sum, the IPv4 and layer-4 checksums, the RFC 1624 update
    for GUE, and the functions that fill an outer IPv4, IPv6 or UDP header. *)
From Stdlib Require Import ZArith Lia Setoid.
From stdpp Require Import base numbers list option.
From S2P Require Import Prelude Xdp OnesComplement KatranDefs.
#[local] Open Scope Z_scope.

(** ** csum_helpers.h *)

(** One turn of the loop of [csum_fold_helper].
    @src xdp_progs/katran/lib/bpf/csum_helpers.h 34-37 csum_fold_helper *)
Definition csum_fold_step (csum : Z) : Z :=
  if nz (Z.shiftr csum 16) then u64 (Z.land csum 65535 + Z.shiftr csum 16) else csum.

(** @src xdp_progs/katran/lib/bpf/csum_helpers.h 30-39 csum_fold_helper *)
Definition csum_fold_helper (csum : Z) : Z := u16 (Z.lnot (Nat.iter 4 csum_fold_step csum)).

(** @src xdp_progs/katran/lib/bpf/csum_helpers.h 41-43 min_helper *)
Definition min_helper (a b : Z) : Z := if a <? b then a else b.

Section csum.
Context {E : Type} {H : XdpHelpers}.

(** [data_start] is an offset into the packet.
    @src xdp_progs/katran/lib/bpf/csum_helpers.h 45-49 ipv4_csum *)
Definition ipv4_csum (data_start data_size csum : Z) : xdp E Z :=
  bs ← load (Z.to_nat data_size) data_start;
  let csum := u64 (h_csum_diff [] bs (u32 csum)) in
  mret (csum_fold_helper csum).

(** The loop over the ten half-words of the header.
    @src xdp_progs/katran/lib/bpf/csum_helpers.h 54-58 ipv4_csum_inline *)
Fixpoint csum_halfwords (n : nat) (next_iph_u16 csum : Z) : xdp E Z :=
  match n with
  | O => mret csum
  | S n => w ← load16 next_iph_u16; csum_halfwords n (next_iph_u16 + 2) (u64 (csum + w))
  end.

(** @src xdp_progs/katran/lib/bpf/csum_helpers.h 51-60 ipv4_csum_inline *)
Definition ipv4_csum_inline (iph csum : Z) : xdp E Z :=
  csum ← csum_halfwords (Z.to_nat (Z.shiftr 20 1)) iph csum;
  mret (csum_fold_helper csum).

(** [bpf_csum_diff(0, 0, data, size, csum)] with [data] in the packet. *)
Definition push (off : Z) (size : nat) (csum : Z) : xdp E Z :=
  bs ← load size off; mret (h_csum_diff [] bs (u32 csum)).
Definition pull (off : Z) (size : nat) (csum : Z) : xdp E Z :=
  bs ← load size off; mret (h_csum_diff bs [] (u32 csum)).
(** The same with [data] a [__u32] on the stack. *)
Definition push_u32 (tmp csum : Z) : Z := h_csum_diff [] (le_split 4 tmp) (u32 csum).
Definition pull_u32 (tmp csum : Z) : Z := h_csum_diff (le_split 4 tmp) [] (u32 csum).

(** @src xdp_progs/katran/lib/bpf/csum_helpers.h 62-73 ipv4_l4_csum *)
Definition ipv4_l4_csum (data_start data_size csum iph : Z) : xdp E Z :=
  csum ← push (iph + 12) 4 csum; let csum := u64 csum in
  csum ← push (iph + 16) 4 csum; let csum := u64 csum in
  protocol ← load8 (iph + 9);
  let csum := u64 (push_u32 (bswap32 protocol) csum) in
  let csum := u64 (push_u32 (bswap32 (u32 data_size)) csum) in
  csum ← push data_start (Z.to_nat data_size) csum; let csum := u64 csum in
  mret (csum_fold_helper csum).

(** @src xdp_progs/katran/lib/bpf/csum_helpers.h 75-88 ipv6_csum *)
Definition ipv6_csum (data_start data_size csum ip6h : Z) : xdp E Z :=
  csum ← push (ip6h + 8) 16 csum; let csum := u64 csum in
  csum ← push (ip6h + 24) 16 csum; let csum := u64 csum in
  let csum := u64 (push_u32 (bswap32 (u32 data_size)) csum) in
  nexthdr ← load8 (ip6h + 6);
  let csum := u64 (push_u32 (bswap32 nexthdr) csum) in
  csum ← push data_start (Z.to_nat data_size) csum; let csum := u64 csum in
  mret (csum_fold_helper csum).

(** The result of the four functions below is [inl ret] when [ret < 0] was
    returned, and [inr csum] when they returned 0 with [*csum] updated.  [step]
    is their repeated [if (ret < 0) return ret; *csum = ret;]. *)
Definition step (ret : Z) : Z + Z := if ret <? 0 then inl ret else inr (u64 ret).

(** Continue with the new sum, or return the error. *)
Definition and_then (r : Z + Z) (k : Z -> xdp E (Z + Z)) : xdp E (Z + Z) :=
  match r with inl e => mret (inl e) | inr csum => k csum end.

(** @src xdp_progs/katran/lib/bpf/csum_helpers.h 95-127 add_pseudo_ipv6_header *)
Definition add_pseudo_ipv6_header (ip6h csum : Z) : xdp E (Z + Z) :=
  ret ← push (ip6h + 8) 16 csum;
  and_then (step ret) (fun csum =>
  ret ← push (ip6h + 24) 16 csum;
  and_then (step ret) (fun csum =>
  payload_len ← load16 (ip6h + 4);
  let tmp := bswap32 (bswap16 payload_len) in
  and_then (step (push_u32 tmp csum)) (fun csum =>
  nexthdr ← load8 (ip6h + 6);
  let tmp := bswap32 nexthdr in
  and_then (step (push_u32 tmp csum)) (fun csum => mret (inr csum))))).

(** @src xdp_progs/katran/lib/bpf/csum_helpers.h 129-158 rem_pseudo_ipv6_header *)
Definition rem_pseudo_ipv6_header (ip6h csum : Z) : xdp E (Z + Z) :=
  ret ← pull (ip6h + 8) 16 csum;
  and_then (step ret) (fun csum =>
  ret ← pull (ip6h + 24) 16 csum;
  and_then (step ret) (fun csum =>
  payload_len ← load16 (ip6h + 4);
  let tmp := bswap32 (bswap16 payload_len) in
  and_then (step (pull_u32 tmp csum)) (fun csum =>
  nexthdr ← load8 (ip6h + 6);
  let tmp := bswap32 nexthdr in
  and_then (step (pull_u32 tmp csum)) (fun csum => mret (inr csum))))).

(** [tot_len - sizeof(struct iphdr)] is computed in [size_t] and truncated.
    @src xdp_progs/katran/lib/bpf/csum_helpers.h 160-189 add_pseudo_ipv4_header *)
Definition add_pseudo_ipv4_header (iph csum : Z) : xdp E (Z + Z) :=
  ret ← push (iph + 12) 4 csum;
  and_then (step ret) (fun csum =>
  ret ← push (iph + 16) 4 csum;
  and_then (step ret) (fun csum =>
  tot_len ← load16 (iph + 2);
  let tmp := bswap32 (u32 (bswap16 tot_len - 20)) in
  and_then (step (push_u32 tmp csum)) (fun csum =>
  protocol ← load8 (iph + 9);
  let tmp := bswap32 protocol in
  and_then (step (push_u32 tmp csum)) (fun csum => mret (inr csum))))).

(** @src xdp_progs/katran/lib/bpf/csum_helpers.h 191-220 rem_pseudo_ipv4_header *)
Definition rem_pseudo_ipv4_header (iph csum : Z) : xdp E (Z + Z) :=
  ret ← pull (iph + 12) 4 csum;
  and_then (step ret) (fun csum =>
  ret ← pull (iph + 16) 4 csum;
  and_then (step ret) (fun csum =>
  tot_len ← load16 (iph + 2);
  let tmp := bswap32 (u32 (bswap16 tot_len - 20)) in
  and_then (step (pull_u32 tmp csum)) (fun csum =>
  protocol ← load8 (iph + 9);
  let tmp := bswap32 protocol in
  and_then (step (pull_u32 tmp csum)) (fun csum => mret (inr csum))))).

(** The common shape of the three GUE checksums: the result is [None] for
    [return false], and the folded checksum otherwise. *)
Definition or_fail (m : xdp E (Z + Z)) (k : Z -> xdp E (option Z)) : xdp E (option Z) :=
  r ← m; match r with inl _ => mret None | inr csum => k csum end.

(** @src xdp_progs/katran/lib/bpf/csum_helpers.h 234-268 gue_csum_v6 *)
Definition gue_csum_v6 (outer_ip6h udph inner_ip6h csum_in_hdr : Z) : xdp E (option Z) :=
  let seed := Z.land (Z.lnot csum_in_hdr) 65535 in
  let orig_csum := u32 csum_in_hdr in
  or_fail (mret (step (push_u32 orig_csum seed))) (fun csum =>
  or_fail (rem_pseudo_ipv6_header inner_ip6h csum) (fun csum =>
  or_fail (ret ← push inner_ip6h 40 csum; mret (step ret)) (fun csum =>
  or_fail (ret ← push udph 8 csum; mret (step ret)) (fun csum =>
  or_fail (add_pseudo_ipv6_header outer_ip6h csum) (fun csum =>
  mret (Some (csum_fold_helper csum))))))).

(** @src xdp_progs/katran/lib/bpf/csum_helpers.h 270-302 gue_csum_v4 *)
Definition gue_csum_v4 (outer_iph udph inner_iph csum_in_hdr : Z) : xdp E (option Z) :=
  let seed := Z.land (Z.lnot csum_in_hdr) 65535 in
  let orig_csum := u32 csum_in_hdr in
  or_fail (mret (step (push_u32 orig_csum seed))) (fun csum =>
  or_fail (rem_pseudo_ipv4_header inner_iph csum) (fun csum =>
  or_fail (ret ← push inner_iph 20 csum; mret (step ret)) (fun csum =>
  or_fail (ret ← push udph 8 csum; mret (step ret)) (fun csum =>
  or_fail (add_pseudo_ipv4_header outer_iph csum) (fun csum =>
  mret (Some (csum_fold_helper csum))))))).

(** @src xdp_progs/katran/lib/bpf/csum_helpers.h 304-336 gue_csum_v4_in_v6 *)
Definition gue_csum_v4_in_v6 (outer_ip6h udph inner_iph csum_in_hdr : Z) : xdp E (option Z) :=
  let seed := Z.land (Z.lnot csum_in_hdr) 65535 in
  let orig_csum := u32 csum_in_hdr in
  or_fail (mret (step (push_u32 orig_csum seed))) (fun csum =>
  or_fail (rem_pseudo_ipv4_header inner_iph csum) (fun csum =>
  or_fail (ret ← push inner_iph 20 csum; mret (step ret)) (fun csum =>
  or_fail (ret ← push udph 8 csum; mret (step ret)) (fun csum =>
  or_fail (add_pseudo_ipv6_header outer_ip6h csum) (fun csum =>
  mret (Some (csum_fold_helper csum))))))).

(** ** encap_helpers.h *)

(** @src xdp_progs/katran/lib/bpf/encap_helpers.h 32-38 create_encap_ipv6_src *)
Definition create_encap_ipv6_src (port src : Z) : v6addr :=
  V6 IPIP_V6_PREFIX1 IPIP_V6_PREFIX2 IPIP_V6_PREFIX3 (Z.lxor src port).

(** @src xdp_progs/katran/lib/bpf/encap_helpers.h 40-47 create_encap_ipv4_src *)
Definition create_encap_ipv4_src (port src : Z) : Z :=
  let ip_suffix := bswap16 port in
  let ip_suffix := u32 (Z.shiftl ip_suffix 16) in
  let ip_suffix := Z.lxor ip_suffix src in
  Z.lor (Z.land 0xFFFF0000 ip_suffix) IPIP_V4_PREFIX.

(** [version] and [ihl] are the two halves of byte 0; writing one keeps the other.
    @src xdp_progs/katran/lib/bpf/encap_helpers.h 49-74 create_v4_hdr *)
Definition create_v4_hdr (iph tos saddr daddr pkt_bytes proto : Z) : xdp E unit :=
  let csum := 0 in
  b ← load8 iph; store8 iph (Z.lor (Z.land b 0x0f) (Z.shiftl 4 4)) ;;
  b ← load8 iph; store8 iph (Z.lor (Z.land b 0xf0) 5) ;;
  store16 (iph + 6) 0 ;;
  store8 (iph + 9) proto ;;
  store16 (iph + 10) 0 ;;
  store8 (iph + 1) (if COPY_INNER_PACKET_TOS then tos else DEFAULT_TOS) ;;
  store16 (iph + 2) (bswap16 (u16 (pkt_bytes + 20))) ;;
  store16 (iph + 4) 0 ;;
  store32 (iph + 16) daddr ;;
  store32 (iph + 12) saddr ;;
  store8 (iph + 8) DEFAULT_TTL ;;
  csum ← ipv4_csum_inline iph csum;
  store16 (iph + 10) csum.

(** [priority] is the low half and [version] the high half of byte 0.
    @src xdp_progs/katran/lib/bpf/encap_helpers.h 76-96 create_v6_hdr *)
Definition create_v6_hdr (ip6h tc : Z) (saddr daddr : v6addr) (payload_len proto : Z) : xdp E unit :=
  b ← load8 ip6h; store8 ip6h (Z.lor (Z.land b 0x0f) (Z.shiftl 6 4)) ;;
  store (ip6h + 1) [0; 0; 0] ;;
  (if COPY_INNER_PACKET_TOS then
    b ← load8 ip6h; store8 ip6h (Z.lor (Z.land b 0xf0) (Z.shiftr (Z.land tc 0xF0) 4)) ;;
    store8 (ip6h + 1) (Z.shiftl (Z.land tc 0x0F) 4)
  else
    b ← load8 ip6h; store8 ip6h (Z.lor (Z.land b 0xf0) DEFAULT_TOS)) ;;
  store8 (ip6h + 6) proto ;;
  store16 (ip6h + 4) (bswap16 payload_len) ;;
  store8 (ip6h + 7) DEFAULT_TTL ;;
  store (ip6h + 8) (v6_bytes saddr) ;;
  store (ip6h + 24) (v6_bytes daddr).

(** @src xdp_progs/katran/lib/bpf/encap_helpers.h 98-108 create_udp_hdr *)
Definition create_udp_hdr (udph sport dport len csum : Z) : xdp E unit :=
  store16 udph sport ;;
  store16 (udph + 2) (bswap16 dport) ;;
  store16 (udph + 4) (bswap16 len) ;;
  store16 (udph + 6) csum.
End csum.

(** ** Folding is complete after four turns *)

Lemma csum_fold_step_spec x k s :
  1 <= k -> x <= 65536 * k + 65534 -> is_u64 x -> rep x s ->
  csum_fold_step x <= k + 65534 /\ is_u64 (csum_fold_step x) /\ rep (csum_fold_step x) s.
Proof.
  intros Hk Hx Hu Hr. unfold csum_fold_step. rewrite shiftr_16.
  assert (0 <= x) by apply Hr. unfold is_u64 in Hu.
  destruct (nz (x / 65536)) eqn:Hn.
  - assert (u64 (Z.land x 65535 + x / 65536) = fold16 x) as ->.
    { unfold fold16. rewrite shiftr_16. apply u64_id. rewrite land_u16. unfold is_u64. clear -Hu H. zlia. }
    split; [rewrite fold16_arith; zlia|]. split; [|now apply rep_fold16].
    rewrite fold16_arith. unfold is_u64. zlia.
  - apply nz_false in Hn. split; [zlia|]. split; [exact Hu|done].
Qed.

Lemma csum_fold_helper_rep x s :
  is_u64 x -> rep x s -> csum_fold_helper x = 65535 - oc_norm s.
Proof.
  intros Hu Hr. unfold csum_fold_helper.
  change (Nat.iter 4 csum_fold_step x)
    with (csum_fold_step (csum_fold_step (csum_fold_step (csum_fold_step x)))).
  destruct (csum_fold_step_spec x 281474976710656 s) as (B1 & U1 & R1);
    [lia|unfold is_u64 in Hu; lia|done|done|].
  destruct (csum_fold_step_spec (csum_fold_step x) 4294967296 s ltac:(lia) ltac:(lia) U1 R1) as (B2 & U2 & R2).
  destruct (csum_fold_step_spec (csum_fold_step (csum_fold_step x)) 65536 s ltac:(lia) ltac:(lia) U2 R2) as (B3 & U3 & R3).
  destruct (csum_fold_step_spec (csum_fold_step (csum_fold_step (csum_fold_step x))) 1 s ltac:(lia) ltac:(lia) U3 R3) as (B4 & U4 & R4).
  rewrite <- (rep_norm _ _ R4) by lia.
  generalize dependent (csum_fold_step (csum_fold_step (csum_fold_step (csum_fold_step x)))).
  intros c B4 U4 R4. assert (0 <= c) by apply R4.
  rewrite lnot_arith. unfold u16. zlia.
Qed.

(** For every 64-bit accumulator the four conditional folds of
    [csum_fold_helper] end in a 16-bit value, and the function returns its one's
    complement: 65535 minus the normalised one's complement sum. *)
Lemma csum_fold_helper_correct (csum : Z) :
  is_u64 csum -> csum_fold_helper csum = 65535 - oc_norm csum.
Proof. intros Hu. apply csum_fold_helper_rep; [done|]. apply rep_refl. apply Hu. Qed.

Lemma csum_fold_helper_witness :
  csum_fold_helper 18446744073709551615 = 65535 - oc_norm 18446744073709551615.
Proof. apply (csum_fold_helper_correct 18446744073709551615). done. Defined.

(** ** The header checksum of a slice of the packet *)

Lemma load16_eq {E} (s : xst E) off bs :
  slice off 2 (f_data (x_frame s)) = Some bs -> load16 off s = Some (le_join bs, s).
Proof. intros Hs. unfold load16, mbind, xdp_bind, load. now rewrite Hs. Qed.

Lemma slice_split off n m l bs :
  slice off (n + m) l = Some bs ->
  slice off n l = Some (take n bs) /\ slice (off + Z.of_nat n) m l = Some (drop n bs).
Proof.
  intros Hs. apply slice_inv in Hs as (H0 & H1 & Hl & ->).
  unfold slice. destruct (Z.ltb_spec off 0); [lia|].
  destruct (Z.ltb_spec (off + Z.of_nat n) 0); [lia|]. cbv zeta.
  replace (Z.to_nat (off + Z.of_nat n)) with (Z.to_nat off + n)%nat by lia.
  rewrite <- drop_drop. rewrite length_take in Hl.
  set (d := drop (Z.to_nat off) l) in *.
  rewrite take_take, Nat.min_l by lia. rewrite <- take_drop_commute.
  split.
  - rewrite length_take. now rewrite (proj2 (Nat.eqb_eq _ _)) by lia.
  - rewrite length_take, length_drop. now rewrite (proj2 (Nat.eqb_eq _ _)) by lia.
Qed.

Lemma csum_halfwords_eq {E} n off c (s : xst E) bs :
  slice off (2 * n) (f_data (x_frame s)) = Some bs -> bytes_ok bs ->
  0 <= c -> c + 65535 * Z.of_nat n < 18446744073709551616 ->
  csum_halfwords n off c s = Some (c + sum16 bs, s).
Proof.
  revert off c bs. induction n as [|n IH]; intros off c bs Hs Hb Hc Hn; cbn [csum_halfwords].
  - apply slice_inv in Hs as (_ & _ & Hl & _). destruct bs; [|done].
    simpl sum16. now rewrite Z.add_0_r.
  - replace (2 * S n)%nat with (2 + 2 * n)%nat in Hs by lia.
    apply slice_split in Hs as Hs2. destruct Hs2 as [H1 H2].
    pose proof (slice_inv _ _ _ _ Hs) as (_ & _ & Hl & _).
    destruct bs as [|b0 [|b1 bs]]; [done|done|]. cbn [take drop] in H1, H2.
    rewrite !bytes_ok_cons in Hb. destruct Hb as (Hb0 & Hb1 & Hbs). unfold is_u8 in *.
    unfold mbind, xdp_bind. rewrite (load16_eq _ _ _ H1). rewrite drop_0 in H2.
    set (w := le_join (b0 :: b1 :: take 0 bs)).
    assert (w = b0 + 256 * b1) as Hw by (unfold w; simpl; lia). clearbody w.
        rewrite u64_id by (unfold is_u64; lia).
    change (Z.of_nat 2) with 2 in H2. rewrite (IH (off + 2) (c + w) bs H2 Hbs) by lia.
    change (sum16 (b0 :: b1 :: bs)) with (b0 + 256 * b1 + sum16 bs).
    replace (c + w + sum16 bs) with (c + (b0 + 256 * b1 + sum16 bs)) by lia. done.
Qed.

(** [ipv4_csum_inline] computes the complement of the folded sum of the header,
    and changes nothing. *)
Lemma ipv4_csum_inline_eq {E} off (s : xst E) bs :
  slice off 20 (f_data (x_frame s)) = Some bs -> bytes_ok bs ->
  ipv4_csum_inline off 0 s = Some (65535 - oc_norm (sum16 bs), s).
Proof.
  intros Hs Hb. unfold ipv4_csum_inline. change (Z.to_nat (Z.shiftr 20 1)) with 10%nat.
  unfold mbind, xdp_bind. rewrite (csum_halfwords_eq 10 off 0 s bs Hs Hb) by lia.
  unfold mret, xdp_ret. do 2 f_equal. rewrite Z.add_0_l.
  apply csum_fold_helper_rep; [|apply rep_refl; now apply sum16_nonneg].
  pose proof (sum16_nonneg bs Hb). pose proof (sum16_bound bs Hb) as Hbd.
  apply slice_inv in Hs as (_ & _ & Hl & _). rewrite Hl in Hbd.
  change ((Z.of_nat 20 + 1) / 2) with 10 in Hbd. unfold is_u64. lia.
Qed.
