(* ===== verification/KatranParse.v ===== *)
(** * Katran: packet parsing

    pckt_parsing.h and the rest of balancer_helpers.h under
    xdp_progs/katran/lib/bpf: ports, TCP options, QUIC connection ids, the time
    to live, and the introspection events. *)
From Stdlib Require Import ZArith Lia.
From stdpp Require Import base numbers list option gmap.
From S2P Require Import Prelude Xdp OnesComplement KatranDefs KatranCsum.
#[local] Open Scope Z_scope.

(** ** balancer_helpers.h *)

Section helpers.
Context `{Features, Tables}.

(** @src xdp_progs/katran/lib/bpf/balancer_helpers.h 43-72 submit_event *)
Definition submit_event (event_id size : Z) (metadata_only : bool) : kat unit :=
  match lookup_ctl 5 with
  | None => mret tt
  | Some gk =>
      if ctl_u64 gk =? 0 then mret tt
      else
        let data_len := if metadata_only then 0 else min_helper (s32 size) MAX_EVENT_SIZE in
        modify (upd_event_pipe (fun es => es ++ [EventMeta event_id size (u32 data_len)]))
  end.

(** [REPORT_EVENT] and the three macros built on it.
    @src xdp_progs/katran/lib/bpf/introspection.h 26-44 REPORT_EVENT *)
Definition REPORT_EVENT (event size : Z) (meta_only : bool) : kat unit :=
  if KATRAN_INTROSPECTION then submit_event event size meta_only else mret tt.
End helpers.

(** What a function that ends the program returns: a verdict, or the tail call
    by which [recirculate] starts the balancer again on the new packet. *)
Inductive outcome := Ret (verdict : Z) | TailCall.

(** [bpf_tail_call] does not return when the slot of the program array is filled.
    @src xdp_progs/katran/lib/bpf/balancer_helpers.h 74-82 recirculate *)
Definition recirculate `{Tables} : kat outcome :=
  if subprograms then mret TailCall else mret (Ret XDP_PASS).

(** @src xdp_progs/katran/lib/bpf/balancer_helpers.h 84-112 decrement_ttl *)
Definition decrement_ttl {E} (offset : Z) (is_ipv6 : bool) : xdp E Z :=
  if is_ipv6 then
    need (offset + 40) else XDP_DROP ;;
    hop_limit ← load8 (offset + 7);
    let hop_limit := u8 (hop_limit - 1) in
    store8 (offset + 7) hop_limit ;;
    if hop_limit =? 0 then mret XDP_DROP else mret FURTHER_PROCESSING
  else
    need (offset + 20) else XDP_DROP ;;
    ttl ← load8 (offset + 8);
    let ttl := u8 (ttl - 1) in
    store8 (offset + 8) ttl ;;
    if ttl =? 0 then mret XDP_DROP else
    check ← load16 (offset + 10);
    let csum := u32 (check + 1) in
    store16 (offset + 10) (u16 (Z.land csum 0xffff + Z.shiftr csum 16)) ;;
    mret FURTHER_PROCESSING.

(** The variant of [bpf_xdp_adjust_head] that the test build substitutes.
    @src xdp_progs/katran/lib/bpf/balancer_helpers.h 114-137 test_bpf_xdp_adjust_head *)
Definition test_bpf_xdp_adjust_head {E} `{XdpHelpers} (delta : Z) : xdp E Z :=
  ret ← adjust_head delta;
  if nz ret then mret ret
  else if 0 <=? delta then mret ret
  else
    let offset := - delta in
    need offset else (-1) ;;
    store 0 (repeat 0xFF (Z.to_nat offset)) ;;
    mret ret.

(** ** pckt_parsing.h *)

(** @src xdp_progs/katran/lib/bpf/pckt_parsing.h 59-63 quic_parse_result *)
Record quic_parse_result := QuicParse { server_id : Z; cid_version : Z; is_initial : bool }.

(** Ethernet 14, IPv4 20, IPv6 40, ICMP 8, ICMPv6 8 bytes.
    @src xdp_progs/katran/lib/bpf/pckt_parsing.h 65-81 calc_offset *)
Definition calc_offset (is_ipv6 is_icmp : bool) : Z :=
  let off := 14 in
  if is_ipv6 then
    let off := off + 40 in if is_icmp then off + (8 + 40) else off
  else
    let off := off + 20 in if is_icmp then off + (8 + 20) else off.

Section parse.
Context {E : Type}.

(** [None] is [return false].
    @src xdp_progs/katran/lib/bpf/pckt_parsing.h 83-107 parse_udp *)
Definition parse_udp (is_ipv6 : bool) (pckt : packet_description)
    : xdp E (option packet_description) :=
  let is_icmp := has (pd_flags pckt) F_ICMP in
  let off := calc_offset is_ipv6 is_icmp in
  need (off + 8) else None ;;
  source ← load16 off;
  dest ← load16 (off + 2);
  if negb is_icmp then mret (Some (set_port1 dest (set_port0 source pckt)))
  else mret (Some (set_port1 source (set_port0 dest pckt))).

(** The SYN flag is bit 1 of byte 13 of the TCP header.
    @src xdp_progs/katran/lib/bpf/pckt_parsing.h 109-137 parse_tcp *)
Definition parse_tcp (is_ipv6 : bool) (pckt : packet_description)
    : xdp E (option packet_description) :=
  let is_icmp := has (pd_flags pckt) F_ICMP in
  let off := calc_offset is_ipv6 is_icmp in
  need (off + 20) else None ;;
  flags ← load8 (off + 13);
  let pckt := if nz (Z.land flags 2) then or_flags F_SYN_SET pckt else pckt in
  source ← load16 off;
  dest ← load16 (off + 2);
  if negb is_icmp then mret (Some (set_port1 dest (set_port0 source pckt)))
  else mret (Some (set_port1 source (set_port0 dest pckt))).

(** @src xdp_progs/katran/lib/bpf/pckt_parsing.h 139-143 hdr_opt_state *)
Record hdr_opt_state := HdrOpt {
  ho_server_id : Z; byte_offset : Z; hdr_bytes_remaining : Z }.

(** [state] is never null.
    @src xdp_progs/katran/lib/bpf/pckt_parsing.h 145-199 parse_hdr_opt_raw *)
Definition parse_hdr_opt_raw (state : hdr_opt_state) : xdp E (Z * hdr_opt_state) :=
  let tcp_opt := byte_offset state in
  need (tcp_opt + 1) else (-1, state) ;;
  kind ← load8 tcp_opt;
  if kind =? TCP_OPT_EOL then mret (-1, state) else
  if kind =? TCP_OPT_NOP then
    mret (0, HdrOpt (ho_server_id state) (u8 (byte_offset state + 1))
                    (u8 (hdr_bytes_remaining state - 1)))
  else
  if hdr_bytes_remaining state <? 2 then mret (-1, state) else
  need (tcp_opt + 1 + 1) else (-1, state) ;;
  hdr_len ← load8 (tcp_opt + 1);
  if hdr_bytes_remaining state <? hdr_len then mret (-1, state) else
  if kind =? TCP_HDR_OPT_KIND_TPR then
    if negb (hdr_len =? TCP_HDR_OPT_LEN_TPR) then mret (-1, state) else
    need (tcp_opt + TCP_HDR_OPT_LEN_TPR) else (-1, state) ;;
    id ← load32 (tcp_opt + 2);
    mret (1, HdrOpt id (byte_offset state) (hdr_bytes_remaining state))
  else
    mret (0, HdrOpt (ho_server_id state) (u8 (byte_offset state + hdr_len))
                    (u8 (hdr_bytes_remaining state - hdr_len))).

(** @src xdp_progs/katran/lib/bpf/pckt_parsing.h 200-212 parse_hdr_opt *)
Definition parse_hdr_opt (state : hdr_opt_state) : xdp E (Z * hdr_opt_state) :=
  parse_hdr_opt_raw state.
(** @src xdp_progs/katran/lib/bpf/pckt_parsing.h 214-222 parse_hdr_opt_skb *)
Definition parse_hdr_opt_skb (state : hdr_opt_state) : xdp E (Z * hdr_opt_state) :=
  parse_hdr_opt_raw state.

(** The bounded loop over the options: [n] turns are left.
    @src xdp_progs/katran/lib/bpf/pckt_parsing.h 249-260 tcp_hdr_opt_lookup_server_id *)
Fixpoint hdr_opt_loop (parse : hdr_opt_state -> xdp E (Z * hdr_opt_state)) (n : nat)
    (opt_state : hdr_opt_state) : xdp E hdr_opt_state :=
  match n with
  | O => mret opt_state
  | S n =>
      '(err, opt_state) ← parse opt_state;
      if nz err || (hdr_bytes_remaining opt_state =? 0) then mret opt_state
      else hdr_opt_loop parse n opt_state
  end.

(** [None] is [return FURTHER_PROCESSING], [Some id] a return of 0 with
    [*server_id = id].  [doff] is the high half of byte 12 of the TCP header.
    @src xdp_progs/katran/lib/bpf/pckt_parsing.h 224-266 tcp_hdr_opt_lookup_server_id *)
Definition tcp_hdr_opt_lookup_server_id (is_ipv6 : bool) : xdp E (option Z) :=
  let tcp_offset := calc_offset is_ipv6 false in
  need (tcp_offset + 20) else None ;;
  b ← load8 (tcp_offset + 12);
  let doff := Z.shiftr b 4 in
  let tcp_hdr_opt_len := u8 (doff * 4 - 20) in
  if tcp_hdr_opt_len <? TCP_HDR_OPT_LEN_TPR then mret None else
  opt_state ← hdr_opt_loop parse_hdr_opt TCP_HDR_OPT_MAX_OPT_CHECKS
                (HdrOpt 0 (u8 (20 + tcp_offset)) tcp_hdr_opt_len);
  if ho_server_id opt_state =? 0 then mret None else mret (Some (ho_server_id opt_state)).

(** @src xdp_progs/katran/lib/bpf/pckt_parsing.h 267-309 tcp_hdr_opt_lookup_server_id_skb *)
Definition tcp_hdr_opt_lookup_server_id_skb (is_ipv6 : bool) : xdp E (option Z) :=
  let tcp_offset := calc_offset is_ipv6 false in
  need (tcp_offset + 20) else None ;;
  b ← load8 (tcp_offset + 12);
  let doff := Z.shiftr b 4 in
  let tcp_hdr_opt_len := u8 (doff * 4 - 20) in
  if tcp_hdr_opt_len <? TCP_HDR_OPT_LEN_TPR then mret None else
  opt_state ← hdr_opt_loop parse_hdr_opt_skb TCP_HDR_OPT_MAX_OPT_CHECKS
                (HdrOpt 0 (u8 (20 + tcp_offset)) tcp_hdr_opt_len);
  if ho_server_id opt_state =? 0 then mret None else mret (Some (ho_server_id opt_state)).

(** [None] is [return FURTHER_PROCESSING] with [pckt] and [*real] as the caller
    left them, except that a server id that maps to a position outside [reals]
    has already been written to [pckt->real_index]: the second component.
    @src xdp_progs/katran/lib/bpf/pckt_parsing.h 312-342 tcp_hdr_opt_lookup *)
Definition tcp_hdr_opt_lookup `{Features, Tables} (is_ipv6 : bool) (pckt : packet_description)
    : xdp E (option real_definition * packet_description) :=
  sid ← tcp_hdr_opt_lookup_server_id is_ipv6;
  match sid with
  | None => mret (None, pckt)
  | Some server_id =>
      match lookup_server_id server_id with
      | None => mret (None, pckt)
      | Some key =>
          if key =? 0 then mret (None, pckt)
          else
            let pckt := set_real_index key pckt in
            mret (lookup_real key, pckt)
      end
  end.

(** The connection id is read from the bytes at [connId]: its first two bits
    are the version, the server id follows.  The shift [connId[1] << 24] is on
    an [int], so the id of version 3 is a signed 32-bit number.
    @src xdp_progs/katran/lib/bpf/pckt_parsing.h 402-418 parse_quic *)
Definition quic_conn_id (connId : list Z) : quic_parse_result :=
  let byte i := nth i connId 0 in
  let version := Z.shiftr (byte 0%nat) 6 in
  if version =? QUIC_CONNID_VERSION_V1 then
    QuicParse (Z.lor (Z.lor (Z.shiftl (Z.land (byte 0%nat) 0x3F) 10) (Z.shiftl (byte 1%nat) 2))
                     (Z.shiftr (byte 2%nat) 6)) version false
  else if version =? QUIC_CONNID_VERSION_V2 then
    QuicParse (Z.lor (Z.lor (Z.shiftl (byte 1%nat) 16) (Z.shiftl (byte 2%nat) 8)) (byte 3%nat))
              version false
  else if version =? QUIC_CONNID_VERSION_V3 then
    QuicParse (s32 (Z.lor (Z.lor (Z.lor (Z.shiftl (byte 1%nat) 24) (Z.shiftl (byte 2%nat) 16))
                                 (Z.shiftl (byte 3%nat) 8)) (byte 4%nat)))
              version false
  else QuicParse FURTHER_PROCESSING version false.

(** @src xdp_progs/katran/lib/bpf/pckt_parsing.h 345-419 parse_quic *)
Definition parse_quic (is_ipv6 : bool) (pckt : packet_description) : xdp E quic_parse_result :=
  let result := QuicParse FURTHER_PROCESSING 0xFF false in
  let is_icmp := has (pd_flags pckt) F_ICMP in
  let off := calc_offset is_ipv6 is_icmp in
  need (off + 8 + 1) else result ;;
  let quic_data := off + 8 in
  pkt_type ← load8 quic_data;
  if Z.land pkt_type QUIC_LONG_HEADER =? QUIC_LONG_HEADER then
    need (quic_data + 14) else result ;;
    if Z.land pkt_type QUIC_PACKET_TYPE_MASK <? QUIC_HANDSHAKE then
      mret (QuicParse FURTHER_PROCESSING 0xFF true)
    else
      conn_id_lens ← load8 (quic_data + 5);
      if conn_id_lens <? QUIC_MIN_CONNID_LEN then mret result
      else connId ← load 8 (quic_data + 6); mret (quic_conn_id connId)
  else
    need (quic_data + 9) else result ;;
    connId ← load 8 (quic_data + 1); mret (quic_conn_id connId).
End parse.
