(* ===== verification/KatranIcmp.v ===== *)
(** * Katran: ICMP

    handle_icmp.h under xdp_progs/katran/lib/bpf: echo replies made in place, the
    "packet too big" messages, and the parsing of ICMP errors whose payload
    carries the headers of one of the balancer's own packets. *)
From Stdlib Require Import ZArith Lia.
From stdpp Require Import base numbers list option gmap.
From S2P Require Import Prelude Xdp OnesComplement KatranDefs KatranCsum KatranParse.
#[local] Open Scope Z_scope.

(** Offsets in an Ethernet header: destination 0, source 6, protocol 12. *)
Definition ETH_ALEN : nat := 6.

Section icmp.
Context {H : XdpHelpers}.

(** @src xdp_progs/katran/lib/bpf/handle_icmp.h 40-50 swap_mac_and_send *)
Definition swap_mac_and_send {E} : xdp E Z :=
  tmp_mac ← load ETH_ALEN 6;
  move 6 0 ETH_ALEN ;;
  store 0 tmp_mac ;;
  mret XDP_TX.

(** @src xdp_progs/katran/lib/bpf/handle_icmp.h 52-60 swap_mac *)
Definition swap_mac {E} (data orig_eth : Z) : xdp E unit :=
  move (data + 6) orig_eth ETH_ALEN ;;
  move data (orig_eth + 6) ETH_ALEN ;;
  move (data + 12) (orig_eth + 12) 2.

(** @src xdp_progs/katran/lib/bpf/handle_icmp.h 62-92 send_icmp_reply *)
Definition send_icmp_reply {E} : xdp E Z :=
  need (14 + 20 + 8) else XDP_DROP ;;
  let iph := 14 in
  let icmp_hdr := 14 + 20 in
  store8 icmp_hdr ICMP_ECHOREPLY ;;
  checksum ← load16 (icmp_hdr + 2);
  store16 (icmp_hdr + 2) (u16 (checksum + 0x0008)) ;;
  store8 (iph + 8) DEFAULT_TTL ;;
  tmp_addr ← load32 (iph + 16);
  saddr ← load32 (iph + 12);
  store32 (iph + 16) saddr ;;
  store32 (iph + 12) tmp_addr ;;
  store16 (iph + 10) 0 ;;
  csum ← ipv4_csum_inline iph 0;
  store16 (iph + 10) csum ;;
  swap_mac_and_send.

(** @src xdp_progs/katran/lib/bpf/handle_icmp.h 94-119 send_icmp6_reply *)
Definition send_icmp6_reply {E} : xdp E Z :=
  need (14 + 40 + 8) else XDP_DROP ;;
  let ip6h := 14 in
  let icmp_hdr := 14 + 40 in
  store8 icmp_hdr ICMPV6_ECHO_REPLY ;;
  icmp6_cksum ← load16 (icmp_hdr + 2);
  store16 (icmp_hdr + 2) (u16 (icmp6_cksum - 0x0001)) ;;
  store8 (ip6h + 7) DEFAULT_TTL ;;
  tmp_addr ← load 16 (ip6h + 8);
  move (ip6h + 8) (ip6h + 24) 16 ;;
  store (ip6h + 24) tmp_addr ;;
  swap_mac_and_send.

(** @src xdp_progs/katran/lib/bpf/handle_icmp.h 121-167 send_icmp4_too_big *)
Definition send_icmp4_too_big {E} : xdp E Z :=
  let headroom := 20 + 8 in
  ret ← adjust_head (0 - headroom);
  if nz ret then mret XDP_DROP else
  need (ICMP_TOOBIG_SIZE + headroom) else XDP_DROP ;;
  let orig_eth := headroom in
  swap_mac 0 orig_eth ;;
  let iph := 14 in
  let icmp_hdr := 14 + 20 in
  let orig_iph := 14 + 20 + 8 in
  store8 icmp_hdr ICMP_DEST_UNREACH ;;
  store8 (icmp_hdr + 1) ICMP_FRAG_NEEDED ;;
  store16 (icmp_hdr + 6) (bswap16 (MAX_PCKT_SIZE - 14)) ;;
  store16 (icmp_hdr + 4) 0 ;;
  store16 (icmp_hdr + 2) 0 ;;
  csum ← ipv4_csum icmp_hdr ICMP_TOOBIG_PAYLOAD_SIZE 0;
  store16 (icmp_hdr + 2) csum ;;
  store8 (iph + 8) DEFAULT_TTL ;;
  saddr ← load32 (orig_iph + 12); store32 (iph + 16) saddr ;;
  daddr ← load32 (orig_iph + 16); store32 (iph + 12) daddr ;;
  store16 (iph + 6) 0 ;;
  b ← load8 iph; store8 iph (Z.lor (Z.land b 0x0f) (Z.shiftl 4 4)) ;;
  b ← load8 iph; store8 iph (Z.lor (Z.land b 0xf0) 5) ;;
  store8 (iph + 9) IPPROTO_ICMP ;;
  store8 (iph + 1) 0 ;;
  store16 (iph + 2) (bswap16 (ICMP_TOOBIG_SIZE + headroom - 14)) ;;
  store16 (iph + 4) 0 ;;
  store16 (iph + 10) 0 ;;
  csum ← ipv4_csum iph 20 0;
  store16 (iph + 10) csum ;;
  mret XDP_TX.

(** @src xdp_progs/katran/lib/bpf/handle_icmp.h 169-208 send_icmp6_too_big *)
Definition send_icmp6_too_big {E} : xdp E Z :=
  let headroom := 40 + 8 in
  ret ← adjust_head (0 - headroom);
  if nz ret then mret XDP_DROP else
  need (ICMP6_TOOBIG_SIZE + headroom) else XDP_DROP ;;
  let orig_eth := headroom in
  swap_mac 0 orig_eth ;;
  let ip6h := 14 in
  let icmp6_hdr := 14 + 40 in
  let orig_ip6h := 14 + 40 + 8 in
  b ← load8 ip6h; store8 ip6h (Z.lor (Z.land b 0x0f) (Z.shiftl 6 4)) ;;
  b ← load8 ip6h; store8 ip6h (Z.land b 0xf0) ;;
  store8 (ip6h + 6) IPPROTO_ICMPV6 ;;
  store8 (ip6h + 7) DEFAULT_TTL ;;
  store16 (ip6h + 4) (bswap16 ICMP6_TOOBIG_PAYLOAD_SIZE) ;;
  store (ip6h + 1) [0; 0; 0] ;;
  move (ip6h + 24) (orig_ip6h + 8) 16 ;;
  move (ip6h + 8) (orig_ip6h + 24) 16 ;;
  store8 icmp6_hdr ICMPV6_PKT_TOOBIG ;;
  store8 (icmp6_hdr + 1) 0 ;;
  store32 (icmp6_hdr + 4) (bswap32 (MAX_PCKT_SIZE - 14)) ;;
  store16 (icmp6_hdr + 2) 0 ;;
  csum ← ipv6_csum icmp6_hdr ICMP6_TOOBIG_PAYLOAD_SIZE 0 ip6h;
  store16 (icmp6_hdr + 2) csum ;;
  mret XDP_TX.

(** @src xdp_progs/katran/lib/bpf/handle_icmp.h 210-226 send_icmp_too_big *)
Definition send_icmp_too_big {E} (is_ipv6 : bool) (pckt_size : Z) : xdp E Z :=
  let offset := if is_ipv6 then pckt_size - ICMP6_TOOBIG_SIZE
                else pckt_size - ICMP_TOOBIG_SIZE in
  ret ← adjust_tail (0 - offset);
  if nz ret then mret XDP_DROP
  else if is_ipv6 then send_icmp6_too_big else send_icmp4_too_big.

(** The action, and the packet description as the function leaves it.
    @src xdp_progs/katran/lib/bpf/handle_icmp.h 228-273 parse_icmpv6 *)
Definition parse_icmpv6 (off : Z) (pckt : packet_description) : kat (Z * packet_description) :=
  need (off + 8) else (XDP_DROP, pckt) ;;
  icmp6_type ← load8 off;
  if icmp6_type =? ICMPV6_ECHO_REQUEST then
    action ← send_icmp6_reply; mret (action, pckt)
  else if negb (icmp6_type =? ICMPV6_PKT_TOOBIG) && negb (icmp6_type =? ICMPV6_DEST_UNREACH) then
    mret (XDP_PASS, pckt)
  else
    checked ←? (if icmp6_type =? ICMPV6_PKT_TOOBIG then
              p ← stats_ptr (MAX_VIPS + ICMP_PTB_V6_STATS);
              match p with
              | None => mret (inl (XDP_DROP, pckt))
              | Some p =>
                  stats_upd p (add_v1 1) ;;
                  icmp6_mtu ← load32 (off + 4);
                  let mtu := bswap32 icmp6_mtu in
                  when (mtu <? MAX_MTU_IN_PTB_TO_DROP) (stats_upd p (add_v2 1)) ;;
                  mret (inr tt)
              end
            else mret (inr tt));
    let off := off + 8 in
    need (off + 40) else (XDP_DROP, pckt) ;;
    nexthdr ← load8 (off + 6);
    let pckt := or_flags F_ICMP (set_proto nexthdr pckt) in
    daddr ← load 16 (off + 24);
    let pckt := set_srcv6 (v6_of_bytes daddr) pckt in
    saddr ← load 16 (off + 8);
    let pckt := set_dstv6 (v6_of_bytes saddr) pckt in
    mret (FURTHER_PROCESSING, pckt).

(** @src xdp_progs/katran/lib/bpf/handle_icmp.h 275-320 parse_icmp *)
Definition parse_icmp (off : Z) (pckt : packet_description) : kat (Z * packet_description) :=
  need (off + 8) else (XDP_DROP, pckt) ;;
  type ← load8 off;
  if type =? ICMP_ECHO then
    action ← send_icmp_reply; mret (action, pckt)
  else if negb (type =? ICMP_DEST_UNREACH) then mret (XDP_PASS, pckt)
  else
    code ← load8 (off + 1);
    checked ←? (if code =? ICMP_FRAG_NEEDED then
              p ← stats_ptr (MAX_VIPS + ICMP_PTB_V4_STATS);
              match p with
              | None => mret (inl (XDP_DROP, pckt))
              | Some p =>
                  stats_upd p (add_v1 1) ;;
                  frag_mtu ← load16 (off + 6);
                  let mtu := bswap16 frag_mtu in
                  when (mtu <? MAX_MTU_IN_PTB_TO_DROP) (stats_upd p (add_v2 1)) ;;
                  mret (inr tt)
              end
            else mret (inr tt));
    let off := off + 8 in
    need (off + 20) else (XDP_DROP, pckt) ;;
    b ← load8 off;
    if negb (Z.land b 0x0f =? 5) then mret (XDP_DROP, pckt) else
    protocol ← load8 (off + 9);
    let pckt := or_flags F_ICMP (set_proto protocol pckt) in
    daddr ← load32 (off + 16);
    let pckt := set_src daddr pckt in
    saddr ← load32 (off + 12);
    let pckt := set_dst saddr pckt in
    mret (FURTHER_PROCESSING, pckt).

(** There is no bound check here: the caller has checked the ICMP header.
    @src xdp_progs/katran/lib/bpf/handle_icmp.h 322-337 ignorable_quic_icmp_code *)
Definition ignorable_quic_icmp_code {E} (is_ipv6 : bool) : xdp E bool :=
  let off := 14 in
  if is_ipv6 then
    icmp6_code ← load8 (off + 40 + 1);
    mret ((icmp6_code =? ICMPV6_ADDR_UNREACH) || (icmp6_code =? ICMPV6_PORT_UNREACH))
  else
    code ← load8 (off + 20 + 1);
    mret ((code =? ICMP_PORT_UNREACH) || (code =? ICMP_HOST_UNREACH)).
End icmp.
