(* ===== verification/KatranEncap.v ===== *)
(** * Katran: encapsulation and decapsulation

    pckt_encap.h and flow_debug_helpers.h under xdp_progs/katran/lib/bpf: IPIP
    and GUE encapsulation towards a real server, the decapsulation of packets
    that another balancer forwarded, and the recording of their route. *)
From Stdlib Require Import ZArith Lia.
From stdpp Require Import base numbers list option gmap.
From S2P Require Import Prelude Xdp OnesComplement KatranDefs KatranCsum KatranParse.
#[local] Open Scope Z_scope.

Section encap.
Context {F : Features} {T : Tables} {H : XdpHelpers} {P : LruPolicy}.

(** ** IPIP *)

(** @src xdp_progs/katran/lib/bpf/pckt_encap.h 42-86 encap_v6 *)
Definition encap_v6 {E} (cval : ctl_value) (is_ipv6 : bool) (pckt : packet_description)
    (dst : real_definition) (pkt_bytes : Z) : xdp E bool :=
  ret ← adjust_head (0 - 40);
  if nz ret then mret false else
  let new_eth := 0 in
  let ip6h := 14 in
  let old_eth := 40 in
  need (new_eth + 14) else false ;;
  need (old_eth + 14) else false ;;
  need (ip6h + 40) else false ;;
  store new_eth (ctl_mac cval) ;;
  move (new_eth + 6) old_eth 6 ;;
  store16 (new_eth + 12) BE_ETH_P_IPV6 ;;
  let '(proto, saddr, payload_len) :=
    if is_ipv6 then
      (IPPROTO_IPV6,
       create_encap_ipv6_src (port16_0 (pd_flow pckt)) (w3 (srcv6 (pd_flow pckt))),
       u16 (pkt_bytes + 40))
    else
      (IPPROTO_IPIP,
       create_encap_ipv6_src (port16_0 (pd_flow pckt)) (fk_src (pd_flow pckt)),
       u16 pkt_bytes) in
  create_v6_hdr ip6h (tos pckt) saddr (rd_dstv6 dst) payload_len proto ;;
  mret true.

(** @src xdp_progs/katran/lib/bpf/pckt_encap.h 88-120 encap_v4 *)
Definition encap_v4 {E} (cval : ctl_value) (pckt : packet_description)
    (dst : real_definition) (pkt_bytes : Z) : xdp E bool :=
  let ip_src := create_encap_ipv4_src (port16_0 (pd_flow pckt)) (fk_src (pd_flow pckt)) in
  ret ← adjust_head (0 - 20);
  if nz ret then mret false else
  let new_eth := 0 in
  let iph := 14 in
  let old_eth := 20 in
  need (new_eth + 14) else false ;;
  need (old_eth + 14) else false ;;
  need (iph + 20) else false ;;
  store new_eth (ctl_mac cval) ;;
  move (new_eth + 6) old_eth 6 ;;
  store16 (new_eth + 12) BE_ETH_P_IP ;;
  create_v4_hdr iph (tos pckt) ip_src (rd_dst dst) (u16 pkt_bytes) IPPROTO_IPIP ;;
  mret true.

(** The callers have checked the headers that are read and written here.
    @src xdp_progs/katran/lib/bpf/pckt_encap.h 124-143 decap_v6 *)
Definition decap_v6 {E} (inner_v4 : bool) : xdp E bool :=
  let old_eth := 0 in
  let new_eth := 40 in
  move (new_eth + 6) (old_eth + 6) 6 ;;
  move new_eth old_eth 6 ;;
  store16 (new_eth + 12) (if inner_v4 then BE_ETH_P_IP else BE_ETH_P_IPV6) ;;
  ret ← adjust_head 40;
  mret (negb (nz ret)).

(** @src xdp_progs/katran/lib/bpf/pckt_encap.h 145-160 decap_v4 *)
Definition decap_v4 {E} : xdp E bool :=
  let old_eth := 0 in
  let new_eth := 20 in
  move (new_eth + 6) (old_eth + 6) 6 ;;
  move new_eth old_eth 6 ;;
  store16 (new_eth + 12) BE_ETH_P_IP ;;
  ret ← adjust_head 20;
  mret (negb (nz ret)).

(** ** Recording the route of a GUE packet *)

(** @src xdp_progs/katran/lib/bpf/flow_debug_helpers.h 29-53 get_next_ports *)
Definition get_next_ports {E} (transport_hdr proto : Z) : xdp E Z :=
  if proto =? IPPROTO_UDP then
    need (transport_hdr + 8) else 0 ;;
    dest ← load16 (transport_hdr + 2); source ← load16 transport_hdr;
    mret (u32 (Z.lor (Z.shiftl (bswap16 dest) 16) (bswap16 source)))
  else if proto =? IPPROTO_TCP then
    need (transport_hdr + 20) else 0 ;;
    dest ← load16 (transport_hdr + 2); source ← load16 transport_hdr;
    mret (u32 (Z.lor (Z.shiftl (bswap16 dest) 16) (bswap16 source)))
  else mret 0.

(** @src xdp_progs/katran/lib/bpf/flow_debug_helpers.h 55-124 gue_record_route *)
Definition gue_record_route (outer_eth inner_eth : Z) (outer_v4 inner_v4 : bool) : kat unit :=
  flow_debug_map ← asks (fun e =>
    if (0 <=? h_cpu) && (h_cpu <? MAX_SUPPORTED_CPUS) then flow_debug_maps e !! h_cpu else None);
  match flow_debug_map with
  | None => mret tt
  | Some _ =>
      debug_info ←? (if outer_v4 then
                       need (outer_eth + 14 + 20) else (inl tt) ;;
                       let ip4h := outer_eth + 14 in
                       saddr ← load32 (ip4h + 12); daddr ← load32 (ip4h + 16);
                       mret (inr (FlowDebug (set_w0 v6_zero saddr) (set_w0 v6_zero daddr)))
                     else
                       need (outer_eth + 14 + 40) else (inl tt) ;;
                       let ip6h := outer_eth + 14 in
                       saddr ← load 16 (ip6h + 8); daddr ← load 16 (ip6h + 24);
                       mret (inr (FlowDebug (v6_of_bytes saddr) (v6_of_bytes daddr))));
      flow ←? (if inner_v4 then
                 need (inner_eth + 14 + 20) else (inl tt) ;;
                 let ip4h := inner_eth + 14 in
                 let transport_header := inner_eth + 14 + 20 in
                 saddr ← load32 (ip4h + 12); daddr ← load32 (ip4h + 16);
                 protocol ← load8 (ip4h + 9);
                 ports ← get_next_ports transport_header protocol;
                 mret (inr (FlowKey (set_w0 v6_zero saddr) (set_w0 v6_zero daddr)
                                    (ports mod 65536) (ports / 65536) protocol))
               else
                 need (inner_eth + 14 + 40) else (inl tt) ;;
                 let ip6h := inner_eth + 14 in
                 let transport_header := inner_eth + 14 + 40 in
                 saddr ← load 16 (ip6h + 8); daddr ← load 16 (ip6h + 24);
                 nexthdr ← load8 (ip6h + 6);
                 ports ← get_next_ports transport_header nexthdr;
                 mret (inr (FlowKey (v6_of_bytes saddr) (v6_of_bytes daddr)
                                    (ports mod 65536) (ports / 65536) nexthdr)));
      modify (upd_flow_debug_maps (alter (fun m => lru_insert m flow debug_info) h_cpu))
  end.

(** @src xdp_progs/katran/lib/bpf/flow_debug.h 30-40 RECORD_GUE_ROUTE *)
Definition RECORD_GUE_ROUTE (old_eth new_eth : Z) (outer_v4 inner_v4 : bool) : kat unit :=
  if RECORD_FLOW_INFO then gue_record_route old_eth new_eth outer_v4 inner_v4 else mret tt.

(** ** GUE *)

(** [None] is [return false]: the UDP checksum then stays as it is.
    @src xdp_progs/katran/lib/bpf/pckt_encap.h 164-236 gue_csum *)
Definition gue_csum {E} (outer_v6 inner_v6 : bool) (pckt : packet_description)
    : xdp E (option Z) :=
  let outer_ip_off := 14 in
  let udp_hdr_off := if outer_v6 then outer_ip_off + 40 else outer_ip_off + 20 in
  let inner_ip_off := udp_hdr_off + 8 in
  let inner_transport_off := if inner_v6 then inner_ip_off + 40 else inner_ip_off + 20 in
  need inner_transport_off else None ;;
  csum ←? (if fk_proto (pd_flow pckt) =? IPPROTO_UDP then
             need (inner_transport_off + 8) else (inl None) ;;
             check ← load16 (inner_transport_off + 6); mret (inr check)
           else if fk_proto (pd_flow pckt) =? IPPROTO_TCP then
             need (inner_transport_off + 20) else (inl None) ;;
             check ← load16 (inner_transport_off + 16); mret (inr check)
           else mret (inl None));
  if inner_v6 then
    need (outer_ip_off + 40) else None ;;
    need (udp_hdr_off + 8) else None ;;
    need (inner_ip_off + 40) else None ;;
    gue_csum_v6 outer_ip_off udp_hdr_off inner_ip_off csum
  else if outer_v6 then
    need (outer_ip_off + 40) else None ;;
    need (udp_hdr_off + 8) else None ;;
    need (inner_ip_off + 20) else None ;;
    gue_csum_v4_in_v6 outer_ip_off udp_hdr_off inner_ip_off csum
  else
    need (outer_ip_off + 20) else None ;;
    need (udp_hdr_off + 8) else None ;;
    need (inner_ip_off + 20) else None ;;
    gue_csum_v4 outer_ip_off udp_hdr_off inner_ip_off csum.

(** @src xdp_progs/katran/lib/bpf/pckt_encap.h 238-294 gue_encap_v4 *)
Definition gue_encap_v4 {E} (cval : ctl_value) (pckt : packet_description)
    (dst : real_definition) (pkt_bytes : Z) : xdp E bool :=
  let sport := bswap16 (port16_0 (pd_flow pckt)) in
  match lookup_pckt_src V4_SRC_INDEX with
  | None => mret false
  | Some src =>
      let ipv4_src := rd_dst src in
      let sport := Z.lxor sport (Z.land (Z.shiftr (fk_src (pd_flow pckt)) 16) 0xFFFF) in
      ret ← adjust_head (0 - (20 + 8));
      if nz ret then mret false else
      let new_eth := 0 in
      let iph := 14 in
      let udph := iph + 20 in
      let old_eth := 20 + 8 in
      need (new_eth + 14) else false ;;
      need (old_eth + 14) else false ;;
      need (iph + 20) else false ;;
      need (udph + 8) else false ;;
      store new_eth (ctl_mac cval) ;;
      move (new_eth + 6) old_eth 6 ;;
      store16 (new_eth + 12) BE_ETH_P_IP ;;
      create_udp_hdr udph sport GUE_DPORT (u16 (pkt_bytes + 8)) 0 ;;
      create_v4_hdr iph (tos pckt) ipv4_src (rd_dst dst) (u16 (pkt_bytes + 8)) IPPROTO_UDP ;;
      csum ← gue_csum false false pckt;
      match csum with
      | Some csum => store16 (udph + 6) (Z.land csum 0xFFFF)
      | None => mret tt
      end ;;
      mret true
  end.

(** @src xdp_progs/katran/lib/bpf/pckt_encap.h 296-354 gue_encap_v6 *)
Definition gue_encap_v6 {E} (cval : ctl_value) (is_ipv6 : bool) (pckt : packet_description)
    (dst : real_definition) (pkt_bytes : Z) : xdp E bool :=
  match lookup_pckt_src V6_SRC_INDEX with
  | None => mret false
  | Some src =>
      ret ← adjust_head (0 - (40 + 8));
      if nz ret then mret false else
      let new_eth := 0 in
      let ip6h := 14 in
      let udph := ip6h + 40 in
      let old_eth := 40 + 8 in
      need (new_eth + 14) else false ;;
      need (old_eth + 14) else false ;;
      need (ip6h + 40) else false ;;
      need (udph + 8) else false ;;
      store new_eth (ctl_mac cval) ;;
      move (new_eth + 6) old_eth 6 ;;
      store16 (new_eth + 12) BE_ETH_P_IPV6 ;;
      let '(sport, pkt_bytes) :=
        if is_ipv6 then
          (Z.lxor (Z.land (w3 (srcv6 (pd_flow pckt))) 0xFFFF) (port16_0 (pd_flow pckt)),
           u32 (pkt_bytes + (40 + 8)))
        else
          (Z.lxor (Z.land (Z.shiftr (fk_src (pd_flow pckt)) 16) 0xFFFF) (port16_0 (pd_flow pckt)),
           u32 (pkt_bytes + 8)) in
      create_udp_hdr udph sport GUE_DPORT (u16 pkt_bytes) 0 ;;
      create_v6_hdr ip6h (tos pckt) (rd_dstv6 src) (rd_dstv6 dst) (u16 pkt_bytes) IPPROTO_UDP ;;
      csum ← gue_csum true is_ipv6 pckt;
      match csum with
      | Some csum => store16 (udph + 6) (Z.land csum 0xFFFF)
      | None => mret tt
      end ;;
      mret true
  end.

(** @src xdp_progs/katran/lib/bpf/pckt_encap.h 359-376 gue_decap_v4 *)
Definition gue_decap_v4 : kat bool :=
  let old_eth := 0 in
  let new_eth := 20 + 8 in
  RECORD_GUE_ROUTE old_eth new_eth true true ;;
  move (new_eth + 6) (old_eth + 6) 6 ;;
  move new_eth old_eth 6 ;;
  store16 (new_eth + 12) BE_ETH_P_IP ;;
  ret ← adjust_head (20 + 8);
  mret (negb (nz ret)).

(** @src xdp_progs/katran/lib/bpf/pckt_encap.h 378-399 gue_decap_v6 *)
Definition gue_decap_v6 (inner_v4 : bool) : kat bool :=
  let old_eth := 0 in
  let new_eth := 40 + 8 in
  RECORD_GUE_ROUTE old_eth new_eth false inner_v4 ;;
  move (new_eth + 6) (old_eth + 6) 6 ;;
  move new_eth old_eth 6 ;;
  store16 (new_eth + 12) (if inner_v4 then BE_ETH_P_IP else BE_ETH_P_IPV6) ;;
  ret ← adjust_head (40 + 8);
  mret (negb (nz ret)).
End encap.
