(* ===== verification/KatranBalancer.v ===== *)
(** * Katran: the balancer

    balancer.bpf.c under xdp_progs/katran/lib/bpf, function by function, up to
    the XDP entry point [balancer_ingress] and its recirculation. *)
From Stdlib Require Import ZArith Lia.
From stdpp Require Import base numbers list option gmap.
From S2P Require Import Prelude Xdp OnesComplement Jhash KatranDefs KatranCsum KatranParse KatranIcmp KatranEncap.
#[local] Open Scope Z_scope.

(** ** Choosing a real server *)

(** @src xdp_progs/katran/lib/bpf/balancer.bpf.c 25-36 get_packet_hash *)
Definition get_packet_hash (pckt : packet_description) (hash_16bytes : bool) : Z :=
  if hash_16bytes then
    jhash_2words (jhash (v6_bytes (srcv6 (pd_flow pckt))) INIT_JHASH_SEED_V6)
                 (fk_ports (pd_flow pckt)) INIT_JHASH_SEED
  else jhash_2words (fk_src (pd_flow pckt)) (fk_ports (pd_flow pckt)) INIT_JHASH_SEED.

(** The port and address fields that a VIP with [F_HASH_DPORT_ONLY] overwrites.
    @src xdp_progs/katran/lib/bpf/balancer.bpf.c 136-142 get_packet_dst *)
Definition hash_dport_only (pckt : packet_description) : packet_description :=
  set_srcv6 v6_zero (set_port0 (port16_1 (pd_flow pckt)) pckt).

(** The index in [ch_rings] for a packet of the VIP.
    @src xdp_progs/katran/lib/bpf/balancer.bpf.c 143-144 get_packet_dst *)
Definition ring_key (pckt : packet_description) (vip_info : vip_meta) (hash_16bytes : bool) : Z :=
  let hash := get_packet_hash pckt hash_16bytes mod RING_SIZE in
  u32 (RING_SIZE * vip_num vip_info + hash).

(** The counters of the new-connection rate in one CPU: [v1] connections since
    the time [v2]; the verdict and the new counters.
    @src xdp_progs/katran/lib/bpf/balancer.bpf.c 50-62 is_under_flood *)
Definition conn_rate_step (cur_time : Z) (s : lb_stats) : bool * lb_stats :=
  if ONE_SEC <? u64 (cur_time - v2 s) then (false, LbStats 1 cur_time)
  else
    let s := LbStats (u64 (v1 s + 1)) (v2 s) in
    (MAX_CONN_RATE <? v1 s, s).

Section balancer.
Context {F : Features} {T : Tables} {H : XdpHelpers} {P : LruPolicy}.

(** The verdict and [*cur_time].
    @src xdp_progs/katran/lib/bpf/balancer.bpf.c 38-63 is_under_flood *)
Definition is_under_flood (cur_time : Z) : kat (bool * Z) :=
  p ← stats_ptr (MAX_VIPS + NEW_CONN_RATE_CNTR);
  match p with
  | None => mret (true, cur_time)
  | Some p =>
      cur_time ← ktime_get_ns;
      conn_rate_stats ← stats_get p;
      let '(flood, s) := conn_rate_step cur_time conn_rate_stats in
      stats_upd p (fun _ => s) ;;
      mret (flood, cur_time)
  end.

(** @src xdp_progs/katran/lib/bpf/balancer.bpf.c 65-74 increment_ch_drop_no_real *)
Definition increment_ch_drop_no_real : kat unit :=
  p ← stats_ptr (MAX_VIPS + CH_DROP_STATS);
  match p with None => mret tt | Some p => stats_upd p (add_v1 1) end.

(** @src xdp_progs/katran/lib/bpf/balancer.bpf.c 76-85 increment_ch_drop_real_0 *)
Definition increment_ch_drop_real_0 : kat unit :=
  p ← stats_ptr (MAX_VIPS + CH_DROP_STATS);
  match p with None => mret tt | Some p => stats_upd p (add_v2 1) end.

(** The lookup of the source address, when the feature and the VIP ask for it.
    @src xdp_progs/katran/lib/bpf/balancer.bpf.c 104-132 get_packet_dst *)
Definition lpm_src_lookup (pckt : packet_description) (vip_info : vip_meta) (is_ipv6 under_flood : bool)
    : kat (option Z) :=
  if LPM_SRC_LOOKUP && (has (vip_flags vip_info) F_SRC_ROUTING && negb under_flood) then
    let lpm_val :=
      if is_ipv6 then lookup_lpm_v6 (V6Lpm 128 (srcv6 (pd_flow pckt)))
      else lookup_lpm_v4 (V4Lpm 32 (fk_src (pd_flow pckt))) in
    p ← stats_ptr (MAX_VIPS + LPM_SRC_CNTRS);
    match p with
    | None => mret tt
    | Some p => stats_upd p (match lpm_val with Some _ => add_v2 1 | None => add_v1 1 end)
    end ;;
    mret lpm_val
  else mret None.

(** [None] is [return false].  [lru_map] is never null where it is called.
    @src xdp_progs/katran/lib/bpf/balancer.bpf.c 87-173 get_packet_dst *)
Definition get_packet_dst (pckt : packet_description) (vip_info : vip_meta) (is_ipv6 : bool)
    (lru_map : lru_ref) : kat (option real_definition * packet_description) :=
  '(under_flood, cur_time) ← is_under_flood 0;
  src ← lpm_src_lookup pckt vip_info is_ipv6 under_flood;
  r ← (match src with
       | Some key => mret (Some key, pckt)
       | None =>
           let hash_16bytes := is_ipv6 in
           let pckt := if has (vip_flags vip_info) F_HASH_DPORT_ONLY
                       then hash_dport_only pckt else pckt in
           match lookup_ch_ring (ring_key pckt vip_info hash_16bytes) with
           | None => mret (None, pckt)
           | Some key => when (key =? 0) increment_ch_drop_real_0 ;; mret (Some key, pckt)
           end
       end);
  match r with
  | (None, pckt) => mret (None, pckt)
  | (Some key, pckt) =>
      let pckt := set_real_index key pckt in
      match lookup_real key with
      | None => increment_ch_drop_no_real ;; mret (None, pckt)
      | Some real =>
          when (negb (has (vip_flags vip_info) F_LRU_BYPASS) && negb under_flood)
            (let atime := if fk_proto (pd_flow pckt) =? IPPROTO_UDP then cur_time else 0 in
             lru_update lru_map (pd_flow pckt) (RealPosLru key atime)) ;;
          mret (Some real, pckt)
      end
  end.

(** Called with [*real] null, which is [None].
    @src xdp_progs/katran/lib/bpf/balancer.bpf.c 175-198 connection_table_lookup *)
Definition connection_table_lookup (pckt : packet_description) (lru_map : lru_ref)
    (isGlobalLru : bool) : kat (option real_definition * packet_description) :=
  dst_lru ← lru_lookup lru_map (pd_flow pckt);
  match dst_lru with
  | None => mret (None, pckt)
  | Some dst_lru =>
      expired ← (if negb isGlobalLru && (fk_proto (pd_flow pckt) =? IPPROTO_UDP) then
                   cur_time ← ktime_get_ns;
                   if LRU_UDP_TIMEOUT <? u64 (cur_time - atime dst_lru) then mret true
                   else
                     lru_alter lru_map (pd_flow pckt) (fun l => RealPosLru (pos l) cur_time) ;;
                     mret false
                 else mret false);
      if expired : bool then mret (None, pckt)
      else
        let key := pos dst_lru in
        let pckt := set_real_index key pckt in
        mret (lookup_real key, pckt)
  end.

(** ** Layer 3 *)

(** The action, and [pckt], [*protocol], [*pkt_bytes] as the function leaves them.
    @src xdp_progs/katran/lib/bpf/balancer.bpf.c 200-272 process_l3_headers *)
Definition process_l3_headers (pckt : packet_description) (off : Z) (is_ipv6 : bool)
    : kat (Z * (packet_description * Z * Z)) :=
  if is_ipv6 then
    let ip6h := off in
    need (ip6h + 40) else (XDP_DROP, (pckt, 0, 0)) ;;
    let iph_len := 40 in
    protocol ← load8 (ip6h + 6);
    let pckt := set_proto protocol pckt in
    b0 ← load8 ip6h;
    let pckt := set_tos (Z.land (u8 (Z.shiftl (Z.land b0 0x0f) 4)) 0xF0) pckt in
    flow_lbl0 ← load8 (ip6h + 1);
    let pckt := set_tos (Z.lor (tos pckt) (Z.land (Z.shiftr flow_lbl0 4) 0x0F)) pckt in
    payload_len ← load16 (ip6h + 4);
    let pkt_bytes := bswap16 payload_len in
    let off := off + iph_len in
    if protocol =? IPPROTO_FRAGMENT then mret (XDP_DROP, (pckt, protocol, pkt_bytes))
    else if protocol =? IPPROTO_ICMPV6 then
      '(action, pckt) ← parse_icmpv6 off pckt;
      mret (if 0 <=? action then action else FURTHER_PROCESSING, (pckt, protocol, pkt_bytes))
    else
      saddr ← load 16 (ip6h + 8);
      let pckt := set_srcv6 (v6_of_bytes saddr) pckt in
      daddr ← load 16 (ip6h + 24);
      let pckt := set_dstv6 (v6_of_bytes daddr) pckt in
      mret (FURTHER_PROCESSING, (pckt, protocol, pkt_bytes))
  else
    let iph := off in
    need (iph + 20) else (XDP_DROP, (pckt, 0, 0)) ;;
    b0 ← load8 iph;
    if negb (Z.land b0 0x0f =? 5) then mret (XDP_DROP, (pckt, 0, 0)) else
    iph_tos ← load8 (iph + 1);
    let pckt := set_tos iph_tos pckt in
    protocol ← load8 (iph + 9);
    let pckt := set_proto protocol pckt in
    tot_len ← load16 (iph + 2);
    let pkt_bytes := bswap16 tot_len in
    let off := off + IPV4_HDR_LEN_NO_OPT in
    frag_off ← load16 (iph + 6);
    if nz (Z.land frag_off PCKT_FRAGMENTED) then mret (XDP_DROP, (pckt, protocol, pkt_bytes))
    else if protocol =? IPPROTO_ICMP then
      '(action, pckt) ← parse_icmp off pckt;
      mret (if 0 <=? action then action else FURTHER_PROCESSING, (pckt, protocol, pkt_bytes))
    else
      saddr ← load32 (iph + 12);
      let pckt := set_src saddr pckt in
      daddr ← load32 (iph + 16);
      let pckt := set_dst daddr pckt in
      mret (FURTHER_PROCESSING, (pckt, protocol, pkt_bytes)).

(** ** Decapsulation *)

(** The strict-destination check: true when the packet is not for this host.
    @src xdp_progs/katran/lib/bpf/balancer.bpf.c 280-311 check_decap_dst *)
Definition decap_strict_mismatch (pckt : packet_description) (is_ipv6 : bool) : bool :=
  if DECAP_STRICT_DESTINATION then
    if is_ipv6 then
      match lookup_pckt_src V6_SRC_INDEX with
      | Some host_primary_addrs => negb (bool_decide (rd_dstv6 host_primary_addrs = dstv6 (pd_flow pckt)))
      | None => false
      end
    else
      match lookup_pckt_src V4_SRC_INDEX with
      | Some host_primary_addrs => negb (rd_dst host_primary_addrs =? fk_dst (pd_flow pckt))
      | None => false
      end
  else false.

(** The action, and [*pass], which the callers set to true before.
    @src xdp_progs/katran/lib/bpf/balancer.bpf.c 274-330 check_decap_dst *)
Definition check_decap_dst (pckt : packet_description) (is_ipv6 : bool) : kat (Z * bool) :=
  if decap_strict_mismatch pckt is_ipv6 then mret (XDP_PASS, true)
  else
    let dst_addr := if is_ipv6 then Address (dstv6 (pd_flow pckt))
                    else Address (set_w0 v6_zero (fk_dst (pd_flow pckt))) in
    match lookup_decap_dst dst_addr with
    | Some _ =>
        p ← stats_ptr (MAX_VIPS + REMOTE_ENCAP_CNTRS);
        match p with
        | None => mret (XDP_DROP, false)
        | Some p => stats_upd p (add_v1 1) ;; mret (FURTHER_PROCESSING, false)
        end
    | None => mret (FURTHER_PROCESSING, true)
    end.

(** @src xdp_progs/katran/lib/bpf/balancer.bpf.c 334-368 perform_global_lru_lookup *)
Definition perform_global_lru_lookup (pckt : packet_description) (cpu_num : Z)
    : kat (Z * (option real_definition * packet_description)) :=
  g_lru_map ← global_lru_lookup cpu_num;
  p ← stats_ptr (MAX_VIPS + GLOBAL_LRU_CNTR);
  match p with
  | None => mret (XDP_DROP, (None, pckt))
  | Some p =>
      g_lru_map ← (match g_lru_map with
                   | None => stats_upd p (add_v1 1) ;; mret GlruFallback
                   | Some m => mret m
                   end);
      '(dst, pckt) ← connection_table_lookup pckt g_lru_map true;
      when (match dst with Some _ => true | None => false end) (stats_upd p (add_v2 1)) ;;
      mret (FURTHER_PROCESSING, (dst, pckt))
  end.

(** [if (is_ipv6)] on line 416 tests the pointer, which is never null, so the
    second counter is incremented whatever the packet is.  The function is only
    called for the two protocols it handles.
    @src xdp_progs/katran/lib/bpf/balancer.bpf.c 370-430 process_encaped_ipip_pckt *)
Definition process_encaped_ipip_pckt (is_ipv6 : bool) (protocol : Z) (pass : bool) : kat outcome :=
  action ←? (if protocol =? IPPROTO_IPIP then
               if is_ipv6 then
                 let offset := 40 + 14 in
                 need offset else (inl (Ret XDP_DROP)) ;;
                 action ← decrement_ttl offset false;
                 ok ← decap_v6 true;
                 mret (if negb ok then inl (Ret XDP_DROP) else inr action)
               else
                 let offset := 20 + 14 in
                 need offset else (inl (Ret XDP_DROP)) ;;
                 action ← decrement_ttl offset false;
                 ok ← decap_v4;
                 mret (if negb ok then inl (Ret XDP_DROP) else inr action)
             else
               let offset := 40 + 14 in
               need offset else (inl (Ret XDP_DROP)) ;;
               action ← decrement_ttl offset true;
               ok ← decap_v6 false;
               mret (if negb ok then inl (Ret XDP_DROP) else inr action));
  p ← stats_ptr (MAX_VIPS + DECAP_CNTR);
  match p with
  | None => mret (Ret XDP_DROP)
  | Some p =>
      stats_upd p (add_v2 1) ;;
      if 0 <=? action then mret (Ret action)
      else if pass : bool then mret (Ret XDP_PASS)
      else recirculate
  end.

(** @src xdp_progs/katran/lib/bpf/balancer.bpf.c 433-481 incr_decap_vip_stats *)
Definition incr_decap_vip_stats (off : Z) (is_ipv6 : bool) : kat unit :=
  '(action, (inner_pckt, inner_protocol, _)) ← process_l3_headers pckt_zero off is_ipv6;
  if 0 <=? action then mret tt else
  let vip_addr := if is_ipv6 then dstv6 (pd_flow inner_pckt)
                  else set_w0 v6_zero (fk_dst (pd_flow inner_pckt)) in
  let proto := fk_proto (pd_flow inner_pckt) in
  inner_pckt ←? (if inner_protocol =? IPPROTO_TCP then
                   r ← parse_tcp is_ipv6 inner_pckt;
                   mret (match r with None => inl tt | Some p => inr p end)
                 else mret (inr inner_pckt));
  inner_pckt ←? (if inner_protocol =? IPPROTO_UDP then
                   r ← parse_udp is_ipv6 inner_pckt;
                   mret (match r with None => inl tt | Some p => inr p end)
                 else mret (inr inner_pckt));
  let vip := VipDef vip_addr (port16_1 (pd_flow inner_pckt)) proto in
  match lookup_vip vip with
  | None => mret tt
  | Some vip_info =>
      p ← decap_vip_stats_ptr (vip_num vip_info);
      match p with None => mret tt | Some p => decap_vip_stats_upd p (add_v1 1) end
  end.

(** @src xdp_progs/katran/lib/bpf/balancer.bpf.c 483-550 process_encaped_gue_pckt *)
Definition process_encaped_gue_pckt (off : Z) (is_ipv6 pass : bool) : kat outcome :=
  r ←? (if is_ipv6 then
          let offset := 40 + 14 + 8 in
          need (offset + 1) else (inl (Ret XDP_DROP)) ;;
          v6 ← load8 offset;
          let v6 := Z.land v6 GUEV1_IPV6MASK in
          if nz v6 then
            action ← decrement_ttl offset true;
            ok ← gue_decap_v6 false;
            mret (if negb ok then inl (Ret XDP_DROP) else inr (action, true))
          else
            action ← decrement_ttl offset false;
            ok ← gue_decap_v6 true;
            mret (if negb ok then inl (Ret XDP_DROP) else inr (action, false))
        else
          let offset := 20 + 14 + 8 in
          need offset else (inl (Ret XDP_DROP)) ;;
          action ← decrement_ttl offset false;
          ok ← gue_decap_v4;
          mret (if negb ok then inl (Ret XDP_DROP) else inr (action, false)));
  let '(action, inner_ipv6) := r in
  p ← stats_ptr (MAX_VIPS + DECAP_CNTR);
  match p with
  | None => mret (Ret XDP_DROP)
  | Some p =>
      stats_upd p (if is_ipv6 then add_v2 1 else add_v1 1) ;;
      if 0 <=? action then mret (Ret action)
      else if pass : bool then incr_decap_vip_stats off inner_ipv6 ;; mret (Ret XDP_PASS)
      else recirculate
  end.

(** ** Routing by an id in the packet *)

(** @src xdp_progs/katran/lib/bpf/balancer.bpf.c 553-566 increment_quic_cid_version_stats *)
Definition increment_quic_cid_version_stats (p : Z) (cid_version : Z) : kat unit :=
  quic_stats_upd p (fun q =>
    let add a b := if a : bool then u64 (b + 1) else b in
    let is_v1 := cid_version =? QUIC_CONNID_VERSION_V1 in
    let is_v2 := negb is_v1 && (cid_version =? QUIC_CONNID_VERSION_V2) in
    let is_v3 := negb is_v1 && negb is_v2 && (cid_version =? QUIC_CONNID_VERSION_V3) in
    let is_v0 := negb is_v1 && negb is_v2 && negb is_v3 in
    QuicStats (q_ch_routed q) (q_cid_initial q) (q_cid_invalid_server_id q)
      (q_cid_invalid_server_id_sample q) (q_cid_routed q) (q_cid_unknown_real_dropped q)
      (add is_v0 (q_cid_v0 q)) (add is_v1 (q_cid_v1 q)) (add is_v2 (q_cid_v2 q))
      (add is_v3 (q_cid_v3 q))
      (q_dst_match_in_lru q) (q_dst_mismatch_in_lru q) (q_dst_not_found_in_lru q)).

(** Line 587 assigns [lru_miss_stat_vip->proto = vip->proto] and tests the value
    assigned.
    @src xdp_progs/katran/lib/bpf/balancer.bpf.c 568-598 update_vip_lru_miss_stats *)
Definition update_vip_lru_miss_stats (vip : vip_definition) (pckt : packet_description)
    (is_ipv6 : bool) : kat Z :=
  p ← vip_miss_stats_ptr 0;
  match p with
  | None => mret XDP_DROP
  | Some p =>
      lru_miss_stat_vip ← vip_miss_stats_get p;
      let address_match :=
        (is_ipv6 && bool_decide (vipv6 lru_miss_stat_vip = vipv6 vip))
        || (negb is_ipv6 && (vip_w0 lru_miss_stat_vip =? vip_w0 vip)) in
      let port_match := vip_port lru_miss_stat_vip =? vip_port vip in
      vip_miss_stats_upd p (fun v => VipDef (vipv6 v) (vip_port v) (vip_proto vip)) ;;
      let proto_match := nz (vip_proto vip) in
      if address_match && port_match && proto_match then
        q ← lru_miss_stats_ptr (real_index pckt);
        match q with
        | None => mret XDP_DROP
        | Some q => lru_miss_stats_upd q (fun n => u32 (n + 1)) ;; mret FURTHER_PROCESSING
        end
      else mret FURTHER_PROCESSING
  end.

(** @src xdp_progs/katran/lib/bpf/balancer.bpf.c 600-624 check_and_update_real_index_in_lru *)
Definition check_and_update_real_index_in_lru (pckt : packet_description) (lru_map : lru_ref) : kat Z :=
  dst_lru ← lru_lookup lru_map (pd_flow pckt);
  match dst_lru with
  | Some dst_lru =>
      if pos dst_lru =? real_index pckt then mret DST_MATCH_IN_LRU
      else
        lru_alter lru_map (pd_flow pckt) (fun l => RealPosLru (real_index pckt) (atime l)) ;;
        mret DST_MISMATCH_IN_LRU
  | None =>
      '(under_flood, _) ← is_under_flood 0;
      if under_flood : bool then mret DST_NOT_FOUND_IN_LRU
      else
        lru_update lru_map (pd_flow pckt) (RealPosLru (real_index pckt) 0) ;;
        mret DST_NOT_FOUND_IN_LRU
  end.

(** @src xdp_progs/katran/lib/bpf/balancer.bpf.c 626-639 incr_server_id_routing_stats *)
Definition incr_server_id_routing_stats (vip_num : Z) (newConn misMatchInLRU : bool) : kat unit :=
  p ← server_id_stats_ptr vip_num;
  match p with
  | None => mret tt
  | Some p =>
      when newConn (server_id_stats_upd p (add_v1 1)) ;;
      when misMatchInLRU (server_id_stats_upd p (add_v2 1))
  end.

(** ** process_packet *)

(** Lines 666-709: packets of another balancer.  [inr tt] goes on.
    @src xdp_progs/katran/lib/bpf/balancer.bpf.c 692-709 process_packet *)
Definition decap_ipip (pckt : packet_description) (is_ipv6 : bool) : kat (outcome + unit) :=
  let protocol := fk_proto (pd_flow pckt) in
  if INLINE_DECAP_IPIP && ((protocol =? IPPROTO_IPIP) || (protocol =? IPPROTO_IPV6)) then
    '(action, pass) ← check_decap_dst pckt is_ipv6;
    if 0 <=? action then mret (inl (Ret action))
    else r ← process_encaped_ipip_pckt is_ipv6 protocol pass; mret (inl r)
  else mret (inr tt).

(** Lines 711-733: the ports, or GUE decapsulation.
    @src xdp_progs/katran/lib/bpf/balancer.bpf.c 711-733 process_packet *)
Definition parse_l4 (pckt : packet_description) (off : Z) (is_ipv6 : bool)
    : kat (outcome + packet_description) :=
  let protocol := fk_proto (pd_flow pckt) in
  if protocol =? IPPROTO_TCP then
    r ← parse_tcp is_ipv6 pckt;
    mret (match r with None => inl (Ret XDP_DROP) | Some pckt => inr pckt end)
  else if protocol =? IPPROTO_UDP then
    r ← parse_udp is_ipv6 pckt;
    match r with
    | None => mret (inl (Ret XDP_DROP))
    | Some pckt =>
        if INLINE_DECAP_GUE && (port16_1 (pd_flow pckt) =? bswap16 GUE_DPORT) then
          '(action, pass) ← check_decap_dst pckt is_ipv6;
          if 0 <=? action then mret (inl (Ret action))
          else r ← process_encaped_gue_pckt off is_ipv6 pass; mret (inl r)
        else mret (inr pckt)
    end
  else mret (inl (Ret XDP_PASS)).

(** Lines 735-757: the VIP of the packet, by its port or for every port; [None]
    is [return XDP_PASS].
    @src xdp_progs/katran/lib/bpf/balancer.bpf.c 735-757 process_packet *)
Definition find_vip (pckt : packet_description) (is_ipv6 : bool)
    : option (vip_definition * vip_meta * packet_description) :=
  let addr := if is_ipv6 then dstv6 (pd_flow pckt)
              else set_w0 v6_zero (fk_dst (pd_flow pckt)) in
  let vip := VipDef addr (port16_1 (pd_flow pckt)) (fk_proto (pd_flow pckt)) in
  match lookup_vip vip with
  | Some vip_info => Some (vip, vip_info, pckt)
  | None =>
      let vip := VipDef addr 0 (fk_proto (pd_flow pckt)) in
      match lookup_vip vip with
      | None => None
      | Some vip_info =>
          if negb (has (vip_flags vip_info) F_HASH_DPORT_ONLY)
             && negb (has (vip_flags vip_info) F_HASH_SRC_DST_PORT)
          then Some (vip, vip_info, set_port1 0 pckt)
          else Some (vip, vip_info, pckt)
      end
  end.

(** Lines 759-776, for a packet longer than [MAX_PCKT_SIZE].
    @src xdp_progs/katran/lib/bpf/balancer.bpf.c 759-776 process_packet *)
Definition packet_too_big (is_ipv6 : bool) (len : Z) : kat outcome :=
  REPORT_EVENT PACKET_TOOBIG len false ;;
  if ICMP_TOOBIG_GENERATION then
    p ← stats_ptr (MAX_VIPS + ICMP_TOOBIG_CNTRS);
    match p with
    | None => mret (Ret XDP_DROP)
    | Some p =>
        stats_upd p (if is_ipv6 then add_v2 1 else add_v1 1) ;;
        v ← send_icmp_too_big is_ipv6 len; mret (Ret v)
    end
  else mret (Ret XDP_DROP).

(** Lines 794-807: the connection table of this CPU.
    @src xdp_progs/katran/lib/bpf/balancer.bpf.c 794-807 process_packet *)
Definition select_lru (cpu_num : Z) : kat (outcome + lru_ref) :=
  lru_map ← lru_mapping_lookup cpu_num;
  match lru_map with
  | Some m => mret (inr m)
  | None =>
      p ← stats_ptr (MAX_VIPS + FALLBACK_LRU_CNTR);
      match p with
      | None => mret (inl (Ret XDP_DROP))
      | Some p => stats_upd p (add_v1 1) ;; mret (inr LruFallback)
      end
  end.

(** The counters of [lb_quic_packets_stats] that lines 829-889 increment. *)
Definition quic_inc_ch_routed (q : lb_quic_packets_stats) :=
  QuicStats (u64 (q_ch_routed q + 1)) (q_cid_initial q) (q_cid_invalid_server_id q)
    (q_cid_invalid_server_id_sample q) (q_cid_routed q) (q_cid_unknown_real_dropped q)
    (q_cid_v0 q) (q_cid_v1 q) (q_cid_v2 q) (q_cid_v3 q)
    (q_dst_match_in_lru q) (q_dst_mismatch_in_lru q) (q_dst_not_found_in_lru q).
Definition quic_inc_initial (q : lb_quic_packets_stats) :=
  QuicStats (q_ch_routed q) (u64 (q_cid_initial q + 1)) (q_cid_invalid_server_id q)
    (q_cid_invalid_server_id_sample q) (q_cid_routed q) (q_cid_unknown_real_dropped q)
    (q_cid_v0 q) (q_cid_v1 q) (q_cid_v2 q) (q_cid_v3 q)
    (q_dst_match_in_lru q) (q_dst_mismatch_in_lru q) (q_dst_not_found_in_lru q).
Definition quic_invalid_sid (sid : Z) (q : lb_quic_packets_stats) :=
  QuicStats (u64 (q_ch_routed q + 1)) (q_cid_initial q) (u64 (q_cid_invalid_server_id q + 1))
    (u64 sid) (q_cid_routed q) (q_cid_unknown_real_dropped q)
    (q_cid_v0 q) (q_cid_v1 q) (q_cid_v2 q) (q_cid_v3 q)
    (q_dst_match_in_lru q) (q_dst_mismatch_in_lru q) (q_dst_not_found_in_lru q).
Definition quic_inc_unknown_real (q : lb_quic_packets_stats) :=
  QuicStats (q_ch_routed q) (q_cid_initial q) (q_cid_invalid_server_id q)
    (q_cid_invalid_server_id_sample q) (q_cid_routed q) (u64 (q_cid_unknown_real_dropped q + 1))
    (q_cid_v0 q) (q_cid_v1 q) (q_cid_v2 q) (q_cid_v3 q)
    (q_dst_match_in_lru q) (q_dst_mismatch_in_lru q) (q_dst_not_found_in_lru q).
Definition quic_inc_routed (res : Z) (q : lb_quic_packets_stats) :=
  let add (b : bool) x := if b then u64 (x + 1) else x in
  QuicStats (q_ch_routed q) (q_cid_initial q) (q_cid_invalid_server_id q)
    (q_cid_invalid_server_id_sample q) (u64 (q_cid_routed q + 1)) (q_cid_unknown_real_dropped q)
    (q_cid_v0 q) (q_cid_v1 q) (q_cid_v2 q) (q_cid_v3 q)
    (add (res =? DST_MATCH_IN_LRU) (q_dst_match_in_lru q))
    (add (res =? DST_MISMATCH_IN_LRU) (q_dst_mismatch_in_lru q))
    (add (negb (res =? DST_MATCH_IN_LRU) && negb (res =? DST_MISMATCH_IN_LRU))
         (q_dst_not_found_in_lru q)).

(** Lines 836-888: the server id of a QUIC packet; the result is [dst] and [pckt].
    @src xdp_progs/katran/lib/bpf/balancer.bpf.c 836-888 process_packet *)
Definition route_quic (pckt : packet_description) (vip_info : vip_meta) (is_ipv6 : bool)
    (lru_map : lru_ref) (p len : Z) : kat (outcome + (option real_definition * packet_description)) :=
  qpr ← parse_quic is_ipv6 pckt;
  if 0 <? server_id qpr then
    increment_quic_cid_version_stats p (cid_version qpr) ;;
    match lookup_server_id (server_id qpr) with
    | Some key =>
        if key =? 0 then
          quic_stats_upd p (quic_invalid_sid (server_id qpr)) ;; mret (inr (None, pckt))
        else
          let pckt := set_real_index key pckt in
          match lookup_real key with
          | None =>
              quic_stats_upd p quic_inc_unknown_real ;;
              REPORT_EVENT QUIC_PACKET_DROP_NO_REAL len false ;;
              mret (inl (Ret XDP_DROP))
          | Some dst =>
              res ← check_and_update_real_index_in_lru pckt lru_map;
              when (res =? DST_MISMATCH_IN_LRU)
                (incr_server_id_routing_stats (vip_num vip_info) false true) ;;
              quic_stats_upd p (quic_inc_routed res) ;;
              mret (inr (Some dst, pckt))
          end
    | None =>
        quic_stats_upd p (quic_invalid_sid (server_id qpr)) ;; mret (inr (None, pckt))
    end
  else if negb (is_initial qpr) then
    quic_stats_upd p quic_inc_ch_routed ;; mret (inr (None, pckt))
  else
    quic_stats_upd p quic_inc_initial ;;
    incr_server_id_routing_stats (vip_num vip_info) true false ;;
    mret (inr (None, pckt)).

(** Lines 809-890.
    @src xdp_progs/katran/lib/bpf/balancer.bpf.c 809-890 process_packet *)
Definition route_quic_vip (pckt : packet_description) (vip_info : vip_meta) (is_ipv6 : bool)
    (lru_map : lru_ref) (len : Z) : kat (outcome + (option real_definition * packet_description)) :=
  if has (vip_flags vip_info) F_QUIC_VIP then
    if has (pd_flags pckt) F_ICMP then
      p ← stats_ptr (MAX_VIPS + QUIC_ICMP_STATS);
      match p with
      | None => mret (inl (Ret XDP_DROP))
      | Some p =>
          stats_upd p (add_v1 1) ;;
          ignorable ← ignorable_quic_icmp_code is_ipv6;
          when ignorable (stats_upd p (add_v2 1)) ;;
          mret (inr (None, pckt))
      end
    else
      p ← quic_stats_ptr 0;
      match p with
      | None => mret (inl (Ret XDP_DROP))
      | Some p => route_quic pckt vip_info is_ipv6 lru_map p len
      end
  else mret (inr (None, pckt)).

(** Lines 897-929: the server id in a TCP option.
    @src xdp_progs/katran/lib/bpf/balancer.bpf.c 897-929 process_packet *)
Definition route_tpr (pckt : packet_description) (vip_info : vip_meta) (is_ipv6 : bool)
    (lru_map : lru_ref) : kat (outcome + (option real_definition * packet_description)) :=
  if TCP_SERVER_ID_ROUTING && (fk_proto (pd_flow pckt) =? IPPROTO_TCP) then
    p ← tpr_stats_ptr 0;
    match p with
    | None => mret (inl (Ret XDP_DROP))
    | Some p =>
        if has (pd_flags pckt) F_SYN_SET then
          tpr_stats_upd p (fun t => TprStats (t_ch_routed t) (t_dst_mismatch_in_lru t)
                                      (t_sid_routed t) (u64 (t_tcp_syn t + 1))) ;;
          incr_server_id_routing_stats (vip_num vip_info) true false ;;
          mret (inr (None, pckt))
        else
          '(dst, pckt) ← tcp_hdr_opt_lookup is_ipv6 pckt;
          match dst with
          | None =>
              tpr_stats_upd p (fun t => TprStats (u64 (t_ch_routed t + 1)) (t_dst_mismatch_in_lru t)
                                          (t_sid_routed t) (t_tcp_syn t)) ;;
              mret (inr (None, pckt))
          | Some _ =>
              when (negb (has (vip_flags vip_info) F_LRU_BYPASS))
                (res ← check_and_update_real_index_in_lru pckt lru_map;
                 when (res =? DST_MISMATCH_IN_LRU)
                   (tpr_stats_upd p (fun t => TprStats (t_ch_routed t)
                                       (u64 (t_dst_mismatch_in_lru t + 1)) (t_sid_routed t) (t_tcp_syn t)) ;;
                    incr_server_id_routing_stats (vip_num vip_info) false true)) ;;
              tpr_stats_upd p (fun t => TprStats (t_ch_routed t) (t_dst_mismatch_in_lru t)
                                          (u64 (t_sid_routed t + 1)) (t_tcp_syn t)) ;;
              mret (inr (dst, pckt))
          end
    end
  else mret (inr (None, pckt)).

(** Lines 947-978: consistent hashing, when no table knew the flow.
    @src xdp_progs/katran/lib/bpf/balancer.bpf.c 947-978 process_packet *)
Definition route_ch (pckt : packet_description) (vip : vip_definition) (vip_info : vip_meta)
    (is_ipv6 : bool) (lru_map : lru_ref) (data_stats len : Z)
    : kat (outcome + (real_definition * packet_description)) :=
  counted ←? (if fk_proto (pd_flow pckt) =? IPPROTO_TCP then
                p ← stats_ptr (MAX_VIPS + LRU_MISS_CNTR);
                match p with
                | None => mret (inl (inl (Ret XDP_DROP)))
                | Some p =>
                    (if has (pd_flags pckt) F_SYN_SET then stats_upd p (add_v1 1)
                     else REPORT_EVENT TCP_NONSYN_LRUMISS len false ;; stats_upd p (add_v2 1)) ;;
                    mret (inr tt)
                end
              else mret (inr tt));
  '(dst, pckt) ← get_packet_dst pckt vip_info is_ipv6 lru_map;
  match dst with
  | None => mret (inl (Ret XDP_DROP))
  | Some dst =>
      r ← update_vip_lru_miss_stats vip pckt is_ipv6;
      if 0 <=? r then mret (inl (Ret XDP_DROP))
      else stats_upd data_stats (add_v2 1) ;; mret (inr (dst, pckt))
  end.

(** Lines 896-979: the real server for a packet whose QUIC id named none.
    @src xdp_progs/katran/lib/bpf/balancer.bpf.c 896-979 process_packet *)
Definition select_dst (pckt : packet_description) (vip : vip_definition) (vip_info : vip_meta)
    (is_ipv6 : bool) (lru_map : lru_ref) (cpu_num data_stats len : Z)
    : kat (outcome + (real_definition * packet_description)) :=
  r ← route_tpr pckt vip_info is_ipv6 lru_map;
  match r with
  | inl o => mret (inl o)
  | inr (dst, pckt) =>
      '(dst, pckt) ←
        (match dst with
         | None =>
             if negb (has (pd_flags pckt) F_SYN_SET) && negb (has (vip_flags vip_info) F_LRU_BYPASS)
             then connection_table_lookup pckt lru_map false
             else mret (None, pckt)
         | Some d => mret (Some d, pckt)
         end);
      r ← (match dst with
           | None =>
               if GLOBAL_LRU_LOOKUP && negb (has (pd_flags pckt) F_SYN_SET)
                  && has (vip_flags vip_info) F_GLOBAL_LRU
               then
                 '(action, (dst, pckt)) ← perform_global_lru_lookup pckt cpu_num;
                 mret (if 0 <=? action then inl (Ret action) else inr (dst, pckt))
               else mret (inr (None, pckt))
           | Some d => mret (inr (Some d, pckt))
           end);
      match r with
      | inl o => mret (inl o)
      | inr (Some dst, pckt) => mret (inr (dst, pckt))
      | inr (None, pckt) => route_ch pckt vip vip_info is_ipv6 lru_map data_stats len
      end
  end.

(** Lines 981-1018: statistics and encapsulation.
    @src xdp_progs/katran/lib/bpf/balancer.bpf.c 981-1019 process_packet *)
Definition forward (pckt : packet_description) (vip_info : vip_meta) (dst : real_definition)
    (is_ipv6 : bool) (original_sport pkt_bytes : Z) : kat Z :=
  match lookup_ctl 0 with
  | None => mret XDP_DROP
  | Some cval =>
      p ← stats_ptr (vip_num vip_info);
      match p with
      | None => mret XDP_DROP
      | Some p =>
          stats_upd p (add_v1 1) ;;
          stats_upd p (add_v2 pkt_bytes) ;;
          q ← reals_stats_ptr (real_index pckt);
          match q with
          | None => mret XDP_DROP
          | Some q =>
              reals_stats_upd q (add_v1 1) ;;
              reals_stats_upd q (add_v2 pkt_bytes) ;;
              if LOCAL_DELIVERY_OPTIMIZATION && (has (vip_flags vip_info) F_LOCAL_VIP
                   && has (rd_flags dst) F_LOCAL_REAL) then mret XDP_PASS else
              let pckt := set_port0 original_sport pckt in
              ok ← (if has (rd_flags dst) F_IPV6 then
                      if GUE_ENCAP then gue_encap_v6 cval is_ipv6 pckt dst pkt_bytes
                      else encap_v6 cval is_ipv6 pckt dst pkt_bytes
                    else
                      if GUE_ENCAP then gue_encap_v4 cval pckt dst pkt_bytes
                      else encap_v4 cval pckt dst pkt_bytes);
              mret (if ok : bool then XDP_TX else XDP_DROP)
          end
      end
  end.

(** Lines 778-895 and the calls of the parts above, for a packet of a VIP.
    @src xdp_progs/katran/lib/bpf/balancer.bpf.c 778-896 process_packet *)
Definition serve_vip (pckt : packet_description) (vip : vip_definition) (vip_info : vip_meta)
    (is_ipv6 : bool) (pkt_bytes len : Z) : kat outcome :=
  p ← stats_ptr (MAX_VIPS + LRU_CNTRS);
  match p with
  | None => mret (Ret XDP_DROP)
  | Some data_stats =>
      stats_upd data_stats (add_v1 1) ;;
      let pckt := if has (vip_flags vip_info) F_HASH_NO_SRC_PORT then set_port0 0 pckt else pckt in
      let cpu_num := h_cpu in
      lru_map ←? select_lru cpu_num;
      r ← route_quic_vip pckt vip_info is_ipv6 lru_map len;
      match r with
      | inl o => mret o
      | inr (dst, pckt) =>
          let original_sport := port16_0 (pd_flow pckt) in
          r ← (match dst with
               | Some dst => mret (inr (dst, pckt))
               | None => select_dst pckt vip vip_info is_ipv6 lru_map cpu_num data_stats len
               end);
          match r with
          | inl o => mret o
          | inr (dst, pckt) =>
              v ← forward pckt vip_info dst is_ipv6 original_sport pkt_bytes; mret (Ret v)
          end
      end
  end.

(** @src xdp_progs/katran/lib/bpf/balancer.bpf.c 641-785 process_packet *)
Definition process_packet (off : Z) (is_ipv6 : bool) : kat outcome :=
  '(action, (pckt, _, pkt_bytes)) ← process_l3_headers pckt_zero off is_ipv6;
  if 0 <=? action then mret (Ret action) else
  checked ←? decap_ipip pckt is_ipv6;
  pckt ←? parse_l4 pckt off is_ipv6;
  match find_vip pckt is_ipv6 with
  | None => mret (Ret XDP_PASS)
  | Some (vip, vip_info, pckt) =>
      len ← data_len;
      if MAX_PCKT_SIZE <? len then packet_too_big is_ipv6 len
      else serve_vip pckt vip vip_info is_ipv6 pkt_bytes len
  end.

(** @src xdp_progs/katran/lib/bpf/balancer.bpf.c 1021-1045 balancer_ingress *)
Definition balancer_ingress : kat outcome :=
  let nh_off := 14 in
  need nh_off else (Ret XDP_DROP) ;;
  eth_proto ← load16 12;
  if eth_proto =? BE_ETH_P_IP then process_packet nh_off false
  else if eth_proto =? BE_ETH_P_IPV6 then process_packet nh_off true
  else mret (Ret XDP_PASS).

(** The program with its recirculations: each tail call runs
    [balancer_ingress] again on the packet as it is.  The kernel allows 33 tail
    calls; when they are used up [bpf_tail_call] returns and [recirculate]
    passes the packet.  The fuel is the number of tail calls left. *)
Fixpoint balancer_run (tail_calls : nat) : kat Z :=
  r ← balancer_ingress;
  match r with
  | Ret v => mret v
  | TailCall => match tail_calls with O => mret XDP_PASS | S n => balancer_run n end
  end.
End balancer.
Definition MAX_TAIL_CALL_CNT : nat := 33.
