(* ===== verification/KatranSafety.v ===== *)
(** * Katran: memory safety

    The balancer never reads or writes outside the packet, whatever the packet,
    the maps, the features and the helpers do, and it always returns a verdict.
    Each function of the program has a lemma in the judgement [fits]; the
    database [fits] lets a caller's proof use the lemmas of its callees. *)
From Stdlib Require Import ZArith Lia.
From stdpp Require Import base numbers list option gmap.
From S2P Require Import Prelude Xdp OnesComplement Jhash KatranDefs KatranCsum KatranParse KatranIcmp KatranEncap KatranBalancer.
#[local] Open Scope Z_scope.

Create HintDb fits.

(** The sizes that appear in the bounds. *)
Ltac fits_bound ::=
  unfold is_u8, is_u16, is_u32, is_u64, zlen, TCP_HDR_OPT_LEN_TPR, IPV4_HDR_LEN_NO_OPT,
    ICMP_TOOBIG_PAYLOAD_SIZE, ICMP6_TOOBIG_PAYLOAD_SIZE, ICMP_TOOBIG_SIZE, ICMP6_TOOBIG_SIZE,
    ETH_ALEN in *;
  simpl length in *; lia.

(** Apply the lemma of a callee found in the database, then go on. *)
Ltac fits_call :=
  lazymatch goal with
  | |- fits _ _ _ =>
      eapply fits_weaken; [solve [eauto with fits]|cbv beta; intros ? ? ?; destruct_and?; subst]
  end.
Ltac fits_prove := repeat (cbv beta zeta; first [fits_step | fits_call]).
#[export] Hint Extern 1 (0 <= _) => lia : fits.
#[export] Hint Extern 1 (_ <= _) => lia : fits.
#[export] Hint Extern 1 (bytes_ok [_; _; _]) => repeat constructor; done : fits.

(** The verdicts of the balancer. *)
Definition verdict (v : Z) : Prop := v = XDP_DROP \/ v = XDP_PASS \/ v = XDP_TX.
(** The result of a step: a verdict, or [FURTHER_PROCESSING]. *)
Definition action_ok (a : Z) : Prop := a = FURTHER_PROCESSING \/ verdict a.
Definition outcome_ok (o : outcome) : Prop := match o with Ret v => verdict v | TailCall => True end.

Lemma verdict_drop : verdict XDP_DROP. Proof. now left. Qed.
Lemma verdict_pass : verdict XDP_PASS. Proof. right; now left. Qed.
Lemma verdict_tx : verdict XDP_TX. Proof. right; now right. Qed.
Lemma action_verdict a : action_ok a -> 0 <= a -> verdict a.
Proof. unfold action_ok, FURTHER_PROCESSING. intros [->|?]; [lia|done]. Qed.
Lemma verdict_action a : verdict a -> action_ok a.
Proof. now right. Qed.
Lemma action_further : action_ok FURTHER_PROCESSING. Proof. now left. Qed.
#[export] Hint Resolve verdict_drop verdict_pass verdict_tx action_further verdict_action : fits.

Section safety.
Context {F : Features} {T : Tables} {H : XdpHelpers} {HL : XdpHelperLaws H} {P : LruPolicy}.

Lemma decrement_ttl_fits {E} L off b :
  0 <= off -> fits L (decrement_ttl (E := E) off b) (fun a L' => L' = L /\ action_ok a).
Proof. intros. unfold decrement_ttl. fits_prove; auto with fits. Qed.

Lemma csum_halfwords_fits {E} L n p c :
  0 <= p -> p + 2 * Z.of_nat n <= L ->
  fits L (csum_halfwords (E := E) n p c) (fun _ L' => L' = L).
Proof.
  revert p c. induction n as [|n IH]; intros p c Hp Hn; cbn [csum_halfwords].
  - now apply fits_ret.
  - fits_step. fits_step. apply IH; lia.
Qed.

Lemma ipv4_csum_inline_fits {E} L p c :
  0 <= p -> p + 20 <= L -> fits L (ipv4_csum_inline (E := E) p c) (fun _ L' => L' = L).
Proof.
  intros. unfold ipv4_csum_inline. fits_step. eapply fits_weaken.
  - apply csum_halfwords_fits; [lia|]. change (Z.to_nat (Z.shiftr 20 1)) with 10%nat. lia.
  - cbv beta; intros ? ? ->. now apply fits_ret.
Qed.

Lemma ipv4_csum_fits {E} L p n c :
  0 <= p -> 0 <= n -> p + n <= L -> fits L (ipv4_csum (E := E) p n c) (fun _ L' => L' = L).
Proof.
  intros. unfold ipv4_csum. fits_step. apply fits_load; [lia|lia|]. intros. now apply fits_ret.
Qed.

Lemma push_fits {E} L p n c :
  0 <= p -> p + Z.of_nat n <= L -> fits L (push (E := E) p n c) (fun _ L' => L' = L).
Proof. intros. unfold push. fits_step. apply fits_load; [lia|lia|]. intros. now apply fits_ret. Qed.
Lemma pull_fits {E} L p n c :
  0 <= p -> p + Z.of_nat n <= L -> fits L (pull (E := E) p n c) (fun _ L' => L' = L).
Proof. intros. unfold pull. fits_step. apply fits_load; [lia|lia|]. intros. now apply fits_ret. Qed.
End safety.
#[export] Hint Resolve decrement_ttl_fits ipv4_csum_inline_fits ipv4_csum_fits push_fits pull_fits : fits.

Section csum_safety.
Context {H : XdpHelpers}.

Lemma ipv6_csum_fits {E} L p n c ip6h :
  0 <= p -> 0 <= n -> p + n <= L -> 0 <= ip6h -> ip6h + 40 <= L ->
  fits L (ipv6_csum (E := E) p n c ip6h) (fun _ L' => L' = L).
Proof. intros. unfold ipv6_csum. fits_prove. done. Qed.

Lemma and_then_fits {E} L r k (Q : Z + Z -> Z -> Prop) :
  (forall e, Q (inl e) L) -> (forall c, fits L (k c) Q) -> fits L (and_then (E := E) r k) Q.
Proof. intros H0 H1. destruct r; simpl; [apply fits_ret, H0|apply H1]. Qed.

Lemma or_fail_fits {E} L m k (Q : option Z -> Z -> Prop) :
  fits L m (fun _ L' => L' = L) -> Q None L -> (forall c, fits L (k c) Q) ->
  fits L (or_fail (E := E) m k) Q.
Proof.
  intros Hm H0 H1. unfold or_fail. fits_step. eapply fits_weaken; [exact Hm|].
  cbv beta. intros [e|c] ? ->; [now apply fits_ret|apply H1].
Qed.

Lemma pseudo6_fits {E} L ip6h c :
  0 <= ip6h -> ip6h + 40 <= L ->
  fits L (add_pseudo_ipv6_header (E := E) ip6h c) (fun _ L' => L' = L)
  /\ fits L (rem_pseudo_ipv6_header (E := E) ip6h c) (fun _ L' => L' = L).
Proof.
  intros. unfold add_pseudo_ipv6_header, rem_pseudo_ipv6_header.
  split; repeat (first [fits_step | apply and_then_fits; intros | fits_call]); done.
Qed.
Lemma pseudo4_fits {E} L iph c :
  0 <= iph -> iph + 20 <= L ->
  fits L (add_pseudo_ipv4_header (E := E) iph c) (fun _ L' => L' = L)
  /\ fits L (rem_pseudo_ipv4_header (E := E) iph c) (fun _ L' => L' = L).
Proof.
  intros. unfold add_pseudo_ipv4_header, rem_pseudo_ipv4_header.
  split; repeat (first [fits_step | apply and_then_fits; intros | fits_call]); done.
Qed.

Ltac gue_fits :=
  repeat (cbv beta zeta; first
    [ apply or_fail_fits; [| |intros ?] | fits_step
    | apply pseudo6_fits; lia | apply pseudo4_fits; lia | fits_call ]); try done.

Lemma gue_csum_v6_fits {E} L o u i c :
  0 <= o -> o + 40 <= L -> 0 <= u -> u + 8 <= L -> 0 <= i -> i + 40 <= L ->
  fits L (gue_csum_v6 (E := E) o u i c) (fun _ L' => L' = L).
Proof. intros. unfold gue_csum_v6. gue_fits. Qed.
Lemma gue_csum_v4_fits {E} L o u i c :
  0 <= o -> o + 20 <= L -> 0 <= u -> u + 8 <= L -> 0 <= i -> i + 20 <= L ->
  fits L (gue_csum_v4 (E := E) o u i c) (fun _ L' => L' = L).
Proof. intros. unfold gue_csum_v4. gue_fits. Qed.
Lemma gue_csum_v4_in_v6_fits {E} L o u i c :
  0 <= o -> o + 40 <= L -> 0 <= u -> u + 8 <= L -> 0 <= i -> i + 20 <= L ->
  fits L (gue_csum_v4_in_v6 (E := E) o u i c) (fun _ L' => L' = L).
Proof. intros. unfold gue_csum_v4_in_v6. gue_fits. Qed.

Lemma create_v4_hdr_fits {E} L iph tos sa da n p :
  0 <= iph -> iph + 20 <= L ->
  fits L (create_v4_hdr (E := E) iph tos sa da n p) (fun _ L' => L' = L).
Proof. intros. unfold create_v4_hdr. fits_prove. done. Qed.

Lemma v6_bytes_ok a : bytes_ok (v6_bytes a).
Proof. unfold v6_bytes. rewrite !bytes_ok_app. auto using le_split_ok. Qed.
Lemma length_v6_bytes a : length (v6_bytes a) = 16%nat.
Proof. unfold v6_bytes. now rewrite !length_app, !length_le_split. Qed.

Lemma create_v6_hdr_fits {E} L ip6h tc sa da n p :
  0 <= ip6h -> ip6h + 40 <= L ->
  fits L (create_v6_hdr (E := E) ip6h tc sa da n p) (fun _ L' => L' = L).
Proof.
  intros. unfold create_v6_hdr.
  assert (zlen (v6_bytes sa) = 16 /\ zlen (v6_bytes da) = 16) as [Hsa Hda]
    by (unfold zlen; rewrite !length_v6_bytes; done).
  repeat first [ apply fits_store; [lia|rewrite ?Hsa, ?Hda; fits_bound|apply v6_bytes_ok|]
               | fits_step | fits_call ]; auto.
  repeat constructor; done.
Qed.

Lemma create_udp_hdr_fits {E} L u s d n c :
  0 <= u -> u + 8 <= L -> fits L (create_udp_hdr (E := E) u s d n c) (fun _ L' => L' = L).
Proof. intros. unfold create_udp_hdr. fits_prove. done. Qed.
End csum_safety.
#[export] Hint Resolve ipv6_csum_fits gue_csum_v6_fits gue_csum_v4_fits gue_csum_v4_in_v6_fits
  create_v4_hdr_fits create_v6_hdr_fits create_udp_hdr_fits : fits.

Section parse_safety.
Context {F : Features} {T : Tables}.

Lemma REPORT_EVENT_fits L ev n b : fits L (REPORT_EVENT ev n b) (fun _ L' => L' = L).
Proof. unfold REPORT_EVENT, submit_event. fits_prove; done. Qed.

Lemma recirculate_fits L : fits L recirculate (fun o L' => L' = L /\ outcome_ok o).
Proof. unfold recirculate. fits_prove; simpl; auto with fits. Qed.

Lemma calc_offset_range a b : 34 <= calc_offset a b <= 102.
Proof. destruct a, b; cbn; lia. Qed.

Lemma parse_udp_fits {E} L v6 p :
  fits L (parse_udp (E := E) v6 p)
    (fun r L' => L' = L /\ forall p', r = Some p' -> pd_flags p' = pd_flags p
                           /\ real_index p' = real_index p).
Proof.
  unfold parse_udp. pose proof (calc_offset_range v6 (has (pd_flags p) F_ICMP)).
  fits_prove; (split; [done|]; intros p' [= <-]; done).
Qed.

Lemma land_lor_bit a b c : Z.land b c = 0 -> Z.land (Z.lor a b) c = Z.land a c.
Proof. intros H. now rewrite Z.land_lor_distr_l, H, Z.lor_0_r. Qed.

Lemma parse_tcp_fits {E} L v6 p :
  fits L (parse_tcp (E := E) v6 p)
    (fun r L' => L' = L /\ forall p', r = Some p' ->
       has (pd_flags p') F_ICMP = has (pd_flags p) F_ICMP /\ real_index p' = real_index p).
Proof.
  unfold parse_tcp. pose proof (calc_offset_range v6 (has (pd_flags p) F_ICMP)).
  fits_prove; (split; [done|]; intros p' [= <-]; destruct (nz (Z.land x 2)); try done;
    cbn; unfold has; now rewrite land_lor_bit).
Qed.

Definition opt_ok (s : hdr_opt_state) : Prop :=
  is_u8 (byte_offset s) /\ is_u8 (hdr_bytes_remaining s).

Lemma parse_hdr_opt_raw_fits {E} L s :
  opt_ok s -> fits L (parse_hdr_opt_raw (E := E) s) (fun r L' => L' = L /\ opt_ok r.2).
Proof.
  intros [Hb Hr]. unfold parse_hdr_opt_raw. fits_prove;
    split; try done; split; cbn; try apply u8_range; done.
Qed.

Lemma hdr_opt_loop_fits {E} L parse n s :
  (forall s, opt_ok s -> fits L (parse s) (fun r L' => L' = L /\ opt_ok r.2)) ->
  opt_ok s -> fits L (hdr_opt_loop (E := E) parse n s) (fun _ L' => L' = L).
Proof.
  intros Hp. revert s. induction n as [|n IH]; intros s Hs; cbn [hdr_opt_loop].
  - now apply fits_ret.
  - fits_step. eapply fits_weaken; [now apply Hp|]. cbv beta. intros [err s'] L' [-> Hs'].
    fits_step; [now apply fits_ret|]. now apply IH.
Qed.

Lemma tcp_hdr_opt_lookup_server_id_fits {E} L v6 :
  fits L (tcp_hdr_opt_lookup_server_id (E := E) v6) (fun _ L' => L' = L).
Proof.
  unfold tcp_hdr_opt_lookup_server_id. pose proof (calc_offset_range v6 false).
  repeat (cbv beta zeta; first
    [ eapply fits_weaken; [apply hdr_opt_loop_fits;
        [intros; now apply parse_hdr_opt_raw_fits|split; apply u8_range]|cbv beta; intros ? ? ->]
    | fits_step ]); done.
Qed.

Lemma tcp_hdr_opt_lookup_fits {E} L v6 p :
  fits L (tcp_hdr_opt_lookup (E := E) v6 p)
    (fun r L' => L' = L /\ pd_flags r.2 = pd_flags p).
Proof.
  unfold tcp_hdr_opt_lookup. fits_step. eapply fits_weaken; [apply tcp_hdr_opt_lookup_server_id_fits|].
  cbv beta. intros ? ? ->. fits_prove; done.
Qed.

Lemma parse_quic_fits {E} L v6 p :
  fits L (parse_quic (E := E) v6 p) (fun _ L' => L' = L).
Proof.
  unfold parse_quic. pose proof (calc_offset_range v6 (has (pd_flags p) F_ICMP)).
  fits_prove; done.
Qed.
End parse_safety.
#[export] Hint Resolve REPORT_EVENT_fits recirculate_fits parse_udp_fits parse_tcp_fits
  tcp_hdr_opt_lookup_fits parse_quic_fits : fits.

Section icmp_safety.
Context {H : XdpHelpers} {HL : XdpHelperLaws H}.

Lemma swap_mac_and_send_fits {E} L :
  14 <= L -> fits L (swap_mac_and_send (E := E)) (fun v L' => L' = L /\ verdict v).
Proof. intros. unfold swap_mac_and_send. fits_prove; auto with fits. Qed.

Lemma swap_mac_fits {E} L d o :
  0 <= d -> 0 <= o -> d + 14 <= L -> o + 14 <= L ->
  fits L (swap_mac (E := E) d o) (fun _ L' => L' = L).
Proof. intros. unfold swap_mac. fits_prove; done. Qed.

Lemma send_icmp_reply_fits {E} L :
  fits L (send_icmp_reply (E := E)) (fun v L' => L' = L /\ verdict v).
Proof.
  unfold send_icmp_reply. fits_prove; auto with fits.
  eapply fits_weaken; [apply swap_mac_and_send_fits; lia|auto].
Qed.

Lemma send_icmp6_reply_fits {E} L :
  fits L (send_icmp6_reply (E := E)) (fun v L' => L' = L /\ verdict v).
Proof.
  unfold send_icmp6_reply. fits_prove; auto with fits.
  eapply fits_weaken; [apply swap_mac_and_send_fits; lia|auto].
Qed.

Lemma send_icmp4_too_big_fits {E} L :
  fits L (send_icmp4_too_big (E := E)) (fun v _ => verdict v).
Proof.
  unfold send_icmp4_too_big.
  assert (Hm : forall L', 126 <= L' ->
    fits L' (swap_mac (E := E) 0 (20 + 8)) (fun _ L'' => L'' = L')).
  { intros. apply swap_mac_fits; lia. }
  assert (Hc : forall L' p n c, 0 <= p -> 0 <= n -> p + n <= L' ->
    fits L' (ipv4_csum (E := E) p n c) (fun _ L'' => L'' = L')) by (intros; now apply ipv4_csum_fits).
  repeat (cbv beta zeta; first
    [ fits_step
    | eapply fits_weaken; [apply Hm; fits_bound|cbv beta; intros ? ? ->]
    | eapply fits_weaken; [apply Hc; fits_bound|cbv beta; intros ? ? ->] ]); auto with fits.
Qed.

Lemma send_icmp6_too_big_fits {E} L :
  fits L (send_icmp6_too_big (E := E)) (fun v _ => verdict v).
Proof.
  unfold send_icmp6_too_big.
  assert (Hm : forall L', 310 <= L' ->
    fits L' (swap_mac (E := E) 0 (40 + 8)) (fun _ L'' => L'' = L')).
  { intros. apply swap_mac_fits; lia. }
  assert (Hc : forall L' p n c i, 0 <= p -> 0 <= n -> p + n <= L' -> 0 <= i -> i + 40 <= L' ->
    fits L' (ipv6_csum (E := E) p n c i) (fun _ L'' => L'' = L')) by (intros; now apply ipv6_csum_fits).
  repeat (cbv beta zeta; first
    [ fits_step
    | eapply fits_weaken; [apply Hm; fits_bound|cbv beta; intros ? ? ->]
    | eapply fits_weaken; [apply Hc; fits_bound|cbv beta; intros ? ? ->] ]); auto with fits.
Qed.

Lemma send_icmp_too_big_fits {E} L v6 n :
  fits L (send_icmp_too_big (E := E) v6 n) (fun v _ => verdict v).
Proof.
  unfold send_icmp_too_big. fits_prove; auto with fits.
  - apply send_icmp6_too_big_fits.
  - apply send_icmp4_too_big_fits.
Qed.

(** What the callers rely on: a description marked as made from an ICMP
    message comes with a complete ICMP header. *)
Lemma parse_icmpv6_fits L off p :
  0 <= off -> has (pd_flags p) F_ICMP = false ->
  fits L (parse_icmpv6 off p) (fun r L' =>
    L' = L /\ action_ok r.1 /\ (has (pd_flags r.2) F_ICMP = true -> off + 8 <= L)).
Proof.
  intros Hoff Hp. unfold parse_icmpv6.
  assert (Hr : fits L send_icmp6_reply (E := kenv) (fun v L' => L' = L /\ verdict v))
    by apply send_icmp6_reply_fits.
  unfold stats_ptr, stats_upd.
  fits_prove; repeat split; auto with fits; intros; simpl in *; try congruence; lia.
Qed.

Lemma parse_icmp_fits L off p :
  0 <= off -> has (pd_flags p) F_ICMP = false ->
  fits L (parse_icmp off p) (fun r L' =>
    L' = L /\ action_ok r.1 /\ (has (pd_flags r.2) F_ICMP = true -> off + 8 <= L)).
Proof.
  intros Hoff Hp. unfold parse_icmp.
  assert (Hr : fits L send_icmp_reply (E := kenv) (fun v L' => L' = L /\ verdict v))
    by apply send_icmp_reply_fits.
  unfold stats_ptr, stats_upd.
  fits_prove; repeat split; auto with fits; intros; simpl in *; try congruence; lia.
Qed.

Lemma ignorable_quic_icmp_code_fits {E} L (v6 : bool) :
  (if v6 then 62 else 42 : Z) <= L ->
  fits L (ignorable_quic_icmp_code (E := E) v6) (fun _ L' => L' = L).
Proof. intros. unfold ignorable_quic_icmp_code. destruct v6; fits_prove; done. Qed.
End icmp_safety.

Section encap_safety.
Context {F : Features} {T : Tables} {H : XdpHelpers} {HL : XdpHelperLaws H} {P : LruPolicy}.

Lemma length_ctl_mac c : length (ctl_mac c) = 6%nat.
Proof. apply length_le_split. Qed.

Lemma store_mac_fits {E} L off c (Q : unit -> Z -> Prop) :
  0 <= off -> off + 6 <= L -> Q tt L -> fits L (store (E := E) off (ctl_mac c)) Q.
Proof. intros. now apply (fits_store_int L 6). Qed.

Lemma decap_v6_fits {E} L b : 54 <= L -> fits L (decap_v6 (E := E) b) (fun _ _ => True).
Proof. intros. unfold decap_v6. fits_prove; done. Qed.
Lemma decap_v4_fits {E} L : 34 <= L -> fits L (decap_v4 (E := E)) (fun _ _ => True).
Proof. intros. unfold decap_v4. fits_prove; done. Qed.

Ltac encap_call :=
  lazymatch goal with
  | |- fits _ (store _ (ctl_mac _)) _ => apply store_mac_fits; [fits_bound|fits_bound|]
  | |- fits _ (create_v4_hdr _ _ _ _ _ _) _ =>
      eapply fits_weaken; [apply create_v4_hdr_fits; fits_bound|cbv beta; intros ? ? ->]
  | |- fits _ (create_v6_hdr _ _ _ _ _ _) _ =>
      eapply fits_weaken; [apply create_v6_hdr_fits; fits_bound|cbv beta; intros ? ? ->]
  | |- fits _ (create_udp_hdr _ _ _ _ _) _ =>
      eapply fits_weaken; [apply create_udp_hdr_fits; fits_bound|cbv beta; intros ? ? ->]
  | |- fits _ (gue_csum_v6 _ _ _ _) _ =>
      eapply fits_weaken; [apply gue_csum_v6_fits; fits_bound|cbv beta; intros ? ? ->]
  | |- fits _ (gue_csum_v4 _ _ _ _) _ =>
      eapply fits_weaken; [apply gue_csum_v4_fits; fits_bound|cbv beta; intros ? ? ->]
  | |- fits _ (gue_csum_v4_in_v6 _ _ _ _) _ =>
      eapply fits_weaken; [apply gue_csum_v4_in_v6_fits; fits_bound|cbv beta; intros ? ? ->]
  end.
Ltac encap_prove := repeat (cbv beta zeta; first [encap_call | fits_step]); try done.

Lemma encap_v6_fits {E} L c v6 p d n :
  fits L (encap_v6 (E := E) c v6 p d n) (fun _ _ => True).
Proof. unfold encap_v6. destruct v6; encap_prove. Qed.
Lemma encap_v4_fits {E} L c p d n :
  fits L (encap_v4 (E := E) c p d n) (fun _ _ => True).
Proof. unfold encap_v4. encap_prove. Qed.

Lemma gue_csum_fits {E} L o i p :
  fits L (gue_csum (E := E) o i p) (fun _ L' => L' = L).
Proof. unfold gue_csum. destruct o, i; encap_prove. Qed.

Lemma gue_encap_v4_fits {E} L c p d n :
  fits L (gue_encap_v4 (E := E) c p d n) (fun _ _ => True).
Proof.
  unfold gue_encap_v4. encap_prove. eapply fits_weaken; [apply gue_csum_fits|].
  cbv beta. intros ? ? ->. encap_prove.
Qed.
Lemma gue_encap_v6_fits {E} L c v6 p d n :
  fits L (gue_encap_v6 (E := E) c v6 p d n) (fun _ _ => True).
Proof.
  unfold gue_encap_v6. destruct v6; encap_prove;
    (eapply fits_weaken; [apply gue_csum_fits|]; cbv beta; intros ? ? ->; encap_prove).
Qed.

Lemma get_next_ports_fits {E} L t p :
  0 <= t -> fits L (get_next_ports (E := E) t p) (fun _ L' => L' = L).
Proof. intros. unfold get_next_ports. fits_prove; done. Qed.

Lemma RECORD_GUE_ROUTE_fits L o i b1 b2 :
  0 <= o -> 0 <= i -> fits L (RECORD_GUE_ROUTE o i b1 b2) (fun _ L' => L' = L).
Proof.
  intros. unfold RECORD_GUE_ROUTE, gue_record_route.
  repeat (cbv beta zeta; first
    [ eapply fits_weaken; [apply get_next_ports_fits; fits_bound|cbv beta; intros ? ? ->]
    | fits_step ]); done.
Qed.

Lemma gue_decap_v4_fits L : 42 <= L -> fits L gue_decap_v4 (fun _ _ => True).
Proof.
  intros. unfold gue_decap_v4. cbv zeta. fits_step.
  eapply fits_weaken; [apply RECORD_GUE_ROUTE_fits; lia|cbv beta; intros ? ? ->]. fits_prove; done.
Qed.
Lemma gue_decap_v6_fits L b : 62 <= L -> fits L (gue_decap_v6 b) (fun _ _ => True).
Proof.
  intros. unfold gue_decap_v6. cbv zeta. fits_step.
  eapply fits_weaken; [apply RECORD_GUE_ROUTE_fits; lia|cbv beta; intros ? ? ->]. fits_prove; done.
Qed.
End encap_safety.

Section balancer_safety.
Context {F : Features} {T : Tables} {H : XdpHelpers} {HL : XdpHelperLaws H} {P : LruPolicy}.

(** Lookups and updates of maps do not touch the packet. *)
Ltac maps := unfold stats_ptr, stats_get, stats_upd, reals_stats_ptr, reals_stats_upd,
  lru_miss_stats_ptr, lru_miss_stats_upd, vip_miss_stats_ptr, vip_miss_stats_get,
  vip_miss_stats_upd, quic_stats_ptr, quic_stats_upd, decap_vip_stats_ptr, decap_vip_stats_upd,
  tpr_stats_ptr, tpr_stats_upd, server_id_stats_ptr, server_id_stats_upd,
  lru_mapping_lookup, global_lru_lookup, lru_lookup, lru_alter, lru_update.

Lemma is_under_flood_fits L t : fits L (is_under_flood t) (fun _ L' => L' = L).
Proof. unfold is_under_flood. maps. fits_prove; done. Qed.
Hint Resolve is_under_flood_fits : fits.

Lemma get_packet_dst_fits L p vi v6 r :
  fits L (get_packet_dst p vi v6 r) (fun _ L' => L' = L).
Proof.
  unfold get_packet_dst, lpm_src_lookup, increment_ch_drop_no_real, increment_ch_drop_real_0.
  maps. fits_prove; done.
Qed.

Lemma connection_table_lookup_fits L p r g :
  fits L (connection_table_lookup p r g)
    (fun x L' => L' = L /\ pd_flags x.2 = pd_flags p).
Proof. unfold connection_table_lookup. maps. fits_prove; done. Qed.
Hint Resolve get_packet_dst_fits connection_table_lookup_fits : fits.

Lemma perform_global_lru_lookup_fits L p c :
  fits L (perform_global_lru_lookup p c) (fun x L' => L' = L /\ action_ok x.1).
Proof. unfold perform_global_lru_lookup. maps. fits_prove; simpl; auto with fits. Qed.

Lemma check_decap_dst_fits L p v6 :
  fits L (check_decap_dst p v6) (fun x L' => L' = L /\ action_ok x.1).
Proof. unfold check_decap_dst. maps. fits_prove; simpl; auto with fits. Qed.

Lemma update_vip_lru_miss_stats_fits L v p v6 :
  fits L (update_vip_lru_miss_stats v p v6) (fun x L' => L' = L).
Proof. unfold update_vip_lru_miss_stats. maps. fits_prove; done. Qed.

Lemma check_and_update_fits L p r :
  fits L (check_and_update_real_index_in_lru p r) (fun _ L' => L' = L).
Proof. unfold check_and_update_real_index_in_lru. maps. fits_prove; done. Qed.

Lemma incr_server_id_fits L n a b :
  fits L (incr_server_id_routing_stats n a b) (fun _ L' => L' = L).
Proof. unfold incr_server_id_routing_stats. maps. fits_prove; done. Qed.
Hint Resolve perform_global_lru_lookup_fits check_decap_dst_fits update_vip_lru_miss_stats_fits
  check_and_update_fits incr_server_id_fits : fits.

(** A description marked as made from an ICMP message comes with a complete
    ICMP header behind the IP header at [off]. *)
Lemma process_l3_headers_fits L p off (v6 : bool) :
  0 <= off -> has (pd_flags p) F_ICMP = false ->
  fits L (process_l3_headers p off v6) (fun r L' =>
    L' = L /\ action_ok r.1
    /\ (has (pd_flags r.2.1.1) F_ICMP = true -> off + (if v6 then 48 else 28) <= L)).
Proof.
  intros Hoff Hp. unfold process_l3_headers.
  assert (Hi6 : forall o q, 0 <= o -> has (pd_flags q) F_ICMP = false ->
    fits L (parse_icmpv6 o q) (fun r L' =>
      L' = L /\ action_ok r.1 /\ (has (pd_flags r.2) F_ICMP = true -> o + 8 <= L)))
    by (intros; now apply parse_icmpv6_fits).
  assert (Hi4 : forall o q, 0 <= o -> has (pd_flags q) F_ICMP = false ->
    fits L (parse_icmp o q) (fun r L' =>
      L' = L /\ action_ok r.1 /\ (has (pd_flags r.2) F_ICMP = true -> o + 8 <= L)))
    by (intros; now apply parse_icmp_fits).
  unfold IPV4_HDR_LEN_NO_OPT.
  repeat (cbv beta zeta; first
    [ fits_step
    | eapply fits_weaken; [apply Hi6; [lia|exact Hp]|cbv beta; intros [? ?] ? ?; destruct_and?; subst]
    | eapply fits_weaken; [apply Hi4; [lia|exact Hp]|cbv beta; intros [? ?] ? ?; destruct_and?; subst] ]);
  cbn [fst snd]; repeat split; auto with fits; intros; simpl in *; try congruence; try lia.
  all: try (match goal with |- action_ok (if ?b then _ else _) => destruct b; auto with fits end).
  all: match goal with h : _ -> ?a <= ?b |- _ => specialize (h ltac:(assumption)); lia end.
Qed.

(** One step, or a lemma found in the database, applied to its exact goal. *)
Ltac go := repeat (cbv beta zeta; first [fits_step | fits_call]).

Definition part_ok {A} (x : outcome + A) : Prop :=
  match x with inl o => outcome_ok o | inr _ => True end.

Lemma process_encaped_ipip_fits L v6 pr pass :
  fits L (process_encaped_ipip_pckt v6 pr pass) (fun o _ => outcome_ok o).
Proof.
  unfold process_encaped_ipip_pckt. maps. fits_step.
  eapply fits_weaken with (P := fun x _ => match x with inl o => outcome_ok o | inr a => action_ok a end).
  - assert (forall L' b, 54 <= L' -> fits L' (decap_v6 (E := kenv) b) (fun _ _ => True))
      by (intros; now apply decap_v6_fits).
    assert (forall L', 34 <= L' -> fits L' (decap_v4 (E := kenv)) (fun _ _ => True))
      by (intros; now apply decap_v4_fits).
    go; try (match goal with |- context [negb ?b] => destruct b end); simpl; auto with fits.
  - cbv beta. intros [o|a] L' Ha; go; simpl; auto with fits.
    apply action_verdict; [done|]. now apply Z.leb_le.
Qed.

Lemma incr_decap_vip_stats_fits L off v6 :
  0 <= off -> fits L (incr_decap_vip_stats off v6) (fun _ _ => True).
Proof.
  intros. unfold incr_decap_vip_stats. maps. fits_step.
  eapply fits_weaken; [now apply process_l3_headers_fits|].
  cbv beta. intros [a [[p q] n]] L' (-> & _ & _). go; done.
Qed.

Lemma process_encaped_gue_fits L off v6 pass :
  0 <= off -> fits L (process_encaped_gue_pckt off v6 pass) (fun o _ => outcome_ok o).
Proof.
  intros Hoff. unfold process_encaped_gue_pckt. maps. fits_step.
  eapply fits_weaken with
    (P := fun x _ => match x with inl o => outcome_ok o | inr (a, _) => action_ok a end).
  - assert (forall L' b, 62 <= L' -> fits L' (gue_decap_v6 b) (fun _ _ => True))
      by (intros; now apply gue_decap_v6_fits).
    assert (forall L', 42 <= L' -> fits L' gue_decap_v4 (fun _ _ => True))
      by (intros; now apply gue_decap_v4_fits).
    go; try (match goal with |- context [negb ?b] => destruct b end); simpl; auto with fits.
  - assert (forall L', fits L' (incr_decap_vip_stats off true) (fun _ _ => True))
      by (intros; now apply incr_decap_vip_stats_fits).
    assert (forall L', fits L' (incr_decap_vip_stats off false) (fun _ _ => True))
      by (intros; now apply incr_decap_vip_stats_fits).
    cbv beta. intros [o|[a b]] L' Ha; [|destruct b]; go; simpl; auto with fits;
      (apply action_verdict; [done|]; now apply Z.leb_le).
Qed.
Hint Resolve process_encaped_ipip_fits process_encaped_gue_fits : fits.

Lemma decap_ipip_fits L p v6 :
  fits L (decap_ipip p v6) (fun x L' => part_ok x /\ (x = inr tt -> L' = L)).
Proof.
  unfold decap_ipip. go; simpl; split; auto with fits; try congruence.
  apply action_verdict; [done|]. now apply Z.leb_le.
Qed.

Lemma parse_l4_fits L p off v6 :
  0 <= off ->
  fits L (parse_l4 p off v6) (fun x L' => part_ok x
    /\ (forall q, x = inr q -> L' = L /\ has (pd_flags q) F_ICMP = has (pd_flags p) F_ICMP)).
Proof.
  intros Hoff. unfold parse_l4. go.
  all: repeat match goal with o : option packet_description |- _ => destruct o as [?p|] end.
  all: cbn [part_ok outcome_ok]; try (split; auto with fits; intros q [=]; subst).
  all: try (match goal with h : forall p', _ -> _ |- _ => destruct (h _ eq_refl) as [E1 E2] end;
            split; [done|]; unfold has in *; congruence).
  split; [|congruence]. apply action_verdict; [done|]. now apply Z.leb_le.
Qed.

Lemma packet_too_big_fits L v6 n :
  fits L (packet_too_big v6 n) (fun o _ => outcome_ok o).
Proof.
  unfold packet_too_big. maps.
  assert (forall L', fits L' (send_icmp_too_big (E := kenv) v6 n) (fun v _ => verdict v))
    by (intros; apply send_icmp_too_big_fits).
  go; simpl; auto with fits.
Qed.

Lemma select_lru_fits L c :
  fits L (select_lru c) (fun x L' => L' = L /\ part_ok x).
Proof. unfold select_lru. maps. go; simpl; auto with fits. Qed.

Lemma increment_quic_cid_fits L p v :
  fits L (increment_quic_cid_version_stats p v) (fun _ L' => L' = L).
Proof. unfold increment_quic_cid_version_stats. maps. go; done. Qed.
Hint Resolve increment_quic_cid_fits : fits.

Lemma route_quic_fits L p vi v6 r k n :
  fits L (route_quic p vi v6 r k n) (fun x L' => L' = L /\ part_ok x).
Proof. unfold route_quic. maps. go; simpl; auto with fits. Qed.
Hint Resolve route_quic_fits : fits.

Lemma route_quic_vip_fits L p vi (v6 : bool) r n :
  (has (pd_flags p) F_ICMP = true -> (if v6 then 62 else 42 : Z) <= L) ->
  fits L (route_quic_vip p vi v6 r n) (fun x L' => L' = L /\ part_ok x).
Proof.
  intros Hp. unfold route_quic_vip. maps.
  repeat (cbv beta zeta; first
    [ eapply fits_weaken; [apply ignorable_quic_icmp_code_fits; now apply Hp|cbv beta; intros ? ? ->]
    | fits_step | fits_call ]); simpl; auto with fits.
Qed.

Lemma route_tpr_fits L p vi v6 r :
  fits L (route_tpr p vi v6 r) (fun x L' => L' = L /\ part_ok x).
Proof. unfold route_tpr. maps. go; simpl; auto with fits. Qed.

Lemma route_ch_fits L p v vi v6 r k n :
  fits L (route_ch p v vi v6 r k n) (fun x L' => part_ok x).
Proof.
  unfold route_ch. maps. fits_step.
  eapply fits_weaken with (P := fun x _ => match x with inl y => part_ok y | inr _ => True end).
  - go; simpl; auto with fits.
  - cbv beta. intros [x|[]] L' Hx; go; simpl; auto with fits.
Qed.
Hint Resolve route_tpr_fits route_ch_fits : fits.

Lemma select_dst_fits L p v vi v6 r c k n :
  fits L (select_dst p v vi v6 r c k n) (fun x L' => part_ok x).
Proof.
  unfold select_dst.
  repeat (cbv beta zeta; first [fits_step | fits_call
    | match goal with o : option real_definition |- _ => destruct o end ]); simpl; auto with fits.
  all: match goal with
    | h : (if 0 <=? ?z then _ else _) = inl ?o, ha : action_ok _ |- _ =>
        destruct (0 <=? z) eqn:Hz; [|discriminate h]; injection h as <-; cbn in ha |- *;
        apply action_verdict; [exact ha|now apply Z.leb_le]
    end.
Qed.

Lemma encap_any_fits {E} L (b : bool) c v6 p d n :
  fits L (if b then if GUE_ENCAP then gue_encap_v6 (E := E) c v6 p d n else encap_v6 c v6 p d n
          else if GUE_ENCAP then gue_encap_v4 c p d n else encap_v4 c p d n) (fun _ _ => True).
Proof.
  destruct b, GUE_ENCAP; auto using gue_encap_v6_fits, encap_v6_fits, gue_encap_v4_fits, encap_v4_fits.
Qed.

Lemma forward_fits L p vi d v6 sp n :
  fits L (forward p vi d v6 sp n) (fun v _ => verdict v).
Proof.
  unfold forward. maps.
  repeat (cbv beta zeta; first
    [ eapply fits_weaken; [apply encap_any_fits|cbv beta; intros [] ? _] | fits_step ]);
    auto with fits.
Qed.
Hint Resolve select_dst_fits forward_fits select_lru_fits packet_too_big_fits : fits.

Lemma serve_vip_fits L p v vi (v6 : bool) b n :
  (has (pd_flags p) F_ICMP = true -> (if v6 then 62 else 42 : Z) <= L) ->
  fits L (serve_vip p v vi v6 b n) (fun o _ => outcome_ok o).
Proof.
  intros Hp. unfold serve_vip. maps.
  assert (Hq : forall q r, pd_flags q = pd_flags p ->
    fits L (route_quic_vip q vi v6 r n) (fun x L' => L' = L /\ part_ok x)).
  { intros q r Hf. apply route_quic_vip_fits. now rewrite Hf. }
  repeat (cbv beta zeta; first
    [ eapply fits_weaken; [apply Hq; now destruct (has (vip_flags vi) F_HASH_NO_SRC_PORT)
                          |cbv beta; intros ? ? [-> ?]]
    | fits_step | fits_call ]); simpl in *; auto with fits.
Qed.

Lemma find_vip_flags p v6 v vi q :
  find_vip p v6 = Some (v, vi, q) -> pd_flags q = pd_flags p.
Proof.
  unfold find_vip. destruct (lookup_vip _); [now intros [= _ _ <-]|].
  destruct (lookup_vip _); [|done]. destruct (_ && _); now intros [= _ _ <-].
Qed.

Lemma process_packet_fits L v6 :
  fits L (process_packet 14 v6) (fun o _ => outcome_ok o).
Proof.
  unfold process_packet. fits_step.
  eapply fits_weaken; [apply process_l3_headers_fits; [lia|reflexivity]|].
  cbv beta. intros [a [[p q] n]] L' (-> & Ha & Hi). cbn [fst snd] in Ha, Hi.
  fits_step; [fits_step; simpl; apply action_verdict; [done|]; now apply Z.leb_le|].
  fits_step. eapply fits_weaken; [apply decap_ipip_fits|].
  cbv beta. intros [o|[]] L' [Ho HL']; [now apply fits_ret|]. rewrite (HL' eq_refl). clear HL' Ho.
  fits_step. eapply fits_weaken; [apply parse_l4_fits; lia|].
  cbv beta. intros [o|p'] L'' [Ho HL']; [now apply fits_ret|].
  destruct (HL' p' eq_refl) as [-> Hf]. clear HL' Ho.
  destruct (find_vip p' v6) as [[[vip vi] p'']|] eqn:Hv; [|fits_step; simpl; auto with fits].
  fits_step. fits_step. fits_step; [apply packet_too_big_fits|].
  apply serve_vip_fits. rewrite (find_vip_flags _ _ _ _ _ Hv), Hf.
  intros Hb. specialize (Hi Hb). destruct v6; lia.
Qed.

Lemma balancer_ingress_fits L : fits L balancer_ingress (fun o _ => outcome_ok o).
Proof.
  unfold balancer_ingress.
  assert (forall L' v6, fits L' (process_packet 14 v6) (fun o _ => outcome_ok o))
    by (intros; apply process_packet_fits).
  go; simpl; auto with fits.
Qed.

Lemma balancer_run_fits L n : fits L (balancer_run n) (fun v _ => verdict v).
Proof.
  revert L. induction n as [|n IH]; intros L; cbn [balancer_run];
    (fits_step; eapply fits_weaken; [apply balancer_ingress_fits|]; cbv beta;
     intros [v|] L' Ho; [now apply fits_ret|]).
  - apply fits_ret. auto with fits.
  - apply IH.
Qed.

(** C1: whatever the packet, the maps, the compile-time features, the results of
    the kernel helpers and the number of recirculations left, the balancer
    never accesses a byte outside the packet; it returns, with one of the
    verdicts drop, pass or transmit, and the packet it leaves is well formed. *)
Theorem balancer_safe (tail_calls : nat) (s : xst kenv) :
  frame_ok (x_frame s) ->
  exists v s', balancer_run tail_calls s = Some (v, s') /\ verdict v /\ frame_ok (x_frame s').
Proof.
  intros Hs. pose proof (balancer_run_fits _ tail_calls s Hs eq_refl) as Hr.
  destruct (balancer_run tail_calls s) as [[v s']|]; [|done].
  destruct Hr as [Hf Hv]. now exists v, s'.
Qed.
End balancer_safety.
