(* ===== verification/KatranForward.v ===== *)
(** * Katran: what the balancer computes

    Functional theorems on the packets: the outer header of an encapsulated
    packet, the time to live, and the ICMP replies. *)
From Stdlib Require Import ZArith Lia.
From stdpp Require Import base numbers list option gmap.
From S2P Require Import Prelude Xdp OnesComplement XdpRun KatranDefs KatranCsum KatranParse KatranIcmp KatranEncap.
#[local] Open Scope Z_scope.

(** ** Outer IPv4 headers *)

(** The outer IPv4 header as RFC 791 lays it out. *)
Definition v4_header (tos tot_len proto check saddr daddr : Z) : list Z :=
  [0x45; tos] ++ le_split 2 (bswap16 tot_len) ++ [0; 0; 0; 0; DEFAULT_TTL; proto]
  ++ le_split 2 check ++ le_split 4 saddr ++ le_split 4 daddr.

(** Its checksum: the complement of the sum of the header with a zero field. *)
Definition v4_check (tos tot_len proto saddr daddr : Z) : Z :=
  65535 - oc_norm (sum16 (v4_header tos tot_len proto 0 saddr daddr)).

(** All the elements are bytes by construction. *)
Ltac bytes := repeat (apply bytes_ok_cons; split; [apply u8_range|]); apply bytes_ok_nil.

Lemma create_v4_hdr_runs {E} (s : xst E) (eth hdr rest : list Z) tos saddr daddr n proto :
  f_data (x_frame s) = eth ++ hdr ++ rest -> length eth = 14%nat -> length hdr = 20%nat ->
  is_u8 tos -> is_u8 proto ->
  runs s (create_v4_hdr 14 tos saddr daddr n proto) tt
    (set_data s (eth ++ v4_header tos (u16 (n + 20)) proto
                   (v4_check tos (u16 (n + 20)) proto saddr daddr) saddr daddr ++ rest)).
Proof.
  intros Hd He Hh Ht Hp. destruct s as [[hd d tl] env tk]. cbn [f_data x_frame] in Hd. subst d.
  do 14 (destruct eth as [|? eth]; [discriminate He|]). destruct eth; [|discriminate He].
  do 20 (destruct hdr as [|? hdr]; [discriminate Hh|]). destruct hdr; [|discriminate Hh].
  clear He Hh. cbn [app]. unfold create_v4_hdr, COPY_INNER_PACKET_TOS.
  apply u8_id in Ht, Hp. unfold u8 in Ht, Hp.
  xrun.
  - eapply ipv4_csum_inline_eq; [xlist; reflexivity|bytes].
  - rewrite version_ihl, Ht, Hp. eapply runs_eq; [xstep|]. reflexivity.
Qed.

Lemma v4_header_ok tos n proto c sa da :
  is_u8 tos -> is_u8 proto -> bytes_ok (v4_header tos n proto c sa da).
Proof.
  intros. unfold v4_header. rewrite !bytes_ok_app. repeat split; auto using le_split_ok.
  - apply bytes_ok_cons. split; [done|]. apply bytes_ok_cons. auto using bytes_ok_nil.
  - unfold DEFAULT_TTL. do 5 (apply bytes_ok_cons; split; [done|]).
    apply bytes_ok_cons. auto using bytes_ok_nil.
Qed.

Lemma sum16_le_split2 c : 0 <= c <= 65535 -> sum16 (le_split 2 c) = c.
Proof. intros. cbn. zlia. Qed.

Lemma v4_header_sum tos n proto c sa da :
  0 <= c <= 65535 ->
  sum16 (v4_header tos n proto c sa da) = sum16 (v4_header tos n proto 0 sa da) + c.
Proof.
  intros Hc. unfold v4_header.
  assert (forall l1 l2 l3 x, Nat.Even (length l1) -> length l2 = 2%nat -> 0 <= x <= 65535 ->
    sum16 ((l1 ++ l2 ++ le_split 2 x ++ l3)) = sum16 (l1 ++ l2 ++ le_split 2 0 ++ l3) + x) as G.
  { intros l1 l2 l3 x He Hl Hx.
    rewrite !sum16_app_even; rewrite ?length_le_split, ?Hl; try done; try (now exists 1%nat).
    rewrite !sum16_le_split2 by lia. lia. }
  pose proof (G ([0x45; tos] ++ le_split 2 (bswap16 n) ++ [0; 0; 0; 0]) [DEFAULT_TTL; proto]
    (le_split 4 sa ++ le_split 4 da) c) as G1.
  rewrite <- !app_assoc in G1. apply G1; [|done|done].
  exists 4%nat. rewrite !length_app, length_le_split. reflexivity.
Qed.

(** The header that [create_v4_hdr] writes passes the receiver's check. *)
Lemma v4_header_checks tos n proto sa da :
  is_u8 tos -> is_u8 proto ->
  csum_ok (v4_header tos n proto (v4_check tos n proto sa da) sa da).
Proof.
  intros Ht Hp. unfold csum_ok, v4_check.
  pose proof (oc_norm_range (sum16 (v4_header tos n proto 0 sa da))).
  rewrite v4_header_sum by lia.
  assert (0 < sum16 (v4_header tos n proto 0 sa da)).
  { pose proof (sum16_nonneg _ (v4_header_ok tos n proto 0 sa da Ht Hp)).
    destruct (decide (sum16 (v4_header tos n proto 0 sa da) = 0)) as [Hz|]; [|lia].
    apply sum16_zero in Hz; [|now apply v4_header_ok]. inversion Hz. lia. }
  split; [now apply complement_checks|lia].
Qed.

Section encapsulation.
Context {F : Features} {T : Tables} {H : XdpHelpers} {HL : XdpHelperLaws H} {P : LruPolicy}.
Context {E : Type}.

Lemma encap_v4_runs (s : xst E) (eth inner : list Z) cval pckt dst n :
  f_data (x_frame s) = eth ++ inner -> length eth = 14%nat -> is_u8 (tos pckt) ->
  (h_adjust_head (x_frame s) (-20)).1 = 0 ->
  let saddr := create_encap_ipv4_src (port16_0 (pd_flow pckt)) (fk_src (pd_flow pckt)) in
  let tot_len := u16 (u16 n + 20) in
  runs s (encap_v4 cval pckt dst n) true
    (Xst (Frame (take (length (f_head (x_frame s)) - 20) (f_head (x_frame s)))
                (ctl_mac cval ++ take 6 eth ++ [8; 0]
                 ++ v4_header (tos pckt) tot_len IPPROTO_IPIP
                      (v4_check (tos pckt) tot_len IPPROTO_IPIP saddr (rd_dst dst)) saddr (rd_dst dst)
                 ++ inner)
                (f_tail (x_frame s))) (x_env s) (x_tick s)).
Proof.
  intros Hd He Ht Hr. cbv zeta.
  destruct (runs_adjust_head_done s (-20) Hr) as (Hrun & Hroom & _).
  destruct (granted_head s 20) as (junk & Hj & Hshift); [lia|].
  change (- Z.of_nat 20) with (-20) in Hshift. rewrite Hshift, Hd in Hrun. clear Hshift Hroom Hr.
  unfold encap_v4. cbv zeta. eapply runs_bind; [exact Hrun|]. clear Hrun.
  change (nz 0) with false. cbv iota.
  generalize (take (length (f_head (x_frame s)) - 20) (f_head (x_frame s))) as hd. intros hd.
  explode junk Hj. explode eth He. cbn [app take].
  eapply runs_bind; [apply runs_data_len|]. cbv beta. xneed.
  eapply runs_bind; [apply runs_data_len|]. cbv beta. xneed.
  eapply runs_bind; [apply runs_data_len|]. cbv beta. xneed.
  unfold ctl_mac. xstep; [xstep|]. xstep; [xstep|]. xstep; [xstep|].
  xstep; [|apply runs_ret].
  eapply runs_eq.
  - match goal with |- runs (Xst (Frame _ ?d _) _ _) _ _ _ =>
      eapply (create_v4_hdr_runs _ (take 14 d) (take 20 (drop 14 d)) (drop 34 d)); [reflexivity..| |] end;
      [done|done].
  - reflexivity.
Qed.

(** The outer IPv6 header. *)
Definition v6_header (tc payload_len proto : Z) (saddr daddr : v6addr) : list Z :=
  [Z.lor 0x60 (Z.shiftr (Z.land tc 0xF0) 4); u8 (Z.shiftl (Z.land tc 0x0F) 4); 0; 0]
  ++ le_split 2 (bswap16 payload_len) ++ [proto; DEFAULT_TTL] ++ v6_bytes saddr ++ v6_bytes daddr.

Lemma version_priority b c : 0 <= c < 16 ->
  Z.lor (Z.land (le_join [Z.lor (Z.land b 15) (Z.shiftl 6 4) mod 256]) 240) c mod 256 = Z.lor 0x60 c.
Proof.
  intros Hc. pose proof (land_pos_range b 15 ltac:(lia)) as Ha.
  generalize dependent (Z.land b 15). intros a Ha.
  assert (Z.land (le_join [Z.lor a (Z.shiftl 6 4) mod 256]) 240 = 96) as ->.
  { assert (a = 0 \/ a = 1 \/ a = 2 \/ a = 3 \/ a = 4 \/ a = 5 \/ a = 6 \/ a = 7 \/ a = 8 \/ a = 9 \/
            a = 10 \/ a = 11 \/ a = 12 \/ a = 13 \/ a = 14 \/ a = 15) as Hd by lia.
    repeat (destruct Hd as [->|Hd]; [reflexivity|]). now subst a. }
  apply Z.mod_small. apply (lor_range 8); lia.
Qed.

Lemma tc_high_range tc : 0 <= Z.shiftr (Z.land tc 0xF0) 4 < 16.
Proof.
  pose proof (land_pos_range tc 0xF0 ltac:(lia)). rewrite Z.shiftr_div_pow2 by lia.
  change (2 ^ 4) with 16. zlia.
Qed.

Lemma create_v6_hdr_runs (s : xst E) (eth hdr rest : list Z) tc sa da n proto :
  f_data (x_frame s) = eth ++ hdr ++ rest -> length eth = 14%nat -> length hdr = 40%nat ->
  is_u8 proto ->
  runs s (create_v6_hdr 14 tc sa da n proto) tt
    (set_data s (eth ++ v6_header tc n proto sa da ++ rest)).
Proof.
  intros Hd He Hh Hp. destruct s as [[hd d tl] env tk]. cbn [f_data x_frame] in Hd. subst d.
  explode eth He. explode hdr Hh. cbn [app]. unfold create_v6_hdr, COPY_INNER_PACKET_TOS, v6_bytes.
  apply u8_id in Hp. unfold u8 in Hp. destruct sa, da.
  xrun. rewrite (version_priority _ _ (tc_high_range tc)), Hp. eapply runs_eq; [xstep|]. reflexivity.
Qed.

Lemma encap_v6_runs (s : xst E) (eth inner : list Z) cval (is_ipv6 : bool) pckt dst n :
  f_data (x_frame s) = eth ++ inner -> length eth = 14%nat ->
  (h_adjust_head (x_frame s) (-40)).1 = 0 ->
  let saddr := create_encap_ipv6_src (port16_0 (pd_flow pckt))
                 (if is_ipv6 then w3 (srcv6 (pd_flow pckt)) else fk_src (pd_flow pckt)) in
  let payload_len := if is_ipv6 then u16 (n + 40) else u16 n in
  runs s (encap_v6 cval is_ipv6 pckt dst n) true
    (Xst (Frame (take (length (f_head (x_frame s)) - 40) (f_head (x_frame s)))
                (ctl_mac cval ++ take 6 eth ++ le_split 2 BE_ETH_P_IPV6
                 ++ v6_header (tos pckt) payload_len (if is_ipv6 then IPPROTO_IPV6 else IPPROTO_IPIP)
                      saddr (rd_dstv6 dst)
                 ++ inner)
                (f_tail (x_frame s))) (x_env s) (x_tick s)).
Proof.
  intros Hd He Hr. cbv zeta.
  destruct (runs_adjust_head_done s (-40) Hr) as (Hrun & Hroom & _).
  destruct (granted_head s 40) as (junk & Hj & Hshift); [lia|].
  change (- Z.of_nat 40) with (-40) in Hshift. rewrite Hshift, Hd in Hrun. clear Hshift Hroom Hr.
  unfold encap_v6. cbv zeta. eapply runs_bind; [exact Hrun|]. clear Hrun.
  change (nz 0) with false. cbv iota.
  generalize (take (length (f_head (x_frame s)) - 40) (f_head (x_frame s))) as hd. intros hd.
  explode junk Hj. explode eth He. cbn [app take].
  eapply runs_bind; [apply runs_data_len|]. cbv beta. xneed.
  eapply runs_bind; [apply runs_data_len|]. cbv beta. xneed.
  eapply runs_bind; [apply runs_data_len|]. cbv beta. xneed.
  unfold ctl_mac. xstep; [xstep|]. xstep; [xstep|]. xstep; [xstep|].
  destruct is_ipv6; cbv beta iota; (xstep; [|apply runs_ret]; eapply runs_eq;
  [ match goal with |- runs (Xst (Frame _ ?d _) _ _) _ _ _ =>
      eapply (create_v6_hdr_runs _ (take 14 d) (take 40 (drop 14 d)) (drop 54 d));
        [reflexivity|reflexivity|reflexivity|done] end
  | reflexivity ]).
Qed.

(** Decapsulation drops the outer IP header and keeps the outer Ethernet
    addresses; the outer headers go to the headroom. *)
Lemma decap_runs (s : xst E) (eth hdr inner : list Z) (n : nat) ethertype :
  f_data (x_frame s) = eth ++ hdr ++ inner -> length eth = 14%nat ->
  length hdr = n -> n = 20%nat \/ n = 40%nat ->
  (forall f, Z.of_nat n + 14 <= zlen (f_data f) -> (h_adjust_head f (Z.of_nat n)).1 = 0) ->
  exists hd, runs s
    (move (Z.of_nat n + 6) 6 6 ;; move (Z.of_nat n) 0 6 ;;
     store16 (Z.of_nat n + 12) ethertype ;;
     ret ← adjust_head (Z.of_nat n); mret (negb (nz ret))) true
    (Xst (Frame hd (take 12 eth ++ le_split 2 ethertype ++ inner) (f_tail (x_frame s)))
         (x_env s) (x_tick s)).
Proof.
  intros Hd He Hh Hn Hr. destruct s as [[hd d tl] env tk].
  cbn [f_data f_head f_tail x_frame x_env x_tick] in *. subst d.
  explode eth He.
  destruct Hn as [-> | ->]; explode hdr Hh; cbn [app].
  - eexists. xstep; [xstep|]. xstep; [xstep|]. xstep; [xstep|]. eapply runs_bind.
    + eapply runs_adjust_head_done, Hr. cbn [x_frame f_data]. rewrite !zlen_cons.
      pose proof (zlen_nonneg inner). lia.
    + apply runs_ret.
  - eexists. xstep; [xstep|]. xstep; [xstep|]. xstep; [xstep|]. eapply runs_bind.
    + eapply runs_adjust_head_done, Hr. cbn [x_frame f_data]. rewrite !zlen_cons.
      pose proof (zlen_nonneg inner). lia.
    + apply runs_ret.
Qed.

(** IPIP encapsulation of a packet towards an IPv4 real.  When the helper
    grants the headroom the outer packet is the router's MAC, the old destination
    MAC as source, an IPv4 header for protocol 4 whose fields are those of the
    description and the real and whose checksum a receiver accepts, and the
    original IP packet unchanged; when it refuses, the function fails and
    nothing has changed. *)
Lemma encap_v4_correct (s : xst E) (eth inner : list Z) cval pckt dst n :
  f_data (x_frame s) = eth ++ inner -> length eth = 14%nat -> is_u8 (tos pckt) ->
  let saddr := create_encap_ipv4_src (port16_0 (pd_flow pckt)) (fk_src (pd_flow pckt)) in
  let tot_len := u16 (u16 n + 20) in
  let hdr := v4_header (tos pckt) tot_len IPPROTO_IPIP
               (v4_check (tos pckt) tot_len IPPROTO_IPIP saddr (rd_dst dst)) saddr (rd_dst dst) in
  ((h_adjust_head (x_frame s) (-20)).1 = 0 ->
     exists s', runs s (encap_v4 cval pckt dst n) true s' /\
       f_data (x_frame s') = ctl_mac cval ++ take 6 eth ++ [8; 0] ++ hdr ++ inner /\
       csum_ok hdr /\ x_env s' = x_env s)
  /\ ((h_adjust_head (x_frame s) (-20)).1 <> 0 -> runs s (encap_v4 cval pckt dst n) false s).
Proof.
  intros Hd He Ht. cbv zeta. split; intros Hr.
  - eexists. split; [eapply encap_v4_runs; eauto|]. cbn [x_frame f_data x_env].
    split; [done|]. split; [|done]. now apply v4_header_checks.
  - unfold encap_v4. cbv zeta. change (0 - 20) with (-20). eapply runs_bind; [now apply runs_adjust_head_fail|].
    rewrite (proj2 (nz_true _) Hr). apply runs_ret.
Qed.

(** C6: what one balancer encapsulates another recovers: [encap_v4] (or
    [encap_v6]) followed by [decap_v4] (or [decap_v6]) leaves the original IP
    packet, byte for byte, behind the outer Ethernet addresses and the
    ethertype of the inner protocol. *)
Theorem encap_decap_roundtrip (s : xst E) (eth inner : list Z) cval (is_ipv6 : bool) pckt dst n :
  f_data (x_frame s) = eth ++ inner -> length eth = 14%nat -> is_u8 (tos pckt) ->
  (h_adjust_head (x_frame s) (-20)).1 = 0 -> (h_adjust_head (x_frame s) (-40)).1 = 0 ->
  (forall f d, 0 <= d -> d + 14 <= zlen (f_data f) -> (h_adjust_head f d).1 = 0) ->
  (exists s', runs s (encap_v4 cval pckt dst n ≫= fun _ => decap_v4) true s' /\
     f_data (x_frame s') = ctl_mac cval ++ take 6 eth ++ le_split 2 BE_ETH_P_IP ++ inner)
  /\ (exists s', runs s (encap_v6 cval is_ipv6 pckt dst n ≫= fun _ => decap_v6 (negb is_ipv6)) true s' /\
     f_data (x_frame s') = ctl_mac cval ++ take 6 eth
       ++ le_split 2 (if is_ipv6 then BE_ETH_P_IPV6 else BE_ETH_P_IP) ++ inner).
Proof.
  intros Hd He Ht H20 H40 Hdec. split.
  - pose proof (encap_v4_runs s eth inner cval pckt dst n Hd He Ht H20) as Henc. cbv zeta in Henc.
    match type of Henc with runs _ _ _ ?s1 =>
      destruct (decap_runs s1 (ctl_mac cval ++ take 6 eth ++ [8; 0])
        (take 20 (drop 14 (f_data (x_frame s1)))) inner 20 BE_ETH_P_IP) as [hd Hdc] end.
    + cbn [x_frame f_data]. unfold ctl_mac. explode eth He. reflexivity.
    + unfold ctl_mac. explode eth He. reflexivity.
    + unfold ctl_mac. explode eth He. reflexivity.
    + now left.
    + intros f Hf. apply Hdec; [lia|exact Hf].
    + eexists. split; [eapply runs_bind; [exact Henc|exact Hdc]|].
      unfold ctl_mac. explode eth He. reflexivity.
  - pose proof (encap_v6_runs s eth inner cval is_ipv6 pckt dst n Hd He H40) as Henc. cbv zeta in Henc.
    match type of Henc with runs _ _ _ ?s1 =>
      destruct (decap_runs s1 (ctl_mac cval ++ take 6 eth ++ le_split 2 BE_ETH_P_IPV6)
        (take 40 (drop 14 (f_data (x_frame s1)))) inner 40
        (if is_ipv6 then BE_ETH_P_IPV6 else BE_ETH_P_IP)) as [hd Hdc] end.
    + cbn [x_frame f_data]. unfold ctl_mac, v6_header, v6_bytes. explode eth He. now destruct is_ipv6.
    + unfold ctl_mac. explode eth He. reflexivity.
    + unfold ctl_mac, v6_header, v6_bytes. explode eth He. now destruct is_ipv6.
    + now right.
    + intros f Hf. apply Hdec; [lia|exact Hf].
    + destruct is_ipv6.
      * eexists. split; [eapply runs_bind; [exact Henc|exact Hdc]|].
        unfold ctl_mac. explode eth He. reflexivity.
      * eexists. split; [eapply runs_bind; [exact Henc|exact Hdc]|].
        unfold ctl_mac. explode eth He. reflexivity.
Qed.
End encapsulation.

(** ** The time to live *)

Section ttl.
Context {E : Type}.

(** The IPv4 header [h] with another time to live and checksum. *)
Definition with_ttl (h : list Z) (ttl check : Z) : list Z :=
  take 8 h ++ [ttl] ++ take 1 (drop 9 h) ++ le_split 2 check ++ drop 12 h.

Definition hdr_ttl (h : list Z) : Z := nth 8 h 0.
Definition hdr_check (h : list Z) : Z := le_join (take 2 (drop 10 h)).
(** The checksum after the decrement: one more, with the end-around carry. *)
Definition next_check (c : Z) : Z := u16 (Z.land (u32 (c + 1)) 0xffff + Z.shiftr (u32 (c + 1)) 16).

Lemma decrement_ttl_v4_runs (s : xst E) pre h rest off :
  f_data (x_frame s) = pre ++ h ++ rest -> zlen pre = off -> length h = 20%nat -> bytes_ok h ->
  let ttl := u8 (hdr_ttl h - 1) in
  if ttl =? 0 then
    runs s (decrement_ttl off false) XDP_DROP
      (set_data s (pre ++ (take 8 h ++ [0] ++ drop 9 h) ++ rest))
  else
    runs s (decrement_ttl off false) FURTHER_PROCESSING
      (set_data s (pre ++ with_ttl h ttl (next_check (hdr_check h)) ++ rest)).
Proof.
  intros Hd Hp Hh Hb. destruct s as [[hd d tl] env tk]. cbn [f_data x_frame] in Hd. subst d.
  explode h Hh. rewrite !bytes_ok_cons in Hb. destruct_and?. cbn [hdr_ttl nth].
  assert (Hs : forall k n l, 0 <= k -> slice (off + k) n (pre ++ l) = slice k n l).
  { intros k n l Hk. rewrite slice_app_ge by lia. f_equal. lia. }
  assert (Hw : forall k bs l l', 0 <= k -> splice k bs l = Some l' ->
    splice (off + k) bs (pre ++ l) = Some (pre ++ l')).
  { intros k bs l l' Hk Hl. rewrite splice_app_ge by lia.
    replace (off + k - zlen pre) with k by lia. now rewrite Hl. }
  assert (Hn : (zlen (pre ++ (z :: z0 :: z1 :: z2 :: z3 :: z4 :: z5 :: z6 :: z7 :: z8 :: z9 :: z10
    :: z11 :: z12 :: z13 :: z14 :: z15 :: z16 :: z17 :: [z18]) ++ rest) <? off + 20) = false).
  { apply Z.ltb_ge. rewrite zlen_app, Hp. cbn [app]. rewrite !zlen_cons.
    pose proof (zlen_nonneg rest). lia. }
  cbn [app] in *. set (data := pre ++ _) in *.
  assert (Hdata : data = pre ++ _) by reflexivity. clearbody data.
  unfold decrement_ttl.
  set (t := u8 (z7 - 1)). destruct (t =? 0) eqn:Ht; unfold t in *.
  - eapply runs_bind; [apply runs_data_len|]. cbn [x_frame f_data]. rewrite Hn. cbv iota.
    eapply runs_bind; [eapply runs_load8; cbn [x_frame f_data]; rewrite Hdata, Hs by lia; xlist; reflexivity|].
    replace (le_join [z7]) with z7 by (cbn; lia). cbv zeta.
    eapply runs_bind; [unfold store8; eapply runs_store; rewrite Hdata; eapply Hw; [lia|xlist; reflexivity]|].
    rewrite Ht. eapply runs_eq; [apply runs_ret|].
    unfold set_data. cbn [x_frame f_head f_tail x_env x_tick]. do 3 f_equal.
    cbn [take drop app]. apply Z.eqb_eq in Ht. rewrite Ht. reflexivity.
  - eapply runs_bind; [apply runs_data_len|]. cbn [x_frame f_data]. rewrite Hn. cbv iota.
    eapply runs_bind; [eapply runs_load8; cbn [x_frame f_data]; rewrite Hdata, Hs by lia; xlist; reflexivity|].
    replace (le_join [z7]) with z7 by (cbn; lia). cbv zeta.
    eapply runs_bind; [unfold store8; eapply runs_store; rewrite Hdata; eapply Hw; [lia|xlist; reflexivity]|].
    rewrite Ht.
    eapply runs_bind; [eapply runs_load16; cbn [x_frame f_data]; rewrite Hs by lia; xlist; reflexivity|].
    eapply runs_bind; [unfold store16; eapply runs_store; eapply Hw; [lia|xlist; reflexivity]|].
    eapply runs_eq; [apply runs_ret|].
    unfold set_data, with_ttl, hdr_check, next_check. cbn [x_frame f_head f_tail x_env x_tick take drop app].
    do 3 f_equal. replace (u8 (z7 - 1) mod 256) with (u8 (z7 - 1)); [reflexivity|].
    symmetry. apply Z.mod_mod. lia.
Qed.

(** The decrement of the time to live and the increment of the checksum cancel. *)
Lemma next_check_oc c : is_u16 c -> is_u16 (next_check c) /\ next_check c =oc c + 1 /\ 0 < next_check c.
Proof.
  intros Hc. unfold is_u16 in Hc. unfold next_check.
  rewrite land_u16, shiftr_16, (u32_id (c + 1)) by (unfold is_u32; lia).
  rewrite u16_id by (unfold is_u16; zlia). unfold is_u16, oc. zlia.
Qed.

(** C27: [decrement_ttl] on an IPv4 header with a valid checksum and a time to live
    of at least 2: the time to live is one less, only it and the checksum field
    change, and the checksum is valid again (the incremental update of RFC 1141).
    A time to live of 1 is dropped. *)
Theorem decrement_ttl_v4_correct (s : xst E) pre h rest off :
  f_data (x_frame s) = pre ++ h ++ rest -> zlen pre = off -> length h = 20%nat -> bytes_ok h ->
  (2 <= hdr_ttl h -> csum_ok h ->
     exists h', runs s (decrement_ttl off false) FURTHER_PROCESSING (set_data s (pre ++ h' ++ rest))
       /\ h' = with_ttl h (hdr_ttl h - 1) (hdr_check h') /\ csum_ok h')
  /\ (hdr_ttl h = 1 -> exists d, runs s (decrement_ttl off false) XDP_DROP (set_data s d)).
Proof.
  intros Hd Hp Hh Hb. pose proof (decrement_ttl_v4_runs s pre h rest off Hd Hp Hh Hb) as Hr.
  cbv zeta in Hr. explode h Hh. rewrite !bytes_ok_cons in Hb. destruct_and?. unfold is_u8 in *.
  cbn [hdr_ttl nth] in *. split; intros Ht.
  - intros [Hc0 Hc1]. assert (u8 (z7 - 1) = z7 - 1) as Hu by (apply u8_id; unfold is_u8; lia).
    rewrite Hu in Hr. destruct (Z.eqb_spec (z7 - 1) 0); [lia|].
    eexists. split; [exact Hr|].
    assert (Hw : is_u16 (hdr_check [z; z0; z1; z2; z3; z4; z5; z6; z7; z8; z9; z10; z11; z12; z13; z14;
      z15; z16; z17; z18])) by (unfold is_u16; cbn; lia).
    destruct (next_check_oc _ Hw) as (Hn & Hoc & Hpos).
    set (c := next_check _) in *. unfold is_u16 in Hn. clearbody c.
    split.
    + unfold hdr_check, with_ttl. cbn [take drop app le_split].
      cbn [le_join]. do 11 f_equal; [zlia|]. f_equal. zlia.
    + unfold with_ttl, csum_ok, oc in *. cbn [take drop app le_split sum16 hdr_check le_join] in *. split; zlia.
  - rewrite Ht in Hr. cbn in Hr. eexists. exact Hr.
Qed.
End ttl.

(** ** ICMP echo replies *)

Section icmp_reply.
Context {E : Type}.

(** The MAC addresses of an Ethernet header exchanged. *)
Definition eth_swapped (eth : list Z) : list Z := take 6 (drop 6 eth) ++ take 6 eth ++ drop 12 eth.

(** The IPv4 header of the reply: addresses exchanged, the default time to live,
    and the given checksum. *)
Definition reply_ip (h : list Z) (check : Z) : list Z :=
  take 8 h ++ [DEFAULT_TTL] ++ take 1 (drop 9 h) ++ le_split 2 check
  ++ take 4 (drop 16 h) ++ take 4 (drop 12 h).

(** An ICMP message with its type and checksum replaced. *)
Definition with_type (m : list Z) (type check : Z) : list Z :=
  [type] ++ take 1 (drop 1 m) ++ le_split 2 check ++ drop 4 m.
Definition icmp_check (m : list Z) : Z := le_join (take 2 (drop 2 m)).

Lemma le_bytes4 a b c d :
  is_u8 a -> is_u8 b -> is_u8 c -> is_u8 d ->
  let x := le_join [a; b; c; d] in
  x mod 256 = a /\ x / 256 mod 256 = b /\ x / 256 / 256 mod 256 = c /\ x / 256 / 256 / 256 mod 256 = d.
Proof. unfold is_u8. intros. cbn. zlia. Qed.

Lemma send_icmp_reply_runs (s : xst E) eth ip icmp rest :
  f_data (x_frame s) = eth ++ ip ++ icmp ++ rest ->
  length eth = 14%nat -> length ip = 20%nat -> length icmp = 8%nat -> bytes_ok ip ->
  runs s send_icmp_reply XDP_TX
    (set_data s (eth_swapped eth ++ reply_ip ip (65535 - oc_norm (sum16 (reply_ip ip 0)))
       ++ with_type icmp ICMP_ECHOREPLY (u16 (icmp_check icmp + 8)) ++ rest)).
Proof.
  intros Hd He Hi Hm Hb. destruct s as [[hd d tl] env tk]. cbn [f_data x_frame] in Hd. subst d.
  explode eth He. explode ip Hi. explode icmp Hm. rewrite !bytes_ok_cons in Hb. destruct_and?.
  cbn [app]. unfold send_icmp_reply, swap_mac_and_send, ETH_ALEN.
  eapply runs_bind; [apply runs_data_len|]. cbv beta. xneed.
  repeat first [ xstep
    | eapply ipv4_csum_inline_eq;
      [ xlist; reflexivity
      | repeat (apply bytes_ok_cons; split; [first [assumption|apply u8_range]|]); apply bytes_ok_nil ] ].
  eapply runs_eq; [apply runs_ret|].
  unfold set_data, eth_swapped, reply_ip, with_type, icmp_check, ICMP_ECHOREPLY.
  cbn [x_frame f_head f_tail x_env x_tick take drop app].
  destruct (le_bytes4 z29 z30 z31 z32) as (D1 & D2 & D3 & D4); [assumption..|].
  destruct (le_bytes4 z25 z26 z27 z28) as (S1 & S2 & S3 & S4); [assumption..|].
  rewrite D1, D2, D3, D4, S1, S2, S3, S4. reflexivity.
Qed.

Lemma reply_ip_checks ip :
  length ip = 20%nat -> bytes_ok ip ->
  csum_ok (reply_ip ip (65535 - oc_norm (sum16 (reply_ip ip 0)))).
Proof.
  intros Hi Hb. explode ip Hi. rewrite !bytes_ok_cons in Hb. destruct_and?. unfold is_u8 in *.
  set (n := sum16 (reply_ip _ 0)).
  pose proof (oc_norm_range n) as Hr. pose proof (oc_norm_oc n) as Hoc.
  assert (Hn : n = sum16 (reply_ip [z; z0; z1; z2; z3; z4; z5; z6; z7; z8; z9; z10; z11; z12; z13;
    z14; z15; z16; z17; z18] 0)) by reflexivity.
  clearbody n. unfold csum_ok, reply_ip, DEFAULT_TTL, oc in *.
  cbn [take drop app le_split sum16] in *. split; zlia.
Qed.

Lemma hdr_check_reply ip c :
  length ip = 20%nat -> 0 <= c <= 65535 -> hdr_check (reply_ip ip c) = c.
Proof.
  intros Hi Hc. explode ip Hi. unfold reply_ip, hdr_check. cbn [take drop app le_split le_join]. zlia.
Qed.

(** C28: the echo reply of [send_icmp_reply]: the MAC and IP addresses are
    exchanged, the time to live is reset and the IP header checksum valid; but
    the ICMP checksum is patched with a plain 16-bit addition of 8, so the reply
    to a valid request is valid exactly when that addition does not overflow. *)
Theorem send_icmp_reply_correct (s : xst E) eth ip icmp rest :
  f_data (x_frame s) = eth ++ ip ++ icmp ++ rest ->
  length eth = 14%nat -> length ip = 20%nat -> length icmp = 8%nat ->
  bytes_ok ip -> bytes_ok icmp -> bytes_ok rest ->
  nth 0 icmp 0 = ICMP_ECHO -> csum_ok (icmp ++ rest) ->
  exists ip' icmp', runs s send_icmp_reply XDP_TX
      (set_data s (eth_swapped eth ++ ip' ++ icmp' ++ rest))
    /\ ip' = reply_ip ip (hdr_check ip') /\ csum_ok ip'
    /\ icmp' = with_type icmp ICMP_ECHOREPLY (u16 (icmp_check icmp + 8))
    /\ (csum_ok (icmp' ++ rest) <-> icmp_check icmp < 65528).
Proof.
  intros Hd He Hi Hm Hbi Hbm Hbr Ht Hok.
  do 2 eexists. split; [eapply send_icmp_reply_runs; eassumption|]. split.
  { rewrite hdr_check_reply; [done|done|]. pose proof (oc_norm_range (sum16 (reply_ip ip 0))). lia. }
  split; [now apply reply_ip_checks|]. split; [done|].
  explode icmp Hm. rewrite !bytes_ok_cons in Hbm. destruct_and?. unfold is_u8 in *.
  pose proof (sum16_nonneg rest Hbr).
  unfold csum_ok, with_type, icmp_check, ICMP_ECHOREPLY, ICMP_ECHO, u16 in *.
  cbn [take drop app le_split sum16 le_join nth] in *. subst z. zlia.
Qed.
End icmp_reply.
