(* ===== verification/KatranRouting.v ===== *)
(** * Katran: how a real server is chosen

    The ring index, the connection table, the limit on new connections, the
    server ids of QUIC connection ids and of the TCP option, and the lookup of
    the VIP. *)
From Stdlib Require Import ZArith Lia.
From stdpp Require Import base numbers list option gmap.
From S2P Require Import Prelude Xdp OnesComplement XdpRun Jhash KatranDefs KatranCsum KatranParse KatranIcmp KatranEncap KatranBalancer.
#[local] Open Scope Z_scope.

(** ** The ring *)

Lemma get_packet_hash_range p b : is_u32 (get_packet_hash p b).
Proof. unfold get_packet_hash. destruct b; apply jhash_nwords_range. Qed.

(** The slot looked up for a packet lies in the part of [ch_rings] that
    belongs to its VIP, [RING_SIZE] slots from [RING_SIZE * vip_num] on, so for
    every configured VIP the lookup succeeds and VIPs never share a slot. *)
Lemma ring_key_in_ring `{Tables} (pckt : packet_description) (vip_info : vip_meta) (b : bool) :
  0 <= vip_num vip_info < MAX_VIPS ->
  RING_SIZE * vip_num vip_info <= ring_key pckt vip_info b < RING_SIZE * (vip_num vip_info + 1)
  /\ 0 <= ring_key pckt vip_info b < CH_RINGS_SIZE
  /\ lookup_ch_ring (ring_key pckt vip_info b) <> None.
Proof.
  intros Hv. unfold MAX_VIPS in Hv. pose proof (get_packet_hash_range pckt b) as Hh.
  assert (ring_key pckt vip_info b
          = 65537 * vip_num vip_info + get_packet_hash pckt b mod 65537) as E.
  { unfold ring_key, RING_SIZE. apply u32_id. unfold is_u32 in *. zlia. }
  assert (RING_SIZE * vip_num vip_info <= ring_key pckt vip_info b
          < RING_SIZE * (vip_num vip_info + 1)) as Hr.
  { rewrite E. unfold RING_SIZE. zlia. }
  assert (0 <= ring_key pckt vip_info b < CH_RINGS_SIZE) as Hc.
  { unfold CH_RINGS_SIZE, MAX_VIPS, RING_SIZE in *. lia. }
  split; [done|]. split; [done|]. unfold lookup_ch_ring, array_lookup.
  destruct (Z.leb_spec 0 (ring_key pckt vip_info b)); [|lia].
  destruct (Z.ltb_spec (ring_key pckt vip_info b) CH_RINGS_SIZE); [done|lia].
Qed.

(** ** The limit on new connections *)

(** The verdicts of a sequence of calls at the given times. *)
Fixpoint conn_rate_run (ts : list Z) (s : lb_stats) : list bool * lb_stats :=
  match ts with
  | [] => ([], s)
  | t :: ts =>
      let '(flood, s) := conn_rate_step t s in
      let '(fs, s) := conn_rate_run ts s in (flood :: fs, s)
  end.

(** The number of calls that were not under flood. *)
Definition admitted (fs : list bool) : Z := zlen (map (fun _ => 0) (filter (fun b => b = false) fs)).

Lemma admitted_cons b fs : admitted (b :: fs) = (if b then 0 else 1) + admitted fs.
Proof.
  unfold admitted. rewrite filter_cons. destruct b; simpl; [done|].
  rewrite zlen_cons. done.
Qed.

(** C29: inside one time quantum the connections that may enter the connection table
    number exactly what is left of [MAX_CONN_RATE], however many packets arrive;
    the first call after the quantum starts a new one with a count of one. *)
Theorem conn_rate_limit (ts : list Z) (s : lb_stats) :
  (forall t, t ∈ ts -> u64 (t - v2 s) <= ONE_SEC) ->
  0 <= v1 s -> v1 s + zlen ts < 18446744073709551616 ->
  admitted (conn_rate_run ts s).1 = Z.min (zlen ts) (Z.max 0 (MAX_CONN_RATE - v1 s))
  /\ (forall t, ONE_SEC < u64 (t - v2 s) -> conn_rate_step t s = (false, LbStats 1 t)).
Proof.
  intros Hts H0 Hb. split.
  - revert s Hts H0 Hb. induction ts as [|t ts IH]; intros s Hts H0 Hb.
    { change (admitted (conn_rate_run [] s).1) with 0. rewrite zlen_nil. lia. }
    rewrite zlen_cons in Hb. pose proof (zlen_nonneg ts) as Hz.
    assert (Hstep : conn_rate_step t s
      = (MAX_CONN_RATE <? v1 s + 1, LbStats (v1 s + 1) (v2 s))).
    { unfold conn_rate_step. specialize (Hts t ltac:(set_solver)).
      destruct (Z.ltb_spec ONE_SEC (u64 (t - v2 s))); [lia|].
      cbn. now rewrite u64_id by (unfold is_u64; lia). }
    cbn [conn_rate_run]. rewrite Hstep.
    specialize (IH (LbStats (v1 s + 1) (v2 s))). cbn [v1 v2] in IH.
    destruct (conn_rate_run ts (LbStats (v1 s + 1) (v2 s))) as [fs s'].
    cbn [fst] in IH |- *. rewrite admitted_cons, IH, zlen_cons; [|intros; apply Hts; set_solver|lia|lia].
    unfold MAX_CONN_RATE. destruct (Z.ltb_spec 125000 (v1 s + 1)); lia.
  - intros t Ht. unfold conn_rate_step. destruct (Z.ltb_spec ONE_SEC (u64 (t - v2 s))); [done|lia].
Qed.

(** ** QUIC connection ids *)

(** The server id of a connection id: 16 bits from the first 18 bits after the
    version for version 1, the next 24 bits for version 2, and the next 32 bits
    read as a signed number for version 3, so that an id from 2^31 on is negative
    and the balancer, which asks for a positive one, never routes by it. *)
Lemma quic_conn_id_correct (b0 b1 b2 b3 b4 : Z) (rest : list Z) :
  is_u8 b0 -> is_u8 b1 -> is_u8 b2 -> is_u8 b3 -> is_u8 b4 ->
  let r := quic_conn_id (b0 :: b1 :: b2 :: b3 :: b4 :: rest) in
  let id32 := b1 * 16777216 + b2 * 65536 + b3 * 256 + b4 in
  cid_version r = b0 / 64 /\ is_initial r = false /\
  (b0 / 64 = 1 -> server_id r = b0 mod 64 * 1024 + b1 * 4 + b2 / 64 /\ is_u16 (server_id r)) /\
  (b0 / 64 = 2 -> server_id r = b1 * 65536 + b2 * 256 + b3) /\
  (b0 / 64 = 3 -> server_id r = (if b1 <? 128 then id32 else id32 - 4294967296)
                  /\ (0 < server_id r <-> 0 < id32 < 2147483648)) /\
  (b0 / 64 = 0 -> server_id r = FURTHER_PROCESSING).
Proof.
  intros H0 H1 H2 H3 H4. unfold is_u8 in *.
  assert (Hsh : Z.shiftr b0 6 = b0 / 64) by now rewrite Z.shiftr_div_pow2.
  assert (Hlor : forall n a b, 0 <= n -> 0 <= a < 2 ^ n -> Z.lor (b * 2 ^ n) a = b * 2 ^ n + a).
  { intros. rewrite Z.lor_comm, lor_disjoint_add by lia. lia. }
  unfold quic_conn_id. cbn [nth]. rewrite Hsh.
  unfold QUIC_CONNID_VERSION_V1, QUIC_CONNID_VERSION_V2, QUIC_CONNID_VERSION_V3, FURTHER_PROCESSING.
  rewrite !Z.shiftl_mul_pow2, Z.shiftr_div_pow2 by lia.
  change 0x3F with (Z.ones 6). rewrite Z.land_ones by lia.
  assert (E1 : Z.lor (Z.lor (b0 mod 2 ^ 6 * 2 ^ 10) (b1 * 2 ^ 2)) (b2 / 2 ^ 6)
               = b0 mod 64 * 1024 + b1 * 4 + b2 / 64).
  { rewrite Hlor by (try change (2 ^ 10) with 1024; lia).
    change (b0 mod 2 ^ 6 * 2 ^ 10 + b1 * 2 ^ 2) with (b0 mod 64 * 1024 + b1 * 4).
    replace (b0 mod 64 * 1024 + b1 * 4) with ((b0 mod 64 * 256 + b1) * 2 ^ 2) by lia.
    rewrite Hlor by (change (2 ^ 6) with 64; change (2 ^ 2) with 4; zlia).
    change (2 ^ 6) with 64. lia. }
  assert (E2 : Z.lor (Z.lor (b1 * 2 ^ 16) (b2 * 2 ^ 8)) b3 = b1 * 65536 + b2 * 256 + b3).
  { rewrite Hlor by (change (2 ^ 16) with 65536; lia).
    replace (b1 * 2 ^ 16 + b2 * 2 ^ 8) with ((b1 * 256 + b2) * 2 ^ 8) by lia.
    rewrite Hlor by lia. lia. }
  assert (E3 : Z.lor (Z.lor (Z.lor (b1 * 2 ^ 24) (b2 * 2 ^ 16)) (b3 * 2 ^ 8)) b4
               = b1 * 16777216 + b2 * 65536 + b3 * 256 + b4).
  { rewrite Hlor by (change (2 ^ 24) with 16777216; lia).
    replace (b1 * 2 ^ 24 + b2 * 2 ^ 16) with ((b1 * 256 + b2) * 2 ^ 16) by lia.
    rewrite Hlor by (change (2 ^ 16) with 65536; lia).
    replace ((b1 * 256 + b2) * 2 ^ 16 + b3 * 2 ^ 8) with ((b1 * 65536 + b2 * 256 + b3) * 2 ^ 8) by lia.
    rewrite Hlor by lia. lia. }
  rewrite E1, E2, E3.
  assert (Hs : forall x, 0 <= x < 4294967296 ->
    s32 x = if x <? 2147483648 then x else x - 4294967296).
  { intros x Hx. unfold s32. destruct (Z.ltb_spec x 2147483648); zlia. }
  rewrite Hs by lia.
  destruct (Z.eqb_spec (b0 / 64) 1), (Z.eqb_spec (b0 / 64) 2), (Z.eqb_spec (b0 / 64) 3);
    cbn [server_id cid_version is_initial]; unfold is_u16;
    repeat match goal with
    | |- _ /\ _ => split
    | |- _ <-> _ => split
    | |- _ -> _ => intro
    end; try lia; try (clear Hs Hlor E1 E2 E3; zlia).
  all: destruct (Z.ltb_spec b1 128),
         (Z.ltb_spec (b1 * 16777216 + b2 * 65536 + b3 * 256 + b4) 2147483648); lia.
Qed.

(** ** Flows stay with their server *)

(** The connection table exists. *)
Definition lru_present (e : kenv) (r : lru_ref) : Prop :=
  match r with
  | LruCpu c => is_Some (lru_mapping e !! c)
  | GlruCpu c => is_Some (global_lru_maps e !! c)
  | LruFallback | GlruFallback => True
  end.

(** Programs that leave the connection tables alone. *)
Definition lru_view (e : kenv) :=
  (fallback_cache e, lru_mapping e, global_lru_maps e, fallback_glru e).
Definition keeps {A} (m : kat A) : Prop :=
  forall s a s', m s = Some (a, s') -> lru_view (x_env s') = lru_view (x_env s).

Lemma bind_inv {A B} (m : kat A) (k : A -> kat B) s b s' :
  (m ≫= k) s = Some (b, s') -> exists a s1, m s = Some (a, s1) /\ k a s1 = Some (b, s').
Proof.
  change ((m ≫= k) s) with (match m s with Some (a, s1) => k a s1 | None => None end).
  destruct (m s) as [[a s1]|]; [eauto|done].
Qed.
Lemma keeps_ret {A} (a : A) : keeps (mret a).
Proof. intros s b s' [= _ <-]. done. Qed.
Lemma keeps_bind {A B} (m : kat A) (k : A -> kat B) :
  keeps m -> (forall a, keeps (k a)) -> keeps (m ≫= k).
Proof.
  intros Hm Hk s b s' Hb. apply bind_inv in Hb as (a & s1 & H1 & H2).
  rewrite (Hk _ _ _ _ H2). now apply (Hm s a).
Qed.
Lemma keeps_when b (m : kat unit) : keeps m -> keeps (when b m).
Proof. intros Hm. destruct b; [done|apply keeps_ret]. Qed.
Lemma keeps_stats_upd k g : keeps (stats_upd k g).
Proof. intros s a s' [= _ <-]. done. Qed.
Lemma keeps_asks {A} (f : kenv -> A) : keeps (asks f).
Proof. intros s a s' [= _ <-]. done. Qed.
Lemma keeps_ktime {H : XdpHelpers} : keeps ktime_get_ns.
Proof. intros s a s' [= _ <-]. done. Qed.
Create HintDb keeps discriminated.
#[export] Hint Resolve keeps_ret keeps_bind keeps_when keeps_stats_upd keeps_asks keeps_ktime : keeps.
Ltac keeps :=
  repeat first
    [ progress intros
    | apply keeps_bind
    | solve [eauto with keeps]
    | match goal with |- keeps (match ?x with _ => _ end) => destruct x end
    | match goal with |- keeps (if ?x then _ else _) => destruct x end ].

Section stickiness.
Context {F : Features} {T : Tables} {H : XdpHelpers} {P : LruPolicy} {PL : LruPolicyLaws P}.
Implicit Types s : xst kenv.

Lemma lru_update_run s r f v :
  lru_present (x_env s) r -> exists s', lru_update r f v s = Some (tt, s')
    /\ (exists a, lru_find (x_env s') r f = Some (RealPosLru (pos v) a)
          /\ (match r with LruCpu _ | LruFallback => a = atime v | _ => a = 0 end))
    /\ (forall f', f' <> f -> lru_find (x_env s') r f' = lru_find (x_env s) r f'
          \/ lru_find (x_env s') r f' = None)
    /\ x_frame s' = x_frame s /\ x_tick s' = x_tick s.
Proof.
  intros Hp. eexists. split; [reflexivity|]. cbn [x_env x_frame x_tick].
  split; [|split; [|split; reflexivity]].
  - destruct r as [c| |c|]; cbn [lru_find upd_lru_mapping upd_fallback_cache upd_global_lru_maps
      upd_fallback_glru lru_mapping fallback_cache global_lru_maps fallback_glru] in *.
    + destruct Hp as [m Hm]. rewrite lookup_alter_eq, Hm. cbn. rewrite lru_insert_same.
      exists (atime v). split; [|done]. now destruct v.
    + rewrite lru_insert_same. exists (atime v). split; [|done]. now destruct v.
    + destruct Hp as [m Hm]. rewrite lookup_alter_eq, Hm. cbn. rewrite lru_insert_same. cbn. eauto.
    + rewrite lru_insert_same. cbn. eauto.
  - intros f' Hne. destruct r as [c| |c|]; cbn [lru_find upd_lru_mapping upd_fallback_cache
      upd_global_lru_maps upd_fallback_glru lru_mapping fallback_cache global_lru_maps fallback_glru] in *.
    + destruct Hp as [m Hm]. rewrite lookup_alter_eq, Hm. cbn.
      destruct (lru_insert_other _ m f v f' Hne) as [-> | ->]; auto.
    + destruct (lru_insert_other _ (fallback_cache (x_env s)) f v f' Hne) as [-> | ->]; auto.
    + destruct Hp as [m Hm]. rewrite lookup_alter_eq, Hm. cbn.
      destruct (lru_insert_other _ m f (pos v) f' Hne) as [-> | ->]; auto.
    + destruct (lru_insert_other _ (fallback_glru (x_env s)) f (pos v) f' Hne) as [-> | ->]; auto.
Qed.

Lemma view_find e e' r f : lru_view e = lru_view e' -> lru_find e r f = lru_find e' r f.
Proof. intros E. injection E as E1 E2 E3 E4. destruct r; cbn; congruence. Qed.
Lemma view_present e e' r : lru_view e = lru_view e' -> lru_present e r -> lru_present e' r.
Proof. intros E. injection E as E1 E2 E3 E4. destruct r; cbn; congruence. Qed.

Lemma keeps_is_under_flood t : keeps (is_under_flood t).
Proof. unfold is_under_flood, stats_ptr, stats_get. keeps. Qed.
Lemma keeps_drop_no_real : keeps increment_ch_drop_no_real.
Proof. unfold increment_ch_drop_no_real, stats_ptr. keeps. Qed.
Lemma keeps_drop_real_0 : keeps increment_ch_drop_real_0.
Proof. unfold increment_ch_drop_real_0, stats_ptr. keeps. Qed.
Lemma keeps_lpm pckt v is6 fl : keeps (lpm_src_lookup pckt v is6 fl).
Proof. unfold lpm_src_lookup, stats_ptr. keeps. Qed.

(** The choice of a position: only the statistics change, and the flow changes
    only for [F_HASH_DPORT_ONLY]. *)
Definition choose_pos (pckt : packet_description) (vip_info : vip_meta) (is_ipv6 : bool)
    (src : option Z) : kat (option Z * packet_description) :=
  match src with
  | Some key => mret (Some key, pckt)
  | None =>
      let pckt := if has (vip_flags vip_info) F_HASH_DPORT_ONLY then hash_dport_only pckt else pckt in
      match lookup_ch_ring (ring_key pckt vip_info is_ipv6) with
      | None => mret (None, pckt)
      | Some key => when (key =? 0) increment_ch_drop_real_0 ;; mret (Some key, pckt)
      end
  end.
Lemma choose_pos_inv pckt v is6 src s o p' s' :
  choose_pos pckt v is6 src s = Some ((o, p'), s') ->
  lru_view (x_env s') = lru_view (x_env s) /\
  (p' = pckt \/ has (vip_flags v) F_HASH_DPORT_ONLY = true /\ p' = hash_dport_only pckt).
Proof.
  intros Hc. split.
  - assert (Hk : keeps (choose_pos pckt v is6 src)); [|now apply (Hk _ _ _ Hc)].
    unfold choose_pos. destruct src; [apply keeps_ret|]. cbv zeta.
    destruct (lookup_ch_ring _); [|apply keeps_ret]. apply keeps_bind; [|intros; apply keeps_ret].
    apply keeps_when, keeps_drop_real_0.
  - unfold choose_pos in Hc. destruct src; [injection Hc as <- <- <-; now left|]. cbv zeta in Hc.
    assert (Hp : p' = if has (vip_flags v) F_HASH_DPORT_ONLY then hash_dport_only pckt else pckt).
    { destruct (lookup_ch_ring _); [|now injection Hc].
      apply bind_inv in Hc as (? & ? & _ & Hc). now injection Hc. }
    destruct (has _ _); auto.
Qed.

(** The tables of [process_packet], which keep the time of the last packet of a flow. *)
Definition local_table (r : lru_ref) : Prop :=
  match r with LruCpu _ | LruFallback => True | GlruCpu _ | GlruFallback => False end.

Lemma lru_alter_run s r f g l :
  local_table r -> lru_find (x_env s) r f = Some l ->
  exists s', runs s (lru_alter r f g) tt s' /\ lru_find (x_env s') r f = Some (g l) /\ x_tick s' = x_tick s.
Proof.
  intros Hr Hl. eexists. split; [reflexivity|]. split; [|done].
  destruct r as [c| | |]; [| |done..]; cbn in Hl |- *.
  - destruct (lru_mapping (x_env s) !! c) as [m|] eqn:Hm; [|done]. cbn in Hl.
    rewrite lookup_alter_eq, Hm. cbn. now rewrite lookup_alter_eq, Hl.
  - now rewrite lookup_alter_eq, Hl.
Qed.

(** A lookup of a flow that has an entry: a UDP entry that is too old is not used; every other
    gives the server that stands at its position now, and a UDP entry gets the time. *)
Lemma lookup_entry s q r key a real :
  local_table r -> lru_find (x_env s) r (pd_flow q) = Some (RealPosLru key a) -> lookup_real key = Some real ->
  let now := h_ktime (x_tick s) in
  let udp := fk_proto (pd_flow q) =? IPPROTO_UDP in
  exists s', runs s (connection_table_lookup q r false)
      (if udp && (LRU_UDP_TIMEOUT <? u64 (now - a)) then (None, q) else (Some real, set_real_index key q)) s'
    /\ lru_find (x_env s') r (pd_flow q)
       = Some (RealPosLru key (if udp && negb (LRU_UDP_TIMEOUT <? u64 (now - a)) then now else a)).
Proof.
  intros Hr Hl Hreal now udp. unfold connection_table_lookup. fold udp. cbn [negb andb].
  destruct udp; cbn [andb].
  - set (s1 := Xst (x_frame s) (x_env s) (S (x_tick s))).
    destruct (LRU_UDP_TIMEOUT <? u64 (now - a)) eqn:Ho; cbn [negb].
    + exists s1. split; [|exact Hl]. eapply (runs_bind s s s1); [eapply runs_asks|]. rewrite Hl. cbv iota.
      eapply (runs_bind s s1 s1); [eapply (runs_bind s s1 s1); [reflexivity|]|].
      * cbn [atime]. fold now. rewrite Ho. apply runs_ret.
      * apply runs_ret.
    + destruct (lru_alter_run s1 r (pd_flow q) (fun l => RealPosLru (pos l) now) _ Hr Hl) as (s2 & R2 & Hl2 & _).
      exists s2. split; [|exact Hl2]. eapply (runs_bind s s s2); [eapply runs_asks|]. rewrite Hl. cbv iota.
      eapply (runs_bind s s2 s2); [eapply (runs_bind s s1 s2); [reflexivity|]|].
      * cbn [atime]. fold now. rewrite Ho. eapply (runs_bind s1 s2 s2); [exact R2|apply runs_ret].
      * cbv iota zeta. cbn [pos]. rewrite Hreal. apply runs_ret.
  - exists s. split; [|exact Hl]. eapply (runs_bind s s s); [eapply runs_asks|]. rewrite Hl. cbv iota.
    eapply (runs_bind s s s); [apply runs_ret|]. cbv iota zeta. cbn [pos]. rewrite Hreal. apply runs_ret.
Qed.

(** What a successful [get_packet_dst] leaves in the connection table. *)
Lemma get_packet_dst_inserts s s' s1 t pckt vip_info is_ipv6 r real p' :
  get_packet_dst pckt vip_info is_ipv6 r s = Some ((Some real, p'), s') ->
  is_under_flood 0 s = Some ((false, t), s1) ->
  has (vip_flags vip_info) F_LRU_BYPASS = false -> lru_present (x_env s) r ->
  lookup_real (real_index p') = Some real
  /\ (exists a, lru_find (x_env s') r (pd_flow p') = Some (RealPosLru (real_index p') a)
        /\ (local_table r -> a = if fk_proto (pd_flow p') =? IPPROTO_UDP then t else 0))
  /\ (forall f, f <> pd_flow p' -> lru_find (x_env s') r f = lru_find (x_env s) r f
        \/ lru_find (x_env s') r f = None)
  /\ (pd_flow p' = pd_flow pckt
      \/ has (vip_flags vip_info) F_HASH_DPORT_ONLY = true /\ pd_flow p' = pd_flow (hash_dport_only pckt)).
Proof.
  intros Hg Hfl Hby Hpr. unfold get_packet_dst in Hg.
  apply bind_inv in Hg as (x & s1' & E & Hg). rewrite Hfl in E. injection E as <- <-.
  pose proof (keeps_is_under_flood 0 _ _ _ Hfl) as V1.
  apply bind_inv in Hg as (src & s2 & E2 & Hg). pose proof (keeps_lpm _ _ _ _ _ _ _ E2) as V2.
  apply bind_inv in Hg as ([o p3] & s3 & E3 & Hg).
  apply (choose_pos_inv pckt vip_info is_ipv6 src s2 o p3 s3) in E3 as [V3 Hflow].
  assert (V : lru_view (x_env s3) = lru_view (x_env s)) by congruence.
  destruct o as [key|]; [|discriminate Hg]. cbv zeta in Hg.
  destruct (lookup_real key) as [rd|] eqn:Hreal.
  2:{ apply bind_inv in Hg as (? & ? & _ & Hg). discriminate Hg. }
  apply bind_inv in Hg as (? & s4 & Hu & Hg). injection Hg as -> <- ->.
  rewrite Hby in Hu. cbn [negb andb when] in Hu.
  destruct (lru_update_run s3 r (pd_flow (set_real_index key p3))
    (RealPosLru key (if fk_proto (pd_flow (set_real_index key p3)) =? IPPROTO_UDP then t else 0)))
    as (s5 & E5 & (a & Ha & Hat) & Ho & _).
  { eapply view_present; [symmetry; exact V|done]. }
  cbv zeta in Hu. rewrite E5 in Hu. injection Hu as _ ->.
  split; [exact Hreal|]. split; [exists a; split; [exact Ha|now destruct r]|]. split.
  - intros f Hne. rewrite <- (view_find (x_env s3) (x_env s) r f V). now apply Ho.
  - destruct Hflow as [->|[? ->]]; [now left|now right].
Qed.

End stickiness.

Section sticks.
Context {F : Features} {T : Tables} {H : XdpHelpers} {P : LruPolicy} {PL : LruPolicyLaws P}.
Implicit Types s : xst kenv.

(** C4: A flow stays with its server: when the ring has chosen a server for a packet (no flood, no
    [F_LRU_BYPASS]), the connection table of the CPU has its position for the flow that was
    inserted, and as long as the table has not lost that entry, every later lookup of the flow,
    in any state and with whatever the control plane has made of the ring and the other maps,
    gives the server that stands at that position then, and keeps the entry.  UDP is the
    exception: an entry that has not been used for 30 seconds is not taken, and every use
    renews its time.  The flow inserted is the packet's own unless the VIP has
    [F_HASH_DPORT_ONLY]: then its source was erased first, and the packet's own flow has
    gained no entry (a defect). *)
Theorem connection_sticks s s' s1 t pckt vip_info is_ipv6 r real p' :
  get_packet_dst pckt vip_info is_ipv6 r s = Some ((Some real, p'), s') ->
  is_under_flood 0 s = Some ((false, t), s1) ->
  has (vip_flags vip_info) F_LRU_BYPASS = false -> lru_present (x_env s) r -> local_table r ->
  let udp := fk_proto (pd_flow p') =? IPPROTO_UDP in
  lookup_real (real_index p') = Some real
  /\ lru_find (x_env s') r (pd_flow p') = Some (RealPosLru (real_index p') (if udp then t else 0))
  /\ (forall (T2 : Tables) s2 a q real2,
        pd_flow q = pd_flow p' -> lru_find (x_env s2) r (pd_flow p') = Some (RealPosLru (real_index p') a) ->
        @lookup_real T2 (real_index p') = Some real2 ->
        let now := h_ktime (x_tick s2) in
        let expired := udp && (LRU_UDP_TIMEOUT <? u64 (now - a)) in
        exists s3, @connection_table_lookup T2 H q r false s2
            = Some (if expired then (None, q) else (Some real2, set_real_index (real_index p') q), s3)
          /\ lru_find (x_env s3) r (pd_flow p')
             = Some (RealPosLru (real_index p') (if udp && negb expired then now else a)))
  /\ (has (vip_flags vip_info) F_HASH_DPORT_ONLY = false -> pd_flow p' = pd_flow pckt)
  /\ (pd_flow p' <> pd_flow pckt ->
      lru_find (x_env s') r (pd_flow pckt) = lru_find (x_env s) r (pd_flow pckt)
      \/ lru_find (x_env s') r (pd_flow pckt) = None).
Proof.
  intros Hg Hfl Hby Hpr Hloc udp.
  destruct (get_packet_dst_inserts s s' s1 t _ _ _ _ _ _ Hg Hfl Hby Hpr) as (Hreal & (a & Ha & Hat) & Ho & Hflow).
  split; [exact Hreal|]. split; [rewrite Ha, (Hat Hloc); reflexivity|]. split; [|split].
  - intros T2 s2 a2 q real2 Hq Hl2 Hr2 now expired. rewrite <- Hq in Hl2.
    destruct (@lookup_entry T2 H s2 q r (real_index p') a2 real2 Hloc Hl2 Hr2) as (s3 & R & Hl3).
    unfold expired, udp. rewrite <- Hq. exists s3. split; [exact R|]. rewrite Hl3. do 2 f_equal.
    now destruct (fk_proto (pd_flow q) =? IPPROTO_UDP).
  - intros Hd. destruct Hflow as [|[? _]]; congruence.
  - intros Hne. apply Ho. congruence.
Qed.
End sticks.

(** ** The server id in a TCP option *)

(** The options of a segment, read as a list: [n] options are looked at; an end
    mark, a length that does not fit, or a server id option of another length
    than 6 ends the search. *)
Fixpoint find_server_id (n : nat) (opts : list Z) : Z :=
  match n with
  | O => 0
  | S n =>
      match opts with
      | [] => 0
      | kind :: rest =>
          if kind =? TCP_OPT_EOL then 0
          else if kind =? TCP_OPT_NOP then
            match rest with [] => 0 | _ => find_server_id n rest end
          else
            match rest with
            | [] => 0
            | len :: body =>
                if zlen opts <? len then 0
                else if kind =? TCP_HDR_OPT_KIND_TPR then
                  if len =? TCP_HDR_OPT_LEN_TPR then le_join (take 4 body) else 0
                else match drop (Z.to_nat len) opts with
                     | [] => 0
                     | opts => find_server_id n opts
                     end
            end
      end
  end.

Section options.
Context {E : Type}.
Implicit Types s : xst E.

(** The first byte of an option. *)
Lemma option_kind s pre kind l :
  f_data (x_frame s) = pre ++ kind :: l -> runs s (load8 (zlen pre)) kind s.
Proof.
  intros Hd. assert (runs s (load8 (zlen pre)) (le_join [kind]) s) as Hk.
  { apply runs_load8. rewrite Hd, slice_at by done. reflexivity. }
  now replace (le_join [kind]) with kind in Hk by (cbn; lia).
Qed.

(** An option with a length byte. *)
Lemma parse_hdr_opt_long s pre kind len body rest sid :
  let n := zlen (kind :: len :: body) in
  f_data (x_frame s) = pre ++ (kind :: len :: body) ++ rest -> is_u8 len -> zlen pre + n < 256 ->
  kind <> TCP_OPT_EOL -> kind <> TCP_OPT_NOP ->
  exists err st, runs s (parse_hdr_opt_raw (HdrOpt sid (zlen pre) n)) (err, st) s /\
    if n <? len then err = -1 /\ ho_server_id st = sid
    else if kind =? TCP_HDR_OPT_KIND_TPR then
      if len =? TCP_HDR_OPT_LEN_TPR then err = 1 /\ ho_server_id st = le_join (take 4 body)
      else err = -1 /\ ho_server_id st = sid
    else err = 0 /\ st = HdrOpt sid (zlen pre + len) (n - len).
Proof.
  intros n Hd Hlb Hsz He Hnop. unfold is_u8 in Hlb.
  pose proof (zlen_nonneg pre) as Hpre. pose proof (zlen_nonneg body) as Hbody.
  pose proof (zlen_nonneg rest) as Hrest.
  assert (Hn : n = 2 + zlen body) by (unfold n; rewrite !zlen_cons; lia).
  assert (Hlen : zlen (f_data (x_frame s)) = zlen pre + 2 + zlen body + zlen rest).
  { rewrite Hd, !zlen_app, !zlen_cons. lia. }
  assert (Hlen8 : runs s (load8 (zlen pre + 1)) len s).
  { replace (zlen pre + 1) with (zlen (pre ++ [kind])) by (rewrite zlen_app; done).
    apply (option_kind s _ len (body ++ rest)). rewrite Hd, <- app_assoc. done. }
  unfold parse_hdr_opt_raw. cbn [byte_offset ho_server_id hdr_bytes_remaining]. clearbody n.
  eexists _, _. split.
  - apply run_need; [lia|]. eapply runs_bind; [exact (option_kind s pre kind _ Hd)|]. cbv beta.
    rewrite (proj2 (Z.eqb_neq _ _) He), (proj2 (Z.eqb_neq _ _) Hnop).
    destruct (Z.ltb_spec n 2); [lia|].
    apply run_need; [lia|]. eapply runs_bind; [exact Hlen8|]. cbv beta.
    instantiate (2 := (if n <? len then -1 else if kind =? TCP_HDR_OPT_KIND_TPR then
      if len =? TCP_HDR_OPT_LEN_TPR then 1 else -1 else 0)).
    instantiate (1 := (if n <? len then HdrOpt sid (zlen pre) n else if kind =? TCP_HDR_OPT_KIND_TPR then
      if len =? TCP_HDR_OPT_LEN_TPR then HdrOpt (le_join (take 4 body)) (zlen pre) n
      else HdrOpt sid (zlen pre) n else HdrOpt sid (u8 (zlen pre + len)) (u8 (n - len)))).
    destruct (Z.ltb_spec n len); [apply runs_ret|]. destruct (kind =? TCP_HDR_OPT_KIND_TPR); [|apply runs_ret].
    destruct (Z.eqb_spec len TCP_HDR_OPT_LEN_TPR) as [Hsix|]; cbn [negb]; [|apply runs_ret].
    apply run_need; [unfold TCP_HDR_OPT_LEN_TPR in *; lia|]. eapply runs_bind; [|apply runs_ret].
    apply runs_load32 with (bs := take 4 body). rewrite Hd, slice_at_plus by (done || lia).
    unfold TCP_HDR_OPT_LEN_TPR, zlen in *.
    do 4 (destruct body as [|? body]; [simpl in Hn; lia|]). reflexivity.
  - destruct (Z.ltb_spec n len); [done|]. destruct (kind =? TCP_HDR_OPT_KIND_TPR).
    + now destruct (len =? TCP_HDR_OPT_LEN_TPR).
    + now rewrite !u8_id by (unfold is_u8; lia).
Qed.

(** One option: the state of the parser says which bytes are left. *)
Lemma parse_hdr_opt_spec s pre opts rest sid :
  f_data (x_frame s) = pre ++ opts ++ rest -> bytes_ok opts -> zlen pre + zlen opts < 256 ->
  opts <> [] ->
  exists err st, runs s (parse_hdr_opt (HdrOpt sid (zlen pre) (zlen opts))) (err, st) s /\
    match opts with
    | [] => True
    | kind :: l =>
        if kind =? TCP_OPT_EOL then err = -1 /\ ho_server_id st = sid
        else if kind =? TCP_OPT_NOP then err = 0 /\ st = HdrOpt sid (zlen pre + 1) (zlen opts - 1)
        else match l with
             | [] => err = -1 /\ ho_server_id st = sid
             | len :: body =>
                 if zlen opts <? len then err = -1 /\ ho_server_id st = sid
                 else if kind =? TCP_HDR_OPT_KIND_TPR then
                   if len =? TCP_HDR_OPT_LEN_TPR then err = 1 /\ ho_server_id st = le_join (take 4 body)
                   else err = -1 /\ ho_server_id st = sid
                 else err = 0 /\ st = HdrOpt sid (zlen pre + len) (zlen opts - len)
             end
    end.
Proof.
  intros Hd Hb Hsz Hne. destruct opts as [|kind l]; [done|].
  pose proof (zlen_nonneg pre) as Hpre. pose proof (zlen_nonneg l) as Hl. pose proof (zlen_nonneg rest) as Hrest.
  assert (Hlen : zlen (f_data (x_frame s)) = zlen pre + zlen (kind :: l) + zlen rest).
  { rewrite Hd, !zlen_app. lia. }
  rewrite bytes_ok_cons in Hb. destruct Hb as [_ Hb].
  assert (Hone : 1 <= zlen (kind :: l)) by (rewrite zlen_cons; lia).
  pose proof (option_kind s pre kind (l ++ rest) Hd) as Hkind. unfold parse_hdr_opt.
  destruct (Z.eqb_spec kind TCP_OPT_EOL) as [He|He].
  { exists (-1), (HdrOpt sid (zlen pre) (zlen (kind :: l))). split; [|done].
    apply run_need; [cbn; lia|]. eapply runs_bind; [exact Hkind|]. cbv beta.
    rewrite (proj2 (Z.eqb_eq _ _) He). apply runs_ret. }
  destruct (Z.eqb_spec kind TCP_OPT_NOP) as [Hnop|Hnop].
  { exists 0, (HdrOpt sid (u8 (zlen pre + 1)) (u8 (zlen (kind :: l) - 1))). split.
    - apply run_need; [cbn; lia|]. eapply runs_bind; [exact Hkind|]. cbv beta.
      rewrite (proj2 (Z.eqb_neq _ _) He), (proj2 (Z.eqb_eq _ _) Hnop). apply runs_ret.
    - rewrite !u8_id by (unfold is_u8; lia). done. }
  destruct l as [|len body].
  - exists (-1), (HdrOpt sid (zlen pre) (zlen [kind])). split; [|done].
    apply run_need; [cbn; lia|]. eapply runs_bind; [exact Hkind|]. cbv beta.
    rewrite (proj2 (Z.eqb_neq _ _) He), (proj2 (Z.eqb_neq _ _) Hnop). apply runs_ret.
  - apply bytes_ok_cons in Hb as [Hlb _]. now apply (parse_hdr_opt_long s pre kind len body rest sid).
Qed.

(** The loop over the options. *)
Lemma hdr_opt_loop_spec n s pre opts rest :
  f_data (x_frame s) = pre ++ opts ++ rest -> bytes_ok opts -> zlen pre + zlen opts < 256 ->
  opts <> [] ->
  exists st, runs s (hdr_opt_loop parse_hdr_opt n (HdrOpt 0 (zlen pre) (zlen opts))) st s
    /\ ho_server_id st = find_server_id n opts.
Proof.
  revert pre opts. induction n as [|n IH]; intros pre opts Hd Hb Hsz Hne; cbn [hdr_opt_loop].
  { eexists. split; [apply runs_ret|done]. }
  destruct (parse_hdr_opt_spec s pre opts rest 0 Hd Hb Hsz Hne) as (err & st & Hrun & Hst).
  assert (Hstop : nz err = true -> ho_server_id st = find_server_id (S n) opts ->
    exists st', runs s ('(err, opt_state) ← parse_hdr_opt (HdrOpt 0 (zlen pre) (zlen opts));
      if nz err || (hdr_bytes_remaining opt_state =? 0) then mret opt_state
      else hdr_opt_loop parse_hdr_opt n opt_state) st' s /\ ho_server_id st' = find_server_id (S n) opts).
  { intros He Hs. exists st. split; [|done]. eapply runs_bind; [exact Hrun|]. cbv beta iota.
    rewrite He. apply runs_ret. }
  destruct opts as [|kind l]; [done|]. pose proof (zlen_nonneg pre) as Hpre.
  assert (Hgo : forall k, 0 <= k <= zlen (kind :: l) -> err = 0 -> st = HdrOpt 0 (zlen pre + k) (zlen (kind :: l) - k) ->
    exists st', runs s ('(err, opt_state) ← parse_hdr_opt (HdrOpt 0 (zlen pre) (zlen (kind :: l)));
      if nz err || (hdr_bytes_remaining opt_state =? 0) then mret opt_state
      else hdr_opt_loop parse_hdr_opt n opt_state) st' s
    /\ ho_server_id st' = match drop (Z.to_nat k) (kind :: l) with [] => 0 | o => find_server_id n o end).
  { intros k Hk -> Hs. subst st.
    assert (Hrem : zlen (drop (Z.to_nat k) (kind :: l)) = zlen (kind :: l) - k) by (rewrite zlen_drop; lia).
    destruct (drop (Z.to_nat k) (kind :: l)) as [|x o] eqn:Hdrop.
    - eexists. split; [eapply runs_bind; [exact Hrun|]|].
      + cbv beta iota. cbn [hdr_bytes_remaining]. rewrite <- Hrem, zlen_nil. apply runs_ret.
      + done.
    - pose proof (zlen_nonneg o) as Ho. rewrite zlen_cons in Hrem.
      assert (Hpk : zlen (pre ++ take (Z.to_nat k) (kind :: l)) = zlen pre + k).
      { rewrite zlen_app. unfold zlen in *. rewrite length_take. lia. }
      destruct (IH (pre ++ take (Z.to_nat k) (kind :: l)) (x :: o)) as (st' & Hst' & Hid).
      + rewrite Hd, <- Hdrop. rewrite <- (take_drop (Z.to_nat k) (kind :: l)) at 1. now rewrite !app_assoc.
      + rewrite <- Hdrop. now apply Forall_drop.
      + rewrite Hpk, zlen_cons. lia.
      + done.
      + exists st'. split; [|done]. eapply runs_bind; [exact Hrun|]. cbv beta iota.
        cbn [hdr_bytes_remaining]. change (nz 0) with false. cbn [orb].
        destruct (Z.eqb_spec (zlen (kind :: l) - k) 0); [lia|].
        rewrite Hpk, zlen_cons in Hst'. now rewrite <- Hrem. }
  cbn [find_server_id] in *. revert Hst Hstop.
  destruct (kind =? TCP_OPT_EOL); [intros [-> ->] Hstop; now apply Hstop|].
  destruct (kind =? TCP_OPT_NOP).
  { intros [He Hs] _. specialize (Hgo 1). destruct l as [|x l];
      (apply Hgo; [rewrite ?zlen_cons, ?zlen_nil; try pose proof (zlen_nonneg l); lia|done|done]). }
  destruct l as [|len body]; [intros [-> ->] Hstop; now apply Hstop|].
  destruct (Z.ltb_spec (zlen (kind :: len :: body)) len); [intros [-> ->] Hstop; now apply Hstop|].
  destruct (kind =? TCP_HDR_OPT_KIND_TPR).
  { destruct (len =? TCP_HDR_OPT_LEN_TPR); intros [-> ->] Hstop; now apply Hstop. }
  intros [He Hs] _. apply (Hgo len); [|done|done].
  apply bytes_ok_cons in Hb as [_ Hb]. apply bytes_ok_cons in Hb as [Hb _]. unfold is_u8 in Hb. lia.
Qed.
(** C8: on a complete TCP segment the server id that [tcp_hdr_opt_lookup_server_id]
    finds is the one in the list of its options: the first option of kind 0xB7 and
    length 6 among the first 15, before any end mark or ill-formed length, if it
    is not 0.  The offsets, which are 8-bit numbers, never wrap, and no byte
    outside the options is looked at. *)
Theorem tcp_hdr_opt_lookup_correct s (is_ipv6 : bool) (hdrs tcp opts rest : list Z) :
  f_data (x_frame s) = hdrs ++ tcp ++ opts ++ rest ->
  zlen hdrs = calc_offset is_ipv6 false -> length tcp = 20%nat -> bytes_ok tcp -> bytes_ok opts ->
  5 <= nth 12 tcp 0 / 16 -> zlen opts = nth 12 tcp 0 / 16 * 4 - 20 ->
  runs s (tcp_hdr_opt_lookup_server_id is_ipv6)
    (let id := if zlen opts <? 6 then 0 else find_server_id TCP_HDR_OPT_MAX_OPT_CHECKS opts in
     if id =? 0 then None else Some id) s.
Proof.
  intros Hd Hh Ht Hbt Hbo Hdoff Hlen.
  assert (Htcp : exists b, tcp !! 12%nat = Some b /\ nth 12 tcp 0 = b /\ is_u8 b).
  { destruct (lookup_lt_is_Some_2 tcp 12) as [b Hb]; [lia|]. exists b. split; [done|].
    split; [now apply nth_lookup_Some|]. eapply Forall_lookup_1; [exact Hbt|exact Hb]. }
  destruct Htcp as (b & Hb12 & Hnth & Hb). rewrite Hnth in *. unfold is_u8 in Hb.
  set (off := calc_offset is_ipv6 false) in *.
  assert (Hoff : off = 34 \/ off = 54) by (unfold off; destruct is_ipv6; [right|left]; reflexivity).
  pose proof (zlen_nonneg rest) as Hrest. pose proof (zlen_nonneg opts) as Hopts.
  assert (Hz20 : zlen tcp = 20) by (unfold zlen; lia).
  assert (Hb16 : b / 16 <= 15) by zlia.
  unfold tcp_hdr_opt_lookup_server_id. fold off. clearbody off. cbv zeta.
  apply run_need; [rewrite Hd, !zlen_app; lia|].
  assert (Hload : runs s (load8 (off + 12)) b s).
  { assert (runs s (load8 (off + 12)) (le_join [b]) s) as Hl.
    { apply runs_load8. rewrite Hd, slice_at_plus by (done || lia).
      rewrite <- (take_drop_middle tcp 12 b Hb12), <- app_assoc.
      rewrite slice_app_ge by (unfold zlen; rewrite length_take; lia).
      replace (12 - zlen (take 12 tcp)) with 0 by (unfold zlen; rewrite length_take; lia). reflexivity. }
    now replace (le_join [b]) with b in Hl by (cbn; lia). }
  eapply runs_bind; [exact Hload|]. cbv beta zeta.
  rewrite Z.shiftr_div_pow2 by lia. change (2 ^ 4) with 16.
  assert (Hu : u8 (b / 16 * 4 - 20) = zlen opts) by (rewrite Hlen; apply u8_id; unfold is_u8; lia).
  rewrite Hu.
  change TCP_HDR_OPT_LEN_TPR with 6. destruct (Z.ltb_spec (zlen opts) 6); [apply runs_ret|].
  rewrite u8_id by (unfold is_u8; lia).
  assert (Hpre : zlen (hdrs ++ tcp) = 20 + off) by (rewrite zlen_app; lia).
  destruct (hdr_opt_loop_spec TCP_HDR_OPT_MAX_OPT_CHECKS s (hdrs ++ tcp) opts rest) as (st & Hst & Hid).
  { now rewrite Hd, <- app_assoc. } { done. } { lia. } { intros ->. rewrite zlen_nil in *. lia. }
  rewrite Hpre in Hst. eapply runs_bind; [exact Hst|]. rewrite Hid. cbv zeta.
  destruct (_ =? 0); apply runs_ret.
Qed.
End options.
