(* ===== verification/KatranInline.v ===== *)
(** * Katran with its maps compiled in (katran/lib-inline/linux_includes/aot_map_id.h)

    In the inlined build every lookup of a map goes through one function that serves four of the
    maps from arrays of the module and hands the others to the helper of the runtime.  The
    statistics are the same arrays as before; the ring is an array that nothing writes, so the
    balancer is the one of KatranBalancer.v with an empty ring, and it sends every connection
    to the first server. *)
From Stdlib Require Import ZArith Lia.
From stdpp Require Import base numbers list option gmap.
From S2P Require Import Prelude Xdp OnesComplement XdpRun Jhash KatranDefs KatranCsum KatranParse KatranIcmp KatranEncap KatranBalancer KatranRouting.
#[local] Open Scope Z_scope.

(** ** The lookup *)

(** @src xdp_progs/katran/lib-inline/linux_includes/aot_map_id.h 22-36 ctl_array_id *)
Definition ctl_array_id : Z := Z.shiftl 4 32.
Definition vip_map_id : Z := Z.shiftl 5 32.
Definition fallback_cache_id : Z := Z.shiftl 6 32.
Definition lru_mapping_id : Z := Z.shiftl 8 32.
Definition ch_rings_id : Z := Z.shiftl 7 32.
Definition reals_id : Z := Z.shiftl 9 32.
Definition reals_stats_id : Z := Z.shiftl 10 32.
Definition lru_miss_stats_id : Z := Z.shiftl 11 32.
Definition vip_miss_stats_id : Z := Z.shiftl 12 32.
Definition stats_id : Z := Z.shiftl 13 32.
Definition quic_stats_map_id : Z := Z.shiftl 14 32.
Definition decap_vip_stats_id : Z := Z.shiftl 15 32.
Definition server_id_map_id : Z := Z.shiftl 16 32.
Definition tpr_stats_map_id : Z := Z.shiftl 17 32.
Definition server_id_stats_id : Z := Z.shiftl 18 32.

(** What a lookup points to: an element of one of the arrays of the module, or whatever the
    helper of the runtime finds.
    @src xdp_progs/katran/lib-inline/linux_includes/aot_map_id.h 52-59 __ch_rings *)
Inductive element :=
  | ChRings (k : Z) | LruMissStats (k : Z) | RealsStats (k : Z) | Stats (k : Z)
  | Helper (map key : Z).

(** [None] is a null pointer; [key] is the unsigned key of the maps with a case.
    @src xdp_progs/katran/lib-inline/linux_includes/aot_map_id.h 61-91 bpf_map_lookup_elem_aot *)
Definition bpf_map_lookup_elem_aot (map key : Z) : option element :=
  if map =? ch_rings_id then
    if (key >=? 512 * 65537) || (key <? 0) then None else Some (ChRings key)
  else if map =? lru_miss_stats_id then
    if (key >=? 4096) || (key <? 0) then None else Some (LruMissStats key)
  else if map =? reals_stats_id then
    if (key >=? 4096) || (key <? 0) then None else Some (RealsStats key)
  else if map =? stats_id then
    if (key >=? 1024) || (key <? 0) then None else Some (Stats key)
  else Some (Helper map key).

Section inline.
Context {F : Features} {T : Tables} {H : XdpHelpers} {P : LruPolicy}.

(** The tables that the inlined build sees: the ring is the zero array of the module. *)
Definition inlined : Tables := {|
  vip_map := vip_map; ch_rings := ∅; reals := reals; ctl_array := ctl_array;
  server_id_map := server_id_map; lpm_src_v4 := lpm_src_v4; lpm_src_v6 := lpm_src_v6;
  decap_dst := decap_dst; pckt_srcs := pckt_srcs; subprograms := subprograms
|}.

(** @src xdp_progs/katran/lib-inline/bpf/balancer.bpf.c 1047-1051 bpf_main *)
Definition bpf_main : kat outcome := @balancer_ingress F inlined H P.

(** The arrays have the sizes of the maps, so the lookups succeed for the same keys. *)
Lemma bounds_agree {A} (n k : Z) (x : A) :
  (if (k >=? n) || (k <? 0) then None else Some x) = if (0 <=? k) && (k <? n) then Some x else None.
Proof. destruct (Z.geb_spec k n), (Z.ltb_spec k 0), (Z.leb_spec 0 k), (Z.ltb_spec k n); cbn; lia || done. Qed.

Lemma aot_lookup_agrees (k : Z) :
  bpf_map_lookup_elem_aot stats_id k = Stats <$> array_ptr STATS_MAP_SIZE k /\
  bpf_map_lookup_elem_aot reals_stats_id k = RealsStats <$> array_ptr MAX_REALS k /\
  bpf_map_lookup_elem_aot lru_miss_stats_id k = LruMissStats <$> array_ptr MAX_REALS k /\
  bpf_map_lookup_elem_aot ch_rings_id k = (fun _ => ChRings k) <$> @lookup_ch_ring inlined k /\
  Forall (fun id => bpf_map_lookup_elem_aot id k = Some (Helper id k))
    [ctl_array_id; vip_map_id; fallback_cache_id; lru_mapping_id; reals_id; vip_miss_stats_id;
     quic_stats_map_id; decap_vip_stats_id; server_id_map_id; tpr_stats_map_id; server_id_stats_id].
Proof.
  unfold bpf_map_lookup_elem_aot, array_ptr, lookup_ch_ring, array_lookup. cbn [ch_rings inlined].
  repeat match goal with |- context [?a =? ?b] => change (a =? b) with true || change (a =? b) with false end.
  cbv iota. rewrite !bounds_agree, lookup_empty.
  split_and!; try (destruct (_ && _); reflexivity). repeat constructor.
Qed.

(** ** Where connections go *)

(** No slot of the ring names another server than the first. *)
Lemma inlined_ring k real : @lookup_ch_ring inlined k = Some real -> real = 0.
Proof.
  unfold lookup_ch_ring, array_lookup. cbn [ch_rings inlined]. rewrite lookup_empty.
  destruct (_ && _); [now intros [= <-]|discriminate].
Qed.

(** All entries of a connection table name the first server. *)
Definition first_only (r : lru_ref) (e : kenv) : Prop :=
  forall f v, lru_find e r f = Some v -> pos v = 0.

Lemma first_only_view r e e' : lru_view e = lru_view e' -> first_only r e -> first_only r e'.
Proof. intros V Hr f v Hf. apply (Hr f). now rewrite (view_find e e' r f V). Qed.

(** A packet that is looked up in a connection table, or for which the ring is asked. *)
Inductive request :=
  | Known (pckt : packet_description) (isGlobalLru : bool)
  | Fresh (pckt : packet_description) (vip_info : vip_meta) (is_ipv6 : bool).
Definition serve (r : lru_ref) (q : request) : kat (option real_definition * packet_description) :=
  match q with
  | Known pckt g => @connection_table_lookup inlined H pckt r g
  | Fresh pckt vip_info is_ipv6 => @get_packet_dst F inlined H P pckt vip_info is_ipv6 r
  end.
Fixpoint serve_all (r : lru_ref) (qs : list request) : kat (list (option real_definition)) :=
  match qs with
  | [] => mret []
  | q :: qs => '(real, _) ← serve r q; reals ← serve_all r qs; mret (real :: reals)
  end.

(** The VIP does not ask for a server by the source address. *)
Definition by_ring (q : request) : Prop :=
  match q with
  | Known _ _ => True
  | Fresh _ vip_info _ => LPM_SRC_LOOKUP && has (vip_flags vip_info) F_SRC_ROUTING = false
  end.

Context {PL : LruPolicyLaws P}.

Lemma insert_first (m : gmap flow_key real_pos_lru) f v :
  pos v = 0 -> (forall g w, m !! g = Some w -> pos w = 0) -> forall g w, lru_insert m f v !! g = Some w -> pos w = 0.
Proof.
  intros Hv Hm g w Hg. destruct (decide (g = f)) as [->|Hne].
  - rewrite lru_insert_same in Hg. now injection Hg as <-.
  - destruct (lru_insert_other _ m f v g Hne) as [E|E]; rewrite E in Hg; eauto; discriminate.
Qed.
Lemma insert_first_global (m : gmap flow_key Z) f x :
  x = 0 -> (forall g y, m !! g = Some y -> y = 0) -> forall g y, lru_insert m f x !! g = Some y -> y = 0.
Proof.
  intros Hv Hm g w Hg. destruct (decide (g = f)) as [->|Hne].
  - rewrite lru_insert_same in Hg. now injection Hg as <-.
  - destruct (lru_insert_other _ m f x g Hne) as [E|E]; rewrite E in Hg; eauto; discriminate.
Qed.

Lemma update_first r f v (s s' : xst kenv) a :
  pos v = 0 -> first_only r (x_env s) -> lru_update r f v s = Some (a, s') -> first_only r (x_env s').
Proof.
  intros Hv Hr [= _ <-] g w. cbn [x_env]. unfold first_only in Hr.
  destruct r as [c| |c|]; cbn [lru_find upd_lru_mapping upd_fallback_cache upd_global_lru_maps
    upd_fallback_glru lru_mapping fallback_cache global_lru_maps fallback_glru] in *.
  - rewrite lookup_alter_eq. destruct (lru_mapping (x_env s) !! c) as [m|]; [|discriminate]. cbn in *.
    now apply insert_first.
  - now apply insert_first.
  - rewrite lookup_alter_eq. destruct (global_lru_maps (x_env s) !! c) as [m|]; [|discriminate]. cbn in *.
    destruct (lru_insert m f (pos v) !! g) as [y|] eqn:Ey; [|discriminate]. intros [= <-]. cbn.
    refine (insert_first_global m f (pos v) Hv _ g y Ey). intros h z Hz.
    specialize (Hr h (RealPosLru z 0)). rewrite Hz in Hr. now apply Hr.
  - destruct (lru_insert _ f (pos v) !! g) as [y|] eqn:Ey; [|discriminate]. intros [= <-]. cbn.
    refine (insert_first_global _ f (pos v) Hv _ g y Ey). intros h z Hz.
    specialize (Hr h (RealPosLru z 0)). rewrite Hz in Hr. now apply Hr.
Qed.

Lemma find_alter (m : gmap flow_key real_pos_lru) f k (g : real_pos_lru -> real_pos_lru) w :
  alter g f m !! k = Some w -> exists w', m !! k = Some w' /\ (w = w' \/ w = g w').
Proof.
  destruct (decide (f = k)) as [->|Hne].
  - rewrite lookup_alter_eq. destruct (m !! k); [|discriminate]. intros [= <-]. eauto.
  - rewrite lookup_alter_ne by done. eauto.
Qed.

(** The time of an entry is refreshed in a table of a CPU only. *)
Lemma refresh_first r f t (s s' : xst kenv) a :
  first_only r (x_env s) -> lru_alter r f (fun l => RealPosLru (pos l) t) s = Some (a, s') ->
  first_only r (x_env s').
Proof.
  intros Hr [= _ <-] g w. cbn [x_env]. unfold first_only in Hr.
  destruct r as [c| |c|]; cbn [lru_find upd_lru_mapping upd_fallback_cache upd_global_lru_maps
    upd_fallback_glru lru_mapping fallback_cache global_lru_maps fallback_glru] in *.
  - rewrite lookup_alter_eq. destruct (lru_mapping (x_env s) !! c) as [m|]; [|discriminate]. cbn in *.
    intros (w' & Hw & [->| ->])%find_alter; cbn; eauto.
  - intros (w' & Hw & [->| ->])%find_alter; cbn; eauto.
  - rewrite lookup_alter_eq. destruct (global_lru_maps (x_env s) !! c) as [m|]; [|discriminate]. cbn in *.
    destruct (decide (f = g)) as [->|Hne]; [rewrite lookup_alter_eq|rewrite lookup_alter_ne by done; apply Hr].
    specialize (Hr g). destruct (m !! g); [|discriminate]. cbn in *. intros [= <-]. exact (Hr _ eq_refl).
  - destruct (decide (f = g)) as [->|Hne]; [rewrite lookup_alter_eq|rewrite lookup_alter_ne by done; apply Hr].
    specialize (Hr g). destruct (fallback_glru _ !! g); [|discriminate]. cbn in *. intros [= <-]. exact (Hr _ eq_refl).
Qed.

Lemma known_first r pckt g (s s' : xst kenv) o p' :
  first_only r (x_env s) -> @connection_table_lookup inlined H pckt r g s = Some ((o, p'), s') ->
  first_only r (x_env s') /\ (o = None \/ o = lookup_real 0).
Proof.
  intros Hr Hc. unfold connection_table_lookup in Hc. apply bind_inv in Hc as (x & s1 & [= <- <-] & Hc).
  destruct (lru_find (x_env s) r (pd_flow pckt)) as [v|] eqn:Ef; [|injection Hc as <- _ <-; auto].
  apply bind_inv in Hc as (expired & s2 & He & Hc).
  assert (Hr2 : first_only r (x_env s2)).
  { destruct (negb g && _); [|now injection He as _ <-].
    apply bind_inv in He as (t & s3 & [= <- <-] & He). destruct (_ <? _); [now injection He as _ <-|].
    apply bind_inv in He as (u & s4 & Ha & He). injection He as _ <-.
    now apply (refresh_first r (pd_flow pckt) _ _ _ u) in Ha. }
  destruct expired; injection Hc as <- _ <-; [auto|]. rewrite (Hr _ _ Ef). auto.
Qed.

Lemma fresh_first r pckt vip_info is_ipv6 (s s' : xst kenv) o p' :
  LPM_SRC_LOOKUP && has (vip_flags vip_info) F_SRC_ROUTING = false ->
  first_only r (x_env s) -> @get_packet_dst F inlined H P pckt vip_info is_ipv6 r s = Some ((o, p'), s') ->
  first_only r (x_env s') /\ (o = None \/ o = lookup_real 0).
Proof.
  intros Hlpm Hr Hg. unfold get_packet_dst in Hg.
  apply bind_inv in Hg as ([fl t] & s1 & E1 & Hg). apply keeps_is_under_flood in E1.
  apply bind_inv in Hg as (src & s2 & E2 & Hg).
  assert (Hlpm' : LPM_SRC_LOOKUP && (has (vip_flags vip_info) F_SRC_ROUTING && negb fl) = false)
    by (destruct LPM_SRC_LOOKUP, (has _ _); cbn in *; congruence).
  unfold lpm_src_lookup in E2. rewrite Hlpm' in E2. injection E2 as <- <-.
  apply bind_inv in Hg as ([k p3] & s3 & E3 & Hg).
  pose proof (@choose_pos_inv inlined pckt vip_info is_ipv6 None s1 k p3 s3 E3) as [V3 _].
  assert (Hk : k = None \/ k = Some 0).
  { cbv zeta in E3. destruct (lookup_ch_ring _) as [key|] eqn:Er; [|injection E3 as <- _ _; now left].
    apply inlined_ring in Er as ->. apply bind_inv in E3 as (? & ? & _ & E3). injection E3 as <- _ _. now right. }
  assert (Hr3 : first_only r (x_env s3)) by (eapply first_only_view; [|exact Hr]; congruence).
  destruct Hk as [->| ->]; [injection Hg as <- _ <-; auto|]. cbv zeta in Hg.
  change (@lookup_real inlined 0) with (lookup_real 0) in Hg. destruct (lookup_real 0) as [rd|] eqn:Ed; [|discriminate Ed].
  apply bind_inv in Hg as (u & s4 & Hu & Hg). injection Hg as <- _ <-. split; [|now right].
  destruct (negb _ && negb fl); cbn [when] in Hu; [|now injection Hu as _ <-].
  now apply (update_first r _ _ s3 s4 u) in Hu.
Qed.

(** From an empty connection table on, whatever sequence of packets is looked up in it or asks
    the ring, every server that is found is the first of [reals], whatever the control plane
    has written in the map of the ring: the array that is read in its place stays zero. *)
Lemma inlined_first_server r qs (s s' : xst kenv) rs :
  Forall by_ring qs -> first_only r (x_env s) -> serve_all r qs s = Some (rs, s') ->
  Forall (fun o => o = None \/ o = lookup_real 0) rs.
Proof.
  intros Hq. revert s s' rs. induction Hq as [|q qs Hq _ IH]; intros s s' rs Hr Hs.
  { injection Hs as <- _. constructor. }
  cbn [serve_all] in Hs. apply bind_inv in Hs as ([o p'] & s1 & E1 & Hs).
  apply bind_inv in Hs as (rs' & s2 & E2 & Hs). injection Hs as <- _.
  assert (first_only r (x_env s1) /\ (o = None \/ o = lookup_real 0)) as [Hr1 Ho].
  { destruct q; [eapply known_first|eapply fresh_first]; eauto. }
  constructor; eauto.
Qed.
End inline.
