(* ===== verification/KatranDeliver.v ===== *)
(** * Katran: a connection from its first segment to its server

    The parts of the balancer put together: what [balancer_ingress] makes of a TCP segment of
    a VIP, which server it is sent to, and that all the segments of a connection go to the
    same server. *)
From Stdlib Require Import ZArith Lia.
From stdpp Require Import base numbers list option gmap.
From S2P Require Import Prelude Xdp OnesComplement XdpRun Jhash KatranDefs KatranCsum KatranParse KatranIcmp KatranEncap KatranBalancer KatranForward KatranRouting.
#[local] Open Scope Z_scope.

(** ** Segments *)

(** The fields of an IPv4 header without options and of a TCP header, in wire order. *)
Definition ip_tos (iph : list Z) : Z := nth 1 iph 0.
Definition ip_total (iph : list Z) : Z := bswap16 (le_join (take 2 (drop 2 iph))).
Definition ip_src (iph : list Z) : Z := le_join (take 4 (drop 12 iph)).
Definition ip_dst (iph : list Z) : Z := le_join (take 4 (drop 16 iph)).
Definition tcp_sport (tcp : list Z) : Z := le_join (take 2 tcp).
Definition tcp_dport (tcp : list Z) : Z := le_join (take 2 (drop 2 tcp)).
Definition tcp_syn (tcp : list Z) : bool := nz (Z.land (nth 13 tcp 0) 2).

(** A TCP segment in an IPv4 packet that is not a fragment. *)
Record segment (d eth iph tcp rest : list Z) : Prop := {
  seg_data : d = eth ++ iph ++ tcp ++ rest;
  seg_eth : length eth = 14%nat; seg_iph : length iph = 20%nat; seg_tcp : length tcp = 20%nat;
  seg_bytes : bytes_ok d;
  seg_v4 : drop 12 eth = [8; 0];
  seg_ihl : Z.land (nth 0 iph 0) 15 = 5;
  seg_proto : nth 9 iph 0 = IPPROTO_TCP;
  seg_whole : Z.land (le_join (take 2 (drop 6 iph))) PCKT_FRAGMENTED = 0
}.

(** Its flow, and its description as the parser leaves it. *)
Definition segment_flow (iph tcp : list Z) : flow_key :=
  FlowKey (V6 (ip_src iph) 0 0 0) (V6 (ip_dst iph) 0 0 0) (tcp_sport tcp) (tcp_dport tcp) IPPROTO_TCP.
Definition segment_desc (iph tcp : list Z) : packet_description :=
  PktDesc (segment_flow iph tcp) 0 (if tcp_syn tcp then F_SYN_SET else 0) (ip_tos iph).

Lemma le_join_one b : le_join [b] = b.
Proof. cbn [le_join]. lia. Qed.

Lemma nth_byte n l : bytes_ok l -> is_u8 (nth n l 0).
Proof.
  intros Hb. revert n. induction Hb as [|b l Hl _ IH]; intros [|n]; cbn [nth]; auto; now split.
Qed.

Section deliver.
Context {F : Features} {T : Tables} {H : XdpHelpers} {HL : XdpHelperLaws H} {P : LruPolicy}.
Implicit Types s : xst kenv.

(** ** Parsing *)

(** What layer 3 leaves: the addresses and the protocol, not yet the ports. *)
Definition l3_desc (iph : list Z) : packet_description :=
  PktDesc (FlowKey (V6 (ip_src iph) 0 0 0) (V6 (ip_dst iph) 0 0 0) 0 0 IPPROTO_TCP) 0 0 (ip_tos iph).

Lemma l3_segment s eth iph tcp rest :
  segment (f_data (x_frame s)) eth iph tcp rest ->
  runs s (process_l3_headers pckt_zero 14 false)
    (FURTHER_PROCESSING, (l3_desc iph, IPPROTO_TCP, ip_total iph)) s.
Proof.
  intros [Hd He Hi Ht _ _ Hihl Hp Hf]. destruct s as [[hd d tl] env tk]. cbn [f_data x_frame] in Hd. subst d.
  explode eth He. explode iph Hi. clear Ht. cbn [app nth take drop] in *.
  unfold process_l3_headers. change (14 + 20) with 34. xstep; [xstep|]. xneed.
  xstep; [xstep|]. cbv beta. rewrite le_join_one, Hihl. cbn [negb Z.eqb Pos.eqb].
  xstep; [xstep|]. xstep; [xstep|]. xstep; [xstep|]. xstep; [xstep|].
  cbv beta zeta. rewrite Hf, !le_join_one, Hp. change (nz 0) with false. cbv iota.
  change (IPPROTO_TCP =? IPPROTO_ICMP) with false. cbv iota.
  xstep; [xstep|]. xstep; [xstep|]. eapply runs_val; [apply runs_ret|reflexivity].
Qed.

Lemma tcp_segment s eth iph tcp rest :
  segment (f_data (x_frame s)) eth iph tcp rest ->
  runs s (parse_tcp false (l3_desc iph)) (Some (segment_desc iph tcp)) s.
Proof.
  intros [Hd He Hi Ht _ _ _ _ _]. destruct s as [[hd d tl] env tk]. cbn [f_data x_frame] in Hd. subst d.
  assert (Hr : length (eth ++ iph) = 34%nat) by (rewrite length_app; lia).
  unfold segment_desc, segment_flow, l3_desc. generalize (ip_src iph), (ip_dst iph), (ip_tos iph). intros.
  rewrite (app_assoc eth iph). revert Hr. generalize (eth ++ iph). intros l Hr. clear eth iph He Hi.
  explode l Hr. explode tcp Ht. unfold tcp_sport, tcp_dport, tcp_syn. cbn [app nth take drop] in *.
  unfold parse_tcp. cbv zeta. change (has (pd_flags _) F_ICMP) with false. unfold calc_offset. cbv beta iota zeta.
  xstep; [xstep|]. xneed. xstep; [xstep|]. xstep; [xstep|]. xstep; [xstep|].
  cbn [negb]. rewrite !le_join_one. destruct (nz _); apply runs_ret.
Qed.

(** ** What the parts before the encapsulation change

    The counters, but neither the packet, the clock, the connection tables nor the counter of
    new connections. *)
Definition rate_cell (e : kenv) : option lb_stats := stats e !! (MAX_VIPS + NEW_CONN_RATE_CNTR).
Definition calm s s' : Prop :=
  x_frame s' = x_frame s /\ x_tick s' = x_tick s /\
  lru_view (x_env s') = lru_view (x_env s) /\ rate_cell (x_env s') = rate_cell (x_env s).
#[local] Instance calm_preorder : PreOrder calm.
Proof.
  split; [now intros s|]. intros s1 s2 s3 (A1 & A2 & A3 & A4) (B1 & B2 & B3 & B4). repeat split; congruence.
Qed.

(** [m] returns [a] and is calm. *)
Definition calmly {A} s (m : kat A) (a : A) : Prop := exists s', runs s m a s' /\ calm s s'.

Lemma calmly_ret {A} s (a : A) : calmly s (mret a) a.
Proof. exists s. split; [apply runs_ret|reflexivity]. Qed.
Lemma calmly_bind {A B} s (m : kat A) (k : A -> kat B) a b :
  calmly s m a -> (forall s', calm s s' -> calmly s' (k a) b) -> calmly s (m ≫= k) b.
Proof.
  intros (s1 & Hm & C1) Hk. destruct (Hk s1 C1) as (s2 & Hr & C2). exists s2.
  split; [eapply runs_bind; eauto|now transitivity s1].
Qed.
Lemma calmly_asks {A} s (f : kenv -> A) : calmly s (asks f) (f (x_env s)).
Proof. exists s. split; [apply runs_asks|reflexivity]. Qed.
Lemma calmly_when s (b : bool) m : (b = true -> calmly s m tt) -> calmly s (when b m) tt.
Proof. destruct b; [auto|intros; apply calmly_ret]. Qed.
Lemma calmly_stats s k g : k <> MAX_VIPS + NEW_CONN_RATE_CNTR -> calmly s (stats_upd k g) tt.
Proof.
  intros Hk. eexists. split; [apply runs_modify|]. repeat split. unfold rate_cell.
  cbn [x_env upd_stats stats]. unfold array_update. now apply lookup_insert_ne.
Qed.
Lemma calmly_modify s f :
  (forall e, lru_view (f e) = lru_view e /\ stats (f e) = stats e) -> calmly s (modify f) tt.
Proof.
  intros Hf. destruct (Hf (x_env s)) as [H1 H2]. eexists. split; [apply runs_modify|].
  repeat split; [exact H1|]. unfold rate_cell. cbn [x_env]. now rewrite H2.
Qed.
Lemma calmly_report s ev n b : calmly s (REPORT_EVENT ev n b) tt.
Proof.
  unfold REPORT_EVENT, submit_event. destruct KATRAN_INTROSPECTION; [|apply calmly_ret].
  destruct (lookup_ctl 5) as [gk|]; [|apply calmly_ret]. destruct (ctl_u64 gk =? 0); [apply calmly_ret|].
  now apply calmly_modify.
Qed.
Lemma runs_calmly {A B} s (m : kat A) (k : A -> kat B) a b (Q : xst kenv -> Prop) :
  calmly s m a -> (forall s1, calm s s1 -> exists s2, runs s1 (k a) b s2 /\ Q s2) ->
  exists s2, runs s (m ≫= k) b s2 /\ Q s2.
Proof. intros (s1 & Hm & C) Hk. destruct (Hk s1 C) as (s2 & Hr & HQ). exists s2. eauto using runs_bind. Qed.

(** A step that is known to run. *)
Lemma run_step {A B} s s1 (m : kat A) (k : A -> kat B) a : runs s m a s1 -> (m ≫= k) s = k a s1.
Proof.
  unfold runs. intros E. change ((m ≫= k) s) with (match m s with Some (a, s') => k a s' | None => None end).
  now rewrite E.
Qed.

(** ** The connection table and the limit on new connections *)

(** The table that the program uses on this CPU. *)
Definition table_of (e : kenv) : lru_ref :=
  if (0 <=? h_cpu) && (h_cpu <? MAX_SUPPORTED_CPUS) then
    match lru_mapping e !! h_cpu with Some _ => LruCpu h_cpu | None => LruFallback end
  else LruFallback.
Lemma table_present e : lru_present e (table_of e).
Proof.
  unfold table_of. destruct (_ && _); [|exact I]. destruct (lru_mapping e !! h_cpu) eqn:E; [|exact I].
  now exists g.
Qed.
Lemma table_view e e' : lru_view e = lru_view e' -> table_of e = table_of e'.
Proof. intros E. injection E as _ E _ _. unfold table_of. now rewrite E. Qed.

Lemma select_lru_calm s : calmly s (select_lru h_cpu) (inr (table_of (x_env s))).
Proof.
  unfold select_lru, lru_mapping_lookup, table_of. eapply calmly_bind; [apply calmly_asks|]. intros s1 _.
  destruct (_ && _); [destruct (lru_mapping (x_env s) !! h_cpu); cbn [fmap option_fmap option_map]; [apply calmly_ret|]|].
  all: eapply calmly_bind; [apply calmly_ret|]; intros s2 _;
    eapply calmly_bind; [now apply calmly_stats|]; intros; apply calmly_ret.
Qed.

(** Whether a new connection at this moment is over the limit. *)
Definition flooded s : bool := (conn_rate_step (h_ktime (x_tick s)) (default stats_zero (rate_cell (x_env s)))).1.
Lemma flooded_calm s s' : calm s s' -> flooded s' = flooded s.
Proof. intros (_ & Ht & _ & Hr). unfold flooded. now rewrite Ht, Hr. Qed.

Lemma is_under_flood_runs s : exists s',
  runs s (is_under_flood 0) (flooded s, h_ktime (x_tick s)) s' /\
  x_frame s' = x_frame s /\ lru_view (x_env s') = lru_view (x_env s).
Proof.
  unfold is_under_flood, flooded. destruct (conn_rate_step _ _) as [flood c] eqn:E. eexists. split.
  - eapply runs_bind; [apply runs_ret|]. cbv beta iota.
    eapply runs_bind; [reflexivity|]. cbv beta.
    eapply runs_bind; [apply runs_asks|]. cbv beta. unfold rate_cell in E.
    change (array_ptr STATS_MAP_SIZE _) with (Some (MAX_VIPS + NEW_CONN_RATE_CNTR)). cbn [x_env].
    rewrite E. eapply runs_bind; [apply runs_modify|]. apply runs_ret.
  - now split.
Qed.

(** ** Choosing the server *)

(** The position that the ring gives a flow of the VIP. *)
Definition ring_server (pckt : packet_description) (vip_info : vip_meta) : Z :=
  default 0 (ch_rings !! ring_key pckt vip_info false).
(** The position that the connection table has for the flow, when it is one of [reals]. *)
Definition known_server (e : kenv) (pckt : packet_description) : option Z :=
  l ← lru_find e (table_of e) (pd_flow pckt); _ ← lookup_real (pos l); Some (pos l).
(** The position that a segment is sent to: a SYN asks the ring, any other segment the
    connection table first. *)
Definition server_of (e : kenv) (pckt : packet_description) (vip_info : vip_meta) : Z :=
  if has (pd_flags pckt) F_SYN_SET then ring_server pckt vip_info
  else default (ring_server pckt vip_info) (known_server e pckt).

(** The entry [v] for [f] in the table [r], as the update of the map leaves it. *)
Definition with_entry (r : lru_ref) (f : flow_key) (v : real_pos_lru) (e : kenv) : kenv :=
  (match r with
   | LruCpu c => upd_lru_mapping (alter (fun m => lru_insert m f v) c)
   | LruFallback => upd_fallback_cache (fun m => lru_insert m f v)
   | GlruCpu c => upd_global_lru_maps (alter (fun m => lru_insert m f (pos v)) c)
   | GlruFallback => upd_fallback_glru (fun m => lru_insert m f (pos v))
   end) e.
(** The connection tables after the ring was asked: a new entry, unless there was a flood. *)
Definition after_ring s (f : flow_key) (key : Z) : kenv :=
  if flooded s then x_env s else with_entry (table_of (x_env s)) f (RealPosLru key 0) (x_env s).
(** The connection tables after a segment of a VIP. *)
Definition after s (pckt : packet_description) (vip_info : vip_meta) : kenv :=
  let asked := after_ring s (pd_flow pckt) (ring_server pckt vip_info) in
  if has (pd_flags pckt) F_SYN_SET then asked
  else match known_server (x_env s) pckt with Some _ => x_env s | None => asked end.

(** A VIP without options. *)
Definition plain_vip (vip_info : vip_meta) : Prop := vip_flags vip_info = 0 /\ 0 <= vip_num vip_info < MAX_VIPS.

Lemma ring_lookup pckt vip_info : plain_vip vip_info ->
  lookup_ch_ring (ring_key pckt vip_info false) = Some (ring_server pckt vip_info).
Proof.
  intros [_ Hn]. destruct (ring_key_in_ring pckt vip_info false Hn) as (_ & Hr & _).
  unfold lookup_ch_ring, array_lookup. destruct (Z.leb_spec 0 (ring_key pckt vip_info false)); [|lia].
  destruct (Z.ltb_spec (ring_key pckt vip_info false) CH_RINGS_SIZE); [done|lia].
Qed.

Lemma with_entry_table e f v : table_of (with_entry (table_of e) f v e) = table_of e.
Proof.
  symmetry. unfold table_of, with_entry. destruct (_ && _); [|reflexivity].
  destruct (lru_mapping e !! h_cpu) eqn:E; cbn [upd_lru_mapping upd_fallback_cache lru_mapping].
  - now rewrite lookup_alter_eq, E.
  - now rewrite E.
Qed.
Lemma with_entry_view r f v e e' : lru_view e = lru_view e' -> lru_view (with_entry r f v e) = lru_view (with_entry r f v e').
Proof. intros E. injection E as E1 E2 E3 E4. destruct r; unfold lru_view; cbn; congruence. Qed.
(** The choice up to the lookup of the server. *)
Lemma ask_ring_step s0 s pckt vip_info r :
  plain_vip vip_info -> fk_proto (pd_flow pckt) = IPPROTO_TCP -> calm s0 s ->
  let key := ring_server pckt vip_info in
  exists s1, x_frame s1 = x_frame s0 /\ lru_view (x_env s1) = lru_view (x_env s0) /\
    get_packet_dst pckt vip_info false r s =
      (match lookup_real key with
       | None => increment_ch_drop_no_real ;; mret (None, set_real_index key pckt)
       | Some real =>
           when (negb (flooded s0)) (lru_update r (pd_flow pckt) (RealPosLru key 0)) ;;
           mret (Some real, set_real_index key pckt)
       end) s1.
Proof.
  intros Hv Hp Hc key. pose proof (ring_lookup pckt vip_info Hv) as Hring. fold key in Hring.
  destruct (is_under_flood_runs s) as (s1 & R1 & F1 & V1). rewrite (flooded_calm s0 s Hc) in R1.
  assert (calmly s1 (when (key =? 0) increment_ch_drop_real_0 ;; mret (Some key, pckt)) (Some key, pckt))
    as (s2 & R2 & F2 & _ & V2 & _).
  { eapply calmly_bind; [|intros; apply calmly_ret]. apply calmly_when. intros _. now apply calmly_stats. }
  exists s2. destruct Hc as (Fc & _ & Vc & _). split; [congruence|]. split; [congruence|].
  unfold get_packet_dst, lpm_src_lookup. rewrite (proj1 Hv). erewrite run_step by exact R1. cbv beta iota.
  change (has 0 F_SRC_ROUTING) with false. rewrite andb_false_r.
  erewrite run_step by apply runs_ret. cbv beta iota zeta.
  change (has 0 F_HASH_DPORT_ONLY) with false. cbv iota. rewrite Hring.
  erewrite run_step by exact R2. cbv beta iota.
  change (has 0 F_LRU_BYPASS) with false. cbn [negb andb pd_flow set_real_index]. rewrite Hp.
  change (IPPROTO_TCP =? IPPROTO_UDP) with false. reflexivity.
Qed.

Lemma ask_ring_runs s0 s pckt vip_info dst :
  plain_vip vip_info -> fk_proto (pd_flow pckt) = IPPROTO_TCP -> calm s0 s ->
  let key := ring_server pckt vip_info in
  lookup_real key = Some dst ->
  exists s', runs s (get_packet_dst pckt vip_info false (table_of (x_env s0))) (Some dst, set_real_index key pckt) s'
    /\ x_frame s' = x_frame s0 /\ lru_view (x_env s') = lru_view (after_ring s0 (pd_flow pckt) key).
Proof.
  intros Hv Hp Hc key Hr.
  destruct (ask_ring_step s0 s pckt vip_info (table_of (x_env s0)) Hv Hp Hc) as (s1 & F1 & V1 & E).
  unfold runs, after_ring. rewrite E. fold key. rewrite Hr. destruct (flooded s0); cbn [negb when].
  - now exists s1.
  - eexists. split; [reflexivity|]. split; [exact F1|]. now apply with_entry_view.
Qed.

Lemma ask_ring_fails s0 s pckt vip_info r :
  plain_vip vip_info -> fk_proto (pd_flow pckt) = IPPROTO_TCP -> calm s0 s ->
  let key := ring_server pckt vip_info in
  lookup_real key = None ->
  exists s', runs s (get_packet_dst pckt vip_info false r) (None, set_real_index key pckt) s'
    /\ x_frame s' = x_frame s0 /\ lru_view (x_env s') = lru_view (x_env s0).
Proof.
  intros Hv Hp Hc key Hr. destruct (ask_ring_step s0 s pckt vip_info r Hv Hp Hc) as (s1 & F1 & V1 & E).
  unfold runs. rewrite E. fold key. rewrite Hr.
  assert (calmly s1 increment_ch_drop_no_real tt) as (s2 & R2 & F2 & _ & V2 & _) by now apply calmly_stats.
  exists s2. split; [|split; congruence]. erewrite run_step by exact R2. done.
Qed.

Lemma lookup_real_range k dst : lookup_real k = Some dst -> 0 <= k < MAX_REALS.
Proof.
  unfold lookup_real, array_lookup. destruct (Z.leb_spec 0 k), (Z.ltb_spec k MAX_REALS); done || lia.
Qed.

Lemma lru_miss_calm s vip pckt dst :
  lookup_real (real_index pckt) = Some dst -> calmly s (update_vip_lru_miss_stats vip pckt false) FURTHER_PROCESSING.
Proof.
  intros Hr%lookup_real_range. unfold update_vip_lru_miss_stats.
  eapply calmly_bind; [apply calmly_ret|]. intros s1 _. cbv beta. change (array_ptr 1 0) with (Some 0). cbv iota.
  eapply calmly_bind; [apply calmly_asks|]. intros s2 _. cbv beta zeta.
  eapply calmly_bind; [now apply calmly_modify|]. intros s3 _.
  destruct (_ && _ && _); [|apply calmly_ret].
  eapply calmly_bind; [apply calmly_ret|]. intros s4 _. cbv beta. rewrite array_ptr_in by done.
  eapply calmly_bind; [now apply calmly_modify|]. intros; apply calmly_ret.
Qed.

(** The counters of [route_ch] for a segment that no table knew. *)
Lemma count_miss_calm s (pckt : packet_description) len : fk_proto (pd_flow pckt) = IPPROTO_TCP ->
  calmly s (if fk_proto (pd_flow pckt) =? IPPROTO_TCP then
              p ← stats_ptr (MAX_VIPS + LRU_MISS_CNTR);
              match p with
              | None => mret (inl (inl (Ret XDP_DROP)))
              | Some p =>
                  (if has (pd_flags pckt) F_SYN_SET then stats_upd p (add_v1 1)
                   else REPORT_EVENT TCP_NONSYN_LRUMISS len false ;; stats_upd p (add_v2 1)) ;;
                  mret (inr tt)
              end
            else mret (inr tt)) (inr (A := outcome + (real_definition * packet_description)) tt).
Proof.
  intros ->. change (IPPROTO_TCP =? IPPROTO_TCP) with true. cbv iota.
  eapply calmly_bind; [apply calmly_ret|]. intros s1 _. cbv beta.
  change (array_ptr STATS_MAP_SIZE _) with (Some (MAX_VIPS + LRU_MISS_CNTR)). cbv iota.
  eapply calmly_bind; [|intros; apply calmly_ret]. destruct (has _ _); [now apply calmly_stats|].
  eapply calmly_bind; [apply calmly_report|]. intros s2 _. now apply calmly_stats.
Qed.

(** The position [k] was chosen, and the tables are as in [e]; a position that is not one of
    [reals] ends in a drop that leaves the tables alone. *)
Definition chose s0 s' pckt k e (r : outcome + (real_definition * packet_description)) : Prop :=
  x_frame s' = x_frame s0 /\
  match lookup_real k with
  | Some dst => r = inr (dst, set_real_index k pckt) /\ lru_view (x_env s') = lru_view e
  | None => r = inl (Ret XDP_DROP) /\ lru_view (x_env s') = lru_view (x_env s0)
  end.

Lemma route_ch_runs s0 s pckt vip vip_info len :
  plain_vip vip_info -> fk_proto (pd_flow pckt) = IPPROTO_TCP -> calm s0 s ->
  exists s' r, runs s (route_ch pckt vip vip_info false (table_of (x_env s0)) (MAX_VIPS + LRU_CNTRS) len) r s'
    /\ chose s0 s' pckt (ring_server pckt vip_info) (after_ring s0 (pd_flow pckt) (ring_server pckt vip_info)) r.
Proof.
  intros Hv Hp Hc. unfold route_ch, chose. destruct (count_miss_calm s pckt len Hp) as (s1 & R1 & C1).
  assert (Hc1 : calm s0 s1) by now transitivity s.
  destruct (lookup_real (ring_server pckt vip_info)) as [dst|] eqn:Hr.
  - destruct (ask_ring_runs s0 s1 pckt vip_info dst Hv Hp Hc1 Hr) as (s2 & R2 & F2 & Hrec).
    destruct (lru_miss_calm s2 vip (set_real_index (ring_server pckt vip_info) pckt) dst Hr) as (s3 & R3 & F3 & _ & V3 & _).
    destruct (calmly_stats s3 (MAX_VIPS + LRU_CNTRS) (add_v2 1)) as (s4 & R4 & F4 & _ & V4 & _); [done|].
    exists s4, (inr (dst, set_real_index (ring_server pckt vip_info) pckt)). unfold runs.
    erewrite run_step by exact R1. cbv beta iota. erewrite run_step by exact R2. cbv beta iota.
    erewrite run_step by exact R3. cbv beta. change (0 <=? FURTHER_PROCESSING) with false. cbv iota.
    erewrite run_step by exact R4. repeat split; congruence.
  - destruct (ask_ring_fails s0 s1 pckt vip_info (table_of (x_env s0)) Hv Hp Hc1 Hr) as (s2 & R2 & F2 & V2).
    exists s2, (inl (Ret XDP_DROP)). unfold runs.
    erewrite run_step by exact R1. cbv beta iota. erewrite run_step by exact R2. now repeat split.
Qed.

Lemma table_lookup_runs s pckt r : fk_proto (pd_flow pckt) = IPPROTO_TCP ->
  runs s (connection_table_lookup pckt r false)
    (match lru_find (x_env s) r (pd_flow pckt) with
     | Some l => (lookup_real (pos l), set_real_index (pos l) pckt)
     | None => (None, pckt)
     end) s.
Proof.
  intros Hp. unfold connection_table_lookup. eapply runs_bind; [apply runs_asks|]. cbv beta.
  destruct (lru_find _ _ _) as [l|]; [|apply runs_ret]. rewrite Hp.
  change (negb false && (IPPROTO_TCP =? IPPROTO_UDP)) with false. cbv iota.
  eapply runs_bind; [apply runs_ret|]. apply runs_ret.
Qed.

Lemma select_dst_runs s0 s pckt vip vip_info len :
  TCP_SERVER_ID_ROUTING = false -> plain_vip vip_info -> fk_proto (pd_flow pckt) = IPPROTO_TCP -> calm s0 s ->
  exists s' r, runs s (select_dst pckt vip vip_info false (table_of (x_env s0)) h_cpu (MAX_VIPS + LRU_CNTRS) len) r s'
    /\ chose s0 s' pckt (server_of (x_env s0) pckt vip_info) (after s0 pckt vip_info) r.
Proof.
  intros Htpr Hv Hp Hc. unfold select_dst, route_tpr, runs. rewrite Htpr. cbn [andb].
  erewrite run_step by apply runs_ret. cbv beta iota.
  pose proof (proj1 Hv) as Hfl. rewrite Hfl. change (has 0 F_LRU_BYPASS) with false. change (has 0 F_GLOBAL_LRU) with false.
  cbn [negb]. rewrite andb_true_r. unfold server_of, after.
  pose proof (fun i => route_ch_runs s0 s (set_real_index i pckt) vip vip_info len Hv Hp Hc) as Ring.
  destruct (has (pd_flags pckt) F_SYN_SET) eqn:Hs; cbn [negb].
  { erewrite run_step by apply runs_ret. cbv beta iota. rewrite andb_false_r.
    erewrite run_step by apply runs_ret. cbv beta iota. specialize (Ring (real_index pckt)). now destruct pckt. }
  pose proof (table_lookup_runs s pckt (table_of (x_env s0)) Hp) as Hl.
  assert (V : lru_view (x_env s) = lru_view (x_env s0)) by now destruct Hc as (_ & _ & Hc & _).
  rewrite (view_find _ _ _ _ V) in Hl. erewrite run_step by exact Hl. clear Hl. unfold known_server.
  destruct (lru_find (x_env s0) (table_of (x_env s0)) (pd_flow pckt)) as [l|]; cbn [mbind option_bind default].
  - destruct (lookup_real (pos l)) as [rd|] eqn:El; cbn [mbind option_bind default]; unfold id; cbv beta iota.
    + erewrite run_step by apply runs_ret. cbv beta iota. exists s, (inr (rd, set_real_index (pos l) pckt)).
      split; [apply runs_ret|]. unfold chose. rewrite El. now destruct Hc.
    + rewrite andb_false_r. erewrite run_step by apply runs_ret. cbv beta iota. exact (Ring (pos l)).
  - cbv beta iota. rewrite andb_false_r. erewrite run_step by apply runs_ret. cbv beta iota.
    specialize (Ring (real_index pckt)). now destruct pckt.
Qed.

(** ** Forwarding *)

(** The control value with the MAC address of the router. *)
Definition router : ctl_value := default (CtlValue 0) (ctl_array !! 0).
(** The bytes that the outer header needs in front of the packet. *)
Definition headroom (dst : real_definition) : Z := if has (rd_flags dst) F_IPV6 then 40 else 20.

(** The frame in which a packet with the IPv4 header [iph] goes to [dst]. *)
Definition sent_to (dst : real_definition) (eth iph tcp rest : list Z) : list Z :=
  ctl_mac router ++ take 6 eth
  ++ (if has (rd_flags dst) F_IPV6 then
        le_split 2 BE_ETH_P_IPV6
        ++ v6_header (ip_tos iph) (ip_total iph) IPPROTO_IPIP
             (create_encap_ipv6_src (tcp_sport tcp) (ip_src iph)) (rd_dstv6 dst)
      else
        let saddr := create_encap_ipv4_src (tcp_sport tcp) (ip_src iph) in
        let total := u16 (ip_total iph + 20) in
        le_split 2 BE_ETH_P_IP
        ++ v4_header (ip_tos iph) total IPPROTO_IPIP
             (v4_check (ip_tos iph) total IPPROTO_IPIP saddr (rd_dst dst)) saddr (rd_dst dst))
  ++ iph ++ tcp ++ rest.

(** The description of a segment in everything but the port of the VIP and the position. *)
Definition describes (pckt : packet_description) (iph tcp : list Z) : Prop :=
  fk_src (pd_flow pckt) = ip_src iph /\ port16_0 (pd_flow pckt) = tcp_sport tcp /\
  fk_proto (pd_flow pckt) = IPPROTO_TCP /\ tos pckt = ip_tos iph /\
  pd_flags pckt = (if tcp_syn tcp then F_SYN_SET else 0).

Lemma find_vip_describes iph tcp vip vip_info pckt :
  find_vip (segment_desc iph tcp) false = Some (vip, vip_info, pckt) -> describes pckt iph tcp.
Proof.
  unfold find_vip. destruct (lookup_vip _); [intros [= _ _ <-]; repeat split|].
  destruct (lookup_vip _); [|done]. destruct (_ && _); intros [= _ _ <-]; repeat split.
Qed.

Lemma encap_any_runs s eth iph tcp rest pckt dst :
  segment (f_data (x_frame s)) eth iph tcp rest -> describes pckt iph tcp ->
  (h_adjust_head (x_frame s) (- headroom dst)).1 = 0 ->
  exists s', runs s (if has (rd_flags dst) F_IPV6 then encap_v6 router false pckt dst (ip_total iph)
                     else encap_v4 router pckt dst (ip_total iph)) true s'
    /\ f_data (x_frame s') = sent_to dst eth iph tcp rest /\ x_env s' = x_env s.
Proof.
  intros [Hd He _ _ Hb _ _ _ _] (E1 & E2 & E3 & E4 & E5) Hr. unfold headroom, sent_to in *.
  assert (En : u16 (ip_total iph) = ip_total iph) by (unfold ip_total; apply u16_id, bswap16_range).
  assert (Ht : is_u8 (tos pckt)).
  { rewrite E4. unfold ip_tos. apply nth_byte. rewrite Hd, !bytes_ok_app in Hb. tauto. }
  destruct (has (rd_flags dst) F_IPV6).
  - pose proof (encap_v6_runs s eth _ router false pckt dst (ip_total iph) Hd He Hr) as R. cbv zeta in R.
    rewrite E1, E2, E4, En in R. eexists. split; [exact R|]. split; [|reflexivity]. cbn [x_frame f_data].
    now rewrite <- !app_assoc.
  - pose proof (encap_v4_runs s eth _ router pckt dst (ip_total iph) Hd He Ht Hr) as R. cbv zeta in R.
    rewrite E1, E2, E4, En in R. eexists. split; [exact R|]. split; [|reflexivity]. cbn [x_frame f_data].
    now rewrite <- !app_assoc.
Qed.

Lemma encap_any_refused s pckt dst n :
  (h_adjust_head (x_frame s) (- headroom dst)).1 <> 0 ->
  runs s (if has (rd_flags dst) F_IPV6 then encap_v6 router false pckt dst n else encap_v4 router pckt dst n) false s.
Proof.
  intros Hr. unfold headroom in Hr. destruct (has (rd_flags dst) F_IPV6); unfold encap_v6, encap_v4; cbv zeta;
    (eapply runs_bind; [apply (runs_adjust_head_fail s _ Hr)|]);
    rewrite (proj2 (nz_true _) Hr); apply runs_ret.
Qed.

(** The counters of the VIP and of the server, up to the encapsulation. *)
Lemma forward_runs s pckt vip_info dst n a (Q : xst kenv -> Prop) k :
  GUE_ENCAP = false -> plain_vip vip_info -> lookup_real k = Some dst ->
  (forall s1, calm s s1 -> exists s2, runs s1
     (if has (rd_flags dst) F_IPV6
      then encap_v6 router false (set_port0 (port16_0 (pd_flow pckt)) (set_real_index k pckt)) dst n
      else encap_v4 router (set_port0 (port16_0 (pd_flow pckt)) (set_real_index k pckt)) dst n) a s2 /\ Q s2) ->
  exists s', runs s (forward (set_real_index k pckt) vip_info dst false (port16_0 (pd_flow pckt)) n)
    (if a then XDP_TX else XDP_DROP) s' /\ Q s'.
Proof.
  intros Hg [Hfl Hn] Hk%lookup_real_range He. unfold forward.
  change (lookup_ctl 0) with (Some router). cbv iota.
  eapply runs_calmly; [apply calmly_ret|]. intros s1 C1. cbv beta. unfold MAX_VIPS in Hn.
  rewrite array_ptr_in by (unfold STATS_MAP_SIZE, MAX_VIPS; lia). cbv iota.
  eapply runs_calmly; [apply calmly_stats; unfold MAX_VIPS, NEW_CONN_RATE_CNTR; lia|]. intros s2 C2.
  eapply runs_calmly; [apply calmly_stats; unfold MAX_VIPS, NEW_CONN_RATE_CNTR; lia|]. intros s3 C3.
  eapply runs_calmly; [apply calmly_ret|]. intros s4 C4. cbv beta. cbn [real_index set_real_index].
  rewrite array_ptr_in by done. cbv iota.
  eapply runs_calmly; [now apply calmly_modify|]. intros s5 C5.
  eapply runs_calmly; [now apply calmly_modify|]. intros s6 C6.
  rewrite Hfl. change (has 0 F_LOCAL_VIP) with false. rewrite andb_false_r. cbn [andb]. rewrite Hg. cbv iota zeta.
  destruct (He s6) as (s7 & R7 & HQ); [now do 5 (etransitivity; [eassumption|])|].
  eapply runs_bind_ex; [exact R7|]. cbv beta. exists s7. split; [apply runs_ret|done].
Qed.

(** ** From the wire to the wire *)

(** Whether the helper grants the headroom for the outer header. *)
Definition granted s dst : bool := (h_adjust_head (x_frame s) (- headroom dst)).1 =? 0.

Lemma deliver_runs s0 s eth iph tcp rest pckt vip_info dst k :
  GUE_ENCAP = false -> plain_vip vip_info ->
  segment (f_data (x_frame s0)) eth iph tcp rest -> describes pckt iph tcp ->
  x_frame s = x_frame s0 -> lookup_real k = Some dst ->
  exists s', runs s (forward (set_real_index k pckt) vip_info dst false (port16_0 (pd_flow pckt)) (ip_total iph))
      (if granted s0 dst then XDP_TX else XDP_DROP) s'
    /\ f_data (x_frame s') = (if granted s0 dst then sent_to dst eth iph tcp rest else f_data (x_frame s0))
    /\ lru_view (x_env s') = lru_view (x_env s).
Proof.
  intros Hg Hv Hs Hd Hf Hk. apply forward_runs; [done..|]. intros s1 (F1 & _ & V1 & _).
  assert (Fr : x_frame s1 = x_frame s0) by congruence. unfold granted.
  destruct (Z.eqb_spec (h_adjust_head (x_frame s0) (- headroom dst)).1 0) as [E|E]; rewrite <- Fr in E.
  - rewrite <- Fr in Hs. destruct (encap_any_runs s1 eth iph tcp rest
      (set_port0 (port16_0 (pd_flow pckt)) (set_real_index k pckt)) dst Hs) as (s2 & R & D & V); [|done|].
    { destruct Hd as (? & ? & ? & ? & ?). now repeat split. }
    exists s2. split; [exact R|]. split; [exact D|congruence].
  - exists s1. split; [now apply encap_any_refused|]. split; [now rewrite Fr|done].
Qed.

(** What becomes of a segment of a VIP that is not too long: the verdict, the packet and the
    connection tables. *)
Definition balanced s s' eth iph tcp rest pckt vip_info (o : outcome) : Prop :=
  match lookup_real (server_of (x_env s) pckt vip_info) with
  | Some dst =>
      o = Ret (if granted s dst then XDP_TX else XDP_DROP) /\
      f_data (x_frame s') = (if granted s dst then sent_to dst eth iph tcp rest else f_data (x_frame s)) /\
      lru_view (x_env s') = lru_view (after s pckt vip_info)
  | None => o = Ret XDP_DROP /\ x_frame s' = x_frame s /\ lru_view (x_env s') = lru_view (x_env s)
  end.

Lemma serve_vip_runs s eth iph tcp rest pckt vip vip_info len :
  TCP_SERVER_ID_ROUTING = false -> GUE_ENCAP = false -> plain_vip vip_info ->
  segment (f_data (x_frame s)) eth iph tcp rest -> describes pckt iph tcp ->
  exists s' o, runs s (serve_vip pckt vip vip_info false (ip_total iph) len) o s'
    /\ balanced s s' eth iph tcp rest pckt vip_info o.
Proof.
  intros Htpr Hg Hv Hs Hd. unfold serve_vip, route_quic_vip, runs.
  rewrite (proj1 Hv). change (has 0 F_HASH_NO_SRC_PORT) with false. change (has 0 F_QUIC_VIP) with false. cbv iota zeta.
  erewrite run_step by apply runs_ret. cbv beta.
  change (array_ptr STATS_MAP_SIZE _) with (Some (MAX_VIPS + LRU_CNTRS)). cbv iota.
  destruct (calmly_stats s (MAX_VIPS + LRU_CNTRS) (add_v1 1)) as (s1 & R1 & C1); [done|].
  erewrite run_step by exact R1. destruct (select_lru_calm s1) as (s2 & R2 & C2).
  erewrite run_step by exact R2. cbv beta iota. erewrite run_step by apply runs_ret. cbv beta iota.
  assert (C : calm s s2) by now transitivity s1.
  rewrite (table_view (x_env s1) (x_env s)) by now destruct C1 as (_ & _ & ? & _).
  destruct (select_dst_runs s s2 pckt vip vip_info len Htpr Hv) as (s3 & r & R3 & F3 & Hr); [apply Hd|done|].
  erewrite run_step by exact R3. unfold balanced.
  destruct (lookup_real (server_of (x_env s) pckt vip_info)) as [dst|] eqn:Hk; destruct Hr as [-> V3]; cbv beta iota.
  - destruct (deliver_runs s s3 eth iph tcp rest pckt vip_info dst _ Hg Hv Hs Hd F3 Hk) as (s4 & R4 & D4 & V4).
    erewrite run_step by exact R4. eexists s4, _. split; [reflexivity|]. split; [done|]. split; [exact D4|congruence].
  - eexists s3, _. split; [reflexivity|]. now repeat split.
Qed.

(** A segment up to the lookup of the VIP. *)
Lemma ingress_runs s eth iph tcp rest :
  segment (f_data (x_frame s)) eth iph tcp rest ->
  balancer_ingress s =
    (match find_vip (segment_desc iph tcp) false with
     | None => mret (Ret XDP_PASS)
     | Some (vip, vip_info, pckt) =>
         if MAX_PCKT_SIZE <? zlen (f_data (x_frame s)) then packet_too_big false (zlen (f_data (x_frame s)))
         else serve_vip pckt vip vip_info false (ip_total iph) (zlen (f_data (x_frame s)))
     end) s.
Proof.
  intros Hs. unfold balancer_ingress.
  assert (Hl : 14 <= zlen (f_data (x_frame s))).
  { destruct Hs as [-> He _ _ _ _ _ _ _]. rewrite zlen_app. unfold zlen. lia. }
  assert (Hp : runs s (load16 (E := kenv) 12) BE_ETH_P_IP s).
  { destruct Hs as [Hd He _ _ _ H4 _ _ _]. apply (runs_load16 s 12 [8; 0]). rewrite Hd.
    apply (slice_between _ (take 12 eth) [8; 0] (iph ++ tcp ++ rest)); [|unfold zlen; rewrite length_take; lia|done].
    now rewrite <- H4, (app_assoc (take 12 eth)), take_drop. }
  erewrite run_step by apply runs_data_len. rewrite (proj2 (Z.ltb_ge _ _) Hl).
  erewrite run_step by exact Hp. change (BE_ETH_P_IP =? BE_ETH_P_IP) with true. cbv iota.
  unfold process_packet, decap_ipip, parse_l4.
  erewrite run_step by exact (l3_segment s eth iph tcp rest Hs). cbv beta iota zeta.
  change (0 <=? FURTHER_PROCESSING) with false. cbn [fk_proto pd_flow l3_desc].
  change ((IPPROTO_TCP =? IPPROTO_IPIP) || (IPPROTO_TCP =? IPPROTO_IPV6)) with false. rewrite andb_false_r. cbv iota.
  erewrite run_step by apply runs_ret. cbv beta iota. change (IPPROTO_TCP =? IPPROTO_TCP) with true. cbv iota.
  erewrite run_step; [|eapply runs_bind; [exact (tcp_segment s eth iph tcp rest Hs)|apply runs_ret]].
  cbv beta iota. destruct (find_vip _ _) as [[[vip vip_info] pckt]|]; [|done].
  erewrite run_step by apply runs_data_len. done.
Qed.

(** C3: the balancer from the wire to the wire, in a build without GUE and without routing by
    the TCP option.  A TCP segment that is not for a VIP is passed on and changes nothing.  A
    segment of at most 1514 bytes for a VIP without options goes to the server that the
    connection table has for its flow, or, when it is a SYN or the table knows no such server,
    to the one in the slot of the ring that the flow hashes to: it is sent behind the MAC
    address of the router and an outer header for that server, IPv4 with a valid checksum or
    IPv6 as the server asks, the packet itself unchanged.  When the ring was asked, and new
    connections are not over their limit, the table is updated with the server for the flow;
    otherwise it is as before.  Without room for the outer header, or when the ring has a
    position that is not one of [reals], the packet is dropped as it was. *)
Theorem segment_balanced s eth iph tcp rest :
  TCP_SERVER_ID_ROUTING = false -> GUE_ENCAP = false ->
  segment (f_data (x_frame s)) eth iph tcp rest ->
  match find_vip (segment_desc iph tcp) false with
  | None => runs s balancer_ingress (Ret XDP_PASS) s
  | Some (vip, vip_info, pckt) =>
      plain_vip vip_info -> zlen (f_data (x_frame s)) <= MAX_PCKT_SIZE ->
      exists s' o, runs s balancer_ingress o s' /\ balanced s s' eth iph tcp rest pckt vip_info o
  end
  /\ (forall sa da, let total := u16 (ip_total iph + 20) in
        csum_ok (v4_header (ip_tos iph) total IPPROTO_IPIP (v4_check (ip_tos iph) total IPPROTO_IPIP sa da) sa da)).
Proof.
  intros Htpr Hg Hs. pose proof (ingress_runs s eth iph tcp rest Hs) as E. split.
  - destruct (find_vip _ _) as [[[vip vip_info] pckt]|] eqn:Hv; [|exact E].
    intros Hp Hl. apply find_vip_describes in Hv. rewrite (proj2 (Z.ltb_ge _ _) Hl) in E.
    destruct (serve_vip_runs s eth iph tcp rest pckt vip vip_info (zlen (f_data (x_frame s))) Htpr Hg Hp Hs Hv)
      as (s' & o & R & B).
    exists s', o. split; [now unfold runs; rewrite E|exact B].
  - intros sa da total. apply v4_header_checks; [|done]. destruct Hs as [-> _ _ _ Hb _ _ _ _].
    apply nth_byte. rewrite !bytes_ok_app in Hb. tauto.
Qed.
End deliver.

(** ** A connection *)

(** A packet as it arrives, and the tables of the control plane at that moment. *)
Record arrival := Arrival { a_tables : Tables; a_frame : frame; a_tick : nat }.
Definition a_data (a : arrival) : list Z := f_data (a_frame a).
Definition a_eth (a : arrival) : list Z := take 14 (a_data a).
Definition a_ip (a : arrival) : list Z := take 20 (drop 14 (a_data a)).
Definition a_tcp (a : arrival) : list Z := take 20 (drop 34 (a_data a)).
Definition a_rest (a : arrival) : list Z := drop 54 (a_data a).

(** A connection table with room: an update evicts nothing. *)
Class RoomyTable (P : LruPolicy) : Prop :=
  lru_insert_keeps V (m : gmap flow_key V) k v k' : k' <> k -> lru_insert m k v !! k' = m !! k'.

Section connection.
Context {F : Features} {H : XdpHelpers} {HL : XdpHelperLaws H} {P : LruPolicy} {PL : LruPolicyLaws P} {PR : RoomyTable P}.
Implicit Types (a : arrival) (e : kenv) (f : flow_key).

Definition arrive a e : xst kenv := Xst (a_frame a) e (a_tick a).

(** The packets of one CPU, one after the other: what the program returns for each of them
    and the packet it leaves. *)
Fixpoint balance (arrivals : list arrival) (e : kenv) : option (list (outcome * list Z) * kenv) :=
  match arrivals with
  | [] => Some ([], e)
  | a :: arrivals =>
      match @balancer_ingress F (a_tables a) H P (arrive a e) with
      | None => None
      | Some (o, s) =>
          match balance arrivals (x_env s) with
          | None => None
          | Some (os, e) => Some ((o, f_data (x_frame s)) :: os, e)
          end
      end
  end.

(** A segment that is not too long; of a VIP, it belongs to the flow that [Q] allows. *)
Definition segment_for a (Q : packet_description -> vip_meta -> Prop) : Prop :=
  segment (a_data a) (a_eth a) (a_ip a) (a_tcp a) (a_rest a) /\ zlen (a_data a) <= MAX_PCKT_SIZE /\
  exists vip vip_info pckt,
    @find_vip (a_tables a) (segment_desc (a_ip a) (a_tcp a)) false = Some (vip, vip_info, pckt) /\
    plain_vip vip_info /\ Q pckt vip_info.

(** A segment of the connection [f]: at the time there is room for the outer header and [dst]
    is at the position [k]; what the ring has matters for a SYN only, for which it has [k]. *)
Definition segment_of f k dst a : Prop :=
  @lookup_real (a_tables a) k = Some dst /\ (h_adjust_head (a_frame a) (- headroom dst)).1 = 0 /\
  segment_for a (fun pckt vip_info =>
    pd_flow pckt = f /\ (tcp_syn (a_tcp a) = true -> @ring_server (a_tables a) pckt vip_info = k)).
(** A segment of another connection. *)
Definition segment_of_other f a : Prop := segment_for a (fun pckt _ => pd_flow pckt <> f).

(** What becomes of a segment that is sent to [dst]. *)
Definition sent dst a : outcome * list Z :=
  (Ret XDP_TX, @sent_to (a_tables a) dst (a_eth a) (a_ip a) (a_tcp a) (a_rest a)).

(** The connection table has the server at [k] for [f]. *)
Definition knows e f k : Prop := exists l, lru_find e (table_of e) f = Some l /\ pos l = k.

Lemma knows_view e e' f k : lru_view e' = lru_view e -> knows e f k -> knows e' f k.
Proof. intros V (l & Hl & Hk). exists l. split; [|done]. now rewrite (table_view _ _ V), (view_find _ _ _ f V). Qed.

Lemma knows_entry e f k : knows (with_entry (table_of e) f (RealPosLru k 0) e) f k.
Proof.
  unfold knows. rewrite with_entry_table.
  destruct (lru_update_run (Xst (Frame [] [] []) e 0) (table_of e) f (RealPosLru k 0))
    as (s' & [= <-] & (a & Ha & _) & _); [apply table_present|]. eauto.
Qed.
Lemma knows_other_entry e f k f' v : f' <> f -> knows e f k -> knows (with_entry (table_of e) f' v e) f k.
Proof.
  intros Hne (l & Hl & Hk). unfold knows. rewrite with_entry_table. exists l. split; [|done]. rewrite <- Hl.
  destruct (table_of e); cbn; rewrite ?lookup_alter_eq.
  - destruct (lru_mapping e !! cpu); [|done]. cbn. now apply lru_insert_keeps.
  - now apply lru_insert_keeps.
  - destruct (global_lru_maps e !! cpu); [|done]. cbn. now rewrite lru_insert_keeps.
  - now rewrite lru_insert_keeps.
Qed.

(** One segment of a VIP. *)
Lemma segment_served a e vip vip_info pckt :
  TCP_SERVER_ID_ROUTING = false -> GUE_ENCAP = false ->
  segment (a_data a) (a_eth a) (a_ip a) (a_tcp a) (a_rest a) -> zlen (a_data a) <= MAX_PCKT_SIZE ->
  @find_vip (a_tables a) (segment_desc (a_ip a) (a_tcp a)) false = Some (vip, vip_info, pckt) -> plain_vip vip_info ->
  exists s' o, @balancer_ingress F (a_tables a) H P (arrive a e) = Some (o, s')
    /\ @balanced (a_tables a) H P (arrive a e) s' (a_eth a) (a_ip a) (a_tcp a) (a_rest a) pckt vip_info o.
Proof.
  intros Htpr Hg Hs Hl Hv Hp. pose proof (@find_vip_describes (a_tables a) _ _ _ _ _ Hv) as Hd.
  rewrite (@ingress_runs F (a_tables a) H P (arrive a e) _ _ _ _ Hs), Hv.
  rewrite (proj2 (Z.ltb_ge _ _)) by exact Hl.
  exact (@serve_vip_runs F (a_tables a) H HL P (arrive a e) _ _ _ _ pckt vip vip_info (zlen (a_data a)) Htpr Hg Hp Hs Hd).
Qed.

Lemma own_step f k dst a e :
  TCP_SERVER_ID_ROUTING = false -> GUE_ENCAP = false -> segment_of f k dst a ->
  knows e f k \/ tcp_syn (a_tcp a) = true /\ flooded (arrive a e) = false ->
  exists s', @balancer_ingress F (a_tables a) H P (arrive a e) = Some ((sent dst a).1, s')
    /\ f_data (x_frame s') = (sent dst a).2 /\ knows (x_env s') f k.
Proof.
  intros Htpr Hg (Hk & Hr & Hs & Hl & vip & vip_info & pckt & Hv & Hp & Hf & Hring) Hkn.
  pose proof (@find_vip_describes (a_tables a) _ _ _ _ _ Hv) as (_ & _ & _ & _ & Hfl).
  assert (@server_of (a_tables a) H e pckt vip_info = k /\
                    knows (@after (a_tables a) H P (arrive a e) pckt vip_info) f k) as [Hserver Hkn'].
  { unfold server_of, after, after_ring, known_server. rewrite Hfl, Hf. cbn [x_env arrive].
    destruct (tcp_syn (a_tcp a)).
    - change (has F_SYN_SET F_SYN_SET) with true. cbv iota. rewrite Hring by done. split; [done|].
      destruct (flooded (arrive a e)); [now destruct Hkn as [ |[_ ?]]|apply knows_entry].
    - change (has 0 F_SYN_SET) with false. cbv iota. destruct Hkn as [Hkn|[? _]]; [|done].
      pose proof Hkn as (l & El & <-). rewrite El. cbn [mbind option_bind]. rewrite Hk. now split. }
  destruct (segment_served a e vip vip_info pckt Htpr Hg Hs Hl Hv Hp) as (s' & o & R & B).
  unfold balanced in B. cbn [x_env x_frame arrive] in B. rewrite Hserver, Hk in B. unfold granted in B.
  cbn [x_frame arrive] in B. rewrite Hr in B. destruct B as (-> & D & V).
  exists s'. split; [exact R|]. split; [exact D|]. eapply knows_view; eauto.
Qed.

Lemma other_step f k a e :
  TCP_SERVER_ID_ROUTING = false -> GUE_ENCAP = false -> segment_of_other f a -> knows e f k ->
  exists o s', @balancer_ingress F (a_tables a) H P (arrive a e) = Some (o, s') /\ knows (x_env s') f k.
Proof.
  intros Htpr Hg (Hs & Hl & vip & vip_info & pckt & Hv & Hp & Hf) Hkn.
  destruct (segment_served a e vip vip_info pckt Htpr Hg Hs Hl Hv Hp) as (s' & o & R & B).
  exists o, s'. split; [exact R|].
  assert (knows (@after (a_tables a) H P (arrive a e) pckt vip_info) f k) as Ha.
  { unfold after, after_ring. cbn [x_env arrive].
    assert (knows (if flooded (arrive a e) then e else
      with_entry (table_of e) (pd_flow pckt) (RealPosLru (@ring_server (a_tables a) pckt vip_info) 0) e) f k)
      by (destruct (flooded (arrive a e)); [done|now apply knows_other_entry]).
    destruct (has _ _); [done|]. now destruct (known_server _ _). }
  unfold balanced in B. destruct (lookup_real _); destruct B as (_ & _ & V); eapply knows_view; eauto.
Qed.

Lemma own_or_other f k dst a : segment_of f k dst a -> segment_of_other f a -> False.
Proof.
  intros (_ & _ & _ & _ & ? & ? & ? & E1 & _ & Hf & _) (_ & _ & ? & ? & ? & E2 & _ & Hne).
  rewrite E1 in E2. injection E2 as _ _ <-. done.
Qed.

Lemma later_segments f k dst segs e :
  TCP_SERVER_ID_ROUTING = false -> GUE_ENCAP = false ->
  Forall (fun a => segment_of f k dst a \/ segment_of_other f a) segs -> knows e f k ->
  exists os e', balance segs e = Some (os, e') /\ Forall2 (fun a o => segment_of f k dst a -> o = sent dst a) segs os.
Proof.
  intros Htpr Hg Hsegs. revert e. induction Hsegs as [|a segs Ha _ IH]; intros e Hk; [now exists [], e|].
  assert (exists o s', @balancer_ingress F (a_tables a) H P (arrive a e) = Some (o, s') /\ knows (x_env s') f k
    /\ (segment_of f k dst a -> (o, f_data (x_frame s')) = sent dst a)) as (o & s' & R & Hk' & D).
  { destruct Ha as [Ha|Ha].
    - destruct (own_step f k dst a e Htpr Hg Ha (or_introl Hk)) as (s' & R & D & Hk').
      exists (sent dst a).1, s'. split; [exact R|]. split; [exact Hk'|]. intros _. rewrite D. now destruct (sent dst a).
    - destruct (other_step f k a e Htpr Hg Ha Hk) as (o & s' & R & Hk'). exists o, s'. split; [exact R|].
      split; [exact Hk'|]. intros Ho. destruct (own_or_other _ _ _ _ Ho Ha). }
  destruct (IH _ Hk') as (os & e' & E & Hos). exists ((o, f_data (x_frame s')) :: os), e'.
  cbn [balance]. rewrite R, E. split; [done|]. constructor; [exact D|exact Hos].
Qed.

(** C2: A TCP connection stays with one server, from wire to wire, on one CPU, in a build without
    routing by the TCP option and without GUE, for a VIP without flags. The segments have no IP
    options, are not fragments and have at most 1514 bytes, there is room in front of each for
    the outer header, and the connection table evicts nothing. Let a SYN arrive while new
    connections are not over their limit, and let the ring have the position [k] for it. Then the
    SYN and every later segment of the flow are sent to the server at [k], each behind an outer
    header for it and otherwise unchanged; none is dropped or passed on. That holds whatever
    segments of other connections come in between, and however the control plane rewrites the
    tables between the segments, as long as the VIP and the server at [k] stay. The ring may
    change too for every segment but a repeated SYN: that asks the ring again, so the ring must
    have [k] for it (with another position the connection moves there). *)
Theorem connection_balanced f k dst syn segs e :
  TCP_SERVER_ID_ROUTING = false -> GUE_ENCAP = false ->
  segment_of f k dst syn -> tcp_syn (a_tcp syn) = true -> flooded (arrive syn e) = false ->
  Forall (fun a => segment_of f k dst a \/ segment_of_other f a) segs ->
  exists os e', balance (syn :: segs) e = Some (sent dst syn :: os, e')
    /\ Forall2 (fun a o => segment_of f k dst a -> o = sent dst a) segs os.
Proof.
  intros Htpr Hg Hs Hsyn Hfl Hsegs.
  destruct (own_step f k dst syn e Htpr Hg Hs (or_intror (conj Hsyn Hfl))) as (s' & R & D & Hk).
  destruct (later_segments f k dst segs _ Htpr Hg Hsegs Hk) as (os & e' & E & Hos). exists os, e'.
  cbn [balance]. rewrite R, E, D. split; [now destruct (sent dst syn)|exact Hos].
Qed.
End connection.
