(* ===== verification/KatranLoader.v ===== *)
(** * The control plane of the benchmark of Katran (xdp_progs/xdp_tx.c)

    The loader that starts the balancer without its own control plane: it finds the program,
    writes one VIP, the MAC address of the router and one connection table for all CPUs, and
    attaches the program.  Composed with the balancer of KatranDeliver.v: what becomes of a
    TCP segment. *)
From Stdlib Require Import ZArith Lia String.
From stdpp Require Import base numbers list option gmap.
From S2P Require Import Prelude Xdp OnesComplement XdpRun KatranDefs KatranCsum KatranParse KatranIcmp KatranEncap KatranBalancer KatranForward KatranRouting KatranDeliver.
#[local] Open Scope Z_scope.
#[local] Open Scope list_scope.

(** ** The loader *)

Definition XDP_FLAGS_UPDATE_IF_NOEXIST : Z := 1.
Definition XDP_FLAGS_SKB_MODE : Z := 2.
Definition XDP_FLAGS_DRV_MODE : Z := 4.
Definition XDP_FLAGS_HW_MODE : Z := 8.

(** The calls that write a map of the object. *)
Inductive update :=
  | VipMap (key : vip_definition) (value : vip_meta)
  | CtlArray (key : Z) (value : ctl_value)
  | LruMapping (key fd : Z).

(** The entries that have been written; an inner map is its descriptor. *)
Record config := Config {
  c_vip_map : gmap vip_definition vip_meta; c_ctl_array : gmap Z ctl_value; c_lru_mapping : gmap Z Z }.
Definition no_config : config := Config ∅ ∅ ∅.
Definition write (u : update) (c : config) : config :=
  match u with
  | VipMap k v => Config (<[k := v]> (c_vip_map c)) (c_ctl_array c) (c_lru_mapping c)
  | CtlArray k v => Config (c_vip_map c) (<[k := v]> (c_ctl_array c)) (c_lru_mapping c)
  | LruMapping k fd => Config (c_vip_map c) (c_ctl_array c) (<[k := fd]> (c_lru_mapping c))
  end.

(** What the host answers: whether the object loads (a file that does not open gives no
    object, which does not load), the descriptors of its programs by name (negative when the
    program has none), its maps by name, the result of every update of a map and the
    descriptor of a new map, the number of an interface and the variables of the environment. *)
Record host := Host {
  k_load : string -> option string -> bool;
  k_program : string -> option Z;
  k_map : string -> bool;
  k_update : update -> Z;
  k_map_create : Z;
  k_ifindex : string -> Z;
  k_skb_mode : bool; k_drv_mode : bool; k_hw_mode : bool
}.
Inductive event := Attach (ifindex prog_fd flags : Z).
(** [main] returns, or sleeps for ever. *)
Inductive result := Exit (code : Z) | Sleeps.

(** What is written, and whether every call so far has succeeded. *)
Definition written : Type := config * bool.
Definition and_then (r : written) (next : config -> written) : written :=
  if r.2 then next r.1 else r.
Definition do_update (k : host) (u : update) (c : config) : written :=
  if nz (k_update k u) then (c, false) else (write u c, true).

(** The bytes of the key behind the address are zero.
    @src xdp_progs/xdp_tx.c 129-131 main *)
Definition the_vip : vip_definition := VipDef (V6 218212544 0 0 0) 11798 6.
(** @src xdp_progs/xdp_tx.c 126-141 main *)
Definition write_vip (k : host) (c : config) : written :=
  if k_map k "vip_map" then do_update k (VipMap the_vip (VipMeta 0 0)) c else (c, true).

(** @src xdp_progs/xdp_tx.c 147-148 main *)
Definition the_mac : list Z := [184; 63; 210; 42; 229; 17].
(** @src xdp_progs/xdp_tx.c 142-157 main *)
Definition write_mac (k : host) (c : config) : written :=
  if k_map k "ctl_array" then do_update k (CtlArray 0 (CtlValue (le_join the_mac))) c else (c, true).

(** The slots of the CPUs from [i] on; [n] are left.
    @src xdp_progs/xdp_tx.c 177-186 main *)
Fixpoint fill_slots (k : host) (fd : Z) (n : nat) (i : Z) (c : config) : written :=
  match n with
  | O => (c, true)
  | S n => and_then (do_update k (LruMapping i fd) c) (fill_slots k fd n (i + 1))
  end.
(** @src xdp_progs/xdp_tx.c 158-189 main *)
Definition write_lru (k : host) (c : config) : written :=
  if k_map k "lru_mapping" then
    let value := k_map_create k in
    if value <? 0 then (c, false) else fill_slots k value 128 0 c
  else (c, true).

(** @src xdp_progs/xdp_tx.c 206-218 main *)
Definition attach_flags (k : host) : Z :=
  let xdp_flags := XDP_FLAGS_UPDATE_IF_NOEXIST in
  if k_skb_mode k then Z.lor xdp_flags XDP_FLAGS_SKB_MODE
  else if k_drv_mode k then Z.lor xdp_flags XDP_FLAGS_DRV_MODE
  else if k_hw_mode k then Z.lor xdp_flags XDP_FLAGS_HW_MODE
  else xdp_flags.

(** @src xdp_progs/xdp_tx.c 115-124 main *)
Definition find_program (k : host) : option Z :=
  match k_program k "xdp_pass" with
  | Some fd => Some fd
  | None => k_program k "balancer_ingress"
  end.

(** [args] are those after the name of the loader.  A failure to attach is only printed.
    @src xdp_progs/xdp_tx.c 93-228 main *)
Definition main (k : host) (args : list string) : result * list event * config :=
  match args with
  | file :: ifname :: rest =>
      let btf := match rest with [path] => Some path | _ => None end in
      if negb (k_load k file btf) then (Exit 1, [], no_config) else
      match find_program k with
      | None => (Exit 1, [], no_config)
      | Some prog_fd =>
          let '(c, ok) := and_then (and_then (write_vip k no_config) (write_mac k)) (write_lru k) in
          if negb ok then (Exit 1, [], c) else
          if prog_fd <? 0 then (Exit 1, [], c) else
          let ifindex := k_ifindex k ifname in
          if negb (nz ifindex) then (Exit 1, [], c)
          else (Sleeps, [Attach ifindex prog_fd (attach_flags k)], c)
      end
  | _ => (Exit 1, [], no_config)
  end.

(** ** What is configured *)

(** The host accepts the balancer on the interface. *)
Definition accepts (k : host) (file : string) (btf : option string) (prog_fd : Z) (ifname : string) : Prop :=
  k_load k file btf = true /\ k_program k "xdp_pass" = None /\ k_program k "balancer_ingress" = Some prog_fd /\
  0 <= prog_fd /\ Forall (fun map => k_map k map = true) ["vip_map"; "ctl_array"; "lru_mapping"]%string /\
  (forall u, k_update k u = 0) /\ 0 <= k_map_create k /\ k_ifindex k ifname <> 0.

(** One table for [n] CPUs from [i] on. *)
Fixpoint shared (fd : Z) (n : nat) (i : Z) (m : gmap Z Z) : gmap Z Z :=
  match n with O => m | S n => shared fd n (i + 1) (<[i := fd]> m) end.
Definition deployed_config (k : host) : config :=
  Config {[ the_vip := VipMeta 0 0 ]} {[ 0 := CtlValue (le_join the_mac) ]} (shared (k_map_create k) 128 0 ∅).

Lemma shared_lookup fd n i m j :
  shared fd n i m !! j = if (i <=? j) && (j <? i + Z.of_nat n) then Some fd else m !! j.
Proof.
  revert i m. induction n as [|n IH]; intros i m; cbn [shared].
  - destruct (Z.leb_spec i j), (Z.ltb_spec j (i + Z.of_nat 0)); done || lia.
  - rewrite IH. rewrite lookup_insert.
    destruct (Z.leb_spec (i + 1) j), (Z.leb_spec i j), (Z.ltb_spec j (i + 1 + Z.of_nat n)),
      (Z.ltb_spec j (i + Z.of_nat (S n))), (decide (i = j)); done || lia.
Qed.

Section accepted.
Context (k : host) (Hu : forall u, k_update k u = 0).

Lemma do_update_ok u c : do_update k u c = (write u c, true).
Proof. unfold do_update. now rewrite Hu. Qed.
Lemma fill_slots_ok fd n i c :
  fill_slots k fd n i c = (Config (c_vip_map c) (c_ctl_array c) (shared fd n i (c_lru_mapping c)), true).
Proof.
  revert i c. induction n as [|n IH]; intros i c; cbn [fill_slots shared]; [now destruct c|].
  rewrite do_update_ok. unfold and_then. cbn [fst snd]. now rewrite IH.
Qed.
End accepted.

Lemma load_runs k file btf prog_fd ifname : accepts k file btf prog_fd ifname ->
  main k (file :: ifname :: option_list btf)
    = (Sleeps, [Attach (k_ifindex k ifname) prog_fd (attach_flags k)], deployed_config k).
Proof.
  intros (Hl & Hx & Hb & Hfd & Hm & Hu & Hc & Hi).
  apply Forall_cons in Hm as [M1 Hm]. apply Forall_cons in Hm as [M2 Hm]. apply Forall_cons in Hm as [M3 _].
  unfold main. replace (match option_list btf with [path] => Some path | _ => None end) with btf by now destruct btf.
  rewrite Hl. unfold find_program. rewrite Hx, Hb. cbn [negb].
  unfold write_vip, write_mac, write_lru. rewrite M1, M2, M3, do_update_ok by done. unfold and_then. cbn [fst snd].
  rewrite do_update_ok by done. cbn [fst snd]. rewrite (proj2 (Z.ltb_ge _ _) Hc), fill_slots_ok by done.
  cbn [negb]. rewrite (proj2 (Z.ltb_ge _ _) Hfd). unfold nz. now rewrite (proj2 (Z.eqb_neq _ _) Hi).
Qed.

(** ** What becomes of a segment *)

(** The tables of the balancer: what was written, and zero arrays and empty maps. *)
Definition deployed_tables (c : config) : Tables := {|
  vip_map := c_vip_map c; ch_rings := ∅; reals := ∅; ctl_array := c_ctl_array c; server_id_map := ∅;
  lpm_src_v4 := fun _ => None; lpm_src_v6 := fun _ => None; decap_dst := ∅; pckt_srcs := ∅; subprograms := false |}.

(** A segment for 192.168.1.13:5678. *)
Definition for_the_vip (iph tcp : list Z) : Prop :=
  take 4 (drop 16 iph) = [192; 168; 1; 13] /\ take 2 (drop 2 tcp) = [22; 46].

Lemma le_join_eq (l l' : list Z) : bytes_ok l -> bytes_ok l' -> length l = length l' -> le_join l = le_join l' -> l = l'.
Proof. intros Hl Hl' E H. rewrite <- (le_split_join l Hl), <- (le_split_join l' Hl'), E, H. done. Qed.

Lemma deployed_vip k iph tcp : bytes_ok iph -> bytes_ok tcp -> length iph = 20%nat -> length tcp = 20%nat ->
  (for_the_vip iph tcp ->
    @find_vip (deployed_tables (deployed_config k)) (segment_desc iph tcp) false
      = Some (the_vip, VipMeta 0 0, segment_desc iph tcp)) /\
  (~ for_the_vip iph tcp -> @find_vip (deployed_tables (deployed_config k)) (segment_desc iph tcp) false = None).
Proof.
  intros Bi Bt Li Lt. unfold find_vip, lookup_vip, segment_desc, segment_flow, fk_dst. cbn [pd_flow dstv6 w0 port16_1 fk_proto].
  cbn [vip_map deployed_tables deployed_config c_vip_map]. split.
  - intros [Ha Hp]. unfold ip_dst, tcp_dport. rewrite Ha, Hp. reflexivity.
  - intros Hn. rewrite lookup_singleton_ne, lookup_singleton_ne; [done|intros [=]|].
    intros [= Ea Ep]. apply Hn. split; apply le_join_eq.
    all: try (rewrite length_take, length_drop; cbn [length]; lia).
    all: try (apply bytes_ok_check; reflexivity).
    all: try (apply Forall_take, Forall_drop; done).
    + now symmetry.
    + now symmetry.
Qed.

(** The outer header on the way to the server. *)
Definition to_nowhere (iph tcp : list Z) : list Z :=
  let saddr := create_encap_ipv4_src (tcp_sport tcp) (ip_src iph) in
  let total := u16 (ip_total iph + 20) in
  v4_header (ip_tos iph) total IPPROTO_IPIP (v4_check (ip_tos iph) total IPPROTO_IPIP saddr 0) saddr 0.

(** Whatever the connection table says, the server is an empty entry of [reals]. *)
Lemma deployed_server (k : host) {H : XdpHelpers} e pckt :
  @lookup_real (deployed_tables (deployed_config k))
    (@server_of (deployed_tables (deployed_config k)) H e pckt (VipMeta 0 0)) = Some real_zero.
Proof.
  unfold server_of, known_server.
  assert (R : @lookup_real (deployed_tables (deployed_config k))
                (@ring_server (deployed_tables (deployed_config k)) pckt (VipMeta 0 0)) = Some real_zero) by reflexivity.
  destruct (has _ _); [exact R|]. destruct (lru_find _ _ _) as [l|]; cbn [mbind option_bind]; [|exact R].
  destruct (lookup_real (pos l)) as [rd|] eqn:E; cbn [mbind option_bind]; [|exact R].
  cbn [default]. unfold id. rewrite E. revert E. unfold lookup_real, array_lookup. cbn [reals deployed_tables].
  destruct (_ && _); [|discriminate]. now rewrite lookup_empty.
Qed.

Section deployed.
Context {F : Features} {H : XdpHelpers} {HL : XdpHelperLaws H} {P : LruPolicy}.

(** C21: Katran as the loader of the benchmark starts it, from the command line to the packet.
    When the host accepts the balancer the loader writes the VIP 192.168.1.13:5678 for TCP, the
    MAC address b8:3f:d2:2a:e5:11 and one connection table that all 128 CPUs share, attaches
    the balancer once and sleeps; but it writes neither a ring nor a server.  So, in a build
    without GUE and without routing by the TCP option and with room for the outer header, every
    TCP segment for the VIP of at most 1514 bytes, whatever the connection table holds, is sent
    to that MAC address in an IPv4 packet with a valid checksum for the server 0.0.0.0; every
    other TCP segment is passed on, and nothing changes. *)
Theorem katran_deployed k file btf prog_fd ifname :
  TCP_SERVER_ID_ROUTING = false -> GUE_ENCAP = false -> accepts k file btf prog_fd ifname ->
  exists c, main k (file :: ifname :: option_list btf)
              = (Sleeps, [Attach (k_ifindex k ifname) prog_fd (attach_flags k)], c)
  /\ (forall cpu, 0 <= cpu < MAX_SUPPORTED_CPUS -> c_lru_mapping c !! cpu = Some (k_map_create k))
  /\ forall (s : xst kenv) eth iph tcp rest,
     segment (f_data (x_frame s)) eth iph tcp rest ->
     let balancer := @balancer_ingress F (deployed_tables c) H P in
     (for_the_vip iph tcp -> zlen (f_data (x_frame s)) <= MAX_PCKT_SIZE -> (h_adjust_head (x_frame s) (-20)).1 = 0 ->
      exists s', runs s balancer (Ret XDP_TX) s' /\
        f_data (x_frame s') = the_mac ++ take 6 eth ++ [8; 0] ++ to_nowhere iph tcp ++ iph ++ tcp ++ rest /\
        csum_ok (to_nowhere iph tcp) /\ drop 16 (to_nowhere iph tcp) = [0; 0; 0; 0]) /\
     (~ for_the_vip iph tcp -> runs s balancer (Ret XDP_PASS) s).
Proof.
  intros Htpr Hg Hacc. exists (deployed_config k). split; [now apply load_runs|]. split.
  { intros cpu Hcpu. cbn [c_lru_mapping deployed_config]. rewrite shared_lookup. unfold MAX_SUPPORTED_CPUS in Hcpu.
    destruct (Z.leb_spec 0 cpu), (Z.ltb_spec cpu (0 + Z.of_nat 128)); done || lia. }
  intros s eth iph tcp rest Hs balancer.
  pose proof (@ingress_runs F (deployed_tables (deployed_config k)) H P s eth iph tcp rest Hs) as E.
  pose proof Hs as [Hd _ Li Lt Hb _ _ _ _]. rewrite Hd, !bytes_ok_app in Hb. destruct Hb as (_ & Bi & Bt & _).
  destruct (deployed_vip k iph tcp Bi Bt Li Lt) as [Hyes Hno]. split.
  - intros Hvip Hl Hr. specialize (Hyes Hvip). rewrite Hyes in E. rewrite (proj2 (Z.ltb_ge _ _) Hl) in E.
    destruct (@serve_vip_runs F (deployed_tables (deployed_config k)) H HL P s eth iph tcp rest (segment_desc iph tcp)
      the_vip (VipMeta 0 0) (zlen (f_data (x_frame s))) Htpr Hg) as (s' & o & R & B);
      [now split|exact Hs|exact (@find_vip_describes _ _ _ _ _ _ Hyes)|].
    unfold balanced in B. rewrite deployed_server in B. destruct B as (-> & D & _). unfold granted in *.
    change (- headroom real_zero) with (-20) in R, D. rewrite Hr in R, D. exists s'. split; [unfold runs, balancer; rewrite E; exact R|].
    split; [exact D|]. split; [|reflexivity]. apply v4_header_checks; [now apply nth_byte|done].
  - intros Hvip. unfold runs, balancer. rewrite E, (Hno Hvip). reflexivity.
Qed.
End deployed.
