(* ===== verification/KatranExamples.v ===== *)
(** * Katran: a concrete configuration

    One VIP with one real server behind it, the packet helpers of the runtime,
    and an LRU policy that never evicts.  The theorems about the balancer are
    instantiated here, and its run on concrete packets is evaluated. *)
From Stdlib Require Import ZArith Lia String.
From stdpp Require Import base numbers list option gmap.
From S2P Require Import Prelude Xdp OnesComplement XdpRun RuntimeHelpers Jhash KatranDefs KatranCsum KatranParse KatranIcmp KatranEncap KatranBalancer KatranSafety KatranForward KatranRouting KatranDeliver.
From S2P Require KatranInline KatranLoader.
#[local] Open Scope Z_scope.
#[local] Open Scope list_scope.

(** The default build: no optional feature. *)
Definition plain_features : Features := {|
  ICMP_TOOBIG_GENERATION := false; LPM_SRC_LOOKUP := false; DEF_INLINE_DECAP := false;
  DEF_INLINE_DECAP_IPIP := false; INLINE_DECAP_GUE := false; GUE_ENCAP := false;
  KATRAN_INTROSPECTION := false; LOCAL_DELIVERY_OPTIMIZATION := false;
  TCP_SERVER_ID_ROUTING := false; GLOBAL_LRU_LOOKUP := false;
  DECAP_STRICT_DESTINATION := false; SERVER_ID_HASH_MAP := false; RECORD_FLOW_INFO := false |}.

(** The VIP 10.0.0.1:80/tcp, number 1; every slot of its ring that the control
    plane has not filled holds 0, and real 0 is 10.0.0.2. *)
Definition one_vip : Tables := {|
  vip_map := {[ VipDef (V6 16777226 0 0 0) 20480 6 := VipMeta 0 1 ]};
  ch_rings := ∅; reals := {[ 0 := RealDef (V6 33554442 0 0 0) 0 ]};
  ctl_array := {[ 0 := CtlValue 1108152157446 ]}; server_id_map := ∅;
  lpm_src_v4 := fun _ => None; lpm_src_v6 := fun _ => None;
  decap_dst := ∅; pckt_srcs := ∅; subprograms := false |}.

Definition keep_all : LruPolicy := {| lru_insert := fun V m k v => <[k := v]> m |}.
#[export] Instance keep_all_laws : LruPolicyLaws keep_all.
Proof.
  split; unfold lru_insert, keep_all; intros.
  - apply lookup_insert_eq.
  - left. now apply lookup_insert_ne.
Qed.

Definition clock : nat -> Z := fun n => 5000000000 + Z.of_nat n.
Definition helpers0 : XdpHelpers := runtime_helpers 4096 0 clock.
Definition env0 : kenv := KEnv ∅ {[ 0 := ∅ ]} ∅ ∅ ∅ ∅ ∅ ∅ ∅ ∅ ∅ ∅ ∅ [].

(** A TCP SYN from 10.0.0.9:1234 to the VIP, with 256 bytes of headroom. *)
Definition syn_packet : list Z :=
  [2; 0; 0; 0; 0; 1] ++ [2; 0; 0; 0; 0; 2] ++ [8; 0] ++
  [0x45; 0; 0; 40; 0; 1; 0; 0; 64; 6; 0; 0; 10; 0; 0; 9; 10; 0; 0; 1] ++
  [4; 210; 0; 80; 0; 0; 0; 1; 0; 0; 0; 0; 0x50; 2; 255; 255; 0; 0; 0; 0].
Definition syn_state : xst kenv := Xst (Frame (repeat 0 256) syn_packet []) env0 0.

Lemma syn_state_ok : frame_ok (x_frame syn_state).
Proof. repeat split; apply bytes_ok_check; vm_compute; reflexivity. Qed.

(** The SYN is forwarded in an IPIP packet to 10.0.0.2. *)
Example syn_forwarded :
  match @balancer_run plain_features one_vip helpers0 keep_all MAX_TAIL_CALL_CNT syn_state with
  | Some (v, s) => v = XDP_TX /\ take 34 (f_data (x_frame s)) =
      [6; 5; 4; 3; 2; 1] ++ [2; 0; 0; 0; 0; 1] ++ [8; 0] ++
      [0x45; 0; 0; 60; 0; 0; 0; 0; 64; 4; 242; 158; 172; 16; 210; 13; 10; 0; 0; 2]
  | None => False
  end.
Proof. vm_compute. split; reflexivity. Qed.

Lemma balancer_safe_witness :
  exists v s', @balancer_run plain_features one_vip helpers0 keep_all 33 syn_state = Some (v, s')
    /\ verdict v /\ frame_ok (x_frame s').
Proof.
  apply (@balancer_safe plain_features one_vip helpers0 (runtime_helper_laws _ _ _) keep_all 33 syn_state).
  exact syn_state_ok.
Defined.

(** ** The theorems at concrete inputs *)

Definition vip_flow : packet_description :=
  PktDesc (FlowKey (V6 150994954 0 0 0) (V6 16777226 0 0 0) 53764 20480 6) 0 0 0.
Definition real2 : real_definition := RealDef (V6 33554442 0 0 0) 0.

Lemma encap_v4_correct_witness :
  exists s', runs syn_state (@encap_v4 helpers0 kenv (CtlValue 1108152157446) vip_flow real2 40) true s' /\
    take 6 (f_data (x_frame s')) = [6; 5; 4; 3; 2; 1] /\
    drop 34 (f_data (x_frame s')) = drop 14 syn_packet.
Proof.
  destruct (proj1 (@encap_v4_correct helpers0 (runtime_helper_laws _ _ _) kenv syn_state
    (take 14 syn_packet) (drop 14 syn_packet) (CtlValue 1108152157446) vip_flow real2 40
    ltac:(reflexivity) ltac:(reflexivity) ltac:(split; [discriminate|reflexivity]))
    ltac:(reflexivity)) as (s' & Hr & Hd & _).
  exists s'. split; [exact Hr|]. rewrite Hd. split; reflexivity.
Defined.

Lemma doc_adjust_head_in f d :
  0 <= d -> d + 14 <= zlen (f_data f) -> (@h_adjust_head helpers0 f d).1 = 0.
Proof.
  intros H0 H1. cbn [h_adjust_head helpers0 runtime_helpers]. unfold doc_adjust_head, zlen in *.
  destruct (Z.ltb_spec (Z.of_nat (length (f_head f))) (- d)); [lia|].
  destruct (Z.ltb_spec (Z.of_nat (length (f_data f)) - 14) d); [lia|]. reflexivity.
Qed.

Lemma encap_decap_roundtrip_witness :
  exists s', runs syn_state
      (@encap_v6 helpers0 kenv (CtlValue 1108152157446) false vip_flow real2 40
         ≫= fun _ => @decap_v6 helpers0 kenv true) true s' /\
    f_data (x_frame s') = [6; 5; 4; 3; 2; 1] ++ [2; 0; 0; 0; 0; 1] ++ [8; 0] ++ drop 14 syn_packet.
Proof.
  exact (proj2 (@encap_decap_roundtrip helpers0 (runtime_helper_laws _ _ _) kenv syn_state
    (take 14 syn_packet) (drop 14 syn_packet) (CtlValue 1108152157446) false vip_flow real2 40
    ltac:(reflexivity) ltac:(reflexivity) ltac:(split; [discriminate|reflexivity])
    ltac:(reflexivity) ltac:(reflexivity) doc_adjust_head_in)).
Defined.

(** The outer header of [syn_forwarded]. *)
Definition outer_ip : list Z :=
  [0x45; 0; 0; 60; 0; 0; 0; 0; 64; 4; 242; 158; 172; 16; 210; 13; 10; 0; 0; 2].
Definition at_offset_14 (l : list Z) : xst kenv := Xst (Frame [] (repeat 0 14 ++ l ++ [1; 2]) []) env0 0.

Lemma decrement_ttl_v4_correct_witness :
  exists h', runs (at_offset_14 outer_ip) (decrement_ttl 14 false) FURTHER_PROCESSING
      (set_data (at_offset_14 outer_ip) (repeat 0 14 ++ h' ++ [1; 2]))
    /\ h' = with_ttl outer_ip 63 (hdr_check h') /\ csum_ok h'.
Proof.
  refine (proj1 (decrement_ttl_v4_correct (at_offset_14 outer_ip) (repeat 0 14) outer_ip [1; 2] 14
    eq_refl eq_refl eq_refl _) _ _).
  - apply bytes_ok_check. reflexivity.
  - vm_compute. discriminate.
  - split; reflexivity.
Defined.

(** An echo request whose checksum is [0xf7fe] in wire order. *)
Definition echo : list Z := [8; 0; 247; 254; 0; 0; 0; 1].
Lemma send_icmp_reply_correct_witness :
  exists ip' icmp', runs (Xst (Frame [] (repeat 7 14 ++ outer_ip ++ echo ++ []) []) env0 0)
      send_icmp_reply XDP_TX
      (set_data (Xst (Frame [] (repeat 7 14 ++ outer_ip ++ echo ++ []) []) env0 0)
         (eth_swapped (repeat 7 14) ++ ip' ++ icmp' ++ []))
    /\ csum_ok ip' /\ csum_ok (icmp' ++ []).
Proof.
  destruct (send_icmp_reply_correct (Xst (Frame [] (repeat 7 14 ++ outer_ip ++ echo ++ []) []) env0 0)
    (repeat 7 14) outer_ip echo [] eq_refl eq_refl eq_refl eq_refl
    ltac:(apply bytes_ok_check; reflexivity) ltac:(apply bytes_ok_check; reflexivity)
    bytes_ok_nil eq_refl ltac:(split; reflexivity)) as (ip' & icmp' & Hr & _ & Hok & _ & Hi).
  exists ip', icmp'. split; [exact Hr|]. split; [exact Hok|]. apply Hi. reflexivity.
Defined.

Lemma ring_key_in_ring_witness :
  65537 <= ring_key vip_flow (VipMeta 0 1) false < 131074
  /\ @lookup_ch_ring one_vip (ring_key vip_flow (VipMeta 0 1) false) <> None.
Proof.
  destruct (@ring_key_in_ring one_vip vip_flow (VipMeta 0 1) false ltac:(split; [discriminate|reflexivity]))
    as (H1 & _ & H3).
  split; [exact H1|exact H3].
Defined.

Lemma conn_rate_limit_witness :
  admitted (conn_rate_run [10; 11; 12] (LbStats 124999 5)).1 = 1.
Proof.
  exact (proj1 (conn_rate_limit [10; 11; 12] (LbStats 124999 5)
    ltac:(intros t Ht; rewrite !elem_of_cons, elem_of_nil in Ht;
          destruct Ht as [->|[->|[->|[]]]]; vm_compute; discriminate)
    ltac:(discriminate) ltac:(reflexivity))).
Defined.

Lemma quic_conn_id_correct_witness : server_id (quic_conn_id [0xC0; 0x80; 0; 0; 1]) = -2147483647.
Proof.
  exact (proj1 (proj1 (proj2 (proj2 (proj2 (proj2 (quic_conn_id_correct 0xC0 0x80 0 0 1 []
    ltac:(split; [discriminate|reflexivity]) ltac:(split; [discriminate|reflexivity])
    ltac:(split; [discriminate|reflexivity]) ltac:(split; [discriminate|reflexivity])
    ltac:(split; [discriminate|reflexivity])))))) eq_refl)).
Defined.

Definition chosen : option (option real_definition * packet_description * xst kenv) :=
  @get_packet_dst plain_features one_vip helpers0 keep_all vip_flow (VipMeta 0 1) false (LruCpu 0) syn_state.

Lemma chosen_ok :
  match chosen with
  | Some ((Some r, p), _) => r = real2 /\ pd_flow p = pd_flow vip_flow
  | _ => False
  end.
Proof. vm_compute. split; reflexivity. Qed.
Lemma not_flooded :
  match @is_under_flood helpers0 0 syn_state with Some ((fl, _), _) => fl = false | None => False end.
Proof. vm_compute. reflexivity. Qed.

(** The ring has been rewritten since: the flow still goes to the server that was chosen. *)
Definition empty_ring : Tables := {|
  vip_map := @vip_map one_vip; ch_rings := ∅; reals := @reals one_vip; ctl_array := @ctl_array one_vip;
  server_id_map := ∅; lpm_src_v4 := fun _ => None; lpm_src_v6 := fun _ => None;
  decap_dst := ∅; pckt_srcs := ∅; subprograms := false |}.
Lemma connection_sticks_witness :
  exists p' s' s3, chosen = Some ((Some real2, p'), s')
    /\ @connection_table_lookup empty_ring helpers0 vip_flow (LruCpu 0) false s'
       = Some ((Some real2, set_real_index (real_index p') vip_flow), s3).
Proof.
  pose proof chosen_ok as Hok. pose proof not_flooded as Hnf.
  destruct chosen as [[[[o|] p'] s']|] eqn:Hc; [|destruct Hok|destruct Hok].
  destruct Hok as [-> Hp]. exists p', s'.
  destruct (@is_under_flood helpers0 0 syn_state) as [[[fl t] s1]|] eqn:Hf; [|destruct Hnf].
  subst fl. unfold chosen in Hc.
  destruct (@connection_sticks plain_features one_vip helpers0 keep_all keep_all_laws
    syn_state s' s1 t vip_flow (VipMeta 0 1) false (LruCpu 0) real2 p' Hc Hf eq_refl
    (ex_intro _ ∅ eq_refl) I) as (Hreal & Hl & Hlater & _).
  destruct (Hlater empty_ring s' _ vip_flow real2 (eq_sym Hp) Hl Hreal) as (s3 & R & _).
  rewrite Hp in R. exists s3. split; [reflexivity|exact R].
Defined.

(** A segment with options NOP, NOP, server id 7, and the first two bytes of data. *)
Definition tpr_tcp : list Z := [4; 210; 0; 80; 0; 0; 0; 1; 0; 0; 0; 0; 0x70; 16; 255; 255; 0; 0; 0; 0].
Definition tpr_state : xst kenv :=
  Xst (Frame [] (repeat 0 34 ++ tpr_tcp ++ [1; 1; 0xB7; 6; 7; 0; 0; 0] ++ [9; 9]) []) env0 0.

Lemma tcp_hdr_opt_lookup_correct_witness :
  runs tpr_state (tcp_hdr_opt_lookup_server_id false) (Some 7) tpr_state.
Proof.
  refine (tcp_hdr_opt_lookup_correct tpr_state false (repeat 0 34) tpr_tcp
    [1; 1; 0xB7; 6; 7; 0; 0; 0] [9; 9] eq_refl eq_refl eq_refl _ _ _ eq_refl).
  - apply bytes_ok_check. reflexivity.
  - apply bytes_ok_check. reflexivity.
  - vm_compute. discriminate.
Defined.

(** ** The inlined build *)

(** The control plane gives the slot of the flow to real 1, 10.0.0.3. *)
Definition two_servers : Tables := {|
  vip_map := {[ VipDef (V6 16777226 0 0 0) 20480 6 := VipMeta 0 1 ]};
  ch_rings := {[ ring_key vip_flow (VipMeta 0 1) false := 1 ]};
  reals := {[ 0 := RealDef (V6 33554442 0 0 0) 0; 1 := RealDef (V6 50331658 0 0 0) 0 ]};
  ctl_array := {[ 0 := CtlValue 1108152157446 ]}; server_id_map := ∅;
  lpm_src_v4 := fun _ => None; lpm_src_v6 := fun _ => None;
  decap_dst := ∅; pckt_srcs := ∅; subprograms := false |}.

(** The balancer sends the SYN to 10.0.0.3, its inlined build to 10.0.0.2. *)
Lemma inlined_ignores_ring :
  let outer_dst r := option_map (fun p : outcome * xst kenv => (p.1, take 4 (drop 30 (f_data (x_frame p.2))))) r in
  outer_dst (@balancer_ingress plain_features two_servers helpers0 keep_all syn_state) = Some (Ret XDP_TX, [10; 0; 0; 3]) /\
  outer_dst (@KatranInline.bpf_main plain_features two_servers helpers0 keep_all syn_state) = Some (Ret XDP_TX, [10; 0; 0; 2]).
Proof. vm_compute. split; reflexivity. Qed.

(** ** From wire to wire *)

#[local] Existing Instances plain_features helpers0 keep_all.
#[local] Instance helpers0_laws : XdpHelperLaws helpers0 := runtime_helper_laws _ _ _.
#[local] Instance keep_all_roomy : RoomyTable keep_all.
Proof. intros V m k v k' Hne. now apply lookup_insert_ne. Qed.

(** A segment with the given flags from a port of the client to the VIP of a configuration. *)
Definition segment_bytes (flags port : Z) (dst : list Z) (dport : Z) : list Z :=
  [2; 0; 0; 0; 0; 1] ++ [2; 0; 0; 0; 0; 2] ++ [8; 0] ++
  [0x45; 0; 0; 40; 0; 1; 0; 0; 64; 6; 0; 0; 10; 0; 0; 9] ++ dst ++
  [port / 256; port mod 256; dport / 256; dport mod 256; 0; 0; 0; 1; 0; 0; 0; 0; 0x50; flags; 255; 255; 0; 0; 0; 0].
Definition arriving (t : Tables) (flags port tick : Z) : arrival :=
  Arrival t (Frame (repeat 0 256) (segment_bytes flags port [10; 0; 0; 1] 80) []) (Z.to_nat tick).

Ltac is_segment :=
  split; first [reflexivity | apply bytes_ok_check; vm_compute; reflexivity].

Lemma segment_balanced_witness :
  exists s' o, runs syn_state (@balancer_ingress plain_features one_vip helpers0 keep_all) o s' /\
    o = Ret XDP_TX /\ f_data (x_frame s') = [6; 5; 4; 3; 2; 1] ++ [2; 0; 0; 0; 0; 1] ++ [8; 0] ++
      [0x45; 0; 0; 60; 0; 0; 0; 0; 64; 4; 242; 158; 172; 16; 210; 13; 10; 0; 0; 2] ++ drop 14 syn_packet.
Proof.
  destruct (proj1 (@segment_balanced plain_features one_vip helpers0 helpers0_laws keep_all syn_state
      (take 14 syn_packet) (take 20 (drop 14 syn_packet)) (take 20 (drop 34 syn_packet)) []
      eq_refl eq_refl ltac:(is_segment))
    ltac:(split; [reflexivity|split; [discriminate|reflexivity]]) ltac:(discriminate)) as (s' & o & R & B).
  exists s', o. split; [exact R|]. destruct B as (Ho & D & _). split; [exact Ho|]. rewrite D. vm_compute. reflexivity.
Defined.

(** The SYN of a connection, the SYN of another one, and an acknowledgement of the first after
    the control plane has given its slot of the ring to another server. *)
Definition first_syn : arrival := arriving one_vip 2 1234 0.
Definition other_syn : arrival := arriving two_servers 2 1235 10.
Definition later_ack : arrival := arriving two_servers 16 1234 20.

Lemma connection_balanced_witness :
  exists o e', balance [first_syn; other_syn; later_ack] env0 = Some ([sent real2 first_syn; o; sent real2 later_ack], e').
Proof.
  destruct (@connection_balanced plain_features helpers0 helpers0_laws keep_all keep_all_laws keep_all_roomy
    (pd_flow vip_flow) 0 real2 first_syn [other_syn; later_ack] env0
    eq_refl eq_refl) as (os & e' & E & Hos).
  - split; [reflexivity|]. split; [reflexivity|]. split; [is_segment|]. split; [discriminate|].
    eexists _, _, _. split; [reflexivity|]. split; [split; [reflexivity|split; [discriminate|reflexivity]]|].
    split; [reflexivity|]. intros _. vm_compute. reflexivity.
  - reflexivity.
  - vm_compute. reflexivity.
  - constructor; [right|constructor; [left|constructor]].
    + split; [is_segment|]. split; [discriminate|]. eexists _, _, _. split; [reflexivity|].
      split; [split; [reflexivity|split; [discriminate|reflexivity]]|]. discriminate.
    + split; [reflexivity|]. split; [reflexivity|]. split; [is_segment|]. split; [discriminate|].
      eexists _, _, _. split; [reflexivity|]. split; [split; [reflexivity|split; [discriminate|reflexivity]]|].
      split; [reflexivity|]. discriminate.
  - inversion Hos as [|? o ? os1 _ Hos1 Ea Eb]. subst. inversion Hos1 as [|? o' ? os2 Ho Hos2 Ec Ed]. subst.
    inversion Hos2. subst. exists o, e'. rewrite E, Ho; [reflexivity|].
    split; [reflexivity|]. split; [reflexivity|]. split; [is_segment|]. split; [discriminate|].
    eexists _, _, _. split; [reflexivity|]. split; [split; [reflexivity|split; [discriminate|reflexivity]]|].
    split; [reflexivity|]. discriminate.
Defined.

(** ** The benchmark *)

(** A host that accepts everything; the connection table is descriptor 9. *)
Definition willing : KatranLoader.host := {|
  KatranLoader.k_load := fun _ _ => true;
  KatranLoader.k_program := fun name => if String.eqb name "balancer_ingress"%string then Some 7 else None;
  KatranLoader.k_map := fun _ => true; KatranLoader.k_update := fun _ => 0;
  KatranLoader.k_map_create := 9; KatranLoader.k_ifindex := fun _ => 3;
  KatranLoader.k_skb_mode := true; KatranLoader.k_drv_mode := false; KatranLoader.k_hw_mode := false |}.

(** A SYN for the VIP of the benchmark. *)
Definition bench_syn : xst kenv :=
  Xst (Frame (repeat 0 256) (segment_bytes 2 1234 [192; 168; 1; 13] 5678) []) env0 0.

Lemma katran_deployed_witness :
  exists c, KatranLoader.main willing ["balancer.bpf.o"; "eth0"]%string
              = (KatranLoader.Sleeps, [KatranLoader.Attach 3 7 3], c) /\
  exists s', runs bench_syn (@balancer_ingress plain_features (KatranLoader.deployed_tables c) helpers0 keep_all)
    (Ret XDP_TX) s' /\
    take 34 (f_data (x_frame s')) = [184; 63; 210; 42; 229; 17] ++ [2; 0; 0; 0; 0; 1] ++ [8; 0] ++
      [0x45; 0; 0; 60; 0; 0; 0; 0; 64; 4; 252; 160; 172; 16; 210; 13; 0; 0; 0; 0].
Proof.
  destruct (@KatranLoader.katran_deployed plain_features helpers0 helpers0_laws keep_all willing
    "balancer.bpf.o"%string None 7 "eth0"%string eq_refl eq_refl) as (c & Em & _ & Hc).
  { repeat split; try reflexivity; try discriminate. repeat constructor. }
  exists c. split; [exact Em|].
  destruct (proj1 (Hc bench_syn (take 14 (f_data (x_frame bench_syn))) (take 20 (drop 14 (f_data (x_frame bench_syn))))
      (take 20 (drop 34 (f_data (x_frame bench_syn)))) [] ltac:(is_segment))
    (conj eq_refl eq_refl) ltac:(discriminate) eq_refl) as (s' & R & D & _).
  exists s'. split; [exact R|]. rewrite D. vm_compute. reflexivity.
Defined.
