(* ===== verification/HashMap.v ===== *)
(** * The hash map of the inlined programs (xdp_progs/includes/hash_map.h)

    The open-addressing table that the ahead-of-time compiled programs use in
    place of a BPF hash map.  Its state is a buffer of bytes: [num_buckets]
    elements of a 32-bit flag, a key and a value.  The operations are modelled
    on the buffer, a read or write outside it being [None]; the theorems relate
    them to a finite map from keys to values. *)
From Stdlib Require Import ZArith Lia.
From stdpp Require Import base numbers list option gmap.
From S2P Require Import Prelude Xdp.
#[local] Open Scope Z_scope.

(** ** The code *)

(** @src xdp_progs/includes/hash_map.h 9-14 bpftime_hash_map_t *)
Record bpftime_hash_map_t := HashMapT {
  num_buckets : Z; key_size : Z; value_size : Z; data_buffer : list Z }.

(** @src xdp_progs/includes/hash_map.h 5-7 DEFINE_BPFTIME_HASH_MAP *)
Definition DEFINE_BPFTIME_HASH_MAP (nb ks vs : Z) : bpftime_hash_map_t :=
  HashMapT nb ks vs (repeat 0 (Z.to_nat (nb * (4 + ks + vs)))).

Definition with_buffer (m : bpftime_hash_map_t) (buf : list Z) : bpftime_hash_map_t :=
  HashMapT (num_buckets m) (key_size m) (value_size m) buf.

(** @src xdp_progs/includes/hash_map.h 16-18 get_elem_offset *)
Definition get_elem_offset (map : bpftime_hash_map_t) (index : Z) : Z :=
  u32 (index * u32 (u32 (4 + key_size map) + value_size map)).

(** @src xdp_progs/includes/hash_map.h 20-26 hash_func *)
Definition hash_func (key : list Z) (key_size : Z) : Z :=
  foldl (fun hash b => u32 (hash * 31 + b)) 0 (take (Z.to_nat key_size) key).

(** @src xdp_progs/includes/hash_map.h 28-30 is_empty *)
Definition is_empty (map : bpftime_hash_map_t) (index : Z) : option bool :=
  flag ← slice (get_elem_offset map index) 4 (data_buffer map);
  Some (le_join flag =? 0).

(** A write of [bs] at [off] in the buffer. *)
Definition write (map : bpftime_hash_map_t) (off : Z) (bs : list Z) : option bpftime_hash_map_t :=
  with_buffer map <$> splice off bs (data_buffer map).

(** @src xdp_progs/includes/hash_map.h 32-34 set_empty *)
Definition set_empty (map : bpftime_hash_map_t) (index : Z) : option bpftime_hash_map_t :=
  write map (get_elem_offset map index) (le_split 4 0).
(** @src xdp_progs/includes/hash_map.h 36-38 set_filled *)
Definition set_filled (map : bpftime_hash_map_t) (index : Z) : option bpftime_hash_map_t :=
  write map (get_elem_offset map index) (le_split 4 1).
(** Pointers into the buffer are offsets.
    @src xdp_progs/includes/hash_map.h 40-42 get_key *)
Definition get_key (map : bpftime_hash_map_t) (index : Z) : Z := u32 (get_elem_offset map index + 4).
(** @src xdp_progs/includes/hash_map.h 44-46 get_value *)
Definition get_value (map : bpftime_hash_map_t) (index : Z) : Z :=
  u32 (u32 (get_elem_offset map index + 4) + key_size map).

(** The loop that compares the bytes of a stored key with [key] and breaks at
    the first difference; byte [i] is next and [n] are left.
    @src xdp_progs/includes/hash_map.h 56-62 elem_lookup *)
Fixpoint key_match (map : bpftime_hash_map_t) (elem_key : Z) (key : list Z) (i : Z) (n : nat)
    : option bool :=
  match n with
  | O => Some true
  | S n =>
      a ← slice (elem_key + i) 1 (data_buffer map);
      b ← slice i 1 key;
      if le_join a =? le_join b then key_match map elem_key key (i + 1) n else Some false
  end.

(** The loop that the three operations share,
    [do { body } while ((index = (index + 1) % num_buckets) != start_index)]:
    [Some (Some r)] when the body returns [r], [Some None] when the loop ends,
    [None] when the body faults or the fuel does not suffice.
    @src xdp_progs/includes/hash_map.h 49-68 elem_lookup *)
Fixpoint probe {R} (num_buckets : Z) (body : Z -> option (option R)) (fuel : nat)
    (index start_index : Z) : option (option R) :=
  match fuel with
  | O => None
  | S fuel =>
      r ← body index;
      match r with
      | Some r => Some (Some r)
      | None =>
          let index := u32 (index + 1) mod num_buckets in
          if index =? start_index then Some None
          else probe num_buckets body fuel index start_index
      end
  end.

Definition probe_from {R} (map : bpftime_hash_map_t) (key : list Z)
    (body : Z -> option (option R)) : option (option R) :=
  let index := hash_func key (key_size map) mod num_buckets map in
  probe (num_buckets map) body (Z.to_nat (num_buckets map)) index index.

Definition lookup_body (map : bpftime_hash_map_t) (key : list Z) (index : Z)
    : option (option (option Z)) :=
  empty ← is_empty map index;
  if empty : bool then Some (Some None) else
  found ← key_match map (get_key map index) key 0 (Z.to_nat (key_size map));
  if found : bool then Some (Some (Some (get_value map index))) else Some None.

(** The pointer returned, [None] for a null one.
    @src xdp_progs/includes/hash_map.h 48-69 elem_lookup *)
Definition elem_lookup (map : bpftime_hash_map_t) (key : list Z) : option (option Z) :=
  r ← probe_from map key (lookup_body map key);
  Some (default None r).

Definition update_body (map : bpftime_hash_map_t) (key value : list Z) (index : Z)
    : option (option bpftime_hash_map_t) :=
  let elem_key := get_key map index in
  empty ← is_empty map index;
  found ← (if empty : bool then Some true
           else key_match map elem_key key 0 (Z.to_nat (key_size map)));
  if found : bool then
    map ← write map elem_key (take (Z.to_nat (key_size map)) key);
    map ← write map (get_value map index) (take (Z.to_nat (value_size map)) value);
    map ← set_filled map index;
    Some (Some map)
  else Some None.

(** The result and the table after.
    @src xdp_progs/includes/hash_map.h 71-100 elem_update *)
Definition elem_update (map : bpftime_hash_map_t) (key value : list Z)
    : option (Z * bpftime_hash_map_t) :=
  r ← probe_from map key (update_body map key value);
  Some (match r with Some map' => (1, map') | None => (0, map) end).

Definition delete_body (map : bpftime_hash_map_t) (key : list Z) (index : Z)
    : option (option (Z * bpftime_hash_map_t)) :=
  empty ← is_empty map index;
  if empty : bool then Some (Some (0, map)) else
  found ← key_match map (get_key map index) key 0 (Z.to_nat (key_size map));
  if found : bool then map ← set_empty map index; Some (Some (1, map))
  else Some None.

(** @src xdp_progs/includes/hash_map.h 102-124 elem_delete *)
Definition elem_delete (map : bpftime_hash_map_t) (key : list Z) : option (Z * bpftime_hash_map_t) :=
  r ← probe_from map key (delete_body map key);
  Some (default (0, map) r).

(** The [for] loop: [i] is the next bucket, [n] are left.
    @src xdp_progs/includes/hash_map.h 126-134 get_elem_count *)
Fixpoint count_loop (map : bpftime_hash_map_t) (n : nat) (i count : Z) : option Z :=
  match n with
  | O => Some count
  | S n =>
      empty ← is_empty map i;
      count_loop map n (i + 1) (if empty : bool then count else u32 (count + 1))
  end.
Definition get_elem_count (map : bpftime_hash_map_t) : option Z :=
  count_loop map (Z.to_nat (num_buckets map)) 0 0.

(** ** Elements of the buffer *)

Lemma splice_app_l k bs c post :
  k + zlen bs <= zlen c -> splice k bs (c ++ post) = (fun c' => c' ++ post) <$> splice k bs c.
Proof.
  intros Hk. unfold splice, slice, zlen in *. destruct (Z.ltb_spec k 0); [done|].
  rewrite !length_take, !length_drop, length_app.
  destruct (Nat.eqb_spec (length bs `min` (length c + length post - Z.to_nat k)) (length bs)),
           (Nat.eqb_spec (length bs `min` (length c - Z.to_nat k)) (length bs)); try lia.
  cbn [fmap option_fmap option_map]. f_equal.
  rewrite take_app_le, drop_app_le by lia. now rewrite <- !app_assoc.
Qed.

Section area.
Context (W : nat).

(** The [i]-th area of [W] bytes. *)
Definition area (i : nat) (buf : list Z) : list Z := take W (drop (i * W) buf).

Lemma area_split i buf :
  buf = take (i * W) buf ++ area i buf ++ drop (S i * W) buf.
Proof.
  unfold area. rewrite <- (take_drop (i * W) buf) at 1. f_equal.
  rewrite <- (take_drop W (drop (i * W) buf)) at 1. f_equal.
  rewrite drop_drop. f_equal. lia.
Qed.

Lemma length_area i buf : (S i * W <= length buf)%nat -> length (area i buf) = W.
Proof. intros. unfold area. rewrite length_take, length_drop. lia. Qed.

Lemma slice_area i k n buf off :
  off = Z.of_nat (i * W) + k -> 0 <= k -> k + Z.of_nat n <= Z.of_nat W ->
  slice off n buf = slice k n (area i buf).
Proof.
  intros -> Hk Hn. unfold slice, area.
  destruct (Z.ltb_spec (Z.of_nat (i * W) + k) 0); [lia|]. destruct (Z.ltb_spec k 0); [lia|].
  replace (take n (drop (Z.to_nat k) (take W (drop (i * W) buf))))
    with (take n (drop (Z.to_nat (Z.of_nat (i * W) + k)) buf)); [done|].
  rewrite skipn_firstn_comm, take_take, drop_drop.
  replace (i * W + Z.to_nat k)%nat with (Z.to_nat (Z.of_nat (i * W) + k)) by lia.
  now rewrite Nat.min_l by lia.
Qed.

(** A write inside one area changes that area only. *)
Lemma splice_area i k bs buf off c' :
  off = Z.of_nat (i * W) + k -> (S i * W <= length buf)%nat ->
  0 <= k -> k + zlen bs <= Z.of_nat W -> splice k bs (area i buf) = Some c' ->
  exists buf', splice off bs buf = Some buf' /\ length buf' = length buf /\
    area i buf' = c' /\ forall j, j <> i -> area j buf' = area j buf.
Proof.
  intros -> Hlen Hk Hn Hc. assert (length c' = W) as Hc'.
  { unfold splice in Hc. destruct (slice _ _ _); [|done]. injection Hc as <-.
    pose proof (length_area i buf Hlen). unfold zlen in Hn.
    rewrite !length_app, length_take, length_drop. lia. }
  pose proof (length_area i buf Hlen) as HA.
  assert (length (take (i * W) buf) = (i * W)%nat) as Hp by (rewrite length_take; lia).
  set (pre := take (i * W) buf) in *. set (post := drop (S i * W) buf).
  exists (pre ++ c' ++ post). split; [|split; [|split]].
  - rewrite (area_split i buf) at 1. fold pre post.
    rewrite splice_app_ge by (unfold zlen; lia).
    replace (Z.of_nat (i * W) + k - zlen pre) with k by (unfold zlen; lia).
    rewrite splice_app_l by (unfold zlen in *; lia). now rewrite Hc.
  - unfold post. rewrite !length_app, length_drop. lia.
  - unfold area. rewrite drop_app_length', take_app_length' by done. done.
  - intros j Hj. replace (area j buf) with (area j (pre ++ area i buf ++ post))
      by (f_equal; symmetry; apply area_split).
    unfold area. destruct (decide (j < i)%nat) as [Hl|Hl].
    + assert (S j * W <= length pre)%nat by nia.
      rewrite !drop_app_le, !take_app_le by (rewrite ?length_drop; lia). done.
    + assert (length pre + W <= j * W)%nat by nia.
      rewrite !(drop_app_ge _ _ (j * W)) by lia.
      rewrite (drop_app_ge c'), (drop_app_ge (area i buf)) by (rewrite ?Hc', ?HA; lia).
      now rewrite Hc', HA.
Qed.
End area.

Lemma splice_mid f k k' v off :
  off = zlen f -> length k' = length k -> splice off k' (f ++ k ++ v) = Some (f ++ k' ++ v).
Proof.
  intros -> Hk. unfold splice, slice, zlen. destruct (Z.ltb_spec (Z.of_nat (length f)) 0); [lia|].
  rewrite Nat2Z.id, drop_app_length, take_app_length, Hk, take_app_length.
  rewrite Nat.eqb_refl. do 2 f_equal. f_equal.
  rewrite <- Hk. replace (length f + length k')%nat with (length (f ++ k)) by (rewrite length_app; lia).
  now rewrite app_assoc, drop_app_length.
Qed.
Lemma slice_mid f k v off n :
  off = zlen f -> n = length k -> slice off n (f ++ k ++ v) = Some k.
Proof.
  intros -> ->. unfold slice, zlen. destruct (Z.ltb_spec (Z.of_nat (length f)) 0); [lia|].
  now rewrite Nat2Z.id, drop_app_length, take_app_length, Nat.eqb_refl.
Qed.

(** A table whose buffer has the size its header says. *)
Record sized (m : bpftime_hash_map_t) : Prop := {
  sized_buckets : 0 < num_buckets m;
  sized_key : 0 <= key_size m;
  sized_value : 0 <= value_size m;
  sized_small : num_buckets m * (4 + key_size m + value_size m) < 4294967296;
  sized_buffer : zlen (data_buffer m) = num_buckets m * (4 + key_size m + value_size m)
}.

Definition width (m : bpftime_hash_map_t) : nat := Z.to_nat (4 + key_size m + value_size m).
Definition bucket (m : bpftime_hash_map_t) (i : Z) : list Z :=
  area (width m) (Z.to_nat i) (data_buffer m).
Definition b_flag (m : bpftime_hash_map_t) (i : Z) : list Z := take 4 (bucket m i).
Definition b_key (m : bpftime_hash_map_t) (i : Z) : list Z :=
  take (Z.to_nat (key_size m)) (drop 4 (bucket m i)).
Definition b_value (m : bpftime_hash_map_t) (i : Z) : list Z :=
  drop (Z.to_nat (key_size m)) (drop 4 (bucket m i)).

(** The key and the value in a bucket, [None] in an empty one. *)
Definition entry (m : bpftime_hash_map_t) (i : Z) : option (list Z * list Z) :=
  if le_join (b_flag m i) =? 0 then None else Some (b_key m i, b_value m i).

Section buckets.
Context (m : bpftime_hash_map_t) (Hm : sized m).
Context (i : Z) (Hi : 0 <= i < num_buckets m).

Lemma bucket_inside : (S (Z.to_nat i) * width m <= length (data_buffer m))%nat.
Proof.
  destruct Hm as [? ? ? ? Hb]. unfold zlen, width in *. nia.
Qed.
Lemma bucket_parts : bucket m i = b_flag m i ++ b_key m i ++ b_value m i.
Proof. unfold b_flag, b_key, b_value. now rewrite !take_drop. Qed.
Lemma bucket_lengths :
  length (b_flag m i) = 4%nat /\ length (b_key m i) = Z.to_nat (key_size m)
  /\ length (b_value m i) = Z.to_nat (value_size m).
Proof.
  pose proof (length_area (width m) _ _ bucket_inside) as Hl.
  destruct Hm. unfold b_flag, b_key, b_value, bucket, width in *.
  rewrite !length_take, !length_drop. rewrite Hl. lia.
Qed.

Lemma get_elem_offset_eq : get_elem_offset m i = Z.of_nat (Z.to_nat i * width m).
Proof.
  destruct Hm as [Hn Hk Hv Hs _]. unfold get_elem_offset, width.
  assert (0 <= i * (4 + key_size m + value_size m) < 4294967296) as Hr by nia.
  rewrite (u32_id (4 + key_size m)), (u32_id (4 + key_size m + value_size m)), u32_id
    by (unfold is_u32; nia). nia.
Qed.
Lemma elem_pointers :
  get_key m i = Z.of_nat (Z.to_nat i * width m) + 4
  /\ get_value m i = Z.of_nat (Z.to_nat i * width m) + (4 + key_size m).
Proof.
  unfold get_key, get_value. rewrite get_elem_offset_eq.
  pose proof bucket_inside as Hb. destruct Hm as [Hn Hk Hv Hs Hl]. unfold width, zlen in *.
  rewrite !u32_id; [split; lia|..]; unfold is_u32; try rewrite u32_id; unfold is_u32; lia.
Qed.

Lemma is_empty_eq : is_empty m i = Some (le_join (b_flag m i) =? 0).
Proof.
  unfold is_empty. rewrite get_elem_offset_eq.
  rewrite (slice_area (width m) (Z.to_nat i) 0) by (destruct Hm; unfold width; lia).
  fold (bucket m i). rewrite bucket_parts at 1.
  pose proof (slice_mid [] (b_flag m i) (b_key m i ++ b_value m i) 0 4 eq_refl
    (eq_sym (proj1 bucket_lengths))) as E.
  cbn [app] in E. now rewrite E.
Qed.

(** The comparison loop compares the keys. *)
Lemma key_match_eq key :
  length key = Z.to_nat (key_size m) ->
  key_match m (get_key m i) key 0 (Z.to_nat (key_size m)) = Some (bool_decide (b_key m i = key)).
Proof.
  intros Hkey. destruct bucket_lengths as (HF & HK & HV).
  destruct elem_pointers as [-> _].
  enough (G : forall n done rest stored rest',
    length rest = n -> b_key m i = done ++ stored -> key = rest' ++ rest ->
    length done = length rest' ->
    key_match m (Z.of_nat (Z.to_nat i * width m) + 4) key (zlen rest') n
    = Some (bool_decide (stored = rest))).
  { exact (G _ [] key (b_key m i) [] Hkey eq_refl eq_refl eq_refl). }
  induction n as [|n IH]; intros pre rest stored pre' Hn Hs Hr Hp; cbn [key_match].
  - destruct rest; [|done]. assert (length stored = 0%nat) as Hz.
    { apply (f_equal length) in Hs, Hr. rewrite length_app in Hs, Hr. simpl in Hr. lia. }
    destruct stored; [|done]. now rewrite bool_decide_eq_true_2.
  - destruct rest as [|b rest]; [done|]. destruct stored as [|a stored].
    { apply (f_equal length) in Hs, Hr. rewrite length_app in Hs, Hr. simpl in Hr, Hs. lia. }
    assert (1 + zlen pre' <= key_size m).
    { apply (f_equal length) in Hr. rewrite length_app in Hr. cbn [length] in Hr.
      destruct Hm. unfold zlen. lia. }
    rewrite (slice_area (width m) (Z.to_nat i) (4 + zlen pre') 1 (data_buffer m))
      by (destruct Hm; unfold width, zlen in *; lia).
    fold (bucket m i). rewrite bucket_parts, Hs.
    replace (b_flag m i ++ (pre ++ a :: stored) ++ b_value m i)
      with ((b_flag m i ++ pre) ++ [a] ++ (stored ++ b_value m i)) by now rewrite <- !app_assoc.
    rewrite slice_mid by (rewrite ?zlen_app; unfold zlen; cbn [length]; lia).
    assert (slice (zlen pre') 1 key = Some [b]) as ->
      by (rewrite Hr; exact (slice_mid pre' [b] rest _ _ eq_refl eq_refl)).
    cbn [mbind option_bind le_join]. rewrite !Z.mul_0_r, !Z.add_0_r.
    destruct (Z.eqb_spec a b) as [->|Hne].
    + specialize (IH (pre ++ [b]) rest stored (pre' ++ [b])).
      rewrite zlen_app in IH. change (zlen [b]) with 1 in IH.
      rewrite IH.
      * f_equal. apply bool_decide_ext. split; [now intros ->|now intros [= ->]].
      * now injection Hn.
      * now rewrite <- app_assoc.
      * rewrite Hr. now rewrite <- app_assoc.
      * rewrite !length_app. simpl. lia.
    + rewrite bool_decide_eq_false_2; [done|]. congruence.
Qed.

Lemma get_value_eq :
  slice (get_value m i) (Z.to_nat (value_size m)) (data_buffer m) = Some (b_value m i).
Proof.
  destruct elem_pointers as [_ ->]. destruct bucket_lengths as (HF & HK & HV).
  rewrite (slice_area (width m) (Z.to_nat i) (4 + key_size m)) by (destruct Hm; unfold width; lia).
  fold (bucket m i). rewrite bucket_parts.
  replace (b_flag m i ++ b_key m i ++ b_value m i)
    with ((b_flag m i ++ b_key m i) ++ b_value m i ++ []) by now rewrite app_nil_r, <- app_assoc.
  rewrite slice_mid; [done| |done].
  rewrite zlen_app. unfold zlen. destruct Hm. lia.
Qed.
End buckets.

(** ** Writing a bucket *)

(** [m'] is [m] with another content in bucket [i]. *)
Definition rebucket (m : bpftime_hash_map_t) (i : Z) (c : list Z) (m' : bpftime_hash_map_t) : Prop :=
  (exists buf, m' = with_buffer m buf) /\ sized m' /\ bucket m' i = c /\
  forall j, 0 <= j -> j <> i -> bucket m' j = bucket m j.

Lemma write_bucket m i k bs off c :
  sized m -> 0 <= i < num_buckets m ->
  off = Z.of_nat (Z.to_nat i * width m) + k -> 0 <= k -> k + zlen bs <= Z.of_nat (width m) ->
  splice k bs (bucket m i) = Some c ->
  exists m', write m off bs = Some m' /\ rebucket m i c m'.
Proof.
  intros Hm Hi Ho Hk Hb Hc.
  destruct (splice_area (width m) (Z.to_nat i) k bs (data_buffer m) off c Ho
    (bucket_inside m Hm i Hi) Hk Hb Hc) as (buf' & Hw & Hl & Hi' & Hj).
  exists (with_buffer m buf'). unfold write. rewrite Hw. split; [done|].
  split; [now eexists|]. split; [|split].
  - destruct Hm. split; try done. cbn [data_buffer with_buffer num_buckets key_size value_size].
    unfold zlen in *. now rewrite Hl.
  - exact Hi'.
  - intros j H0 Hne. apply Hj. lia.
Qed.

Lemma rebucket_trans m i c1 m1 c2 m2 :
  rebucket m i c1 m1 -> rebucket m1 i c2 m2 -> rebucket m i c2 m2.
Proof.
  intros ((b1 & ->) & _ & _ & H1) ((b2 & ->) & Hs & Hc & H2).
  split; [now eexists|]. split; [done|]. split; [done|]. intros j H0 Hj. now rewrite H2, H1.
Qed.

Lemma entry_bucket m buf j :
  bucket (with_buffer m buf) j = bucket m j -> entry (with_buffer m buf) j = entry m j.
Proof. intros Hb. unfold entry, b_flag, b_key, b_value. now rewrite Hb. Qed.

Lemma entry_parts m j f k v :
  bucket m j = f ++ k ++ v -> length f = 4%nat -> length k = Z.to_nat (key_size m) ->
  entry m j = if le_join f =? 0 then None else Some (k, v).
Proof.
  intros Hb Hf Hk. unfold entry, b_flag, b_key, b_value. rewrite Hb, <- Hf, <- Hk.
  rewrite (drop_app_length f), !take_app_length, drop_app_length. done.
Qed.

(** The three writes of an update. *)
Lemma fill_bucket m i key value :
  sized m -> 0 <= i < num_buckets m ->
  length key = Z.to_nat (key_size m) -> length value = Z.to_nat (value_size m) ->
  exists m',
    (m1 ← write m (get_key m i) key;
     m2 ← write m1 (get_value m1 i) (take (Z.to_nat (value_size m1)) value);
     m3 ← set_filled m2 i; Some (Some m3)) = Some (Some m') /\
    rebucket m i (le_split 4 1 ++ key ++ value) m'.
Proof.
  intros Hm Hi Hk Hv. destruct (elem_pointers m Hm i Hi) as [Ek Ev].
  destruct (bucket_lengths m Hm i Hi) as (LF & LK & LV). pose proof Hm as [Hn Hks Hvs _ _].
  pose proof (bucket_parts m i) as HB.
  destruct (write_bucket m i 4 key (get_key m i) (b_flag m i ++ key ++ b_value m i)) as (m1 & W1 & R1);
    [done|done|done|lia|unfold zlen, width; lia| |].
  { rewrite HB. apply splice_mid; [unfold zlen; lia|lia]. }
  pose proof R1 as ((b1 & E1) & S1 & B1 & _). rewrite W1. cbn [mbind option_bind].
  replace (take (Z.to_nat (value_size m1)) value) with value
    by (subst m1; cbn [value_size with_buffer]; rewrite take_ge by lia; done).
  destruct (write_bucket m1 i (4 + key_size m) value (get_value m1 i)
    ((b_flag m i ++ key) ++ value ++ [])) as (m2 & W2 & R2);
    [done|now subst m1|now subst m1|lia|subst m1; unfold zlen, width; cbn [key_size value_size with_buffer]; lia| |].
  { rewrite B1. replace (b_flag m i ++ key ++ b_value m i)
      with ((b_flag m i ++ key) ++ b_value m i ++ []) by now rewrite app_nil_r, <- app_assoc.
    apply splice_mid; [rewrite zlen_app; unfold zlen; lia|lia]. }
  pose proof R2 as ((b2 & E2) & S2 & B2 & _). rewrite W2. cbn [mbind option_bind].
  destruct (write_bucket m2 i 0 (le_split 4 1) (get_elem_offset m2 i) (le_split 4 1 ++ key ++ value))
    as (m3 & W3 & R3); [done|now subst m2 m1| |lia|unfold zlen, width; cbn [length le_split]; destruct S2; lia| |].
  { rewrite (get_elem_offset_eq m2 S2 i) by now subst m2 m1. lia. }
  { rewrite B2, app_nil_r, <- app_assoc. exact (splice_mid [] (b_flag m i) (le_split 4 1) (key ++ value) 0
      eq_refl (eq_sym LF)). }
  unfold set_filled. rewrite W3. exists m3. split; [done|].
  eapply rebucket_trans; [exact R1|]. eapply rebucket_trans; [exact R2|exact R3].
Qed.

Lemma empty_bucket m i :
  sized m -> 0 <= i < num_buckets m ->
  exists m', set_empty m i = Some m' /\ rebucket m i (le_split 4 0 ++ b_key m i ++ b_value m i) m'.
Proof.
  intros Hm Hi. destruct (bucket_lengths m Hm i Hi) as (LF & LK & LV).
  unfold set_empty. apply write_bucket with 0; [done|done| |lia| |].
  - rewrite (get_elem_offset_eq m Hm i Hi). lia.
  - unfold zlen, width. cbn [length le_split]. destruct Hm. lia.
  - rewrite (bucket_parts m i). exact (splice_mid [] (b_flag m i) (le_split 4 0) _ 0 eq_refl (eq_sym LF)).
Qed.

(** ** The probing loop *)

(** The [d]-th bucket that is probed from [h] on. *)
Definition pos (n h : Z) (d : nat) : Z := (h + Z.of_nat d) mod n.

Lemma pos_range n h d : 0 < n -> 0 <= pos n h d < n.
Proof. intros. unfold pos. apply Z.mod_pos_bound. lia. Qed.
Lemma pos_next n h d : 0 < n < 4294967296 -> u32 (pos n h d + 1) mod n = pos n h (S d).
Proof.
  intros Hn. pose proof (pos_range n h d ltac:(lia)). rewrite u32_id by (unfold is_u32; lia).
  unfold pos. rewrite Zplus_mod_idemp_l. f_equal. lia.
Qed.
Lemma pos_inj n h d d' :
  0 <= h < n -> (d < Z.to_nat n)%nat -> (d' < Z.to_nat n)%nat -> pos n h d = pos n h d' -> d = d'.
Proof.
  intros Hh Hd Hd'. unfold pos.
  assert (forall x : nat, (x < Z.to_nat n)%nat -> (h + Z.of_nat x) mod n
    = if h + Z.of_nat x <? n then h + Z.of_nat x else h + Z.of_nat x - n) as E.
  { intros x Hx. destruct (Z.ltb_spec (h + Z.of_nat x) n); [apply Z.mod_small; lia|].
    symmetry. apply Z.mod_unique with 1; lia. }
  rewrite !E by done.
  destruct (Z.ltb_spec (h + Z.of_nat d) n), (Z.ltb_spec (h + Z.of_nat d') n); lia.
Qed.
(** Every bucket is probed. *)
Lemma pos_surj n h i : 0 <= h < n -> 0 <= i < n -> exists d, (d < Z.to_nat n)%nat /\ pos n h d = i.
Proof.
  intros Hh Hi. exists (Z.to_nat ((i - h) mod n)).
  pose proof (Z.mod_pos_bound (i - h) n ltac:(lia)). split; [lia|].
  unfold pos. rewrite Z2Nat.id by lia. rewrite Zplus_mod_idemp_r.
  replace (h + (i - h)) with i by lia. now apply Z.mod_small.
Qed.

Section probe.
Context {R : Type} (n : Z) (body : Z -> option (option R)) (f : Z -> option R).
Context (Hn : 0 < n < 4294967296) (Hbody : forall i, 0 <= i < n -> body i = Some (f i)).
Context (h : Z) (Hh : 0 <= h < n).

(** The loop ends, with the result of the first bucket where the body returns. *)
Lemma probe_spec :
  exists r, probe n body (Z.to_nat n) h h = Some r /\
    match r with
    | Some x => exists d, (d < Z.to_nat n)%nat /\ f (pos n h d) = Some x /\
                  forall d', (d' < d)%nat -> f (pos n h d') = None
    | None => forall i, 0 <= i < n -> f i = None
    end.
Proof.
  enough (G : forall fuel d, (d + fuel = Z.to_nat n)%nat -> (0 < fuel)%nat ->
    (forall d', (d' < d)%nat -> f (pos n h d') = None) ->
    exists r, probe n body fuel (pos n h d) h = Some r /\
      match r with
      | Some x => exists d, (d < Z.to_nat n)%nat /\ f (pos n h d) = Some x /\
                    forall d', (d' < d)%nat -> f (pos n h d') = None
      | None => forall i, 0 <= i < n -> f i = None
      end).
  { pose proof (G (Z.to_nat n) 0%nat ltac:(lia) ltac:(lia) ltac:(lia)) as G0.
    replace (pos n h 0) with h in G0; [exact G0|].
    unfold pos. rewrite Z.add_0_r. symmetry. apply Z.mod_small. lia. }
  induction fuel as [|fuel IH]; intros d Hd Hf Hbefore; [lia|].
  cbn [probe]. rewrite Hbody by (apply pos_range; lia). cbn [mbind option_bind].
  destruct (f (pos n h d)) as [x|] eqn:Hx.
  { exists (Some x). split; [done|]. exists d. split; [lia|]. now split. }
  rewrite pos_next by lia.
  assert (Hall : forall d', (d' < S d)%nat -> f (pos n h d') = None).
  { intros d' Hd'. destruct (decide (d' = d)) as [->|]; [done|]. apply Hbefore. lia. }
  destruct (Z.eqb_spec (pos n h (S d)) h) as [Hend|Hend].
  - exists None. split; [done|]. intros i Hi. destruct (pos_surj n h i Hh Hi) as (d' & Hd' & <-).
    apply Hall. destruct (decide (S d = Z.to_nat n)); [lia|].
    enough (S d = 0%nat) by lia. apply (pos_inj n h); [done|lia|lia|].
    rewrite Hend. unfold pos. rewrite Z.add_0_r. now rewrite Z.mod_small.
  - apply IH; [lia| |done]. destruct fuel; [|lia]. exfalso. apply Hend.
    replace (S d) with (Z.to_nat n) by lia. unfold pos. rewrite Z2Nat.id by lia.
    replace (h + n) with (h + 1 * n) by lia. rewrite Z_mod_plus_full. now apply Z.mod_small.
Qed.
Lemma probe_first d x :
  (d < Z.to_nat n)%nat -> f (pos n h d) = Some x -> (forall d', (d' < d)%nat -> f (pos n h d') = None) ->
  probe n body (Z.to_nat n) h h = Some (Some x).
Proof.
  intros Hd Hx Hbefore. destruct probe_spec as (r & -> & Hr). destruct r as [y|].
  - destruct Hr as (d1 & Hd1 & Hy & Hbefore1). do 2 f_equal.
    destruct (lt_eq_lt_dec d d1) as [[Hlt| ->]|Hgt].
    + now rewrite Hbefore1 in Hx.
    + congruence.
    + now rewrite Hbefore in Hy.
  - rewrite Hr in Hx; [discriminate|]. apply pos_range. lia.
Qed.
End probe.

(** ** The bodies, in terms of the bucket they look at *)

Definition opt_empty (e : option (list Z * list Z)) : bool :=
  match e with None => true | Some _ => false end.

Section bodies.
Context (m : bpftime_hash_map_t) (Hm : sized m) (key : list Z).
Context (Hkey : length key = Z.to_nat (key_size m)).

Lemma is_empty_entry i : 0 <= i < num_buckets m -> is_empty m i = Some (opt_empty (entry m i)).
Proof. intros Hi. rewrite is_empty_eq by done. unfold entry. now destruct (_ =? 0). Qed.
Lemma key_match_entry i k v :
  0 <= i < num_buckets m -> entry m i = Some (k, v) ->
  key_match m (get_key m i) key 0 (Z.to_nat (key_size m)) = Some (bool_decide (k = key)).
Proof.
  intros Hi He. rewrite key_match_eq by done. unfold entry in He.
  destruct (_ =? 0); [done|]. now injection He as <- <-.
Qed.

Lemma lookup_body_entry i :
  0 <= i < num_buckets m -> lookup_body m key i = Some
    match entry m i with
    | None => Some None
    | Some (k, v) => if bool_decide (k = key) then Some (Some (get_value m i)) else None
    end.
Proof.
  intros Hi. unfold lookup_body. rewrite is_empty_entry by done. cbn [mbind option_bind].
  destruct (entry m i) as [[k v]|] eqn:He; [|done]. cbn [opt_empty].
  rewrite (key_match_entry i k v) by done. cbn [mbind option_bind]. now destruct (bool_decide _).
Qed.
End bodies.

(** ** The table as a finite map *)

Definition home (m : bpftime_hash_map_t) (key : list Z) : Z :=
  hash_func key (key_size m) mod num_buckets m.
Definition at_pos (m : bpftime_hash_map_t) (key : list Z) (d : nat) : Z :=
  pos (num_buckets m) (home m key) d.

(** No key is stored twice, and there is no empty bucket between the home of a
    stored key and its bucket. *)
Record wf (m : bpftime_hash_map_t) : Prop := {
  wf_sized : sized m;
  wf_unique i j k v v' :
    0 <= i < num_buckets m -> 0 <= j < num_buckets m ->
    entry m i = Some (k, v) -> entry m j = Some (k, v') -> i = j;
  wf_path k v d d' :
    (d < Z.to_nat (num_buckets m))%nat -> entry m (at_pos m k d) = Some (k, v) ->
    (d' < d)%nat -> entry m (at_pos m k d') <> None
}.

(** The table as deletions may leave it: no key is stored twice, but a key may be
    cut off from its home. *)
Record loose (m : bpftime_hash_map_t) : Prop := {
  loose_sized : sized m;
  loose_unique i j k v v' :
    0 <= i < num_buckets m -> 0 <= j < num_buckets m ->
    entry m i = Some (k, v) -> entry m j = Some (k, v') -> i = j
}.

Lemma wf_loose m : wf m -> loose m.
Proof. intros [Hs Hu _]. now split. Qed.

(** The abstraction: the entries of the buckets. *)
Definition entries (m : bpftime_hash_map_t) : list (list Z * list Z) :=
  omap (entry m) (seqZ 0 (num_buckets m)).
Definition contents (m : bpftime_hash_map_t) : gmap (list Z) (list Z) := list_to_map (entries m).

Lemma NoDup_omap_fst {A B C} (g : A -> option (B * C)) (l : list A) :
  NoDup l ->
  (forall x y b c c', x ∈ l -> y ∈ l -> g x = Some (b, c) -> g y = Some (b, c') -> x = y) ->
  NoDup (omap g l).*1.
Proof.
  induction 1 as [|x l Hx Hl IH]; intros Hg; [constructor|].
  cbn [omap list_omap]. destruct (g x) as [[b c]|] eqn:Hgx.
  - cbn [fmap list_fmap]. constructor.
    + intros Hb. apply list_elem_of_fmap in Hb as ([b' c'] & Hb & Hin). simpl in Hb. subst b'.
      apply list_elem_of_omap in Hin as (y & Hy & Hgy). apply Hx.
      rewrite (Hg x y b c c'); set_solver.
    + apply IH. intros; eapply Hg; set_solver.
  - apply IH. intros; eapply Hg; set_solver.
Qed.

Lemma entries_NoDup m : loose m -> NoDup (entries m).*1.
Proof.
  intros Hm. apply NoDup_omap_fst; [apply NoDup_seqZ|].
  intros x y b c c' Hx Hy. apply elem_of_seqZ in Hx, Hy. apply (loose_unique m Hm); lia.
Qed.
Lemma contents_loose m k v :
  loose m -> contents m !! k = Some v <-> exists i, 0 <= i < num_buckets m /\ entry m i = Some (k, v).
Proof.
  intros Hm. unfold contents. rewrite <- elem_of_list_to_map by now apply entries_NoDup.
  unfold entries. rewrite list_elem_of_omap. split; intros (i & Hi & He); exists i.
  - apply elem_of_seqZ in Hi. split; [lia|done].
  - split; [apply elem_of_seqZ; lia|done].
Qed.

Section contents.
Context (m : bpftime_hash_map_t) (Hm : wf m).

Lemma contents_lookup k v :
  contents m !! k = Some v <-> exists i, 0 <= i < num_buckets m /\ entry m i = Some (k, v).
Proof. apply contents_loose, wf_loose, Hm. Qed.
Lemma contents_size : size (contents m) = length (entries m).
Proof. unfold contents. apply map_size_list_to_map, entries_NoDup, wf_loose, Hm. Qed.

Lemma nb_pos : 0 < num_buckets m < 4294967296.
Proof. destruct (wf_sized m Hm). nia. Qed.
Lemma home_range key : 0 <= home m key < num_buckets m.
Proof. apply Z.mod_pos_bound, nb_pos. Qed.
Lemma at_pos_range key d : 0 <= at_pos m key d < num_buckets m.
Proof. apply pos_range, nb_pos. Qed.

(** A stored key lies on its probing path, before the first empty bucket. *)
Lemma contents_path key v :
  contents m !! key = Some v -> exists d, (d < Z.to_nat (num_buckets m))%nat /\
    entry m (at_pos m key d) = Some (key, v).
Proof.
  intros Hc. apply contents_lookup in Hc as (i & Hi & He).
  destruct (pos_surj _ _ i (home_range key) Hi) as (d & Hd & Hp). exists d.
  split; [done|]. unfold at_pos. now rewrite Hp.
Qed.

(** Probing stops at an empty bucket only for keys that are not stored. *)
Lemma empty_on_path key d :
  (d < Z.to_nat (num_buckets m))%nat -> entry m (at_pos m key d) = None ->
  (forall d' v, (d' < d)%nat -> entry m (at_pos m key d') <> Some (key, v)) ->
  contents m !! key = None.
Proof.
  intros Hd He Hbefore. destruct (contents m !! key) as [v|] eqn:Hc; [exfalso|done].
  apply contents_path in Hc as (d1 & Hd1 & He1).
  destruct (lt_eq_lt_dec d1 d) as [[Hlt| ->]|Hgt].
  - now apply (Hbefore d1 v).
  - congruence.
  - now apply (wf_path m Hm key v d1 d).
Qed.
Lemma match_on_path key d v :
  entry m (at_pos m key d) = Some (key, v) -> contents m !! key = Some v.
Proof. intros He. apply contents_lookup. exists (at_pos m key d). split; [apply at_pos_range|done]. Qed.
End contents.

(** ** Lookup *)

(** [elem_lookup] on a well-formed table ends without leaving the buffer and
    finds exactly the stored keys: it returns a pointer to the value that the
    table holds for the key, or null when it holds none. *)
Lemma elem_lookup_spec (m : bpftime_hash_map_t) (key : list Z) :
  wf m -> length key = Z.to_nat (key_size m) ->
  match contents m !! key with
  | None => elem_lookup m key = Some None
  | Some v => exists p, elem_lookup m key = Some (Some p) /\
                slice p (Z.to_nat (value_size m)) (data_buffer m) = Some v
  end.
Proof.
  intros Hm Hkey. pose proof (wf_sized m Hm) as Hs. unfold elem_lookup, probe_from.
  fold (home m key).
  destruct (probe_spec _ (lookup_body m key) _ (nb_pos m Hm)
    (fun i => lookup_body_entry m Hs key Hkey i) (home m key) (home_range m Hm key))
    as (r & -> & Hr). cbn [mbind option_bind].
  destruct r as [x|]; cbn [default].
  - destruct Hr as (d & Hd & Hx & Hbefore).
    assert (Hb : forall d' v, (d' < d)%nat -> entry m (at_pos m key d') <> Some (key, v)).
    { intros d' v Hd' He. specialize (Hbefore d' Hd'). fold (at_pos m key d') in Hbefore.
      rewrite He, bool_decide_eq_true_2 in Hbefore; done. }
    fold (at_pos m key d) in Hx. destruct (entry m (at_pos m key d)) as [[k v]|] eqn:He.
    + destruct (bool_decide_reflect (k = key)) as [->|]; [|done]. injection Hx as <-.
      rewrite (match_on_path m Hm key d v He). eexists. split; [done|].
      pose proof (at_pos_range m Hm key d) as Hp. rewrite get_value_eq by done.
      unfold entry in He. destruct (_ =? 0); [done|]. congruence.
    + injection Hx as <-. now rewrite (empty_on_path m Hm key d).
  - destruct (contents m !! key) as [v|] eqn:Hc; [exfalso|done].
    apply contents_lookup in Hc as (i & Hi & He); [|done]. specialize (Hr i Hi). cbn beta in Hr.
    rewrite He, bool_decide_eq_true_2 in Hr; done.
Qed.

(** ** Update *)

(** The table after one bucket changed. *)
Section rebucketed.
Context (m m' : bpftime_hash_map_t) (i : Z) (c : list Z) (Hm : wf m).
Context (Hi : 0 <= i < num_buckets m) (Hr : rebucket m i c m').

Lemma rebucket_shape :
  num_buckets m' = num_buckets m /\ key_size m' = key_size m /\ value_size m' = value_size m.
Proof. destruct Hr as ((b & ->) & _). done. Qed.
Lemma rebucket_at_pos key d : at_pos m' key d = at_pos m key d.
Proof. unfold at_pos, home. now destruct rebucket_shape as (-> & -> & _). Qed.
Lemma rebucket_other j : 0 <= j -> j <> i -> entry m' j = entry m j.
Proof.
  intros H0 Hj. destruct Hr as ((b & E) & _ & _ & Ho). specialize (Ho j H0 Hj).
  rewrite E in Ho |- *. now apply entry_bucket.
Qed.
Lemma rebucket_same f k v :
  c = f ++ k ++ v -> length f = 4%nat -> length k = Z.to_nat (key_size m) ->
  entry m' i = if le_join f =? 0 then None else Some (k, v).
Proof.
  intros Hc Hf Hk. destruct Hr as (_ & _ & Hb & _). apply entry_parts; [congruence|done|].
  now rewrite (proj1 (proj2 rebucket_shape)).
Qed.

(** Bucket [i] is the first one where the update of a key stops, and holds the
    new entry afterwards. *)
Context (key value : list Z) (d : nat).
Context (Hpos : i = at_pos m key d) (Hd : (d < Z.to_nat (num_buckets m))%nat).
Context (Hnew : entry m' i = Some (key, value)).
Context (Hold : forall k v, entry m i = Some (k, v) -> k = key).
Context (Hnokey : forall d' v, (d' < d)%nat -> entry m (at_pos m key d') <> Some (key, v)).
Context (Hfull : forall d', (d' < d)%nat -> entry m (at_pos m key d') <> None).

Lemma fill_unique j v : 0 <= j < num_buckets m -> j <> i -> entry m j <> Some (key, v).
Proof.
  intros Hj Hne He.
  assert (contents m !! key = Some v) as Hc by (apply contents_lookup; eauto).
  apply contents_path in Hc as (d1 & Hd1 & He1); [|done].
  assert (at_pos m key d1 = j) as Hj1.
  { eapply (wf_unique m Hm); [apply (at_pos_range m Hm)|done|exact He1|exact He]. }
  destruct (lt_eq_lt_dec d1 d) as [[Hlt|Heq]|Hgt].
  - now apply (Hnokey d1 v).
  - subst d1. congruence.
  - destruct (entry m i) as [[k w]|] eqn:Hei.
    + specialize (Hold k w eq_refl). subst k. apply Hne.
      eapply (wf_unique m Hm); [done|exact Hi|exact He|exact Hei].
    + apply (wf_path m Hm key v d1 d Hd1 He1 Hgt). now rewrite <- Hpos.
Qed.

Lemma fill_entry j k v :
  0 <= j < num_buckets m -> entry m' j = Some (k, v) ->
  j = i /\ k = key /\ v = value \/ j <> i /\ k <> key /\ entry m j = Some (k, v).
Proof.
  intros Hj He. destruct (decide (j = i)) as [->|Hne].
  - left. rewrite Hnew in He. now injection He as <- <-.
  - right. rewrite rebucket_other in He by lia. split; [done|]. split; [|done].
    intros ->. now apply (fill_unique j v).
Qed.

Lemma fill_wf : wf m'.
Proof.
  destruct rebucket_shape as (En & Ek & Ev). split.
  - apply Hr.
  - rewrite En. intros j1 j2 k v v' H1 H2 E1 E2.
    apply fill_entry in E1 as [(-> & -> & _)|(? & ? & E1)], E2 as [(-> & ? & _)|(? & ? & E2)]; try done.
    eapply (wf_unique m Hm); eassumption.
  - rewrite En. intros k v d1 d2 Hd1 He Hd2. rewrite rebucket_at_pos in *.
    pose proof (at_pos_range m Hm k d1) as R1. pose proof (at_pos_range m Hm k d2) as R2.
    destruct (decide (at_pos m k d2 = i)) as [->|Hne]; [now rewrite Hnew|].
    rewrite rebucket_other by lia.
    apply fill_entry in He as [(Hi1 & -> & _)|(_ & _ & He)]; [|by eapply (wf_path m Hm)|done].
    apply Hfull. rewrite Hpos in Hi1. apply (pos_inj _ _ _ _ (home_range m Hm key)) in Hi1; [|done..].
    now subst.
Qed.

(** Filling it adds the key. *)
Lemma fill_contents : contents m' = <[key := value]> (contents m).
Proof.
  destruct rebucket_shape as (En & Ek & Ev).
  apply map_eq. intros k. apply option_eq. intros v.
  rewrite (contents_lookup m' fill_wf), lookup_insert_Some, (contents_lookup m Hm), En. split.
  - intros (j & Hj & He). apply fill_entry in He as [(-> & -> & ->)|(Hne & Hk & He)]; [now left| |done].
    right. split; [congruence|eauto].
  - intros [[<- <-]|(Hk & j & Hj & He)]; [now exists i|]. exists j. split; [done|].
    rewrite rebucket_other; [done|lia|]. intros ->. apply Hk. symmetry. now apply (Hold k v).
Qed.
End rebucketed.

Section update.
Context (m : bpftime_hash_map_t) (Hm : sized m) (key value : list Z).
Context (Hkey : length key = Z.to_nat (key_size m)).
Context (Hvalue : length value = Z.to_nat (value_size m)).

(** Whether the body of [elem_update] takes the bucket. *)
Definition takes (i : Z) : bool :=
  match entry m i with None => true | Some (k, _) => bool_decide (k = key) end.

Lemma update_body_entry i :
  0 <= i < num_buckets m ->
  update_body m key value i = Some None /\ takes i = false
  \/ exists m', update_body m key value i = Some (Some m') /\ takes i = true
       /\ rebucket m i (le_split 4 1 ++ key ++ value) m'.
Proof.
  intros Hi. rename Hm into Hs.
  destruct (fill_bucket m i key value Hs Hi Hkey Hvalue) as (m' & Hf & Hr).
  unfold update_body, takes. rewrite is_empty_entry by done.
  rewrite (take_ge key) by lia. cbn [mbind option_bind].
  destruct (entry m i) as [[k v]|] eqn:He; cbn [opt_empty].
  - rewrite (key_match_entry m Hs key Hkey i k v) by done. cbn [mbind option_bind].
    destruct (bool_decide (k = key)) eqn:Hb; [right|left; done].
    exists m'. split; [|done]. exact Hf.
  - right. exists m'. split; [|done]. exact Hf.
Qed.
End update.

(** A bucket that the update passes holds another key. *)
Lemma takes_false m key i :
  takes m key i = false -> (forall v, entry m i <> Some (key, v)) /\ entry m i <> None.
Proof.
  unfold takes. intros Ht. destruct (entry m i) as [[k v]|]; [|done].
  apply bool_decide_eq_false in Ht. split; [|done]. congruence.
Qed.

Lemma entries_full m :
  (forall i, 0 <= i < num_buckets m -> entry m i <> None) -> 0 <= num_buckets m ->
  Z.of_nat (length (entries m)) = num_buckets m.
Proof.
  intros Hf Hn. unfold entries. transitivity (Z.of_nat (length (seqZ 0 (num_buckets m)))).
  - f_equal. assert (forall l : list Z, (forall i, i ∈ l -> entry m i <> None) ->
      length (omap (entry m) l) = length l) as G.
    { induction l as [|i l IH]; intros Hl; [done|]. cbn [omap list_omap length].
      destruct (entry m i) eqn:He; [cbn [length]; f_equal; apply IH; set_solver|].
      exfalso. apply (Hl i); [set_solver|done]. }
    apply G. intros i Hi. apply elem_of_seqZ in Hi. apply Hf. lia.
  - rewrite length_seqZ. lia.
Qed.

Lemma elem_update_cases (m : bpftime_hash_map_t) (key value : list Z) :
  wf m -> length key = Z.to_nat (key_size m) -> length value = Z.to_nat (value_size m) ->
  exists r m', elem_update m key value = Some (r, m') /\ wf m' /\
    (num_buckets m' = num_buckets m /\ key_size m' = key_size m /\ value_size m' = value_size m) /\
    (r = 1 /\ contents m' = <[key := value]> (contents m)
     \/ r = 0 /\ m' = m /\ contents m !! key = None
        /\ Z.of_nat (size (contents m)) = num_buckets m).
Proof.
  intros Hm Hkey Hvalue.
  pose proof (update_body_entry m (wf_sized m Hm) key value Hkey Hvalue) as Hb.
  unfold elem_update, probe_from. fold (home m key).
  destruct (probe_spec _ (update_body m key value)
    (fun i => default None (update_body m key value i)) (nb_pos m Hm)) with (h := home m key)
    as (r & -> & Hr); [|apply (home_range m Hm)|].
  { intros i Hi. now destruct (Hb i Hi) as [[-> _]|(m' & -> & _)]. }
  cbn [mbind option_bind]. destruct r as [m'|].
  - destruct Hr as (d & Hd & Hx & Hbefore). fold (at_pos m key d) in Hx.
    pose proof (at_pos_range m Hm key d) as Hp.
    destruct (Hb _ Hp) as [[E _]|(m1 & E & Ht & Hrb)]; rewrite E in Hx; [done|].
    cbn [default] in Hx. injection Hx as ->.
    assert (Hskip : forall d', (d' < d)%nat -> takes m key (at_pos m key d') = false).
    { intros d' Hd'. specialize (Hbefore d' Hd'). fold (at_pos m key d') in Hbefore.
      destruct (Hb _ (at_pos_range m Hm key d')) as [[_ ?]|(m2 & E2 & _)]; [done|].
      now rewrite E2 in Hbefore. }
    assert (Hnew : entry m' (at_pos m key d) = Some (key, value)).
    { now rewrite (rebucket_same m m' _ _ Hrb (le_split 4 1) key value). }
    assert (Hold : forall k v, entry m (at_pos m key d) = Some (k, v) -> k = key).
    { intros k v He. unfold takes in Ht. rewrite He in Ht. now apply bool_decide_eq_true in Ht. }
    pose proof (fun d' v Hd' => proj1 (takes_false m key _ (Hskip d' Hd')) v) as Hnokey.
    pose proof (fun d' Hd' => proj2 (takes_false m key _ (Hskip d' Hd'))) as Hfull.
    exists 1, m'. split; [done|]. split; [|split; [|left; split; [done|]]].
    + eapply fill_wf; eauto.
    + eapply rebucket_shape, Hrb.
    + eapply fill_contents; eauto.
  - exists 0, m. split; [done|]. split; [done|]. split; [done|]. right. split; [done|]. split; [done|].
    assert (Hall : forall i, 0 <= i < num_buckets m -> takes m key i = false).
    { intros i Hi. specialize (Hr i Hi). cbn beta in Hr.
      destruct (Hb i Hi) as [[_ ?]|(m2 & E2 & _)]; [done|]. now rewrite E2 in Hr. }
    split.
    + destruct (contents m !! key) as [v|] eqn:Hc; [|done].
      apply contents_lookup in Hc as (i & Hi & He); [|done].
      now destruct (proj1 (takes_false m key i (Hall i Hi)) v).
    + rewrite contents_size by done. apply entries_full; [|pose proof (nb_pos m Hm); lia].
      intros i Hi. apply (takes_false m key i), Hall, Hi.
Qed.

(** What an update promises: a finite map with room for [n] keys. *)
Definition bounded_insert (n : Z) (key value : list Z) (t : gmap (list Z) (list Z))
    : Z * gmap (list Z) (list Z) :=
  if bool_decide (is_Some (t !! key)) || (Z.of_nat (size t) <? n)
  then (1, <[key := value]> t) else (0, t).

Lemma contents_bound m : wf m -> Z.of_nat (size (contents m)) <= num_buckets m.
Proof.
  intros Hm. rewrite contents_size by done. unfold entries.
  enough (forall l : list Z, (length (omap (entry m) l) <= length l)%nat) as G.
  { specialize (G (seqZ 0 (num_buckets m))). rewrite length_seqZ in G. pose proof (nb_pos m Hm). lia. }
  induction l as [|i l IH]; [done|]. cbn [omap list_omap]. destruct (entry m i); cbn [length]; lia.
Qed.

(** [elem_update] on a well-formed table never leaves the buffer, keeps the
    table well formed, and is the insertion into a finite map with room for
    [num_buckets] keys: it returns 1 and sets the key, or, when the key is new
    and every bucket in use, returns 0 and changes nothing. *)
Lemma elem_update_spec (m : bpftime_hash_map_t) (key value : list Z) :
  wf m -> length key = Z.to_nat (key_size m) -> length value = Z.to_nat (value_size m) ->
  let r := bounded_insert (num_buckets m) key value (contents m) in
  exists m', elem_update m key value = Some (r.1, m') /\ wf m' /\ contents m' = r.2
    /\ num_buckets m' = num_buckets m /\ key_size m' = key_size m /\ value_size m' = value_size m.
Proof.
  intros Hm Hkey Hvalue.
  destruct (elem_update_cases m key value Hm Hkey Hvalue)
    as (r & m' & E & Hm' & Hsh & Hcase). exists m'. unfold bounded_insert.
  destruct Hcase as [(-> & Hc)|(-> & -> & Hn & Hs)].
  - rewrite E. destruct (bool_decide_reflect (is_Some (contents m !! key))) as [|Hno]; [done|].
    assert (contents m !! key = None) as Hnone by now apply eq_None_not_Some.
    pose proof (contents_bound m' Hm') as Hb. rewrite Hc, map_size_insert_None in Hb by done.
    destruct Hsh as (E1 & E2 & E3).
    destruct (Z.ltb_spec (Z.of_nat (size (contents m))) (num_buckets m)); [done|lia].
  - rewrite E, Hn, bool_decide_eq_false_2 by (intros [? ?]; done).
    destruct (Z.ltb_spec (Z.of_nat (size (contents m))) (num_buckets m)); [lia|done].
Qed.

(** ** Counting *)

(** [get_elem_count] is the number of buckets in use, and of keys if none is stored twice. *)
Lemma count_entries m : sized m -> get_elem_count m = Some (Z.of_nat (length (entries m))).
Proof.
  intros Hs. assert (Hn : 0 < num_buckets m < 4294967296) by (destruct Hs; nia).
  enough (G : forall n i c, 0 <= i -> i + Z.of_nat n <= num_buckets m ->
    0 <= c -> c + Z.of_nat n < 4294967296 ->
    count_loop m n i c = Some (c + Z.of_nat (length (omap (entry m) (seqZ i (Z.of_nat n)))))).
  { unfold get_elem_count, entries. rewrite G by lia. now rewrite Z2Nat.id by lia. }
  induction n as [|n IH]; intros i c Hi Hle Hc Hcn; cbn [count_loop].
  - simpl. f_equal. lia.
  - rewrite is_empty_entry by (done || lia). cbn [mbind option_bind].
    rewrite seqZ_cons by lia. cbn [omap list_omap].
    replace (Z.pred (Z.of_nat (S n))) with (Z.of_nat n) by lia.
    replace (Z.succ i) with (i + 1) by lia.
    destruct (entry m i); cbn [opt_empty length].
    + rewrite u32_id by (unfold is_u32; lia). rewrite IH by lia. f_equal. lia.
    + now rewrite IH by lia.
Qed.
Lemma count_loose m : loose m -> get_elem_count m = Some (Z.of_nat (size (contents m))).
Proof.
  intros Hl. rewrite count_entries by apply Hl. do 2 f_equal. symmetry.
  apply map_size_list_to_map, entries_NoDup, Hl.
Qed.
Lemma get_elem_count_correct (m : bpftime_hash_map_t) :
  wf m -> get_elem_count m = Some (Z.of_nat (size (contents m))).
Proof. intros Hm. now apply count_loose, wf_loose. Qed.

(** ** Deletion *)

(** [elem_delete] empties the bucket of the key and leaves no mark in it, so a
    key that had been pushed past that bucket is no longer reached. *)

Section delete.
Context (m : bpftime_hash_map_t) (Hm : wf m) (key : list Z).
Context (Hkey : length key = Z.to_nat (key_size m)).

Lemma delete_body_entry i :
  0 <= i < num_buckets m ->
  match entry m i with
  | None => delete_body m key i = Some (Some (0, m))
  | Some (k, v) =>
      if bool_decide (k = key) then
        exists m', delete_body m key i = Some (Some (1, m'))
          /\ rebucket m i (le_split 4 0 ++ b_key m i ++ b_value m i) m'
      else delete_body m key i = Some None
  end.
Proof.
  intros Hi. pose proof (wf_sized m Hm) as Hs. unfold delete_body.
  rewrite is_empty_entry by done. cbn [mbind option_bind].
  destruct (entry m i) as [[k v]|] eqn:He; cbn [opt_empty]; [|done].
  rewrite (key_match_entry m Hs key Hkey i k v) by done. cbn [mbind option_bind].
  destruct (bool_decide (k = key)); [|done].
  destruct (empty_bucket m i Hs Hi) as (m' & -> & Hr). eauto.
Qed.
End delete.

Section emptied.
Context (m m' : bpftime_hash_map_t) (i : Z) (key v : list Z) (Hm : wf m).
Context (Hi : 0 <= i < num_buckets m) (He : entry m i = Some (key, v)).
Context (Hr : rebucket m i (le_split 4 0 ++ b_key m i ++ b_value m i) m').

Lemma emptied_entry j : 0 <= j -> entry m' j = if decide (j = i) then None else entry m j.
Proof.
  intros Hj. destruct (decide (j = i)) as [->|Hne].
  - destruct (bucket_lengths m (wf_sized m Hm) i Hi) as (LF & LK & LV).
    now rewrite (rebucket_same m m' i _ Hr (le_split 4 0) (b_key m i) (b_value m i)).
  - now apply (rebucket_other m m' i _ Hr).
Qed.

Lemma emptied_loose : loose m'.
Proof.
  destruct (rebucket_shape m m' i _ Hr) as (En & Ek & _). split; [apply Hr|].
  rewrite En. intros j1 j2 k w w' H1 H2. rewrite !emptied_entry by lia.
  destruct (decide (j1 = i)), (decide (j2 = i)); try done. now apply (wf_unique m Hm).
Qed.

(** Emptying the bucket of a key removes the key from the map of the entries. *)
Lemma emptied_contents : contents m' = delete key (contents m).
Proof.
  destruct (rebucket_shape m m' i _ Hr) as (En & Ek & _).
  apply map_eq. intros k. apply option_eq. intros w.
  rewrite (contents_loose m' k w emptied_loose), lookup_delete_Some, (contents_lookup m Hm), En. split.
  - intros (j & Hj & Hw). rewrite emptied_entry in Hw by lia. destruct (decide (j = i)) as [|Hne]; [done|].
    split; [|eauto]. intros ->. apply Hne.
    eapply (wf_unique m Hm); [exact Hj|exact Hi|exact Hw|exact He].
  - intros (Hk & j & Hj & Hw). exists j. split; [done|]. rewrite emptied_entry by lia.
    rewrite decide_False; [done|]. congruence.
Qed.

(** No probing path crosses the bucket when the next bucket is empty. *)
Lemma emptied_wf : entry m (u32 (i + 1) mod num_buckets m) = None -> wf m'.
Proof.
  intros Hnext. destruct (rebucket_shape m m' i _ Hr) as (En & Ek & _).
  destruct emptied_loose as [Hs Hu]. split; [done|done|].
  rewrite En. intros k w d1 d2 Hd1 Hw Hd2. rewrite (rebucket_at_pos m m' i _ Hr) in *.
  pose proof (at_pos_range m Hm k d1) as R1. pose proof (at_pos_range m Hm k d2) as R2.
  rewrite emptied_entry in Hw |- * by lia. destruct (decide (at_pos m k d1 = i)); [done|].
  destruct (decide (at_pos m k d2 = i)) as [Hc|]; [|by eapply (wf_path m Hm)].
  exfalso. assert (Hnx : at_pos m k (S d2) = u32 (i + 1) mod num_buckets m).
  { rewrite <- Hc. unfold at_pos. symmetry. apply pos_next, nb_pos, Hm. }
  destruct (decide (S d2 = d1)) as [<-|Hne]; [congruence|].
  apply (wf_path m Hm k w d1 (S d2) Hd1 Hw); [lia|]. now rewrite Hnx.
Qed.
End emptied.

(** A lookup in a table that deletions have loosened may miss a stored key, and
    never returns a wrong value. *)
Lemma lookup_loose m key :
  loose m -> length key = Z.to_nat (key_size m) ->
  elem_lookup m key = Some None \/
  exists p v, elem_lookup m key = Some (Some p) /\ contents m !! key = Some v
    /\ slice p (Z.to_nat (value_size m)) (data_buffer m) = Some v.
Proof.
  intros Hl Hkey. pose proof (loose_sized m Hl) as Hs.
  unfold elem_lookup, probe_from. fold (home m key).
  assert (Hn : 0 < num_buckets m < 4294967296) by (destruct Hs; nia).
  destruct (probe_spec _ (lookup_body m key) _ Hn
    (fun i => lookup_body_entry m Hs key Hkey i) (home m key))
    as (r & -> & Hr); [apply Z.mod_pos_bound; lia|]. cbn [mbind option_bind].
  destruct r as [x|]; cbn [default]; [|now left].
  destruct Hr as (d & Hd & Hx & _).
  pose proof (pos_range _ (home m key) d (proj1 Hn)) as Hp. fold (at_pos m key d) in *.
  destruct (entry m (at_pos m key d)) as [[k v]|] eqn:He.
  - destruct (bool_decide_reflect (k = key)) as [->|]; [|done]. injection Hx as <-.
    right. exists (get_value m (at_pos m key d)), v. split; [done|]. split.
    + apply contents_loose; eauto.
    + rewrite get_value_eq by done. unfold entry in He. destruct (_ =? 0); [done|]. congruence.
  - injection Hx as <-. now left.
Qed.

(** [elem_delete] on a well-formed table empties the bucket of the key, if there is one. *)
Lemma elem_delete_cases (m : bpftime_hash_map_t) (key : list Z) :
  wf m -> length key = Z.to_nat (key_size m) ->
  match contents m !! key with
  | None => elem_delete m key = Some (0, m)
  | Some v => exists i m', 0 <= i < num_buckets m /\ entry m i = Some (key, v) /\ elem_delete m key = Some (1, m') /\
      rebucket m i (le_split 4 0 ++ b_key m i ++ b_value m i) m'
  end.
Proof.
  intros Hm Hkey. pose proof (delete_body_entry m Hm key Hkey) as Hb.
  unfold elem_delete, probe_from. fold (home m key).
  destruct (probe_spec _ (delete_body m key)
    (fun i => default None (delete_body m key i)) (nb_pos m Hm)) with (h := home m key)
    as (r & -> & Hr); [|apply (home_range m Hm)|].
  { intros i Hi. specialize (Hb i Hi). destruct (entry m i) as [[k v]|]; [|now rewrite Hb].
    destruct (bool_decide (k = key)); [|now rewrite Hb]. now destruct Hb as (m' & -> & _). }
  assert (Hskip : forall i, 0 <= i < num_buckets m -> default None (delete_body m key i) = None ->
    forall v, entry m i <> Some (key, v)).
  { intros i Hi Hd v He. specialize (Hb i Hi). rewrite He, bool_decide_eq_true_2 in Hb by done.
    destruct Hb as (m' & E & _). now rewrite E in Hd. }
  cbn [mbind option_bind]. destruct r as [x|]; cbn [default].
  - destruct Hr as (d & Hd & Hx & Hbefore). fold (at_pos m key d) in Hx.
    pose proof (at_pos_range m Hm key d) as Hp. specialize (Hb _ Hp).
    destruct (entry m (at_pos m key d)) as [[k v]|] eqn:He.
    + destruct (bool_decide_reflect (k = key)) as [->|]; [|now rewrite Hb in Hx].
      destruct Hb as (m' & E & Hrb). rewrite E in Hx. injection Hx as <-.
      rewrite (match_on_path m Hm key d v He). exists (at_pos m key d), m'. done.
    + rewrite Hb in Hx. injection Hx as <-. rewrite (empty_on_path m Hm key d); [done..|].
      intros d' w Hd'. apply Hskip; [apply (at_pos_range m Hm)|]. now apply Hbefore.
  - destruct (contents m !! key) as [v|] eqn:Hc; [exfalso|done].
    apply contents_lookup in Hc as (i & Hi & He); [|done]. now apply (Hskip i Hi (Hr i Hi) v).
Qed.

(** [elem_delete] on a well-formed table returns 1 exactly when the key was
    there, and removes its entry and no other from the buffer.  After it a lookup
    may miss a stored key but never returns a wrong value, and the table stays
    well formed when the bucket after the emptied one is empty. *)
Lemma elem_delete_correct (m : bpftime_hash_map_t) (key : list Z) :
  wf m -> length key = Z.to_nat (key_size m) ->
  match contents m !! key with
  | None => elem_delete m key = Some (0, m)
  | Some v => exists i m', entry m i = Some (key, v) /\ elem_delete m key = Some (1, m') /\
      contents m' = delete key (contents m) /\
      (entry m (u32 (i + 1) mod num_buckets m) = None -> wf m') /\
      forall k, length k = Z.to_nat (key_size m) ->
        elem_lookup m' k = Some None \/
        exists p w, elem_lookup m' k = Some (Some p) /\ contents m' !! k = Some w
          /\ slice p (Z.to_nat (value_size m)) (data_buffer m') = Some w
  end.
Proof.
  intros Hm Hkey. pose proof (elem_delete_cases m key Hm Hkey) as Hc.
  destruct (contents m !! key) as [v|]; [|done]. destruct Hc as (i & m' & Hi & He & E & Hrb). exists i, m'.
  destruct (rebucket_shape _ _ _ _ Hrb) as (En & Ek & Ev). pose proof (emptied_loose m m' i Hm Hi Hrb) as Hl.
  split; [done|]. split; [done|]. split; [eapply emptied_contents; eauto|]. split; [eapply emptied_wf; eauto|].
  intros k Hk. rewrite <- Ev. apply lookup_loose; [done|now rewrite Ek].
Qed.

(** A probing sequence in any table, up to the first bucket where it stops. *)
Section path.
Context (m : bpftime_hash_map_t) (Hm : sized m) (key : list Z) (d : nat).
Context (Hkey : length key = Z.to_nat (key_size m)) (Hd : (d < Z.to_nat (num_buckets m))%nat).
Context (Hskip : forall d', (d' < d)%nat -> takes m key (at_pos m key d') = false).

Lemma sized_range : 0 < num_buckets m < 4294967296.
Proof. destruct Hm; nia. Qed.
Lemma sized_at_pos d' : 0 <= at_pos m key d' < num_buckets m.
Proof. apply pos_range, sized_range. Qed.
Lemma lookup_path :
  takes m key (at_pos m key d) = true ->
  match entry m (at_pos m key d) with
  | None => elem_lookup m key = Some None
  | Some (_, v) => exists p, elem_lookup m key = Some (Some p) /\
                     slice p (Z.to_nat (value_size m)) (data_buffer m) = Some v
  end.
Proof.
  intros Ht. unfold elem_lookup, probe_from. fold (home m key).
  pose proof (probe_first _ (lookup_body m key) _ sized_range
    (fun i => lookup_body_entry m Hm key Hkey i) (home m key) (Z.mod_pos_bound _ _ (proj1 sized_range)) d) as Hp.
  cbv beta in Hp. fold (at_pos m key d) in Hp. unfold takes in Ht, Hskip. pose proof (sized_at_pos d) as Hr.
  assert (Hb : forall d', (d' < d)%nat -> match entry m (pos (num_buckets m) (home m key) d') with
      | None => Some None
      | Some (k, v) => if bool_decide (k = key) then Some (Some (get_value m (pos (num_buckets m) (home m key) d'))) else None
      end = None).
  { intros d' Hd'. specialize (Hskip d' Hd'). fold (at_pos m key d').
    destruct (entry m (at_pos m key d')) as [[k v]|]; [now rewrite Hskip|done]. }
  destruct (entry m (at_pos m key d)) as [[k v]|] eqn:He.
  - rewrite Ht in Hp. rewrite (Hp _ Hd eq_refl Hb). eexists. split; [done|].
    rewrite get_value_eq by done. unfold entry in He. destruct (_ =? 0); [done|]. congruence.
  - now rewrite (Hp _ Hd eq_refl Hb).
Qed.
Lemma update_path value :
  length value = Z.to_nat (value_size m) -> takes m key (at_pos m key d) = true ->
  exists m', elem_update m key value = Some (1, m')
    /\ rebucket m (at_pos m key d) (le_split 4 1 ++ key ++ value) m'.
Proof.
  intros Hvalue Ht. pose proof (update_body_entry m Hm key value Hkey Hvalue) as Hb.
  destruct (Hb _ (sized_at_pos d)) as [[_ Hf]|(m' & E & _ & Hr)]; [congruence|]. exists m'. split; [|done].
  unfold elem_update, probe_from. fold (home m key).
  rewrite (probe_first _ (update_body m key value) (fun i => default None (update_body m key value i)) sized_range)
    with (d := d) (x := m'); [done| |apply Z.mod_pos_bound, sized_range|done| |].
  - intros i Hi. destruct (Hb i Hi) as [[-> _]|(m1 & -> & _)]; done.
  - fold (at_pos m key d). now rewrite E.
  - intros d' Hd'. fold (at_pos m key d'). specialize (Hskip d' Hd').
    destruct (Hb _ (sized_at_pos d')) as [[-> _]|(m1 & _ & Ht' & _)]; [done|congruence].
Qed.
End path.

(** One more bucket in use. *)
Lemma omap_same {A B} (f g : A -> option B) (l : list A) : (forall z, z ∈ l -> g z = f z) -> omap g l = omap f l.
Proof.
  induction l as [|z l IH]; intros Ho; [done|]. cbn [omap list_omap]. rewrite (Ho z), IH by set_solver. done.
Qed.
Lemma omap_one_more {B} (f g : Z -> option B) x y (l : list Z) :
  NoDup l -> x ∈ l -> f x = None -> g x = Some y -> (forall z, z ∈ l -> z <> x -> g z = f z) ->
  length (omap g l) = S (length (omap f l)).
Proof.
  intros Hnd Hx Hf Hg Ho. induction Hnd as [|z l Hz Hnd IH]; [by apply not_elem_of_nil in Hx|]. cbn [omap list_omap].
  destruct (decide (z = x)) as [->|Hne].
  - rewrite Hf, Hg. cbn [length]. do 2 f_equal. apply omap_same.
    intros z Hin. apply Ho; [by apply list_elem_of_further|]. now intros ->.
  - apply elem_of_cons in Hx as [->|Hx]; [done|]. rewrite (Ho z) by (done || by apply list_elem_of_here).
    specialize (IH Hx (fun z' Hin => Ho z' (list_elem_of_further _ _ _ Hin))).
    destruct (f z); cbn [length]; now rewrite IH.
Qed.

(** The keys of a table from which one bucket, that of [key], was emptied. *)
Section freed.
Context (m m' : bpftime_hash_map_t) (i : Z) (key v : list Z) (Hm : wf m).
Context (Hi : 0 <= i < num_buckets m) (He : entry m i = Some (key, v)).
Context (Hr : rebucket m i (le_split 4 0 ++ b_key m i ++ b_value m i) m').
Context (k w : list Z) (d : nat) (Hd : (d < Z.to_nat (num_buckets m))%nat) (Hk : length k = Z.to_nat (key_size m)).
Context (Hw : entry m (at_pos m k d) = Some (k, w)) (Hne : k <> key).

Lemma freed_entry d' :
  entry m' (at_pos m' k d') = if decide (at_pos m k d' = i) then None else entry m (at_pos m k d').
Proof.
  rewrite (rebucket_at_pos _ _ _ _ Hr). apply (emptied_entry m m' i Hm Hi Hr). apply (at_pos_range m Hm).
Qed.
Lemma freed_home : at_pos m k d <> i.
Proof. intros E. congruence. Qed.
Lemma freed_skip d' : (d' < d)%nat -> at_pos m k d' <> i -> takes m' k (at_pos m' k d') = false.
Proof.
  intros Hd' Hi'. unfold takes. rewrite freed_entry, decide_False by done.
  destruct (entry m (at_pos m k d')) as [[k1 v1]|] eqn:E; [|now destruct (wf_path m Hm k w d d' Hd Hw Hd')].
  apply bool_decide_eq_false. intros ->.
  pose proof (wf_unique m Hm _ _ k _ _ (at_pos_range m Hm k d') (at_pos_range m Hm k d) E Hw) as Hp.
  apply (pos_inj _ _ _ _ (home_range m Hm k)) in Hp; lia.
Qed.
Lemma freed_shape :
  sized m' /\ num_buckets m' = num_buckets m /\ key_size m' = key_size m /\ value_size m' = value_size m.
Proof. split; [apply Hr|]. exact (rebucket_shape _ _ _ _ Hr). Qed.

(** A key whose sequence does not cross the bucket is found. *)
Lemma freed_found :
  (forall d', (d' < d)%nat -> at_pos m k d' <> i) ->
  exists p, elem_lookup m' k = Some (Some p) /\ slice p (Z.to_nat (value_size m)) (data_buffer m') = Some w.
Proof.
  intros Hp. destruct freed_shape as (Hs & En & Ek & Ev).
  pose proof (lookup_path m' Hs k d) as Hl. rewrite Ek, En, Ev in Hl.
  specialize (Hl Hk Hd (fun d' Hd' => freed_skip d' Hd' (Hp d' Hd'))).
  rewrite freed_entry, decide_False, Hw in Hl by apply freed_home. apply Hl. unfold takes.
  rewrite freed_entry, decide_False, Hw by apply freed_home. now apply bool_decide_eq_true.
Qed.

(** A key whose sequence crosses it is not found, and an update stores it there once more. *)
Lemma freed_lost d0 :
  (d0 < d)%nat -> at_pos m k d0 = i ->
  elem_lookup m' k = Some None /\
  forall w', length w' = Z.to_nat (value_size m) ->
    exists m2, elem_update m' k w' = Some (1, m2) /\ entry m2 i = Some (k, w')
      /\ entry m2 (at_pos m k d) = Some (k, w) /\ length (entries m2) = S (length (entries m')) /\ sized m2.
Proof.
  intros Hd0 E0. destruct freed_shape as (Hs & En & Ek & Ev).
  assert (Hlt : (d0 < Z.to_nat (num_buckets m'))%nat) by (rewrite En; lia).
  assert (Hnone : entry m' (at_pos m' k d0) = None) by now rewrite freed_entry, decide_True.
  assert (Hbefore : forall d', (d' < d0)%nat -> takes m' k (at_pos m' k d') = false).
  { intros d' Hd'. apply freed_skip; [lia|]. intros E'. rewrite <- E0 in E'.
    apply (pos_inj _ _ _ _ (home_range m Hm k)) in E'; lia. }
  assert (Ht : takes m' k (at_pos m' k d0) = true) by (unfold takes; now rewrite Hnone).
  assert (Hk' : length k = Z.to_nat (key_size m')) by now rewrite Ek. split.
  - pose proof (lookup_path m' Hs k d0 Hk' Hlt Hbefore Ht) as Hl. now rewrite Hnone in Hl.
  - intros w' Hw'. destruct (update_path m' Hs k d0 Hk' Hlt Hbefore w') as (m2 & E & Hr2); [now rewrite Ev|done|].
    rewrite (rebucket_at_pos _ _ _ _ Hr), E0 in Hr2.
    assert (H2 : entry m2 i = Some (k, w')).
    { rewrite (rebucket_same m' m2 _ _ Hr2 (le_split 4 1) k w'); [done|done|done|]. now rewrite Hk'. }
    exists m2. split; [done|]. split; [done|]. split; [|split; [|apply Hr2]].
    + pose proof (at_pos_range m Hm k d). rewrite (rebucket_other m' m2 i _ Hr2) by (lia || apply freed_home).
      rewrite <- (rebucket_at_pos _ _ _ _ Hr), freed_entry, decide_False; [done|apply freed_home].
    + destruct (rebucket_shape _ _ _ _ Hr2) as (En2 & _). unfold entries. rewrite En2, En.
      apply (omap_one_more _ _ i (k, w')); [apply NoDup_seqZ|apply elem_of_seqZ; lia| |done|].
      * rewrite (emptied_entry m m' i Hm Hi Hr), decide_True; [done|done|lia].
      * intros z Hz Hzi. apply elem_of_seqZ in Hz. apply (rebucket_other m' m2 i _ Hr2); [lia|done].
Qed.
End freed.

(** ** A new table, and a program that only looks up and updates *)

Lemma le_join_zero n : le_join (repeat 0 n) = 0.
Proof. induction n as [|n IH]; [done|]. cbn [repeat le_join]. now rewrite IH. Qed.
Lemma take_repeat_zero n k : take n (repeat 0 k) = repeat 0 (n `min` k).
Proof. revert k. induction n as [|n IH]; intros [|k]; simpl; f_equal; auto. Qed.
Lemma drop_repeat_zero n k : drop n (repeat 0 k) = repeat 0 (k - n).
Proof. revert k. induction n as [|n IH]; intros [|k]; simpl; auto. Qed.

Section new_map.
Context (nb ks vs : Z) (Hnb : 0 < nb) (Hks : 0 <= ks) (Hvs : 0 <= vs).
Context (Hsmall : nb * (4 + ks + vs) < 4294967296).
Let m := DEFINE_BPFTIME_HASH_MAP nb ks vs.

Lemma new_entry i : entry m i = None.
Proof.
  unfold entry, b_flag, bucket, area, m. cbn [data_buffer DEFINE_BPFTIME_HASH_MAP].
  now rewrite drop_repeat_zero, !take_repeat_zero, le_join_zero.
Qed.
Lemma new_wf : wf m /\ contents m = ∅.
Proof.
  split.
  - split; [|intros *; now rewrite new_entry..]. split; try done.
    cbn [m data_buffer DEFINE_BPFTIME_HASH_MAP num_buckets key_size value_size].
    unfold zlen. rewrite repeat_length. nia.
  - unfold contents, entries. enough (forall l, omap (entry m) l = []) as -> by done.
    induction l as [|i l IH]; [done|]. cbn [omap list_omap]. now rewrite new_entry.
Qed.
End new_map.

(** The calls of a program and their results; a lookup returns the bytes of the value. *)
Inductive map_op := OpLookup (key : list Z) | OpUpdate (key value : list Z).
Inductive map_result := RLookup (value : option (list Z)) | RUpdate (r : Z).

Definition op_ok (ks vs : Z) (op : map_op) : Prop :=
  match op with
  | OpLookup key => length key = Z.to_nat ks
  | OpUpdate key value => length key = Z.to_nat ks /\ length value = Z.to_nat vs
  end.

Definition run_op (m : bpftime_hash_map_t) (op : map_op) : option (map_result * bpftime_hash_map_t) :=
  match op with
  | OpLookup key =>
      p ← elem_lookup m key;
      match p with
      | None => Some (RLookup None, m)
      | Some p => v ← slice p (Z.to_nat (value_size m)) (data_buffer m); Some (RLookup (Some v), m)
      end
  | OpUpdate key value => '(r, m) ← elem_update m key value; Some (RUpdate r, m)
  end.
Fixpoint run_ops (m : bpftime_hash_map_t) (ops : list map_op)
    : option (list map_result * bpftime_hash_map_t) :=
  match ops with
  | [] => Some ([], m)
  | op :: ops => '(r, m) ← run_op m op; '(rs, m) ← run_ops m ops; Some (r :: rs, m)
  end.

(** The same program on a finite map with room for [n] keys. *)
Fixpoint spec_ops (n : Z) (t : gmap (list Z) (list Z)) (ops : list map_op)
    : list map_result * gmap (list Z) (list Z) :=
  match ops with
  | [] => ([], t)
  | OpLookup key :: ops =>
      let '(rs, t') := spec_ops n t ops in (RLookup (t !! key) :: rs, t')
  | OpUpdate key value :: ops =>
      let '(r, t1) := bounded_insert n key value t in
      let '(rs, t') := spec_ops n t1 ops in (RUpdate r :: rs, t')
  end.

(** One call refines the call on the finite map. *)
Lemma run_ops_refines ops m :
  wf m -> Forall (op_ok (key_size m) (value_size m)) ops ->
  exists m', run_ops m ops = Some ((spec_ops (num_buckets m) (contents m) ops).1, m')
    /\ wf m' /\ contents m' = (spec_ops (num_buckets m) (contents m) ops).2.
Proof.
  revert m. induction ops as [|op ops IH]; intros m Hm Hops; [exists m; done|].
  apply Forall_cons_1 in Hops as [Hop Hops]. destruct op as [key|key value]; cbn [run_ops run_op spec_ops].
  - pose proof (elem_lookup_spec m key Hm Hop) as Hl.
    destruct (IH m Hm Hops) as (m' & E & Hm' & Hc). exists m'.
    destruct (spec_ops _ _ ops) as [rs t]. cbn [fst snd] in *.
    destruct (contents m !! key) as [v|].
    + destruct Hl as (p & -> & Hp). cbn [mbind option_bind]. rewrite Hp. cbn [mbind option_bind].
      rewrite E. done.
    + rewrite Hl. cbn [mbind option_bind]. now rewrite E.
  - destruct Hop as [Hk Hv].
    destruct (elem_update_spec m key value Hm Hk Hv) as (m1 & E1 & Hm1 & Hc1 & En & Ek & Ev).
    rewrite E1. cbn [mbind option_bind]. rewrite <- Ek, <- Ev in Hops.
    destruct (IH m1 Hm1 Hops) as (m' & E & Hm' & Hc). exists m'. rewrite E.
    rewrite En, Hc1 in *. destruct (bounded_insert _ _ _ _) as [r t1]. cbn [fst snd] in *.
    destruct (spec_ops _ t1 ops) as [rs t]. done.
Qed.

Lemma run_ops_shape ops m rs m' :
  wf m -> Forall (op_ok (key_size m) (value_size m)) ops -> run_ops m ops = Some (rs, m') ->
  num_buckets m' = num_buckets m /\ key_size m' = key_size m /\ value_size m' = value_size m.
Proof.
  revert m rs. induction ops as [|op ops IH]; intros m rs Hm Hops; [now intros [= _ <-]|].
  apply Forall_cons_1 in Hops as [Hop Hops]. destruct op as [key|key value]; cbn [run_ops run_op].
  - pose proof (elem_lookup_spec m key Hm Hop) as Hl. destruct (contents m !! key) as [v|].
    + destruct Hl as (p & -> & Hp). cbn [mbind option_bind]. rewrite Hp. cbn [mbind option_bind].
      destruct (run_ops m ops) as [[rs1 m1]|] eqn:E; [|discriminate]. intros [= _ <-]. eauto.
    + rewrite Hl. cbn [mbind option_bind].
      destruct (run_ops m ops) as [[rs1 m1]|] eqn:E; [|discriminate]. intros [= _ <-]. eauto.
  - destruct Hop as [Hk Hv].
    destruct (elem_update_spec m key value Hm Hk Hv) as (m1 & E1 & Hm1 & _ & En & Ek & Ev).
    rewrite E1. cbn [mbind option_bind]. rewrite <- Ek, <- Ev in Hops |- *. rewrite <- En.
    destruct (run_ops m1 ops) as [[rs1 m2]|] eqn:E; [|discriminate]. intros [= _ <-]. eauto.
Qed.

(** C7: a new table that a program only looks up and updates behaves as a finite map
    with room for [num_buckets] keys, for any sequence of calls: the results are
    those of the map, no call leaves the buffer, and every probing loop ends. *)
Theorem hash_map_refines (nb ks vs : Z) (ops : list map_op) :
  0 < nb -> 0 <= ks -> 0 <= vs -> nb * (4 + ks + vs) < 4294967296 ->
  Forall (op_ok ks vs) ops ->
  exists m', run_ops (DEFINE_BPFTIME_HASH_MAP nb ks vs) ops
      = Some ((spec_ops nb ∅ ops).1, m')
    /\ wf m' /\ contents m' = (spec_ops nb ∅ ops).2.
Proof.
  intros Hnb Hks Hvs Hsmall Hops.
  destruct (new_wf nb ks vs Hnb Hks Hvs Hsmall) as [Hm Hc].
  pose proof (run_ops_refines ops _ Hm Hops) as H. now rewrite Hc in H.
Qed.

(** ** Concrete tables *)

(** Two buckets, keys and values of one byte: the keys 2 and 4 share a home. *)
Definition two_buckets : bpftime_hash_map_t := DEFINE_BPFTIME_HASH_MAP 2 1 1.

Lemma hash_map_refines_witness :
  exists m', run_ops two_buckets
    [OpUpdate [2] [20]; OpUpdate [4] [40]; OpLookup [4]; OpUpdate [6] [60]; OpLookup [6]; OpLookup [2]]
    = Some ([RUpdate 1; RUpdate 1; RLookup (Some [40]); RUpdate 0; RLookup None; RLookup (Some [20])], m').
Proof.
  destruct (hash_map_refines 2 1 1
    [OpUpdate [2] [20]; OpUpdate [4] [40]; OpLookup [4]; OpUpdate [6] [60]; OpLookup [6]; OpLookup [2]])
    as (m' & E & _ & _); [lia|lia|lia|lia|repeat constructor|]. exists m'. exact E.
Defined.

(** What a deletion from a table [m] does to another key [k], which is [d] buckets away from its
    home: [i] is the bucket that is freed, [m'] the table after it. *)
Definition cut_off (m : bpftime_hash_map_t) (k : list Z) (d : nat) (i : Z) : Prop :=
  exists d', (d' < d)%nat /\ at_pos m k d' = i.

Lemma entry_key m i k v : sized m -> 0 <= i < num_buckets m -> entry m i = Some (k, v) -> length k = Z.to_nat (key_size m).
Proof.
  intros Hs Hi. unfold entry. destruct (_ =? 0); [done|]. intros [= <- <-]. apply (bucket_lengths m Hs i Hi).
Qed.
Lemma cut_off_dec m k d i : cut_off m k d i \/ forall d', (d' < d)%nat -> at_pos m k d' <> i.
Proof.
  unfold cut_off. induction d as [|d IH]; [right; lia|]. destruct IH as [(d' & ? & ?)|Hn]; [left; exists d'; split; [lia|done]|].
  destruct (decide (at_pos m k d = i)); [left; exists d; split; [lia|done]|].
  right. intros d' Hd'. destruct (decide (d' = d)) as [->|]; [done|]. apply Hn. lia.
Qed.

(** C37: what a deletion does, in the table that any lookups and updates have made of a new one.
    It returns 0 and changes nothing if the key is not stored; otherwise it returns 1 and removes
    that key and no other from the buckets, and the count goes down by one.  But it leaves no mark
    in the bucket that it frees: another stored key is still found, with its value, if its probe
    sequence does not cross that bucket; if it does, a lookup returns null although the key is
    there and counted, and an update stores it a second time and the count includes both. *)
Theorem elem_delete_loses_keys (nb ks vs : Z) (ops : list map_op) rs m key :
  0 < nb -> 0 <= ks -> 0 <= vs -> nb * (4 + ks + vs) < 4294967296 -> Forall (op_ok ks vs) ops ->
  run_ops (DEFINE_BPFTIME_HASH_MAP nb ks vs) ops = Some (rs, m) -> length key = Z.to_nat ks ->
  let n := Z.of_nat (size (contents m)) in
  match contents m !! key with
  | None => elem_delete m key = Some (0, m)
  | Some v => exists i m', 0 <= i < nb /\ entry m i = Some (key, v) /\
      elem_delete m key = Some (1, m') /\ contents m' = delete key (contents m) /\ get_elem_count m' = Some (n - 1) /\
      forall k w, contents m' !! k = Some w -> exists d, (d < Z.to_nat nb)%nat /\ entry m (at_pos m k d) = Some (k, w) /\
        ((~ cut_off m k d i -> exists p, elem_lookup m' k = Some (Some p) /\ slice p (Z.to_nat vs) (data_buffer m') = Some w)
         /\ (cut_off m k d i -> elem_lookup m' k = Some None /\
              forall w', length w' = Z.to_nat vs -> exists m2, elem_update m' k w' = Some (1, m2) /\
                entry m2 i = Some (k, w') /\ entry m2 (at_pos m k d) = Some (k, w) /\ get_elem_count m2 = Some n))
  end.
Proof.
  intros Hnb Hks Hvs Hsmall Hops Hrun Hkey n.
  destruct (new_wf nb ks vs Hnb Hks Hvs Hsmall) as [Hm0 _].
  destruct (run_ops_refines ops _ Hm0 Hops) as (m1 & E & Hm & _).
  rewrite Hrun in E. injection E as _ <-.
  destruct (run_ops_shape ops _ _ _ Hm0 Hops Hrun) as (En & Ek & Ev).
  cbn [num_buckets key_size value_size DEFINE_BPFTIME_HASH_MAP] in En, Ek, Ev.
  rewrite <- Ek in Hkey. pose proof (elem_delete_cases m key Hm Hkey) as Hc.
  destruct (contents m !! key) as [v|] eqn:Hv; [|done]. destruct Hc as (i & m' & Hi & He & Hdel & Hr).
  pose proof (emptied_loose m m' i Hm Hi Hr) as Hl. pose proof (emptied_contents m m' i key v Hm Hi He Hr) as Hc.
  assert (Hcount : get_elem_count m' = Some (n - 1)).
  { rewrite count_loose, Hc by done. unfold n. rewrite map_size_delete_Some by eauto.
    f_equal. enough (size (contents m) <> 0%nat) by lia. intros E. apply map_size_empty_inv in E.
    now rewrite E, lookup_empty in Hv. }
  exists i, m'. rewrite <- En. do 5 (split; [done|]). intros k w Hw.
  rewrite Hc in Hw. apply lookup_delete_Some in Hw as [Hne Hw].
  destruct (contents_path m Hm k w Hw) as (d & Hd & Hkd). exists d. do 2 (split; [done|]).
  pose proof (entry_key m _ k w (wf_sized m Hm) (at_pos_range m Hm k d) Hkd) as Hk. rewrite <- Ev. split.
  - intros Hcut. destruct (cut_off_dec m k d i) as [|Hn]; [done|].
    now apply (freed_found m m' i key v Hm Hi He Hr k w d).
  - intros (d0 & Hd0 & E0). destruct (freed_lost m m' i key v Hm Hi He Hr k w d Hd Hk Hkd) with (d0 := d0)
      as [Hlook Hup]; [congruence..|]. split; [done|]. intros w' Hw'.
    destruct (Hup w' Hw') as (m2 & E1 & E2 & E3 & E4 & Hs2). exists m2. do 3 (split; [done|]).
    rewrite count_entries, E4 by done. rewrite count_entries in Hcount by apply Hl. injection Hcount as Hcount.
    f_equal. lia.
Qed.

Definition two_keys : list map_op := [OpUpdate [2] [20]; OpUpdate [4] [40]; OpLookup [4]].
Definition full_table : bpftime_hash_map_t :=
  match run_ops two_buckets two_keys with Some (_, m) => m | None => two_buckets end.
(** The key 4 lies behind the key 2: after the deletion of 2 it is counted, but not found. *)
Lemma elem_delete_loses_keys_witness :
  exists m', elem_delete full_table [2] = Some (1, m') /\ get_elem_count m' = Some 1 /\ elem_lookup m' [4] = Some None.
Proof.
  pose proof (elem_delete_loses_keys 2 1 1 two_keys [RUpdate 1; RUpdate 1; RLookup (Some [40])] full_table [2]) as H.
  cbv zeta in H. assert (E2 : contents full_table !! [2] = Some [20]) by (vm_compute; reflexivity).
  assert (En : size (contents full_table) = 2%nat) by (vm_compute; reflexivity). rewrite E2, En in H.
  destruct H as (i & m' & Hi & He & Hdel & Hc & Hn & Hk); [lia|lia|lia|lia|repeat constructor|vm_compute; reflexivity|reflexivity|].
  exists m'. split; [exact Hdel|]. split; [exact Hn|]. destruct (Hk [4] [40]) as (d & Hd & Hw & _ & Hlost).
  { rewrite Hc. vm_compute. reflexivity. }
  apply Hlost. exists 0%nat. assert (d = 1%nat) as ->.
  { destruct d as [|[|d]]; [vm_compute in Hw; discriminate Hw|reflexivity|change (Z.to_nat 2) with 2%nat in Hd; lia]. }
  split; [apply Nat.lt_0_1|]. assert (Hc01 : i = 0 \/ i = 1) by (clear -Hi; lia).
  destruct Hc01 as [-> | ->]; [vm_compute; reflexivity|vm_compute in He; discriminate He].
Defined.

Definition map_with_2 : bpftime_hash_map_t :=
  match elem_update two_buckets [2] [20] with Some (_, m) => m | None => two_buckets end.

Lemma map_with_2_wf : wf map_with_2 /\ contents map_with_2 = {[ [2] := [20] ]}.
Proof.
  destruct (new_wf 2 1 1) as [Hm Hc]; [lia..|].
  destruct (elem_update_spec _ [2] [20] Hm eq_refl eq_refl) as (m' & E & Hm' & Hc' & _).
  change (DEFINE_BPFTIME_HASH_MAP 2 1 1) with two_buckets in E, Hc, Hc'.
  unfold map_with_2. rewrite E. split; [done|]. now rewrite Hc', Hc.
Qed.

Lemma elem_delete_correct_witness :
  exists m', elem_delete map_with_2 [2] = Some (1, m') /\ contents m' = ∅.
Proof.
  pose proof (elem_delete_correct map_with_2 [2] (proj1 map_with_2_wf) eq_refl) as H.
  rewrite (proj2 map_with_2_wf), lookup_singleton_eq in H.
  destruct H as (i & m' & _ & E & Hc & _). exists m'. split; [exact E|]. rewrite Hc. reflexivity.
Defined.

Lemma get_elem_count_correct_witness : get_elem_count map_with_2 = Some 1.
Proof.
  rewrite (get_elem_count_correct map_with_2 (proj1 map_with_2_wf)), (proj2 map_with_2_wf).
  reflexivity.
Defined.

(** ** The test program

    Its three tests one after the other; [None] is an assertion that fails or an access outside
    the table. *)

Definition test_key (c : Z) : list Z := [107; 101; 121; c] ++ repeat 0 12.
Definition test_value (c : Z) : list Z := [118; 97; 108; 117; 101; c] ++ repeat 0 26.
Definition holds (map : bpftime_hash_map_t) (key value : list Z) : option unit :=
  r ← elem_lookup map key;
  p ← r;
  v ← slice p 32 (data_buffer map);
  if decide (v = value) then Some tt else None.
(** @src xdp_progs/includes/test_hash.c 8-29 test_insert_and_lookup *)
Definition test_insert_and_lookup (map : bpftime_hash_map_t) : option bpftime_hash_map_t :=
  '(r1, map) ← elem_update map (test_key 49) (test_value 49);
  '(r2, map) ← elem_update map (test_key 50) (test_value 50);
  if negb ((r1 =? 1) && (r2 =? 1)) then None else
  holds map (test_key 49) (test_value 49) ≫= fun _ =>
  holds map (test_key 50) (test_value 50) ≫= fun _ =>
  Some map.
(** @src xdp_progs/includes/test_hash.c 31-40 test_delete *)
Definition test_delete (map : bpftime_hash_map_t) : option bpftime_hash_map_t :=
  '(r, map) ← elem_delete map (test_key 49);
  if negb (r =? 1) then None else
  p ← elem_lookup map (test_key 49);
  match p with Some _ => None | None => Some map end.
(** @src xdp_progs/includes/test_hash.c 42-45 test_count *)
Definition test_count (map : bpftime_hash_map_t) : option unit :=
  n ← get_elem_count map; if n =? 1 then Some tt else None.
(** @src xdp_progs/includes/test_hash.c 47-55 main *)
Definition test_main : option unit :=
  map ← test_insert_and_lookup (DEFINE_BPFTIME_HASH_MAP 128 16 32);
  map ← test_delete map;
  test_count map.

Example all_tests_pass : test_main = Some tt.
Proof. vm_compute. reflexivity. Qed.
