(* ===== verification/LpmTrie.v ===== *)
(** * The runtime's longest-prefix-match map (module/lpm_trie.h, module/maps.cpp)

    A binary trie whose nodes are cells of memory blocks.  A pointer to a node is
    the number of its block and of its cell, and the heap is a finite map from
    pointers to nodes.  The theorems relate the trie to a map from bit strings to
    values, and say what the BPF map built on it looks up. *)
From Stdlib Require Import ZArith Lia.
From stdpp Require Import base numbers list option gmap.
From S2P Require Import Prelude Xdp.
#[local] Open Scope Z_scope.

(** ** The code *)

Definition ptr : Type := nat * Z.

(** [None] is a null pointer.
    @src module/lpm_trie.h 32-41 node_t *)
Record node_t := NodeT { nd_l : option ptr; nd_r : option ptr; nd_as : Z; as_in : Z }.

(** @src module/lpm_trie.h 43-43 TRIE_MEMORY_CELL_SIZE *)
Definition TRIE_MEMORY_CELL_SIZE : Z := 32768.

(** The blocks from [first] to [last], each with its count [ln] of used cells;
    the cells of all blocks; and the root.
    @src module/lpm_trie.h 48-67 trie_t *)
Record trie_t := TrieT { blocks : list Z; cells : gmap ptr node_t; root : ptr }.

(** [n->as] is not initialised; it is never read while [as_in] is 0. *)
Definition new_node : node_t := NodeT None None 0 0.

(** The block a new node goes to: a new one when there is none or the last one
    is used up to one cell.  [malloc] succeeds; when it fails the program exits.
    @src module/lpm_trie.h 119-134 _node_malloc *)
Definition node_block (bs : list Z) : list Z :=
  match last bs with
  | None => bs ++ [0]
  | Some ln => if ln + 1 =? TRIE_MEMORY_CELL_SIZE then bs ++ [0] else bs
  end.

(** The new node and the blocks and cells after.
    @src module/lpm_trie.h 114-143 _node_malloc *)
Definition node_malloc (bs : list Z) (cs : gmap ptr node_t) : ptr * list Z * gmap ptr node_t :=
  let bs := node_block bs in
  let b := pred (length bs) in
  let ln := default 0 (last bs) in
  let n := (b, ln) in
  (n, <[b := ln + 1]> bs, <[n := new_node]> cs).

(** @src module/lpm_trie.h 150-155 trie_init *)
Definition trie_init : trie_t :=
  let '(n, bs, cs) := node_malloc [] ∅ in TrieT bs cs n.

(** [((b >> u) & 1) > 0]. *)
Definition bit_of (b u : Z) : bool := 0 <? Z.land (Z.shiftr b u) 1.

Definition set_l (p : option ptr) (n : node_t) := NodeT p (nd_r n) (nd_as n) (as_in n).
Definition set_r (p : option ptr) (n : node_t) := NodeT (nd_l n) p (nd_as n) (as_in n).
Definition set_value (v : Z) (n : node_t) := NodeT (nd_l n) (nd_r n) v 1.

(** One branch of the loop: the child of [current] on one side, created when it
    is null.
    @src module/lpm_trie.h 188-205 trie_node_put *)
Definition descend (t : trie_t) (current : ptr) (right : bool) : option (trie_t * ptr) :=
  n ← cells t !! current;
  match (if right then nd_r n else nd_l n) with
  | Some p => Some (t, p)
  | None =>
      let '(p, bs, cs) := node_malloc (blocks t) (cells t) in
      let n' := if right then set_r (Some p) n else set_l (Some p) n in
      Some (TrieT bs (<[current := n']> cs) (root t), p)
  end.

(** The value is stored in the last node unless it has one; a collision is
    reported on [stderr]: the second component is the pair printed.
    @src module/lpm_trie.h 207-216 trie_node_put *)
Definition store_value (t : trie_t) (current : ptr) (v : Z) : option (trie_t * list (Z * Z)) :=
  n ← cells t !! current;
  if negb (nz (as_in n)) then
    Some (TrieT (blocks t) (<[current := set_value v n]> (cells t)) (root t), [])
  else Some (t, if negb (nd_as n =? v) then [(nd_as n, v)] else []).

(** The loop: [i] is its counter and [n] iterations are left.
    @src module/lpm_trie.h 186-217 trie_node_put *)
Fixpoint put_loop (n : nat) (i cidr : Z) (ip : list Z) (v : Z) (t : trie_t) (current : ptr)
    : option (trie_t * list (Z * Z)) :=
  match n with
  | O => Some (t, [])
  | S n =>
      b ← ip !! Z.to_nat (i / 8);
      '(t, current) ← descend t current (bit_of b (7 - i mod 8));
      '(t, msg) ← (if i + 1 =? cidr then store_value t current v else Some (t, []));
      '(t, msgs) ← put_loop n (i + 1) cidr ip v t current;
      Some (t, msg ++ msgs)
  end.

(** @src module/lpm_trie.h 181-218 trie_node_put *)
Definition trie_node_put (t : trie_t) (ip : list Z) (cidr : Z) (v : Z)
    : option (trie_t * list (Z * Z)) :=
  put_loop (Z.to_nat cidr) 0 cidr ip v t (root t).

(** The state of a search: the node, [found] and [*as]. *)
Record search_st := Search { sr_current : ptr; sr_found : Z; sr_as : Z }.

(** The inner loop, [u] from 7 down to 0, [n = u + 1]; [inl] is the early return.
    @src module/lpm_trie.h 236-254 trie_node_search *)
Fixpoint search_byte (t : trie_t) (b : Z) (n : nat) (s : search_st)
    : option (Z * Z + search_st) :=
  match n with
  | O => Some (inr s)
  | S u =>
      nd ← cells t !! sr_current s;
      match (if bit_of b (Z.of_nat u) then nd_r nd else nd_l nd) with
      | None => Some (inl (sr_found s, sr_as s))
      | Some p =>
          nd ← cells t !! p;
          search_byte t b u
            (if nz (as_in nd) then Search p 1 (nd_as nd) else Search p (sr_found s) (sr_as s))
      end
  end.

(** The outer loop, [n] bytes are left.
    @src module/lpm_trie.h 235-255 trie_node_search *)
Fixpoint search_loop (t : trie_t) (ip : list Z) (n : nat) (i : Z) (s : search_st) : option (Z * Z) :=
  match n with
  | O => Some (sr_found s, sr_as s)
  | S n =>
      b ← ip !! Z.to_nat i;
      r ← search_byte t b 8 s;
      match r with inl r => Some r | inr s => search_loop t ip n (i + 1) s end
  end.

(** The return value and [*as], which holds [as0] before.
    @src module/lpm_trie.h 229-258 trie_node_search *)
Definition trie_node_search (t : trie_t) (ip : list Z) (ln : Z) (as0 : Z) : option (Z * Z) :=
  search_loop t ip (Z.to_nat ln) 0 (Search (root t) 0 as0).

(** ** The BPF map on top of the trie *)

(** The trie, the attributes and the static [as] that lookups point to.
    @src module/maps.cpp 55-56 trie *)
Record lpm_map := LpmMap { lpm_trie : trie_t; lpm_key_size : Z; lpm_as : Z }.

(** @src module/maps.cpp 58-62 lpm_alloc_map *)
Definition lpm_alloc_map (key_size : Z) : lpm_map := LpmMap trie_init key_size 0.

(** @src module/maps.cpp 64-67 lpm_elem_delete *)
Definition lpm_elem_delete (m : lpm_map) (key : list Z) : Z * lpm_map := (-1, m).

(** The static [as] is overwritten only when something is found; the result is
    a pointer to it.  The key size is passed as the number of bytes to search,
    converted to [uint8_t].
    @src module/maps.cpp 69-75 lpm_elem_lookup *)
Definition lpm_elem_lookup (m : lpm_map) (key : list Z) : option (option Z * lpm_map) :=
  '(res, v) ← trie_node_search (lpm_trie m) key (u8 (lpm_key_size m)) (lpm_as m);
  Some (if res =? 0 then None else Some v, LpmMap (lpm_trie m) (lpm_key_size m) v).

(** The key size is passed as the number of bits of the prefix.
    @src module/maps.cpp 77-80 lpm_elem_update *)
Definition lpm_elem_update (m : lpm_map) (key : list Z) (value : Z) : option (Z * lpm_map) :=
  '(t, _) ← trie_node_put (lpm_trie m) key (u8 (lpm_key_size m)) value;
  Some (0, LpmMap t (lpm_key_size m) (lpm_as m)).

(** ** The trie as a map from bit strings *)

Definition child (cs : gmap ptr node_t) (p : ptr) (b : bool) : option ptr :=
  n ← cs !! p; if b then nd_r n else nd_l n.
Fixpoint walk (cs : gmap ptr node_t) (p : ptr) (bits : list bool) : option ptr :=
  match bits with
  | [] => Some p
  | b :: bits => q ← child cs p b; walk cs q bits
  end.
Definition node_value (cs : gmap ptr node_t) (p : ptr) : option Z :=
  n ← cs !! p; if nz (as_in n) then Some (nd_as n) else None.

(** The value stored for a bit string. *)
Definition value_of (t : trie_t) (bits : list bool) : option Z :=
  p ← walk (cells t) (root t) bits; node_value (cells t) p.

Lemma walk_app cs p bits bits' : walk cs p (bits ++ bits') = (q ← walk cs p bits; walk cs q bits').
Proof.
  revert p. induction bits as [|b bits IH]; intros p; [done|]. cbn [app walk].
  destruct (child cs p b); [apply IH|done].
Qed.
Lemma walk_snoc cs p bits b : walk cs p (bits ++ [b]) = (q ← walk cs p bits; child cs q b).
Proof.
  rewrite walk_app. destruct (walk cs p bits) as [q|]; [|done]. cbn. now destruct (child cs q b).
Qed.

(** Every node is a cell in use, different bit strings lead to different nodes,
    and children are cells. *)
Definition in_use (bs : list Z) (p : ptr) : Prop :=
  exists ln, bs !! p.1 = Some ln /\ 0 <= p.2 < ln.
Record trie_wf (t : trie_t) : Prop := {
  tw_blocks : blocks t <> [];
  tw_counts : Forall (fun ln => 0 <= ln < TRIE_MEMORY_CELL_SIZE) (blocks t);
  tw_cells p n : cells t !! p = Some n -> in_use (blocks t) p;
  tw_walk bits p : walk (cells t) (root t) bits = Some p -> is_Some (cells t !! p);
  tw_inj bits bits' p :
    walk (cells t) (root t) bits = Some p -> walk (cells t) (root t) bits' = Some p -> bits = bits'
}.

(** *** Allocation *)

Lemma node_malloc_spec bs cs :
  Forall (fun ln => 0 <= ln < TRIE_MEMORY_CELL_SIZE) bs ->
  (forall p n, cs !! p = Some n -> in_use bs p) ->
  exists p bs', node_malloc bs cs = (p, bs', <[p := new_node]> cs)
    /\ cs !! p = None /\ bs' <> []
    /\ Forall (fun ln => 0 <= ln < TRIE_MEMORY_CELL_SIZE) bs'
    /\ in_use bs' p /\ forall q, in_use bs q -> in_use bs' q.
Proof.
  intros Hc Hu. unfold node_malloc.
  assert (Hb : exists pre ln, node_block bs = pre ++ [ln] /\ 0 <= ln /\ ln + 1 < TRIE_MEMORY_CELL_SIZE
    /\ Forall (fun ln => 0 <= ln < TRIE_MEMORY_CELL_SIZE) pre /\ (bs = pre \/ bs = pre ++ [ln])
    /\ forall c, in_use bs (length pre, c) -> c < ln).
  { unfold node_block. destruct (last bs) as [ln|] eqn:Hl.
    - apply last_Some in Hl as [pre ->]. apply Forall_app in Hc as [Hpre Hln].
      apply Forall_cons_1 in Hln as [Hln _].
      destruct (Z.eqb_spec (ln + 1) TRIE_MEMORY_CELL_SIZE).
      + exists (pre ++ [ln]), 0. unfold TRIE_MEMORY_CELL_SIZE. repeat split; try lia; auto.
        * apply Forall_app. split; [done|]. constructor; [|constructor]. done.
        * intros c (l & Hl & _). cbn in Hl. apply lookup_lt_Some in Hl. lia.
      + exists pre, ln. repeat split; try lia; auto.
        intros c (l & Hl & Hc). cbn in Hl, Hc. rewrite list_lookup_middle in Hl by done.
        injection Hl as <-. lia.
    - apply last_None in Hl as ->. exists [], 0. unfold TRIE_MEMORY_CELL_SIZE.
      repeat split; try lia; auto. intros c (l & Hl & _). done. }
  destruct Hb as (pre & ln & Hb & H0 & H1 & Hpre & Hor & Hfresh). rewrite Hb.
  rewrite last_snoc, length_app. unfold default, id. cbn [length]. rewrite Nat.add_1_r. cbn [pred].
  assert (Hins : <[length pre := ln + 1]> (pre ++ [ln]) = pre ++ [ln + 1]).
  { rewrite <- (Nat.add_0_r (length pre)) at 1. now rewrite insert_app_r. }
  rewrite Hins. exists (length pre, ln), (pre ++ [ln + 1]). split; [done|]. split; [|split; [|split; [|split]]].
  - destruct (cs !! (length pre, ln)) as [n|] eqn:Hn; [|done]. exfalso.
    apply Hu, Hfresh in Hn. lia.
  - now destruct pre.
  - apply Forall_app. split; [done|]. constructor; [lia|constructor].
  - exists (ln + 1). cbn. rewrite list_lookup_middle by done. split; [done|lia].
  - intros [b c] (l & Hl & Hc'). cbn in Hl, Hc'. destruct (decide (b < length pre)%nat) as [Hlt|].
    + exists l. cbn. split; [|done]. rewrite lookup_app_l by done.
      destruct Hor as [-> | ->]; [done|]. now rewrite lookup_app_l in Hl.
    + assert (b = length pre) as -> by (destruct Hor as [-> | ->]; apply lookup_lt_Some in Hl;
        rewrite ?length_app in Hl; simpl in Hl; lia).
      exists (ln + 1). cbn. rewrite list_lookup_middle by done. split; [done|].
      assert (c < ln) by (apply Hfresh; exists l; done). lia.
Qed.

(** *** Insertion *)

Lemma child_insert cs p n q b :
  child (<[p := n]> cs) q b = if decide (q = p) then (if b then nd_r n else nd_l n) else child cs q b.
Proof.
  unfold child. destruct (decide (q = p)) as [->|]; [now rewrite lookup_insert_eq|].
  now rewrite lookup_insert_ne.
Qed.

Section descend.
Context (t : trie_t) (Hw : trie_wf t) (q : list bool) (current : ptr) (n : node_t) (b : bool).
Context (Hq : walk (cells t) (root t) q = Some current) (Hn : cells t !! current = Some n).
Context (Hnull : child (cells t) current b = None).
Context (p : ptr) (Hp : cells t !! p = None).
Let n' := if b then set_r (Some p) n else set_l (Some p) n.
Let cs' := <[current := n']> (<[p := new_node]> (cells t)).

Lemma descend_fresh : current <> p.
Proof. congruence. Qed.

Lemma descend_child r c :
  child cs' r c = if decide (r = current /\ c = b) then Some p
                  else if decide (r = p) then None else child (cells t) r c.
Proof.
  unfold cs'. rewrite !child_insert. pose proof descend_fresh.
  destruct (decide (r = current)) as [->|].
  - rewrite (decide_False (P := current = p)) by done. unfold child, n' in *.
    rewrite Hn in Hnull |- *. cbn in Hnull |- *.
    destruct b, c; cbn in *; repeat case_decide; intuition congruence.
  - destruct (decide (r = p)) as [->|]; repeat case_decide; try intuition congruence. now destruct c.
Qed.

(** The new node is reached by one more bit, everything else as before. *)
Lemma descend_walk bits :
  walk cs' (root t) bits = if decide (bits = q ++ [b]) then Some p else walk (cells t) (root t) bits.
Proof.
  induction bits as [|c bits IH] using rev_ind.
  { rewrite decide_False; [done|]. intros E. now apply (f_equal length) in E; rewrite length_app in E; simpl in E; lia. }
  rewrite !walk_snoc, IH. destruct (decide (bits = q ++ [b])) as [->|Hne].
  - rewrite walk_snoc, Hq. cbn [mbind option_bind]. rewrite Hnull. cbn [mbind option_bind].
    rewrite descend_child. rewrite decide_False by (pose proof descend_fresh; intuition congruence).
    rewrite decide_True by done.
    rewrite decide_False; [done|]. intros E. apply (f_equal length) in E.
    rewrite !length_app in E. simpl in E. lia.
  - destruct (walk (cells t) (root t) bits) as [r|] eqn:Hr; cbn [mbind option_bind].
    + rewrite descend_child. destruct (decide (r = current /\ c = b)) as [[-> ->]|Hrc].
      * rewrite (tw_inj t Hw _ _ _ Hr Hq). now rewrite decide_True.
      * rewrite (decide_False (P := bits ++ [c] = q ++ [b])).
        -- rewrite decide_False; [done|]. intros ->. apply (tw_walk t Hw) in Hr as [? Hr]. congruence.
        -- intros E. apply app_inj_tail in E as [-> ->]. apply Hrc. split; [congruence|done].
    + rewrite decide_False; [done|]. intros E. apply app_inj_tail in E as [-> _]. congruence.
Qed.

Lemma descend_node r :
  node_value cs' r = if decide (r = p) then None else node_value (cells t) r.
Proof.
  unfold node_value, cs'. pose proof descend_fresh. destruct (decide (r = current)) as [->|].
  - rewrite lookup_insert_eq, decide_False, Hn by done. unfold n'. cbn. now destruct b.
  - rewrite lookup_insert_ne by done. destruct (decide (r = p)) as [->|].
    + now rewrite lookup_insert_eq.
    + now rewrite lookup_insert_ne.
Qed.

Lemma descend_wf bs' :
  bs' <> [] -> Forall (fun ln => 0 <= ln < TRIE_MEMORY_CELL_SIZE) bs' ->
  in_use bs' p -> (forall r, in_use (blocks t) r -> in_use bs' r) ->
  let t' := TrieT bs' cs' (root t) in
  trie_wf t' /\ walk (cells t') (root t') (q ++ [b]) = Some p
  /\ forall bits, value_of t' bits = value_of t bits.
Proof.
  intros H1 H2 H3 H4 t'. pose proof descend_fresh as Hf. split; [|split].
  - split; cbn [t' blocks cells root]; [done|done| | |].
    + intros r m. unfold cs'. rewrite lookup_insert_Some, lookup_insert_Some.
      intros [[<- _]|[_ [[<- _]|[_ Hr]]]]; [|done|]; apply H4; eapply (tw_cells t Hw); eauto.
    + intros bits r. rewrite descend_walk. unfold cs'. rewrite lookup_insert_is_Some', lookup_insert_is_Some'.
      destruct (decide _) as [->|]; [intros [= <-]; auto|]. intros Hr. right. right.
      now apply (tw_walk t Hw bits).
    + intros bits bits' r. rewrite !descend_walk.
      assert (Hold : forall x, walk (cells t) (root t) x <> Some p).
      { intros x Hx. apply (tw_walk t Hw) in Hx as [? ?]. congruence. }
      destruct (decide (bits = q ++ [b])) as [->|], (decide (bits' = q ++ [b])) as [->|]; [done| | |].
      * intros [= <-] Hr. now apply Hold in Hr.
      * intros Hr [= <-]. now apply Hold in Hr.
      * apply (tw_inj t Hw).
  - cbn [t' cells root]. rewrite descend_walk. now rewrite decide_True.
  - intros bits. unfold value_of, t'. cbn [cells root]. rewrite descend_walk.
    destruct (decide (bits = q ++ [b])) as [->|].
    + cbn [mbind option_bind]. rewrite descend_node, decide_True by done.
      rewrite walk_snoc, Hq. cbn [mbind option_bind]. now rewrite Hnull.
    + destruct (walk (cells t) (root t) bits) as [r|] eqn:Hr; [|done]. cbn [mbind option_bind].
      rewrite descend_node, decide_False; [done|]. intros ->.
      apply (tw_walk t Hw) in Hr as [? ?]. congruence.
Qed.
End descend.

Lemma descend_spec t q current b :
  trie_wf t -> walk (cells t) (root t) q = Some current ->
  exists t' p, descend t current b = Some (t', p) /\ trie_wf t'
    /\ walk (cells t') (root t') (q ++ [b]) = Some p
    /\ forall bits, value_of t' bits = value_of t bits.
Proof.
  intros Hw Hq. destruct (tw_walk t Hw _ _ Hq) as [n Hn]. unfold descend. rewrite Hn.
  cbn [mbind option_bind].
  destruct (if b then nd_r n else nd_l n) as [p|] eqn:Hc.
  - exists t, p. split; [done|]. split; [done|]. split; [|done].
    rewrite walk_snoc, Hq. cbn [mbind option_bind]. unfold child. now rewrite Hn.
  - destruct (node_malloc_spec (blocks t) (cells t) (tw_counts t Hw) (tw_cells t Hw))
      as (p & bs' & -> & Hp & H1 & H2 & H3 & H4).
    eexists _, p. split; [reflexivity|].
    apply descend_wf; [done|done|done| |done|done|done|done|done].
    unfold child. now rewrite Hn.
Qed.

Lemma store_value_spec t q current v :
  trie_wf t -> walk (cells t) (root t) q = Some current ->
  exists t' msg, store_value t current v = Some (t', msg) /\ trie_wf t'
    /\ (forall bits, value_of t' bits =
         if decide (bits = q) then Some (default v (value_of t q)) else value_of t bits)
    /\ msg = match value_of t q with Some v' => if v' =? v then [] else [(v', v)] | None => [] end.
Proof.
  intros Hw Hq. destruct (tw_walk t Hw _ _ Hq) as [n Hn]. unfold store_value. rewrite Hn.
  cbn [mbind option_bind].
  assert (Hv : value_of t q = if nz (as_in n) then Some (nd_as n) else None).
  { unfold value_of. rewrite Hq. cbn [mbind option_bind]. unfold node_value. now rewrite Hn. }
  rewrite Hv. destruct (nz (as_in n)) eqn:Hin; cbn [negb].
  - eexists t, _. split; [reflexivity|]. split; [done|]. split.
    + intros bits. destruct (decide (bits = q)) as [->|]; [|done]. now rewrite Hv.
    + now destruct (nd_as n =? v).
  - set (cs' := <[current := set_value v n]> (cells t)).
    assert (Hch : forall r c, child cs' r c = child (cells t) r c).
    { intros r c. unfold cs'. rewrite child_insert. destruct (decide (r = current)) as [->|]; [|done].
      unfold child. rewrite Hn. now destruct c. }
    assert (Hwk : forall bits r, walk cs' r bits = walk (cells t) r bits).
    { induction bits as [|c bits IH]; intros r; [done|]. cbn [walk]. rewrite Hch.
      destruct (child (cells t) r c); [apply IH|done]. }
    eexists _, _. split; [reflexivity|]. split; [|split; [|done]].
    + split; cbn [blocks cells root]; [apply Hw|apply Hw| | |].
      * intros r m. unfold cs'. rewrite lookup_insert_Some.
        intros [[<- _]|[_ Hr]]; eapply (tw_cells t Hw); eauto.
      * intros bits r. rewrite Hwk. intros Hr. unfold cs'. rewrite lookup_insert_is_Some'. right.
        now apply (tw_walk t Hw bits).
      * intros bits bits' r. rewrite !Hwk. apply (tw_inj t Hw).
    + intros bits. unfold value_of. cbn [cells root]. rewrite Hwk.
      destruct (walk (cells t) (root t) bits) as [r|] eqn:Hr; cbn [mbind option_bind].
      * unfold node_value, cs'. destruct (decide (bits = q)) as [->|Hne].
        -- rewrite Hq in Hr. injection Hr as <-. now rewrite lookup_insert_eq.
        -- rewrite lookup_insert_ne; [done|]. intros <-. apply Hne. now apply (tw_inj t Hw _ _ _ Hr).
      * rewrite decide_False; [done|]. congruence.
Qed.

(** *** The bits of an address *)

Definition ip_bit (ip : list Z) (i : nat) : bool :=
  bit_of (default 0 (ip !! (i / 8)%nat)) (7 - Z.of_nat i mod 8).
Definition ip_bits (ip : list Z) (n : nat) : list bool := ip_bit ip <$> seq 0 n.

Lemma length_ip_bits ip n : length (ip_bits ip n) = n.
Proof. unfold ip_bits. now rewrite length_fmap, length_seq. Qed.
Lemma ip_bits_S ip n : ip_bits ip (S n) = ip_bits ip n ++ [ip_bit ip n].
Proof. unfold ip_bits. now rewrite seq_S, fmap_app. Qed.
Lemma take_ip_bits ip n k : (k <= n)%nat -> take k (ip_bits ip n) = ip_bits ip k.
Proof.
  intros Hk. unfold ip_bits. rewrite <- fmap_take. f_equal.
  replace n with (k + (n - k))%nat by lia. rewrite seq_app. now rewrite take_app_length' by now rewrite length_seq.
Qed.

(** Inserting a prefix: the first value stored for it stays. *)
Lemma put_loop_spec n t q current ip i cidr v :
  trie_wf t -> q = ip_bits ip i -> walk (cells t) (root t) q = Some current ->
  cidr = Z.of_nat (i + n) -> (i + n <= 8 * length ip)%nat ->
  exists t' msg, put_loop n (Z.of_nat i) cidr ip v t current = Some (t', msg) /\ trie_wf t'
    /\ forall bits, value_of t' bits =
         if decide (n <> 0%nat /\ bits = ip_bits ip (i + n)) then Some (default v (value_of t bits))
         else value_of t bits.
Proof.
  revert t q current i. induction n as [|n IH]; intros t q current i Hw Hq Hwalk Hc Hlen; cbn [put_loop].
  - exists t, []. split; [done|]. split; [done|]. intros bits. rewrite decide_False; [done|]. intros [? _]. done.
  - assert (Hb : exists x, ip !! Z.to_nat (Z.of_nat i / 8) = Some x
      /\ bit_of x (7 - Z.of_nat i mod 8) = ip_bit ip i).
    { unfold ip_bit. replace (Z.to_nat (Z.of_nat i / 8)) with (i / 8)%nat
        by (change 8 with (Z.of_nat 8); now rewrite <- Nat2Z.inj_div, Nat2Z.id).
      destruct (lookup_lt_is_Some_2 ip (i / 8)) as [x Hx].
      { apply Nat.Div0.div_lt_upper_bound. lia. }
      exists x. rewrite Hx. done. }
    destruct Hb as (x & -> & Hbit). cbn [mbind option_bind]. rewrite Hbit.
    destruct (descend_spec t q current (ip_bit ip i) Hw Hwalk) as (t1 & p & -> & Hw1 & Hwalk1 & Hv1).
    cbn [mbind option_bind].
    assert (Hq1 : q ++ [ip_bit ip i] = ip_bits ip (S i)) by now rewrite ip_bits_S, Hq.
    rewrite Hq1 in Hwalk1. replace (Z.of_nat i + 1) with (Z.of_nat (S i)) by lia.
    replace (i + S n)%nat with (S i + n)%nat in * by lia.
    destruct (Z.eqb_spec (Z.of_nat (S i)) cidr) as [Hlast|Hmore].
    + assert (n = 0%nat) as -> by lia. rewrite Nat.add_0_r.
      destruct (store_value_spec t1 _ p v Hw1 Hwalk1) as (t2 & msg & -> & Hw2 & Hv2 & _).
      cbn [mbind option_bind put_loop]. eexists t2, _. split; [done|]. split; [done|].
      intros bits. rewrite Hv2, !Hv1.
      destruct (decide (bits = ip_bits ip (S i))) as [->|].
      * now rewrite decide_True by (split; done).
      * rewrite decide_False; [done|]. intros [_ ?]. done.
    + cbn [mbind option_bind].
      destruct (IH t1 _ p (S i) Hw1 eq_refl Hwalk1 Hc Hlen) as (t2 & msg & -> & Hw2 & Hv2).
      cbn [mbind option_bind]. eexists t2, _. split; [done|]. split; [done|].
      intros bits. rewrite Hv2, !Hv1. destruct (decide (bits = ip_bits ip (S i + n))) as [->|].
      * rewrite !decide_True; [done|split; [lia|done]|split; [lia|done]].
      * rewrite !decide_False; [done|intros [_ ?]; done|intros [_ ?]; done].
Qed.

(** *** Search *)

(** [r] is the value of the longest of the non-empty prefixes of [bits] of
    length at most [k] that have one. *)
Definition longest (f : list bool -> option Z) (bits : list bool) (k : nat) (r : option Z) : Prop :=
  match r with
  | Some v => exists j, (1 <= j <= k)%nat /\ f (take j bits) = Some v
                /\ forall j', (j < j' <= k)%nat -> f (take j' bits) = None
  | None => forall j, (1 <= j <= k)%nat -> f (take j bits) = None
  end.

Lemma longest_S f bits k r :
  longest f bits k r ->
  longest f bits (S k) (match f (take (S k) bits) with Some v => Some v | None => r end).
Proof.
  intros Hr. destruct (f (take (S k) bits)) as [v|] eqn:Hv.
  - exists (S k). split; [lia|]. split; [done|]. lia.
  - destruct r as [v|].
    + destruct Hr as (j & Hj & Hf & Hn). exists j. split; [lia|]. split; [done|].
      intros j' Hj'. destruct (decide (j' = S k)) as [->|]; [done|]. apply Hn. lia.
    + intros j Hj. destruct (decide (j = S k)) as [->|]; [done|]. apply Hr. lia.
Qed.
Lemma longest_ext f g bits k r :
  (forall b, f b = g b) -> longest f bits k r <-> longest g bits k r.
Proof. intros E. unfold longest. destruct r; setoid_rewrite E; done. Qed.
Lemma longest_extend f bits k n r :
  longest f bits k r -> (forall j, (k < j <= n)%nat -> f (take j bits) = None) -> (k <= n)%nat ->
  longest f bits n r.
Proof.
  intros Hr Hn Hk. destruct r as [v|].
  - destruct Hr as (j & Hj & Hf & Ho). exists j. split; [lia|]. split; [done|].
    intros j' Hj'. destruct (decide (j' <= k)%nat); [apply Ho|apply Hn]; lia.
  - intros j Hj. destruct (decide (j <= k)%nat); [apply Hr|apply Hn]; lia.
Qed.

(** What [found] and [*as] stand for. *)
Definition result_of (as0 : Z) (r : option Z) : Z * Z :=
  match r with Some v => (1, v) | None => (0, as0) end.

Section search.
Context (t : trie_t) (Hw : trie_wf t) (ip : list Z) (N : nat) (as0 : Z).
Let bits := ip_bits ip N.

(** The search has followed [k] bits. *)
Definition followed (k : nat) (s : search_st) : Prop :=
  walk (cells t) (root t) (take k bits) = Some (sr_current s)
  /\ exists r, longest (value_of t) bits k r /\ (sr_found s, sr_as s) = result_of as0 r.

Lemma dead_end k : (k < N)%nat -> walk (cells t) (root t) (take (S k) bits) = None ->
  forall j, (k < j <= N)%nat -> value_of t (take j bits) = None.
Proof.
  intros Hk Hnone j Hj. unfold value_of.
  replace (take j bits) with (take (S k) bits ++ drop (S k) (take j bits)).
  - rewrite walk_app, Hnone. done.
  - replace (take (S k) bits) with (take (S k) (take j bits)) by (rewrite take_take; f_equal; lia).
    apply take_drop.
Qed.

Lemma search_byte_spec n b i s :
  (n <= 8)%nat -> ip !! i = Some b -> (8 * S i <= N)%nat -> followed (8 * S i - n) s ->
  (exists s', search_byte t b n s = Some (inr s') /\ followed (8 * S i) s')
  \/ exists r, search_byte t b n s = Some (inl (result_of as0 r)) /\ longest (value_of t) bits N r.
Proof.
  revert s. induction n as [|n IH]; intros s Hn Hb HN Hs; cbn [search_byte].
  { left. exists s. split; [done|]. now replace (8 * S i)%nat with (8 * S i - 0)%nat by lia. }
  set (k := (8 * S i - S n)%nat) in *. destruct Hs as [Hwalk (r & Hr & Hres)].
  assert (Hk : take (S k) bits = take k bits ++ [bit_of b (Z.of_nat n)]).
  { unfold bits. rewrite !take_ip_bits, ip_bits_S by lia. do 2 f_equal. unfold ip_bit.
    assert (k / 8 = i)%nat as ->.
    { symmetry. apply (Nat.div_unique k 8 i (7 - n)); lia. }
    rewrite Hb. cbn [default]. f_equal.
    assert (Z.of_nat k mod 8 = 7 - Z.of_nat n) as ->; [|lia].
    symmetry. apply (Z.mod_unique (Z.of_nat k) 8 (Z.of_nat i)); lia. }
  destruct (tw_walk t Hw _ _ Hwalk) as [nd Hnd]. rewrite Hnd. cbn [mbind option_bind].
  assert (Hnext : walk (cells t) (root t) (take (S k) bits)
    = if bit_of b (Z.of_nat n) then nd_r nd else nd_l nd).
  { rewrite Hk, walk_snoc, Hwalk. cbn [mbind option_bind]. unfold child. now rewrite Hnd. }
  destruct (if bit_of b (Z.of_nat n) then nd_r nd else nd_l nd) as [p|].
  - destruct (tw_walk t Hw _ _ Hnext) as [nd' Hnd']. rewrite Hnd'. cbn [mbind option_bind].
    apply IH; [lia|done|done|]. replace (8 * S i - n)%nat with (S k) by lia.
    pose proof (longest_S _ _ _ _ Hr) as HrS.
    assert (Hv : value_of t (take (S k) bits) = if nz (as_in nd') then Some (nd_as nd') else None).
    { unfold value_of. rewrite Hnext. cbn [mbind option_bind]. unfold node_value. now rewrite Hnd'. }
    rewrite Hv in HrS. destruct (nz (as_in nd')).
    + split; [exact Hnext|]. eexists. split; [exact HrS|done].
    + split; [exact Hnext|]. eexists. split; [exact HrS|]. done.
  - right. exists r. rewrite Hres. split; [done|].
    eapply longest_extend; [exact Hr| |lia]. apply dead_end; [lia|done].
Qed.

Lemma search_loop_spec n i s :
  N = (8 * (i + n))%nat -> (i + n <= length ip)%nat -> followed (8 * i) s ->
  exists r, search_loop t ip n (Z.of_nat i) s = Some (result_of as0 r) /\ longest (value_of t) bits N r.
Proof.
  revert i s. induction n as [|n IH]; intros i s HN Hlen Hs; cbn [search_loop].
  - destruct Hs as [_ (r & Hr & Hres)]. exists r. rewrite Hres. split; [done|].
    now replace N with (8 * i)%nat by lia.
  - rewrite Nat2Z.id. destruct (lookup_lt_is_Some_2 ip i) as [b Hb]; [lia|]. rewrite Hb.
    cbn [mbind option_bind].
    destruct (search_byte_spec 8 b i s) as [(s' & -> & Hs')|(r & -> & Hr)]; [lia|done|lia| | |].
    + now replace (8 * S i - 8)%nat with (8 * i)%nat by lia.
    + cbn [mbind option_bind]. replace (Z.of_nat i + 1) with (Z.of_nat (S i)) by lia.
      apply IH; [lia|lia|done].
    + cbn [mbind option_bind]. eauto.
Qed.
End search.

(** ** A sequence of insertions *)

Lemma init_value bits : value_of trie_init bits = None.
Proof. destruct bits as [|[] bits]; reflexivity. Qed.
Lemma init_wf : trie_wf trie_init.
Proof.
  split.
  - done.
  - repeat constructor; done.
  - intros p n Hp. change (cells trie_init) with ({[ (0%nat, 0) := new_node ]} : gmap ptr node_t) in Hp.
    apply lookup_singleton_Some in Hp as [<- _]. exists 1. split; [reflexivity|]. cbn. lia.
  - intros [|b bits] p Hp; [|now destruct b]. injection Hp as <-. eexists. reflexivity.
  - intros [|b bits] [|b' bits'] p H1 H2; [done|now destruct b'|now destruct b|now destruct b].
Qed.

Definition prefix_ok (e : list Z * Z * Z) : Prop :=
  let '(ip, cidr, _) := e in 0 <= cidr <= 8 * zlen ip /\ is_u8 cidr.

Fixpoint run_puts (t : trie_t) (puts : list (list Z * Z * Z)) : option trie_t :=
  match puts with
  | [] => Some t
  | (ip, cidr, v) :: puts => '(t, _) ← trie_node_put t ip cidr v; run_puts t puts
  end.

(** The routing table: the first value given to a prefix; a prefix of length 0 is
    not stored. *)
Fixpoint stored (puts : list (list Z * Z * Z)) (bits : list bool) : option Z :=
  match puts with
  | [] => None
  | (ip, cidr, v) :: puts =>
      if decide (0 < cidr /\ bits = ip_bits ip (Z.to_nat cidr)) then Some v else stored puts bits
  end.

Lemma trie_node_put_spec t ip cidr v :
  trie_wf t -> 0 <= cidr <= 8 * zlen ip ->
  exists t' msg, trie_node_put t ip cidr v = Some (t', msg) /\ trie_wf t'
    /\ forall bits, value_of t' bits =
         if decide (0 < cidr /\ bits = ip_bits ip (Z.to_nat cidr)) then Some (default v (value_of t bits))
         else value_of t bits.
Proof.
  intros Hw Hc. unfold trie_node_put.
  destruct (put_loop_spec (Z.to_nat cidr) t [] (root t) ip 0 cidr v) as (t' & msg & E & Hw' & Hv);
    [done|done|done|lia|unfold zlen in Hc; lia|].
  exists t', msg. split; [exact E|]. split; [done|]. intros bits. rewrite Hv.
  apply decide_ext. rewrite Nat.add_0_l. split; intros [? ?]; (split; [lia|done]).
Qed.

Lemma run_puts_spec puts t :
  trie_wf t -> Forall prefix_ok puts ->
  exists t', run_puts t puts = Some t' /\ trie_wf t'
    /\ forall bits, value_of t' bits = match value_of t bits with Some v => Some v | None => stored puts bits end.
Proof.
  revert t. induction puts as [|[[ip cidr] v] puts IH]; intros t Hw Hp; cbn [run_puts stored].
  - exists t. split; [done|]. split; [done|]. intros bits. now destruct (value_of t bits).
  - apply Forall_cons_1 in Hp as [[Hc _] Hp].
    destruct (trie_node_put_spec t ip cidr v Hw Hc) as (t1 & msg & -> & Hw1 & Hv1).
    cbn [mbind option_bind]. destruct (IH t1 Hw1 Hp) as (t2 & -> & Hw2 & Hv2).
    exists t2. split; [done|]. split; [done|]. intros bits. rewrite Hv2, Hv1.
    destruct (decide _); [|done]. now destruct (value_of t bits).
Qed.

Lemma trie_search_spec t ip ln as0 :
  trie_wf t -> 0 <= ln <= zlen ip ->
  exists r, trie_node_search t ip ln as0 = Some (result_of as0 r)
    /\ longest (value_of t) (ip_bits ip (8 * Z.to_nat ln)) (8 * Z.to_nat ln) r.
Proof.
  intros Hw Hln. unfold trie_node_search.
  apply (search_loop_spec t Hw ip (8 * Z.to_nat ln) as0 (Z.to_nat ln) 0).
  - lia.
  - unfold zlen in Hln. lia.
  - split; [done|]. exists None. split; [intros j Hj; lia|done].
Qed.

(** *** The routing table as a list of routes

    The specification knows nothing of the trie: the first value given to a prefix,
    whatever its length, and the longest prefix of an address that has a value. *)
Fixpoint route (puts : list (list Z * Z * Z)) (prefix : list bool) : option Z :=
  match puts with
  | [] => None
  | (ip, cidr, v) :: puts =>
      if decide (prefix = ip_bits ip (Z.to_nat cidr)) then Some v else route puts prefix
  end.

(** The length and the value of the longest prefix of [bits], of length at most [k], that
    has a route; a default route is the prefix of length 0. *)
Definition best_route (puts : list (list Z * Z * Z)) (bits : list bool) (k : nat)
    (r : option (nat * Z)) : Prop :=
  match r with
  | Some (j, v) => (j <= k)%nat /\ route puts (take j bits) = Some v
                   /\ forall j', (j < j' <= k)%nat -> route puts (take j' bits) = None
  | None => forall j, (j <= k)%nat -> route puts (take j bits) = None
  end.

Lemma stored_route puts bits : bits <> [] -> stored puts bits = route puts bits.
Proof.
  intros Hb. induction puts as [|[[ip cidr] v] puts IH]; [done|]. cbn [stored route]. rewrite IH.
  apply decide_ext. split; [tauto|]. intros ->. split; [|done].
  destruct (decide (0 < cidr)); [done|]. replace (Z.to_nat cidr) with 0%nat in Hb by lia. done.
Qed.
Lemma take_nonempty {A} (l : list A) j : (1 <= j <= length l)%nat -> take j l <> [].
Proof. intros Hj E. apply (f_equal length) in E. rewrite length_take in E. simpl in E. lia. Qed.

(** The longest non-empty prefix stored is the best route, unless that is the default route. *)
Lemma longest_best puts bits r :
  longest (stored puts) bits (length bits) r ->
  exists m, best_route puts bits (length bits) m
    /\ r = match m with Some (S _, v) => Some v | _ => None end.
Proof.
  set (N := length bits). intros Hr.
  assert (Hs : forall j, (1 <= j <= N)%nat -> stored puts (take j bits) = route puts (take j bits)).
  { intros j Hj. apply stored_route, take_nonempty. exact Hj. }
  destruct r as [v|].
  - destruct Hr as (j & Hj & Hf & Hn). exists (Some (j, v)). split.
    + split; [lia|]. rewrite <- Hs by done. split; [done|]. intros j' Hj'. rewrite <- Hs by lia. now apply Hn.
    + destruct j; [lia|done].
  - exists (v ← route puts []; Some (0%nat, v)). destruct (route puts []) as [v|] eqn:H0.
    + split; [|done]. split; [lia|]. split; [exact H0|].
      intros j' Hj'. rewrite <- Hs by lia. apply Hr. lia.
    + split; [|done]. intros [|j] Hj; [exact H0|]. rewrite <- Hs by lia. apply Hr. lia.
Qed.

(** A default route leaves the trie as it is. *)
Lemma put_default t ip v : trie_node_put t ip 0 v = Some (t, []).
Proof. reflexivity. Qed.

(** C9: after any sequence of insertions, each of a prefix of at most 255 bits that the
    address given for it has, every insertion is carried out and a search of [ln] bytes
    returns the value of the longest prefix of them that was inserted, the first value if a
    prefix was inserted more than once, provided that prefix has at least one bit.  When no
    prefix matches the search reports that and leaves [*as] as it was; and so it does when
    the longest prefix that matches is the default route, of length 0, which is accepted
    and never found (a defect). *)
Theorem trie_search_longest_prefix (puts : list (list Z * Z * Z)) (ip : list Z) (ln as0 : Z) :
  Forall prefix_ok puts -> 0 <= ln <= zlen ip ->
  exists t m, run_puts trie_init puts = Some t
    /\ best_route puts (ip_bits ip (8 * Z.to_nat ln)) (8 * Z.to_nat ln) m
    /\ trie_node_search t ip ln as0
       = Some match m with
              | Some (S _, v) => (1, v)
              | Some (O, _) | None => (0, as0)
              end.
Proof.
  intros Hp Hln. destruct (run_puts_spec puts trie_init init_wf Hp) as (t & E & Hw & Hv).
  destruct (trie_search_spec t ip ln as0 Hw Hln) as (r & Es & Hr).
  assert (Hext : forall bits, value_of t bits = stored puts bits) by (intros; now rewrite Hv, init_value).
  rewrite (longest_ext _ (stored puts)) in Hr by exact Hext.
  set (bits := ip_bits ip (8 * Z.to_nat ln)) in *.
  assert (Hlen : length bits = (8 * Z.to_nat ln)%nat) by apply length_ip_bits.
  rewrite <- Hlen in Hr |- *. apply longest_best in Hr as (m & Hm & ->).
  exists t, m. split; [done|]. split; [exact Hm|]. rewrite Es. now destruct m as [[[|j] v]|].
Qed.

(** A default route and two routes inside each other: the address 10.1.2.3 finds the longer one. *)
Lemma trie_search_longest_prefix_witness :
  exists t m, run_puts trie_init [([0; 0; 0; 0], 0, 9); ([10; 0; 0; 0], 8, 1); ([10; 1; 0; 0], 16, 2)] = Some t
    /\ best_route [([0; 0; 0; 0], 0, 9); ([10; 0; 0; 0], 8, 1); ([10; 1; 0; 0], 16, 2)]
         (ip_bits [10; 1; 2; 3] 32) 32 m
    /\ trie_node_search t [10; 1; 2; 3] 4 (-7)
       = Some match m with Some (S _, v) => (1, v) | Some (O, _) | None => (0, -7) end.
Proof.
  apply (trie_search_longest_prefix
    [([0; 0; 0; 0], 0, 9); ([10; 0; 0; 0], 8, 1); ([10; 1; 0; 0], 16, 2)] [10; 1; 2; 3] 4 (-7)).
  - repeat constructor; unfold prefix_ok, zlen, is_u8; simpl; lia.
  - unfold zlen. simpl. lia.
Defined.

(** An address that only the default route matches is reported as having no route. *)
Example default_route_lost :
  (t ← run_puts trie_init [([0; 0; 0; 0], 0, 9); ([10; 0; 0; 0], 8, 1)];
   trie_node_search t [192; 168; 1; 1] 4 (-7)) = Some (0, -7)
  /\ route [([0; 0; 0; 0], 0, 9); ([10; 0; 0; 0], 8, 1)] [] = Some 9.
Proof. split; vm_compute; reflexivity. Qed.

(** ** What the BPF map looks up *)

Fixpoint lpm_updates (m : lpm_map) (ups : list (list Z * Z)) : option lpm_map :=
  match ups with
  | [] => Some m
  | (key, v) :: ups => '(_, m) ← lpm_elem_update m key v; lpm_updates m ups
  end.

(** The value of the first update whose key has the same first [n] bits. *)
Fixpoint first_agreeing (n : nat) (ups : list (list Z * Z)) (key : list Z) : option Z :=
  match ups with
  | [] => None
  | (k, v) :: ups => if decide (ip_bits key n = ip_bits k n) then Some v else first_agreeing n ups key
  end.

Lemma stored_fixed ks ups bits :
  0 < ks -> stored ((fun '(k, v) => (k, ks, v)) <$> ups) bits <> None -> length bits = Z.to_nat ks.
Proof.
  intros Hks. induction ups as [|[k v] ups IH]; [done|]. cbn.
  destruct (decide _) as [[_ ->]|]; [|done]. intros _. apply length_ip_bits.
Qed.
Lemma stored_first ks ups key :
  0 < ks -> stored ((fun '(k, v) => (k, ks, v)) <$> ups) (ip_bits key (Z.to_nat ks))
            = first_agreeing (Z.to_nat ks) ups key.
Proof.
  intros Hks. induction ups as [|[k v] ups IH]; [done|]. cbn. rewrite IH.
  apply decide_ext. intuition.
Qed.
Lemma lpm_updates_puts ks t a ups :
  is_u8 ks ->
  lpm_updates (LpmMap t ks a) ups
  = (fun t => LpmMap t ks a) <$> run_puts t ((fun '(k, v) => (k, ks, v)) <$> ups).
Proof.
  intros Hks. revert t. induction ups as [|[k v] ups IH]; intros t; [done|].
  cbn [lpm_updates fmap list_fmap run_puts]. unfold lpm_elem_update. cbn [lpm_trie lpm_key_size].
  rewrite u8_id by done. destruct (trie_node_put t k ks v) as [[t' msg]|]; [|done].
  cbn [mbind option_bind]. apply IH.
Qed.

Lemma first_agreeing_prefix n ups key key' :
  (n <= 32)%nat -> take 4 key' = take 4 key ->
  first_agreeing n ups key' = first_agreeing n ups key.
Proof.
  intros Hn Ht. enough (ip_bits key' n = ip_bits key n) as E.
  { induction ups as [|[k v] ups IH]; [done|]. cbn. now rewrite E, IH. }
  unfold ip_bits. apply list_fmap_ext. intros i x Hx.
  apply lookup_seq in Hx as [-> Hx]. unfold ip_bit. cbn [Nat.add].
  assert (i / 8 < 4)%nat by (apply Nat.Div0.div_lt_upper_bound; lia).
  rewrite <- (lookup_take_lt key' 4), <- (lookup_take_lt key 4) by done. now rewrite Ht.
Qed.

(** The map passes its key size, a number of bytes, to the trie as the number of
    bits to store: a lookup returns the value of the first update whose key has
    the same first [key_size] bits, so no longest prefix is taken, and for keys of
    at most 32 bytes only the four bytes of [prefixlen] are compared, never the
    address. *)
Lemma lpm_map_lookup (ks : Z) (ups : list (list Z * Z)) (key : list Z) :
  0 < ks < 256 -> Forall (fun '(k, _) => zlen k = ks) ups -> zlen key = ks ->
  exists m, lpm_updates (lpm_alloc_map ks) ups = Some m
    /\ (exists m', lpm_elem_lookup m key = Some (first_agreeing (Z.to_nat ks) ups key, m'))
    /\ (ks <= 32 -> forall key', take 4 key' = take 4 key ->
          first_agreeing (Z.to_nat ks) ups key' = first_agreeing (Z.to_nat ks) ups key).
Proof.
  intros Hks Hups Hkey. unfold lpm_alloc_map. rewrite lpm_updates_puts by (unfold is_u8; lia).
  set (puts := (fun '(k, v) => (k, ks, v)) <$> ups).
  assert (Forall prefix_ok puts) as Hp.
  { unfold puts. apply Forall_fmap. eapply Forall_impl; [exact Hups|].
    intros [k v] Hk. cbn in Hk |- *. unfold is_u8. lia. }
  destruct (run_puts_spec puts trie_init init_wf Hp) as (t & -> & Hw & Hv).
  exists (LpmMap t ks 0). split; [done|]. split; [|intros; apply first_agreeing_prefix; [lia|done]].
  unfold lpm_elem_lookup. cbn [lpm_trie lpm_key_size lpm_as]. rewrite u8_id by (unfold is_u8; lia).
  destruct (trie_search_spec t key ks 0 Hw) as (r & -> & Hr); [lia|]. cbn [mbind option_bind].
  enough (r = first_agreeing (Z.to_nat ks) ups key) as <- by (destruct r; eexists; reflexivity).
  rewrite <- stored_first by lia. fold puts.
  assert (Hext : forall bits, value_of t bits = stored puts bits) by (intros; now rewrite Hv, init_value).
  set (n := Z.to_nat ks) in *.
  assert (Hat : take n (ip_bits key (8 * n)) = ip_bits key n) by (apply take_ip_bits; lia).
  destruct r as [v|].
  - destruct Hr as (j & Hj & Hf & _). rewrite Hext in Hf.
    assert (j = n) as ->; [|now rewrite <- Hat].
    assert (length (take j (ip_bits key (8 * n))) = n) as Hl.
    { apply (stored_fixed ks ups); [lia|]. fold puts. now rewrite Hf. }
    rewrite length_take, length_ip_bits in Hl. lia.
  - rewrite <- Hat, <- Hext. symmetry. apply Hr. lia.
Qed.

(** Two routes of length 24: the second is never found, and any address finds the
    first. *)
Lemma lpm_map_lookup_witness :
  exists m, lpm_updates (lpm_alloc_map 8) [([24; 0; 0; 0; 10; 0; 0; 0], 1); ([24; 0; 0; 0; 192; 168; 1; 0], 2)]
      = Some m
    /\ exists m', lpm_elem_lookup m [24; 0; 0; 0; 192; 168; 1; 7] = Some (Some 1, m').
Proof.
  destruct (lpm_map_lookup 8 [([24; 0; 0; 0; 10; 0; 0; 0], 1); ([24; 0; 0; 0; 192; 168; 1; 0], 2)]
    [24; 0; 0; 0; 192; 168; 1; 7] ltac:(lia) ltac:(repeat constructor) eq_refl) as (m & E & H & _).
  exists m. split; [exact E|exact H].
Defined.

(** ** The test program *)

(** What is found: the test gives the length of the address in bits where the search takes bytes.
    @src module/test/main.cpp 4-33 main *)
Definition test_main : option (Z * Z) :=
  let ip := [192; 168; 1; 0] in
  '(t, _) ← trie_node_put trie_init ip 24 123;
  trie_node_search t [192; 168; 1; 1] 32 0.
(** It is found because the search leaves the trie before the end of the address; with a route for
    the whole address the search reads behind it. *)
Example test_finds : test_main = Some (1, 123).
Proof. vm_compute. reflexivity. Qed.
Example test_length_in_bits :
  ('(t, _) ← trie_node_put trie_init [192; 168; 1; 1] 32 123; trie_node_search t [192; 168; 1; 1] 32 0) = None /\
  ('(t, _) ← trie_node_put trie_init [192; 168; 1; 1] 32 123; trie_node_search t [192; 168; 1; 1] 4 0) = Some (1, 123).
Proof. split; vm_compute; reflexivity. Qed.
