(* ===== verification/RuntimeMaps.v ===== *)
(** * The runtime's LRU map and device map (module/maps.cpp, module/LRUCache11.hpp)

    The LRU map that the runtime registers for katran's connection tables is a
    list of entries, the most recently used first, with an index from keys to
    list nodes.  The device map is an ordered map of integers. *)
From Stdlib Require Import ZArith Lia Sorted.
From stdpp Require Import base numbers list option gmap.
From S2P Require Import Prelude Xdp OnesComplement KatranDefs.
#[local] Open Scope Z_scope.

(** ** The LRU cache *)

(** What [operator==] and the hash of [flow_key] look at: the first words of the
    addresses, the ports and the protocol.  The key and value structures are
    those of katran.
    @src module/maps.cpp 110-116 flow_key *)
Definition key_id (k : flow_key) : Z * Z * Z * Z := (fk_src k, fk_dst k, fk_ports k, fk_proto k).

(** [keys_] is the list, [cache_] the keys that the index holds.
    @src module/LRUCache11.hpp 233-237 Cache *)
Record lru_cache := LruCache {
  keys_ : list (flow_key * real_pos_lru); cache_ : gset (Z * Z * Z * Z);
  maxSize_ : nat; elasticity_ : nat }.

(** @src module/maps.cpp 142-143 cache *)
Definition new_cache : lru_cache := LruCache [] ∅ 2000 1000.

Definition find_node (k : flow_key) (l : list (flow_key * real_pos_lru))
    : option (nat * (flow_key * real_pos_lru)) :=
  list_find (fun kv => key_id kv.1 = key_id k) l.

(** The loop [while (cache_.size() > maxSize_)]; [fuel] bounds its iterations.
    @src module/LRUCache11.hpp 219-224 prune *)
Fixpoint prune_loop (fuel : nat) (c : lru_cache) : lru_cache :=
  match fuel with
  | O => c
  | S fuel =>
      if (maxSize_ c <? size (cache_ c))%nat then
        match last (keys_ c) with
        | Some kv =>
            prune_loop fuel (LruCache (removelast (keys_ c)) (cache_ c ∖ {[ key_id kv.1 ]})
                               (maxSize_ c) (elasticity_ c))
        | None => c
        end
      else c
  end.

(** @src module/LRUCache11.hpp 214-226 prune *)
Definition prune (c : lru_cache) : lru_cache :=
  let maxAllowed := (maxSize_ c + elasticity_ c)%nat in
  if (maxSize_ c =? 0)%nat || (size (cache_ c) <? maxAllowed)%nat then c
  else prune_loop (size (cache_ c)) c.

(** An existing node keeps its key, gets the value and moves to the front.
    @src module/LRUCache11.hpp 115-127 insert *)
Definition cache_insert (c : lru_cache) (k : flow_key) (v : real_pos_lru) : lru_cache :=
  match (if bool_decide (key_id k ∈ cache_ c) then find_node k (keys_ c) else None) with
  | Some (i, kv) =>
      LruCache ((kv.1, v) :: delete i (keys_ c)) (cache_ c) (maxSize_ c) (elasticity_ c)
  | None =>
      prune (LruCache ((k, v) :: keys_ c) ({[ key_id k ]} ∪ cache_ c) (maxSize_ c) (elasticity_ c))
  end.

(** [None] is false; a hit moves the node to the front.
    @src module/LRUCache11.hpp 205-213 tryGetRef_nolock *)
Definition tryGetRef (c : lru_cache) (k : flow_key) : option real_pos_lru * lru_cache :=
  match (if bool_decide (key_id k ∈ cache_ c) then find_node k (keys_ c) else None) with
  | Some (i, kv) =>
      (Some kv.2, LruCache (kv :: delete i (keys_ c)) (cache_ c) (maxSize_ c) (elasticity_ c))
  | None => (None, c)
  end.

(** The other operations of the class, which no map calls; the locks are those of one thread.
    @src module/LRUCache11.hpp 102-105 size *)
Definition cache_count (c : lru_cache) : nat := size (cache_ c).
(** @src module/LRUCache11.hpp 106-109 empty *)
Definition cache_empty (c : lru_cache) : bool := bool_decide (cache_ c = ∅).
(** @src module/LRUCache11.hpp 110-114 clear *)
Definition cache_clear (c : lru_cache) : lru_cache := LruCache [] ∅ (maxSize_ c) (elasticity_ c).
(** [None] is the exception [KeyNotFound].
    @src module/LRUCache11.hpp 197-204 get_nolock *)
Definition get_nolock (c : lru_cache) (k : flow_key) : option (real_pos_lru * lru_cache) :=
  match (if bool_decide (key_id k ∈ cache_ c) then find_node k (keys_ c) else None) with
  | Some (i, kv) =>
      Some (kv.2, LruCache (kv :: delete i (keys_ c)) (cache_ c) (maxSize_ c) (elasticity_ c))
  | None => None
  end.
(** [*vOut] is [v0] before.
    @src module/LRUCache11.hpp 135-141 tryGetCopy *)
Definition tryGetCopy (c : lru_cache) (k : flow_key) (v0 : real_pos_lru) : bool * real_pos_lru * lru_cache :=
  match tryGetRef c k with (Some v, c) => (true, v, c) | (None, c) => (false, v0, c) end.
(** @src module/LRUCache11.hpp 172-181 remove *)
Definition cache_remove (c : lru_cache) (k : flow_key) : bool * lru_cache :=
  match (if bool_decide (key_id k ∈ cache_ c) then find_node k (keys_ c) else None) with
  | Some (i, kv) =>
      (true, LruCache (delete i (keys_ c)) (cache_ c ∖ {[ key_id k ]}) (maxSize_ c) (elasticity_ c))
  | None => (false, c)
  end.
(** @src module/LRUCache11.hpp 182-185 contains *)
Definition cache_contains (c : lru_cache) (k : flow_key) : bool := bool_decide (key_id k ∈ cache_ c).
(** @src module/LRUCache11.hpp 187-189 getMaxAllowedSize *)
Definition getMaxAllowedSize (c : lru_cache) : nat := maxSize_ c + elasticity_ c.

(** The BPF map: the cache and the static [value_local]. *)
Record lru_hash_map := LruHashMap { lru_c : lru_cache; value_local : real_pos_lru }.

(** A hit returns a pointer to [value_local], a copy of the value: the boolean.
    @src module/maps.cpp 145-154 lru_hash_map_elem_lookup *)
Definition lru_hash_map_elem_lookup (m : lru_hash_map) (k : flow_key) : bool * lru_hash_map :=
  match tryGetRef (lru_c m) k with
  | (Some v, c) => (true, LruHashMap c v)
  | (None, c) => (false, LruHashMap c (value_local m))
  end.
(** An assignment through the pointer that a lookup returned. *)
Definition write_through (m : lru_hash_map) (g : real_pos_lru -> real_pos_lru) : lru_hash_map :=
  LruHashMap (lru_c m) (g (value_local m)).
(** @src module/maps.cpp 156-160 lru_hash_map_elem_update *)
Definition lru_hash_map_elem_update (m : lru_hash_map) (k : flow_key) (v : real_pos_lru)
    : Z * lru_hash_map := (0, LruHashMap (cache_insert (lru_c m) k v) (value_local m)).
(** @src module/maps.cpp 162-165 lru_hash_map_elem_delete *)
Definition lru_hash_map_elem_delete (m : lru_hash_map) (k : flow_key) : Z * lru_hash_map := (0, m).
(** @src module/maps.cpp 167-170 lru_hash_map_get_next_key *)
Definition lru_hash_map_get_next_key (m : lru_hash_map) (k : flow_key) : Z * lru_hash_map := (0, m).

(** ** The device map *)

(** @src module/maps.cpp 10-17 elem_lookup_static *)
Definition elem_lookup_static (m : gmap Z Z) (k : Z) : option Z := m !! k.
(** @src module/maps.cpp 19-26 elem_update_static *)
Definition elem_update_static (m : gmap Z Z) (k v : Z) : Z * gmap Z Z := (0, <[k := v]> m).
(** @src module/maps.cpp 28-36 elem_delete_static *)
Definition elem_delete_static (m : gmap Z Z) (k : Z) : Z * gmap Z Z :=
  match m !! k with None => (-1, m) | Some _ => (0, delete k m) end.
(** The keys in the order of [std::map]. *)
Definition upper_bound (m : gmap Z Z) (k : Z) : option Z :=
  map_fold (fun j _ r => if j <=? k then r
                         else Some (match r with Some i => Z.min i j | None => j end)) None m.
(** The return value and [*next_key] when it is written.
    @src module/maps.cpp 38-46 elem_get_next_key_static *)
Definition elem_get_next_key_static (m : gmap Z Z) (k : Z) : Z * option Z :=
  match upper_bound m k with None => (-1, None) | Some j => (0, Some j) end.

(** ** The cache's invariant *)

(** The index holds the keys of the list, none of which is there twice, and there
    is room for one more entry before the hard limit. *)
Definition ids (c : lru_cache) : list (Z * Z * Z * Z) := (fun kv => key_id kv.1) <$> keys_ c.
Record cache_wf (c : lru_cache) : Prop := {
  cw_index : cache_ c = list_to_set (ids c);
  cw_nodup : NoDup (ids c);
  cw_room : (0 < maxSize_ c)%nat /\ (0 < elasticity_ c)%nat;
  cw_size : (length (keys_ c) < maxSize_ c + elasticity_ c)%nat
}.

Lemma ids_length c : length (ids c) = length (keys_ c).
Proof. apply length_fmap. Qed.
Lemma cache_size c :
  cache_ c = list_to_set (ids c) -> NoDup (ids c) -> size (cache_ c) = length (keys_ c).
Proof. intros -> Hn. rewrite size_list_to_set by done. apply ids_length. Qed.

Lemma new_cache_wf : cache_wf new_cache.
Proof. split; [done|constructor|cbn; lia|cbn; lia]. Qed.

(** Pruning cuts the list to its first [maxSize_] entries. *)
Lemma prune_loop_spec fuel c :
  cache_ c = list_to_set (ids c) -> NoDup (ids c) -> (length (keys_ c) <= fuel)%nat ->
  prune_loop fuel c = LruCache (take (maxSize_ c) (keys_ c)) (list_to_set (take (maxSize_ c) (ids c)))
                        (maxSize_ c) (elasticity_ c).
Proof.
  revert c. induction fuel as [|fuel IH]; intros c Hi Hn Hl; cbn [prune_loop].
  - destruct c as [l s m e]. cbn in *. destruct l; [|simpl in Hl; lia]. subst s.
    unfold ids. cbn. now rewrite !take_nil.
  - rewrite cache_size by done. destruct (Nat.ltb_spec (maxSize_ c) (length (keys_ c))) as [Hlt|Hge].
    + destruct (last (keys_ c)) as [kv|] eqn:Hlast.
      2:{ apply last_None in Hlast. rewrite Hlast in Hlt. simpl in Hlt. lia. }
      apply last_Some in Hlast as [l Hkeys]. destruct c as [keys idx mx el]. cbn [keys_ cache_ maxSize_ elasticity_] in *.
      subst keys. unfold ids in *. cbn [keys_] in *. rewrite removelast_last.
      rewrite fmap_app in Hn, Hi. cbn [fmap list_fmap] in Hn, Hi. apply NoDup_app in Hn as (Hn & Hd & _).
      rewrite length_app in Hl, Hlt. simpl in Hl, Hlt.
      rewrite IH; cbn [keys_ cache_ maxSize_ elasticity_].
      * f_equal; [now rewrite take_app_le by lia|].
        rewrite fmap_app, take_app_le by (rewrite length_fmap; lia). done.
      * rewrite Hi. unfold ids. cbn [keys_]. rewrite list_to_set_app_L. cbn [list_to_set].
        apply set_eq. intros x. rewrite !elem_of_difference, elem_of_union, elem_of_union, !elem_of_singleton, elem_of_list_to_set.
        split; [intros [[Hx|[Hx|Hx]] Hne]; [done|done|now apply elem_of_empty in Hx]|].
        intros Hx. split; [now left|]. intros ->. apply (Hd _ Hx). now left.
      * done.
      * unfold ids. cbn [keys_]. lia.
    + rewrite (take_ge (keys_ c)) by lia. rewrite take_ge by (rewrite ids_length; lia).
      rewrite <- Hi. now destruct c.
Qed.

(** ** The operations on the list *)

Lemma find_node_spec c k :
  cache_wf c ->
  match (if bool_decide (key_id k ∈ cache_ c) then find_node k (keys_ c) else None) with
  | Some (i, kv) => keys_ c !! i = Some kv /\ key_id kv.1 = key_id k
  | None => key_id k ∉ ids c
  end.
Proof.
  intros Hc. rewrite (cw_index c Hc). case_bool_decide as Hin.
  - rewrite elem_of_list_to_set in Hin. unfold find_node.
    destruct (list_find _ _) as [[i kv]|] eqn:Hf.
    + apply list_find_Some in Hf as (Hl & Hk & _). done.
    + apply list_find_None in Hf. exfalso. unfold ids in Hin.
      apply list_elem_of_fmap in Hin as (kv & Hkv & Hin). rewrite Forall_forall in Hf.
      now apply (Hf kv Hin).
  - now rewrite elem_of_list_to_set in Hin.
Qed.

(** Moving a node to the front. *)
Section move.
Context (c : lru_cache) (Hc : cache_wf c) (i : nat) (kv kv' : flow_key * real_pos_lru).
Context (Hi : keys_ c !! i = Some kv) (Hk : key_id kv'.1 = key_id kv.1).
Let c' := LruCache (kv' :: delete i (keys_ c)) (cache_ c) (maxSize_ c) (elasticity_ c).

Lemma move_ids : ids c' ≡ₚ ids c.
Proof.
  unfold ids, c'. cbn [keys_ fmap list_fmap]. rewrite (delete_Permutation (keys_ c) i kv Hi) at 2.
  cbn [fmap list_fmap]. now rewrite Hk.
Qed.
Lemma move_wf : cache_wf c'.
Proof.
  destruct Hc as [Hix Hn Hr Hs]. split.
  - cbn [c' cache_]. rewrite Hix. apply leibniz_equiv. now rewrite move_ids.
  - now rewrite move_ids.
  - done.
  - rewrite <- ids_length, move_ids, ids_length. done.
Qed.
(** A node other than the moved one falls back by at most one place. *)
Lemma move_other j x :
  keys_ c !! j = Some x -> j <> i -> exists j', (j' <= S j)%nat /\ keys_ c' !! j' = Some x.
Proof.
  intros Hj Hne. cbn [c' keys_]. destruct (decide (j < i)%nat).
  - exists (S j). split; [done|].
    change (delete i (keys_ c) !! j = Some x). now rewrite list_lookup_delete_lt.
  - exists j. split; [lia|]. destruct j as [|j]; [lia|].
    change (delete i (keys_ c) !! j = Some x). now rewrite list_lookup_delete_ge by lia.
Qed.
End move.

Lemma cache_insert_wf c k v : cache_wf c -> cache_wf (cache_insert c k v).
Proof.
  intros Hc. pose proof (find_node_spec c k Hc) as Hf. unfold cache_insert.
  destruct (if bool_decide (key_id k ∈ cache_ c) then find_node k (keys_ c) else None) as [[i kv]|].
  - destruct Hf as [Hi Hk]. now apply (move_wf c Hc i kv (kv.1, v)).
  - destruct Hc as [Hix Hn [Hm He] Hs]. set (c1 := LruCache _ _ _ _).
    assert (H1 : cache_ c1 = list_to_set (ids c1)) by (cbn; now rewrite Hix).
    assert (H2 : NoDup (ids c1)) by (constructor; done).
    unfold prune. rewrite (cache_size c1) by done.
    destruct (Nat.eqb_spec (maxSize_ c1) 0); [cbn in *; lia|]. cbn [orb].
    destruct (Nat.ltb_spec (length (keys_ c1)) (maxSize_ c1 + elasticity_ c1)).
    + split; done.
    + rewrite prune_loop_spec by done. split; cbn [keys_ cache_ maxSize_ elasticity_].
      * unfold ids. cbn [keys_]. now rewrite <- fmap_take.
      * unfold ids. cbn [keys_]. rewrite fmap_take. eapply sublist_NoDup; [exact H2|apply sublist_take].
      * done.
      * rewrite length_take. cbn. lia.
Qed.

Lemma tryGetRef_wf c k : cache_wf c -> cache_wf (tryGetRef c k).2.
Proof.
  intros Hc. pose proof (find_node_spec c k Hc) as Hf. unfold tryGetRef.
  destruct (if bool_decide (key_id k ∈ cache_ c) then find_node k (keys_ c) else None) as [[i kv]|]; [|done].
  destruct Hf as [Hi Hk]. now apply (move_wf c Hc i kv kv).
Qed.

(** The entry of a key, [i] places from the front. *)
Definition held (c : lru_cache) (k : flow_key) (v : real_pos_lru) (i : nat) : Prop :=
  exists k', keys_ c !! i = Some (k', v) /\ key_id k' = key_id k.

Lemma ids_inj c i j kv kv' :
  cache_wf c -> keys_ c !! i = Some kv -> keys_ c !! j = Some kv' -> key_id kv.1 = key_id kv'.1 -> i = j.
Proof.
  intros Hc Hi Hj Hk. apply (NoDup_lookup (ids c) i j (key_id kv.1)); [apply Hc| |].
  - unfold ids. now rewrite list_lookup_fmap, Hi.
  - unfold ids. now rewrite list_lookup_fmap, Hj, Hk.
Qed.

Lemma held_found c k v i : cache_wf c -> held c k v i -> (tryGetRef c k).1 = Some v.
Proof.
  intros Hc (k' & Hi & Hk). pose proof (find_node_spec c k Hc) as Hf. unfold tryGetRef.
  destruct (if bool_decide (key_id k ∈ cache_ c) then find_node k (keys_ c) else None) as [[j kv]|].
  - destruct Hf as [Hj Hkv]. assert (i = j) as <- by (eapply (ids_inj c); eauto; cbn; congruence).
    rewrite Hi in Hj. now injection Hj as <-.
  - exfalso. apply Hf. unfold ids. apply list_elem_of_fmap. exists (k', v). split; [done|].
    now apply list_elem_of_lookup_2 in Hi.
Qed.

Lemma insert_held c k v : cache_wf c -> (0 < maxSize_ c)%nat -> held (cache_insert c k v) k v 0.
Proof.
  intros Hc Hm. pose proof (find_node_spec c k Hc) as Hf. unfold cache_insert.
  destruct (if bool_decide (key_id k ∈ cache_ c) then find_node k (keys_ c) else None) as [[i kv]|].
  - exists kv.1. split; [done|]. apply Hf.
  - exists k. split; [|done]. destruct Hc as [Hix Hn [_ He] Hs]. set (c1 := LruCache _ _ _ _).
    assert (H1 : cache_ c1 = list_to_set (ids c1)) by (cbn; now rewrite Hix).
    assert (H2 : NoDup (ids c1)) by (constructor; done).
    unfold prune. rewrite (cache_size c1) by done. destruct (_ || _); [done|].
    rewrite prune_loop_spec by done. cbn. destruct (maxSize_ c); [lia|done].
Qed.

(** What another call does to an entry. *)
Inductive lru_op := LruInsert (k : flow_key) (v : real_pos_lru) | LruGet (k : flow_key).
Definition op_key (o : lru_op) : flow_key := match o with LruInsert k _ => k | LruGet k => k end.
Definition lru_step (c : lru_cache) (o : lru_op) : lru_cache :=
  match o with LruInsert k v => cache_insert c k v | LruGet k => (tryGetRef c k).2 end.

Lemma lru_step_wf c o : cache_wf c -> cache_wf (lru_step c o).
Proof. destruct o; [apply cache_insert_wf|apply tryGetRef_wf]. Qed.
Lemma lru_step_sizes c o :
  maxSize_ (lru_step c o) = maxSize_ c /\ elasticity_ (lru_step c o) = elasticity_ c.
Proof.
  assert (forall fuel c, maxSize_ (prune_loop fuel c) = maxSize_ c
    /\ elasticity_ (prune_loop fuel c) = elasticity_ c) as Hp.
  { induction fuel as [|fuel IH]; intros d; [done|]. cbn [prune_loop].
    destruct (_ <? _)%nat; [|done]. destruct (last _); [|done]. now rewrite !(proj1 (IH _)), !(proj2 (IH _)). }
  destruct o as [k v|k]; cbn [lru_step]; unfold cache_insert, tryGetRef.
  - destruct (if bool_decide _ then _ else None) as [[i kv]|]; [done|]. unfold prune.
    destruct (_ || _); [done|]. now rewrite !(proj1 (Hp _ _)), !(proj2 (Hp _ _)).
  - now destruct (if bool_decide _ then _ else None) as [[i kv]|].
Qed.

Lemma held_step c o k v i :
  cache_wf c -> key_id (op_key o) <> key_id k -> held c k v i -> (S i < maxSize_ c)%nat ->
  exists j, (j <= S i)%nat /\ held (lru_step c o) k v j.
Proof.
  intros Hc Hne (k' & Hi & Hk) Hlt. pose proof (find_node_spec c (op_key o) Hc) as Hf.
  assert (Hother : forall j kv kv', keys_ c !! j = Some kv -> key_id kv.1 = key_id (op_key o) ->
    key_id kv'.1 = key_id kv.1 ->
    exists j', (j' <= S i)%nat /\ held (LruCache (kv' :: delete j (keys_ c)) (cache_ c) (maxSize_ c) (elasticity_ c)) k v j').
  { intros j kv kv' Hj Hkv Hkv'. destruct (move_other c j kv' i _ Hi) as (j' & Hj' & Hl).
    - intros ->. rewrite Hj in Hi. injection Hi as ->. cbn in *. congruence.
    - exists j'. split; [done|]. exists k'. done. }
  destruct o as [k1 v1|k1]; cbn [lru_step op_key] in *; unfold cache_insert, tryGetRef;
    destruct (if bool_decide (key_id k1 ∈ cache_ c) then find_node k1 (keys_ c) else None) as [[j kv]|].
  - destruct Hf as [Hj Hkv]. now apply (Hother j kv).
  - exists (S i). split; [done|]. exists k'. split; [|done].
    destruct Hc as [Hix Hn [_ He] Hs]. set (c1 := LruCache _ _ _ _).
    assert (H1 : cache_ c1 = list_to_set (ids c1)) by (cbn; now rewrite Hix).
    assert (H2 : NoDup (ids c1)) by (constructor; done).
    unfold prune. rewrite (cache_size c1) by done. destruct (_ || _); [done|].
    rewrite prune_loop_spec by done. cbn [keys_]. rewrite lookup_take_lt by (cbn; lia). done.
  - destruct Hf as [Hj Hkv]. now apply (Hother j kv).
  - exists i. split; [lia|]. now exists k'.
Qed.

Lemma held_steps ops c k v i :
  cache_wf c -> Forall (fun o => key_id (op_key o) <> key_id k) ops -> held c k v i ->
  (i + length ops < maxSize_ c)%nat ->
  exists j, held (foldl lru_step c ops) k v j /\ cache_wf (foldl lru_step c ops).
Proof.
  revert c i. induction ops as [|o ops IH]; intros c i Hc Ho Hi Hl; [exists i; done|].
  apply Forall_cons_1 in Ho as [Ho Hos]. simpl in Hl.
  destruct (held_step c o k v i Hc Ho Hi) as (j & Hj & Hh); [lia|].
  apply (IH (lru_step c o) j); [now apply lru_step_wf|done|done|].
  rewrite (proj1 (lru_step_sizes c o)). lia.
Qed.

(** ** The operations that no map calls *)

Lemma tryGetRef_miss c k : cache_wf c -> key_id k ∉ ids c -> (tryGetRef c k).1 = None.
Proof.
  intros Hc Hn. unfold tryGetRef. rewrite (cw_index c Hc), bool_decide_eq_false_2 by now rewrite elem_of_list_to_set. done.
Qed.
Lemma held_or_miss c k : cache_wf c -> (exists v i, held c k v i) \/ key_id k ∉ ids c.
Proof.
  intros Hc. pose proof (find_node_spec c k Hc) as Hf.
  destruct (if bool_decide (key_id k ∈ cache_ c) then find_node k (keys_ c) else None) as [[i [k' v]]|]; [|now right].
  left. exists v, i, k'. done.
Qed.

(** [remove] takes one entry out, whatever the order of the others. *)
Section remove.
Context (c : lru_cache) (Hc : cache_wf c) (k : flow_key).
Let c' := (cache_remove c k).2.

Lemma remove_shape : key_id k ∈ ids c ->
  (cache_remove c k).1 = true /\ key_id k ∉ ids c' /\ cache_ c' = cache_ c ∖ {[ key_id k ]} /\
  exists i kv, keys_ c !! i = Some kv /\ key_id kv.1 = key_id k /\ keys_ c' = delete i (keys_ c)
    /\ ids c ≡ₚ key_id k :: ids c'.
Proof.
  intros Hin. pose proof (find_node_spec c k Hc) as Hf. unfold c', cache_remove.
  destruct (if bool_decide (key_id k ∈ cache_ c) then find_node k (keys_ c) else None) as [[i kv]|]; [|done].
  destruct Hf as [Hi Hk].
  assert (Hp : ids c ≡ₚ key_id k :: ids (LruCache (delete i (keys_ c)) (cache_ c ∖ {[ key_id k ]}) (maxSize_ c) (elasticity_ c))).
  { unfold ids. cbn [keys_]. rewrite (delete_Permutation (keys_ c) i kv Hi) at 1. cbn [fmap list_fmap]. now rewrite Hk. }
  split; [done|]. split; [|split; [done|]].
  - pose proof (cw_nodup c Hc) as Hn. rewrite Hp in Hn. now apply NoDup_cons in Hn as [? _].
  - exists i, kv. done.
Qed.
Lemma remove_absent : key_id k ∉ ids c -> cache_remove c k = (false, c).
Proof.
  intros Hn. unfold cache_remove. rewrite (cw_index c Hc), bool_decide_eq_false_2 by now rewrite elem_of_list_to_set. done.
Qed.
Lemma remove_wf : cache_wf c'.
Proof.
  destruct (decide (key_id k ∈ ids c)) as [Hin|Hn]; [|unfold c'; now rewrite remove_absent].
  destruct (remove_shape Hin) as (_ & Hk & Hix & i & kv & Hi & _ & Hd & Hp). destruct Hc as [Hx Hnd Hr Hs].
  assert (Hm : maxSize_ c' = maxSize_ c /\ elasticity_ c' = elasticity_ c)
    by (unfold c', cache_remove; now destruct (if bool_decide _ then _ else None) as [[? ?]|]).
  destruct Hm as [Hm He]. split; rewrite ?Hm, ?He.
  - rewrite Hix, Hx. apply leibniz_equiv. rewrite Hp, list_to_set_cons. apply (not_elem_of_list_to_set (C := gset _)) in Hk.
    revert Hk. generalize (list_to_set (C := gset _) (ids c')). generalize (key_id k). clear. set_solver.
  - rewrite Hp in Hnd. now apply NoDup_cons in Hnd.
  - done.
  - rewrite Hd, length_delete by eauto. lia.
Qed.
(** The removed key is gone; every other key finds what it found. *)
Lemma remove_found k1 : (tryGetRef c' k1).1 = if decide (key_id k1 = key_id k) then None else (tryGetRef c k1).1.
Proof.
  destruct (decide (key_id k ∈ ids c)) as [Hin|Hn].
  2:{ unfold c'. rewrite remove_absent by done. case_decide as E; [|done]. apply tryGetRef_miss; [done|]. cbn. now rewrite E. }
  destruct (remove_shape Hin) as (_ & Hk & _ & i & kv & Hi & Hkv & Hd & Hp).
  case_decide as E; [apply tryGetRef_miss; [apply remove_wf|now rewrite E]|].
  destruct (held_or_miss c k1 Hc) as [(v & j & Hh)|Hm].
  - rewrite (held_found c k1 v j Hc Hh). destruct Hh as (k' & Hj & Hk').
    assert (j <> i) by (intros ->; rewrite Hi in Hj; injection Hj as ->; cbn in Hkv; congruence).
    assert (Hj' : exists j', keys_ c' !! j' = Some (k', v)).
    { rewrite Hd. destruct (decide (j < i)%nat).
      - exists j. now rewrite list_lookup_delete_lt.
      - destruct j as [|j]; [lia|]. exists j. now rewrite list_lookup_delete_ge by lia. }
    destruct Hj' as [j' Hj']. apply (held_found c' k1 v j'); [apply remove_wf|]. now exists k'.
  - rewrite (tryGetRef_miss c k1 Hc Hm). apply tryGetRef_miss; [apply remove_wf|]. intros Hin'. apply Hm. rewrite Hp. now right.
Qed.
End remove.

(** The other reads: [contains], [getCopy] and [tryGetCopy] agree with [tryGetRef], and the number of
    entries that a cache says it has is that of its list. *)
Lemma cache_reads c k v0 : cache_wf c ->
  cache_contains c k = bool_decide (is_Some (tryGetRef c k).1) /\
  get_nolock c k = (fun v => (v, (tryGetRef c k).2)) <$> (tryGetRef c k).1 /\
  tryGetCopy c k v0 = (cache_contains c k, default v0 (tryGetRef c k).1, (tryGetRef c k).2) /\
  cache_count c = length (keys_ c) /\ (cache_count c < getMaxAllowedSize c)%nat.
Proof.
  intros Hc. assert (H1 : cache_contains c k = bool_decide (is_Some (tryGetRef c k).1)).
  { unfold cache_contains. apply bool_decide_ext. rewrite (cw_index c Hc), elem_of_list_to_set.
    destruct (held_or_miss c k Hc) as [(v & i & Hh)|Hm].
    - rewrite (held_found c k v i Hc Hh). destruct Hh as (k' & Hi & Hk). split; [eauto|intros _].
      apply list_elem_of_fmap. exists (k', v). split; [done|]. now apply list_elem_of_lookup_2 in Hi.
    - rewrite (tryGetRef_miss c k Hc Hm). split; [done|]. now intros []. }
  split; [done|]. rewrite H1. unfold get_nolock, tryGetCopy, tryGetRef.
  repeat split; try (destruct (if bool_decide _ then _ else None) as [[i kv]|]; cbn; done).
  - apply cache_size; apply Hc.
  - unfold cache_count, getMaxAllowedSize. rewrite (cache_size c) by apply Hc. apply Hc.
Qed.

(** C10: the cache keeps its hard limit and its index after any sequence of calls,
    and an inserted entry is still there, with its value, as long as fewer than
    [maxSize_] calls on other keys have been made since: only entries that are
    not recently used are evicted. *)
Theorem lru_keeps_recent (before since : list lru_op) (k : flow_key) (v : real_pos_lru) :
  let c := foldl lru_step new_cache before in
  let c' := foldl lru_step (cache_insert c k v) since in
  (length (keys_ c) < 3000)%nat /\ cache_wf c /\
  (Forall (fun o => key_id (op_key o) <> key_id k) since -> (length since < 2000)%nat ->
   (tryGetRef c' k).1 = Some v).
Proof.
  intros c c'.
  assert (Hc : forall ops c0, cache_wf c0 -> maxSize_ c0 = 2000%nat -> elasticity_ c0 = 1000%nat ->
    cache_wf (foldl lru_step c0 ops) /\ maxSize_ (foldl lru_step c0 ops) = 2000%nat
    /\ elasticity_ (foldl lru_step c0 ops) = 1000%nat).
  { induction ops as [|o ops IH]; intros c0 H0 Hm He; [done|]. cbn [foldl].
    destruct (lru_step_sizes c0 o). apply IH; [now apply lru_step_wf|congruence|congruence]. }
  destruct (Hc before new_cache new_cache_wf eq_refl eq_refl) as (Hw & Hm & He). fold c in Hw, Hm, He.
  split; [|split; [done|]].
  - pose proof (cw_size c Hw) as Hs. rewrite Hm, He in Hs. exact Hs.
  - intros Ho Hl. destruct (lru_step_sizes c (LruInsert k v)) as [Hm' _]. cbn [lru_step] in Hm'.
    destruct (held_steps since (cache_insert c k v) k v 0) as (j & Hj & Hw').
    + now apply cache_insert_wf.
    + done.
    + apply insert_held; [done|]. rewrite Hm. lia.
    + rewrite Hm', Hm. simpl. lia.
    + now apply (held_found c' k v j).
Qed.

(** C30: the BPF map on top of the cache: after an update the lookup of every key
    with the same first address words, ports and protocol hits and copies the
    value, so two IPv6 flows that differ in the other words share an entry; an
    assignment through the returned pointer is not seen by the next lookup; and
    deletion, which reports success, deletes nothing. *)
Theorem lru_map_behaviour (m : lru_hash_map) (k k' : flow_key) (v : real_pos_lru)
    (g : real_pos_lru -> real_pos_lru) :
  cache_wf (lru_c m) -> key_id k' = key_id k ->
  let m1 := (lru_hash_map_elem_update m k v).2 in
  let '(hit, m2) := lru_hash_map_elem_lookup m1 k' in
  let '(hit', m3) := lru_hash_map_elem_lookup (lru_hash_map_elem_delete (write_through m2 g) k).2 k in
  hit = true /\ value_local m2 = v /\ hit' = true /\ value_local m3 = v.
Proof.
  intros Hc Hk m1. unfold lru_hash_map_elem_lookup.
  assert (Hc1 : cache_wf (lru_c m1)) by now apply cache_insert_wf.
  assert (Hh : held (lru_c m1) k v 0) by (apply insert_held; [done|apply (cw_room _ Hc)]).
  assert (Hh' : held (lru_c m1) k' v 0) by (destruct Hh as (x & ? & ?); exists x; split; congruence).
  pose proof (held_found _ k' v 0 Hc1 Hh') as Hf1. pose proof (tryGetRef_wf _ k' Hc1) as Hc2.
  assert (Hh2 : held (tryGetRef (lru_c m1) k').2 k v 0).
  { pose proof (find_node_spec (lru_c m1) k' Hc1) as Hf. unfold tryGetRef in Hf1 |- *.
    destruct (if bool_decide _ then _ else None) as [[i kv]|]; [|done].
    cbn in Hf1. injection Hf1 as Hv. destruct kv as [kk vv]. cbn in Hv. subst vv.
    exists kk. split; [done|]. cbn in Hf. destruct Hf. congruence. }
  destruct (tryGetRef (lru_c m1) k') as [r c2]. cbn [fst snd] in *. rewrite Hf1.
  cbn [lru_hash_map_elem_delete write_through lru_c value_local snd].
  pose proof (held_found _ k v 0 Hc2 Hh2) as Hf2.
  destruct (tryGetRef c2 k) as [r2 c3]. cbn [fst] in Hf2. now rewrite Hf2.
Qed.

Definition flow4 (n : Z) : flow_key := FlowKey (V6 n 0 0 0) (V6 1 0 0 0) 80 443 6.

Lemma lru_keeps_recent_witness :
  (tryGetRef (foldl lru_step (cache_insert (foldl lru_step new_cache []) (flow4 1) (RealPosLru 7 0))
     [LruInsert (flow4 2) (RealPosLru 8 0); LruGet (flow4 3)]) (flow4 1)).1 = Some (RealPosLru 7 0).
Proof.
  apply (lru_keeps_recent [] [LruInsert (flow4 2) (RealPosLru 8 0); LruGet (flow4 3)] (flow4 1) (RealPosLru 7 0)).
  - repeat constructor; discriminate.
  - apply Nat.ltb_lt. reflexivity.
Defined.

(** Two IPv6 flows to different addresses with the same first words. *)
Lemma lru_map_behaviour_witness :
  let k := FlowKey (V6 1 2 3 4) (V6 5 6 7 8) 80 443 6 in
  let k' := FlowKey (V6 1 0 0 0) (V6 5 0 0 9) 80 443 6 in
  let m1 := (lru_hash_map_elem_update (LruHashMap new_cache (RealPosLru 0 0)) k (RealPosLru 7 1)).2 in
  let '(hit, m2) := lru_hash_map_elem_lookup m1 k' in
  let '(hit', m3) := lru_hash_map_elem_lookup
    (lru_hash_map_elem_delete (write_through m2 (fun _ => RealPosLru 9 9)) k).2 k in
  hit = true /\ value_local m2 = RealPosLru 7 1 /\ hit' = true /\ value_local m3 = RealPosLru 7 1.
Proof.
  apply (lru_map_behaviour (LruHashMap new_cache (RealPosLru 0 0)) (FlowKey (V6 1 2 3 4) (V6 5 6 7 8) 80 443 6)
    (FlowKey (V6 1 0 0 0) (V6 5 0 0 9) 80 443 6) (RealPosLru 7 1) (fun _ => RealPosLru 9 9)).
  - exact new_cache_wf.
  - reflexivity.
Defined.

(** ** Enumerating the device map *)

(** The least of the keys above [k]. *)
Definition least_above (m : gmap Z Z) (k : Z) (r : option Z) : Prop :=
  match r with
  | Some j => k < j /\ is_Some (m !! j) /\ forall i, is_Some (m !! i) -> k < i -> j <= i
  | None => forall i, is_Some (m !! i) -> i <= k
  end.

Lemma upper_bound_least m k : least_above m k (upper_bound m k).
Proof.
  unfold upper_bound. apply (map_fold_weak_ind (fun r m => least_above m k r)).
  - intros i [v Hv]. now rewrite lookup_empty in Hv.
  - intros i v m' r Hi Hr. destruct (Z.leb_spec i k) as [Hle|Hgt]; destruct r as [j|]; cbn [least_above] in *.
    + destruct Hr as (H1 & H2 & H3). split; [done|]. split; [apply lookup_insert_is_Some'; auto|].
      intros i' Hi'. apply lookup_insert_is_Some' in Hi' as [<-|Hi']; [lia|auto].
    + intros i' Hi'. apply lookup_insert_is_Some' in Hi' as [<-|Hi']; auto.
    + destruct Hr as (H1 & H2 & H3). split; [lia|]. split.
      * apply lookup_insert_is_Some'. destruct (Z.min_spec j i) as [[_ ->]|[_ ->]]; auto.
      * intros i' Hi' Hk. apply lookup_insert_is_Some' in Hi' as [<-|Hi']; [lia|].
        specialize (H3 i' Hi' Hk). lia.
    + split; [done|]. split; [apply lookup_insert_is_Some'; auto|].
      intros i' Hi' Hk. apply lookup_insert_is_Some' in Hi' as [<-|Hi']; [lia|]. specialize (Hr i' Hi'). lia.
Qed.

(** The keys that a client gets by calling [get_next_key] from [k] on. *)
Fixpoint iterate_keys (fuel : nat) (m : gmap Z Z) (k : Z) : list Z :=
  match fuel with
  | O => []
  | S fuel =>
      match elem_get_next_key_static m k with
      | (_, Some j) => j :: iterate_keys fuel m j
      | (_, None) => []
      end
  end.

(** Iterating with [elem_get_next_key_static] from a key visits exactly the keys above it, in
    increasing order, each once, and ends after as many calls as there are keys. *)
Lemma iterate_keys_spec (m : gmap Z Z) (k : Z) (fuel : nat) :
  (size m <= fuel)%nat ->
  (forall j, j ∈ iterate_keys fuel m k <-> k < j /\ is_Some (m !! j))
  /\ StronglySorted Z.lt (iterate_keys fuel m k).
Proof.
  intros Hf.
  enough (G : forall (fuel : nat) (k : Z), (size (filter (fun kv : Z * Z => (k < kv.1)%Z) m) <= fuel)%nat ->
    (forall j, j ∈ iterate_keys fuel m k <-> k < j /\ is_Some (m !! j))
    /\ StronglySorted Z.lt (iterate_keys fuel m k)).
  { apply G. etransitivity; [|exact Hf]. apply map_subseteq_size, map_filter_subseteq. }
  clear. induction fuel as [|fuel IH]; intros k Hs; cbn [iterate_keys].
  - split; [|constructor]. intros j. split; [intros Hj; now apply not_elem_of_nil in Hj|].
    intros [Hj [v Hv]]. exfalso. assert (size (filter (fun kv : Z * Z => (k < kv.1)%Z) m) = 0%nat) as Hz by lia.
    apply map_size_empty_inv in Hz. assert (filter (fun kv : Z * Z => (k < kv.1)%Z) m !! j = Some v) as Hin
      by now apply map_lookup_filter_Some.
    now rewrite Hz, lookup_empty in Hin.
  - pose proof (upper_bound_least m k) as Hu. unfold elem_get_next_key_static.
    destruct (upper_bound m k) as [i|]; cbn [least_above] in Hu.
    + destruct Hu as (Hki & Hi & Hmin). destruct (IH i) as [IHin IHsorted].
      { enough (size (filter (fun kv : Z * Z => (i < kv.1)%Z) m) < size (filter (fun kv : Z * Z => (k < kv.1)%Z) m))%nat by lia.
        apply map_subset_size. split.
        - apply map_subseteq_spec. intros j v. rewrite !map_lookup_filter_Some. cbn. intuition lia.
        - intros Hsub. destruct Hi as [v Hv].
          assert (filter (fun kv : Z * Z => (k < kv.1)%Z) m !! i = Some v) as Hin by now apply map_lookup_filter_Some.
          apply (lookup_weaken _ _ _ _ Hin) in Hsub. apply map_lookup_filter_Some in Hsub as [_ ?].
          cbn in *. lia. }
      split.
      * intros j. rewrite elem_of_cons, IHin. split.
        -- intros [->|[Hj Hm]]; split; [done|done|lia|done].
        -- intros [Hj Hm]. specialize (Hmin j Hm Hj). destruct (decide (j = i)); [now left|right].
           split; [lia|done].
      * constructor; [done|]. apply Forall_forall. intros j Hj. now apply IHin.
    + split; [|constructor]. intros j. split; [intros Hj; now apply not_elem_of_nil in Hj|].
      intros [Hj Hm]. specialize (Hu j Hm). lia.
Qed.

(** The calls that write the map, and what they leave of a key: what the last call on it did. *)
Inductive dev_op := DevUpdate (k v : Z) | DevDelete (k : Z).
Definition run_dev (m : gmap Z Z) (op : dev_op) : gmap Z Z :=
  match op with DevUpdate k v => (elem_update_static m k v).2 | DevDelete k => (elem_delete_static m k).2 end.
Definition dev_key (op : dev_op) : Z := match op with DevUpdate k _ | DevDelete k => k end.
Definition written (ops : list dev_op) (k : Z) : option Z :=
  match last (filter (fun op => dev_key op = k) ops) with Some (DevUpdate _ v) => Some v | _ => None end.

Lemma run_dev_lookup ops k : foldl run_dev ∅ ops !! k = written ops k.
Proof.
  induction ops as [|op ops IH] using rev_ind; [apply lookup_empty|].
  rewrite foldl_app. unfold written. rewrite filter_app, filter_cons, filter_nil. cbn [foldl].
  set (m := foldl run_dev ∅ ops) in *.
  destruct (decide (dev_key op = k)) as [<-|Hne].
  - rewrite last_snoc. destruct op as [k v|k]; cbn; [apply lookup_insert_eq|].
    unfold elem_delete_static. destruct (m !! k) eqn:E; cbn; [apply lookup_delete_eq|exact E].
  - rewrite app_nil_r. fold (written ops k). rewrite <- IH. destruct op as [k' v|k']; cbn in *; [by apply lookup_insert_ne|].
    unfold elem_delete_static. destruct (m !! k'); cbn; [by apply lookup_delete_ne|done].
Qed.
Lemma run_dev_size ops : (size (foldl run_dev ∅ ops) <= length ops)%nat.
Proof.
  induction ops as [|op ops IH] using rev_ind; [done|]. rewrite foldl_app, length_app. cbn [foldl length].
  set (m := foldl run_dev ∅ ops) in *. destruct op as [k v|k]; cbn.
  - rewrite map_size_insert. destruct (m !! k); cbn; lia.
  - unfold elem_delete_static. destruct (m !! k); cbn; [|lia]. rewrite map_size_delete. destruct (m !! k); cbn; lia.
Qed.
Lemma last_visited l k : StronglySorted Z.lt l -> (forall j, j ∈ l -> k < j) -> forall j, j ∈ l -> j <= List.last l k.
Proof.
  revert k. induction l as [|i l IH]; intros k Hs Hk j Hj; [by apply not_elem_of_nil in Hj|].
  apply StronglySorted_inv in Hs as [Hs Hi]. rewrite Forall_forall in Hi.
  assert (E : List.last (i :: l) k = List.last l i).
  { clear. revert i k. induction l as [|a l IH]; intros i k; [done|].
    change (List.last (a :: l) k = List.last (a :: l) i). now rewrite !IH. }
  rewrite E. apply elem_of_cons in Hj as [->|Hj]; [|by apply IH].
  destruct l as [|a l]; [done|]. pose proof (IH i Hs Hi a (list_elem_of_here _ _)). pose proof (Hi a (list_elem_of_here _ _)). lia.
Qed.


Definition some_writes : list dev_op := [DevUpdate 5 50; DevUpdate 1 10; DevUpdate 9 90; DevDelete 5; DevUpdate 7 70; DevDelete 2].
