(* ===== verification/XdpLb.v ===== *)
(** * The load balancer benchmark (xdp_progs/xdp_lb.bpf.c)

    The program rewrites TCP packets to one of the targets of a map and replaces
    the first eight bytes of the TCP header by a sum and an XXH32 hash of the
    first 60 bytes of the packet. *)
From Stdlib Require Import ZArith Lia.
From stdpp Require Import base numbers list option gmap.
From S2P Require Import Prelude Xdp OnesComplement XdpRun.
#[local] Open Scope Z_scope.

(** ** Checksums *)

(** @src xdp_progs/xdp_lb.bpf.c 255-261 csum_reduce_helper *)
Definition csum_reduce_helper (csum : Z) : Z :=
  let csum := u32 (Z.shiftr (Z.land csum 0xffff0000) 16 + Z.land csum 0xffff) in
  let csum := u32 (Z.shiftr (Z.land csum 0xffff0000) 16 + Z.land csum 0xffff) in
  u16 csum.

(** @src xdp_progs/xdp_lb.bpf.c 349-353 hash_and_sum *)
Record hash_and_sum := HashAndSum { hs_sum : Z; xxhash64_res : Z }.
Definition hash_and_sum_bytes (h : hash_and_sum) : list Z :=
  le_split 4 (hs_sum h) ++ le_split 4 (xxhash64_res h).

(** @src xdp_progs/xdp_lb.bpf.c 356-362 calculate_checksum *)
Definition calculate_checksum (data : list Z) : Z := foldl (fun sum b => u32 (sum + b)) 0 data.

(** ** XXH32 *)

(** @src xdp_progs/xdp_lb.bpf.c 364-368 PRIME1 *)
Definition PRIME1 : Z := 0x9E3779B1.
Definition PRIME2 : Z := 0x85EBCA77.
Definition PRIME3 : Z := 0xC2B2AE3D.
Definition PRIME4 : Z := 0x27D4EB2F.
Definition PRIME5 : Z := 0x165667B1.

(** @src xdp_progs/xdp_lb.bpf.c 370-372 rotl *)
Definition rotl (x r : Z) : Z := Z.lor (u32 (Z.shiftl x r)) (Z.shiftr x (32 - r)).
(** @src xdp_progs/xdp_lb.bpf.c 374-376 round_xxhash *)
Definition round_xxhash (acc input : Z) : Z :=
  u32 (rotl (u32 (acc + u32 (input * PRIME2))) 13 * PRIME1).
(** @src xdp_progs/xdp_lb.bpf.c 378-380 avalanche_step *)
Definition avalanche_step (h rshift prime : Z) : Z := u32 (Z.lxor h (Z.shiftr h rshift) * prime).
(** @src xdp_progs/xdp_lb.bpf.c 382-384 avalanche *)
Definition avalanche (h : Z) : Z :=
  avalanche_step (avalanche_step (avalanche_step h 15 PRIME2) 13 PRIME3) 16 1.
(** @src xdp_progs/xdp_lb.bpf.c 386-389 endian32 *)
Definition endian32 (v : list Z) : Z :=
  let byte i := nth i v 0 in
  Z.lor (Z.lor (Z.lor (byte 0%nat) (Z.shiftl (byte 1%nat) 8)) (Z.shiftl (byte 2%nat) 16))
        (Z.shiftl (byte 3%nat) 24).
(** @src xdp_progs/xdp_lb.bpf.c 391-393 fetch32 *)
Definition fetch32 (p : list Z) (v : Z) : Z := round_xxhash v (endian32 p).

(** [p] is the [len] bytes that are left; the recursion is on them.
    @src xdp_progs/xdp_lb.bpf.c 395-401 finalize *)
Fixpoint finalize (h : Z) (p : list Z) : Z :=
  match p with
  | b0 :: ((b1 :: b2 :: b3 :: p4) as p1) =>
      finalize (u32 (rotl (u32 (h + u32 (endian32 [b0; b1; b2; b3] * PRIME3))) 17 * PRIME4)) p4
  | b0 :: p1 => finalize (u32 (rotl (u32 (h + u32 (b0 * PRIME5))) 11 * PRIME1)) p1
  | [] => avalanche h
  end.

(** [fuel] bounds the recursion on blocks of 16 bytes.
    @src xdp_progs/xdp_lb.bpf.c 403-407 h16bytes_4 *)
Fixpoint h16bytes_4 (fuel : nat) (p : list Z) (v1 v2 v3 v4 : Z) : Z :=
  match fuel with
  | O => 0
  | S fuel =>
      if 16 <=? zlen p then
        h16bytes_4 fuel (drop 16 p) (fetch32 p v1) (fetch32 (drop 4 p) v2)
          (fetch32 (drop 8 p) v3) (fetch32 (drop 12 p) v4)
      else u32 (u32 (u32 (rotl v1 1 + rotl v2 7) + rotl v3 12) + rotl v4 18)
  end.
(** @src xdp_progs/xdp_lb.bpf.c 409-411 h16bytes_3 *)
Definition h16bytes_3 (p : list Z) (seed : Z) : Z :=
  h16bytes_4 (S (length p)) p (u32 (u32 (seed + PRIME1) + PRIME2)) (u32 (seed + PRIME2)) seed
    (u32 (seed - PRIME1)).
(** @src xdp_progs/xdp_lb.bpf.c 413-415 xxhash32 *)
Definition xxhash32 (input : list Z) (seed : Z) : Z :=
  let len := zlen input in
  let h := if 16 <=? len then h16bytes_3 input seed else u32 (seed + PRIME5) in
  finalize (u32 (h + len)) (drop (Z.to_nat (len - Z.land len 0xF)) input).

(** The published test vectors of XXH32. *)
Example xxh32_empty : xxhash32 [] 0 = 0x02CC5D05. Proof. reflexivity. Qed.
Example xxh32_abc : xxhash32 [97; 98; 99] 0 = 0x32D153FF. Proof. reflexivity. Qed.

(** ** The program *)

(** The six bytes of [mac] are the low bytes of a number.
    @src xdp_progs/xdp_lb.bpf.c 203-210 ip_mac_pair *)
Record ip_mac_pair := IpMacPair { mac : Z; ip : Z }.
Definition pair_zero : ip_mac_pair := IpMacPair 0 0.

(** @src xdp_progs/xdp_lb.bpf.c 233-253 targets_map *)
Record lb_maps := LbMaps { targets_map : gmap Z ip_mac_pair; config_map : gmap Z ip_mac_pair }.
Definition MAX_TARGET_COUNT : Z := 64.
Definition pair_lookup (m : gmap Z ip_mac_pair) (k : Z) : option ip_mac_pair :=
  if (0 <=? k) && (k <? MAX_TARGET_COUNT) then Some (default pair_zero (m !! k)) else None.

(** @src xdp_progs/xdp_lb.bpf.c 418-424 get_target_key *)
Definition get_target_key (src_ip src_port dst_port : Z) : Z :=
  Z.land (Z.lxor (Z.lxor src_ip src_port) dst_port) 0x1.

(** The sum and the hash of the first 60 bytes; the early return is [XDP_PASS].
    @src xdp_progs/xdp_lb.bpf.c 471-477 xdp_pass *)
Definition hash_packet {E} : xdp E (Z + hash_and_sum) :=
  len ← data_len;
  if 1200 <? len then mret (inl XDP_PASS)
  else need 60 else (inl XDP_PASS) ;;
  bs ← load 60 0;
  let sum := calculate_checksum bs in
  mret (inr (HashAndSum sum (xxhash32 bs sum))).

Section lb.
Context {H : XdpHelpers}.
(** [bpf_csum_diff(0, 0, data, size, csum)] assigned to a [uint32_t]. *)
Definition csum_add (bs : list Z) (csum : Z) : Z := u32 (h_csum_diff [] bs csum).

(** The loop over the options; [i] iterations are left, [opt] is the offset of
    the next word.  The result is [ret] and the sum.
    @src xdp_progs/xdp_lb.bpf.c 286-300 compute_tcp_csum *)
Fixpoint csum_options (i : nat) (opt parsed tcphdrlen csum : Z) : xdp lb_maps (Z * Z) :=
  match i with
  | O => mret (0, csum)
  | S i =>
      need (opt + 4) else (-1, csum) ;;
      w ← load 4 opt;
      let csum := csum_add w csum in
      let parsed := parsed + 4 in
      if parsed =? tcphdrlen then mret (0, csum)
      else csum_options i (opt + 4) parsed tcphdrlen csum
  end.

(** [ip] and [tcp] are offsets; the function sums the header and its options
    only.  No program calls it.
    @src xdp_progs/xdp_lb.bpf.c 263-305 compute_tcp_csum *)
Definition compute_tcp_csum (ip tcp : Z) : xdp lb_maps Z :=
  store16 (tcp + 16) 0 ;;
  hdr ← load 20 tcp;
  let csum := csum_add hdr 0 in
  saddr ← load 4 (ip + 12);
  daddr ← load 4 (ip + 16);
  tot_len ← load16 (ip + 2);
  let len := bswap16 (u16 (bswap16 tot_len - 20)) in
  let csum := csum_add (saddr ++ daddr ++ [0; 6] ++ le_split 2 len) csum in
  b ← load8 (tcp + 12);
  let tcphdrlen := Z.shiftr b 4 * 4 in
  '(ret, csum) ← (if tcphdrlen =? 20 then mret (0, csum)
                  else csum_options 10 (tcp + 20) 20 tcphdrlen csum);
  store16 (tcp + 16) (u16 (Z.lnot (csum_reduce_helper csum))) ;;
  mret ret.

(** [ip] is at offset 14 and [tcp] at offset 34.
    @src xdp_progs/xdp_lb.bpf.c 426-530 xdp_pass *)
Definition xdp_lb : xdp lb_maps Z :=
  need 14 else XDP_DROP ;;
  need (14 + 20) else XDP_DROP ;;
  protocol ← load8 (14 + 9);
  if negb (protocol =? 6) then mret XDP_PASS else
  need (14 + 20 + 20) else XDP_DROP ;;
  client_cfg ← asks (fun m => pair_lookup (config_map m) 1);
  match client_cfg with
  | None => mret XDP_ABORTED
  | Some _ =>
      h ←? hash_packet;
      dst ← (if nz (xxhash64_res h / 2) then
               saddr ← load32 (14 + 12);
               source ← load16 34;
               dest ← load16 (34 + 2);
               asks (fun m => pair_lookup (targets_map m) (get_target_key saddr source dest))
             else asks (fun m => pair_lookup (config_map m) 1));
      match dst with
      | None => mret XDP_ABORTED
      | Some dst =>
          src ← asks (fun m => pair_lookup (config_map m) 0);
          match src with
          | None => mret XDP_ABORTED
          | Some src =>
              store 0 (le_split 6 (mac dst)) ;;
              store 6 (le_split 6 (mac src)) ;;
              store32 (14 + 16) (bswap32 (ip dst)) ;;
              store32 (14 + 12) (bswap32 (ip src)) ;;
              store16 (14 + 10) 0 ;;
              hdr ← load 20 14;
              store16 (14 + 10) (u16 (Z.lnot (csum_reduce_helper (csum_add hdr 0)))) ;;
              h ←? hash_packet;
              store (14 + 20) (hash_and_sum_bytes h) ;;
              mret XDP_TX
          end
      end
  end.
End lb.

(** ** The checksum fold *)

Lemma high_half x : is_u32 x -> Z.shiftr (Z.land x 0xffff0000) 16 = x / 65536.
Proof.
  intros Hx. rewrite Z.shiftr_land. change (Z.shiftr 0xffff0000 16) with 65535.
  rewrite land_u16, shiftr_16. apply Z.mod_small. unfold is_u32 in Hx. zlia.
Qed.

Lemma reduce_norm x : is_u32 x -> csum_reduce_helper x = oc_norm x.
Proof.
  intros Hx. unfold csum_reduce_helper. cbv zeta.
  assert (Hstep : forall y, is_u32 y ->
    u32 (Z.shiftr (Z.land y 0xffff0000) 16 + Z.land y 0xffff) = fold16 y).
  { intros y Hy. rewrite high_half, land_u16, fold16_arith by done. unfold is_u32 in Hy.
    rewrite u32_id by (unfold is_u32; zlia). lia. }
  pose proof (fold16_bound x 65536) as B1. unfold is_u32 in Hx.
  pose proof (fold16_nonneg x ltac:(lia)) as N1. specialize (B1 ltac:(lia)).
  rewrite (Hstep x) by done. rewrite Hstep by (unfold is_u32; lia).
  assert (B2 : 0 <= fold16 (fold16 x) <= 65535).
  { rewrite (fold16_arith (fold16 x)). assert (fold16 x <= 131070) by (rewrite fold16_arith; zlia). zlia. }
  rewrite u16_id by (unfold is_u16; lia).
  apply rep_norm; [|lia]. apply rep_fold16, rep_fold16, rep_refl. lia.
Qed.

(** Two folds are enough for a 32-bit sum: [csum_reduce_helper] is the
    normalised one's complement sum. *)
Lemma csum_reduce_helper_correct (csum : Z) :
  is_u32 csum -> csum_reduce_helper csum = oc_norm csum.
Proof. apply reduce_norm. Qed.

Lemma csum_reduce_helper_correct_witness : csum_reduce_helper 0xffffffff = oc_norm 0xffffffff.
Proof. apply (csum_reduce_helper_correct 0xffffffff). split; [discriminate|reflexivity]. Defined.

(** ** What the program computes *)

Definition hash_of (bs : list Z) : hash_and_sum :=
  HashAndSum (calculate_checksum bs) (xxhash32 bs (calculate_checksum bs)).

(** The server that a packet [d] goes to. *)
Definition lb_target (m : lb_maps) (d : list Z) : ip_mac_pair :=
  if nz (xxhash64_res (hash_of (take 60 d)) / 2) then
    default pair_zero (targets_map m !! get_target_key (le_join (take 4 (drop 26 d)))
      (le_join (take 2 (drop 34 d))) (le_join (take 2 (drop 36 d))))
  else default pair_zero (config_map m !! 1).
Definition lb_source (m : lb_maps) : ip_mac_pair := default pair_zero (config_map m !! 0).

(** An IPv4 header with other addresses and another checksum. *)
Definition readdressed (iph : list Z) (check saddr daddr : Z) : list Z :=
  take 10 iph ++ le_split 2 check ++ le_split 4 saddr ++ le_split 4 daddr.

Lemma get_target_key_range a b c : 0 <= get_target_key a b c < 2.
Proof.
  unfold get_target_key. change 1 with (Z.ones 1). rewrite Z.land_ones by lia.
  change (2 ^ 1) with 2. zlia.
Qed.
Lemma pair_lookup_in m k : 0 <= k < 64 -> pair_lookup m k = Some (default pair_zero (m !! k)).
Proof.
  intros Hk. unfold pair_lookup, MAX_TARGET_COUNT.
  destruct (Z.leb_spec 0 k), (Z.ltb_spec k 64); try lia. done.
Qed.

Section correct.
Context {H : XdpHelpers} {CL : CsumDiffLaws H}.

Lemma hash_packet_runs {E} (s : xst E) d :
  f_data (x_frame s) = d -> 60 <= zlen d <= 1200 ->
  runs s hash_packet (inr (hash_of (take 60 d))) s.
Proof.
  intros Hd Hl. unfold hash_packet. eapply runs_bind; [apply runs_data_len|]. rewrite Hd.
  destruct (Z.ltb_spec 1200 (zlen d)); [lia|].
  eapply runs_bind; [apply runs_data_len|]. cbv beta. rewrite Hd.
  destruct (Z.ltb_spec (zlen d) 60); [lia|].
  eapply runs_bind; [|apply runs_ret]. apply runs_load. rewrite Hd. rewrite slice_some by lia. done.
Qed.

(** The checksum that the program stores makes the header check. *)
Lemma readdressed_checks iph sa da :
  length iph = 20%nat -> bytes_ok iph -> nth 9 iph 0 = 6 ->
  csum_ok (readdressed iph (u16 (Z.lnot (csum_reduce_helper (csum_add (readdressed iph 0 sa da) 0)))) sa da).
Proof.
  intros Hl Hb H9. set (h0 := readdressed iph 0 sa da).
  assert (Hh0 : bytes_ok h0).
  { unfold h0, readdressed. rewrite !bytes_ok_app. repeat split; auto using le_split_ok. now apply Forall_take. }
  assert (Hlen : length h0 = 20%nat).
  { unfold h0, readdressed. rewrite !length_app, !length_le_split, length_take. lia. }
  assert (Hsz : csum_diff_sizes [] h0) by (unfold csum_diff_sizes, zlen; rewrite Hlen; repeat split; vm_compute; congruence).
  destruct (csum_diff_done [] h0 0 bytes_ok_nil Hh0 ltac:(split; lia) Hsz) as [Hu Hoc].
  pose proof (csum_diff_zero h0 0 Hh0 ltac:(split; lia) Hsz) as Hz.
  pose proof (sum16_nonneg h0 Hh0) as Hnn.
  assert (Hrep : rep (csum_add h0 0) (sum16 h0)).
  { unfold csum_add. rewrite u32_id by done. unfold is_u32 in Hu. split; [lia|]. split; [done|].
    split; [|lia]. rewrite Hoc. simpl. done. }
  rewrite reduce_norm by apply u32_range. rewrite (oc_norm_rep _ _ Hrep).
  assert (Hpos : 0 < sum16 h0).
  { destruct (decide (sum16 h0 = 0)) as [E|]; [|lia]. apply sum16_zero in E; [|done].
    exfalso. rewrite Forall_forall in E. assert (Hin : 6 ∈ h0); [|now specialize (E 6 Hin)].
    unfold h0, readdressed. apply elem_of_app. left.
    do 20 (destruct iph as [|? iph]; [discriminate Hl|]). cbn in H9 |- *. rewrite H9. do 9 right. left. }
  assert (Hsum : forall c, 0 <= c <= 65535 -> sum16 (readdressed iph c sa da) = sum16 h0 + c).
  { intros c Hc. unfold h0, readdressed. rewrite !(sum16_app_even (take 10 iph))
      by (exists 5%nat; rewrite length_take; lia).
    rewrite !(sum16_app_even (le_split 2 _)) by (now exists 1%nat). cbn [le_split sum16]. zlia. }
  pose proof (oc_norm_range (sum16 h0)) as Hr. pose proof (complement_checks _ Hpos) as Hck.
  assert (u16 (Z.lnot (oc_norm (sum16 h0))) = 65535 - oc_norm (sum16 h0)) as ->.
  { rewrite lnot_arith. unfold u16. zlia. }
  unfold csum_ok. rewrite Hsum by lia. split; [exact Hck|lia].
Qed.

(** The choice of the target. *)
Lemma lb_target_runs (s : xst lb_maps) eth iph tcp8 rest :
  let d := eth ++ iph ++ tcp8 ++ rest in
  f_data (x_frame s) = d -> length eth = 14%nat -> length iph = 20%nat -> length tcp8 = 8%nat ->
  runs s
    (if nz (xxhash64_res (hash_of (take 60 d)) / 2) then
       saddr ← load32 (14 + 12); source ← load16 34; dest ← load16 (34 + 2);
       asks (fun m => pair_lookup (targets_map m) (get_target_key saddr source dest))
     else asks (fun m => pair_lookup (config_map m) 1))
    (Some (lb_target (x_env s) d)) s.
Proof.
  intros d Hd He Hi Ht. unfold lb_target.
  destruct (nz (xxhash64_res (hash_of (take 60 d)) / 2)).
  - destruct s as [[hd d0 tl] env tk]. cbn [f_data x_frame x_env] in *. subst d0. unfold d.
    explode eth He. explode iph Hi. explode tcp8 Ht. cbn [app take drop].
    do 3 (eapply runs_bind; [xstep|]; cbv beta). eapply runs_val; [apply runs_asks|]. cbn [x_env].
    apply pair_lookup_in. match goal with |- 0 <= get_target_key ?a ?b ?c < 64 =>
      pose proof (get_target_key_range a b c) end. lia.
  - eapply runs_val; [apply runs_asks|]. apply pair_lookup_in. lia.
Qed.

(** A TCP packet of 60 to 1200 bytes is sent back out towards its target: the
    target's MAC and address as destination, the balancer's as source, an IPv4
    header whose checksum is valid, and everything else as it was, except that
    the first eight bytes of the TCP header, the ports and the sequence number,
    are overwritten by the sum and the hash of the packet. *)
Lemma xdp_lb_runs (s : xst lb_maps) (eth iph tcp8 rest : list Z) :
  let d := eth ++ iph ++ tcp8 ++ rest in
  f_data (x_frame s) = d -> length eth = 14%nat -> length iph = 20%nat -> length tcp8 = 8%nat ->
  bytes_ok iph -> 60 <= zlen d <= 1200 -> nth 9 iph 0 = 6 ->
  let dst := lb_target (x_env s) d in
  let src := lb_source (x_env s) in
  exists check,
    let iph' := readdressed iph check (bswap32 (ip src)) (bswap32 (ip dst)) in
    let front := le_split 6 (mac dst) ++ le_split 6 (mac src) ++ drop 12 eth ++ iph' in
    csum_ok iph' /\
    runs s xdp_lb XDP_TX
      (set_data s (front ++ hash_and_sum_bytes (hash_of (take 60 (front ++ tcp8 ++ rest))) ++ rest)).
Proof.
  intros d Hd He Hi Ht Hb Hlen H9 dst src.
  exists (u16 (Z.lnot (csum_reduce_helper
    (csum_add (readdressed iph 0 (bswap32 (ip src)) (bswap32 (ip dst))) 0)))).
  cbv zeta. split; [now apply readdressed_checks|].
  destruct s as [[hd d0 tl] env tk]. cbn [f_data x_frame x_env] in *. subst d0.
  pose proof (hash_packet_runs (Xst (Frame hd d tl) env tk) d eq_refl Hlen) as Hhash.
  pose proof (lb_target_runs (Xst (Frame hd d tl) env tk) eth iph tcp8 rest eq_refl He Hi Ht) as Hdst.
  cbv zeta in Hdst. fold d in Hdst. cbn [x_env] in Hdst.
  assert (Hz : zlen d = 42 + zlen rest) by (unfold d; rewrite !zlen_app; unfold zlen; lia).
  assert (Hbig : forall n, n <= 60 -> (zlen d <? n) = false) by (intros; apply Z.ltb_ge; lia).
  fold dst in Hdst. clearbody dst. set (h := hash_of (take 60 d)) in *. clearbody h.
  explode eth He. explode iph Hi. explode tcp8 Ht. cbn [nth] in H9. subst z22.
  unfold d, set_data in *. cbn [app drop take f_head f_tail x_frame x_env x_tick] in *. clear d.
  unfold xdp_lb.
  do 2 (eapply runs_bind; [apply runs_data_len|]; cbv beta; cbn [f_data x_frame]; rewrite Hbig by lia).
  eapply runs_bind; [xstep|]. cbv beta. change (negb (le_join [6] =? 6)) with false. cbv iota.
  eapply runs_bind; [apply runs_data_len|]. cbv beta. cbn [f_data x_frame]. rewrite Hbig by lia.
  eapply runs_bind; [apply runs_asks|]. cbn [x_env]. rewrite pair_lookup_in by lia.
  eapply runs_bind; [exact Hhash|]. cbv beta iota.
  eapply runs_bind; [exact Hdst|]. cbv beta iota.
  eapply runs_bind; [apply runs_asks|]. cbn [x_env]. rewrite pair_lookup_in by lia. fold (lb_source env) src.
  clearbody src. cbv beta iota.
  do 7 (eapply runs_bind; [xstep|]; cbv beta).
  eapply runs_bind; [apply hash_packet_runs; [reflexivity|]|].
  { cbn [f_data x_frame]. rewrite !zlen_cons in *. lia. }
  cbv beta iota. eapply runs_bind; [unfold hash_and_sum_bytes; cbn [le_split app]; xstep|].
  eapply runs_eq; [apply runs_ret|]. reflexivity.
Qed.
End correct.

(** ** Safety *)

Lemma hash_packet_fits {E} L (Q : Z + hash_and_sum -> Z -> Prop) :
  Q (inl XDP_PASS) L -> (60 <= L -> forall h, Q (inr h) L) -> fits L (@hash_packet E) Q.
Proof. intros H1 H2. unfold hash_packet. fits_auto; auto. apply H2. lia. Qed.

Definition lb_verdict (v : Z) : Prop :=
  v = XDP_ABORTED \/ v = XDP_DROP \/ v = XDP_PASS \/ v = XDP_TX.

Lemma xdp_lb_fits {H : XdpHelpers} L : fits L xdp_lb (fun v L' => lb_verdict v /\ L' = L).
Proof.
  unfold lb_verdict, xdp_lb. fits_auto; auto 6.
  apply hash_packet_fits; [fits_auto; auto 6|]. intros HL h. cbv beta iota.
  apply fits_bind. apply fits_weaken with (fun _ L' => L' = L); [fits_auto; auto|].
  intros dst L' ->. destruct dst as [dst|]; fits_auto; auto 6.
  - apply le_split_ok.
  - apply le_split_ok.
  - apply hash_packet_fits; [fits_auto; auto 6|]. intros _ h'. cbv beta iota. fits_auto; auto 6.
    unfold hash_and_sum_bytes. apply bytes_ok_app. auto using le_split_ok.
Qed.

(** Whatever the packet and the maps, the load balancer reads and writes inside
    the packet only, does not change its length, and returns a verdict. *)
Lemma xdp_lb_safe {H : XdpHelpers} (s : xst lb_maps) :
  frame_ok (x_frame s) ->
  exists v s', xdp_lb s = Some (v, s') /\ lb_verdict v
    /\ frame_ok (x_frame s') /\ zlen (f_data (x_frame s')) = zlen (f_data (x_frame s)).
Proof.
  intros Hs. pose proof (xdp_lb_fits _ s Hs eq_refl) as Hf.
  destruct (xdp_lb s) as [[v s']|]; [|done]. destruct Hf as (Hok & Hv & Hl). eauto 10.
Qed.
