(* ===== verification/XdpLbLoader.v ===== *)
(** * The control plane of the load balancer (xdp_progs/xdp_lb.c)

    The loader fills the two tables of the program with one of two fixed configurations and
    attaches it to an interface; composed with the program of XdpLb.v: which server a packet
    is sent to. *)
From Stdlib Require Import ZArith Lia String.
From stdpp Require Import base numbers list option gmap.
From S2P Require Import Prelude Xdp OnesComplement XdpRun XdpLb.
#[local] Open Scope Z_scope.
#[local] Open Scope list_scope.

(** ** The loader *)

Definition XDP_FLAGS_UPDATE_IF_NOEXIST : Z := 1.
Definition XDP_FLAGS_SKB_MODE : Z := 2.
Definition XDP_FLAGS_DRV_MODE : Z := 4.

(** What the host answers: whether the object opens, the descriptors after loading (negative
    when loading failed), the variables of the environment, the number of an interface and the
    result of attaching. *)
Record host := Host {
  k_open : bool; k_prog_fd : Z; k_targets_fd : Z; k_config_fd : Z;
  k_bench : bool; k_skb_mode : bool; k_drv_mode : bool; k_ifindex : string -> Z; k_attach : Z
}.
Inductive event := Attach (ifindex prog_fd flags : Z).

(** [bpf_map_update_elem] with BPF_ANY on an array of [MAX_TARGET_COUNT] entries; [None] is an
    error, also that of a descriptor which is not open. *)
Definition array_update (fd key : Z) (v : ip_mac_pair) (m : gmap Z ip_mac_pair) : option (gmap Z ip_mac_pair) :=
  if fd <? 0 then None
  else if (0 <=? key) && (key <? MAX_TARGET_COUNT) then Some (<[key := v]> m) else None.

(** @src xdp_progs/xdp_lb.c 42-60 add_to_map *)
Definition add_to_map (fd key suf : Z) (m : gmap Z ip_mac_pair) : option (gmap Z ip_mac_pair) :=
  array_update fd key (IpMacPair (le_join [0xde; 0xad; 0xbe; 0xef; 0; u8 suf]) (u32 (0xa000000 + suf))) m.
(** @src xdp_progs/xdp_lb.c 62-80 add_to_map_test_bench *)
Definition add_to_map_test_bench (fd key suf : Z) (m : gmap Z ip_mac_pair) : option (gmap Z ip_mac_pair) :=
  array_update fd key (IpMacPair (le_join [0xb8; 0x3f; 0xd2; 0x2a; 0xe5; 0x11]) (u32 (0xc0a80100 + suf))) m.

(** The loop over the targets; [n] of them are left.  The result is whether every call
    succeeds, and the table.
    @src xdp_progs/xdp_lb.c 131-134 main *)
Fixpoint add_targets (add : Z -> Z -> gmap Z ip_mac_pair -> option (gmap Z ip_mac_pair)) (n : nat) (i : Z)
  (m : gmap Z ip_mac_pair) : bool * gmap Z ip_mac_pair :=
  match n with
  | O => (true, m)
  | S n =>
      match add i (2 + i) m with
      | None => (false, m)
      | Some m => add_targets add n (i + 1) m
      end
  end.

(** The targets, then the balancer itself and the client.
    @src xdp_progs/xdp_lb.c 129-158 main *)
Definition fill (k : host) (m : lb_maps) : bool * lb_maps :=
  let add := if k_bench k then add_to_map_test_bench else add_to_map in
  let '(self, client) := if k_bench k then (11, 13) else (10, 1) in
  let '(ok, t) := add_targets (add (k_targets_fd k)) 2 0 (targets_map m) in
  let m := LbMaps t (config_map m) in
  if negb ok then (false, m) else
  match add (k_config_fd k) 0 self (config_map m) with
  | None => (false, m)
  | Some c =>
      let m := LbMaps t c in
      match add (k_config_fd k) 1 client c with
      | None => (false, m)
      | Some c => (true, LbMaps t c)
      end
  end.

(** @src xdp_progs/xdp_lb.c 167-172 main *)
Definition attach_flags (k : host) : Z :=
  if k_skb_mode k then Z.lor XDP_FLAGS_UPDATE_IF_NOEXIST XDP_FLAGS_SKB_MODE
  else if k_drv_mode k then Z.lor XDP_FLAGS_UPDATE_IF_NOEXIST XDP_FLAGS_DRV_MODE
  else XDP_FLAGS_UPDATE_IF_NOEXIST.

(** [args] are those after the name of the program.  [None] is the use of the null pointer
    that opening returns when it fails; a failure to load is only printed, and so is that of
    the second table (the first is tested twice).
    @src xdp_progs/xdp_lb.c 82-181 main *)
Definition main (k : host) (args : list string) : option (Z * lb_maps * list event) :=
  match args with
  | [] => Some (1, LbMaps ∅ ∅, [])
  | ifname :: _ =>
      if negb (k_open k) then None else
      if k_targets_fd k <? 0 then Some (1, LbMaps ∅ ∅, []) else
      if k_targets_fd k <? 0 then Some (1, LbMaps ∅ ∅, []) else
      let '(ok, m) := fill k (LbMaps ∅ ∅) in
      if negb ok then Some (1, m, []) else
      let ifindex := k_ifindex k ifname in
      if negb (nz ifindex) then Some (1, m, []) else
      let attach := Attach ifindex (k_prog_fd k) (attach_flags k) in
      if nz (k_attach k) then Some (1, m, [attach]) else Some (0, m, [attach])
  end.

(** ** What is configured *)

(** A machine: its MAC address and its IPv4 address, byte by byte. *)
Record node := Node { n_mac : list Z; n_ip : list Z }.
Definition lab_node (b : Z) : node := Node [0xde; 0xad; 0xbe; 0xef; 0; b] [10; 0; 0; b].
Definition bench_node (b : Z) : node := Node [0xb8; 0x3f; 0xd2; 0x2a; 0xe5; 0x11] [192; 168; 1; b].
Definition the_balancer (bench : bool) : node := if bench then bench_node 11 else lab_node 10.
Definition the_client (bench : bool) : node := if bench then bench_node 13 else lab_node 1.
Definition the_server (bench : bool) (i : Z) : node := if bench then bench_node (2 + i) else lab_node (2 + i).

(** The entry of a table for a machine. *)
Definition pair_of (n : node) : ip_mac_pair := IpMacPair (le_join (n_mac n)) (le_join (rev (n_ip n))).
Definition deployed_maps (bench : bool) : lb_maps :=
  LbMaps {[ 0 := pair_of (the_server bench 0); 1 := pair_of (the_server bench 1) ]}
         {[ 0 := pair_of (the_balancer bench); 1 := pair_of (the_client bench) ]}.

(** When the host accepts the program on the interface. *)
Definition accepts (k : host) (ifname : string) : Prop :=
  k_open k = true /\ 0 <= k_targets_fd k /\ 0 <= k_config_fd k /\ k_ifindex k ifname <> 0 /\ k_attach k = 0.

Lemma fill_tables k : 0 <= k_targets_fd k -> 0 <= k_config_fd k ->
  fill k (LbMaps ∅ ∅) = (true, deployed_maps (k_bench k)).
Proof.
  intros Ht Hc. unfold fill, add_to_map, add_to_map_test_bench, array_update.
  destruct (k_bench k); cbn [add_targets config_map targets_map];
    rewrite (proj2 (Z.ltb_ge _ _) Ht), (proj2 (Z.ltb_ge _ _) Hc); vm_compute; reflexivity.
Qed.

Lemma deploy_runs k ifname args : accepts k ifname ->
  main k (ifname :: args) =
    Some (0, deployed_maps (k_bench k), [Attach (k_ifindex k ifname) (k_prog_fd k) (attach_flags k)]).
Proof.
  intros (Hopen & Ht & Hc & Hi & Ha). unfold main.
  rewrite Hopen, (proj2 (Z.ltb_ge _ _) Ht), fill_tables, Ha by done. unfold nz.
  now rewrite (proj2 (Z.eqb_neq _ _) Hi).
Qed.

(** The loader returns 0 only when the host accepted everything but, perhaps, the program: a
    failure to load is seen no earlier than when a table has no descriptor. *)
Lemma main_ok_accepts k args m evs : main k args = Some (0, m, evs) ->
  exists ifname rest, args = ifname :: rest /\ accepts k ifname.
Proof.
  unfold main, accepts. destruct args as [|ifname rest]; [discriminate|]. intros E.
  exists ifname, rest. split; [done|]. destruct (k_open k); [|discriminate]. cbn [negb] in E.
  destruct (Z.ltb_spec (k_targets_fd k) 0); [discriminate|].
  destruct (Z.ltb_spec (k_config_fd k) 0) as [Hc|Hc].
  { exfalso. destruct (fill k (LbMaps ∅ ∅)) as [ok m'] eqn:Ef. assert (ok = false) as ->; [|discriminate].
    unfold fill, add_to_map, add_to_map_test_bench, array_update in Ef.
    destruct (k_bench k); cbn in Ef;
      rewrite (proj2 (Z.ltb_ge (k_targets_fd k) 0)), (proj2 (Z.ltb_lt _ _) Hc) in Ef by done;
      now injection Ef. }
  rewrite fill_tables in E by done. cbn [negb] in E. unfold nz in E.
  destruct (Z.eqb_spec (k_ifindex k ifname) 0); [discriminate|].
  destruct (Z.eqb_spec (k_attach k) 0); [done|discriminate].
Qed.

(** ** Where a packet goes *)

(** The lowest bits of the first bytes of the source address and of the two ports decide
    between the servers; a packet whose hash is 0 or 1 goes to the client. *)
Definition destination (bench : bool) (d : list Z) : node :=
  if xxhash64_res (hash_of (take 60 d)) <=? 1 then the_client bench
  else the_server bench ((nth 26 d 0 + nth 34 d 0 + nth 36 d 0) mod 2).

Lemma low_bit_xor a b : Z.lxor a b mod 2 = (a + b) mod 2.
Proof. rewrite <- !Z.bit0_mod, Z.lxor_spec, Z.add_bit0. reflexivity. Qed.

Lemma join_low_bit b bs : le_join (b :: bs) mod 2 = b mod 2.
Proof. cbn [le_join]. replace (256 * le_join bs) with (128 * le_join bs * 2) by lia. now rewrite Z.mod_add. Qed.

Lemma target_key_low a b c : get_target_key a b c = (a mod 2 + b mod 2 + c mod 2) mod 2.
Proof.
  unfold get_target_key. change 1 with (Z.ones 1). rewrite Z.land_ones by lia. change (2 ^ 1) with 2.
  rewrite low_bit_xor, <- Zplus_mod_idemp_l, low_bit_xor, Zplus_mod_idemp_l. zlia.
Qed.

Lemma load_low_bit n k (d : list Z) : le_join (take (S n) (drop k d)) mod 2 = nth k d 0 mod 2.
Proof.
  revert d. induction k as [|k IH]; intros [|b d]; try reflexivity; [apply join_low_bit|].
  cbn [drop nth]. apply IH.
Qed.

Lemma finalize_range n h p : (length p <= n)%nat -> is_u32 (finalize h p).
Proof.
  revert h p. induction n as [n IH] using lt_wf_ind. intros h p Hp.
  destruct p as [|b0 [|b1 [|b2 [|b3 p]]]]; cbn [finalize length] in *; try apply u32_range;
    (eapply (IH (n - 1)%nat); cbn [length]; lia).
Qed.

(** The program reads the tables as [destination] says. *)
Lemma lb_target_deployed bench d : lb_target (deployed_maps bench) d = pair_of (destination bench d).
Proof.
  unfold lb_target, destination, nz. set (h := xxhash64_res (hash_of (take 60 d))).
  assert (Hh : is_u32 h) by (eapply finalize_range; reflexivity). unfold is_u32 in Hh.
  destruct (Z.eqb_spec (h / 2) 0) as [E|E], (Z.leb_spec h 1) as [L|L]; [reflexivity|zlia|zlia|].
  rewrite target_key_low, !load_low_bit. cbn [negb].
  replace ((nth 26 d 0 mod 2 + nth 34 d 0 mod 2 + nth 36 d 0 mod 2) mod 2)
    with ((nth 26 d 0 + nth 34 d 0 + nth 36 d 0) mod 2) by zlia.
  set (i := (_ + _) mod 2). assert (Hi : i = 0 \/ i = 1) by (unfold i; zlia).
  destruct Hi as [-> | ->]; reflexivity.
Qed.

Lemma node_bytes n : length (n_mac n) = 6%nat -> length (n_ip n) = 4%nat ->
  bytes_ok (n_mac n) -> bytes_ok (n_ip n) ->
  le_split 6 (mac (pair_of n)) = n_mac n /\ le_split 4 (bswap32 (ip (pair_of n))) = n_ip n.
Proof.
  intros Hm Hi Bm Bi. split; cbn [mac ip pair_of].
  - rewrite <- Hm. now apply le_split_join.
  - unfold bswap32. pose proof (le_split_join (rev (n_ip n)) (bytes_ok_rev _ Bi)) as E.
    rewrite length_rev, Hi in E. rewrite E, rev_involutive, <- Hi. now apply le_split_join.
Qed.

Definition node_ok (n : node) : Prop :=
  length (n_mac n) = 6%nat /\ length (n_ip n) = 4%nat /\ bytes_ok (n_mac n) /\ bytes_ok (n_ip n).
Lemma destination_ok bench d : node_ok (destination bench d).
Proof.
  unfold destination, the_server. set (i := _ mod 2).
  assert (0 <= i < 2) by (apply Z.mod_pos_bound; lia).
  destruct (_ <=? 1), bench; repeat split; repeat constructor; cbn; lia.
Qed.
Lemma balancer_ok bench : node_ok (the_balancer bench).
Proof. destruct bench; repeat split; repeat constructor; cbn; lia. Qed.

(** ** The deployed balancer *)

Section deployed.
Context {H : XdpHelpers} {CL : CsumDiffLaws H}.

(** C20: the load balancer from the command line to the packet.  When the host accepts the
    program, the loader fills both tables, attaches the program once, with the flags that the
    environment asks for, and returns 0.  With those tables a TCP packet of 60 to 1200 bytes is
    sent back out to the machine that its hash selects: the client when the hash is 0 or 1, else
    the server that the lowest bits of the first byte of the source address and of the first
    bytes of the two ports select.  The packet carries that machine's MAC and IPv4 address as
    its destination and the balancer's as its source, the checksum of its IPv4 header is valid,
    and it is otherwise as it was except that the first eight bytes of the TCP header, the ports
    and the sequence number, are overwritten by the sum and the hash of the packet. *)
Theorem balancer_deployed k ifname args :
  accepts k ifname ->
  exists m, main k (ifname :: args) = Some (0, m, [Attach (k_ifindex k ifname) (k_prog_fd k) (attach_flags k)])
  /\ forall (s : xst lb_maps) eth iph tcp8 rest,
     let d := eth ++ iph ++ tcp8 ++ rest in
     x_env s = m -> f_data (x_frame s) = d ->
     length eth = 14%nat -> length iph = 20%nat -> length tcp8 = 8%nat -> bytes_ok iph ->
     60 <= zlen d <= 1200 -> nth 9 iph 0 = 6 ->
     let dst := destination (k_bench k) d in
     let src := the_balancer (k_bench k) in
     exists check,
       let iph' := take 10 iph ++ le_split 2 check ++ n_ip src ++ n_ip dst in
       let front := n_mac dst ++ n_mac src ++ drop 12 eth ++ iph' in
       csum_ok iph' /\
       runs s xdp_lb XDP_TX
         (set_data s (front ++ hash_and_sum_bytes (hash_of (take 60 (front ++ tcp8 ++ rest))) ++ rest)).
Proof.
  intros Ha. exists (deployed_maps (k_bench k)). split; [now apply deploy_runs|].
  intros s eth iph tcp8 rest d Hm Hd He Hi Ht Hb Hl H9 dst src.
  pose proof (xdp_lb_runs s eth iph tcp8 rest Hd He Hi Ht Hb Hl H9) as (check & Hc).
  fold d in Hc. rewrite Hm, lb_target_deployed in Hc. fold dst in Hc.
  exists check. destruct (destination_ok (k_bench k) d) as (D1 & D2 & D3 & D4).
  destruct (balancer_ok (k_bench k)) as (S1 & S2 & S3 & S4).
  destruct (node_bytes dst D1 D2 D3 D4) as [E1 E2]. destruct (node_bytes src S1 S2 S3 S4) as [E3 E4].
  assert (Es : lb_source (deployed_maps (k_bench k)) = pair_of src) by (unfold src; destruct (k_bench k); reflexivity).
  unfold readdressed in Hc. rewrite Es, E1, E2, E3, E4 in Hc. exact Hc.
Qed.
End deployed.
