(* ===== verification/XdpLbInline.v ===== *)
(** * The load balancer compiled in (xdp_progs/xdp_lb.bpf.inline.aot.c)

    The ahead-of-time build replaces the two tables by constant arrays, so that their lookups
    become loads.  This file gives that program and proves what it shares with the program of
    XdpLb.v on the tables that the loader fills with the configuration of the test bench: all
    but the hash that is stored in the end, and the machine that takes the packets whose hash
    is 0 or 1. *)
From Stdlib Require Import ZArith Lia String.
From stdpp Require Import base numbers list option gmap.
From S2P Require Import Prelude Xdp OnesComplement XdpRun XdpLb XdpLbLoader.
#[local] Open Scope Z_scope.
#[local] Open Scope list_scope.

(** ** The program *)

(** The entries that are not given are zero.
    @src xdp_progs/xdp_lb.bpf.inline.aot.c 258-267 targets_map *)
Definition targets_map : list ip_mac_pair :=
  [IpMacPair (le_join [0xb8; 0x3f; 0xd2; 0x2a; 0xe5; 0x11]) 0xc0a80102;
   IpMacPair (le_join [0xb8; 0x3f; 0xd2; 0x2a; 0xe5; 0x11]) 0xc0a80103]
  ++ replicate 62 pair_zero.
(** @src xdp_progs/xdp_lb.bpf.inline.aot.c 287-296 config_map *)
Definition config_map : list ip_mac_pair :=
  [IpMacPair (le_join [0xb8; 0x3f; 0xd2; 0x2a; 0xe5; 0x11]) 0xc0a8010b;
   IpMacPair (le_join [0xb8; 0x3f; 0xd2; 0x2a; 0xe5; 0x11]) 0xc0a8010d]
  ++ replicate 62 pair_zero.

Section inline.
Context {H : XdpHelpers} {E : Type}.

(** The address of an element, which is never null; outside the array there is none.
    @src xdp_progs/xdp_lb.bpf.inline.aot.c 269-271 bpf_map_lookup_targets_map *)
Definition bpf_map_lookup_targets_map (key : Z) : xdp E (option ip_mac_pair) :=
  p ← lift (targets_map !! Z.to_nat key); mret (Some p).
(** @src xdp_progs/xdp_lb.bpf.inline.aot.c 298-300 bpf_map_lookup_config_map *)
Definition bpf_map_lookup_config_map (key : Z) : xdp E (option ip_mac_pair) :=
  p ← lift (config_map !! Z.to_nat key); mret (Some p).

(** The two machines of a branch: [dst] first, then [src].
    @src xdp_progs/xdp_lb.bpf.inline.aot.c 525-552 bpf_main *)
Definition choose (h : hash_and_sum) : xdp E (Z + ip_mac_pair * ip_mac_pair) :=
  if nz (xxhash64_res h / 2) then
    saddr ← load32 (14 + 12);
    source ← load16 34;
    dest ← load16 (34 + 2);
    dst ← bpf_map_lookup_targets_map (get_target_key saddr source dest);
    match dst with
    | None => mret (inl XDP_ABORTED)
    | Some dst =>
        src ← bpf_map_lookup_config_map 0;
        match src with
        | None => mret (inl XDP_ABORTED)
        | Some src => mret (inr (dst, src))
        end
    end
  else
    dst ← bpf_map_lookup_targets_map 1;
    match dst with
    | None => mret (inl XDP_ABORTED)
    | Some dst =>
        src ← bpf_map_lookup_config_map 0;
        match src with
        | None => mret (inl XDP_ABORTED)
        | Some src => mret (inr (dst, src))
        end
    end.

(** @src xdp_progs/xdp_lb.bpf.inline.aot.c 554-562 bpf_main *)
Definition readdress (dst src : ip_mac_pair) : xdp E unit :=
  store 0 (le_split 6 (mac dst)) ;;
  store 6 (le_split 6 (mac src)) ;;
  store32 (14 + 16) (bswap32 (ip dst)) ;;
  store32 (14 + 12) (bswap32 (ip src)) ;;
  store16 (14 + 10) 0 ;;
  hdr ← load 20 14;
  store16 (14 + 10) (u16 (Z.lnot (csum_reduce_helper (csum_add hdr 0)))).

(** @src xdp_progs/xdp_lb.bpf.inline.aot.c 473-568 bpf_main *)
Definition bpf_main : xdp E Z :=
  need 14 else XDP_DROP ;;
  need (14 + 20) else XDP_DROP ;;
  protocol ← load8 (14 + 9);
  if negb (protocol =? 6) then mret XDP_PASS else
  need (14 + 20 + 20) else XDP_DROP ;;
  client_cfg ← bpf_map_lookup_config_map 1;
  match client_cfg with
  | None => mret XDP_ABORTED
  | Some _ =>
      h ←? hash_packet;
      p ←? choose h;
      readdress p.1 p.2 ;;
      mret XDP_TX
  end.
End inline.

(** ** Equal programs *)

Lemma bind_assoc {E A B C} (m : xdp E A) (k : A -> xdp E B) (f : B -> xdp E C) s :
  ((m ≫= k) ≫= f) s = (m ≫= (fun a => k a ≫= f)) s.
Proof. cbv [mbind xdp_bind]. now destruct (m s) as [[a s']|]. Qed.

(** Two programs that begin with the same step agree when they agree after it. *)
Lemma bind_same {E A B} (m : xdp E A) (k1 k2 : A -> xdp E B) s :
  (forall a s', m s = Some (a, s') -> k1 a s' = k2 a s') -> (m ≫= k1) s = (m ≫= k2) s.
Proof. intros Hk. cbv [mbind xdp_bind]. destruct (m s) as [[a s']|]; [now apply Hk|done]. Qed.

Lemma bind_value {E A B} (m : xdp E A) (a : A) (k : A -> xdp E B) s :
  m s = Some (a, s) -> (m ≫= k) s = k a s.
Proof. intros Em. cbv [mbind xdp_bind]. now rewrite Em. Qed.

(** A step that only reads. *)
Definition reads {E A} (m : xdp E A) : Prop := forall s a s', m s = Some (a, s') -> s' = s.
Lemma reads_ret {E A} (a : A) : reads (E := E) (mret a).
Proof. now intros s b s' [= <- <-]. Qed.
Lemma reads_bind {E A B} (m : xdp E A) (k : A -> xdp E B) :
  reads m -> (forall a, reads (k a)) -> reads (m ≫= k).
Proof.
  intros Hm Hk s b s' Eq. cbv [mbind xdp_bind] in Eq. destruct (m s) as [[a s1]|] eqn:E1; [|discriminate].
  apply Hm in E1 as ->. now apply Hk in Eq.
Qed.
Lemma reads_load {E} n off : reads (E := E) (load n off).
Proof. intros s a s' Eq. unfold load in Eq. destruct (slice _ _ _); congruence. Qed.
Lemma reads_data_len {E} : reads (E := E) data_len.
Proof. intros s a s' Eq. unfold data_len in Eq. congruence. Qed.

Lemma reads_same {E A B} (m : xdp E A) (k1 k2 : A -> xdp E B) s :
  reads m -> (forall a, m s = Some (a, s) -> k1 a s = k2 a s) -> (m ≫= k1) s = (m ≫= k2) s.
Proof. intros Hm Hk. apply bind_same. intros a s' Ea. pose proof (Hm _ _ _ Ea) as ->. auto. Qed.

(** ** The two programs *)

Section agree.
Context {H : XdpHelpers}.

(** What only the program with tables does in the end. *)
Definition store_hash : xdp lb_maps Z :=
  h ←? hash_packet;
  store (14 + 20) (hash_and_sum_bytes h) ;;
  mret XDP_TX.
Definition finish (v : Z) : xdp lb_maps Z := if v =? XDP_TX then store_hash else mret v.

Lemma hash_packet_reads : reads (E := lb_maps) hash_packet.
Proof.
  apply reads_bind; [apply reads_data_len|]. intros n. destruct (1200 <? n); [apply reads_ret|].
  apply reads_bind; [apply reads_data_len|]. intros L. destruct (L <? 60); [apply reads_ret|].
  apply reads_bind; [apply reads_load|]. intros bs. apply reads_ret.
Qed.
Lemma hash_packet_value (s : xst lb_maps) r : hash_packet s = Some (r, s) ->
  match r with
  | inl v => v = XDP_PASS
  | inr h => 60 <= zlen (f_data (x_frame s)) /\ h = hash_of (take 60 (f_data (x_frame s)))
  end.
Proof.
  cbv [hash_packet mbind xdp_bind data_len].
  destruct (1200 <? _); [now intros [= <-]|].
  destruct (Z.ltb_spec (zlen (f_data (x_frame s))) 60); [now intros [= <-]|].
  unfold load. rewrite slice_some by lia. intros [= <-]. split; [lia|reflexivity].
Qed.

(** An entry of a constant array is that of the table. *)
Lemma inline_tables i : i = 0 \/ i = 1 ->
  targets_map !! Z.to_nat i = pair_lookup (XdpLb.targets_map (deployed_maps true)) i
  /\ config_map !! Z.to_nat i = pair_lookup (XdpLb.config_map (deployed_maps true)) i.
Proof. intros [-> | ->]; split; reflexivity. Qed.

Lemma readdress_finish dst src (s : xst lb_maps) :
  ((readdress dst src ;; mret XDP_TX) ≫= finish) s =
  (store 0 (le_split 6 (mac dst)) ;;
   store 6 (le_split 6 (mac src)) ;;
   store32 (14 + 16) (bswap32 (ip dst)) ;;
   store32 (14 + 12) (bswap32 (ip src)) ;;
   store16 (14 + 10) 0 ;;
   hdr ← load 20 14;
   store16 (14 + 10) (u16 (Z.lnot (csum_reduce_helper (csum_add hdr 0)))) ;;
   store_hash) s.
Proof.
  rewrite bind_assoc. unfold readdress. do 6 (rewrite bind_assoc; apply bind_same; intros ? ? _).
  apply bind_same. now intros.
Qed.

(** The choice of the machines, when the hash is neither 0 nor 1. *)
Lemma choose_agrees (s : xst lb_maps) h (k : Z + ip_mac_pair * ip_mac_pair -> xdp lb_maps Z) :
  x_env s = deployed_maps true -> nz (xxhash64_res h / 2) = true ->
  (choose h ≫= k) s =
  (saddr ← load32 (14 + 12); source ← load16 34; dest ← load16 (34 + 2);
   dst ← asks (fun m => pair_lookup (XdpLb.targets_map m) (get_target_key saddr source dest));
   src ← asks (fun m => pair_lookup (XdpLb.config_map m) 0);
   k (match dst, src with Some dst, Some src => inr (dst, src) | _, _ => inl XDP_ABORTED end)) s.
Proof.
  intros Es Hh. unfold choose. rewrite Hh.
  do 3 (rewrite bind_assoc; apply reads_same;
    [apply reads_bind; [apply reads_load|intros; apply reads_ret]|]; intros ? _).
  match goal with |- context [get_target_key ?a ?b ?c] =>
    pose proof (get_target_key_range a b c) as Hk; generalize dependent (get_target_key a b c) end.
  intros key Hk. destruct (inline_tables key ltac:(lia)) as [E1 _].
  destruct (inline_tables 0 (or_introl eq_refl)) as [_ E2].
  cbv [mbind xdp_bind bpf_map_lookup_targets_map bpf_map_lookup_config_map lift asks mret xdp_ret].
  rewrite Es, E1, E2, !pair_lookup_in by lia. reflexivity.
Qed.

(** C22: the compiled-in program does what the program with tables does on the test bench.  On
    the tables that the loader fills with the configuration of the test bench, and whatever the
    packet (also one that is cut short, too long or not TCP), the program with tables is the
    compiled-in program followed, when the packet is sent, by the store of its hash over the
    TCP header; except for the packets whose hash is 0 or 1. *)
Theorem inline_agrees k args m evs (s : xst lb_maps) :
  main k args = Some (0, m, evs) -> k_bench k = true -> x_env s = m ->
  (60 <= zlen (f_data (x_frame s)) -> 1 < xxhash64_res (hash_of (take 60 (f_data (x_frame s))))) ->
  xdp_lb s = (bpf_main ≫= finish) s.
Proof.
  intros Hm Hbench Es Hh. destruct (main_ok_accepts _ _ _ _ Hm) as (ifname & rest & -> & Ha).
  rewrite deploy_runs, Hbench in Hm by done. injection Hm as <- _. unfold xdp_lb, bpf_main. symmetry.
  do 2 (rewrite bind_assoc; apply reads_same; [apply reads_data_len|]; intros ? _;
    destruct (_ <? _); [reflexivity|]).
  rewrite bind_assoc. apply reads_same; [apply reads_bind; [apply reads_load|intros; apply reads_ret]|].
  intros protocol _. destruct (negb _); [reflexivity|].
  rewrite bind_assoc. apply reads_same; [apply reads_data_len|]. intros ? _. destruct (_ <? _); [reflexivity|].
  rewrite bind_assoc, (bind_value _ (Some (pair_of (the_client true)))) by reflexivity.
  rewrite (bind_value (asks _) (Some (pair_of (the_client true)))) by (unfold asks; now rewrite Es).
  cbv beta iota. rewrite bind_assoc. apply reads_same; [apply hash_packet_reads|].
  intros [v|h] Eh; pose proof (hash_packet_value _ _ Eh) as Hv; cbv beta iota in *; [now subst v|].
  destruct Hv as [Hl Ev].
  assert (Hnz : nz (xxhash64_res h / 2) = true).
  { rewrite Ev. specialize (Hh Hl). unfold nz. apply negb_true_iff, Z.eqb_neq. zlia. }
  rewrite bind_assoc, choose_agrees, Hnz by done. rewrite !bind_assoc.
  assert (Hr : forall n off, reads (E := lb_maps) (bs ← load n off; mret (le_join bs)))
    by (intros; apply reads_bind; [apply reads_load|intros; apply reads_ret]).
  apply reads_same; [apply Hr|]. intros saddr _. rewrite bind_assoc.
  apply reads_same; [apply Hr|]. intros source _. rewrite bind_assoc.
  apply reads_same; [apply Hr|]. intros dest _.
  apply reads_same; [now intros ? ? ? [= _ <-]|]. intros [dst|] Ed; cbv beta iota.
  - apply reads_same; [now intros ? ? ? [= _ <-]|]. intros [src|] _; [|reflexivity].
    apply (readdress_finish dst src).
  - rewrite (bind_value (asks _) (Some (pair_of (the_balancer true)))) by (unfold asks; now rewrite Es).
    reflexivity.
Qed.
End agree.
