(* ===== verification/XdpFirewall.v ===== *)
(** * The firewall (xdp_progs/xdp_firewall.bpf.c)

    A filter of IPv4 destinations and of VRRP router ids.  A packet that the
    filters let through is sent back with its MAC addresses exchanged. *)
From Stdlib Require Import ZArith Lia.
From stdpp Require Import base numbers list option gmap.
From S2P Require Import Prelude Xdp OnesComplement XdpRun.
#[local] Open Scope Z_scope.

(** ** Data *)

(** [addr] is word 0 of the union.
    @src xdp_progs/xdp_firewall.bpf.c 26-32 flow_key *)
Record fw_flow_key := FwFlowKey { addr6 : list Z; fw_proto : Z }.
#[global] Instance fw_flow_key_eq_dec : EqDecision fw_flow_key.
Proof. solve_decision. Defined.
#[global] Instance fw_flow_key_countable : Countable fw_flow_key.
Proof.
  apply (inj_countable' (fun k => (addr6 k, fw_proto k)) (fun '(a, p) => FwFlowKey a p)). now intros [].
Defined.

(** @src xdp_progs/xdp_firewall.bpf.c 34-40 vrrp_filter *)
Record vrrp_filter_t := VrrpFilter {
  vf_action : Z; vf_drop_packets : Z; vf_total_packets : Z; vf_drop_bytes : Z; vf_total_bytes : Z }.
Definition vrrp_zero : vrrp_filter_t := VrrpFilter 0 0 0 0 0.

Definition ETH_P_8021Q : Z := 0x8100.
Definition ETH_P_8021AD : Z := 0x88A8.
Definition ETH_P_IP : Z := 0x0800.
Definition ETH_P_IPV6 : Z := 0x86DD.
Definition FW_IPPROTO_AH : Z := 51.
(** @src xdp_progs/xdp_firewall.bpf.c 107-107 IPPROTO_VRRP *)
Definition IPPROTO_VRRP : Z := 112.

(** @src xdp_progs/xdp_firewall.bpf.c 112-115 parse_pkt *)
Record parse_pkt := ParsePkt { l3_proto : Z; l3_offset : Z }.

(** The per-CPU maps, as one CPU sees them.
    @src xdp_progs/xdp_firewall.bpf.c 117-137 l3_filter *)
Record fw_maps := FwMaps { l3_filter : gmap fw_flow_key Z; vrrp_vrid_filter : gmap Z vrrp_filter_t }.
Definition set_l3 (g : gmap fw_flow_key Z -> gmap fw_flow_key Z) (m : fw_maps) : fw_maps :=
  FwMaps (g (l3_filter m)) (vrrp_vrid_filter m).
Definition set_vrid (g : gmap Z vrrp_filter_t -> gmap Z vrrp_filter_t) (m : fw_maps) : fw_maps :=
  FwMaps (l3_filter m) (g (vrrp_vrid_filter m)).

(** ** The code *)

(** The entry of a router id: total, and dropped unless [action] is set.
    @src xdp_progs/xdp_firewall.bpf.c 158-165 vrrp_filter *)
Definition vrrp_count (len : Z) (f : vrrp_filter_t) : Z * vrrp_filter_t :=
  let f := VrrpFilter (vf_action f) (vf_drop_packets f) (u64 (vf_total_packets f + 1))
             (vf_drop_bytes f) (u64 (vf_total_bytes f + len)) in
  if nz (vf_action f) then (XDP_PASS, f)
  else (XDP_DROP, VrrpFilter (vf_action f) (u64 (vf_drop_packets f + 1)) (vf_total_packets f)
                    (u64 (vf_drop_bytes f + len)) (vf_total_bytes f)).

(** [vrid] is the second byte of the header; the array has 256 entries.
    @src xdp_progs/xdp_firewall.bpf.c 149-166 vrrp_filter *)
Definition vrrp_filter (vrrph len : Z) : xdp fw_maps Z :=
  key ← load8 (vrrph + 1);
  if negb ((0 <=? key) && (key <? 256)) then mret XDP_PASS else
  f ← asks (fun m => default vrrp_zero (vrrp_vrid_filter m !! key));
  let '(v, f) := vrrp_count len f in
  modify (set_vrid (<[key := f]>)) ;;
  mret v.

(** The IPv4 part: the offset of a VRRP header, if there is one; [inl] is a
    return.  The authentication header is 12 bytes, the VRRP header 8.
    @src xdp_progs/xdp_firewall.bpf.c 192-207 layer3_filter *)
Definition find_vrrp (offset : Z) : xdp fw_maps (Z + option Z) :=
  protocol ← load8 (offset + 9);
  if protocol =? IPPROTO_VRRP then
    let vrrph := offset + 20 in
    need (vrrph + 8) else (inl XDP_DROP) ;;
    mret (inr (Some vrrph))
  else if protocol =? FW_IPPROTO_AH then
    let ah := offset + 20 in
    need (ah + 12) else (inl XDP_PASS) ;;
    let offset := offset + 20 in
    nexthdr ← load8 ah;
    if nexthdr =? IPPROTO_VRRP then
      let vrrph := offset + 12 in
      need (vrrph + 8) else (inl XDP_DROP) ;;
      mret (inr (Some vrrph))
    else mret (inr None)
  else mret (inr None).

(** @src xdp_progs/xdp_firewall.bpf.c 169-249 layer3_filter *)
Definition layer3_filter (pkt : parse_pkt) : xdp fw_maps Z :=
  if l3_proto pkt =? ETH_P_IP then
    let iph := l3_offset pkt in
    need (iph + 20) else XDP_PASS ;;
    tot_len ← load16 (iph + 2);
    let tot_len := bswap16 tot_len in
    daddr ← load32 (iph + 16);
    let key := FwFlowKey [daddr; 0; 0; 0] ETH_P_IP in
    vrrph ←? find_vrrp iph;
    drop_cnt ← asks (fun m => l3_filter m !! key);
    match drop_cnt with
    | Some drop_cnt => modify (set_l3 (<[key := u64 (drop_cnt + 1)]>)) ;; mret XDP_DROP
    | None => match vrrph with Some vrrph => vrrp_filter vrrph tot_len | None => mret XDP_PASS end
    end
  else if l3_proto pkt =? ETH_P_IPV6 then mret XDP_DROP
  else mret XDP_PASS.

(** One VLAN tag at [offset], when the type says so: the new type and offset,
    [None] when the packet ends inside it.
    @src xdp_progs/xdp_firewall.bpf.c 268-276 parse_eth_frame *)
Definition parse_tag (eth_type offset : Z) : xdp fw_maps (option (Z * Z)) :=
  if (eth_type =? bswap16 ETH_P_8021Q) || (eth_type =? bswap16 ETH_P_8021AD) then
    let vlan_hdr := offset in
    let offset := u8 (offset + 4) in
    need offset else None ;;
    eth_type ← load16 (vlan_hdr + 2);
    mret (Some (eth_type, offset))
  else mret (Some (eth_type, offset)).

(** [None] is false.
    @src xdp_progs/xdp_firewall.bpf.c 252-292 parse_eth_frame *)
Definition parse_eth_frame : xdp fw_maps (option parse_pkt) :=
  let offset := 14 in
  need offset else None ;;
  eth_type ← load16 12;
  r ← parse_tag eth_type offset;
  match r with
  | None => mret None
  | Some (eth_type, offset) =>
      r ← parse_tag eth_type offset;
      match r with
      | None => mret None
      | Some (eth_type, offset) => mret (Some (ParsePkt (bswap16 eth_type) offset))
      end
  end.

(** @src xdp_progs/xdp_firewall.bpf.c 312-329 xdp_pass *)
Definition xdp_firewall : xdp fw_maps Z :=
  pkt ← parse_eth_frame;
  match pkt with
  | None => mret XDP_PASS
  | Some pkt =>
      ret ← layer3_filter pkt;
      if ret =? XDP_PASS then swap_src_dst_mac ;; mret XDP_TX
      else mret ret
  end.

(** ** Parsing the Ethernet header *)

Definition be16 (x : Z) : list Z := [x / 256 mod 256; x mod 256].
Lemma le_join_be16 x : is_u16 x -> le_join (be16 x) = bswap16 x.
Proof. unfold is_u16, bswap16. intros. cbn. zlia. Qed.

(** A VLAN tag: its protocol and the two bytes of priority and identifier. *)
Record vlan_tag := VlanTag { tpid : Z; tci : Z * Z }.
Definition is_vlan (x : Z) : Prop := x = ETH_P_8021Q \/ x = ETH_P_8021AD.
Definition tag_bytes (t : vlan_tag) : list Z := be16 (tpid t) ++ [(tci t).1; (tci t).2].
Definition eth_header (macs : list Z) (tags : list vlan_tag) (proto : Z) : list Z :=
  macs ++ concat (map tag_bytes tags) ++ be16 proto.

Lemma vlan_type x : is_vlan x ->
  (le_join (be16 x) =? bswap16 ETH_P_8021Q) || (le_join (be16 x) =? bswap16 ETH_P_8021AD) = true.
Proof. intros [-> | ->]; reflexivity. Qed.
Lemma plain_type x : is_u16 x -> ~ is_vlan x ->
  (le_join (be16 x) =? bswap16 ETH_P_8021Q) || (le_join (be16 x) =? bswap16 ETH_P_8021AD) = false.
Proof.
  intros Hx Hv. rewrite le_join_be16 by done. apply orb_false_iff.
  split; apply Z.eqb_neq; intros E; apply (f_equal bswap16) in E;
    rewrite !bswap16_involutive in E by (done || (split; [discriminate|reflexivity]));
    apply Hv; [now left|now right].
Qed.

Lemma zlen_eth macs tags proto :
  length macs = 12%nat -> zlen (eth_header macs tags proto) = 14 + 4 * Z.of_nat (length tags).
Proof.
  intros Hm. unfold eth_header. rewrite !zlen_app. change (zlen (be16 proto)) with 2.
  assert (zlen (concat (map tag_bytes tags)) = 4 * Z.of_nat (length tags)) as ->.
  { induction tags as [|t tags IH]; [done|]. cbn [map concat length]. rewrite zlen_app, IH.
    change (zlen (tag_bytes t)) with 4. lia. }
  unfold zlen. lia.
Qed.

Lemma parse_eth_runs (s : xst fw_maps) macs tags proto rest :
  f_data (x_frame s) = eth_header macs tags proto ++ rest -> length macs = 12%nat ->
  Forall (fun t => is_vlan (tpid t)) tags -> (length tags <= 2)%nat ->
  is_u16 proto -> (~ is_vlan proto \/ length tags = 2%nat) ->
  runs s parse_eth_frame (Some (ParsePkt proto (14 + 4 * Z.of_nat (length tags)))) s.
Proof.
  intros Hd Hm Ht Hl Hp Hnv. unfold parse_eth_frame, parse_tag.
  pose proof (zlen_eth macs tags proto Hm) as Hz.
  assert (Hlen : 14 + 4 * Z.of_nat (length tags) <= zlen (f_data (x_frame s))).
  { rewrite Hd, zlen_app. pose proof (zlen_nonneg rest). lia. }
  apply run_need; [lia|]. destruct s as [[hd d tl] env tk]. cbn [f_data x_frame] in *. subst d.
  explode macs Hm. unfold eth_header in *.
  destruct tags as [|t1 [|t2 [|]]]; [| | |simpl in Hl; lia]; clear Hl; cbn [length] in *;
    unfold tag_bytes, be16 in *; cbn [map concat app tpid tci] in *.
  - destruct Hnv as [Hnv|]; [|done]. eapply runs_bind; [xstep|]. fold (be16 proto).
    do 2 (rewrite (plain_type proto Hp Hnv); eapply runs_bind; [apply runs_ret|]; cbv beta iota).
    rewrite le_join_be16, bswap16_involutive by done. apply runs_ret.
  - destruct Hnv as [Hnv|]; [|done]. apply Forall_inv in Ht.
    eapply runs_bind; [xstep|]. fold (be16 (tpid t1)). rewrite (vlan_type _ Ht).
    eapply runs_bind; [change (u8 (14 + 4)) with 18; apply run_need; [cbn [f_data x_frame]; lia|];
      eapply runs_bind; [xstep|apply runs_ret]|]. cbv beta iota. fold (be16 proto).
    rewrite (plain_type proto Hp Hnv). eapply runs_bind; [apply runs_ret|]. cbv beta iota.
    rewrite le_join_be16, bswap16_involutive by done. apply runs_ret.
  - clear Hnv. apply Forall_cons_1 in Ht as [Ht1 Ht2%Forall_inv].
    eapply runs_bind; [xstep|]. fold (be16 (tpid t1)). rewrite (vlan_type _ Ht1).
    eapply runs_bind; [change (u8 (14 + 4)) with 18; apply run_need; [cbn [f_data x_frame]; lia|];
      eapply runs_bind; [xstep|apply runs_ret]|]. cbv beta iota. fold (be16 (tpid t2)).
    rewrite (vlan_type _ Ht2).
    eapply runs_bind; [change (u8 (18 + 4)) with 22; apply run_need; [cbn [f_data x_frame]; lia|];
      eapply runs_bind; [xstep|apply runs_ret]|]. cbv beta iota. fold (be16 proto).
    rewrite le_join_be16, bswap16_involutive by done. apply runs_ret.
Qed.

(** ** The verdict *)

Lemma vrrp_count_verdict len f v g : vrrp_count len f = (v, g) -> v = XDP_DROP \/ v = XDP_PASS.
Proof. unfold vrrp_count. destruct (nz _); injection 1; auto. Qed.

(** The decision on an IPv4 packet: its destination, the id of its VRRP header if
    it has one, and its total length. *)
Definition fw_decide (m : fw_maps) (daddr : Z) (vrid : option Z) (tot_len : Z) : Z * fw_maps :=
  let key := FwFlowKey [daddr; 0; 0; 0] ETH_P_IP in
  match l3_filter m !! key with
  | Some drops => (XDP_DROP, set_l3 (<[key := u64 (drops + 1)]>) m)
  | None =>
      match vrid with
      | None => (XDP_TX, m)
      | Some id =>
          let '(VrrpFilter action drops total drop_bytes total_bytes) :=
            default vrrp_zero (vrrp_vrid_filter m !! id) in
          let total := u64 (total + 1) in
          let total_bytes := u64 (total_bytes + tot_len) in
          if action =? 0 then
            (XDP_DROP, set_vrid (<[id := VrrpFilter action (u64 (drops + 1)) total
                                           (u64 (drop_bytes + tot_len)) total_bytes]>) m)
          else (XDP_TX, set_vrid (<[id := VrrpFilter action drops total drop_bytes total_bytes]>) m)
      end
  end.

(** Single bytes of an IPv4 header and of what follows it. *)
Lemma slice_nth_app iph l4 : length iph = 20%nat -> slice 9 1 (iph ++ l4) = Some [nth 9 iph 0].
Proof. intros Hl. explode iph Hl. reflexivity. Qed.
Lemma slice_byte_app iph l4 k :
  length iph = 20%nat -> (k < length l4)%nat -> slice (20 + Z.of_nat k) 1 (iph ++ l4) = Some [nth k l4 0].
Proof.
  intros Hl Hk. rewrite slice_some by (unfold zlen; rewrite ?length_app; lia).
  replace (Z.to_nat (20 + Z.of_nat k)) with (length iph + k)%nat by lia. rewrite drop_app_add.
  destruct (nth_lookup_or_length l4 k 0) as [E|E]; [|lia]. now rewrite (drop_S _ _ _ E).
Qed.

(** Where in [l4], what follows the IPv4 header, the VRRP header is, if there is one: first, or
    after the 12 bytes of an authentication header.  A packet that ends inside its VRRP header is
    dropped, one that ends inside its authentication header is let through. *)
Definition vrrp_at (protocol : Z) (l4 : list Z) : Z + option nat :=
  if protocol =? IPPROTO_VRRP then if zlen l4 <? 8 then inl XDP_DROP else inr (Some 0%nat)
  else if protocol =? FW_IPPROTO_AH then
    if zlen l4 <? 12 then inl XDP_TX
    else if nth 0 l4 0 =? IPPROTO_VRRP then if zlen l4 <? 20 then inl XDP_DROP else inr (Some 12%nat)
    else inr None
  else inr None.
(** The decision on the packet: its destination and its length, its protocol and what follows. *)
Definition fw_ipv4 (m : fw_maps) (daddr tot_len protocol : Z) (l4 : list Z) : Z * fw_maps :=
  match vrrp_at protocol l4 with
  | inl v => (v, m)
  | inr k => fw_decide m daddr (option_map (fun k => nth (S k) l4 0) k) tot_len
  end.
Lemma fw_decide_verdict m daddr vrid len :
  (fw_decide m daddr vrid len).1 = XDP_TX \/ (fw_decide m daddr vrid len).1 = XDP_DROP.
Proof.
  unfold fw_decide. destruct (l3_filter _ !! _); [now right|]. destruct vrid; [|now left].
  destruct (default _ _) as [ac dp tp db tb]. destruct (ac =? 0); auto.
Qed.
Lemma vrrp_at_verdict protocol l4 v : vrrp_at protocol l4 = inl v -> v = XDP_TX \/ v = XDP_DROP.
Proof. unfold vrrp_at. repeat case_match; intros [= <-]; auto. Qed.
Lemma vrrp_at_fits protocol l4 k : vrrp_at protocol l4 = inr (Some k) -> Z.of_nat k + 8 <= zlen l4.
Proof. unfold vrrp_at. repeat case_match; intros [= <-]; lia. Qed.
Lemma fw_ipv4_verdict m daddr len protocol l4 :
  (fw_ipv4 m daddr len protocol l4).1 = XDP_TX \/ (fw_ipv4 m daddr len protocol l4).1 = XDP_DROP.
Proof.
  unfold fw_ipv4. destruct (vrrp_at protocol l4) eqn:E; [eauto using vrrp_at_verdict|apply fw_decide_verdict].
Qed.

(** An IPv4 packet behind an Ethernet header. *)
Section ipv4.
Context (s : xst fw_maps) (eth iph l4 : list Z) (off : Z).
Context (Hd : f_data (x_frame s) = eth ++ iph ++ l4) (Hz : zlen eth = off) (Hl : length iph = 20%nat).

Lemma ipv4_len : zlen (f_data (x_frame s)) = off + 20 + zlen l4.
Proof. rewrite Hd, !zlen_app, Hz. unfold zlen. rewrite Hl. lia. Qed.
Lemma ipv4_slice k n bs :
  0 <= k -> slice k n (iph ++ l4) = Some bs -> slice (off + k) n (f_data (x_frame s)) = Some bs.
Proof. intros Hk Hs. now rewrite Hd, slice_at_plus. Qed.

Lemma ipv4_byte k : (k < length l4)%nat -> runs s (load8 (off + 20 + Z.of_nat k)) (nth k l4 0) s.
Proof.
  intros Hk. assert (Hr : runs s (load8 (off + 20 + Z.of_nat k)) (le_join [nth k l4 0]) s).
  { apply runs_load8. replace (off + 20 + Z.of_nat k) with (off + (20 + Z.of_nat k)) by lia.
    apply ipv4_slice; [lia|]. now apply slice_byte_app. }
  now replace (le_join [nth k l4 0]) with (nth k l4 0) in Hr by (cbn [le_join]; lia).
Qed.

Lemma find_vrrp_runs :
  runs s (find_vrrp off)
    (match vrrp_at (nth 9 iph 0) l4 with
     | inl v => inl (if v =? XDP_TX then XDP_PASS else v)
     | inr k => inr (option_map (fun k : nat => off + 20 + Z.of_nat k) k)
     end) s.
Proof.
  pose proof ipv4_len as Hlen. unfold find_vrrp, vrrp_at.
  assert (Hp : runs s (load8 (off + 9)) (nth 9 iph 0) s).
  { assert (runs s (load8 (off + 9)) (le_join [nth 9 iph 0]) s) as Hr.
    { apply runs_load8, ipv4_slice; [lia|]. now apply slice_nth_app. }
    now replace (le_join [nth 9 iph 0]) with (nth 9 iph 0) in Hr by (cbn [le_join]; lia). }
  eapply runs_bind; [exact Hp|]. cbv beta. destruct (_ =? IPPROTO_VRRP).
  - destruct (Z.ltb_spec (zlen l4) 8).
    + apply run_need_short. lia.
    + apply run_need; [lia|]. cbn [option_map]. rewrite Z.add_0_r. apply runs_ret.
  - destruct (_ =? FW_IPPROTO_AH); [|apply runs_ret]. destruct (Z.ltb_spec (zlen l4) 12).
    + apply run_need_short. lia.
    + apply run_need; [lia|]. cbv zeta. eapply runs_bind.
      { rewrite <- (Z.add_0_r (off + 20)). apply (ipv4_byte 0). unfold zlen in *. lia. }
      cbv beta. destruct (_ =? IPPROTO_VRRP); [|apply runs_ret]. destruct (Z.ltb_spec (zlen l4) 20).
      * apply run_need_short. lia.
      * apply run_need; [lia|]. apply runs_ret.
Qed.

Lemma vrrp_filter_runs (k : nat) len :
  bytes_ok l4 -> Z.of_nat k + 8 <= zlen l4 ->
  let id := nth (S k) l4 0 in
  let '(v, f) := vrrp_count len (default vrrp_zero (vrrp_vrid_filter (x_env s) !! id)) in
  runs s (vrrp_filter (off + 20 + Z.of_nat k) len) v
    (Xst (x_frame s) (set_vrid (<[id := f]>) (x_env s)) (x_tick s)).
Proof.
  intros Hb H8 id. unfold vrrp_filter.
  destruct (vrrp_count len (default vrrp_zero (vrrp_vrid_filter (x_env s) !! id))) as [v f] eqn:Hc.
  assert (Hk : (S k < length l4)%nat) by (unfold zlen in H8; lia).
  assert (Hu : is_u8 id) by (apply Forall_nth; [exact Hb|done]).
  unfold is_u8 in Hu. eapply runs_bind.
  { replace (off + 20 + Z.of_nat k + 1) with (off + 20 + Z.of_nat (S k)) by lia. now apply ipv4_byte. }
  fold id. cbv beta.
  destruct (Z.leb_spec 0 id), (Z.ltb_spec id 256); try lia. cbn [andb negb].
  eapply runs_bind; [apply runs_asks|]. cbv beta. rewrite Hc.
  eapply runs_bind; [apply runs_modify|]. apply runs_ret.
Qed.

(** [layer3_filter] decides as [fw_ipv4]. *)
Lemma layer3_runs :
  bytes_ok l4 ->
  let r := fw_ipv4 (x_env s) (le_join (drop 16 iph)) (bswap16 (le_join (take 2 (drop 2 iph)))) (nth 9 iph 0) l4 in
  runs s (layer3_filter (ParsePkt ETH_P_IP off))
    (if r.1 =? XDP_TX then XDP_PASS else XDP_DROP) (Xst (x_frame s) r.2 (x_tick s)).
Proof.
  intros Hb4 r. pose proof ipv4_len as Hlen. pose proof (zlen_nonneg l4).
  assert (Hslice : forall k n, 0 <= k -> (Z.to_nat k + n <= 20)%nat ->
    slice (off + k) n (f_data (x_frame s)) = Some (take n (drop (Z.to_nat k) iph))).
  { intros k n Hk Hn. apply ipv4_slice; [done|]. rewrite slice_some by (unfold zlen; rewrite ?length_app; lia).
    rewrite drop_app_le by lia. rewrite take_app_le by (rewrite length_drop; lia). done. }
  unfold layer3_filter. cbn [l3_proto l3_offset]. change (ETH_P_IP =? ETH_P_IP) with true. cbv iota.
  apply run_need; [lia|].
  eapply runs_bind; [eapply runs_load16, Hslice; lia|]. cbv beta zeta.
  eapply runs_bind; [eapply runs_load32, Hslice; lia|]. cbv beta zeta.
  change (Z.to_nat 2) with 2%nat. change (Z.to_nat 16) with 16%nat.
  rewrite (take_ge (drop 16 iph)) by (rewrite length_drop; lia).
  eapply runs_bind; [apply find_vrrp_runs|]. unfold r, fw_ipv4.
  destruct (vrrp_at (nth 9 iph 0) l4) as [v|k] eqn:Ev.
  { cbv beta iota. destruct (vrrp_at_verdict _ _ _ Ev) as [-> | ->];
      (eapply runs_eq; [apply runs_ret|now destruct s]). }
  cbv beta iota. eapply runs_bind; [apply runs_asks|]. cbv beta. unfold fw_decide. cbv zeta.
  destruct (l3_filter (x_env s) !! FwFlowKey [le_join (drop 16 iph); 0; 0; 0] ETH_P_IP) as [c|].
  - eapply runs_bind; [apply runs_modify|]. apply runs_ret.
  - destruct k as [k|]; cbn [option_map].
    + pose proof (vrrp_filter_runs k (bswap16 (le_join (take 2 (drop 2 iph)))) Hb4 (vrrp_at_fits _ _ _ Ev)) as Hvr.
      cbv zeta in Hvr. destruct (default vrrp_zero (vrrp_vrid_filter (x_env s) !! nth (S k) l4 0)) as [ac dp tp db tb].
      unfold vrrp_count, nz in Hvr. cbn [vf_action vf_drop_packets vf_total_packets vf_drop_bytes vf_total_bytes] in Hvr.
      destruct (ac =? 0); exact Hvr.
    + cbn [fst snd]. eapply runs_eq; [apply runs_ret|]. now destruct s.
Qed.
End ipv4.

(** the firewall on an IPv4 packet behind up to two VLAN tags: it is dropped if it ends inside a
    VRRP header, and sent back if it ends inside an authentication header; otherwise it is dropped,
    and counted, if its destination is in [l3_filter]; a VRRP packet is counted for its router id
    and dropped unless the id has an action; every other packet is sent back with its MAC
    addresses exchanged and nothing else changed. *)
Lemma firewall_ipv4_correct (s : xst fw_maps) (m1 m2 : list Z) (tags : list vlan_tag) (iph l4 : list Z) :
  f_data (x_frame s) = eth_header (m1 ++ m2) tags ETH_P_IP ++ iph ++ l4 ->
  length m1 = 6%nat -> length m2 = 6%nat -> bytes_ok m1 -> bytes_ok m2 ->
  Forall (fun t => is_vlan (tpid t)) tags -> (length tags <= 2)%nat ->
  length iph = 20%nat -> bytes_ok l4 ->
  let r := fw_ipv4 (x_env s) (le_join (drop 16 iph)) (bswap16 (le_join (take 2 (drop 2 iph)))) (nth 9 iph 0) l4 in
  let d := if r.1 =? XDP_TX then eth_header (m2 ++ m1) tags ETH_P_IP ++ iph ++ l4
           else f_data (x_frame s) in
  (r.1 = XDP_TX \/ r.1 = XDP_DROP) /\
  runs s xdp_firewall r.1 (set_data (Xst (x_frame s) r.2 (x_tick s)) d).
Proof.
  intros Hd H1 H2 B1 B2 Ht Hl2 Hi Hb4 r d.
  assert (Hcases : r.1 = XDP_TX \/ r.1 = XDP_DROP) by apply fw_ipv4_verdict.
  split; [done|]. unfold xdp_firewall.
  assert (Hm : length (m1 ++ m2) = 12%nat) by (rewrite length_app; lia).
  eapply runs_bind; [apply (parse_eth_runs s (m1 ++ m2) tags ETH_P_IP (iph ++ l4));
    [done|done|done|done|split; [discriminate|reflexivity]|left; intros [E|E]; discriminate E]|].
  cbv beta iota.
  eapply runs_bind; [apply (layer3_runs s (eth_header (m1 ++ m2) tags ETH_P_IP) iph l4);
    [done|now apply zlen_eth|done..]|].
  fold r. unfold d. destruct Hcases as [E | E]; rewrite E.
  - change (XDP_TX =? XDP_TX) with true. cbv iota. change (XDP_PASS =? XDP_PASS) with true. cbv iota.
    eapply runs_bind; [|apply runs_ret].
    eapply runs_eq; [apply (swap_macs_runs _ m1 m2 (concat (map tag_bytes tags) ++ be16 ETH_P_IP ++ iph ++ l4)); [|done..]|].
    + cbn [x_frame]. rewrite Hd. unfold eth_header. now rewrite <- !app_assoc.
    + unfold eth_header. now rewrite <- !app_assoc.
  - change (XDP_DROP =? XDP_TX) with false. cbv iota. change (XDP_DROP =? XDP_PASS) with false. cbv iota.
    eapply runs_eq; [apply runs_ret|]. unfold set_data. cbn [x_frame]. now destruct (x_frame s).
Qed.

(** ** Safety *)

Definition fw_verdict (v : Z) : Prop := v = XDP_DROP \/ v = XDP_PASS \/ v = XDP_TX.

Lemma layer3_fits L pkt : 0 <= l3_offset pkt ->
  fits L (layer3_filter pkt) (fun v L' => (v = XDP_DROP \/ v = XDP_PASS) /\ L' = L).
Proof.
  intros Ho. unfold layer3_filter, find_vrrp, vrrp_filter.
  fits_auto; auto; eauto using vrrp_count_verdict.
Qed.

Lemma parse_tag_fits L t o : 0 <= o < 200 -> o <= L ->
  fits L (parse_tag t o) (fun r L' => L' = L /\ forall t' o', r = Some (t', o') -> 0 <= o' <= o + 4 /\ o' <= L).
Proof.
  intros Ho HL. unfold parse_tag. assert (u8 (o + 4) = o + 4) as -> by (unfold u8; zlia).
  fits_auto; (split; [done|]; intros ? ? E; try discriminate E; injection E as <- <-); fits_bound.
Qed.

Lemma parse_eth_fits L :
  fits L parse_eth_frame (fun r L' => L' = L /\ forall p, r = Some p -> 14 <= L /\ 0 <= l3_offset p).
Proof.
  unfold parse_eth_frame. fits_auto; [split; [done|discriminate]|].
  eapply fits_weaken; [apply parse_tag_fits; lia|].
  intros [[t o]|] ? (-> & Hr); [|apply fits_ret; split; [done|discriminate]].
  destruct (Hr t o eq_refl). apply fits_bind. eapply fits_weaken; [apply parse_tag_fits; lia|].
  intros [[t' o']|] ? (-> & Hr'); [|apply fits_ret; split; [done|discriminate]].
  destruct (Hr' t' o' eq_refl). apply fits_ret. split; [done|]. injection 1 as <-. simpl. lia.
Qed.

(** Whatever the packet and the maps, the firewall stays inside the packet,
    keeps its length and returns drop, pass or transmit. *)
Lemma firewall_safe (s : xst fw_maps) :
  frame_ok (x_frame s) ->
  exists v s', xdp_firewall s = Some (v, s') /\ fw_verdict v
    /\ frame_ok (x_frame s') /\ zlen (f_data (x_frame s')) = zlen (f_data (x_frame s)).
Proof.
  intros Hs. assert (Hf : forall L, fits L xdp_firewall (fun v L' => fw_verdict v /\ L' = L)).
  { intros L. unfold xdp_firewall.
    apply fits_bind. eapply fits_weaken; [apply parse_eth_fits|].
    intros [pkt|] ? (-> & Hp); [|apply fits_ret; unfold fw_verdict; auto].
    destruct (Hp pkt eq_refl). apply fits_bind. eapply fits_weaken; [now apply layer3_fits|].
    intros v ? (Hv & ->). unfold swap_src_dst_mac, fw_verdict. fits_auto; tauto. }
  specialize (Hf _ s Hs eq_refl).
  destruct (xdp_firewall s) as [[v s']|]; [|done]. destruct Hf as (Hok & Hv & Hl). eauto 10.
Qed.
