(* ===== verification/XdpFw.v ===== *)
(** * The stateful firewall (xdp_progs/xdp_fw.bpf.c)

    A firewall between two ports.  A flow is opened by a packet from the inside;
    packets that come in on the outer port are let through when they belong to an
    open flow.  The theorems are about whole sequences of packets. *)
From Stdlib Require Import ZArith Lia.
From stdpp Require Import base numbers list option gmap.
From S2P Require Import Prelude Xdp XdpRun.
#[local] Open Scope Z_scope.

(** ** Data *)

Definition A_PORT : Z := 6.
(** @src xdp_progs/xdp_fw_common.h 4-5 B_PORT *)
Definition B_PORT : Z := 7.

(** @src xdp_progs/xdp_fw_common.h 9-17 flow_ctx_table_key *)
Record flow_ctx_table_key := FlowCtxKey {
  ip_proto : Z; l4_src : Z; l4_dst : Z; ip_src : Z; ip_dst : Z }.
#[global] Instance flow_ctx_table_key_eq_dec : EqDecision flow_ctx_table_key.
Proof. solve_decision. Defined.
#[global] Instance flow_ctx_table_key_countable : Countable flow_ctx_table_key.
Proof.
  apply (inj_countable' (fun k => (ip_proto k, l4_src k, l4_dst k, ip_src k, ip_dst k))
    (fun '(p, s, d, a, b) => FlowCtxKey p s d a b)). now intros [].
Defined.

(** @src xdp_progs/xdp_fw_common.h 19-23 flow_ctx_table_leaf *)
Record flow_ctx_table_leaf := FlowCtxLeaf { out_port : Z; in_port : Z }.

(** @src xdp_progs/xdp_fw.bpf.c 44-49 flow_ctx_table *)
Definition flow_ctx_table : Type := gmap flow_ctx_table_key flow_ctx_table_leaf.
Definition FLOW_TABLE_SIZE : nat := 1024.

(** [bpf_map_update_elem] on a BPF hash map: the entry is stored, or the map was
    full and stays as it is. *)
Class HashUpdate := hash_update : flow_ctx_table -> flow_ctx_table_key -> flow_ctx_table_leaf -> flow_ctx_table.
Class HashUpdateLaws (U : HashUpdate) : Prop := hash_update_spec : forall t k v,
  hash_update t k v = <[k := v]> t
  \/ (hash_update t k v = t /\ t !! k = None /\ (FLOW_TABLE_SIZE <= size t)%nat).

(** What the program returns: a verdict, or the result of [bpf_redirect_map] to a
    port. *)
Inductive outcome := Verdict (v : Z) | RedirectMap (port : Z).
#[global] Instance outcome_eq_dec : EqDecision outcome.
Proof. solve_decision. Defined.

(** ** The code *)

(** @src xdp_progs/xdp_fw.bpf.c 21-35 biflow *)
Definition biflow (k : flow_ctx_table_key) : flow_ctx_table_key :=
  let k := if ip_dst k <? ip_src k
           then FlowCtxKey (ip_proto k) (l4_src k) (l4_dst k) (ip_dst k) (ip_src k) else k in
  if l4_dst k <? l4_src k
  then FlowCtxKey (ip_proto k) (l4_dst k) (l4_src k) (ip_src k) (ip_dst k) else k.

Section program.
Context {U : HashUpdate}.

(** [ingress_ifindex] is the field of the context.
    @src xdp_progs/xdp_fw.bpf.c 52-152 xdp_pass *)
Definition xdp_fw (ingress_ifindex : Z) : xdp flow_ctx_table outcome :=
  need 14 else Verdict XDP_PASS ;;
  h_proto ← load16 12;
  if negb (bswap16 h_proto =? 0x0800) then mret (Verdict XDP_PASS) else
  let ip := 14 in
  need (ip + 20) else Verdict XDP_PASS ;;
  protocol ← load8 (ip + 9);
  if negb ((protocol =? 6) || (protocol =? 17)) then mret (Verdict XDP_PASS) else
  let l4 := ip + 20 in
  need (l4 + 8) else Verdict XDP_PASS ;;
  saddr ← load32 (ip + 12);
  daddr ← load32 (ip + 16);
  source ← load16 l4;
  dest ← load16 (l4 + 2);
  let flow_key := biflow (FlowCtxKey protocol source dest saddr daddr) in
  flow_leaf ← asks (fun t : flow_ctx_table => t !! flow_key);
  if ingress_ifindex =? B_PORT then
    match flow_leaf with
    | Some leaf => mret (RedirectMap (out_port leaf))
    | None => mret (Verdict XDP_PASS)
    end
  else
    when (negb (bool_decide (is_Some flow_leaf)))
      (modify (fun t => hash_update t flow_key (FlowCtxLeaf A_PORT B_PORT))) ;;
    mret (RedirectMap B_PORT).

(** The packets that arrive one after the other, each with its port. *)
Fixpoint fw_trace (t : flow_ctx_table) (ps : list (Z * frame))
    : option (list outcome * flow_ctx_table) :=
  match ps with
  | [] => Some ([], t)
  | (ifindex, f) :: ps =>
      '(o, s) ← xdp_fw ifindex (Xst f t 0);
      '(os, t) ← fw_trace (x_env s) ps;
      Some (o :: os, t)
  end.
End program.

(** ** Flow keys *)

Definition swap_ips (k : flow_ctx_table_key) : flow_ctx_table_key :=
  FlowCtxKey (ip_proto k) (l4_src k) (l4_dst k) (ip_dst k) (ip_src k).
Definition swap_l4 (k : flow_ctx_table_key) : flow_ctx_table_key :=
  FlowCtxKey (ip_proto k) (l4_dst k) (l4_src k) (ip_src k) (ip_dst k).

(** [biflow] identifies a packet with the replies to it, as it is meant to, and
    also with the packets whose addresses but not ports, or ports but not
    addresses, are exchanged; and with nothing else. *)
Lemma biflow_identifies (k k' : flow_ctx_table_key) :
  biflow k = biflow k' <->
  k' = k \/ k' = swap_ips (swap_l4 k) \/ k' = swap_ips k \/ k' = swap_l4 k.
Proof.
  destruct k as [p s d a b], k' as [p' s' d' a' b']. unfold biflow, swap_ips, swap_l4.
  cbn [ip_proto l4_src l4_dst ip_src ip_dst].
  destruct (Z.ltb_spec b a), (Z.ltb_spec b' a'); cbn [ip_proto l4_src l4_dst ip_src ip_dst];
  destruct (Z.ltb_spec d s), (Z.ltb_spec d' s');
  (split; [intros [= ]; subst; naive_solver lia|]);
  intros [[= ]|[[= ]|[[= ]|[= ]]]]; subst; f_equal; lia.
Qed.

(** ** Flows, as the headers have them

    What the program is about, without its own notion of a key: the addresses and the ports
    of a packet, and the packets that it takes for packets of one flow. *)
Definition tuple_of (d : list Z) : option flow_ctx_table_key :=
  let field off n := le_join (take n (drop off d)) in
  let protocol := field 23%nat 1%nat in
  if (42 <=? zlen d) && (bswap16 (field 12%nat 2%nat) =? 0x0800) && ((protocol =? 6) || (protocol =? 17))
  then Some (FlowCtxKey protocol (field 34%nat 2%nat) (field 36%nat 2%nat) (field 26%nat 4%nat) (field 30%nat 4%nat))
  else None.
(** [k'] is [k], a reply to it, or [k] with only the addresses or only the ports exchanged. *)
Definition same_flow (k k' : flow_ctx_table_key) : Prop :=
  k' = k \/ k' = swap_ips (swap_l4 k) \/ k' = swap_ips k \/ k' = swap_l4 k.
#[global] Instance same_flow_dec k k' : Decision (same_flow k k').
Proof. unfold same_flow. apply _. Defined.
(** The packet [p] comes from the inside and belongs to the flow of [k]. *)
Definition from_inside (k : flow_ctx_table_key) (p : Z * frame) : Prop :=
  p.1 <> B_PORT /\ match tuple_of (f_data p.2) with Some k' => same_flow k k' | None => False end.
#[global] Instance from_inside_dec k p : Decision (from_inside k p).
Proof. unfold from_inside. destruct (tuple_of _); apply _. Defined.

(** ** The program as a step on the table *)

(** The flow of a TCP or UDP packet that is long enough. *)
Definition flow_of (d : list Z) : option flow_ctx_table_key :=
  let field off n := le_join (take n (drop off d)) in
  if zlen d <? 42 then None
  else if negb (bswap16 (field 12%nat 2%nat) =? 0x0800) then None
  else let protocol := field 23%nat 1%nat in
  if negb ((protocol =? 6) || (protocol =? 17)) then None
  else Some (biflow (FlowCtxKey protocol (field 34%nat 2%nat) (field 36%nat 2%nat)
                       (field 26%nat 4%nat) (field 30%nat 4%nat))).

Lemma flow_of_tuple d : flow_of d = biflow <$> tuple_of d.
Proof.
  unfold flow_of, tuple_of. cbv zeta. destruct (Z.ltb_spec (zlen d) 42), (Z.leb_spec 42 (zlen d)); try lia; [done|].
  cbn [andb]. destruct (bswap16 _ =? 0x0800); [|done]. cbn [negb andb]. now destruct (_ || _).
Qed.

Section behaviour.
Context {U : HashUpdate}.

Definition fw_step (t : flow_ctx_table) (ifindex : Z) (flow : option flow_ctx_table_key)
    : outcome * flow_ctx_table :=
  match flow with
  | None => (Verdict XDP_PASS, t)
  | Some k =>
      if ifindex =? B_PORT then
        (match t !! k with Some leaf => RedirectMap (out_port leaf) | None => Verdict XDP_PASS end, t)
      else (RedirectMap B_PORT,
            match t !! k with Some _ => t | None => hash_update t k (FlowCtxLeaf A_PORT B_PORT) end)
  end.

(** On any packet the program is [fw_step], and the packet is left as it is. *)
Lemma xdp_fw_step (s : xst flow_ctx_table) ifindex :
  let r := fw_step (x_env s) ifindex (flow_of (f_data (x_frame s))) in
  xdp_fw ifindex s = Some (r.1, Xst (x_frame s) r.2 (x_tick s)).
Proof.
  destruct s as [f t k]. set (d := f_data f). cbn [x_frame x_env x_tick]. fold d.
  change (runs (Xst f t k) (xdp_fw ifindex)
    (fw_step t ifindex (flow_of d)).1 (Xst f (fw_step t ifindex (flow_of d)).2 k)).
  unfold xdp_fw. cbv zeta. eapply runs_bind; [apply runs_data_len|].
  cbn [x_frame]. fold d. unfold flow_of. cbv zeta.
  assert (Hload : forall off n, 0 <= off -> off + Z.of_nat n <= zlen d ->
    slice off n (f_data f) = Some (take n (drop (Z.to_nat off) d))) by (intros; now apply slice_some).
  destruct (Z.ltb_spec (zlen d) 14).
  { destruct (Z.ltb_spec (zlen d) 42); [|lia]. apply runs_ret. }
  eapply runs_bind; [apply runs_load16, Hload; lia|]. cbv beta.
  change (Z.to_nat 12) with 12%nat.
  destruct (negb (bswap16 (le_join (take 2 (drop 12 d))) =? 2048)).
  { destruct (zlen d <? 42); apply runs_ret. }
  eapply runs_bind; [apply runs_data_len|]. cbn [x_frame]. fold d.
  destruct (Z.ltb_spec (zlen d) (14 + 20)).
  { destruct (Z.ltb_spec (zlen d) 42); [|lia]. apply runs_ret. }
  eapply runs_bind; [apply runs_load8, Hload; lia|]. cbv beta.
  change (Z.to_nat (14 + 9)) with 23%nat.
  destruct (negb _).
  { destruct (zlen d <? 42); apply runs_ret. }
  eapply runs_bind; [apply runs_data_len|]. cbn [x_frame]. fold d.
  destruct (Z.ltb_spec (zlen d) (14 + 20 + 8)).
  { destruct (Z.ltb_spec (zlen d) 42); [|lia]. apply runs_ret. }
  destruct (Z.ltb_spec (zlen d) 42); [lia|].
  do 2 (eapply runs_bind; [apply runs_load32, Hload; lia|]; cbv beta).
  do 2 (eapply runs_bind; [apply runs_load16, Hload; lia|]; cbv beta).
  change (Z.to_nat (14 + 12)) with 26%nat. change (Z.to_nat (14 + 16)) with 30%nat.
  change (Z.to_nat (14 + 20)) with 34%nat. change (Z.to_nat (14 + 20 + 2)) with 36%nat.
  set (key := biflow _). clearbody key.
  eapply runs_bind; [apply runs_asks|]. cbn [x_env fw_step].
  destruct (ifindex =? B_PORT); [destruct (t !! key); apply runs_ret|].
  destruct (t !! key) eqn:E.
  - apply runs_ret.
  - eapply runs_bind; [|apply runs_ret]. cbn. apply runs_modify.
Qed.

(** ** Sequences of packets *)

Context {UL : HashUpdateLaws U}.

(** The packet [p] opens the flow [k]. *)
Definition opens (k : flow_ctx_table_key) (p : Z * frame) : Prop :=
  p.1 <> B_PORT /\ flow_of (f_data p.2) = Some k.
#[local] Instance opens_dec k p : Decision (opens k p).
Proof. unfold opens. apply _. Defined.

(** A flow is opened by the packets from the inside that belong to it. *)
Lemma opens_from_inside k p : opens (biflow k) p <-> from_inside k p.
Proof.
  unfold opens, from_inside. rewrite flow_of_tuple. destruct (tuple_of (f_data p.2)) as [k'|]; cbn.
  - unfold same_flow. rewrite <- biflow_identifies. intuition congruence.
  - intuition discriminate.
Qed.

(** The table holds the flows that were opened, as long as there is room. *)
Definition tracks (t : flow_ctx_table) (ps : list (Z * frame)) : Prop :=
  (size t <= length ps)%nat /\
  forall k, t !! k = if decide (Exists (opens k) ps) then Some (FlowCtxLeaf A_PORT B_PORT) else None.

Lemma fw_step_tracks t ps ifindex f :
  tracks t ps -> (length ps < FLOW_TABLE_SIZE)%nat ->
  tracks (fw_step t ifindex (flow_of (f_data f))).2 (ps ++ [(ifindex, f)]).
Proof.
  intros [Hs Ht] Hl. unfold tracks. rewrite length_app. cbn [length].
  destruct (flow_of (f_data f)) as [k|] eqn:Hf; cbn [fw_step snd].
  2:{ split; [lia|]. intros k. rewrite Ht. apply decide_ext. rewrite Exists_app, Exists_cons, Exists_nil.
      unfold opens. cbn [fst snd]. rewrite Hf. intuition discriminate. }
  destruct (Z.eqb_spec ifindex B_PORT) as [->|Hne]; cbn [snd].
  { split; [lia|]. intros k'. rewrite Ht. apply decide_ext. rewrite Exists_app, Exists_cons, Exists_nil.
    unfold opens. cbn [fst snd]. intuition. }
  assert (Hnew : forall k', opens k' (ifindex, f) <-> k' = k).
  { intros k'. unfold opens. cbn [fst snd]. rewrite Hf. split; [now intros [_ [= ->]]|now intros ->]. }
  destruct (t !! k) as [leaf|] eqn:Hk.
  - split; [lia|]. intros k'. rewrite Ht. apply decide_ext.
    rewrite Exists_app, Exists_cons, Exists_nil, Hnew.
    enough (k' = k -> Exists (opens k') ps) by tauto. intros ->. rewrite Ht in Hk.
    now destruct (decide (Exists (opens k) ps)).
  - destruct (hash_update_spec t k (FlowCtxLeaf A_PORT B_PORT)) as [->|(_ & _ & Hfull)]; [|lia].
    unfold flow_ctx_table in *. split; [rewrite map_size_insert_None by done; lia|]. intros k'.
    destruct (decide (k' = k)) as [->|Hne'].
    + rewrite lookup_insert_eq, decide_True; [done|]. rewrite Exists_app, Exists_cons, Hnew. auto.
    + rewrite lookup_insert_ne, Ht by done. apply decide_ext.
      rewrite Exists_app, Exists_cons, Exists_nil, Hnew. tauto.
Qed.

Lemma fw_trace_app t ps p :
  fw_trace t (ps ++ [p]) =
  '(os, t1) ← fw_trace t ps;
  let r := fw_step t1 p.1 (flow_of (f_data p.2)) in Some (os ++ [r.1], r.2).
Proof.
  revert t. induction ps as [|[i f] ps IH]; intros t; cbn [fw_trace app].
  - destruct p as [i f]. pose proof (xdp_fw_step (Xst f t 0) i) as H. cbv zeta in H.
    cbn [x_frame x_env x_tick] in H. rewrite H. reflexivity.
  - pose proof (xdp_fw_step (Xst f t 0) i) as H. cbv zeta in H.
    cbn [x_frame x_env x_tick] in H. rewrite H. cbn [mbind option_bind x_env].
    rewrite IH. destruct (fw_trace _ ps) as [[os t1]|]; reflexivity.
Qed.

Lemma fw_trace_tracks ps :
  (length ps <= FLOW_TABLE_SIZE)%nat ->
  exists os t, fw_trace ∅ ps = Some (os, t) /\ length os = length ps /\ tracks t ps.
Proof.
  induction ps as [|[i f] ps IH] using rev_ind; intros Hl.
  - exists [], ∅. split; [done|]. split; [done|]. split; [done|]. intros k.
    rewrite decide_False by (now rewrite Exists_nil). apply lookup_empty.
  - rewrite length_app in *. cbn [length] in *. destruct IH as (os & t & E & Hos & Ht); [lia|].
    rewrite fw_trace_app, E. cbn [mbind option_bind fst snd].
    exists (os ++ [(fw_step t i (flow_of (f_data f))).1]), (fw_step t i (flow_of (f_data f))).2.
    split; [done|]. rewrite length_app. split; [cbn [length]; lia|].
    apply fw_step_tracks; [done|lia].
Qed.

(** From an empty table, after at most 1024 packets, a packet of a flow that comes in on the
    outer port is redirected to the inner port if and only if an earlier packet from the
    inside was of the same flow; otherwise it is passed to the local stack. *)
Lemma fw_admits_open_flows (ps : list (Z * frame)) (f : frame) (k : flow_ctx_table_key) :
  (length ps <= FLOW_TABLE_SIZE)%nat -> flow_of (f_data f) = Some k ->
  exists os t, fw_trace ∅ (ps ++ [(B_PORT, f)]) =
    Some (os ++ [if decide (Exists (opens k) ps) then RedirectMap A_PORT else Verdict XDP_PASS], t).
Proof.
  intros Hl Hf. destruct (fw_trace_tracks ps Hl) as (os & t & E & _ & _ & Ht).
  exists os, t. rewrite fw_trace_app, E. cbn [mbind option_bind fst snd]. rewrite Hf. cbn [fw_step].
  rewrite Z.eqb_refl. cbn [fst snd]. rewrite Ht. now destruct (decide (Exists (opens k) ps)).
Qed.
End behaviour.

(** A map that stores while there is room. *)
Definition bounded_update : HashUpdate := fun t k v =>
  if bool_decide (is_Some (t !! k)) || (size t <? FLOW_TABLE_SIZE)%nat then <[k := v]> t else t.
#[export] Instance bounded_update_laws : HashUpdateLaws bounded_update.
Proof.
  intros t k v. unfold hash_update, bounded_update. destruct (t !! k) eqn:E; [now left|].
  rewrite bool_decide_eq_false_2 by (intros [? [=]]). cbn [orb].
  destruct (Nat.ltb_spec (size t) FLOW_TABLE_SIZE); [now left|now right].
Qed.

(** A request from 10.0.0.1:1000 to 10.0.0.2:53 and the reply to it. *)
Definition fw_packet (sa da sp dp : Z) : frame :=
  Frame [] (repeat 0 12 ++ [8; 0] ++ [0x45; 0; 0; 28; 0; 0; 0; 0; 64; 17; 0; 0] ++ le_split 4 sa
    ++ le_split 4 da ++ le_split 2 sp ++ le_split 2 dp ++ [0; 8; 0; 0]) [].
Definition fw_request : frame := fw_packet 0x0100000a 0x0200000a 0xe803 0x3500.
Definition fw_reply : frame := fw_packet 0x0200000a 0x0100000a 0x3500 0xe803.

Example fw_replies :
  fst <$> @fw_trace bounded_update ∅ [(7, fw_reply); (6, fw_request); (7, fw_reply)]
  = Some [Verdict XDP_PASS; RedirectMap B_PORT; RedirectMap A_PORT].
Proof. reflexivity. Qed.
