(* ===== verification/XdpTunnel.v ===== *)
(** * The IPv4 tunnel (xdp_progs/xdp_tx_iptunnel.bpf.c)

    Packets for a configured address, port and protocol are encapsulated in an
    IPv4 packet towards the other end of a tunnel and sent back out. *)
From Stdlib Require Import ZArith Lia.
From stdpp Require Import base numbers list option gmap.
From S2P Require Import Prelude Xdp OnesComplement XdpRun.
#[local] Open Scope Z_scope.

(** ** Data *)

Definition AF_INET : Z := 2.
Definition IPPROTO_TCP : Z := 6.
Definition IPPROTO_UDP : Z := 17.

(** [daddr] is the union of addresses as four words.
    @src xdp_progs/xdp_tx_iptunnel_common.h 8-16 vip *)
Record vip := Vip { v_daddr : list Z; v_dport : Z; v_family : Z; v_protocol : Z }.
#[global] Instance vip_eq_dec : EqDecision vip.
Proof. solve_decision. Defined.
#[global] Instance vip_countable : Countable vip.
Proof.
  apply (inj_countable' (fun k => (v_daddr k, v_dport k, v_family k, v_protocol k))
    (fun '(a, p, f, r) => Vip a p f r)). now intros [].
Defined.

(** The first words of the addresses; the bytes of [dmac] as a number.
    @src xdp_progs/xdp_tx_iptunnel_common.h 18-29 iptnl_info *)
Record iptnl_info := IptnlInfo { t_saddr : Z; t_daddr : Z; t_family : Z; t_dmac : Z }.

(** [rxcnt] is per CPU.
    @src xdp_progs/xdp_tx_iptunnel.bpf.c 22-34 rxcnt *)
Record tnl_maps := TnlMaps { rxcnt : gmap Z Z; vip2tnl : gmap vip iptnl_info }.

(** ** The code *)

(** @src xdp_progs/xdp_tx_iptunnel.bpf.c 36-43 count_tx *)
Definition count_tx (protocol : Z) : xdp tnl_maps unit :=
  when ((0 <=? protocol) && (protocol <? 256))
    (modify (fun m => TnlMaps (<[protocol := u64 (default 0 (rxcnt m !! protocol) + 1)]> (rxcnt m)) (vip2tnl m))).

(** @src xdp_progs/xdp_tx_iptunnel.bpf.c 45-65 get_dport *)
Definition get_dport (trans_data protocol : Z) : xdp tnl_maps Z :=
  if protocol =? IPPROTO_TCP then
    need (trans_data + 20) else (-1) ;;
    load16 (trans_data + 2)
  else if protocol =? IPPROTO_UDP then
    need (trans_data + 8) else (-1) ;;
    load16 (trans_data + 2)
  else mret 0.

(** @src xdp_progs/xdp_tx_iptunnel.bpf.c 67-75 set_ethhdr *)
Definition set_ethhdr (new_eth old_eth : Z) (tnl : iptnl_info) (h_proto : Z) : xdp tnl_maps unit :=
  move (new_eth + 6) old_eth 6 ;;
  store new_eth (le_split 6 (t_dmac tnl)) ;;
  store16 (new_eth + 12) h_proto.

(** The unrolled loop over the words of the header; [n] are left.
    @src xdp_progs/xdp_tx_iptunnel.bpf.c 141-144 handle_ipv4 *)
Fixpoint sum_words (n : nat) (off csum : Z) : xdp tnl_maps Z :=
  match n with
  | O => mret csum
  | S n => w ← load16 off; sum_words n (off + 2) (u32 (csum + w))
  end.

Section program.
Context {H : XdpHelpers}.

(** The part after the lookup.  The header is written field by field, except the
    identification.
    @src xdp_progs/xdp_tx_iptunnel.bpf.c 113-150 handle_ipv4 *)
Definition add_header (tnl : iptnl_info) (payload_len protocol : Z) : xdp tnl_maps Z :=
  ret ← adjust_head (0 - 20);
  if nz ret then mret XDP_DROP else
  let new_eth := 0 in
  let iph := 14 in
  let old_eth := 20 in
  need (new_eth + 14) else XDP_DROP ;;
  need (old_eth + 14) else XDP_DROP ;;
  need (iph + 20) else XDP_DROP ;;
  set_ethhdr new_eth old_eth tnl (bswap16 0x0800) ;;
  b ← load8 iph; store8 iph (Z.lor (Z.land b 0x0f) (Z.shiftl 4 4)) ;;
  b ← load8 iph; store8 iph (Z.lor (Z.land b 0xf0) 5) ;;
  store16 (iph + 6) 0 ;;
  store8 (iph + 9) 4 ;;
  store16 (iph + 10) 0 ;;
  store8 (iph + 1) 0 ;;
  store16 (iph + 2) (bswap16 (u16 (payload_len + 20))) ;;
  store32 (iph + 16) (t_daddr tnl) ;;
  store32 (iph + 12) (t_saddr tnl) ;;
  store8 (iph + 8) 8 ;;
  csum ← sum_words 10 iph 0;
  store16 (iph + 10) (u16 (Z.lnot (Z.land csum 0xffff + Z.shiftr csum 16))) ;;
  count_tx protocol ;;
  mret XDP_TX.

(** @src xdp_progs/xdp_tx_iptunnel.bpf.c 77-151 handle_ipv4 *)
Definition handle_ipv4 : xdp tnl_maps Z :=
  let iph := 14 in
  need (iph + 20) else XDP_DROP ;;
  protocol ← load8 (iph + 9);
  dport ← get_dport (iph + 20) protocol;
  if dport =? -1 then mret XDP_DROP else
  daddr ← load32 (iph + 16);
  let key := Vip [daddr; 0; 0; 0] (u16 dport) AF_INET protocol in
  tot_len ← load16 (iph + 2);
  let payload_len := bswap16 tot_len in
  tnl ← asks (fun m => vip2tnl m !! key);
  match tnl with
  | None => mret XDP_PASS
  | Some tnl =>
      if negb (t_family tnl =? AF_INET) then mret XDP_PASS else
      add_header tnl payload_len protocol
  end.

(** @src xdp_progs/xdp_tx_iptunnel.bpf.c 215-236 xdp_pass *)
Definition xdp_tx_iptunnel : xdp tnl_maps Z :=
  need 14 else XDP_DROP ;;
  h_proto ← load16 12;
  if h_proto =? bswap16 0x0800 then handle_ipv4 else mret XDP_PASS.
End program.

(** ** The outer header *)

(** The sum of the loop is the sum of the words. *)
Lemma sum_words_runs (s : xst tnl_maps) n off csum bs :
  slice off (2 * n) (f_data (x_frame s)) = Some bs -> bytes_ok bs ->
  0 <= csum -> csum + 65535 * Z.of_nat n < 4294967296 ->
  runs s (sum_words n off csum) (csum + sum16 bs) s.
Proof.
  revert off csum bs. induction n as [|n IH]; intros off csum bs Hs Hb H0 H1.
  - apply slice_inv in Hs as (_ & _ & Hl & _). destruct bs; [|discriminate Hl].
    rewrite Z.add_0_r. apply runs_ret.
  - apply slice_inv in Hs as (Hoff & [Hz|Hlen] & Hl & Ht); [lia|].
    destruct bs as [|a [|b bs]]; [simpl in Hl; lia..|]. rewrite !bytes_ok_cons in Hb.
    destruct Hb as (Ha & Hbb & Hb). unfold is_u8 in *.
    assert (Hd : drop (Z.to_nat off) (f_data (x_frame s)) =
      a :: b :: drop (Z.to_nat (off + 2)) (f_data (x_frame s))).
    { replace (Z.to_nat (off + 2)) with (Z.to_nat off + 2)%nat by lia. rewrite <- drop_drop.
      destruct (drop (Z.to_nat off) (f_data (x_frame s))) as [|a' [|b' d]];
        replace (2 * S n)%nat with (S (S (2 * n))) in Ht by lia; cbn [take drop] in *; [discriminate..|].
      injection Ht as -> -> _. reflexivity. }
    cbn [sum_words]. eapply runs_bind.
    { apply (runs_load16 s off [a; b]). rewrite slice_some by lia. now rewrite Hd. }
    cbv beta. cbn [le_join]. rewrite u32_id by (unfold is_u32; lia).
    eapply runs_val; [apply (IH (off + 2) _ bs)|cbn [sum16]; lia].
    + rewrite slice_some by lia. rewrite Hd in Ht.
      replace (2 * S n)%nat with (S (S (2 * n))) in Ht by lia. cbn [take] in Ht. congruence.
    + done.
    + lia.
    + lia.
Qed.

(** The header, with the identification [id] and the checksum [check]. *)
Definition tnl_header (tot_len : Z) (id : list Z) (check saddr daddr : Z) : list Z :=
  [0x45; 0] ++ le_split 2 (bswap16 tot_len) ++ id ++ [0; 0; 8; 4]
  ++ le_split 2 check ++ le_split 4 saddr ++ le_split 4 daddr.
Definition tnl_sum (tot_len : Z) (id : list Z) (saddr daddr : Z) : Z :=
  sum16 (tnl_header tot_len id 0 saddr daddr).

Lemma tnl_header_ok tot_len id check sa da :
  bytes_ok id -> bytes_ok (tnl_header tot_len id check sa da).
Proof.
  intros Hid. unfold tnl_header. rewrite !bytes_ok_app. repeat split; auto using le_split_ok.
  - apply bytes_ok_check. reflexivity.
  - apply bytes_ok_check. reflexivity.
Qed.

Lemma tnl_header_sum tot_len id check sa da :
  length id = 2%nat -> 0 <= check <= 65535 ->
  sum16 (tnl_header tot_len id check sa da) = tnl_sum tot_len id sa da + check.
Proof.
  intros Hid Hc. explode id Hid. unfold tnl_sum, tnl_header.
  cbn [app le_split sum16]. zlia.
Qed.

Lemma tnl_sum_bound tot_len id sa da :
  length id = 2%nat -> bytes_ok id -> 0 < tnl_sum tot_len id sa da <= 655350.
Proof.
  intros Hl Hid. pose proof (tnl_header_ok tot_len id 0 sa da Hid) as Hok.
  pose proof (sum16_bound _ Hok) as Hb. pose proof (sum16_nonneg _ Hok).
  assert (length (tnl_header tot_len id 0 sa da) = 20%nat) as E.
  { unfold tnl_header. now rewrite !length_app, !length_le_split, Hl. }
  rewrite E in Hb. change ((Z.of_nat 20 + 1) / 2) with 10 in Hb. unfold tnl_sum.
  split; [|lia]. destruct (decide (sum16 (tnl_header tot_len id 0 sa da) = 0)) as [Hz|]; [|lia].
  apply sum16_zero in Hz; [|done]. inversion Hz. lia.
Qed.

(** The stored checksum is right unless the fold of the sum carries. *)
Lemma tnl_header_checks tot_len id sa da :
  length id = 2%nat -> bytes_ok id ->
  csum_ok (tnl_header tot_len id (one_fold_check (tnl_sum tot_len id sa da)) sa da)
  <-> fold16 (tnl_sum tot_len id sa da) <= 65535.
Proof.
  intros Hl Hid. pose proof (tnl_sum_bound tot_len id sa da Hl Hid) as Hb.
  pose proof (one_fold_check_range (tnl_sum tot_len id sa da)) as Hr.
  unfold csum_ok. rewrite tnl_header_sum by done.
  rewrite <- (one_fold_checks (tnl_sum tot_len id sa da) (tnl_sum tot_len id sa da));
    [|apply rep_refl; lia|unfold is_u32; lia|lia].
  intuition lia.
Qed.

(** ** What the program computes *)

Definition dport_of (protocol : Z) (l4 : list Z) : Z :=
  if (protocol =? IPPROTO_TCP) || (protocol =? IPPROTO_UDP) then le_join (take 2 (drop 2 l4)) else 0.
Definition tnl_key (iph l4 : list Z) : vip :=
  let protocol := nth 9 iph 0 in
  Vip [le_join (drop 16 iph); 0; 0; 0] (dport_of protocol l4) AF_INET protocol.
Definition counted (protocol : Z) (m : tnl_maps) : tnl_maps :=
  TnlMaps (<[protocol := u64 (default 0 (rxcnt m !! protocol) + 1)]> (rxcnt m)) (vip2tnl m).

Lemma dport_of_range protocol l4 : bytes_ok l4 -> is_u16 (dport_of protocol l4).
Proof.
  intros Hb. unfold dport_of. destruct (_ || _); [|done].
  assert (Hok : bytes_ok (take 2 (drop 2 l4))) by (now apply Forall_take, Forall_drop).
  apply le_join_range in Hok. rewrite length_take in Hok. unfold is_u16.
  assert (256 ^ Z.of_nat (2 `min` length (drop 2 l4)) <= 256 ^ 2) by (apply Z.pow_le_mono_r; lia). lia.
Qed.

Section correct.
Context {H : XdpHelpers} {HL : XdpHelperLaws H}.
Context (s : xst tnl_maps) (eth iph l4 : list Z).
Context (Hd : f_data (x_frame s) = eth ++ iph ++ l4) (He : length eth = 14%nat) (Hi : length iph = 20%nat).
Context (Hp : is_u8 (nth 9 iph 0)) (Hb : bytes_ok l4).
Context (Htcp : nth 9 iph 0 = IPPROTO_TCP -> 20 <= zlen l4).
Context (Hudp : nth 9 iph 0 = IPPROTO_UDP -> 8 <= zlen l4).

Lemma tnl_len : zlen (f_data (x_frame s)) = 34 + zlen l4.
Proof. rewrite Hd, !zlen_app. unfold zlen. lia. Qed.
Lemma tnl_iph_slice k n : 0 <= k -> (Z.to_nat k + n <= 20)%nat ->
  slice (14 + k) n (f_data (x_frame s)) = Some (take n (drop (Z.to_nat k) iph)).
Proof.
  intros Hk Hn. rewrite Hd, slice_at_plus by (unfold zlen; lia).
  rewrite slice_some by (unfold zlen; rewrite ?length_app; lia).
  rewrite drop_app_le by lia. rewrite take_app_le by (rewrite length_drop; lia). done.
Qed.

Lemma get_dport_runs :
  runs s (get_dport 34 (nth 9 iph 0)) (dport_of (nth 9 iph 0) l4) s.
Proof.
  pose proof tnl_len as Hlen. unfold get_dport, dport_of.
  assert (Hload : 8 <= zlen l4 -> runs s (load16 (34 + 2)) (le_join (take 2 (drop 2 l4))) s).
  { intros H8. apply runs_load16. rewrite Hd, app_assoc, slice_at_plus by (unfold zlen; rewrite ?length_app; lia).
    now rewrite slice_some by lia. }
  destruct (Z.eqb_spec (nth 9 iph 0) IPPROTO_TCP) as [E|].
  { specialize (Htcp E). apply run_need; [lia|]. apply Hload. lia. }
  destruct (Z.eqb_spec (nth 9 iph 0) IPPROTO_UDP) as [E|]; [|apply runs_ret].
  specialize (Hudp E). apply run_need; [lia|]. apply Hload. lia.
Qed.

End correct.

(** From the new header on, on the packet with 20 more bytes in front. *)
Lemma add_header_runs {H : XdpHelpers} {HL : XdpHelperLaws H} (s : xst tnl_maps) eth inner tnl payload_len protocol :
  f_data (x_frame s) = eth ++ inner -> length eth = 14%nat ->
  0 <= protocol < 256 -> frame_ok (x_frame s) -> (h_adjust_head (x_frame s) (-20)).1 = 0 ->
  let head := f_head (x_frame s) in
  let id := take 2 (drop (length head - 2) head) in
  let n := u16 (payload_len + 20) in
  let hdr := tnl_header n id (one_fold_check (tnl_sum n id (t_saddr tnl) (t_daddr tnl)))
               (t_saddr tnl) (t_daddr tnl) in
  runs s (add_header tnl payload_len protocol) XDP_TX
    (Xst (Frame (take (length head - 20) head)
                (le_split 6 (t_dmac tnl) ++ take 6 eth ++ [8; 0] ++ hdr ++ inner)
                (f_tail (x_frame s))) (counted protocol (x_env s)) (x_tick s)).
Proof.
  intros Hd He Hpr Hok Hr head id n hdr. 
  destruct (runs_adjust_head_done s (-20) Hr) as (Hrun & Hroom & _).
  destruct (granted_head s 20) as (junk & Hj & Hshift); [lia|].
  change (- Z.of_nat 20) with (-20) in Hshift. rewrite Hshift, Hd in Hrun. 
  assert (Hid : id = drop 18 junk /\ bytes_ok id).
  { unfold shift_head in Hshift. change (0 <=? -20) with false in Hshift. cbv iota in Hshift.
    injection Hshift as Hjk. change (Z.to_nat (- (-20))) with 20%nat in Hjk. apply app_inv_tail in Hjk.
    fold head in Hjk. unfold zlen in Hroom. fold head in Hroom.
    split; [|unfold id; apply Forall_take, Forall_drop, Hok].
    unfold id. rewrite <- Hjk, drop_drop, take_ge by (rewrite length_drop; lia). f_equal. lia. }
  clearbody id. destruct Hid as [-> Hido]. fold head in Hrun. clearbody head. clear Hshift Hroom Hr.
  unfold add_header. cbv zeta. eapply runs_bind; [exact Hrun|]. clear Hrun.
  change (nz 0) with false. cbv iota.
  generalize (take (length head - 20) head) as hd. intros hd.
  explode junk Hj. explode eth He. cbn [drop] in *. cbn [app take].
  do 3 (eapply runs_bind; [apply runs_data_len|]; cbv beta; xneed).
  unfold set_ethhdr. eapply runs_bind; [xrun|]. cbv beta.
  do 12 (eapply runs_bind; [xstep|]; cbv beta).
  eapply runs_bind.
  { apply (sum_words_runs _ 10 14 0 (tnl_header n [z17; z18] 0 (t_saddr tnl) (t_daddr tnl))); [|now apply tnl_header_ok|lia|lia].
    cbn [x_frame f_data]. rewrite version_ihl. reflexivity. }
  cbv beta. fold (tnl_sum n [z17; z18] (t_saddr tnl) (t_daddr tnl)). rewrite Z.add_0_l.
  eapply runs_bind; [xstep|]. cbv beta.
  eapply runs_bind.
  { unfold count_tx, when. rewrite (proj2 (Z.leb_le _ _)), (proj2 (Z.ltb_lt _ _)) by lia. apply runs_modify. }
  eapply runs_eq; [apply runs_ret|]. rewrite version_ihl. reflexivity.
Qed.

(** The IPv4 part up to the lookup: it goes on as the table says. *)
Lemma tunnel_lookup_runs {H : XdpHelpers} (s : xst tnl_maps) (eth iph l4 : list Z) v s' :
  f_data (x_frame s) = eth ++ iph ++ l4 -> length eth = 14%nat -> length iph = 20%nat ->
  frame_ok (x_frame s) ->
  (nth 9 iph 0 = IPPROTO_TCP -> 20 <= zlen l4) -> (nth 9 iph 0 = IPPROTO_UDP -> 8 <= zlen l4) ->
  runs s match vip2tnl (x_env s) !! tnl_key iph l4 with
         | None => mret XDP_PASS
         | Some tnl =>
             if negb (t_family tnl =? AF_INET) then mret XDP_PASS
             else add_header tnl (bswap16 (le_join (take 2 (drop 2 iph)))) (nth 9 iph 0)
         end v s' ->
  runs s handle_ipv4 v s'.
Proof.
  intros Hd He Hi Hok Htcp Hudp Hrest.
  pose proof (tnl_len s eth iph l4 Hd He Hi) as Hlen. pose proof (zlen_nonneg l4).
  pose proof (tnl_iph_slice s eth iph l4 Hd He Hi) as Hsl.
  destruct Hok as (Hhd & Hdata & Htl). pose proof Hdata as Hparts. rewrite Hd, !bytes_ok_app in Hparts.
  destruct Hparts as (_ & Hbi & Hb4).
  unfold handle_ipv4. cbv zeta. apply run_need; [lia|].
  eapply runs_bind; [eapply runs_val; [eapply runs_load8, (Hsl 9 1%nat); lia|]|].
  { apply (le_join_nth 9). lia. }
  cbv beta. eapply runs_bind; [now apply (get_dport_runs s eth iph l4)|]. cbv beta.
  pose proof (dport_of_range (nth 9 iph 0) l4 Hb4) as Hdp.
  destruct (Z.eqb_spec (dport_of (nth 9 iph 0) l4) (-1)); [unfold is_u16 in Hdp; lia|].
  eapply runs_bind; [eapply runs_load32, (Hsl 16 4%nat); lia|]. cbv beta zeta.
  eapply runs_bind; [eapply runs_load16, (Hsl 2 2%nat); lia|]. cbv beta zeta.
  eapply runs_bind; [apply runs_asks|]. cbv beta.
  change (Z.to_nat 16) with 16%nat. rewrite (take_ge (drop 16 iph)) by (rewrite length_drop; lia).
  rewrite (u16_id _ Hdp). exact Hrest.
Qed.

(** Packets that end too early, and those that are not IPv4. *)
Definition cut_transport (protocol : Z) (l4 : list Z) : bool :=
  ((protocol =? IPPROTO_TCP) && (zlen l4 <? 20)) || ((protocol =? IPPROTO_UDP) && (zlen l4 <? 8)).

Lemma tunnel_no_ethernet {H : XdpHelpers} (s : xst tnl_maps) :
  zlen (f_data (x_frame s)) < 14 -> runs s xdp_tx_iptunnel XDP_DROP s.
Proof.
  intros Hl. unfold xdp_tx_iptunnel. eapply runs_bind; [apply runs_data_len|]. cbv beta.
  rewrite (proj2 (Z.ltb_lt _ _)) by exact Hl. apply runs_ret.
Qed.
Lemma tunnel_ethernet {H : XdpHelpers} (s : xst tnl_maps) eth rest v s' :
  f_data (x_frame s) = eth ++ rest -> length eth = 14%nat -> bytes_ok eth ->
  (if decide (drop 12 eth = [8; 0]) then runs s handle_ipv4 v s' else v = XDP_PASS /\ s' = s) ->
  runs s xdp_tx_iptunnel v s'.
Proof.
  intros Hd He Hb Hrest. pose proof (zlen_nonneg rest).
  unfold xdp_tx_iptunnel. apply run_need; [rewrite Hd, zlen_app; unfold zlen; lia|].
  eapply runs_bind; [apply (runs_load16 s 12 (drop 12 eth))|].
  { rewrite Hd. clear -He. explode eth He. reflexivity. }
  cbv beta. destruct (decide (drop 12 eth = [8; 0])) as [->|Hne]; [exact Hrest|].
  destruct Hrest as [-> ->]. destruct (Z.eqb_spec (le_join (drop 12 eth)) (bswap16 2048)) as [E|]; [|apply runs_ret].
  exfalso. apply Hne. clear -He Hb E. explode eth He. cbn [drop] in *. rewrite !bytes_ok_cons in Hb. unfold is_u8 in Hb.
  change (bswap16 2048) with 8 in E. cbn [le_join] in E. f_equal; [lia|f_equal; lia].
Qed.
Lemma tunnel_no_header {H : XdpHelpers} (s : xst tnl_maps) :
  zlen (f_data (x_frame s)) < 34 -> runs s handle_ipv4 XDP_DROP s.
Proof.
  intros Hl. unfold handle_ipv4. cbv zeta. eapply runs_bind; [apply runs_data_len|]. cbv beta.
  rewrite (proj2 (Z.ltb_lt _ _)) by exact Hl. apply runs_ret.
Qed.
Lemma tunnel_cut_transport {H : XdpHelpers} (s : xst tnl_maps) eth iph l4 :
  f_data (x_frame s) = eth ++ iph ++ l4 -> length eth = 14%nat -> length iph = 20%nat ->
  cut_transport (nth 9 iph 0) l4 = true -> runs s handle_ipv4 XDP_DROP s.
Proof.
  intros Hd He Hi Hcut. pose proof (tnl_len s eth iph l4 Hd He Hi) as Hlen. pose proof (zlen_nonneg l4).
  unfold handle_ipv4. cbv zeta. apply run_need; [lia|].
  eapply runs_bind; [eapply runs_val; [eapply runs_load8, (tnl_iph_slice s eth iph l4 Hd He Hi 9 1%nat); lia|]|].
  { apply (le_join_nth 9). lia. }
  cbv beta. enough (runs s (get_dport (14 + 20) (nth 9 iph 0)) (-1) s) as Hg.
  { eapply runs_bind; [exact Hg|]. cbv beta. change (-1 =? -1) with true. apply runs_ret. }
  change (14 + 20) with 34. unfold get_dport, cut_transport in *.
  destruct (nth 9 iph 0 =? IPPROTO_TCP) eqn:Et; cbn [andb orb] in Hcut.
  - apply Z.eqb_eq in Et. rewrite Et in Hcut. change (IPPROTO_TCP =? IPPROTO_UDP) with false in Hcut.
    cbn [andb] in Hcut. rewrite orb_false_r in Hcut. apply Z.ltb_lt in Hcut.
    eapply runs_bind; [apply runs_data_len|]. cbv beta. rewrite (proj2 (Z.ltb_lt _ _)) by lia. apply runs_ret.
  - destruct (nth 9 iph 0 =? IPPROTO_UDP); [|discriminate Hcut]. apply Z.ltb_lt in Hcut.
    eapply runs_bind; [apply runs_data_len|]. cbv beta. rewrite (proj2 (Z.ltb_lt _ _)) by lia. apply runs_ret.
Qed.
(** Without room for the outer header the packet is dropped as it is. *)
Lemma tunnel_no_room {H : XdpHelpers} {HL : XdpHelperLaws H} (s : xst tnl_maps) tnl n protocol :
  (h_adjust_head (x_frame s) (-20)).1 <> 0 -> runs s (add_header tnl n protocol) XDP_DROP s.
Proof.
  intros Hr. unfold add_header. change (0 - 20) with (-20).
  eapply runs_bind; [apply runs_adjust_head_fail; exact Hr|]. cbv beta.
  rewrite (proj2 (nz_true _) Hr). apply runs_ret.
Qed.

(** The packet that is sent for one that is found in the table. *)
Definition encapsulated (s : xst tnl_maps) (tnl : iptnl_info) (eth iph l4 : list Z) : xst tnl_maps :=
  let head := f_head (x_frame s) in
  let id := take 2 (drop (length head - 2) head) in
  let n := u16 (bswap16 (le_join (take 2 (drop 2 iph))) + 20) in
  let sum := tnl_sum n id (t_saddr tnl) (t_daddr tnl) in
  let hdr := tnl_header n id (one_fold_check sum) (t_saddr tnl) (t_daddr tnl) in
  Xst (Frame (take (length head - 20) head)
             (le_split 6 (t_dmac tnl) ++ take 6 eth ++ [8; 0] ++ hdr ++ iph ++ l4)
             (f_tail (x_frame s))) (counted (nth 9 iph 0) (x_env s)) (x_tick s).

Lemma tunnel_found_runs {H : XdpHelpers} {HL : XdpHelperLaws H} (s : xst tnl_maps) (eth iph l4 : list Z) tnl :
  f_data (x_frame s) = eth ++ iph ++ l4 -> length eth = 14%nat -> length iph = 20%nat ->
  frame_ok (x_frame s) -> drop 12 eth = [8; 0] ->
  (nth 9 iph 0 = IPPROTO_TCP -> 20 <= zlen l4) -> (nth 9 iph 0 = IPPROTO_UDP -> 8 <= zlen l4) ->
  vip2tnl (x_env s) !! tnl_key iph l4 = Some tnl -> t_family tnl = AF_INET ->
  (h_adjust_head (x_frame s) (-20)).1 = 0 ->
  runs s xdp_tx_iptunnel XDP_TX (encapsulated s tnl eth iph l4).
Proof.
  intros Hd He Hi Hok Hproto Htcp Hudp Hlook Hfam Hr.
  apply (tunnel_ethernet s eth (iph ++ l4)); [done|done| |].
  { destruct Hok as (_ & Hb & _). rewrite Hd, bytes_ok_app in Hb. apply Hb. }
  rewrite decide_True by done. apply (tunnel_lookup_runs s eth iph l4); [done..|]. rewrite Hlook, Hfam.
  change (negb (AF_INET =? AF_INET)) with false. cbv iota.
  assert (Hp : is_u8 (nth 9 iph 0)).
  { destruct Hok as (_ & Hb & _). rewrite Hd, !bytes_ok_app in Hb. destruct Hb as (_ & Hbi & _).
    unfold bytes_ok in Hbi. rewrite Forall_nth in Hbi. apply Hbi. lia. }
  apply add_header_runs; [done|done|exact Hp|done|done].
Qed.

(** a packet for a configured address, port and protocol is sent out inside an
    IPv4 packet between the ends of the tunnel, with the inner packet unchanged.
    The outer header has the inner length plus 20, the identification that two
    bytes of the headroom happen to hold, and a checksum that is valid if and only
    if folding the sum of its words once does not carry. *)
Lemma tunnel_v4_correct {H : XdpHelpers} {HL : XdpHelperLaws H} (s : xst tnl_maps) (eth iph l4 : list Z) tnl :
  f_data (x_frame s) = eth ++ iph ++ l4 -> length eth = 14%nat -> length iph = 20%nat ->
  frame_ok (x_frame s) -> drop 12 eth = [8; 0] ->
  (nth 9 iph 0 = IPPROTO_TCP -> 20 <= zlen l4) -> (nth 9 iph 0 = IPPROTO_UDP -> 8 <= zlen l4) ->
  vip2tnl (x_env s) !! tnl_key iph l4 = Some tnl -> t_family tnl = AF_INET ->
  (h_adjust_head (x_frame s) (-20)).1 = 0 ->
  let head := f_head (x_frame s) in
  let id := take 2 (drop (length head - 2) head) in
  let n := u16 (bswap16 (le_join (take 2 (drop 2 iph))) + 20) in
  let sum := tnl_sum n id (t_saddr tnl) (t_daddr tnl) in
  let hdr := tnl_header n id (one_fold_check sum) (t_saddr tnl) (t_daddr tnl) in
  runs s xdp_tx_iptunnel XDP_TX
    (Xst (Frame (take (length head - 20) head)
                (le_split 6 (t_dmac tnl) ++ take 6 eth ++ [8; 0] ++ hdr ++ iph ++ l4)
                (f_tail (x_frame s))) (counted (nth 9 iph 0) (x_env s)) (x_tick s))
  /\ (csum_ok hdr <-> fold16 sum <= 65535).
Proof.
  intros Hd He Hi Hok Hproto Htcp Hudp Hlook Hfam Hr head id n sum hdr.
  destruct (runs_adjust_head_done s (-20) Hr) as (_ & Hroom & _).
  assert (Hid : length id = 2%nat /\ bytes_ok id).
  { unfold id. fold head in Hroom. unfold zlen in Hroom. rewrite length_take, length_drop.
    split; [lia|]. apply Forall_take, Forall_drop, Hok. }
  split; [|now apply tnl_header_checks]. now apply tunnel_found_runs.
Qed.

(** ** Safety *)

Lemma sum_words_fits n L off csum (Q : Z -> Z -> Prop) :
  0 <= off -> off + 2 * Z.of_nat n <= L -> (forall c, Q c L) -> fits L (sum_words n off csum) Q.
Proof.
  revert off csum. induction n as [|n IH]; intros off csum H0 H1 HQ; cbn [sum_words]; fits_auto; [apply HQ|].
  apply IH; [lia|lia|done].
Qed.

Definition tnl_verdict (v : Z) : Prop := v = XDP_DROP \/ v = XDP_PASS \/ v = XDP_TX.

Lemma add_header_fits {H : XdpHelpers} {HL : XdpHelperLaws H} L tnl n p :
  fits L (add_header tnl n p) (fun v _ => tnl_verdict v).
Proof.
  unfold add_header, set_ethhdr, count_tx, tnl_verdict. fits_auto; auto; try apply le_split_ok.
  apply sum_words_fits; [lia|lia|]. intros c. fits_auto; auto.
Qed.

(** Whatever the packet, the maps and the helpers, the tunnel program stays inside
    the packet and returns drop, pass or transmit. *)
Lemma tunnel_safe {H : XdpHelpers} {HL : XdpHelperLaws H} (s : xst tnl_maps) :
  frame_ok (x_frame s) ->
  exists v s', xdp_tx_iptunnel s = Some (v, s') /\ tnl_verdict v /\ frame_ok (x_frame s').
Proof.
  intros Hs. assert (Hf : forall L, fits L xdp_tx_iptunnel (fun v _ => tnl_verdict v)).
  { intros L. unfold xdp_tx_iptunnel, handle_ipv4, get_dport, tnl_verdict.
    fits_auto; auto; eapply fits_weaken; try apply add_header_fits; auto. }
  specialize (Hf _ s Hs eq_refl).
  destruct (xdp_tx_iptunnel s) as [[v s']|]; [|done]. destruct Hf. eauto 10.
Qed.
