(* ===== verification/XdpAdjustTail.v ===== *)
(** * Packet too big (xdp_progs/xdp_adjust_tail.bpf.c)

    IPv4 packets longer than a limit, which is 128 bytes unless the loader sets another one,
    are answered with an ICMP "fragmentation needed" message that carries the packet.  The version of the repository asks
    [bpf_xdp_adjust_tail] for a change of 0 bytes, so the packet is not cut. *)
From Stdlib Require Import ZArith Lia.
From stdpp Require Import base numbers list option gmap.
From S2P Require Import Prelude Xdp OnesComplement XdpRun.
#[local] Open Scope Z_scope.

(** ** The code *)

(** The limit as it is in the object file.
    @src xdp_progs/xdp_adjust_tail.bpf.c 35-35 MAX_PCKT_SIZE *)
Definition MAX_PCKT_SIZE : Z := 128.
Definition ICMP_TOOBIG_SIZE : Z := 98.
(** @src xdp_progs/xdp_adjust_tail.bpf.c 35-37 ICMP_TOOBIG_PAYLOAD_SIZE *)
Definition ICMP_TOOBIG_PAYLOAD_SIZE : Z := 92.

(** The array of one counter, and the variable that the loader can write.
    @src xdp_progs/xdp_adjust_tail.bpf.c 48-55 icmpcnt *)
Record icmp_maps := IcmpMaps { icmpcnt : Z; max_pcktsz : Z }.
(** @src xdp_progs/xdp_adjust_tail.bpf.c 57-65 count_icmp *)
Definition count_icmp : xdp icmp_maps unit := modify (fun m => IcmpMaps (u64 (icmpcnt m + 1)) (max_pcktsz m)).

(** @src xdp_progs/xdp_adjust_tail.bpf.c 67-75 swap_mac *)
Definition swap_mac (data orig_eth : Z) : xdp icmp_maps unit :=
  move (data + 6) orig_eth 6 ;;
  move data (orig_eth + 6) 6 ;;
  move (data + 12) (orig_eth + 12) 2.

(** @src xdp_progs/xdp_adjust_tail.bpf.c 77-80 csum_fold_helper *)
Definition csum_fold_helper (csum : Z) : Z := u16 (Z.lnot (Z.land csum 0xffff + Z.shiftr csum 16)).

Section program.
Context {H : XdpHelpers}.

(** [*csum] before and after.
    @src xdp_progs/xdp_adjust_tail.bpf.c 82-87 ipv4_csum *)
Definition ipv4_csum (data_start : Z) (data_size : nat) (csum : Z) : xdp icmp_maps Z :=
  bs ← load data_size data_start;
  mret (csum_fold_helper (u32 (h_csum_diff [] bs csum))).

(** The identification and fragment fields of the IPv4 header and the unused
    field of the ICMP header are not written.
    @src xdp_progs/xdp_adjust_tail.bpf.c 89-144 send_icmp4_too_big *)
Definition send_icmp4_too_big : xdp icmp_maps Z :=
  let headroom := 20 + 8 in
  ret ← adjust_head (0 - headroom);
  if nz ret then mret XDP_DROP else
  need (ICMP_TOOBIG_SIZE + headroom) else XDP_DROP ;;
  let orig_eth := headroom in
  swap_mac 0 orig_eth ;;
  let iph := 14 in
  let icmp_hdr := 14 + 20 in
  let orig_iph := 14 + 20 + 8 in
  store8 icmp_hdr 3 ;;
  store8 (icmp_hdr + 1) 4 ;;
  limit ← asks max_pcktsz;
  store16 (icmp_hdr + 6) (bswap16 (u16 (limit - 14))) ;;
  store16 (icmp_hdr + 2) 0 ;;
  csum ← ipv4_csum icmp_hdr (Z.to_nat ICMP_TOOBIG_PAYLOAD_SIZE) 0;
  store16 (icmp_hdr + 2) csum ;;
  store8 (iph + 8) 64 ;;
  move (iph + 16) (orig_iph + 12) 4 ;;
  move (iph + 12) (orig_iph + 16) 4 ;;
  b ← load8 iph; store8 iph (Z.lor (Z.land b 0x0f) (Z.shiftl 4 4)) ;;
  b ← load8 iph; store8 iph (Z.lor (Z.land b 0xf0) 5) ;;
  store8 (iph + 9) 1 ;;
  store8 (iph + 1) 0 ;;
  store16 (iph + 2) (bswap16 (u16 (ICMP_TOOBIG_SIZE + headroom - 14))) ;;
  store16 (iph + 10) 0 ;;
  csum ← ipv4_csum iph 20 0;
  store16 (iph + 10) csum ;;
  count_icmp ;;
  mret XDP_TX.

(** @src xdp_progs/xdp_adjust_tail.bpf.c 147-162 handle_ipv4 *)
Definition handle_ipv4 : xdp icmp_maps Z :=
  pckt_size ← data_len;
  limit ← asks max_pcktsz;
  if Z.max limit ICMP_TOOBIG_SIZE <? pckt_size then
    ret ← adjust_tail 0;
    if nz ret then mret XDP_PASS else send_icmp4_too_big
  else mret XDP_PASS.

(** @src xdp_progs/xdp_adjust_tail.bpf.c 164-183 xdp_pass *)
Definition xdp_adjust_tail : xdp icmp_maps Z :=
  need 14 else XDP_DROP ;;
  h_proto ← load16 12;
  if h_proto =? bswap16 0x0800 then handle_ipv4 else mret XDP_PASS.
End program.

(** ** The message *)

(** The headers, with the four bytes that are not written and a checksum. *)
Definition ptb_ip (stale saddr daddr : list Z) (check : Z) : list Z :=
  [0x45; 0] ++ le_split 2 (bswap16 112) ++ stale ++ [64; 1] ++ le_split 2 check ++ saddr ++ daddr.
Definition ptb_icmp (unused : list Z) (mtu check : Z) : list Z :=
  [3; 4] ++ le_split 2 check ++ unused ++ le_split 2 (bswap16 mtu).

Section checks.
Context {H : XdpHelpers} {CL : CsumDiffLaws H}.

(** A header with a zero checksum at offset [k], completed by one fold. *)
Lemma ptb_checks (pre post : list Z) :
  Nat.Even (length pre) -> zlen (pre ++ [0; 0] ++ post) mod 4 = 0 ->
  zlen (pre ++ [0; 0] ++ post) <= 512 -> bytes_ok pre -> bytes_ok post -> 0 < sum16 pre ->
  let x := h_csum_diff [] (pre ++ [0; 0] ++ post) 0 in
  is_u32 x /\
  (csum_ok (pre ++ le_split 2 (one_fold_check x) ++ post) <-> fold16 x <= 65535).
Proof.
  intros He H4 Hl Hp Hq Hpos x.
  assert (Hb : bytes_ok (pre ++ [0; 0] ++ post)).
  { rewrite !bytes_ok_app. repeat split; auto. now apply bytes_ok_check. }
  assert (Hsz : csum_diff_sizes [] (pre ++ [0; 0] ++ post)).
  { split; [done|]. split; [done|]. change (zlen []) with 0. lia. }
  destruct (csum_diff_done [] _ 0 bytes_ok_nil Hb ltac:(split; lia) Hsz) as [Hu Hoc].
  pose proof (csum_diff_zero _ 0 Hb ltac:(split; lia) Hsz) as Hz.
  pose proof (one_fold_check_range x) as Hr. pose proof (sum16_nonneg post Hq).
  assert (Hsum : forall c, 0 <= c <= 65535 ->
    sum16 (pre ++ le_split 2 c ++ post) = sum16 pre + sum16 post + c).
  { intros c Hc. rewrite !sum16_app_even by (done || now exists 1%nat). cbn [le_split sum16]. zlia. }
  pose proof (Hsum 0 ltac:(lia)) as Hs0. change (le_split 2 0) with [0; 0] in Hs0. fold x in Hu, Hoc, Hz.
  split; [done|]. unfold csum_ok. rewrite Hsum by done.
  rewrite <- (one_fold_checks x (sum16 pre + sum16 post)); [intuition lia| |done|lia].
  rewrite Hs0 in *. unfold is_u32 in Hu. split; [lia|]. split; [lia|]. split; [|lia].
  unfold oc in *. cbn [sum16] in Hoc. rewrite Hoc. f_equal. lia.
Qed.

Lemma ptb_ip_checks stale saddr daddr :
  length stale = 4%nat -> length saddr = 4%nat -> length daddr = 4%nat ->
  bytes_ok stale -> bytes_ok saddr -> bytes_ok daddr ->
  let x := h_csum_diff [] (ptb_ip stale saddr daddr 0) 0 in
  is_u32 x /\ (csum_ok (ptb_ip stale saddr daddr (one_fold_check x)) <-> fold16 x <= 65535).
Proof.
  intros L1 L2 L3 B1 B2 B3.
  assert (E : forall c, ptb_ip stale saddr daddr c =
    ([0x45; 0] ++ le_split 2 (bswap16 112) ++ stale ++ [64; 1]) ++ le_split 2 c ++ saddr ++ daddr).
  { intros c. unfold ptb_ip. now rewrite <- !app_assoc. }
  intros x. subst x. rewrite !E. change (le_split 2 0) with [0; 0]. apply ptb_checks.
  - exists 5%nat. now rewrite !length_app, length_le_split, L1.
  - unfold zlen. rewrite !length_app, length_le_split, L1, L2, L3. reflexivity.
  - unfold zlen. rewrite !length_app, length_le_split, L1, L2, L3. discriminate.
  - rewrite !bytes_ok_app. repeat split; auto using le_split_ok; now apply bytes_ok_check.
  - now apply bytes_ok_app.
  - rewrite sum16_app_even by (now exists 1%nat). change (sum16 [0x45; 0]) with 69.
    enough (0 <= sum16 (le_split 2 (bswap16 112) ++ stale ++ [64; 1])) by lia.
    apply sum16_nonneg. rewrite !bytes_ok_app. repeat split; auto using le_split_ok; now apply bytes_ok_check.
Qed.

Lemma ptb_icmp_checks unused mtu body :
  length unused = 2%nat -> length body = 84%nat -> bytes_ok unused -> bytes_ok body ->
  let x := h_csum_diff [] (ptb_icmp unused mtu 0 ++ body) 0 in
  is_u32 x /\ (csum_ok (ptb_icmp unused mtu (one_fold_check x) ++ body) <-> fold16 x <= 65535).
Proof.
  intros L1 L2 B1 B2.
  assert (E : forall c, ptb_icmp unused mtu c ++ body =
    [3; 4] ++ le_split 2 c ++ (unused ++ le_split 2 (bswap16 mtu) ++ body)).
  { intros c. unfold ptb_icmp. now rewrite <- !app_assoc. }
  intros x. subst x. rewrite !E. change (le_split 2 0) with [0; 0].
  assert (Hz : zlen ([3; 4] ++ [0; 0] ++ (unused ++ le_split 2 (bswap16 mtu) ++ body)) = 92).
  { unfold zlen. rewrite !length_app, length_le_split, L1, L2. reflexivity. }
  apply ptb_checks.
  - now exists 1%nat.
  - now rewrite Hz.
  - rewrite Hz. lia.
  - now apply bytes_ok_check.
  - rewrite !bytes_ok_app. auto using le_split_ok.
  - reflexivity.
Qed.
End checks.

(** ** What the program computes *)

Section correct.
Context {H : XdpHelpers} {HL : XdpHelperLaws H} {CL : CsumDiffLaws H}.

Lemma ptb_csum_runs (s : xst icmp_maps) off n bs :
  slice off n (f_data (x_frame s)) = Some bs -> is_u32 (h_csum_diff [] bs 0) ->
  runs s (ipv4_csum off n 0) (one_fold_check (h_csum_diff [] bs 0)) s.
Proof.
  intros Hs Hu. unfold ipv4_csum. eapply runs_bind; [apply runs_load, Hs|]. cbv beta.
  rewrite (u32_id _ Hu). apply runs_ret.
Qed.

Lemma too_big_runs (s : xst icmp_maps) eth iph body rest :
  f_data (x_frame s) = eth ++ iph ++ body ++ rest ->
  length eth = 14%nat -> length iph = 20%nat -> length body = 64%nat -> frame_ok (x_frame s) ->
  (h_adjust_head (x_frame s) (-28)).1 = 0 ->
  let head := f_head (x_frame s) in
  let stale := take 4 (drop (length head - 10) head) in
  let src := take 4 (drop 12 iph) in
  let dst := drop 16 iph in
  let unused := take 2 (drop 10 eth) in
  let mtu := u16 (max_pcktsz (x_env s) - 14) in
  let icmp := ptb_icmp unused mtu (one_fold_check (h_csum_diff [] (ptb_icmp unused mtu 0 ++ iph ++ body) 0)) in
  let ip := ptb_ip stale dst src (one_fold_check (h_csum_diff [] (ptb_ip stale dst src 0) 0)) in
  runs s send_icmp4_too_big XDP_TX
    (Xst (Frame (take (length head - 28) head)
           ((take 6 (drop 6 eth) ++ take 6 eth ++ drop 12 eth) ++ ip ++ icmp ++ iph ++ body ++ rest)
           (f_tail (x_frame s))) (IcmpMaps (u64 (icmpcnt (x_env s) + 1)) (max_pcktsz (x_env s))) (x_tick s))
  /\ length stale = 4%nat /\ bytes_ok stale.
Proof.
  intros Hd He Hi Hbl Hok Hr head stale src dst unused mtu icmp ip.
  destruct (runs_adjust_head_done s (-28) Hr) as (Hrun & Hroom & _).
  destruct (granted_head s 28) as (junk & Hj & Hshift); [lia|].
  change (- Z.of_nat 28) with (-28) in Hshift. rewrite Hshift, Hd in Hrun.
  destruct Hok as (Hhd & Hdata & _). rewrite Hd, !bytes_ok_app in Hdata. destruct Hdata as (Beth & Biph & Bbody & _).
  assert (Hid : stale = take 4 (drop 18 junk) /\ bytes_ok stale).
  { unfold shift_head in Hshift. change (0 <=? -28) with false in Hshift. cbv iota in Hshift.
    injection Hshift as Hjk. change (Z.to_nat (- (-28))) with 28%nat in Hjk. apply app_inv_tail in Hjk.
    fold head in Hjk. unfold zlen in Hroom. fold head in Hroom.
    split; [|unfold stale; now apply Forall_take, Forall_drop].
    unfold stale. rewrite <- Hjk, drop_drop. do 2 f_equal. lia. }
  destruct Hid as [Hid Hids].
  assert (Hls : length stale = 4%nat) by (rewrite Hid, length_take, length_drop; lia).
  split; [|done]. fold head in Hrun. clearbody stale head. clear Hshift Hroom Hr Hhd.
  assert (Hsrc : length src = 4%nat /\ bytes_ok src).
  { unfold src. rewrite length_take, length_drop. split; [lia|]. now apply Forall_take, Forall_drop. }
  assert (Hdst : length dst = 4%nat /\ bytes_ok dst).
  { unfold dst. rewrite length_drop. split; [lia|]. now apply Forall_drop. }
  assert (Hun : length unused = 2%nat /\ bytes_ok unused).
  { unfold unused. rewrite length_take, length_drop. split; [lia|]. now apply Forall_take, Forall_drop. }
  destruct (ptb_ip_checks stale dst src) as [Hu1 _]; [tauto..|].
  destruct (ptb_icmp_checks unused mtu (iph ++ body)) as [Hu2 _]; [tauto|rewrite length_app; lia|tauto|now apply bytes_ok_app|].
  unfold send_icmp4_too_big. cbv zeta. eapply runs_bind; [exact Hrun|]. clear Hrun.
  change (nz 0) with false. cbv iota.
  generalize (take (length head - 28) head) as hd. intros hd.
  apply run_need. { cbn [x_frame f_data]. rewrite !zlen_app. unfold zlen, ICMP_TOOBIG_SIZE. lia. }
  unfold ip, icmp, mtu in *. clear ip icmp mtu. subst stale. unfold src, dst, unused in *. clear src dst unused.
  clear Hd Hids Hls Hsrc Hdst Hun Beth Biph Bbody.
  explode junk Hj. explode eth He. explode iph Hi. cbn [take drop app] in *.
  unfold swap_mac. eapply runs_bind; [xrun|]. cbv beta.
  do 5 (eapply runs_bind; [xstep|]; cbv beta).
  eapply runs_bind.
  { change (14 + 20) with 34. change (Z.to_nat ICMP_TOOBIG_PAYLOAD_SIZE) with 92%nat.
    eapply (ptb_csum_runs _ 34 92); [|exact Hu2]. cbn [x_frame f_data].
    match goal with |- slice 34 92 ?d = _ =>
      let p := eval cbn [take] in (take 34 d) in apply (slice_between d p _ rest) end;
      [reflexivity|reflexivity|unfold ptb_icmp; cbn [app le_split length]; lia]. }
  cbv beta. do 12 (eapply runs_bind; [xstep|]; cbv beta).
  eapply runs_bind.
  { eapply (ptb_csum_runs _ 14 20); [|exact Hu1]. cbn [x_frame f_data]. rewrite version_ihl. reflexivity. }
  cbv beta. eapply runs_bind; [xstep|]. cbv beta. eapply runs_bind; [apply runs_modify|].
  eapply runs_eq; [apply runs_ret|]. rewrite version_ihl. reflexivity.
Qed.

(** The message in which an IPv4 packet comes back. *)
Definition ptb_message (limit : Z) (head eth iph body rest : list Z) : list Z :=
  let stale := take 4 (drop (length head - 10) head) in
  let src := take 4 (drop 12 iph) in
  let dst := drop 16 iph in
  let unused := take 2 (drop 10 eth) in
  let mtu := u16 (limit - 14) in
  let icmp := ptb_icmp unused mtu (one_fold_check (h_csum_diff [] (ptb_icmp unused mtu 0 ++ iph ++ body) 0)) in
  let ip := ptb_ip stale dst src (one_fold_check (h_csum_diff [] (ptb_ip stale dst src 0) 0)) in
  (take 6 (drop 6 eth) ++ take 6 eth ++ [8; 0]) ++ ip ++ icmp ++ iph ++ body ++ rest.

Lemma too_big_answered (s : xst icmp_maps) (eth iph body rest : list Z) :
  f_data (x_frame s) = eth ++ iph ++ body ++ rest ->
  length eth = 14%nat -> length iph = 20%nat -> length body = 64%nat -> frame_ok (x_frame s) ->
  drop 12 eth = [8; 0] -> Z.max (max_pcktsz (x_env s)) ICMP_TOOBIG_SIZE < zlen (f_data (x_frame s)) ->
  (h_adjust_tail (x_frame s) 0).1 = 0 ->
  (h_adjust_head (h_adjust_tail (x_frame s) 0).2 (-28)).1 = 0 ->
  let head := f_head (x_frame s) in
  (exists s', runs s xdp_adjust_tail XDP_TX s'
     /\ f_data (x_frame s') = ptb_message (max_pcktsz (x_env s)) head eth iph body rest
     /\ x_env s' = IcmpMaps (u64 (icmpcnt (x_env s) + 1)) (max_pcktsz (x_env s)))
  /\ length (take 4 (drop (length head - 10) head)) = 4%nat
  /\ bytes_ok (take 4 (drop (length head - 10) head)).
Proof.
  intros Hd He Hi Hbl Hok Hproto Hrest Ht Hh head.
  destruct (adjust_tail_done _ _ Ht) as (Hlen & Hhead & Htake & Hok').
  specialize (Hok' Hok). destruct (h_adjust_tail (x_frame s) 0) as [r f1] eqn:Ef.
  cbn [fst snd] in *. subst r.
  assert (Hdata : f_data f1 = f_data (x_frame s)).
  { unfold zlen in *. rewrite Z.add_0_r, Z.min_id, Nat2Z.id, firstn_all in Htake.
    rewrite <- Htake, take_ge; [done|lia]. }
  assert (Hz : zlen (f_data (x_frame s)) = 98 + zlen rest) by (rewrite Hd, !zlen_app; unfold zlen; lia).
  pose proof (too_big_runs (Xst f1 (x_env s) (x_tick s)) eth iph body rest) as Hrun.
  cbn [x_frame x_env x_tick] in Hrun. rewrite Hdata, Hhead in Hrun.
  specialize (Hrun Hd He Hi Hbl Hok' Hh). destruct Hrun as (Hrun & Hls & Hbs).
  split; [|now split]. rewrite Hproto in Hrun. match type of Hrun with runs _ _ _ ?s' => exists s' end.
  split; [|split; reflexivity].
  unfold xdp_adjust_tail. apply run_need; [pose proof (zlen_nonneg rest); lia|].
  eapply runs_bind; [apply (runs_load16 s 12 [8; 0])|].
  { rewrite Hd, <- Hproto. clear -He. explode eth He. reflexivity. }
  cbv beta. change (le_join [8; 0] =? bswap16 2048) with true. cbv iota.
  unfold handle_ipv4. eapply runs_bind; [apply runs_data_len|]. cbv beta.
  eapply runs_bind; [apply runs_asks|]. cbv beta. rewrite (proj2 (Z.ltb_lt _ _) Hrest).
  eapply runs_bind; [unfold runs, adjust_tail; now rewrite Ef|]. exact Hrun.
Qed.

(** Any other packet is passed on as it is, unless it has no Ethernet header. *)
Lemma others_passed (s : xst icmp_maps) :
  14 <= zlen (f_data (x_frame s)) ->
  take 2 (drop 12 (f_data (x_frame s))) <> [8; 0] \/
  zlen (f_data (x_frame s)) <= Z.max (max_pcktsz (x_env s)) ICMP_TOOBIG_SIZE ->
  bytes_ok (f_data (x_frame s)) -> runs s xdp_adjust_tail XDP_PASS s.
Proof.
  intros Hl Hc Hb. unfold xdp_adjust_tail. apply run_need; [done|].
  eapply runs_bind; [apply runs_load16_at; lia|]. cbv beta. change (Z.to_nat 12) with 12%nat.
  destruct (Z.eqb_spec (le_join (take 2 (drop 12 (f_data (x_frame s))))) (bswap16 2048)) as [E|E]; [|apply runs_ret].
  assert (Hip : take 2 (drop 12 (f_data (x_frame s))) = [8; 0]).
  { set (l := take 2 (drop 12 (f_data (x_frame s)))) in *.
    assert (Hn : length l = 2%nat) by (unfold l, zlen in *; rewrite length_take, length_drop; lia).
    rewrite <- (le_split_join l), Hn, E; [reflexivity|]. now apply Forall_take, Forall_drop. }
  destruct Hc as [Hc|Hc]; [done|]. unfold handle_ipv4.
  eapply runs_bind; [apply runs_data_len|]. cbv beta. eapply runs_bind; [apply runs_asks|]. cbv beta.
  rewrite (proj2 (Z.ltb_ge _ _) Hc). apply runs_ret.
Qed.

(** C25: an IPv4 packet longer than the limit, and than 98 bytes, is answered by itself in an
    ICMP message when the helpers succeed: the MAC addresses exchanged, an IPv4 header
    towards the sender, "fragmentation needed" with the limit less 14 bytes as the MTU, modulo
    65536, and the whole packet behind it although the total length announces 112 bytes.  The
    identification and fragment fields are what the headroom held, the unused ICMP field the
    end of the sender's MAC address.  Each checksum is valid if and only if one fold of the
    partial sum does not carry. *)
Theorem packet_too_big_correct (s : xst icmp_maps) (eth iph body rest : list Z) :
  f_data (x_frame s) = eth ++ iph ++ body ++ rest ->
  length eth = 14%nat -> length iph = 20%nat -> length body = 64%nat -> frame_ok (x_frame s) ->
  drop 12 eth = [8; 0] -> Z.max (max_pcktsz (x_env s)) ICMP_TOOBIG_SIZE < zlen (f_data (x_frame s)) ->
  (h_adjust_tail (x_frame s) 0).1 = 0 ->
  (h_adjust_head (h_adjust_tail (x_frame s) 0).2 (-28)).1 = 0 ->
  let head := f_head (x_frame s) in
  let stale := take 4 (drop (length head - 10) head) in
  let src := take 4 (drop 12 iph) in
  let dst := drop 16 iph in
  let unused := take 2 (drop 10 eth) in
  let mtu := u16 (max_pcktsz (x_env s) - 14) in
  let c1 := h_csum_diff [] (ptb_icmp unused mtu 0 ++ iph ++ body) 0 in
  let c2 := h_csum_diff [] (ptb_ip stale dst src 0) 0 in
  let icmp := ptb_icmp unused mtu (one_fold_check c1) in
  let ip := ptb_ip stale dst src (one_fold_check c2) in
  (exists s', runs s xdp_adjust_tail XDP_TX s'
     /\ f_data (x_frame s') =
          (take 6 (drop 6 eth) ++ take 6 eth ++ [8; 0]) ++ ip ++ icmp ++ iph ++ body ++ rest
     /\ icmpcnt (x_env s') = u64 (icmpcnt (x_env s) + 1))
  /\ (csum_ok ip <-> fold16 c2 <= 65535)
  /\ (csum_ok (icmp ++ iph ++ body) <-> fold16 c1 <= 65535).
Proof.
  intros Hd He Hi Hbl Hok Hproto Hrest Ht Hh head stale src dst unused mtu c1 c2 icmp ip.
  destruct (too_big_answered s eth iph body rest Hd He Hi Hbl Hok Hproto Hrest Ht Hh) as ((s' & R & D & E) & Hls & Hbs).
  destruct Hok as (_ & Hb & _). rewrite Hd, !bytes_ok_app in Hb. destruct Hb as (Be & Bi & Bb & _).
  split; [exists s'; rewrite E; auto|]. split.
  - apply ptb_ip_checks; unfold src, dst; rewrite ?length_take, ?length_drop; try lia; auto;
      now repeat first [apply Forall_take|apply Forall_drop].
  - apply ptb_icmp_checks; unfold unused; rewrite ?length_take, ?length_drop, ?length_app; try lia;
      [now apply Forall_take, Forall_drop|now apply bytes_ok_app].
Qed.
End correct.

(** ** Safety *)

Definition ptb_verdict (v : Z) : Prop := v = XDP_DROP \/ v = XDP_PASS \/ v = XDP_TX.

(** Whatever the packet and the helpers do, the program stays inside the packet
    and returns drop, pass or transmit. *)
Lemma packet_too_big_safe {H : XdpHelpers} {HL : XdpHelperLaws H} (s : xst icmp_maps) :
  frame_ok (x_frame s) ->
  exists v s', xdp_adjust_tail s = Some (v, s') /\ ptb_verdict v /\ frame_ok (x_frame s').
Proof.
  intros Hs. assert (Hf : forall L, fits L xdp_adjust_tail (fun v _ => ptb_verdict v)).
  { intros L. unfold xdp_adjust_tail, handle_ipv4, send_icmp4_too_big, swap_mac, ipv4_csum, count_icmp,
      ICMP_TOOBIG_SIZE, ICMP_TOOBIG_PAYLOAD_SIZE, ptb_verdict. fits_auto; auto; fits_bound. }
  specialize (Hf _ s Hs eq_refl).
  destruct (xdp_adjust_tail s) as [[v s']|]; [|done]. destruct Hf. eauto 10.
Qed.
