(* ===== verification/AdjustTailLoader.v ===== *)
(** * The control plane of "packet too big" (xdp_progs/xdp_adjust_tail.c)

    The loader parses its options, may overwrite the limit of the program, attaches it and
    prints its counter until the time is over; composed with the program of XdpAdjustTail.v:
    which packets are answered. *)
From Stdlib Require Import ZArith Lia Ascii String.
From stdpp Require Import base numbers list option gmap.
From S2P Require Import Prelude Xdp OnesComplement XdpRun CLib XdpAdjustTail.
#[local] Open Scope Z_scope.
#[local] Open Scope list_scope.

Definition XDP_FLAGS_UPDATE_IF_NOEXIST : Z := 1.
Definition XDP_FLAGS_SKB_MODE : Z := 2.
Definition XDP_FLAGS_DRV_MODE : Z := 4.

(** What the host answers: the number of an interface (0 when there is none), whether the
    object opens and loads, the descriptor of its program, whether the variables of the
    program and its counter are found as maps, whether the program is attached, the id of the
    program (when it can be asked for) and of the program on the interface at the end, the
    successive results of [time], and whether the counter can be read at each turn. *)
Record host := Host {
  k_ifindex : string -> Z; k_open : bool; k_load : bool; k_prog_fd : Z;
  k_data_map : bool; k_icmpcnt : bool; k_attach : bool;
  k_prog_id : option Z; k_query : option Z; k_time : nat -> Z; k_lookup : nat -> bool
}.
Inductive event := Attach (ifindex prog_fd flags : Z) | Detach (ifindex flags : Z).
(** The program exits, or a failed assertion ends it. *)
Inductive result := Exit (code : Z) | Aborted.

(** ** The command line *)

Record settings := Settings {
  ifindex : Z; xdp_flags : Z; kill_after_s : Z; max_pckt_size : Z; has_i : bool }.
Definition default_settings : settings := Settings (-1) XDP_FLAGS_UPDATE_IF_NOEXIST 0 0 false.

(** One option; [None] is an exit with 1.
    @src xdp_progs/xdp_adjust_tail.c 110-135 main *)
Definition parse_option (k : host) (opt : ascii) (optarg : string) (s : settings) : option settings :=
  if Ascii.eqb opt "i" then
    let i := k_ifindex k optarg in
    Some (Settings (if negb (nz i) then atoi optarg else i) (xdp_flags s) (kill_after_s s) (max_pckt_size s) true)
  else if Ascii.eqb opt "T" then
    Some (Settings (ifindex s) (xdp_flags s) (u32 (atoi optarg)) (max_pckt_size s) (has_i s))
  else if Ascii.eqb opt "P" then
    Some (Settings (ifindex s) (xdp_flags s) (kill_after_s s) (u32 (atoi optarg)) (has_i s))
  else if Ascii.eqb opt "S" then
    Some (Settings (ifindex s) (Z.lor (xdp_flags s) XDP_FLAGS_SKB_MODE) (kill_after_s s) (max_pckt_size s) (has_i s))
  else if Ascii.eqb opt "N" then Some s
  else if Ascii.eqb opt "F" then
    Some (Settings (ifindex s) (Z.land (xdp_flags s) (Z.lnot XDP_FLAGS_UPDATE_IF_NOEXIST)) (kill_after_s s) (max_pckt_size s) (has_i s))
  else None.
(** [opts] is what the calls of [getopt] return.
    @src xdp_progs/xdp_adjust_tail.c 108-136 main *)
Fixpoint parse_options (k : host) (opts : list (ascii * string)) (s : settings) : option settings :=
  match opts with
  | [] => Some s
  | (opt, optarg) :: opts => s ← parse_option k opt optarg s; parse_options k opts s
  end.
(** The native mode is the default; of the required options, marked in [opt_flags], there is
    one, -i.
    @src xdp_progs/xdp_adjust_tail.c 104-152 main *)
Definition parse_args (k : host) (opts : list (ascii * string)) : option settings :=
  s ← parse_options k opts default_settings;
  let flags := if nz (Z.land (xdp_flags s) XDP_FLAGS_SKB_MODE) then xdp_flags s
               else Z.lor (xdp_flags s) XDP_FLAGS_DRV_MODE in
  if negb (has_i s) then None else
  if negb (nz (ifindex s)) then None else
  Some (Settings (ifindex s) flags (kill_after_s s) (max_pckt_size s) (has_i s)).

(** ** The end *)

(** The exit code and the detachment, which is made only while the program is still there.
    @src xdp_progs/xdp_adjust_tail.c 32-49 int_exit *)
Definition int_exit (k : host) (s : settings) (prog_id : Z) : Z * list event :=
  if ifindex s >? -1 then
    match k_query k with
    | None => (1, [])
    | Some curr_prog_id => (0, if prog_id =? curr_prog_id then [Detach (ifindex s) (xdp_flags s)] else [])
    end
  else (0, []).

(** The loop; [turn] counts the turns so far.  [None]: not over within the fuel; [Some false]:
    the assertion failed, after the turns given.
    @src xdp_progs/xdp_adjust_tail.c 53-67 poll_stats *)
Fixpoint poll_stats (k : host) (kill_after_s : Z) (fuel turn : nat) : option (bool * nat) :=
  match fuel with
  | O => None
  | S fuel =>
      if negb (nz kill_after_s) || (k_time k (S turn) - k_time k O <=? kill_after_s) then
        if k_lookup k turn then poll_stats k kill_after_s fuel (S turn) else Some (false, turn)
      else Some (true, turn)
  end.

(** The limit that the program runs with, and what happens.  The result of attaching is only
    printed.
    @src xdp_progs/xdp_adjust_tail.c 89-221 main *)
Definition main (k : host) (opts : list (ascii * string)) (fuel : nat) : option (result * list event * icmp_maps) :=
  let maps := IcmpMaps 0 MAX_PCKT_SIZE in
  match parse_args k opts with
  | None => Some (Exit 1, [], maps)
  | Some s =>
      if negb (k_open k) then Some (Exit 1, [], maps) else
      if negb (k_load k) then Some (Exit 1, [], maps) else
      if nz (max_pckt_size s) && negb (k_data_map k) then Some (Exit 1, [], maps) else
      let maps := if nz (max_pckt_size s) then IcmpMaps 0 (max_pckt_size s) else maps in
      if negb (k_icmpcnt k) then Some (Exit 1, [], maps) else
      let attach := Attach (ifindex s) (k_prog_fd k) (xdp_flags s) in
      match k_prog_id k with
      | None => Some (Exit 1, [attach], maps)
      | Some prog_id =>
          match poll_stats k (kill_after_s s) fuel 0 with
          | None => None
          | Some (false, _) => Some (Aborted, [attach], maps)
          | Some (true, _) =>
              let '(code, evs) := int_exit k s prog_id in Some (Exit code, attach :: evs, maps)
          end
      end
  end.

(** ** Termination *)

(** Two seconds pass in every turn, so the loop ends when the time is over. *)
Lemma poll_ends k kill fuel :
  0 < kill -> k_time k 0 <= k_time k 1 -> (forall n, k_time k (S n) + 2 <= k_time k (S (S n))) ->
  (forall n, k_lookup k n = true) -> kill / 2 + 1 < Z.of_nat fuel ->
  exists turns, poll_stats k kill fuel 0 = Some (true, turns) /\ Z.of_nat turns <= kill / 2 + 1.
Proof.
  intros Hk H0 Hstep Hl Hf.
  assert (Ht : forall n, k_time k 0 + 2 * Z.of_nat n <= k_time k (S n)).
  { induction n as [|n IH]; [lia|]. specialize (Hstep n). lia. }
  enough (G : forall fuel turn, kill / 2 + 1 < Z.of_nat fuel + Z.of_nat turn -> Z.of_nat turn <= kill / 2 + 1 ->
    exists turns, poll_stats k kill fuel turn = Some (true, turns) /\ Z.of_nat turns <= kill / 2 + 1)
    by (apply G; zlia).
  clear Hf fuel. induction fuel as [|fuel IH]; intros turn Hf Hb; [lia|]. cbn [poll_stats].
  unfold nz. rewrite (proj2 (Z.eqb_neq _ _)) by lia. cbn [negb orb].
  specialize (Ht turn). destruct (Z.leb_spec (k_time k (S turn) - k_time k 0) kill); [|now exists turn].
  rewrite Hl. apply IH; zlia.
Qed.
(** Without a time limit it never ends. *)
Lemma poll_for_ever k fuel turn : (forall n, k_lookup k n = true) -> poll_stats k 0 fuel turn = None.
Proof. intros Hl. revert turn. induction fuel as [|fuel IH]; intros turn; cbn [poll_stats]; [done|]. now rewrite Hl, IH. Qed.

(** ** What is answered *)

Definition accepts (k : host) (id : Z) : Prop :=
  k_open k = true /\ k_load k = true /\ k_data_map k = true /\ k_icmpcnt k = true /\ k_prog_id k = Some id /\
  k_query k = Some id /\ (forall n, k_lookup k n = true) /\
  k_time k 0 <= k_time k 1 /\ (forall n, k_time k (S n) + 2 <= k_time k (S (S n))).
(** The limit: that of the command line when it is not 0. *)
Definition limit (s : settings) : Z := if nz (max_pckt_size s) then max_pckt_size s else MAX_PCKT_SIZE.

(** The loader from the command line to the packet: with a limit on the time it attaches the
    program, polls and detaches it, within half as many turns as seconds and two; meanwhile an
    IPv4 packet is answered when it is longer than the limit and than 98 bytes and the helpers
    grant the room, and every other packet is passed on. *)
Lemma too_big_deployed {H : XdpHelpers} {HL : XdpHelperLaws H} {CL : CsumDiffLaws H} k opts fuel s id :
  parse_args k opts = Some s -> accepts k id -> 0 < kill_after_s s -> 0 <= ifindex s ->
  kill_after_s s / 2 + 1 < Z.of_nat fuel ->
  main k opts fuel = Some (Exit 0, [Attach (ifindex s) (k_prog_fd k) (xdp_flags s); Detach (ifindex s) (xdp_flags s)],
                           IcmpMaps 0 (limit s)) /\
  forall x : xst icmp_maps, max_pcktsz (x_env x) = limit s -> frame_ok (x_frame x) ->
    (forall eth iph body rest, f_data (x_frame x) = eth ++ iph ++ body ++ rest ->
       length eth = 14%nat -> length iph = 20%nat -> length body = 64%nat -> drop 12 eth = [8; 0] ->
       Z.max (limit s) 98 < zlen (f_data (x_frame x)) ->
       (h_adjust_tail (x_frame x) 0).1 = 0 -> (h_adjust_head (h_adjust_tail (x_frame x) 0).2 (-28)).1 = 0 ->
       exists x', runs x xdp_adjust_tail XDP_TX x' /\
         f_data (x_frame x') = ptb_message (limit s) (f_head (x_frame x)) eth iph body rest) /\
    (14 <= zlen (f_data (x_frame x)) ->
     take 2 (drop 12 (f_data (x_frame x))) <> [8; 0] \/ zlen (f_data (x_frame x)) <= Z.max (limit s) 98 ->
     runs x xdp_adjust_tail XDP_PASS x).
Proof.
  intros Hp (Ho & Hl & Hd & Hc & Hid & Hq & Hlk & H0 & Hstep) Hkill Hif Hf. split.
  - unfold main. rewrite Hp, Ho, Hl, Hd, Hc, Hid. cbn [negb]. rewrite andb_false_r.
    destruct (poll_ends k (kill_after_s s) fuel Hkill H0 Hstep Hlk Hf) as (turns & -> & _).
    unfold int_exit, limit. destruct (Z.gtb_spec (ifindex s) (-1)); [|lia]. rewrite Hq, Z.eqb_refl.
    now destruct (nz (max_pckt_size s)).
  - intros x Hx Hok. split.
    + intros eth iph body rest E He Hi Hb H4 Hlen Ht Hh. rewrite <- Hx in *.
      destruct (too_big_answered x eth iph body rest E He Hi Hb Hok H4 Hlen Ht Hh) as ((x' & R & D & _) & _). eauto.
    + intros H14 Hcase. apply others_passed; [done| |now destruct Hok as (_ & ? & _)]. now rewrite Hx.
Qed.

(** ** A host on which everything works *)

Definition some_host : host := {|
  k_ifindex := fun _ => 3; k_open := true; k_load := true; k_prog_fd := 7; k_data_map := true; k_icmpcnt := true;
  k_attach := true; k_prog_id := Some 5; k_query := Some 5; k_time := fun n => 100 + 2 * Z.of_nat n;
  k_lookup := fun _ => true |}.
Lemma some_host_accepts : accepts some_host 5.
Proof. repeat split; cbn [k_time some_host]; try discriminate; intros; lia. Qed.

(** Ten seconds with a limit of 5: the program runs with it, and announces an MTU of 65527. *)
Example small_limit :
  main some_host [("i"%char, "eth0"%string); ("P"%char, "5"%string); ("T"%char, "10"%string)] 7
    = Some (Exit 0, [Attach 3 7 5; Detach 3 5], IcmpMaps 0 5) /\ u16 (5 - 14) = 65527.
Proof. vm_compute. split; reflexivity. Qed.
(** The usage message says that the limit is 600 when none is given. *)
Example default_limit : option_map limit (parse_args some_host [("i"%char, "eth0"%string)]) = Some 128.
Proof. vm_compute. reflexivity. Qed.
