(* ===== verification/Xdping.v ===== *)
(** * The ping programs (xdp_progs/xdping.bpf.c and xdping_no_check.bpf.c)

    The server answers ICMP packets in place.  The checks of the type and the length of the
    message are commented out in the source; in the variant without checks every check is,
    and so is the body of the client. *)
From Stdlib Require Import ZArith Lia.
From stdpp Require Import base numbers list option.
From S2P Require Import Prelude Xdp OnesComplement XdpRun.
#[local] Open Scope Z_scope.

(** ** The code *)

Section program.
Context {E : Type} {H : XdpHelpers}.

(** @src xdp_progs/xdping.bpf.c 53-57 csum_fold_helper *)
Definition csum_fold_helper (sum : Z) : Z :=
  let sum := u32 (Z.land sum 0xffff + Z.shiftr sum 16) in
  u16 (Z.lnot (Z.land sum 0xffff + Z.shiftr sum 16)).

(** @src xdp_progs/xdping.bpf.c 59-65 ipv4_csum *)
Definition ipv4_csum (data_start : Z) (data_size : nat) : xdp E Z :=
  bs ← load data_size data_start;
  mret (csum_fold_helper (u32 (h_csum_diff [] bs 0))).

(** @src xdp_progs/xdping.bpf.c 67-67 ICMP_ECHO_LEN *)
Definition ICMP_ECHO_LEN : Z := 64.

(** The argument [type] is not used.
    @src xdp_progs/xdping.bpf.c 71-105 icmp_check *)
Definition icmp_check (type : Z) : xdp E Z :=
  need (14 + 20 + ICMP_ECHO_LEN) else XDP_PASS ;;
  h_proto ← load16 12;
  if negb (h_proto =? bswap16 0x0800) then mret XDP_PASS else
  let iph := 14 in
  protocol ← load8 (iph + 9);
  if negb (protocol =? 1) then mret XDP_PASS else
  let icmph := 14 + 20 in
  need icmph else XDP_PASS ;;
  mret XDP_TX.

(** @src xdp_progs/xdping.bpf.c 107-133 xdp_pass *)
Definition xdping : xdp E Z :=
  ret ← icmp_check 8;
  if negb (ret =? XDP_TX) then mret ret else
  let iph := 14 in
  let icmph := 14 + 20 in
  raddr ← load 4 (iph + 12);
  swap_src_dst_mac ;;
  move (iph + 12) (iph + 16) 4 ;;
  store (iph + 16) raddr ;;
  store8 icmph 0 ;;
  store16 (icmph + 2) 0 ;;
  csum ← ipv4_csum icmph (Z.to_nat ICMP_ECHO_LEN);
  store16 (icmph + 2) csum ;;
  mret XDP_TX.

(** The same program without its check: [xdp_pass] of the other file.
    @src xdp_progs/xdping_no_check.bpf.c 107-133 xdp_pass *)
Definition xdping_no_check : xdp E Z :=
  let iph := 14 in
  let icmph := 14 + 20 in
  raddr ← load 4 (iph + 12);
  swap_src_dst_mac ;;
  move (iph + 12) (iph + 16) 4 ;;
  store (iph + 16) raddr ;;
  store8 icmph 0 ;;
  store16 (icmph + 2) 0 ;;
  csum ← ipv4_csum icmph (Z.to_nat ICMP_ECHO_LEN);
  store16 (icmph + 2) csum ;;
  mret XDP_TX.

(** Everything but the last line is commented out.
    @src xdp_progs/xdping_no_check.bpf.c 135-196 xdping_client *)
Definition xdping_client : xdp E Z := mret XDP_TX.
End program.

(** ** What it computes *)

(** Two folds are enough. *)
Lemma csum_fold_helper_norm x s : rep x s -> is_u32 x -> csum_fold_helper x = 65535 - oc_norm s.
Proof. apply two_folds_norm. Qed.

Definition swapped_addrs (iph : list Z) : list Z := take 12 iph ++ drop 16 iph ++ take 4 (drop 12 iph).
(** The message as an echo reply with the checksum [check]. *)
Definition echo_reply (icmp : list Z) (check : Z) : list Z :=
  [0] ++ take 1 (drop 1 icmp) ++ le_split 2 check ++ drop 4 icmp.

Lemma echo_reply_sum icmp c :
  (4 <= length icmp)%nat -> 0 <= c <= 65535 ->
  sum16 (echo_reply icmp c) = sum16 (echo_reply icmp 0) + c.
Proof.
  intros Hl Hc. destruct icmp as [|a [|b [|x [|y icmp]]]]; simpl in Hl; try lia.
  unfold echo_reply. cbn [take drop app le_split sum16]. zlia.
Qed.
Lemma echo_reply_ok icmp c : bytes_ok icmp -> bytes_ok (echo_reply icmp c).
Proof.
  intros Hb. unfold echo_reply. rewrite !bytes_ok_app. split; [now apply bytes_ok_check|].
  split; [now apply Forall_take, Forall_drop|]. split; [apply le_split_ok|now apply Forall_drop].
Qed.
Lemma swapped_addrs_sum iph : length iph = 20%nat -> sum16 (swapped_addrs iph) = sum16 iph.
Proof. intros Hl. explode iph Hl. unfold swapped_addrs. cbn [take drop app sum16]. lia. Qed.

Section correct.
Context {E : Type} {H : XdpHelpers} {CL : CsumDiffLaws H}.

Lemma ping_csum_runs (s : xst E) off n bs :
  slice off n (f_data (x_frame s)) = Some bs -> bytes_ok bs -> csum_diff_sizes [] bs ->
  runs s (ipv4_csum off n) (65535 - oc_norm (sum16 bs)) s.
Proof.
  intros Hs Hb Hsz. unfold ipv4_csum. eapply runs_bind; [apply runs_load, Hs|]. cbv beta.
  destruct (csum_diff_done [] bs 0 bytes_ok_nil Hb ltac:(split; lia) Hsz) as [Hu Hoc].
  pose proof (csum_diff_zero bs 0 Hb ltac:(split; lia) Hsz) as Hz.
  rewrite (u32_id _ Hu). eapply runs_val; [apply runs_ret|]. apply csum_fold_helper_norm; [|done].
  pose proof (sum16_nonneg bs Hb). unfold is_u32 in Hu. split; [lia|]. split; [lia|]. split; [|lia].
  rewrite Hoc. unfold oc. cbn [sum16]. f_equal; lia.
Qed.

Lemma ping_iph_slice (s : xst E) eth iph l4 k n :
  f_data (x_frame s) = eth ++ iph ++ l4 -> length eth = 14%nat -> length iph = 20%nat ->
  0 <= k -> (Z.to_nat k + n <= 20)%nat ->
  slice (14 + k) n (f_data (x_frame s)) = Some (take n (drop (Z.to_nat k) iph)).
Proof.
  intros Hd He Hi Hk Hn. rewrite Hd, slice_at_plus by (unfold zlen; lia).
  rewrite slice_some by (unfold zlen; rewrite ?length_app; lia).
  rewrite drop_app_le by lia. rewrite take_app_le by (rewrite length_drop; lia). done.
Qed.

Lemma icmp_check_runs (s : xst E) eth iph icmp rest ty :
  f_data (x_frame s) = eth ++ iph ++ icmp ++ rest ->
  length eth = 14%nat -> length iph = 20%nat -> length icmp = 64%nat ->
  drop 12 eth = [8; 0] -> nth 9 iph 0 = 1 ->
  runs s (icmp_check ty) XDP_TX s.
Proof.
  intros Hd He Hi Hm Hproto Hp. pose proof (ping_iph_slice s eth iph (icmp ++ rest)) as Hsl.
  specialize (fun k n => Hsl k n Hd He Hi).
  assert (Hz : zlen (f_data (x_frame s)) = 98 + zlen rest) by (rewrite Hd, !zlen_app; unfold zlen; lia).
  pose proof (zlen_nonneg rest).
  unfold icmp_check. apply run_need; [unfold ICMP_ECHO_LEN; lia|].
  eapply runs_bind; [apply (runs_load16 s 12 [8; 0])|].
  { rewrite Hd, <- Hproto. clear -He. explode eth He. reflexivity. }
  cbv beta. change (negb (le_join [8; 0] =? bswap16 2048)) with false. cbv iota zeta.
  eapply runs_bind; [apply runs_load8, (Hsl 9 1%nat); lia|]. cbv beta.
  change (Z.to_nat 9) with 9%nat. rewrite le_join_nth, Hp by lia. change (negb (1 =? 1)) with false. cbv iota.
  apply run_need; [lia|apply runs_ret].
Qed.

(** The reply without the check: any packet of at least 98 bytes, whatever is in it. *)
Lemma no_check_runs (s : xst E) eth iph icmp rest :
  f_data (x_frame s) = eth ++ iph ++ icmp ++ rest ->
  length eth = 14%nat -> length iph = 20%nat -> length icmp = 64%nat -> bytes_ok eth -> bytes_ok icmp ->
  runs s xdping_no_check XDP_TX
    (set_data s ((take 6 (drop 6 eth) ++ take 6 eth ++ drop 12 eth) ++ swapped_addrs iph
       ++ echo_reply icmp (65535 - oc_norm (sum16 (echo_reply icmp 0))) ++ rest)).
Proof.
  intros Hd He Hi Hm Be Bm.
  pose proof (echo_reply_ok icmp 0 Bm) as Hb0.
  assert (Hsz : csum_diff_sizes [] (echo_reply icmp 0)).
  { assert (zlen (echo_reply icmp 0) = 64) as E64.
    { unfold zlen, echo_reply. rewrite !length_app, length_le_split, length_take, !length_drop, Hm. reflexivity. }
    split; [done|]. rewrite E64. split; [done|]. discriminate. }
  pose proof (ping_iph_slice s eth iph (icmp ++ rest)) as Hsl.
  specialize (fun k n => Hsl k n Hd He Hi).
  unfold xdping_no_check. cbv zeta. eapply runs_bind; [apply runs_load, (Hsl 12 4%nat); lia|]. cbv beta.
  eapply runs_bind.
  { apply (swap_macs_runs s (take 6 eth) (take 6 (drop 6 eth)) (drop 12 eth ++ iph ++ icmp ++ rest)).
    - rewrite Hd, !app_assoc. do 3 f_equal. explode eth He. reflexivity.
    - rewrite length_take. lia.
    - rewrite length_take, length_drop. lia.
    - now apply Forall_take.
    - now apply Forall_take, Forall_drop. }
  cbv beta. clear Hd Hsl Be. unfold set_data. cbn [x_frame f_head f_tail x_env x_tick].
  explode eth He. explode iph Hi. do 4 (destruct icmp as [|? icmp]; [discriminate Hm|]).
  change (Z.to_nat 12) with 12%nat. cbn [take drop app].
  do 4 (eapply runs_bind; [xstep|]; cbv beta).
  eapply runs_bind.
  { eapply (ping_csum_runs _ _ _ (echo_reply _ 0)); [|exact Hb0|exact Hsz]. cbn [x_frame f_data].
    change (14 + 20) with 34. change (Z.to_nat ICMP_ECHO_LEN) with 64%nat.
    match goal with |- slice 34 64 ?d = _ =>
      let p := eval cbn [take] in (take 34 d) in apply (slice_between d p _ rest) end;
      [reflexivity|reflexivity|exact Hm]. }
  cbv beta. eapply runs_bind; [xstep|]. cbv beta. eapply runs_eq; [apply runs_ret|]. reflexivity.
Qed.

Lemma xdping_runs (s : xst E) eth iph icmp rest :
  f_data (x_frame s) = eth ++ iph ++ icmp ++ rest ->
  length eth = 14%nat -> length iph = 20%nat -> length icmp = 64%nat ->
  bytes_ok eth -> bytes_ok icmp -> drop 12 eth = [8; 0] -> nth 9 iph 0 = 1 ->
  runs s xdping XDP_TX
    (set_data s ((take 6 (drop 6 eth) ++ take 6 eth ++ [8; 0]) ++ swapped_addrs iph
       ++ echo_reply icmp (65535 - oc_norm (sum16 (echo_reply icmp 0))) ++ rest)).
Proof.
  intros Hd He Hi Hm Be Bm Hproto Hp. rewrite <- Hproto.
  eapply runs_bind; [eapply icmp_check_runs; eassumption|]. now apply no_check_runs.
Qed.

(** C26: any ICMP packet of at least 98 bytes, whatever its type, is sent back: the MAC
    and IP addresses exchanged, which keeps a valid IP checksum valid; the type 0
    and the checksum made right for 64 bytes of ICMP, so that the reply is valid
    if and only if what follows those 64 bytes sums to nothing. *)
Theorem xdping_reply_correct (s : xst E) (eth iph icmp rest : list Z) :
  f_data (x_frame s) = eth ++ iph ++ icmp ++ rest ->
  length eth = 14%nat -> length iph = 20%nat -> length icmp = 64%nat ->
  bytes_ok eth -> bytes_ok icmp -> bytes_ok rest -> drop 12 eth = [8; 0] -> nth 9 iph 0 = 1 ->
  exists check,
    let icmp' := echo_reply icmp check in
    runs s xdping XDP_TX
      (set_data s ((take 6 (drop 6 eth) ++ take 6 eth ++ [8; 0]) ++ swapped_addrs iph ++ icmp' ++ rest))
    /\ (csum_ok iph -> csum_ok (swapped_addrs iph))
    /\ csum_ok icmp'
    /\ (csum_ok (icmp' ++ rest) <-> sum16 rest mod 65535 = 0).
Proof.
  intros Hd He Hi Hm Be Bm Br Hproto Hp. set (s0 := sum16 (echo_reply icmp 0)).
  exists (65535 - oc_norm s0). intros icmp'.
  pose proof (oc_norm_range s0) as Hr. pose proof (oc_norm_oc s0) as Hoc.
  assert (Hs0 : 0 <= s0) by now apply sum16_nonneg, echo_reply_ok.
  assert (Hsum : sum16 icmp' = s0 + (65535 - oc_norm s0)) by (apply echo_reply_sum; lia).
  assert (Hmod : sum16 icmp' mod 65535 = 0 /\ 0 < sum16 icmp').
  { rewrite Hsum. unfold oc in Hoc. split; [zlia|]. unfold oc_norm in *. destruct (Z.eqb_spec s0 0); [lia|]. zlia. }
  assert (Hlen : length icmp' = 64%nat).
  { unfold icmp', echo_reply. rewrite !length_app, length_le_split, length_take, !length_drop, Hm. reflexivity. }
  split; [|split; [|split; [exact Hmod|]]].
  2:{ unfold csum_ok. now rewrite swapped_addrs_sum. }
  2:{ unfold csum_ok. rewrite sum16_app_even by (exists 32%nat; lia).
      pose proof (sum16_nonneg rest Br). split; intros; zlia. }
  eapply xdping_runs; eassumption.
Qed.
End correct.

(** Whatever the packet, the program stays inside it, does not change its length,
    and passes it or sends it back. *)
Lemma xdping_safe {E} {H : XdpHelpers} (s : xst E) :
  frame_ok (x_frame s) ->
  exists v s', xdping s = Some (v, s') /\ (v = XDP_PASS \/ v = XDP_TX)
    /\ frame_ok (x_frame s') /\ zlen (f_data (x_frame s')) = zlen (f_data (x_frame s)).
Proof.
  intros Hs. assert (Hf : forall L, fits L (xdping (E := E)) (fun v L' => (v = XDP_PASS \/ v = XDP_TX) /\ L' = L)).
  { intros L. unfold xdping, icmp_check, ipv4_csum, swap_src_dst_mac, ICMP_ECHO_LEN. fits_auto; auto; first [discriminate|fits_bound|apply le_split_ok|idtac]. }
  specialize (Hf _ s Hs eq_refl).
  destruct (xdping s) as [[v s']|]; [|done]. destruct Hf as (Hok & Hv & Hl). eauto 10.
Qed.

(** ** Without the check *)

(** A run that comes to its end leaves a packet of the same length. *)
Definition same_length {E A} (m : xdp E A) : Prop :=
  forall s a s', m s = Some (a, s') -> length (f_data (x_frame s')) = length (f_data (x_frame s)).
Lemma same_length_bind {E A B} (m : xdp E A) (k : A -> xdp E B) :
  same_length m -> (forall a, same_length (k a)) -> same_length (m ≫= k).
Proof.
  intros Hm Hk s b s'. change ((m ≫= k) s) with (match m s with Some (a, s1) => k a s1 | None => None end).
  destruct (m s) as [[a s1]|] eqn:E1; [|discriminate]. intros E2. rewrite (Hk _ _ _ _ E2). eauto.
Qed.
Lemma same_length_load {E} n off : same_length (load (E := E) n off).
Proof. intros s a s'. unfold load. destruct (slice _ _ _); [|discriminate]. now intros [= _ <-]. Qed.
Lemma same_length_store {E} off bs : same_length (store (E := E) off bs).
Proof.
  intros s a s'. unfold store. destruct (splice _ _ _) as [d|] eqn:Es; [|discriminate]. intros [= _ <-].
  apply splice_inv in Es as [E1 E2]. cbn [x_frame f_data]. destruct bs as [|b bs]; [|now apply E2].
  rewrite E1, Nat.add_0_r. cbn [app]. now rewrite take_drop.
Qed.
Lemma same_length_move {E} dst src n : same_length (move (E := E) dst src n).
Proof. apply same_length_bind; [apply same_length_load|]. intros. apply same_length_store. Qed.

Lemma same_length_ret {E A} (a : A) : same_length (mret (M := xdp E) a).
Proof. now intros s b s' [= _ <-]. Qed.
Ltac same_length :=
  unfold swap_src_dst_mac, load16, store16, store8;
  repeat first [ apply same_length_ret | apply same_length_load | apply same_length_store | apply same_length_move
               | apply same_length_bind; [|intros] ].

(** A program that a packet shorter than [n] brings down. *)
Definition faults_below {E A} (n : Z) (m : xdp E A) : Prop := forall s, zlen (f_data (x_frame s)) < n -> m s = None.
Lemma faults_later {E A B} n (m : xdp E A) (k : A -> xdp E B) :
  same_length m -> (forall a, faults_below n (k a)) -> faults_below n (m ≫= k).
Proof.
  intros Hm Hk s Hs. change ((m ≫= k) s) with (match m s with Some (a, s1) => k a s1 | None => None end).
  destruct (m s) as [[a s1]|] eqn:E1; [|done]. apply Hk. unfold zlen in *. now rewrite (Hm _ _ _ E1).
Qed.
Lemma faults_load {E B} n off (k : list Z -> xdp E B) : 0 <= off -> faults_below (off + Z.of_nat (S n)) (load (S n) off ≫= k).
Proof.
  intros Ho s Hs. change ((load (S n) off ≫= k) s) with (match load (S n) off s with Some (a, s1) => k a s1 | None => None end).
  unfold load. destruct (slice _ _ _) as [bs|] eqn:Es; [|done]. apply slice_inv in Es as (_ & [?|?] & _); lia.
Qed.

(** A packet of fewer than 98 bytes is read behind its end. *)
Lemma no_check_faults {E} {H : XdpHelpers} : faults_below 98 (xdping_no_check (E := E)).
Proof.
  unfold xdping_no_check, ipv4_csum. cbv zeta. do 6 (apply faults_later; [same_length|]; intros).
  intros s Hs. pose proof (fun k => faults_load (E := E) (B := Z) 63 34 k) as Hf.
  specialize (Hf (fun bs => mret (csum_fold_helper (u32 (h_csum_diff [] bs 0)))) ltac:(lia) s Hs).
  change (14 + 20) with 34. change (Z.to_nat ICMP_ECHO_LEN) with 64%nat.
  match goal with |- (?m ≫= ?k) s = None =>
    change (match m s with Some (a, s1) => k a s1 | None => None end = None) end.
  now rewrite Hf.
Qed.

(** From 98 bytes on it stays inside the packet. *)
Lemma no_check_safe {E} {H : XdpHelpers} (s : xst E) :
  frame_ok (x_frame s) -> 98 <= zlen (f_data (x_frame s)) ->
  exists v s', xdping_no_check s = Some (v, s') /\ v = XDP_TX
    /\ frame_ok (x_frame s') /\ zlen (f_data (x_frame s')) = zlen (f_data (x_frame s)).
Proof.
  intros Hs H98. assert (Hf : forall L, 98 <= L -> fits L (xdping_no_check (E := E)) (fun v L' => v = XDP_TX /\ L' = L)).
  { intros L HL. unfold xdping_no_check, ipv4_csum, swap_src_dst_mac, ICMP_ECHO_LEN.
    fits_auto; auto; first [discriminate|fits_bound|apply le_split_ok|idtac]. }
  specialize (Hf _ H98 s Hs eq_refl).
  destruct (xdping_no_check s) as [[v s']|]; [|done]. destruct Hf as (Hok & Hv & Hl). eauto 10.
Qed.

(** The two programs agree on the packets that the check lets through. *)
Lemma no_check_agrees {E} {H : XdpHelpers} (s : xst E) :
  icmp_check 8 s = Some (XDP_TX, s) -> xdping_no_check s = xdping s.
Proof.
  intros Hc. unfold xdping.
  match goal with |- _ = (?m ≫= ?k) s =>
    change (xdping_no_check s = match m s with Some (a, s1) => k a s1 | None => None end) end.
  now rewrite Hc.
Qed.
