(* ===== verification/PingLoader.v ===== *)
(** * The ping tools (xdp_progs/xdping.c and xdping_no_check.c)

    The command that loads one of the ping programs and, as a client, measures the round trips
    of an ordinary ping; the two files differ in the object they open only.  Composed with the
    programs of Xdping.v: what a client finds in the map. *)
From Stdlib Require Import ZArith Lia Ascii String.
From stdpp Require Import base numbers list option gmap.
From S2P Require Import Prelude Xdp OnesComplement XdpRun CLib Xdping.
#[local] Open Scope Z_scope.
#[local] Open Scope list_scope.

(** @src xdp_progs/xdping.h 4-5 XDPING_MAX_COUNT *)
Definition XDPING_MAX_COUNT : Z := 10.
Definition XDPING_DEFAULT_COUNT : Z := 4.
(** @src xdp_progs/xdping.h 7-13 pinginfo *)
Record pinginfo := PingInfo { start : Z; seq : Z; count : Z; times : list Z }.

Definition XDP_FLAGS_UPDATE_IF_NOEXIST : Z := 1.
Definition XDP_FLAGS_SKB_MODE : Z := 2.
Definition XDP_FLAGS_DRV_MODE : Z := 4.

(** What the host answers: the number of an interface (0 when there is none), the address of a
    name, whether the object opens with the given BTF file and loads, the descriptors of its
    programs and of its first map, whether the program is attached, whether the entry is
    written, and what the ping command returns. *)
Record host := Host {
  k_ifindex : string -> Z; k_resolve : string -> option Z;
  k_open : option string -> bool; k_load : bool;
  k_program : string -> option Z; k_map : option Z;
  k_attach : bool; k_update : bool; k_system : Z
}.
Inductive event :=
  | Attach (ifindex prog_fd flags : Z) | Detach (ifindex flags : Z) | Ping (n : Z) (ifname dest : string).
(** The program returns, or never does. *)
Inductive result := Exit (ret : Z) | Forever.

(** ** The command line *)

Record settings := Settings { ifindex : Z; ifname : option string; xdp_flags : Z; server : bool; n_count : Z }.
Definition default_settings : settings := Settings 0 None XDP_FLAGS_UPDATE_IF_NOEXIST false XDPING_DEFAULT_COUNT.

(** One option; [None] is an exit with 1.  The count is an unsigned 16-bit number when it is
    checked.
    @src xdp_progs/xdping.c 114-146 main *)
Definition parse_option (k : host) (opt : ascii) (optarg : string) (s : settings) : option settings :=
  if Ascii.eqb opt "c" then
    let c := u16 (atoi optarg) in
    if (c <? 1) || (c >? XDPING_MAX_COUNT) then None
    else Some (Settings (ifindex s) (ifname s) (xdp_flags s) (server s) c)
  else if Ascii.eqb opt "I" then
    let i := k_ifindex k optarg in
    if negb (nz i) then None else Some (Settings i (Some optarg) (xdp_flags s) (server s) (n_count s))
  else if Ascii.eqb opt "N" then
    Some (Settings (ifindex s) (ifname s) (Z.lor (xdp_flags s) XDP_FLAGS_DRV_MODE) (server s) (n_count s))
  else if Ascii.eqb opt "s" then
    Some (Settings (ifindex s) (ifname s) (xdp_flags s) true (n_count s))
  else if Ascii.eqb opt "S" then
    Some (Settings (ifindex s) (ifname s) (Z.lor (xdp_flags s) XDP_FLAGS_SKB_MODE) (server s) (n_count s))
  else None.
(** [opts] is what the calls of [getopt] return.
    @src xdp_progs/xdping.c 113-147 main *)
Fixpoint parse_options (k : host) (opts : list (ascii * string)) (s : settings) : option settings :=
  match opts with
  | [] => Some s
  | (opt, optarg) :: opts => s ← parse_option k opt optarg s; parse_options k opts s
  end.

(** ** The measurements *)

(** The number of samples that are printed: up to the first that is zero.
    @src xdp_progs/xdping.c 53-62 get_stats *)
Fixpoint samples (n : nat) (times : list Z) : nat :=
  match n, times with
  | S n, t :: times => if t =? 0 then O else S (samples n times)
  | _, _ => O
  end.
(** @src xdp_progs/xdping.c 37-72 get_stats *)
Definition get_stats (count : Z) (raddr : Z) (m : gmap Z pinginfo) : Z * gmap Z pinginfo :=
  match m !! raddr with
  | None => (1, m)
  | Some info =>
      let i := Z.of_nat (samples (Z.to_nat count) (times info)) in
      if i <? count then (1, m) else (0, delete raddr m)
  end.

(** ** The tool *)

(** [ping] is what happens to the map while the command runs: the packets that the attached
    program handles.
    @src xdp_progs/xdping.c 238-276 main *)
Definition run_client (k : host) (s : settings) (name dest : string) (raddr : Z)
    (ping : gmap Z pinginfo -> gmap Z pinginfo) : Z * list event * gmap Z pinginfo :=
  let count := n_count s in
  let pinginfo := PingInfo 0 (bswap16 count) count (repeat 0 10) in
  let cleanup := Detach (ifindex s) (xdp_flags s) in
  if negb (k_update k) then (1, [cleanup], ∅) else
  let m := ping {[ raddr := pinginfo ]} in
  let ret := k_system k in
  let '(ret, m) := if negb (nz ret) then get_stats count raddr m else (ret, m) in
  (ret, [Ping count name dest; cleanup], m).

(** The program and the map, then the attachment, whose failure is only printed.
    @src xdp_progs/xdping.c 175-276 main *)
Definition start_xdp (k : host) (s : settings) (name : string) (args : list string) (raddr : Z)
    (ping : gmap Z pinginfo -> gmap Z pinginfo) : result * list event :=
  let btf := match args with [path] => Some path | _ => None end in
  if negb (k_open k btf) then (Exit 1, []) else
  if negb (k_load k) then (Exit 1, []) else
  match k_program k (if server s then "xdp_pass" else "xdping_client")%string with
  | None => (Exit 1, [])
  | Some prog_fd =>
      if prog_fd <? 0 then (Exit 1, []) else
      match k_map k with
      | None => (Exit 1, [])
      | Some map_fd =>
          if map_fd <? 0 then (Exit 1, []) else
          let attach := Attach (ifindex s) prog_fd (xdp_flags s) in
          if server s then (Forever, [attach])
          else
            let '(ret, evs, _) := run_client k s name (default EmptyString (head args)) raddr ping in
            (Exit ret, attach :: evs)
      end
  end.

(** [args] are the words after the options.
    @src xdp_progs/xdping.c 94-277 main *)
Definition main (k : host) (opts : list (ascii * string)) (args : list string)
    (ping : gmap Z pinginfo -> gmap Z pinginfo) : result * list event :=
  match parse_options k opts default_settings with
  | None => (Exit 1, [])
  | Some s =>
      match ifname s with
      | None => (Exit 1, [])
      | Some name =>
          if negb (server s) && bool_decide (args = []) then (Exit 1, []) else
          let mode_flags := Z.lor XDP_FLAGS_DRV_MODE XDP_FLAGS_SKB_MODE in
          if Z.land (xdp_flags s) mode_flags =? mode_flags then (Exit 1, []) else
          if server s then start_xdp k s name args 0 ping
          else match k_resolve k (default EmptyString (head args)) with
               | None => (Exit 1, [])
               | Some raddr => start_xdp k s name args raddr ping
               end
      end
  end.

(** ** What the client reports *)

(** The entry after the packets that the client program handles while the command runs. *)
Fixpoint handled {H : XdpHelpers} (frames : list frame) (m : gmap Z pinginfo) : gmap Z pinginfo :=
  match frames with
  | [] => m
  | f :: frames =>
      match xdping_client (Xst f m 0) with
      | Some (_, s) => handled frames (x_env s)
      | None => m
      end
  end.
Lemma handled_same {H : XdpHelpers} frames m : handled frames m = m.
Proof. induction frames as [|f frames IH]; [done|]. exact IH. Qed.

(** The options ask for a client. *)
Definition client_mode (k : host) (opts : list (ascii * string)) : Prop :=
  forall s, parse_options k opts default_settings = Some s -> server s = false.

Lemma parse_count k opts s s' : 1 <= n_count s <= 10 -> parse_options k opts s = Some s' -> 1 <= n_count s' <= 10.
Proof.
  revert s. induction opts as [|[o a] opts IH]; intros s Hs; cbn [parse_options]; [now intros [= <-]|].
  destruct (parse_option k o a s) as [s1|] eqn:E; [|discriminate]. cbn [mbind option_bind]. apply IH. revert E.
  unfold parse_option, XDPING_MAX_COUNT.
  destruct (Ascii.eqb o "c").
  { destruct (Z.ltb_spec (u16 (atoi a)) 1), (Z.gtb_spec (u16 (atoi a)) 10); cbn [orb]; try discriminate.
    intros [= <-]. cbn. lia. }
  destruct (Ascii.eqb o "I"); [destruct (negb _); [discriminate|]|].
  all: repeat match goal with |- context [Ascii.eqb ?x ?y] => destruct (Ascii.eqb x y) end; try discriminate.
  all: now intros [= <-].
Qed.

(** The entry has no samples, so nothing is reported. *)
Lemma no_samples n raddr info : 1 <= n -> times info = repeat 0 10 ->
  (get_stats n raddr {[ raddr := info ]}).1 = 1.
Proof.
  intros Hn Ht. unfold get_stats. rewrite lookup_singleton_eq, Ht.
  replace (Z.to_nat n) with (S (Z.to_nat (n - 1))) by lia. cbn [repeat samples].
  change (0 =? 0) with true. cbv iota. destruct (Z.ltb_spec (Z.of_nat 0) n); [done|lia].
Qed.

(** A failure; and when the ping was run, which one: 1 if the ping succeeded, else the wait
    status of the ping, of which the shell sees the low byte. *)
Definition failure (k : host) (ret : Z) (evs : list event) : Prop :=
  ret <> 0 /\ forall n name dest e, Ping n name dest ∈ evs -> k_system k = 256 * e -> 0 <= e < 256 ->
    ret = (if e =? 0 then 1 else 256 * e) /\ u8 ret = (if e =? 0 then 1 else 0).

Lemma early_failure k : failure k 1 [].
Proof. split; [done|]. intros n nm dest e He. now apply elem_of_nil in He. Qed.

Lemma run_client_fails {H : XdpHelpers} k s name dest raddr frames : 1 <= n_count s ->
  exists ret evs m, run_client k s name dest raddr (handled frames) = (ret, evs, m)
    /\ forall i fd flags, failure k ret (Attach i fd flags :: evs).
Proof.
  intros Hn. unfold run_client. destruct (k_update k); cbn [negb].
  2:{ eexists _, _, _. split; [reflexivity|]. intros i fd flags. split; [done|].
      intros n nm d e He. rewrite !elem_of_cons, elem_of_nil in He. destruct He as [He|[He|[]]]; discriminate. }
  rewrite handled_same. pose proof (no_samples (n_count s) raddr (PingInfo 0 (bswap16 (n_count s)) (n_count s) (repeat 0 10)) Hn eq_refl) as Hs.
  destruct (Z.eqb_spec (k_system k) 0) as [E|E]; unfold nz.
  - rewrite E. cbn [Z.eqb negb]. destruct (get_stats _ _ _) as [ret m]. cbn [fst] in Hs. subst ret.
    eexists _, _, _. split; [reflexivity|]. intros i fd flags. split; [done|]. intros n nm d e _ He Hr.
    assert (e = 0) as -> by lia. now split.
  - rewrite (proj2 (Z.eqb_neq _ _) E). cbn [negb]. eexists _, _, _. split; [reflexivity|]. intros i fd flags.
    split; [done|]. intros n nm d e _ He Hr. destruct (Z.eqb_spec e 0); [lia|]. split; [done|].
    unfold u8. rewrite He. zlia.
Qed.

(** The tool as a client never returns 0, whatever packets arrive and whatever the host says.
    The object of xdping.c has no program for it, so it ends with 1 before anything is
    attached.  With the object of xdping_no_check.c, whose client program measures nothing, a
    ping that succeeds is reported as a failure, and one that fails as a success: the wait
    status of the ping is returned, and its low byte is 0. *)
Lemma client_fails {H : XdpHelpers} k opts args frames : client_mode k opts ->
  (k_program k "xdping_client" = None -> main k opts args (handled frames) = (Exit 1, [])) /\
  exists ret evs, main k opts args (handled frames) = (Exit ret, evs) /\ failure k ret evs.
Proof.
  intros Hc. unfold main. destruct (parse_options k opts default_settings) as [s|] eqn:Ho;
    [|split; [done|eauto using early_failure]].
  pose proof (Hc s Ho) as Hs. rewrite Hs. apply parse_count in Ho; [|now compute].
  destruct (ifname s) as [name|]; [|split; [done|eauto using early_failure]]. cbn [negb andb].
  destruct (bool_decide (args = [])); [split; [done|eauto using early_failure]|].
  destruct (Z.land _ _ =? _); [split; [done|eauto using early_failure]|].
  destruct (k_resolve k _) as [raddr|]; [|split; [done|eauto using early_failure]].
  unfold start_xdp. rewrite Hs.
  destruct (k_open k _); [|split; [done|eauto using early_failure]].
  destruct (k_load k); [|split; [done|eauto using early_failure]]. cbn [negb].
  split; [intros ->; done|].
  destruct (k_program k "xdping_client") as [fd|]; [|eauto using early_failure].
  destruct (fd <? 0); [eauto using early_failure|].
  destruct (k_map k) as [map_fd|]; [|eauto using early_failure].
  destruct (map_fd <? 0); [eauto using early_failure|].
  destruct (run_client_fails k s name (default EmptyString (head args)) raddr frames) as (ret & evs & m & -> & Hf); [lia|].
  eexists _, _. split; [reflexivity|apply Hf].
Qed.

(** The tool as a server attaches the program and stays for ever. *)
Lemma server_runs k opts args ping s name prog_fd map_fd :
  parse_options k opts default_settings = Some s -> server s = true -> ifname s = Some name ->
  Z.land (xdp_flags s) 6 <> 6 -> (forall btf, k_open k btf = true) -> k_load k = true ->
  k_program k "xdp_pass" = Some prog_fd -> 0 <= prog_fd -> k_map k = Some map_fd -> 0 <= map_fd ->
  main k opts args ping = (Forever, [Attach (ifindex s) prog_fd (xdp_flags s)]).
Proof.
  intros Ho Hs Hn Hf Hop Hl Hp Hfd Hm Hmfd. unfold main, start_xdp. rewrite Ho, Hn, Hs, Hop, Hl, Hp, Hm. cbn [negb andb].
  change (Z.lor XDP_FLAGS_DRV_MODE XDP_FLAGS_SKB_MODE) with 6.
  now rewrite (proj2 (Z.eqb_neq _ _) Hf), (proj2 (Z.ltb_ge _ _) Hfd), (proj2 (Z.ltb_ge _ _) Hmfd).
Qed.

(** 65537 is accepted as a count of 1. *)
Example count_wraps k : option_map n_count (parse_option k "c" "65537" default_settings) = Some 1.
Proof. vm_compute. reflexivity. Qed.

(** ** A host on which everything works *)

Definition some_host (status : Z) : host := {|
  k_ifindex := fun _ => 3; k_resolve := fun _ => Some 33554442; k_open := fun _ => true; k_load := true;
  k_program := fun _ => Some 7; k_map := Some 8; k_attach := true; k_update := true; k_system := status |}.
Definition ping_args : list (ascii * string) := [("I"%char, "eth0"%string)].

(** A ping that succeeds ends with 1, one that fails with 0 for the shell. *)
Example ping_inverted :
  let run status := main (some_host status) ping_args ["10.0.0.2"%string] (fun m => m) in
  run 0 = (Exit 1, [Attach 3 7 1; Ping 4 "eth0" "10.0.0.2"; Detach 3 1]) /\
  run 256 = (Exit 256, [Attach 3 7 1; Ping 4 "eth0" "10.0.0.2"; Detach 3 1]) /\ u8 256 = 0.
Proof. vm_compute. repeat split. Qed.
