(* ===== verification/XdpSamples.v ===== *)
(** * The small sample programs (src/xdp_progs)

    The benchmark programs that echo packets (xdp_tx, xdp_map_access, xdp_hash_sum,
    xdp_csum and its variant without a map, xdp-maps), the drop and pass programs,
    the ones that report TCP packets to a ring buffer (xdp-tcpclassify,
    xdp-observer, xdp-dump), and the access control list.  Each is a Module. *)
From Stdlib Require Import ZArith Lia Setoid.
From stdpp Require Import base numbers list option gmap.
From S2P Require Import Prelude Xdp OnesComplement XdpRun RuntimeHelpers XdpLb.
#[local] Open Scope Z_scope.

(** A BPF array of [n] numbers; element [k] exists and starts as zero. *)
Definition array_get (n : Z) (m : gmap Z Z) (k : Z) : option Z :=
  if (0 <=? k) && (k <? n) then Some (default 0 (m !! k)) else None.
Definition array_incr (k : Z) (m : gmap Z Z) : gmap Z Z := <[k := u64 (default 0 (m !! k) + 1)]> m.

(** A BPF ring buffer, as the records its reader will see: [bpf_ringbuf_output]
    appends the record, or fails when there is no room. *)
Class RingBuffer := { rb_output : forall V, list V -> V -> Z * list V }.
Class RingBufferLaws (R : RingBuffer) : Prop := {
  rb_output_done V (l : list V) v : (rb_output V l v).1 = 0 -> (rb_output V l v).2 = l ++ [v];
  rb_output_full V (l : list V) v : (rb_output V l v).1 <> 0 -> (rb_output V l v).2 = l
}.
Definition ringbuf_output {R : RingBuffer} {V} (v : V) : xdp (list V) Z := fun s =>
  let '(r, l) := rb_output V (x_env s) v in Some (r, Xst (x_frame s) l (x_tick s)).

(** ** Passing, dropping and echoing *)

Module Echo.
(** @src xdp_progs/xdp_pass.bpf.c 10-14 xdp_pass *)
Definition xdp_pass {E} : xdp E Z := mret XDP_PASS.

(** @src xdp_progs/xdp_tx.bpf.c 26-47 xdp_pass *)
Definition xdp_tx {E} : xdp E Z :=
  need 14 else XDP_PASS ;;
  swap_src_dst_mac ;;
  mret XDP_TX.

(** @src xdp_progs/xdp_drop.bpf.c 14-41 xdp_pass *)
Definition xdp_drop {E} : xdp E Z :=
  need 14 else XDP_ABORTED ;;
  h_proto ← load16 12;
  if negb (bswap16 h_proto =? 0x0800) then mret XDP_PASS else
  need (14 + 20) else XDP_ABORTED ;;
  protocol ← load8 (14 + 9);
  if negb (protocol =? 6) then mret XDP_PASS else
  need (14 + 20 + 20) else XDP_ABORTED ;;
  mret XDP_DROP.
End Echo.

Module MapAccess.
(** @src xdp_progs/xdp_map_access.bpf.c 21-22 CTRL_ARRAY_SIZE *)
Definition CTRL_ARRAY_SIZE : Z := 2.
Definition CNTRS_ARRAY_SIZE : Z := 512.
(** @src xdp_progs/xdp_map_access.bpf.c 24-36 cntrs_array *)
Record maps := Maps { ctl_array : gmap Z Z; cntrs_array : gmap Z Z }.

(** @src xdp_progs/xdp_map_access.bpf.c 54-75 xdp_pass *)
Definition xdp_map_access : xdp maps Z :=
  flag ← asks (fun m => array_get CTRL_ARRAY_SIZE (ctl_array m) 0);
  match flag with
  | None => mret XDP_PASS
  | Some flag =>
      if negb (flag =? 0) then mret XDP_PASS else
      cntr_val ← asks (fun m => array_get CNTRS_ARRAY_SIZE (cntrs_array m) 0);
      when (match cntr_val with Some _ => true | None => false end)
        (modify (fun m => Maps (ctl_array m) (array_incr 0 (cntrs_array m)))) ;;
      need 14 else XDP_DROP ;;
      swap_src_dst_mac ;;
      mret XDP_TX
  end.
End MapAccess.

Module Sizes.
(** The map from packet sizes to counts.  An update of a hash map of
    [max_entries] entries that would add one more fails.
    @src xdp_progs/xdp-maps.bpf.c 4-10 packet_size_distribute *)
Definition MAX_ENTRIES : Z := 8192.
Definition update_elem (m : gmap Z Z) (k v : Z) : gmap Z Z :=
  match m !! k with
  | Some _ => <[k := v]> m
  | None => if Z.of_nat (size m) <? MAX_ENTRIES then <[k := v]> m else m
  end.

(** @src xdp_progs/xdp-maps.bpf.c 28-49 xdp_pass *)
Definition xdp_maps : xdp (gmap Z Z) Z :=
  pkt_sz ← data_len;
  value ← asks (fun m => m !! pkt_sz);
  let count := match value with Some value => s32 (value + 1) | None => 0 end in
  modify (fun m => update_elem m pkt_sz count) ;;
  need 14 else XDP_DROP ;;
  swap_src_dst_mac ;;
  mret XDP_TX.
End Sizes.

(** ** Checksum and hash *)

Module Csum.
(** @src xdp_progs/xdp_csum.bpf.c 11-13 LOOP_LEN *)
Definition LOOP_LEN : nat := 32.
Definition ETH_P_IP : Z := 0x0800.
(** @src xdp_progs/xdp_csum.bpf.c 38-41 csum_fold_helper *)
Definition csum_fold_helper (csum : Z) : Z := u16 (Z.lnot (Z.land csum 0xffff + Z.shiftr csum 16)).

Section program.
Context {H : XdpHelpers} {E : Type}.

(** The result is the new [*csum].
    @src xdp_progs/xdp_csum.bpf.c 43-48 ipv4_csum *)
Definition ipv4_csum (data_start : Z) (data_size : nat) (csum : Z) : xdp E Z :=
  bs ← load data_size data_start;
  let csum := u32 (h_csum_diff [] bs csum) in
  mret (csum_fold_helper csum).

(** The loop; [n] turns are left.  The lookup in it has no effect.
    @src xdp_progs/xdp_csum.bpf.c 80-84 xdp_pass *)
Fixpoint csum_loop (n : nat) (iph csum : Z) : xdp E Z :=
  match n with
  | O => mret csum
  | S n =>
      csum ← ipv4_csum iph 20 csum;
      store16 (iph + 10) csum ;;
      csum_loop n iph csum
  end.

(** @src xdp_progs/xdp_csum_only.bpf.c 43-86 xdp_pass *)
Definition xdp_csum_only : xdp E Z :=
  need 14 else XDP_PASS ;;
  h_proto ← load16 12;
  if negb (h_proto =? bswap16 ETH_P_IP) then mret XDP_PASS else
  need (14 + 20) else XDP_PASS ;;
  csum_loop LOOP_LEN 14 0 ;;
  swap_src_dst_mac ;;
  mret XDP_TX.
End program.

(** The same with a counter, element 23 of [rxcnt].
    @src xdp_progs/xdp_csum.bpf.c 50-93 xdp_pass *)
Definition xdp_csum {H : XdpHelpers} : xdp (gmap Z Z) Z :=
  need 14 else XDP_PASS ;;
  h_proto ← load16 12;
  if negb (h_proto =? bswap16 ETH_P_IP) then mret XDP_PASS else
  need (14 + 20) else XDP_PASS ;;
  csum_loop LOOP_LEN 14 0 ;;
  value ← asks (fun rxcnt => array_get 256 rxcnt 23);
  when (match value with Some _ => true | None => false end) (modify (array_incr 23)) ;;
  swap_src_dst_mac ;;
  mret XDP_TX.
End Csum.

Module HashSum.
(** The sum and the hash are the functions that XdpLb.v defines; the text is the
    same in both files.
    @src xdp_progs/xdp_hash_sum.bpf.c 96-135 xdp_pass *)
Definition xdp_hash_sum {E} : xdp E Z :=
  need 14 else XDP_PASS ;;
  h_proto ← load16 12;
  if negb (h_proto =? bswap16 0x0800) then mret XDP_PASS else
  let iph := 14 in
  need (iph + 20) else XDP_PASS ;;
  L ← data_len;
  if 1200 <? L then mret XDP_PASS else
  need 60 else XDP_PASS ;;
  need (iph + 20 + 8) else XDP_PASS ;;
  data ← load 60 0;
  let sum := calculate_checksum data in
  let hash_and_sum_res := HashAndSum sum (xxhash32 data sum) in
  store (iph + 20) (hash_and_sum_bytes hash_and_sum_res) ;;
  swap_src_dst_mac ;;
  mret XDP_TX.
End HashSum.

(** ** Reporting TCP packets *)

Module Classify.
(** @src xdp_progs/xdp-tcpclassify.bpf.c 5-19 event *)
Record event := Event {
  e_sport : Z; e_dport : Z; e_sip : Z; e_dip : Z;
  e_syn : Z; e_fin : Z; e_rst : Z; e_psh : Z; e_ack : Z;
  e_http : Z; e_len : Z; e_data : list Z }.
Definition set_http (x : Z) (e : event) : event :=
  Event (e_sport e) (e_dport e) (e_sip e) (e_dip e) (e_syn e) (e_fin e) (e_rst e) (e_psh e) (e_ack e) x (e_len e) (e_data e).
(** [bpf_xdp_load_bytes] into the first bytes of [data]. *)
Definition load_data (bs : list Z) (e : event) : event :=
  Event (e_sport e) (e_dport e) (e_sip e) (e_dip e) (e_syn e) (e_fin e) (e_rst e) (e_psh e) (e_ack e) (e_http e) (e_len e)
    (bs ++ drop (length bs) (e_data e)).

(** The flag [bit] of byte 13 of a TCP header. *)
Definition tcp_flag (flags bit : Z) : Z := Z.land (Z.shiftr flags bit) 1.

(** The bytes of the two buffers, as far as the comparison goes.
    @src xdp_progs/tcpclassify.bpf.aot.c 53-66 bpf_strncmp *)
Fixpoint strncmp_bytes (n : nat) (s1 s2 : list Z) : Z :=
  match n, s1, s2 with
  | S n, c1 :: s1, c2 :: s2 =>
      if negb (c1 =? c2) then c1 - c2
      else if c1 =? 0 then 0
      else strncmp_bytes n s1 s2
  | _, _, _ => 0
  end.
(** The first difference of four bytes.
    @src xdp_progs/tcpclassify.bpf.aot.c 45-51 bpf_strncmp *)
Fixpoint first_difference (s1 s2 : list Z) : Z :=
  match s1, s2 with
  | c1 :: s1, c2 :: s2 => if negb (c1 =? c2) then c1 - c2 else first_difference s1 s2
  | _, _ => 0
  end.
(** @src xdp_progs/tcpclassify.bpf.aot.c 39-68 bpf_strncmp *)
Definition bpf_strncmp (s1 : list Z) (n : nat) (s2 : list Z) : Z :=
  if Nat.eqb n 4 then
    if negb (le_join (take 4 s1) =? le_join (take 4 s2)) then first_difference (take 4 s1) (take 4 s2) else 0
  else strncmp_bytes n s1 s2.

Definition HTTP : list Z := [72; 84; 84; 80].

Section program.
Context {R : RingBuffer}.

(** [e] starts as whatever the stack held.
    @src xdp_progs/xdp-tcpclassify.bpf.c 43-114 xdp_pass *)
Definition xdp_tcpclassify (e : event) : xdp (list event) Z :=
  need 14 else XDP_PASS ;;
  h_proto ← load16 12;
  if negb (bswap16 h_proto =? 0x0800) then mret XDP_PASS else
  let iph := 14 in
  need (14 + 20) else XDP_PASS ;;
  protocol ← load8 (iph + 9);
  if negb (protocol =? 6) then mret XDP_PASS else
  let tcph := 14 + 20 in
  need (14 + 20 + 20) else XDP_PASS ;;
  saddr ← load32 (iph + 12);
  daddr ← load32 (iph + 16);
  source ← load16 tcph;
  dest ← load16 (tcph + 2);
  flags ← load8 (tcph + 13);
  len ← data_len;
  let e := Event (bswap16 source) (bswap16 dest) (s32 saddr) (s32 daddr)
    (tcp_flag flags 1) (tcp_flag flags 0) (tcp_flag flags 2) (tcp_flag flags 3) (tcp_flag flags 4)
    (e_http e) (u32 len) (e_data e) in
  offset ← load8 (tcph + 12);
  let tcp_paload := tcph + Z.shiftr offset 4 * 4 in
  e ← (if tcp_paload + 4 <? len then
         bs ← load 4 0;
         let e := load_data bs e in
         mret (if bpf_strncmp (e_data e) 4 HTTP =? 0 then set_http 1 e else set_http 0 e)
       else mret e);
  e ← (if 60 <? len then bs ← load 60 0; mret (load_data bs e) else mret e);
  ringbuf_output e ;;
  swap_src_dst_mac ;;
  mret XDP_TX.
End program.
End Classify.

Module Observer.
(** @src xdp_progs/xdp-observer/main.h 4-18 event *)
Record observer_event := Event {
  o_sport : Z; o_dport : Z; o_sip : Z; o_dip : Z;
  o_syn : Z; o_fin : Z; o_rst : Z; o_psh : Z; o_ack : Z }.

(** @src xdp_progs/xdp-observer/main.bpf.c 28-99 xdp_pass *)
Definition xdp_observer {R : RingBuffer} : xdp (list observer_event) Z :=
  need 14 else XDP_PASS ;;
  h_proto ← load16 12;
  if negb (bswap16 h_proto =? 0x0800) then mret XDP_PASS else
  let iph := 14 in
  need (14 + 20) else XDP_PASS ;;
  protocol ← load8 (iph + 9);
  if negb (protocol =? 6) then mret XDP_PASS else
  let tcph := 14 + 20 in
  need (14 + 20 + 20) else XDP_PASS ;;
  saddr ← load32 (iph + 12);
  daddr ← load32 (iph + 16);
  source ← load16 tcph;
  dest ← load16 (tcph + 2);
  flags ← load8 (tcph + 13);
  ringbuf_output (Event (bswap16 source) (bswap16 dest) (s32 saddr) (s32 daddr)
    (Classify.tcp_flag flags 1) (Classify.tcp_flag flags 0) (Classify.tcp_flag flags 2)
    (Classify.tcp_flag flags 3) (Classify.tcp_flag flags 4)) ;;
  swap_src_dst_mac ;;
  mret XDP_TX.
End Observer.

Module Dump.
(** @src xdp_progs/xdp-dump/main.h 4-8 event *)
Record dump_event := Event { d_len : Z; d_data : list Z }.

(** @src xdp_progs/xdp-dump/main.bpf.c 12-28 xdp_pass *)
Definition xdp_dump {R : RingBuffer} : xdp (list dump_event) Z :=
  L ← data_len;
  let len := u32 L in
  let load_size := if 256 <? len then 256 else len in
  if load_size <? 14 then mret XDP_PASS else
  bs ← load (Z.to_nat load_size) 0;
  ringbuf_output (Event len (bs ++ replicate (400 - length bs) 0)) ;;
  mret XDP_PASS.
End Dump.

(** ** The access control list *)

Module Acl.
(** @src xdp_progs/xdp-acl/standard_acl.bpf.c 9-17 my_mac *)
Definition my_mac : list Z := [0x90; 0xe2; 0xba; 0xf7; 0x32; 0x69].
Definition source_mac : list Z := [0x90; 0xe2; 0xba; 0xf7; 0x30; 0x1d].
Definition target_mac : list Z := [0x90; 0xe2; 0xba; 0xf7; 0x31; 0xcd].

(** The loop over [size] bytes; it stops after two equal zero bytes.
    @src xdp_progs/xdp-acl/standard_acl.bpf.c 19-29 _strcmp *)
Fixpoint _strcmp (buf1 buf2 : list Z) (size : nat) : Z :=
  match size, buf1, buf2 with
  | S size, c1 :: buf1, c2 :: buf2 =>
      if negb (c1 =? c2) then (if c1 <? c2 then -1 else 1)
      else if c1 =? 0 then 0
      else _strcmp buf1 buf2 size
  | _, _, _ => 0
  end.

(** @src xdp_progs/xdp-acl/standard_acl.bpf.c 31-34 ipv4_lpm_key *)
Record ipv4_lpm_key := Ipv4LpmKey { k4_prefixlen : Z; k4_data : Z }.
(** @src xdp_progs/xdp-acl/standard_acl.bpf.c 36-39 ipv6_lpm_key *)
Record ipv6_lpm_key := Ipv6LpmKey { k6_prefixlen : Z; k6_data : list Z }.

(** The tries are the kernel's; only user space writes them. *)
(** @src xdp_progs/xdp-acl/standard_acl.bpf.c 41-57 ipv4_rules_trie *)
Class Rules := {
  ipv4_rules_trie : ipv4_lpm_key -> option bool;
  ipv6_rules_trie : ipv6_lpm_key -> option bool
}.

(** @src xdp_progs/xdp-acl/standard_acl.bpf.c 59-140 xdp_standard_acl *)
Definition xdp_standard_acl {R : Rules} {E} : xdp E Z :=
  need 14 else XDP_DROP ;;
  h_proto ← load16 12;
  if (h_proto =? bswap16 0x0800) || (h_proto =? bswap16 0x86DD) then
    permitted_src ←? (if h_proto =? bswap16 0x0800 then
                        let iph := 14 in
                        need (iph + 20) else (inl XDP_DROP) ;;
                        src_ip ← load32 (iph + 12);
                        mret (inr (ipv4_rules_trie (Ipv4LpmKey 32 src_ip)))
                      else
                        let ipv6h := 14 in
                        need (ipv6h + 40) else (inl XDP_DROP) ;;
                        src_ip ← load 16 (ipv6h + 8);
                        mret (inr (ipv6_rules_trie (Ipv6LpmKey 128 src_ip))));
    if default false permitted_src then
      h_source ← load 6 6;
      h_dest ← load 6 0;
      if negb (nz (_strcmp h_source source_mac 6) || nz (_strcmp h_dest my_mac 6)) then
        store 6 my_mac ;;
        store 0 target_mac ;;
        mret XDP_TX
      else mret XDP_PASS
    else mret XDP_DROP
  else mret XDP_PASS.
End Acl.

(** ** The checksum benchmark *)

(** The header [h] with checksum [c]. *)
Definition with_check (h : list Z) (c : Z) : list Z := take 10 h ++ le_split 2 c ++ drop 12 h.
Definition check_of (h : list Z) : Z := le_join (take 2 (drop 10 h)).

(** One turn of the loop on the sum [w] of the other words: the checksum in the
    header is the seed as well and so counts twice. *)
Definition next_check (w c : Z) : Z := 65535 - oc_norm (w + 2 * c).

Lemma next_check_mod w c K :
  0 < w -> 0 <= c -> w =oc - K -> next_check w c = (K - 2 * c) mod 65535.
Proof.
  intros Hw Hc HK. unfold next_check.
  assert (oc_norm (w + 2 * c) <> 0) as H0.
  { unfold oc_norm. destruct (Z.eqb_spec (w + 2 * c) 0); zlia. }
  pose proof (oc_norm_range (w + 2 * c)) as Hr.
  assert (65535 - oc_norm (w + 2 * c) =oc K - 2 * c) as Hoc.
  { rewrite oc_norm_oc, HK. unfold oc. replace (65535 - (- K + 2 * c)) with (K - 2 * c + 1 * 65535) by lia.
    now rewrite Z.mod_add by lia. }
  unfold oc in Hoc. rewrite <- Hoc. symmetry. apply Z.mod_small. lia.
Qed.

(** The coefficients of the original checksum after [n] turns: 0, 1, -1, 3, -5 .. *)
Definition coefficient (n : nat) : Z := Nat.iter n (fun a => 1 - 2 * a) 0.

Lemma checks_after w K n :
  0 < w -> w =oc - K ->
  Nat.iter n (next_check w) 0 = (coefficient n * K) mod 65535.
Proof.
  intros Hw HK. induction n as [|n IH]; [done|].
  change (Nat.iter (S n) (next_check w) 0) with (next_check w (Nat.iter n (next_check w) 0)).
  change (coefficient (S n)) with (1 - 2 * coefficient n).
  rewrite IH. pose proof (Z.mod_pos_bound (coefficient n * K) 65535 ltac:(lia)).
  rewrite (next_check_mod w _ K) by (lia || done).
  generalize (coefficient n). intros a.
  rewrite Zminus_mod, Zmult_mod_idemp_r, <- Zminus_mod. f_equal. ring.
Qed.

(** After the first turn, which makes it zero, thirty-one more. *)
Lemma last_check w K : 0 < w -> w =oc - K ->
  Nat.iter 31 (next_check w) 0 = (54613 * K) mod 65535.
Proof.
  intros Hw HK. rewrite (checks_after w K) by done.
  change (coefficient 31) with 715827883. zlia.
Qed.

(** A helper that folds the sum before it adds the seed, as the runtime's does. *)
Class CsumDiffFolded (H : XdpHelpers) : Prop :=
  csum_diff_folded to seed :
    bytes_ok to -> is_u16 seed -> csum_diff_sizes [] to -> h_csum_diff [] to seed <= 131070.

#[global] Instance runtime_csum_folded sp cpu clock : CsumDiffFolded (runtime_helpers sp cpu clock).
Proof.
  intros to seed Ht Hs Hsz. cbn [h_csum_diff runtime_helpers]. unfold bpftime_csum_diff_runtime.
  apply csum_diff_guard in Hsz as ->. unfold csum_partial, is_u16 in *.
  rewrite do_csum_norm by exact Ht.
  pose proof (oc_norm_range (le_join (csum_diff_words [] to))).
  rewrite (u32_id seed), (u32_id (_ + seed)) by (unfold is_u32; lia).
  destruct (Z.ltb_spec (oc_norm (le_join (csum_diff_words [] to)) + seed) seed); [lia|].
  unfold s64. destruct (Z.ltb_spec (oc_norm (le_join (csum_diff_words [] to)) + seed) 9223372036854775808); lia.
Qed.

Section csum.
Context {H : XdpHelpers} {CL : CsumDiffLaws H} {CF : CsumDiffFolded H} {E : Type}.
Implicit Types s : xst E.

Lemma with_check_sum h c :
  length h = 20%nat -> 0 <= c <= 65535 -> sum16 (with_check h c) = sum16 (with_check h 0) + c.
Proof. intros Hh Hc. explode h Hh. unfold with_check. cbn. zlia. Qed.
Lemma with_check_ok h c : bytes_ok h -> bytes_ok (with_check h c).
Proof.
  intros Hh. unfold with_check. rewrite !bytes_ok_app. split; [now apply Forall_take|].
  split; [apply le_split_ok|now apply Forall_drop].
Qed.
Lemma with_check_length h c : length h = 20%nat -> length (with_check h c) = 20%nat.
Proof. intros Hh. unfold with_check. rewrite !length_app, length_take, length_drop, length_le_split, Hh. done. Qed.
Lemma with_check_twice h c d : length h = 20%nat -> with_check (with_check h c) d = with_check h d.
Proof. intros Hh. explode h Hh. reflexivity. Qed.
Lemma with_check_self h : length h = 20%nat -> bytes_ok h -> with_check h (check_of h) = h.
Proof.
  intros Hh Hb. unfold with_check, check_of. pose proof (le_split_join (take 2 (drop 10 h))) as Hj.
  rewrite length_take, length_drop, Hh in Hj. change (2 `min` (20 - 10))%nat with 2%nat in Hj.
  rewrite Hj by (apply Forall_take, Forall_drop, Hb).
  change 12%nat with (10 + 2)%nat. rewrite <- drop_drop, take_drop, take_drop. done.
Qed.
Lemma check_of_range h : bytes_ok h -> length h = 20%nat -> 0 <= check_of h <= 65535.
Proof.
  intros Hb Hh. unfold check_of. pose proof (le_join_range (take 2 (drop 10 h))) as Hr.
  rewrite length_take, length_drop, Hh in Hr.
  specialize (Hr (Forall_take _ _ _ (Forall_drop _ _ _ Hb))). cbn in Hr. lia.
Qed.

(** One call of [ipv4_csum]: the complement of the folded sum of header and seed. *)
Lemma ipv4_csum_runs s pre h rest c :
  f_data (x_frame s) = pre ++ h ++ rest -> zlen pre = 14 -> length h = 20%nat -> bytes_ok h ->
  is_u16 c -> 0 < sum16 h ->
  runs s (Csum.ipv4_csum 14 20 c) (65535 - oc_norm (sum16 h + c)) s.
Proof.
  intros Hd Hp Hh Hb Hc Hs.
  eapply runs_bind; [apply runs_load; now apply (slice_between _ pre h rest)|].
  eapply runs_val; [apply runs_ret|].
  assert (csum_diff_sizes [] h) as Hsz.
  { unfold csum_diff_sizes, zlen. rewrite Hh. done. }
  assert (is_u32 c) as Hc32 by (unfold is_u16, is_u32 in *; lia).
  destruct (csum_diff_done [] h c bytes_ok_nil Hb Hc32 Hsz) as [Hu Hoc].
  pose proof (csum_diff_folded h c Hb Hc Hsz) as Hf.
  pose proof (csum_diff_zero h c Hb Hc32 Hsz) as Hz.
  rewrite u32_id by done. set (x := h_csum_diff [] h c) in *.
  assert (rep x (sum16 h + c)) as Hr.
  { unfold rep, is_u16, is_u32 in *. split; [lia|]. split; [lia|]. split; [|lia].
    rewrite Hoc. cbn [sum16]. unfold oc. f_equal. lia. }
  unfold Csum.csum_fold_helper. fold (fold16 x).
  assert (fold16 x <= 65535) as H16 by (rewrite fold16_arith; unfold is_u32 in Hu; zlia).
  rewrite (rep_norm (fold16 x) _ (rep_fold16 _ _ Hr)) by done.
  pose proof (oc_norm_range (sum16 h + c)). rewrite lnot_arith. unfold u16. zlia.
Qed.

Lemma store_check_runs s eth h rest c :
  f_data (x_frame s) = eth ++ h ++ rest -> length eth = 14%nat -> length h = 20%nat ->
  runs s (store16 (14 + 10) c) tt (set_data s (eth ++ with_check h c ++ rest)).
Proof.
  intros Hd He Hh. destruct s as [[hd d tl] e k]. cbn [f_data x_frame] in Hd. subst d.
  explode eth He. explode h Hh. cbn [app]. eapply runs_eq; [xstep|]. reflexivity.
Qed.

(** The loop from a header whose checksum is the seed. *)
Lemma csum_loop_runs n s eth h rest c :
  f_data (x_frame s) = eth ++ with_check h c ++ rest -> length eth = 14%nat -> length h = 20%nat ->
  bytes_ok h -> is_u16 c -> 0 < sum16 (with_check h 0) ->
  let c' := Nat.iter n (next_check (sum16 (with_check h 0))) c in
  runs s (Csum.csum_loop n 14 c) c' (set_data s (eth ++ with_check h c' ++ rest)).
Proof.
  cbv zeta. revert s c. induction n as [|n IH]; intros s c Hd He Hh Hb Hc Hw.
  - eapply runs_eq; [apply runs_ret|]. change (s = set_data s (eth ++ with_check h c ++ rest)).
    rewrite <- Hd. now destruct s as [[] ? ?].
  - cbn [Csum.csum_loop]. unfold is_u16 in Hc.
    assert (sum16 (with_check h c) = sum16 (with_check h 0) + c) as Hsum by (apply with_check_sum; [done|lia]).
    eapply runs_bind.
    { apply (ipv4_csum_runs s eth (with_check h c) rest c Hd); auto using with_check_length, with_check_ok.
      - unfold zlen. now rewrite He.
      - rewrite Hsum. lia. }
    cbv beta. rewrite Hsum. replace (sum16 (with_check h 0) + c + c) with (sum16 (with_check h 0) + 2 * c) by lia.
    fold (next_check (sum16 (with_check h 0)) c). set (c1 := next_check _ c).
    eapply runs_bind; [apply (store_check_runs s eth (with_check h c) rest c1 Hd He); now apply with_check_length|].
    cbv beta. rewrite with_check_twice by done.
    rewrite Nat.iter_succ_r. fold c1. eapply runs_eq; [apply IH; auto|done].
    unfold c1, next_check, is_u16. pose proof (oc_norm_range (sum16 (with_check h 0) + 2 * c)). lia.
Qed.

(** The thirty-two turns on a valid header: the first makes the checksum zero. *)
Lemma csum_turns_runs s eth h rest :
  f_data (x_frame s) = eth ++ h ++ rest -> length eth = 14%nat -> length h = 20%nat ->
  bytes_ok h -> csum_ok h -> check_of h < sum16 h ->
  let c' := (54613 * check_of h) mod 65535 in
  runs s (Csum.csum_loop Csum.LOOP_LEN 14 0) c' (set_data s (eth ++ with_check h c' ++ rest)).
Proof.
  intros Hd He Hh Hb [Hm Hpos] Hlt. cbv zeta. set (K := check_of h) in *.
  pose proof (check_of_range h Hb Hh) as HK. fold K in HK.
  pose proof (with_check_sum h K Hh HK) as Hsum. unfold K in Hsum at 1.
  rewrite with_check_self in Hsum by done. set (w := sum16 (with_check h 0)) in *.
  rewrite <- (last_check w K) by (unfold oc; zlia).
  change Csum.LOOP_LEN with 32%nat. cbn [Csum.csum_loop]. eapply runs_bind.
  { apply (ipv4_csum_runs s eth h rest 0 Hd); try done. unfold zlen. now rewrite He. }
  cbv beta. replace (65535 - oc_norm (sum16 h + 0)) with 0.
  2: { unfold oc_norm. destruct (Z.eqb_spec (sum16 h + 0) 0); zlia. }
  eapply runs_bind; [now apply (store_check_runs s eth h rest 0 Hd)|]. cbv beta.
  eapply runs_eq; [eapply (csum_loop_runs 31 _ eth h rest 0); try done; fold w; lia|done].
Qed.
End csum.

Section csum_correct.
Context {H : XdpHelpers} {CL : CsumDiffLaws H} {CF : CsumDiffFolded H}.

(** C31: the checksum benchmark writes, for an IPv4 packet whose header has the valid
    checksum [K], 54613 times [K] modulo 65535 in its place, exchanges the MAC
    addresses, counts and sends; the header is then valid only when [K] is a
    multiple of 21845, because the loop neither clears the field nor the seed. *)
Theorem xdp_csum_correct (st : xst (gmap Z Z)) (m1 m2 h rest : list Z) :
  f_data (x_frame st) = m1 ++ m2 ++ [8; 0] ++ h ++ rest ->
  length m1 = 6%nat -> length m2 = 6%nat -> length h = 20%nat ->
  bytes_ok m1 -> bytes_ok m2 -> bytes_ok h -> csum_ok h -> check_of h < sum16 h ->
  let check := (54613 * check_of h) mod 65535 in
  runs st Csum.xdp_csum XDP_TX
    (Xst (Frame (f_head (x_frame st)) (m2 ++ m1 ++ [8; 0] ++ with_check h check ++ rest) (f_tail (x_frame st)))
         (array_incr 23 (x_env st)) (x_tick st))
  /\ (csum_ok (with_check h check) <-> check_of h mod 21845 = 0).
Proof.
  intros Hd H1 H2 Hh B1 B2 Bh Hok Hlt. cbv zeta. set (K := check_of h) in *.
  set (check := (54613 * K) mod 65535). assert (0 <= check < 65535) as Hc by (apply Z.mod_pos_bound; lia).
  split.
  - set (eth := m1 ++ m2 ++ [8; 0]).
    assert (He : length eth = 14%nat) by (unfold eth; rewrite !length_app, H1, H2; done).
    assert (Hd' : f_data (x_frame st) = eth ++ h ++ rest) by (unfold eth; rewrite <- !app_assoc; exact Hd).
    assert (Hl : 34 <= zlen (f_data (x_frame st))).
    { rewrite Hd', !zlen_app. unfold zlen at 1 2. rewrite He, Hh. pose proof (zlen_nonneg rest). lia. }
    unfold Csum.xdp_csum. apply run_need; [lia|].
    eapply runs_bind.
    { apply runs_load16, (slice_between _ (m1 ++ m2) [8; 0] (h ++ rest)); [now rewrite Hd, <- app_assoc| |done].
      unfold zlen. now rewrite length_app, H1, H2. }
    cbv beta. change (negb (le_join [8; 0] =? bswap16 Csum.ETH_P_IP)) with false. cbv iota.
    apply run_need; [lia|].
    eapply runs_bind; [now apply (csum_turns_runs st eth h rest Hd')|]. cbv zeta beta.
    fold K. fold check.
    eapply runs_bind; [apply runs_asks|]. cbv beta.
    eapply runs_bind; [apply runs_modify|]. cbv beta.
    eapply runs_bind; [|apply runs_ret].
    eapply runs_eq; [apply (swap_macs_runs _ m1 m2 ([8; 0] ++ with_check h check ++ rest)); try done|done].
    cbn [set_data x_frame f_data]. unfold eth. now rewrite <- !app_assoc.
  - pose proof (check_of_range h Bh Hh) as HK. fold K in HK.
    pose proof (with_check_sum h K Hh HK) as Hsum. unfold K in Hsum at 1.
    rewrite with_check_self in Hsum by done. destruct Hok as [Hm Hp].
    unfold csum_ok. rewrite (with_check_sum h check Hh) by lia. unfold check.
    split; [intros [Hc' _]|intros Hc'; split]; zlia.
Qed.
End csum_correct.

(** ** The other programs *)

Section echoes.
Context {E : Type}.
Implicit Types s : xst E.

(** The packet [d] with its two MAC addresses exchanged. *)
Definition swapped (d : list Z) : list Z := take 6 (drop 6 d) ++ take 6 d ++ drop 12 d.

Lemma swap_runs s :
  12 <= zlen (f_data (x_frame s)) -> bytes_ok (f_data (x_frame s)) ->
  runs s swap_src_dst_mac tt (set_data s (swapped (f_data (x_frame s)))).
Proof.
  intros Hl Hb. unfold zlen in Hl. apply swap_macs_runs.
  - change 12%nat with (6 + 6)%nat. now rewrite <- drop_drop, !take_drop.
  - rewrite length_take. lia.
  - rewrite length_take, length_drop. lia.
  - now apply Forall_take.
  - now apply Forall_take, Forall_drop.
Qed.

(** [xdp_tx] sends every packet that has an Ethernet header back. *)
Lemma tx_runs s :
  bytes_ok (f_data (x_frame s)) ->
  let d := f_data (x_frame s) in
  if zlen d <? 14 then runs s Echo.xdp_tx XDP_PASS s
  else runs s Echo.xdp_tx XDP_TX (set_data s (swapped d)).
Proof.
  intros Hb. cbv zeta. destruct (Z.ltb_spec (zlen (f_data (x_frame s))) 14).
  - now apply run_need_short.
  - apply run_need; [done|]. eapply runs_bind; [apply swap_runs; [lia|done]|apply runs_ret].
Qed.

(** The end of the programs that drop a short packet. *)
Lemma echo_or_drop_runs s :
  bytes_ok (f_data (x_frame s)) ->
  let d := f_data (x_frame s) in
  let m := (need 14 else XDP_DROP ;; swap_src_dst_mac ;; mret XDP_TX) in
  if zlen d <? 14 then runs s m XDP_DROP s else runs s m XDP_TX (set_data s (swapped d)).
Proof.
  intros Hb. cbv zeta. destruct (Z.ltb_spec (zlen (f_data (x_frame s))) 14).
  - now apply run_need_short.
  - apply run_need; [done|]. eapply runs_bind; [apply swap_runs; [lia|done]|apply runs_ret].
Qed.

(** The ethertype of [d]. *)
Definition ethertype (d : list Z) : Z := le_join (take 2 (drop 12 d)).
Lemma load_proto_runs s : 14 <= zlen (f_data (x_frame s)) -> runs s (load16 12) (ethertype (f_data (x_frame s))) s.
Proof. intros. apply runs_load16_at; lia. Qed.

(** [xdp_hash_sum] replaces the eight bytes behind the IP header by the sum and
    the hash of the first sixty bytes, which it takes before the exchange. *)
Lemma hash_sum_runs s :
  bytes_ok (f_data (x_frame s)) ->
  let d := f_data (x_frame s) in
  let sum := calculate_checksum (take 60 d) in
  let res := hash_and_sum_bytes (HashAndSum sum (xxhash32 (take 60 d) sum)) in
  if (zlen d <? 60) || (1200 <? zlen d) || negb (ethertype d =? 8)
  then runs s HashSum.xdp_hash_sum XDP_PASS s
  else runs s HashSum.xdp_hash_sum XDP_TX (set_data s (swapped (take 34 d ++ res ++ drop 42 d))).
Proof.
  intros Hb. cbv zeta. unfold HashSum.xdp_hash_sum. set (d := f_data (x_frame s)) in *.
  destruct (Z.ltb_spec (zlen d) 14) as [H14|H14].
  { destruct (Z.ltb_spec (zlen d) 60); [|lia]. now apply run_need_short. }
  destruct (negb (ethertype d =? 8)) eqn:Hty; rewrite ?orb_true_r, ?orb_false_r.
  { apply run_need; [done|]. eapply runs_bind; [now apply load_proto_runs|]. cbv beta. fold d. change (bswap16 2048) with 8. rewrite Hty. apply runs_ret. }
  destruct (Z.ltb_spec (zlen d) 60) as [H60|H60]; [|destruct (Z.ltb_spec 1200 (zlen d)) as [H12|H12]]; cbn [orb];
    (apply run_need; [done|]; eapply runs_bind; [now apply load_proto_runs|]; cbv beta; fold d; change (bswap16 2048) with 8; rewrite Hty; cbv zeta).
  - destruct (Z.ltb_spec (zlen d) 34); [now apply run_need_short|].
    apply run_need; [done|]. eapply runs_bind; [apply runs_data_len|]. fold d.
    destruct (Z.ltb_spec 1200 (zlen d)); [lia|]. now apply run_need_short.
  - apply run_need; [fold d; lia|]. eapply runs_bind; [apply runs_data_len|]. fold d.
    destruct (Z.ltb_spec 1200 (zlen d)); [apply runs_ret|lia].
  - apply run_need; [fold d; lia|]. eapply runs_bind; [apply runs_data_len|]. fold d.
    destruct (Z.ltb_spec 1200 (zlen d)); [lia|].
    apply run_need; [done|]. apply run_need; [fold d; lia|].
    eapply runs_bind; [apply runs_load_at; fold d; lia|]. fold d. cbv beta. change (drop (Z.to_nat 0) d) with d.
    set (res := hash_and_sum_bytes _). assert (zlen res = 8) as Hres by reflexivity.
    assert (splice 34 res d = Some (take 34 d ++ res ++ drop 42 d)) as Hsp by (apply splice_some; lia).
    destruct s as [[hd dd tl] e k]. cbn [x_frame f_data] in d. subst d.
    eapply runs_bind; [apply runs_store, Hsp|]. cbv beta.
    eapply runs_bind; [|apply runs_ret]. eapply runs_eq; [apply swap_runs|done]; cbn [x_frame f_data].
    + unfold zlen in *. rewrite !length_app, length_take. lia.
    + rewrite !bytes_ok_app. split; [now apply Forall_take|]. split; [|now apply Forall_drop].
      unfold res, hash_and_sum_bytes. rewrite bytes_ok_app. auto using le_split_ok.
Qed.
End echoes.

(** [xdp_map_access] counts and echoes packets while the flag is clear, including
    the packets it then finds too short and drops. *)
Lemma map_access_runs (s : xst MapAccess.maps) :
  bytes_ok (f_data (x_frame s)) ->
  let d := f_data (x_frame s) in
  let m := x_env s in
  let s' := Xst (x_frame s) (MapAccess.Maps (MapAccess.ctl_array m) (array_incr 0 (MapAccess.cntrs_array m))) (x_tick s) in
  if negb (default 0 (MapAccess.ctl_array m !! 0) =? 0) then runs s MapAccess.xdp_map_access XDP_PASS s
  else if zlen d <? 14 then runs s MapAccess.xdp_map_access XDP_DROP s'
  else runs s MapAccess.xdp_map_access XDP_TX (set_data s' (swapped d)).
Proof.
  intros Hb. cbv zeta.
  destruct (negb (default 0 (MapAccess.ctl_array (x_env s) !! 0) =? 0)) eqn:Hf.
  - eapply runs_bind; [apply runs_asks|]. cbn. rewrite Hf. apply runs_ret.
  - set (s1 := Xst (x_frame s) (MapAccess.Maps (MapAccess.ctl_array (x_env s))
        (array_incr 0 (MapAccess.cntrs_array (x_env s)))) (x_tick s)).
    assert (forall v s', runs s1 (need 14 else XDP_DROP ;; swap_src_dst_mac ;; mret XDP_TX) v s' ->
      runs s MapAccess.xdp_map_access v s') as Hrest.
    { intros v s' Hr. eapply runs_bind; [apply runs_asks|]. cbv beta.
      change (array_get MapAccess.CTRL_ARRAY_SIZE (MapAccess.ctl_array (x_env s)) 0)
        with (Some (default 0 (MapAccess.ctl_array (x_env s) !! 0))). cbv iota. rewrite Hf.
      eapply runs_bind; [apply runs_asks|]. cbv beta. eapply runs_bind; [apply runs_modify|]. exact Hr. }
    pose proof (echo_or_drop_runs s1 Hb) as Hr. cbn [s1 x_frame] in Hr.
    destruct (zlen (f_data (x_frame s)) <? 14); exact (Hrest _ _ Hr).
Qed.

(** ** The distribution of packet sizes *)

(** The counting part of [xdp-maps] on a packet of [k] bytes. *)
Definition count_size (m : gmap Z Z) (k : Z) : gmap Z Z :=
  Sizes.update_elem m k (match m !! k with Some value => s32 (value + 1) | None => 0 end).

Lemma sizes_runs (s : xst (gmap Z Z)) :
  bytes_ok (f_data (x_frame s)) ->
  exists v s', runs s Sizes.xdp_maps v s' /\ x_env s' = count_size (x_env s) (zlen (f_data (x_frame s)))
    /\ f_data (x_frame s') = if v =? XDP_TX then swapped (f_data (x_frame s)) else f_data (x_frame s).
Proof.
  intros Hb. set (s1 := Xst (x_frame s) (count_size (x_env s) (zlen (f_data (x_frame s)))) (x_tick s)).
  assert (forall v s', runs s1 (need 14 else XDP_DROP ;; swap_src_dst_mac ;; mret XDP_TX) v s' ->
    runs s Sizes.xdp_maps v s') as Hrest.
  { intros v s' Hr. eapply runs_bind; [apply runs_data_len|]. cbv beta.
    eapply runs_bind; [apply runs_asks|]. cbv beta zeta. eapply runs_bind; [apply runs_modify|]. exact Hr. }
  pose proof (echo_or_drop_runs s1 Hb) as Hr. cbn [s1 x_frame] in Hr.
  destruct (zlen (f_data (x_frame s)) <? 14); do 2 eexists; (split; [exact (Hrest _ _ Hr)|done]).
Qed.

Definition times (k : Z) (sizes : list Z) : Z := Z.of_nat (count_occ Z.eq_dec sizes k).

(** The map counts from zero: a size seen [n] times, [n > 0], has the count [n - 1]. *)
Lemma sizes_one_less (sizes : list Z) (k : Z) :
  zlen sizes <= Sizes.MAX_ENTRIES ->
  foldl count_size (∅ : gmap Z Z) sizes !! k = (if times k sizes =? 0 then None else Some (times k sizes - 1))
  /\ Z.of_nat (size (foldl count_size (∅ : gmap Z Z) sizes)) <= zlen sizes.
Proof.
  revert k. induction sizes as [|x sizes IH] using rev_ind; intros k Hl; [now split|].
  rewrite zlen_app, zlen_cons, zlen_nil in Hl. unfold Sizes.MAX_ENTRIES in *.
  rewrite foldl_app. cbn [foldl]. set (m := foldl count_size ∅ sizes) in *.
  destruct (IH x) as [Hx Hs]; [lia|]. destruct (IH k) as [Hk _]; [lia|].
  assert (times k (sizes ++ [x]) = times k sizes + (if decide (x = k) then 1 else 0)) as Ht.
  { unfold times. rewrite count_occ_app. cbn [count_occ]. destruct (Z.eq_dec x k), (decide (x = k)); try done; lia. }
  assert (0 <= times x sizes <= zlen sizes) as Hb.
  { unfold times, zlen. pose proof (count_occ_bound Z.eq_dec x sizes). lia. }
  rewrite Ht. unfold count_size, Sizes.update_elem, Sizes.MAX_ENTRIES. rewrite Hx.
  destruct (Z.eqb_spec (times x sizes) 0) as [H0|H0].
  - destruct (Z.ltb_spec (Z.of_nat (size m)) 8192); [|lia].
    split; [|rewrite zlen_app, zlen_cons, zlen_nil, map_size_insert_None by done; lia].
    destruct (decide (x = k)) as [->|Hne].
    + rewrite lookup_insert_eq, H0. done.
    + rewrite lookup_insert_ne, Hk by done. now rewrite Z.add_0_r.
  - split; [|rewrite zlen_app, zlen_cons, zlen_nil, map_size_insert_Some by (now rewrite Hx); lia].
    destruct (decide (x = k)) as [->|Hne].
    + rewrite lookup_insert_eq. destruct (Z.eqb_spec (times k sizes + 1) 0); [lia|]. f_equal.
      unfold s32. zlia.
    + rewrite lookup_insert_ne, Hk by done. now rewrite Z.add_0_r.
Qed.

(** ** The access control list *)

(** Without a zero byte in [b], the comparison is equality. *)
Lemma _strcmp_zero a b :
  length a = length b -> Forall (fun c => c <> 0) b ->
  nz (Acl._strcmp a b (length b)) = bool_decide (a <> b).
Proof.
  intros Hl Hb. revert a Hl. induction Hb as [|y b Hy _ IH]; intros [|x a] Hl; simpl in Hl; try lia.
  { now rewrite bool_decide_false by auto. }
  cbn [Acl._strcmp length]. destruct (Z.eqb_spec x y) as [->|Hne]; cbn [negb].
  - rewrite (proj2 (Z.eqb_neq y 0) Hy), IH by lia. apply bool_decide_ext. split; congruence.
  - rewrite bool_decide_true by congruence. now destruct (x <? y).
Qed.

Section acl.
Context {R : Acl.Rules} {E : Type}.
Implicit Types s : xst E.

(** What the list says of the source of the packet [d]: [None] for a packet that
    is not IP, [Some false] for one that is cut short or not permitted. *)
Definition acl_permits (d : list Z) : option bool :=
  if ethertype d =? 8 then
    Some ((34 <=? zlen d) && default false (Acl.ipv4_rules_trie (Acl.Ipv4LpmKey 32 (le_join (take 4 (drop 26 d))))))
  else if ethertype d =? 56710 then
    Some ((54 <=? zlen d) && default false (Acl.ipv6_rules_trie (Acl.Ipv6LpmKey 128 (take 16 (drop 22 d)))))
  else None.

(** The verdict and the packet. *)
Definition acl_outcome (d : list Z) : Z * list Z :=
  if zlen d <? 14 then (XDP_DROP, d) else
  match acl_permits d with
  | None => (XDP_PASS, d)
  | Some false => (XDP_DROP, d)
  | Some true =>
      if bool_decide (take 6 (drop 6 d) = Acl.source_mac /\ take 6 d = Acl.my_mac)
      then (XDP_TX, Acl.target_mac ++ Acl.my_mac ++ drop 12 d)
      else (XDP_PASS, d)
  end.

Lemma set_data_id s : set_data s (f_data (x_frame s)) = s.
Proof. now destruct s as [[] ? ?]. Qed.

(** The part behind the lookup. *)
Lemma acl_forward_runs s (p : bool) :
  14 <= zlen (f_data (x_frame s)) ->
  let d := f_data (x_frame s) in
  let o := if p then if bool_decide (take 6 (drop 6 d) = Acl.source_mac /\ take 6 d = Acl.my_mac)
                     then (XDP_TX, Acl.target_mac ++ Acl.my_mac ++ drop 12 d) else (XDP_PASS, d)
           else (XDP_DROP, d) in
  runs s (if p then
      h_source ← load 6 6;
      h_dest ← load 6 0;
      if negb (nz (Acl._strcmp h_source Acl.source_mac 6) || nz (Acl._strcmp h_dest Acl.my_mac 6)) then
        store 6 Acl.my_mac ;; store 0 Acl.target_mac ;; mret XDP_TX
      else mret XDP_PASS
    else mret XDP_DROP) o.1 (set_data s o.2).
Proof.
  intros Hl. cbv zeta. set (d := f_data (x_frame s)) in *.
  assert (forall v : Z, runs s (mret v) v (set_data s d)) as Hret.
  { intros v. unfold d. rewrite set_data_id. apply runs_ret. }
  destruct p; [|apply Hret].
  eapply runs_bind; [apply runs_load_at; fold d; lia|].
  eapply runs_bind; [apply runs_load_at; fold d; lia|]. cbv beta. fold d.
  change (drop (Z.to_nat 6) d) with (drop 6 d). change (drop (Z.to_nat 0) d) with d.
  assert (length (take 6 (drop 6 d)) = 6%nat /\ length (take 6 d) = 6%nat) as [H6 H0].
  { unfold zlen in Hl. rewrite !length_take, length_drop. lia. }
  assert (nz (Acl._strcmp (take 6 (drop 6 d)) Acl.source_mac 6) = bool_decide (take 6 (drop 6 d) <> Acl.source_mac)
    /\ nz (Acl._strcmp (take 6 d) Acl.my_mac 6) = bool_decide (take 6 d <> Acl.my_mac)) as [-> ->].
  { split; [apply (_strcmp_zero _ Acl.source_mac)|apply (_strcmp_zero _ Acl.my_mac)];
      first [done | repeat constructor; done]. }
  destruct (decide (take 6 (drop 6 d) = Acl.source_mac)) as [Hs|Hs].
  2: { rewrite (bool_decide_true (take 6 (drop 6 d) <> _)), (bool_decide_false (_ /\ _)) by tauto. apply Hret. }
  destruct (decide (take 6 d = Acl.my_mac)) as [Hd|Hd].
  2: { rewrite (bool_decide_true (take 6 d <> _)), orb_true_r, (bool_decide_false (_ /\ _)) by tauto. apply Hret. }
  rewrite (bool_decide_false (take 6 (drop 6 d) <> _)), (bool_decide_false (take 6 d <> _)),
    (bool_decide_true (_ /\ _)) by tauto.
  cbn [negb orb fst snd].
  assert (d = take 12 d ++ drop 12 d) as Hcut by now rewrite take_drop.
  assert (length (take 12 d) = 12%nat) as H12 by (unfold zlen in Hl; rewrite length_take; lia).
  revert Hcut H12. generalize (take 12 d) (drop 12 d). intros x y Hcut H12. clear H0 H6 Hs Hd Hret.
  destruct s as [[hd dd tl] e k]. cbn [x_frame f_data] in d. subst d. clear Hl. subst dd.
  explode x H12. cbn [app]. unfold Acl.my_mac, Acl.target_mac.
  xstep; [xstep|]. xstep; [xstep|]. apply runs_ret.
Qed.

(** The program is its list: IP packets whose source is not permitted, or that are
    too short to tell, are dropped; permitted ones between the two configured
    interfaces are forwarded with new MAC addresses, and other ones are passed on. *)
Lemma acl_runs s :
  let o := acl_outcome (f_data (x_frame s)) in
  runs s Acl.xdp_standard_acl o.1 (set_data s o.2).
Proof.
  cbv zeta. unfold Acl.xdp_standard_acl, acl_outcome. set (d := f_data (x_frame s)).
  assert (forall v : Z, runs s (mret v) v (set_data s d)) as Hret.
  { intros v. unfold d. rewrite set_data_id. apply runs_ret. }
  destruct (Z.ltb_spec (zlen d) 14) as [Hl|Hl].
  { eapply runs_eq; [now apply run_need_short|]. unfold d. now rewrite set_data_id. }
  apply run_need; [done|]. eapply runs_bind; [now apply load_proto_runs|]. cbv beta. fold d.
  change (bswap16 2048) with 8. change (bswap16 0x86DD) with 56710. unfold acl_permits.
  destruct (Z.eqb_spec (ethertype d) 8) as [H4|H4]; cbn [orb].
  - destruct (Z.leb_spec 34 (zlen d)) as [H34|H34].
    + eapply runs_bind with (s1 := s).
      { apply run_need; [done|]. eapply runs_bind; [apply runs_load32_at; fold d; lia|apply runs_ret]. }
      cbn [andb]. fold d. change (Z.to_nat (14 + 12)) with 26%nat.
      now apply acl_forward_runs.
    + eapply runs_bind with (s1 := s); [now apply run_need_short|]. apply Hret.
  - destruct (Z.eqb_spec (ethertype d) 56710) as [H6|H6]; [|apply Hret].
    destruct (Z.leb_spec 54 (zlen d)) as [H54|H54].
    + eapply runs_bind with (s1 := s).
      { apply run_need; [done|]. eapply runs_bind; [apply runs_load_at; fold d; lia|apply runs_ret]. }
      cbn [andb]. fold d. change (Z.to_nat (14 + 8)) with 22%nat.
      now apply acl_forward_runs.
    + eapply runs_bind with (s1 := s); [now apply run_need_short|]. apply Hret.
Qed.

(** nothing passes the list that it does not permit.  Whatever the packet, the
    program returns; what it lets through or forwards is not IP, or has a complete
    IP header whose source address is permitted; what it forwards came from the
    configured source to the configured interface, and only its MAC addresses
    have changed. *)
Theorem acl_filters s :
  let d := f_data (x_frame s) in
  exists v d', runs s Acl.xdp_standard_acl v (set_data s d') /\ (v = XDP_DROP \/ v = XDP_PASS \/ v = XDP_TX)
  /\ (v <> XDP_DROP -> 14 <= zlen d /\ acl_permits d <> Some false)
  /\ (v = XDP_TX -> acl_permits d = Some true /\ take 6 (drop 6 d) = Acl.source_mac /\ take 6 d = Acl.my_mac
        /\ d' = Acl.target_mac ++ Acl.my_mac ++ drop 12 d)
  /\ (v <> XDP_TX -> d' = d)
  /\ (v = XDP_DROP <-> zlen d < 14 \/ acl_permits d = Some false).
Proof.
  cbv zeta. pose proof (acl_runs s) as Hr. cbv zeta in Hr. set (d := f_data (x_frame s)) in *.
  exists (acl_outcome d).1, (acl_outcome d).2. split; [done|]. clear Hr. unfold acl_outcome.
  unfold XDP_DROP, XDP_PASS, XDP_TX in *.
  destruct (Z.ltb_spec (zlen d) 14); [cbn; naive_solver lia|].
  destruct (acl_permits d) as [[]|]; [case_bool_decide| |]; cbn; naive_solver lia.
Qed.
End acl.

(** ** Reports of TCP packets *)

(** The two programs report the same packets: TCP over IPv4 with room for a TCP
    header behind an IP header without options. *)
Definition reported (d : list Z) : bool :=
  (54 <=? zlen d) && (bswap16 (ethertype d) =? 0x0800) && (nth 23 d 0 =? 6).

Lemma strncmp_four a b :
  length a = 4%nat -> length b = 4%nat -> bytes_ok a -> bytes_ok b ->
  (Classify.bpf_strncmp a 4 b =? 0) = bool_decide (a = b).
Proof.
  intros Ha Hb Oa Ob. unfold Classify.bpf_strncmp. change (Nat.eqb 4 4) with true. cbv iota.
  rewrite !take_ge by lia.
  destruct (Z.eqb_spec (le_join a) (le_join b)) as [E|E]; cbn [negb].
  - rewrite bool_decide_true; [done|]. rewrite <- (le_split_join a), <- (le_split_join b) by done. congruence.
  - rewrite bool_decide_false by congruence. assert (a <> b) as Hne by congruence. clear E Oa Ob.
    revert b Hb Hne. generalize dependent 4%nat. intros n Ha. revert n Ha.
    induction a as [|x a IH]; intros n Ha [|y b] Hb Hne; simpl in Ha, Hb; try lia; [done|].
    cbn [Classify.first_difference]. destruct (Z.eqb_spec x y) as [->|Hxy]; cbn [negb].
    + apply (IH (length a)); [done|lia|congruence].
    + apply Z.eqb_neq. lia.
Qed.

(** The event for the packet [d], given what the stack held before. *)
Definition tcp_event (e : Classify.event) (d : list Z) : Classify.event :=
  let flags := nth 47 d 0 in
  let doff := Z.shiftr (nth 46 d 0) 4 in
  let payload := 34 + 4 * doff + 4 <? zlen d in
  let data := if payload then take 4 d ++ drop 4 (Classify.e_data e) else Classify.e_data e in
  Classify.Event (bswap16 (le_join (take 2 (drop 34 d)))) (bswap16 (le_join (take 2 (drop 36 d))))
    (s32 (le_join (take 4 (drop 26 d)))) (s32 (le_join (take 4 (drop 30 d))))
    (Classify.tcp_flag flags 1) (Classify.tcp_flag flags 0) (Classify.tcp_flag flags 2)
    (Classify.tcp_flag flags 3) (Classify.tcp_flag flags 4)
    (if payload then (if bool_decide (take 4 d = Classify.HTTP) then 1 else 0) else Classify.e_http e)
    (u32 (zlen d))
    (if 60 <? zlen d then take 60 d ++ drop 60 data else data).

Section reports.
Context {R : RingBuffer}.

(** The state after a report. *)
Definition report {V} (s : xst (list V)) (v : V) : xst (list V) :=
  Xst (x_frame s) (rb_output V (x_env s) v).2 (x_tick s).
Lemma ringbuf_output_runs {V} (s : xst (list V)) v :
  runs s (ringbuf_output v) (rb_output V (x_env s) v).1 (report s v).
Proof. unfold runs, ringbuf_output, report. now destruct (rb_output V (x_env s) v). Qed.

Ltac field :=
  eapply runs_bind;
  [ first [apply runs_load32_at|apply runs_load16_at|apply runs_load8_at];
    first [lia | match goal with d := f_data _ |- _ => fold d; lia end]
  | cbv beta ].

(** What is not reported is passed on. *)
Lemma not_reported {V} (s : xst (list V)) (k : Z -> xdp (list V) Z) :
  reported (f_data (x_frame s)) = false ->
  runs s (need 14 else XDP_PASS ;;
          h_proto ← load16 12;
          if negb (bswap16 h_proto =? 0x0800) then mret XDP_PASS else
          need (14 + 20) else XDP_PASS ;;
          protocol ← load8 (14 + 9);
          if negb (protocol =? 6) then mret XDP_PASS else
          need (14 + 20 + 20) else XDP_PASS ;; k protocol) XDP_PASS s.
Proof.
  intros Hr. set (d := f_data (x_frame s)) in *. unfold reported in Hr.
  destruct (Z.ltb_spec (zlen d) 14); [now apply run_need_short|]. apply run_need; [done|].
  eapply runs_bind; [now apply load_proto_runs|]. cbv beta. fold d.
  destruct (bswap16 (ethertype d) =? 2048); cbn [negb]; [|apply runs_ret].
  destruct (Z.ltb_spec (zlen d) 34); [now apply run_need_short|]. apply run_need; [done|].
  field. change (Z.to_nat (14 + 9)) with 23%nat. fold d.
  destruct (nth 23 d 0 =? 6); cbn [negb]; [|apply runs_ret].
  destruct (Z.ltb_spec (zlen d) 54); [now apply run_need_short|].
  destruct (Z.leb_spec 54 (zlen d)); [done|lia].
Qed.

(** Through the tests of a reported packet. *)
Ltac accepted Hr :=
  unfold reported in Hr; rewrite !andb_true_iff in Hr; destruct Hr as [[Hl Ht] Hp];
  apply Z.leb_le in Hl;
  apply run_need; [lia|]; eapply runs_bind; [apply load_proto_runs; lia|]; cbv beta; rewrite Ht; cbn [negb];
  apply run_need; [lia|]; eapply runs_bind; [apply runs_load8_at; lia|]; cbv beta;
  change (Z.to_nat (14 + 9)) with 23%nat; rewrite Hp; cbn [negb]; apply run_need; [lia|].

(** [xdp-tcpclassify] reports the addresses, ports and flags of a TCP packet and
    sends it back; its test for HTTP looks at the first bytes of the frame. *)
Lemma classify_runs (s : xst (list Classify.event)) e :
  let d := f_data (x_frame s) in
  bytes_ok d -> reported d = true ->
  runs s (Classify.xdp_tcpclassify e) XDP_TX (set_data (report s (tcp_event e d)) (swapped d)).
Proof.
  cbv zeta. intros Hb Hr. unfold Classify.xdp_tcpclassify. accepted Hr. set (d := f_data (x_frame s)) in *.
  do 5 field. eapply runs_bind; [apply runs_data_len|]. cbv beta zeta. field. fold d.
  change (Z.to_nat (14 + 20 + 12)) with 46%nat.
  replace (14 + 20 + Z.shiftr (nth 46 d 0) 4 * 4 + 4) with (34 + 4 * Z.shiftr (nth 46 d 0) 4 + 4) by lia.
  set (e1 := Classify.Event _ _ _ _ _ _ _ _ _ _ _ _).
  set (payload := 34 + 4 * Z.shiftr (nth 46 d 0) 4 + 4 <? zlen d).
  set (e2 := if payload then Classify.set_http (if bool_decide (take 4 d = Classify.HTTP) then 1 else 0)
                               (Classify.load_data (take 4 d) e1) else e1).
  assert (Ok : forall n, bytes_ok (take n d)) by (intros; now apply Forall_take).
  assert (length (take 4 d) = 4%nat) as H4 by (unfold zlen in Hl; rewrite length_take; lia).
  eapply runs_bind with (s1 := s) (a := e2).
  { unfold e2. destruct payload; [|apply runs_ret].
    eapply runs_bind; [apply runs_load_at; fold d; lia|]. cbv beta zeta. fold d. change (drop (Z.to_nat 0) d) with d.
    eapply runs_val; [apply runs_ret|].
    assert ((Classify.bpf_strncmp (take 4 d ++ drop 4 (Classify.e_data e)) 4 Classify.HTTP =? 0)
            = bool_decide (take 4 d = Classify.HTTP)) as Hcmp.
    { rewrite <- strncmp_four by first [done | apply Ok | apply bytes_ok_check; done].
      unfold Classify.bpf_strncmp. rewrite take_app_length' by now rewrite H4. now rewrite (take_ge (take 4 d)) by lia. }
    cbn [Classify.e_data Classify.load_data e1]. rewrite H4, Hcmp. now destruct (bool_decide _). }
  cbv beta. set (e3 := if 60 <? zlen d then Classify.load_data (take 60 d) e2 else e2).
  eapply runs_bind with (s1 := s) (a := e3).
  { unfold e3. destruct (Z.ltb_spec 60 (zlen d)); [|apply runs_ret].
    eapply runs_bind; [apply runs_load_at; fold d; lia|]. apply runs_ret. }
  assert (e3 = tcp_event e d) as ->.
  { unfold e3, e2, e1, tcp_event. fold payload. clearbody payload. destruct (Z.ltb_spec 60 (zlen d)).
    - assert (length (take 60 d) = 60%nat) as H60 by (unfold zlen in *; rewrite length_take; lia).
      unfold Classify.load_data, Classify.set_http. rewrite H60, H4. now destruct payload.
    - unfold Classify.load_data, Classify.set_http. rewrite H4. now destruct payload. }
  eapply runs_bind; [apply ringbuf_output_runs|]. cbv beta.
  eapply runs_bind; [apply swap_runs; [change (12 <= zlen d); lia|done]|apply runs_ret].
Qed.

(** [xdp-observer] reports the same fields without the rest. *)
Lemma observer_runs (s : xst (list Observer.observer_event)) :
  let d := f_data (x_frame s) in
  let e := tcp_event (Classify.Event 0 0 0 0 0 0 0 0 0 0 0 []) d in
  let o := Observer.Event (Classify.e_sport e) (Classify.e_dport e) (Classify.e_sip e) (Classify.e_dip e)
    (Classify.e_syn e) (Classify.e_fin e) (Classify.e_rst e) (Classify.e_psh e) (Classify.e_ack e) in
  bytes_ok d -> reported d = true ->
  runs s Observer.xdp_observer XDP_TX (set_data (report s o) (swapped d)).
Proof.
  cbv zeta. intros Hb Hr. unfold Observer.xdp_observer. accepted Hr. set (d := f_data (x_frame s)) in *.
  do 5 field. eapply runs_bind; [apply ringbuf_output_runs|]. cbv beta.
  eapply runs_bind; [apply swap_runs; [change (12 <= zlen d); lia|done]|apply runs_ret].
Qed.

(** [xdp-dump] records the length and the first 256 bytes of every packet that
    has an Ethernet header, and passes all of them. *)
Lemma dump_runs (s : xst (list Dump.dump_event)) :
  let d := f_data (x_frame s) in
  zlen d < 4294967296 ->
  runs s Dump.xdp_dump XDP_PASS
    (if zlen d <? 14 then s
     else report s (Dump.Event (zlen d) (take 256 d ++ replicate (400 - length (take 256 d)) 0))).
Proof.
  cbv zeta. intros Hl. eapply runs_bind; [apply runs_data_len|]. cbv beta zeta.
  set (d := f_data (x_frame s)) in *. pose proof (zlen_nonneg d). rewrite u32_id by (unfold is_u32; lia).
  assert (take (Z.to_nat (if 256 <? zlen d then 256 else zlen d)) d = take 256 d) as Ht.
  { destruct (Z.ltb_spec 256 (zlen d)); [done|]. unfold zlen in *. now rewrite !take_ge by lia. }
  destruct (Z.ltb_spec (zlen d) 14).
  - destruct (Z.ltb_spec 256 (zlen d)); [lia|]. rewrite (proj2 (Z.ltb_lt _ _)) by lia. apply runs_ret.
  - assert (((if 256 <? zlen d then 256 else zlen d) <? 14) = false) as ->
      by (apply Z.ltb_ge; destruct (Z.ltb_spec 256 (zlen d)); lia).
    eapply runs_bind; [apply runs_load_at; fold d; destruct (Z.ltb_spec 256 (zlen d)); lia|]. cbv beta.
    fold d. change (drop (Z.to_nat 0) d) with d. rewrite Ht.
    eapply runs_bind; [apply ringbuf_output_runs|]. apply runs_ret.
Qed.
End reports.

(** ** Safety *)

(** The verdicts of these programs. *)
Definition echo_verdict (v : Z) : Prop := v = XDP_ABORTED \/ v = XDP_DROP \/ v = XDP_PASS \/ v = XDP_TX.

Section safety.
Context {H : XdpHelpers} {R : RingBuffer} {A : Acl.Rules}.
Implicit Types (L : Z).

Definition echoes {E} (L : Z) (m : xdp E Z) : Prop := fits L m (fun v L' => echo_verdict v /\ L' = L).

Lemma ringbuf_output_fits {V} L (v : V) : fits L (ringbuf_output v) (fun _ L' => L' = L).
Proof. intros s Hs Hl. unfold ringbuf_output. now destruct (rb_output V (x_env s) v). Qed.
Lemma swap_fits {E} L : 14 <= L -> fits L (swap_src_dst_mac (E := E)) (fun _ L' => L' = L).
Proof. intros. unfold swap_src_dst_mac. now fits_auto. Qed.
Lemma csum_loop_fits {E} L n c : 34 <= L -> fits L (Csum.csum_loop (E := E) n 14 c) (fun _ L' => L' = L).
Proof.
  intros Hl. revert c. induction n as [|n IH]; intros c; cbn [Csum.csum_loop]; unfold Csum.ipv4_csum; fits_auto; auto.
Qed.

(** Close with the verdict, or go on through one of the lemmas above. *)
Ltac echo_step :=
  lazymatch goal with
  | |- fits _ (swap_src_dst_mac) _ => eapply fits_weaken; [apply swap_fits; lia|cbv beta; intros ? ? ->]
  | |- fits _ (ringbuf_output _) _ => eapply fits_weaken; [apply ringbuf_output_fits|cbv beta; intros ? ? ->]
  | |- fits _ (Csum.csum_loop _ 14 _) _ => eapply fits_weaken; [apply csum_loop_fits; lia|cbv beta; intros ? ? ->]
  | |- fits _ _ _ => fits_step
  | |- echo_verdict _ /\ _ => unfold echo_verdict; auto 7
  end.
Ltac echo := unfold echoes; repeat (cbv beta zeta; echo_step).

Lemma echo_programs_fit {E} L : echoes (E := E) L Echo.xdp_pass /\ echoes (E := E) L Echo.xdp_tx /\ echoes (E := E) L Echo.xdp_drop.
Proof. unfold Echo.xdp_pass, Echo.xdp_tx, Echo.xdp_drop. split_and!; echo. Qed.
Lemma map_access_fits L : echoes L MapAccess.xdp_map_access.
Proof. unfold MapAccess.xdp_map_access. echo. Qed.
Lemma sizes_fits L : echoes L Sizes.xdp_maps.
Proof. unfold Sizes.xdp_maps. echo. Qed.
Lemma csum_fits L : echoes L Csum.xdp_csum /\ forall E, echoes (E := E) L Csum.xdp_csum_only.
Proof. unfold Csum.xdp_csum, Csum.xdp_csum_only. split; [|intros E]; echo. Qed.
Lemma hash_sum_fits {E} L : echoes (E := E) L HashSum.xdp_hash_sum.
Proof.
  unfold HashSum.xdp_hash_sum. echo. apply bytes_ok_app. auto using le_split_ok.
Qed.
Lemma classify_fits L e : echoes L (Classify.xdp_tcpclassify e).
Proof. unfold Classify.xdp_tcpclassify. echo. Qed.
Lemma observer_fits L : echoes L Observer.xdp_observer.
Proof. unfold Observer.xdp_observer. echo. Qed.
Lemma dump_fits L : 0 <= L -> echoes L Dump.xdp_dump.
Proof.
  intros H0. unfold Dump.xdp_dump. assert (0 <= u32 L <= L) as Hu by (unfold u32; zlia).
  unfold echoes. do 2 (fits_step). destruct (Z.ltb_spec 256 (u32 L)); echo.
Qed.
Lemma acl_fits {E} L : echoes (E := E) L Acl.xdp_standard_acl.
Proof. unfold Acl.xdp_standard_acl. echo; apply bytes_ok_check; reflexivity. Qed.

Lemma echoes_safe {E} (m : xdp E Z) (s : xst E) :
  (forall L, 0 <= L -> echoes L m) -> frame_ok (x_frame s) ->
  exists v s', m s = Some (v, s') /\ echo_verdict v /\ frame_ok (x_frame s')
    /\ zlen (f_data (x_frame s')) = zlen (f_data (x_frame s)).
Proof.
  intros Hm Hs. pose proof (Hm _ (zlen_nonneg _) s Hs eq_refl) as Hf.
  destruct (m s) as [[v s']|]; [|done]. destruct Hf as (Hok & Hv & Hl). eauto 10.
Qed.
End safety.
