(* ===== verification/CsumInline.v ===== *)
(** * The other checksum routines (module/helpers.c, xdp_progs/includes/inline_csum.h)

    The 64-bit [csum_partial] that helpers.c and inline_csum.h hold beside the one that is
    compiled in, with the additions of its assembly carried through the flag; the
    [bpf_csum_diff] that is inlined into programs; and the programs that are built with it.
    The theorems: both routines lead to the same checksum, the wide loads of the 64-bit one
    stay inside the scratch pad, and the inlined programs are those of XdpSamples.v. *)
From Stdlib Require Import ZArith Lia.
From stdpp Require Import base numbers list option gmap.
From S2P Require Import Prelude Xdp OnesComplement XdpRun RuntimeHelpers XdpSamples.
#[local] Open Scope Z_scope.

(** ** The 64-bit sum *)

(** @src module/helpers.c 144-147 ror64 *)
Definition ror64 (word shift : Z) : Z :=
  Z.lor (Z.shiftr word (Z.land shift 63)) (u64 (Z.shiftl word (Z.land (u32 (- shift)) 63))).
(** @src module/helpers.c 149-152 csum_finalize_sum *)
Definition csum_finalize_sum (temp64 : Z) : Z :=
  u32 (Z.shiftr (u64 (temp64 + ror64 temp64 32)) 32).

(** The [adcq] instruction on a register and the carry flag; [addq] is the same with the flag
    clear. *)
Definition adcq (m : Z) (st : Z * Z) : Z * Z :=
  let '(sum, cf) := st in
  let s := sum + m + cf in (u64 s, b2z (18446744073709551616 <=? s)).
(** A chain of additions ended by the addition of the last carry.
    @src module/helpers.c 154-166 update_csum_40b *)
Definition add_chain (sum : Z) (ms : list Z) : Z := (adcq 0 (fold_left (fun st m => adcq m st) ms (sum, 0))).1.

(** The [n] words from the start of [mem], the readable bytes from a pointer on; [None] when
    they reach beyond. *)
Fixpoint words (n : nat) (mem : list Z) : option (list Z) :=
  match n with
  | O => Some []
  | S n => if 8 <=? zlen mem then ws ← words n (drop 8 mem); Some (le_join (take 8 mem) :: ws) else None
  end.
(** @src module/helpers.c 154-166 update_csum_40b *)
Definition update_csum_40b (sum : Z) (mem : list Z) : option Z := m ← words 5 mem; Some (add_chain sum m).
(** @src module/helpers.c 175-178 load_unaligned_zeropad *)
Definition load_unaligned_zeropad (mem : list Z) : option Z :=
  if 8 <=? zlen mem then Some (le_join (take 8 mem)) else None.

(** The loop over chunks of 80 bytes: the two accumulators and what is left.
    @src module/helpers.c 199-204 csum_partial *)
Fixpoint csum_80 (fuel : nat) (buff : list Z) (len temp64 temp64_2 : Z) : option (Z * Z * list Z * Z) :=
  match fuel with
  | O => None
  | S fuel =>
      temp64 ← update_csum_40b temp64 buff;
      temp64_2 ← update_csum_40b temp64_2 (drop 40 buff);
      let buff := drop 80 buff in
      let len := len - 80 in
      if 80 <=? len then csum_80 fuel buff len temp64 temp64_2 else Some (temp64, temp64_2, buff, len)
  end.
(** The step for a bit of the length: [n] words.
    @src module/helpers.c 223-248 csum_partial *)
Definition csum_bit (n : nat) (buff : list Z) (len temp64 : Z) : option (list Z * Z) :=
  if nz (Z.land len (8 * Z.of_nat n)) then
    m ← words n buff; Some (drop (8 * n) buff, add_chain temp64 m)
  else Some (buff, temp64).
(** What is left: fewer than 40 bytes.
    @src module/helpers.c 223-261 csum_partial *)
Definition csum_rest (buff : list Z) (len temp64 : Z) : option Z :=
  '(buff, temp64) ← csum_bit 4 buff len temp64;
  '(buff, temp64) ← csum_bit 2 buff len temp64;
  '(buff, temp64) ← csum_bit 1 buff len temp64;
  temp64 ← (if nz (Z.land len 7) then
              let shift := Z.land (Z.shiftl (- len) 3) 63 in
              w ← load_unaligned_zeropad buff;
              let trail := Z.shiftr (u64 (Z.shiftl w shift)) shift in
              Some (add_chain temp64 [trail])
            else Some temp64);
  Some (csum_finalize_sum temp64).
(** [buff] is the memory from the pointer on, of which [len] bytes are to be summed.
    @src module/helpers.c 191-261 csum_partial *)
Definition csum_partial_64 (buff : list Z) (len sum : Z) : option Z :=
  let temp64 := sum in
  '(buff, len, temp64) ←
    (if 80 <=? len then
       '(temp64, temp64_2, buff, len) ← csum_80 (Z.to_nat len) buff len temp64 0;
       Some (buff, len, add_chain temp64 [temp64_2])
     else Some (buff, len, temp64));
  if 40 <=? len then
    temp64 ← update_csum_40b temp64 buff;
    let len := len - 40 in
    if negb (nz len) then Some (csum_finalize_sum temp64) else csum_rest (drop 40 buff) len temp64
  else csum_rest buff len temp64.

(** [bpf_csum_diff] with this sum; [pad] is what the scratch pad held.
    @src module/helpers.c 263-291 bpftime_csum_diff_runtime *)
Definition csum_diff_64 (pad from to : list Z) (seed : Z) : option Z :=
  let diff_size := zlen from + zlen to in
  if nz (Z.land (Z.lor (zlen from) (zlen to)) 3) || (512 <? diff_size)
  then Some (u64 (- EINVAL))
  else csum_partial_64 (csum_diff_words from to ++ drop (Z.to_nat diff_size) pad) diff_size (u32 seed).

(** ** The sum is that of the 16-bit words *)

Definition two64 : Z := 18446744073709551616.
(** A register and the carry: a pending carry leaves room to add it. *)
Definition carry64_ok (st : Z * Z) : Prop :=
  0 <= st.1 < two64 /\ 0 <= st.2 <= 1 /\ (st.2 = 1 -> st.1 <= two64 - 2).

Lemma adcq_step m st : carry64_ok st -> 0 <= m < two64 ->
  carry64_ok (adcq m st) /\ rep ((adcq m st).1 + (adcq m st).2) (st.1 + st.2 + m).
Proof.
  destruct st as [s c]. unfold carry64_ok, two64, adcq, rep, oc, b2z, u64. cbn [fst snd]. intros (Hs & Hc & Hsc) Hm.
  destruct (Z.leb_spec 18446744073709551616 (s + m + c)); cbn [fst snd]; zlia.
Qed.

(** The sum of a list. *)
Fixpoint total (ms : list Z) : Z := match ms with [] => 0 | m :: ms => m + total ms end.

Lemma total_nonneg ms : Forall (fun m => 0 <= m < two64) ms -> 0 <= total ms.
Proof. induction 1; cbn [total]; lia. Qed.

Lemma add_chain_rep ms sum : Forall (fun m => 0 <= m < two64) ms -> 0 <= sum < two64 ->
  rep (add_chain sum ms) (sum + total ms) /\ 0 <= add_chain sum ms < two64.
Proof.
  intros Hms Hsum. unfold add_chain.
  assert (G : forall st, carry64_ok st -> carry64_ok (fold_left (fun st m => adcq m st) ms st)
    /\ rep ((fold_left (fun st m => adcq m st) ms st).1 + (fold_left (fun st m => adcq m st) ms st).2)
           (st.1 + st.2 + total ms)).
  { induction Hms as [|m ms Hm Hms IH]; intros st Hst; cbn [fold_left total].
    - split; [done|]. rewrite Z.add_0_r. apply rep_refl. unfold carry64_ok in Hst. lia.
    - destruct (adcq_step m st Hst Hm) as [Hst' Hrep]. destruct (IH _ Hst') as [Hok Hr]. split; [done|].
      eapply rep_trans; [exact Hr|]. rewrite (Z.add_assoc (st.1 + st.2)). apply rep_add; [exact Hrep|].
      apply rep_refl. now apply total_nonneg. }
  destruct (G (sum, 0)) as [Hok Hr]; [unfold carry64_ok, two64 in *; cbn; lia|]. cbn [fst snd] in Hr.
  rewrite Z.add_0_r in Hr. destruct (fold_left _ ms (sum, 0)) as [s c]. cbn [fst snd] in *.
  unfold carry64_ok, two64 in *. cbn [fst snd] in Hok. unfold adcq. cbn [fst]. rewrite Z.add_0_r.
  rewrite u64_id by (unfold is_u64; lia). split; [done|lia].
Qed.

Lemma words_rep n mem : bytes_ok mem -> 8 * Z.of_nat n <= zlen mem ->
  exists ws, words n mem = Some ws /\ Forall (fun m => 0 <= m < two64) ws
    /\ rep (total ws) (le_join (take (8 * n) mem)) /\ length (take (8 * n) mem) = (8 * n)%nat.
Proof.
  revert mem. induction n as [|n IH]; intros mem Hb Hl; cbn [words].
  - exists []. split; [done|]. split; [constructor|]. split; [now apply rep_refl|done].
  - destruct (Z.leb_spec 8 (zlen mem)); [|lia]. unfold zlen in *.
    destruct (IH (drop 8 mem)) as (ws & -> & Hws & Hr & Hlen);
      [now apply Forall_drop|rewrite length_drop; lia|]. cbn [mbind option_bind].
    eexists. split; [reflexivity|].
    assert (H8 : length (take 8 mem) = 8%nat) by (rewrite length_take; lia).
    assert (Hb8 : bytes_ok (take 8 mem)) by now apply Forall_take.
    pose proof (le_join_range _ Hb8) as Hj. rewrite H8 in Hj.
    split; [constructor; [exact Hj|done]|]. split; [|rewrite length_take; lia].
    replace (8 * S n)%nat with (8 + 8 * n)%nat by lia. rewrite <- take_take_drop. cbn [total].
    apply rep_app; [apply rep_refl; lia|done|rewrite H8; now exists 4%nat].
Qed.

(** A chain over the next [n] words. *)
Lemma chain_words n buff sum : bytes_ok buff -> 8 * Z.of_nat n <= zlen buff -> 0 <= sum < two64 ->
  exists ms, words n buff = Some ms /\ 0 <= add_chain sum ms < two64 /\
    summed (add_chain sum ms) sum (take (8 * n) buff) (drop (8 * n) buff) buff.
Proof.
  intros Hb Hl Hs. destruct (words_rep n buff Hb Hl) as (ms & E & Hms & Hr & Hlen).
  destruct (add_chain_rep ms sum Hms Hs) as [Ha Hr64]. exists ms. split; [done|]. split; [done|].
  split; [now rewrite take_drop|]. split; [rewrite Hlen; exists (4 * n)%nat; lia|].
  eapply rep_trans; [exact Ha|]. apply rep_add; [apply rep_refl; lia|done].
Qed.

Lemma summed_weaken r r0 d ws rest bs : summed r r0 ws rest bs -> 0 <= d -> summed (r + d) (r0 + d) ws rest bs.
Proof.
  intros (E & He & Hr) Hd. split; [done|]. split; [done|].
  replace (r0 + d + le_join ws) with (r0 + le_join ws + d) by lia. apply rep_add; [done|now apply rep_refl].
Qed.
Lemma summed_bytes r r0 ws rest bs : summed r r0 ws rest bs -> bytes_ok bs -> bytes_ok rest.
Proof. intros (-> & _) Hb. now apply bytes_ok_app in Hb. Qed.

Lemma update_40_summed buff sum : bytes_ok buff -> 40 <= zlen buff -> 0 <= sum < two64 ->
  exists r, update_csum_40b sum buff = Some r /\ 0 <= r < two64 /\ summed r sum (take 40 buff) (drop 40 buff) buff.
Proof.
  intros Hb Hl Hs. unfold update_csum_40b. destruct (chain_words 5 buff sum Hb Hl Hs) as (ms & -> & H1 & H2).
  cbn [mbind option_bind]. eauto.
Qed.

(** The two accumulators together. *)
Lemma csum_80_summed fuel buff len t t2 : bytes_ok buff -> 80 <= len <= zlen buff -> len / 80 <= Z.of_nat fuel ->
  0 <= t < two64 -> 0 <= t2 < two64 ->
  exists t' t2' rest len' ws, csum_80 fuel buff len t t2 = Some (t', t2', rest, len') /\
    0 <= t' < two64 /\ 0 <= t2' < two64 /\ summed (t' + t2') (t + t2) ws rest buff /\
    zlen ws + len' = len /\ 0 <= len' < 80 /\ len' mod 8 = len mod 8.
Proof.
  revert buff len t t2. induction fuel as [|fuel IH]; intros buff len t t2 Hb Hl Hf Ht Ht2; [zlia|].
  cbn [csum_80]. destruct (update_40_summed buff t Hb ltac:(lia) Ht) as (t1 & -> & Ht1 & S1).
  cbn [mbind option_bind]. assert (Hb1 : bytes_ok (drop 40 buff)) by now apply Forall_drop.
  assert (Hl1 : 40 <= zlen (drop 40 buff)) by (rewrite zlen_drop; lia).
  destruct (update_40_summed (drop 40 buff) t2 Hb1 Hl1 Ht2) as (t3 & -> & Ht3 & S2).
  cbn [mbind option_bind].
  rewrite drop_drop in S2. change (40 + 40)%nat with 80%nat in S2.
  assert (S12 : summed (t1 + t3) (t + t2) (take 40 buff ++ take 40 (drop 40 buff)) (drop 80 buff) buff).
  { eapply summed_trans; [done|apply summed_weaken; [exact S1|lia]|].
    rewrite (Z.add_comm t1 t3), (Z.add_comm t1 t2). apply summed_weaken; [exact S2|lia]. }
  rewrite take_take_drop in S12. change (40 + 40)%nat with 80%nat in S12.
  assert (H80 : zlen (take 80 buff) = 80) by (unfold zlen in *; rewrite length_take; lia).
  destruct (Z.leb_spec 80 (len - 80)).
  - destruct (IH (drop 80 buff) (len - 80) t1 t3) as (t' & t2' & rest & len' & ws & -> & H1 & H2 & S3 & H3 & H4 & H5);
      [now apply Forall_drop|rewrite zlen_drop; lia|zlia|done|done|].
    do 5 eexists. split; [reflexivity|]. split; [done|]. split; [done|].
    split; [eapply summed_trans; [done|exact S12|exact S3]|]. rewrite zlen_app. split; [lia|]. split; [done|zlia].
  - do 5 eexists. split; [reflexivity|]. split; [done|]. split; [done|]. split; [exact S12|]. split; [lia|]. split; [lia|zlia].
Qed.

(** ** The last bytes *)

(** A bit says whether the remainder by the next power reaches this one. *)
Lemma land_bit x k : 0 <= k -> nz (Z.land x (2 ^ k)) = (2 ^ k <=? x mod (2 ^ k * 2)).
Proof.
  intros Hk. rewrite nz_land_pow2, Z.testbit_odd, Z.shiftr_div_pow2, Z.rem_mul_r, Zmod_odd by lia.
  pose proof (Z.mod_pos_bound x (2 ^ k) ltac:(lia)).
  destruct (Z.odd (x / 2 ^ k)); [destruct (Z.leb_spec (2 ^ k) (x mod 2 ^ k + 2 ^ k * 1))|destruct (Z.leb_spec (2 ^ k) (x mod 2 ^ k + 2 ^ k * 0))]; lia || done.
Qed.

Lemma csum_bit_summed k n data after len t : 0 <= k -> 8 * Z.of_nat n = 2 ^ k ->
  bytes_ok (data ++ after) -> zlen data = len mod (2 ^ k * 2) -> 0 <= t < two64 ->
  exists ws data' t', csum_bit n (data ++ after) len t = Some (data' ++ after, t') /\ data = ws ++ data' /\
    zlen data' = len mod 2 ^ k /\ 0 <= t' < two64 /\ summed t' t ws (data' ++ after) (data ++ after).
Proof.
  intros Hk Hn Hb Hd Ht. unfold csum_bit. rewrite Hn, land_bit by done.
  pose proof (Z.mod_pos_bound len (2 ^ k) ltac:(lia)) as Hm.
  pose proof (Z.rem_mul_r len (2 ^ k) 2 ltac:(lia) ltac:(lia)) as Hr.
  pose proof (Z.mod_pos_bound (len / 2 ^ k) 2 ltac:(lia)) as Hm2.
  pose proof (Z.mod_pos_bound len (2 ^ k) ltac:(lia)) as Hm1.
  assert (Hcase : (len / 2 ^ k) mod 2 = 0 \/ (len / 2 ^ k) mod 2 = 1) by lia.
  destruct (Z.leb_spec (2 ^ k) (len mod (2 ^ k * 2))) as [Hle|Hlt].
  - assert (Hz : 8 * Z.of_nat n <= zlen (data ++ after)) by (rewrite zlen_app; unfold zlen in *; lia).
    assert (Hn8 : (8 * n <= length data)%nat) by (unfold zlen in *; lia).
    destruct (chain_words n (data ++ after) t Hb Hz Ht) as (ms & -> & H1 & H2). cbn [mbind option_bind].
    rewrite (drop_app_le data after) in H2 |- * by done. rewrite (take_app_le data after) in H2 by done.
    exists (take (8 * n) data), (drop (8 * n) data), (add_chain t ms).
    split; [done|]. split; [now rewrite take_drop|]. split; [|done].
    unfold zlen in *. rewrite length_drop. destruct Hcase as [Hc|Hc]; rewrite Hc in Hr; lia.
  - exists [], data, t. split; [done|]. split; [done|]. split; [|split; [done|apply summed_nothing; lia]].
    destruct Hcase as [Hc|Hc]; rewrite Hc in Hr; lia.
Qed.

Lemma shift_mask w s : 0 <= s <= 64 -> Z.shiftr (u64 (Z.shiftl w s)) s = w mod 2 ^ (64 - s).
Proof.
  intros Hs. unfold u64. rewrite Z.shiftl_mul_pow2, Z.shiftr_div_pow2 by lia.
  change 18446744073709551616 with (2 ^ 64). replace (2 ^ 64) with (2 ^ (64 - s) * 2 ^ s).
  2:{ rewrite <- Z.pow_add_r by lia. f_equal. lia. }
  rewrite Z.mul_mod_distr_r by (apply Z.pow_nonzero; lia). apply Z.div_mul. apply Z.pow_nonzero; lia.
Qed.

(** The wide load and the shifts keep the bytes that belong to the buffer. *)
Lemma trail_bytes data after len : bytes_ok (data ++ after) -> zlen data = len mod 8 -> 0 < len mod 8 ->
  8 <= zlen (data ++ after) ->
  let shift := Z.land (Z.shiftl (- len) 3) 63 in
  load_unaligned_zeropad (data ++ after) = Some (le_join (take 8 (data ++ after))) /\
  Z.shiftr (u64 (Z.shiftl (le_join (take 8 (data ++ after))) shift)) shift = le_join data.
Proof.
  intros Hb Hd Hpos H8 shift. unfold load_unaligned_zeropad. destruct (Z.leb_spec 8 (zlen (data ++ after))); [|lia].
  split; [done|]. assert (Hs : shift = 64 - 8 * (len mod 8)).
  { unfold shift. rewrite Z.shiftl_mul_pow2 by lia. change 63 with (Z.ones 6). rewrite Z.land_ones by lia.
    change (2 ^ 6) with 64. change (2 ^ 3) with 8. zlia. }
  clearbody shift. subst shift. rewrite shift_mask by zlia.
  replace (64 - (64 - 8 * (len mod 8))) with (8 * (len mod 8)) by lia.
  assert (Hlen : (length data <= 8)%nat) by (pose proof (Z.mod_pos_bound len 8 ltac:(lia)); unfold zlen in Hd; lia).
  rewrite take_app_ge, le_join_app by done. apply bytes_ok_app in Hb as [Hbd _].
  pose proof (le_join_range _ Hbd) as Hj.
  assert (256 ^ Z.of_nat (length data) = 2 ^ (8 * (len mod 8))) as Hp.
  { change (Z.of_nat (length data)) with (zlen data). rewrite Hd. change 256 with (2 ^ 8). rewrite <- Z.pow_mul_r by lia. done. }
  rewrite Hp in *. rewrite (Z.mul_comm (2 ^ _)), Z_mod_plus_full. now apply Z.mod_small.
Qed.

Lemma finalize_rep t : 0 <= t < two64 -> rep (csum_finalize_sum t) t /\ is_u32 (csum_finalize_sum t).
Proof.
  intros Ht. unfold csum_finalize_sum, ror64. change (Z.land 32 63) with 32. change (Z.land (u32 (Z.opp 32)) 63) with 32.
  rewrite !Z.shiftr_div_pow2, Z.shiftl_mul_pow2 by lia. change (2 ^ 32) with 4294967296.
  assert (u64 (t * 4294967296) = (t mod 4294967296) * 2 ^ 32) as -> by (unfold u64; change (2 ^ 32) with 4294967296; zlia).
  unfold two64 in Ht. rewrite lor_disjoint_add by (change (2 ^ 32) with 4294967296; zlia). change (2 ^ 32) with 4294967296.
  set (h := t / 4294967296). set (l := t mod 4294967296). assert (Hhl : t = 4294967296 * h + l) by (unfold h, l; zlia).
  assert (0 <= h < 4294967296 /\ 0 <= l < 4294967296) as [Hh Hl] by (unfold h, l; zlia). clearbody h l. subst t.
  assert (u32 (u64 (4294967296 * h + l + (h + l * 4294967296)) / 4294967296)
          = if h + l <? 4294967296 then h + l else h + l - 4294967295) as ->
    by (unfold u32, u64; destruct (Z.ltb_spec (h + l) 4294967296); zlia).
  unfold rep, oc, is_u32. destruct (Z.ltb_spec (h + l) 4294967296); zlia.
Qed.

(** Room for the last wide load. *)
Definition room (len : Z) (after : list Z) : Prop := (- len) mod 8 <= zlen after.

Lemma csum_rest_rep data after len t : bytes_ok (data ++ after) -> zlen data = len mod 64 -> room len after ->
  0 <= t < two64 ->
  exists r, csum_rest (data ++ after) len t = Some r /\ rep r (t + le_join data) /\ is_u32 r.
Proof.
  intros Hb Hd Hroom Ht. unfold csum_rest.
  destruct (csum_bit_summed 5 4 data after len t) as (w1 & d1 & t1 & -> & -> & Hd1 & Ht1 & S1); try done.
  cbn [mbind option_bind]. assert (Hb1 := summed_bytes _ _ _ _ _ S1 Hb).
  destruct (csum_bit_summed 4 2 d1 after len t1) as (w2 & d2 & t2 & -> & -> & Hd2 & Ht2 & S2); try done.
  cbn [mbind option_bind]. assert (Hb2 := summed_bytes _ _ _ _ _ S2 Hb1).
  destruct (csum_bit_summed 3 1 d2 after len t2) as (w3 & d3 & t3 & -> & -> & Hd3 & Ht3 & S3); try done.
  cbn [mbind option_bind]. assert (Hb3 := summed_bytes _ _ _ _ _ S3 Hb2). change (2 ^ 3) with 8 in Hd3.
  assert (S : summed t3 t (w1 ++ w2 ++ w3) (d3 ++ after) ((w1 ++ w2 ++ w3 ++ d3) ++ after)).
  { eapply summed_trans; [done|exact S1|]. eapply summed_trans; [done|exact S2|exact S3]. }
  clear S1 S2 S3. destruct S as (_ & Hev & Hrep).
  assert (Hdata : bytes_ok d3) by now apply bytes_ok_app in Hb3.
  pose proof (le_join_range d3 Hdata) as Hj. pose proof (le_join_nonneg d3 Hdata) as Hj0.
  assert (Hsum : forall r, rep r (t3 + le_join d3) -> rep r (t + le_join (w1 ++ w2 ++ w3 ++ d3))).
  { intros r Hr. eapply rep_trans; [exact Hr|].
    replace (w1 ++ w2 ++ w3 ++ d3) with ((w1 ++ w2 ++ w3) ++ d3) by now rewrite !app_assoc.
    rewrite le_join_app, Z.add_assoc. apply rep_add; [exact Hrep|]. destruct Hev as [j ->].
    apply rep_mul; [lia|apply pow_256_even|now apply rep_refl]. }
  change 7 with (Z.ones 3). rewrite Z.land_ones by lia. change (2 ^ 3) with 8. unfold nz.
  pose proof (Z.mod_pos_bound len 8 ltac:(lia)) as Hm.
  destruct (Z.eqb_spec (len mod 8) 0) as [E0|E0]; cbn [negb].
  - destruct d3; [|unfold zlen in Hd3; cbn in Hd3; lia]. cbn [mbind option_bind].
    destruct (finalize_rep t3 Ht3) as [Hf Hu]. eexists. split; [reflexivity|]. split; [|done].
    apply Hsum. cbn [le_join]. now rewrite Z.add_0_r.
  - assert (H8 : 8 <= zlen (d3 ++ after)) by (rewrite zlen_app, Hd3; unfold room in Hroom; zlia).
    destruct (trail_bytes d3 after len Hb3 Hd3 ltac:(lia) H8) as [Ew Et]. rewrite Ew. cbn [mbind option_bind].
    rewrite Et.
    assert (Hjr : 0 <= le_join d3 < two64).
    { split; [done|]. eapply Z.lt_le_trans; [apply Hj|]. change (Z.of_nat (length d3)) with (zlen d3).
      rewrite Hd3. apply (Z.pow_le_mono_r 256 (len mod 8) 8); lia. }
    destruct (add_chain_rep [le_join d3] t3) as [Ha Har]; [now constructor|done|].
    cbn [total] in Ha. rewrite Z.add_0_r in Ha.
    destruct (finalize_rep _ Har) as [Hf Hu]. eexists. split; [reflexivity|]. split; [|done].
    apply Hsum. eapply rep_trans; [exact Hf|exact Ha].
Qed.

(** From a prefix that has been summed to the whole. *)
Lemma summed_rest r t t0 ws rest data after x : bytes_ok (data ++ after) ->
  summed t t0 ws (rest ++ after) (data ++ after) -> rep r (t + le_join rest) -> x = t0 + le_join data -> rep r x.
Proof.
  intros Hb (E & [j Hj] & Hs) Hr ->. rewrite app_assoc in E. apply app_inv_tail in E. subst data.
  eapply rep_trans; [exact Hr|]. rewrite le_join_app, Z.add_assoc. apply rep_add; [exact Hs|].
  rewrite Hj. apply rep_mul; [lia|apply pow_256_even|apply rep_refl].
  apply le_join_nonneg. rewrite !bytes_ok_app in Hb. tauto.
Qed.

Lemma split_suffix (data after ws rest : list Z) : data ++ after = ws ++ rest -> (length ws <= length data)%nat ->
  rest = drop (length ws) data ++ after.
Proof. intros E Hl. rewrite <- (drop_app_length ws rest), <- E. now apply drop_app_le. Qed.

(** After the loop: fewer than 80 bytes are left. *)
Lemma below_80 data after t : bytes_ok (data ++ after) -> zlen data < 80 -> room (zlen data) after -> 0 <= t < two64 ->
  exists r, (if 40 <=? zlen data then
               temp64 ← update_csum_40b t (data ++ after);
               let len := zlen data - 40 in
               if negb (nz len) then Some (csum_finalize_sum temp64) else csum_rest (drop 40 (data ++ after)) len temp64
             else csum_rest (data ++ after) (zlen data) t) = Some r /\ rep r (t + le_join data) /\ is_u32 r.
Proof.
  intros Hb Hl Hroom Ht. assert (0 <= zlen data) by (unfold zlen; lia).
  destruct (Z.leb_spec 40 (zlen data)) as [H40|H40].
  2:{ apply csum_rest_rep; try done. now rewrite Z.mod_small by lia. }
  destruct (update_40_summed (data ++ after) t Hb) as (t1 & -> & Ht1 & S1); [rewrite zlen_app; unfold zlen in *; lia|done|].
  cbn [mbind option_bind]. rewrite drop_app_le in S1 |- * by (unfold zlen in *; lia).
  assert (Hz : zlen (drop 40 data) = zlen data - 40) by (unfold zlen in *; rewrite length_drop; lia).
  unfold nz. cbv zeta. destruct (Z.eqb_spec (zlen data - 40) 0) as [E|E]; cbn [negb].
  - destruct (finalize_rep t1 Ht1) as [Hf Hu]. eexists. split; [reflexivity|]. split; [|done].
    eapply (summed_rest _ t1 t _ (drop 40 data)); [exact Hb|exact S1| |reflexivity].
    destruct (drop 40 data); [|unfold zlen in *; cbn in Hz; lia]. cbn [le_join]. now rewrite Z.add_0_r.
  - destruct (csum_rest_rep (drop 40 data) after (zlen data - 40) t1) as (r & -> & Hr & Hu).
    + eapply summed_bytes; eassumption.
    + rewrite Hz, Z.mod_small by lia. done.
    + unfold room in *. replace (- (zlen data - 40)) with (- zlen data + 5 * 8) by lia. now rewrite Z_mod_plus_full.
    + done.
    + exists r. split; [done|]. split; [|done]. eapply (summed_rest _ t1 t _ (drop 40 data)); eauto.
Qed.

(** The 64-bit sum of [data], whatever follows it in memory, as long as the eight bytes of the
    last load can be read. *)
Lemma csum_partial_64_rep data after sum : bytes_ok (data ++ after) -> room (zlen data) after -> is_u32 sum ->
  exists r, csum_partial_64 (data ++ after) (zlen data) sum = Some r /\ rep r (sum16 data + sum) /\ is_u32 r.
Proof.
  intros Hb Hroom Hsum. unfold is_u32 in Hsum. assert (0 <= zlen data) by (unfold zlen; lia).
  assert (Hbd : bytes_ok data) by now apply bytes_ok_app in Hb.
  assert (Hjoin : forall r, rep r (sum + le_join data) -> rep r (sum16 data + sum)).
  { intros r Hr. eapply rep_trans; [exact Hr|]. rewrite Z.add_comm. apply rep_add; [|apply rep_refl; lia].
    destruct (rep_sum16 data Hbd) as (R1 & R2 & R3 & R4). split; [done|]. split; [done|]. split; [now symmetry|lia]. }
  unfold csum_partial_64. destruct (Z.leb_spec 80 (zlen data)) as [H80|H80].
  - destruct (csum_80_summed (Z.to_nat (zlen data)) (data ++ after) (zlen data) sum 0)
      as (t1 & t2 & rest & len' & ws & -> & Ht1 & Ht2 & S & Hlen & Hl' & Hmod);
      [done|rewrite zlen_app; unfold zlen in *; lia|zlia|unfold two64; lia|unfold two64; lia|].
    cbn [mbind option_bind].
    assert (Hws : (length ws <= length data)%nat) by (unfold zlen in *; lia).
    pose proof S as (E & _). apply split_suffix in E; [|done]. set (d := drop (length ws) data) in *. subst rest.
    assert (Hd : zlen d = len') by (unfold d, zlen in *; rewrite length_drop; lia).
    destruct (add_chain_rep [t2] t1) as [Ha Har]; [now constructor|done|]. cbn [total] in Ha. rewrite Z.add_0_r in Ha.
    destruct (below_80 d after (add_chain t1 [t2])) as (r & E & Hr & Hu).
    + eapply summed_bytes; eassumption.
    + lia.
    + unfold room in *. rewrite Hd. zlia.
    + done.
    + rewrite Hd in E. exists r. split; [exact E|]. split; [|done]. apply Hjoin.
      eapply (summed_rest r (t1 + t2) (sum + 0) ws d); [exact Hb|exact S| |lia].
      eapply rep_trans; [exact Hr|]. apply rep_add; [exact Ha|]. apply rep_refl, le_join_nonneg.
      apply summed_bytes in S; [now apply bytes_ok_app in S|done].
  - cbn [mbind option_bind]. destruct (below_80 data after sum) as (r & E & Hr & Hu); try done; [unfold two64; lia|].
    exists r. split; [exact E|]. split; [now apply Hjoin|done].
Qed.

(** ** Both sums give the same checksum *)

(** The checksum that a program makes of a sum: two folds, complemented. *)
Definition checksum (x : Z) : Z := u16 (Z.lnot (fold16 (u32 (fold16 x)))).

(** C40: [bpf_csum_diff] built on the 64-bit sum is the one built on the 32-bit sum for every program
    that folds the result: for every two buffers and seed both return a sum of the same
    checksum, or both refuse; the 64-bit loads never leave the 512 bytes of the scratch pad,
    whatever it held. *)
Theorem csum_versions_agree (sp : Z) (pad from to : list Z) (seed : Z) :
  zlen pad = 512 -> bytes_ok pad -> bytes_ok from -> bytes_ok to -> is_u32 seed ->
  exists r, csum_diff_64 pad from to seed = Some r /\
    (csum_diff_sizes from to ->
       is_u32 r /\ r =oc seed - sum16 from + sum16 to /\
       checksum r = checksum (bpftime_csum_diff_runtime sp from to seed)) /\
    (~ csum_diff_sizes from to -> r = bpftime_csum_diff_runtime sp from to seed).
Proof.
  intros Hp Hpb Hf Ht Hs. unfold csum_diff_64, bpftime_csum_diff_runtime. pose proof (csum_diff_guard from to) as Hg.
  cbv zeta. destruct (nz _ || _).
  { exists (u64 (- EINVAL)). split; [done|]. split; [|done]. intros Hc. now apply Hg in Hc. }
  assert (Hc : csum_diff_sizes from to) by now apply Hg.
  pose proof (csum_diff_words_ok from to Hf Ht) as Hb. set (data := csum_diff_words from to) in *.
  assert (Hz : zlen data = zlen from + zlen to)
    by (unfold data, csum_diff_words; rewrite zlen_app; unfold zlen; rewrite length_map; lia).
  rewrite <- Hz, (u32_id seed) by done. destruct Hc as (Hm1 & Hm2 & Hle).
  destruct (csum_partial_64_rep data (drop (Z.to_nat (zlen data)) pad) seed) as (r & E & Hr & Hu);
    [apply bytes_ok_app; split; [done|now apply Forall_drop]| |done|].
  { unfold room. rewrite zlen_drop. unfold zlen in *. zlia. }
  destruct (csum_partial_rep sp data seed Hb Hs) as [Hr' Hu'].
  exists r. split; [exact E|]. split; [|intros []; now split].
  intros _. split; [done|]. split.
  - apply even_of_mod4 in Hm1. destruct Hr as (_ & _ & Hoc & _). rewrite Hoc. unfold data, csum_diff_words.
    rewrite sum16_app_even by now rewrite length_map. rewrite sum16_complement by done. unfold oc. f_equal. lia.
  - unfold checksum. now rewrite (two_folds_norm r _ Hr Hu), (two_folds_norm _ _ Hr' Hu').
Qed.

(** 84 bytes through the loop, 44 through the single chunk and a short load. *)
Lemma csum_versions_agree_witness :
  let from := repeat 255 84 in let to := map Z.of_nat (seq 0 128) in
  exists r, csum_diff_64 (repeat 170 512) from to 0xfffffff0 = Some r /\
    (csum_diff_sizes from to ->
       is_u32 r /\ r =oc 0xfffffff0 - sum16 from + sum16 to /\
       checksum r = checksum (bpftime_csum_diff_runtime 4096 from to 0xfffffff0)) /\
    (~ csum_diff_sizes from to -> r = bpftime_csum_diff_runtime 4096 from to 0xfffffff0).
Proof.
  intros from to. apply (csum_versions_agree 4096); [reflexivity|..].
  - now apply bytes_ok_check.
  - now apply bytes_ok_check.
  - now apply bytes_ok_check.
  - now compute.
Defined.

(** ** The helper that is inlined into a program *)

(** The sizes are added at 32 bits; [None] is a write behind the scratch pad.
    @src xdp_progs/includes/inline_csum.h 212-237 _bpf_helper_ext_0028 *)
Definition _bpf_helper_ext_0028 (sp : Z) (from to : list Z) (seed : Z) : option Z :=
  let diff_size := u32 (zlen from + zlen to) in
  if nz (Z.land (Z.lor (zlen from) (zlen to)) 3) || (512 <? diff_size) then Some (- EINVAL)
  else if 512 <? zlen from + zlen to then None
  else Some (csum_partial sp (csum_diff_words from to) seed).

Lemma csum_partial_range sp bs sum : is_u32 (csum_partial sp bs sum).
Proof. unfold csum_partial. destruct (_ <? _); apply u32_range. Qed.
(** It is the helper of the runtime, read as signed, unless the two sizes together do not fit
    in 32 bits. *)
Lemma inline_csum_diff sp from to seed : zlen from + zlen to < 4294967296 ->
  _bpf_helper_ext_0028 sp from to seed = Some (s64 (bpftime_csum_diff_runtime sp from to seed)).
Proof.
  intros Hl. unfold _bpf_helper_ext_0028, bpftime_csum_diff_runtime.
  rewrite u32_id by (unfold is_u32, zlen in *; lia). cbv zeta.
  destruct (nz _); cbn [orb]; [done|]. destruct (512 <? zlen from + zlen to); [done|].
  pose proof (csum_partial_range sp (csum_diff_words from to) seed) as Hu. unfold is_u32 in Hu.
  unfold s64. now destruct (Z.ltb_spec (csum_partial sp (csum_diff_words from to) seed) 9223372036854775808); [|lia].
Qed.
(** When they do not, the check passes and the pad is overrun. *)
Lemma inline_csum_overruns sp from to seed :
  zlen from mod 4 = 0 -> zlen to mod 4 = 0 -> 512 < zlen from + zlen to -> u32 (zlen from + zlen to) <= 512 ->
  _bpf_helper_ext_0028 sp from to seed = None.
Proof.
  intros Hf Ht Hl Hu. unfold _bpf_helper_ext_0028. cbv zeta.
  assert (nz (Z.land (Z.lor (zlen from) (zlen to)) 3) = false) as ->.
  { unfold nz. rewrite negb_false_iff, Z.eqb_eq, Z.land_lor_distr_l. change 3 with (Z.ones 2).
    rewrite !Z.land_ones by lia. change (2 ^ 2) with 4. now rewrite Hf, Ht. }
  destruct (Z.ltb_spec 512 (u32 (zlen from + zlen to))); [lia|]. cbn [orb].
  now destruct (Z.ltb_spec 512 (zlen from + zlen to)); [|lia].
Qed.

(** ** The programs that are built with it *)

Section programs.
Context (sp : Z) {E : Type}.

(** @src xdp_progs/xdp_csum.bpf.inline.aot.c 49-54 ipv4_csum *)
Definition ipv4_csum (data_start : Z) (data_size : nat) (csum : Z) : xdp E Z :=
  bs ← load data_size data_start;
  csum ← lift (_bpf_helper_ext_0028 sp [] bs csum);
  mret (Csum.csum_fold_helper (u32 csum)).
(** The loop; [n] turns are left.
    @src xdp_progs/xdp_csum.bpf.inline.aot.c 86-90 bpf_main *)
Fixpoint csum_loop (n : nat) (iph csum : Z) : xdp E Z :=
  match n with
  | O => mret csum
  | S n =>
      csum ← ipv4_csum iph 20 csum;
      store16 (iph + 10) csum ;;
      csum_loop n iph csum
  end.
(** @src xdp_progs/xdp_csum_only.bpf.inline.aot.c 55-98 bpf_main *)
Definition csum_only_main : xdp E Z :=
  need 14 else XDP_PASS ;;
  h_proto ← load16 12;
  if negb (h_proto =? bswap16 Csum.ETH_P_IP) then mret XDP_PASS else
  need (14 + 20) else XDP_PASS ;;
  csum_loop Csum.LOOP_LEN 14 0 ;;
  swap_src_dst_mac ;;
  mret XDP_TX.
End programs.

(** The map is number 4 of the runtime.
    @src xdp_progs/xdp_csum.bpf.inline.aot.c 56-99 bpf_main *)
Definition csum_main (sp : Z) : xdp (gmap Z Z) Z :=
  need 14 else XDP_PASS ;;
  h_proto ← load16 12;
  if negb (h_proto =? bswap16 Csum.ETH_P_IP) then mret XDP_PASS else
  need (14 + 20) else XDP_PASS ;;
  csum_loop sp Csum.LOOP_LEN 14 0 ;;
  value ← asks (fun rxcnt => array_get 256 rxcnt 23);
  when (match value with Some _ => true | None => false end) (modify (array_incr 23)) ;;
  swap_src_dst_mac ;;
  mret XDP_TX.

(** The arrays are variables of the program, which are always there.
    @src xdp_progs/xdp_map_access.bpf.inline.aot.c 31-52 bpf_main *)
Definition map_access_main : xdp MapAccess.maps Z :=
  flag ← asks (fun m => default 0 (MapAccess.ctl_array m !! 0));
  if negb (flag =? 0) then mret XDP_PASS else
  modify (fun m => MapAccess.Maps (MapAccess.ctl_array m) (array_incr 0 (MapAccess.cntrs_array m))) ;;
  need 14 else XDP_DROP ;;
  swap_src_dst_mac ;;
  mret XDP_TX.

(** ** They are the programs of XdpSamples.v *)

Section agreement.
Context (sp cpu : Z) (clock : nat -> Z).
#[local] Instance the_helpers : XdpHelpers := runtime_helpers sp cpu clock.

Lemma bind_ext {E A B} (m m' : xdp E A) (k k' : A -> xdp E B) s :
  m s = m' s -> (forall a s', m s = Some (a, s') -> k a s' = k' a s') -> (m ≫= k) s = (m' ≫= k') s.
Proof. unfold mbind, xdp_bind. intros <- Hk. destruct (m s) as [[a s']|]; [now apply Hk|done]. Qed.

Lemma load_length {E} off n (s : xst E) bs s' : load n off s = Some (bs, s') -> length bs = n.
Proof.
  unfold load. destruct (slice off n (f_data (x_frame s))) as [l|] eqn:Hl; [|discriminate]. intros [= <- _].
  now apply slice_inv in Hl as (_ & _ & ? & _).
Qed.

Lemma csum_loop_same {E} n c (s : xst E) : csum_loop sp n 14 c s = Csum.csum_loop n 14 c s.
Proof.
  revert c s. induction n as [|n IH]; intros c s; cbn [csum_loop Csum.csum_loop]; [done|].
  apply bind_ext.
  - unfold ipv4_csum, Csum.ipv4_csum. apply bind_ext; [done|]. intros bs s' Hl. apply load_length in Hl.
    unfold h_csum_diff, the_helpers, runtime_helpers.
    rewrite inline_csum_diff by (unfold zlen; cbn [length]; lia). reflexivity.
  - intros c' s' _. apply bind_ext; [done|]. intros [] s'' _. apply IH.
Qed.

(** The programs with the inlined helper behave as the originals on the helper of the runtime,
    whatever the packet and the map; the one with constant arrays as the original on an array
    map, whose element 0 always exists. *)
Lemma inline_programs_agree :
  (forall E (s : xst E), csum_only_main sp s = Csum.xdp_csum_only s) /\
  (forall s, csum_main sp s = Csum.xdp_csum s) /\
  (forall s, map_access_main s = MapAccess.xdp_map_access s).
Proof.
  split; [|split]; [intros E s|intros s..].
  1-2: unfold csum_only_main, Csum.xdp_csum_only, csum_main, Csum.xdp_csum;
    repeat lazymatch goal with
    | |- ?x = ?x => reflexivity
    | |- (if ?b then _ else _) _ = _ => destruct b
    | |- _ => apply bind_ext; [first [apply csum_loop_same | reflexivity]|intros ? ? _]
    end.
  reflexivity.
Qed.
End agreement.
