(* ===== verification/AclLoader.v ===== *)
(** * The rules of the access control list (xdp_progs/xdp-acl/standard_acl.c, load_standard_acl.c)

    The two programs that fill the list: they deny a list of addresses, permit 10.1.0.1 and
    leave; the second reuses pinned maps and ignores every failure.  Composed with the program
    of XdpSamples.v, on the trie of the kernel and on that of the runtime (LpmTrie.v): which
    packets pass. *)
From Stdlib Require Import ZArith Lia Ascii String.
From stdpp Require Import base numbers list option gmap.
From S2P Require Import Prelude Xdp OnesComplement XdpRun CLib LpmTrie XdpSamples.
#[local] Open Scope Z_scope.
#[local] Open Scope list_scope.

(** ** Keys *)

(** @src xdp_progs/xdp-acl/standard_acl.c 11-46 hundred_ips *)
Definition hundred_ips : list string :=
  ["60.233.210.164"; "4.120.6.163"; "237.38.32.175"; "27.42.226.56"; "153.231.145.17"; "104.63.75.109";
   "163.212.67.235"; "12.245.128.220"; "131.20.136.213"; "166.81.179.218"; "20.208.98.57"; "214.41.125.205";
   "225.194.134.155"; "117.29.31.146"; "138.72.10.139"; "164.60.193.55"; "171.236.189.213"; "87.144.122.200";
   "26.154.137.77"; "55.202.61.241"; "218.89.116.34"; "140.184.200.38"; "53.150.2.19"; "12.48.4.25";
   "182.66.209.47"; "247.67.162.217"; "127.68.116.62"; "156.95.45.211"; "54.135.30.209"; "149.101.210.119";
   "80.220.156.242"; "91.137.220.227"; "159.115.137.149"; "117.23.107.60"; "76.89.232.121"; "104.234.56.223";
   "102.208.11.27"; "127.161.93.127"; "223.26.131.38"; "139.112.169.131"; "24.41.187.79"; "189.248.59.208";
   "231.75.38.70"; "52.119.233.64"; "78.203.93.137"; "96.23.86.52"; "189.22.95.58"; "74.84.62.110";
   "138.250.217.31"; "244.86.29.233"; "202.232.212.46"; "121.210.240.128"; "63.97.74.126"; "17.42.220.19";
   "123.231.37.224"; "56.188.61.66"; "169.23.84.82"; "115.252.31.112"; "110.111.7.211"; "239.33.230.227";
   "235.174.201.173"; "74.7.73.135"; "79.14.197.21"; "30.43.81.244"; "139.128.26.15"; "161.36.44.14";
   "165.74.180.98"; "142.156.187.209"; "189.154.240.58"; "175.170.163.104"; "236.82.55.219"; "93.52.159.33";
   "67.242.231.54"; "10.1.0.1"; "134.26.17.74"; "39.115.3.71"; "49.164.139.12"; "167.10.170.87";
   "60.10.164.198"; "175.13.210.117"; "90.24.223.186"; "30.51.114.41"; "80.61.233.86"; "119.37.190.243";
   "75.108.255.117"; "97.10.112.161"; "129.169.64.222"; "146.176.5.196"; "202.248.119.208"; "233.208.146.44";
   "127.11.194.83"; "191.70.172.209"; "207.37.36.165"; "143.63.107.1"; "76.74.66.112"; "115.236.206.251";
   "225.66.208.106"; "168.253.120.140"; "92.77.206.210"; "78.214.87.255"]%string.

(** [inet_addr] on a dotted quad without leading zeros, the only strings it is given. *)
Definition inet_addr (s : string) : Z :=
  match inet_pton4 s with Some bs => le_join bs | None => 4294967295 end.
(** @src xdp_progs/xdp-acl/standard_acl.c 3731-3735 get_ip_address_in_nbo *)
Definition get_ip_address_in_nbo (ip : string) : Z := inet_addr ip.
(** @src xdp_progs/xdp-acl/standard_acl.c 3748-3751 get_subnet_mask *)
Definition get_subnet_mask (prefix_len : Z) : Z :=
  if nz prefix_len then u32 (Z.shiftl (Z.lnot 0) (32 - prefix_len)) else 0.
(** @src xdp_progs/xdp-acl/standard_acl.c 3753-3757 gen_ipv4_key *)
Definition gen_ipv4_key (prefixlen ip : Z) : Acl.ipv4_lpm_key := Acl.Ipv4LpmKey prefixlen ip.
(** @src xdp_progs/xdp-acl/standard_acl.c 3759-3763 gen_ipv6_key *)
Definition gen_ipv6_key (prefixlen : Z) (ip : list Z) : Acl.ipv6_lpm_key := Acl.Ipv6LpmKey prefixlen ip.
#[global] Instance ipv4_lpm_key_eq_dec : EqDecision Acl.ipv4_lpm_key.
Proof. solve_decision. Defined.

(** ** The programs *)

Definition update : Type := Acl.ipv4_lpm_key * bool.
(** What the host answers: whether the object opens and loads, whether it has a map of a name,
    whether an update is written, the descriptor of a pinned object, and the result of putting
    it in the place of a map. *)
Record host := Host {
  k_open : string -> bool; k_load : bool; k_map : string -> bool; k_update : update -> bool;
  k_obj_get : string -> Z; k_reuse_fd : string -> Z -> Z
}.

(** @src xdp_progs/xdp-acl/standard_acl.c 3799-3809 main *)
Definition rules (ips : list string) : list update :=
  map (fun ip => (gen_ipv4_key 32 (get_ip_address_in_nbo ip), false)) ips
  ++ [(gen_ipv4_key 32 (get_ip_address_in_nbo "10.1.0.1"), true)].

(** The return value and the updates that are written; their results are not looked at.
    @src xdp_progs/xdp-acl/standard_acl.c 3765-3814 main *)
Definition main (k : host) (args : list string) : Z * list update :=
  match args with
  | [] => (1, [])
  | path :: _ =>
      if negb (k_open k path) then (1, []) else
      if negb (k_load k) then (1, []) else
      if negb (k_map k "ipv4_rules_trie") then (1, []) else
      (0, filter (fun u => k_update k u) (rules hundred_ips))
  end.

(** [Crash]: a null pointer is given to libbpf, or [strcat] writes behind its buffer. *)
Inductive result := Exit (code : Z) | Crash.
(** The maps that are replaced by pinned ones, and where those were.
    @src xdp_progs/xdp-acl/load_standard_acl.c 107-124 reuse_pinned_maps *)
Definition reuse_pinned_map (k : host) (pin_path name : string) : option (list (string * string)) :=
  let temp_pin_path := (pin_path ++ name)%string in
  if (50 <=? Z.of_nat (String.length temp_pin_path)) then None else
  if negb (k_map k name) then None else
  let fd := k_obj_get k temp_pin_path in
  Some (if nz (k_reuse_fd k name fd) then [] else [(name, temp_pin_path)]).
(** @src xdp_progs/xdp-acl/load_standard_acl.c 107-124 reuse_pinned_maps *)
Definition reuse_pinned_maps (k : host) (pin_path : string) : option (list (string * string)) :=
  a ← reuse_pinned_map k pin_path "ipv4_rules_trie";
  b ← reuse_pinned_map k pin_path "ipv6_rules_trie";
  Some (a ++ b).
(** @src xdp_progs/xdp-acl/load_standard_acl.c 96-105 bpf_map_update_elem_simple *)
Definition bpf_map_update_elem_simple (k : host) (u : update) : option (list update) :=
  if negb (k_map k "ipv4_rules_trie") then None
  else Some (if k_update k u then [u] else []).
(** @src xdp_progs/xdp-acl/load_standard_acl.c 170-178 main *)
Fixpoint update_all (k : host) (us : list update) : option (list update) :=
  match us with
  | [] => Some []
  | u :: us => a ← bpf_map_update_elem_simple k u; b ← update_all k us; Some (a ++ b)
  end.
(** [tenk_ips] is the array of ten thousand addresses of the file.
    @src xdp_progs/xdp-acl/load_standard_acl.c 156-181 main *)
Definition load_main (tenk_ips : list string) (k : host) : result * list (string * string) * list update :=
  if negb (k_open k "./standard_acl_kern.o") then (Crash, [], []) else
  match reuse_pinned_maps k "/sys/fs/bpf/xdp_standard_acl/" with
  | None => (Crash, [], [])
  | Some reused =>
      match update_all k (rules tenk_ips) with
      | None => (Crash, reused, [])
      | Some written => (Exit 0, reused, written)
      end
  end.

(** ** The tries *)

(** The value of the last update of a key. *)
Definition last_value (ups : list update) (key : Acl.ipv4_lpm_key) : option bool :=
  fold_left (fun r u => if decide (u.1 = key) then Some u.2 else r) ups None.
(** The trie of the kernel: what is found after some updates.  Its documentation: the longest
    prefix that matches; among full-length keys that is the key itself. *)
Class KernelTrie := lpm_find : list update -> Acl.ipv4_lpm_key -> option bool.
Class KernelTrieLaws (K : KernelTrie) : Prop := lpm_find_full : forall ups data,
  Forall (fun u => Acl.k4_prefixlen u.1 = 32 /\ is_u32 (Acl.k4_data u.1)) ups -> Z.of_nat (length ups) <= 10001 ->
  is_u32 data -> lpm_find ups (Acl.Ipv4LpmKey 32 data) = last_value ups (Acl.Ipv4LpmKey 32 data).

(** The list on the trie of the kernel, where no rule is for IPv6, and on the runtime, where both
    maps are one trie: its values are read as [int] and its keys are read as long as the
    attributes say, [pad] is what follows a key of IPv4 in memory. *)
Definition kernel_rules {K : KernelTrie} (ups : list update) : Acl.Rules :=
  {| Acl.ipv4_rules_trie := lpm_find ups; Acl.ipv6_rules_trie := fun _ => None |}.
Definition key_bytes (key : Acl.ipv4_lpm_key) (pad : list Z) : list Z :=
  le_split 4 (Acl.k4_prefixlen key) ++ le_split 4 (Acl.k4_data key) ++ pad.
Definition key6_bytes (key : Acl.ipv6_lpm_key) : list Z := le_split 4 (Acl.k6_prefixlen key) ++ Acl.k6_data key.
Definition runtime_rules (m : lpm_map) (pad : list Z) : Acl.Rules :=
  {| Acl.ipv4_rules_trie := fun key =>
       '(v, _) ← lpm_elem_lookup m (key_bytes key pad); option_map (fun v => nz (u8 v)) v;
     Acl.ipv6_rules_trie := fun key =>
       '(v, _) ← lpm_elem_lookup m (key6_bytes key); option_map (fun v => nz (u8 v)) v |}.

(** ** What the keys are *)

Lemma address_u32 s : is_u32 (inet_addr s).
Proof.
  unfold inet_addr. destruct (inet_pton4 s) as [bs|] eqn:E; [|now compute].
  apply inet_pton4_ok in E as [Hl Hb]. pose proof (le_join_range bs Hb) as Hj. rewrite Hl in Hj. exact Hj.
Qed.
Lemma rules_full ips : Forall (fun u => Acl.k4_prefixlen u.1 = 32 /\ is_u32 (Acl.k4_data u.1)) (rules ips).
Proof.
  unfold rules. apply Forall_app. split; [|repeat constructor; apply address_u32].
  induction ips as [|ip ips IH]; cbn [map]; constructor; [|done]. split; [done|apply address_u32].
Qed.

Definition permitted_ip : list Z := [10; 1; 0; 1].
(** Whatever the list of denied addresses, the last update wins. *)
Lemma last_rule ips data : default false (last_value (rules ips) (Acl.Ipv4LpmKey 32 data)) = (data =? le_join permitted_ip).
Proof.
  unfold rules, last_value. rewrite fold_left_app. cbn [fold_left].
  assert (G : forall r, default false r = false ->
    default false (fold_left (fun r (u : update) => if decide (u.1 = Acl.Ipv4LpmKey 32 data) then Some u.2 else r)
      (map (fun ip => (gen_ipv4_key 32 (get_ip_address_in_nbo ip), false)) ips) r) = false).
  { induction ips as [|ip ips IH]; intros r Hr; cbn [map fold_left]; [done|]. apply IH. now case_decide. }
  specialize (G None eq_refl). set (r := fold_left _ _ _) in *. clearbody r. cbn [fst snd].
  unfold gen_ipv4_key. change (get_ip_address_in_nbo "10.1.0.1") with (le_join permitted_ip).
  case_decide as Hd.
  - injection Hd as Hd. symmetry. now apply Z.eqb_eq.
  - rewrite G. symmetry. apply Z.eqb_neq. intros ->. now apply Hd.
Qed.

(** The updates as the map of the runtime sees them: twelve more bytes than the key has, and an
    [int] whose first byte is the value. *)
Definition stored_as (u : update) (kv : list Z * Z) : Prop :=
  exists pad, zlen pad = 12 /\ kv.1 = key_bytes u.1 pad /\ u8 kv.2 = b2z u.2.

(** Twenty bits of a key are in its prefix length. *)
Lemma key_agrees pad pad' key key' : zlen pad = 12 -> zlen pad' = 12 ->
  Acl.k4_prefixlen key = Acl.k4_prefixlen key' -> ip_bits (key_bytes key pad) 20 = ip_bits (key_bytes key' pad') 20.
Proof.
  intros _ _ Hk. unfold key_bytes. rewrite Hk. unfold ip_bits. apply list_fmap_ext. intros i x Hx.
  apply lookup_seq in Hx as [-> Hx]. unfold ip_bit. cbn [Nat.add].
  assert (i / 8 < 4)%nat by (apply Nat.Div0.div_lt_upper_bound; lia).
  now rewrite !lookup_app_l by now rewrite length_le_split.
Qed.

(** So the first update answers every question. *)
Lemma first_rule u ups kv kvs key pad : Forall2 stored_as (u :: ups) (kv :: kvs) ->
  Acl.k4_prefixlen u.1 = 32 -> zlen pad = 12 ->
  option_map (fun v => nz (u8 v)) (first_agreeing 20 (kv :: kvs) (key_bytes (Acl.Ipv4LpmKey 32 key) pad)) = Some u.2.
Proof.
  intros H Hu Hp. apply Forall2_cons in H as [(pad' & Hp' & Hk & Hv) _]. destruct kv as [k v]. cbn [fst snd] in *. subst k.
  cbn [first_agreeing]. rewrite decide_True by now apply key_agrees. cbn [option_map]. rewrite Hv. now destruct u.2.
Qed.

(** None answers one about an IPv6 address, whose prefix length is another. *)
Lemma no_rule_v6 ups kvs addr : Forall2 stored_as ups kvs -> Forall (fun u => Acl.k4_prefixlen u.1 = 32) ups ->
  first_agreeing 20 kvs (key6_bytes (Acl.Ipv6LpmKey 128 addr)) = None.
Proof.
  induction 1 as [|u [k v] ups kvs (pad & _ & Hk & _) _ IH]; [done|]. intros [Hu Hus]%Forall_cons.
  cbn [first_agreeing fst] in *. subst k. unfold key_bytes. rewrite Hu, decide_False; [auto|]. intros E.
  apply (f_equal (fun l => hd_error l)) in E. vm_compute in E. discriminate E.
Qed.

(** ** Which packets pass *)

Definition accepts (k : host) (path : string) : Prop :=
  k_open k path = true /\ k_load k = true /\ k_map k "ipv4_rules_trie" = true /\ forall u, k_update k u = true.
Definition is_ip (d : list Z) : Prop := ethertype d = 8 \/ ethertype d = 56710.
(** A complete IPv4 header with the permitted source. *)
Definition permitted (d : list Z) : Prop :=
  ethertype d = 8 /\ 34 <= zlen d /\ take 4 (drop 26 d) = permitted_ip.

Lemma main_rules k path rest : accepts k path -> main k (path :: rest) = (0, rules hundred_ips).
Proof.
  intros (Ho & Hl & Hm & Hu). unfold main. rewrite Ho, Hl, Hm. cbn [negb]. f_equal.
  generalize (rules hundred_ips). intros l. induction l as [|u l IH]; [done|].
  rewrite filter_cons, decide_True, IH by (now rewrite Hu). done.
Qed.

Lemma join_permitted d : bytes_ok d -> 34 <= zlen d -> le_join (take 4 (drop 26 d)) = le_join permitted_ip ->
  take 4 (drop 26 d) = permitted_ip.
Proof.
  intros Hb Hl E. assert (H4 : length (take 4 (drop 26 d)) = 4%nat) by (unfold zlen in Hl; rewrite length_take, length_drop; lia).
  assert (Hok : bytes_ok (take 4 (drop 26 d))) by now apply Forall_take, Forall_drop.
  rewrite <- (le_split_join _ Hok), H4, E. reflexivity.
Qed.

(** On the trie of the kernel the list permits one address. *)
Lemma kernel_permits {K : KernelTrie} {KL : KernelTrieLaws K} ips d : bytes_ok d -> Z.of_nat (length ips) <= 10000 ->
  @acl_permits (kernel_rules (rules ips)) d = Some true <-> permitted d.
Proof.
  intros Hb Hn. unfold acl_permits, permitted. cbn [kernel_rules Acl.ipv4_rules_trie Acl.ipv6_rules_trie default].
  destruct (Z.eqb_spec (ethertype d) 8) as [H8|H8].
  2:{ destruct (_ =? 56710); [rewrite andb_false_r|]; (split; [discriminate|tauto]). }
  destruct (Z.leb_spec 34 (zlen d)) as [Hl|Hl]; cbn [andb]; [|split; [done|lia]].
  assert (Hok : bytes_ok (take 4 (drop 26 d))) by now apply Forall_take, Forall_drop.
  assert (Hu : is_u32 (le_join (take 4 (drop 26 d)))).
  { pose proof (le_join_range _ Hok) as Hj. assert (length (take 4 (drop 26 d)) = 4%nat) as H4
      by (unfold zlen in Hl; rewrite length_take, length_drop; lia). rewrite H4 in Hj. exact Hj. }
  rewrite lpm_find_full by (try apply rules_full; try done; unfold rules; rewrite length_app, length_map; cbn; lia).
  rewrite last_rule. split.
  - intros [= E]. apply Z.eqb_eq in E. auto using join_permitted.
  - intros (_ & _ & ->). now rewrite Z.eqb_refl.
Qed.

(** On the map of the runtime it permits none. *)
Lemma runtime_permits u ups kvs pad d : Forall2 stored_as (u :: ups) kvs ->
  Forall (fun u => Acl.k4_prefixlen u.1 = 32) (u :: ups) -> u.2 = false -> zlen pad = 12 ->
  exists m, lpm_updates (lpm_alloc_map 20) kvs = Some m /\
    (is_ip d -> @acl_permits (runtime_rules m pad) d = Some false).
Proof.
  intros H Hall Hf Hp. pose proof (Forall_inv Hall) as Hu. assert (Hz : Forall (fun '(k, _) => zlen k = 20) kvs).
  { clear Hu Hf Hall. induction H as [|v kv vs kvs' (pad' & Hp' & Hk & _) _ IH]; constructor; [|done]. destruct kv as [k x].
    cbn [fst] in Hk. subst k. unfold key_bytes. unfold zlen in *. rewrite !length_app, !length_le_split. lia. }
  set (key := key_bytes (Acl.Ipv4LpmKey 32 (le_join (take 4 (drop 26 d)))) pad).
  assert (Hkz : zlen key = 20) by (unfold key, key_bytes, zlen in *; rewrite !length_app, !length_le_split; lia).
  destruct (lpm_map_lookup 20 kvs key ltac:(lia) Hz Hkz) as (m & Em & (m' & El) & _).
  exists m. split; [done|]. intros Hip. unfold acl_permits. cbn [runtime_rules Acl.ipv4_rules_trie Acl.ipv6_rules_trie default].
  destruct (Z.eqb_spec (ethertype d) 8) as [H8|H8].
  - change (Z.to_nat 20) with 20%nat in El. fold key. rewrite El. cbn [mbind option_bind]. unfold key.
    destruct kvs as [|kv kvs]; [now apply Forall2_nil_inv_r in H|].
    rewrite (first_rule u ups kv kvs _ pad H Hu Hp), Hf. cbn [default]. now rewrite andb_false_r.
  - destruct Hip as [?|H6]; [done|]. rewrite (proj2 (Z.eqb_eq _ _) H6).
    destruct (Z.leb_spec 54 (zlen d)) as [H54|]; cbn [andb]; [|done]. set (addr := take 16 (drop 22 d)).
    assert (Hk6 : zlen (key6_bytes (Acl.Ipv6LpmKey 128 addr)) = 20).
    { unfold key6_bytes, addr, zlen in *. cbn [Acl.k6_prefixlen Acl.k6_data].
      rewrite length_app, length_le_split, length_take, length_drop. lia. }
    destruct (lpm_map_lookup 20 kvs _ ltac:(lia) Hz Hk6) as (m6 & Em6 & (m6' & El6) & _).
    rewrite Em in Em6. injection Em6 as <-. rewrite El6. cbn [mbind option_bind].
    change (Z.to_nat 20) with 20%nat. now rewrite (no_rule_v6 _ _ _ H Hall).
Qed.

(** What a program with a list does, by what the list says. *)
Lemma acl_verdict {R : Acl.Rules} {E} (s : xst E) (P : Prop) : frame_ok (x_frame s) ->
  let d := f_data (x_frame s) in
  (acl_permits d = Some true <-> P) -> (acl_permits d = None <-> ~ is_ip d) ->
  exists v d', runs s Acl.xdp_standard_acl v (set_data s d') /\
    (v = XDP_DROP <-> zlen d < 14 \/ (is_ip d /\ ~ P)) /\ (v <> XDP_TX -> d' = d) /\
    (v = XDP_TX <-> 14 <= zlen d /\ P /\ take 6 (drop 6 d) = Acl.source_mac /\ take 6 d = Acl.my_mac) /\
    (v = XDP_TX -> d' = Acl.target_mac ++ Acl.my_mac ++ drop 12 d).
Proof.
  intros Hok d HP Hn. pose proof (acl_runs s) as Hr. cbv zeta in Hr. fold d in Hr.
  exists (acl_outcome d).1, (acl_outcome d).2. split; [done|]. clear Hr.
  assert (Hip : is_ip d \/ ~ is_ip d) by (unfold is_ip; destruct (decide (ethertype d = 8)), (decide (ethertype d = 56710)); tauto).
  unfold acl_outcome, XDP_DROP, XDP_PASS, XDP_TX in *.
  destruct (Z.ltb_spec (zlen d) 14); [cbn; naive_solver lia|].
  destruct (acl_permits d) as [[]|]; [case_bool_decide| |]; cbn; naive_solver lia.
Qed.

(** C32: the loader and the program together.  The loader writes its hundred denials and the one
    permission.  On the trie of the kernel a packet then gets past the list exactly when it is
    not IP, or has a complete IPv4 header with source 10.1.0.1; it is forwarded exactly when it
    is such an IPv4 packet between the two configured interfaces, and only its MAC addresses
    change.  On the runtime the two maps of the program are one trie, which compares the first
    twenty bits of the key, all in the prefix length, and keeps the first value: there every
    IP packet is dropped, also one of the permitted source. *)
Theorem acl_deployed {K : KernelTrie} {KL : KernelTrieLaws K} (k : host) (path : string) (rest : list string) :
  accepts k path ->
  exists ups, main k (path :: rest) = (0, ups) /\
    (forall E (s : xst E), frame_ok (x_frame s) ->
       let d := f_data (x_frame s) in
       exists v d', runs s (@Acl.xdp_standard_acl (kernel_rules ups) E) v (set_data s d') /\
         (v = XDP_DROP <-> zlen d < 14 \/ (is_ip d /\ ~ permitted d)) /\ (v <> XDP_TX -> d' = d) /\
         (v = XDP_TX <-> 14 <= zlen d /\ permitted d /\ take 6 (drop 6 d) = Acl.source_mac /\ take 6 d = Acl.my_mac) /\
         (v = XDP_TX -> d' = Acl.target_mac ++ Acl.my_mac ++ drop 12 d)) /\
    (forall kvs pad, Forall2 stored_as ups kvs -> zlen pad = 12 ->
       exists m, lpm_updates (lpm_alloc_map 20) kvs = Some m /\
         forall E (s : xst E), frame_ok (x_frame s) -> is_ip (f_data (x_frame s)) ->
           runs s (@Acl.xdp_standard_acl (runtime_rules m pad) E) XDP_DROP s).
Proof.
  intros Ha. exists (rules hundred_ips). split; [now apply main_rules|]. split.
  - intros E s Hok d. apply acl_verdict; [done|apply kernel_permits; [apply Hok|now compute]|].
    unfold acl_permits, is_ip. fold d. destruct (Z.eqb_spec (ethertype d) 8), (Z.eqb_spec (ethertype d) 56710); naive_solver.
  - intros kvs pad H Hp. change (rules hundred_ips) with
      ((gen_ipv4_key 32 (get_ip_address_in_nbo "60.233.210.164"), false) :: tail (rules hundred_ips)) in H.
    assert (Hall : Forall (fun u : update => Acl.k4_prefixlen u.1 = 32) (rules hundred_ips))
      by (eapply Forall_impl; [apply rules_full|]; now intros ? []).
    destruct (runtime_permits _ _ kvs pad [] H Hall eq_refl Hp) as (m & Em & _).
    exists m. split; [done|]. intros E s Hok Hip.
    destruct (runtime_permits _ _ kvs pad (f_data (x_frame s)) H Hall eq_refl Hp) as (m' & Em' & Hper).
    rewrite Em in Em'. injection Em' as <-. specialize (Hper Hip).
    pose proof (@acl_runs (runtime_rules m pad) E s) as Hr. cbv zeta in Hr. unfold acl_outcome in Hr.
    rewrite Hper in Hr. destruct (_ <? 14); cbn [fst snd] in Hr; now rewrite set_data_id in Hr.
Qed.

(** The other program does the same with its own list, whatever its addresses, and stops dead
    on an object without the maps. *)
Lemma load_main_rules ips k :
  k_open k "./standard_acl_kern.o" = true -> (forall u, k_update k u = true) -> (forall name fd, k_reuse_fd k name fd = 0) ->
  (k_map k "ipv4_rules_trie" = true -> k_map k "ipv6_rules_trie" = true ->
     load_main ips k = (Exit 0, [("ipv4_rules_trie", "/sys/fs/bpf/xdp_standard_acl/ipv4_rules_trie");
       ("ipv6_rules_trie", "/sys/fs/bpf/xdp_standard_acl/ipv6_rules_trie")]%string, rules ips)) /\
  (k_map k "ipv4_rules_trie" = false \/ k_map k "ipv6_rules_trie" = false -> load_main ips k = (Crash, [], [])).
Proof.
  intros Ho Hu Hr. unfold load_main. rewrite Ho. cbn [negb].
  unfold reuse_pinned_maps, reuse_pinned_map. rewrite !Hr.
  split.
  - intros H4 H6. rewrite H4, H6. cbn -[rules update_all].
    assert (G : forall us, update_all k us = Some us).
    { induction us as [|u us IH]; [done|]. cbn [update_all]. unfold bpf_map_update_elem_simple. rewrite H4, Hu, IH. done. }
    now rewrite G.
  - intros [H|H]; rewrite H; cbn; [done|]. now destruct (k_map k "ipv4_rules_trie").
Qed.
Lemma load_deployed {K : KernelTrie} {KL : KernelTrieLaws K} ips E (s : xst E) :
  Z.of_nat (length ips) <= 10000 -> frame_ok (x_frame s) ->
  let d := f_data (x_frame s) in
  exists v d', runs s (@Acl.xdp_standard_acl (kernel_rules (rules ips)) E) v (set_data s d') /\
    (v = XDP_DROP <-> zlen d < 14 \/ (is_ip d /\ ~ permitted d)) /\ (v <> XDP_TX -> d' = d) /\
    (v = XDP_TX <-> 14 <= zlen d /\ permitted d /\ take 6 (drop 6 d) = Acl.source_mac /\ take 6 d = Acl.my_mac) /\
    (v = XDP_TX -> d' = Acl.target_mac ++ Acl.my_mac ++ drop 12 d).
Proof.
  intros Hn Hok d. apply acl_verdict; [done|apply kernel_permits; [apply Hok|done]|].
  unfold acl_permits, is_ip. fold d. destruct (Z.eqb_spec (ethertype d) 8), (Z.eqb_spec (ethertype d) 56710); naive_solver.
Qed.

(** ** A trie and a host *)

(** The longest prefix that matches; a later update of a prefix replaces the earlier one. *)
Definition agrees (k' k : Acl.ipv4_lpm_key) : bool :=
  let n := Acl.k4_prefixlen k' in
  (n <=? Acl.k4_prefixlen k)
  && (Z.shiftr (bswap32 (Acl.k4_data k')) (32 - n) =? Z.shiftr (bswap32 (Acl.k4_data k)) (32 - n)).
Definition better (key : Acl.ipv4_lpm_key) (best : option (Z * bool)) (u : update) : option (Z * bool) :=
  if agrees u.1 key && (match best with Some (n, _) => n <=? Acl.k4_prefixlen u.1 | None => true end)
  then Some (Acl.k4_prefixlen u.1, u.2) else best.
Definition longest_prefix : KernelTrie := fun ups key => option_map snd (fold_left (better key) ups None).
#[export] Instance longest_prefix_laws : KernelTrieLaws longest_prefix.
Proof.
  intros ups data Hf _ Hd. unfold lpm_find, longest_prefix, last_value.
  enough (G : forall best r, option_map snd best = r -> (forall n b, best = Some (n, b) -> n = 32) ->
    option_map snd (fold_left (better (Acl.Ipv4LpmKey 32 data)) ups best)
    = fold_left (fun r (u : update) => if decide (u.1 = Acl.Ipv4LpmKey 32 data) then Some u.2 else r) ups r)
    by (apply G; [done|discriminate]).
  induction Hf as [|[[n a] v] ups [Hn Ha] _ IH]; intros best r Hr Hb; cbn [fold_left]; [done|].
  cbn [fst Acl.k4_prefixlen Acl.k4_data] in Hn, Ha. subst n. unfold better at 2, agrees. cbn [fst snd Acl.k4_prefixlen Acl.k4_data].
  change (32 - 32) with 0. rewrite !Z.shiftr_0_r. change (32 <=? 32) with true. cbn [andb].
  assert (Hbest : match best with Some (n, _) => n <=? 32 | None => true end = true).
  { destruct best as [[n b]|]; [|done]. now rewrite (Hb n b eq_refl). }
  rewrite Hbest, andb_true_r. case_decide as Hdec.
  - injection Hdec as ->. rewrite Z.eqb_refl. apply IH; [done|]. now intros n b [= <- <-].
  - destruct (Z.eqb_spec (bswap32 a) (bswap32 data)) as [E|]; [|now apply IH].
    destruct Hdec. f_equal. rewrite <- (bswap32_involutive a), E by done. now apply bswap32_involutive.
Qed.

Definition some_host : host := {|
  k_open := fun _ => true; k_load := true; k_map := fun _ => true; k_update := fun _ => true;
  k_obj_get := fun _ => 5; k_reuse_fd := fun _ _ => 0 |}.
(** An IPv4 packet with a source address. *)
Definition ip_packet (src : list Z) : list Z :=
  Acl.my_mac ++ Acl.source_mac ++ [8; 0] ++ repeat 0 12 ++ src ++ repeat 0 20.

(** The permitted address is forwarded by the kernel; the runtime, to which the rules are given
    with zeros behind them, drops it. *)
Example permitted_packet :
  let s := Xst (Frame [] (ip_packet [10; 1; 0; 1]) []) tt 0 in
  let ups := (main some_host ["acl.o"%string]).2 in
  let kvs := map (fun u : update => (key_bytes u.1 (repeat 0 12), b2z u.2)) ups in
  fst <$> @Acl.xdp_standard_acl (@kernel_rules longest_prefix ups) unit s = Some XDP_TX /\
  (m ← lpm_updates (lpm_alloc_map 20) kvs;
   fst <$> @Acl.xdp_standard_acl (runtime_rules m (repeat 0 12)) unit s) = Some XDP_DROP.
Proof. vm_compute. split; reflexivity. Qed.

Lemma acl_deployed_witness :
  exists ups, main some_host ["acl.o"%string] = (0, ups) /\
    (forall E (s : xst E), frame_ok (x_frame s) ->
       let d := f_data (x_frame s) in
       exists v d', runs s (@Acl.xdp_standard_acl (@kernel_rules longest_prefix ups) E) v (set_data s d') /\
         (v = XDP_DROP <-> zlen d < 14 \/ (is_ip d /\ ~ permitted d)) /\ (v <> XDP_TX -> d' = d) /\
         (v = XDP_TX <-> 14 <= zlen d /\ permitted d /\ take 6 (drop 6 d) = Acl.source_mac /\ take 6 d = Acl.my_mac) /\
         (v = XDP_TX -> d' = Acl.target_mac ++ Acl.my_mac ++ drop 12 d)) /\
    (forall kvs pad, Forall2 stored_as ups kvs -> zlen pad = 12 ->
       exists m, lpm_updates (lpm_alloc_map 20) kvs = Some m /\
         forall E (s : xst E), frame_ok (x_frame s) -> is_ip (f_data (x_frame s)) ->
           runs s (@Acl.xdp_standard_acl (runtime_rules m pad) E) XDP_DROP s).
Proof. apply (@acl_deployed longest_prefix longest_prefix_laws some_host "acl.o" []). repeat split. Defined.
