(* ===== verification/SampleLoaders.v ===== *)
(** * The loaders of the sample programs (src/xdp_progs)

    The programs that open an object, attach it and stay: xdp_pass.c (of which xdp_drop.c,
    xdp_hash_sum.c and xdp-maps.c are copies), xdp_firewall.c, xdp_csum.c, xdp_csum_only.c and
    xdp_map_access.c; the loader of the stateful firewall, xdp_fw.c; and those that read a ring
    buffer, xdp-tcpclassify.c, xdp-observer/main.c and xdp-dump/main.c.  Composed with the
    programs of XdpFw.v and XdpSamples.v: what a deployed firewall lets through, and what the
    readers print and write of the packets that arrive. *)
From Stdlib Require Import ZArith Lia Ascii String.
From stdpp Require Import base numbers list option gmap.
From S2P Require Import Prelude Xdp OnesComplement XdpRun RuntimeHelpers CLib XdpFw XdpSamples.
#[local] Open Scope Z_scope.
#[local] Open Scope list_scope.

Definition XDP_FLAGS_UPDATE_IF_NOEXIST : Z := 1.
Definition XDP_FLAGS_SKB_MODE : Z := 2.
Definition XDP_FLAGS_DRV_MODE : Z := 4.
Definition XDP_FLAGS_HW_MODE : Z := 8.

(** What the host answers: whether a skeleton opens with a BTF file, and whether it (the empty name)
    or the object of a file loads,
    the descriptors of programs and maps by name (negative when there is none), the number of
    an interface, whether a variable of the environment is set, the result of attaching to an
    interface and of asking for the information on a program, and the result of the update of
    [tx_port]. *)
Record host := Host {
  k_open : option string -> bool; k_load : string -> option string -> bool;
  k_program : string -> option Z; k_map_fd : string -> Z; k_map : string -> bool;
  k_ifindex : string -> Z; k_env : string -> bool; k_attach : Z -> Z; k_info : Z; k_update : Z; k_ring : bool
}.
Inductive event := Attach (ifindex prog_fd flags : Z).
(** [main] returns, stays for ever, or uses a null pointer. *)
Inductive result := Exit (code : Z) | Stays | Crash.

(** ** Attaching a program and waiting *)

(** @src xdp_progs/xdp_pass.c 60-72 main *)
Definition env_flags (k : host) : Z :=
  let xdp_flags := XDP_FLAGS_UPDATE_IF_NOEXIST in
  if k_env k "SKBMODE" then Z.lor xdp_flags XDP_FLAGS_SKB_MODE
  else if k_env k "DRVMODE" then Z.lor xdp_flags XDP_FLAGS_DRV_MODE
  else if k_env k "HWMODE" then Z.lor xdp_flags XDP_FLAGS_HW_MODE
  else xdp_flags.
Definition custom_btf (rest : list string) : option string := match rest with [path] => Some path | _ => None end.

(** A file that does not open gives no object, which does not load; the failure to attach is
    only printed.
    @src xdp_progs/xdp_pass.c 19-84 main *)
Definition pass_main (k : host) (args : list string) : result * list event :=
  match args with
  | file :: ifname :: rest =>
      if negb (k_load k file (custom_btf rest)) then (Exit 1, []) else
      match k_program k "xdp_pass" with
      | None => (Exit 1, [])
      | Some prog_fd =>
          if prog_fd <? 0 then (Exit 1, []) else
          let ifindex := k_ifindex k ifname in
          if negb (nz ifindex) then (Exit 1, [])
          else (Stays, [Attach ifindex prog_fd (env_flags k)])
      end
  | _ => (Exit 1, [])
  end.

(** The same without the tests of the program and its descriptor.
    @src xdp_progs/xdp_firewall.c 19-76 main *)
Definition firewall_main (k : host) (args : list string) : result * list event :=
  match args with
  | file :: ifname :: rest =>
      if negb (k_load k file (custom_btf rest)) then (Exit 1, []) else
      match k_program k "xdp_pass" with
      | None => (Crash, [])
      | Some prog_fd =>
          let ifindex := k_ifindex k ifname in
          if negb (nz ifindex) then (Exit 1, [])
          else (Stays, [Attach ifindex prog_fd (env_flags k)])
      end
  | _ => (Exit 1, [])
  end.

(** The two differ on objects without a usable program only. *)
Lemma firewall_main_pass k args : (forall fd, k_program k "xdp_pass" = Some fd -> 0 <= fd) ->
  k_program k "xdp_pass" <> None -> firewall_main k args = pass_main k args.
Proof.
  intros Hfd Hp. unfold firewall_main, pass_main. destruct args as [|file [|ifname rest]]; [done..|].
  destruct (k_load k file (custom_btf rest)); [|done]. cbn [negb].
  destruct (k_program k "xdp_pass") as [fd|]; [|done]. specialize (Hfd fd eq_refl).
  now destruct (Z.ltb_spec fd 0); [lia|].
Qed.
Lemma firewall_main_crashes k file ifname rest : k_load k file (custom_btf rest) = true ->
  k_program k "xdp_pass" = None ->
  firewall_main k (file :: ifname :: rest) = (Crash, []) /\ pass_main k (file :: ifname :: rest) = (Exit 1, []).
Proof. intros Hl Hp. unfold firewall_main, pass_main. now rewrite Hl, Hp. Qed.

(** ** The loaders with options *)

(** [None] is an exit with 1.
    @src xdp_progs/xdp_csum.c 106-121 main *)
Fixpoint parse_options (opts : list ascii) (xdp_flags : Z) : option Z :=
  match opts with
  | [] => Some xdp_flags
  | opt :: opts =>
      if Ascii.eqb opt "S" then parse_options opts (Z.lor xdp_flags XDP_FLAGS_SKB_MODE)
      else if Ascii.eqb opt "N" then parse_options opts xdp_flags
      else if Ascii.eqb opt "F" then parse_options opts (Z.land xdp_flags (Z.lnot XDP_FLAGS_UPDATE_IF_NOEXIST))
      else None
  end.
(** @src xdp_progs/xdp_csum.c 123-124 main *)
Definition mode_flags (xdp_flags : Z) : Z :=
  if negb (nz (Z.land xdp_flags XDP_FLAGS_SKB_MODE)) then Z.lor xdp_flags XDP_FLAGS_DRV_MODE else xdp_flags.

(** From the options to the attachment; [args] are the words after the options.  The descriptor
    of a program that did not load is given to the kernel as it is.
    @src xdp_progs/xdp_csum_only.c 91-212 main *)
Definition csum_only_loader (k : host) (opts : list ascii) (args : list string) : result * list event :=
  match parse_options opts XDP_FLAGS_UPDATE_IF_NOEXIST with
  | None => (Exit 1, [])
  | Some xdp_flags =>
      match args with
      | [] => (Exit 1, [])
      | ifname :: rest =>
          if negb (k_open k (custom_btf rest)) then (Exit 1, []) else
          if negb (k_load k EmptyString (custom_btf rest)) then (Exit 1, []) else
          let ifindex := k_ifindex k ifname in
          if negb (nz ifindex) then (Exit 1, []) else
          let prog_fd := default (-2) (k_program k "xdp_pass") in
          let attach := Attach ifindex prog_fd (mode_flags xdp_flags) in
          if negb (nz prog_fd) then (Exit 1, [attach]) else
          if nz (k_info k) then (Exit (k_info k), [attach]) else (Stays, [attach])
      end
  end.
(** The interface is looked up first; nothing behind the endless loop is reached.
    @src xdp_progs/xdp_map_access.c 66-154 main *)
Definition map_access_loader (k : host) (opts : list ascii) (args : list string) : result * list event :=
  match parse_options opts XDP_FLAGS_UPDATE_IF_NOEXIST with
  | None => (Exit 1, [])
  | Some xdp_flags =>
      match args with
      | [] => (Exit 1, [])
      | ifname :: rest =>
          let ifindex := k_ifindex k ifname in
          if negb (nz ifindex) then (Exit 1, []) else
          if negb (k_open k (custom_btf rest)) then (Exit 1, []) else
          if negb (k_load k EmptyString (custom_btf rest)) then (Exit 1, []) else
          (Stays, [Attach ifindex (default (-2) (k_program k "xdp_pass")) (mode_flags xdp_flags)])
      end
  end.

(** When both get as far as attaching, they attach alike. *)
Lemma option_loaders_agree k opts args e : k_info k = 0 -> k_program k "xdp_pass" <> Some 0 ->
  csum_only_loader k opts args = (Stays, e) <-> map_access_loader k opts args = (Stays, e).
Proof.
  intros Hi Hp. unfold csum_only_loader, map_access_loader. destruct (parse_options _ _); [|done].
  destruct args as [|ifname rest]; [done|]. rewrite Hi.
  destruct (k_open k _), (k_load k _ _), (nz (k_ifindex k ifname)); cbn [negb]; try done.
  assert (nz (default (-2) (k_program k "xdp_pass")) = true) as ->; [|done].
  apply nz_true. destruct (k_program k "xdp_pass") as [fd|]; cbn; [|done]. intros ->. now apply Hp.
Qed.
(** The options as bits: S sets the first mode, F clears the flag that spares an attached
    program. *)
Lemma parse_bits opts f f' : parse_options opts f = Some f' ->
  Z.testbit f' 0 = Z.testbit f 0 && negb (bool_decide ("F"%char ∈ opts)) /\
  Z.testbit f' 1 = Z.testbit f 1 || bool_decide ("S"%char ∈ opts) /\
  Z.testbit f' 2 = Z.testbit f 2.
Proof.
  revert f. induction opts as [|o opts IH]; intros f; cbn [parse_options].
  { intros [= <-]. rewrite !bool_decide_false by apply not_elem_of_nil. now rewrite andb_true_r, orb_false_r. }
  assert (Hin : forall c, bool_decide (c ∈ o :: opts) = Ascii.eqb o c || bool_decide (c ∈ opts)).
  { intros c. apply eq_bool_prop_intro. rewrite orb_True, !bool_decide_spec, elem_of_cons.
    rewrite Is_true_true, Ascii.eqb_eq. intuition congruence. }
  rewrite !Hin.
  destruct (Ascii.eqb_spec o "S") as [->|HS]; [|destruct (Ascii.eqb_spec o "N") as [->|HN];
    [|destruct (Ascii.eqb_spec o "F") as [->|HF]; [|discriminate]]]; intros E; apply IH in E as (E0 & E1 & E2);
    rewrite E0, E1, E2, ?Z.lor_spec, ?Z.land_spec, ?Z.lnot_spec by lia; cbn [Ascii.eqb];
    change (Z.testbit XDP_FLAGS_SKB_MODE 0) with false; change (Z.testbit XDP_FLAGS_SKB_MODE 1) with true;
    change (Z.testbit XDP_FLAGS_SKB_MODE 2) with false; change (Z.testbit XDP_FLAGS_UPDATE_IF_NOEXIST 0) with true;
    change (Z.testbit XDP_FLAGS_UPDATE_IF_NOEXIST 1) with false; change (Z.testbit XDP_FLAGS_UPDATE_IF_NOEXIST 2) with false;
    destruct (Z.testbit f 0), (Z.testbit f 1), (Z.testbit f 2), (bool_decide ("F"%char ∈ opts)), (bool_decide ("S"%char ∈ opts));
    done.
Qed.
(** The two modes exclude each other. *)
Lemma mode_exclusive opts f : parse_options opts XDP_FLAGS_UPDATE_IF_NOEXIST = Some f ->
  Z.testbit (mode_flags f) 1 = bool_decide ("S"%char ∈ opts) /\
  Z.testbit (mode_flags f) 2 = negb (bool_decide ("S"%char ∈ opts)) /\
  Z.testbit (mode_flags f) 0 = negb (bool_decide ("F"%char ∈ opts)).
Proof.
  intros E. apply parse_bits in E as (E0 & E1 & E2). unfold mode_flags.
  change XDP_FLAGS_SKB_MODE with (2 ^ 1). rewrite nz_land_pow2 by lia.
  change (Z.testbit XDP_FLAGS_UPDATE_IF_NOEXIST 1) with false in E1. cbn [orb] in E1. rewrite E1.
  destruct (bool_decide ("S"%char ∈ opts)); cbn [negb];
    rewrite ?Z.lor_spec, E0, E1, E2; now destruct (bool_decide ("F"%char ∈ opts)).
Qed.

(** ** The counters of xdp_csum.c *)

(** [prev] has [UINT8_MAX] elements; the map has 256. *)
Definition UINT8_MAX : Z := 255.
(** @src xdp_progs/xdp_csum.c 60-64 poll_stats *)
Definition sum_values (values : list Z) : Z := fold_left (fun sum v => u64 (sum + v)) values 0.
(** The keys from [key] on, [n] of which are left: what is printed, and the counts of this
    round.  [None] is an access behind the end of [prev].
    @src xdp_progs/xdp_csum.c 59-69 poll_stats *)
Fixpoint poll_keys (counts : Z -> list Z) (first : bool) (n : nat) (key : Z) (prev : gmap Z Z)
    : option (list (Z * Z) * gmap Z Z) :=
  match n with
  | O => Some ([], prev)
  | S n =>
      let sum := sum_values (counts key) in
      if UINT8_MAX <=? key then None else
      let line := if (default 0 (prev !! key) <? sum) && negb first then [(key, sum)] else [] in
      '(lines, prev) ← poll_keys counts first n (key + 1) (<[key := sum]> prev);
      Some (line ++ lines, prev)
  end.
(** One round over the map; [rounds] counts those left of a run that does not end by itself.
    @src xdp_progs/xdp_csum.c 47-72 poll_stats *)
Fixpoint poll_stats (counts : nat -> Z -> list Z) (first : bool) (rounds turn : nat) (prev : gmap Z Z)
    : option (list (Z * Z)) :=
  match rounds with
  | O => Some []
  | S rounds =>
      '(lines, prev) ← poll_keys (counts turn) first 256 0 prev;
      rest ← poll_stats counts false rounds (S turn) prev;
      Some (lines ++ rest)
  end.
(** @src xdp_progs/xdp_csum.c 91-208 main *)
Definition csum_loader (k : host) (opts : list ascii) (args : list string) (counts : nat -> Z -> list Z)
    (rounds : nat) : result * list event * option (list (Z * Z)) :=
  match csum_only_loader k opts args with
  | (Stays, evs) => (Stays, evs, poll_stats counts true rounds 0 ∅)
  | (r, evs) => (r, evs, Some [])
  end.

(** The first 255 counters are handled as meant: after a round [prev] holds their sums, and a
    later round prints those that have grown. *)
Lemma poll_keys_inside counts first n key prev : 0 <= key -> key + Z.of_nat n <= UINT8_MAX ->
  exists lines prev', poll_keys counts first n key prev = Some (lines, prev') /\
    (forall i, prev' !! i = if (key <=? i) && (i <? key + Z.of_nat n) then Some (sum_values (counts i)) else prev !! i) /\
    (forall i sum, (i, sum) ∈ lines <-> first = false /\ key <= i < key + Z.of_nat n /\ sum = sum_values (counts i) /\
                                       default 0 (prev !! i) < sum).
Proof.
  revert key prev. induction n as [|n IH]; intros key prev Hk Hn; cbn [poll_keys].
  { exists [], prev. split; [done|]. split.
    - intros i. destruct (Z.leb_spec key i), (Z.ltb_spec i (key + Z.of_nat 0)); cbn [andb]; done || lia.
    - intros i sum. rewrite elem_of_nil. lia. }
  destruct (Z.leb_spec UINT8_MAX key); [lia|].
  destruct (IH (key + 1) (<[key := sum_values (counts key)]> prev)) as (lines & prev' & -> & Hp & Hl); [lia..|].
  cbn [mbind option_bind]. eexists _, prev'. split; [reflexivity|]. split.
  - intros i. rewrite Hp. destruct (decide (i = key)) as [->|Hne].
    + rewrite lookup_insert_eq. destruct (Z.leb_spec (key + 1) key); [lia|]. cbn [andb].
      destruct (Z.leb_spec key key), (Z.ltb_spec key (key + Z.of_nat (S n))); done || lia.
    + rewrite lookup_insert_ne by done.
      destruct (Z.leb_spec (key + 1) i), (Z.leb_spec key i), (Z.ltb_spec i (key + 1 + Z.of_nat n)),
        (Z.ltb_spec i (key + Z.of_nat (S n))); done || lia.
  - intros i sum. rewrite elem_of_app, Hl. destruct (decide (i = key)) as [->|Hne].
    + destruct (Z.ltb_spec (default 0 (prev !! key)) (sum_values (counts key))), first; cbn [andb negb];
        rewrite ?list_elem_of_singleton, ?elem_of_nil; (split; [|]; [naive_solver lia|intros (? & ? & -> & ?)]); naive_solver lia.
    + rewrite lookup_insert_ne by done.
      assert ((i, sum) ∉ (if (default 0 (prev !! key) <? sum_values (counts key)) && negb first
                          then [(key, sum_values (counts key))] else [])) as Hnot.
      { destruct (_ && _); rewrite ?list_elem_of_singleton, ?elem_of_nil; congruence || tauto. }
      split; [intros [?|?]; [done|]|intros ?; right]; intuition lia.
Qed.
(** But the round goes on to key 255, which [prev] has not: no run of the loader is defined
    beyond its first round. *)
Lemma poll_stats_overruns counts first rounds turn prev : poll_stats counts first (S rounds) turn prev = None.
Proof.
  cbn [poll_stats]. enough (G : forall n key prev, 0 <= key -> key + Z.of_nat n = 256 -> (0 < n)%nat ->
    poll_keys (counts turn) first n key prev = None) by (rewrite G by lia; done).
  clear prev. induction n as [|n IH]; intros key prev Hk Hn H0; [lia|]. cbn [poll_keys]. unfold UINT8_MAX.
  destruct (Z.leb_spec 255 key); [done|]. now rewrite IH by lia.
Qed.

(** ** The stateful firewall (xdp_fw.c) *)

(** The entries of [tx_port], and the start-up up to the statistics, whose loop never ends.
    @src xdp_progs/xdp_fw.c 60-165 main *)
Definition fw_main (k : host) : result * list event * gmap Z Z :=
  if negb (k_open k None) then (Exit 1, [], ∅) else
  if negb (k_load k EmptyString None) then (Exit 1, [], ∅) else
  if k_map_fd k "tx_port" <? 0 then (Exit 1, [], ∅) else
  if k_map_fd k "flow_ctx_table" <? 0 then (Exit 1, [], ∅) else
  let prog_fd := default (-2) (k_program k "xdp_pass") in
  let attach_in := Attach A_PORT prog_fd XDP_FLAGS_DRV_MODE in
  if nz (k_attach k A_PORT) then (Exit 1, [attach_in], ∅) else
  let attach_out := Attach B_PORT prog_fd XDP_FLAGS_DRV_MODE in
  if nz (k_attach k B_PORT) then (Exit 1, [attach_in; attach_out], ∅) else
  if nz (k_info k) then (Exit (k_info k), [attach_in; attach_out], ∅) else
  if nz (k_update k) then (Exit 0, [attach_in; attach_out], ∅)
  else (Stays, [attach_in; attach_out], {[ B_PORT := B_PORT ]}).

(** One turn of the statistics: from the key [flow_key], the keys that the kernel gives after
    it and their entries.  [keys] is the order of the kernel; a key that is not there is
    followed by the first.
    @src xdp_progs/xdp_fw.c 39-58 poll_stats *)
Definition get_next_key (keys : list flow_ctx_table_key) (key : flow_ctx_table_key) : option flow_ctx_table_key :=
  match list_find (fun k => k = key) keys with
  | Some (i, _) => keys !! S i
  | None => keys !! O
  end.
(** @src xdp_progs/xdp_fw.c 48-54 poll_stats *)
Fixpoint poll_flows (keys : list flow_ctx_table_key) (fuel : nat) (flow_key : flow_ctx_table_key)
    : option (list flow_ctx_table_key) :=
  match fuel with
  | O => None
  | S fuel =>
      match get_next_key keys flow_key with
      | None => Some []
      | Some next => rest ← poll_flows keys fuel next; Some (next :: rest)
      end
  end.

(** Every flow is printed once: no flow has the key 0, of protocol 0, that the loop starts
    from. *)
Lemma poll_flows_all keys key0 fuel : NoDup keys -> key0 ∉ keys -> (length keys < fuel)%nat ->
  poll_flows keys fuel key0 = Some keys.
Proof.
  intros Hd H0 Hf.
  assert (Hfind : forall i key, keys !! i = Some key -> get_next_key keys key = keys !! S i).
  { intros i key Hi. unfold get_next_key. destruct (list_find (fun k => k = key) keys) as [[j k]|] eqn:E.
    - apply list_find_Some in E as (Hj & -> & _). now rewrite (NoDup_lookup keys i j key Hd Hi Hj).
    - apply list_find_None in E. rewrite Forall_forall in E. exfalso. apply (E key); [eapply list_elem_of_lookup_2, Hi|done]. }
  assert (G : forall n i key fuel, keys !! i = Some key -> (length keys - i <= n)%nat -> (length keys - i <= fuel)%nat ->
    poll_flows keys fuel key = Some (drop (S i) keys)).
  { induction n as [|n IH]; intros i key fl Hi Hn Hfl; pose proof (lookup_lt_Some _ _ _ Hi); [lia|].
    destruct fl as [|fl]; [lia|]. cbn [poll_flows]. rewrite (Hfind i key Hi).
    destruct (keys !! S i) as [next|] eqn:E.
    - rewrite (IH (S i) next fl E) by lia. cbn [mbind option_bind]. now rewrite <- (drop_S keys next (S i) E).
    - apply lookup_ge_None in E. now rewrite drop_ge by lia. }
  destruct fuel as [|fuel]; [lia|]. cbn [poll_flows].
  assert (get_next_key keys key0 = keys !! O) as ->.
  { unfold get_next_key. destruct (list_find (fun k => k = key0) keys) as [[j k]|] eqn:E; [|done].
    apply list_find_Some in E as (Hj & -> & _). destruct H0. eapply list_elem_of_lookup_2, Hj. }
  destruct (keys !! O) as [next|] eqn:E.
  - rewrite (G (length keys) O next fuel E) by lia. cbn [mbind option_bind].
    now rewrite <- (drop_S keys next O E), drop_0.
  - apply lookup_ge_None in E. now destruct keys.
Qed.

(** [bpf_redirect_map] on a device map without flags: the packet goes to the device of the
    entry, or is aborted when there is none. *)
Definition redirect_map (tx_port : gmap Z Z) (key : Z) : Z * option Z :=
  match tx_port !! key with Some ifindex => (XDP_REDIRECT, Some ifindex) | None => (XDP_ABORTED, None) end.
(** What becomes of a packet, in the kernel. *)
Definition final (tx_port : gmap Z Z) (o : outcome) : Z * option Z :=
  match o with Verdict v => (v, None) | RedirectMap port => redirect_map tx_port port end.

Definition fw_accepts (k : host) : Prop :=
  k_open k None = true /\ k_load k EmptyString None = true /\ 0 <= k_map_fd k "tx_port" /\
  0 <= k_map_fd k "flow_ctx_table" /\ k_attach k A_PORT = 0 /\ k_attach k B_PORT = 0 /\ k_info k = 0 /\ k_update k = 0.

(** C19: The stateful firewall deployed: loader, program and redirection together. On a host that
    accepts every step the loader attaches the program to both ports and enters only the outer
    port into [tx_port]. After any packets (at most 1024, the size of the flow table) the program
    says of the next one, if it is IPv4 with TCP or UDP and at least 42 bytes: redirect to the
    outer port when it comes from the inside; and when it comes from the outside, redirect to the
    inner port if an earlier packet from the inside was of the same flow, and pass to the local
    stack otherwise. The same flow are the same addresses and ports, both exchanged as in a
    reply, and, more than is meant, only the addresses or only the ports exchanged (a defect);
    the ports are read behind a header without options. Every other packet is passed. But
    [tx_port] has no entry for the inner port, so every packet that is let in is aborted, and no
    reply ever reaches the inside (a defect of the loader). *)
Theorem fw_deployed {U : HashUpdate} {UL : HashUpdateLaws U} (k : host) (ps : list (Z * frame)) (i : Z) (f : frame) :
  fw_accepts k -> (length ps <= FLOW_TABLE_SIZE)%nat ->
  let prog_fd := default (-2) (k_program k "xdp_pass") in
  exists tx, fw_main k = (Stays, [Attach A_PORT prog_fd 4; Attach B_PORT prog_fd 4], tx) /\
  exists os o t, fw_trace ∅ (ps ++ [(i, f)]) = Some (os ++ [o], t) /\
    (o, final tx o) = match tuple_of (f_data f) with
                      | None => (Verdict XDP_PASS, (XDP_PASS, None))
                      | Some flow =>
                          if i =? B_PORT then
                            if decide (Exists (from_inside flow) ps) then (RedirectMap A_PORT, (XDP_ABORTED, None))
                            else (Verdict XDP_PASS, (XDP_PASS, None))
                          else (RedirectMap B_PORT, (XDP_REDIRECT, Some B_PORT))
                      end.
Proof.
  intros (Ho & Hl & Htx & Hft & Ha & Hb & Hi & Hu) Hlen prog_fd. exists {[ B_PORT := B_PORT ]}. split.
  { unfold fw_main. rewrite Ho, Hl, Ha, Hb, Hi, Hu. cbn [negb].
    now rewrite (proj2 (Z.ltb_ge _ _) Htx), (proj2 (Z.ltb_ge _ _) Hft). }
  destruct (fw_trace_tracks ps Hlen) as (os & t & E & _ & _ & Ht).
  rewrite fw_trace_app, E. cbn [mbind option_bind fst snd]. do 3 eexists. split; [reflexivity|].
  rewrite flow_of_tuple. destruct (tuple_of (f_data f)) as [flow|]; cbn [fmap option_fmap option_map fw_step fst]; [|done].
  destruct (i =? B_PORT); cbn [fst]; [|done]. rewrite Ht.
  assert (Exists (opens (biflow flow)) ps <-> Exists (from_inside flow) ps) as Hex.
  { rewrite !Exists_exists. setoid_rewrite opens_from_inside. done. }
  destruct (decide (Exists (opens _) ps)), (decide (Exists (from_inside _) ps)); tauto || done.
Qed.

(** A request from the inside, and the reply to it, which is aborted. *)
Definition fw_host : host := Host (fun _ => true) (fun _ _ => true) (fun _ => Some 5) (fun _ => 6)
  (fun _ => true) (fun _ => 1) (fun _ => false) (fun _ => 0) 0 0 true.
Lemma fw_deployed_witness :
  exists tx, fw_main fw_host = (Stays, [Attach A_PORT 5 4; Attach B_PORT 5 4], tx) /\
  exists os o t, @fw_trace bounded_update ∅ ([(6, fw_request)] ++ [(7, fw_reply)]) = Some (os ++ [o], t) /\
    (o, final tx o) = (RedirectMap A_PORT, (XDP_ABORTED, None)).
Proof.
  apply (@fw_deployed bounded_update bounded_update_laws fw_host [(6, fw_request)] 7 fw_reply).
  - repeat split; discriminate.
  - vm_compute. repeat constructor.
Defined.

(** On the runtime, where nothing registers a callback, every redirection is a drop. *)
Lemma runtime_redirects_nothing map key : bpftime_redirect_map_runtime None map key = (XDP_DROP, None).
Proof. reflexivity. Qed.

(** ** Reading a ring buffer *)

Section watch.
Context {V Out : Type} (handle_event : V -> Out).

(** What the successive polls hand to [handle_event]; [None] is an error, which ends the loop.
    @src xdp_progs/xdp-observer/main.c 119-126 main *)
Fixpoint poll_loop (polls : nat -> option (list V)) (fuel turn : nat) : list Out * bool :=
  match fuel with
  | O => ([], false)
  | S fuel =>
      match polls turn with
      | None => ([], true)
      | Some es => let '(outs, over) := poll_loop polls fuel (S turn) in (map handle_event es ++ outs, over)
      end
  end.
(** The arguments are those after the name of the program.
    @src xdp_progs/xdp-observer/main.c 35-129 main *)
Definition watch_main (k : host) (args : list string) (polls : nat -> option (list V)) (fuel : nat)
    : result * list event * list Out :=
  match args with
  | [] => (Exit 1, [], [])
  | ifname :: rest =>
      if negb (k_open k (custom_btf rest)) then (Exit 1, [], []) else
      if negb (k_load k EmptyString (custom_btf rest)) then (Exit 1, [], []) else
      let ifindex := k_ifindex k ifname in
      if ifindex =? 0 then (Exit 1, [], []) else
      let attach := Attach ifindex (default (-2) (k_program k "xdp_pass")) (env_flags k) in
      if negb (k_map k "ringbuf") then (Exit 1, [attach], []) else
      if negb (k_ring k) then (Exit 1, [attach], []) else
      let '(outs, over) := poll_loop polls fuel 0 in
      (if over then Exit 0 else Stays, [attach], outs)
  end.

(** Everything that is polled is handled, in order, once. *)
Lemma poll_loop_all batches turn : let polls n := batches !! (n - turn)%nat in
  poll_loop polls (S (length batches)) turn = (map handle_event (concat batches), true).
Proof.
  cbv zeta. enough (G : forall bs polls turn, (forall n, polls (n + turn)%nat = bs !! n) ->
    poll_loop polls (S (length bs)) turn = (map handle_event (concat bs), true)).
  { apply G. intros n. f_equal. lia. }
  clear. induction bs as [|b bs IH]; intros polls turn Hp.
  - cbn [poll_loop]. specialize (Hp O). cbn in Hp. now rewrite Hp.
  - change (length (b :: bs)) with (S (length bs)). remember (S (length bs)) as fl eqn:Hfl. cbn [poll_loop]. pose proof (Hp O) as H0. cbn in H0. rewrite H0.
    rewrite (IH polls (S turn)); [cbn [concat]; now rewrite map_app|].
    intros n. rewrite <- Nat.add_succ_comm. apply (Hp (S n)).
Qed.
End watch.

(** ** The lines that the TCP observers print *)

Record line := Line { source_ip : list Z; destination_ip : list Z; numbers : list Z }.
Definition quad (ip : Z) : list Z :=
  [Z.land ip 255; Z.land (Z.shiftr ip 8) 255; Z.land (Z.shiftr ip 16) 255; Z.land (Z.shiftr ip 24) 255].
(** @src xdp_progs/xdp-observer/main.c 19-27 handle_event *)
Definition handle_event (e : Observer.observer_event) : line :=
  Line (quad (Observer.o_sip e)) (quad (Observer.o_dip e))
    [Observer.o_sport e; Observer.o_dport e; Observer.o_syn e; Observer.o_fin e; Observer.o_rst e;
     Observer.o_psh e; Observer.o_ack e].
(** @src xdp_progs/xdp-tcpclassify.c 19-27 handle_event *)
Definition classify_handle_event (e : Classify.event) : line :=
  Line (quad (Classify.e_sip e)) (quad (Classify.e_dip e))
    [Classify.e_sport e; Classify.e_dport e; Classify.e_syn e; Classify.e_fin e; Classify.e_rst e;
     Classify.e_psh e; Classify.e_ack e].

(** An address that has gone through an [int] is printed byte by byte as it was on the wire. *)
Lemma quad_bytes bs : length bs = 4%nat -> bytes_ok bs -> quad (s32 (le_join bs)) = bs.
Proof.
  intros Hl Hb. destruct bs as [|a [|b [|c [|d []]]]]; try discriminate.
  rewrite !bytes_ok_cons in Hb. destruct Hb as (Ha & Hb & Hc & Hd & _). unfold is_u8 in *.
  unfold quad. rewrite !land_u8, !Z.shiftr_div_pow2 by lia. cbn [le_join].
  change (2 ^ 8) with 256. change (2 ^ 16) with 65536. change (2 ^ 24) with 16777216.
  assert (exists q, s32 (a + 256 * (b + 256 * (c + 256 * (d + 256 * 0)))) = a + 256 * (b + 256 * (c + 256 * d)) + 4294967296 * q) as [q ->].
  { exists (- ((a + 256 * (b + 256 * (c + 256 * d)) + 2147483648) / 4294967296)). unfold s32. zlia. }
  repeat f_equal; zlia.
Qed.
Lemma bswap16_bytes a b : is_u8 a -> is_u8 b -> bswap16 (le_join [a; b]) = 256 * a + b.
Proof. unfold is_u8, bswap16. intros. cbn. zlia. Qed.

(** What is to be printed for a packet: addresses, ports and flags. *)
Definition line_of (d : list Z) : line :=
  let flag bit := Z.land (Z.shiftr (nth 47 d 0) bit) 1 in
  Line (take 4 (drop 26 d)) (take 4 (drop 30 d))
    [256 * nth 34 d 0 + nth 35 d 0; 256 * nth 36 d 0 + nth 37 d 0; flag 1; flag 0; flag 2; flag 3; flag 4].

(** The packets that the program handles one after the other. *)
Fixpoint observe {R : RingBuffer} (fs : list frame) (l : list Observer.observer_event)
    : option (list Observer.observer_event) :=
  match fs with
  | [] => Some l
  | f :: fs => '(_, s) ← Observer.xdp_observer (Xst f l 0); observe fs (x_env s)
  end.

Lemma event_line e d : bytes_ok d -> reported d = true ->
  classify_handle_event (tcp_event e d) = line_of d.
Proof.
  intros Hb Hr. unfold reported in Hr. rewrite !andb_true_iff, Z.leb_le in Hr. destruct Hr as [[Hl _] _].
  assert (Hn : forall i, (i < 54)%nat -> is_u8 (nth i d 0)).
  { intros i Hi. rewrite nth_lookup. destruct (d !! i) as [x|] eqn:E; cbn.
    - now apply (Forall_lookup_1 _ _ _ _ Hb E).
    - apply lookup_ge_None in E. unfold zlen in Hl. lia. }
  assert (H2 : forall i, (i < 53)%nat -> take 2 (drop i d) = [nth i d 0; nth (S i) d 0]).
  { intros i Hi. unfold zlen in Hl. destruct (nth_lookup_or_length d i 0) as [E|E]; [|lia].
    destruct (nth_lookup_or_length d (S i) 0) as [E'|E']; [|lia].
    rewrite (drop_S _ _ _ E), (drop_S _ _ _ E'). reflexivity. }
  assert (H4 : forall i, (i < 50)%nat -> length (take 4 (drop i d)) = 4%nat /\ bytes_ok (take 4 (drop i d))).
  { intros i Hi. split; [unfold zlen in Hl; rewrite length_take, length_drop; lia|now apply Forall_take, Forall_drop]. }
  unfold classify_handle_event, tcp_event, line_of. cbn [Classify.e_sip Classify.e_dip Classify.e_sport Classify.e_dport
    Classify.e_syn Classify.e_fin Classify.e_rst Classify.e_psh Classify.e_ack]. unfold Classify.tcp_flag.
  rewrite !quad_bytes by (apply H4; lia). rewrite !H2, !bswap16_bytes by (try apply Hn; lia). reflexivity.
Qed.

(** The observer from the wire to the screen, while the ring buffer has room: for every
    sequence of packets, the lines that are printed are those of the TCP packets, in order,
    with the addresses and ports as they stood on the wire. *)
Lemma observer_prints {R : RingBuffer} (fs : list frame) :
  (forall V (l : list V) v, rb_output V l v = (0, l ++ [v])) -> Forall frame_ok fs ->
  exists l, observe fs [] = Some l /\
    map handle_event l = map line_of (filter (fun d => reported d = true) (map f_data fs)).
Proof.
  intros Hroom Hok. enough (G : forall l, exists l', observe fs l = Some l' /\
    map handle_event l' = map handle_event l ++ map line_of (filter (fun d => reported d = true) (map f_data fs)))
    by apply (G []).
  induction Hok as [|f fs Hf _ IH]; intros l; cbn [observe map].
  { exists l. split; [done|]. cbn. now rewrite app_nil_r. }
  destruct (decide (reported (f_data f) = true)) as [Hr|Hr].
  - pose proof (observer_runs (Xst f l 0)) as Hrun. cbv zeta in Hrun. cbn [x_frame] in Hrun.
    specialize (Hrun (proj1 (proj2 Hf)) Hr). unfold runs in Hrun. rewrite Hrun. cbn [mbind option_bind].
    set (e := Observer.Event _ _ _ _ _ _ _ _ _).
    unfold report, set_data. cbn [x_env x_frame x_tick]. rewrite Hroom. cbn [snd].
    destruct (IH (l ++ [e])) as (l' & -> & Hl'). exists l'. split; [done|].
    rewrite filter_cons_True by done. cbn [map]. rewrite Hl', map_app, <- app_assoc. cbn [map app]. do 2 f_equal.
    rewrite <- (event_line (Classify.Event 0 0 0 0 0 0 0 0 0 0 0 [])) by (apply Hf || done). reflexivity.
  - apply not_true_is_false in Hr.
    pose proof (not_reported (Xst f l 0)) as Hrun. cbn [x_frame] in Hrun.
    eassert (Hpass : runs (Xst f l 0) Observer.xdp_observer XDP_PASS (Xst f l 0)) by (apply Hrun, Hr).
    unfold runs in Hpass. rewrite Hpass. cbn [mbind option_bind x_env].
    destruct (IH l) as (l' & -> & Hl'). exists l'. split; [done|].
    now rewrite filter_cons_False by congruence.
Qed.

(** ** The files that xdp-dump writes *)

(** The counter, and the number and contents of the new file; [None] is a read behind the event.
    @src xdp_progs/xdp-dump/main.c 20-31 handle_event *)
Definition dump_handle_event (count : Z) (e : Dump.dump_event) : option (Z * (Z * Z * list Z)) :=
  if Z.of_nat (length (Dump.d_data e)) <? Dump.d_len e then None
  else Some (s32 (count + 1), (count, Dump.d_len e, take (Z.to_nat (Dump.d_len e)) (Dump.d_data e))).

(** The files of a list of events. *)
Fixpoint dump_files (count : Z) (es : list Dump.dump_event) : option (list (Z * Z * list Z)) :=
  match es with
  | [] => Some []
  | e :: es => '(count, file) ← dump_handle_event count e; files ← dump_files count es; Some (file :: files)
  end.
(** The interface is looked up first, and a failure to attach ends the program.
    @src xdp_progs/xdp-dump/main.c 39-112 main *)
Definition dump_main (k : host) (args : list string) (polls : nat -> option (list Dump.dump_event)) (fuel : nat)
    : result * list event * option (list (Z * Z * list Z)) :=
  match args with
  | [] => (Exit 1, [], Some [])
  | ifname :: rest =>
      let ifindex := k_ifindex k ifname in
      if ifindex =? 0 then (Exit 1, [], Some []) else
      if negb (k_open k (custom_btf rest)) then (Exit 1, [], Some []) else
      if negb (k_load k EmptyString (custom_btf rest)) then (Exit 1, [], Some []) else
      let attach := Attach ifindex (default (-2) (k_program k "xdp_pass")) 0 in
      if nz (k_attach k ifindex) then (Exit 1, [attach], Some []) else
      if negb (k_map k "ringbuf") then (Exit 1, [attach], Some []) else
      if negb (k_ring k) then (Exit 1, [attach], Some []) else
      let '(es, over) := poll_loop id polls fuel 0 in
      (if over then Exit 0 else Stays, [attach], dump_files 0 es)
  end.

(** A packet is in its file up to 256 bytes; a longer one is filled up with zeros; and behind
    one of more than 400 bytes the file gets whatever follows the event. *)
Lemma dump_file {R : RingBuffer} (s : xst (list Dump.dump_event)) count :
  (forall V (l : list V) v, rb_output V l v = (0, l ++ [v])) ->
  let d := f_data (x_frame s) in
  14 <= zlen d < 4294967296 ->
  exists e s', runs s Dump.xdp_dump XDP_PASS s' /\ x_env s' = x_env s ++ [e] /\
    dump_handle_event count e =
      if 400 <? zlen d then None
      else Some (s32 (count + 1), (count, zlen d, take 256 d ++ replicate (length d - 256) 0)).
Proof.
  cbv zeta. intros Hroom Hl. pose proof (dump_runs s) as Hr. cbv zeta in Hr. set (d := f_data (x_frame s)) in *.
  specialize (Hr ltac:(lia)). destruct (Z.ltb_spec (zlen d) 14); [lia|].
  do 2 eexists. split; [exact Hr|]. unfold report. cbn [x_env]. rewrite Hroom. split; [reflexivity|].
  unfold dump_handle_event. cbn [Dump.d_len Dump.d_data]. rewrite length_app, length_replicate, length_take.
  unfold zlen in *. destruct (Z.ltb_spec 400 (Z.of_nat (length d))).
  { destruct (Z.ltb_spec (Z.of_nat (Nat.min 256 (length d) + (400 - Nat.min 256 (length d)))) (Z.of_nat (length d))); [done|lia]. }
  destruct (Z.ltb_spec (Z.of_nat (Nat.min 256 (length d) + (400 - Nat.min 256 (length d)))) (Z.of_nat (length d))); [lia|].
  do 3 f_equal. rewrite Nat2Z.id, take_app, (take_ge (take 256 d)) by (rewrite length_take; lia).
  rewrite length_take, take_replicate. do 2 f_equal. lia.
Qed.

(** ** A host on which everything works *)

Definition some_host : host := {|
  k_open := fun _ => true; k_load := fun _ _ => true; k_program := fun _ => Some 7; k_map_fd := fun _ => 8;
  k_map := fun _ => true; k_ifindex := fun _ => 3; k_env := fun v => String.eqb v "DRVMODE"; k_attach := fun _ => 0;
  k_info := 0; k_update := 0; k_ring := true |}.

Example pass_attached : pass_main some_host ["pass.o"; "eth0"]%string = (Stays, [Attach 3 7 5]).
Proof. reflexivity. Qed.
Example csum_attached : csum_only_loader some_host ["S"; "F"]%char ["eth0"]%string = (Stays, [Attach 3 7 2]).
Proof. reflexivity. Qed.
(** A second round over counters that grow: the loader has left its array by then. *)
Example csum_counters :
  csum_loader some_host [] ["eth0"%string] (fun turn key => [Z.of_nat turn + key; 1]) 2 = (Stays, [Attach 3 7 5], None).
Proof. vm_compute. reflexivity. Qed.
(** A request is sent out, the reply to it is aborted, and so is every other. *)
Example fw_reply_aborted :
  let '(_, _, tx) := fw_main some_host in
  (fun r => map (final tx) r.1) <$> @fw_trace bounded_update ∅ [(7, fw_reply); (6, fw_request); (7, fw_reply)]
  = Some [(XDP_PASS, None); (XDP_REDIRECT, Some 7); (XDP_ABORTED, None)].
Proof. reflexivity. Qed.
Lemma some_host_accepts_fw : fw_accepts some_host.
Proof. repeat split; discriminate. Qed.
