(* ===== verification/ParsingHelpers.v ===== *)
(** * Header parsing (src/afxdp/include/xdp/parsing_helpers.h)

    The functions that take a cursor over a packet from one header to the next.  A pointer into
    the packet is its offset from [data].  The theorems: no function reads outside the packet,
    whatever the cursor; what is skipped between the Ethernet and the next header is the VLAN
    tags, and between the IPv6 and the next header the extension headers.  Examples run the
    parsers over whole packets. *)
From Stdlib Require Import ZArith Lia.
From stdpp Require Import base numbers list option.
From S2P Require Import Prelude Xdp OnesComplement XdpRun.
#[local] Open Scope Z_scope.

(** @src afxdp/include/xdp/parsing_helpers.h 59-67 VLAN_MAX_DEPTH *)
Definition VLAN_MAX_DEPTH : nat := 2.
Definition IPV6_EXT_MAX_CHAIN : nat := 6.
Definition VLAN_VID_MASK : Z := 0x0fff.
Definition ETH_P_8021Q : Z := 0x8100.
Definition ETH_P_8021AD : Z := 0x88A8.

(** What a function returns: its result, the cursor [nh->pos] and the pointer to the header,
    when it is written.
    @src afxdp/include/xdp/parsing_helpers.h 35-37 hdr_cursor *)
Record parsed := Parsed { ret : Z; pos : Z; hdr : option Z }.

Section parsers.
Context {E : Type}.

(** @src afxdp/include/xdp/parsing_helpers.h 75-79 proto_is_vlan *)
Definition proto_is_vlan (h_proto : Z) : bool :=
  (h_proto =? bswap16 ETH_P_8021Q) || (h_proto =? bswap16 ETH_P_8021AD).

(** The loop over the tags, [n] turns of which are left: the pointer [vlh], the type and the
    ids so far.
    @src afxdp/include/xdp/parsing_helpers.h 112-125 parse_ethhdr_vlan *)
Fixpoint vlan_loop (n : nat) (vlh h_proto : Z) (id : list Z) : xdp E (Z * Z * list Z) :=
  match n with
  | O => mret (vlh, h_proto, id)
  | S n =>
      if negb (proto_is_vlan h_proto) then mret (vlh, h_proto, id) else
      need (vlh + 4) else (vlh, h_proto, id) ;;
      h_proto ← load16 (vlh + 2);
      tci ← load16 vlh;
      vlan_loop n (vlh + 4) h_proto (id ++ [Z.land (bswap16 tci) VLAN_VID_MASK])
  end.
(** With the ids that are written to [vlans].
    @src afxdp/include/xdp/parsing_helpers.h 86-129 parse_ethhdr_vlan *)
Definition parse_ethhdr_vlan (nh : Z) : xdp E (parsed * list Z) :=
  let eth := nh in
  let hdrsize := 14 in
  need (nh + hdrsize) else (Parsed (-1) nh None, []) ;;
  h_proto ← load16 (eth + 12);
  '(vlh, h_proto, id) ← vlan_loop VLAN_MAX_DEPTH (nh + hdrsize) h_proto [];
  mret (Parsed h_proto vlh (Some eth), id).
(** @src afxdp/include/xdp/parsing_helpers.h 131-137 parse_ethhdr *)
Definition parse_ethhdr (nh : Z) : xdp E parsed := fst <$> parse_ethhdr_vlan nh.

Definition IPPROTO_HOPOPTS : Z := 0.
Definition IPPROTO_ROUTING : Z := 43.
Definition IPPROTO_FRAGMENT : Z := 44.
Definition IPPROTO_AH : Z := 51.
Definition IPPROTO_DSTOPTS : Z := 60.
Definition IPPROTO_MH : Z := 135.
(** The size of an extension header by its type and length field; [None] is another header.
    @src afxdp/include/xdp/parsing_helpers.h 149-168 skip_ip6hdrext *)
Definition ext_size (next_hdr_type hdrlen : Z) : option Z :=
  if (next_hdr_type =? IPPROTO_HOPOPTS) || (next_hdr_type =? IPPROTO_DSTOPTS)
     || (next_hdr_type =? IPPROTO_ROUTING) || (next_hdr_type =? IPPROTO_MH) then Some ((hdrlen + 1) * 8)
  else if next_hdr_type =? IPPROTO_AH then Some ((hdrlen + 2) * 4)
  else if next_hdr_type =? IPPROTO_FRAGMENT then Some 8
  else None.
(** The result and the cursor; [n] turns of the loop are left.
    @src afxdp/include/xdp/parsing_helpers.h 139-172 skip_ip6hdrext *)
Fixpoint skip_ip6hdrext (n : nat) (pos next_hdr_type : Z) : xdp E (Z * Z) :=
  match n with
  | O => mret (-1, pos)
  | S n =>
      need (pos + 2) else (-1, pos) ;;
      hdrlen ← load8 (pos + 1);
      match ext_size next_hdr_type hdrlen with
      | Some size =>
          nexthdr ← load8 pos;
          skip_ip6hdrext n (pos + size) nexthdr
      | None => mret (next_hdr_type, pos)
      end
  end.
(** @src afxdp/include/xdp/parsing_helpers.h 174-194 parse_ip6hdr *)
Definition parse_ip6hdr (nh : Z) : xdp E parsed :=
  need (nh + 40) else (Parsed (-1) nh None) ;;
  b ← load8 nh;
  if negb (Z.shiftr b 4 =? 6) then mret (Parsed (-1) nh None) else
  nexthdr ← load8 (nh + 6);
  '(r, pos) ← skip_ip6hdrext IPV6_EXT_MAX_CHAIN (nh + 40) nexthdr;
  mret (Parsed r pos (Some nh)).

(** @src afxdp/include/xdp/parsing_helpers.h 196-222 parse_iphdr *)
Definition parse_iphdr (nh : Z) : xdp E parsed :=
  need (nh + 20) else (Parsed (-1) nh None) ;;
  b ← load8 nh;
  if negb (Z.shiftr b 4 =? 4) then mret (Parsed (-1) nh None) else
  let hdrsize := Z.land b 15 * 4 in
  if hdrsize <? 20 then mret (Parsed (-1) nh None) else
  need (nh + hdrsize) else (Parsed (-1) nh None) ;;
  protocol ← load8 (nh + 9);
  mret (Parsed protocol (nh + hdrsize) (Some nh)).

(** @src afxdp/include/xdp/parsing_helpers.h 224-237 parse_icmp6hdr *)
Definition parse_icmp6hdr (nh : Z) : xdp E parsed :=
  need (nh + 8) else (Parsed (-1) nh None) ;;
  type ← load8 nh;
  mret (Parsed type (nh + 8) (Some nh)).
(** @src afxdp/include/xdp/parsing_helpers.h 239-252 parse_icmphdr *)
Definition parse_icmphdr (nh : Z) : xdp E parsed :=
  need (nh + 8) else (Parsed (-1) nh None) ;;
  type ← load8 nh;
  mret (Parsed type (nh + 8) (Some nh)).
(** @src afxdp/include/xdp/parsing_helpers.h 254-267 parse_icmphdr_common *)
Definition parse_icmphdr_common (nh : Z) : xdp E parsed :=
  need (nh + 4) else (Parsed (-1) nh None) ;;
  type ← load8 nh;
  mret (Parsed type (nh + 4) (Some nh)).

(** The cursor and the pointer are written before the length is tested.
    @src afxdp/include/xdp/parsing_helpers.h 272-290 parse_udphdr *)
Definition parse_udphdr (nh : Z) : xdp E parsed :=
  need (nh + 8) else (Parsed (-1) nh None) ;;
  l ← load16 (nh + 4);
  let len := s32 (u64 (bswap16 l - 8)) in
  if len <? 0 then mret (Parsed (-1) (nh + 8) (Some nh)) else
  mret (Parsed len (nh + 8) (Some nh)).
(** @src afxdp/include/xdp/parsing_helpers.h 295-318 parse_tcphdr *)
Definition parse_tcphdr (nh : Z) : xdp E parsed :=
  need (nh + 20) else (Parsed (-1) nh None) ;;
  b ← load8 (nh + 12);
  let len := Z.shiftr b 4 * 4 in
  if len <? 20 then mret (Parsed (-1) nh None) else
  need (nh + len) else (Parsed (-1) nh None) ;;
  mret (Parsed len (nh + len) (Some nh)).

(** ** Bounds *)

(** The packet is left as it is; the cursor goes forward, and where the parser succeeds it is
    inside the packet and the header that it points to begins where the cursor was. *)
Definition parses (L nh : Z) (p : parsed) (L' : Z) : Prop :=
  L' = L /\ nh <= pos p /\ (ret p <> -1 -> pos p <= L /\ hdr p = Some nh).

Lemma vlan_loop_fits L n vlh p id : 0 <= vlh <= L -> is_u16 p ->
  fits L (vlan_loop n vlh p id) (fun r L' => L' = L /\ vlh <= r.1.1 <= L /\ is_u16 r.1.2 /\
    (length id <= length r.2 <= length id + n)%nat).
Proof.
  revert vlh p id. induction n as [|n IH]; intros vlh p id Hv Hp; cbn [vlan_loop].
  { apply fits_ret. cbn. repeat split; lia || apply Hp. }
  fits_auto; try (cbn; repeat split; lia || apply Hp).
  repeat match goal with H : (_ <? _) = false |- _ => apply Z.ltb_ge in H end.
  eapply fits_weaken; [apply IH; [lia|done]|]. cbn beta. intros [[v q] ids] L' (-> & Ha & Hb & Hc). cbn in *.
  rewrite length_app in Hc. cbn in Hc. repeat split; lia || apply Hb.
Qed.
Lemma ethhdr_fits L nh : 0 <= nh ->
  fits L (parse_ethhdr_vlan nh) (fun r L' => parses L nh r.1 L' /\ (length r.2 <= VLAN_MAX_DEPTH)%nat).
Proof.
  intros Hn. unfold parse_ethhdr_vlan, parses. fits_auto;
    repeat match goal with H : (_ <? _) = false |- _ => apply Z.ltb_ge in H end; [cbn; repeat split; lia|].
  eapply fits_weaken; [apply vlan_loop_fits; [lia|done]|]. cbn beta. intros [[v q] ids] L' (-> & Ha & Hb & Hc).
  apply fits_ret. cbn in *. repeat split; lia.
Qed.
Lemma ext_size_pos t l s : is_u8 l -> ext_size t l = Some s -> 8 <= s <= 2048.
Proof.
  unfold ext_size, is_u8. intros Hl. repeat match goal with |- context [if ?b then _ else _] => destruct b end;
    intros [= <-]; lia.
Qed.

Lemma skip_fits L n p t : 0 <= p -> is_u8 t ->
  fits L (skip_ip6hdrext n p t) (fun r L' => L' = L /\ p <= r.2 /\ (r.1 <> -1 -> r.2 + 2 <= L)).
Proof.
  revert p t. induction n as [|n IH]; intros p t Hp Ht; cbn [skip_ip6hdrext].
  { apply fits_ret. cbn. repeat split; lia. }
  fits_auto; repeat match goal with H : (_ <? _) = false |- _ => apply Z.ltb_ge in H end; try lia;
    try (cbn; repeat split; lia).
  match goal with H : ext_size _ _ = Some _ |- _ => apply ext_size_pos in H; [|done] end.
  eapply fits_weaken; [apply IH; [lia|done]|]. cbn beta. intros [r q] L' (-> & Ha & Hb). cbn in *. repeat split; lia.
Qed.

(** One parser: its reads are bounded by the guards in front of them. *)
Ltac parser :=
  unfold parses; fits_auto;
  repeat match goal with H : (_ <? _) = false |- _ => apply Z.ltb_ge in H end;
  try lia; try (cbn; repeat split; lia || congruence).

Definition is_parser (f : Z -> xdp E parsed) : Prop := forall L nh, 0 <= nh -> fits L (f nh) (parses L nh).

Lemma ethhdr_parser : is_parser parse_ethhdr.
Proof.
  intros L nh Hn. unfold parse_ethhdr. apply fits_fmap. eapply fits_weaken; [apply ethhdr_fits, Hn|]. cbn beta. tauto.
Qed.
Lemma ip6hdr_parser : is_parser parse_ip6hdr.
Proof.
  intros L nh Hn. unfold parse_ip6hdr. parser.
  eapply fits_weaken; [apply skip_fits; [lia|done]|]. cbn beta. intros [r q] L' (-> & Ha & Hb).
  apply fits_ret. cbn in *. repeat split; lia || (intros; lia) || (intros; auto; lia).
Qed.
Lemma iphdr_parser : is_parser parse_iphdr.
Proof. intros L nh Hn. unfold parse_iphdr. parser. Qed.
Lemma icmp_parsers : is_parser parse_icmp6hdr /\ is_parser parse_icmphdr /\ is_parser parse_icmphdr_common.
Proof. repeat split; intros L nh Hn; unfold parse_icmp6hdr, parse_icmphdr, parse_icmphdr_common; parser. Qed.
Lemma udphdr_parser : is_parser parse_udphdr.
Proof. intros L nh Hn. unfold parse_udphdr. parser. Qed.
Lemma tcphdr_parser : is_parser parse_tcphdr.
Proof.
  intros L nh Hn. unfold parse_tcphdr. parser.
Qed.
End parsers.

(** ** What is skipped *)

Section skipped.
Context {E : Type}.
Implicit Types s : xst E.

Lemma load8_between s pre b rest off : f_data (x_frame s) = pre ++ b :: rest -> zlen pre = off -> runs s (load8 off) b s.
Proof.
  intros Hd Hp. eapply runs_val; [eapply runs_load8, (slice_between _ pre [b] rest); done|]. cbn. lia.
Qed.
Lemma load16_between s pre x rest off : is_u16 x -> f_data (x_frame s) = pre ++ le_split 2 x ++ rest -> zlen pre = off ->
  runs s (load16 off) x s.
Proof.
  intros Hx Hd Hp. eapply runs_val; [eapply runs_load16, (slice_between _ pre (le_split 2 x) rest); done|].
  rewrite le_join_split. now apply Z.mod_small.
Qed.

(** VLAN tags behind a header of type [p]: each is its control information and the type of
    what follows. *)
Fixpoint vlan_chain (p : Z) (tags : list (Z * Z)) : Prop :=
  match tags with
  | [] => True
  | (tci, next) :: tags => proto_is_vlan p = true /\ is_u16 tci /\ is_u16 next /\ vlan_chain next tags
  end.
Definition tag_bytes (tags : list (Z * Z)) : list Z := concat (map (fun '(tci, next) => le_split 2 tci ++ le_split 2 next) tags).
Definition inner_type (p : Z) (tags : list (Z * Z)) : Z := fold_left (fun _ tag => tag.2) tags p.
Definition vlan_ids (tags : list (Z * Z)) : list Z := map (fun tag => Z.land (bswap16 tag.1) VLAN_VID_MASK) tags.

Lemma vlan_loop_runs s n pre tags rest vlh p id :
  f_data (x_frame s) = pre ++ tag_bytes tags ++ rest -> zlen pre = vlh -> vlan_chain p tags -> (length tags <= n)%nat ->
  proto_is_vlan (inner_type p tags) = false \/ length tags = n ->
  runs s (vlan_loop n vlh p id) (vlh + 4 * Z.of_nat (length tags), inner_type p tags, id ++ vlan_ids tags) s.
Proof.
  revert n pre vlh p id. induction tags as [|[tci next] tags IH]; intros n pre vlh p id Hd Hp Hc Hn Hend.
  - cbn in *. rewrite app_nil_r, Z.add_0_r. destruct n as [|n]; cbn [vlan_loop]; [apply runs_ret|].
    destruct Hend as [->|?]; [|lia]. apply runs_ret.
  - destruct Hc as (Hv & Htci & Hnext & Hc). destruct n as [|n]; [cbn in Hn; lia|]. cbn [vlan_loop]. rewrite Hv. cbn [negb].
    unfold tag_bytes in Hd. cbn [map concat] in Hd. fold (tag_bytes tags) in Hd. rewrite <- !app_assoc in Hd.
    assert (Hl : zlen (le_split 2 tci) = 2 /\ zlen (le_split 2 next) = 2) by done. destruct Hl as [Hl1 Hl2].
    apply run_need; [rewrite Hd, !zlen_app, Hl1, Hl2, Hp; pose proof (zlen_nonneg (tag_bytes tags)); pose proof (zlen_nonneg rest); lia|].
    eapply runs_bind; [eapply (load16_between s (pre ++ le_split 2 tci) next (tag_bytes tags ++ rest)); [done|now rewrite Hd, <- !app_assoc|rewrite zlen_app; lia]|].
    eapply runs_bind; [eapply (load16_between s pre tci); [done|exact Hd|done]|]. cbv beta.
    eapply runs_val; [apply (IH n (pre ++ le_split 2 tci ++ le_split 2 next) (vlh + 4) next)|].
    + now rewrite Hd, <- !app_assoc.
    + rewrite !zlen_app. lia.
    + done.
    + cbn in Hn. lia.
    + destruct Hend as [?|Hl]; [now left|right; cbn in Hl; lia].
    + cbn [length inner_type fold_left snd vlan_ids map fst]. rewrite <- app_assoc. cbn [app]. f_equal. f_equal. lia.
Qed.

(** The Ethernet header and the tags behind it, up to two. *)
Lemma ethhdr_runs s pre macs p tags rest : f_data (x_frame s) = pre ++ macs ++ le_split 2 p ++ tag_bytes tags ++ rest ->
  length macs = 12%nat -> is_u16 p -> vlan_chain p tags -> (length tags <= VLAN_MAX_DEPTH)%nat ->
  proto_is_vlan (inner_type p tags) = false \/ length tags = VLAN_MAX_DEPTH ->
  runs s (parse_ethhdr_vlan (zlen pre))
    (Parsed (inner_type p tags) (zlen pre + 14 + 4 * Z.of_nat (length tags)) (Some (zlen pre)), vlan_ids tags) s.
Proof.
  intros Hd Hm Hp Hc Hn Hend. unfold parse_ethhdr_vlan.
  assert (Hl : zlen macs = 12 /\ zlen (le_split 2 p) = 2) by (unfold zlen; rewrite Hm; done). destruct Hl as [Hl1 Hl2].
  apply run_need; [rewrite Hd, !zlen_app, Hl1, Hl2; pose proof (zlen_nonneg (tag_bytes tags)); pose proof (zlen_nonneg rest); lia|].
  eapply runs_bind; [eapply (load16_between s (pre ++ macs) p (tag_bytes tags ++ rest)); [done|now rewrite Hd, <- !app_assoc|rewrite zlen_app; lia]|].
  eapply runs_bind; [eapply (vlan_loop_runs s _ (pre ++ macs ++ le_split 2 p) tags rest); [now rewrite Hd, <- !app_assoc|rewrite !zlen_app; lia|done..]|].
  apply runs_ret.
Qed.

(** Extension headers behind a header that announces [t]: each has the size that its type and
    length field give. *)
Fixpoint ext_chain (t : Z) (exts : list (list Z)) (last : Z) : Prop :=
  match exts with
  | [] => t = last
  | h :: exts => exists next hdrlen body, h = next :: hdrlen :: body /\ ext_size t hdrlen = Some (zlen h)
                   /\ ext_chain next exts last
  end.

(** Fewer headers than turns are skipped, when two bytes follow them. *)
Lemma skip_runs s n pre exts rest t last p :
  f_data (x_frame s) = pre ++ concat exts ++ rest -> zlen pre = p -> ext_chain t exts last ->
  (forall l, ext_size last l = None) -> 2 <= zlen rest -> (length exts < n)%nat ->
  runs s (skip_ip6hdrext n p t) (last, p + zlen (concat exts)) s.
Proof.
  revert n pre p t. induction exts as [|h exts IH]; intros n pre p t Hd Hp Hc Hlast Hr Hn; (destruct n as [|n]; [cbn in Hn; lia|]);
    cbn [skip_ip6hdrext].
  - cbn in Hc. subst t. cbn [concat app] in Hd |- *. change (zlen []) with 0. rewrite Z.add_0_r.
    destruct rest as [|a [|b rest]]; [unfold zlen in Hr; cbn [length] in Hr; lia..|].
    apply run_need; [rewrite Hd, zlen_app; lia|].
    eapply runs_bind; [eapply (load8_between s (pre ++ [a]) b rest); [now rewrite Hd, <- app_assoc|rewrite zlen_app; unfold zlen; cbn [length]; unfold zlen in Hp; lia]|].
    cbv beta. rewrite Hlast. apply runs_ret.
  - destruct Hc as (next & hdrlen & body & -> & Hs & Hc). cbn [concat] in Hd |- *. rewrite <- app_assoc in Hd.
    apply run_need; [rewrite Hd, !zlen_app, !zlen_cons; pose proof (zlen_nonneg body); pose proof (zlen_nonneg (concat exts)); lia|].
    eapply runs_bind; [eapply (load8_between s (pre ++ [next]) hdrlen); [rewrite Hd, <- app_assoc; reflexivity|rewrite zlen_app; unfold zlen; cbn [length]; unfold zlen in Hp; lia]|].
    cbv beta. rewrite Hs.
    eapply runs_bind; [eapply (load8_between s pre next); [exact Hd|done]|]. cbv beta.
    eapply runs_val; [apply (IH n (pre ++ next :: hdrlen :: body)); [now rewrite Hd, <- app_assoc|rewrite zlen_app; lia|done..|cbn in Hn; lia]|].
    rewrite zlen_app. f_equal. lia.
Qed.
(** As many headers as turns are too many. *)
Lemma skip_too_many s pre exts rest t last p :
  f_data (x_frame s) = pre ++ concat exts ++ rest -> zlen pre = p -> ext_chain t exts last ->
  runs s (skip_ip6hdrext (length exts) p t) (-1, p + zlen (concat exts)) s.
Proof.
  revert pre p t. induction exts as [|h exts IH]; intros pre p t Hd Hp Hc; cbn [length skip_ip6hdrext].
  - cbn [concat]. change (zlen []) with 0. rewrite Z.add_0_r. apply runs_ret.
  - destruct Hc as (next & hdrlen & body & -> & Hs & Hc). cbn [concat] in Hd |- *. rewrite <- app_assoc in Hd.
    apply run_need; [rewrite Hd, !zlen_app, !zlen_cons; pose proof (zlen_nonneg body); pose proof (zlen_nonneg (concat exts)); pose proof (zlen_nonneg rest); lia|].
    eapply runs_bind; [eapply (load8_between s (pre ++ [next]) hdrlen); [rewrite Hd, <- app_assoc; reflexivity|rewrite zlen_app; unfold zlen; cbn [length]; unfold zlen in Hp; lia]|].
    cbv beta. rewrite Hs.
    eapply runs_bind; [eapply (load8_between s pre next); [exact Hd|done]|]. cbv beta.
    eapply runs_val; [apply (IH (pre ++ next :: hdrlen :: body)); [now rewrite Hd, <- app_assoc|rewrite zlen_app; lia|done]|].
    rewrite zlen_app. f_equal. lia.
Qed.
End skipped.

(** ** A packet *)

(** From the Ethernet header to the UDP payload, the way a caller composes the parsers. *)
Definition udp6_payload {E} : xdp E (list Z) :=
  e ← parse_ethhdr 0;
  i ← parse_ip6hdr (pos e);
  u ← parse_udphdr (pos i);
  mret [ret e; pos e; ret i; pos i; ret u; pos u].

(** A tagged UDP packet with a hop-by-hop and an authentication header, and one with [n] hop-by-hop
    headers. *)
Definition hopopts (next : Z) : list Z := [next; 0; 1; 4; 0; 0; 0; 0].
Definition udp6_packet (t : Z) (exts : list (list Z)) : list Z :=
  repeat 2 12 ++ [0x81; 0] ++ [0; 100; 0x86; 0xDD] ++ [0x60; 0; 0; 0; 0; 36; t; 64] ++ repeat 1 32 ++
  concat exts ++ [4; 210; 0; 53; 0; 10; 0; 0; 7; 7].
Definition parsed_at (d : list Z) : option (list Z) := fst <$> udp6_payload (E := unit) (Xst (Frame [] d []) tt 0).

Example extensions_skipped :
  parsed_at (udp6_packet 0 [hopopts 51; [17; 4; 0; 0] ++ repeat 0 20]) =
    Some [bswap16 0x86DD; 18; 17; 90; 2; 98].
Proof. vm_compute. reflexivity. Qed.
(** Five extension headers are skipped; with six, the result is -1 although the next header is
    in the packet. *)
Example five_and_six_extensions :
  map (fun n => (fun l => l !! 2%nat) <$> parsed_at (udp6_packet 0 (repeat (hopopts 0) (n - 1) ++ [hopopts 17])))
    [5; 6]%nat = [Some (Some 17); Some (Some (-1))].
Proof. vm_compute. reflexivity. Qed.
