(* ===== verification/MemBuiltins.v ===== *)
(** * Memory routines and packet access of the AF_XDP library

    src/afxdp/include/bpf/builtins.h: clearing, copying, comparing and moving memory of a
    constant size by accesses of 8, 4, 2 and 1 bytes, with a jump into a list of accesses for
    every size; src/afxdp/include/xdp/context_helpers.h: the reading and writing of packet bytes
    that is built on them; src/afxdp/lib/util/logging.c.  Memory is a list of bytes and a pointer
    an offset in it, so that two areas may overlap.  The theorems: each size that has a case gets
    accesses that add up to it; the routines do what those of the C library do, moving also where
    source and destination overlap; a packet access outside the packet is refused. *)
From Stdlib Require Import ZArith Lia.
From stdpp Require Import base numbers list option.
From S2P Require Import Prelude Xdp OnesComplement XdpRun.
#[local] Open Scope Z_scope.

(** ** The jumps *)

(** A row of a [switch]: the size of its [case], whether it has the label [jmp_<size>], the
    sizes of its accesses, and how control goes on. *)
Inductive after := Fall | Goto (label : nat) | Break.
Record row := Row { size : nat; jmp : bool; ops : list nat; next : after }.

(** @src afxdp/include/bpf/builtins.h 55-113 __bpf_memzero *)
Definition memzero_rows : list row :=
  [Row 96 false [8] Fall; Row 88 true [8] Fall; Row 80 true [8] Fall; Row 72 true [8] Fall;
   Row 64 true [8] Fall; Row 56 true [8] Fall; Row 48 true [8] Fall; Row 40 true [8] Fall;
   Row 32 true [8] Fall; Row 24 true [8] Fall; Row 16 true [8] Fall; Row 8 true [8] Break;
   Row 94 false [2; 4] (Goto 88); Row 86 false [2; 4] (Goto 80); Row 78 false [2; 4] (Goto 72);
   Row 70 false [2; 4] (Goto 64); Row 62 false [2; 4] (Goto 56); Row 54 false [2; 4] (Goto 48);
   Row 46 false [2; 4] (Goto 40); Row 38 false [2; 4] (Goto 32); Row 30 false [2; 4] (Goto 24);
   Row 22 false [2; 4] (Goto 16); Row 14 false [2; 4] (Goto 8); Row 6 false [2; 4] Break;
   Row 92 false [4] (Goto 88); Row 84 false [4] (Goto 80); Row 76 false [4] (Goto 72);
   Row 68 false [4] (Goto 64); Row 60 false [4] (Goto 56); Row 52 false [4] (Goto 48);
   Row 44 false [4] (Goto 40); Row 36 false [4] (Goto 32); Row 28 false [4] (Goto 24);
   Row 20 false [4] (Goto 16); Row 12 false [4] (Goto 8); Row 4 false [4] Break;
   Row 90 false [2] (Goto 88); Row 82 false [2] (Goto 80); Row 74 false [2] (Goto 72);
   Row 66 false [2] (Goto 64); Row 58 false [2] (Goto 56); Row 50 false [2] (Goto 48);
   Row 42 false [2] (Goto 40); Row 34 false [2] (Goto 32); Row 26 false [2] (Goto 24);
   Row 18 false [2] (Goto 16); Row 10 false [2] (Goto 8); Row 2 false [2] Break; Row 1 false [1] Break]%nat.
(** @src afxdp/include/bpf/builtins.h 163-317 __bpf_memcpy *)
Definition memcpy_rows : list row :=
  [Row 288 false [8] Fall; Row 280 true [8] Fall; Row 272 true [8] Fall; Row 264 true [8] Fall;
   Row 256 true [8] Fall; Row 248 true [8] Fall; Row 240 true [8] Fall; Row 232 true [8] Fall;
   Row 224 true [8] Fall; Row 216 true [8] Fall; Row 208 true [8] Fall; Row 200 true [8] Fall;
   Row 192 true [8] Fall; Row 184 true [8] Fall; Row 176 true [8] Fall; Row 168 true [8] Fall;
   Row 160 true [8] Fall; Row 152 true [8] Fall; Row 144 true [8] Fall; Row 136 true [8] Fall;
   Row 128 true [8] Fall; Row 120 true [8] Fall; Row 112 true [8] Fall; Row 104 true [8] Fall;
   Row 96 true [8] Fall; Row 88 true [8] Fall; Row 80 true [8] Fall; Row 72 true [8] Fall;
   Row 64 true [8] Fall; Row 56 true [8] Fall; Row 48 true [8] Fall; Row 40 true [8] Fall;
   Row 32 true [8] Fall; Row 24 true [8] Fall; Row 16 true [8] Fall; Row 8 true [8] Break;
   Row 286 false [2; 4] (Goto 280); Row 278 false [2; 4] (Goto 272); Row 270 false [2; 4] (Goto 264);
   Row 262 false [2; 4] (Goto 256); Row 254 false [2; 4] (Goto 248); Row 246 false [2; 4] (Goto 240);
   Row 238 false [2; 4] (Goto 232); Row 230 false [2; 4] (Goto 224); Row 222 false [2; 4] (Goto 216);
   Row 214 false [2; 4] (Goto 208); Row 206 false [2; 4] (Goto 200); Row 198 false [2; 4] (Goto 192);
   Row 190 false [2; 4] (Goto 184); Row 182 false [2; 4] (Goto 176); Row 174 false [2; 4] (Goto 168);
   Row 166 false [2; 4] (Goto 160); Row 158 false [2; 4] (Goto 152); Row 150 false [2; 4] (Goto 144);
   Row 142 false [2; 4] (Goto 136); Row 134 false [2; 4] (Goto 128); Row 126 false [2; 4] (Goto 120);
   Row 118 false [2; 4] (Goto 112); Row 110 false [2; 4] (Goto 104); Row 102 false [2; 4] (Goto 96);
   Row 94 false [2; 4] (Goto 88); Row 86 false [2; 4] (Goto 80); Row 78 false [2; 4] (Goto 72);
   Row 70 false [2; 4] (Goto 64); Row 62 false [2; 4] (Goto 56); Row 54 false [2; 4] (Goto 48);
   Row 46 false [2; 4] (Goto 40); Row 38 false [2; 4] (Goto 32); Row 30 false [2; 4] (Goto 24);
   Row 22 false [2; 4] (Goto 16); Row 14 false [2; 4] (Goto 8); Row 6 false [2; 4] Break;
   Row 284 false [4] (Goto 280); Row 276 false [4] (Goto 272); Row 268 false [4] (Goto 264);
   Row 260 false [4] (Goto 256); Row 252 false [4] (Goto 248); Row 244 false [4] (Goto 240);
   Row 236 false [4] (Goto 232); Row 228 false [4] (Goto 224); Row 220 false [4] (Goto 216);
   Row 212 false [4] (Goto 208); Row 204 false [4] (Goto 200); Row 196 false [4] (Goto 192);
   Row 188 false [4] (Goto 184); Row 180 false [4] (Goto 176); Row 172 false [4] (Goto 168);
   Row 164 false [4] (Goto 160); Row 156 false [4] (Goto 152); Row 148 false [4] (Goto 144);
   Row 140 false [4] (Goto 136); Row 132 false [4] (Goto 128); Row 124 false [4] (Goto 120);
   Row 116 false [4] (Goto 112); Row 108 false [4] (Goto 104); Row 100 false [4] (Goto 96);
   Row 92 false [4] (Goto 88); Row 84 false [4] (Goto 80); Row 76 false [4] (Goto 72);
   Row 68 false [4] (Goto 64); Row 60 false [4] (Goto 56); Row 52 false [4] (Goto 48);
   Row 44 false [4] (Goto 40); Row 36 false [4] (Goto 32); Row 28 false [4] (Goto 24);
   Row 20 false [4] (Goto 16); Row 12 false [4] (Goto 8); Row 4 false [4] Break;
   Row 282 false [2] (Goto 280); Row 274 false [2] (Goto 272); Row 266 false [2] (Goto 264);
   Row 258 false [2] (Goto 256); Row 250 false [2] (Goto 248); Row 242 false [2] (Goto 240);
   Row 234 false [2] (Goto 232); Row 226 false [2] (Goto 224); Row 218 false [2] (Goto 216);
   Row 210 false [2] (Goto 208); Row 202 false [2] (Goto 200); Row 194 false [2] (Goto 192);
   Row 186 false [2] (Goto 184); Row 178 false [2] (Goto 176); Row 170 false [2] (Goto 168);
   Row 162 false [2] (Goto 160); Row 154 false [2] (Goto 152); Row 146 false [2] (Goto 144);
   Row 138 false [2] (Goto 136); Row 130 false [2] (Goto 128); Row 122 false [2] (Goto 120);
   Row 114 false [2] (Goto 112); Row 106 false [2] (Goto 104); Row 98 false [2] (Goto 96);
   Row 90 false [2] (Goto 88); Row 82 false [2] (Goto 80); Row 74 false [2] (Goto 72);
   Row 66 false [2] (Goto 64); Row 58 false [2] (Goto 56); Row 50 false [2] (Goto 48);
   Row 42 false [2] (Goto 40); Row 34 false [2] (Goto 32); Row 26 false [2] (Goto 24);
   Row 18 false [2] (Goto 16); Row 10 false [2] (Goto 8); Row 2 false [2] Break; Row 1 false [1] Break]%nat.
(** @src afxdp/include/bpf/builtins.h 375-401 __bpf_memcmp *)
Definition memcmp_rows : list row :=
  [Row 32 false [8] Fall; Row 24 true [8] Fall; Row 16 true [8] Fall; Row 8 true [8] Break;
   Row 30 false [2; 4] (Goto 24); Row 22 false [2; 4] (Goto 16); Row 14 false [2; 4] (Goto 8);
   Row 6 false [2; 4] Break; Row 28 false [4] (Goto 24); Row 20 false [4] (Goto 16);
   Row 12 false [4] (Goto 8); Row 4 false [4] Break; Row 26 false [2] (Goto 24);
   Row 18 false [2] (Goto 16); Row 10 false [2] (Goto 8); Row 2 false [2] Break; Row 1 false [1] Break]%nat.
(** @src afxdp/include/bpf/builtins.h 453-511 __bpf_memmove_fwd *)
Definition memmove_rows : list row :=
  [Row 96 false [8] Fall; Row 88 true [8] Fall; Row 80 true [8] Fall; Row 72 true [8] Fall;
   Row 64 true [8] Fall; Row 56 true [8] Fall; Row 48 true [8] Fall; Row 40 true [8] Fall;
   Row 32 true [8] Fall; Row 24 true [8] Fall; Row 16 true [8] Fall; Row 8 true [8] Break;
   Row 94 false [2; 4] (Goto 88); Row 86 false [2; 4] (Goto 80); Row 78 false [2; 4] (Goto 72);
   Row 70 false [2; 4] (Goto 64); Row 62 false [2; 4] (Goto 56); Row 54 false [2; 4] (Goto 48);
   Row 46 false [2; 4] (Goto 40); Row 38 false [2; 4] (Goto 32); Row 30 false [2; 4] (Goto 24);
   Row 22 false [2; 4] (Goto 16); Row 14 false [2; 4] (Goto 8); Row 6 false [2; 4] Break;
   Row 92 false [4] (Goto 88); Row 84 false [4] (Goto 80); Row 76 false [4] (Goto 72);
   Row 68 false [4] (Goto 64); Row 60 false [4] (Goto 56); Row 52 false [4] (Goto 48);
   Row 44 false [4] (Goto 40); Row 36 false [4] (Goto 32); Row 28 false [4] (Goto 24);
   Row 20 false [4] (Goto 16); Row 12 false [4] (Goto 8); Row 4 false [4] Break;
   Row 90 false [2] (Goto 88); Row 82 false [2] (Goto 80); Row 74 false [2] (Goto 72);
   Row 66 false [2] (Goto 64); Row 58 false [2] (Goto 56); Row 50 false [2] (Goto 48);
   Row 42 false [2] (Goto 40); Row 34 false [2] (Goto 32); Row 26 false [2] (Goto 24);
   Row 18 false [2] (Goto 16); Row 10 false [2] (Goto 8); Row 2 false [2] Break; Row 1 false [1] Break]%nat.

Fixpoint find_row (p : row -> bool) (rows : list row) : list row :=
  match rows with [] => [] | r :: rest => if p r then rows else find_row p rest end.
(** The accesses from a row on; [None] is [default], an error of the build. *)
Fixpoint exec (fuel : nat) (table rows : list row) : option (list nat) :=
  match fuel, rows with
  | S fuel, r :: rest =>
      match next r with
      | Break => Some (ops r)
      | Fall => app (ops r) <$> exec fuel table rest
      | Goto l => app (ops r) <$> exec fuel table (find_row (fun r => jmp r && (size r =? l)%nat) table)
      end
  | _, _ => None
  end.
Definition switch (table : list row) (len : nat) : option (list nat) :=
  exec (S (length table)) table (find_row (fun r => size r =? len)%nat table).

(** ** The accesses *)

(** [__it_set], [__it_mob], [__it_xor] and [__it_mof] one after the other; [None] is an access
    outside the memory.
    @src afxdp/include/bpf/builtins.h 25-29 __it_set *)
Fixpoint it_set (ws : list nat) (d : Z) (mem : list Z) : option (list Z) :=
  match ws with
  | [] => Some mem
  | w :: ws =>
      let d := d - Z.of_nat w in
      mem ← splice d (le_split w 0) mem;
      it_set ws d mem
  end.
(** @src afxdp/include/bpf/builtins.h 31 __it_mob *)
Fixpoint it_mob (ws : list nat) (d s : Z) (mem : list Z) : option (list Z) :=
  match ws with
  | [] => Some mem
  | w :: ws =>
      let d := d - Z.of_nat w in
      let s := s - Z.of_nat w in
      bs ← slice s w mem;
      mem ← splice d bs mem;
      it_mob ws d s mem
  end.
(** @src afxdp/include/bpf/builtins.h 30 __it_xor *)
Fixpoint it_xor (ws : list nat) (x y r : Z) (mem : list Z) : option Z :=
  match ws with
  | [] => Some r
  | w :: ws =>
      let x := x - Z.of_nat w in
      let y := y - Z.of_nat w in
      a ← slice x w mem;
      b ← slice y w mem;
      it_xor ws x y (Z.lor r (Z.lxor (le_join a) (le_join b))) mem
  end.
(** @src afxdp/include/bpf/builtins.h 32-36 __it_mof *)
Fixpoint it_mof (ws : list nat) (d s : Z) (mem : list Z) : option (list Z) :=
  match ws with
  | [] => Some mem
  | w :: ws =>
      bs ← slice s w mem;
      mem ← splice d bs mem;
      it_mof ws (d + Z.of_nat w) (s + Z.of_nat w) mem
  end.

(** ** The routines, for constant sizes *)

(** @src afxdp/include/bpf/builtins.h 38-45 __bpf_memset_builtin *)
Definition __bpf_memset_builtin (d c : Z) (len : nat) (mem : list Z) : option (list Z) :=
  splice d (replicate len (u8 c)) mem.
(** @src afxdp/include/bpf/builtins.h 47-126 __bpf_memzero *)
Definition __bpf_memzero (d : Z) (len : nat) (mem : list Z) : option (list Z) :=
  ws ← switch memzero_rows len; it_set ws (d + Z.of_nat len) mem.
(** @src afxdp/include/bpf/builtins.h 138-145 memset *)
Definition memset (d c : Z) (len : nat) (mem : list Z) : option (list Z) :=
  if c =? 0 then __bpf_memzero d len mem else __bpf_memset_builtin d c len mem.
(** @src afxdp/include/bpf/builtins.h 154-330 __bpf_memcpy *)
Definition __bpf_memcpy (d s : Z) (len : nat) (mem : list Z) : option (list Z) :=
  ws ← switch memcpy_rows len; it_mob ws (d + Z.of_nat len) (s + Z.of_nat len) mem.
(** @src afxdp/include/bpf/builtins.h 363-411 __bpf_memcmp *)
Definition __bpf_memcmp (x y : Z) (len : nat) (mem : list Z) : option Z :=
  ws ← switch memcmp_rows len; it_xor ws (x + Z.of_nat len) (y + Z.of_nat len) 0 mem.
(** @src afxdp/include/bpf/builtins.h 447-524 __bpf_memmove_fwd *)
Definition __bpf_memmove_fwd (d s : Z) (len : nat) (mem : list Z) : option (list Z) :=
  ws ← switch memmove_rows len; it_mof ws d s mem.
(** @src afxdp/include/bpf/builtins.h 441-445 __bpf_memmove_bwd *)
Definition __bpf_memmove_bwd (d s : Z) (len : nat) (mem : list Z) : option (list Z) := __bpf_memcpy d s len mem.
(** Both branches are compiled, so a size needs a case in both tables.
    @src afxdp/include/bpf/builtins.h 536-551 __bpf_memmove *)
Definition __bpf_memmove (d s : Z) (len : nat) (mem : list Z) : option (list Z) :=
  _ ← switch memmove_rows len;
  _ ← switch memcpy_rows len;
  if d <=? s then __bpf_memmove_fwd d s len mem else __bpf_memmove_bwd d s len mem.

(** ** Every size has its accesses *)

Definition widths (ws : list nat) : Prop := Forall (fun w => w = 1 \/ w = 2 \/ w = 4 \/ w = 8)%nat ws.
Definition total (ws : list nat) : nat := list_sum ws.
(** What the tables are checked for, row by row. *)
Definition width_ok (w : nat) : bool := existsb (Nat.eqb w) [1; 2; 4; 8]%nat.
Definition row_ok (table : list row) (r : row) : bool :=
  match switch table (size r) with
  | Some ws => (total ws =? size r)%nat && forallb width_ok ws
  | None => false
  end.
(** The sizes that have a case: 1 and the even ones up to a maximum. *)
Definition supported (max len : nat) : bool := ((len =? 1) || ((2 <=? len) && (len <=? max) && Nat.even len))%nat.
Definition table_ok (max : nat) (table : list row) : bool :=
  forallb (row_ok table) table
  && forallb (fun r => supported max (size r)) table
  && forallb (fun n => negb (supported max n) || existsb (fun r => size r =? n)%nat table) (seq 0 (S (S max))).

Lemma find_row_in p rows r rest : find_row p rows = r :: rest -> In r rows /\ p r = true.
Proof.
  induction rows as [|x rows IH]; cbn [find_row]; [done|]. destruct (p x) eqn:E.
  - intros [= -> ->]. split; [now left|done].
  - intros H. destruct (IH H). split; [now right|done].
Qed.
Lemma switch_case table len ws : switch table len = Some ws -> exists r, In r table /\ size r = len.
Proof.
  unfold switch. destruct (find_row _ table) as [|r rest] eqn:E; [done|]. intros _.
  apply find_row_in in E as [Hr E]. exists r. split; [done|now apply Nat.eqb_eq].
Qed.
Lemma switch_widths max table len ws : table_ok max table = true -> switch table len = Some ws ->
  total ws = len /\ widths ws.
Proof.
  unfold table_ok. intros H Hs. apply andb_prop in H as [H _]. apply andb_prop in H as [H _].
  destruct (switch_case _ _ _ Hs) as (r & Hr & <-). rewrite forallb_forall in H. specialize (H r Hr).
  unfold row_ok in H. rewrite Hs in H. apply andb_prop in H as [H1 H2]. split; [now apply Nat.eqb_eq|].
  apply Forall_forall. intros w Hw. rewrite forallb_forall in H2. specialize (H2 w Hw).
  unfold width_ok in H2. cbn [existsb] in H2. rewrite !orb_true_iff, !Nat.eqb_eq in H2. destruct H2 as [?|[?|[?|[?|?]]]]; [tauto..|done].
Qed.
Lemma switch_supported max table len : table_ok max table = true ->
  is_Some (switch table len) <-> supported max len = true.
Proof.
  unfold table_ok. intros H. apply andb_prop in H as [H H3]. apply andb_prop in H as [H1 H2].
  rewrite forallb_forall in H1, H2, H3. split.
  - intros [ws Hs]. destruct (switch_case _ _ _ Hs) as (r & Hr & <-). auto.
  - intros Hl. assert (Hs : (len <= S max)%nat).
    { unfold supported in Hl. destruct (Nat.eqb_spec len 1), (Nat.leb_spec len max); cbn in Hl; lia. }
    specialize (H3 len ltac:(apply in_seq; lia)). rewrite Hl in H3. cbn in H3.
    apply existsb_exists in H3 as (r & Hr & E). apply Nat.eqb_eq in E as <-. specialize (H1 r Hr).
    unfold row_ok in H1. destruct (switch table (size r)); [eauto|done].
Qed.

Lemma tables_ok : table_ok 96 memzero_rows = true /\ table_ok 288 memcpy_rows = true
  /\ table_ok 32 memcmp_rows = true /\ table_ok 96 memmove_rows = true.
Proof. repeat split; vm_compute; reflexivity. Qed.

(** ** What a sequence of accesses does *)

(** The bytes at [s], and the memory with the bytes at [d] replaced. *)
Definition get (s n : nat) (mem : list Z) : list Z := take n (drop s mem).
Definition put (d : nat) (bs mem : list Z) : list Z := take d mem ++ bs ++ drop (d + length bs) mem.

Lemma length_get s n mem : (s + n <= length mem)%nat -> length (get s n mem) = n.
Proof. intros. unfold get. rewrite length_take, length_drop. lia. Qed.
Lemma length_put d bs mem : (d + length bs <= length mem)%nat -> length (put d bs mem) = length mem.
Proof. intros. unfold put. rewrite !length_app, length_take, length_drop. lia. Qed.
Lemma lookup_get s n mem i : get s n mem !! i = if decide (i < n)%nat then mem !! (s + i)%nat else None.
Proof.
  unfold get. destruct (decide (i < n)%nat).
  - rewrite lookup_take_lt by done. apply lookup_drop.
  - apply lookup_ge_None. rewrite length_take. lia.
Qed.
Lemma lookup_put d bs mem i : (d + length bs <= length mem)%nat ->
  put d bs mem !! i = if decide (d <= i < d + length bs)%nat then bs !! (i - d)%nat else mem !! i.
Proof.
  intros H. assert (Ht : length (take d mem) = d) by (rewrite length_take; lia). unfold put. destruct (decide (i < d)%nat).
  - rewrite lookup_app_l by lia. rewrite decide_False by lia. apply lookup_take_lt. lia.
  - rewrite lookup_app_r, Ht by lia. destruct (decide (d <= i < d + length bs)%nat).
    + apply lookup_app_l. lia.
    + rewrite lookup_app_r, lookup_drop by lia. f_equal. lia.
Qed.
Lemma slice_get s n mem : (s + n <= length mem)%nat -> slice (Z.of_nat s) n mem = Some (get s n mem).
Proof. intros H. rewrite slice_some, Nat2Z.id; [done|lia|unfold zlen; lia]. Qed.
Lemma splice_put d bs mem : (d + length bs <= length mem)%nat -> splice (Z.of_nat d) bs mem = Some (put d bs mem).
Proof. intros H. rewrite splice_some, Nat2Z.id; [done|lia|unfold zlen; lia]. Qed.

Lemma get_0 s mem : get s 0 mem = [].
Proof. done. Qed.
Lemma put_nil d mem : put d [] mem = mem.
Proof. unfold put. cbn [app length]. now rewrite Nat.add_0_r, take_drop. Qed.

(** Equality of memories, byte by byte. *)
Ltac bytewise :=
  apply list_eq; intros ?; repeat rewrite ?lookup_put, ?lookup_get by (rewrite ?length_put, ?length_app, ?length_get, ?length_replicate; rewrite ?length_put, ?length_get; lia);
  rewrite ?length_app, ?length_get by (rewrite ?length_put, ?length_get; lia); repeat case_decide; try lia; try (f_equal; lia).

Lemma put_below d a b mem : (d + length a + length b <= length mem)%nat ->
  put d a (put (d + length a) b mem) = put d (a ++ b) mem.
Proof.
  intros H. bytewise.
  - now rewrite lookup_app_l by lia.
  - rewrite lookup_app_r by lia. f_equal. lia.
Qed.
Lemma put_above d a b mem : (d + length a + length b <= length mem)%nat ->
  put (d + length a) b (put d a mem) = put d (a ++ b) mem.
Proof.
  intros H. bytewise.
  - rewrite lookup_app_r by lia. f_equal. lia.
  - now rewrite lookup_app_l by lia.
Qed.
(** Reading beside what has been written. *)
Lemma get_put s n d bs mem : (d + length bs <= length mem)%nat -> (s + n <= length mem)%nat -> (s + n <= d \/ d + length bs <= s)%nat ->
  get s n (put d bs mem) = get s n mem.
Proof. intros. bytewise. Qed.
Lemma get_app s m n mem : (s + m + n <= length mem)%nat -> get s m mem ++ get (s + m) n mem = get s (m + n) mem.
Proof.
  intros H. apply list_eq. intros i. rewrite lookup_get. destruct (decide (i < m)%nat).
  - rewrite lookup_app_l, lookup_get by (rewrite length_get; lia). rewrite !decide_True by lia. done.
  - rewrite lookup_app_r, length_get, lookup_get by (rewrite ?length_get; lia). repeat case_decide; try lia; f_equal; lia.
Qed.

Lemma le_split_0 w : le_split w 0 = replicate w 0.
Proof.
  induction w as [|w IH]; [done|]. cbn [le_split replicate]. change (0 mod 256) with 0. change (0 / 256) with 0. now rewrite IH.
Qed.
(** Reading and writing in one part of a memory. *)
Lemma get_app_l s n a b : (s + n <= length a)%nat -> get s n (a ++ b) = get s n a.
Proof.
  intros H. unfold get. rewrite drop_app_le by lia. apply take_app_le. rewrite length_drop. lia.
Qed.
Lemma get_app_r n a b : length b = n -> get (length a) n (a ++ b) = b.
Proof. intros <-. unfold get. rewrite drop_app_length. now apply take_ge. Qed.
Lemma put_app_l d bs a b : (d + length bs <= length a)%nat -> put d bs (a ++ b) = put d bs a ++ b.
Proof. intros H. unfold put. rewrite take_app_le, drop_app_le by lia. now rewrite <- !app_assoc. Qed.
Lemma drop_put bs a b : length bs = length b -> drop (length a) (put (length a) bs (a ++ b)) = bs.
Proof.
  intros H. unfold put. rewrite take_app_length, drop_app_length. rewrite drop_ge by (rewrite length_app; lia).
  apply app_nil_r.
Qed.

(** Clearing goes downwards from the end. *)
Lemma it_set_zeros ws d mem : (d + total ws <= length mem)%nat ->
  it_set ws (Z.of_nat (d + total ws)) mem = Some (put d (replicate (total ws) 0) mem).
Proof.
  unfold total. revert mem. induction ws as [|w ws IH]; intros mem H; cbn [it_set list_sum fold_right] in *.
  - now rewrite put_nil.
  - fold (list_sum ws) in *. replace (Z.of_nat (d + (w + list_sum ws)) - Z.of_nat w) with (Z.of_nat (d + list_sum ws)) by lia.
    rewrite le_split_0, splice_put by (rewrite length_replicate; lia). cbn [mbind option_bind].
    rewrite IH by (rewrite length_put; rewrite ?length_replicate; lia). f_equal.
    rewrite <- (length_replicate (list_sum ws) 0) at 2. rewrite put_below by (rewrite !length_replicate; lia).
    now rewrite <- replicate_add, Nat.add_comm.
Qed.

(** Copying downwards is right where the source is below the destination or ends before it
    begins, copying upwards where the source is above or ends before. *)
Lemma it_mob_copies ws d s mem :
  (d + total ws <= length mem)%nat -> (s + total ws <= length mem)%nat -> (s <= d \/ d + total ws <= s)%nat ->
  it_mob ws (Z.of_nat (d + total ws)) (Z.of_nat (s + total ws)) mem = Some (put d (get s (total ws) mem) mem).
Proof.
  unfold total. revert mem. induction ws as [|w ws IH]; intros mem Hd Hs Ho; cbn [it_mob list_sum fold_right] in *.
  - now rewrite get_0, put_nil.
  - fold (list_sum ws) in *. set (n := list_sum ws) in *.
    replace (Z.of_nat (d + (w + n)) - Z.of_nat w) with (Z.of_nat (d + n)) by lia.
    replace (Z.of_nat (s + (w + n)) - Z.of_nat w) with (Z.of_nat (s + n)) by lia.
    rewrite slice_get by lia. cbn [mbind option_bind].
    rewrite splice_put by (rewrite length_get; lia). cbn [mbind option_bind].
    rewrite IH by (rewrite ?length_put, ?length_get; rewrite ?length_get; lia). f_equal.
    rewrite get_put by (rewrite ?length_get; lia).
    replace (d + n)%nat with (d + length (get s n mem))%nat by (rewrite length_get; lia).
    rewrite put_below by (rewrite !length_get; lia). rewrite get_app by lia. now rewrite (Nat.add_comm w n).
Qed.
Lemma it_mof_copies ws d s mem :
  (d + total ws <= length mem)%nat -> (s + total ws <= length mem)%nat -> (d <= s \/ s + total ws <= d)%nat ->
  it_mof ws (Z.of_nat d) (Z.of_nat s) mem = Some (put d (get s (total ws) mem) mem).
Proof.
  unfold total. revert d s mem. induction ws as [|w ws IH]; intros d s mem Hd Hs Ho; cbn [it_mof list_sum fold_right] in *.
  - now rewrite get_0, put_nil.
  - fold (list_sum ws) in *. set (n := list_sum ws) in *.
    rewrite slice_get by lia. cbn [mbind option_bind].
    rewrite splice_put by (rewrite length_get; lia). cbn [mbind option_bind].
    rewrite <- !Nat2Z.inj_add. rewrite IH by (rewrite ?length_put, ?length_get; rewrite ?length_get; lia). f_equal.
    rewrite get_put by (rewrite ?length_get; lia).
    rewrite <- (length_get s w mem) at 1 by lia. rewrite put_above by (rewrite !length_get; lia). now rewrite get_app by lia.
Qed.

Lemma le_join_inj a b : bytes_ok a -> bytes_ok b -> length a = length b -> le_join a = le_join b -> a = b.
Proof. intros Ha Hb Hl H. now rewrite <- (le_split_join a Ha), <- (le_split_join b Hb), Hl, H. Qed.
Lemma app_eq_iff (a b c d : list Z) : length a = length b -> a ++ c = b ++ d <-> a = b /\ c = d.
Proof. intros Hl. split; [apply app_inj_1, Hl|now intros [-> ->]]. Qed.

(** The result of a comparison is 0 when all bytes are equal, on top of what it was. *)
Lemma it_xor_compares ws x y r mem : bytes_ok mem ->
  (x + total ws <= length mem)%nat -> (y + total ws <= length mem)%nat ->
  exists v, it_xor ws (Z.of_nat (x + total ws)) (Z.of_nat (y + total ws)) r mem = Some v /\
    (v = 0 <-> r = 0 /\ get x (total ws) mem = get y (total ws) mem).
Proof.
  intros Hok. unfold total. revert r. induction ws as [|w ws IH]; intros r Hx Hy; cbn [it_xor list_sum fold_right] in *.
  - exists r. split; [done|]. rewrite !get_0. tauto.
  - fold (list_sum ws) in *. set (n := list_sum ws) in *.
    replace (Z.of_nat (x + (w + n)) - Z.of_nat w) with (Z.of_nat (x + n)) by lia.
    replace (Z.of_nat (y + (w + n)) - Z.of_nat w) with (Z.of_nat (y + n)) by lia.
    rewrite !slice_get by lia. cbn [mbind option_bind].
    destruct (IH (Z.lor r (Z.lxor (le_join (get (x + n) w mem)) (le_join (get (y + n) w mem))))) as (v & E & Hv); [lia..|].
    exists v. split; [exact E|]. rewrite Hv, Z.lor_eq_0_iff, Z.lxor_eq_0_iff.
    rewrite (Nat.add_comm w n), <- !get_app, app_eq_iff by (rewrite ?length_get; lia).
    assert (Hg : forall k, bytes_ok (get k w mem)) by (intros; now apply Forall_take, Forall_drop).
    assert (Hj : le_join (get (x + n) w mem) = le_join (get (y + n) w mem) <-> get (x + n) w mem = get (y + n) w mem)
      by (split; [apply le_join_inj; rewrite ?length_get; auto; lia|congruence]).
    rewrite Hj. tauto.
Qed.

(** ** The routines are those of the C library *)

Section routines.
Context (mem : list Z) (d s len : nat).
Context (Hd : (d + len <= length mem)%nat) (Hs : (s + len <= length mem)%nat).

(** The accesses of a supported size. *)
Lemma accesses max table : table_ok max table = true -> supported max len = true ->
  exists ws, switch table len = Some ws /\ total ws = len.
Proof.
  intros Ht Hl. apply (switch_supported _ _ _ Ht) in Hl as [ws E]. exists ws. split; [done|].
  now apply (switch_widths _ _ _ _ Ht).
Qed.

Lemma memzero_correct : supported 96 len = true ->
  __bpf_memzero (Z.of_nat d) len mem = Some (put d (replicate len 0) mem).
Proof.
  intros Hl. destruct (accesses 96 memzero_rows (proj1 tables_ok) Hl) as (ws & E & <-).
  unfold __bpf_memzero. rewrite E. cbn [mbind option_bind]. rewrite <- Nat2Z.inj_add. now apply it_set_zeros.
Qed.
Lemma memset_correct c : c <> 0 \/ supported 96 len = true ->
  memset (Z.of_nat d) c len mem = Some (put d (replicate len (u8 c)) mem).
Proof.
  intros Hc. unfold memset. destruct (Z.eqb_spec c 0) as [->|Hn].
  - apply memzero_correct. now destruct Hc.
  - apply splice_put. now rewrite length_replicate.
Qed.
(** As in the C library, the areas may not overlap; it is enough that the source is not above. *)
Lemma memcpy_correct : supported 288 len = true -> (s <= d \/ d + len <= s)%nat ->
  __bpf_memcpy (Z.of_nat d) (Z.of_nat s) len mem = Some (put d (get s len mem) mem).
Proof.
  intros Hl Ho. destruct (accesses 288 memcpy_rows (proj1 (proj2 tables_ok)) Hl) as (ws & E & Hw).
  unfold __bpf_memcpy. rewrite E. cbn [mbind option_bind]. rewrite <- !Nat2Z.inj_add, <- Hw.
  apply it_mob_copies; rewrite Hw; lia.
Qed.
Lemma memcmp_correct : bytes_ok mem -> supported 32 len = true ->
  exists r, __bpf_memcmp (Z.of_nat d) (Z.of_nat s) len mem = Some r /\ (r = 0 <-> get d len mem = get s len mem).
Proof.
  intros Hok Hl. destruct (accesses 32 memcmp_rows (proj1 (proj2 (proj2 tables_ok))) Hl) as (ws & E & Hw).
  destruct (it_xor_compares ws d s 0 mem Hok) as (r & Er & Hr); [lia..|]. exists r.
  unfold __bpf_memcmp. rewrite E. cbn [mbind option_bind]. rewrite <- !Nat2Z.inj_add, <- Hw.
  split; [exact Er|]. rewrite Hr. tauto.
Qed.
(** However the areas overlap, the destination gets what the source was. *)
Lemma memmove_correct : supported 96 len = true ->
  __bpf_memmove (Z.of_nat d) (Z.of_nat s) len mem = Some (put d (get s len mem) mem).
Proof.
  intros Hl. destruct (accesses 96 memmove_rows (proj2 (proj2 (proj2 tables_ok))) Hl) as (ws & E & Hw).
  assert (Hl' : supported 288 len = true).
  { unfold supported in *. rewrite orb_true_iff, !andb_true_iff, !Nat.leb_le in *. intuition lia. }
  destruct (accesses 288 memcpy_rows (proj1 (proj2 tables_ok)) Hl') as (ws' & E' & _).
  unfold __bpf_memmove. rewrite E, E'. cbn [mbind option_bind].
  destruct (Z.leb_spec (Z.of_nat d) (Z.of_nat s)).
  - unfold __bpf_memmove_fwd. rewrite E. cbn [mbind option_bind]. rewrite <- Hw. apply it_mof_copies; rewrite Hw; lia.
  - apply memcpy_correct; [done|lia].
Qed.
End routines.

(** Other sizes do not build; a move needs a size of both tables. *)
Lemma other_sizes d s len mem : supported 96 len = false ->
  __bpf_memzero d len mem = None /\ __bpf_memmove d s len mem = None /\ (supported 288 len = false -> __bpf_memcpy d s len mem = None).
Proof.
  intros H. destruct tables_ok as (Hz & Hc & _ & Hm).
  assert (Hn : forall max table, table_ok max table = true -> supported max len = false -> switch table len = None).
  { intros max table Ht Hl. apply eq_None_not_Some. rewrite (switch_supported _ _ _ Ht), Hl. done. }
  unfold __bpf_memzero, __bpf_memmove, __bpf_memcpy. rewrite (Hn _ _ Hz H), (Hn _ _ Hm H). repeat split.
  intros H'. now rewrite (Hn _ _ Hc H').
Qed.

(** ** Packet bytes *)

Section context.
Context {E : Type}.
Definition __CTX_OFF_MAX : Z := 0x3fff.
Definition EINVAL : Z := 22.

(** The buffer [to] lies behind the packet in the memory that [memcpy] works on.
    @src afxdp/include/xdp/context_helpers.h 19-45 xdp_load_bytes *)
Definition xdp_load_bytes (off : Z) (to : list Z) : xdp E (Z * list Z) := fun st =>
  let data := f_data (x_frame st) in
  let from := Z.land off __CTX_OFF_MAX in
  if zlen data <? from + zlen to then Some ((- EINVAL, to), st)
  else mem ← __bpf_memcpy (zlen data) from (length to) (data ++ to);
       Some ((0, drop (length data) mem), st).
(** @src afxdp/include/xdp/context_helpers.h 47-71 xdp_store_bytes *)
Definition xdp_store_bytes (off : Z) (from : list Z) : xdp E Z := fun st =>
  let data := f_data (x_frame st) in
  let to := Z.land off __CTX_OFF_MAX in
  if zlen data <? to + zlen from then Some (- EINVAL, st)
  else mem ← __bpf_memcpy to (zlen data) (length from) (data ++ from);
       Some (0, set_data st (take (length data) mem)).

Lemma ctx_offset off : exists o : nat, Z.land off __CTX_OFF_MAX = Z.of_nat o /\ Z.of_nat o = off mod 16384.
Proof.
  assert (H : Z.land off __CTX_OFF_MAX = off mod 16384) by (unfold __CTX_OFF_MAX; change 0x3fff with (Z.ones 14); now rewrite Z.land_ones by lia).
  exists (Z.to_nat (off mod 16384)). rewrite H. pose proof (Z.mod_pos_bound off 16384). lia.
Qed.

(** The offset counts modulo 16384; an access that does not end in the packet is refused. *)
Lemma xdp_load_bytes_runs (st : xst E) off to :
  let data := f_data (x_frame st) in let o := off mod 16384 in
  supported 288 (length to) = true ->
  runs st (xdp_load_bytes off to)
    (if zlen data <? o + zlen to then (- EINVAL, to) else (0, get (Z.to_nat o) (length to) data)) st.
Proof.
  intros data o' Hl. unfold o'. destruct (ctx_offset off) as (o & Eo & <-). unfold runs, xdp_load_bytes. rewrite Eo.
  fold data. destruct (Z.ltb_spec (zlen data) (Z.of_nat o + zlen to)) as [?|Hin]; [done|]. unfold zlen in *.
  rewrite memcpy_correct by (rewrite ?length_app; done || lia). cbn [mbind option_bind]. rewrite Nat2Z.id.
  now rewrite get_app_l, drop_put by (rewrite ?length_get; rewrite ?length_app; lia).
Qed.
Lemma xdp_store_bytes_runs (st : xst E) off from :
  let data := f_data (x_frame st) in let o := off mod 16384 in
  supported 288 (length from) = true ->
  runs st (xdp_store_bytes off from) (if zlen data <? o + zlen from then - EINVAL else 0)
    (if zlen data <? o + zlen from then st else set_data st (put (Z.to_nat o) from data)).
Proof.
  intros data o' Hl. unfold o'. destruct (ctx_offset off) as (o & Eo & <-). unfold runs, xdp_store_bytes. rewrite Eo.
  fold data. destruct (Z.ltb_spec (zlen data) (Z.of_nat o + zlen from)) as [?|Hin]; [done|]. unfold zlen in *.
  rewrite memcpy_correct by (rewrite ?length_app; done || lia). cbn [mbind option_bind]. rewrite Nat2Z.id.
  rewrite get_app_r by done. rewrite put_app_l by lia. now rewrite take_app_length' by (rewrite length_put; lia).
Qed.
End context.

(** The bytes that are stored are those that are loaded. *)
Example store_load :
  (r ← xdp_store_bytes (16384 + 2) [7; 8; 9; 10]; l ← xdp_load_bytes 2 [0; 0; 0; 0]; f ← xdp_load_bytes 6 [0; 0; 0; 0]; mret (r, l, f))
    (Xst (E := unit) (Frame [] (repeat 1 8) []) tt 0)
  = Some ((0, (0, [7; 8; 9; 10]), (-22, [0; 0; 0; 0])), Xst (Frame [] [1; 1; 7; 8; 9; 10; 1; 1] []) tt 0).
Proof. vm_compute. reflexivity. Qed.
(** A move to the right by two within itself, and one to the left. *)
Example moves :
  __bpf_memmove 2 0 6 [1; 2; 3; 4; 5; 6; 7; 8] = Some [1; 2; 1; 2; 3; 4; 5; 6] /\
  __bpf_memmove 0 2 6 [1; 2; 3; 4; 5; 6; 7; 8] = Some [3; 4; 5; 6; 7; 8; 7; 8].
Proof. split; vm_compute; reflexivity. Qed.

(** ** Messages *)

Module Logging.
Inductive logging_print_level := LOG_WARN | LOG_INFO | LOG_DEBUG | LOG_VERBOSE.
Definition level (l : logging_print_level) : Z :=
  match l with LOG_WARN => 0 | LOG_INFO => 1 | LOG_DEBUG => 2 | LOG_VERBOSE => 3 end.
(** What a library calls for its messages: its own function, that of this file, or the silent one. *)
Inductive callback := Default | Printing | Silent.
(** @src afxdp/lib/util/logging.c 12 log_level *)
Record logging := MkLogging { log_level : Z; libbpf_print : callback; libxdp_print : callback }.
#[local] Instance eta_logging : Eta logging := fun r => MkLogging (log_level r) (libbpf_print r) (libxdp_print r).

(** Whether a message is printed.
    @src afxdp/lib/util/logging.c 14-21 print_func *)
Definition print_func (s : logging) (l : Z) : bool := negb (log_level s <? l).
(** @src afxdp/lib/util/logging.c 23-27 libbpf_print_func *)
Definition libbpf_print_func (s : logging) (l : Z) : bool := print_func s (l + 1).
(** @src afxdp/lib/util/logging.c 36-40 libxdp_print_func *)
Definition libxdp_print_func (s : logging) (l : Z) : bool := print_func s (l + 1).
(** @src afxdp/lib/util/logging.c 51-59 logging_print *)
Definition logging_print (s : logging) (l : Z) : bool := print_func s l.
(** @src afxdp/lib/util/logging.c 61-65 init_lib_logging *)
Definition init_lib_logging (s : logging) : logging := s <| libbpf_print := Printing |> <| libxdp_print := Printing |>.
(** @src afxdp/lib/util/logging.c 67-71 silence_libbpf_logging *)
Definition silence_libbpf_logging (s : logging) : logging :=
  if log_level s <? level LOG_VERBOSE then s <| libbpf_print := Silent |> else s.
(** @src afxdp/lib/util/logging.c 73-77 silence_libxdp_logging *)
Definition silence_libxdp_logging (s : logging) : logging :=
  if log_level s <? level LOG_VERBOSE then s <| libxdp_print := Silent |> else s.
(** @src afxdp/lib/util/logging.c 79-85 set_log_level *)
Definition set_log_level (l : Z) (s : logging) : Z * logging := (log_level s, s <| log_level := l |>).
(** @src afxdp/lib/util/logging.c 87-92 increase_log_level *)
Definition increase_log_level (s : logging) : Z * logging :=
  let s := if log_level s <? level LOG_VERBOSE then s <| log_level := log_level s + 1 |> else s in
  (log_level s, s).

(** The library's message of a level, whoever prints it; [own] is the library's own function. *)
Definition libbpf_prints (own : Z -> bool) (s : logging) (l : Z) : bool :=
  match libbpf_print s with Default => own l | Printing => libbpf_print_func s l | Silent => false end.

(** A program that raises the level [n] times from where it starts and then silences libbpf gets its
    messages only at the highest level, and there all of them. *)
Lemma silenced_unless_verbose own s n l : 0 <= log_level s <= 3 -> 0 <= l <= 2 ->
  libbpf_prints own (silence_libbpf_logging (Nat.iter n (fun s => (increase_log_level s).2) (init_lib_logging s))) l =
    (3 <=? log_level s + Z.of_nat n).
Proof.
  intros Hs Hl.
  assert (H : libbpf_print (Nat.iter n (fun s => (increase_log_level s).2) (init_lib_logging s)) = Printing /\
              log_level (Nat.iter n (fun s => (increase_log_level s).2) (init_lib_logging s)) = Z.min 3 (log_level s + Z.of_nat n)).
  { induction n as [|n [IH1 IH2]]; [cbn; split; [done|lia]|].
    rewrite Nat.iter_succ. set (t := Nat.iter n _ _) in *. clearbody t. destruct t as [lv a b].
    cbn [log_level libbpf_print] in *. unfold increase_log_level. cbn [log_level level].
    destruct (Z.ltb_spec lv 3); cbn [snd log_level libbpf_print]; split; auto; lia. }
  destruct H as [H1 H2]. unfold silence_libbpf_logging, libbpf_prints. rewrite H2. cbn [level].
  destruct (Z.ltb_spec (Z.min 3 (log_level s + Z.of_nat n)) 3); cbn [libbpf_print].
  - lia.
  - rewrite H1. unfold libbpf_print_func, print_func. rewrite H2. lia.
Qed.
End Logging.
