(* ===== verification/XdpTunnelLoader.v ===== *)
(** * The control plane of the tunnel (xdp_progs/xdp_tx_iptunnel.c)

    The command line, the table of virtual addresses that it fills, the attachment of the
    program and the statistics; and the composition with the program of XdpTunnel.v: which
    packets a deployed tunnel encapsulates. *)
From Stdlib Require Import ZArith Lia Ascii String.
From stdpp Require Import base numbers list option gmap.
From S2P Require Import Prelude CLib Xdp OnesComplement XdpRun XdpTunnel.
#[local] Open Scope Z_scope.
#[local] Open Scope list_scope.

(** ** Data *)

(** @src xdp_progs/xdp_tx_iptunnel_common.h 6 MAX_IPTNL_ENTRIES *)
Definition MAX_IPTNL_ENTRIES : Z := 256.
Definition AF_UNSPEC : Z := 0.
Definition AF_INET6 : Z := 10.
(** @src afxdp/headers/linux/if_link.h 1165 XDP_FLAGS_UPDATE_IF_NOEXIST *)
Definition XDP_FLAGS_UPDATE_IF_NOEXIST : Z := 1.
(** @src afxdp/headers/linux/if_link.h 1166 XDP_FLAGS_SKB_MODE *)
Definition XDP_FLAGS_SKB_MODE : Z := 2.
(** @src afxdp/headers/linux/if_link.h 1167 XDP_FLAGS_DRV_MODE *)
Definition XDP_FLAGS_DRV_MODE : Z := 4.

(** The functions of the C library that look outside the program. *)
Class TunnelHost := {
  if_nametoindex : string -> Z;
  ether_aton : string -> option (list Z);
  readable : string -> bool
}.

(** The variables of [main] and of the file that the options set.  Of [tnl] the two addresses
    are kept as four words and the MAC address as bytes.
    @src xdp_progs/xdp_tx_iptunnel.c 27-30 ifindex *)
Record tunnel_options := TunnelOptions {
  ifindex : Z; xdp_flags : Z; l_vip : vip; l_saddr : list Z; l_daddr : list Z; l_family : Z;
  l_dmac : list Z; min_port : Z; max_port : Z; kill_after_s : Z; btf_filename : string;
  opt_flags : list ascii
}.
#[global] Instance eta_tunnel_options : Eta tunnel_options := fun o =>
  TunnelOptions (ifindex o) (xdp_flags o) (l_vip o) (l_saddr o) (l_daddr o) (l_family o)
    (l_dmac o) (min_port o) (max_port o) (kill_after_s o) (btf_filename o) (opt_flags o).
#[global] Instance eta_vip : Eta vip := fun v => Vip (v_daddr v) (v_dport v) (v_family v) (v_protocol v).

(** The options that must be given are those of [optstr] in lower case, without [h].
    @src xdp_progs/xdp_tx_iptunnel.c 164-184 main *)
Definition default_options : tunnel_options :=
  TunnelOptions (-1) XDP_FLAGS_UPDATE_IF_NOEXIST (Vip [0; 0; 0; 0] 0 0 IPPROTO_TCP)
    [0; 0; 0; 0] [0; 0; 0; 0] AF_UNSPEC [0; 0; 0; 0; 0; 0] 0 0 0 EmptyString
    ["i"; "a"; "b"; "p"; "s"; "d"; "m"]%char.

Section loader.
Context `{Inet6} `{TunnelHost}.

(** ** The command line *)

(** The family and the four words.
    @src xdp_progs/xdp_tx_iptunnel.c 103-114 parse_ipstr *)
Definition parse_ipstr (ipstr : string) : option (Z * list Z) :=
  match inet_pton6 ipstr with
  | Some addr => Some (AF_INET6, addr)
  | None =>
      match inet_pton4 ipstr with
      | Some bytes => Some (AF_INET, [le_join bytes; 0; 0; 0])
      | None => None
      end
  end.

(** @src xdp_progs/xdp_tx_iptunnel.c 116-153 parse_ports *)
Definition parse_ports (optarg : string) : option (Z * Z) :=
  let '(tmp_min_port, end_) := strtol_end 10 optarg in
  if (tmp_min_port <? 1) || (tmp_min_port >? 65535) then None else
  tmp_max_port ←
    match end_ with
    | String "-"%char end_ =>
        let tmp_max_port := strtol 10 end_ in
        if (tmp_max_port <? 1) || (tmp_max_port >? 65535) then None else Some tmp_max_port
    | _ => Some tmp_min_port
    end;
  if tmp_min_port >? tmp_max_port then None
  else if tmp_max_port - tmp_min_port + 1 >? MAX_IPTNL_ENTRIES then None
  else Some (tmp_min_port, tmp_max_port).

(** The source and the destination must be of one family; [None] is the return of 1.
    @src xdp_progs/xdp_tx_iptunnel.c 208-225 main *)
Definition set_end (o : tunnel_options) (set : list Z -> tunnel_options -> tunnel_options) (optarg : string)
  : option tunnel_options :=
  '(family, v6) ← parse_ipstr optarg;
  let o := set v6 o in
  if l_family o =? AF_UNSPEC then Some (o <| l_family := family |>)
  else if l_family o =? family then Some o else None.

(** One turn of the loop, up to the mark in [opt_flags].
    @src xdp_progs/xdp_tx_iptunnel.c 190-258 main *)
Definition parse_option (o : tunnel_options) (opt : ascii) (optarg : string) : option tunnel_options :=
  match opt with
  | "i"%char =>
      let o := o <| ifindex := s32 (if_nametoindex optarg) |> in
      Some (if ifindex o =? 0 then o <| ifindex := atoi optarg |> else o)
  | "a"%char =>
      '(family, addr) ← parse_ipstr optarg;
      Some (o <| l_vip := Vip addr (v_dport (l_vip o)) family (v_protocol (l_vip o)) |>)
  | "p"%char =>
      '(lo, hi) ← parse_ports optarg;
      let o := o <| min_port := lo |> in Some (o <| max_port := hi |>)
  | "P"%char => let v := (l_vip o) <| v_protocol := u8 (atoi optarg) |> in Some (o <| l_vip := v |>)
  | "s"%char => set_end o (fun a o => o <| l_saddr := a |>) optarg
  | "d"%char => set_end o (fun a o => o <| l_daddr := a |>) optarg
  | "m"%char => mac ← ether_aton optarg; Some (o <| l_dmac := mac |>)
  | "T"%char => Some (o <| kill_after_s := u32 (atoi optarg) |>)
  | "S"%char => Some (o <| xdp_flags := Z.lor (xdp_flags o) XDP_FLAGS_SKB_MODE |>)
  | "N"%char => Some o
  | "F"%char => Some (o <| xdp_flags := Z.ldiff (xdp_flags o) XDP_FLAGS_UPDATE_IF_NOEXIST |>)
  | "b"%char =>
      let name := substring 0 255 optarg in
      Some (o <| btf_filename := if readable name then name else EmptyString |>)
  | _ => None
  end.

(** [args] is what the calls of [getopt] return.
    @src xdp_progs/xdp_tx_iptunnel.c 186-260 main *)
Fixpoint parse_options (o : tunnel_options) (args : list (ascii * string)) : option tunnel_options :=
  match args with
  | [] => Some o
  | (opt, optarg) :: args =>
      o ← parse_option o opt optarg;
      parse_options (o <| opt_flags := filter (fun c => c <> opt) (opt_flags o) |>) args
  end.

(** Up to the check of the interface.
    @src xdp_progs/xdp_tx_iptunnel.c 186-276 main *)
Definition parse_args (args : list (ascii * string)) : option tunnel_options :=
  o ← parse_options default_options args;
  let o := if nz (Z.land (xdp_flags o) XDP_FLAGS_SKB_MODE) then o
           else o <| xdp_flags := Z.lor (xdp_flags o) XDP_FLAGS_DRV_MODE |> in
  match opt_flags o with
  | _ :: _ => None
  | [] => if ifindex o =? 0 then None else Some o
  end.
End loader.

(** ** Filling the table *)

(** What is stored for [tnl]: the program reads the first words of the addresses. *)
Definition tnl_of (o : tunnel_options) : iptnl_info :=
  IptnlInfo (nth 0 (l_saddr o) 0) (nth 0 (l_daddr o) 0) (l_family o) (le_join (l_dmac o)).

(** [bpf_map_update_elem] with BPF_NOEXIST on a hash map of [cap] entries; [None] is an error. *)
Definition update_noexist `{Countable A} {B} (cap : Z) (k : A) (v : B) (m : gmap A B) : option (gmap A B) :=
  match m !! k with
  | Some _ => None
  | None => if Z.of_nat (size m) >=? cap then None else Some (<[k := v]> m)
  end.

(** The loop with [n] ports left: whether every update succeeds, and the table.
    @src xdp_progs/xdp_tx_iptunnel.c 320-328 main *)
Fixpoint add_vips (n : nat) (v : vip) (min_port : Z) (tnl : iptnl_info) (m : gmap vip iptnl_info)
  : bool * gmap vip iptnl_info :=
  match n with
  | O => (true, m)
  | S n =>
      let v := v <| v_dport := bswap16 (u16 min_port) |> in
      match update_noexist MAX_IPTNL_ENTRIES v tnl m with
      | None => (false, m)
      | Some m => add_vips n v (min_port + 1) tnl m
      end
  end.

(** ** Running *)

(** What the kernel and libbpf answer: whether the object opens and loads, the descriptors of
    the maps, the results of attaching and of the query, the id, and what is seen in each round
    of the statistics: the time when it starts and the counts of every protocol on every CPU. *)
Record kernel := Kernel {
  k_open : bool; k_load : Z; k_rxcnt : Z; k_vip2tnl : Z; k_attach : Z; k_info : Z; k_id : Z;
  k_started : Z; k_rounds : list (Z * list (list Z))
}.
Inductive event :=
  | Attach (ifindex flags : Z)
  | Stats (proto sum rate : Z)
  | Detach (ifindex flags : Z).

(** @src xdp_progs/xdp_tx_iptunnel.c 25 STATS_INTERVAL_S *)
Definition STATS_INTERVAL_S : Z := 2.

(** The packets of one protocol since the last round, over all CPUs.
    @src xdp_progs/xdp_tx_iptunnel.c 67-72 poll_stats *)
Fixpoint sum_cpus (sum : Z) (values prev : list Z) : Z :=
  match values, prev with
  | v :: values, p :: prev => sum_cpus (u64 (sum + (v - p))) values prev
  | _, _ => sum
  end.
(** One round: the protocols from [proto] on.
    @src xdp_progs/xdp_tx_iptunnel.c 66-78 poll_stats *)
Fixpoint poll_protos (proto : Z) (values prev : list (list Z)) : list event :=
  match values, prev with
  | v :: values, p :: prev =>
      let sum := sum_cpus 0 v p in
      (if nz sum then [Stats proto sum (sum / STATS_INTERVAL_S)] else [])
      ++ poll_protos (proto + 1) values prev
  | _, _ => []
  end.
(** The loop over the rounds that are observed.
    @src xdp_progs/xdp_tx_iptunnel.c 63-80 poll_stats *)
Fixpoint poll_stats_loop (kill_after_s started_at : Z) (prev : list (list Z))
  (rounds : list (Z * list (list Z))) : list event :=
  match rounds with
  | [] => []
  | (now, values) :: rounds =>
      if (kill_after_s =? 0) || (now - started_at <=? kill_after_s) then
        poll_protos 0 values prev ++ poll_stats_loop kill_after_s started_at values rounds
      else []
  end.
(** @src xdp_progs/xdp_tx_iptunnel.c 52-81 poll_stats *)
Definition poll_stats (nr_cpus : nat) (kill_after_s started_at : Z) (rounds : list (Z * list (list Z)))
  : list event :=
  poll_stats_loop kill_after_s started_at (replicate 256 (replicate nr_cpus 0)) rounds.

(** The exit code and whether the program is detached; [query] is the result of
    [bpf_xdp_query_id] and the id it finds.
    @src xdp_progs/xdp_tx_iptunnel.c 31-48 int_exit *)
Definition int_exit (ifindex xdp_flags prog_id : Z) (query : Z * Z) : Z * list event :=
  if ifindex >? -1 then
    let '(err, curr_prog_id) := query in
    if nz err then (1, [])
    else (0, if prog_id =? curr_prog_id then [Detach ifindex xdp_flags] else [])
  else (0, []).

(** The exit code, the table and what was done.
    @src xdp_progs/xdp_tx_iptunnel.c 162-346 main *)
Definition main `{Inet6} `{TunnelHost} (nr_cpus : nat) (k : kernel) (args : list (ascii * string))
  : Z * gmap vip iptnl_info * list event :=
  match parse_args args with
  | None => (1, ∅, [])
  | Some o =>
      if negb (k_open k) then (1, ∅, []) else
      if nz (k_load k) then (1, ∅, []) else
      if (k_vip2tnl k <? 0) || (k_rxcnt k <? 0) then (1, ∅, []) else
      match add_vips (Z.to_nat (max_port o - min_port o + 1)) (l_vip o) (min_port o) (tnl_of o) ∅ with
      | (false, m) => (1, m, [])
      | (true, m) =>
          let attach := Attach (ifindex o) (xdp_flags o) in
          if nz (k_info k) then (k_info k, m, [attach]) else
          (0, m, attach :: poll_stats nr_cpus (kill_after_s o) (k_started k) (k_rounds k)
                 ++ [Detach (ifindex o) (xdp_flags o)])
      end
  end.

(** ** What is accepted *)

Definition ports_ok (lo hi : Z) : Prop := 1 <= lo <= hi /\ hi <= 65535 /\ hi - lo + 1 <= MAX_IPTNL_ENTRIES.

Lemma parse_ports_ok s lo hi : parse_ports s = Some (lo, hi) -> ports_ok lo hi.
Proof.
  unfold parse_ports, ports_ok. destruct (strtol_end 10 s) as [a rest]. intros E.
  destruct ((a <? 1) || (a >? 65535)) eqn:Ea; [discriminate|]. apply orb_false_iff in Ea.
  apply bind_Some in E as (b & Hb & E).
  assert (1 <= b <= 65535).
  { destruct rest as [|c rest]; [injection Hb as <-; lia|].
    destruct (decide (c = "-"%char)) as [->|Hc].
    - destruct ((strtol 10 rest <? 1) || (strtol 10 rest >? 65535)) eqn:Eb; [discriminate|].
      apply orb_false_iff in Eb. injection Hb as <-. lia.
    - assert (Some a = Some b) as [= <-]; [|lia]. rewrite <- Hb.
      destruct c as [[] [] [] [] [] [] [] []]; try reflexivity. now contradiction Hc. }
  destruct (a >? b) eqn:Eab; [discriminate|]. destruct (_ >? MAX_IPTNL_ENTRIES) eqn:Ec; [discriminate|].
  injection E as <- <-. lia.
Qed.

Section accepted.
Context `{Inet6} `{TunnelHost}.

(** The ports are valid once [-p] has been given. *)
Definition ports_inv (o : tunnel_options) : Prop :=
  "p"%char ∈ opt_flags o \/ ports_ok (min_port o) (max_port o).

Lemma parse_option_ports o opt arg o' :
  parse_option o opt arg = Some o' ->
  (opt = "p"%char /\ ports_ok (min_port o') (max_port o')) \/
  (opt <> "p"%char /\ min_port o' = min_port o /\ max_port o' = max_port o /\ opt_flags o' = opt_flags o).
Proof.
  intros E. destruct (decide (opt = "p"%char)) as [->|Hp].
  - left. split; [done|]. cbn [parse_option] in E. apply bind_Some in E as ([lo hi] & Hr & E).
    injection E as <-. now apply parse_ports_ok in Hr.
  - right. split; [done|]. unfold parse_option, set_end in E.
    repeat match type of E with
    | match ?c with Ascii _ _ _ _ _ _ _ _ => _ end = _ => destruct c
    | (if ?b then _ else _) = _ => destruct b; cbn [negb] in E
    end; try discriminate E; try (contradiction Hp; reflexivity);
    repeat match type of E with
    | (_ ≫= _) = Some _ => apply bind_Some in E as ([? ?] & _ & E) || apply bind_Some in E as (? & _ & E)
    | Some (if ?b then _ else _) = Some _ => destruct b
    | (if ?b then _ else _) = _ => destruct b
    end; try discriminate E; injection E as <-; now cbn.
Qed.

Lemma parse_options_ports o args o' :
  ports_inv o -> parse_options o args = Some o' -> ports_inv o'.
Proof.
  revert o. induction args as [|[c a] args IH]; intros o Ho E; [now injection E as <-|].
  cbn [parse_options] in E. apply bind_Some in E as (o1 & E1 & E). apply IH in E; [done|].
  apply parse_option_ports in E1 as [[-> Hr]|(Hc & E2 & E3 & E4)]; [now right|].
  destruct Ho as [Ho|Ho]; [left|right].
  - cbn. rewrite E4. apply list_elem_of_filter. split; congruence.
  - cbn. now rewrite E2, E3.
Qed.

(** Whoever passes the checks has given a valid range of ports. *)
Lemma parse_args_ports args o : parse_args args = Some o -> ports_ok (min_port o) (max_port o).
Proof.
  unfold parse_args. intros E. apply bind_Some in E as (o1 & E1 & E).
  apply parse_options_ports in E1; [|left; set_solver].
  assert (opt_flags o1 = [] /\ min_port o = min_port o1 /\ max_port o = max_port o1) as (Ef & -> & ->).
  { destruct (nz _); cbn [opt_flags] in E; cbn in E; destruct (opt_flags o1); try discriminate E;
      destruct (_ =? 0); try discriminate E; injection E as <-; now cbn. }
  destruct E1 as [Hin|Hok]; [rewrite Ef in Hin; set_solver|done].
Qed.
End accepted.

(** ** The table *)

(** The key of port [q] of an address. *)
Definition port_key (v : vip) (q : Z) : vip := v <| v_dport := bswap16 q |>.

Lemma port_key_inj v q r : is_u16 q -> is_u16 r -> port_key v q = port_key v r -> q = r.
Proof. intros Hq Hr [= E]. apply (f_equal bswap16) in E. now rewrite !bswap16_involutive in E. Qed.
Lemma port_key_again v q r : port_key (port_key v q) r = port_key v r.
Proof. reflexivity. Qed.

Lemma add_vips_spec n v p tnl m :
  0 <= p -> p + Z.of_nat n <= 65536 ->
  (forall q, p <= q < p + Z.of_nat n -> m !! port_key v q = None) ->
  Z.of_nat (size m) + Z.of_nat n <= MAX_IPTNL_ENTRIES ->
  exists m', add_vips n v p tnl m = (true, m') /\
    (forall q, p <= q < p + Z.of_nat n -> m' !! port_key v q = Some tnl) /\
    (forall k, (forall q, p <= q < p + Z.of_nat n -> k <> port_key v q) -> m' !! k = m !! k).
Proof.
  revert v p m. induction n as [|n IH]; intros v p m H0 H1 Hnew Hsize.
  { exists m. split_and!; [done|lia|done]. }
  cbn [add_vips]. rewrite u16_id by (unfold is_u16; lia). fold (port_key v p).
  unfold update_noexist. rewrite Hnew by lia.
  destruct (Z.geb_spec (Z.of_nat (size m)) MAX_IPTNL_ENTRIES) as [E|E]; [lia|].
  destruct (IH (port_key v p) (p + 1) (<[port_key v p := tnl]> m)) as (m' & Hm & Hin & Hout); [lia|lia| | |].
  { intros q Hq. rewrite port_key_again, lookup_insert_ne; [apply Hnew; lia|].
    intros Hk. apply port_key_inj in Hk; unfold is_u16; lia. }
  { rewrite map_size_insert_None by (apply Hnew; lia). lia. }
  exists m'. split; [done|]. split.
  - intros q Hq. destruct (decide (q = p)) as [->|]; [|rewrite <- (port_key_again v p); apply Hin; lia].
    rewrite Hout; [apply lookup_insert_eq|]. intros r Hr Hk. rewrite port_key_again in Hk.
    apply port_key_inj in Hk; unfold is_u16; lia.
  - intros k Hk. rewrite Hout; [apply lookup_insert_ne; intros <-; eapply (Hk p); [lia|done]|].
    intros q Hq. rewrite port_key_again. apply Hk. lia.
Qed.

(** ** The deployed tunnel *)

(** The packets that the options describe: their address, protocol and port, when both ends of
    the tunnel and the address are IPv4. *)
Definition serves (o : tunnel_options) (iph l4 : list Z) : bool :=
  let protocol := nth 9 iph 0 in
  let port := bswap16 (dport_of protocol l4) in
  bool_decide (v_daddr (l_vip o) = [le_join (drop 16 iph); 0; 0; 0])
  && (v_family (l_vip o) =? AF_INET) && (l_family o =? AF_INET)
  && (protocol =? v_protocol (l_vip o)) && (min_port o <=? port) && (port <=? max_port o).

(** A filled table is consulted as the options say. *)
Lemma filled_lookup o iph l4 (m : gmap vip iptnl_info) :
  bytes_ok l4 ->
  (forall q, min_port o <= q <= max_port o -> m !! port_key (l_vip o) q = Some (tnl_of o)) ->
  (forall k, (forall q, min_port o <= q <= max_port o -> k <> port_key (l_vip o) q) -> m !! k = None) ->
  1 <= min_port o -> max_port o <= 65535 ->
  match m !! tnl_key iph l4 with
  | Some tnl => tnl = tnl_of o /\ serves o iph l4 = (l_family o =? AF_INET)
  | None => serves o iph l4 = false
  end.
Proof.
  intros Hb Hin Hout H1 H2. unfold tnl_key, serves.
  set (pr := nth 9 iph 0). pose proof (dport_of_range pr l4 Hb) as Hp.
  set (port := bswap16 (dport_of pr l4)). assert (Ep : dport_of pr l4 = bswap16 port).
  { unfold port. now rewrite bswap16_involutive. }
  assert (Hport : is_u16 port) by apply bswap16_range.
  rewrite Ep. clear Hp Ep. clearbody pr port. set (k := Vip _ _ _ _).
  destruct (decide (k = port_key (l_vip o) port /\ min_port o <= port <= max_port o)) as [[Ek Hr]|Hno].
  - rewrite Ek, Hin by done. split; [done|]. unfold port_key in Ek. destruct (l_vip o) as [a d f pp].
    unfold k in Ek. cbn [v_daddr v_family v_protocol eta eta_vip] in Ek |- *. injection Ek as <- <- <-. 
    rewrite bool_decide_true by done. rewrite !Z.eqb_refl. cbn [andb].
    rewrite (proj2 (Z.leb_le _ port)), (proj2 (Z.leb_le port _)) by lia. now rewrite !andb_true_r.
  - rewrite Hout.
    + apply not_true_iff_false. rewrite !andb_true_iff, bool_decide_eq_true, !Z.eqb_eq, !Z.leb_le.
      intros [[[[[Ha Hf] _] Hpr] Hlo] Hhi]. apply Hno. split; [|lia]. unfold k, port_key.
      destruct (l_vip o) as [a d f pp]. cbn in Ha, Hf, Hpr |- *. now subst.
    + intros q Hq Ek. apply Hno. assert (port = q) as ->; [|now split].
      apply (f_equal v_dport) in Ek. apply (f_equal bswap16) in Ek.
      change (v_dport k) with (bswap16 port) in Ek. change (v_dport (port_key (l_vip o) q)) with (bswap16 q) in Ek.
      rewrite !bswap16_involutive in Ek by (done || (unfold is_u16; lia)). done.
Qed.

Section deployed.
Context `{Inet6} `{TunnelHost} {HX : XdpHelpers} {HL : XdpHelperLaws HX}.

(** When the kernel accepts the program. *)
Definition accepts (k : kernel) : Prop :=
  k_open k = true /\ k_load k = 0 /\ 0 <= k_vip2tnl k /\ 0 <= k_rxcnt k /\ k_info k = 0.

(** The table is filled completely: the range of ports fits in it and no port is entered twice. *)
Lemma main_runs nr_cpus k args o :
  parse_args args = Some o -> accepts k ->
  exists m, main nr_cpus k args =
    (0, m, Attach (ifindex o) (xdp_flags o) ::
           poll_stats nr_cpus (kill_after_s o) (k_started k) (k_rounds k) ++ [Detach (ifindex o) (xdp_flags o)])
  /\ (forall q, min_port o <= q <= max_port o -> m !! port_key (l_vip o) q = Some (tnl_of o))
  /\ (forall key, (forall q, min_port o <= q <= max_port o -> key <> port_key (l_vip o) q) -> m !! key = None).
Proof.
  intros Ho (Hopen & Hload & Hv & Hr & Hinfo). pose proof (parse_args_ports args o Ho) as ([] & ? & ?).
  destruct (add_vips_spec (Z.to_nat (max_port o - min_port o + 1)) (l_vip o) (min_port o) (tnl_of o) ∅)
    as (m & Hm & Hin & Hout); [lia|lia|intros; apply lookup_empty|rewrite map_size_empty; lia|].
  exists m. split_and!.
  - unfold main. rewrite Ho, Hopen, Hload, Hinfo, Hm. change (nz 0) with false. cbn [negb].
    now rewrite (proj2 (Z.ltb_ge _ _) Hv), (proj2 (Z.ltb_ge _ _) Hr).
  - intros q Hq. apply Hin. lia.
  - intros key Hk. rewrite Hout, lookup_empty; [done|]. intros q Hq. apply Hk. lia.
Qed.

(** What the deployed tunnel makes of a packet, whatever it is. *)
Definition tunnel_answer (o : tunnel_options) (s : xst tnl_maps) : Z * xst tnl_maps :=
  let d := f_data (x_frame s) in
  let eth := take 14 d in
  let iph := take 20 (drop 14 d) in
  let l4 := drop 34 d in
  if zlen d <? 14 then (XDP_DROP, s)
  else if negb (bool_decide (drop 12 eth = [8; 0])) then (XDP_PASS, s)
  else if zlen d <? 34 then (XDP_DROP, s)
  else if cut_transport (nth 9 iph 0) l4 then (XDP_DROP, s)
  else if negb (serves o iph l4) then (XDP_PASS, s)
  else if (h_adjust_head (x_frame s) (-20)).1 =? 0 then (XDP_TX, encapsulated s (tnl_of o) eth iph l4)
  else (XDP_DROP, s).

(** The program on a filled table is that function. *)
Lemma filled_answer o (m : gmap vip iptnl_info) (s : xst tnl_maps) :
  (forall q, min_port o <= q <= max_port o -> m !! port_key (l_vip o) q = Some (tnl_of o)) ->
  (forall k, (forall q, min_port o <= q <= max_port o -> k <> port_key (l_vip o) q) -> m !! k = None) ->
  1 <= min_port o -> max_port o <= 65535 -> vip2tnl (x_env s) = m -> frame_ok (x_frame s) ->
  runs s xdp_tx_iptunnel (tunnel_answer o s).1 (tunnel_answer o s).2.
Proof.
  intros Hin Hout H1 H2 Es Hok. pose proof Hok as (_ & Hb & _). unfold tunnel_answer. cbv zeta.
  set (d := f_data (x_frame s)) in *. set (eth := take 14 d). set (iph := take 20 (drop 14 d)). set (l4 := drop 34 d).
  destruct (Z.ltb_spec (zlen d) 14) as [Hl|Hl]; [now apply tunnel_no_ethernet|].
  assert (He : length eth = 14%nat) by (unfold eth, zlen in *; rewrite length_take; lia).
  apply (tunnel_ethernet s eth (drop 14 d)); [fold d; unfold eth; now rewrite take_drop|exact He|now apply Forall_take|].
  destruct (decide (drop 12 eth = [8; 0])) as [Hp|Hp]; [rewrite bool_decide_true by done|now rewrite bool_decide_false by done].
  cbn [negb]. destruct (Z.ltb_spec (zlen d) 34) as [Hl4|Hl4]; [now apply tunnel_no_header|].
  assert (Hi : length iph = 20%nat) by (unfold iph, zlen in *; rewrite length_take, length_drop; lia).
  assert (Hd : d = eth ++ iph ++ l4).
  { unfold eth, iph, l4. change 34%nat with (14 + 20)%nat. rewrite <- drop_drop, take_drop. now rewrite take_drop. }
  destruct (cut_transport (nth 9 iph 0) l4) eqn:Hcut; [now apply (tunnel_cut_transport s eth iph l4)|].
  unfold cut_transport in Hcut. apply orb_false_iff in Hcut as [Ht Hu].
  assert (Htcp : nth 9 iph 0 = IPPROTO_TCP -> 20 <= zlen l4).
  { intros E. rewrite E in Ht. cbn [Z.eqb] in Ht. now apply Z.ltb_ge in Ht. }
  assert (Hudp : nth 9 iph 0 = IPPROTO_UDP -> 8 <= zlen l4).
  { intros E. rewrite E in Hu. cbn [Z.eqb] in Hu. now apply Z.ltb_ge in Hu. }
  pose proof (filled_lookup o iph l4 m ltac:(now apply Forall_drop) Hin Hout H1 H2) as Hf. rewrite <- Es in Hf.
  apply (tunnel_lookup_runs s eth iph l4); [done..|].
  destruct (vip2tnl (x_env s) !! tnl_key iph l4) as [tnl|]; [|rewrite Hf; apply runs_ret].
  destruct Hf as [-> Hs]. rewrite Hs. cbn [t_family tnl_of].
  destruct (l_family o =? AF_INET) eqn:Ef; cbn [negb]; [|apply runs_ret].
  destruct (Z.eqb_spec (h_adjust_head (x_frame s) (-20)).1 0) as [Hr|Hr]; [|now apply tunnel_no_room].
  apply add_header_runs; [exact Hd|exact He| |exact Hok|exact Hr].
  assert (Hbi : bytes_ok iph) by now apply Forall_take, Forall_drop.
  unfold bytes_ok in Hbi. rewrite Forall_nth in Hbi. apply Hbi. lia.
Qed.

(** C24: The tunnel from the command line to the packet.  When the options pass the checks and
    the kernel accepts the program, [main] fills the table without an error, attaches the
    program, reports and detaches it.  With that table the program does this with any packet:
    it drops a packet of less than an Ethernet header, lets what is not IPv4 pass, drops IPv4
    packets of less than 34 bytes and those that say TCP or UDP and have less than 20 or 8
    bytes behind the first 20 of the IP header; it encapsulates the packets for the address,
    the protocol and a port of the given range, between the given ends of the tunnel, or
    drops them as they are when the kernel grants no room for the outer header; and it lets
    every other IPv4 packet pass unchanged.  The port is read 22 bytes behind the Ethernet
    header, so for a packet with IP options, and for a fragment, it is whatever stands there.
    The outer checksum is [one_fold_check], which is wrong when the fold carries (a defect). *)
Theorem tunnel_deployed nr_cpus k args o :
  parse_args args = Some o -> accepts k ->
  exists m, main nr_cpus k args =
    (0, m, Attach (ifindex o) (xdp_flags o) ::
           poll_stats nr_cpus (kill_after_s o) (k_started k) (k_rounds k) ++ [Detach (ifindex o) (xdp_flags o)])
  /\ forall s : xst tnl_maps, vip2tnl (x_env s) = m -> frame_ok (x_frame s) ->
     runs s xdp_tx_iptunnel (tunnel_answer o s).1 (tunnel_answer o s).2.
Proof.
  intros Ho Hk. pose proof (parse_args_ports args o Ho) as (? & ? & _).
  destruct (main_runs nr_cpus k args o Ho Hk) as (m & Hm & Hin & Hout). exists m. split; [exact Hm|].
  intros s Es Hok. apply (filled_answer o m); (done || lia).
Qed.
End deployed.

(** A protocol without ports cannot be served: the port of its packets is 0, and no range
    contains it. *)
Lemma only_tcp_and_udp `{Inet6} `{TunnelHost} args o iph l4 :
  parse_args args = Some o -> bytes_ok l4 -> serves o iph l4 = true ->
  nth 9 iph 0 = IPPROTO_TCP \/ nth 9 iph 0 = IPPROTO_UDP.
Proof.
  intros Ho Hb Hs. pose proof (parse_args_ports args o Ho) as (? & _).
  unfold serves, dport_of in Hs.
  destruct (Z.eqb_spec (nth 9 iph 0) IPPROTO_TCP); [now left|].
  destruct (Z.eqb_spec (nth 9 iph 0) IPPROTO_UDP); [now right|]. exfalso.
  cbn [orb] in Hs. change (bswap16 0) with 0 in Hs. rewrite !andb_true_iff, !Z.leb_le in Hs. lia.
Qed.

(** ** The statistics *)

Fixpoint zsum (l : list Z) : Z := match l with [] => 0 | x :: l => x + zsum l end.
Lemma sum_cpus_mod acc values prev :
  length values = length prev -> is_u64 acc -> sum_cpus acc values prev = u64 (acc + zsum values - zsum prev).
Proof.
  revert acc prev. induction values as [|v values IH]; intros acc [|p prev] Hl Ha; try discriminate Hl.
  - cbn. unfold is_u64 in Ha. unfold u64. rewrite Z.mod_small; lia.
  - cbn [sum_cpus zsum]. rewrite IH; [|now injection Hl|apply u64_range].
    unfold u64. rewrite <- Zminus_mod_idemp_l, Zplus_mod_idemp_l, Zminus_mod_idemp_l. f_equal. lia.
Qed.

Lemma zsum_zeros n : zsum (replicate n 0) = 0.
Proof. induction n; cbn; lia. Qed.

(** The packets of protocol [p] that the reports add up to. *)
Fixpoint reported (p : Z) (evs : list event) : Z :=
  match evs with
  | [] => 0
  | Stats q sum _ :: evs => (if q =? p then sum else 0) + reported p evs
  | _ :: evs => reported p evs
  end.
Lemma reported_app p a b : reported p (a ++ b) = reported p a + reported p b.
Proof. induction a as [|[] a IH]; cbn [app reported]; lia. Qed.
Lemma poll_protos_before p q values prev : p < q -> reported p (poll_protos q values prev) = 0.
Proof.
  revert q prev. induction values as [|v values IH]; intros q [|w prev] Hq; try done.
  cbn [poll_protos]. rewrite reported_app, IH by lia. destruct (nz _); [|done].
  cbn [reported]. destruct (Z.eqb_spec q p); lia.
Qed.
Lemma poll_protos_reports (i : nat) q values prev v w :
  values !! i = Some v -> prev !! i = Some w ->
  reported (q + Z.of_nat i) (poll_protos q values prev) = sum_cpus 0 v w.
Proof.
  revert q values prev. induction i as [|i IH]; intros q [|v0 values] [|w0 prev] Hv Hw; try discriminate.
  - injection Hv as ->. injection Hw as ->. cbn [poll_protos]. rewrite reported_app, poll_protos_before by lia.
    unfold nz. destruct (Z.eqb_spec (sum_cpus 0 v w) 0) as [->|]; [done|].
    cbn [negb reported]. destruct (Z.eqb_spec q (q + Z.of_nat 0)); lia.
  - cbn [lookup list_lookup] in Hv, Hw. cbn [poll_protos]. rewrite reported_app.
    replace (q + Z.of_nat (S i)) with (q + 1 + Z.of_nat i) by lia. erewrite IH by eassumption.
    destruct (nz _); cbn [reported]; [destruct (Z.eqb_spec q (q + 1 + Z.of_nat i)); lia|lia].
Qed.

(** The counts of a round: a row for every protocol, a column for every CPU. *)
Definition counts_ok (nr_cpus : nat) (values : list (list Z)) : Prop :=
  length values = 256%nat /\ Forall (fun v => length v = nr_cpus) values.

Lemma poll_loop_total nr_cpus kill started prev rounds (i : nat) last w :
  counts_ok nr_cpus prev -> Forall (fun r => counts_ok nr_cpus r.2) rounds ->
  Forall (fun r => kill = 0 \/ r.1 - started <= kill) rounds -> (i < 256)%nat ->
  prev !! i = Some w -> List.last (map snd rounds) prev !! i = Some last ->
  u64 (reported (Z.of_nat i) (poll_stats_loop kill started prev rounds)) = u64 (zsum last - zsum w).
Proof.
  intros Hp Hr Ht Hi. revert prev w Hp. induction Hr as [|[now values] rounds Hv Hr IH]; intros prev w Hp Hw Hl.
  - cbn in Hl |- *. rewrite Hw in Hl. injection Hl as ->. now rewrite Z.sub_diag.
  - apply Forall_cons in Ht as [Hnow Ht]. cbn [fst snd] in Hnow, Hv.
    destruct (lookup_lt_is_Some_2 values i) as [v Ev]; [destruct Hv as [-> _]; done|].
    cbn [poll_stats_loop]. replace ((kill =? 0) || (now - started <=? kill)) with true
      by (symmetry; apply orb_true_iff; rewrite Z.eqb_eq, Z.leb_le; tauto).
    rewrite reported_app. pose proof (poll_protos_reports i 0 values prev v w Ev Hw) as Hrep.
    rewrite Z.add_0_l in Hrep. rewrite Hrep. clear Hrep.
    assert (Hl' : List.last (map snd rounds) values !! i = Some last).
    { destruct rounds as [|r rounds]; [exact Hl|]. rewrite <- Hl. cbn [map]. f_equal.
      clear. cbn [snd]. revert r. induction rounds as [|r' rounds IH]; intros r; [done|]. cbn [map List.last]. apply IH. }
    specialize (IH Ht values v Hv Ev Hl').
    assert (length v = length w) as Hlen.
    { destruct Hv as [_ Hv], Hp as [_ Hp]. rewrite Forall_lookup in Hv, Hp.
      now rewrite (Hv _ _ Ev), (Hp _ _ Hw). }
    rewrite sum_cpus_mod by (done || split; reflexivity || lia).
    unfold u64 in *. rewrite Zplus_mod_idemp_l, <- Zplus_mod_idemp_r, IH, Zplus_mod_idemp_r. f_equal. lia.
Qed.

(** The reports lose no packet and count none twice: over all rounds they add up to the counts
    that were read last, modulo 2^64. *)
Lemma poll_stats_total nr_cpus kill started rounds (i : nat) last :
  Forall (fun r => counts_ok nr_cpus r.2) rounds ->
  Forall (fun r => kill = 0 \/ r.1 - started <= kill) rounds -> rounds <> [] -> (i < 256)%nat ->
  List.last (map snd rounds) [] !! i = Some last ->
  u64 (reported (Z.of_nat i) (poll_stats nr_cpus kill started rounds)) = u64 (zsum last).
Proof.
  intros Hr Ht Hne Hi Hl. unfold poll_stats.
  erewrite (poll_loop_total nr_cpus _ _ _ _ _ last (replicate nr_cpus 0)); [|split|done|done|done| |].
  - f_equal. rewrite zsum_zeros. lia.
  - apply length_replicate.
  - apply Forall_replicate, length_replicate.
  - now apply lookup_replicate.
  - rewrite <- Hl. f_equal. destruct rounds as [|r rounds]; [done|]. clear. cbn [map].
    generalize (snd r). induction rounds as [|r' rounds IH]; intros x; [done|]. cbn [map List.last]. apply IH.
Qed.
