(* ===== verification/BpfStandalone.v ===== *)
(** * The object loader of the firewall's tool (xdpfwadm/bpf_standalone.c)

    [bpf_load_from_file] reads an ELF object: it creates the maps that the section [maps]
    describes, writes their descriptors into the instructions that the relocations name, and
    loads the programs.  libelf is a class, the kernel answers every system call from the calls
    so far.  [None] is a fault: an access outside a buffer, a division by zero, a null pointer or
    a failed assertion.

    The theorems: for an object whose numbers are in bounds the loader ends without a fault;
    every program that the kernel is given comes from a section of the file whose name begins
    with xdp and differs from it in map references only; the relocations write the descriptor
    of the map that each names. *)
From Stdlib Require Import ZArith Lia String.
From stdpp Require Import base numbers list option sorting.
From S2P Require Import Prelude Xdp.
#[local] Open Scope Z_scope.
#[local] Open Scope list_scope.

(** ** Data *)

(** @src xdp_progs/xdp-firewall/xdpfwadm/bpf_standalone.h 38-39 MAX_MAPS *)
Definition MAX_MAPS : Z := 32.
Definition MAX_PROGS : Z := 32.
Definition EINVAL : Z := 22.
Definition EFBIG : Z := 27.
Definition BPF_F_NUMA_NODE : Z := 4.
Definition BPF_MAP_TYPE_PROG_ARRAY : Z := 3.
Definition BPF_MAP_TYPE_ARRAY_OF_MAPS : Z := 12.
Definition BPF_MAP_TYPE_HASH_OF_MAPS : Z := 13.
Definition SHT_PROGBITS : Z := 1.
Definition SHT_SYMTAB : Z := 2.
Definition SHT_REL : Z := 9.
Definition SHF_EXECINSTR : Z := 4.
(** [BPF_LD | BPF_IMM | BPF_DW], and the mark of a map descriptor in the source register. *)
Definition LD_IMM_DW : Z := 0x18.
Definition BPF_PSEUDO_MAP_FD : Z := 1.

(** @src xdp_progs/xdp-firewall/xdpfwadm/bpf_standalone.h 67-75 bpf_load_map_def *)
Record map_def := MapDef {
  type : Z; key_size : Z; value_size : Z; max_entries : Z; map_flags : Z; inner_map_idx : Z; numa_node : Z
}.
(** The structure whose bytes are [bs]; bytes that are missing are zero. *)
Definition map_def_of (bs : list Z) : map_def :=
  let word i := le_join (take 4 (drop (4 * i) bs)) in
  MapDef (word 0%nat) (word 1%nat) (word 2%nat) (word 3%nat) (word 4%nat) (word 5%nat) (word 6%nat).
Definition sizeof_map_def : Z := 28.

(** @src xdp_progs/xdp-firewall/xdpfwadm/bpf_standalone.h 77-82 bpf_map_data *)
Record map_data := MapData { fd : Z; name : string; elf_offset : Z; def : map_def }.
#[global] Instance eta_map_data : Eta map_data := fun m => MapData (fd m) (name m) (elf_offset m) (def m).

(** A section as [get_sec] finds it. *)
Record section := ElfSection {
  sh_name : string; sh_type : Z; sh_flags : Z; sh_link : Z; sh_info : Z; sh_size : Z; sh_entsize : Z;
  d_buf : list Z
}.
#[global] Instance eta_section : Eta section := fun s =>
  ElfSection (sh_name s) (sh_type s) (sh_flags s) (sh_link s) (sh_info s) (sh_size s) (sh_entsize s) (d_buf s).
(** The sections, [None] where libelf does not find one, and the strings of the string tables. *)
Record object := Object { sections : list (option section); elf_strptr : Z -> Z -> option string }.

(** How libelf reads symbols and relocations; [None] is a null pointer. *)
Record sym := Sym { st_name : Z; st_shndx : Z; st_value : Z }.
Record rel := Rel { r_offset : Z; r_sym : Z }.
Class Libelf := {
  gelf_getsym : list Z -> Z -> option sym;
  gelf_getrel : list Z -> Z -> option rel
}.
Definition sizeof_sym : Z := 24.
Definition sizeof_insn : Z := 8.

(** The attributes of [bpf_create_map_xattr].
    @src xdp_progs/xdp-firewall/xdpfwadm/bpf_standalone.h 41-54 bpf_create_map_attr *)
Record map_attr := MapAttr {
  a_type : Z; a_name : string; a_key_size : Z; a_value_size : Z; a_max_entries : Z; a_flags : Z;
  a_inner_map_fd : Z; a_numa_node : Z
}.
(** The calls of [sys_bpf]; of a program, the bytes of its [insn_cnt] instructions. *)
Inductive sys :=
  | MapCreate (attr : map_attr)
  | ProgLoad (insns license : list Z) (kern_version log_level : Z).

(** The variables of the file; [prog_fd] has the entries below [prog_cnt].
    @src xdp_progs/xdp-firewall/xdpfwadm/bpf_standalone.c 78-89 license *)
Record loader := Loader {
  license : list Z; kern_version : Z; processed_sec : list bool; map_fd : list Z; prog_fd : list Z;
  prog_array_fd : Z; maps : list map_data; map_data_count : Z; calls : list sys
}.
#[global] Instance eta_loader : Eta loader := fun g =>
  Loader (license g) (kern_version g) (processed_sec g) (map_fd g) (prog_fd g) (prog_array_fd g) (maps g)
    (map_data_count g) (calls g).
Definition no_def : map_def := MapDef 0 0 0 0 0 0 0.
Definition loader_init : loader :=
  Loader (replicate 128 0) 0 (replicate 128 false) (replicate 32 0) [] (-1)
    (replicate 32 (MapData 0 EmptyString 0 no_def)) 0 [].

(** An element of an array; outside it there is a fault. *)
Definition get {A} (l : list A) (i : Z) : option A := if i <? 0 then None else l !! Z.to_nat i.
Definition put {A} (l : list A) (i : Z) (x : A) : option (list A) :=
  if (i <? 0) || (Z.of_nat (length l) <=? i) then None else Some (<[Z.to_nat i := x]> l).

Section bpf_standalone.
Context `{Libelf} (kernel : list sys -> Z).

Definition sys_bpf (c : sys) (g : loader) : Z * loader :=
  let cs := calls g ++ [c] in (kernel cs, g <| calls := cs |>).

(** ** Maps *)

(** The name is cut to [BPF_OBJ_NAME_LEN - 1] characters.
    @src xdp_progs/xdp-firewall/xdpfwadm/bpf_standalone.c 143-191 bpf_create_map_node *)
Definition bpf_create_map_node (type : Z) (name : string) (key_size value_size max_entries map_flags node : Z)
  : loader -> Z * loader :=
  sys_bpf (MapCreate (MapAttr type (substring 0 15 name) key_size value_size max_entries
    (if node >=? 0 then Z.lor map_flags BPF_F_NUMA_NODE else map_flags) 0 (if node >=? 0 then node else 0))).
(** @src xdp_progs/xdp-firewall/xdpfwadm/bpf_standalone.c 225-248 bpf_create_map_in_map_node *)
Definition bpf_create_map_in_map_node (type : Z) (name : string) (key_size inner_map_fd max_entries map_flags node : Z)
  : loader -> Z * loader :=
  sys_bpf (MapCreate (MapAttr type (substring 0 15 name) key_size 4 max_entries
    (if node >=? 0 then Z.lor map_flags BPF_F_NUMA_NODE else map_flags) (u32 inner_map_fd)
    (if node >=? 0 then node else 0))).

(** The map that [load_maps] creates.
    @src xdp_progs/xdp-firewall/xdpfwadm/bpf_standalone.c 631-656 load_maps *)
Definition create_map (m : map_data) (g : loader) : option (Z * loader) :=
  let d := def m in
  let node := if nz (Z.land (map_flags d) BPF_F_NUMA_NODE) then s32 (numa_node d) else -1 in
  if (type d =? BPF_MAP_TYPE_ARRAY_OF_MAPS) || (type d =? BPF_MAP_TYPE_HASH_OF_MAPS) then
    inner_map_fd ← get (map_fd g) (inner_map_idx d);
    Some (bpf_create_map_in_map_node (type d) (name m) (key_size d) inner_map_fd (max_entries d) (map_flags d) node g)
  else
    Some (bpf_create_map_node (type d) (name m) (key_size d) (value_size d) (max_entries d) (map_flags d) node g).

(** The loop with [n] maps left; [fixup_map] is the descriptor that the callback leaves.
    @src xdp_progs/xdp-firewall/xdpfwadm/bpf_standalone.c 615-669 load_maps *)
Fixpoint load_maps (fixup_map : option (Z -> map_data -> Z)) (n : nat) (i : Z) (g : loader) : option (Z * loader) :=
  match n with
  | O => Some (0, g)
  | S n =>
      m ← get (maps g) i;
      let m := match fixup_map with Some fixup => m <| fd := fixup i m |> | None => m end in
      ms ← put (maps g) i m;
      let g := g <| maps := ms |> in
      if bool_decide (is_Some fixup_map) && negb (fd m =? -1) then
        fds ← put (map_fd g) i (fd m);
        load_maps fixup_map n (i + 1) (g <| map_fd := fds |>)
      else
        '(new_fd, g) ← create_map m g;
        fds ← put (map_fd g) i new_fd;
        let g := g <| map_fd := fds |> in
        if new_fd <? 0 then Some (-1, g) else
        ms ← put (maps g) i (m <| fd := new_fd |>);
        let g := g <| maps := ms |> in
        load_maps fixup_map n (i + 1)
          (if type (def m) =? BPF_MAP_TYPE_PROG_ARRAY then g <| prog_array_fd := new_fd |> else g)
  end.

(** ** The section of the maps *)

(** The symbols of the section, [n] entries of the table are left.
    @src xdp_progs/xdp-firewall/xdpfwadm/bpf_standalone.c 785-793 load_elf_maps_section *)
Fixpoint maps_symbols (maps_shndx : Z) (symbols : list Z) (n : nat) (i : Z) (found : list sym) : option (list sym) :=
  match n with
  | O => Some found
  | S n =>
      if Z.of_nat (length found) >=? MAX_MAPS + 1 then None else
      match gelf_getsym symbols i with
      | None => maps_symbols maps_shndx symbols n (i + 1) found
      | Some s =>
          maps_symbols maps_shndx symbols n (i + 1) (if st_shndx s =? maps_shndx then found ++ [s] else found)
      end
  end.

(** @src xdp_progs/xdp-firewall/xdpfwadm/bpf_standalone.c 743-755 cmp_symbols *)
Definition cmp_symbols (l r : sym) : Z :=
  if st_value l <? st_value r then -1 else if st_value l >? st_value r then 1 else 0.
Definition not_above (l r : sym) : Prop := cmp_symbols l r <= 0.
#[export] Instance not_above_dec l r : Decision (not_above l r).
Proof. apply Z.le_dec. Defined.

(** The loop over the sorted symbols.  The result is an error or 0, and [maps].
    @src xdp_progs/xdp-firewall/xdpfwadm/bpf_standalone.c 826-862 load_elf_maps_section *)
Fixpoint read_maps (elf : object) (strtabidx : Z) (data_maps : list Z) (map_sz_elf : Z) (syms : list sym) (i : Z)
  (ms : list map_data) : option (Z * list map_data) :=
  match syms with
  | [] => Some (0, ms)
  | s :: syms =>
      map_name ← elf_strptr elf strtabidx (st_name s);
      m ← get ms i;
      let offset := st_value s in
      def ← slice offset (Z.to_nat (Z.min map_sz_elf sizeof_map_def)) data_maps;
      ms ← put ms i (MapData (fd m) map_name offset (map_def_of def));
      more ← slice (offset + Z.min map_sz_elf sizeof_map_def) (Z.to_nat (map_sz_elf - sizeof_map_def)) data_maps;
      if forallb (Z.eqb 0) more then read_maps elf strtabidx data_maps map_sz_elf syms (i + 1) ms
      else Some (- EFBIG, ms)
  end.

(** [qsort] is a sort of the symbols; the result is their number or an error.  Without symbols
    there is a division by zero.
    @src xdp_progs/xdp-firewall/xdpfwadm/bpf_standalone.c 757-866 load_elf_maps_section *)
Definition load_elf_maps_section (elf : object) (maps_shndx : Z) (symbols : list Z) (strtabidx : Z)
  (ms : list map_data) : option (Z * list map_data) :=
  if maps_shndx <? 0 then Some (- EINVAL, ms) else
  match sections elf !! Z.to_nat maps_shndx with
  | None | Some None => Some (- EINVAL, ms)
  | Some (Some s) =>
      syms ← maps_symbols maps_shndx symbols (Z.to_nat (zlen symbols / sizeof_sym)) 0 [];
      let nr_maps := Z.of_nat (length syms) in
      if nr_maps =? 0 then None else
      let map_sz_elf := s32 (zlen (d_buf s) / nr_maps) in
      if map_sz_elf <? 0 then None else
      '(err, ms) ← read_maps elf strtabidx (d_buf s) map_sz_elf (merge_sort not_above syms) 0 ms;
      Some (if err <? 0 then err else nr_maps, ms)
  end.

(** ** Relocations *)

(** The first of the [nr_maps] maps at an offset.
    @src xdp_progs/xdp-firewall/xdpfwadm/bpf_standalone.c 724-729 parse_relo_and_apply *)
Definition find_map (ms : list map_data) (nr_maps : Z) (st_value : Z) : option map_data :=
  snd <$> list_find (fun m => elf_offset m = st_value) (take (Z.to_nat nr_maps) ms).

(** One relocation; the result is whether it is valid, and the instructions.
    @src xdp_progs/xdp-firewall/xdpfwadm/bpf_standalone.c 704-738 parse_relo_and_apply *)
Definition apply_relo (data symbols : list Z) (ms : list map_data) (nr_maps i : Z) (insn : list Z)
  : option (bool * list Z) :=
  r ← gelf_getrel data i;
  let insn_idx := u32 (r_offset r / sizeof_insn) in
  s ← gelf_getsym symbols (r_sym r);
  code ← slice (sizeof_insn * insn_idx) 1 insn;
  if negb (le_join code =? LD_IMM_DW) then Some (false, insn) else
  regs ← slice (sizeof_insn * insn_idx + 1) 1 insn;
  insn ← splice (sizeof_insn * insn_idx + 1) [Z.lor (Z.land (le_join regs) 0x0f) (Z.shiftl BPF_PSEUDO_MAP_FD 4)] insn;
  match find_map ms nr_maps (st_value s) with
  | Some m => insn ← splice (sizeof_insn * insn_idx + 4) (le_split 4 (fd m)) insn; Some (true, insn)
  | None => Some (false, insn)
  end.

(** The loop with [n] relocations left.
    @src xdp_progs/xdp-firewall/xdpfwadm/bpf_standalone.c 695-741 parse_relo_and_apply *)
Fixpoint apply_relos (data symbols : list Z) (ms : list map_data) (nr_maps : Z) (n : nat) (i : Z) (insn : list Z)
  : option (Z * list Z) :=
  match n with
  | O => Some (0, insn)
  | S n =>
      '(valid, insn) ← apply_relo data symbols ms nr_maps i insn;
      if valid : bool then apply_relos data symbols ms nr_maps n (i + 1) insn else Some (-1, insn)
  end.
(** @src xdp_progs/xdp-firewall/xdpfwadm/bpf_standalone.c 695-702 parse_relo_and_apply *)
Definition parse_relo_and_apply (shdr : section) (symbols insn : list Z) (ms : list map_data) (nr_maps : Z)
  : option (Z * list Z) :=
  if sh_entsize shdr =? 0 then None else
  apply_relos (d_buf shdr) symbols ms nr_maps (Z.to_nat (s32 (sh_size shdr / sh_entsize shdr))) 0 insn.

(** ** Programs *)

(** A second attempt asks for the log of the verifier.
    @src xdp_progs/xdp-firewall/xdpfwadm/bpf_standalone.c 261-317 bpf_load_program_xattr *)
Definition bpf_load_program (insns : list Z) (insns_cnt : Z) (g : loader) : Z * loader :=
  let insns := take (Z.to_nat (sizeof_insn * u32 insns_cnt)) insns in
  let '(new_fd, g) := sys_bpf (ProgLoad insns (license g) (kern_version g) 0) g in
  if new_fd >=? 0 then (new_fd, g)
  else sys_bpf (ProgLoad insns (license g) (kern_version g) 1) g.

(** @src xdp_progs/xdp-firewall/xdpfwadm/bpf_standalone.c 585-613 load_and_attach *)
Definition load_and_attach (event : string) (prog : list Z) (g : loader) : Z * loader :=
  if Z.of_nat (length (prog_fd g)) =? MAX_PROGS then (-1, g)
  else if negb (String.prefix "xdp" event) then (-1, g) else
  let '(new_fd, g) := bpf_load_program prog (u64 (s32 (zlen prog)) / sizeof_insn) g in
  if new_fd <? 0 then (-1, g) else (0, g <| prog_fd := prog_fd g ++ [new_fd] |>).

(** ** The file *)

(** @src xdp_progs/xdp-firewall/xdpfwadm/bpf_standalone.c 671-693 get_sec *)
Definition get_sec (secs : list (option section)) (i : Z) : option section :=
  if i <? 0 then None else
  match secs !! Z.to_nat i with
  | Some (Some s) => if sh_size s =? 0 then None else Some s
  | _ => None
  end.

(** [maps_shndx], [data_maps], [strtabidx] and [symbols]. *)
Record scan := Scan { maps_shndx : Z; data_maps : option (list Z); strtabidx : Z; symbols : option (list Z) }.
#[global] Instance eta_scan : Eta scan := fun s => Scan (maps_shndx s) (data_maps s) (strtabidx s) (symbols s).

(** One turn of the first loop; [inl] is an early return.
    @src xdp_progs/xdp-firewall/xdpfwadm/bpf_standalone.c 899-931 bpf_load_from_file *)
Definition scan_section (i : Z) (s : section) (sc : scan) (g : loader) : option (Z + scan * loader) :=
  if String.eqb (sh_name s) "license" then
    done ← put (processed_sec g) i true;
    if 128 <? zlen (d_buf s) then None else
    let g := g <| processed_sec := done |> in
    Some (inr (sc, g <| license := d_buf s ++ drop (length (d_buf s)) (license g) |>) : Z + scan * loader)
  else if String.eqb (sh_name s) "version" then
    done ← put (processed_sec g) i true;
    let g := g <| processed_sec := done |> in
    if negb (zlen (d_buf s) =? 4) then Some (inl (-1) : Z + scan * loader) else
    Some (inr (sc, g <| kern_version := s32 (le_join (d_buf s)) |>))
  else if String.eqb (sh_name s) "maps" then
    let sc := sc <| maps_shndx := i |> in
    Some (inr (sc <| data_maps := Some (d_buf s) |>,
               g <| maps := map (fun m : map_data => m <| fd := -1 |>) (maps g) |>))
  else if sh_type s =? SHT_SYMTAB then
    let sc := sc <| strtabidx := sh_link s |> in
    Some (inr (sc <| symbols := Some (d_buf s) |>, g))
  else Some (inr (sc, g)).
(** The first loop, [n] sections are left.
    @src xdp_progs/xdp-firewall/xdpfwadm/bpf_standalone.c 898-931 bpf_load_from_file *)
Fixpoint scan_sections (secs : list (option section)) (n : nat) (i : Z) (sc : scan) (g : loader)
  : option (Z + scan * loader) :=
  match n with
  | O => Some (inr (sc, g))
  | S n =>
      match get_sec secs i with
      | None => scan_sections secs n (i + 1) sc g
      | Some s =>
          r ← scan_section i s sc g;
          match r with
          | inl ret => Some (inl ret)
          | inr (sc, g) => scan_sections secs n (i + 1) sc g
          end
      end
  end.

(** The second loop: the instructions are rewritten in the buffers of libelf.  An error of the
    relocation is ignored.
    @src xdp_progs/xdp-firewall/xdpfwadm/bpf_standalone.c 956-982 bpf_load_from_file *)
Fixpoint relocate_sections (symbols : list Z) (nr_maps : Z) (n : nat) (i : Z) (secs : list (option section))
  (g : loader) : option (list (option section) * loader) :=
  match n with
  | O => Some (secs, g)
  | S n =>
      done ← get (processed_sec g) i;
      match (if done : bool then None else get_sec secs i) with
      | None => relocate_sections symbols nr_maps n (i + 1) secs g
      | Some s =>
          if negb (sh_type s =? SHT_REL) then relocate_sections symbols nr_maps n (i + 1) secs g else
          match get_sec secs (sh_info s) with
          | None => relocate_sections symbols nr_maps n (i + 1) secs g
          | Some prog =>
              if negb (sh_type prog =? SHT_PROGBITS) || negb (nz (Z.land (sh_flags prog) SHF_EXECINSTR)) then
                relocate_sections symbols nr_maps n (i + 1) secs g
              else
                done ← put (processed_sec g) i true;
                '(_, insns) ← parse_relo_and_apply s symbols (d_buf prog) (maps g) nr_maps;
                relocate_sections symbols nr_maps n (i + 1)
                  (<[Z.to_nat (sh_info s) := Some (prog <| d_buf := insns |>)]> secs) (g <| processed_sec := done |>)
          end
      end
  end.

(** The third loop.  The comparison of the name is that of its first three bytes.
    @src xdp_progs/xdp-firewall/xdpfwadm/bpf_standalone.c 985-999 bpf_load_from_file *)
Fixpoint load_programs (secs : list (option section)) (n : nat) (i : Z) (ret : Z) (g : loader) : option (Z * loader) :=
  match n with
  | O => Some (ret, g)
  | S n =>
      done ← get (processed_sec g) i;
      match (if done : bool then None else get_sec secs i) with
      | None => load_programs secs n (i + 1) ret g
      | Some s =>
          if negb (String.prefix "xdp" (sh_name s)) then load_programs secs n (i + 1) ret g else
          let '(ret, g) := load_and_attach (sh_name s) (d_buf s) g in
          if ret <? 0 then Some (ret, g) else load_programs secs n (i + 1) ret g
      end
  end.

(** The second half, after the maps.
    @src xdp_progs/xdp-firewall/xdpfwadm/bpf_standalone.c 955-1003 bpf_load_from_file *)
Definition load_code (elf : object) (symbols : list Z) (nr_maps : Z) (g : loader) : option (Z * loader) :=
  let n := (length (sections elf) - 1)%nat in
  '(secs, g) ← relocate_sections symbols nr_maps n 1 (sections elf) g;
  load_programs secs n 1 (-1) g.

(** [file] is what opening and [elf_begin] give.
    @src xdp_progs/xdp-firewall/xdpfwadm/bpf_standalone.c 868-1004 bpf_load_from_file *)
Definition bpf_load_from_file (file : option object) (fixup_map : option (Z -> map_data -> Z)) (g : loader)
  : option (Z * loader) :=
  let g := g <| kern_version := 0 |> in
  let g := g <| license := replicate 128 0 |> in
  let g := g <| processed_sec := replicate 128 false |> in
  match file with
  | None => Some (-1, g)
  | Some elf =>
      r ← scan_sections (sections elf) (length (sections elf) - 1) 1 (Scan (-1) None (-1) None) g;
      match (r : Z + scan * loader) with
      | inl ret => Some (ret, g)
      | inr (sc, g) =>
          match symbols sc, data_maps sc with
          | None, _ => Some (-1, g)
          | Some syms, None => load_code elf syms 0 g
          | Some syms, Some _ =>
              '((nr_maps, ms) : Z * list map_data) ← load_elf_maps_section elf (maps_shndx sc) syms (strtabidx sc) (maps g);
              let g := g <| maps := ms |> in
              if nr_maps <? 0 then Some (-1, g) else
              '((err, g) : Z * loader) ← load_maps fixup_map (Z.to_nat nr_maps) 0 g;
              if err <? 0 then Some (-1, g) else
              done ← put (processed_sec g) (maps_shndx sc) true;
              let g := g <| map_data_count := nr_maps |> in
              load_code elf syms nr_maps (g <| processed_sec := done |>)
          end
      end
  end.
End bpf_standalone.

(** ** Patched code *)

(** The source register that marks a map descriptor. *)
Definition mark (b : Z) : Z := Z.lor (Z.land b 0x0f) 16.
Lemma mark_mark b : mark (mark b) = mark b.
Proof. unfold mark. now rewrite Z.land_lor_distr_l, <- Z.land_assoc, Z.lor_0_r. Qed.

(** The second code differs from the first in the source register and the immediate of
    instructions that load 64 bits. *)
Definition may_differ (code : list Z) (j : nat) (b b' : Z) : Prop :=
  code !! (8 * (j / 8))%nat = Some LD_IMM_DW /\ ((j mod 8 = 1)%nat /\ b' = mark b \/ (4 <= j mod 8)%nat).
Definition patched (code code' : list Z) : Prop :=
  length code' = length code /\
  forall j b b', code !! j = Some b -> code' !! j = Some b' -> b' = b \/ may_differ code j b b'.

Lemma patched_refl code : patched code code.
Proof. split; [done|]. intros j b b' E E'. left. congruence. Qed.

(** The operation of an instruction is never changed. *)
Lemma patched_opcode code code' i : patched code code' -> code' !! (8 * i)%nat = code !! (8 * i)%nat.
Proof.
  intros [Hl Hp]. destruct (code !! (8 * i)%nat) as [b|] eqn:E.
  - destruct (lookup_lt_is_Some_2 code' (8 * i)) as [b' E']; [rewrite Hl; eapply lookup_lt_Some; eauto|].
    rewrite E'. destruct (Hp _ _ _ E E') as [->|[_ Hm]]; [done|exfalso].
    rewrite Nat.mul_comm, Nat.Div0.mod_mul in Hm. lia.
  - apply lookup_ge_None_1 in E. apply lookup_ge_None_2. lia.
Qed.

Lemma patched_trans c1 c2 c3 : patched c1 c2 -> patched c2 c3 -> patched c1 c3.
Proof.
  intros H12 H23. pose proof (fun i => patched_opcode c1 c2 i H12) as Hop. destruct H12 as [L12 P12], H23 as [L23 P23].
  split; [congruence|]. intros j b b' E E'.
  destruct (lookup_lt_is_Some_2 c2 j) as [b2 E2]; [rewrite L12; eapply lookup_lt_Some; eauto|].
  destruct (P12 _ _ _ E E2) as [->|[Hc1 D1]], (P23 _ _ _ E2 E') as [->|[Hc2 D2]]; auto; right; split; auto.
  - now rewrite <- Hop.
  - destruct D1 as [[? ->]|]; [|now right]. destruct D2 as [[? ->]|]; [|now right]. left. now rewrite mark_mark.
Qed.

Lemma slice_lookup off n l bs (i : nat) :
  slice off n l = Some bs -> (i < n)%nat -> l !! (Z.to_nat off + i)%nat = bs !! i.
Proof.
  intros (_ & _ & _ & ->)%slice_inv Hi. rewrite lookup_take_lt by done. now rewrite lookup_drop.
Qed.
Lemma slice_byte off l bs : slice off 1 l = Some bs -> exists b, bs = [b] /\ l !! Z.to_nat off = Some b.
Proof.
  intros Hs. pose proof (slice_lookup _ _ _ _ 0 Hs ltac:(lia)) as Hl. rewrite Nat.add_0_r in Hl.
  apply slice_inv in Hs as (_ & _ & Hlen & _). destruct bs as [|b [|]]; try discriminate Hlen. eauto.
Qed.
Lemma splice_lookup off bs l l' (j : nat) :
  splice off bs l = Some l' ->
  l' !! j = if decide (Z.to_nat off <= j < Z.to_nat off + length bs)%nat then bs !! (j - Z.to_nat off)%nat else l !! j.
Proof.
  unfold splice. destruct (slice off (length bs) l) eqn:E; [|done]. intros [= <-].
  apply slice_inv in E as (H0 & H1 & _ & _). unfold zlen in H1.
  destruct bs as [|b bs].
  { cbn [length app]. rewrite Nat.add_0_r, take_drop, decide_False by lia. done. }
  destruct H1 as [H1|H1]; [discriminate|]. set (o := Z.to_nat off) in *.
  assert (Ho : length (take o l) = o) by (rewrite length_take; lia).
  destruct (decide _) as [Hin|Hout].
  - rewrite lookup_app_r, Ho, lookup_app_l by lia. done.
  - destruct (decide (j < o)%nat).
    + rewrite lookup_app_l, lookup_take_lt by lia. done.
    + rewrite lookup_app_r, Ho, lookup_app_r, lookup_drop by lia. f_equal. lia.
Qed.
Lemma splice_same_length off bs l l' : bs <> [] -> splice off bs l = Some l' -> length l' = length l.
Proof. intros Hb Hs. apply splice_inv in Hs as [_ Hs]. auto. Qed.

Section relocations.
Context `{Libelf}.

(** Writing inside the instruction [k]. *)
Lemma splice_patched code code' (k o : nat) bs :
  code !! (8 * k)%nat = Some LD_IMM_DW -> bs <> [] ->
  splice (Z.of_nat (8 * k + o)) bs code = Some code' ->
  (o = 1%nat /\ (exists b, code !! (8 * k + 1)%nat = Some b /\ bs = [mark b])) \/ (4 <= o /\ o + length bs <= 8)%nat ->
  patched code code'.
Proof.
  intros Hop Hne Hs Ho. split; [eapply splice_same_length; eauto|]. intros j b b' E E'.
  rewrite (splice_lookup _ _ _ _ _ Hs), Nat2Z.id in E'.
  destruct (decide _) as [Hj|]; [|left; congruence]. right. unfold may_differ.
  assert (Hlen : (o + length bs <= 8)%nat).
  { destruct Ho as [[-> (? & _ & ->)]|]; cbn; lia. }
  assert (Hdiv : (j / 8 = k)%nat) by (symmetry; apply (Nat.div_unique j 8 k (j - 8 * k)); lia).
  assert (Hmod : (j mod 8 = j - 8 * k)%nat) by (pose proof (Nat.div_mod_eq j 8); lia).
  rewrite Hdiv, Hmod. split; [done|]. destruct Ho as [[-> (b0 & Hb0 & ->)]|]; [|right; lia].
  left. cbn [length] in Hj. replace j with (8 * k + 1)%nat in * by lia. split; [lia|].
  rewrite Nat.sub_diag in E'. cbn in E'. congruence.
Qed.

(** A relocation that can be read: its instruction and its symbol. *)
Definition readable (data symbols code : list Z) (i : Z) : Prop :=
  exists r s, gelf_getrel data i = Some r /\ gelf_getsym symbols (r_sym r) = Some s
  /\ 8 * u32 (r_offset r / sizeof_insn) + 8 <= zlen code.

Lemma apply_relo_spec data symbols ms nr_maps i code :
  readable data symbols code i ->
  exists valid code', apply_relo data symbols ms nr_maps i code = Some (valid, code') /\ patched code code'.
Proof.
  intros (r & s & Hr & Hs & Hlen). unfold apply_relo. rewrite Hr. cbn [mbind option_bind]. rewrite Hs. cbn [mbind option_bind].
  pose proof (u32_range (r_offset r / sizeof_insn)) as Hu. unfold is_u32 in Hu.
  set (idx := u32 (r_offset r / sizeof_insn)) in *. clearbody idx. unfold sizeof_insn in *.
  rewrite (slice_some (8 * idx)) by lia. cbn [mbind option_bind].
  assert (Hk : exists k, idx = Z.of_nat k) by (exists (Z.to_nat idx); lia). destruct Hk as [k ->].
  replace (8 * Z.of_nat k) with (Z.of_nat (8 * k)) in * by lia.
  pose proof (slice_some (Z.of_nat (8 * k)) 1 code ltac:(lia) ltac:(lia)) as Hop.
  apply slice_byte in Hop as (op & Eop & Hop). rewrite Eop. rewrite Nat2Z.id in Hop. cbn [le_join].
  destruct (Z.eqb_spec (op + 256 * 0) LD_IMM_DW) as [Hld|]; cbn [negb]; [|eauto using patched_refl].
  assert (op = LD_IMM_DW) as -> by lia.
  pose proof (slice_some (Z.of_nat (8 * k) + 1) 1 code ltac:(lia) ltac:(lia)) as Hreg. rewrite Hreg.
  apply slice_byte in Hreg as (b & Eb & Hb). rewrite Eb. cbn [mbind option_bind le_join].
  replace (Z.to_nat (Z.of_nat (8 * k) + 1)) with (8 * k + 1)%nat in Hb by lia.
  replace (Z.of_nat (8 * k) + 1) with (Z.of_nat (8 * k + 1)) by lia.
  change (Z.lor (Z.land (b + 256 * 0) 15) (Z.shiftl BPF_PSEUDO_MAP_FD 4)) with (mark (b + 256 * 0)).
  replace (b + 256 * 0) with b by lia.
  destruct (splice (Z.of_nat (8 * k + 1)) [mark b] code) as [code1|] eqn:E1.
  2:{ rewrite splice_some in E1; [discriminate|lia|unfold zlen in *; cbn; lia]. }
  assert (P1 : patched code code1) by (apply (splice_patched code code1 k 1 [mark b]); eauto).
  cbn [mbind option_bind]. destruct (find_map _ _ _) as [m|]; [|eauto].
  replace (Z.of_nat (8 * k) + 4) with (Z.of_nat (8 * k + 4)) by lia.
  destruct (splice (Z.of_nat (8 * k + 4)) (le_split 4 (fd m)) code1) as [code2|] eqn:E2.
  2:{ rewrite splice_some in E2; [discriminate|lia|]. destruct P1 as [L1 _]. unfold zlen in *. rewrite L1, length_le_split. lia. }
  cbn [mbind option_bind]. eexists _, _. split; [reflexivity|]. eapply patched_trans; [exact P1|].
  apply (splice_patched code1 code2 k 4 (le_split 4 (fd m))); [|discriminate|exact E2|right].
  - now rewrite (patched_opcode code).
  - rewrite length_le_split. lia.
Qed.

Lemma apply_relos_spec data symbols ms nr_maps n i code :
  (forall j, i <= j < i + Z.of_nat n -> readable data symbols code j) ->
  exists err code', apply_relos data symbols ms nr_maps n i code = Some (err, code') /\ patched code code'.
Proof.
  revert i code. induction n as [|n IH]; intros i code Hr; [eexists _, _; split; [reflexivity|apply patched_refl]|].
  cbn [apply_relos]. destruct (apply_relo_spec data symbols ms nr_maps i code) as (v & c1 & -> & P1); [apply Hr; lia|].
  cbn [mbind option_bind]. destruct v; [|eauto].
  destruct (IH (i + 1) c1) as (err & c2 & E2 & P2).
  - intros j Hj. destruct (Hr j ltac:(lia)) as (r & s & ? & ? & Hl). exists r, s. destruct P1 as [L1 _].
    unfold zlen in *. rewrite L1. auto.
  - eexists _, _. split; [exact E2|]. eapply patched_trans; eauto.
Qed.

(** The instruction [k] loads the descriptor [x]. *)
Definition refers_to (code : list Z) (k : nat) (x : Z) : Prop :=
  code !! (8 * k)%nat = Some LD_IMM_DW /\
  (exists b, code !! (8 * k + 1)%nat = Some b /\ b / 16 = BPF_PSEUDO_MAP_FD) /\
  forall j, (j < 4)%nat -> code !! (8 * k + 4 + j)%nat = le_split 4 x !! j.
Definition insn_of (r : rel) : nat := Z.to_nat (u32 (r_offset r / sizeof_insn)).

Lemma mark_source b : mark b / 16 = BPF_PSEUDO_MAP_FD.
Proof.
  unfold mark. change 16 with (Z.shiftl 1 4) at 1. rewrite <- (Z.shiftr_div_pow2 _ 4) by lia.
  rewrite Z.shiftr_lor, Z.shiftr_land. change (Z.shiftr 0x0f 4) with 0. now rewrite Z.land_0_r.
Qed.

(** What a valid relocation writes. *)
Lemma apply_relo_writes data symbols ms nr_maps i code code' :
  apply_relo data symbols ms nr_maps i code = Some (true, code') ->
  exists r s m, gelf_getrel data i = Some r /\ gelf_getsym symbols (r_sym r) = Some s
  /\ find_map ms nr_maps (st_value s) = Some m /\ refers_to code' (insn_of r) (fd m)
  /\ forall j, (j < 8 * insn_of r \/ 8 * insn_of r + 8 <= j)%nat -> code' !! j = code !! j.
Proof.
  unfold apply_relo. intros (r & Hr & E)%bind_Some. cbv zeta in E.
  apply bind_Some in E as (s & Hs & E). apply bind_Some in E as (op & Hop & E).
  pose proof (u32_range (r_offset r / sizeof_insn)) as Hu. unfold is_u32 in Hu.
  apply slice_byte in Hop as (c & -> & Hop). cbn [le_join] in E.
  destruct (Z.eqb_spec (c + 256 * 0) LD_IMM_DW) as [Hld|]; cbn [negb] in E; [|discriminate].
  apply bind_Some in E as (regs & Hregs & E). apply bind_Some in E as (code1 & E1 & E).
  apply slice_byte in Hregs as (b & -> & Hb).
  destruct (find_map ms nr_maps (st_value s)) as [m|] eqn:Em; [|discriminate].
  apply bind_Some in E as (code2 & E2 & E). injection E as <-.
  exists r, s, m. split; [done|]. split; [done|]. split; [done|]. unfold insn_of, sizeof_insn in *.
  set (k := Z.to_nat (u32 (r_offset r / 8))).
  assert (Hk : u32 (r_offset r / 8) = Z.of_nat k) by (unfold k; lia). rewrite Hk in *. clearbody k. clear Hk Hu.
  assert (Hl : forall j, code2 !! j = if decide (8 * k + 4 <= j < 8 * k + 8)%nat then le_split 4 (fd m) !! (j - (8 * k + 4))%nat
    else if decide (j = 8 * k + 1)%nat then Some (mark b) else code !! j).
  { intros j. rewrite (splice_lookup _ _ _ _ j E2), length_le_split.
    replace (Z.to_nat (8 * Z.of_nat k + 4)) with (8 * k + 4)%nat by lia.
    destruct (decide (8 * k + 4 <= j < 8 * k + 4 + 4)%nat), (decide (8 * k + 4 <= j < 8 * k + 8)%nat); try lia; [done|].
    rewrite (splice_lookup _ _ _ _ j E1). replace (Z.to_nat (8 * Z.of_nat k + 1)) with (8 * k + 1)%nat by lia.
    cbn [length le_join]. replace (b + 256 * 0) with b by lia.
    destruct (decide (8 * k + 1 <= j < 8 * k + 1 + 1)%nat), (decide (j = 8 * k + 1)%nat); try lia; [|done].
    subst j. now rewrite Nat.sub_diag. }
  assert (Hc : code2 !! (8 * k)%nat = Some LD_IMM_DW).
  { rewrite Hl, !decide_False by lia. rewrite <- Hld. replace (c + 256 * 0) with c by lia. rewrite <- Hop. f_equal. lia. }
  assert (Hm : code2 !! (8 * k + 1)%nat = Some (mark b)) by (rewrite Hl, decide_False, decide_True by lia; done).
  split; [split; [exact Hc|split]|].
  - exists (mark b). split; [exact Hm|apply mark_source].
  - intros j Hj. rewrite Hl, decide_True by lia. f_equal. lia.
  - intros j Hj. now rewrite Hl, !decide_False by lia.
Qed.

(** When the relocations of a program are all valid, every instruction that one of them names
    loads the descriptor of the map at the value of its symbol (of the last, if several name the
    same instruction). *)
Lemma relocations_resolved data symbols ms nr_maps n i code code' :
  apply_relos data symbols ms nr_maps n i code = Some (0, code') ->
  forall j r, i <= j < i + Z.of_nat n -> gelf_getrel data j = Some r ->
  (forall j' r', j < j' < i + Z.of_nat n -> gelf_getrel data j' = Some r' -> insn_of r' <> insn_of r) ->
  exists s m, gelf_getsym symbols (r_sym r) = Some s /\ find_map ms nr_maps (st_value s) = Some m
  /\ refers_to code' (insn_of r) (fd m).
Proof.
  revert i code. induction n as [|n IH]; intros i code E j r Hj Hr Hlast; [lia|]. cbn [apply_relos] in E.
  apply bind_Some in E as ([v c1] & E1 & E). destruct v; [|discriminate].
  destruct (decide (j = i)) as [->|Hne]; [|apply (IH (i + 1) c1 E j r); [lia|done|intros; eapply Hlast; eauto; lia]].
  apply apply_relo_writes in E1 as (r1 & s & m & Hr1 & Hs & Hm & Href & _).
  assert (r1 = r) as -> by congruence. exists s, m. split; [done|]. split; [done|].
  assert (Hkeep : forall j' r', i + 1 <= j' < i + 1 + Z.of_nat n -> gelf_getrel data j' = Some r' -> insn_of r' <> insn_of r)
    by (intros; eapply Hlast; eauto; lia).
  clear IH Hlast Hj. generalize dependent c1. generalize dependent (i + 1). clear Hr Hr1.
  induction n as [|n IH]; intros i1 Hkeep c1 Href E; [now injection E as <-|]. cbn [apply_relos] in E.
  apply bind_Some in E as ([v c2] & E2 & E). destruct v; [|discriminate].
  apply apply_relo_writes in E2 as (r2 & ? & ? & Hr2 & _ & _ & _ & Hframe).
  refine (IH (i1 + 1) _ c2 _ E); [intros; eapply Hkeep; eauto; lia|].
  pose proof (Hkeep i1 r2 ltac:(lia) Hr2) as Hn. destruct Href as (H1 & (b & Hb & Hb1) & H3).
  split; [rewrite Hframe; [done|lia]|]. split; [exists b; rewrite Hframe by lia; auto|].
  intros j' Hj'. rewrite Hframe; [now apply H3|lia].
Qed.
End relocations.

(** ** Objects in bounds *)

Section loading.
Context `{Libelf} (kernel : list sys -> Z).

Definition def_ok (d : map_def) : Prop :=
  type d = BPF_MAP_TYPE_ARRAY_OF_MAPS \/ type d = BPF_MAP_TYPE_HASH_OF_MAPS -> 0 <= inner_map_idx d < 32.
(** The section [s], of index [i], with the symbol table [t]: it has between 1 and 32 maps, each
    with a name and inside the section. *)
Definition maps_in_bounds (elf : object) (i : Z) (s t : section) : Prop :=
  exists found, maps_symbols i (d_buf t) (Z.to_nat (zlen (d_buf t) / sizeof_sym)) 0 [] = Some found
  /\ (0 < length found <= 32)%nat /\ zlen (d_buf s) < 2147483648
  /\ Forall (fun x =>
       let sz := zlen (d_buf s) / Z.of_nat (length found) in
       is_Some (elf_strptr elf (sh_link t) (st_name x)) /\ 0 <= st_value x /\ st_value x + sz <= zlen (d_buf s)
       /\ def_ok (map_def_of (take (Z.to_nat (Z.min sz sizeof_map_def)) (drop (Z.to_nat (st_value x)) (d_buf s))))) found.

Record bounded (elf : object) : Prop := {
  b_count : (length (sections elf) <= 128)%nat;
  b_license i s : get_sec (sections elf) i = Some s -> sh_name s = "license"%string -> zlen (d_buf s) <= 128;
  b_maps i s j t : get_sec (sections elf) i = Some s -> sh_name s = "maps"%string ->
    get_sec (sections elf) j = Some t -> sh_type t = SHT_SYMTAB -> maps_in_bounds elf i s t;
  b_relocations i s p j t : get_sec (sections elf) i = Some s -> sh_type s = SHT_REL ->
    get_sec (sections elf) (sh_info s) = Some p -> sh_type p = SHT_PROGBITS ->
    get_sec (sections elf) j = Some t -> sh_type t = SHT_SYMTAB ->
    sh_entsize s <> 0 /\ forall k, 0 <= k < s32 (sh_size s / sh_entsize s) -> readable (d_buf s) (d_buf t) (d_buf p) k;
  b_code i s : get_sec (sections elf) i = Some s -> zlen (d_buf s) < 2147483648
}.

(** The calls that are made for an object: maps are created, and the programs are whole
    instructions of sections whose names begin with xdp, changed in map references only. *)
Definition call_ok (elf : object) (c : sys) : Prop :=
  match c with
  | MapCreate _ => True
  | ProgLoad insns _ _ _ =>
      exists i s code, get_sec (sections elf) i = Some s /\ String.prefix "xdp" (sh_name s) = true
      /\ patched (d_buf s) code /\ insns = take (8 * (length code / 8)) code
  end.

Lemma put_some {A} (l : list A) i x : 0 <= i < Z.of_nat (length l) -> put l i x = Some (<[Z.to_nat i := x]> l).
Proof. intros Hi. unfold put. destruct (Z.ltb_spec i 0), (Z.leb_spec (Z.of_nat (length l)) i); try lia. done. Qed.
Lemma get_some {A} (l : list A) i : 0 <= i < Z.of_nat (length l) -> exists x, get l i = Some x /\ l !! Z.to_nat i = Some x.
Proof.
  intros Hi. unfold get. rewrite (proj2 (Z.ltb_ge _ _)) by lia.
  destruct (lookup_lt_is_Some_2 l (Z.to_nat i)) as [x Hx]; [lia|eauto].
Qed.
Lemma get_sec_nonneg secs i s : get_sec secs i = Some s -> 0 <= i < Z.of_nat (length secs) /\ secs !! Z.to_nat i = Some (Some s).
Proof.
  unfold get_sec. destruct (Z.ltb_spec i 0); [done|]. destruct (secs !! Z.to_nat i) as [[s'|]|] eqn:E; [|done|done].
  destruct (_ =? 0); [done|]. intros [= ->]. split; [|done]. apply lookup_lt_Some in E. lia.
Qed.

(** ** The maps *)

Lemma read_maps_runs elf tab data sz syms i ms :
  0 <= sz -> length ms = 32%nat -> 0 <= i -> i + Z.of_nat (length syms) <= 32 ->
  Forall (fun x => is_Some (elf_strptr elf tab (st_name x)) /\ 0 <= st_value x /\ st_value x + sz <= zlen data
    /\ def_ok (map_def_of (take (Z.to_nat (Z.min sz sizeof_map_def)) (drop (Z.to_nat (st_value x)) data)))) syms ->
  (forall (j : nat) m, Z.of_nat j < i -> ms !! j = Some m -> def_ok (def m)) ->
  exists err ms', read_maps elf tab data sz syms i ms = Some (err, ms') /\ (err = 0 \/ err = - EFBIG) /\ length ms' = 32%nat
  /\ (err = 0 -> forall (j : nat) m, Z.of_nat j < i + Z.of_nat (length syms) -> ms' !! j = Some m -> def_ok (def m)).
Proof.
  intros Hsz Hms Hi0 Hi Hs. revert i ms Hms Hi0 Hi. induction Hs as [|x syms (Hn & Hv & Hle & Hd) _ IH]; intros i ms Hms Hi0 Hi Hok.
  { eexists _, _. split; [reflexivity|]. split; [now left|]. split; [done|]. intros _ j m Hj. cbn in Hj. apply Hok. lia. }
  cbn [read_maps]. destruct Hn as [nm ->]. cbn [mbind option_bind]. cbn [length] in Hi.
  destruct (get_some ms i ltac:(lia)) as (m & -> & Hm). cbn [mbind option_bind]. unfold sizeof_map_def in *.
  rewrite (slice_some (st_value x)) by lia. cbn [mbind option_bind]. rewrite put_some by lia. cbn [mbind option_bind].
  rewrite (slice_some (st_value x + _)) by lia. cbn [mbind option_bind].
  destruct (forallb _ _).
  - destruct (IH (i + 1) (<[Z.to_nat i := MapData (fd m) nm (st_value x) (map_def_of (take (Z.to_nat (Z.min sz 28)) (drop (Z.to_nat (st_value x)) data)))]> ms))
      as (err & ms' & E & Herr & Hl & Hdef); [now rewrite length_insert|lia|lia| |].
    { intros j m' Hj Hm'. destruct (decide (j = Z.to_nat i)) as [->|].
      - rewrite list_lookup_insert_eq in Hm' by lia. injection Hm' as <-. exact Hd.
      - rewrite list_lookup_insert_ne in Hm' by lia. apply (Hok j); [lia|done]. }
    exists err, ms'. split; [exact E|]. split; [done|]. split; [done|]. intros He j m' Hj. apply Hdef; [done|]. cbn [length] in Hj. lia.
  - eexists _, _. split; [reflexivity|]. split; [now right|]. split; [now rewrite length_insert|]. intros He. discriminate He.
Qed.

(** What creating maps leaves alone. *)
Definition created (g g' : loader) : Prop :=
  processed_sec g' = processed_sec g /\ prog_fd g' = prog_fd g /\ length (maps g') = length (maps g)
  /\ length (map_fd g') = length (map_fd g)
  /\ exists new, calls g' = calls g ++ new /\ Forall (fun c => match c with MapCreate _ => True | _ => False end) new.
Lemma created_trans g1 g2 g3 : created g1 g2 -> created g2 g3 -> created g1 g3.
Proof.
  intros (A1 & A2 & A3 & A4 & n1 & A5 & A6) (B1 & B2 & B3 & B4 & n2 & B5 & B6).
  split_and!; try congruence. exists (n1 ++ n2). rewrite B5, A5, app_assoc. split; [done|]. now apply Forall_app.
Qed.
Lemma created_none g g' :
  processed_sec g' = processed_sec g -> prog_fd g' = prog_fd g -> length (maps g') = length (maps g) ->
  length (map_fd g') = length (map_fd g) -> calls g' = calls g -> created g g'.
Proof. intros. split_and!; try done. exists []. rewrite app_nil_r. auto. Qed.

Lemma create_map_runs m g : def_ok (def m) -> length (map_fd g) = 32%nat ->
  exists r g', create_map kernel m g = Some (r, g') /\ created g g' /\ maps g' = maps g.
Proof.
  intros Hd Hl. unfold create_map.
  assert (Hsys : forall a, created g (sys_bpf kernel (MapCreate a) g).2 /\ maps (sys_bpf kernel (MapCreate a) g).2 = maps g).
  { intros a. split; [|done]. split_and!; try done. eexists. split; [reflexivity|]. repeat constructor. }
  unfold def_ok in Hd.
  destruct ((type (def m) =? BPF_MAP_TYPE_ARRAY_OF_MAPS) || (type (def m) =? BPF_MAP_TYPE_HASH_OF_MAPS)) eqn:Et.
  - apply orb_true_iff in Et. rewrite !Z.eqb_eq in Et. apply Hd in Et.
    destruct (get_some (map_fd g) (inner_map_idx (def m)) ltac:(lia)) as (x & -> & _). cbn [mbind option_bind].
    eexists _, _. split; [unfold bpf_create_map_in_map_node; apply f_equal, surjective_pairing|]. apply Hsys.
  - eexists _, _. split; [unfold bpf_create_map_node; apply f_equal, surjective_pairing|]. apply Hsys.
Qed.

(** The loader while the maps below [k] are in use; [g0] is where the maps began. *)
Definition ready (k : Z) (g0 g : loader) : Prop :=
  created g0 g /\ length (maps g) = 32%nat /\ length (map_fd g) = 32%nat /\
  forall (j : nat) m, Z.of_nat j < k -> maps g !! j = Some m -> def_ok (def m).

Lemma put_total {A} (l : list A) i x : 0 <= i < 32 -> length l = 32%nat -> exists l', put l i x = Some l'.
Proof. intros Hi Hl. eexists. apply put_some. lia. Qed.
Lemma put_inv {A} (l l' : list A) i x : put l i x = Some l' -> l' = <[Z.to_nat i := x]> l /\ 0 <= i < Z.of_nat (length l).
Proof. unfold put. destruct (Z.ltb_spec i 0), (Z.leb_spec (Z.of_nat (length l)) i); try done. intros [= <-]. auto with lia. Qed.

Lemma ready_map k g0 g i m ms :
  ready k g0 g -> def_ok (def m) -> put (maps g) i m = Some ms -> ready k g0 (g <| maps := ms |>).
Proof.
  intros (C & Hm & Hf & Hok) Hd [-> Hi]%put_inv. refine (conj _ (conj _ (conj Hf _))); [|cbn; now rewrite length_insert|].
  - eapply created_trans; [exact C|]. apply created_none; try done. apply length_insert.
  - intros j m' Hj Hm'. cbn [maps] in Hm'. destruct (decide (j = Z.to_nat i)) as [->|].
    + rewrite list_lookup_insert_eq in Hm' by lia. now injection Hm' as <-.
    + rewrite list_lookup_insert_ne in Hm' by lia. eauto.
Qed.
Lemma ready_fd k g0 g i x fds :
  ready k g0 g -> put (map_fd g) i x = Some fds -> ready k g0 (g <| map_fd := fds |>).
Proof.
  intros (C & Hm & Hf & Hok) [-> _]%put_inv. refine (conj _ (conj Hm (conj _ Hok))); [|cbn; now rewrite length_insert].
  eapply created_trans; [exact C|]. apply created_none; try done. apply length_insert.
Qed.
Lemma ready_array k g0 g x : ready k g0 g -> ready k g0 (g <| prog_array_fd := x |>).
Proof.
  intros (C & Hm & Hf & Hok). refine (conj _ (conj Hm (conj Hf Hok))). eapply created_trans; [exact C|]. now apply created_none.
Qed.
Lemma ready_create k g0 g m : ready k g0 g -> def_ok (def m) ->
  exists r g', create_map kernel m g = Some (r, g') /\ ready k g0 g'.
Proof.
  intros (C & Hm & Hf & Hok) Hd. destruct (create_map_runs m g Hd Hf) as (r & g' & E & C' & Em).
  exists r, g'. split; [exact E|]. refine (conj _ (conj _ (conj _ _))); [eapply created_trans; eauto|congruence| |now rewrite Em].
  destruct C' as (_ & _ & _ & -> & _). done.
Qed.

Lemma load_maps_runs fixup n i g0 g :
  0 <= i -> i + Z.of_nat n <= 32 -> ready (i + Z.of_nat n) g0 g ->
  exists err g', load_maps kernel fixup n i g = Some (err, g') /\ (err = 0 \/ err = -1) /\ created g0 g'.
Proof.
  revert i g. induction n as [|n IH]; intros i g Hi0 Hi Hr.
  { eexists _, _. split; [reflexivity|]. split; [now left|apply Hr]. }
  replace (i + Z.of_nat (S n)) with (i + 1 + Z.of_nat n) in * by lia.
  assert (H32 : forall g', ready (i + 1 + Z.of_nat n) g0 g' -> length (maps g') = 32%nat /\ length (map_fd g') = 32%nat)
    by (intros g' (_ & ? & ? & _); auto).
  cbn [load_maps]. destruct (H32 g Hr) as [Lm Lf].
  destruct (get_some (maps g) i ltac:(lia)) as (m0 & -> & Hm0). cbn [mbind option_bind].
  set (m := match fixup with Some f => _ | None => m0 end).
  assert (Hdef : def_ok (def m)).
  { destruct Hr as (_ & _ & _ & Hok). apply (Hok (Z.to_nat i) m0) in Hm0; [destruct fixup; exact Hm0|lia]. }
  clearbody m. destruct (put_total (maps g) i m ltac:(lia) Lm) as [ms Ems]. rewrite Ems. cbn [mbind option_bind].
  apply (ready_map _ _ _ _ _ _ Hr Hdef) in Ems. clear Hr Lm Lf. destruct (H32 _ Ems) as [Lm Lf].
  destruct (_ && _).
  - destruct (put_total (map_fd (g <| maps := ms |>)) i (fd m) ltac:(lia) Lf) as [fds Efds].
    cbn [map_fd] in Efds |- *. rewrite Efds. cbn [mbind option_bind].
    apply IH; [lia|lia|]. exact (ready_fd _ _ (g <| maps := ms |>) _ _ _ Ems Efds).
  - destruct (ready_create _ _ _ m Ems Hdef) as (r & g2 & -> & H2). cbn [mbind option_bind].
    destruct (H32 _ H2) as [Lm2 Lf2]. destruct (put_total (map_fd g2) i r ltac:(lia) Lf2) as [fds Efds].
    rewrite Efds. cbn [mbind option_bind]. apply (ready_fd _ _ _ _ _ _ H2) in Efds.
    destruct (r <? 0); [eexists _, _; split; [reflexivity|]; split; [now right|apply Efds]|].
    destruct (put_total (maps g2) i (m <| fd := r |>) ltac:(lia) Lm2) as [ms2 Ems2].
    cbn [maps]. rewrite Ems2. cbn [mbind option_bind].
    apply (ready_map _ _ (g2 <| map_fd := fds |>) i (m <| fd := r |>) _ Efds Hdef) in Ems2.
    apply IH; [lia|lia|]. destruct (_ =? _); [apply ready_array|]; exact Ems2.
Qed.

(** ** The first pass *)

(** What the first pass has found comes from the file. *)
Definition scanned (elf : object) (sc : scan) : Prop :=
  (forall syms, symbols sc = Some syms ->
     exists j t, get_sec (sections elf) j = Some t /\ sh_type t = SHT_SYMTAB /\ d_buf t = syms /\ sh_link t = strtabidx sc) /\
  (forall d, data_maps sc = Some d ->
     exists s, get_sec (sections elf) (maps_shndx sc) = Some s /\ sh_name s = "maps"%string /\ d_buf s = d).
(** The arrays have their sizes and nothing has been called. *)
Definition scanning (g0 g : loader) : Prop :=
  length (processed_sec g) = 128%nat /\ length (maps g) = 32%nat /\ length (map_fd g) = 32%nat
  /\ Forall (fun m => def_ok (def m)) (maps g) /\ calls g = calls g0 /\ prog_fd g = prog_fd g0.

Lemma scan_section_runs elf i s sc g0 g :
  bounded elf -> get_sec (sections elf) i = Some s -> scanned elf sc -> scanning g0 g ->
  exists r, scan_section i s sc g = Some r /\
    match r with inl ret => ret = -1 | inr (sc', g') => scanned elf sc' /\ scanning g0 g' end.
Proof.
  intros Hb Hs [Hsym Hmap] (Hp & Hm & Hf & Hd & Hc & Hpf). pose proof (get_sec_nonneg _ _ _ Hs) as [Hi _].
  pose proof (b_count _ Hb) as Hn. unfold scan_section.
  destruct (String.eqb_spec (sh_name s) "license") as [El|_].
  { rewrite put_some by lia. cbn [mbind option_bind]. pose proof (b_license _ Hb _ _ Hs El).
    destruct (Z.ltb_spec 128 (zlen (d_buf s))); [lia|]. eexists. split; [reflexivity|]. split; [done|].
    unfold scanning. cbn. rewrite length_insert. auto 10. }
  destruct (String.eqb_spec (sh_name s) "version") as [_|_].
  { rewrite put_some by lia. cbn [mbind option_bind]. destruct (negb _); eexists; (split; [reflexivity|]); [done|].
    split; [done|]. unfold scanning. cbn. rewrite length_insert. auto 10. }
  destruct (String.eqb_spec (sh_name s) "maps") as [Em|_].
  { eexists. split; [reflexivity|]. split; [split; [done|]|].
    - cbn. intros d [= <-]. eauto.
    - unfold scanning. cbn. rewrite length_map. split; [done|]. split; [done|]. split; [done|]. split; [|done].
      rewrite Forall_map. exact Hd. }
  destruct (Z.eqb_spec (sh_type s) SHT_SYMTAB) as [Et|_]; eexists; (split; [reflexivity|]).
  - split; [|now unfold scanning]. split; [|done]. cbn. intros syms [= <-]. eauto 10.
  - now unfold scanned, scanning.
Qed.

Lemma scan_sections_runs elf n i sc g0 g :
  bounded elf -> scanned elf sc -> scanning g0 g ->
  exists r, scan_sections (sections elf) n i sc g = Some r /\
    match r with inl ret => ret = -1 | inr (sc', g') => scanned elf sc' /\ scanning g0 g' end.
Proof.
  intros Hb. revert i sc g. induction n as [|n IH]; intros i sc g Hsc Hg; [eexists; split; [reflexivity|]; now split|].
  cbn [scan_sections]. destruct (get_sec (sections elf) i) as [s|] eqn:Es; [|now apply IH].
  destruct (scan_section_runs elf i s sc g0 g Hb Es Hsc Hg) as (r & -> & Hr). cbn [mbind option_bind].
  destruct r as [ret|[sc' g']]; [eexists; split; [reflexivity|]; exact Hr|]. destruct Hr. now apply IH.
Qed.

(** ** The second pass *)

(** The sections after some relocations. *)
Definition evolved (secs0 secs : list (option section)) : Prop :=
  length secs = length secs0 /\
  forall i s', get_sec secs i = Some s' -> exists s, get_sec secs0 i = Some s
    /\ s' = s <| d_buf := d_buf s' |> /\ patched (d_buf s) (d_buf s') /\ (sh_type s <> SHT_PROGBITS -> d_buf s' = d_buf s).

Lemma evolved_refl secs : evolved secs secs.
Proof.
  split; [done|]. intros i s Hs. exists s. split; [done|]. split; [now destruct s|]. split; [apply patched_refl|done].
Qed.

Lemma evolved_patch secs0 secs i p code :
  evolved secs0 secs -> get_sec secs i = Some p -> sh_type p = SHT_PROGBITS -> patched (d_buf p) code ->
  evolved secs0 (<[Z.to_nat i := Some (p <| d_buf := code |>)]> secs).
Proof.
  intros [Hl He] Hp Ht Hc. split; [now rewrite length_insert|]. intros j s' Hs'.
  pose proof (get_sec_nonneg _ _ _ Hp) as [Hi _]. pose proof (get_sec_nonneg _ _ _ Hs') as [Hj _].
  destruct (decide (j = i)) as [->|Hne].
  - destruct (He _ _ Hp) as (s & Hs & Es & Hpat & _). exists s. split; [done|].
    unfold get_sec in Hs'. rewrite (proj2 (Z.ltb_ge _ _)) in Hs' by lia.
    rewrite list_lookup_insert_eq in Hs' by lia. cbn in Hs'. destruct (sh_size p =? 0); [discriminate|].
    injection Hs' as <-. cbn [d_buf]. rewrite Es in *. cbn in Ht |- *.
    split; [done|]. split; [eapply patched_trans; eauto|congruence].
  - apply He. unfold get_sec in Hs' |- *. rewrite (proj2 (Z.ltb_ge _ _)) in * by lia.
    now rewrite list_lookup_insert_ne in Hs' by lia.
Qed.

Lemma relocate_runs elf syms nr n i secs g j t :
  bounded elf -> get_sec (sections elf) j = Some t -> sh_type t = SHT_SYMTAB -> d_buf t = syms ->
  length (processed_sec g) = 128%nat -> 0 <= i -> i + Z.of_nat n <= 128 -> evolved (sections elf) secs ->
  exists secs' g', relocate_sections syms nr n i secs g = Some (secs', g') /\ evolved (sections elf) secs'
  /\ length (processed_sec g') = 128%nat /\ calls g' = calls g /\ prog_fd g' = prog_fd g.
Proof.
  intros Hb Hj Ht Hsyms. revert i secs g. induction n as [|n IH]; intros i secs g Hp Hi0 Hi He; [eauto 10|].
  cbn [relocate_sections]. destruct (get_some (processed_sec g) i ltac:(lia)) as (don & -> & _). cbn [mbind option_bind].
  assert (Hskip : exists secs' g', relocate_sections syms nr n (i + 1) secs g = Some (secs', g') /\ evolved (sections elf) secs'
    /\ length (processed_sec g') = 128%nat /\ calls g' = calls g /\ prog_fd g' = prog_fd g) by (apply IH; auto; lia).
  destruct don; [exact Hskip|]. destruct (get_sec secs i) as [s'|] eqn:Es; [|exact Hskip].
  destruct (Z.eqb_spec (sh_type s') SHT_REL) as [Er|]; cbn [negb]; [|exact Hskip].
  destruct (get_sec secs (sh_info s')) as [p'|] eqn:Ep; [|exact Hskip].
  destruct (Z.eqb_spec (sh_type p') SHT_PROGBITS) as [Epb|]; cbn [negb orb]; [|exact Hskip].
  destruct (negb (nz _)); [exact Hskip|]. clear Hskip.
  destruct (proj2 He _ _ Es) as (s & Hs & Hs' & _ & Hsame). rewrite Hs' in Er, Ep |- *. cbn in Er, Ep |- *.
  rewrite Hsame in * by (rewrite Er; discriminate).
  destruct (proj2 He _ _ Ep) as (p & Hp0 & Hp' & Hpat & _).
  assert (Ept : sh_type p = SHT_PROGBITS) by (rewrite Hp' in Epb; exact Epb).
  destruct (b_relocations _ Hb _ _ _ _ _ Hs Er Hp0 Ept Hj Ht) as [Hent Hread].
  rewrite put_some by lia. cbn [mbind option_bind]. unfold parse_relo_and_apply. cbn [sh_entsize sh_size d_buf].
  rewrite (proj2 (Z.eqb_neq _ _) Hent).
  destruct (apply_relos_spec (d_buf s) syms (maps g) nr (Z.to_nat (s32 (sh_size s / sh_entsize s))) 0 (d_buf p'))
    as (err & code & -> & Hcode).
  { intros k Hk. destruct (Hread k ltac:(lia)) as (r & x & ? & ? & ?). exists r, x. rewrite <- Hsyms.
    destruct Hpat as [Lp _]. unfold zlen in *. rewrite Lp. auto. }
  cbn [mbind option_bind].
  edestruct (IH (i + 1) (<[Z.to_nat (sh_info s) := Some (p' <| d_buf := code |>)]> secs)
    (g <| processed_sec := <[Z.to_nat i := true]> (processed_sec g) |>)) as (secs' & g' & E & He' & Hp'' & Hc & Hpf);
    [cbn; now rewrite length_insert|lia|lia|now apply evolved_patch|].
  exists secs', g'. split; [exact E|]. auto.
Qed.

(** ** The third pass *)

(** What loading adds: calls that are made for the object, and descriptors. *)
Definition loaded (elf : object) (g g' : loader) : Prop :=
  exists new fds, calls g' = calls g ++ new /\ Forall (call_ok elf) new
  /\ prog_fd g' = prog_fd g ++ fds /\ Forall (fun x => 0 <= x) fds.
Lemma loaded_trans elf g1 g2 g3 : loaded elf g1 g2 -> loaded elf g2 g3 -> loaded elf g1 g3.
Proof.
  intros (n1 & f1 & A1 & A2 & A3 & A4) (n2 & f2 & B1 & B2 & B3 & B4). exists (n1 ++ n2), (f1 ++ f2).
  rewrite B1, A1, B3, A3, !app_assoc. split; [done|]. split; [now apply Forall_app|]. split; [done|now apply Forall_app].
Qed.
Lemma loaded_calls elf g g' new :
  calls g' = calls g ++ new -> Forall (call_ok elf) new -> prog_fd g' = prog_fd g -> loaded elf g g'.
Proof. intros. exists new, []. now rewrite app_nil_r. Qed.

Lemma load_program_calls elf i s code cnt g :
  get_sec (sections elf) i = Some s -> String.prefix "xdp" (sh_name s) = true -> patched (d_buf s) code ->
  Z.to_nat (sizeof_insn * u32 cnt) = (8 * (length code / 8))%nat ->
  let r := bpf_load_program kernel code cnt g in
  loaded elf g r.2 /\ prog_fd r.2 = prog_fd g /\ processed_sec r.2 = processed_sec g.
Proof.
  intros Hs Hx Hp Hn. unfold bpf_load_program. rewrite Hn.
  assert (Hok : forall lic v l, call_ok elf (ProgLoad (take (8 * (length code / 8)) code) lic v l))
    by (intros; exists i, s, code; auto).
  cbn [sys_bpf]. destruct (_ >=? 0); cbn [snd]; (split; [|done]).
  - eapply loaded_calls; [reflexivity| |done]. repeat constructor. apply Hok.
  - eapply loaded_calls; [cbn; now rewrite <- app_assoc| |done]. repeat constructor; apply Hok.
Qed.

Lemma load_and_attach_runs elf i s s' g :
  bounded elf -> get_sec (sections elf) i = Some s -> String.prefix "xdp" (sh_name s) = true ->
  patched (d_buf s) (d_buf s') ->
  let r := load_and_attach kernel (sh_name s) (d_buf s') g in
  loaded elf g r.2 /\ processed_sec r.2 = processed_sec g
  /\ (r.1 = -1 \/ r.1 = 0 /\ exists x, 0 <= x /\ prog_fd r.2 = prog_fd g ++ [x]).
Proof.
  intros Hb Hs Hx Hp. unfold load_and_attach. rewrite Hx. cbn [negb].
  assert (Hnone : loaded elf g g) by (eapply loaded_calls; [now rewrite app_nil_r|constructor|done]).
  destruct (_ =? MAX_PROGS); [auto|].
  assert (Hlen : zlen (d_buf s') < 2147483648).
  { pose proof (b_code _ Hb _ _ Hs). destruct Hp as [L _]. unfold zlen in *. now rewrite L. }
  assert (Hcnt : Z.to_nat (sizeof_insn * u32 (u64 (s32 (zlen (d_buf s'))) / sizeof_insn)) = (8 * (length (d_buf s') / 8))%nat).
  { unfold s32, u32, u64, sizeof_insn, zlen in *. rewrite (Z.mod_small (_ + _)) by lia.
    replace (Z.of_nat (length (d_buf s')) + 2147483648 - 2147483648) with (Z.of_nat (length (d_buf s'))) by lia.
    rewrite (Z.mod_small (Z.of_nat _) 18446744073709551616) by lia.
    rewrite Z.mod_small by zlia. rewrite Z2Nat.inj_mul by zlia.
    rewrite Z2Nat.inj_div, Nat2Z.id by lia. done. }
  destruct (load_program_calls elf i s (d_buf s') (u64 (s32 (zlen (d_buf s'))) / sizeof_insn) g Hs Hx Hp Hcnt)
    as (Hl & Hf & Hps).
  destruct (bpf_load_program kernel (d_buf s') _ g) as [x g1]. cbn [snd] in Hl, Hf, Hps.
  destruct (Z.ltb_spec x 0); cbn [fst snd]; [auto|]. split; [|split; [done|right]].
  - destruct Hl as (new & fds & A1 & A2 & A3 & A4). exists new, [x]. cbn. rewrite Hf. auto.
  - split; [done|]. exists x. cbn. now rewrite Hf.
Qed.

Lemma load_programs_runs elf n i secs ret g0 g :
  bounded elf -> evolved (sections elf) secs -> length (processed_sec g) = 128%nat -> 0 <= i -> i + Z.of_nat n <= 128 ->
  loaded elf g0 g -> (ret = -1 \/ ret = 0 /\ (length (prog_fd g0) < length (prog_fd g))%nat) ->
  exists ret' g', load_programs kernel secs n i ret g = Some (ret', g') /\ loaded elf g0 g'
  /\ (ret' = -1 \/ ret' = 0 /\ (length (prog_fd g0) < length (prog_fd g'))%nat).
Proof.
  intros Hb [_ He]. revert i ret g. induction n as [|n IH]; intros i ret g Hp Hi0 Hi Hl Hret; [eauto 10|].
  cbn [load_programs]. destruct (get_some (processed_sec g) i ltac:(lia)) as (don & -> & _). cbn [mbind option_bind].
  assert (Hskip : exists ret' g', load_programs kernel secs n (i + 1) ret g = Some (ret', g') /\ loaded elf g0 g'
    /\ (ret' = -1 \/ ret' = 0 /\ (length (prog_fd g0) < length (prog_fd g'))%nat)) by (apply IH; auto; lia).
  destruct don; [exact Hskip|]. destruct (get_sec secs i) as [s'|] eqn:Es; [|exact Hskip].
  destruct (String.prefix "xdp" (sh_name s')) eqn:Ex; cbn [negb]; [|exact Hskip]. clear Hskip.
  destruct (He _ _ Es) as (s & Hs & Hs' & Hpat & _).
  assert (En : sh_name s' = sh_name s) by (rewrite Hs'; done). rewrite En in *.
  destruct (load_and_attach_runs elf i s s' g Hb Hs Ex Hpat) as (Hl1 & Hp1 & Hr1).
  destruct (load_and_attach kernel (sh_name s) (d_buf s') g) as [r g1]. cbn [fst snd] in *.
  assert (Hl2 : loaded elf g0 g1) by (eapply loaded_trans; eauto).
  destruct Hr1 as [->|(-> & x & _ & Hx)]; cbn [Z.ltb Z.compare]; [eauto 10|].
  apply IH; [congruence|lia|lia|done|]. right. split; [done|]. rewrite Hx, length_app. cbn.
  destruct Hl as (? & fds & _ & _ & -> & _). rewrite length_app. lia.
Qed.

(** ** The loader *)

Lemma load_code_runs elf syms nr g0 g j t :
  bounded elf -> get_sec (sections elf) j = Some t -> sh_type t = SHT_SYMTAB -> d_buf t = syms ->
  length (processed_sec g) = 128%nat -> loaded elf g0 g -> prog_fd g = prog_fd g0 ->
  exists ret g', load_code kernel elf syms nr g = Some (ret, g') /\ loaded elf g0 g'
  /\ (ret = -1 \/ ret = 0 /\ (length (prog_fd g0) < length (prog_fd g'))%nat).
Proof.
  intros Hb Hj Ht Hsyms Hp Hl Hf. pose proof (b_count _ Hb) as Hn. unfold load_code.
  destruct (relocate_runs elf syms nr (length (sections elf) - 1) 1 (sections elf) g j t Hb Hj Ht Hsyms Hp
    ltac:(lia) ltac:(lia) (evolved_refl _)) as (secs & g1 & -> & He & Hp1 & Hc & Hf1). cbn [mbind option_bind].
  apply load_programs_runs; auto; [lia|lia|].
  destruct Hl as (new & fds & A1 & A2 & A3 & A4). exists new, fds. now rewrite Hc, Hf1.
Qed.

Lemma maps_section_runs elf i s t ms :
  get_sec (sections elf) i = Some s -> maps_in_bounds elf i s t -> length ms = 32%nat -> 
  exists nr ms', load_elf_maps_section elf i (d_buf t) (sh_link t) ms = Some (nr, ms') /\ length ms' = 32%nat
  /\ (nr < 0 \/ 0 < nr <= 32 /\ forall (j : nat) m, Z.of_nat j < nr -> ms' !! j = Some m -> def_ok (def m)).
Proof.
  intros Hs (found & Ef & Hn & Hd & Hall) Hms. pose proof (get_sec_nonneg _ _ _ Hs) as [Hi Ei].
  unfold load_elf_maps_section. rewrite (proj2 (Z.ltb_ge _ _)) by lia. rewrite Ei, Ef. cbn [mbind option_bind].
  destruct (Z.eqb_spec (Z.of_nat (length found)) 0); [lia|].
  assert (Hsz : s32 (zlen (d_buf s) / Z.of_nat (length found)) = zlen (d_buf s) / Z.of_nat (length found)).
  { unfold s32. assert (0 <= zlen (d_buf s) / Z.of_nat (length found) <= zlen (d_buf s)).
    { split; [apply Z.div_pos; unfold zlen; lia|apply Z.div_le_upper_bound; unfold zlen in *; nia]. }
    rewrite Z.mod_small; lia. }
  cbv zeta. rewrite Hsz. set (sz := zlen (d_buf s) / Z.of_nat (length found)) in *.
  assert (0 <= sz) by (apply Z.div_pos; unfold zlen; lia). rewrite (proj2 (Z.ltb_ge _ _)) by done.
  pose proof (merge_sort_Permutation not_above found) as Hperm.
  destruct (read_maps_runs elf (sh_link t) (d_buf s) sz (merge_sort not_above found) 0 ms) as (err & ms' & -> & He & Hl & Hok).
  - done.
  - done.
  - lia.
  - rewrite Hperm. lia.
  - now rewrite Hperm.
  - lia.
  - cbn [mbind option_bind]. eexists _, ms'. split; [reflexivity|]. split; [done|].
    destruct He as [->|He]; [|left; rewrite He; reflexivity]. right. cbn [Z.ltb Z.compare]. split; [lia|].
    intros j m Hj. apply Hok; [done|]. rewrite Hperm. lia.
Qed.

(** The arrays of the loader have their sizes. *)
Definition arrays_ok (g : loader) : Prop :=
  length (maps g) = 32%nat /\ length (map_fd g) = 32%nat /\ Forall (fun m => def_ok (def m)) (maps g).

(** C33: the object loader is faithful to the file.  For every object whose numbers are in bounds,
    whatever its sections, symbols and relocations, whatever the kernel answers and whatever
    descriptors the callback provides, it ends without a fault, with -1 or 0.  It then has made,
    besides the creation of maps, only calls that load a section of the file whose name begins
    with xdp, as whole instructions, in which nothing but the source register and the immediate
    of 64-bit loads differs from the file; and when it returns 0 at least one program has been
    accepted. *)
Theorem load_is_faithful elf fixup g :
  bounded elf -> arrays_ok g ->
  exists ret g', bpf_load_from_file kernel (Some elf) fixup g = Some (ret, g') /\ loaded elf g g'
  /\ (ret = -1 \/ ret = 0 /\ (length (prog_fd g) < length (prog_fd g'))%nat).
Proof.
  intros Hb (Hm & Hf & Hd). unfold bpf_load_from_file.
  cbv zeta. match goal with |- context [scan_sections _ _ _ _ ?g0] => set (g1 := g0) end.
  assert (Hg1 : scanning g g1) by (unfold scanning; cbn; auto 10). clearbody g1.
  destruct (scan_sections_runs elf (length (sections elf) - 1) 1 (Scan (-1) None (-1) None) g g1 Hb) as (r & -> & Hr);
    [split; discriminate|done|].
  assert (Hnone : forall g', calls g' = calls g -> prog_fd g' = prog_fd g -> loaded elf g g').
  { intros g' Hc Hpf. eapply loaded_calls; [now rewrite app_nil_r|constructor|done]. }
  cbn [mbind option_bind]. destruct r as [ret|[sc g2]].
  { destruct Hg1 as (_ & _ & _ & _ & Hc & Hpf). eauto 10. }
  destruct Hr as [[Hsym Hmap] (Hp & Lm & Lf & Hdm & Hc & Hpf)].
  destruct (symbols sc) as [syms|]; [|eauto 10]. destruct (Hsym _ eq_refl) as (j & t & Hj & Ht & Hsy & Hlink).
  destruct (data_maps sc) as [d|]; [|eapply load_code_runs; eauto].
  destruct (Hmap _ eq_refl) as (s & Hs & Hname & _).
  destruct (maps_section_runs elf (maps_shndx sc) s t (maps g2) Hs (b_maps _ Hb _ _ _ _ Hs Hname Hj Ht) Lm)
    as (nr & ms & E & Lms & Hnr). rewrite <- Hsy, <- Hlink, E. cbn [mbind option_bind].
  destruct (Z.ltb_spec nr 0); [eauto 10|]. destruct Hnr as [?|[Hnr Hok]]; [lia|].
  set (g3 := g2 <| maps := ms |>).
  destruct (load_maps_runs fixup (Z.to_nat nr) 0 g3 g3) as (err & g4 & -> & He & (C1 & C2 & _ & _ & new & C3 & C4)); [lia|lia| |].
  { refine (conj _ (conj Lms (conj Lf _))); [now apply created_none|]. intros k m Hk. apply Hok. lia. }
  cbn [mbind option_bind].
  assert (Hl4 : loaded elf g g4).
  { eapply (loaded_calls _ _ _ new); [now rewrite C3, <- Hc| |now rewrite C2]. eapply Forall_impl; [exact C4|]. now intros []. }
  destruct He as [->| ->]; [|eauto 10]. cbn [Z.ltb Z.compare].
  pose proof (get_sec_nonneg _ _ _ Hs) as [Hi _]. pose proof (b_count _ Hb) as Hcnt.
  rewrite put_some by (rewrite C1; cbn; lia). cbn [mbind option_bind]. rewrite Hsy.
  apply (load_code_runs elf syms nr g _ j t); auto.
  - cbn. now rewrite length_insert, C1.
  - change (prog_fd g4 = prog_fd g). rewrite C2. exact Hpf.
Qed.
End loading.

(** ** The link

    The request of [bpf_set_link_xdp_fd] and the reading of its answers. *)

Definition RTM_SETLINK : Z := 19.
Definition NLM_F_REQUEST : Z := 1.
Definition NLM_F_MULTI : Z := 2.
Definition NLM_F_ACK : Z := 4.
Definition NLMSG_ERROR : Z := 2.
Definition NLMSG_DONE : Z := 3.
Definition NLA_F_NESTED : Z := 0x8000.
(** @src xdp_progs/xdp-firewall/xdpfwadm/bpf_standalone.c 59-69 IFLA_XDP *)
Definition IFLA_XDP : Z := 43.
Definition IFLA_XDP_FD : Z := 1.
Definition IFLA_XDP_FLAGS : Z := 3.

(** A netlink attribute: its length with the header, its type and its bytes. *)
Definition nlattr (type : Z) (bytes : list Z) : list Z :=
  le_split 2 (4 + zlen bytes) ++ le_split 2 type ++ bytes.
(** The message that is sent; [nlmsg_len] counts the nested attribute rounded up to four bytes.
    @src xdp_progs/xdp-firewall/xdpfwadm/bpf_standalone.c 538-569 bpf_set_link_xdp_fd *)
Definition set_link_request (ifindex fd flags : Z) : list Z :=
  let nla := nlattr (Z.lor NLA_F_NESTED IFLA_XDP)
    (nlattr IFLA_XDP_FD (le_split 4 fd) ++ (if nz flags then nlattr IFLA_XDP_FLAGS (le_split 4 flags) else [])) in
  let aligned := nla ++ replicate (Z.to_nat ((- zlen nla) mod 4)) 0 in
  le_split 4 (32 + zlen aligned) ++ le_split 2 RTM_SETLINK ++ le_split 2 (Z.lor NLM_F_REQUEST NLM_F_ACK)
  ++ le_split 4 1 ++ le_split 4 0
  ++ [0; 0; 0; 0] ++ le_split 4 ifindex ++ replicate 8 0
  ++ aligned.

(** A message of the answer, and what [recv] returns. *)
Record nlmsg := NlMsg { nlmsg_pid : Z; nlmsg_seq : Z; nlmsg_flags : Z; nlmsg_type : Z; nl_error : Z }.
Inductive received := Failed (errno : Z) | Closed | Messages (ms : list nlmsg).

(** The messages of one buffer; [inl] is the result of the function.
    @src xdp_progs/xdp-firewall/xdpfwadm/bpf_standalone.c 482-511 bpf_netlink_recv *)
Fixpoint netlink_messages (nl_pid seq : Z) (ms : list nlmsg) (multipart : bool) : Z + bool :=
  match ms with
  | [] => inr multipart
  | nh :: ms =>
      if negb (nlmsg_pid nh =? nl_pid) then inl (-1) else
      if negb (nlmsg_seq nh =? seq) then inl (-1) else
      let multipart := nz (Z.land (nlmsg_flags nh) NLM_F_MULTI) || multipart in
      if nlmsg_type nh =? NLMSG_ERROR then
        if nl_error nh =? 0 then netlink_messages nl_pid seq ms multipart else inl (nl_error nh)
      else if nlmsg_type nh =? NLMSG_DONE then inl 0
      else netlink_messages nl_pid seq ms multipart
  end.
(** [answers] are the results of the calls of [recv]; [None] is a call that has not returned.
    @src xdp_progs/xdp-firewall/xdpfwadm/bpf_standalone.c 461-517 bpf_netlink_recv *)
Fixpoint bpf_netlink_recv (nl_pid seq : Z) (answers : list received) : option Z :=
  match answers with
  | [] => None
  | Failed errno :: _ => Some (- errno)
  | Closed :: _ => Some 0
  | Messages ms :: answers =>
      match netlink_messages nl_pid seq ms false with
      | inl ret => Some ret
      | inr true => bpf_netlink_recv nl_pid seq answers
      | inr false => Some 0
      end
  end.
(** [sock] is the result of [bpf_netlink_open], with the port; [sent] the error of [send], if
    any.  The result and the message that was sent.
    @src xdp_progs/xdp-firewall/xdpfwadm/bpf_standalone.c 519-580 bpf_set_link_xdp_fd *)
Definition bpf_set_link_xdp_fd (sock : Z * Z) (sent : option Z) (answers : list received) (ifindex fd flags : Z)
  : option (Z * list Z) :=
  if ifindex <? 0 then Some (-1, []) else
  if sock.1 <? 0 then Some (sock.1, []) else
  match sent with
  | Some errno => Some (- errno, [])
  | None => ret ← bpf_netlink_recv sock.2 1 answers; Some (ret, set_link_request ifindex fd flags)
  end.

(** How an attribute is read: its type, its bytes, and what follows. *)
Definition read_attr (bs : list Z) : option (Z * list Z * list Z) :=
  len ← le_join <$> slice 0 2 bs;
  type ← le_join <$> slice 2 2 bs;
  payload ← slice 4 (Z.to_nat (len - 4)) bs;
  Some (type, payload, drop (Z.to_nat len) bs).

Lemma read_nlattr type bytes rest : is_u16 type -> zlen bytes + 4 < 65536 ->
  read_attr (nlattr type bytes ++ rest) = Some (type, bytes, rest).
Proof.
  intros Ht Hl. assert (0 <= zlen bytes) by (unfold zlen; lia). unfold read_attr, nlattr. rewrite <- !app_assoc.
  assert (Hz : 4 + zlen bytes <= zlen (le_split 2 (4 + zlen bytes) ++ le_split 2 type ++ bytes ++ rest)).
  { rewrite !zlen_app. unfold zlen. rewrite !length_le_split. lia. }
  rewrite (slice_some 0 2) by lia. cbn [fmap option_fmap option_map mbind option_bind].
  rewrite (slice_some 2 2) by lia. cbn [fmap option_fmap option_map mbind option_bind].
  change (le_join (take 2 (drop (Z.to_nat 0) (le_split 2 (4 + zlen bytes) ++ le_split 2 type ++ bytes ++ rest))))
    with (le_join (le_split 2 (4 + zlen bytes))).
  change (le_join (take 2 (drop (Z.to_nat 2) (le_split 2 (4 + zlen bytes) ++ le_split 2 type ++ bytes ++ rest))))
    with (le_join (le_split 2 type)).
  rewrite !le_join_split. change (256 ^ Z.of_nat 2) with 65536. rewrite !Z.mod_small by (unfold is_u16 in Ht; lia).
  rewrite slice_some by lia. cbn [mbind option_bind].
  change (drop (Z.to_nat 4) (le_split 2 (4 + zlen bytes) ++ le_split 2 type ++ bytes ++ rest)) with (bytes ++ rest).
  replace (Z.to_nat (4 + zlen bytes - 4)) with (length bytes) by (unfold zlen; lia).
  replace (Z.to_nat (4 + zlen bytes)) with (S (S (S (S (length bytes))))) by (unfold zlen; lia).
  cbn [le_split app drop]. now rewrite take_app_length, drop_app_length.
Qed.

(** The kernel reads what was asked for: the length of the message, the interface, and in the
    nested attribute the descriptor and, when there are any, the flags. *)
Lemma set_link_roundtrip ifindex x flags :
  is_u32 ifindex -> is_u32 x -> is_u32 flags ->
  let msg := set_link_request ifindex x flags in
  le_join (take 4 msg) = zlen msg /\ le_join (take 4 (drop 20 msg)) = ifindex /\
  exists nested, read_attr (drop 32 msg) = Some (Z.lor NLA_F_NESTED IFLA_XDP, nested, []) /\
  read_attr nested = Some (IFLA_XDP_FD, le_split 4 x, if nz flags then nlattr IFLA_XDP_FLAGS (le_split 4 flags) else []) /\
  le_join (le_split 4 x) = x /\ le_join (le_split 4 flags) = flags.
Proof.
  intros Hi Hx Hf msg. assert (H4 : forall v, is_u32 v -> le_join (le_split 4 v) = v).
  { intros v Hv. rewrite le_join_split. apply Z.mod_small. exact Hv. }
  set (nested := nlattr IFLA_XDP_FD (le_split 4 x) ++ (if nz flags then nlattr IFLA_XDP_FLAGS (le_split 4 flags) else [])).
  assert (E : msg = le_split 4 (zlen msg) ++ le_split 2 RTM_SETLINK ++ le_split 2 (Z.lor NLM_F_REQUEST NLM_F_ACK)
    ++ le_split 4 1 ++ le_split 4 0 ++ [0; 0; 0; 0] ++ le_split 4 ifindex ++ replicate 8 0
    ++ nlattr (Z.lor NLA_F_NESTED IFLA_XDP) nested ++ []).
  { unfold msg, set_link_request, nested. destruct (nz flags); reflexivity. }
  assert (Hz : is_u32 (zlen msg)) by (unfold msg, set_link_request; destruct (nz flags); split; vm_compute; congruence).
  split; [rewrite E at 1; now apply H4|]. split; [rewrite E; now apply H4|]. exists nested. rewrite E. split.
  - apply read_nlattr; [split; vm_compute; congruence|]. unfold nested. destruct (nz flags); reflexivity.
  - split; [|auto]. apply read_nlattr; [split; vm_compute; congruence|reflexivity].
Qed.

(** An acknowledgement, alone in its buffer, is success; an error is returned as it is. *)
Lemma netlink_ack nl_pid seq flags e answers : Z.land flags NLM_F_MULTI = 0 ->
  bpf_netlink_recv nl_pid seq (Messages [NlMsg nl_pid seq flags NLMSG_ERROR e] :: answers) = Some e.
Proof.
  intros Hfl. cbn [bpf_netlink_recv netlink_messages nlmsg_pid nlmsg_seq nlmsg_flags nlmsg_type nl_error].
  rewrite !Z.eqb_refl, Hfl. cbn [negb]. destruct (Z.eqb_spec e 0) as [->|]; reflexivity.
Qed.
