(* ===== verification/XdpFwAdmin.v ===== *)
(** * The control plane of the firewall (xdp_progs/xdp-firewall/xdpfwadm)

    The tool that loads the firewall of XdpFirewall.v and edits its rules through the maps it
    has pinned, and the composition with the program: the verdict on a packet after any
    interleaving of commands and packets. *)
From Stdlib Require Import ZArith Lia Ascii String.
From stdpp Require Import base numbers list option gmap.
From S2P Require Import Prelude CLib Xdp OnesComplement XdpRun XdpFirewall.
#[local] Open Scope Z_scope.
#[local] Open Scope list_scope.

(** ** Data *)

Definition MAX_RULES : Z := 32768.
Definition NR_VRIDS : Z := 256.

(** A per-CPU map is one map per CPU, all with the same keys. *)
Abbreviation rules := (list (gmap fw_flow_key Z)).
Abbreviation vrids := (list (gmap Z vrrp_filter_t)).

(** The kernel: the maps that have been created, which of them the two paths under /sys/fs/bpf
    name, and the maps of the program on each interface, [None] if it was loaded without maps. *)
Record fw_world := FwWorld {
  l3_objs : list rules; vrid_objs : list vrids; pin_l3 : option nat; pin_vrid : option nat;
  links : gmap Z (option (nat * nat))
}.
#[global] Instance eta_fw_world : Eta fw_world := fun w =>
  FwWorld (l3_objs w) (vrid_objs w) (pin_l3 w) (pin_vrid w) (links w).

(** What one run of the tool meets: whether the object has a section named maps (the objects of
    this repository do not, their section is .maps), the paths are on a BPF file system, the
    object file loads, pinning succeeds and the link accepts the program; and the two variables
    that are not initialised, the values of a new rule and the first key of a listing. *)
Record fw_host := FwHost {
  e_maps : bool; e_bpffs : bool; e_elf : bool; e_pin : bool; e_link : bool; e_values : list Z; e_key : fw_flow_key
}.

(** @src xdp_progs/xdp-firewall/xdpfwadm/xdp_fw.h 24-33 XDPFW_LOAD_BPF *)
Inductive fw_action := LOAD_BPF | UNLOAD_BPF | RULE_ADD | RULE_DEL | RULE_LIST | VRID_ADD | VRID_DEL | VRID_LIST.
#[global] Instance fw_action_dec : EqDecision fw_action.
Proof. solve_decision. Defined.

(** The variables that the command line sets.
    @src xdp_progs/xdp-firewall/xdpfwadm/main.c 43-47 bpf_file *)
Record fw_options := FwOptions {
  bpf_file : option string; ip_str : option string; ifindex : Z; vrrp_vrid : Z; action : fw_action
}.
#[global] Instance eta_fw_options : Eta fw_options := fun o =>
  FwOptions (bpf_file o) (ip_str o) (ifindex o) (vrrp_vrid o) (action o).

(** What the listings print. *)
Inductive line :=
  | Rule (proto : Z) (addr : list Z)
  | Vrid (id action drop_packets total_packets drop_bytes total_bytes : Z).

Section admin.
Context `{Inet6} (nr_cpus : nat).

(** ** Loading *)

(** The map that a path names is used, a new one created otherwise; [init] is an empty one.
    @src xdp_progs/xdp-firewall/xdpfwadm/bpf_standalone.c 620-662 load_maps *)
Definition load_map {A} (objs : list A) (pin : option nat) (init : A) : nat * list A :=
  match pin with
  | Some id => (id, objs)
  | None => (length objs, objs ++ [init])
  end.
(** A map that was not found is exported.
    @src xdp_progs/xdp-firewall/xdpfwadm/main.c 162-172 xdpfw_map_load *)
Definition export_map (ok : bool) (pin : option nat) (id : nat) : option nat :=
  match pin with
  | Some id => Some id
  | None => if ok then Some id else None
  end.
(** [None] is an exit with -1.  Without a section named maps no map is looked for, created or
    relocated (bpf_standalone.c:920-950), and the export fails, because the descriptors are 0.
    @src xdp_progs/xdp-firewall/xdpfwadm/main.c 177-202 xdpfw_load *)
Definition xdpfw_load (e : fw_host) (o : fw_options) (w : fw_world) : option fw_world :=
  match bpf_file o with
  | None => None
  | Some _ =>
      if negb (e_maps e) then
        if e_elf e then Some (if e_link e then w <| links := <[ifindex o := None]> (links w) |> else w) else None
      else if negb (e_bpffs e && e_elf e) then None else
      let '(l3, l3s) := load_map (l3_objs w) (pin_l3 w) (replicate nr_cpus ∅) in
      let '(vr, vrs) := load_map (vrid_objs w) (pin_vrid w) (replicate nr_cpus ∅) in
      Some (FwWorld l3s vrs (export_map (e_pin e) (pin_l3 w) l3) (export_map (e_pin e) (pin_vrid w) vr)
              (if e_link e then <[ifindex o := Some (l3, vr)]> (links w) else links w))
  end.

(** @src xdp_progs/xdp-firewall/xdpfwadm/main.c 52-69 xdpfw_unload *)
Definition xdpfw_unload (o : fw_options) (w : fw_world) : fw_world :=
  FwWorld (l3_objs w) (vrid_objs w) None None (delete (ifindex o) (links w)).

(** ** Rules *)

(** @src xdp_progs/xdp-firewall/xdpfwadm/main.c 213-231 xdpfw_rule *)
Definition rule_key (ip_str : string) : option fw_flow_key :=
  match strchr ":"%char ip_str with
  | Some _ => addr ← inet_pton6 ip_str; Some (FwFlowKey addr ETH_P_IPV6)
  | None => bytes ← inet_pton4 ip_str; Some (FwFlowKey [le_join bytes; 0; 0; 0] ETH_P_IP)
  end.

(** [bpf_map_update_elem] with BPF_NOEXIST and [bpf_map_delete_elem] on a per-CPU hash map. *)
Definition percpu_insert (key : fw_flow_key) (values : list Z) (m : rules) : option rules :=
  match m with
  | [] => None
  | m0 :: _ =>
      if bool_decide (is_Some (m0 !! key)) then None
      else if Z.of_nat (size m0) >=? MAX_RULES then None
      else Some (imap (fun cpu g => <[key := nth cpu values 0]> g) m)
  end.
Definition percpu_delete (key : fw_flow_key) (m : rules) : option rules :=
  match m with
  | [] => None
  | m0 :: _ => if bool_decide (is_Some (m0 !! key)) then Some (map (delete key) m) else None
  end.

(** The result and the world.
    @src xdp_progs/xdp-firewall/xdpfwadm/main.c 204-254 xdpfw_rule *)
Definition xdpfw_rule (e : fw_host) (o : fw_options) (w : fw_world) : Z * fw_world :=
  match ip_str o with
  | None => (-1, w)
  | Some ip_str =>
      match rule_key ip_str with
      | None => (-1, w)
      | Some key =>
          match pin_l3 w with
          | None => (-1, w)
          | Some fd =>
              match l3_objs w !! fd with
              | None => (-1, w)
              | Some m =>
                  let r := if decide (action o = RULE_ADD) then percpu_insert key (e_values e) m
                           else percpu_delete key m in
                  match r with
                  | None => (-1, w)
                  | Some m => (0, w <| l3_objs := <[fd := m]> (l3_objs w) |>)
                  end
              end
          end
      end
  end.

(** The successor of [key] in the order [keys] of the map, the first key if there is none such. *)
Fixpoint get_next_key (keys : list fw_flow_key) (key : fw_flow_key) : option fw_flow_key :=
  match keys with
  | [] => None
  | k :: rest => if decide (k = key) then head rest else get_next_key rest key
  end.
Definition map_get_next_key (keys : list fw_flow_key) (key : fw_flow_key) : option fw_flow_key :=
  if decide (key ∈ keys) then get_next_key keys key else head keys.
(** The loop, at most [fuel] turns.
    @src xdp_progs/xdp-firewall/xdpfwadm/main.c 273-284 xdpfw_rule_list *)
Fixpoint list_rules (fuel : nat) (keys : list fw_flow_key) (key : fw_flow_key) : list line :=
  match fuel with
  | O => []
  | S fuel =>
      match map_get_next_key keys key with
      | None => []
      | Some key => Rule (fw_proto key) (addr6 key) :: list_rules fuel keys key
      end
  end.
(** [keys] is the order in which the kernel walks the map.
    @src xdp_progs/xdp-firewall/xdpfwadm/main.c 256-288 xdpfw_rule_list *)
Definition xdpfw_rule_list (e : fw_host) (w : fw_world) : Z * list line :=
  match fd ← pin_l3 w; l3_objs w !! fd with
  | None => (-1, [])
  | Some m =>
      let keys := map fst (map_to_list (default ∅ (head m))) in
      (0, list_rules (length keys) keys (e_key e))
  end.

(** ** Router ids *)

(** @src xdp_progs/xdp-firewall/xdpfwadm/main.c 290-322 xdpfw_vrid *)
Definition xdpfw_vrid (o : fw_options) (w : fw_world) : Z * fw_world :=
  let vrid := u32 (vrrp_vrid o) in
  match fd ← pin_vrid w; m ← vrid_objs w !! fd; Some (fd, m) with
  | None => (-1, w)
  | Some (fd, m) =>
      let rule := VrrpFilter (if decide (action o = VRID_ADD) then 1 else 0) 0 0 0 0 in
      if vrid >=? NR_VRIDS then (-1, w)
      else (0, w <| vrid_objs := <[fd := map (<[vrid := rule]>) m]> (vrid_objs w) |>)
  end.

(** The sums over the CPUs; the action is that of the last one.
    @src xdp_progs/xdp-firewall/xdpfwadm/main.c 324-346 xdpfw_vrid_get_stats_percpu *)
Definition xdpfw_vrid_get_stats_percpu (m : vrids) (key : Z) : vrrp_filter_t :=
  foldl (fun acc g =>
    let r := default vrrp_zero (g !! key) in
    VrrpFilter (vf_action r) (u64 (vf_drop_packets acc + vf_drop_packets r))
      (u64 (vf_total_packets acc + vf_total_packets r)) (u64 (vf_drop_bytes acc + vf_drop_bytes r))
      (u64 (vf_total_bytes acc + vf_total_bytes r))) vrrp_zero m.
(** @src xdp_progs/xdp-firewall/xdpfwadm/main.c 348-378 xdpfw_vrid_list *)
Definition xdpfw_vrid_list (w : fw_world) : Z * list line :=
  match fd ← pin_vrid w; vrid_objs w !! fd with
  | None => (-1, [])
  | Some m =>
      (0, flat_map (fun i : nat =>
            let '(VrrpFilter action dp tp db tb) := xdpfw_vrid_get_stats_percpu m (Z.of_nat i) in
            if nz dp || nz tp || nz db || nz tb then [Vrid (Z.of_nat i) action dp tp db tb] else [])
            (seq 0 256))
  end.

(** ** The command line *)

(** [None] is the exit of a load that fails.  The results of the actions are not looked at.
    @src xdp_progs/xdp-firewall/xdpfwadm/main.c 380-409 xdpfw_action *)
Definition xdpfw_action (e : fw_host) (o : fw_options) (w : fw_world) : option (fw_world * list line) :=
  match action o with
  | LOAD_BPF => w ← xdpfw_load e o w; Some (w, [])
  | UNLOAD_BPF => Some (xdpfw_unload o w, [])
  | RULE_ADD | RULE_DEL => Some ((xdpfw_rule e o w).2, [])
  | RULE_LIST => Some (w, (xdpfw_rule_list e w).2)
  | VRID_ADD | VRID_DEL => Some ((xdpfw_vrid o w).2, [])
  | VRID_LIST => Some (w, (xdpfw_vrid_list w).2)
  end.

(** One result of [getopt_long]: the option, whether it was a long one that takes an argument,
    and the argument. *)
Record fw_arg := FwArg { a_opt : ascii; a_long : bool; a_arg : option string }.
Inductive parsed := Continue (o : fw_options) (bad_option : bool) | Exit (code : Z).

(** One turn of the loop.
    @src xdp_progs/xdp-firewall/xdpfwadm/main.c 457-526 parse_cmdline *)
Definition parse_arg (o : fw_options) (bad_option : bool) (a : fw_arg) : parsed :=
  let empty := a_long a && match a_arg a with Some s => is_empty s | None => false end in
  let optarg := if empty then None else a_arg a in
  match (if empty then ":"%char else a_opt a) with
  | "h"%char => Exit 0
  | "l"%char => let o := o <| action := LOAD_BPF |> in Continue (o <| bpf_file := optarg |>) bad_option
  | "u"%char => let o := o <| action := UNLOAD_BPF |> in Continue (o <| bpf_file := optarg |>) bad_option
  | "i"%char => Continue (o <| ifindex := atoi (default EmptyString optarg) |>) bad_option
  | "a"%char => let o := o <| action := RULE_ADD |> in Continue (o <| ip_str := optarg |>) bad_option
  | "d"%char => let o := o <| action := RULE_DEL |> in Continue (o <| ip_str := optarg |>) bad_option
  | "L"%char => Continue (o <| action := RULE_LIST |>) bad_option
  | "A"%char => let o := o <| action := VRID_ADD |> in
                Continue (o <| vrrp_vrid := atoi (default EmptyString optarg) |>) bad_option
  | "D"%char => let o := o <| action := VRID_DEL |> in
                Continue (o <| vrrp_vrid := atoi (default EmptyString optarg) |>) bad_option
  | "V"%char => Continue (o <| action := VRID_LIST |>) bad_option
  | "?"%char | ":"%char => Continue o true
  | _ => Exit 1
  end.
(** The loop.
    @src xdp_progs/xdp-firewall/xdpfwadm/main.c 454-528 parse_cmdline *)
Fixpoint parse_args (o : fw_options) (bad_option : bool) (args : list fw_arg) : parsed :=
  match args with
  | [] => Continue o bad_option
  | a :: args =>
      match parse_arg o bad_option a with
      | Continue o bad_option => parse_args o bad_option args
      | Exit code => Exit code
      end
  end.
Definition fw_default : fw_options := FwOptions None None 0 0 LOAD_BPF.
(** The exit code, the world and what is printed.
    @src xdp_progs/xdp-firewall/xdpfwadm/main.c 433-552 parse_cmdline *)
Definition main (e : fw_host) (args : list fw_arg) (w : fw_world) : Z * fw_world * list line :=
  match parse_args fw_default false args with
  | Exit code => (code, w, [])
  | Continue o true => (1, w, [])
  | Continue o false =>
      match xdpfw_action e o w with
      | Some (w, out) => (0, w, out)
      | None => (255, w, [])
      end
  end.
End admin.

(** ** The program under the tool *)

(** An IPv4 packet behind up to two VLAN tags; [p_l4] is all that follows the first 20 bytes of
    its header. *)
Record fw_packet := FwPacket {
  p_dst : list Z; p_src : list Z; p_tags : list vlan_tag; p_iph : list Z; p_l4 : list Z;
  p_head : list Z; p_tail : list Z
}.
Definition packet_frame (p : fw_packet) : frame :=
  Frame (p_head p) (eth_header (p_dst p ++ p_src p) (p_tags p) ETH_P_IP ++ p_iph p ++ p_l4 p) (p_tail p).
Definition packet_ok (p : fw_packet) : Prop :=
  length (p_dst p) = 6%nat /\ length (p_src p) = 6%nat /\ bytes_ok (p_dst p) /\ bytes_ok (p_src p) /\
  Forall (fun t => is_vlan (tpid t)) (p_tags p) /\ (length (p_tags p) <= 2)%nat /\
  length (p_iph p) = 20%nat /\ bytes_ok (p_l4 p).

(** The program of an interface on one CPU, with the maps of that CPU; [None] if there is no
    program or it has no maps. *)
Definition run_packet (w : fw_world) (ifx : Z) (cpu : nat) (f : frame) : option (Z * fw_world) :=
  m ← links w !! ifx; '(l3, vr) ← m;
  ls ← l3_objs w !! l3; vs ← vrid_objs w !! vr;
  g ← ls !! cpu; h ← vs !! cpu;
  '(v, s) ← xdp_firewall (Xst f (FwMaps g h) 0);
  Some (v, w <| l3_objs := <[l3 := <[cpu := l3_filter (x_env s)]> ls]> (l3_objs w) |>
             <| vrid_objs := <[vr := <[cpu := vrrp_vrid_filter (x_env s)]> vs]> (vrid_objs w) |>).

Inductive fw_event :=
  | Command (e : fw_host) (args : list fw_arg)
  | Packet (ifx : Z) (cpu : nat) (p : fw_packet).

(** Commands and packets in the order in which they happen; a packet on an interface without a
    program has no verdict. *)
Fixpoint run_events `{Inet6} (nr_cpus : nat) (w : fw_world) (evs : list fw_event) : list (option Z) * fw_world :=
  match evs with
  | [] => ([], w)
  | Command e args :: evs => run_events nr_cpus (main nr_cpus e args w).1.2 evs
  | Packet ifx cpu p :: evs =>
      let '(v, w) := match run_packet w ifx cpu (packet_frame p) with
                     | Some (v, w) => (Some v, w) | None => (None, w) end in
      let '(vs, w) := run_events nr_cpus w evs in (v :: vs, w)
  end.

(** ** The policy *)

(** The command line as a user means it: the last argument of the options [cs], and the action of
    the last option that names one.  An option that is not known, a request for help, or an
    argument that is missing makes the command do nothing. *)
Definition letter (a : fw_arg) : ascii :=
  if a_long a && bool_decide (a_arg a = Some EmptyString) then ":"%char else a_opt a.
Definition among (cs : string) (a : fw_arg) : bool := bool_decide (letter a ∈ list_ascii_of_string cs).
Definition last_among (cs : string) (args : list fw_arg) : option fw_arg := last (filter (among cs) args).
Definition action_of (c : ascii) : fw_action :=
  match c with
  | "u"%char => UNLOAD_BPF | "a"%char => RULE_ADD | "d"%char => RULE_DEL | "L"%char => RULE_LIST
  | "A"%char => VRID_ADD | "D"%char => VRID_DEL | "V"%char => VRID_LIST | _ => LOAD_BPF
  end.
Definition numeric (a : fw_arg) : Z := atoi (default EmptyString (a_arg a)).
Definition asked_from (o : fw_options) (args : list fw_arg) : fw_options :=
  FwOptions (from_option a_arg (bpf_file o) (last_among "lu" args))
    (from_option a_arg (ip_str o) (last_among "ad" args))
    (from_option numeric (ifindex o) (last_among "i" args))
    (from_option numeric (vrrp_vrid o) (last_among "AD" args))
    (from_option (fun a => action_of (letter a)) (action o) (last_among "luadLADV" args)).
Definition understood (args : list fw_arg) : bool := forallb (among "luiadLADV") args.

(** What an administrator thinks of: sets of rules, each with the destinations that are denied
    and the router ids that are allowed; the set that commands change, and the set that each
    interface is filtered by. *)
Record fw_policy := FwPolicy {
  rule_sets : list (gset fw_flow_key * gset Z); current : option nat; filtered : gmap Z nat
}.
#[global] Instance eta_fw_policy : Eta fw_policy := fun p =>
  FwPolicy (rule_sets p) (current p) (filtered p).
Definition no_policy : fw_policy := FwPolicy [] None ∅.

Definition edit (g : gset fw_flow_key * gset Z -> gset fw_flow_key * gset Z) (pol : fw_policy) : fw_policy :=
  match current pol with
  | Some id => pol <| rule_sets := alter g id (rule_sets pol) |>
  | None => pol
  end.
Definition deny (key : fw_flow_key) (s : gset fw_flow_key * gset Z) : gset fw_flow_key * gset Z :=
  if Z.of_nat (size s.1) <? MAX_RULES then ({[key]} ∪ s.1, s.2) else s.
(** An interface is filtered by the current set, a new one if there is none; a set becomes the
    current one when its maps can be pinned. *)
Definition filter_interface (e : fw_host) (ifx : Z) (pol : fw_policy) : fw_policy :=
  let '(id, pol) :=
    match current pol with
    | Some id => (id, pol)
    | None => let id := length (rule_sets pol) in
              (id, FwPolicy (rule_sets pol ++ [(∅, ∅)]) (if e_pin e then Some id else None) (filtered pol))
    end in
  if e_link e then pol <| filtered := <[ifx := id]> (filtered pol) |> else pol.
Definition policy_load (e : fw_host) (ifx : Z) (pol : fw_policy) : fw_policy :=
  if negb (e_elf e) then pol
  else if negb (e_maps e) then
    if e_link e then pol <| filtered := delete ifx (filtered pol) |> else pol
  else if e_bpffs e then filter_interface e ifx pol else pol.
Definition policy_action `{Inet6} (e : fw_host) (o : fw_options) (pol : fw_policy) : fw_policy :=
  let key := s ← ip_str o; rule_key s in
  let id := u32 (vrrp_vrid o) in
  match action o with
  | LOAD_BPF => match bpf_file o with Some _ => policy_load e (ifindex o) pol | None => pol end
  | UNLOAD_BPF => FwPolicy (rule_sets pol) None (delete (ifindex o) (filtered pol))
  | RULE_ADD => from_option (fun key => edit (deny key) pol) pol key
  | RULE_DEL => from_option (fun key => edit (fun s => (s.1 ∖ {[key]}, s.2)) pol) pol key
  | VRID_ADD => if id <? NR_VRIDS then edit (fun s => (s.1, {[id]} ∪ s.2)) pol else pol
  | VRID_DEL => if id <? NR_VRIDS then edit (fun s => (s.1, s.2 ∖ {[id]})) pol else pol
  | RULE_LIST | VRID_LIST => pol
  end.
Definition policy_command `{Inet6} (e : fw_host) (args : list fw_arg) (pol : fw_policy) : fw_policy :=
  if understood args then policy_action e (asked_from fw_default args) pol else pol.
Definition policy_verdict (s : gset fw_flow_key * gset Z) (p : fw_packet) : Z :=
  match vrrp_at (nth 9 (p_iph p) 0) (p_l4 p) with
  | inl v => v
  | inr k =>
      if decide (FwFlowKey [le_join (drop 16 (p_iph p)); 0; 0; 0] ETH_P_IP ∈ s.1) then XDP_DROP
      else match k with
           | Some k => if decide (nth (S k) (p_l4 p) 0 ∈ s.2) then XDP_TX else XDP_DROP
           | None => XDP_TX
           end
  end.
Fixpoint policy_verdicts `{Inet6} (pol : fw_policy) (evs : list fw_event) : list (option Z) :=
  match evs with
  | [] => []
  | Command e args :: evs => policy_verdicts (policy_command e args pol) evs
  | Packet ifx _ p :: evs =>
      (id ← filtered pol !! ifx; s ← rule_sets pol !! id; Some (policy_verdict s p)) :: policy_verdicts pol evs
  end.

(** ** The command line *)

Lemma last_among_cons cs a args :
  last_among cs (a :: args) = from_option Some (if among cs a then Some a else None) (last_among cs args).
Proof.
  unfold last_among. rewrite filter_cons. destruct (among cs a); cbn [Is_true].
  - rewrite decide_True, last_cons by done. now destruct (last _).
  - rewrite decide_False by auto. now destruct (last _).
Qed.
Lemma asked_from_cons o a args : asked_from o (a :: args) = asked_from (asked_from o [a]) args.
Proof.
  unfold asked_from. cbn [bpf_file ip_str ifindex vrrp_vrid action]. rewrite !(last_among_cons _ a).
  f_equal; match goal with |- context [last_among ?cs args] => destruct (last_among cs args) end; reflexivity.
Qed.
Lemma from_option_if {A B} (f : A -> B) d (b : bool) a : from_option f d (if b then Some a else None) = if b then f a else d.
Proof. now destruct b. Qed.
Lemma letter_empty a :
  (a_long a && match a_arg a with Some s => is_empty s | None => false end)
  = a_long a && bool_decide (a_arg a = Some EmptyString).
Proof. destruct (a_arg a) as [[|c s]|]; [done| |done]. now rewrite bool_decide_false. Qed.

(** One option: its letter is one of those that are known, or the loop ends or remembers it. *)
Lemma parse_arg_understood o bad a :
  parse_arg o bad a = (if among "luiadLADV" a then Continue (asked_from o [a]) bad
                       else if among "?:" a then Continue o true
                       else Exit (if among "h" a then 0 else 1)).
Proof.
  unfold parse_arg, asked_from. rewrite !last_among_cons, letter_empty. fold (letter a).
  cbn [last_among filter list_filter last from_option]. rewrite !from_option_if.
  assert (Ha : (if a_long a && bool_decide (a_arg a = Some EmptyString) then None else a_arg a) = a_arg a
               \/ letter a = ":"%char) by (unfold letter; destruct (a_long a && _); auto).
  unfold among, numeric. destruct Ha as [-> | ->]; [|reflexivity].
  destruct o as [bf ip ix vr ac]. destruct (letter a) as [[] [] [] [] [] [] [] []]; reflexivity.
Qed.
Lemma parse_args_understood o bad args :
  (understood args = true -> parse_args o bad args = Continue (asked_from o args) bad) /\
  (understood args = false -> forall o', parse_args o bad args <> Continue o' false).
Proof.
  unfold understood. revert o bad. induction args as [|a args IH]; intros o bad; cbn [forallb parse_args].
  - split; [|discriminate]. intros _. now destruct o.
  - rewrite parse_arg_understood. destruct (among "luiadLADV" a); cbn [andb].
    + rewrite (asked_from_cons o a args). apply IH.
    + split; [discriminate|]. intros _. destruct (among "?:" a); [|discriminate].
      clear IH. revert o. induction args as [|b args IHb]; intros o o'; cbn [parse_args]; [discriminate|].
      rewrite parse_arg_understood. repeat case_match; simplify_eq; eauto; discriminate.
Qed.

(** ** The maps implement the policy *)

(** The maps of one set of rules: the same on every CPU, up to the counters. *)
Definition allows (al : gset Z) (h : gmap Z vrrp_filter_t) : Prop :=
  forall id, vf_action (default vrrp_zero (h !! id)) <> 0 <-> id ∈ al.
Definition set_ok (nr_cpus : nat) (s : gset fw_flow_key * gset Z) (ls : rules) (vs : vrids) : Prop :=
  (length ls = nr_cpus /\ length vs = nr_cpus) /\
  Forall (fun g : gmap fw_flow_key Z => dom g = s.1) ls /\ Forall (allows s.2) vs.
(** The set that an interface is filtered by has its maps, and they are those of its program. *)
Definition link_ok (w : fw_world) (pol : fw_policy) (ifx : Z) : Prop :=
  match links w !! ifx with
  | Some (Some (l3, vr)) => l3 = vr /\ filtered pol !! ifx = Some l3 /\ (l3 < length (rule_sets pol))%nat
  | _ => filtered pol !! ifx = None
  end.
Record implements (nr_cpus : nat) (w : fw_world) (pol : fw_policy) : Prop := {
  impl_sets : Forall3 (set_ok nr_cpus) (rule_sets pol) (l3_objs w) (vrid_objs w);
  impl_pin : pin_l3 w = current pol /\ pin_vrid w = current pol;
  impl_current : forall id, current pol = Some id -> (id < length (rule_sets pol))%nat;
  impl_links : forall ifx, link_ok w pol ifx
}.

Lemma implements_nothing nr_cpus : implements nr_cpus (FwWorld [] [] None None ∅) no_policy.
Proof. split; try constructor; cbn; try done. Qed.

Lemma Forall3_edit {A B C} (R : A -> B -> C -> Prop) f y z ls ms ns i :
  Forall3 R ls ms ns -> (forall x, ls !! i = Some x -> R (f x) y z) ->
  Forall3 R (alter f i ls) (<[i := y]> ms) (<[i := z]> ns).
Proof.
  intros HF. revert i. induction HF as [|a b c ls ms ns Hr HF IH]; intros [|i] Hx; constructor; auto.
Qed.

(** The current set and its maps are changed alike. *)
Lemma implements_edit nr_cpus w pol g fd ls vs :
  implements nr_cpus w pol -> current pol = Some fd ->
  (forall s, rule_sets pol !! fd = Some s -> set_ok nr_cpus (g s) ls vs) ->
  implements nr_cpus (FwWorld (<[fd := ls]> (l3_objs w)) (<[fd := vs]> (vrid_objs w)) (pin_l3 w) (pin_vrid w) (links w))
    (edit g pol).
Proof.
  intros [Hs Hp Hc Hl] Hfd Hg. unfold edit. rewrite Hfd. split; cbn.
  - now apply Forall3_edit.
  - now rewrite <- Hfd.
  - intros id. rewrite length_alter, <- Hfd. apply Hc.
  - intros ifx. specialize (Hl ifx). unfold link_ok in *. cbn. now rewrite length_alter.
Qed.
Lemma edit_id pol id g s :
  current pol = Some id -> rule_sets pol !! id = Some s -> g s = s -> edit g pol = pol.
Proof.
  intros Hid Hs Hg. unfold edit. rewrite Hid. destruct pol as [sets c f]. cbn in *. subst c.
  change (FwPolicy (alter g id sets) (Some id) f = FwPolicy sets (Some id) f). f_equal.
  apply list_eq. intros i. destruct (decide (i = id)) as [->|Hne].
  - now rewrite list_lookup_alter_eq, Hs; cbn; rewrite Hg.
  - now rewrite list_lookup_alter_ne.
Qed.

(** The set and the maps that the paths name. *)
Lemma implements_current nr_cpus w pol :
  implements nr_cpus w pol ->
  match current pol with
  | None => pin_l3 w = None /\ pin_vrid w = None
  | Some fd => pin_l3 w = Some fd /\ pin_vrid w = Some fd /\
      exists s ls vs, rule_sets pol !! fd = Some s /\ l3_objs w !! fd = Some ls /\ vrid_objs w !! fd = Some vs
        /\ set_ok nr_cpus s ls vs
  end.
Proof.
  intros [Hs [H1 H2] Hc _]. destruct (current pol) as [fd|] eqn:E; [|done]. split_and!; [done|done|].
  destruct (lookup_lt_is_Some_2 (rule_sets pol) fd) as [s Es]; [now apply Hc|].
  destruct (Forall3_lookup_l _ _ _ _ _ _ Hs Es) as (ls & vs & El & Ev & Hok). eauto 10.
Qed.

(** ** The program implements the verdict *)

Lemma decide_policy s g h p len :
  dom g = s.1 -> allows s.2 h ->
  let r := fw_ipv4 (FwMaps g h) (le_join (drop 16 (p_iph p))) len (nth 9 (p_iph p) 0) (p_l4 p) in
  r.1 = policy_verdict s p /\ dom (l3_filter r.2) = s.1 /\ allows s.2 (vrrp_vrid_filter r.2).
Proof.
  intros Hg Hh r. unfold r, fw_ipv4, policy_verdict. destruct (vrrp_at _ _) as [v|k]; [done|].
  unfold fw_decide. cbv zeta. cbn [l3_filter vrrp_vrid_filter]. set (key := FwFlowKey _ _).
  assert (Hk : key ∈ s.1 <-> is_Some (g !! key)) by (rewrite <- Hg; apply elem_of_dom).
  destruct (g !! key) as [c|] eqn:E.
  - rewrite decide_True by (apply Hk; eauto). cbn [fst snd set_l3 l3_filter vrrp_vrid_filter].
    split_and!; [done| |done]. rewrite dom_insert_L, <- Hg.
    assert (key ∈ dom g) by (apply elem_of_dom; eauto). clear Hk. set_solver.
  - rewrite decide_False by (rewrite Hk; intros [? ?]; discriminate).
    destruct k as [k|]; [|done]. cbn [option_map]. set (id := nth (S k) (p_l4 p) 0).
    pose proof (Hh id) as Hid. destruct (default vrrp_zero (h !! id)) as [ac dp tp db tb] eqn:Ed.
    cbn [vf_action] in Hid. destruct (Z.eqb_spec ac 0) as [Ez|Ez]; cbn [fst snd set_vrid l3_filter vrrp_vrid_filter].
    + rewrite decide_False by (intros Hin; now apply Hid in Hin). split_and!; [done|done|].
      intros j. destruct (decide (j = id)) as [->|]; [|rewrite lookup_insert_ne by done; apply Hh].
      rewrite lookup_insert_eq. exact Hid.
    + rewrite decide_True by now apply Hid. split_and!; [done|done|].
      intros j. destruct (decide (j = id)) as [->|]; [|rewrite lookup_insert_ne by done; apply Hh].
      rewrite lookup_insert_eq. exact Hid.
Qed.

Lemma set_ok_insert nr_cpus s ls vs cpu g h :
  set_ok nr_cpus s ls vs -> dom g = s.1 -> allows s.2 h -> set_ok nr_cpus s (<[cpu := g]> ls) (<[cpu := h]> vs).
Proof.
  intros ((H1 & H2) & Hd & Ha) Hg Hh. unfold set_ok. rewrite !length_insert.
  split_and!; try done; apply Forall_insert; done.
Qed.

(** A packet on an interface: the verdict is that of its set, and only counters change. *)
Lemma implements_packet nr_cpus w pol ifx cpu p :
  implements nr_cpus w pol -> packet_ok p -> (cpu < nr_cpus)%nat ->
  match filtered pol !! ifx with
  | None => run_packet w ifx cpu (packet_frame p) = None
  | Some id => exists s w', rule_sets pol !! id = Some s
      /\ run_packet w ifx cpu (packet_frame p) = Some (policy_verdict s p, w') /\ implements nr_cpus w' pol
  end.
Proof.
  intros [Hs Hpin Hc Hl] (H1 & H2 & B1 & B2 & Ht & Hl2 & Hi & Hb) Hcpu.
  pose proof (Hl ifx) as Hx. unfold link_ok in Hx. unfold run_packet.
  destruct (links w !! ifx) as [[[id vr]|]|]; [|now rewrite Hx..].
  destruct Hx as (<- & -> & Hid). destruct (lookup_lt_is_Some_2 (rule_sets pol) id Hid) as [s Es].
  destruct (Forall3_lookup_l _ _ _ _ _ _ Hs Es) as (ls & vs & El & Ev & Hok).
  pose proof Hok as ((Hnl & Hnv) & Hden & Hall).
  destruct (lookup_lt_is_Some_2 ls cpu) as [g Hg]; [lia|].
  destruct (lookup_lt_is_Some_2 vs cpu) as [h Hh]; [lia|].
  destruct (firewall_ipv4_correct (Xst (packet_frame p) (FwMaps g h) 0)
              (p_dst p) (p_src p) (p_tags p) (p_iph p) (p_l4 p)) as [_ Hrun]; [done..|].
  cbv zeta in Hrun. cbn [x_env] in Hrun.
  destruct (decide_policy s g h p (bswap16 (le_join (take 2 (drop 2 (p_iph p)))))) as (Evd & Ed & Ea).
  { rewrite Forall_lookup in Hden. eauto. } { rewrite Forall_lookup in Hall. eauto. }
  set (r := fw_ipv4 _ _ _ _ _) in *. unfold runs in Hrun. exists s. eexists. split; [done|]. split.
  - cbn [mbind option_bind]. rewrite El, Ev. cbn [mbind option_bind]. rewrite Hg, Hh. cbn [mbind option_bind].
    rewrite Hrun, Evd. reflexivity.
  - split; [|exact Hpin|exact Hc|exact Hl]. cbn [l3_objs vrid_objs x_env set_data].
    assert (Hsets : alter (fun s => s) id (rule_sets pol) = rule_sets pol).
    { apply list_eq. intros i. destruct (decide (i = id)) as [->|].
      - rewrite list_lookup_alter_eq. now destruct (rule_sets pol !! id).
      - now rewrite list_lookup_alter_ne. }
    rewrite <- Hsets. apply Forall3_edit; [done|]. intros s' Es'. rewrite Es in Es'. injection Es' as <-.
    now apply set_ok_insert.
Qed.

(** ** The commands implement the policy *)

(** A new rule is in the maps of every CPU, or the maps stay as they are. *)
Lemma percpu_insert_dom key values (ls : rules) ds :
  ls <> [] -> Forall (fun g => dom g = ds) ls ->
  match percpu_insert key values ls with
  | Some ls' => length ls' = length ls /\ Forall (fun g => dom g = {[key]} ∪ ds) ls'
                /\ Z.of_nat (size ds) < MAX_RULES
  | None => key ∈ ds \/ MAX_RULES <= Z.of_nat (size ds)
  end.
Proof.
  destruct ls as [|m0 ls]; [done|]. intros _ Hd. unfold percpu_insert.
  pose proof (Forall_inv Hd) as H0. rewrite <- H0, size_dom.
  case_bool_decide as Hk; [left; now apply elem_of_dom|].
  destruct (Z.geb_spec (Z.of_nat (size m0)) MAX_RULES) as [Hs|Hs]; [now right|].
  rewrite length_imap. split_and!; [done| |lia]. rewrite H0. apply Forall_lookup. intros i g.
  rewrite list_lookup_imap. destruct ((m0 :: ls) !! i) as [g'|] eqn:Ei; [|discriminate].
  injection 1 as <-. rewrite dom_insert_L. f_equal. rewrite Forall_lookup in Hd. eauto.
Qed.
Lemma percpu_delete_dom key (ls : rules) ds :
  ls <> [] -> Forall (fun g => dom g = ds) ls ->
  match percpu_delete key ls with
  | Some ls' => length ls' = length ls /\ Forall (fun g => dom g = ds ∖ {[key]}) ls'
  | None => key ∉ ds
  end.
Proof.
  destruct ls as [|m0 ls]; [done|]. intros _ Hd. unfold percpu_delete.
  pose proof (Forall_inv Hd) as H0. case_bool_decide as Hk.
  - rewrite length_map. split; [done|]. apply Forall_map. eapply Forall_impl; [exact Hd|].
    intros g Hg. now rewrite dom_delete_L, Hg.
  - rewrite <- H0. now rewrite elem_of_dom.
Qed.

Lemma set_ok_nonempty nr_cpus s ls vs : (0 < nr_cpus)%nat -> set_ok nr_cpus s ls vs -> ls <> [].
Proof. intros Hn ((<- & _) & _) ->. cbn in Hn. lia. Qed.

Lemma implements_rule `{Inet6} nr_cpus w pol e o :
  (0 < nr_cpus)%nat -> action o = RULE_ADD \/ action o = RULE_DEL ->
  implements nr_cpus w pol -> implements nr_cpus (xdpfw_rule e o w).2 (policy_action e o pol).
Proof.
  intros Hn Ha Himp. pose proof (implements_current _ _ _ Himp) as Hcur.
  unfold xdpfw_rule, policy_action.
  destruct (ip_str o) as [str|]; [|destruct Ha as [-> | ->]; exact Himp].
  cbn [mbind option_bind]. destruct (rule_key str) as [key|]; [|destruct Ha as [-> | ->]; exact Himp].
  destruct (current pol) as [fd|] eqn:Ec.
  2: { destruct Hcur as [-> _]. unfold edit. rewrite Ec. destruct Ha as [-> | ->]; exact Himp. }
  destruct Hcur as (Hp1 & Hp2 & s & ls & vs & Es & El & Ev & Hok). rewrite Hp1, El.
  pose proof (set_ok_nonempty _ _ _ _ Hn Hok) as Hne. pose proof Hok as ((Hnl & Hnv) & Hden & Hall).
  assert (Hw : forall ls', w <| l3_objs := <[fd := ls']> (l3_objs w) |>
    = FwWorld (<[fd := ls']> (l3_objs w)) (<[fd := vs]> (vrid_objs w)) (pin_l3 w) (pin_vrid w) (links w))
    by (intros ls'; now rewrite (list_insert_id (vrid_objs w))).
  destruct Ha as [-> | ->]; cbn [from_option].
  - rewrite decide_True by done. pose proof (percpu_insert_dom key (e_values e) ls _ Hne Hden) as Hi.
    destruct (percpu_insert key (e_values e) ls) as [ls'|]; cbn [snd].
    + destruct Hi as (Eln & Hd & Hs). rewrite <- Hp1, Hw. apply implements_edit; [done..|].
      intros s' Es'. rewrite Es in Es'. injection Es' as <-. unfold deny. rewrite (proj2 (Z.ltb_lt _ _) Hs).
      split; [split; [congruence|done]|done].
    + rewrite (edit_id pol fd _ s); [done..|]. unfold deny.
      destruct (Z.ltb_spec (Z.of_nat (size s.1)) MAX_RULES); [|done]. destruct s as [ds al]. cbn in *.
      f_equal. destruct Hi; [set_solver|lia].
  - rewrite decide_False by done. pose proof (percpu_delete_dom key ls _ Hne Hden) as Hi.
    destruct (percpu_delete key ls) as [ls'|]; cbn [snd].
    + destruct Hi as (Eln & Hd). rewrite <- Hp1, Hw. apply implements_edit; [done..|].
      intros s' Es'. rewrite Es in Es'. injection Es' as <-. split; [split; [congruence|done]|done].
    + rewrite (edit_id pol fd _ s); [done..|]. destruct s as [ds al]. cbn in *. f_equal. set_solver.
Qed.

Lemma allows_insert al h id rule :
  allows al h -> allows (if nz (vf_action rule) then {[id]} ∪ al else al ∖ {[id]}) (<[id := rule]> h).
Proof.
  intros Hh j. unfold nz. destruct (decide (j = id)) as [->|Hne].
  - rewrite lookup_insert_eq. cbn. destruct (Z.eqb_spec (vf_action rule) 0); cbn; set_solver.
  - rewrite lookup_insert_ne by done. rewrite (Hh j). destruct (negb _); set_solver.
Qed.
Lemma implements_vrid `{Inet6} nr_cpus w pol e o :
  action o = VRID_ADD \/ action o = VRID_DEL -> implements nr_cpus w pol ->
  implements nr_cpus (xdpfw_vrid o w).2 (policy_action e o pol).
Proof.
  intros Ha Himp. pose proof (implements_current _ _ _ Himp) as Hcur.
  unfold xdpfw_vrid, policy_action. set (id := u32 (vrrp_vrid o)).
  destruct (current pol) as [fd|] eqn:Ec.
  2: { destruct Hcur as [_ ->]. unfold edit. rewrite Ec. cbn [mbind option_bind snd].
       destruct Ha as [-> | ->]; destruct (_ <? _); exact Himp. }
  destruct Hcur as (Hp1 & Hp2 & s & ls & vs & Es & El & Ev & ((Hnl & Hnv) & Hden & Hall)).
  rewrite Hp2. cbn [mbind option_bind]. rewrite Ev. cbn [mbind option_bind].
  assert ((id <? NR_VRIDS) = negb (id >=? NR_VRIDS)) as -> by lia.
  destruct (id >=? NR_VRIDS); cbn [negb snd]; [destruct Ha as [-> | ->]; exact Himp|].
  assert (Hw : forall vs', w <| vrid_objs := <[fd := vs']> (vrid_objs w) |>
    = FwWorld (<[fd := ls]> (l3_objs w)) (<[fd := vs']> (vrid_objs w)) (pin_l3 w) (pin_vrid w) (links w))
    by (intros vs'; now rewrite (list_insert_id (l3_objs w))).
  rewrite <- Hp2, Hw. destruct Ha as [-> | ->]; [rewrite decide_True by done|rewrite decide_False by done];
    (apply implements_edit; [done..|]; intros s' Es'; rewrite Es in Es'; injection Es' as <-;
     split; [now rewrite length_map|]; split; [done|]; apply Forall_map; eapply Forall_impl; [exact Hall|];
     intros h Hh; exact (allows_insert _ _ id _ Hh)).
Qed.

(** Attaching a program changes the interface only. *)
Lemma link_ok_insert w pol sets ifx id l3s vrs p1 p2 c :
  (forall j, link_ok w pol j) -> (length (rule_sets pol) <= length sets)%nat -> (id < length sets)%nat ->
  forall j, link_ok (FwWorld l3s vrs p1 p2 (<[ifx := Some (id, id)]> (links w)))
                 (FwPolicy sets c (<[ifx := id]> (filtered pol))) j.
Proof.
  intros Hl Hle Hid j. specialize (Hl j). unfold link_ok in *. cbn.
  destruct (decide (j = ifx)) as [->|]; [now rewrite !lookup_insert_eq|].
  rewrite !lookup_insert_ne by done. destruct (links w !! j) as [[[l3 vr]|]|]; [|done..].
  destruct Hl as (? & ? & ?). split_and!; [done..|lia].
Qed.
Lemma link_ok_grow w pol sets l3s vrs p1 p2 c :
  (forall j, link_ok w pol j) -> (length (rule_sets pol) <= length sets)%nat ->
  forall j, link_ok (FwWorld l3s vrs p1 p2 (links w)) (FwPolicy sets c (filtered pol)) j.
Proof.
  intros Hl Hle j. specialize (Hl j). unfold link_ok in *. cbn.
  destruct (links w !! j) as [[[l3 vr]|]|]; [|done..]. destruct Hl as (? & ? & ?). split_and!; [done..|lia].
Qed.
Lemma link_ok_none w pol ifx l3s vrs p1 p2 c lk :
  (forall j, link_ok w pol j) -> lk !! ifx = None \/ lk !! ifx = Some None ->
  (forall j, j <> ifx -> lk !! j = links w !! j) ->
  forall j, link_ok (FwWorld l3s vrs p1 p2 lk) (FwPolicy (rule_sets pol) c (delete ifx (filtered pol))) j.
Proof.
  intros Hl Hi Hj j. specialize (Hl j). unfold link_ok in *. cbn. destruct (decide (j = ifx)) as [->|].
  - rewrite lookup_delete_eq. destruct Hi as [-> | ->]; done.
  - now rewrite lookup_delete_ne, Hj by done.
Qed.

(** A load uses the maps that are pinned, or creates new ones; one that fails changes nothing. *)
Lemma implements_load `{Inet6} nr_cpus w pol e o :
  action o = LOAD_BPF -> implements nr_cpus w pol ->
  implements nr_cpus (default w (xdpfw_load nr_cpus e o w)) (policy_action e o pol).
Proof.
  intros Ha Himp. pose proof (implements_current _ _ _ Himp) as Hcur. pose proof Himp as [Hs Hp Hc Hl].
  unfold xdpfw_load, policy_action, policy_load. rewrite Ha. destruct (bpf_file o); [|exact Himp].
  destruct (e_maps e); cbn [negb].
  2: { destruct (e_elf e); cbn [negb default]; [|exact Himp]. destruct (e_link e); [|exact Himp]. split; [done..|].
       eapply link_ok_none; [exact Hl| |]; [right; apply lookup_insert_eq|]. intros j Hj. now rewrite lookup_insert_ne. }
  destruct (e_elf e); cbn [negb]; [|rewrite andb_false_r; exact Himp].
  destruct (e_bpffs e); cbn [negb andb]; [|exact Himp]. unfold filter_interface.
  destruct (current pol) as [fd|] eqn:Ec.
  - destruct Hcur as (-> & -> & _). cbn [load_map export_map default].
    destruct (e_link e); (split; [exact Hs|cbn; now rewrite Ec|cbn; rewrite Ec; exact Hc|]).
    + apply (link_ok_insert w pol (rule_sets pol) (ifindex o) fd (l3_objs w) (vrid_objs w) None None (current pol)); auto.
    + now apply (link_ok_grow w pol (rule_sets pol) (l3_objs w) (vrid_objs w) None None (current pol)).
  - destruct Hcur as [-> ->]. unfold load_map, export_map. cbn [default].
    pose proof (Forall3_length_lm _ _ _ _ Hs) as E1. pose proof (Forall3_length_lr _ _ _ _ Hs) as E2.
    rewrite <- E1, <- E2. set (pol' := FwPolicy (rule_sets pol ++ [_]) _ _).
    assert (Hs' : Forall3 (set_ok nr_cpus) (rule_sets pol') (l3_objs w ++ [replicate nr_cpus ∅])
                    (vrid_objs w ++ [replicate nr_cpus ∅])).
    { apply Forall3_app; [done|]. constructor; [|constructor]. unfold set_ok. rewrite !length_replicate.
      split_and!; try done; apply Forall_replicate; [apply dom_empty_L|].
      intros id. rewrite lookup_empty. cbn. rewrite elem_of_empty. lia. }
    assert (Hc' : forall id, current pol' = Some id -> (id < length (rule_sets pol'))%nat).
    { intros id. unfold pol'. cbn. rewrite length_app. cbn. destruct (e_pin e); [|discriminate]. intros [= <-]. lia. }
    destruct (e_link e); (split; [exact Hs'|done|exact Hc'|]); unfold pol'.
    + apply (link_ok_insert w pol (rule_sets pol ++ [(∅, ∅)]) (ifindex o) _ (l3_objs w) (vrid_objs w) None None (current pol'));
        [exact Hl|rewrite length_app; lia|rewrite length_app; cbn; lia].
    + apply (link_ok_grow w pol (rule_sets pol ++ [(∅, ∅)]) (l3_objs w) (vrid_objs w) None None (current pol')); [exact Hl|rewrite length_app; lia].
Qed.

Lemma implements_command `{Inet6} nr_cpus w pol e args :
  (0 < nr_cpus)%nat -> implements nr_cpus w pol ->
  implements nr_cpus (main nr_cpus e args w).1.2 (policy_command e args pol).
Proof.
  intros Hn Himp. destruct (parse_args_understood fw_default false args) as [Ht Hf].
  unfold main, policy_command. destruct (understood args).
  2: { specialize (Hf eq_refl). destruct (parse_args _ _ _) as [o [|]|code]; [exact Himp| |exact Himp].
       now destruct (Hf o). }
  rewrite Ht by done. set (o := asked_from fw_default args). unfold xdpfw_action.
  destruct (action o) eqn:Ea; cbn [fst snd].
  - pose proof (implements_load nr_cpus w pol e o Ea Himp) as Hload.
    destruct (xdpfw_load nr_cpus e o w) as [w'|]; exact Hload.
  - unfold policy_action. rewrite Ea. destruct Himp as [Hs Hp Hc Hl]. split; [done|done|discriminate|].
    eapply link_ok_none; [exact Hl| |]; [left; apply lookup_delete_eq|]. intros j Hj. now rewrite lookup_delete_ne.
  - eauto using implements_rule.
  - eauto using implements_rule.
  - unfold policy_action. now rewrite Ea.
  - eauto using implements_vrid.
  - eauto using implements_vrid.
  - unfold policy_action. now rewrite Ea.
Qed.

(** The packets that the theorem speaks about; there is no condition on the commands. *)
Definition event_ok (nr_cpus : nat) (ev : fw_event) : Prop :=
  match ev with
  | Command _ _ => True
  | Packet _ cpu p => packet_ok p /\ (cpu < nr_cpus)%nat
  end.

Lemma run_events_policy `{Inet6} nr_cpus w pol evs :
  (0 < nr_cpus)%nat -> implements nr_cpus w pol -> Forall (event_ok nr_cpus) evs ->
  (run_events nr_cpus w evs).1 = policy_verdicts pol evs.
Proof.
  intros Hn Himp Hok. revert w pol Himp.
  induction Hok as [|[e args|ifx cpu p] evs Hev Hok IH]; intros w pol Himp; [done|..];
    cbn [run_events policy_verdicts].
  - apply IH. now apply implements_command.
  - destruct Hev as [Hp Hcpu]. pose proof (implements_packet nr_cpus w pol ifx cpu p Himp Hp Hcpu) as Hr.
    destruct (filtered pol !! ifx) as [id|]; cbn [mbind option_bind].
    + destruct Hr as (s & w' & Es & -> & Hi). rewrite Es. cbn [mbind option_bind].
      specialize (IH w' pol Hi). destruct (run_events nr_cpus w' evs). cbn in IH |- *. congruence.
    + rewrite Hr. specialize (IH w pol Himp). destruct (run_events nr_cpus w evs). cbn in IH |- *. congruence.
Qed.


(** ** What the tool does not do *)

(** Unloading from one interface removes the paths of the maps, although the programs of other
    interfaces use them: no rule of theirs can be changed afterwards. *)
Lemma unload_orphans `{Inet6} e o o' w :
  let w' := xdpfw_unload o w in
  links w' = delete (ifindex o) (links w) /\ xdpfw_rule e o' w' = (-1, w') /\ xdpfw_vrid o' w' = (-1, w').
Proof.
  split; [done|]. split; [|done]. unfold xdpfw_rule. destruct (ip_str o') as [s|]; [|done].
  now destruct (rule_key s).
Qed.

(** With an object whose maps are in .maps no map is created and none is pinned: on a fresh system
    no rule can be added. *)
Lemma dot_maps_no_rules `{Inet6} nr_cpus e e' o o' w w' :
  e_maps e = false -> pin_l3 w = None -> pin_vrid w = None -> xdpfw_load nr_cpus e o w = Some w' ->
  l3_objs w' = l3_objs w /\ vrid_objs w' = vrid_objs w /\ xdpfw_rule e' o' w' = (-1, w') /\ xdpfw_vrid o' w' = (-1, w').
Proof.
  intros He H1 H2. unfold xdpfw_load. rewrite He. destruct (bpf_file o); [|discriminate]. cbn [negb].
  destruct (e_elf e); [|discriminate]. intros [= <-]. unfold xdpfw_rule, xdpfw_vrid.
  destruct (e_link e); cbn; rewrite H1, H2; (split_and!; try done; destruct (ip_str o'); [|done]; now destruct (rule_key _)).
Qed.

(** The exit status tells nothing about a rule: it is 0 whatever becomes of it. *)
Lemma rule_status `{Inet6} nr_cpus e args o w :
  parse_args fw_default false args = Continue o false -> action o <> LOAD_BPF -> (main nr_cpus e args w).1.1 = 0.
Proof.
  intros Hp Ha. unfold main. rewrite Hp. unfold xdpfw_action. now destruct (action o).
Qed.

(** The listing prints the keys that follow the uninitialised one: all of them if that is not
    among them. *)
Lemma get_next_key_app pre k post :
  k ∉ pre -> get_next_key (pre ++ k :: post) k = head post.
Proof.
  induction pre as [|a pre IH]; intros Hk; cbn [app get_next_key].
  - now rewrite decide_True.
  - rewrite decide_False by set_solver. apply IH. set_solver.
Qed.
Lemma list_rules_from pre k post :
  NoDup (pre ++ k :: post) ->
  list_rules (length post) (pre ++ k :: post) k = map (fun k => Rule (fw_proto k) (addr6 k)) post.
Proof.
  revert pre k. induction post as [|k' post IH]; intros pre k Hnd; [done|].
  cbn [length list_rules map]. unfold map_get_next_key. rewrite decide_True by set_solver.
  rewrite get_next_key_app by (apply NoDup_app in Hnd as (_ & Hd & _); set_solver). cbn [head]. f_equal.
  rewrite cons_middle, app_assoc. rewrite IH; [done|]. now rewrite <- app_assoc.
Qed.
Lemma list_rules_all keys key :
  NoDup keys -> key ∉ keys ->
  list_rules (length keys) keys key = map (fun k => Rule (fw_proto k) (addr6 k)) keys.
Proof.
  intros Hnd Hk. destruct keys as [|k keys]; [done|]. cbn [length list_rules map].
  unfold map_get_next_key. rewrite decide_False by done. cbn [head]. f_equal.
  now apply (list_rules_from []).
Qed.
(** The rules up to a key that the variable happens to hold are not listed. *)
Lemma list_rules_skips pre k post :
  NoDup (pre ++ k :: post) ->
  list_rules (length post) (pre ++ k :: post) k = map (fun k => Rule (fw_proto k) (addr6 k)) post
  /\ map_get_next_key (pre ++ k :: post) (List.last post k) = None.
Proof.
  intros Hnd. split; [now apply list_rules_from|].
  assert (exists q, pre ++ k :: post = q ++ [List.last post k]) as [q Hq].
  { destruct post as [|x post]; [now exists pre|].
    exists (pre ++ k :: removelast (x :: post)). rewrite <- app_assoc. cbn [app]. f_equal. f_equal.
    rewrite (app_removelast_last k) at 1 by done. done. }
  rewrite Hq in *. unfold map_get_next_key. rewrite decide_True by set_solver.
  rewrite get_next_key_app; [done|]. apply NoDup_app in Hnd as (_ & Hd & _). set_solver.
Qed.
