(* ===== verification/XdpExamples.v ===== *)
(** * The sample programs on concrete packets

    The theorems of XdpLb, XdpFirewall, XdpTunnel, XdpAdjustTail and Xdping
    instantiated with the packet helpers of the runtime. *)
From Stdlib Require Import ZArith Lia.
From stdpp Require Import base numbers list option gmap.
From S2P Require Import Prelude Xdp OnesComplement XdpRun XdpFw RuntimeHelpers XdpLb XdpFirewall XdpTunnel XdpAdjustTail Xdping XdpSamples.
#[local] Open Scope Z_scope.

Definition helpers_x : XdpHelpers := runtime_helpers 4096 0 (fun n => Z.of_nat n).

(** ** The load balancer *)

Definition lb_eth : list Z := [2; 0; 0; 0; 0; 1; 2; 0; 0; 0; 0; 2; 8; 0].
Definition lb_iph : list Z := [0x45; 0; 0; 46; 0; 1; 0; 0; 64; 6; 0; 0; 10; 0; 0; 9; 10; 0; 0; 1].
Definition lb_tcp8 : list Z := [4; 210; 0; 80; 0; 0; 0; 1].
Definition lb_rest : list Z := [0; 0; 0; 0; 0x50; 2; 255; 255; 0; 0; 0; 0; 1; 2; 3; 4; 5; 6].
Definition lb_packet : list Z := lb_eth ++ lb_iph ++ lb_tcp8 ++ lb_rest.
Definition lb_maps0 : lb_maps := LbMaps
  {[ 0 := IpMacPair 0x0a0000000002 0x0a000002; 1 := IpMacPair 0x0b0000000002 0x0a000003 ]}
  {[ 0 := IpMacPair 0x0c0000000002 0x0a000001; 1 := IpMacPair 0x0d0000000002 0x0a000009 ]}.
Definition lb_state : xst lb_maps := Xst (Frame [] lb_packet []) lb_maps0 0.

(** The verdict, the new destination address and the last byte. *)
Example lb_sends :
  match @xdp_lb helpers_x lb_state with
  | Some (v, s) => v = XDP_TX /\ slice 30 4 (f_data (x_frame s)) = Some [10; 0; 0; 2]
      /\ slice 59 1 (f_data (x_frame s)) = Some [6]
  | None => False
  end.
Proof. vm_compute. repeat split; reflexivity. Qed.

(** ** The firewall *)

(** A VRRP advertisement for router 7 behind one VLAN tag. *)
Definition fw_iph : list Z := [0x45; 0; 0; 28; 0; 1; 0; 0; 255; 112; 0; 0; 10; 0; 0; 9; 224; 0; 0; 18].
Definition fw_l4 : list Z := [0x31; 7; 100; 1; 0; 1; 0; 0].
Definition fw_m1 : list Z := [1; 0; 94; 0; 0; 18].
Definition fw_m2 : list Z := [0; 0; 94; 0; 1; 7].
Definition fw_tags : list vlan_tag := [VlanTag ETH_P_8021Q (0, 100)].
Definition fw_packet : list Z := eth_header (fw_m1 ++ fw_m2) fw_tags ETH_P_IP ++ fw_iph ++ fw_l4.
(** Router 7 has an action, no other router has. *)
Definition fw_maps0 : fw_maps := FwMaps {[ FwFlowKey [0x0100000a; 0; 0; 0] ETH_P_IP := 0 ]}
  {[ 7 := VrrpFilter 1 0 0 0 0 ]}.
Definition fw_state : xst fw_maps := Xst (Frame [] fw_packet []) fw_maps0 0.

Example fw_passes :
  match xdp_firewall fw_state with
  | Some (v, s) => v = XDP_TX /\ take 12 (f_data (x_frame s)) = fw_m2 ++ fw_m1
      /\ vrrp_vrid_filter (x_env s) !! 7 = Some (VrrpFilter 1 0 1 0 28)
  | None => False
  end.
Proof. vm_compute. repeat split; reflexivity. Qed.

Lemma firewall_ipv4_correct_witness :
  let r := fw_ipv4 fw_maps0 (le_join (drop 16 fw_iph)) (bswap16 (le_join (take 2 (drop 2 fw_iph)))) (nth 9 fw_iph 0) fw_l4 in
  let d := if r.1 =? XDP_TX then eth_header (fw_m2 ++ fw_m1) fw_tags ETH_P_IP ++ fw_iph ++ fw_l4
           else fw_packet in
  (r.1 = XDP_TX \/ r.1 = XDP_DROP) /\
  runs fw_state xdp_firewall r.1 (set_data (Xst (x_frame fw_state) r.2 0%nat) d).
Proof.
  apply (firewall_ipv4_correct fw_state fw_m1 fw_m2 fw_tags fw_iph fw_l4).
  - reflexivity.
  - reflexivity.
  - reflexivity.
  - apply bytes_ok_check; reflexivity.
  - apply bytes_ok_check; reflexivity.
  - apply Forall_singleton. now left.
  - simpl. lia.
  - reflexivity.
  - apply bytes_ok_check; reflexivity.
Defined.

(** ** The tunnel *)

Definition tn_iph : list Z := [0x45; 0; 0; 28; 0; 1; 0; 0; 64; 17; 0; 0; 10; 0; 0; 9; 10; 0; 0; 1].
Definition tn_udp : list Z := [4; 210; 0; 53; 0; 8; 0; 0].
Definition tn_info : iptnl_info := IptnlInfo 0x0100a8c0 0x0200a8c0 AF_INET 0x060504030201.
Definition tn_state : xst tnl_maps :=
  Xst (Frame (repeat 0 64) (lb_eth ++ tn_iph ++ tn_udp) [])
    (TnlMaps ∅ {[ Vip [0x0100000a; 0; 0; 0] 0x3500 AF_INET 17 := tn_info ]}) 0.

(** The packet that leaves, with a valid header. *)
Example tn_sends :
  match @xdp_tx_iptunnel helpers_x tn_state with
  | Some (v, s) => v = XDP_TX /\ take 34 (f_data (x_frame s)) =
      [1; 2; 3; 4; 5; 6] ++ [2; 0; 0; 0; 0; 1] ++ [8; 0] ++
      [0x45; 0; 0; 48; 0; 0; 0; 0; 8; 4; 49; 119; 192; 168; 0; 1; 192; 168; 0; 2]
      /\ rxcnt (x_env s) !! 17 = Some 1
  | None => False
  end.
Proof. vm_compute. repeat split; reflexivity. Qed.

Lemma tunnel_v4_correct_witness :
  let sum := tnl_sum 48 [0; 0] (t_saddr tn_info) (t_daddr tn_info) in
  let hdr := tnl_header 48 [0; 0] (one_fold_check sum) (t_saddr tn_info) (t_daddr tn_info) in
  runs tn_state (@xdp_tx_iptunnel helpers_x) XDP_TX
    (Xst (Frame (repeat 0 44) (le_split 6 (t_dmac tn_info) ++ take 6 lb_eth ++ [8; 0] ++ hdr ++ tn_iph ++ tn_udp) [])
         (counted 17 (x_env tn_state)) 0)
  /\ (csum_ok hdr <-> fold16 sum <= 65535).
Proof.
  apply (@tunnel_v4_correct helpers_x (runtime_helper_laws _ _ _) tn_state lb_eth tn_iph tn_udp tn_info).
  - reflexivity.
  - reflexivity.
  - reflexivity.
  - repeat split; apply bytes_ok_check; vm_compute; reflexivity.
  - reflexivity.
  - discriminate.
  - intros _. discriminate.
  - reflexivity.
  - reflexivity.
  - reflexivity.
Defined.

(** A header whose sum carries when it is folded: its checksum does not check. *)
Example tunnel_bad_checksum :
  let sum := tnl_sum 48 [0xb5; 0xcb] 0xffffffff 0xffff in fold16 sum = 65538.
Proof. vm_compute. reflexivity. Qed.

(** ** Packet too big *)

Definition big_body : list Z := repeat 7 64.
Definition big_rest : list Z := repeat 9 40.
Definition big_state : xst icmp_maps :=
  Xst (Frame (repeat 0 64) (lb_eth ++ lb_iph ++ big_body ++ big_rest) []) (IcmpMaps 0 MAX_PCKT_SIZE) 0.

Lemma packet_too_big_correct_witness :
  let src := [10; 0; 0; 9] in
  let dst := [10; 0; 0; 1] in
  let c1 := @h_csum_diff helpers_x [] (ptb_icmp [0; 2] 114 0 ++ lb_iph ++ big_body) 0 in
  let c2 := @h_csum_diff helpers_x [] (ptb_ip [0; 0; 0; 0] dst src 0) 0 in
  let icmp := ptb_icmp [0; 2] 114 (one_fold_check c1) in
  let ip := ptb_ip [0; 0; 0; 0] dst src (one_fold_check c2) in
  (exists s', runs big_state (@xdp_adjust_tail helpers_x) XDP_TX s'
     /\ f_data (x_frame s') = ([2; 0; 0; 0; 0; 2] ++ [2; 0; 0; 0; 0; 1] ++ [8; 0])
          ++ ip ++ icmp ++ lb_iph ++ big_body ++ big_rest
     /\ icmpcnt (x_env s') = u64 (0 + 1))
  /\ (csum_ok ip <-> fold16 c2 <= 65535)
  /\ (csum_ok (icmp ++ lb_iph ++ big_body) <-> fold16 c1 <= 65535).
Proof.
  apply (@packet_too_big_correct helpers_x (runtime_helper_laws _ _ _) (runtime_csum_laws _ _ _)
    big_state lb_eth lb_iph big_body big_rest).
  - reflexivity.
  - reflexivity.
  - reflexivity.
  - reflexivity.
  - repeat split; apply bytes_ok_check; vm_compute; reflexivity.
  - reflexivity.
  - reflexivity.
  - reflexivity.
  - vm_compute. reflexivity.
Defined.

(** ** The ping program *)

(** An echo reply, which is answered like a request. *)
Definition ping_iph : list Z := [0x45; 0; 0; 84; 0; 1; 0; 0; 64; 1; 0; 0; 10; 0; 0; 9; 10; 0; 0; 1].
Definition ping_icmp : list Z := [0; 0; 1; 2; 0; 9; 0; 1] ++ repeat 3 56.
Definition ping_state : xst unit := Xst (Frame [] (lb_eth ++ ping_iph ++ ping_icmp ++ [1; 2]) []) tt 0.

Lemma xdping_reply_correct_witness :
  exists check,
    let icmp' := echo_reply ping_icmp check in
    runs ping_state (@xdping unit helpers_x) XDP_TX
      (set_data ping_state (([2; 0; 0; 0; 0; 2] ++ [2; 0; 0; 0; 0; 1] ++ [8; 0])
         ++ swapped_addrs ping_iph ++ icmp' ++ [1; 2]))
    /\ (csum_ok ping_iph -> csum_ok (swapped_addrs ping_iph))
    /\ csum_ok icmp'
    /\ (csum_ok (icmp' ++ [1; 2]) <-> sum16 [1; 2] mod 65535 = 0).
Proof.
  apply (@xdping_reply_correct unit helpers_x (runtime_csum_laws _ _ _) ping_state lb_eth ping_iph ping_icmp [1; 2]).
  - reflexivity.
  - reflexivity.
  - reflexivity.
  - reflexivity.
  - apply bytes_ok_check; reflexivity.
  - apply bytes_ok_check; reflexivity.
  - apply bytes_ok_check; reflexivity.
  - reflexivity.
  - reflexivity.
Defined.

(** ** Safety of all sample programs *)

Inductive sample :=
  | LoadBalancer | Firewall | StatefulFirewall (ingress_ifindex : Z) | Tunnel | PacketTooBig
  | Ping | UncheckedPing | PingClient
  | Pass | Tx | Drop | MapAccess | PacketSizes | Checksum | ChecksumOnly | HashSum
  | Classifier (stack : Classify.event) | Observer | Dumper | AccessList.
(** The maps of a program, and what it returns: the stateful firewall redirects to a port. *)
Definition sample_maps (p : sample) : Type :=
  match p with
  | LoadBalancer => lb_maps | Firewall => fw_maps | StatefulFirewall _ => XdpFw.flow_ctx_table
  | Tunnel => tnl_maps | PacketTooBig => icmp_maps
  | MapAccess => MapAccess.maps | PacketSizes | Checksum => gmap Z Z
  | Classifier _ => list Classify.event | Observer => list Observer.observer_event | Dumper => list Dump.dump_event
  | Ping | UncheckedPing | PingClient | Pass | Tx | Drop | ChecksumOnly | HashSum | AccessList => unit
  end.
Definition sample_result (p : sample) : Type :=
  match p with StatefulFirewall _ => XdpFw.outcome | _ => Z end.
Definition sample_prog {H : XdpHelpers} {R : RingBuffer} {A : Acl.Rules} {U : XdpFw.HashUpdate} (p : sample)
    : xdp (sample_maps p) (sample_result p) :=
  match p with
  | LoadBalancer => xdp_lb | Firewall => xdp_firewall | StatefulFirewall i => XdpFw.xdp_fw i
  | Tunnel => xdp_tx_iptunnel | PacketTooBig => xdp_adjust_tail
  | Ping => xdping | UncheckedPing => xdping_no_check | PingClient => xdping_client
  | Pass => Echo.xdp_pass | Tx => Echo.xdp_tx | Drop => Echo.xdp_drop | MapAccess => MapAccess.xdp_map_access
  | PacketSizes => Sizes.xdp_maps | Checksum => Csum.xdp_csum | ChecksumOnly => Csum.xdp_csum_only
  | HashSum => HashSum.xdp_hash_sum | Classifier stack => Classify.xdp_tcpclassify stack
  | Observer => Observer.xdp_observer | Dumper => Dump.xdp_dump | AccessList => Acl.xdp_standard_acl
  end.
(** The stateful firewall redirects to its outer port or to a port of its table. *)
Definition sample_verdict (p : sample) : sample_result p -> Prop :=
  match p return sample_result p -> Prop with
  | LoadBalancer => lb_verdict | Firewall => fw_verdict | Tunnel => tnl_verdict | PacketTooBig => ptb_verdict
  | StatefulFirewall _ => fun o => match o with XdpFw.Verdict v => v = XDP_PASS | XdpFw.RedirectMap _ => True end
  | Ping => fun v => v = XDP_PASS \/ v = XDP_TX
  | UncheckedPing | PingClient => fun v => v = XDP_TX
  | _ => echo_verdict
  end.
(** The programs that do not move the ends of the packet. *)
Definition keeps_length (p : sample) : bool :=
  match p with Tunnel | PacketTooBig => false | _ => true end.
(** The bytes that a packet must have for the program to stay inside it. *)
Definition sample_needs (p : sample) : Z := match p with UncheckedPing => 98 | _ => 0 end.

(** What it means that a program is safe on a packet. *)
Definition safe_on {H : XdpHelpers} {R : RingBuffer} {A : Acl.Rules} {U : XdpFw.HashUpdate}
    (p : sample) (s : xst (sample_maps p)) : Prop :=
  exists v s', sample_prog p s = Some (v, s') /\ sample_verdict p v /\ frame_ok (x_frame s')
    /\ (keeps_length p = true -> zlen (f_data (x_frame s')) = zlen (f_data (x_frame s))).

Section samples.
Context {H : XdpHelpers} {R : RingBuffer} {A : Acl.Rules} {U : XdpFw.HashUpdate}.

Lemma echo_safe {E} (m : xdp E Z) (s : xst E) :
  frame_ok (x_frame s) -> (forall L, 0 <= L -> echoes L m) ->
  exists v s', m s = Some (v, s') /\ echo_verdict v /\ frame_ok (x_frame s')
    /\ (true = true -> zlen (f_data (x_frame s')) = zlen (f_data (x_frame s))).
Proof.
  intros Hs Hm. destruct (echoes_safe m s Hm Hs) as (v & s' & ? & ? & ? & ?). exists v, s'. now split_and!.
Qed.

Lemma small_samples_safe (p : sample) (s : xst (sample_maps p)) :
  match p with
  | LoadBalancer | Firewall | StatefulFirewall _ | Tunnel | PacketTooBig | Ping | UncheckedPing | PingClient => False
  | _ => True
  end ->
  frame_ok (x_frame s) -> safe_on p s.
Proof.
  intros Hp Hs. destruct p; try done; apply (echo_safe _ s Hs); intros L HL.
  - apply (echo_programs_fit L).
  - apply (echo_programs_fit L).
  - apply (echo_programs_fit L).
  - exact (map_access_fits L).
  - exact (sizes_fits L).
  - exact (proj1 (csum_fits L)).
  - exact (proj2 (csum_fits L) _).
  - exact (hash_sum_fits L).
  - exact (classify_fits L stack).
  - exact (observer_fits L).
  - exact (dump_fits L HL).
  - exact (acl_fits L).
Qed.
Lemma stateful_safe i (s : xst XdpFw.flow_ctx_table) : frame_ok (x_frame s) -> safe_on (StatefulFirewall i) s.
Proof.
  intros Hs. pose proof (XdpFw.xdp_fw_step s i) as E. cbv zeta in E. eexists _, _. split; [exact E|].
  split; [|now split]. unfold XdpFw.fw_step. cbn.
  destruct (XdpFw.flow_of _); [|done]. destruct (i =? XdpFw.B_PORT); [|done]. now destruct (x_env s !! _).
Qed.

(** C14: The sample programs under xdp_progs: the load balancer, the firewall, the stateful
    firewall (xdp_fw), the tunnel, the packet-too-big program (xdp_adjust_tail), the ping
    server, pass, tx and drop, the map access, packet size, checksum, checksum-only and
    hash-sum programs, the TCP classifier, the observer, the dumper and the access list.
    Whatever the packet, the maps, the rules and the helpers, each reads and writes inside the
    packet only and returns one of its verdicts, and all but the tunnel and the packet-too-big
    program leave the length of the packet as it is.  The one exception is the ping without
    checks (xdping_no_check): it is safe exactly on the packets of at least 98 bytes, and
    reads behind the end of every shorter one (a defect); its client, whose body is commented
    out, is safe.  Katran and the AF_XDP program have theorems of their own. *)
Theorem sample_programs_safe {HL : XdpHelperLaws H} (p : sample) (s : xst (sample_maps p)) :
  frame_ok (x_frame s) ->
  if decide (sample_needs p <= zlen (f_data (x_frame s))) then safe_on p s else sample_prog p s = None.
Proof.
  intros Hs. pose proof (small_samples_safe p s) as Hsmall. pose proof (zlen_nonneg (f_data (x_frame s))).
  destruct (decide _) as [Hn|Hn].
  2:{ destruct p; cbn [sample_needs] in Hn; try lia. apply (no_check_faults s). lia. }
  destruct p; try exact (Hsmall I Hs); clear Hsmall; unfold safe_on; cbn in s, Hn |- *.
  - destruct (xdp_lb_safe s Hs) as (v & s' & ? & ? & ? & ?); eauto 10.
  - destruct (firewall_safe s Hs) as (v & s' & ? & ? & ? & ?); eauto 10.
  - exact (stateful_safe _ s Hs).
  - destruct (tunnel_safe s Hs) as (v & s' & ? & ? & ?). exists v, s'. now split_and!.
  - destruct (packet_too_big_safe s Hs) as (v & s' & ? & ? & ?). exists v, s'. now split_and!.
  - destruct (xdping_safe s Hs) as (v & s' & ? & ? & ? & ?); eauto 10.
  - destruct (no_check_safe s Hs Hn) as (v & s' & ? & ? & ? & ?); eauto 10.
  - exists XDP_TX, s. now split_and!.
Qed.
End samples.

(** A ring buffer that always has room, and a list that permits 10.0.0.9. *)
Definition roomy_ring : RingBuffer := {| rb_output V l v := (0, l ++ [v]) |}.
#[export] Instance roomy_ring_laws : RingBufferLaws roomy_ring.
Proof. split; [done|]. intros V l v Hv. now destruct Hv. Qed.
Definition one_rule : Acl.Rules := {|
  Acl.ipv4_rules_trie k := if Acl.k4_data k =? 0x0900000a then Some true else None;
  Acl.ipv6_rules_trie k := None |}.

Definition no_event : Classify.event := Classify.Event 0 0 0 0 0 0 0 0 0 7 0 (replicate 256 9).
Definition sample_state (p : sample) : xst (sample_maps p) :=
  match p with
  | LoadBalancer => lb_state | Firewall => fw_state | Tunnel => tn_state | PacketTooBig => big_state
  | StatefulFirewall _ => Xst XdpFw.fw_request ∅ 0
  | Ping | UncheckedPing => ping_state
  | MapAccess => Xst (x_frame lb_state) (MapAccess.Maps ∅ ∅) 0
  | PacketSizes | Checksum => Xst (x_frame lb_state) (∅ : gmap Z Z) 0
  | Classifier _ => Xst (x_frame lb_state) [] 0 | Observer => Xst (x_frame lb_state) [] 0
  | Dumper => Xst (x_frame lb_state) [] 0
  | PingClient | Pass | Tx | Drop | ChecksumOnly | HashSum | AccessList => Xst (x_frame lb_state) tt 0
  end.
(** Every kind of program on a packet, and the unchecked ping on one of 42 bytes. *)
Definition short_packet : xst unit := Xst XdpFw.fw_request tt 0.
Lemma sample_programs_safe_witness :
  let ok p := @safe_on helpers_x roomy_ring one_rule XdpFw.bounded_update p (sample_state p) in
  (ok LoadBalancer /\ ok Firewall /\ ok (StatefulFirewall 6) /\ ok Tunnel /\ ok PacketTooBig /\ ok Ping
   /\ ok UncheckedPing /\ ok Tx /\ ok Checksum /\ ok (Classifier no_event) /\ ok AccessList)
  /\ @xdping_no_check unit helpers_x short_packet = None.
Proof.
  pose proof (@sample_programs_safe helpers_x roomy_ring one_rule XdpFw.bounded_update (runtime_helper_laws _ _ _)) as Hp.
  split.
  - repeat apply conj.
    all: match goal with |- safe_on ?p ?s => specialize (Hp p s) end.
    all: rewrite decide_True in Hp by (vm_compute; discriminate); apply Hp; repeat split; apply bytes_ok_check; vm_compute; reflexivity.
  - specialize (Hp UncheckedPing short_packet). rewrite decide_False in Hp by (vm_compute; auto).
    apply Hp. repeat split; apply bytes_ok_check; vm_compute; reflexivity.
Defined.

(** ** The small programs *)

(** An IPv4 packet whose header has the checksum 0x66 0xc6; it leaves with another one. *)
Definition cs_hdr : list Z := [0x45; 0; 0; 40; 0; 1; 0; 0; 64; 6; 0x66; 0xc6; 10; 0; 0; 9; 10; 0; 0; 1].
Definition cs_state : xst (gmap Z Z) :=
  Xst (Frame [] (replicate 6 1 ++ replicate 6 2 ++ [8; 0] ++ cs_hdr ++ [7; 7]) []) ∅ 0.

Lemma xdp_csum_correct_witness :
  let check := (54613 * check_of cs_hdr) mod 65535 in
  runs cs_state (@Csum.xdp_csum helpers_x) XDP_TX
    (Xst (Frame [] (replicate 6 2 ++ replicate 6 1 ++ [8; 0] ++ with_check cs_hdr check ++ [7; 7]) [])
         (array_incr 23 ∅) 0)
  /\ (csum_ok (with_check cs_hdr check) <-> check_of cs_hdr mod 21845 = 0).
Proof.
  apply (@xdp_csum_correct helpers_x (runtime_csum_laws _ _ _) (runtime_csum_folded _ _ _) cs_state
    (replicate 6 1) (replicate 6 2) cs_hdr [7; 7]).
  - reflexivity.
  - reflexivity.
  - reflexivity.
  - reflexivity.
  - apply bytes_ok_check; reflexivity.
  - apply bytes_ok_check; reflexivity.
  - apply bytes_ok_check; reflexivity.
  - split; reflexivity.
  - reflexivity.
Defined.

(** What the receiver of the packet gets: the header does not check. *)
Example csum_spoilt :
  match @Csum.xdp_csum helpers_x cs_state with
  | Some (v, s) => v = XDP_TX /\ take 2 (drop 24 (f_data (x_frame s))) <> [0x66; 0xc6]
      /\ sum16 (take 20 (drop 14 (f_data (x_frame s)))) mod 65535 <> 0
  | None => False
  end.
Proof. vm_compute. repeat split; discriminate. Qed.

(** A short TCP packet is reported with the HTTP field and the data that the stack held. *)
Example classifier_leaks :
  match @Classify.xdp_tcpclassify roomy_ring no_event (Xst (Frame [] (take 54 lb_packet) []) [] 0) with
  | Some (v, s) => v = XDP_TX /\ map Classify.e_http (x_env s) = [7] /\ map Classify.e_data (x_env s) = [replicate 256 9]
  | None => False
  end.
Proof. vm_compute. repeat split; reflexivity. Qed.

Example packet_sizes_from_zero :
  foldl count_size (∅ : gmap Z Z) [60; 60; 1514] !! 60 = Some 1.
Proof. vm_compute. reflexivity. Qed.
