(* ===== verification/ControlExamples.v ===== *)
(** * The control planes on concrete command lines

    A tunnel deployed for ports 50 to 60 of an address, a firewall loaded on an interface
    and edited between packets, the load balancer in its two builds, and an object file. *)
From Stdlib Require Import ZArith Lia Ascii String.
From stdpp Require Import base numbers list option gmap.
From S2P Require Import Prelude CLib Xdp OnesComplement XdpRun RuntimeHelpers XdpFirewall XdpTunnel XdpLb XdpExamples.
From S2P Require XdpTunnelLoader XdpFwAdmin XdpLbLoader XdpLbInline BpfStandalone.
#[local] Open Scope Z_scope.
#[local] Open Scope list_scope.

#[local] Instance no_ipv6 : Inet6 := fun _ => None.

(** ** The tunnel *)

Module Tunnel.
Import XdpTunnelLoader.

#[local] Instance host : TunnelHost := {
  if_nametoindex name := if String.eqb name "eth0" then 3 else 0;
  ether_aton _ := Some [1; 2; 3; 4; 5; 6];
  readable _ := false
}.
Definition tunnel_args : list (ascii * string) :=
  [("i"%char, "eth0"%string); ("a"%char, "10.0.0.1"%string); ("p"%char, "50-60"%string); ("P"%char, "17"%string); ("s"%char, "192.168.0.1"%string);
   ("d"%char, "192.168.0.2"%string); ("m"%char, "01:02:03:04:05:06"%string); ("b"%char, "vmlinux"%string); ("T"%char, "4"%string)].
Definition good_kernel : kernel :=
  Kernel true 0 5 6 0 0 9 100 [(100, replicate 256 [1; 2]); (103, replicate 256 [2; 4]); (106, replicate 256 [9; 9])].
Definition tunnel_opts : tunnel_options := default default_options (parse_args tunnel_args).

(** The options are those that XdpExamples has for its packet. *)
Example tunnel_opts_are : tnl_of tunnel_opts = tn_info /\ serves tunnel_opts tn_iph tn_udp = true
  /\ (min_port tunnel_opts, max_port tunnel_opts, ifindex tunnel_opts, xdp_flags tunnel_opts) = (50, 60, 3, 5).
Proof. repeat split; vm_compute; reflexivity. Qed.

(** From the command line to the packet that leaves. *)
Example tunnel_run :
  let '(code, m, evs) := main 2 good_kernel tunnel_args in
  code = 0 /\ size m = 11%nat /\ length evs = 514%nat /\
  match @xdp_tx_iptunnel helpers_x (Xst (x_frame tn_state) (TnlMaps ∅ m) 0) with
  | Some (v, s) => v = XDP_TX /\ take 6 (f_data (x_frame s)) = [1; 2; 3; 4; 5; 6]
  | None => False
  end.
Proof. vm_compute. repeat split; reflexivity. Qed.

(** What happens to the packet, and to a part of it that ends in its UDP header. *)
Example tunnel_answers :
  (@tunnel_answer helpers_x tunnel_opts tn_state).1 = XDP_TX /\
  (@tunnel_answer helpers_x tunnel_opts (Xst (Frame [] (take 40 (f_data (x_frame tn_state))) []) (x_env tn_state) 0)).1 = XDP_DROP.
Proof. split; vm_compute; reflexivity. Qed.

Lemma tunnel_deployed_witness :
  exists m, main 2 good_kernel tunnel_args =
    (0, m, Attach (ifindex tunnel_opts) (xdp_flags tunnel_opts) ::
           poll_stats 2 (kill_after_s tunnel_opts) (k_started good_kernel) (k_rounds good_kernel)
           ++ [Detach (ifindex tunnel_opts) (xdp_flags tunnel_opts)])
  /\ let s := Xst (x_frame tn_state) (TnlMaps ∅ m) 0 in
     runs s (@xdp_tx_iptunnel helpers_x) (@tunnel_answer helpers_x tunnel_opts s).1 (@tunnel_answer helpers_x tunnel_opts s).2.
Proof.
  destruct (@tunnel_deployed no_ipv6 host helpers_x (runtime_helper_laws _ _ _) 2 good_kernel tunnel_args tunnel_opts)
    as (m & Hm & Hp).
  - vm_compute. reflexivity.
  - repeat split; discriminate.
  - exists m. split; [exact Hm|]. apply Hp; [reflexivity|]. repeat split; apply bytes_ok_check; vm_compute; reflexivity.
Defined.
End Tunnel.

(** ** The firewall *)

Module Firewall.
Import XdpFwAdmin.

Definition fw_env : fw_host := FwHost true true true true true [77; 78] (FwFlowKey [0; 0; 0; 0] 0).
Definition short (c : ascii) (arg : string) : fw_arg := FwArg c false (Some arg).
Arguments short _%_char _%_string.
Definition nothing_loaded : fw_world := FwWorld [] [] None None ∅.
Definition load_args : list fw_arg := [short "l" "xdp_fw.bpf"; short "i" "2"].
Definition vrrp_packet : XdpFwAdmin.fw_packet := FwPacket fw_m1 fw_m2 fw_tags fw_iph fw_l4 [] [].
Definition udp_packet : XdpFwAdmin.fw_packet := FwPacket fw_m1 fw_m2 [] tn_iph tn_udp [] [].
Definition fw_events : list fw_event :=
  [Packet 2 0 vrrp_packet; Command fw_env [short "A" "7"]; Packet 2 1 vrrp_packet; Packet 3 0 vrrp_packet;
   Packet 2 0 udp_packet; Command fw_env [short "a" "10.0.0.1"]; Packet 2 1 udp_packet; Packet 2 0 udp_packet;
   Command fw_env [short "a" "10.0.0.256"]; Command fw_env [short "d" "10.0.0.1"]; Packet 2 1 udp_packet;
   Command fw_env [short "D" "7"]; Packet 2 1 vrrp_packet; Command fw_env [short "u" "x"; short "i" "3"];
   Command fw_env [short "A" "7"]; Packet 2 0 vrrp_packet; Command fw_env [short "l" "xdp_fw.bpf"; short "i" "3"];
   Command fw_env [short "A" "7"]; Packet 3 1 vrrp_packet; Packet 2 1 vrrp_packet].

Example fw_verdicts :
  (run_events 2 nothing_loaded (Command fw_env load_args :: fw_events)).1 =
  [Some XDP_DROP; Some XDP_TX; None; Some XDP_TX; Some XDP_DROP; Some XDP_DROP; Some XDP_TX; Some XDP_DROP;
   Some XDP_DROP; Some XDP_TX; Some XDP_DROP].
Proof. vm_compute. reflexivity. Qed.
(** The counter of a new rule starts at the value that happens to lie on the stack. *)
Example fw_counts_garbage :
  let w := (run_events 2 nothing_loaded (Command fw_env load_args :: take 7 fw_events)).2 in
  map (fun g => g !! FwFlowKey [0x0100000a; 0; 0; 0] ETH_P_IP) (default [] (l3_objs w !! 0%nat)) = [Some 77; Some 79].
Proof. vm_compute. reflexivity. Qed.
(** Without options the tool loads a file whose name is a null pointer. *)
Example fw_no_options : main 2 fw_env [] nothing_loaded = (255, nothing_loaded, []).
Proof. reflexivity. Qed.

Lemma fw_packet_ok p : p = vrrp_packet \/ p = udp_packet -> packet_ok p.
Proof.
  intros [-> | ->]; repeat split; try (apply bytes_ok_check; reflexivity); try discriminate; cbn; try lia.
  - apply Forall_singleton. now left.
  - constructor.
Qed.
Lemma fw_events_ok : Forall (event_ok 2) fw_events.
Proof.
  repeat constructor; try (apply fw_packet_ok; auto); try (cbn; lia); discriminate.
Qed.

(** A packet that ends inside its authentication header passes although its destination is
    denied. *)
Definition cut_ah : XdpFwAdmin.fw_packet :=
  FwPacket fw_m1 fw_m2 [] (<[9%nat := FW_IPPROTO_AH]> tn_iph) [112; 4; 0; 0] [] [].
Example cut_ah_passes :
  (run_events 2 nothing_loaded
     [Command fw_env load_args; Command fw_env [short "a" "10.0.0.1"]; Packet 2 0 udp_packet; Packet 2 0 cut_ah]).1
  = [Some XDP_DROP; Some XDP_TX].
Proof. vm_compute. reflexivity. Qed.

End Firewall.

(** ** The load balancer *)

Module Balancer.
Import XdpLbLoader XdpLbInline.

Definition lb_host (bench : bool) : XdpLbLoader.host :=
  Host true 7 5 6 bench true true (fun name => if String.eqb name "eth0" then 3 else 0) 0.
Lemma lb_accepts bench : accepts (lb_host bench) "eth0".
Proof. repeat split; discriminate. Qed.
(** A failure to attach, a name that does not exist and a missing argument are errors; when the
    second table is missing the first is filled before that shows. *)
Example lb_failures :
  (match main (lb_host true) [] with Some (1, _, []) => True | _ => False end) /\
  (match main (lb_host true) ["eth1"%string] with Some (1, _, []) => True | _ => False end) /\
  (match main (Host true 7 5 (-1) true false false (fun _ => 3) 0) ["eth0"%string] with
   | Some (1, m, []) => size (XdpLb.targets_map m) = 2%nat | _ => False end) /\
  main (Host false 7 5 6 true false false (fun _ => 3) 0) ["eth0"%string] = None.
Proof. repeat split; reflexivity. Qed.

Lemma balancer_deployed_witness :
  exists m, main (lb_host false) ["eth0"%string] = Some (0, m, [Attach 3 7 3])
  /\ forall (s : xst lb_maps) eth iph tcp8 rest,
     let d := eth ++ iph ++ tcp8 ++ rest in
     x_env s = m -> f_data (x_frame s) = d ->
     length eth = 14%nat -> length iph = 20%nat -> length tcp8 = 8%nat -> bytes_ok iph ->
     60 <= zlen d <= 1200 -> nth 9 iph 0 = 6 ->
     let dst := destination false d in
     let src := the_balancer false in
     exists check,
       let iph' := take 10 iph ++ le_split 2 check ++ n_ip src ++ n_ip dst in
       let front := n_mac dst ++ n_mac src ++ drop 12 eth ++ iph' in
       csum_ok iph' /\
       runs s (@xdp_lb helpers_x) XDP_TX
         (set_data s (front ++ hash_and_sum_bytes (hash_of (take 60 (front ++ tcp8 ++ rest))) ++ rest)).
Proof.
  apply (@balancer_deployed helpers_x (runtime_csum_laws _ _ _) (lb_host false) "eth0" []).
  repeat split; discriminate.
Defined.

(** The packet of XdpExamples on the tables of the loader. *)
Definition lb_deployed_state (d : list Z) : xst lb_maps := Xst (Frame [] d []) (deployed_maps true) 0.
Lemma inline_agrees_witness :
  @xdp_lb helpers_x (lb_deployed_state lb_packet) = (@bpf_main helpers_x lb_maps ≫= finish) (lb_deployed_state lb_packet).
Proof.
  apply (@inline_agrees helpers_x (lb_host true) ["eth0"%string] (deployed_maps true) [Attach 3 7 3]).
  - vm_compute. reflexivity.
  - reflexivity.
  - reflexivity.
  - intros _. vm_compute. reflexivity.
Defined.
Example packet_sent : option_map fst (@bpf_main helpers_x lb_maps (lb_deployed_state lb_packet)) = Some XDP_TX.
Proof. vm_compute. reflexivity. Qed.

(** A packet whose hash is 0: the program with tables sends it to the client, 192.168.1.13, the
    compiled-in program to the second server, 192.168.1.3. *)
Definition tie_packet : list Z :=
  [2; 0; 0; 0; 0; 1; 2; 0; 0; 0; 0; 2; 8; 0; 69; 0; 0; 46; 0; 0; 0; 0; 64; 6; 0; 0; 192; 168; 1; 13;
   192; 168; 1; 11; 48; 57; 0; 80; 160; 61; 111; 11; 0; 0; 0; 0; 0; 0; 0; 0; 0; 0; 0; 0; 0; 0; 1; 165; 204; 107].
Lemma inline_differs_on_tie :
  let daddr r := option_map (fun p : Z * xst lb_maps => (p.1, take 4 (drop 30 (f_data (x_frame p.2))))) r in
  daddr (@xdp_lb helpers_x (lb_deployed_state tie_packet)) = Some (XDP_TX, [192; 168; 1; 13]) /\
  daddr (@bpf_main helpers_x lb_maps (lb_deployed_state tie_packet)) = Some (XDP_TX, [192; 168; 1; 3]).
Proof. vm_compute. split; reflexivity. Qed.
End Balancer.

(** ** The object loader *)

Module Loader.
Import BpfStandalone.

(** Symbols and relocations of 64-bit ELF. *)
#[local] Instance elf64 : Libelf := {
  gelf_getsym d i :=
    match slice (24 * i) 24 d with
    | Some b => Some (Sym (le_join (take 4 b)) (le_join (take 2 (drop 6 b))) (le_join (take 8 (drop 8 b))))
    | None => None
    end;
  gelf_getrel d i :=
    match slice (16 * i) 16 d with
    | Some b => Some (Rel (le_join (take 8 b)) (le_join (drop 12 b)))
    | None => None
    end
}.
Definition elf_sym (name shndx value : Z) : list Z :=
  le_split 4 name ++ [0; 0] ++ le_split 2 shndx ++ le_split 8 value ++ le_split 8 0.
(** A load of a map descriptor in two slots, and the exit. *)
Definition code : list Z := [0x18; 0x01; 0; 0; 0; 0; 0; 0] ++ replicate 8 0 ++ [0x95; 0; 0; 0; 0; 0; 0; 0].
Definition map_bytes (type key value entries : Z) : list Z :=
  le_split 4 type ++ le_split 4 key ++ le_split 4 value ++ le_split 4 entries ++ replicate 12 0.
Definition symtab : list Z := elf_sym 0 0 0 ++ elf_sym 9 4 28 ++ elf_sym 1 4 0.
(** An object with two maps, whose section has the name [maps_name]. *)
Definition object_with (maps_name : string) : object := {|
  sections := [None;
    Some (ElfSection "xdp_fw" SHT_PROGBITS 6 0 0 24 0 code);
    Some (ElfSection ".relxdp_fw" SHT_REL 0 5 1 16 16 (le_split 8 0 ++ le_split 4 1 ++ le_split 4 1));
    Some (ElfSection "license" SHT_PROGBITS 3 0 0 4 0 [71; 80; 76; 0]);
    Some (ElfSection maps_name SHT_PROGBITS 3 0 0 56 0 (map_bytes 5 20 8 32 ++ map_bytes 5 4 40 255));
    Some (ElfSection ".symtab" SHT_SYMTAB 0 6 0 72 24 symtab)];
  elf_strptr tab i := if i =? 1 then Some "l3_filter"%string else Some "vrrp_vrid_filter"%string
|}.
Definition counting (cs : list sys) : Z := 10 + Z.of_nat (length cs).

(** The maps are created in the order of their offsets, and the instruction gets the descriptor
    of the second. *)
Example object_loads :
  match bpf_load_from_file counting (Some (object_with "maps")) None loader_init with
  | Some (0, g) => prog_fd g = [13] /\ map name (take 2 (maps g)) = ["l3_filter"; "vrrp_vrid_filter"]%string
      /\ (exists lic, last (calls g) = Some (ProgLoad ([0x18; 0x11; 0; 0; 12; 0; 0; 0] ++ drop 8 code) lic 0 0))
  | _ => False
  end.
Proof. vm_compute. repeat split. eexists. reflexivity. Qed.

(** With the name that the programs of this repository use for the section, no map is created:
    the program is loaded all the same, with the mark of a descriptor and none behind it. *)
Lemma dot_maps_ignored :
  match bpf_load_from_file counting (Some (object_with ".maps")) None loader_init with
  | Some (0, g) => exists lic, calls g = [ProgLoad ([0x18; 0x11; 0; 0; 0; 0; 0; 0] ++ drop 8 code) lic 0 0]
  | _ => False
  end.
Proof. vm_compute. eexists. reflexivity. Qed.
(** A relocation against another section is resolved to the map with the same offset. *)
Lemma other_section_taken_for_map :
  find_map [MapData 11 "l3_filter" 0 no_def] 1 (st_value (Sym 0 7 0)) = Some (MapData 11 "l3_filter" 0 no_def).
Proof. reflexivity. Qed.
(** A license that is longer than the buffer is copied all the same. *)
Lemma long_license_overflows :
  bpf_load_from_file counting (Some (Object [None; Some (ElfSection "license" 1 3 0 0 129 0 (replicate 129 65))] (fun _ _ => None)))
    None loader_init = None.
Proof. reflexivity. Qed.

(** The sections, by their index. *)
Lemma object_section name i s : get_sec (sections (object_with name)) i = Some s ->
  i ∈ [1; 2; 3; 4; 5] /\ Some (Some s) = sections (object_with name) !! Z.to_nat i.
Proof.
  intros Hs. pose proof (get_sec_nonneg _ _ _ Hs) as [Hi Ei]. split; [|done].
  assert (i = 0 \/ i ∈ [1; 2; 3; 4; 5]) as [->|]; [|discriminate|done].
  cbn in Hi. rewrite !elem_of_cons, elem_of_nil. lia.
Qed.
Ltac sections_of Hs :=
  apply object_section in Hs as [Hs ?]; rewrite !elem_of_cons, elem_of_nil in Hs;
  repeat destruct Hs as [-> | Hs]; [..|destruct Hs];
  match goal with E : Some (Some _) = _ |- _ => injection E as -> end.

Lemma object_bounded : bounded (object_with "maps").
Proof.
  split.
  - cbn. lia.
  - intros i s Hs. sections_of Hs; intros En; try discriminate En; vm_compute; discriminate.
  - intros i s j t Hs. sections_of Hs; intros En; try discriminate En. intros Ht. sections_of Ht; intros Et; try discriminate Et.
    eexists. split; [vm_compute; reflexivity|]. split; [cbn; lia|]. split; [reflexivity|].
    repeat constructor; try (eexists; reflexivity); try discriminate; try reflexivity; intros [E|E]; discriminate E.
  - intros i s p j t Hs. sections_of Hs; intros En; try discriminate En. cbn [sh_info]. intros [= <-].
    intros _ Ht. sections_of Ht; intros Et; try discriminate Et.
    split; [discriminate|]. intros k Hk. change (0 <= k < 1) in Hk. assert (k = 0) as -> by lia.
    eexists _, _. split; [reflexivity|]. split; [vm_compute; reflexivity|]. vm_compute. discriminate.
  - intros i s Hs. sections_of Hs; reflexivity.
Qed.

Lemma load_is_faithful_witness :
  exists ret g', bpf_load_from_file counting (Some (object_with "maps")) None loader_init = Some (ret, g')
  /\ loaded (object_with "maps") loader_init g'
  /\ (ret = -1 \/ ret = 0 /\ (length (prog_fd loader_init) < length (prog_fd g'))%nat).
Proof.
  apply (@load_is_faithful elf64 counting (object_with "maps") None loader_init).
  - apply object_bounded.
  - split; [reflexivity|]. split; [reflexivity|]. apply Forall_replicate. intros [E|E]; discriminate E.
Defined.
End Loader.
