(* ===== verification/JsonWriter.v ===== *)
(** * The JSON writer (afxdp/lib/util/json_writer.c)

    A streaming writer: the caller makes one call per token and the writer puts in
    the commas and, in pretty mode, the white space.  The theorems relate what is
    written for a document to a strict JSON reader. *)
From Stdlib Require Import ZArith Lia Ascii String.
From stdpp Require Import base numbers list option.
From S2P Require Import Prelude.
#[local] Open Scope Z_scope.
#[local] Open Scope list_scope.

Declare Scope chars_scope.
#[local] Notation "'!' s" := (list_ascii_of_string s%string) (at level 5, s at level 0, only parsing).
Definition ch (n : Z) : ascii := ascii_of_N (Z.to_N n).
Definition code (c : ascii) : Z := Z.of_N (N_of_ascii c).

(** ** The writer *)

(** [out] is what has been written; [sep] is 0 or a comma.
    @src afxdp/lib/util/json_writer.c 24-29 json_writer *)
Record json_writer := JsonWriter { out : list ascii; depth : Z; pretty : bool; sep : ascii }.

Definition NUL : ascii := ch 0.
Definition COMMA : ascii := ch 44.
Definition SPACE : ascii := ch 32.
Definition put (s : list ascii) (w : json_writer) : json_writer :=
  JsonWriter (out w ++ s) (depth w) (pretty w) (sep w).
Definition set_sep (c : ascii) (w : json_writer) : json_writer :=
  JsonWriter (out w) (depth w) (pretty w) c.
Definition set_depth (d : Z) (w : json_writer) : json_writer :=
  JsonWriter (out w) d (pretty w) (sep w).

(** The loop from 0 to the depth.
    @src afxdp/lib/util/json_writer.c 32-37 jsonw_indent *)
Definition jsonw_indent (w : json_writer) : json_writer :=
  Nat.iter (Z.to_nat (depth w)) (put ! "    ") w.

(** @src afxdp/lib/util/json_writer.c 40-47 jsonw_eol *)
Definition jsonw_eol (w : json_writer) : json_writer :=
  if negb (pretty w) then w else jsonw_indent (put [ch 10] w).

(** @src afxdp/lib/util/json_writer.c 50-55 jsonw_eor *)
Definition jsonw_eor (w : json_writer) : json_writer :=
  let w := if negb (Ascii.eqb (sep w) NUL) then put [sep w] w else w in
  set_sep COMMA w.

(** What one character of a string becomes.
    @src afxdp/lib/util/json_writer.c 64-91 jsonw_puts *)
Definition escape (c : ascii) : list ascii :=
  if code c =? 9 then ! "\t"
  else if code c =? 10 then ! "\n"
  else if code c =? 13 then ! "\r"
  else if code c =? 12 then ! "\f"
  else if code c =? 8 then ! "\b"
  else if code c =? 92 then ! "\\"
  else if code c =? 34 then [ch 92; ch 34]
  else if code c =? 39 then ! "\'"
  else [c].

(** [str] is a C string, the characters before the terminator.
    @src afxdp/lib/util/json_writer.c 60-93 jsonw_puts *)
Definition jsonw_puts (str : list ascii) (w : json_writer) : json_writer :=
  put [ch 34] (foldl (fun w c => put (escape c) w) (put [ch 34] w) str).

(** @src afxdp/lib/util/json_writer.c 96-106 jsonw_new *)
Definition jsonw_new : json_writer := JsonWriter [] 0 false NUL.

(** [None] is a failed assertion.
    @src afxdp/lib/util/json_writer.c 109-118 jsonw_destroy *)
Definition jsonw_destroy (w : json_writer) : option (list ascii) :=
  if depth w =? 0 then Some (out (put [ch 10] w)) else None.

(** @src afxdp/lib/util/json_writer.c 120-123 jsonw_pretty *)
Definition jsonw_pretty (on : bool) (w : json_writer) : json_writer :=
  JsonWriter (out w) (depth w) on (sep w).

(** @src afxdp/lib/util/json_writer.c 126-132 jsonw_begin *)
Definition jsonw_begin (c : ascii) (w : json_writer) : json_writer :=
  let w := put [c] (jsonw_eor w) in
  set_sep NUL (set_depth (u32 (depth w + 1)) w).

(** [None] is a failed assertion.
    @src afxdp/lib/util/json_writer.c 134-143 jsonw_end *)
Definition jsonw_end (c : ascii) (w : json_writer) : option json_writer :=
  if depth w >? 0 then
    let w := set_depth (depth w - 1) w in
    let w := if negb (Ascii.eqb (sep w) NUL) then jsonw_eol w else w in
    Some (set_sep COMMA (put [c] w))
  else None.

(** @src afxdp/lib/util/json_writer.c 147-156 jsonw_name *)
Definition jsonw_name (name : list ascii) (w : json_writer) : json_writer :=
  let w := set_sep NUL (jsonw_eol (jsonw_eor w)) in
  let w := put ! ":" (jsonw_puts name w) in
  if pretty w then put [SPACE] w else w.

(** [text] is what [vfprintf] writes.
    @src afxdp/lib/util/json_writer.c 159-167 jsonw_printf *)
Definition jsonw_printf (text : list ascii) (w : json_writer) : json_writer := put text (jsonw_eor w).

(** @src afxdp/lib/util/json_writer.c 170-173 jsonw_start_object *)
Definition jsonw_start_object (w : json_writer) : json_writer := jsonw_begin (ch 123) w.
(** @src afxdp/lib/util/json_writer.c 175-178 jsonw_end_object *)
Definition jsonw_end_object (w : json_writer) : option json_writer := jsonw_end (ch 125) w.
(** @src afxdp/lib/util/json_writer.c 180-185 jsonw_start_array *)
Definition jsonw_start_array (w : json_writer) : json_writer :=
  let w := jsonw_begin (ch 91) w in
  if pretty w then put [SPACE] w else w.
(** @src afxdp/lib/util/json_writer.c 187-193 jsonw_end_array *)
Definition jsonw_end_array (w : json_writer) : option json_writer :=
  let w := if pretty w && negb (Ascii.eqb (sep w) NUL) then put [SPACE] w else w in
  jsonw_end (ch 93) (set_sep NUL w).

(** ** Values *)

(** The conversions of [printf]: decimal and hexadecimal numbers. *)
Definition digit (d : Z) : ascii := ch (if d <? 10 then 48 + d else 87 + d).
Fixpoint digits (base : Z) (fuel : nat) (n : Z) : list ascii :=
  match fuel with
  | O => []
  | S fuel => (if n <? base then [] else digits base fuel (n / base)) ++ [digit (n mod base)]
  end.
Definition fmt_u (n : Z) : list ascii := digits 10 20 n.
Definition fmt_x (n : Z) : list ascii := digits 16 16 n.
Definition fmt_d (n : Z) : list ascii := if n <? 0 then ! "-" ++ fmt_u (- n) else fmt_u n.
Definition s64 (x : Z) : Z := (x + 9223372036854775808) mod 18446744073709551616 - 9223372036854775808.

(** @src afxdp/lib/util/json_writer.c 196-200 jsonw_string *)
Definition jsonw_string (value : list ascii) (w : json_writer) : json_writer := jsonw_puts value (jsonw_eor w).
(** @src afxdp/lib/util/json_writer.c 202-205 jsonw_bool *)
Definition jsonw_bool (val : bool) (w : json_writer) : json_writer :=
  jsonw_printf (if val then ! "true" else ! "false") w.
(** @src afxdp/lib/util/json_writer.c 207-210 jsonw_null *)
Definition jsonw_null (w : json_writer) : json_writer := jsonw_printf ! "null" w.
(** [text] is what [%g] gives.
    @src afxdp/lib/util/json_writer.c 212-215 jsonw_float *)
Definition jsonw_float (text : list ascii) (w : json_writer) : json_writer := jsonw_printf text w.
(** @src afxdp/lib/util/json_writer.c 217-220 jsonw_hhu *)
Definition jsonw_hhu (num : Z) (w : json_writer) : json_writer := jsonw_printf (fmt_u (u8 num)) w.
(** @src afxdp/lib/util/json_writer.c 222-225 jsonw_hu *)
Definition jsonw_hu (num : Z) (w : json_writer) : json_writer := jsonw_printf (fmt_u (u16 num)) w.
(** @src afxdp/lib/util/json_writer.c 227-230 jsonw_uint *)
Definition jsonw_uint (num : Z) (w : json_writer) : json_writer := jsonw_printf (fmt_u (u32 num)) w.
(** @src afxdp/lib/util/json_writer.c 232-235 jsonw_u64 *)
Definition jsonw_u64 (num : Z) (w : json_writer) : json_writer := jsonw_printf (fmt_u (u64 num)) w.
(** @src afxdp/lib/util/json_writer.c 237-240 jsonw_xint *)
Definition jsonw_xint (num : Z) (w : json_writer) : json_writer := jsonw_printf (fmt_x (u64 num)) w.
(** @src afxdp/lib/util/json_writer.c 242-245 jsonw_luint *)
Definition jsonw_luint (num : Z) (w : json_writer) : json_writer := jsonw_printf (fmt_u (u64 num)) w.
(** @src afxdp/lib/util/json_writer.c 247-250 jsonw_lluint *)
Definition jsonw_lluint (num : Z) (w : json_writer) : json_writer := jsonw_printf (fmt_u (u64 num)) w.
(** @src afxdp/lib/util/json_writer.c 252-255 jsonw_int *)
Definition jsonw_int (num : Z) (w : json_writer) : json_writer := jsonw_printf (fmt_d (s32 num)) w.
(** @src afxdp/lib/util/json_writer.c 257-260 jsonw_s64 *)
Definition jsonw_s64 (num : Z) (w : json_writer) : json_writer := jsonw_printf (fmt_d (s64 num)) w.

(** The functions that write a name and a value. *)
(** @src afxdp/lib/util/json_writer.c 263-267 jsonw_string_field *)
Definition jsonw_string_field (prop : list ascii) (val : list ascii) (w : json_writer) : json_writer := jsonw_string val (jsonw_name prop w).
(** @src afxdp/lib/util/json_writer.c 269-273 jsonw_bool_field *)
Definition jsonw_bool_field (prop : list ascii) (val : bool) (w : json_writer) : json_writer := jsonw_bool val (jsonw_name prop w).
(** @src afxdp/lib/util/json_writer.c 275-279 jsonw_float_field *)
Definition jsonw_float_field (prop : list ascii) (val : list ascii) (w : json_writer) : json_writer := jsonw_float val (jsonw_name prop w).
(** @src afxdp/lib/util/json_writer.c 281-285 jsonw_uint_field *)
Definition jsonw_uint_field (prop : list ascii) (val : Z) (w : json_writer) : json_writer := jsonw_uint val (jsonw_name prop w).
(** @src afxdp/lib/util/json_writer.c 287-291 jsonw_u64_field *)
Definition jsonw_u64_field (prop : list ascii) (val : Z) (w : json_writer) : json_writer := jsonw_u64 val (jsonw_name prop w).
(** @src afxdp/lib/util/json_writer.c 293-297 jsonw_xint_field *)
Definition jsonw_xint_field (prop : list ascii) (val : Z) (w : json_writer) : json_writer := jsonw_xint val (jsonw_name prop w).
(** @src afxdp/lib/util/json_writer.c 299-303 jsonw_hhu_field *)
Definition jsonw_hhu_field (prop : list ascii) (val : Z) (w : json_writer) : json_writer := jsonw_hhu val (jsonw_name prop w).
(** @src afxdp/lib/util/json_writer.c 305-309 jsonw_hu_field *)
Definition jsonw_hu_field (prop : list ascii) (val : Z) (w : json_writer) : json_writer := jsonw_hu val (jsonw_name prop w).
(** @src afxdp/lib/util/json_writer.c 311-317 jsonw_luint_field *)
Definition jsonw_luint_field (prop : list ascii) (val : Z) (w : json_writer) : json_writer := jsonw_luint val (jsonw_name prop w).
(** @src afxdp/lib/util/json_writer.c 319-325 jsonw_lluint_field *)
Definition jsonw_lluint_field (prop : list ascii) (val : Z) (w : json_writer) : json_writer := jsonw_lluint val (jsonw_name prop w).
(** @src afxdp/lib/util/json_writer.c 327-331 jsonw_int_field *)
Definition jsonw_int_field (prop : list ascii) (val : Z) (w : json_writer) : json_writer := jsonw_int val (jsonw_name prop w).
(** @src afxdp/lib/util/json_writer.c 333-337 jsonw_s64_field *)
Definition jsonw_s64_field (prop : list ascii) (val : Z) (w : json_writer) : json_writer := jsonw_s64 val (jsonw_name prop w).
(** @src afxdp/lib/util/json_writer.c 339-343 jsonw_null_field *)
Definition jsonw_null_field (prop : list ascii) (w : json_writer) : json_writer := jsonw_null (jsonw_name prop w).

(** ** Documents *)

Inductive json :=
| JNull | JBool (b : bool) | JInt (n : Z) | JString (s : list ascii)
| JArray (l : list json) | JObject (l : list (list ascii * json)).

(** Induction that goes under the lists. *)
Section json_ind.
Context (P : json -> Prop) (Hnull : P JNull) (Hbool : forall b, P (JBool b)) (Hint : forall n, P (JInt n)).
Context (Hstring : forall s, P (JString s)).
Context (Harray : forall l, Forall P l -> P (JArray l)).
Context (Hobject : forall l, Forall (fun kv => P kv.2) l -> P (JObject l)).
Definition json_deep_ind : forall j, P j :=
  fix go j := match j with
  | JNull => Hnull | JBool b => Hbool b | JInt n => Hint n | JString s => Hstring s
  | JArray l => Harray l
      ((fix all l := match l return Forall P l with
        | [] => Forall_nil_2 _ | j :: l => Forall_cons_2 _ _ _ (go j) (all l) end) l)
  | JObject l => Hobject l
      ((fix all l := match l return Forall (fun kv => P kv.2) l with
        | [] => Forall_nil_2 _ | kv :: l => Forall_cons_2 _ _ _ (go kv.2) (all l) end) l)
  end.
End json_ind.

(** The calls that write a document, in the order of its tokens. *)
Definition write_all (write : json -> json_writer -> option json_writer) :=
  fix go (l : list json) (w : json_writer) : option json_writer :=
  match l with [] => Some w | j :: l => w ← write j w; go l w end.
Definition write_fields (write : json -> json_writer -> option json_writer) :=
  fix go (l : list (list ascii * json)) (w : json_writer) : option json_writer :=
  match l with [] => Some w | (k, j) :: l => w ← write j (jsonw_name k w); go l w end.
Fixpoint write_json (j : json) (w : json_writer) : option json_writer :=
  match j with
  | JNull => Some (jsonw_null w)
  | JBool b => Some (jsonw_bool b w)
  | JInt n => Some (if n <? 0 then jsonw_s64 n w else jsonw_u64 n w)
  | JString s => Some (jsonw_string s w)
  | JArray l => w ← write_all write_json l (jsonw_start_array w); jsonw_end_array w
  | JObject l => w ← write_fields write_json l (jsonw_start_object w); jsonw_end_object w
  end.
Definition write_document (on : bool) (j : json) : option (list ascii) :=
  w ← write_json j (jsonw_pretty on jsonw_new); jsonw_destroy w.

(** ** What is written *)

(** The text of a value at a nesting depth, without what separates it from the value before. *)
Definition indent (on : bool) (d : Z) : list ascii :=
  if on then ch 10 :: concat (repeat ! "    " (Z.to_nat d)) else [].
Definition space (on : bool) : list ascii := if on then [SPACE] else [].
Definition quoted (s : list ascii) : list ascii := ch 34 :: flat_map escape s ++ [ch 34].
Fixpoint render (on : bool) (d : Z) (j : json) : list ascii :=
  match j with
  | JNull => ! "null"
  | JBool b => if b then ! "true" else ! "false"
  | JInt n => fmt_d n
  | JString s => quoted s
  | JArray [] => ch 91 :: space on ++ [ch 93]
  | JArray (j :: l) =>
      ch 91 :: space on ++ render on (d + 1) j
        ++ flat_map (fun j => COMMA :: render on (d + 1) j) l ++ space on ++ [ch 93]
  | JObject [] => [ch 123; ch 125]
  | JObject ((k, j) :: l) =>
      ch 123 :: indent on (d + 1) ++ quoted k ++ ! ":" ++ space on ++ render on (d + 1) j
        ++ flat_map (fun kv => COMMA :: indent on (d + 1) ++ quoted kv.1 ++ ! ":" ++ space on
             ++ render on (d + 1) kv.2) l
        ++ indent on d ++ [ch 125]
  end.

(** The nesting of a document and the values it may hold. *)
Fixpoint nesting (j : json) : Z :=
  match j with
  | JArray l => 1 + fold_right (fun j n => Z.max (nesting j) n) 0 l
  | JObject l => 1 + fold_right (fun kv n => Z.max (nesting kv.2) n) 0 l
  | _ => 0
  end.
(** A character that [jsonw_puts] writes in a way that is JSON: not a quote mark of C, and
    no control character but the five that have an escape. *)
Definition plain (c : ascii) : bool :=
  (negb (code c =? 39) && (32 <=? code c)) || existsb (Z.eqb (code c)) [8; 9; 10; 12; 13].
Fixpoint writable (j : json) : bool :=
  match j with
  | JNull | JBool _ => true
  | JInt n => (-9223372036854775808 <=? n) && (n <? 18446744073709551616)
  | JString s => forallb plain s
  | JArray l => forallb writable l
  | JObject l => forallb (fun kv => forallb plain kv.1 && writable kv.2) l
  end.

(** The separator is written before the value. *)
Definition pending (w : json_writer) : list ascii := if Ascii.eqb (sep w) NUL then [] else [sep w].
Definition after (w : json_writer) (s : list ascii) : json_writer :=
  JsonWriter (out w ++ pending w ++ s) (depth w) (pretty w) COMMA.

Lemma jsonw_eor_after w : jsonw_eor w = after w [].
Proof.
  destruct w as [o d p s]. unfold jsonw_eor, after, pending, put, set_sep. cbn [sep].
  destruct (Ascii.eqb s NUL); cbn; now rewrite ?app_nil_r.
Qed.
Lemma put_put a b w : put b (put a w) = put (a ++ b) w.
Proof. unfold put; cbn. now rewrite app_assoc. Qed.
Lemma put_after a b w : put b (after w a) = after w (a ++ b).
Proof. unfold put, after; cbn. now rewrite <- !app_assoc. Qed.
Lemma put_escapes s w : foldl (fun w c => put (escape c) w) w s = put (flat_map escape s) w.
Proof.
  revert w; induction s as [|c s IH]; intros w; cbn; [|now rewrite IH, put_put].
  destruct w; unfold put; cbn. now rewrite app_nil_r.
Qed.
Lemma jsonw_puts_put s w : jsonw_puts s w = put (quoted s) w.
Proof. unfold jsonw_puts, quoted. now rewrite put_escapes, !put_put. Qed.
Lemma jsonw_eol_put w : jsonw_eol w = put (indent (pretty w) (depth w)) w.
Proof.
  unfold jsonw_eol, indent. destruct (pretty w); cbn [negb]; [|destruct w; unfold put; cbn; now rewrite app_nil_r].
  unfold jsonw_indent. cbn [depth put].
  assert (forall n a, Nat.iter n (put ! "    ") (put a w) = put (a ++ concat (repeat ! "    " n)) w) as H.
  { induction n as [|n IH]; intros a; [cbn; now rewrite app_nil_r|].
    rewrite Nat.iter_succ_r, put_put, IH. cbn [repeat concat]. now rewrite app_assoc. }
  apply H.
Qed.

Lemma out_put w s : out (put s w) = out w ++ s. Proof. done. Qed.
Lemma jsonw_printf_after s w : jsonw_printf s w = after w s.
Proof. unfold jsonw_printf. now rewrite jsonw_eor_after, put_after. Qed.
Lemma jsonw_string_after s w : jsonw_string s w = after w (quoted s).
Proof. unfold jsonw_string. now rewrite jsonw_puts_put, jsonw_eor_after, put_after. Qed.

(** The texts on both sides, reassociated. *)
Ltac texts := cbn; repeat (progress (rewrite <- ?app_assoc; cbn)); done.

(** Inside an array or object whose opening text [s] is written: [c] is the separator. *)
Definition inside (w : json_writer) (s : list ascii) (c : ascii) : json_writer :=
  JsonWriter (out w ++ pending w ++ s) (depth w + 1) (pretty w) c.

Lemma jsonw_begin_inside c w :
  0 <= depth w < 4294967295 -> jsonw_begin c w = inside w [c] NUL.
Proof.
  intros Hd. unfold jsonw_begin. rewrite jsonw_eor_after. unfold inside, after, set_sep, set_depth, put; cbn.
  rewrite u32_id by (unfold is_u32; lia). now rewrite app_nil_r, <- app_assoc.
Qed.
Lemma jsonw_name_inside s c k w :
  c = NUL \/ c = COMMA ->
  jsonw_name k (inside w s c) =
  inside w (s ++ (if Ascii.eqb c NUL then [] else [COMMA]) ++ indent (pretty w) (depth w + 1) ++ quoted k
              ++ ! ":" ++ space (pretty w)) NUL.
Proof.
  intros Hc. unfold jsonw_name. rewrite jsonw_eor_after, jsonw_eol_put, jsonw_puts_put.
  unfold inside, after, pending, set_sep, put, space; cbn.
  destruct Hc as [-> | ->], (pretty w); cbn; rewrite ?app_nil_r, <- ?app_assoc; cbn; now rewrite <- ?app_assoc.
Qed.
Lemma after_inside w s c t :
  c = NUL \/ c = COMMA ->
  after (inside w s c) t = inside w (s ++ (if Ascii.eqb c NUL then [] else [COMMA]) ++ t) COMMA.
Proof. intros [-> | ->]; unfold after, inside, pending; cbn; now rewrite <- !app_assoc. Qed.
Lemma jsonw_end_inside b w s c :
  0 <= depth w -> c = NUL \/ c = COMMA ->
  jsonw_end b (inside w s c) =
  Some (after w (s ++ (if Ascii.eqb c NUL then [] else indent (pretty w) (depth w)) ++ [b])).
Proof.
  intros Hd Hc. unfold jsonw_end. cbn [depth inside].
  destruct (Z.gtb_spec (depth w + 1) 0) as [_|]; [|lia].
  unfold set_depth; cbn [sep out pretty inside]. replace (depth w + 1 - 1) with (depth w) by lia.
  rewrite jsonw_eol_put; cbn [pretty depth].
  destruct Hc as [-> | ->]; unfold after, set_sep, put, indent; cbn; rewrite <- ?app_assoc; cbn; now rewrite <- ?app_assoc.
Qed.

Lemma jsonw_start_array_inside w :
  0 <= depth w < 4294967295 -> jsonw_start_array w = inside w (ch 91 :: space (pretty w)) NUL.
Proof.
  intros Hd. unfold jsonw_start_array. rewrite jsonw_begin_inside by done.
  unfold inside, space, put; cbn. destruct (pretty w); cbn; now rewrite <- ?app_assoc.
Qed.
Lemma jsonw_end_array_inside w s c :
  0 <= depth w -> c = NUL \/ c = COMMA ->
  jsonw_end_array (inside w s c) =
  Some (after w (s ++ (if Ascii.eqb c NUL then [] else space (pretty w)) ++ [ch 93])).
Proof.
  intros Hd Hc. unfold jsonw_end_array.
  replace (set_sep NUL _) with (inside w (s ++ if Ascii.eqb c NUL then [] else space (pretty w)) NUL).
  - rewrite jsonw_end_inside by auto. cbn. now rewrite <- app_assoc.
  - unfold set_sep, inside, space, put. cbn.
    destruct Hc as [-> | ->], (pretty w); cbn; rewrite ?app_nil_r, <- ?app_assoc; done.
Qed.

Definition writes (j : json) : Prop := forall w,
  writable j = true -> 0 <= depth w -> depth w + nesting j < 4294967296 ->
  write_json j w = Some (after w (render (pretty w) (depth w) j)).

Lemma write_all_inside l w s :
  Forall writes l -> forallb writable l = true -> 0 <= depth w ->
  depth w + 1 + fold_right (fun j n => Z.max (nesting j) n) 0 l < 4294967296 ->
  write_all write_json l (inside w s COMMA) =
  Some (inside w (s ++ flat_map (fun j => COMMA :: render (pretty w) (depth w + 1) j) l) COMMA).
Proof.
  intros Hl. revert s. induction Hl as [|j l Hj Hl IH]; intros s Hw Hd Hn; cbn [write_all flat_map].
  { now rewrite app_nil_r. }
  cbn in Hw, Hn. apply andb_true_iff in Hw as [Hwj Hwl].
  rewrite (Hj (inside w s COMMA)) by (cbn; (done || lia)). cbn [mbind option_bind].
  rewrite after_inside by auto. cbn [inside depth pretty]. rewrite IH by (done || lia).
  texts.
Qed.
Lemma write_fields_inside l w s :
  Forall (fun kv => writes kv.2) l -> forallb (fun kv => forallb plain kv.1 && writable kv.2) l = true ->
  0 <= depth w -> depth w + 1 + fold_right (fun kv n => Z.max (nesting kv.2) n) 0 l < 4294967296 ->
  write_fields write_json l (inside w s COMMA) =
  Some (inside w (s ++ flat_map (fun kv => COMMA :: indent (pretty w) (depth w + 1) ++ quoted kv.1 ++ ! ":"
     ++ space (pretty w) ++ render (pretty w) (depth w + 1) kv.2) l) COMMA).
Proof.
  intros Hl. revert s. induction Hl as [|[k j] l Hj Hl IH]; intros s Hw Hd Hn; cbn [write_fields flat_map].
  { now rewrite app_nil_r. }
  cbn in Hw, Hn. apply andb_true_iff in Hw as [Hwj Hwl]. apply andb_true_iff in Hwj as [Hk Hwj]; clear Hk.
  rewrite jsonw_name_inside by auto. rewrite (Hj (inside w _ NUL)) by (cbn; (done || lia)).
  cbn [mbind option_bind].
  rewrite after_inside by auto. cbn [inside depth pretty]. rewrite IH by (done || lia).
  texts.
Qed.

Lemma fold_max_nonneg {A} (f : A -> Z) l : 0 <= fold_right (fun x n => Z.max (f x) n) 0 l.
Proof. induction l; cbn; lia. Qed.

Lemma write_json_after j : writes j.
Proof.
  induction j as [|b|n|s|l Hl|l Hl] using json_deep_ind; intros w Hw Hd Hn; cbn [write_json render];
    try pose proof (fold_max_nonneg nesting l); try pose proof (fold_max_nonneg (fun kv : list ascii * json => nesting kv.2) l).
  - unfold jsonw_null. now rewrite jsonw_printf_after.
  - unfold jsonw_bool. rewrite jsonw_printf_after. now destruct b.
  - cbn in Hw. unfold jsonw_s64, jsonw_u64, fmt_d. rewrite !jsonw_printf_after.
    destruct (Z.ltb_spec n 0).
    + assert (s64 n = n) as -> by (unfold s64; zlia). now destruct (Z.ltb_spec n 0); [|lia].
    + now rewrite u64_id by (unfold is_u64; lia).
  - now rewrite jsonw_string_after.
  - destruct l as [|j l]; cbn in Hw, Hn; rewrite jsonw_start_array_inside by (cbn in *; lia); cbn [write_all].
    { cbn [mbind option_bind]. rewrite jsonw_end_array_inside by auto. texts. }
    apply andb_true_iff in Hw as [Hwj Hwl]. apply Forall_cons_1 in Hl as [Hj Hl].
    rewrite Hj by (cbn; (done || lia)). cbn [mbind option_bind].
    rewrite after_inside by auto. cbn [inside depth pretty].
    rewrite write_all_inside by (done || lia). cbn [mbind option_bind].
    rewrite jsonw_end_array_inside by auto. texts.
  - destruct l as [|[k j] l]; cbn in Hw, Hn; unfold jsonw_start_object; rewrite jsonw_begin_inside by (cbn in *; lia); cbn [write_fields].
    { cbn [mbind option_bind]. unfold jsonw_end_object. now rewrite jsonw_end_inside by auto. }
    apply andb_true_iff in Hw as [Hwj Hwl]. apply andb_true_iff in Hwj as [Hk Hwj]; clear Hk.
    apply Forall_cons_1 in Hl as [Hj Hl]. cbn in Hj.
    rewrite jsonw_name_inside by auto. rewrite Hj by (cbn; (done || lia)). cbn [mbind option_bind].
    rewrite after_inside by auto. cbn [inside depth pretty].
    rewrite write_fields_inside by (done || lia). cbn [mbind option_bind]. unfold jsonw_end_object.
    rewrite jsonw_end_inside by auto. texts.
Qed.

Lemma write_document_render on j :
  writable j = true -> nesting j < 4294967296 ->
  write_document on j = Some (render on 0 j ++ [ch 10]).
Proof.
  intros Hw Hn. unfold write_document. rewrite write_json_after by (cbn; (done || lia)). done.
Qed.

(** ** A strict reader *)

(** The grammar of RFC 8259, without fractions and unicode escapes: a reader takes characters
    and returns a value and what is left. *)
Definition is_space (c : ascii) : bool := existsb (Z.eqb (code c)) [9; 10; 13; 32].
Definition is_digit (c : ascii) : bool := (48 <=? code c) && (code c <=? 57).
Fixpoint skip (s : list ascii) : list ascii :=
  match s with c :: r => if is_space c then skip r else s | [] => [] end.
Definition unescape (c : ascii) : option ascii :=
  if code c =? 34 then Some c
  else if code c =? 92 then Some c
  else if code c =? 47 then Some c
  else if code c =? 98 then Some (ch 8)
  else if code c =? 102 then Some (ch 12)
  else if code c =? 110 then Some (ch 10)
  else if code c =? 114 then Some (ch 13)
  else if code c =? 116 then Some (ch 9)
  else None.
(** The characters up to the closing quote. *)
Fixpoint read_chars (s : list ascii) : option (list ascii * list ascii) :=
  match s with
  | [] => None
  | c :: r =>
      if code c =? 34 then Some ([], r)
      else if code c =? 92 then
        match r with
        | e :: r => c ← unescape e; '(l, r) ← read_chars r; Some (c :: l, r)
        | [] => None
        end
      else if code c <? 32 then None
      else '(l, r) ← read_chars r; Some (c :: l, r)
  end.
Fixpoint read_digits (n : Z) (s : list ascii) : Z * list ascii :=
  match s with
  | c :: r => if is_digit c then read_digits (10 * n + (code c - 48)) r else (n, s)
  | [] => (n, [])
  end.
Definition read_nat (s : list ascii) : option (Z * list ascii) :=
  match s with
  | c :: r => if code c =? 48 then Some (0, r) else if is_digit c then Some (read_digits 0 s) else None
  | [] => None
  end.
Definition read_int (s : list ascii) : option (Z * list ascii) :=
  match s with
  | c :: r => if code c =? 45 then '(n, r) ← read_nat r; Some (- n, r) else read_nat s
  | [] => None
  end.
Fixpoint expect (word s : list ascii) : option (list ascii) :=
  match word, s with
  | [], _ => Some s
  | a :: word, b :: s => if Ascii.eqb a b then expect word s else None
  | _, [] => None
  end.
(** [fuel] bounds the number of tokens. *)
Fixpoint read_value (fuel : nat) (s : list ascii) : option (json * list ascii) :=
  match fuel, skip s with
  | S fuel, c :: r =>
      if code c =? 110 then r ← expect ! "ull" r; Some (JNull, r)
      else if code c =? 116 then r ← expect ! "rue" r; Some (JBool true, r)
      else if code c =? 102 then r ← expect ! "alse" r; Some (JBool false, r)
      else if code c =? 34 then '(l, r) ← read_chars r; Some (JString l, r)
      else if code c =? 91 then
        match expect [ch 93] (skip r) with
        | Some r => Some (JArray [], r)
        | None => '(l, r) ← read_elements fuel r; Some (JArray l, r)
        end
      else if code c =? 123 then
        match expect [ch 125] (skip r) with
        | Some r => Some (JObject [], r)
        | None => '(l, r) ← read_members fuel r; Some (JObject l, r)
        end
      else '(n, r) ← read_int (c :: r); Some (JInt n, r)
  | _, _ => None
  end
with read_elements (fuel : nat) (s : list ascii) : option (list json * list ascii) :=
  match fuel with
  | O => None
  | S fuel =>
      '(j, r) ← read_value fuel s;
      match skip r with
      | c :: r => if code c =? 44 then '(l, r) ← read_elements fuel r; Some (j :: l, r)
                  else if code c =? 93 then Some ([j], r) else None
      | [] => None
      end
  end
with read_members (fuel : nat) (s : list ascii) : option (list (list ascii * json) * list ascii) :=
  match fuel with
  | O => None
  | S fuel =>
      r ← expect [ch 34] (skip s);
      '(k, r) ← read_chars r;
      r ← expect ! ":" (skip r);
      '(j, r) ← read_value fuel r;
      match skip r with
      | c :: r => if code c =? 44 then '(l, r) ← read_members fuel r; Some ((k, j) :: l, r)
                  else if code c =? 125 then Some ([(k, j)], r) else None
      | [] => None
      end
  end.
(** A whole text: one value and white space. *)
Definition read_document (s : list ascii) : option json :=
  '(j, r) ← read_value (length s) s;
  match skip r with [] => Some j | _ => None end.

(** *** What is written is read back *)

Lemma read_chars_escape c r :
  plain c = true -> read_chars (escape c ++ r) = '(l, r) ← read_chars r; Some (c :: l, r).
Proof. destruct c as [[] [] [] [] [] [] [] []]; intros H; solve [discriminate H | reflexivity]. Qed.
Lemma read_chars_quoted s r :
  forallb plain s = true -> read_chars (flat_map escape s ++ ch 34 :: r) = Some (s, r).
Proof.
  induction s as [|c s IH]; intros H; [done|]. cbn in H. apply andb_true_iff in H as [Hc Hs].
  cbn [flat_map]. rewrite <- app_assoc, read_chars_escape by done. now rewrite IH.
Qed.

Definition stops (r : list ascii) : bool := match r with c :: _ => negb (is_digit c) | [] => true end.
Lemma code_digit d : 0 <= d < 10 -> code (digit d) = 48 + d.
Proof.
  intros H. assert (Hd : d ∈ seqZ 0 10) by (apply elem_of_seqZ; lia).
  apply list_elem_of_In in Hd. cbn in Hd.
  repeat (destruct Hd as [<- | Hd]; [reflexivity|]). destruct Hd.
Qed.
Lemma read_digits_app l n r :
  Forall (fun c => is_digit c = true) l -> stops r = true ->
  read_digits n (l ++ r) = (fold_left (fun n c => 10 * n + (code c - 48)) l n, r).
Proof.
  intros Hl Hr. revert n. induction Hl as [|c l Hc Hl IH]; intros n; cbn [app fold_left read_digits].
  - destruct r as [|c r]; [done|]. cbn in Hr |- *. apply negb_true_iff in Hr. now rewrite Hr.
  - now rewrite Hc, IH.
Qed.
Lemma digit_is_digit d : 0 <= d < 10 -> is_digit (digit d) = true.
Proof. intros H. unfold is_digit. rewrite code_digit by done. apply andb_true_iff; split; apply Z.leb_le; lia. Qed.
Lemma digits_digits f n : 0 <= n -> Forall (fun c => is_digit c = true) (digits 10 f n).
Proof.
  revert n; induction f as [|f IH]; intros n Hn; cbn [digits]; [done|].
  apply Forall_app; split; [destruct (n <? 10); [done|]; apply IH; zlia|].
  apply Forall_singleton, digit_is_digit. zlia.
Qed.
Lemma digits_value f n :
  0 <= n < 10 ^ Z.of_nat f -> fold_left (fun n c => 10 * n + (code c - 48)) (digits 10 f n) 0 = n.
Proof.
  revert n; induction f as [|f IH]; intros n Hn; cbn [digits]; [cbn in *; lia|].
  rewrite fold_left_app. cbn [fold_left]. rewrite code_digit by zlia.
  destruct (Z.ltb_spec n 10); cbn [fold_left]; [zlia|].
  rewrite IH; [zlia|]. rewrite Nat2Z.inj_succ, Z.pow_succ_r in Hn by lia. zlia.
Qed.
(** The first digit of a number that is not 0 is not 0. *)
Lemma digits_head f n :
  0 < n < 10 ^ Z.of_nat f -> exists c l, digits 10 f n = c :: l /\ is_digit c = true /\ code c <> 48.
Proof.
  revert n; induction f as [|f IH]; intros n Hn; [cbn in *; lia|]. cbn [digits].
  destruct (Z.ltb_spec n 10).
  - exists (digit (n mod 10)), []. split; [done|]. rewrite code_digit by zlia.
    split; [apply digit_is_digit; zlia|]. rewrite Z.mod_small by lia. lia.
  - rewrite Nat2Z.inj_succ, Z.pow_succ_r in Hn by lia.
    destruct (IH (n / 10)) as (c & l & -> & Hc & H0); [zlia|]. now exists c, (l ++ [digit (n mod 10)]).
Qed.
Lemma read_nat_fmt n r :
  0 <= n < 10 ^ 20 -> stops r = true -> read_nat (fmt_u n ++ r) = Some (n, r).
Proof.
  intros Hn Hr. destruct (decide (n = 0)) as [->|]; [done|].
  destruct (digits_head 20 n) as (c & l & Hd & Hc & H0); [lia|]. unfold fmt_u.
  pose proof (digits_digits 20 n ltac:(lia)) as Hall. pose proof (digits_value 20 n Hn) as Hval.
  rewrite Hd in Hall, Hval |- *. unfold read_nat. cbn [app].
  destruct (Z.eqb_spec (code c) 48); [done|]. rewrite Hc.
  change (c :: l ++ r) with ((c :: l) ++ r). now rewrite read_digits_app, Hval by done.
Qed.

Lemma skip_spaces a s : forallb is_space a = true -> skip (a ++ s) = skip s.
Proof. induction a as [|c a IH]; cbn; [done|]. intros [Hc Ha]%andb_true_iff. now rewrite Hc, IH. Qed.
Lemma space_space on : forallb is_space (space on) = true.
Proof. now destruct on. Qed.
Lemma indent_space on d : forallb is_space (indent on d) = true.
Proof.
  destruct on; [|done]. unfold indent. cbn [forallb]. rewrite andb_true_iff; split; [done|].
  induction (Z.to_nat d); [done|]. cbn [repeat concat]. now rewrite forallb_app, IHn.
Qed.
Lemma read_value_spaces m a s : forallb is_space a = true -> read_value m (a ++ s) = read_value m s.
Proof. intros Ha. destruct m; [done|]. cbn [read_value]. now rewrite skip_spaces. Qed.

(** A rendered value starts with a character that is neither a space nor a closing bracket. *)
Definition opens (s : list ascii) : Prop :=
  exists c l, s = c :: l /\ is_space c = false /\ Ascii.eqb (ch 93) c = false.
Lemma is_digit_opens c l : is_digit c = true -> opens (c :: l).
Proof. intros Hc. exists c, l. split; [done|]. destruct c as [[] [] [] [] [] [] [] []]; try discriminate Hc; done. Qed.
Lemma render_opens on d j : writable j = true -> opens (render on d j).
Proof.
  intros Hw.
  destruct j as [|[]|n|s|[|]|[|[]]]; cbn [render]; try (eexists _, _; split; [reflexivity|done]).
  unfold fmt_d. destruct (Z.ltb_spec n 0); [eexists _, _; split; [reflexivity|done]|].
  cbn in Hw. destruct (decide (n = 0)) as [->|]; [eexists _, _; split; [reflexivity|done]|].
  destruct (digits_head 20 n) as (c & l & Hd & Hc & _); [lia|].
  unfold fmt_u. rewrite Hd. now apply is_digit_opens.
Qed.
Lemma opens_skip s r : opens s -> skip (s ++ r) = s ++ r.
Proof. intros (c & l & -> & Hc & _). cbn [app skip]. now rewrite Hc. Qed.
Lemma opens_not_close s r : opens s -> expect [ch 93] (s ++ r) = None.
Proof. intros (c & l & -> & _ & Hc). cbn [app expect]. now rewrite Hc. Qed.

Definition reads (j : json) : Prop := forall on d m r,
  writable j = true -> stops r = true -> (length (render on d j) <= m)%nat ->
  read_value m (render on d j ++ r) = Some (j, r).

(** Tail of an array, of an object. *)
Definition elements on d (l : list json) : list ascii := flat_map (fun j => COMMA :: render on d j) l.
Definition member on d (kv : list ascii * json) : list ascii :=
  indent on d ++ quoted kv.1 ++ ! ":" ++ space on ++ render on d kv.2.
Definition members on d (l : list (list ascii * json)) : list ascii :=
  flat_map (fun kv => COMMA :: member on d kv) l.

Lemma spaces_stop a c r : forallb is_space a = true -> is_digit c = false -> stops (a ++ c :: r) = true.
Proof.
  intros Ha Hc. destruct a as [|b a]; cbn; [now rewrite Hc|]. cbn in Ha. apply andb_true_iff in Ha as [Hb _].
  destruct b as [[] [] [] [] [] [] [] []]; try discriminate Hb; done.
Qed.
Lemma elements_stop on d l r : stops (elements on d l ++ space on ++ ch 93 :: r) = true.
Proof. destruct l; cbn; [now apply spaces_stop; [apply space_space|]|done]. Qed.
Lemma members_stop on d e l r : stops (members on d l ++ indent on e ++ ch 125 :: r) = true.
Proof. destruct l; cbn; [now apply spaces_stop; [apply indent_space|]|done]. Qed.

Lemma skip_comma s : skip (COMMA :: s) = COMMA :: s. Proof. done. Qed.

Lemma read_elements_render on d l j m r :
  reads j -> Forall reads l -> writable j = true -> forallb writable l = true ->
  (length (render on d j ++ elements on d l) < m)%nat ->
  read_elements m (render on d j ++ elements on d l ++ space on ++ ch 93 :: r) = Some (j :: l, r).
Proof.
  intros Hj Hl. revert j m Hj. induction Hl as [|i l Hi Hl IH]; intros j m Hj Hw Hwl Hm;
    (destruct m as [|m]; [lia|]); rewrite length_app in Hm; cbn [read_elements];
    rewrite Hj by (done || apply elements_stop || lia); cbn [mbind option_bind].
  - cbn [elements flat_map app]. now rewrite skip_spaces by apply space_space.
  - cbn [forallb] in Hwl. apply andb_true_iff in Hwl as [Hwi Hwl].
    change (elements on d (i :: l)) with (COMMA :: render on d i ++ elements on d l) in Hm |- *.
    cbn [app length] in Hm |- *. rewrite skip_comma, <- app_assoc. change (code COMMA =? 44) with true. cbv iota.
    now rewrite IH by (done || lia).
Qed.

Lemma quoted_app s r : quoted s ++ r = ch 34 :: flat_map escape s ++ ch 34 :: r.
Proof. unfold quoted. cbn [app]. now rewrite <- app_assoc. Qed.
Lemma expect_head c s : expect [c] (c :: s) = Some s.
Proof. cbn [expect]. now rewrite Ascii.eqb_refl. Qed.
(** The reader at a member: the name, the colon, and then the value with what follows. *)
Lemma read_member_head m on d kv s :
  forallb plain kv.1 = true ->
  read_members (S m) (member on d kv ++ s) =
  '(j, r) ← read_value m (render on d kv.2 ++ s);
  match skip r with
  | c :: r => if code c =? 44 then '(l, r) ← read_members m r; Some ((kv.1, j) :: l, r)
              else if code c =? 125 then Some ([(kv.1, j)], r) else None
  | [] => None
  end.
Proof.
  intros Hk. unfold member. rewrite <- !app_assoc. cbn [read_members].
  rewrite skip_spaces by apply indent_space. rewrite quoted_app.
  change (skip (ch 34 :: ?s)) with (ch 34 :: s). rewrite expect_head. cbn [mbind option_bind].
  rewrite read_chars_quoted by done. cbn [mbind option_bind list_ascii_of_string app].
  change (skip (":"%char :: ?s)) with (":"%char :: s). rewrite expect_head. cbn [mbind option_bind].
  now rewrite read_value_spaces by apply space_space.
Qed.

Lemma read_members_render on d e l kv m r :
  reads kv.2 -> Forall (fun kv => reads kv.2) l ->
  forallb plain kv.1 && writable kv.2 = true -> forallb (fun kv => forallb plain kv.1 && writable kv.2) l = true ->
  (length (member on d kv ++ members on d l) < m)%nat ->
  read_members m (member on d kv ++ members on d l ++ indent on e ++ ch 125 :: r) = Some (kv :: l, r).
Proof.
  intros Hj Hl. revert kv m Hj. induction Hl as [|kv' l Hi Hl IH]; intros kv m Hj Hw Hwl Hm;
    (destruct m as [|m]; [lia|]); rewrite length_app in Hm; apply andb_true_iff in Hw as [Hk Hw];
    rewrite read_member_head by done;
    assert (length (render on d kv.2) <= m)%nat by (unfold member in Hm; rewrite !length_app in Hm; lia);
    rewrite Hj by (done || apply members_stop); cbn [mbind option_bind].
  - cbn [members flat_map app]. rewrite skip_spaces by apply indent_space. now destruct kv.
  - cbn [forallb] in Hwl. apply andb_true_iff in Hwl as [Hwi Hwl].
    change (members on d (kv' :: l)) with (COMMA :: member on d kv' ++ members on d l) in Hm |- *.
    cbn [app length] in Hm |- *. rewrite skip_comma, <- app_assoc. change (code COMMA =? 44) with true. cbv iota.
    rewrite IH by (done || lia). now destruct kv.
Qed.

Lemma render_array on d j l :
  render on d (JArray (j :: l)) =
  ch 91 :: space on ++ render on (d + 1) j ++ elements on (d + 1) l ++ space on ++ [ch 93].
Proof. done. Qed.
Lemma render_object on d kv l :
  render on d (JObject (kv :: l)) =
  ch 123 :: member on (d + 1) kv ++ members on (d + 1) l ++ indent on d ++ [ch 125].
Proof. destruct kv. cbn [render]. unfold member at 1. now rewrite <- !app_assoc. Qed.
Lemma read_array_head m s :
  read_value (S m) (ch 91 :: s) =
  match expect [ch 93] (skip s) with
  | Some r => Some (JArray [], r)
  | None => '(l, r) ← read_elements m s; Some (JArray l, r)
  end.
Proof. done. Qed.
Lemma read_object_head m s :
  read_value (S m) (ch 123 :: s) =
  match expect [ch 125] (skip s) with
  | Some r => Some (JObject [], r)
  | None => '(l, r) ← read_members m s; Some (JObject l, r)
  end.
Proof. done. Qed.
Lemma read_elements_spaces m a s : forallb is_space a = true -> read_elements m (a ++ s) = read_elements m s.
Proof. intros Ha. destruct m; [done|]. cbn [read_elements]. now rewrite read_value_spaces. Qed.

(** Numbers are recognised by their first character. *)
Lemma read_number m c s :
  is_digit c = true \/ c = ch 45 ->
  read_value (S m) (c :: s) = '(n, r) ← read_int (c :: s); Some (JInt n, r).
Proof.
  intros [Hc | ->]; [|done].
  destruct c as [[] [] [] [] [] [] [] []]; solve [discriminate Hc | reflexivity].
Qed.
Lemma reads_int n : reads (JInt n).
Proof.
  intros on d m r Hw Hr Hm. cbn [render writable] in Hw, Hm |- *. unfold fmt_d in Hm |- *.
  destruct (Z.ltb_spec n 0) as [Hn|Hn].
  - cbn [app list_ascii_of_string length] in Hm |- *. destruct m as [|m]; [lia|].
    rewrite read_number by auto. cbn [read_int]. change (code "-" =? 45) with true. cbv iota.
    rewrite read_nat_fmt by (done || lia). cbn. do 3 f_equal. lia.
  - destruct (decide (n = 0)) as [->|]; [now destruct m; [cbn in Hm; lia|]|].
    pose proof (read_nat_fmt n r ltac:(lia) Hr) as Hread. unfold fmt_u in Hread, Hm |- *.
    destruct (digits_head 20 n) as (c & l & Hd & Hc & H0); [lia|].
    rewrite Hd in Hread, Hm |- *. cbn [app length] in Hread, Hm |- *. destruct m as [|m]; [lia|].
    rewrite read_number by auto. cbn [read_int].
    destruct (Z.eqb_spec (code c) 45) as [H45|]; [unfold is_digit in Hc; lia|]. now rewrite Hread.
Qed.

Lemma reads_all j : reads j.
Proof.
  induction j as [|b|n|s|l Hl|l Hl] using json_deep_ind; try apply reads_int; intros on d m r Hw Hr Hm;
    (destruct m as [|m]; [exfalso; revert Hm; destruct (render_opens on d _ Hw) as (c & s' & -> & _); cbn; lia|]).
  - done.
  - now destruct b.
  - cbn in Hw. cbn [render]. rewrite quoted_app. cbn [read_value].
    change (skip (ch 34 :: ?s)) with (ch 34 :: s). cbn. now rewrite read_chars_quoted.
  - destruct l as [|j l]; [destruct on; done|]. cbn [writable forallb] in Hw.
    apply andb_true_iff in Hw as [Hwj Hwl]. apply Forall_cons_1 in Hl as [Hj Hl].
    rewrite render_array in Hm |- *. cbn [app length] in Hm |- *. rewrite read_array_head, <- !app_assoc.
    pose proof (render_opens on (d + 1) j Hwj) as Hop.
    rewrite skip_spaces, opens_skip, opens_not_close, read_elements_spaces by (done || apply space_space).
    cbn [app]. rewrite read_elements_render; [done..|]. rewrite !length_app in *. cbn in Hm. lia.
  - destruct l as [|kv l]; [done|]. cbn [writable forallb] in Hw.
    apply andb_true_iff in Hw as [Hwj Hwl]. apply Forall_cons_1 in Hl as [Hj Hl].
    rewrite render_object in Hm |- *. cbn [app length] in Hm |- *. rewrite read_object_head, <- !app_assoc.
    replace (expect [ch 125] _) with (@None (list ascii)).
    + cbn [app]. rewrite read_members_render; [done..|]. rewrite !length_app in *. cbn in Hm. lia.
    + unfold member. rewrite <- !app_assoc, skip_spaces by apply indent_space. now rewrite quoted_app.
Qed.

(** The calls that write a decimal integer, with the values of their types. *)
Inductive int_call := CallHhu | CallHu | CallUint | CallU64 | CallLuint | CallLluint | CallInt | CallS64.
Definition write_int (c : int_call) : Z -> json_writer -> json_writer :=
  match c with
  | CallHhu => jsonw_hhu | CallHu => jsonw_hu | CallUint => jsonw_uint | CallU64 => jsonw_u64
  | CallLuint => jsonw_luint | CallLluint => jsonw_lluint | CallInt => jsonw_int | CallS64 => jsonw_s64
  end.
Definition fits (c : int_call) (n : Z) : Prop :=
  match c with
  | CallHhu => is_u8 n | CallHu => is_u16 n | CallUint => is_u32 n
  | CallU64 | CallLuint | CallLluint => is_u64 n
  | CallInt => -2147483648 <= n < 2147483648
  | CallS64 => -9223372036854775808 <= n < 9223372036854775808
  end.
(** They all write the same digits. *)
Lemma write_int_u64 c n w :
  fits c n -> write_int c n w = if n <? 0 then jsonw_s64 n w else jsonw_u64 n w.
Proof.
  intros Hf. assert (Hu : is_u64 n -> u64 n = n) by apply u64_id.
  destruct c; cbn in Hf |- *; unfold is_u8, is_u16, is_u32, is_u64 in *; destruct (Z.ltb_spec n 0); try lia; try done.
  - unfold jsonw_hhu, jsonw_u64. now rewrite u8_id, Hu by (unfold is_u8; lia).
  - unfold jsonw_hu, jsonw_u64. now rewrite u16_id, Hu by (unfold is_u16; lia).
  - unfold jsonw_uint, jsonw_u64. now rewrite u32_id, Hu by (unfold is_u32; lia).
  - unfold jsonw_int, jsonw_s64. unfold s32, s64. do 2 f_equal. zlia.
  - unfold jsonw_int, jsonw_u64. rewrite Hu by lia.
    assert (s32 n = n) as -> by (unfold s32; zlia). unfold fmt_d. destruct (Z.ltb_spec n 0); [lia|done].
  - unfold jsonw_s64, jsonw_u64. rewrite Hu by lia.
    assert (s64 n = n) as -> by (unfold s64; zlia). unfold fmt_d. destruct (Z.ltb_spec n 0); [lia|done].
Qed.

(** C15: A document of nulls, booleans, decimal integers, strings, arrays and objects, written
    with the calls for them in the order of its tokens, compact or indented, is JSON: no
    assertion fails, and a strict reader gets the same document back.  The integers may be
    written by any of the decimal calls whose type they fit (jsonw_hhu to jsonw_s64), which
    all write the same.  Strings and names hold no C quote mark and no control character
    without an escape, integers fit 64 bits, and the nesting fits the depth counter.  Not
    covered are the calls that hand the text to the caller or to printf: jsonw_printf and
    jsonw_float, and jsonw_xint, whose hexadecimal digits are no JSON (a defect). *)
Theorem json_roundtrip on j :
  writable j = true -> nesting j < 4294967296 ->
  (exists text, write_document on j = Some text /\ read_document text = Some j) /\
  forall c n w, fits c n -> write_json (JInt n) w = Some (write_int c n w).
Proof.
  intros Hw Hn. split.
  - exists (render on 0 j ++ [ch 10]). split; [now apply write_document_render|].
    unfold read_document. rewrite reads_all; [done|done|done|]. rewrite length_app. lia.
  - intros c n w Hf. cbn [write_json]. now rewrite write_int_u64.
Qed.
Lemma json_roundtrip_witness :
  let j := JObject [(! "name", JString ! "eth0"); (! "ids", JArray [JInt 0; JInt (-17); JInt 18446744073709551615]);
                    (! "up", JBool true); (! "maps", JArray []); (! "x", JObject [(! "y", JNull)])] in
  writable j = true /\ (exists text, write_document true j = Some text /\ read_document text = Some j) /\
  write_json (JInt 200) jsonw_new = Some (jsonw_hhu 200 jsonw_new).
Proof.
  intros j. destruct (json_roundtrip true j) as [Hd Hi]; [vm_compute; reflexivity|vm_compute; reflexivity|].
  split; [reflexivity|]. split; [exact Hd|]. apply (Hi CallHhu). split; [discriminate|reflexivity].
Defined.

(** A quote mark of C gets an escape that JSON does not have. *)
Lemma single_quote_is_not_json :
  write_document false (JString ! "a'b") = Some (ch 34 :: ! "a\'b" ++ [ch 34; ch 10]) /\
  read_document (ch 34 :: ! "a\'b" ++ [ch 34; ch 10]) = None.
Proof. split; reflexivity. Qed.
(** [jsonw_xint] writes hexadecimal digits without quotes, which is no JSON value. *)
Lemma xint_is_not_json :
  jsonw_destroy (jsonw_xint 255 jsonw_new) = Some (! "ff" ++ [ch 10]) /\ read_document (! "ff" ++ [ch 10]) = None.
Proof. split; reflexivity. Qed.
