(* ===== verification/XskOptions.v ===== *)
(** * Options of the AF_XDP driver (afxdp/l2fwd/xdpsock.c)

    The global option variables as a record, the command line as the list of pairs that
    [getopt_long] returns, and what [parse_command_line] accepts. *)
From Stdlib Require Import ZArith Lia Ascii String.
From stdpp Require Import base numbers list option.
From S2P Require Import Prelude CLib.
#[local] Open Scope Z_scope.
#[local] Open Scope list_scope.

(** ** Constants and tables *)

(** @src afxdp/l2fwd/xdpsock.c 65 NUM_FRAMES *)
Definition NUM_FRAMES : Z := 4 * 1024.
(** @src afxdp/l2fwd/xdpsock.c 66 MIN_PKT_SIZE *)
Definition MIN_PKT_SIZE : Z := 64.
(** @src afxdp/l2fwd/xdpsock.c 67 MAX_PKT_SIZE *)
Definition MAX_PKT_SIZE : Z := 9728.
(** @src afxdp/l2fwd/xdpsock.h 9 MAX_SOCKS *)
Definition MAX_SOCKS : Z := 4.
(** @src afxdp/headers/linux/if_xdp.h 17 XDP_COPY *)
Definition XDP_COPY : Z := 2.
(** @src afxdp/headers/linux/if_xdp.h 18 XDP_ZEROCOPY *)
Definition XDP_ZEROCOPY : Z := 4.
(** @src afxdp/headers/linux/if_xdp.h 27 XDP_USE_NEED_WAKEUP *)
Definition XDP_USE_NEED_WAKEUP : Z := 8.
(** @src afxdp/headers/linux/if_xdp.h 33 XDP_USE_SG *)
Definition XDP_USE_SG : Z := 16.
(** @src afxdp/headers/linux/if_xdp.h 36 XDP_UMEM_UNALIGNED_CHUNK_FLAG *)
Definition XDP_UMEM_UNALIGNED_CHUNK_FLAG : Z := 1.
(** [sys/mman.h], [time.h] and [sched.h] of Linux. *)
Definition MAP_HUGETLB : Z := 262144.
Definition CLOCK_REALTIME : Z := 0.
Definition CLOCK_MONOTONIC : Z := 1.
Definition CLOCK_BOOTTIME : Z := 7.
Definition CLOCK_TAI : Z := 11.
Definition SCHED_OTHER : Z := 0.
Definition SCHED_FIFO : Z := 1.

(** @src afxdp/l2fwd/xdpsock.c 95-99 benchmark_type *)
Inductive benchmark_type := BENCH_RXDROP | BENCH_TXONLY | BENCH_L2FWD.
#[global] Instance benchmark_type_dec : EqDecision benchmark_type.
Proof. solve_decision. Defined.
Inductive xdp_attach_mode := XDP_MODE_NATIVE | XDP_MODE_SKB.

(** @src afxdp/l2fwd/xdpsock.c 263-272 clockids_map *)
Definition clockids_map : list (string * Z) :=
  [("REALTIME", CLOCK_REALTIME); ("TAI", CLOCK_TAI);
   ("BOOTTIME", CLOCK_BOOTTIME); ("MONOTONIC", CLOCK_MONOTONIC)]%string.
(** @src afxdp/l2fwd/xdpsock.c 274-281 schmap *)
Definition schmap : list (string * Z) := [("OTHER", SCHED_OTHER); ("FIFO", SCHED_FIFO)]%string.

(** ** Look-ups *)

(** @src afxdp/l2fwd/xdpsock.c 287-299 get_clockid *)
Fixpoint get_clockid (map : list (string * Z)) (name : string) : option Z :=
  match map with
  | [] => None
  | (n, clockid) :: map => if strcasecmp_eq n name then Some clockid else get_clockid map name
  end.
(** @src afxdp/l2fwd/xdpsock.c 301-313 get_schpolicy *)
Fixpoint get_schpolicy (map : list (string * Z)) (name : string) : option Z :=
  match map with
  | [] => None
  | (n, policy) :: map => if strcasecmp_eq n name then Some policy else get_schpolicy map name
  end.
(** [lines] are what [fgets] returns for /proc/interrupts; [None]: it cannot be opened.
    @src afxdp/l2fwd/xdpsock.c 423-454 get_interrupt_number *)
Definition get_interrupt_number (lines : option (list string)) (opt_irq_str : string) : option Z :=
  match lines with
  | None => None
  | Some lines =>
      (fix go (lines : list string) : option Z :=
         match lines with
         | [] => None
         | line :: lines =>
             if negb (ends_line line) then None
             else if strstr line opt_irq_str then Some (u32 (atoi line)) else go lines
         end) lines
  end.
(** [line] is the first line of the file of per-CPU counts.
    @src afxdp/l2fwd/xdpsock.c 456-490 get_irqs *)
Definition get_irqs (line : option (option string)) : Z :=
  match line with
  | None => -1
  | Some None => -1
  | Some (Some line) =>
      if negb (ends_line line) then -1
      else foldl (fun total_intrs token => s32 (total_intrs + atoi token)) 0 (strtok ","%char EmptyString line)
  end.

(** ** The option variables *)

(** The constant of libxdp, the files of the system and the two functions of the C library
    that look outside the program.  [irq_counts] gives the first line of the count file of
    an interrupt. *)
Class XskHost := {
  XSK_UMEM__DEFAULT_FRAME_SIZE : Z;
  if_nametoindex : string -> Z;
  ether_aton : string -> option (list Z);
  proc_interrupts : option (list string);
  irq_counts : Z -> option (option string)
}.

(** @src afxdp/l2fwd/xdpsock.c 101-148 opt_bench *)
Record options := Options {
  opt_bench : benchmark_type; opt_attach_mode : xdp_attach_mode; opt_if : string; opt_ifindex : Z;
  opt_queue : Z; opt_duration : Z; opt_batch_size : Z; opt_pkt_count : Z; opt_pkt_size : Z;
  opt_pkt_fill_pattern : Z; opt_vlan_tag : bool; opt_pkt_vlan_id : Z; opt_pkt_vlan_pri : Z; opt_txdmac
  : list Z; opt_txsmac : list Z; opt_extra_stats : bool; opt_quiet : bool; opt_app_stats : bool;
  opt_irq_str : string; irq_no : Z; irqs_at_init : Z; opt_poll : bool; opt_interval : Z; opt_retries :
  Z; opt_xdp_bind_flags : Z; opt_umem_flags : Z; opt_unaligned_chunks : bool; opt_mmap_flags : Z;
  opt_xsk_frame_size : Z; opt_timeout : Z; opt_need_wakeup : bool; opt_num_xsks : Z; opt_busy_poll :
  bool; opt_reduced_cap : bool; opt_clock : Z; opt_tx_cycle_ns : Z; opt_schpolicy : Z; opt_schprio :
  Z; opt_tstamp : bool; opt_frags : bool; load_xdp_prog : bool
}.
#[global] Instance eta_options : Eta options := fun o =>
  Options (opt_bench o) (opt_attach_mode o) (opt_if o) (opt_ifindex o) (opt_queue o) (opt_duration o)
  (opt_batch_size o) (opt_pkt_count o) (opt_pkt_size o) (opt_pkt_fill_pattern o) (opt_vlan_tag o)
  (opt_pkt_vlan_id o) (opt_pkt_vlan_pri o) (opt_txdmac o) (opt_txsmac o) (opt_extra_stats o)
  (opt_quiet o) (opt_app_stats o) (opt_irq_str o) (irq_no o) (irqs_at_init o) (opt_poll o)
  (opt_interval o) (opt_retries o) (opt_xdp_bind_flags o) (opt_umem_flags o) (opt_unaligned_chunks o)
  (opt_mmap_flags o) (opt_xsk_frame_size o) (opt_timeout o) (opt_need_wakeup o) (opt_num_xsks o)
  (opt_busy_poll o) (opt_reduced_cap o) (opt_clock o) (opt_tx_cycle_ns o) (opt_schpolicy o)
  (opt_schprio o) (opt_tstamp o) (opt_frags o) (load_xdp_prog o).

Section parse.
Context `{XskHost}.

(** The initial values; the others start as zero.
    @src afxdp/l2fwd/xdpsock.c 101-148 opt_bench *)
Definition default_options : options :=
  {|
     opt_bench := BENCH_RXDROP; opt_attach_mode := XDP_MODE_NATIVE; opt_if := EmptyString; opt_ifindex :=
     0; opt_queue := 0; opt_duration := 0; opt_batch_size := 64; opt_pkt_count := 0; opt_pkt_size :=
     MIN_PKT_SIZE; opt_pkt_fill_pattern := 305419896; opt_vlan_tag := false; opt_pkt_vlan_id := 1;
     opt_pkt_vlan_pri := 0; opt_txdmac := [0x3c; 0xfd; 0xfe; 0x9e; 0x7f; 0x71]; opt_txsmac := [0xec;
     0xb1; 0xd7; 0x98; 0x3a; 0xc0]; opt_extra_stats := false; opt_quiet := false; opt_app_stats := false;
     opt_irq_str := EmptyString; irq_no := 0; irqs_at_init := -1; opt_poll := false; opt_interval := 1;
     opt_retries := 3; opt_xdp_bind_flags := XDP_USE_NEED_WAKEUP; opt_umem_flags := 0;
     opt_unaligned_chunks := false; opt_mmap_flags := 0; opt_xsk_frame_size :=
     XSK_UMEM__DEFAULT_FRAME_SIZE; opt_timeout := 1000; opt_need_wakeup := true; opt_num_xsks := 1;
     opt_busy_poll := false; opt_reduced_cap := false; opt_clock := CLOCK_MONOTONIC; opt_tx_cycle_ns :=
     0; opt_schpolicy := SCHED_OTHER; opt_schprio := 0; opt_tstamp := false; opt_frags := false;
     load_xdp_prog := false
  |}.

(** One turn of the loop; [None] is [usage], which exits.
    @src afxdp/l2fwd/xdpsock.c 1231-1390 parse_command_line *)
Definition parse_option (o : options) (c : ascii) (optarg : string) : option options :=
  match c with
  | "r"%char => Some (o <| opt_bench := BENCH_RXDROP |>)
  | "t"%char => Some (o <| opt_bench := BENCH_TXONLY |>)
  | "l"%char => Some (o <| opt_bench := BENCH_L2FWD |>)
  | "i"%char => Some (o <| opt_if := optarg |>)
  | "q"%char => Some (o <| opt_queue := atoi optarg |>)
  | "p"%char => Some (o <| opt_poll := true |>)
  | "S"%char =>
      let o := o <| opt_attach_mode := XDP_MODE_SKB |> in
      Some (o <| opt_xdp_bind_flags := Z.lor (opt_xdp_bind_flags o) XDP_COPY |>)
  | "N"%char => Some o
  | "n"%char => Some (o <| opt_interval := atoi optarg |>)
  | "w"%char => Some (o <| opt_clock := match get_clockid clockids_map optarg with
                                   | Some id => id | None => CLOCK_MONOTONIC end |>)
  | "O"%char => Some (o <| opt_retries := atoi optarg |>)
  | "z"%char => Some (o <| opt_xdp_bind_flags := Z.lor (opt_xdp_bind_flags o) XDP_ZEROCOPY |>)
  | "c"%char => Some (o <| opt_xdp_bind_flags := Z.lor (opt_xdp_bind_flags o) XDP_COPY |>)
  | "u"%char =>
      let o := o <| opt_umem_flags := Z.lor (opt_umem_flags o) XDP_UMEM_UNALIGNED_CHUNK_FLAG |> in
      let o := o <| opt_unaligned_chunks := true |> in
      Some (o <| opt_mmap_flags := MAP_HUGETLB |>)
  | "f"%char => Some (o <| opt_xsk_frame_size := atoi optarg |>)
  | "m"%char =>
      let o := o <| opt_need_wakeup := false |> in
      Some (o <| opt_xdp_bind_flags := Z.ldiff (opt_xdp_bind_flags o) XDP_USE_NEED_WAKEUP |>)
  | "M"%char => Some (o <| opt_num_xsks := MAX_SOCKS |>)
  | "d"%char => Some (o <| opt_duration := u64 (u64 (atoi optarg) * 1000000000) |>)
  | "b"%char => Some (o <| opt_batch_size := u32 (atoi optarg) |>)
  | "C"%char => Some (o <| opt_pkt_count := atoi optarg |>)
  | "s"%char =>
      let o := o <| opt_pkt_size := u16 (atoi optarg) |> in
      if (opt_pkt_size o >? MAX_PKT_SIZE) || (opt_pkt_size o <? MIN_PKT_SIZE) then None else Some o
  | "P"%char => Some (o <| opt_pkt_fill_pattern := u32 (strtol 16 optarg) |>)
  | "V"%char => Some (o <| opt_vlan_tag := true |>)
  | "J"%char => Some (o <| opt_pkt_vlan_id := u16 (atoi optarg) |>)
  | "K"%char => Some (o <| opt_pkt_vlan_pri := u16 (atoi optarg) |>)
  | "G"%char => mac ← ether_aton optarg; Some (o <| opt_txdmac := mac |>)
  | "H"%char => mac ← ether_aton optarg; Some (o <| opt_txsmac := mac |>)
  | "T"%char => Some (o <| opt_tx_cycle_ns := u64 (u64 (atoi optarg) * 1000) |>)
  | "y"%char => Some (o <| opt_tstamp := true |>)
  | "W"%char => Some (o <| opt_schpolicy := match get_schpolicy schmap optarg with
                                       | Some p => p | None => SCHED_OTHER end |>)
  | "U"%char => Some (o <| opt_schprio := atoi optarg |>)
  | "x"%char => Some (o <| opt_extra_stats := true |>)
  | "Q"%char => Some (o <| opt_quiet := true |>)
  | "a"%char => Some (o <| opt_app_stats := true |>)
  | "I"%char =>
      let o := o <| opt_irq_str := optarg |> in
      let o := match get_interrupt_number proc_interrupts optarg with
               | Some n => let o := o <| irq_no := n |> in o <| irqs_at_init := get_irqs (irq_counts n) |>
               | None => o
               end in
      if irqs_at_init o <? 0 then None else Some o
  | "B"%char => Some (o <| opt_busy_poll := true |>)
  | "R"%char => Some (o <| opt_reduced_cap := true |>)
  | "F"%char => Some (o <| opt_frags := true |>)
  | _ => None
  end.

(** [args] is what the calls of [getopt_long] return: the option and its argument.
    @src afxdp/l2fwd/xdpsock.c 1226-1391 parse_command_line *)
Fixpoint parse_options (o : options) (args : list (ascii * string)) : option options :=
  match args with
  | [] => Some o
  | (c, optarg) :: args => o ← parse_option o c optarg; parse_options o args
  end.

(** The frame size is an [int], and so is its predecessor: the difference wraps (the compiled
    code does, the language leaves it undefined), and so does the conversion of the index.
    @src afxdp/l2fwd/xdpsock.c 1392-1413 parse_command_line *)
Definition parse_command_line (args : list (ascii * string)) : option options :=
  o ← parse_options default_options args;
  let o := o <| opt_ifindex := s32 (if_nametoindex (opt_if o)) |> in
  if opt_ifindex o =? 0 then None
  else if nz (Z.land (opt_xsk_frame_size o) (s32 (opt_xsk_frame_size o - 1))) && negb (opt_unaligned_chunks o) then None
  else if opt_reduced_cap o && (opt_num_xsks o >? 1) then None
  else
    let o := o <| load_xdp_prog := (opt_num_xsks o >? 1) || opt_frags o |> in
    Some (if opt_frags o
          then o <| opt_xdp_bind_flags := Z.lor (opt_xdp_bind_flags o) XDP_USE_SG |> else o).
End parse.

(** ** What is accepted *)

Definition is_int (x : Z) : Prop := -2147483648 <= x < 2147483648.
Definition is_mac (m : list Z) : Prop := length m = 6%nat /\ Forall is_u8 m.

(** Every variable holds a value of its C type. *)
Record well_typed (o : options) : Prop := {
  typed_ints : Forall is_int [opt_ifindex o; opt_mmap_flags o; opt_queue o; opt_pkt_count o; opt_interval o; opt_retries o;
    opt_xsk_frame_size o; opt_timeout o; opt_clock o; opt_schpolicy o; opt_schprio o; irqs_at_init o];
  typed_u32s : Forall is_u32 [opt_batch_size o; opt_pkt_fill_pattern o; irq_no o; opt_num_xsks o];
  typed_u16s : Forall is_u16 [opt_pkt_size o; opt_pkt_vlan_id o; opt_pkt_vlan_pri o];
  typed_u64s : Forall is_u64 [opt_duration o; opt_tx_cycle_ns o];
  typed_macs : is_mac (opt_txdmac o) /\ is_mac (opt_txsmac o);
  typed_flags : 0 <= opt_xdp_bind_flags o < 32 /\ 0 <= opt_umem_flags o < 2
}.
(** The relations between the variables that the parser maintains. *)
Record consistent (o : options) : Prop := {
  packet_size_bounds : MIN_PKT_SIZE <= opt_pkt_size o <= MAX_PKT_SIZE;
  sockets : opt_num_xsks o = 1 \/ opt_num_xsks o = MAX_SOCKS;
  wakeup_flag : Z.testbit (opt_xdp_bind_flags o) 3 = opt_need_wakeup o;
  skb_copies : opt_attach_mode o = XDP_MODE_SKB -> Z.testbit (opt_xdp_bind_flags o) 1 = true;
  unaligned_flag : Z.testbit (opt_umem_flags o) 0 = opt_unaligned_chunks o
}.

(** What was asked for, read off the command line alone: whether an option occurs, and the
    argument of its last occurrence. *)
Definition given (args : list (ascii * string)) (c : ascii) : bool :=
  existsb (fun a => Ascii.eqb a.1 c) args.
Definition last_arg (args : list (ascii * string)) (c : ascii) : option string :=
  foldl (fun r a => if Ascii.eqb a.1 c then Some a.2 else r) None args.
Definition asked {A} (args : list (ascii * string)) (c : ascii) (f : string -> A) (dflt : A) : A :=
  match last_arg args c with Some s => f s | None => dflt end.
Definition bench_of (a : ascii * string) : option benchmark_type :=
  if Ascii.eqb a.1 "r" then Some BENCH_RXDROP
  else if Ascii.eqb a.1 "t" then Some BENCH_TXONLY
  else if Ascii.eqb a.1 "l" then Some BENCH_L2FWD else None.

Definition last_bench (args : list (ascii * string)) : benchmark_type :=
  foldl (fun b a => default b (bench_of a)) BENCH_RXDROP args.

(** The variables are what the arguments ask for; the last of several wins. *)
Record as_asked `{XskHost} (args : list (ascii * string)) (o : options) : Prop := {
  asked_bench : opt_bench o = last_bench args;
  asked_attach : opt_attach_mode o = if given args "S" then XDP_MODE_SKB else XDP_MODE_NATIVE;
  asked_copy : Z.testbit (opt_xdp_bind_flags o) 1 = given args "c" || given args "S";
  asked_zerocopy : Z.testbit (opt_xdp_bind_flags o) 2 = given args "z";
  asked_wakeup : Z.testbit (opt_xdp_bind_flags o) 3 = negb (given args "m");
  asked_need_wakeup : opt_need_wakeup o = negb (given args "m");
  asked_unaligned : opt_unaligned_chunks o = given args "u";
  asked_umem : Z.testbit (opt_umem_flags o) 0 = given args "u";
  asked_mmap : opt_mmap_flags o = if given args "u" then MAP_HUGETLB else 0;
  asked_sockets : opt_num_xsks o = if given args "M" then MAX_SOCKS else 1;
  asked_bools : [opt_poll o; opt_vlan_tag o; opt_tstamp o; opt_extra_stats o; opt_quiet o;
      opt_app_stats o; opt_busy_poll o; opt_reduced_cap o; opt_frags o]
    = map (given args) ["p"; "V"; "y"; "x"; "Q"; "a"; "B"; "R"; "F"]%char;
  asked_strings : opt_if o = asked args "i" id EmptyString /\ opt_irq_str o = asked args "I" id EmptyString;
  asked_ints : [opt_queue o; opt_interval o; opt_retries o; opt_pkt_count o; opt_schprio o;
      opt_xsk_frame_size o]
    = [asked args "q" atoi 0; asked args "n" atoi 1; asked args "O" atoi 3; asked args "C" atoi 0;
       asked args "U" atoi 0; asked args "f" atoi XSK_UMEM__DEFAULT_FRAME_SIZE];
  asked_unsigned : [opt_batch_size o; opt_pkt_fill_pattern o; opt_pkt_size o; opt_pkt_vlan_id o;
      opt_pkt_vlan_pri o]
    = [asked args "b" (u32 ∘ atoi) 64; asked args "P" (u32 ∘ strtol 16) 0x12345678;
       asked args "s" (u16 ∘ atoi) MIN_PKT_SIZE; asked args "J" (u16 ∘ atoi) 1;
       asked args "K" (u16 ∘ atoi) 0];
  asked_times : [opt_duration o; opt_tx_cycle_ns o]
    = [asked args "d" (fun s => u64 (u64 (atoi s) * 1000000000)) 0;
       asked args "T" (fun s => u64 (u64 (atoi s) * 1000)) 0];
  asked_clock : opt_clock o
    = asked args "w" (fun s => default CLOCK_MONOTONIC (get_clockid clockids_map s)) CLOCK_MONOTONIC;
  asked_policy : opt_schpolicy o
    = asked args "W" (fun s => default SCHED_OTHER (get_schpolicy schmap s)) SCHED_OTHER;
  asked_macs : asked args "G" ether_aton (Some (opt_txdmac default_options)) = Some (opt_txdmac o)
    /\ asked args "H" ether_aton (Some (opt_txsmac default_options)) = Some (opt_txsmac o)
}.

Lemma given_snoc args c s d : given (args ++ [(c, s)]) d = given args d || Ascii.eqb c d.
Proof. unfold given. rewrite existsb_app. cbn. now rewrite orb_false_r. Qed.
Lemma last_arg_snoc args c s d :
  last_arg (args ++ [(c, s)]) d = if Ascii.eqb c d then Some s else last_arg args d.
Proof.
  unfold last_arg. now rewrite foldl_app.
Qed.
Lemma asked_snoc {A} args c s d (f : string -> A) x :
  asked (args ++ [(c, s)]) d f x = if Ascii.eqb c d then f s else asked args d f x.
Proof. unfold asked. rewrite last_arg_snoc. now destruct (Ascii.eqb c d). Qed.
Lemma bench_snoc args a : last_bench (args ++ [a]) = default (last_bench args) (bench_of a).
Proof. unfold last_bench. now rewrite foldl_app. Qed.

Lemma s32_is_int x : is_int (s32 x).
Proof. unfold is_int, s32. zlia. Qed.
Lemma atoi_is_int s : is_int (atoi s).
Proof. apply s32_is_int. Qed.
Lemma get_clockid_int s : is_int (from_option id CLOCK_MONOTONIC (get_clockid clockids_map s)).
Proof.
  unfold get_clockid, get_schpolicy, clockids_map, schmap. repeat case_match; (split; [intros [=]|reflexivity]).
Qed.
Lemma get_schpolicy_int s : is_int (from_option id SCHED_OTHER (get_schpolicy schmap s)).
Proof.
  unfold get_clockid, get_schpolicy, clockids_map, schmap. repeat case_match; (split; [intros [=]|reflexivity]).
Qed.
Lemma get_irqs_int l : is_int (get_irqs l).
Proof.
  destruct l as [[line|]|]; cbn; [|unfold is_int; lia..].
  destruct (ends_line line); cbn; [|unfold is_int; lia].
  generalize (strtok "," "" line) as l. assert (is_int 0) as H by (unfold is_int; lia).
  revert H. generalize 0 as n. intros n Hn l. revert n Hn.
  induction l as [|t l IH]; intros n Hn; cbn; [done|]. apply IH, s32_is_int.
Qed.
Lemma lor_flag n k x : 0 <= k < n -> 0 <= x < 2 ^ n -> 0 <= Z.lor x (2 ^ k) < 2 ^ n.
Proof. intros Hk Hx. apply lor_range; [lia|done|]. split; [apply Z.pow_nonneg; lia|].
  apply Z.pow_lt_mono_r; lia.
Qed.
Lemma ldiff_range x y n : 0 <= n -> 0 <= x < 2 ^ n -> 0 <= Z.ldiff x y < 2 ^ n.
Proof.
  intros Hn Hx. assert (0 <= Z.ldiff x y) by (apply Z.ldiff_nonneg; lia). split; [done|].
  assert (Z.ldiff x y = Z.land (Z.ldiff x y) (Z.ones n)) as ->.
  { apply Z.bits_inj'. intros i Hi. rewrite Z.land_spec, Z.ldiff_spec, Z.testbit_ones_nonneg by lia.
    destruct (Z.ltb_spec i n); [now rewrite andb_true_r|].
    assert (Z.testbit x i = false) as ->; [|done].
    destruct (decide (x = 0)) as [->|]; [apply Z.bits_0|].
    apply Z.bits_above_log2; [lia|]. apply Z.lt_le_trans with n; [|lia]. apply Z.log2_lt_pow2; lia. }
  rewrite Z.land_ones by done. apply Z.mod_pos_bound. lia.
Qed.

(** A positive number with no bit in common with its predecessor is a power of two. *)
Lemma land_pred_power x : 0 < x -> Z.land x (x - 1) = 0 -> x = 2 ^ Z.log2 x.
Proof.
  intros Hx Hland. destruct (Z.log2_spec x Hx) as [Hlo Hhi].
  destruct (decide (x = 2 ^ Z.log2 x)) as [|Hne]; [done|exfalso].
  assert (Z.log2 (x - 1) = Z.log2 x) as Hlog by (apply Z.log2_unique; [apply Z.log2_nonneg|lia]).
  assert (0 < x - 1) as Hx1 by (pose proof (Z.pow_pos_nonneg 2 (Z.log2 x) ltac:(lia) (Z.log2_nonneg x)); lia).
  pose proof (Z.bit_log2 x Hx) as H1. pose proof (Z.bit_log2 (x - 1) Hx1) as H2. rewrite Hlog in H2.
  apply (f_equal (fun y => Z.testbit y (Z.log2 x))) in Hland.
  rewrite Z.land_spec, H1, H2, Z.bits_0 in Hland. done.
Qed.
Lemma land_pred_negative x : x < 0 -> Z.land x (x - 1) <> 0.
Proof. intros Hx H. assert (Z.land x (x - 1) < 0) by (apply Z.land_neg; lia). lia. Qed.

(** The size of a batch is never negative. *)
Lemma option_batch_size `{XskHost} o c s o' :
  parse_option o c s = Some o' -> 0 <= opt_batch_size o -> 0 <= opt_batch_size o'.
Proof.
  unfold parse_option. intros E Ho.
  repeat match type of E with
  | match ?c with Ascii _ _ _ _ _ _ _ _ => _ end = _ => destruct c
  | (if ?b then _ else _) = _ => destruct b
  end; try discriminate E;
  repeat match type of E with
  | (_ ≫= _) = Some _ => apply bind_Some in E as (? & _ & E)
  | (if ?b then _ else _) = _ => destruct b
  end; try discriminate E; try (injection E as <-; cbn; exact Ho || apply u32_range).
  all: repeat case_match; try discriminate E; injection E as <-; exact Ho.
Qed.
Lemma parse_batch_size `{XskHost} args o : parse_command_line args = Some o -> 0 <= opt_batch_size o.
Proof.
  unfold parse_command_line. intros E. apply bind_Some in E as (o1 & Ho & E).
  assert (H1 : 0 <= opt_batch_size o1).
  { assert (H0 : 0 <= opt_batch_size default_options) by (cbn; lia). revert Ho H0. generalize default_options as o0.
    induction args as [|[c s] args IH]; intros o0 Ho H0; [now injection Ho as <-|].
    cbn [parse_options] in Ho. apply bind_Some in Ho as (o2 & E2 & Ho).
    eapply IH; [exact Ho|]. eapply option_batch_size; eauto. }
  cbn in E. repeat case_match; try discriminate E; injection E as <-; exact H1.
Qed.

Lemma parse_options_app `{XskHost} o args args' :
  parse_options o (args ++ args') = (o ← parse_options o args; parse_options o args').
Proof.
  revert o. induction args as [|[c s] args IH]; intros o; [done|]. cbn [app parse_options].
  destruct (parse_option o c s); [apply IH|done].
Qed.

Section accepts.
Context `{XskHost}.
Context (ether_aton_mac : forall s m, ether_aton s = Some m -> is_mac m).
Context (frame_size_int : is_int XSK_UMEM__DEFAULT_FRAME_SIZE).

#[local] Arguments get_clockid : simpl never.
#[local] Arguments get_schpolicy : simpl never.
#[local] Arguments get_irqs : simpl never.
#[local] Arguments get_interrupt_number : simpl never.
#[local] Arguments atoi : simpl never.
#[local] Arguments strtol : simpl never.
#[local] Arguments u16 : simpl never.
#[local] Arguments u32 : simpl never.
#[local] Arguments u64 : simpl never.
#[local] Arguments Z.testbit : simpl never.
Lemma set_flag_range x k n : 0 <= k < n -> 0 <= x < 2 ^ n -> 0 <= Z.lor x (2 ^ k) /\ Z.lor x (2 ^ k) < 2 ^ n.
Proof. intros Hk Hx. now apply lor_flag. Qed.
Lemma bind_flag_range x f :
  In f [XDP_COPY; XDP_ZEROCOPY; XDP_USE_SG] -> 0 <= x < 32 -> 0 <= Z.lor x f < 32.
Proof.
  intros Hf Hx. repeat destruct Hf as [<- | Hf]; try contradiction Hf;
    [apply (lor_flag 5 1)|apply (lor_flag 5 2)|apply (lor_flag 5 4)]; lia.
Qed.
Ltac literal := solve [split; [intros [=]|reflexivity]].
Ltac bits := solve [rewrite ?Z.lor_spec, ?Z.ldiff_spec; cbn; rewrite ?orb_false_r, ?andb_true_r, ?orb_true_r, ?andb_false_r; auto].
Ltac typed := cbn; repeat first [assumption | reflexivity | apply Forall_nil_2 | apply Forall_cons_2
  | apply atoi_is_int | apply u32_range | apply u16_range | apply u64_range | apply get_irqs_int
  | apply get_clockid_int | apply get_schpolicy_int | literal
  | apply bind_flag_range; [cbn; tauto|assumption] | apply (ldiff_range _ _ 5); [lia|assumption]
  | apply (lor_flag 1 0); [lia|assumption]
  | apply conj | bits].

Lemma default_well_typed : well_typed default_options /\ consistent default_options.
Proof. split; split; typed; try (now left); done. Qed.

Lemma get_interrupt_number_u32 l name n : get_interrupt_number l name = Some n -> is_u32 n.
Proof.
  destruct l as [l|]; [|done]. unfold get_interrupt_number. induction l as [|line l IH]; [done|].
  destruct (negb (ends_line line)); [done|]. destruct (strstr line name); [|done]. intros [= <-]. apply u32_range.
Qed.

Lemma option_well_typed o c s o' :
  parse_option o c s = Some o' -> well_typed o /\ consistent o -> well_typed o' /\ consistent o'.
Proof.
  intros Hp [[] []].
  repeat match goal with
  | H : Forall _ (_ :: _) |- _ => apply Forall_cons_1 in H as [? H]
  | H : is_mac _ /\ is_mac _ |- _ => destruct H
  | H : (0 <= _ < _) /\ _ |- _ => destruct H end.
  destruct c as [[] [] [] [] [] [] [] []]; cbn [parse_option] in Hp; try discriminate Hp.
  all: try (injection Hp as <-; split; split; typed).
  (* the options with an argument that is checked: H, G, I, s *)
  all: repeat match type of Hp with
    | context [ether_aton ?x] => destruct (ether_aton x) eqn:Hmac; cbn in Hp; [apply ether_aton_mac in Hmac|]
    | context [get_interrupt_number ?a ?b] => destruct (get_interrupt_number a b) eqn:Hirq; cbn in Hp;
        [apply get_interrupt_number_u32 in Hirq|]
    | (if ?b then _ else _) = _ => destruct b eqn:Hb; cbn in Hp
    end; try discriminate Hp; injection Hp as <-; split; split; typed.
  all: cbn in Hb; apply orb_false_iff in Hb as [? ?]; lia.
Qed.
Lemma options_well_typed args o o' :
  parse_options o args = Some o' -> well_typed o /\ consistent o -> well_typed o' /\ consistent o'.
Proof.
  revert o. induction args as [|[c s] args IH]; intros o; cbn [parse_options]; [now intros [= <-]|].
  destruct (parse_option o c s) as [o1|] eqn:Ho; [|done]. cbn [mbind option_bind]. intros Hp Hok.
  eapply IH; [done|]. eapply option_well_typed; eauto.
Qed.

Lemma default_as_asked : as_asked [] default_options.
Proof. split; done. Qed.

(** One more option on the command line. *)
Lemma option_as_asked args o c s o' :
  as_asked args o -> parse_option o c s = Some o' -> as_asked (args ++ [(c, s)]) o'.
Proof.
  intros [] Hp.
  repeat match goal with
  | H : _ :: _ = _ :: _ |- _ => injection H as ?
  | H : _ :: _ = map _ _ |- _ => injection H as ?
  | H : _ /\ _ |- _ => destruct H end.
  destruct c as [[] [] [] [] [] [] [] []]; cbn [parse_option] in Hp; try discriminate Hp.
  all: repeat match type of Hp with
    | context [ether_aton ?x] => destruct (ether_aton x) eqn:Hmac; cbn in Hp; [|discriminate Hp]
    | context [get_interrupt_number ?a ?b] => destruct (get_interrupt_number a b); cbn in Hp
    | (if ?b then _ else _) = _ => destruct b; [discriminate Hp|] end.
  all: injection Hp as <-.
  all: split; cbn [map]; rewrite ?bench_snoc, ?given_snoc, ?asked_snoc; cbn;
    rewrite ?orb_false_r, ?orb_true_r; unfold XDP_COPY, XDP_ZEROCOPY, XDP_USE_NEED_WAKEUP, XDP_UMEM_UNALIGNED_CHUNK_FLAG;
    try first [assumption | reflexivity | congruence
      | rewrite ?Z.lor_spec, ?Z.ldiff_spec; cbn; rewrite ?orb_false_r, ?orb_true_r, ?andb_true_r, ?andb_false_r;
        first [assumption | reflexivity | congruence]
      | split; first [assumption | reflexivity]].
Qed.
Lemma options_as_asked args : forall o, parse_options default_options args = Some o -> as_asked args o.
Proof.
  induction args as [|[c s] args IH] using rev_ind; intros o.
  - intros [= <-]. apply default_as_asked.
  - rewrite parse_options_app. cbn [parse_options]. intros E.
    apply bind_Some in E as (o1 & E1 & E). apply bind_Some in E as (o2 & E2 & [= <-]).
    eapply option_as_asked; eauto.
Qed.

(** The test of line 1399 on an [int]. *)
Lemma frame_size_test x :
  is_int x -> Z.land x (s32 (x - 1)) = 0 -> x = 0 \/ x = 2 ^ Z.log2 x \/ x = -2147483648.
Proof.
  intros Hx Hl. destruct (decide (x = -2147483648)) as [->|Hm]; [auto|].
  assert (s32 (x - 1) = x - 1) as Hs.
  { unfold is_int in Hx. unfold s32. rewrite Z.mod_small by lia. lia. }
  rewrite Hs in Hl. destruct (Z.lt_trichotomy x 0) as [Hn|[?|Hp]]; [|auto|].
  - now apply land_pred_negative in Hl.
  - right. left. now apply land_pred_power.
Qed.

(** No option asks for frags in the bind flags; the parser adds them last. *)
Lemma options_no_sg args : forall o o', parse_options o args = Some o' ->
  Z.testbit (opt_xdp_bind_flags o) 4 = false -> Z.testbit (opt_xdp_bind_flags o') 4 = false.
Proof.
  induction args as [|[c s] args IH]; intros o o'; cbn [parse_options]; [now intros [= <-]|].
  intros E Ho. apply bind_Some in E as (o1 & E1 & E). eapply IH; [exact E|]. clear IH E.
  destruct c as [[] [] [] [] [] [] [] []]; cbn [parse_option] in E1; try discriminate E1.
  all: try (injection E1 as <-; first [exact Ho | cbn; rewrite ?Z.lor_spec, ?Z.ldiff_spec, Ho; reflexivity]).
  all: repeat match type of E1 with
    | context [ether_aton ?x] => destruct (ether_aton x); cbn in E1
    | context [get_interrupt_number ?a ?b] => destruct (get_interrupt_number a b); cbn in E1
    | (if ?b then _ else _) = _ => destruct b; cbn in E1 end; try discriminate E1.
  all: injection E1 as <-; exact Ho.
Qed.

(** What the end of the parser adds: the index, the program to load and the frags flag. *)
Definition loaded (o : options) : options :=
  o <| opt_ifindex := s32 (if_nametoindex (opt_if o)) |>
    <| load_xdp_prog := (opt_num_xsks o >? 1) || opt_frags o |>.
Definition final (o : options) : options :=
  loaded o <| opt_xdp_bind_flags := Z.lor (opt_xdp_bind_flags o) XDP_USE_SG |>.

Lemma parse_command_line_Some args o :
  parse_command_line args = Some o ->
  exists o1, parse_options default_options args = Some o1
    /\ s32 (if_nametoindex (opt_if o1)) <> 0
    /\ nz (Z.land (opt_xsk_frame_size o1) (s32 (opt_xsk_frame_size o1 - 1))) && negb (opt_unaligned_chunks o1) = false
    /\ opt_reduced_cap o1 && (opt_num_xsks o1 >? 1) = false
    /\ o = if opt_frags o1 then final o1 else loaded o1.
Proof.
  unfold parse_command_line. intros E. apply bind_Some in E as (o1 & Ho & E). exists o1. split; [done|].
  cbn in E.
  destruct (Z.eqb_spec (s32 (if_nametoindex (opt_if o1))) 0) as [|Hif]; [done|].
  destruct (nz _ && _); [done|]. destruct (_ && (opt_num_xsks o1 >? 1)); [done|].
  injection E as <-. done.
Qed.

Section final.
Context (args : list (ascii * string)) (o : options).
Lemma as_asked_loaded : as_asked args o -> as_asked args (loaded o).
Proof. intros []. now split. Qed.
Lemma as_asked_final : as_asked args o -> as_asked args (final o).
Proof. intros []. split; try assumption; cbn; rewrite Z.lor_spec; cbn; now rewrite orb_false_r. Qed.
Lemma well_typed_loaded : well_typed o -> well_typed (loaded o).
Proof.
  intros [Hints]. split; try assumption. apply Forall_cons_1 in Hints as [_ Hints].
  constructor; [apply s32_is_int|exact Hints].
Qed.
Lemma well_typed_final : well_typed o -> well_typed (final o).
Proof.
  intros Ht. destruct (well_typed_loaded Ht) as [? ? ? ? ? [? ?]]. split; try assumption.
  split; [|assumption]. apply bind_flag_range; [cbn; tauto|assumption].
Qed.
Lemma consistent_loaded : consistent o -> consistent (loaded o).
Proof. intros []. now split. Qed.
Lemma consistent_final : consistent o -> consistent (final o).
Proof.
  intros []. split; try assumption; cbn; rewrite Z.lor_spec; cbn; rewrite orb_false_r; assumption.
Qed.
End final.
Lemma typed_frame_size o : well_typed o -> is_int (opt_xsk_frame_size o).
Proof. intros [Hints]. repeat (apply Forall_cons_1 in Hints as [? Hints]; try assumption). Qed.

(** C17: Whatever the command line, the options that the parser accepts are what the command
    line asks for, the last of several wins: each flag variable tells whether its option was
    given, each number is the conversion of the argument of its option or the default, and
    the bind and memory flags agree with the copy (-c, -S), zero-copy, wake-up, frags and
    unaligned options.  They are well typed, every variable being in the range of its C type;
    the transmit size is between 64 and 9728, there are one or four sockets and not four
    together with reduced capabilities, the interface exists, and the frame size is zero, a
    power of two or the least [int] (-f 2147483648, whose predecessor wraps) unless
    unaligned chunks were asked for.  Of the host it is assumed that an address that
    [ether_aton_r] reads has six bytes and that the default frame size is an [int]. *)
Theorem parse_command_line_typed args o :
  parse_command_line args = Some o ->
  as_asked args o /\ well_typed o /\ consistent o /\
  opt_ifindex o = s32 (if_nametoindex (opt_if o)) /\ opt_ifindex o <> 0 /\
  (opt_unaligned_chunks o = false ->
     opt_xsk_frame_size o = 0 \/ opt_xsk_frame_size o = 2 ^ Z.log2 (opt_xsk_frame_size o)
     \/ opt_xsk_frame_size o = -2147483648) /\
  (opt_reduced_cap o = true -> opt_num_xsks o = 1) /\
  load_xdp_prog o = (opt_num_xsks o >? 1) || opt_frags o /\
  Z.testbit (opt_xdp_bind_flags o) 4 = opt_frags o.
Proof.
  intros E. apply parse_command_line_Some in E as (o1 & Ho & Hif & Hfs & Hrc & ->).
  pose proof (options_as_asked _ _ Ho) as Hask. pose proof (options_no_sg _ _ _ Ho eq_refl) as Hsg.
  destruct (options_well_typed _ _ _ Ho default_well_typed) as [Ht Hc].
  assert (opt_unaligned_chunks o1 = false -> opt_xsk_frame_size o1 = 0 \/
    opt_xsk_frame_size o1 = 2 ^ Z.log2 (opt_xsk_frame_size o1) \/ opt_xsk_frame_size o1 = -2147483648) as Hpow.
  { intros Hu. rewrite Hu, andb_true_r in Hfs. apply nz_false in Hfs. apply frame_size_test; [|done].
    exact (typed_frame_size o1 Ht). }
  assert (opt_reduced_cap o1 = true -> opt_num_xsks o1 = 1) as Hred.
  { intros Hr. rewrite Hr in Hrc. cbn in Hrc. destruct (sockets o1 Hc) as [|Hm]; [done|]. now rewrite Hm in Hrc. }
  destruct (opt_frags o1) eqn:Hfr.
  - split; [now apply as_asked_final|]. split; [now apply well_typed_final|].
    split; [now apply consistent_final|]. cbn. now rewrite Z.lor_spec, Hfr, Hsg.
  - split; [now apply as_asked_loaded|]. split; [now apply well_typed_loaded|].
    split; [now apply consistent_loaded|]. cbn. now rewrite Hfr, Hsg.
Qed.
End accepts.

(** A host with one interface, on which the theorems are instantiated. *)
Definition example_host : XskHost := {|
  XSK_UMEM__DEFAULT_FRAME_SIZE := 4096;
  if_nametoindex := fun s => if String.eqb s "eth0"%string then 2 else 0;
  ether_aton := fun s => if String.eqb s "02:00:00:00:00:01"%string then Some [2; 0; 0; 0; 0; 1] else None;
  proc_interrupts := None;
  irq_counts := fun _ => None
|}.
Definition example_args : list (ascii * string) :=
  [("i"%char, "eth0"%string); ("l"%char, ""%string); ("c"%char, ""%string); ("f"%char, "2048"%string); ("w"%char, "tai"%string); ("G"%char, "02:00:00:00:00:01"%string); ("P"%char, "0xffEE"%string)].
Lemma parse_command_line_typed_witness :
  exists o, @parse_command_line example_host example_args = Some o /\ well_typed o /\ opt_xsk_frame_size o = 2048 /\
    opt_xdp_bind_flags o = 10 /\ opt_clock o = CLOCK_TAI /\ opt_pkt_fill_pattern o = 65518.
Proof.
  assert (Hmac : forall s m, @ether_aton example_host s = Some m -> is_mac m).
  { intros s m. cbn. destruct (String.eqb s _); [|intros [=]]. intros [= <-].
    split; [reflexivity|]. repeat (apply Forall_cons_2; [split; [intros [=]|reflexivity]|]). apply Forall_nil_2. }
  pose proof (@parse_command_line_typed example_host Hmac) as H.
  destruct (@parse_command_line example_host example_args) as [o|] eqn:Ho; [|vm_compute in Ho; discriminate Ho].
  exists o. split; [reflexivity|].
  split; [apply (H ltac:(split; [intros [=]|reflexivity]) example_args o Ho)|].
  vm_compute in Ho. injection Ho as <-. repeat split.
Defined.

(** The transmit size is a 16-bit variable and is checked after the conversion. *)
Lemma packet_size_wraps :
  exists o, @parse_command_line example_host [("i"%char, "eth0"%string); ("s"%char, "65600"%string)] = Some o /\ opt_pkt_size o = 64.
Proof. eexists. split; vm_compute; reflexivity. Qed.
(** The least [int] passes the test for powers of two: its predecessor wraps. *)
Lemma frame_size_least_accepted :
  exists o, @parse_command_line example_host [("i"%char, "eth0"%string); ("f"%char, "2147483648"%string)] = Some o
    /\ opt_xsk_frame_size o = -2147483648.
Proof. eexists. split; vm_compute; reflexivity. Qed.
(** A frame size of zero passes the test for powers of two. *)
Lemma frame_size_zero_accepted :
  exists o, @parse_command_line example_host [("i"%char, "eth0"%string); ("f"%char, "0"%string)] = Some o /\ opt_xsk_frame_size o = 0.
Proof. eexists. split; vm_compute; reflexivity. Qed.
(** An invalid size, an unknown interface and a bad frame size are refused. *)
Lemma command_lines_refused :
  @parse_command_line example_host [("i"%char, "eth0"%string); ("s"%char, "63"%string)] = None /\
  @parse_command_line example_host [("i"%char, "lo"%string)] = None /\
  @parse_command_line example_host [("i"%char, "eth0"%string); ("f"%char, "3000"%string)] = None /\
  @parse_command_line example_host [("i"%char, "eth0"%string); ("M"%char, ""%string); ("R"%char, ""%string)] = None.
Proof. repeat split; vm_compute; reflexivity. Qed.
