(* ===== verification/XskKern.v ===== *)
(** * The program of the AF_XDP driver (afxdp/l2fwd/xdpsock_kern.c)

    The program that is loaded for several sockets or packets in several buffers.  It hands the
    packets to the sockets in turn.  The theorems: with the numbers of sockets that the command
    line can give (XskOptions.v) every socket gets every n-th packet and none is dropped; with a
    number that is no power of two some get nothing. *)
From Stdlib Require Import ZArith Lia.
From stdpp Require Import base numbers list option.
From S2P Require Import Prelude Xdp XskOptions.
#[local] Open Scope Z_scope.

(** The variables of the program; [num_socks] is written by [enter_xsks_into_map] of XskMain.v.
    @src afxdp/l2fwd/xdpsock_kern.c 17-18 num_socks *)
Record kern := Kern { num_socks : Z; rr : Z }.

(** [bpf_redirect_map] on a map of sockets: the packet goes to the socket of the key, and without
    one the verdict is in the flags. *)
Class RedirectMap := redirect_map : Z -> Z -> Z.
Class RedirectMapLaws (R : RedirectMap) (xsks_map : Z -> bool) : Prop := redirect_map_law key flags :
  0 <= flags < 4 -> redirect_map key flags = if xsks_map key then XDP_REDIRECT else flags.

Section kern.
Context {R : RedirectMap}.

(** The verdict, the key that was asked for, and the variables after.
    @src afxdp/l2fwd/xdpsock_kern.c 20-24 xdp_sock_prog *)
Definition xdp_sock_prog (k : kern) : Z * Z * kern :=
  let rr := Z.land (u32 (rr k + 1)) (u32 (num_socks k - 1)) in
  (redirect_map rr XDP_DROP, rr, Kern (num_socks k) rr).

(** The verdicts and keys of [n] packets. *)
Fixpoint packets (n : nat) (k : kern) : list (Z * Z) :=
  match n with O => [] | S n => let '(v, key, k) := xdp_sock_prog k in (v, key) :: packets n k end.

Lemma next_socket k j : 0 <= j <= 31 -> num_socks k = 2 ^ j -> (xdp_sock_prog k).1.2 = (rr k + 1) mod num_socks k.
Proof.
  intros Hj Hn. unfold xdp_sock_prog. cbn [fst snd]. rewrite Hn.
  assert (0 < 2 ^ j <= 2 ^ 31) by (split; [lia|apply Z.pow_le_mono_r; lia]).
  assert (Hm : u32 (2 ^ j - 1) = Z.ones j).
  { unfold u32. rewrite Z.ones_equiv, <- Z.sub_1_r. apply Z.mod_small. lia. }
  rewrite Hm, Z.land_ones by lia. unfold u32. change 4294967296 with (2 ^ 32).
  apply Z.mod_mod_divide.
  exists (2 ^ (32 - j)). rewrite <- Z.pow_add_r by lia. f_equal. lia.
Qed.

(** The packets go around the sockets. *)
Lemma round_robin xsks_map {L : RedirectMapLaws R xsks_map} n k : num_socks k = 1 \/ num_socks k = MAX_SOCKS ->
  (forall i, 0 <= i < num_socks k -> xsks_map i = true) ->
  packets n k = map (fun i => (XDP_REDIRECT, (rr k + 1 + Z.of_nat i) mod num_socks k)) (seq 0 n).
Proof.
  intros Hn Hm. revert k Hn Hm. induction n as [|n IH]; intros k Hn Hm; [done|]. cbn [packets seq map].
  assert (Hk : (xdp_sock_prog k).1.2 = (rr k + 1) mod num_socks k).
  { destruct Hn as [Hn|Hn]; [apply (next_socket k 0)|apply (next_socket k 2)]; rewrite ?Hn; done || lia. }
  assert (Hpos : 0 < num_socks k) by (destruct Hn as [->| ->]; [done|reflexivity]).
  assert (Hv : (xdp_sock_prog k).1.1 = XDP_REDIRECT).
  { change (redirect_map (xdp_sock_prog k).1.2 XDP_DROP = XDP_REDIRECT). rewrite Hk, redirect_map_law by (compute; done).
    rewrite Hm; [done|]. now apply Z.mod_pos_bound. }
  assert (Hs : (xdp_sock_prog k).2 = Kern (num_socks k) (xdp_sock_prog k).1.2) by done.
  destruct (xdp_sock_prog k) as [[v key] k']. cbn [fst snd] in *. subst v key k'.
  rewrite IH by done. rewrite Z.add_0_r. f_equal. rewrite <- seq_shift, map_map. apply map_ext. intros i. cbn [rr num_socks].
  f_equal. rewrite <- Z.add_assoc, Zplus_mod_idemp_l. f_equal. lia.
Qed.

(** Each of [n] sockets gets every [n]-th packet. *)
Lemma every_socket xsks_map {L : RedirectMapLaws R xsks_map} m k i : num_socks k = 1 \/ num_socks k = MAX_SOCKS ->
  (forall i, 0 <= i < num_socks k -> xsks_map i = true) -> 0 <= i < num_socks k ->
  exists p, 0 <= p < num_socks k /\ forall t, (t < m)%nat ->
    (packets m k !! t = Some (XDP_REDIRECT, i) <-> Z.of_nat t mod num_socks k = p).
Proof.
  intros Hn Hm Hi. exists ((i - rr k - 1) mod num_socks k). split; [apply Z.mod_pos_bound; lia|]. intros t Ht.
  rewrite (round_robin xsks_map) by done. rewrite list_lookup_fmap, lookup_seq_lt by done. cbn [fmap option_fmap option_map].
  rewrite Nat.add_0_l. set (n := num_socks k) in *. assert (0 < n) by lia. split.
  - intros [= E]. rewrite <- E at 1. rewrite <- Z.sub_add_distr, Zminus_mod_idemp_l. f_equal. lia.
  - intros E. do 2 f_equal. rewrite Zplus_mod, E, Zplus_mod_idemp_r. rewrite Zplus_mod_idemp_l.
    replace (rr k + 1 + (i - rr k - 1)) with i by lia. now apply Z.mod_small.
Qed.
End kern.

(** A map with the given number of sockets. *)
Definition redirect_of (n : Z) : RedirectMap := fun key flags =>
  if (0 <=? key) && (key <? n) then XDP_REDIRECT else flags.
#[export] Instance redirect_of_laws n : RedirectMapLaws (redirect_of n) (fun key => (0 <=? key) && (key <? n)).
Proof. done. Qed.

(** Four sockets in turn; with three, all packets go to the first; before the number is written,
    all are dropped. *)
Example in_turn : packets (R := redirect_of 4) 5 (Kern 4 0) = [(4, 1); (4, 2); (4, 3); (4, 0); (4, 1)].
Proof. reflexivity. Qed.
Example three_sockets : packets (R := redirect_of 3) 5 (Kern 3 0) = [(4, 0); (4, 0); (4, 0); (4, 0); (4, 0)].
Proof. reflexivity. Qed.
Example not_set_up : packets (R := redirect_of 0) 3 (Kern 0 0) = [(1, 1); (1, 2); (1, 3)].
Proof. reflexivity. Qed.
