(* ===== verification/XskPktgen.v ===== *)
(** * The packet generator of the AF_XDP driver (afxdp/l2fwd/xdpsock.c)

    The transmit-only mode builds one UDP packet in [pkt_data] and copies it to the
    frames.  [pkt_data] is the data area of an [xdp] state. *)
From Stdlib Require Import ZArith Lia.
From stdpp Require Import base numbers list option.
From S2P Require Import Prelude Xdp OnesComplement XdpRun RuntimeHelpers XskOptions.
#[local] Open Scope Z_scope.

(** ** Checksums *)

(** The same code as in helpers.c.
    @src afxdp/l2fwd/xdpsock.c 755-762 from32to16 *)
Definition from32to16 (x : Z) : Z := RuntimeHelpers.from32to16 x.
(** The same code as in helpers.c; [addr] is the address of the buffer.
    @src afxdp/l2fwd/xdpsock.c 768-823 do_csum *)
Definition do_csum (addr : Z) (buff : list Z) : Z := RuntimeHelpers.do_csum addr buff.
(** [iph] are the [ihl * 4] bytes of the header.
    @src afxdp/l2fwd/xdpsock.c 831-834 ip_fast_csum *)
Definition ip_fast_csum (addr : Z) (iph : list Z) : Z := u16 (Z.lnot (do_csum addr iph)).
(** @src afxdp/l2fwd/xdpsock.c 841-848 csum_fold *)
Definition csum_fold (csum : Z) : Z :=
  let sum := u32 csum in
  let sum := u32 (Z.land sum 65535 + Z.shiftr sum 16) in
  let sum := u32 (Z.land sum 65535 + Z.shiftr sum 16) in
  u16 (Z.lnot sum).
(** @src afxdp/l2fwd/xdpsock.c 854-861 from64to32 *)
Definition from64to32 (x : Z) : Z :=
  let x := u64 (Z.land x 4294967295 + Z.shiftr x 32) in
  let x := u64 (Z.land x 4294967295 + Z.shiftr x 32) in
  u32 x.
(** On a little-endian machine.
    @src afxdp/l2fwd/xdpsock.c 870-883 csum_tcpudp_nofold *)
Definition csum_tcpudp_nofold (saddr daddr len proto sum : Z) : Z :=
  let s := u32 sum in
  let s := u64 (s + u32 saddr) in
  let s := u64 (s + u32 daddr) in
  let s := u64 (s + u32 (Z.shiftl (u32 (proto + len)) 8)) in
  from64to32 s.
(** @src afxdp/l2fwd/xdpsock.c 889-894 csum_tcpudp_magic *)
Definition csum_tcpudp_magic (saddr daddr len proto sum : Z) : Z :=
  csum_fold (csum_tcpudp_nofold saddr daddr len proto sum).

Section pktgen.
Context {E : Type}.

(** The loop from [cnt] to [len] in steps of two, [n] turns.
    @src afxdp/l2fwd/xdpsock.c 903-904 udp_csum *)
Fixpoint udp_csum_loop (n : nat) (udp_pkt cnt csum : Z) : xdp E Z :=
  match n with
  | O => mret csum
  | S n => x ← load16 (udp_pkt + 2 * Z.shiftr cnt 1); udp_csum_loop n udp_pkt (cnt + 2) (u32 (csum + x))
  end.
(** @src afxdp/l2fwd/xdpsock.c 896-907 udp_csum *)
Definition udp_csum (saddr daddr len proto udp_pkt : Z) : xdp E Z :=
  csum ← udp_csum_loop (Z.to_nat ((len + 1) / 2)) udp_pkt 0 0;
  mret (csum_tcpudp_magic saddr daddr len proto csum).

(** The loop over words and the loop over the bytes that are left.
    @src afxdp/l2fwd/xdpsock.c 742-743 memset32_htonl *)
Fixpoint memset_words (n : nat) (dest i val : Z) : xdp E unit :=
  match n with
  | O => mret tt
  | S n => store32 (dest + 4 * Z.shiftr i 2) val ;; memset_words n dest (i + 4) val
  end.
(** @src afxdp/l2fwd/xdpsock.c 745-746 memset32_htonl *)
Fixpoint memset_bytes (n : nat) (dest i val : Z) : xdp E unit :=
  match n with
  | O => mret tt
  | S n => store (dest + i) [nth (Z.to_nat (Z.land i 3)) (le_split 4 val) 0] ;; memset_bytes n dest (i + 1) val
  end.
(** @src afxdp/l2fwd/xdpsock.c 735-749 memset32_htonl *)
Definition memset32_htonl (dest val size : Z) : xdp E unit :=
  let val := bswap32 val in
  let words := Z.land size 4294967292 in
  memset_words (Z.to_nat (words / 4)) dest 0 val ;;
  memset_bytes (Z.to_nat (size - words)) dest words val.

(** ** Sizes *)

(** @src afxdp/l2fwd/xdpsock.c 909 ETH_FCS_SIZE *)
Definition ETH_FCS_SIZE : Z := 4.
(** @src afxdp/l2fwd/xdpsock.c 911-912 ETH_HDR_SIZE *)
Definition ETH_HDR_SIZE (o : options) : Z := if opt_vlan_tag o then 18 else 14.
(** @src afxdp/l2fwd/xdpsock.c 913 PKTGEN_HDR_SIZE *)
Definition PKTGEN_HDR_SIZE (o : options) : Z := if opt_tstamp o then 16 else 0.
(** @src afxdp/l2fwd/xdpsock.c 914-915 PKT_HDR_SIZE *)
Definition PKT_HDR_SIZE (o : options) : Z := ETH_HDR_SIZE o + 20 + 8 + PKTGEN_HDR_SIZE o.
(** @src afxdp/l2fwd/xdpsock.c 916-917 PKTGEN_HDR_OFFSET *)
Definition PKTGEN_HDR_OFFSET (o : options) : Z := ETH_HDR_SIZE o + 20 + 8.
(** @src afxdp/l2fwd/xdpsock.c 918-919 PKTGEN_SIZE_MIN *)
Definition PKTGEN_SIZE_MIN (o : options) : Z := PKTGEN_HDR_OFFSET o + 16 + ETH_FCS_SIZE.
(** @src afxdp/l2fwd/xdpsock.c 921 PKT_SIZE *)
Definition PKT_SIZE (o : options) : Z := opt_pkt_size o - ETH_FCS_SIZE.
(** @src afxdp/l2fwd/xdpsock.c 922 IP_PKT_SIZE *)
Definition IP_PKT_SIZE (o : options) : Z := PKT_SIZE o - ETH_HDR_SIZE o.
(** @src afxdp/l2fwd/xdpsock.c 923 UDP_PKT_SIZE *)
Definition UDP_PKT_SIZE (o : options) : Z := IP_PKT_SIZE o - 20.
(** @src afxdp/l2fwd/xdpsock.c 924-925 UDP_PKT_DATA_SIZE *)
Definition UDP_PKT_DATA_SIZE (o : options) : Z := UDP_PKT_SIZE o - (8 + PKTGEN_HDR_SIZE o).

(** [main] enlarges the packet when it carries a time stamp.
    @src afxdp/l2fwd/xdpsock.c 2127-2128 main *)
Definition pktgen_options (o : options) : options :=
  if opt_tstamp o && (opt_pkt_size o <? PKTGEN_SIZE_MIN o) then o <| opt_pkt_size := PKTGEN_SIZE_MIN o |> else o.

(** ** The packet *)

(** @src afxdp/l2fwd/xdpsock.c 158 PKTGEN_MAGIC *)
Definition PKTGEN_MAGIC : Z := 0xbe9be955.

(** The Ethernet header, with or without the VLAN tag.
    @src afxdp/l2fwd/xdpsock.c 935-973 gen_eth_hdr_data *)
Definition gen_eth_hdr (o : options) : xdp E unit :=
  store 0 (opt_txdmac o) ;;
  store 6 (opt_txsmac o) ;;
  if opt_vlan_tag o then
    store16 12 (bswap16 0x8100) ;;
    let vlan_tci := Z.land (opt_pkt_vlan_id o) 0x0fff in
    let vlan_tci := u16 (Z.lor vlan_tci (Z.land (Z.shiftl (opt_pkt_vlan_pri o) 13) 0xe000)) in
    store16 14 (bswap16 vlan_tci) ;;
    store16 16 (bswap16 0x0800)
  else store16 12 (bswap16 0x0800).

(** [pkt_addr] is the address of [pkt_data].
    @src afxdp/l2fwd/xdpsock.c 976-989 gen_eth_hdr_data *)
Definition gen_ip_hdr (pkt_addr : Z) (o : options) : xdp E unit :=
  let ip_hdr := ETH_HDR_SIZE o in
  store8 ip_hdr 0x45 ;;
  store8 (ip_hdr + 1) 0 ;;
  store16 (ip_hdr + 2) (bswap16 (IP_PKT_SIZE o)) ;;
  store16 (ip_hdr + 4) 0 ;;
  store16 (ip_hdr + 6) 0 ;;
  store8 (ip_hdr + 8) 64 ;;
  store8 (ip_hdr + 9) 17 ;;
  store32 (ip_hdr + 12) (bswap32 0x0a0a0a10) ;;
  store32 (ip_hdr + 16) (bswap32 0x0a0a0a20) ;;
  store16 (ip_hdr + 10) 0 ;;
  iph ← load 20 ip_hdr;
  store16 (ip_hdr + 10) (ip_fast_csum (pkt_addr + ip_hdr) iph).

(** @src afxdp/l2fwd/xdpsock.c 992-997 gen_eth_hdr_data *)
Definition gen_udp_fields (o : options) : xdp E unit :=
  let udp_hdr := ETH_HDR_SIZE o + 20 in
  let pktgen_hdr := ETH_HDR_SIZE o + 28 in
  store16 udp_hdr (bswap16 0x1000) ;;
  store16 (udp_hdr + 2) (bswap16 0x1000) ;;
  store16 (udp_hdr + 4) (bswap16 (UDP_PKT_SIZE o)) ;;
  when (opt_tstamp o) (store32 pktgen_hdr (bswap32 PKTGEN_MAGIC)).

(** @src afxdp/l2fwd/xdpsock.c 992-1006 gen_eth_hdr_data *)
Definition gen_udp_hdr (o : options) : xdp E unit :=
  let ip_hdr := ETH_HDR_SIZE o in
  let udp_hdr := ETH_HDR_SIZE o + 20 in
  gen_udp_fields o ;;
  memset32_htonl (PKT_HDR_SIZE o) (opt_pkt_fill_pattern o) (UDP_PKT_DATA_SIZE o) ;;
  store16 (udp_hdr + 6) 0 ;;
  saddr ← load32 (ip_hdr + 12);
  daddr ← load32 (ip_hdr + 16);
  csum ← udp_csum saddr daddr (UDP_PKT_SIZE o) 17 udp_hdr;
  store16 (udp_hdr + 6) csum.

(** @src afxdp/l2fwd/xdpsock.c 929-1007 gen_eth_hdr_data *)
Definition gen_eth_hdr_data (pkt_addr : Z) (o : options) : xdp E unit :=
  gen_eth_hdr o ;;
  gen_ip_hdr pkt_addr o ;;
  gen_udp_hdr o.
End pktgen.

(** [len] is the static variable: what is left of the packet.  The result is the bytes
    copied to the frame and the new [len].
    @src afxdp/l2fwd/xdpsock.c 1009-1022 gen_eth_frame *)
Definition gen_eth_frame (o : options) (pkt_data : list Z) (len : Z) : list Z * Z :=
  let copy_len := u32 (opt_xsk_frame_size o) in
  let len := if len =? 0 then u32 (PKT_SIZE o) else len in
  let copy_len := if len <? u32 (opt_xsk_frame_size o) then len else copy_len in
  (take (Z.to_nat copy_len) (drop (Z.to_nat (PKT_SIZE o - len)) pkt_data), u32 (len - copy_len)).
(** The first [n] frames.
    @src afxdp/l2fwd/xdpsock.c 2132-2133 main *)
Fixpoint gen_eth_frames (o : options) (pkt_data : list Z) (len : Z) (n : nat) : list (list Z) :=
  match n with
  | O => []
  | S n => let '(frame, len) := gen_eth_frame o pkt_data len in frame :: gen_eth_frames o pkt_data len n
  end.

(** ** The checksum routines *)

Lemma csum_fold_norm x s : rep x s -> is_u32 x -> csum_fold x = 65535 - oc_norm s.
Proof.
  intros Hr Hx. unfold csum_fold. cbv zeta. rewrite (u32_id x) by done.
  rewrite <- (two_folds_norm x s Hr Hx). do 2 f_equal.
  change (Z.land ?a 65535 + Z.shiftr ?a 16) with (fold16 a). apply u32_id. unfold is_u32 in *.
  pose proof (u32_range (fold16 x)) as Hu. unfold is_u32 in Hu. rewrite fold16_arith. zlia.
Qed.

Lemma fold32_rep x s :
  rep x s -> x < 18446744073709551616 ->
  rep (Z.land x 4294967295 + Z.shiftr x 32) s /\
  Z.land x 4294967295 + Z.shiftr x 32 = x mod 4294967296 + x / 4294967296.
Proof.
  intros (H0 & H1 & H2 & H3) Hx. rewrite land_u32, Z.shiftr_div_pow2 by lia. change (2 ^ 32) with 4294967296.
  split; [|done]. unfold rep, oc in *. zlia.
Qed.
Lemma from64to32_rep x s :
  rep x s -> x < 18446744073709551616 -> rep (from64to32 x) s /\ is_u32 (from64to32 x).
Proof.
  intros Hr Hx. split; [|apply u32_range]. unfold from64to32. cbv zeta.
  destruct (fold32_rep x s Hr Hx) as [Hr1 He1].
  set (y := Z.land x 4294967295 + Z.shiftr x 32) in *.
  assert (0 <= y <= 8589934590) as Hy by (destruct Hr; zlia).
  rewrite (u64_id y) by (unfold is_u64; lia).
  destruct (fold32_rep y s Hr1 ltac:(lia)) as [Hr2 He2].
  rewrite He2 in Hr2 |- *. rewrite (u64_id (_ + _)) by (unfold is_u64; clear -Hy; zlia).
  rewrite u32_id; [done|]. unfold is_u32. clear -Hy. zlia.
Qed.

Lemma ip_fast_csum_norm addr iph : bytes_ok iph -> ip_fast_csum addr iph = 65535 - oc_norm (sum16 iph).
Proof.
  intros Hb. unfold ip_fast_csum, do_csum. rewrite do_csum_norm, oc_norm_sum16 by done.
  pose proof (oc_norm_range (sum16 iph)). rewrite lnot_arith. unfold u16. zlia.
Qed.

(** The pseudo header of RFC 768, in memory order. *)
Definition pseudo_header (saddr daddr : list Z) (proto len : Z) : list Z :=
  saddr ++ daddr ++ [0; proto] ++ le_split 2 (bswap16 len).

Lemma sum16_le_split_bswap len : is_u16 len -> sum16 (le_split 2 (bswap16 len)) =oc 256 * len.
Proof.
  intros Hl. unfold bswap16. cbn [le_split rev app le_join].
  unfold is_u16 in Hl. cbn [sum16]. unfold oc. zlia.
Qed.
Lemma sum16_four (a : list Z) : length a = 4%nat -> sum16 a =oc le_join a.
Proof. intros _. apply sum16_le_join. Qed.

(** [csum_tcpudp_magic] is the complement of the sum over pseudo header and packet. *)
Lemma csum_tcpudp_magic_norm saddr daddr len proto sum s :
  length saddr = 4%nat -> length daddr = 4%nat -> bytes_ok saddr -> bytes_ok daddr ->
  is_u16 len -> 0 < proto < 256 -> is_u32 sum -> rep sum s ->
  csum_tcpudp_magic (le_join saddr) (le_join daddr) len proto sum =
  65535 - oc_norm (sum16 (pseudo_header saddr daddr proto len) + s).
Proof.
  intros Hls Hld Hs Hd Hlen Hp Hsum Hrep. unfold csum_tcpudp_magic, csum_tcpudp_nofold. cbv zeta.
  pose proof (le_join_range saddr Hs) as Rs. pose proof (le_join_range daddr Hd) as Rd.
  rewrite Hls in Rs. rewrite Hld in Rd. change (256 ^ Z.of_nat 4) with 4294967296 in *.
  unfold is_u16, is_u32 in *. rewrite shiftl_8.
  rewrite (u32_id sum), (u32_id (le_join saddr)), (u32_id (le_join daddr)) by (unfold is_u32; lia).
  rewrite (u32_id (proto + len)) by (unfold is_u32; lia).
  rewrite (u32_id ((proto + len) * 256)) by (unfold is_u32; lia).
  rewrite (u64_id (sum + _)), (u64_id (sum + _ + _)), u64_id by (unfold is_u64; lia).
  set (ph := pseudo_header saddr daddr proto len).
  assert (rep (sum + le_join saddr + le_join daddr + (proto + len) * 256) (sum16 ph + s)) as Hr.
  { assert (rep (le_join saddr + le_join daddr + (proto + len) * 256) (sum16 ph)) as Hr.
    - unfold ph, pseudo_header. rewrite !sum16_app_even by (rewrite ?Hls, ?Hld; now exists 2%nat || now exists 1%nat).
      pose proof (sum16_nonneg saddr Hs). pose proof (sum16_nonneg daddr Hd).
      pose proof (sum16_nonneg _ (le_split_ok 2 (bswap16 len))).
      cbn [app sum16].
      split; [lia|]. split; [lia|]. split; [|lia].
      rewrite (sum16_four saddr Hls), (sum16_four daddr Hld), sum16_le_split_bswap by done.
      unfold oc. f_equal. lia.
    - destruct Hr as (? & ? & Ho & ?), Hrep as (? & ? & Ho' & ?). unfold rep. unfold oc in *. repeat split; try lia. zlia. }
  destruct (from64to32_rep _ _ Hr ltac:(lia)) as [Hf Hu]. now apply csum_fold_norm.
Qed.

Lemma sum16_pad l : sum16 (l ++ [0]) = sum16 l.
Proof.
  induction l as [|a|a b l IH] using list_pair_ind; [done|cbn; lia|].
  change (sum16 ((a :: b :: l) ++ [0])) with (a + 256 * b + sum16 (l ++ [0])). rewrite IH. done.
Qed.

(** ** The loops *)

Lemma splice_between pre mid bs post off :
  zlen pre = off -> length bs = length mid -> splice off bs (pre ++ mid ++ post) = Some (pre ++ bs ++ post).
Proof.
  intros <- Hl. rewrite splice_some by (unfold zlen; rewrite ?length_app; lia). unfold zlen. rewrite Nat2Z.id.
  rewrite take_app_length, drop_app_ge by lia. replace (_ + _ - _)%nat with (length mid) by lia.
  now rewrite drop_app_length.
Qed.

(** What [memset32_htonl] leaves: the pattern in network order, again and again. *)
Definition pattern (val size : Z) : list Z :=
  concat (repeat (le_split 4 (bswap32 val)) (Z.to_nat (size / 4))) ++ take (Z.to_nat (size mod 4)) (le_split 4 (bswap32 val)).

Lemma land_not_3 size : 0 <= size < 4294967296 -> Z.land size 4294967292 = 4 * (size / 4).
Proof.
  intros Hs. change 4294967292 with (Z.shiftl 1073741823 2).
  replace (4 * (size / 4)) with (Z.shiftl (Z.land (Z.shiftr size 2) 1073741823) 2).
  - apply Z.bits_inj'. intros i Hi. rewrite Z.land_spec, !Z.shiftl_spec by done.
    destruct (Z.lt_ge_cases i 2).
    + rewrite !(Z.testbit_neg_r _ (i - 2)) by lia. apply andb_false_r.
    + rewrite Z.land_spec, Z.shiftr_spec by lia. do 2 f_equal. lia.
  - rewrite Z.shiftl_mul_pow2, Z.shiftr_div_pow2 by lia. change 1073741823 with (Z.ones 30).
    rewrite Z.land_ones by lia. change (2 ^ 2) with 4. change (2 ^ 30) with 1073741824. zlia.
Qed.
Lemma length_concat_repeat4 n val : length (concat (repeat (le_split 4 val) n)) = (4 * n)%nat.
Proof. induction n as [|n IH]; [done|]. cbn [repeat concat]. rewrite length_app, IH, length_le_split. lia. Qed.
Lemma length_pattern val size : 0 <= size -> zlen (pattern val size) = size.
Proof.
  intros Hs. unfold zlen, pattern. rewrite length_app, length_concat_repeat4, length_take, length_le_split. zlia.
Qed.
Lemma pattern_ok val size : bytes_ok (pattern val size).
Proof.
  unfold pattern. apply bytes_ok_app. split; [|apply Forall_take, le_split_ok].
  induction (Z.to_nat (size / 4)) as [|n IH]; [apply bytes_ok_nil|]. cbn [repeat concat]. apply bytes_ok_app.
  split; [apply le_split_ok|done].
Qed.

Section loops.
Context {E : Type}.
Implicit Types s : xst E.

Lemma memset_words_runs n hd tl (e : E) k pre mid post dest i val :
  zlen pre = dest + i -> 0 <= i -> i mod 4 = 0 -> length mid = (4 * n)%nat ->
  runs (Xst (Frame hd (pre ++ mid ++ post) tl) e k) (memset_words n dest i val) tt
    (Xst (Frame hd (pre ++ concat (repeat (le_split 4 val) n) ++ post) tl) e k).
Proof.
  revert pre mid i. induction n as [|n IH]; intros pre mid i Hp Hi Hm Hl; cbn [memset_words].
  { destruct mid; [apply runs_ret|discriminate Hl]. }
  rewrite <- (take_drop 4 mid), <- app_assoc. eapply runs_bind.
  - unfold store32. apply runs_store. rewrite Z.shiftr_div_pow2 by lia. change (2 ^ 2) with 4.
    apply splice_between; [zlia|]. rewrite length_le_split, length_take. lia.
  - rewrite app_assoc.
    eapply runs_eq; [apply (IH _ (drop 4 mid)); [rewrite zlen_app; unfold zlen in *; cbn; lia|lia|zlia|rewrite length_drop; lia]|].
    do 2 f_equal. cbn [repeat concat]. now rewrite <- !app_assoc.
Qed.

Lemma le_split_4 val : exists a b c d, le_split 4 val = [a; b; c; d].
Proof. cbn [le_split]. eauto. Qed.
Lemma memset_bytes_runs n j hd tl (e : E) k pre mid post dest w val :
  zlen pre = dest + (w + Z.of_nat j) -> w mod 4 = 0 -> (j + n <= 4)%nat -> length mid = n ->
  runs (Xst (Frame hd (pre ++ mid ++ post) tl) e k) (memset_bytes n dest (w + Z.of_nat j) val) tt
    (Xst (Frame hd (pre ++ take n (drop j (le_split 4 val)) ++ post) tl) e k).
Proof.
  revert pre mid j. induction n as [|n IH]; intros pre mid j Hp Hw Hj Hl; cbn [memset_bytes].
  { destruct mid; [apply runs_ret|discriminate Hl]. }
  destruct mid as [|m mid]; [discriminate Hl|]. injection Hl as Hl. change (m :: mid) with ([m] ++ mid).
  assert (Z.land (w + Z.of_nat j) 3 = Z.of_nat j) as ->.
  { change 3 with (Z.ones 2). rewrite Z.land_ones by lia. change (2 ^ 2) with 4. zlia. }
  rewrite Nat2Z.id, <- app_assoc. eapply runs_bind; [apply runs_store, splice_between; [done|done]|].
  replace (w + Z.of_nat j + 1) with (w + Z.of_nat (S j)) by lia. rewrite app_assoc.
  eapply runs_eq; [apply (IH _ mid); [rewrite zlen_app, zlen_cons, zlen_nil; lia|done|lia|done]|].
  do 2 f_equal. rewrite <- !app_assoc. f_equal.
  destruct (le_split_4 val) as (a & b & c & d & ->). destruct j as [|[|[|[|j]]]]; [done..|lia].
Qed.

Lemma memset32_runs hd tl (e : E) k pre mid post dest val size :
  zlen pre = dest -> zlen mid = size -> size < 4294967296 ->
  runs (Xst (Frame hd (pre ++ mid ++ post) tl) e k) (memset32_htonl dest val size) tt
    (Xst (Frame hd (pre ++ pattern val size ++ post) tl) e k).
Proof.
  intros Hp Hm Hs. pose proof (zlen_nonneg mid). unfold memset32_htonl. cbv zeta.
  rewrite land_not_3 by lia. rewrite (Z.mul_comm 4), Z.div_mul, (Z.mul_comm _ 4) by lia.
  rewrite <- (take_drop (4 * Z.to_nat (size / 4)) mid), <- app_assoc.
  unfold zlen in Hm. eapply runs_bind.
  - apply memset_words_runs; [lia|lia|done|]. rewrite length_take. zlia.
  - unfold pattern. rewrite <- app_assoc, app_assoc.
    replace (4 * (size / 4)) with (4 * (size / 4) + Z.of_nat 0) at 2 by lia.
    replace (size - 4 * (size / 4)) with (size mod 4) by zlia.
    eapply runs_eq; [apply memset_bytes_runs|].
    + rewrite zlen_app. unfold zlen in *. rewrite length_concat_repeat4. zlia.
    + zlia.
    + zlia.
    + rewrite length_drop. zlia.
    + now rewrite <- app_assoc.
Qed.
End loops.

Section udp.
Context {E : Type}.
Implicit Types s : xst E.

Lemma udp_csum_loop_runs n s pre l post udp_pkt cnt csum :
  f_data (x_frame s) = pre ++ l ++ post -> zlen pre = udp_pkt + cnt -> cnt mod 2 = 0 -> 0 <= cnt ->
  length l = (2 * n)%nat -> bytes_ok l -> 0 <= csum -> csum + sum16 l < 4294967296 ->
  runs s (udp_csum_loop n udp_pkt cnt csum) (csum + sum16 l) s.
Proof.
  revert pre l cnt csum. induction n as [|n IH]; intros pre l cnt csum Hd Hp Hm Hc Hl Hb H0 Hs; cbn [udp_csum_loop].
  { destruct l; [|discriminate Hl]. cbn [sum16] in *. rewrite Z.add_0_r. apply runs_ret. }
  destruct l as [|a [|b l]]; [discriminate Hl|cbn in Hl; lia|]. injection Hl as Hl.
  change (sum16 (a :: b :: l)) with (a + 256 * b + sum16 l) in *.
  rewrite !bytes_ok_cons in Hb. destruct Hb as (Ha & Hb & Hbl). unfold is_u8 in Ha, Hb.
  pose proof (sum16_nonneg l Hbl).
  replace (2 * Z.shiftr cnt 1) with cnt by (rewrite Z.shiftr_div_pow2 by lia; change (2 ^ 1) with 2; zlia).
  eapply runs_bind; [apply (runs_load16 s _ [a; b])|].
  { now apply (slice_between _ pre [a; b] (l ++ post)). }
  cbn [le_join]. rewrite u32_id by (unfold is_u32; lia).
  eapply runs_val; [apply (IH (pre ++ [a; b]) l)|lia].
  - rewrite Hd, <- app_assoc. done.
  - rewrite zlen_app, !zlen_cons, zlen_nil. lia.
  - zlia.
  - lia.
  - lia.
  - done.
  - lia.
  - lia.
Qed.

(** The checksum over a datagram that zeros follow. *)
Lemma udp_csum_runs s pre dgram post saddr daddr len udp_pkt :
  f_data (x_frame s) = pre ++ dgram ++ [0] ++ post -> zlen pre = udp_pkt -> zlen dgram = len -> 0 < len < 65536 ->
  bytes_ok dgram -> length saddr = 4%nat -> length daddr = 4%nat -> bytes_ok saddr -> bytes_ok daddr ->
  runs s (udp_csum (le_join saddr) (le_join daddr) len 17 udp_pkt)
    (65535 - oc_norm (sum16 (pseudo_header saddr daddr 17 len ++ dgram))) s.
Proof.
  intros Hd Hp Hl Hlen Hb Hsl Hdl Hsb Hdb. unfold udp_csum.
  assert (exists l post', dgram ++ [0] ++ post = l ++ post' /\ length l = (2 * Z.to_nat ((len + 1) / 2))%nat /\
            bytes_ok l /\ sum16 l = sum16 dgram) as (l & post' & Hsplit & Hll & Hbl & Hsum).
  { unfold zlen in Hl. destruct (Z.eqb_spec (len mod 2) 0) as [He|He].
    - exists dgram, ([0] ++ post). split; [done|]. split; [zlia|done].
    - exists (dgram ++ [0]), post. split; [now rewrite <- app_assoc|].
      split; [rewrite length_app; cbn; zlia|]. split; [apply bytes_ok_app; split; [done|now apply bytes_ok_check]|].
      apply sum16_pad. }
  pose proof (sum16_bound dgram Hb) as Hbound. pose proof (sum16_nonneg dgram Hb). unfold zlen in Hl. rewrite Hl in Hbound.
  assert (65535 * ((len + 1) / 2) < 4294967296) as Hsmall by zlia.
  eapply runs_bind.
  - apply (udp_csum_loop_runs _ s pre l post'); [now rewrite Hd, Hsplit|lia|done|lia|done|done|lia|lia].
  - eapply runs_val; [apply runs_ret|]. rewrite Z.add_0_l, Hsum.
    rewrite (csum_tcpudp_magic_norm saddr daddr len 17 _ (sum16 dgram)); try done; try (unfold is_u16, is_u32; lia).
    rewrite sum16_app_even; [done|]. unfold pseudo_header. rewrite !length_app, Hsl, Hdl. now exists 6%nat.
Qed.
End udp.

(** ** The packet *)

Definition vlan_tci (o : options) : Z :=
  u16 (Z.lor (Z.land (opt_pkt_vlan_id o) 0x0fff) (Z.land (Z.shiftl (opt_pkt_vlan_pri o) 13) 0xe000)).
Definition eth_header (o : options) : list Z :=
  opt_txdmac o ++ opt_txsmac o ++
  (if opt_vlan_tag o then [0x81; 0] ++ le_split 2 (bswap16 (vlan_tci o)) else []) ++ [8; 0].
Definition source_ip : list Z := [10; 10; 10; 16].
Definition dest_ip : list Z := [10; 10; 10; 32].
Definition ip_header (o : options) (check : Z) : list Z :=
  [0x45; 0] ++ le_split 2 (bswap16 (IP_PKT_SIZE o)) ++ [0; 0; 0; 0; 64; 17] ++ le_split 2 check
  ++ source_ip ++ dest_ip.
Definition udp_header (o : options) (check : Z) : list Z :=
  [0x10; 0; 0x10; 0] ++ le_split 2 (bswap16 (UDP_PKT_SIZE o)) ++ le_split 2 check.
Definition stamp (o : options) : list Z := if opt_tstamp o then [0xbe; 0x9b; 0xe9; 0x55] ++ repeat 0 12 else [].
Definition payload (o : options) : list Z := stamp o ++ pattern (opt_pkt_fill_pattern o) (UDP_PKT_DATA_SIZE o).
Definition ip_check (o : options) : Z := 65535 - oc_norm (sum16 (ip_header o 0)).
Definition udp_check (o : options) : Z :=
  65535 - oc_norm (sum16 (pseudo_header source_ip dest_ip 17 (UDP_PKT_SIZE o) ++ udp_header o 0 ++ payload o)).
Definition packet (o : options) : list Z :=
  eth_header o ++ ip_header o (ip_check o) ++ udp_header o (udp_check o) ++ payload o.

(** What the parser and [main] leave: a size that holds the headers, in a buffer of
    [MAX_PKT_SIZE] bytes. *)
Definition size_ok (o : options) : Prop :=
  PKT_HDR_SIZE o <= PKT_SIZE o /\ opt_pkt_size o <= MAX_PKT_SIZE.

Ltac prefix d rest :=
  lazymatch d with rest => constr:(@nil Z) | ?x :: ?d' => let p := prefix d' rest in constr:(x :: p) end.

Ltac steps := repeat (first [eapply runs_bind; [xstep|]; cbv beta | eapply runs_eq; [xstep|]]).

Section packet.
Context {E : Type} (hd tl : list Z) (e : E) (k : nat).
Notation st d := (Xst (Frame hd d tl) e k).

Lemma gen_eth_hdr_runs o z rest :
  is_mac (opt_txdmac o) -> is_mac (opt_txsmac o) -> zlen z = ETH_HDR_SIZE o ->
  runs (st (z ++ rest)) (gen_eth_hdr o) tt (st (eth_header o ++ rest)).
Proof.
  intros [Hd _] [Hs _] Hz. unfold gen_eth_hdr, eth_header, ETH_HDR_SIZE in *. fold (vlan_tci o).
  revert Hd Hs. generalize (opt_txdmac o) as dm, (opt_txsmac o) as sm. intros dm sm Hd Hs.
  explode dm Hd. explode sm Hs. unfold zlen in Hz.
  destruct (opt_vlan_tag o).
  - assert (length z = 18%nat) as Hl by lia. clear Hz. explode z Hl. cbn [app]. cbv zeta. steps. reflexivity.
  - assert (length z = 14%nat) as Hl by lia. clear Hz. explode z Hl. cbn [app]. steps. reflexivity.
Qed.

Lemma ip_header_ok o c : bytes_ok (ip_header o c).
Proof.
  unfold ip_header. rewrite !bytes_ok_app. repeat split; try apply le_split_ok; now apply bytes_ok_check.
Qed.
Lemma udp_header_ok o c : bytes_ok (udp_header o c).
Proof.
  unfold udp_header. rewrite !bytes_ok_app. repeat split; try apply le_split_ok; now apply bytes_ok_check.
Qed.
Lemma payload_ok o : bytes_ok (payload o).
Proof.
  unfold payload, stamp. apply bytes_ok_app. split; [|apply pattern_ok].
  destruct (opt_tstamp o); [now apply bytes_ok_check|apply bytes_ok_nil].
Qed.
Lemma gen_ip_hdr_runs pkt_addr o eth z rest :
  zlen eth = ETH_HDR_SIZE o -> length z = 20%nat ->
  runs (st (eth ++ z ++ rest)) (gen_ip_hdr pkt_addr o) tt (st (eth ++ ip_header o (ip_check o) ++ rest)).
Proof.
  intros He Hz. unfold ip_check. rewrite <- (ip_fast_csum_norm (pkt_addr + ETH_HDR_SIZE o)) by apply ip_header_ok.
  unfold gen_ip_hdr, ETH_HDR_SIZE in *. unfold zlen in He. explode z Hz. destruct (opt_vlan_tag o).
  - assert (length eth = 18%nat) as Hl by lia. clear He. explode eth Hl. cbn [app]. cbv zeta. steps. reflexivity.
  - assert (length eth = 14%nat) as Hl by lia. clear He. explode eth Hl. cbn [app]. cbv zeta. steps. reflexivity.
Qed.

Lemma gen_udp_fields_runs o eth iph rest :
  zlen eth = ETH_HDR_SIZE o -> length iph = 20%nat ->
  runs (st (eth ++ iph ++ repeat 0 (Z.to_nat (8 + PKTGEN_HDR_SIZE o)) ++ rest)) (gen_udp_fields o) tt
    (st (eth ++ iph ++ udp_header o 0 ++ stamp o ++ rest)).
Proof.
  intros He Hi. unfold gen_udp_fields, udp_header, stamp, ETH_HDR_SIZE, PKTGEN_HDR_SIZE in *. unfold zlen in He.
  explode iph Hi. destruct (opt_vlan_tag o);
    [assert (length eth = 18%nat) as Hl by lia|assert (length eth = 14%nat) as Hl by lia];
    clear He; explode eth Hl; destruct (opt_tstamp o); cbn [when]; cbv zeta;
    [change (repeat 0 (Z.to_nat (8 + 16))) with (repeat 0 24)|change (repeat 0 (Z.to_nat (8 + 0))) with (repeat 0 8)
    |change (repeat 0 (Z.to_nat (8 + 16))) with (repeat 0 24)|change (repeat 0 (Z.to_nat (8 + 0))) with (repeat 0 8)];
    cbn [repeat app]; steps; reflexivity.
Qed.

Lemma sizes o : size_ok o -> 0 <= UDP_PKT_DATA_SIZE o < 65536 /\ 0 < UDP_PKT_SIZE o < 65536 /\
  UDP_PKT_SIZE o = 8 + PKTGEN_HDR_SIZE o + UDP_PKT_DATA_SIZE o.
Proof.
  unfold size_ok, UDP_PKT_DATA_SIZE, UDP_PKT_SIZE, IP_PKT_SIZE, PKT_SIZE, PKT_HDR_SIZE, ETH_HDR_SIZE,
    PKTGEN_HDR_SIZE, MAX_PKT_SIZE, ETH_FCS_SIZE.
  destruct (opt_vlan_tag o), (opt_tstamp o); lia.
Qed.
Lemma zlen_le_split n x : zlen (le_split n x) = Z.of_nat n.
Proof. unfold zlen. now rewrite length_le_split. Qed.
Lemma zlen_stamp o : zlen (stamp o) = PKTGEN_HDR_SIZE o.
Proof. unfold stamp, PKTGEN_HDR_SIZE. now destruct (opt_tstamp o). Qed.
Lemma zlen_repeat (n : nat) : zlen (repeat 0 n) = Z.of_nat n.
Proof. unfold zlen. now rewrite repeat_length. Qed.
Lemma zlen_ip_header o c : zlen (ip_header o c) = 20.
Proof. reflexivity. Qed.

Lemma fill_runs o eth iph rest :
  zlen eth = ETH_HDR_SIZE o -> zlen iph = 20 -> size_ok o ->
  runs (st (eth ++ iph ++ udp_header o 0 ++ stamp o ++ repeat 0 (Z.to_nat (UDP_PKT_DATA_SIZE o)) ++ rest))
    (memset32_htonl (PKT_HDR_SIZE o) (opt_pkt_fill_pattern o) (UDP_PKT_DATA_SIZE o)) tt
    (st (eth ++ iph ++ udp_header o 0 ++ payload o ++ rest)).
Proof.
  intros He Hi Hs. pose proof (sizes o Hs) as (Hd & _).
  pose proof (memset32_runs hd tl e k (eth ++ iph ++ udp_header o 0 ++ stamp o)
    (repeat 0 (Z.to_nat (UDP_PKT_DATA_SIZE o))) rest (PKT_HDR_SIZE o) (opt_pkt_fill_pattern o) (UDP_PKT_DATA_SIZE o)) as H.
  unfold payload. repeat rewrite <- app_assoc in H. repeat rewrite <- app_assoc. apply H.
  - rewrite !zlen_app, He, Hi, zlen_stamp. unfold PKT_HDR_SIZE. change (zlen (udp_header o 0)) with 8. lia.
  - rewrite zlen_repeat. lia.
  - lia.
Qed.
Lemma set_udp_check_runs o eth iph a b rest :
  zlen eth = ETH_HDR_SIZE o -> zlen iph = 20 ->
  runs (st (eth ++ iph ++ udp_header o a ++ rest)) (store16 (ETH_HDR_SIZE o + 20 + 6) b) tt
    (st (eth ++ iph ++ udp_header o b ++ rest)).
Proof.
  intros He Hi. unfold store16. apply runs_store.
  pose proof (splice_between (eth ++ iph ++ [0x10; 0; 0x10; 0] ++ le_split 2 (bswap16 (UDP_PKT_SIZE o)))
    (le_split 2 a) (le_split 2 b) rest (ETH_HDR_SIZE o + 20 + 6)) as H.
  unfold udp_header. repeat rewrite <- app_assoc in H. repeat rewrite <- app_assoc. apply H; [|reflexivity].
  rewrite !zlen_app, He, Hi, zlen_le_split. change (zlen [16; 0; 16; 0]) with 4. lia.
Qed.
Lemma load_addrs_runs o eth c rest :
  zlen eth = ETH_HDR_SIZE o ->
  runs (st (eth ++ ip_header o c ++ rest)) (load32 (ETH_HDR_SIZE o + 12)) (le_join source_ip) (st (eth ++ ip_header o c ++ rest)) /\
  runs (st (eth ++ ip_header o c ++ rest)) (load32 (ETH_HDR_SIZE o + 16)) (le_join dest_ip) (st (eth ++ ip_header o c ++ rest)).
Proof.
  intros He. split; apply runs_load32; cbn [x_frame f_data].
  - apply (slice_between _ (eth ++ take 12 (ip_header o c)) source_ip (dest_ip ++ rest)); [|rewrite zlen_app, He; reflexivity|done].
    rewrite <- app_assoc. reflexivity.
  - apply (slice_between _ (eth ++ take 16 (ip_header o c)) dest_ip rest); [|rewrite zlen_app, He; reflexivity|done].
    rewrite <- app_assoc. reflexivity.
Qed.

Lemma gen_udp_hdr_runs o eth c rest :
  zlen eth = ETH_HDR_SIZE o -> size_ok o ->
  runs (st (eth ++ ip_header o c ++ repeat 0 (Z.to_nat (8 + PKTGEN_HDR_SIZE o))
      ++ repeat 0 (Z.to_nat (UDP_PKT_DATA_SIZE o)) ++ [0] ++ rest))
    (gen_udp_hdr o) tt (st (eth ++ ip_header o c ++ udp_header o (udp_check o) ++ payload o ++ [0] ++ rest)).
Proof.
  intros He Hs. pose proof (sizes o Hs) as (Hd & Hu & Hsum). unfold gen_udp_hdr. cbv zeta.
  eapply runs_bind; [now apply gen_udp_fields_runs|]. cbv beta.
  eapply runs_bind; [apply fill_runs; done|]. cbv beta.
  eapply runs_bind; [apply (set_udp_check_runs o _ _ 0 0); done|]. cbv beta.
  destruct (load_addrs_runs o eth c (udp_header o 0 ++ payload o ++ [0] ++ rest) He) as [Hl1 Hl2].
  eapply runs_bind; [exact Hl1|]. cbv beta. eapply runs_bind; [exact Hl2|]. cbv beta.
  eapply runs_bind; [|now apply set_udp_check_runs].
  apply (udp_csum_runs _ (eth ++ ip_header o c) (udp_header o 0 ++ payload o) rest source_ip dest_ip);
    try done; try (now apply bytes_ok_check).
  - cbn [x_frame f_data]. now rewrite <- !app_assoc.
  - now rewrite zlen_app, He.
  - unfold payload. rewrite !zlen_app, zlen_stamp, length_pattern by lia. change (zlen (udp_header o 0)) with 8. lia.
  - apply bytes_ok_app. split; [apply udp_header_ok|apply payload_ok].
Qed.

Lemma zlen_eth_header o : is_mac (opt_txdmac o) -> is_mac (opt_txsmac o) -> zlen (eth_header o) = ETH_HDR_SIZE o.
Proof.
  intros [Hd _] [Hs _]. unfold eth_header, ETH_HDR_SIZE. rewrite !zlen_app. unfold zlen. rewrite Hd, Hs.
  now destruct (opt_vlan_tag o).
Qed.
Lemma gen_packet_runs pkt_addr o rest :
  size_ok o -> is_mac (opt_txdmac o) -> is_mac (opt_txsmac o) ->
  runs (st (repeat 0 (Z.to_nat (PKT_SIZE o)) ++ [0] ++ rest)) (gen_eth_hdr_data pkt_addr o) tt (st (packet o ++ [0] ++ rest)).
Proof.
  intros Hs Hd Hm. pose proof (sizes o Hs) as (Hds & _). pose proof (zlen_eth_header o Hd Hm) as He.
  assert (0 <= ETH_HDR_SIZE o /\ 0 <= PKTGEN_HDR_SIZE o) as [? ?]
    by (unfold ETH_HDR_SIZE, PKTGEN_HDR_SIZE; destruct (opt_vlan_tag o), (opt_tstamp o); lia).
  replace (Z.to_nat (PKT_SIZE o)) with (Z.to_nat (ETH_HDR_SIZE o) + (20 + (Z.to_nat (8 + PKTGEN_HDR_SIZE o)
    + Z.to_nat (UDP_PKT_DATA_SIZE o))))%nat
    by (unfold UDP_PKT_DATA_SIZE, UDP_PKT_SIZE, IP_PKT_SIZE in *; lia).
  rewrite !repeat_app, <- !app_assoc. unfold gen_eth_hdr_data, packet.
  eapply runs_bind; [apply gen_eth_hdr_runs; (done || rewrite zlen_repeat; lia)|]. cbv beta.
  eapply runs_bind; [now apply gen_ip_hdr_runs|]. cbv beta. rewrite <- !app_assoc.
  now apply gen_udp_hdr_runs.
Qed.
End packet.

(** ** Correctness *)

Lemma sum16_ip_header o c : 0 <= c <= 65535 -> sum16 (ip_header o c) = sum16 (ip_header o 0) + c.
Proof. intros Hc. unfold ip_header. cbn [app le_split sum16]. zlia. Qed.
Lemma sum16_udp_header o c l :
  0 <= c <= 65535 -> sum16 (udp_header o c ++ l) = sum16 (udp_header o 0 ++ l) + c.
Proof.
  intros Hc. rewrite !sum16_app_even by now exists 4%nat.
  unfold udp_header. cbn [app le_split sum16]. zlia.
Qed.
Lemma checked_sum s c : 0 < s -> c = 65535 - oc_norm s -> (s + c) mod 65535 = 0 /\ 0 < s + c.
Proof. intros Hs ->. pose proof (oc_norm_range s). split; [now apply complement_checks|lia]. Qed.

Lemma ip_header_checks o : csum_ok (ip_header o (ip_check o)).
Proof.
  unfold csum_ok. pose proof (oc_norm_range (sum16 (ip_header o 0))).
  rewrite sum16_ip_header by (unfold ip_check; lia). apply checked_sum; [|done].
  change (ip_header o 0) with (0x45 :: 0 :: drop 2 (ip_header o 0)).
  change (sum16 (0x45 :: 0 :: ?l)) with (0x45 + sum16 l).
  pose proof (sum16_nonneg (drop 2 (ip_header o 0)) (Forall_drop _ _ _ (ip_header_ok o 0))). lia.
Qed.
Definition datagram (o : options) : list Z := udp_header o (udp_check o) ++ payload o.
Lemma datagram_checks o : csum_ok (pseudo_header source_ip dest_ip 17 (UDP_PKT_SIZE o) ++ datagram o).
Proof.
  unfold csum_ok, datagram. set (ph := pseudo_header _ _ _ _).
  assert (Hev : Nat.Even (length ph)) by now exists 6%nat.
  pose proof (oc_norm_range (sum16 (ph ++ udp_header o 0 ++ payload o))).
  rewrite sum16_app_even, sum16_udp_header, Z.add_assoc, <- sum16_app_even by (done || unfold udp_check; fold ph; lia).
  apply checked_sum; [|done]. rewrite sum16_app_even by done.
  pose proof (sum16_nonneg (udp_header o 0 ++ payload o)
    ltac:(apply bytes_ok_app; split; [apply udp_header_ok|apply payload_ok])).
  unfold ph, pseudo_header. pose proof (sum16_nonneg _ (le_split_ok 2 (bswap16 (UDP_PKT_SIZE o)))).
  unfold source_ip, dest_ip. cbn [app sum16]. lia.
Qed.

Lemma pktgen_size_ok o : MIN_PKT_SIZE <= opt_pkt_size o <= MAX_PKT_SIZE -> size_ok (pktgen_options o).
Proof.
  unfold pktgen_options, size_ok, PKT_SIZE, PKTGEN_SIZE_MIN, PKTGEN_HDR_OFFSET, PKT_HDR_SIZE, ETH_HDR_SIZE,
    PKTGEN_HDR_SIZE, MIN_PKT_SIZE, MAX_PKT_SIZE, ETH_FCS_SIZE. intros Hs.
  destruct (opt_tstamp o) eqn:Ht, (opt_vlan_tag o) eqn:Hv; cbn [andb]; rewrite ?Ht, ?Hv; try lia;
    match goal with |- context [?a <? ?b] => destruct (Z.ltb_spec a b) end; cbn; rewrite ?Ht, ?Hv; lia.
Qed.
Lemma pktgen_options_macs o :
  opt_txdmac (pktgen_options o) = opt_txdmac o /\ opt_txsmac (pktgen_options o) = opt_txsmac o.
Proof. unfold pktgen_options. now destruct (_ && _). Qed.

(** The size of the packet on the wire: a time stamp behind a VLAN tag needs 66 bytes. *)
Lemma pktgen_options_size o :
  MIN_PKT_SIZE <= opt_pkt_size o ->
  opt_pkt_size (pktgen_options o)
  = if opt_tstamp o && opt_vlan_tag o then Z.max (opt_pkt_size o) 66 else opt_pkt_size o.
Proof.
  unfold pktgen_options, PKTGEN_SIZE_MIN, PKTGEN_HDR_OFFSET, ETH_HDR_SIZE, ETH_FCS_SIZE, MIN_PKT_SIZE. intros Hs.
  destruct (opt_tstamp o); [|done]. cbn [andb]. destruct (opt_vlan_tag o);
    match goal with |- context [?a <? ?b] => destruct (Z.ltb_spec a b) end; cbn; lia.
Qed.
Lemma pktgen_options_frame_size o : opt_xsk_frame_size (pktgen_options o) = opt_xsk_frame_size o.
Proof. unfold pktgen_options. now destruct (_ && _). Qed.

(** The checksum field is zero exactly when the sum is a multiple of 65535. *)
Lemma udp_check_zero o :
  udp_check o = 0 <->
  sum16 (pseudo_header source_ip dest_ip 17 (UDP_PKT_SIZE o) ++ udp_header o 0 ++ payload o) mod 65535 = 0.
Proof.
  unfold udp_check. set (l := _ ++ _ ++ _).
  assert (0 < sum16 l) as Hs.
  { unfold l. rewrite sum16_app_even by now exists 6%nat.
    pose proof (sum16_nonneg (udp_header o 0 ++ payload o)
      ltac:(apply bytes_ok_app; split; [apply udp_header_ok|apply payload_ok])).
    unfold pseudo_header. pose proof (sum16_nonneg _ (le_split_ok 2 (bswap16 (UDP_PKT_SIZE o)))).
    unfold source_ip, dest_ip. cbn [app sum16]. lia. }
  unfold oc_norm. destruct (Z.eqb_spec (sum16 l) 0); zlia.
Qed.

(** *** The frames of the packet memory *)

(** The frames that a packet takes. *)
Definition frames_of (o : options) : nat := Z.to_nat ((PKT_SIZE o - 1) / opt_xsk_frame_size o + 1).

Section frames.
Context (o : options) (data : list Z).
Context (Hf : 0 < opt_xsk_frame_size o < 2147483648) (HP : 0 < PKT_SIZE o < 65536).

Lemma gen_eth_frame_some len :
  0 < len <= PKT_SIZE o ->
  gen_eth_frame o data len
  = (take (Z.to_nat (Z.min len (opt_xsk_frame_size o))) (drop (Z.to_nat (PKT_SIZE o - len)) data),
     len - Z.min len (opt_xsk_frame_size o)).
Proof.
  intros Hl. unfold gen_eth_frame. rewrite (u32_id (opt_xsk_frame_size o)) by (unfold is_u32; lia).
  destruct (Z.eqb_spec len 0); [lia|]. destruct (Z.ltb_spec len (opt_xsk_frame_size o)).
  - rewrite Z.min_l by lia. now rewrite u32_id by (unfold is_u32; lia).
  - rewrite Z.min_r by lia. now rewrite u32_id by (unfold is_u32; lia).
Qed.
(** A new packet begins when nothing is left of the last. *)
Lemma gen_eth_frames_restart n : gen_eth_frames o data 0 n = gen_eth_frames o data (PKT_SIZE o) n.
Proof.
  destruct n as [|n]; [done|]. cbn [gen_eth_frames]. unfold gen_eth_frame. cbn [Z.eqb].
  rewrite (u32_id (PKT_SIZE o)) by (unfold is_u32; lia).
  destruct (Z.eqb_spec (PKT_SIZE o) 0); [lia|done].
Qed.

(** The frames from the one where [len] bytes are left to the end of the packet. *)
Lemma gen_eth_frames_rest n : forall len k,
  0 < len <= PKT_SIZE o -> (len - 1) / opt_xsk_frame_size o + 1 = Z.of_nat n ->
  concat (gen_eth_frames o data len (n + k))
  = take (Z.to_nat len) (drop (Z.to_nat (PKT_SIZE o - len)) data) ++ concat (gen_eth_frames o data 0 k).
Proof.
  set (f := opt_xsk_frame_size o) in *.
  induction n as [|n IH]; intros len k Hl Hn.
  { pose proof (Z.div_pos (len - 1) f ltac:(lia) ltac:(lia)). lia. }
  cbn [Nat.add gen_eth_frames]. rewrite gen_eth_frame_some by done. fold f. cbn [concat].
  destruct (decide (len <= f)) as [Hlf|Hlf].
  - rewrite Z.min_l, Z.sub_diag by lia. rewrite Z.div_small in Hn by lia.
    assert (n = 0%nat) as -> by lia. done.
  - rewrite Z.min_r by lia.
    assert (Hd : (len - 1) / f = (len - f - 1) / f + 1).
    { replace (len - 1) with ((len - f - 1) + 1 * f) by lia. now rewrite Z.div_add by lia. }
    rewrite IH by lia. rewrite app_assoc. f_equal.
    replace (Z.to_nat (PKT_SIZE o - (len - f))) with (Z.to_nat (PKT_SIZE o - len) + Z.to_nat f)%nat by lia.
    rewrite <- drop_drop, take_take_drop. f_equal. lia.
Qed.
Lemma gen_eth_frames_packets m :
  concat (gen_eth_frames o data 0 (m * frames_of o))
  = concat (repeat (take (Z.to_nat (PKT_SIZE o)) data) m).
Proof.
  induction m as [|m IH]; [done|]. cbn [Nat.mul repeat concat].
  rewrite gen_eth_frames_restart, gen_eth_frames_rest; [|lia|].
  - rewrite Z.sub_diag, IH. done.
  - unfold frames_of. rewrite Z2Nat.id; [done|].
    pose proof (Z.div_pos (PKT_SIZE o - 1) (opt_xsk_frame_size o) ltac:(lia) ltac:(lia)). lia.
Qed.
End frames.

(** C16: For every accepted transmit size, address, VLAN tag, fill pattern and alignment of the
    buffer, the generator writes exactly one packet and no byte after it: Ethernet header, IPv4
    header, UDP header, the time stamp header if asked for, and the pattern.  Its size is the
    requested one less the four bytes of the frame check sequence, except that a time stamp
    behind a VLAN tag (-y -V) makes a requested 64 or 65 a 66.  The IPv4 header sums up to zero
    with its checksum, and so does the datagram with the pseudo header, for data of even or odd
    length; the UDP checksum field is zero when the sum is a multiple of 65535, where RFC 768,
    which reads zero as no checksum, asks for 65535 (a defect).  The frames of the packet
    memory, of any positive size, then hold the packet, cut into as many frames as it takes,
    again and again. *)
Theorem pktgen_packet_correct {E} hd tl (e : E) k pkt_addr (o : options) :
  MIN_PKT_SIZE <= opt_pkt_size o <= MAX_PKT_SIZE -> is_mac (opt_txdmac o) -> is_mac (opt_txsmac o) ->
  0 < opt_xsk_frame_size o < 2147483648 ->
  let o' := pktgen_options o in
  let p := eth_header o' ++ ip_header o' (ip_check o') ++ datagram o' in
  let data := p ++ repeat 0 (Z.to_nat (MAX_PKT_SIZE - PKT_SIZE o')) in
  gen_eth_hdr_data pkt_addr o' (Xst (Frame hd (repeat 0 (Z.to_nat MAX_PKT_SIZE)) tl) e k) =
    Some (tt, Xst (Frame hd data tl) e k) /\
  zlen p = (if opt_tstamp o && opt_vlan_tag o then Z.max (opt_pkt_size o) 66 else opt_pkt_size o) - 4 /\
  csum_ok (ip_header o' (ip_check o')) /\
  csum_ok (pseudo_header source_ip dest_ip 17 (UDP_PKT_SIZE o') ++ datagram o') /\
  (udp_check o' = 0 <->
   sum16 (pseudo_header source_ip dest_ip 17 (UDP_PKT_SIZE o') ++ udp_header o' 0 ++ payload o') mod 65535 = 0) /\
  forall m, concat (gen_eth_frames o' data 0 (m * frames_of o')) = concat (repeat p m).
Proof.
  intros Hsz Hd Hs Hfs o' p data. pose proof (pktgen_size_ok o Hsz) as Hok. fold o' in Hok.
  destruct (pktgen_options_macs o) as [Ed Es]. fold o' in Ed, Es. rewrite <- Ed in Hd. rewrite <- Es in Hs.
  pose proof (sizes o' Hok) as (Hds & Hu & Hsum).
  assert (0 < PKT_SIZE o' < MAX_PKT_SIZE) as Hp.
  { destruct Hok as [Hh Hm]. unfold PKT_SIZE, ETH_FCS_SIZE, PKT_HDR_SIZE, ETH_HDR_SIZE, PKTGEN_HDR_SIZE, MAX_PKT_SIZE in *.
    destruct (opt_vlan_tag o'), (opt_tstamp o'); lia. }
  assert (Hlen : zlen p = PKT_SIZE o').
  { unfold p, datagram, payload. rewrite !zlen_app, zlen_eth_header, zlen_ip_header, zlen_stamp, length_pattern by (done || lia).
    change (zlen (udp_header o' (udp_check o'))) with 8. unfold UDP_PKT_DATA_SIZE, UDP_PKT_SIZE, IP_PKT_SIZE. lia. }
  split; [|split; [|split; [apply ip_header_checks|split; [apply datagram_checks|split; [apply udp_check_zero|]]]]].
  - assert (Hz : forall n m, n = S m -> repeat 0 n = [0] ++ repeat 0 m) by (intros n m ->; done).
    unfold data. replace (Z.to_nat MAX_PKT_SIZE) with (Z.to_nat (PKT_SIZE o') + Z.to_nat (MAX_PKT_SIZE - PKT_SIZE o'))%nat by lia.
    rewrite repeat_app, (Hz (Z.to_nat (MAX_PKT_SIZE - PKT_SIZE o')) (Z.to_nat (MAX_PKT_SIZE - PKT_SIZE o') - 1)%nat) by lia.
    apply (gen_packet_runs hd tl e k pkt_addr o' _ Hok Hd Hs).
  - rewrite Hlen, <- pktgen_options_size by lia. reflexivity.
  - intros m. rewrite gen_eth_frames_packets.
    + do 2 f_equal. unfold data. rewrite take_app_le by (unfold zlen in Hlen; lia).
      apply take_ge. unfold zlen in Hlen. lia.
    + unfold o'. now rewrite pktgen_options_frame_size.
    + unfold MAX_PKT_SIZE in Hp. lia.
Qed.
Definition example_pktgen : options :=
  let o := @default_options example_host in
  let o := o <| opt_vlan_tag := true |> in let o := o <| opt_tstamp := true |> in o <| opt_pkt_size := 65 |>.
(** A packet of 65 bytes with tag and time stamp: 62 bytes and the frame check sequence are sent. *)
Lemma pktgen_packet_correct_witness :
  let o' := pktgen_options example_pktgen in
  let p := eth_header o' ++ ip_header o' (ip_check o') ++ datagram o' in
  opt_pkt_size o' = 66 /\ csum_ok (ip_header o' (ip_check o')) /\ zlen p = 62 /\ frames_of o' = 1%nat /\
  concat (gen_eth_frames o' (p ++ repeat 0 (Z.to_nat (MAX_PKT_SIZE - PKT_SIZE o'))) 0 (3 * frames_of o'))
    = concat (repeat p 3).
Proof.
  assert (Hmac : is_mac (opt_txdmac example_pktgen) /\ is_mac (opt_txsmac example_pktgen)).
  { split; (split; [reflexivity|]); repeat (apply Forall_cons_2; [split; [intros [=]|reflexivity]|]); apply Forall_nil_2. }
  destruct (pktgen_packet_correct (E := unit) [] [] tt 0 4097 example_pktgen ltac:(split; intros [=]) (proj1 Hmac) (proj2 Hmac)
    ltac:(split; reflexivity)) as (_ & Hz & Hc & _ & _ & Hframes).
  split; [reflexivity|]. split; [exact Hc|]. split; [exact Hz|]. split; [reflexivity|exact (Hframes 3%nat)].
Defined.

(** The pattern 0x22ddb gives a packet of 64 bytes whose UDP checksum field is zero. *)
Example zero_udp_checksum :
  udp_check (pktgen_options ((@default_options example_host) <| opt_pkt_fill_pattern := 0x22ddb |>)) = 0.
Proof. vm_compute. reflexivity. Qed.

(** The time stamp and sequence number that [tx_only] writes come after the checksum: one
    changed payload byte and the datagram no longer checks. *)
Lemma stamp_breaks_checksum :
  let o := pktgen_options example_pktgen in
  let sent := udp_header o (udp_check o) ++ take 7 (payload o) ++ [1] ++ drop 8 (payload o) in
  sum16 (pseudo_header source_ip dest_ip 17 (UDP_PKT_SIZE o) ++ sent) mod 65535 <> 0.
Proof. vm_compute. intros [=]. Qed.

(** With three frames to a packet, the last of the 4096 frames holds the first part of a packet
    and frame 0 holds a first part too: the packet that [tx_only] assembles from them is not
    the generated one. *)
Lemma frames_wrap_mid_packet :
  let o := @default_options example_host in let o := o <| opt_pkt_size := 164 |> in
  let o := o <| opt_xsk_frame_size := 64 |> in
  let data := map (fun i => Z.of_nat i mod 251) (seq 0 164) in
  let frames := gen_eth_frames o data 0 (Z.to_nat NUM_FRAMES) in
  nth 0 frames [] ++ nth 1 frames [] ++ nth 2 frames [] = take (Z.to_nat (PKT_SIZE o)) data /\
  nth 4095 frames [] = nth 0 frames [].
Proof. split; vm_compute; reflexivity. Qed.
