(* ===== verification/XskDriver.v ===== *)
(** * The AF_XDP driver (afxdp/l2fwd/xdpsock.c)

    One socket and its four rings.  The rings belong to libxdp and the kernel: their
    operations are the class [XskApi], and what af_xdp.rst documents about them is the class
    [XskLaws], in terms of a view of the rings as queues and of the moves the kernel can make
    at any time.  The driver functions are in a state monad whose outcome can also be an exit
    or the end of the fuel of a waiting loop. *)
From Stdlib Require Import ZArith Lia Permutation.
From stdpp Require Import base numbers list option relations.
From S2P Require Import Prelude Xdp XskOptions XskPktgen.
#[local] Open Scope Z_scope.

(** ** Data *)

(** @src afxdp/headers/linux/if_xdp.h 109-113 xdp_desc *)
Record xdp_desc := Desc { addr : Z; len : Z; desc_options : Z }.
(** @src afxdp/headers/linux/if_xdp.h 122 XDP_PKT_CONTD *)
Definition XDP_PKT_CONTD : Z := 1.
(** @src afxdp/l2fwd/xdpsock.c 68 IS_EOP_DESC *)
Definition IS_EOP_DESC (options : Z) : bool := negb (nz (Z.land options XDP_PKT_CONTD)).

(** The counters that the functions below change; the others are copies for printing.
    @src afxdp/l2fwd/xdpsock.c 166-187 xsk_ring_stats *)
Record xsk_ring_stats := RingStats { rx_frags : Z; rx_npkts : Z; tx_frags : Z; tx_npkts : Z }.
(** @src afxdp/l2fwd/xdpsock.c 194-205 xsk_app_stats *)
Record xsk_app_stats := AppStats {
  rx_empty_polls : Z; fill_fail_polls : Z; copy_tx_sendtos : Z; tx_wakeup_sendtos : Z; opt_polls : Z
}.
(** @src afxdp/l2fwd/xdpsock.c 214-223 xsk_socket_info *)
Record xsk_socket_info := Socket { ring_stats : xsk_ring_stats; app_stats : xsk_app_stats; outstanding_tx : Z }.
#[global] Instance eta_ring_stats : Eta xsk_ring_stats := fun s =>
  RingStats (rx_frags s) (rx_npkts s) (tx_frags s) (tx_npkts s).
#[global] Instance eta_app_stats : Eta xsk_app_stats := fun s =>
  AppStats (rx_empty_polls s) (fill_fail_polls s) (copy_tx_sendtos s) (tx_wakeup_sendtos s) (opt_polls s).
#[global] Instance eta_socket : Eta xsk_socket_info := fun s => Socket (ring_stats s) (app_stats s) (outstanding_tx s).

(** The ring operations of libxdp, system calls, and the memory: [K] is the state of the
    kernel, of the rings and of the packet memory.  [*_peek] and [*_reserve] give a count
    and an index. *)
Class XskApi (K : Type) := {
  rx_peek : Z -> K -> Z * Z * K;
  rx_desc : Z -> K -> xdp_desc;
  rx_release : Z -> K -> K;
  cq_peek : Z -> K -> Z * Z * K;
  comp_addr : Z -> K -> Z;
  cq_release : Z -> K -> K;
  fq_reserve : Z -> K -> Z * Z * K;
  fill_addr : Z -> Z -> K -> K;
  fq_submit : Z -> K -> K;
  fq_needs_wakeup : K -> bool * K;
  tx_reserve : Z -> K -> Z * Z * K;
  tx_desc : Z -> xdp_desc -> K -> K;
  tx_submit : Z -> K -> K;
  tx_needs_wakeup : K -> bool * K;
  sendto : K -> Z * Z * K;
  recvfrom : K -> K;
  poll : K -> Z * K;
  benchmark_done : K -> bool * K;
  extract_addr : Z -> Z;
  add_offset_to_addr : Z -> Z;
  get_data : Z -> Z;
  run_at_handler : Z -> Z -> K -> Z * K;
  umem_store : Z -> list Z -> K -> K
}.

(** The state of the program: the socket, the static [nb_frags] of [l2fwd], the packet
    [sequence] number, and the world outside. *)
Record xsk_state (K : Type) := Xsk { sock : xsk_socket_info; nb_frags : Z; sequence : Z; env : K }.
Arguments Xsk {K}.
Arguments sock {K}.
Arguments nb_frags {K}.
Arguments sequence {K}.
Arguments env {K}.
#[global] Instance eta_xsk K : Eta (xsk_state K) := fun s => Xsk (sock s) (nb_frags s) (sequence s) (env s).

(** [Exit] is [exit_with_error], [Spin] a waiting loop whose fuel has run out. *)
Inductive outcome (K A : Type) := Ret (a : A) (s : xsk_state K) | Exit (error : Z) | Spin.
Arguments Ret {K A}.
Arguments Exit {K A}.
Arguments Spin {K A}.
Definition xsk (K A : Type) : Type := xsk_state K -> outcome K A.
#[global] Instance xsk_ret K : MRet (xsk K) := fun A a s => Ret a s.
#[global] Instance xsk_bind K : MBind (xsk K) := fun A B k m s =>
  match m s with Ret a s' => k a s' | Exit e => Exit e | Spin => Spin end.

Section driver.
Context {K : Type} {api : XskApi K} (o : options).

Definition gets {A} (f : xsk_state K -> A) : xsk K A := fun s => Ret (f s) s.
Definition update (f : xsk_state K -> xsk_state K) : xsk K unit := fun s => Ret tt (f s).
Definition call {A} (f : K -> A * K) : xsk K A := fun s => let '(a, k) := f (env s) in Ret a (s <| @env K := k |>).
Definition act (f : K -> K) : xsk K unit := fun s => Ret tt (s <| @env K := f (env s) |>).
Definition observe {A} (f : K -> A) : xsk K A := fun s => Ret (f (env s)) s.
Definition exit_with_error {A} (error : Z) : xsk K A := fun _ => Exit error.
Definition spin {A} : xsk K A := fun _ => Spin.
Definition when (b : bool) (m : xsk K unit) : xsk K unit := if b then m else mret tt.
Definition count_app (f : xsk_app_stats -> xsk_app_stats) : xsk K unit :=
  update (fun s => s <| @sock K := let k := sock s in k <| app_stats := f (app_stats k) |> |>).
Definition count_ring (f : xsk_ring_stats -> xsk_ring_stats) : xsk K unit :=
  update (fun s => s <| @sock K := let k := sock s in k <| ring_stats := f (ring_stats k) |> |>).
Definition set_outstanding (n : Z) : xsk K unit :=
  update (fun s => s <| @sock K := let k := sock s in k <| outstanding_tx := u32 n |> |>).
(** [for (i = 0; i < n; i++)]: the body has the index and the local variable that it changes. *)
Fixpoint for_loop {A} (n : nat) (i : Z) (a : A) (body : Z -> A -> xsk K A) : xsk K A :=
  match n with O => mret a | S n => a ← body i a; for_loop n (i + 1) a body end.

(** ** The functions *)

(** @src afxdp/l2fwd/xdpsock.c 230-261 ebpf_process_packet *)
Definition ebpf_process_packet (pkt len : Z) : xsk K bool :=
  bpf_ret ← call (run_at_handler pkt (pkt + len));
  mret (if bpf_ret =? XDP_DROP then false
        else if bpf_ret =? XDP_PASS then true
        else if bpf_ret =? XDP_TX then true
        else if bpf_ret =? XDP_REDIRECT then true
        else false).

(** @src afxdp/l2fwd/xdpsock.c 1058-1071 xsk_populate_fill_ring *)
Definition xsk_populate_fill_ring (fill_size : Z) : xsk K unit :=
  '(ret, idx) ← call (fq_reserve fill_size);
  if negb (ret =? fill_size) then exit_with_error (- ret) else
  for_loop (Z.to_nat fill_size) 0 tt (fun i _ => act (fill_addr (u32 (idx + i)) (i * opt_xsk_frame_size o))) ;;
  act (fq_submit fill_size).

(** ENOBUFS, EAGAIN, EBUSY and ENETDOWN are tolerated.
    @src afxdp/l2fwd/xdpsock.c 1415-1424 kick_tx *)
Definition kick_tx : xsk K unit :=
  '(ret, errno) ← call sendto;
  if (ret >=? 0) || existsb (Z.eqb errno) [105; 11; 16; 100] then mret tt else exit_with_error errno.

(** The loop until the fill ring has room, as it stands here and in [rx_drop].
    @src afxdp/l2fwd/xdpsock.c 1456-1465 complete_tx_l2fwd *)
Fixpoint fq_reserve_wait (fuel : nat) (rcvd ret idx_fq : Z) : xsk K Z :=
  if ret =? rcvd then mret idx_fq else
  if ret <? 0 then exit_with_error (- ret) else
  match fuel with
  | O => spin
  | S fuel =>
      wakeup ← (if opt_busy_poll o then mret true else call fq_needs_wakeup);
      when wakeup
        (count_app (fun a => a <| fill_fail_polls := fill_fail_polls a + 1 |>) ;;
         act recvfrom) ;;
      '(ret, idx_fq) ← call (fq_reserve rcvd);
      fq_reserve_wait fuel rcvd ret idx_fq
  end.

(** @src afxdp/l2fwd/xdpsock.c 1426-1475 complete_tx_l2fwd *)
Definition complete_tx_l2fwd (fuel : nat) : xsk K unit :=
  outstanding ← gets (fun s => outstanding_tx (sock s));
  if outstanding =? 0 then mret tt else
  when (nz (Z.land (opt_xdp_bind_flags o) XDP_COPY))
    (count_app (fun a => a <| copy_tx_sendtos := copy_tx_sendtos a + 1 |>) ;;
     kick_tx) ;;
  let ndescs := if outstanding >? opt_batch_size o then opt_batch_size o else outstanding in
  '(rcvd, idx_cq) ← call (cq_peek ndescs);
  when (rcvd >? 0)
    ('(ret, idx_fq) ← call (fq_reserve rcvd);
     idx_fq ← fq_reserve_wait fuel rcvd ret idx_fq;
     for_loop (Z.to_nat rcvd) 0 tt (fun i _ =>
       a ← observe (comp_addr (u32 (idx_cq + i)));
       act (fill_addr (u32 (idx_fq + i)) a)) ;;
     act (fq_submit rcvd) ;;
     act (cq_release rcvd) ;;
     set_outstanding (outstanding - rcvd)).

(** @src afxdp/l2fwd/xdpsock.c 1477-1496 complete_tx_only *)
Definition complete_tx_only (batch_size : Z) : xsk K unit :=
  outstanding ← gets (fun s => outstanding_tx (sock s));
  if outstanding =? 0 then mret tt else
  wakeup ← (if negb (opt_need_wakeup o) then mret true else call tx_needs_wakeup);
  when wakeup
    (count_app (fun a => a <| tx_wakeup_sendtos := tx_wakeup_sendtos a + 1 |>) ;;
     kick_tx) ;;
  '(rcvd, _) ← call (cq_peek batch_size);
  when (rcvd >? 0)
    (act (cq_release rcvd) ;;
     set_outstanding (outstanding - rcvd)).

(** The packets are also printed by [hex_dump].
    @src afxdp/l2fwd/xdpsock.c 1498-1542 rx_drop *)
Definition rx_drop (fuel : nat) : xsk K unit :=
  '(rcvd, idx_rx) ← call (rx_peek (opt_batch_size o));
  if rcvd =? 0 then
    wakeup ← (if opt_busy_poll o then mret true else call fq_needs_wakeup);
    when wakeup
      (count_app (fun a => a <| rx_empty_polls := rx_empty_polls a + 1 |>) ;;
       act recvfrom)
  else
  '(ret, idx_fq) ← call (fq_reserve rcvd);
  idx_fq ← fq_reserve_wait fuel rcvd ret idx_fq;
  eop_cnt ← for_loop (Z.to_nat rcvd) 0 0 (fun i eop_cnt =>
    d ← observe (rx_desc (u32 (idx_rx + i)));
    act (fill_addr (u32 (idx_fq + i)) (extract_addr (addr d))) ;;
    mret (u32 (eop_cnt + b2z (IS_EOP_DESC (desc_options d)))));
  act (fq_submit rcvd) ;;
  act (rx_release rcvd) ;;
  count_ring (fun r => r <| rx_npkts := u64 (rx_npkts r + eop_cnt) |>) ;;
  count_ring (fun r => r <| rx_frags := u64 (rx_frags r + rcvd) |>).

(** In the polling mode the result of [poll], otherwise a positive number.
    @src afxdp/l2fwd/xdpsock.c 1555-1561 rx_drop_all *)
Definition wait_events : xsk K Z :=
  if opt_poll o
  then (count_app (fun a => a <| opt_polls := opt_polls a + 1 |>) ;; call poll) : xsk K Z
  else mret 1.
(** The loop ends with the benchmark or with the fuel.
    @src afxdp/l2fwd/xdpsock.c 1554-1568 rx_drop_all *)
Fixpoint drop_loop (turns fuel : nat) : xsk K unit :=
  match turns with
  | O => spin
  | S turns =>
      ret ← wait_events;
      if ret <=? 0 then drop_loop turns fuel else
      rx_drop fuel ;;
      finished ← call benchmark_done;
      if (finished : bool) then mret tt else drop_loop turns fuel
  end.

(** The loop until the transmit ring has room.
    @src afxdp/l2fwd/xdpsock.c 1773-1782 l2fwd *)
Fixpoint tx_reserve_wait (turns fuel : nat) (rcvd ret idx_tx : Z) : xsk K Z :=
  if ret =? rcvd then mret idx_tx else
  if ret <? 0 then exit_with_error (- ret) else
  match turns with
  | O => spin
  | S turns =>
      complete_tx_l2fwd fuel ;;
      wakeup ← (if opt_busy_poll o then mret true else call tx_needs_wakeup);
      when wakeup
        (count_app (fun a => a <| tx_wakeup_sendtos := tx_wakeup_sendtos a + 1 |>) ;;
         kick_tx) ;;
      '(ret, idx_tx) ← call (tx_reserve rcvd);
      tx_reserve_wait turns fuel rcvd ret idx_tx
  end.

(** The body of the loop over the received frames; the local variables are [frags_done] and
    [eop_cnt].
    @src afxdp/l2fwd/xdpsock.c 1784-1812 l2fwd *)
Definition l2fwd_frame (idx_rx idx_tx i : Z) (counts : Z * Z) : xsk K (Z * Z) :=
  let '(frags_done, eop_cnt) := counts in
  d ← observe (rx_desc (u32 (idx_rx + i)));
  let eop := IS_EOP_DESC (desc_options d) in
  let orig := addr d in
  let pkt := get_data (add_offset_to_addr (addr d)) in
  frags ← gets nb_frags;
  update (fun s => s <| @nb_frags K := u32 (nb_frags s + 1) |>) ;;
  when (frags =? 0) (ebpf_process_packet pkt (len d) ;; mret tt) ;;
  act (tx_desc (u32 (idx_tx + i)) (Desc orig (len d) (if eop then 0 else XDP_PKT_CONTD))) ;;
  if eop then
    frags ← gets nb_frags;
    update (fun s => s <| @nb_frags K := 0 |>) ;;
    mret (u32 (frags_done + frags), u32 (eop_cnt + 1))
  else mret (frags_done, eop_cnt).

(** @src afxdp/l2fwd/xdpsock.c 1754-1823 l2fwd *)
Definition l2fwd (fuel : nat) : xsk K unit :=
  complete_tx_l2fwd fuel ;;
  '(rcvd, idx_rx) ← call (rx_peek (opt_batch_size o));
  if rcvd =? 0 then
    wakeup ← (if opt_busy_poll o then mret true else call fq_needs_wakeup);
    when wakeup
      (count_app (fun a => a <| rx_empty_polls := rx_empty_polls a + 1 |>) ;;
       act recvfrom)
  else
  '(ret, idx_tx) ← call (tx_reserve rcvd);
  idx_tx ← tx_reserve_wait fuel fuel rcvd ret idx_tx;
  '(frags_done, eop_cnt) ← for_loop (Z.to_nat rcvd) 0 (0, 0) (l2fwd_frame idx_rx idx_tx);
  act (tx_submit frags_done) ;;
  act (rx_release frags_done) ;;
  count_ring (fun r => r <| rx_npkts := u64 (rx_npkts r + eop_cnt) |>) ;;
  count_ring (fun r => r <| tx_npkts := u64 (tx_npkts r + eop_cnt) |>) ;;
  count_ring (fun r => r <| rx_frags := u64 (rx_frags r + rcvd) |>) ;;
  count_ring (fun r => r <| tx_frags := u64 (tx_frags r + rcvd) |>) ;;
  outstanding ← gets (fun s => outstanding_tx (sock s));
  set_outstanding (outstanding + frags_done).

(** @src afxdp/l2fwd/xdpsock.c 1825-1848 l2fwd_all *)
Fixpoint l2fwd_loop (turns fuel : nat) : xsk K unit :=
  match turns with
  | O => spin
  | S turns =>
      ret ← wait_events;
      if ret <=? 0 then l2fwd_loop turns fuel else
      l2fwd fuel ;;
      finished ← call benchmark_done;
      if (finished : bool) then mret tt else l2fwd_loop turns fuel
  end.

(** ** Transmitting only *)

(** The loop until the transmit ring has room; [None] when the benchmark is done.
    @src afxdp/l2fwd/xdpsock.c 1577-1582 tx_only *)
Fixpoint tx_only_wait (fuel : nat) (batch_size : Z) : xsk K (option Z) :=
  '(ret, idx) ← call (tx_reserve batch_size);
  if ret <? batch_size then
    complete_tx_only batch_size ;;
    finished ← call benchmark_done;
    if (finished : bool) then mret None else
    match fuel with O => spin | S fuel => tx_only_wait fuel batch_size end
  else mret (Some idx).

(** One turn of the inner loop: a frame of the packet.
    @src afxdp/l2fwd/xdpsock.c 1593-1621 tx_only *)
Definition tx_frame (tv_sec tv_usec idx i frame_nb len : Z) : xsk K Z :=
  let frame_size := opt_xsk_frame_size o in
  let d := if len >? u32 frame_size then Desc (u32 (frame_nb * frame_size)) (u32 frame_size) XDP_PKT_CONTD
           else Desc (u32 (frame_nb * frame_size)) len 0 in
  act (tx_desc (u32 (idx + i)) d) ;;
  when (negb (len >? u32 frame_size)) (count_ring (fun r => r <| tx_npkts := u64 (tx_npkts r + 1) |>)) ;;
  when (opt_tstamp o)
    (seq ← gets sequence;
     update (fun s => s <| @sequence K := u32 (seq + 1) |>) ;;
     act (umem_store (get_data (addr d) + PKTGEN_HDR_OFFSET o + 4)
            (le_split 4 (bswap32 seq) ++ le_split 4 (bswap32 tv_sec) ++ le_split 4 (bswap32 tv_usec)))) ;;
  mret (u32 (len - XskDriver.len d)).

(** One packet: the frames until nothing is left of it.  The results are the index and the
    frame number after it.
    @src afxdp/l2fwd/xdpsock.c 1590-1622 tx_only *)
Fixpoint tx_packet (fuel : nat) (tv_sec tv_usec idx i frame_nb len : Z) : xsk K (Z * Z) :=
  match fuel with
  | O => spin
  | S fuel =>
      len ← tx_frame tv_sec tv_usec idx i frame_nb len;
      let frame_nb := u32 (frame_nb + 1) mod NUM_FRAMES in
      if len =? 0 then mret (i + 1, frame_nb) else tx_packet fuel tv_sec tv_usec idx (i + 1) frame_nb len
  end.
(** @src afxdp/l2fwd/xdpsock.c 1589-1623 tx_only *)
Fixpoint tx_packets (fuel : nat) (tv_sec tv_usec idx i frame_nb batch_size : Z) : xsk K Z :=
  if i <? batch_size then
    match fuel with
    | O => spin
    | S fuel =>
        '(i, frame_nb) ← tx_packet fuel tv_sec tv_usec idx i frame_nb (u32 (PKT_SIZE o));
        tx_packets fuel tv_sec tv_usec idx i frame_nb batch_size
    end
  else mret frame_nb.

(** The results are the number of packets and the frame number after them.
    @src afxdp/l2fwd/xdpsock.c 1571-1631 tx_only *)
Definition tx_only (fuel : nat) (frames_per_pkt frame_nb batch_size tx_ns : Z) : xsk K (Z * Z) :=
  room ← tx_only_wait fuel batch_size;
  match (room : option Z) with
  | None => mret (0, frame_nb)
  | Some idx =>
      let tv_sec := if opt_tstamp o then u32 (tx_ns / 1000000000) else 0 in
      let tv_usec := if opt_tstamp o then u32 ((tx_ns mod 1000000000) / 1000) else 0 in
      frame_nb ← tx_packets fuel tv_sec tv_usec idx 0 frame_nb batch_size;
      act (tx_submit batch_size) ;;
      outstanding ← gets (fun s => outstanding_tx (sock s));
      set_outstanding (outstanding + batch_size) ;;
      count_ring (fun r => r <| tx_frags := u64 (tx_frags r + batch_size) |>) ;;
      complete_tx_only batch_size ;;
      mret (Z.quot batch_size frames_per_pkt, frame_nb)
  end.

(** @src afxdp/l2fwd/xdpsock.c 2135-2135 main *)
Definition frames_per_pkt (default_frame_size : Z) : Z := (opt_pkt_size o - 1) / default_frame_size + 1.
(** @src afxdp/l2fwd/xdpsock.c 1633-1642 get_batch_size *)
Definition get_batch_size (frames_per_pkt pkt_cnt : Z) : Z :=
  if opt_pkt_count o =? 0 then s32 (opt_batch_size o * frames_per_pkt)
  else if u32 (pkt_cnt + opt_batch_size o) <=? u32 (opt_pkt_count o) then s32 (opt_batch_size o * frames_per_pkt)
  else s32 ((opt_pkt_count o - pkt_cnt) * frames_per_pkt).

(** [retries] is [opt_retries]; the loop sleeps between two turns.
    @src afxdp/l2fwd/xdpsock.c 1644-1659 complete_tx_only_all *)
Fixpoint complete_tx_only_all (retries : nat) : xsk K unit :=
  outstanding ← gets (fun s => outstanding_tx (sock s));
  when (negb (outstanding =? 0)) (complete_tx_only (opt_batch_size o)) ;;
  left ← gets (fun s => outstanding_tx (sock s));
  if negb (outstanding =? 0) && negb (left =? 0) then
    match retries with O => mret tt | S retries => complete_tx_only_all retries end
  else mret tt.
End driver.
