(* ===== verification/XskRings.v ===== *)
(** * The rings of an AF_XDP socket

    What af_xdp.rst and the manual of libxdp say about the rings, as a class of laws.  [view]
    shows the four rings as queues, split where the program and the kernel hand entries over;
    the kernel may move between any two calls of the program.  The last part of the file gives
    the laws a concrete instance. *)
From Stdlib Require Import ZArith Lia Permutation.
From stdpp Require Import base numbers list option relations.
From S2P Require Import Prelude Xdp XskOptions XskDriver.
#[local] Open Scope Z_scope.
#[local] Open Scope list_scope.

(** ** The view *)

(** For each ring the entries that wait ([fq], [cq], [rx], [tx]), the entries the program has
    taken or reserved and not handed back ([*_open]), and the index of the next one.  [k_rx]
    and [k_tx] are with the kernel: frames to receive into and addresses to send.  [got] and
    [sent] are all descriptors taken from the receive ring and submitted to the transmit
    ring; [ran] are the areas the XDP program has run on. *)
Record rings := Rings {
  fq : list Z; fq_open : list Z; fq_next : Z;
  cq : list Z; cq_open : list Z; cq_next : Z;
  rx : list xdp_desc; rx_open : list xdp_desc; rx_next : Z;
  tx : list xdp_desc; tx_open : list xdp_desc; tx_next : Z;
  k_rx : list Z; k_tx : list Z;
  got : list xdp_desc; sent : list xdp_desc; ran : list (Z * Z)
}.
#[global] Instance eta_rings : Eta rings := fun r =>
  Rings (fq r) (fq_open r) (fq_next r) (cq r) (cq_open r) (cq_next r) (rx r) (rx_open r) (rx_next r)
    (tx r) (tx_open r) (tx_next r) (k_rx r) (k_tx r) (got r) (sent r) (ran r).

Definition zlength {A} (l : list A) : Z := Z.of_nat (length l).

Section rings.
(** The frame that an address lies in. *)
Context (frame_of : Z -> Z).

(** What the kernel does on its own. *)
Inductive kmove : rings -> rings -> Prop :=
| k_take_fill r a l : fq r = a :: l ->
    kmove r (let r := r <| fq := l |> in r <| k_rx := frame_of a :: k_rx r |>)
| k_receive r d l1 l2 : k_rx r = l1 ++ frame_of (addr d) :: l2 ->
    kmove r (let r := r <| rx := rx r ++ [d] |> in r <| k_rx := l1 ++ l2 |>)
| k_take_tx r d l : tx r = d :: l ->
    kmove r (let r := r <| tx := l |> in r <| k_tx := k_tx r ++ [addr d] |>)
| k_complete r a l1 l2 : k_tx r = l1 ++ a :: l2 ->
    kmove r (let r := r <| cq := cq r ++ [a] |> in r <| k_tx := l1 ++ l2 |>).
Definition kmoves : rings -> rings -> Prop := rtc kmove.

(** The frames of the memory, wherever they are. *)
Definition frames (r : rings) : list Z :=
  map frame_of (fq r) ++ k_rx r ++ map (frame_of ∘ addr) (rx r) ++ map (frame_of ∘ addr) (rx_open r)
  ++ map (frame_of ∘ addr) (tx r) ++ map frame_of (k_tx r) ++ map frame_of (cq r) ++ map frame_of (cq_open r).
(** The frames on their way out: submitted and not yet taken back. *)
Definition inflight (r : rings) : Z := zlength (tx r) + zlength (k_tx r) + zlength (cq r) + zlength (cq_open r).

(** What stays when the kernel moves. *)
Record steady (r r' : rings) : Prop := {
  steady_fq : fq_open r' = fq_open r /\ fq_next r' = fq_next r;
  steady_cq : cq_open r' = cq_open r /\ cq_next r' = cq_next r;
  steady_rx : rx_open r' = rx_open r /\ rx_next r' = rx_next r;
  steady_tx : tx_open r' = tx_open r /\ tx_next r' = tx_next r;
  steady_log : got r' = got r /\ sent r' = sent r /\ ran r' = ran r;
  steady_frames : frames r' ≡ₚ frames r;
  steady_inflight : inflight r' = inflight r;
  steady_tx_len : (length (tx r') <= length (tx r))%nat
}.

#[global] Instance steady_preorder : PreOrder steady.
Proof.
  split.
  - intros r. now split.
  - intros r1 r2 r3 [? ? ? ? ? F1 I1 L1] [? ? ? ? ? F2 I2 L2].
    split; try (destruct_and?; split_and?; congruence); [now rewrite F2|lia].
Qed.

Lemma kmove_steady r r' : kmove r r' -> steady r r'.
Proof.
  intros [r0 a l H|r0 d l1 l2 H|r0 d l H|r0 a l1 l2 H]; split; cbn; try done;
    unfold frames, inflight, zlength; cbn; rewrite H; cbn; rewrite ?map_app, ?length_app; cbn; try lia;
    rewrite <- ?app_assoc; cbn; try (apply Permutation_count_occ with (eq_dec := Z.eq_dec); intros x;
    rewrite !count_occ_app; cbn; rewrite ?count_occ_app; cbn; repeat destruct (Z.eq_dec _ x); lia).
Qed.
Lemma kmoves_steady r r' : kmoves r r' -> steady r r'.
Proof. induction 1 as [|r1 r2 r3 H _ IH]; [done|]. transitivity r2; [now apply kmove_steady|done]. Qed.
End rings.

(** ** The operations on the view *)

Definition rx_take (m : Z) (r : rings) : rings :=
  let l := take (Z.to_nat m) (rx r) in
  Rings (fq r) (fq_open r) (fq_next r) (cq r) (cq_open r) (cq_next r)
    (drop (Z.to_nat m) (rx r)) (rx_open r ++ l) (u32 (rx_next r + m))
    (tx r) (tx_open r) (tx_next r) (k_rx r) (k_tx r) (got r ++ l) (sent r) (ran r).
Definition rx_give (n : Z) (r : rings) : rings := r <| rx_open := drop (Z.to_nat n) (rx_open r) |>.
Definition cq_take (m : Z) (r : rings) : rings :=
  Rings (fq r) (fq_open r) (fq_next r)
    (drop (Z.to_nat m) (cq r)) (cq_open r ++ take (Z.to_nat m) (cq r)) (u32 (cq_next r + m))
    (rx r) (rx_open r) (rx_next r) (tx r) (tx_open r) (tx_next r) (k_rx r) (k_tx r) (got r) (sent r) (ran r).
Definition cq_give (n : Z) (r : rings) : rings := r <| cq_open := drop (Z.to_nat n) (cq_open r) |>.
Definition fq_take (junk : list Z) (r : rings) : rings :=
  let r' := r <| fq_open := fq_open r ++ junk |> in r' <| fq_next := u32 (fq_next r + zlength junk) |>.
Definition fq_write (j : nat) (a : Z) (r : rings) : rings := r <| fq_open := <[j := a]> (fq_open r) |>.
Definition fq_put (n : Z) (r : rings) : rings :=
  let r' := r <| fq := fq r ++ take (Z.to_nat n) (fq_open r) |> in
  r' <| fq_open := drop (Z.to_nat n) (fq_open r) |>.
Definition tx_take (junk : list xdp_desc) (r : rings) : rings :=
  let r' := r <| tx_open := tx_open r ++ junk |> in r' <| tx_next := u32 (tx_next r + zlength junk) |>.
Definition tx_write (j : nat) (d : xdp_desc) (r : rings) : rings := r <| tx_open := <[j := d]> (tx_open r) |>.
Definition tx_put (n : Z) (r : rings) : rings :=
  let l := take (Z.to_nat n) (tx_open r) in
  let r' := r <| tx := tx r ++ l |> in
  let r' := r' <| tx_open := drop (Z.to_nat n) (tx_open r) |> in
  r' <| sent := sent r ++ l |>.
Definition log_run (area : Z * Z) (r : rings) : rings := r <| ran := ran r ++ [area] |>.

(** The index of entry [j] of [open] entries when [next] comes after the last. *)
Definition slot {A} (next : Z) (l : list A) (j : nat) : Z := u32 (next - zlength l + Z.of_nat j).
Definition fits_index {A} (l : list A) : Prop := zlength l <= 4294967296.

(** The documented behaviour.  A reservation gives all that was asked for or nothing, and
    nothing only when the ring is too full. *)
Class XskLaws (K : Type) {api : XskApi K} := {
  view : K -> rings;
  frame_of : Z -> Z;
  FQ_SIZE : Z;
  TX_SIZE : Z;
  rx_peek_law n k m i k' : 0 <= n -> rx_peek n k = (m, i, k') ->
    exists r, kmoves frame_of (view k) r /\ 0 <= m <= n /\ m <= zlength (rx r) /\ i = rx_next r /\ view k' = rx_take m r;
  rx_desc_law k j d : fits_index (rx_open (view k)) -> rx_open (view k) !! j = Some d ->
    rx_desc (slot (rx_next (view k)) (rx_open (view k)) j) k = d;
  rx_release_law n k : 0 <= n <= zlength (rx_open (view k)) ->
    exists r, kmoves frame_of (view k) r /\ view (rx_release n k) = rx_give n r;
  cq_peek_law n k m i k' : 0 <= n -> cq_peek n k = (m, i, k') ->
    exists r, kmoves frame_of (view k) r /\ 0 <= m <= n /\ m <= zlength (cq r) /\ i = cq_next r /\ view k' = cq_take m r;
  comp_addr_law k j a : fits_index (cq_open (view k)) -> cq_open (view k) !! j = Some a ->
    comp_addr (slot (cq_next (view k)) (cq_open (view k)) j) k = a;
  cq_release_law n k : 0 <= n <= zlength (cq_open (view k)) ->
    exists r, kmoves frame_of (view k) r /\ view (cq_release n k) = cq_give n r;
  fq_reserve_law n k m i k' : 0 < n -> fq_reserve n k = (m, i, k') ->
    exists r, kmoves frame_of (view k) r /\
      ((m = n /\ i = fq_next r /\ exists junk, zlength junk = n /\ view k' = fq_take junk r) \/
       (m = 0 /\ FQ_SIZE < zlength (fq r) + zlength (fq_open r) + n /\ view k' = r));
  fill_addr_law k j a : fits_index (fq_open (view k)) -> (j < length (fq_open (view k)))%nat ->
    view (fill_addr (slot (fq_next (view k)) (fq_open (view k)) j) a k) = fq_write j a (view k);
  fq_submit_law n k : 0 <= n <= zlength (fq_open (view k)) ->
    exists r, kmoves frame_of (view k) r /\ view (fq_submit n k) = fq_put n r;
  fq_needs_wakeup_law k : kmoves frame_of (view k) (view (fq_needs_wakeup k).2);
  tx_reserve_law n k m i k' : 0 < n -> tx_reserve n k = (m, i, k') ->
    exists r, kmoves frame_of (view k) r /\
      ((m = n /\ i = tx_next r /\ exists junk, zlength junk = n /\ view k' = tx_take junk r) \/
       (m = 0 /\ TX_SIZE < zlength (tx r) + zlength (tx_open r) + n /\ view k' = r));
  tx_desc_law k j d : fits_index (tx_open (view k)) -> (j < length (tx_open (view k)))%nat ->
    view (tx_desc (slot (tx_next (view k)) (tx_open (view k)) j) d k) = tx_write j d (view k);
  tx_submit_law n k : 0 <= n <= zlength (tx_open (view k)) ->
    exists r, kmoves frame_of (view k) r /\ view (tx_submit n k) = tx_put n r;
  tx_needs_wakeup_law k : kmoves frame_of (view k) (view (tx_needs_wakeup k).2);
  sendto_law k : kmoves frame_of (view k) (view (sendto k).2);
  recvfrom_law k : kmoves frame_of (view k) (view (recvfrom k));
  poll_law k : kmoves frame_of (view k) (view (poll k).2);
  benchmark_done_law k : kmoves frame_of (view k) (view (benchmark_done k).2);
  run_at_handler_law a b k : exists r, kmoves frame_of (view k) r /\
    view (run_at_handler a b k).2 = log_run (a, b) r;
  extract_addr_law a : frame_of (extract_addr a) = frame_of a
}.

(** In copy mode the system call sends at least one of the frames that wait. *)
Definition kick_sends (K : Type) {api : XskApi K} {laws : XskLaws K} : Prop := forall k,
  tx (view k) <> [] -> (length (tx (view (sendto k).2)) < length (tx (view k)))%nat.
