(* ===== verification/XskForward.v ===== *)
(** * Forwarding with AF_XDP

    The functions of XskDriver.v against the laws of XskRings.v: no frame of the packet memory
    is lost or duplicated, [outstanding_tx] counts the frames on their way out, and [l2fwd]
    sends exactly what it receives, in order, after one run of the program per packet. *)
From Stdlib Require Import ZArith Lia Permutation.
From stdpp Require Import base numbers list option relations.
From S2P Require Import Prelude Xdp XskOptions XskDriver XskRings.
#[local] Open Scope Z_scope.
#[local] Open Scope list_scope.

(** ** Weakest preconditions

    [wp L m Q s]: when [m] returns from [s], it does so with [Q]; it may run out of fuel only
    if [L]; it may always exit. *)
Section wp.
Context {K : Type} (L : Prop).
Implicit Types s : xsk_state K.

Definition wp {A} (m : xsk K A) (Q : A -> xsk_state K -> Prop) (s : xsk_state K) : Prop :=
  match m s with Ret a s' => Q a s' | Exit _ => True | Spin => L end.

Lemma wp_ret {A} (a : A) (Q : A -> xsk_state K -> Prop) s : Q a s -> wp (mret a) Q s.
Proof. done. Qed.
Lemma wp_bind {A B} (m : xsk K A) (f : A -> xsk K B) Q s :
  wp m (fun a s' => wp (f a) Q s') s -> wp (m ≫= f) Q s.
Proof.
  unfold wp. change ((m ≫= f) s) with (match m s with Ret a s' => f a s' | Exit e => Exit e | Spin => Spin end).
  now destruct (m s).
Qed.
Lemma wp_mono {A} (m : xsk K A) (Q R : A -> xsk_state K -> Prop) s :
  wp m Q s -> (forall a s', Q a s' -> R a s') -> wp m R s.
Proof. unfold wp. destruct (m s); auto. Qed.
Lemma wp_bind_assoc {A B C} (m : xsk K A) (f : A -> xsk K B) (g : B -> xsk K C) Q s :
  wp ((m ≫= f) ≫= g) Q s -> wp (m ≫= (fun a => f a ≫= g)) Q s.
Proof.
  unfold wp. change (((m ≫= f) ≫= g) s) with
    (match (match m s with Ret a s' => f a s' | Exit e => Exit e | Spin => Spin end) with
     | Ret b s' => g b s' | Exit e => Exit e | Spin => Spin end).
  change ((m ≫= (fun a => f a ≫= g)) s) with
    (match m s with Ret a s' => match f a s' with Ret b s' => g b s' | Exit e => Exit e | Spin => Spin end
     | Exit e => Exit e | Spin => Spin end).
  now destruct (m s).
Qed.
Lemma wp_bind_pair {A1 A2 B C} (m : xsk K (A1 * A2)) (f : A1 -> A2 -> xsk K B) (g : B -> xsk K C) Q s :
  wp ((m ≫= (fun '(x, y) => f x y)) ≫= g) Q s -> wp (m ≫= (fun '(x, y) => f x y ≫= g)) Q s.
Proof.
  unfold wp, mbind, xsk_bind. now destruct (m s) as [[]| |].
Qed.
Lemma wp_call {A} (f : K -> A * K) Q s :
  Q (f (env s)).1 (s <| @env K := (f (env s)).2 |>) -> wp (call f) Q s.
Proof. unfold wp, call. now destruct (f (env s)). Qed.
Lemma wp_gets {A} (f : xsk_state K -> A) Q s : Q (f s) s -> wp (gets f) Q s.
Proof. done. Qed.
Lemma wp_update f (Q : unit -> xsk_state K -> Prop) s : Q tt (f s) -> wp (update f) Q s.
Proof. done. Qed.
Lemma wp_act (f : K -> K) (Q : unit -> xsk_state K -> Prop) s : Q tt (s <| @env K := f (env s) |>) -> wp (act f) Q s.
Proof. done. Qed.
Lemma wp_observe {A} (f : K -> A) Q s : Q (f (env s)) s -> wp (observe f) Q s.
Proof. done. Qed.
Lemma wp_for {A} (I : nat -> A -> xsk_state K -> Prop) n a body (Q : A -> xsk_state K -> Prop) s :
  I 0%nat a s ->
  (forall j a s, (j < n)%nat -> I j a s -> wp (body (Z.of_nat j) a) (I (S j)) s) ->
  (forall a s, I n a s -> Q a s) ->
  wp (for_loop n 0 a body) Q s.
Proof.
  intros H0 Hstep Hend. change 0 with (Z.of_nat 0). set (j := 0%nat) in *.
  assert (Hj : (j + n = n)%nat) by reflexivity. revert Hj H0. generalize j as i, n at 1 3 as left. 
  intros i left. revert i a s. induction left as [|left IH]; intros i a s Hj HI; cbn [for_loop].
  - apply wp_ret. replace i with n in HI by lia. auto.
  - apply wp_bind. eapply wp_mono; [apply Hstep; [lia|done]|]. intros a' s' HI'.
    replace (Z.of_nat i + 1) with (Z.of_nat (S i)) by lia. apply IH; [lia|done].
Qed.
End wp.

Lemma wp_weaken {K A} L (m : xsk K A) Q s : wp False m Q s -> wp L m Q s.
Proof. unfold wp. now destruct (m s). Qed.

(** One step of the program, the condition left to the caller. *)
Ltac wstep :=
  cbv beta zeta;
  lazymatch goal with
  | |- wp _ (_ ≫= _) _ _ => apply wp_bind
  | |- wp _ (mret _) _ _ => apply wp_ret
  | |- wp _ (call _) _ _ => apply wp_call
  | |- wp _ (gets _) _ _ => apply wp_gets
  | |- wp _ (update _) _ _ => apply wp_update
  | |- wp _ (act _) _ _ => apply wp_act
  | |- wp _ (observe _) _ _ => apply wp_observe
  | |- wp _ (exit_with_error _) _ _ => exact I
  end.

Section driver.
Context {K : Type} {api : XskApi K} {laws : XskLaws K} (o : options).
Implicit Types s : xsk_state K.
Abbreviation kmoves := (kmoves frame_of).
Abbreviation frames := (frames frame_of).
Definition ring (s : xsk_state K) : rings := view (env s).
Definition out (s : xsk_state K) : Z := outstanding_tx (sock s).

(** What a step changes that only lets the kernel move: counters and the rings, within [steady]. *)
Record idle (s s' : xsk_state K) : Prop := {
  idle_ring : steady frame_of (ring s) (ring s');
  idle_out : out s' = out s;
  idle_frags : nb_frags s' = nb_frags s
}.
#[global] Instance idle_preorder : PreOrder idle.
Proof.
  split; [now split|]. intros s1 s2 s3 [H1 ? ?] [H2 ? ?]. split; [now transitivity (ring s2)|congruence..].
Qed.
Lemma idle_env s k : kmoves (ring s) (view k) -> idle s (s <| @env K := k |>).
Proof. intros H. split; [now apply kmoves_steady|done..]. Qed.
Lemma idle_app s (f : xsk_app_stats -> xsk_app_stats) : idle s (s <| @sock K := let k := sock s in k <| app_stats := f (app_stats k) |> |>).
Proof. split; [reflexivity|done..]. Qed.
Lemma idle_count_ring s (f : xsk_ring_stats -> xsk_ring_stats) : idle s (s <| @sock K := let k := sock s in k <| ring_stats := f (ring_stats k) |> |>).
Proof. split; [reflexivity|done..]. Qed.

(** Programs that only idle. *)
Definition idles {A} (m : xsk K A) : Prop := forall s, wp False m (fun _ s' => idle s s') s.
Lemma idles_ret {A} (a : A) : idles (mret a).
Proof. intros s. now apply wp_ret. Qed.
Lemma idles_bind {A B} (m : xsk K A) (f : A -> xsk K B) : idles m -> (forall a, idles (f a)) -> idles (m ≫= f).
Proof.
  intros Hm Hf s. apply wp_bind. eapply wp_mono; [apply Hm|]. intros a s1 H1.
  eapply wp_mono; [apply Hf|]. intros b s2 H2. now transitivity s1.
Qed.
Lemma idles_call {A} (f : K -> A * K) : (forall k, kmoves (view k) (view (f k).2)) -> idles (call f).
Proof. intros Hf s. apply wp_call, idle_env, Hf. Qed.
Lemma idles_act f : (forall k, kmoves (view k) (view (f k))) -> idles (act f).
Proof. intros Hf s. apply (idle_env s (f (env s))), Hf. Qed.
Lemma idles_count f : idles (count_app f).
Proof. intros s. apply idle_app. Qed.
Lemma idles_ring f : idles (count_ring f).
Proof. intros s. apply idle_count_ring. Qed.
Lemma idles_when b m : idles m -> idles (when b m).
Proof. intros Hm. destruct b; [done|apply idles_ret]. Qed.
Lemma idles_if {A} (b : bool) (m1 m2 : xsk K A) : idles m1 -> idles m2 -> idles (if b then m1 else m2).
Proof. now destruct b. Qed.
Lemma idles_exit {A} e : idles (exit_with_error e : xsk K A).
Proof. done. Qed.
Lemma wp_idles {A} L (m : xsk K A) Q s : idles m -> (forall a s', idle s s' -> Q a s') -> wp L m Q s.
Proof.
  intros Hm HQ. specialize (Hm s). unfold wp in *. destruct (m s); [auto|done|contradiction].
Qed.

Lemma idles_kick : idles kick_tx.
Proof.
  apply idles_bind; [apply idles_call, sendto_law|]. intros [ret errno]. apply idles_if; [apply idles_ret|apply idles_exit].
Qed.
End driver.
Create HintDb idles.
#[export] Hint Resolve idles_ret idles_bind idles_call idles_act idles_count idles_ring idles_when idles_if idles_exit
  idles_kick fq_needs_wakeup_law tx_needs_wakeup_law sendto_law recvfrom_law poll_law benchmark_done_law : idles.
#[export] Hint Extern 1 (idles (if _ then _ else _)) => apply idles_if : idles.

Section complete.
Context {K : Type} {api : XskApi K} {laws : XskLaws K} (o : options).
Implicit Types s : xsk_state K.
Abbreviation kmoves := (kmoves frame_of).
Abbreviation frames := (frames frame_of).

(** The program at rest: nothing is reserved in the fill ring or taken from the completion ring,
    every frame of [F] is somewhere, and [outstanding_tx] is right. *)
Record at_rest (F : list Z) (s : xsk_state K) : Prop := {
  rest_fq : fq_open (ring s) = [];
  rest_cq : cq_open (ring s) = [];
  rest_frames : frames (ring s) ≡ₚ F;
  rest_out : out s = inflight (ring s)
}.
Lemma idle_at_rest F s s' : idle s s' -> at_rest F s -> at_rest F s'.
Proof.
  intros [[[Hf _] [Hc _] _ _ _ Hfr Hi _] Ho _] [].
  split; [congruence|congruence|now rewrite Hfr|congruence].
Qed.

Lemma idles_fq_wait : idles (wakeup ← (if opt_busy_poll o then mret true else call fq_needs_wakeup);
    when wakeup (count_app (fun a => a <| rx_empty_polls := rx_empty_polls a + 1 |>) ;; act recvfrom)).
Proof. apply idles_bind; [auto with idles|]. intros w. apply idles_when, idles_bind; auto with idles. Qed.

Lemma slot_plus {A} next (l : list A) i j : u32 i = slot next l 0 -> u32 (i + Z.of_nat j) = slot next l j.
Proof. unfold slot, u32. intros. zlia. Qed.
Lemma slot_length {A B} next (l : list A) (l' : list B) j : length l = length l' -> slot next l j = slot next l' j.
Proof. unfold slot, zlength. now intros ->. Qed.
Lemma insert_take_drop_at {A} (l l' : list A) j a :
  l !! j = Some a -> length l' = length l ->
  <[j := a]> (take j l ++ drop j l') = take (S j) l ++ drop (S j) l'.
Proof.
  intros Ha Hl. assert (j < length l)%nat by now apply lookup_lt_Some in Ha.
  rewrite insert_app_r_alt by (rewrite length_take; lia). rewrite length_take.
  replace (j - _)%nat with 0%nat by lia. destruct (lookup_lt_is_Some_2 l' j) as [b Hb]; [lia|].
  rewrite (drop_S _ b) by done. cbn. rewrite (take_S_r _ _ a) by done. now rewrite <- app_assoc.
Qed.

(** The copy from the completion ring to the reserved slots of the fill ring. *)
Lemma copy_loop_wp L n i_cq i_fq s Q :
  let r := ring s in
  length (cq_open r) = n -> length (fq_open r) = n -> fits_index (cq_open r) ->
  u32 i_cq = slot (cq_next r) (cq_open r) 0 -> u32 i_fq = slot (fq_next r) (fq_open r) 0 ->
  (forall s', ring s' = r <| fq_open := cq_open r |> -> out s' = out s -> nb_frags s' = nb_frags s -> Q tt s') ->
  wp L (for_loop n 0 tt (fun i _ =>
    a ← observe (comp_addr (u32 (i_cq + i))); act (fill_addr (u32 (i_fq + i)) a))) Q s.
Proof.
  intros r Hc Hf Hfit Hic Hif HQ.
  apply (wp_for L (fun j _ s' => ring s' = r <| fq_open := take j (cq_open r) ++ drop j (fq_open r) |>
    /\ out s' = out s /\ nb_frags s' = nb_frags s)).
  - split; [|done]. cbn. subst r. now destruct (ring s).
  - intros j [] s' Hj (Hr & Ho & Hn). wstep. wstep. wstep.
    destruct (lookup_lt_is_Some_2 (cq_open r) j) as [a Ha]; [lia|].
    rewrite (slot_plus _ _ _ _ Hic), (slot_plus _ _ _ _ Hif).
    assert (Hcq : comp_addr (slot (cq_next r) (cq_open r) j) (env s') = a).
    { unfold ring in Hr. pose proof (comp_addr_law (env s') j a) as Hl. rewrite Hr in Hl. cbn in Hl. now apply Hl. }
    rewrite Hcq. split; [|done]. unfold ring. cbn [env].
    pose proof (fill_addr_law (env s') j a) as Hl. unfold ring in Hr. rewrite Hr in Hl. cbn in Hl.
    rewrite (slot_length _ (fq_open r) (take j (cq_open r) ++ drop j (fq_open r)))
      by (rewrite length_app, length_take, length_drop; lia).
    rewrite Hl; [unfold fq_write; cbn; now rewrite insert_take_drop_at by (done || lia)| |].
    + unfold fits_index, zlength in *. rewrite length_app, length_take, length_drop. lia.
    + rewrite length_app, length_take, length_drop. lia.
  - intros [] s' (Hr & Ho & Hn). apply HQ; [|done|done].
    now rewrite Hr, firstn_all2, drop_ge, app_nil_r by lia.
Qed.

(** Moving entries between the queues. *)
Lemma frames_cq_take m r : frames (cq_take m r) ≡ₚ frames r /\ inflight (cq_take m r) = inflight r.
Proof.
  unfold XskRings.frames, inflight, cq_take, zlength; cbn. pose proof (take_drop (Z.to_nat m) (cq r)) as E.
  revert E. generalize (take (Z.to_nat m) (cq r)) as a, (drop (Z.to_nat m) (cq r)) as b. intros a b <-.
  rewrite !map_app, !length_app. split; [|lia].
  apply (Permutation_count_occ Z.eq_dec). intros x. rewrite !count_occ_app. lia.
Qed.
Lemma frames_fq_put n r : zlength (fq_open r) = n ->
  frames (fq_put n r) ≡ₚ map frame_of (fq_open r) ++ frames r /\ inflight (fq_put n r) = inflight r /\ fq_open (fq_put n r) = [].
Proof.
  intros <-. unfold XskRings.frames, inflight, fq_put, zlength; cbn. rewrite Nat2Z.id, firstn_all, drop_all, !map_app.
  split; [|done]. apply (Permutation_count_occ Z.eq_dec). intros x. rewrite !count_occ_app. lia.
Qed.
Lemma frames_cq_give n r : zlength (cq_open r) = n ->
  frames r ≡ₚ map frame_of (cq_open r) ++ frames (cq_give n r) /\ inflight (cq_give n r) = inflight r - n /\ cq_open (cq_give n r) = [].
Proof.
  intros <-. unfold XskRings.frames, inflight, cq_give, zlength; cbn. rewrite Nat2Z.id, drop_all. cbn.
  split; [|split; [lia|done]]. apply (Permutation_count_occ Z.eq_dec). intros x. rewrite !count_occ_app. cbn. lia.
Qed.
Lemma frames_length r : zlength (fq r) + zlength (cq_open r) + zlength (rx_open r) <= zlength (frames r).
Proof. unfold XskRings.frames, zlength. rewrite !length_app, !length_map. lia. Qed.
Lemma inflight_length r : 0 <= inflight r <= zlength (frames r).
Proof. unfold inflight, XskRings.frames, zlength. rewrite !length_app, !length_map. lia. Qed.
Lemma perm_zlength (l l' : list Z) : l ≡ₚ l' -> zlength l = zlength l'.
Proof. intros H. unfold zlength. now rewrite (Permutation_length H). Qed.

(** What [complete_tx_l2fwd] leaves alone. *)
Record calm (s s' : xsk_state K) : Prop := {
  calm_rx : rx_open (ring s') = rx_open (ring s) /\ rx_next (ring s') = rx_next (ring s);
  calm_tx : tx_open (ring s') = tx_open (ring s) /\ tx_next (ring s') = tx_next (ring s);
  calm_log : got (ring s') = got (ring s) /\ sent (ring s') = sent (ring s) /\ ran (ring s') = ran (ring s);
  calm_tx_len : (length (tx (ring s')) <= length (tx (ring s)))%nat;
  calm_frags : nb_frags s' = nb_frags s
}.
#[global] Instance calm_preorder : PreOrder calm.
Proof.
  split; [now split|]. intros s1 s2 s3 [] []. split; try lia; destruct_and?; split_and?; congruence.
Qed.
Lemma idle_calm s s' : idle s s' -> calm s s'.
Proof. intros [[] ? ?]. now split. Qed.
Lemma fq_wait_done fuel m i : fq_reserve_wait o fuel m m i = mret i.
Proof. destruct fuel; cbn; now rewrite Z.eqb_refl. Qed.

Lemma hand_back_wp F s m v l :
  fq_open (ring s) = l -> cq_open (ring s) = l -> zlength l = m ->
  frames (ring s) ≡ₚ F -> v = inflight (ring s) -> v < 4294967296 ->
  wp False (act (fq_submit m) ;; act (cq_release m) ;; set_outstanding (v - m))
    (fun _ s' => at_rest F s' /\ calm s s') s.
Proof.
  intros Hfq Hcq Hl Hfr Hv Hsmall. wstep. wstep. wstep. wstep.
  destruct (fq_submit_law m (env s)) as (r1 & H1 & E1); [fold (ring s); rewrite Hfq; unfold zlength in *; lia|].
  apply kmoves_steady in H1. fold (ring s) in H1. destruct H1 as [[Hf1 _] [Hc1 _] ? ? ? Hfr1 Hi1 ?].
  destruct (frames_fq_put m r1) as (P1 & I1 & Z1); [now rewrite Hf1, Hfq|].
  assert (Hc1' : cq_open (fq_put m r1) = l) by (cbn; congruence).
  destruct (cq_release_law m (fq_submit m (env s))) as (r2 & H2 & E2); [rewrite E1, Hc1'; unfold zlength in *; lia|].
  rewrite E1 in H2. apply kmoves_steady in H2. destruct H2 as [[Hf2 _] [Hc2 _] ? ? ? Hfr2 Hi2 ?].
  destruct (frames_cq_give m r2) as (P2 & I2 & Z2); [now rewrite Hc2, Hc1'|].
  apply wp_update. split.
  - split; unfold ring, out; cbn [env sock outstanding_tx]; rewrite E2.
    + cbn. congruence.
    + done.
    + apply (Permutation_app_inv_l (map frame_of l)). rewrite Hc2, Hc1' in P2. rewrite <- P2, Hfr2, P1, Hf1, Hfq.
      now rewrite Hfr1, Hfr.
    + rewrite I2, Hi2, I1, Hi1, Hv. apply u32_id. unfold is_u32.
      pose proof (inflight_length (cq_give m r2)). unfold zlength in *. lia.
  - split; unfold ring in *; cbn [env nb_frags]; rewrite ?E2; cbn in *; destruct_and?; split_and?; try congruence; lia.
Qed.

(** The part after a successful peek at the completion ring. *)
Lemma recycle_wp fuel F s m i_cq l :
  0 < m -> zlength F <= FQ_SIZE -> FQ_SIZE < 4294967296 ->
  fq_open (ring s) = [] -> cq_open (ring s) = l -> zlength l = m -> u32 i_cq = slot (cq_next (ring s)) l 0 ->
  frames (ring s) ≡ₚ F -> out s = inflight (ring s) ->
  wp False ('(ret, idx_fq) ← call (fq_reserve m);
     idx_fq ← fq_reserve_wait o fuel m ret idx_fq;
     for_loop (Z.to_nat m) 0 tt (fun i _ =>
       a ← observe (comp_addr (u32 (i_cq + i)));
       act (fill_addr (u32 (idx_fq + i)) a)) ;;
     act (fq_submit m) ;;
     act (cq_release m) ;;
     set_outstanding (out s - m)) (fun _ s' => at_rest F s' /\ calm s s') s.
Proof.
  intros Hm HF Hsize Hfq Hcq Hl Hi Hfr Hout. wstep. wstep.
  destruct (fq_reserve m (env s)) as [[ret idx] k2] eqn:E. cbn [fst snd].
  destruct (fq_reserve_law m (env s) ret idx k2 Hm E) as (r2 & Hk2 & Hres).
  apply kmoves_steady in Hk2. destruct Hk2 as [[Hfq2 _] [Hcq2 Hcn2] Hrx2 Htx2 Hlog2 Hfr2 Hin2 Htl2]. fold (ring s) in *.
  assert (Hroom : zlength (fq r2) + m <= FQ_SIZE).
  { pose proof (frames_length r2) as Hlen. rewrite (perm_zlength _ _ Hfr2), (perm_zlength _ _ Hfr) in Hlen.
    rewrite Hcq2, Hcq, Hl in Hlen. unfold zlength in *. lia. }
  destruct Hres as [(-> & -> & junk & Hj & Hv)|(_ & Hfull & _)];
    [|rewrite Hfq2, Hfq in Hfull; unfold zlength in *; cbn in Hfull; lia].
  wstep. rewrite fq_wait_done. wstep. wstep.
  rewrite Hfq in Hfq2. unfold fq_take in Hv. rewrite Hfq2 in Hv. cbn [app] in Hv.
  apply copy_loop_wp; unfold ring; cbn [env]; rewrite ?Hv; cbn [cq_open fq_open cq_next fq_next].
  - rewrite Hcq2, Hcq. unfold zlength in Hl. lia.
  - unfold zlength in Hj. lia.
  - rewrite Hcq2, Hcq. unfold fits_index. unfold zlength in *. lia.
  - now rewrite Hcn2, Hcq2, Hcq.
  - unfold slot, zlength, u32 in *. clear -Hj. zlia.
  - intros s' Hr Ho Hn. unfold ring in Hr. cbn [env] in Hr. rewrite ?Hv in Hr. cbn in Hr.
    eapply wp_mono; [apply (hand_back_wp F s' m (out s) l)|]; unfold ring; rewrite ?Hr; cbn; try congruence.
    + change (frames r2 ≡ₚ F). now rewrite Hfr2.
    + change (out s = inflight r2). congruence.
    + pose proof (inflight_length (ring s)). rewrite (perm_zlength _ _ Hfr) in *. lia.
    + intros [] s'' [Hrest Hcalm]. split; [done|]. transitivity s'; [|done].
      split; unfold ring in *; rewrite ?Hr; cbn; try congruence; try lia; try exact Hn; destruct_and?; split_and?; congruence.
Qed.

(** The call that makes the kernel send, and the one that does not. *)
Lemma copy_kick_wp s (Q : unit -> xsk_state K -> Prop) (b : bool) :
  (forall s', idle s s' -> (b = true -> kick_sends K -> tx (ring s) <> [] ->
     (length (tx (ring s')) < length (tx (ring s)))%nat) -> Q tt s') ->
  wp False (when b (count_app (fun a => a <| copy_tx_sendtos := copy_tx_sendtos a + 1 |>) ;; kick_tx)) Q s.
Proof.
  intros HQ. destruct b; [|now apply wp_ret, HQ]. cbn [when]. wstep. unfold count_app. wstep.
  match goal with |- wp _ _ _ ?x => set (s1 := x) end. assert (idle s s1) as H1
    by exact (idle_app s (fun a : xsk_app_stats => a <| copy_tx_sendtos := copy_tx_sendtos a + 1 |>)).
  unfold kick_tx. wstep. wstep. pose proof (sendto_law (env s1)) as Hlaw. fold (ring s1) in Hlaw.
  destruct (sendto (env s1)) as [[ret errno] k] eqn:E. cbn [fst snd] in *.
  destruct (_ || _); [|exact I]. apply wp_ret, HQ.
  - transitivity s1; [done|]. now apply idle_env.
  - intros _ Hkick Htx. specialize (Hkick (env s1)). rewrite E in Hkick. now apply Hkick.
Qed.

Lemma complete_wp F fuel s :
  at_rest F s -> zlength F <= FQ_SIZE -> FQ_SIZE < 4294967296 -> 0 <= opt_batch_size o ->
  wp False (complete_tx_l2fwd o fuel) (fun _ s' => at_rest F s' /\ calm s s' /\
    (nz (Z.land (opt_xdp_bind_flags o) XDP_COPY) = true -> kick_sends K -> tx (ring s) <> [] ->
     (length (tx (ring s')) < length (tx (ring s)))%nat)) s.
Proof.
  intros Hrest HF Hsize Hbatch. unfold complete_tx_l2fwd. wstep. wstep. fold (out s).
  destruct (Z.eqb_spec (out s) 0) as [H0|Hne].
  { apply wp_ret. split; [done|]. split; [done|]. intros _ _ Htx. exfalso. destruct Hrest as [_ _ _ Ho].
    unfold inflight, zlength in Ho. destruct (tx (ring s)); [done|cbn in Ho; lia]. }
  wstep. apply copy_kick_wp. intros s1 H1 Hkick. pose proof (idle_at_rest F s s1 H1 Hrest) as Hrest1.
  assert (Ho1 : out s1 = out s) by apply H1. rewrite <- Ho1 in *.
  pose proof (idle_calm s s1 H1) as Hcalm1. destruct Hrest1 as [Hfq1 Hcq1 Hfr1 Hout1].
  pose proof (inflight_length (ring s1)) as Hin1.
  set (n := if out s1 >? opt_batch_size o then opt_batch_size o else out s1).
  assert (Hn : 0 <= n) by (unfold n; destruct (_ >? _); lia).
  wstep. wstep. destruct (cq_peek n (env s1)) as [[m i] k] eqn:E. cbn [fst snd].
  destruct (cq_peek_law n (env s1) m i k Hn E) as (r & Hk & Hm & Hmr & -> & Hv).
  apply kmoves_steady in Hk. fold (ring s1) in Hk. destruct Hk as [[Hf _] [Hc Hcn] ? ? ? Hfr Hi ?].
  destruct (frames_cq_take m r) as [Hft Hit].
  set (s2 := s1 <| @env K := k |>). assert (Hr2 : ring s2 = cq_take m r) by exact Hv.
  assert (Hcalm2 : calm s1 s2).
  { split; rewrite ?Hr2; cbn; destruct_and?; split_and?; try congruence; try lia. }
  assert (Hfr2 : frames (ring s2) ≡ₚ F) by now rewrite Hr2, Hft, Hfr.
  assert (Hout2 : out s2 = inflight (ring s2)) by (rewrite Hr2, Hit, Hi; done).
  assert (Hlt : nz (Z.land (opt_xdp_bind_flags o) XDP_COPY) = true -> kick_sends K -> tx (ring s) <> [] ->
    forall s', calm s2 s' -> (length (tx (ring s')) < length (tx (ring s)))%nat).
  { intros Hb Hs Ht s' [_ _ _ Hl _]. specialize (Hkick Hb Hs Ht). destruct Hcalm2 as [_ _ _ Hl2 _]. lia. }
  assert (Hcq2 : cq_open (ring s2) = take (Z.to_nat m) (cq r)) by (rewrite Hr2; cbn; rewrite Hc, Hcq1; done).
  destruct (Z.gtb_spec m 0) as [Hm0|Hm0]; cbn [when].
  - eapply wp_mono; [apply (recycle_wp fuel F s2 m (cq_next r) (take (Z.to_nat m) (cq r))); try done|].
    + rewrite Hr2; cbn; congruence.
    + unfold zlength in *. rewrite length_take. lia.
    + rewrite Hr2. cbn. unfold slot, zlength in *. rewrite length_take. unfold u32. clear -Hm0 Hmr. zlia.
    + intros [] s' [Hr Hca]. split; [done|]. split; [transitivity s1; [done|]; now transitivity s2|].
      intros Hb Hs Ht. now apply Hlt.
  - apply wp_ret. split; [|split; [now transitivity s1|intros Hb Hs Ht; now apply Hlt]].
    assert (m = 0) as -> by lia. split; try done.
    rewrite Hr2. cbn. congruence.
Qed.

(** ** Forwarding *)

Definition eop (d : xdp_desc) : bool := IS_EOP_DESC (desc_options d).
(** The descriptor that [l2fwd] sends for one that it received. *)
Definition fwd (d : xdp_desc) : xdp_desc := Desc (addr d) (len d) (if eop d then 0 else XDP_PKT_CONTD).
(** The memory that the program runs on. *)
Definition area (d : xdp_desc) : Z * Z :=
  let pkt := get_data (add_offset_to_addr (addr d)) in (pkt, pkt + len d).
(** The descriptors that begin a packet; [fresh] tells whether the first one does. *)
Fixpoint heads (fresh : bool) (l : list xdp_desc) : list xdp_desc :=
  match l with [] => [] | d :: l => (if fresh then [d] else []) ++ heads (eop d) l end.
Fixpoint ends (fresh : bool) (l : list xdp_desc) : bool :=
  match l with [] => fresh | d :: l => ends (eop d) l end.
Lemma heads_app fresh l l' : heads fresh (l ++ l') = heads fresh l ++ heads (ends fresh l) l'.
Proof. revert fresh. induction l as [|d l IH]; intros fresh; [done|]. cbn. now rewrite IH, app_assoc. Qed.
Lemma ends_app fresh l l' : ends fresh (l ++ l') = ends (ends fresh l) l'.
Proof. revert fresh. induction l as [|d l IH]; intros fresh; [done|]. apply IH. Qed.

Record forwarding (s : xsk_state K) : Prop := {
  forwarding_tx : tx_open (ring s) = map fwd (rx_open (ring s));
  forwarding_frags : nb_frags s = zlength (rx_open (ring s));
  forwarding_sent : sent (ring s) ++ tx_open (ring s) = map fwd (got (ring s));
  forwarding_ran : ran (ring s) = map area (heads true (got (ring s)));
  forwarding_fresh : ends true (got (ring s)) = (nb_frags s =? 0)
}.
Lemma calm_forwarding s s' : calm s s' -> forwarding s -> forwarding s'.
Proof.
  intros [[Hr _] [Ht _] (Hg & Hse & Hra) _ Hn] [].
  split; rewrite ?Hr, ?Ht, ?Hg, ?Hse, ?Hra, ?Hn; done.
Qed.

Lemma frames_rx_take m r : frames (rx_take m r) ≡ₚ frames r /\ inflight (rx_take m r) = inflight r.
Proof.
  unfold XskRings.frames, inflight, rx_take, zlength; cbn. pose proof (take_drop (Z.to_nat m) (rx r)) as E.
  revert E. generalize (take (Z.to_nat m) (rx r)) as a, (drop (Z.to_nat m) (rx r)) as b. intros a b <-.
  split; [|done]. rewrite !map_app. apply (Permutation_count_occ Z.eq_dec). intros x. rewrite !count_occ_app. lia.
Qed.
Lemma frames_tx_put n r : frames (tx_put n r) ≡ₚ map (frame_of ∘ addr) (take (Z.to_nat n) (tx_open r)) ++ frames r.
Proof.
  unfold XskRings.frames, tx_put; cbn. rewrite !map_app.
  apply (Permutation_count_occ Z.eq_dec). intros x. rewrite !count_occ_app. lia.
Qed.
Lemma frames_rx_give n r : frames r ≡ₚ map (frame_of ∘ addr) (take (Z.to_nat n) (rx_open r)) ++ frames (rx_give n r).
Proof.
  unfold XskRings.frames, rx_give; cbn. pose proof (take_drop (Z.to_nat n) (rx_open r)) as E.
  revert E. generalize (take (Z.to_nat n) (rx_open r)) as a, (drop (Z.to_nat n) (rx_open r)) as b. intros a b <-.
  rewrite map_app. apply (Permutation_count_occ Z.eq_dec). intros x. rewrite !count_occ_app. lia.
Qed.

(** A reservation of [n] slots in the transmit ring, nothing else changed. *)
Record reserved (n : Z) (junk : list xdp_desc) (idx : Z) (s s' : xsk_state K) : Prop := {
  reserved_rx : rx_open (ring s') = rx_open (ring s) /\ rx_next (ring s') = rx_next (ring s);
  reserved_tx : tx_open (ring s') = tx_open (ring s) ++ junk;
  reserved_junk : zlength junk = n;
  reserved_next : tx_next (ring s') = u32 (idx + n);
  reserved_log : got (ring s') = got (ring s) /\ sent (ring s') = sent (ring s) /\ ran (ring s') = ran (ring s);
  reserved_frags : nb_frags s' = nb_frags s
}.
(** Copy mode with a kernel that sends when kicked, and room for what is reserved. *)
Definition live (s : xsk_state K) (n : Z) : Prop :=
  nz (Z.land (opt_xdp_bind_flags o) XDP_COPY) = true /\ kick_sends K /\ zlength (tx_open (ring s)) + n <= TX_SIZE.

Lemma tx_kick_idles : idles (wakeup ← (if opt_busy_poll o then mret true else call tx_needs_wakeup);
  when wakeup (count_app (fun a => a <| tx_wakeup_sendtos := tx_wakeup_sendtos a + 1 |>) ;; kick_tx)).
Proof. apply idles_bind; [auto with idles|]. intros w. apply idles_when, idles_bind; auto with idles. Qed.

Lemma tx_reserve_wp L F n s0 s (Q : Z * Z -> xsk_state K -> Prop) :
  0 < n -> at_rest F s -> calm s0 s ->
  (forall idx s' junk, at_rest F s' -> reserved n junk idx s0 s' -> Q (n, idx) s') ->
  (forall idx s', at_rest F s' -> calm s0 s' -> (length (tx (ring s')) <= length (tx (ring s)))%nat ->
     TX_SIZE < zlength (tx (ring s')) + zlength (tx_open (ring s0)) + n -> Q (0, idx) s') ->
  wp L (call (tx_reserve n)) Q s.
Proof.
  intros Hn Hrest Hcalm Hyes Hno. wstep.
  destruct (tx_reserve n (env s)) as [[m i] k] eqn:E. cbn [fst snd].
  destruct (tx_reserve_law n (env s) m i k Hn E) as (r & Hk & Hres). fold (ring s) in Hk.
  pose proof (kmoves_steady _ _ _ Hk) as [[Hf Hfn] [Hc Hcn] [Hr Hrn] [Ht Htn] (Hg & Hse & Hra) Hfr Hi Hl].
  destruct Hcalm as [[Cr Crn] [Ct Ctn] (Cg & Cs & Cra) Cl Cn], Hrest as [Rf Rc Rfr Ro].
  destruct Hres as [(-> & -> & junk & Hj & Hv)|(-> & Hfull & Hv)].
  - apply (Hyes _ _ junk).
    + split; unfold ring in *; cbn [env]; rewrite ?Hv; cbn; try congruence.
      * change (frames r ≡ₚ F). now rewrite Hfr.
      * unfold out; cbn. change (out s = inflight r). congruence.
    + split; unfold ring in *; cbn [env nb_frags]; rewrite ?Hv; cbn; try split_and?; try congruence.
  - apply Hno.
    + split; unfold ring in *; cbn [env]; rewrite ?Hv; try congruence.
      * now rewrite Hfr.
      * unfold out; cbn. change (out s = inflight r). congruence.
    + split; unfold ring in *; cbn [env nb_frags]; rewrite ?Hv; try split_and?; try congruence. lia.
    + unfold ring in *; cbn [env]. now rewrite Hv.
    + unfold ring in *; cbn [env]. rewrite Hv. now rewrite <- Ct, <- Ht.
Qed.

Lemma tx_wait_wp (L : Prop) F fuel n s0 turns s :
  0 < n -> zlength F <= FQ_SIZE -> FQ_SIZE < 4294967296 -> 0 <= opt_batch_size o ->
  (L \/ live s0 n /\ (length (tx (ring s)) <= turns)%nat) ->
  at_rest F s -> calm s0 s ->
  wp L ('(ret, idx) ← call (tx_reserve n); tx_reserve_wait o turns fuel n ret idx)
    (fun idx s' => at_rest F s' /\ exists junk, reserved n junk idx s0 s') s.
Proof.
  intros Hn HF Hsize Hb. revert s. induction turns as [|turns IH]; intros s Hlive Hrest Hcalm; wstep;
    (apply (tx_reserve_wp _ F n s0 s); [done..| |]);
    try (intros idx s' junk Hrest' Hres; cbn [tx_reserve_wait]; rewrite Z.eqb_refl; apply wp_ret; eauto);
    intros idx s1 Hrest1 Hcalm1 Hlen Hfull; cbn [tx_reserve_wait];
    (destruct (Z.eqb_spec 0 n); [lia|]); change (0 <? 0) with false; cbv iota;
    assert (Htx : L \/ tx (ring s1) <> [])
      by (destruct Hlive as [|[(_ & _ & Hroom) _]]; [now left|right; intros Hnil; rewrite Hnil in Hfull; unfold zlength in *; cbn in Hfull; lia]).
  - destruct Htx as [HL|Htx]; [done|]. destruct Hlive as [|[_ Hl]]; [done|].
    destruct (tx (ring s1)); [done|cbn in Hlen; lia].
  - wstep. eapply wp_mono; [apply wp_weaken, (complete_wp F fuel s1); done|].
    intros [] s2 (Hrest2 & Hcalm2 & Hless). 
    apply wp_bind_assoc, wp_bind. apply wp_idles; [apply tx_kick_idles|]. intros _ s3 H3. apply IH.
    + destruct Hlive as [|[(Hcopy & Hkick & Hroom) Hl]]; [now left|]. destruct Htx as [|Htx]; [now left|right].
      split; [done|]. specialize (Hless Hcopy Hkick Htx). destruct (idle_calm _ _ H3). lia.
    + now apply (idle_at_rest F s2).
    + transitivity s1; [done|]. transitivity s2; [done|]. now apply idle_calm.
Qed.

(** The program runs, the kernel moves, and the run is logged. *)
Lemma run_wp L (b : bool) F s pkt n (Q : unit -> xsk_state K -> Prop) :
  at_rest F s ->
  (forall s', at_rest F s' -> steady frame_of (ring s) ((ring s') <| ran := ran (ring s) |>) ->
     ran (ring s') = ran (ring s) ++ (if b then [(pkt, pkt + n)] else []) -> nb_frags s' = nb_frags s ->
     Q tt s') ->
  wp L (when b (ebpf_process_packet pkt n ;; mret tt)) Q s.
Proof.
  intros Hrest HQ. destruct b; cbn [when].
  - wstep. unfold ebpf_process_packet. wstep. wstep.
    destruct (run_at_handler_law pkt (pkt + n) (env s)) as (r & Hk & Hv). fold (ring s) in Hk.
    pose proof (kmoves_steady _ _ _ Hk) as Hst. wstep. wstep. apply HQ.
    + destruct Hst as [[Hf _] [Hc _] _ _ _ Hfr Hi _], Hrest as [Rf Rc Rfr Ro].
      split; unfold ring, out in *; cbn [env sock outstanding_tx]; rewrite ?Hv; cbn; try congruence.
      * change (frames r ≡ₚ F). now rewrite Hfr.
      * change (outstanding_tx (sock s) = inflight r). congruence.
    + unfold ring; cbn [env]. rewrite Hv. destruct Hst as [? ? ? ? (? & ? & ?) Hfr Hi Hl]. split; done.
    + unfold ring; cbn [env]. rewrite Hv. cbn. destruct Hst as [_ _ _ _ (_ & _ & Hra) _ _ _]. now rewrite Hra.
    + done.
  - apply wp_ret, HQ; [done| |now rewrite app_nil_r|done]. split; done.
Qed.

Section loop.
Context (F : list Z) (s1 : xsk_state K) (old new junk : list xdp_desc) (m i_rx i_tx : Z).
Context (Hrx : rx_open (ring s1) = old ++ new) (Htx : tx_open (ring s1) = map fwd old ++ junk).
Context (Hm : zlength new = m) (Hj : zlength junk = m).
Context (Hirx : rx_next (ring s1) = u32 (i_rx + m)) (Hitx : tx_next (ring s1) = u32 (i_tx + m)).
Context (Hsize : zlength F < 4294967296).
Context (fresh : bool) (Hfresh : fresh = (zlength old =? 0)).

Record looped (j : nat) (counts : Z * Z) (s : xsk_state K) : Prop := {
  looped_rest : at_rest F s;
  looped_rx : rx_open (ring s) = old ++ new /\ rx_next (ring s) = rx_next (ring s1);
  looped_tx : tx_open (ring s) = map fwd (old ++ take j new) ++ drop j junk /\ tx_next (ring s) = tx_next (ring s1);
  looped_log : got (ring s) = got (ring s1) /\ sent (ring s) = sent (ring s1);
  looped_ran : ran (ring s) = ran (ring s1) ++ map area (heads fresh (take j new));
  looped_frags : counts.1 + nb_frags s = zlength old + Z.of_nat j /\ 0 <= counts.1 /\ 0 <= nb_frags s;
  looped_fresh : ends fresh (take j new) = (nb_frags s =? 0)
}.

Lemma looped_bound j counts s : looped j counts s -> zlength old + zlength new <= zlength F.
Proof.
  intros [[_ _ Hp _] [Hr _] _ _ _ _ _]. pose proof (frames_length (ring s)) as Hl.
  rewrite (perm_zlength _ _ Hp), Hr in Hl. unfold zlength in *. rewrite length_app in Hl. lia.
Qed.
Lemma read_frame j counts s d :
  looped j counts s -> new !! j = Some d -> rx_desc (u32 (i_rx + Z.of_nat j)) (env s) = d.
Proof.
  intros Hloop Hd. pose proof (looped_bound _ _ _ Hloop) as Hb. destruct Hloop as [_ [Hr Hrn] _ _ _ _ _].
  replace (u32 (i_rx + Z.of_nat j)) with (slot (rx_next (ring s)) (rx_open (ring s)) (length old + j)).
  - apply rx_desc_law; fold (ring s).
    + unfold fits_index. rewrite Hr. unfold zlength in *. rewrite length_app. lia.
    + rewrite Hr, lookup_app_r by lia. now replace (length old + j - length old)%nat with j by lia.
  - unfold slot. rewrite Hrn, Hirx, Hr. unfold zlength in *. rewrite length_app. unfold u32. clear -Hm. zlia.
Qed.
Lemma write_frame j s d :
  tx_open (ring s) = map fwd (old ++ take j new) ++ drop j junk -> tx_next (ring s) = tx_next (ring s1) ->
  zlength old + zlength new <= zlength F -> new !! j = Some d ->
  view (tx_desc (u32 (i_tx + Z.of_nat j)) (fwd d) (env s)) =
    ((ring s) <| tx_open := map fwd (old ++ take (S j) new) ++ drop (S j) junk |>).
Proof.
  intros Ht Htn Hb Hd. pose proof (lookup_lt_Some _ _ _ Hd) as Hlt.
  assert (Hlen : length (tx_open (ring s)) = (length old + length new)%nat).
  { rewrite Ht, length_app, length_map, length_app, length_take, length_drop. unfold zlength in *. lia. }
  replace (u32 (i_tx + Z.of_nat j)) with (slot (tx_next (ring s)) (tx_open (ring s)) (length old + j)).
  - unfold ring. rewrite tx_desc_law; fold (ring s).
    + unfold tx_write. rewrite Ht, insert_app_r_alt by (rewrite length_map, length_app, length_take; lia).
      rewrite length_map, length_app, length_take. replace (_ + j - _)%nat with 0%nat by lia.
      destruct (lookup_lt_is_Some_2 junk j) as [b Hjb]; [unfold zlength in *; lia|].
      rewrite (drop_S _ b) by done. cbn [insert list_insert]. rewrite (take_S_r _ _ d), !map_app, <- !app_assoc by done. done.
    + unfold fits_index, zlength in *. rewrite Hlen. lia.
    + rewrite Hlen. lia.
  - unfold slot, zlength in *. rewrite Hlen, Htn, Hitx. unfold u32. clear -Hm. zlia.
Qed.
Lemma heads_step d j : new !! j = Some d ->
  heads fresh (take (S j) new) = heads fresh (take j new) ++ (if ends fresh (take j new) then [d] else []) /\
  ends fresh (take (S j) new) = eop d.
Proof. intros Hd. rewrite (take_S_r _ _ d) by done. rewrite heads_app, ends_app. cbn. now rewrite app_nil_r. Qed.

Lemma frame_wp L j counts s :
  (j < length new)%nat -> looped j counts s -> wp L (l2fwd_frame i_rx i_tx (Z.of_nat j) counts) (looped (S j)) s.
Proof.
  intros Hlt Hloop. destruct (lookup_lt_is_Some_2 new j Hlt) as [d Hd].
  pose proof (read_frame _ _ _ _ Hloop Hd) as Hread. pose proof (looped_bound _ _ _ Hloop) as Hb.
  destruct (heads_step d j Hd) as [Hheads Hends].
  destruct Hloop as [Hrest [Hr Hrn] [Ht Htn] [Hg Hse] Hra (Hf & Hf0 & Hf1) Hfr].
  destruct counts as [fd ec]. cbn [fst] in *. unfold l2fwd_frame. wstep. wstep. rewrite Hread.
  wstep. wstep. wstep. wstep. wstep.
  match goal with |- wp _ _ _ ?x => set (s2 := x) end.
  apply (run_wp _ (nb_frags s =? 0) F s2); [destruct Hrest; now split|].
  intros s3 Hrest3 Hst Hra3 Hn3. wstep. wstep.
  destruct Hst as [_ _ [Hr3 Hrn3] [Ht3 Htn3] (Hg3 & Hse3 & _) _ _ _]. cbn in Hr3, Hrn3, Ht3, Htn3, Hg3, Hse3, Hn3.
  change (ring s2) with (ring s) in *.
  assert (Hw := write_frame j s3 d ltac:(congruence) ltac:(congruence) Hb Hd).
  change (Desc (addr d) (len d) (if IS_EOP_DESC (desc_options d) then 0 else XDP_PKT_CONTD)) with (fwd d).
  set (s4 := s3 <| @env K := tx_desc (u32 (i_tx + Z.of_nat j)) (fwd d) (env s3) |>).
  assert (Hr4 : ring s4 = ((ring s3) <| tx_open := map fwd (old ++ take (S j) new) ++ drop (S j) junk |>)) by exact Hw.
  assert (Hnb : u32 (nb_frags s + 1) = nb_frags s + 1) by (apply u32_id; unfold is_u32, zlength in *; lia).
  assert (Hrest4 : at_rest F s4) by (destruct Hrest3; split; rewrite ?Hr4; done).
  assert (Hran : ran (ring s) ++ (if nb_frags s =? 0 then [area d] else []) =
    ran (ring s1) ++ map area (heads fresh (take (S j) new))).
  { rewrite Hra, Hheads, Hfr, map_app, <- app_assoc. now destruct (nb_frags s =? 0). }
  assert (Hnb4 : nb_frags s4 = nb_frags s + 1) by (change (nb_frags s3 = nb_frags s + 1); rewrite Hn3; exact Hnb).
  assert (Hloop4 : forall counts' s', ring s' = ring s4 -> out s' = out s4 ->
    counts'.1 + nb_frags s' = zlength old + Z.of_nat (S j) -> 0 <= counts'.1 -> 0 <= nb_frags s' ->
    eop d = (nb_frags s' =? 0) -> looped (S j) counts' s').
  { intros counts' s' Hring Hout Hsum Hc Hn He. split; rewrite ?Hring, ?Hr4; cbn; try (split; congruence); try done.
    - destruct Hrest4. split; rewrite ?Hring; congruence.
    - rewrite Hra3. exact Hran.
    - now rewrite Hends. }
  change (IS_EOP_DESC (desc_options d)) with (eop d). destruct (eop d) eqn:Heop.
  - wstep. wstep. wstep. wstep. wstep. rewrite Hnb4, u32_id by (unfold is_u32, zlength in *; lia).
    apply Hloop4; cbn [fst nb_frags]; (done || lia).
  - wstep. apply Hloop4; cbn [fst]; try (done || lia).
Qed.
End loop.

(** The end of a turn: what is complete goes out, the rest stays for the next turn. *)
Definition close_turn (rcvd frags_done eop_cnt : Z) : xsk K unit :=
  act (tx_submit frags_done) ;;
  act (rx_release frags_done) ;;
  count_ring (fun r => r <| rx_npkts := u64 (rx_npkts r + eop_cnt) |>) ;;
  count_ring (fun r => r <| tx_npkts := u64 (tx_npkts r + eop_cnt) |>) ;;
  count_ring (fun r => r <| rx_frags := u64 (rx_frags r + rcvd) |>) ;;
  count_ring (fun r => r <| tx_frags := u64 (tx_frags r + rcvd) |>) ;;
  outstanding ← gets (fun s => outstanding_tx (sock s));
  set_outstanding (outstanding + frags_done).
Lemma take_map_fwd n l : map (frame_of ∘ addr) (take n (map fwd l)) = map (frame_of ∘ addr) (take n l).
Proof. rewrite firstn_map, map_map. done. Qed.

Lemma close_wp L F s1 s old new junk fresh m fd ec before :
  zlength junk = zlength new -> zlength F < 4294967296 ->
  got (ring s1) = before ++ new -> sent (ring s1) ++ map fwd old = map fwd before ->
  ran (ring s1) = map area (heads true before) -> fresh = ends true before ->
  looped F s1 old new junk fresh (length new) (fd, ec) s ->
  wp L (close_turn m fd ec) (fun _ s' => at_rest F s' /\ forwarding s') s.
Proof.
  intros Hj Hsize Hgot Hsent Hran Hfresh Hloop.
  pose proof (looped_bound _ _ _ _ _ _ _ _ _ Hloop) as Hb.
  destruct Hloop as [[Rf Rc Rfr Ro] [Hr _] [Ht _] [Hg Hse] Hra (Hf & Hf0 & Hf1) Hfr]. cbn [fst] in *.
  rewrite firstn_all in Ht, Hra, Hfr. rewrite drop_ge, app_nil_r in Ht by (unfold zlength in *; lia).
  unfold close_turn. wstep. wstep. wstep. wstep.
  destruct (tx_submit_law fd (env s)) as (r1 & H1 & E1);
    [fold (ring s); rewrite Ht; unfold zlength in *; rewrite length_map, length_app; lia|].
  fold (ring s) in H1. apply kmoves_steady in H1. destruct H1 as [[F1 _] [C1 _] [R1 _] [T1 _] (G1 & S1 & A1) Fr1 I1 _].
  destruct (rx_release_law fd (tx_submit fd (env s))) as (r2 & H2 & E2);
    [rewrite E1; cbn; rewrite R1, Hr; unfold zlength in *; rewrite length_app; lia|].
  rewrite E1 in H2. apply kmoves_steady in H2. destruct H2 as [[F2 _] [C2 _] [R2 _] [T2 _] (G2 & S2 & A2) Fr2 I2 _].
  cbn in F2, C2, R2, T2, G2, S2, A2.
  match goal with |- wp _ _ _ ?x => set (s2 := x) end.
  assert (Hring2 : ring s2 = rx_give fd r2) by exact E2.
  assert (Hnb2 : nb_frags s2 = nb_frags s) by reflexivity.
  assert (Hout2 : out s2 = out s) by reflexivity.
  assert (Htake : zlength (take (Z.to_nat fd) (tx_open r1)) = fd).
  { rewrite T1, Ht. unfold zlength in *. rewrite length_take, length_map, length_app. lia. }
  assert (Hfr2 : frames (ring s2) ≡ₚ F).
  { rewrite Hring2. apply (Permutation_app_inv_l (map (frame_of ∘ addr) (take (Z.to_nat fd) (rx_open r2)))).
    rewrite <- frames_rx_give, Fr2, frames_tx_put, Fr1, Rfr, T1, Ht, take_map_fwd, R2, R1, Hr. done. }
  assert (Hin2 : inflight (ring s2) = out s + fd).
  { rewrite Hring2. change (inflight r2 = out s + fd). rewrite I2, Ro, <- I1.
    unfold inflight, tx_put; cbn. unfold zlength in *. rewrite length_app. lia. }
  assert (Hfw : forwarding s2).
  { split; rewrite Hring2, ?Hnb2; cbn; rewrite ?T2, ?R2, ?S2, ?G2, ?A2, ?T1, ?R1, ?S1, ?G1, ?A1, ?Ht, ?Hr.
    - now rewrite skipn_map.
    - unfold zlength in *. rewrite length_drop, length_app. lia.
    - rewrite <- app_assoc, take_drop, map_app, app_assoc, Hse, Hg, Hsent, Hgot, map_app. done.
    - rewrite Hg, Hgot, heads_app, map_app, <- Hran, <- Hfresh. exact Hra.
    - rewrite Hg, Hgot, ends_app, <- Hfresh. exact Hfr. }
  apply wp_bind, wp_idles; [apply idles_ring|]. intros [] s3 H3.
  apply wp_bind, wp_idles; [apply idles_ring|]. intros [] s4 H4.
  apply wp_bind, wp_idles; [apply idles_ring|]. intros [] s5 H5.
  apply wp_bind, wp_idles; [apply idles_ring|]. intros [] s6 H6.
  wstep. wstep. apply wp_update.
  assert (Hidle : idle s2 s6) by (transitivity s5; [transitivity s4; [now transitivity s3|]|]; done).
  clear H3 H4 H5 H6 s3 s4 s5. destruct (calm_forwarding s2 s6 (idle_calm _ _ Hidle) Hfw).
  destruct Hidle as [[[F6 _] [C6 _] _ _ _ Fr6 I6 _] O6 _]. split; [|split; done].
  rewrite Hring2 in F6, C6. cbn in F6, C6. split.
  - change (fq_open (ring s6) = []). congruence.
  - change (cq_open (ring s6) = []). congruence.
  - change (frames (ring s6) ≡ₚ F). now rewrite Fr6.
  - change (u32 (out s6 + fd) = inflight (ring s6)). rewrite O6, Hout2, I6, Hin2. apply u32_id.
    pose proof (inflight_length (ring s2)). rewrite (perm_zlength _ _ Hfr2) in *. unfold is_u32. lia.
Qed.

Lemma l2fwd_wp (L : Prop) F fuel s :
  at_rest F s -> forwarding s -> zlength F <= FQ_SIZE -> FQ_SIZE < 4294967296 -> 0 <= opt_batch_size o ->
  (L \/ nz (Z.land (opt_xdp_bind_flags o) XDP_COPY) = true /\ kick_sends K /\
         nb_frags s + opt_batch_size o <= TX_SIZE /\ zlength F <= Z.of_nat fuel) ->
  wp L (l2fwd o fuel) (fun _ s' => at_rest F s' /\ forwarding s') s.
Proof.
  intros Hrest Hfw HF Hsize Hbatch Hlive. unfold l2fwd. wstep.
  eapply wp_mono; [apply wp_weaken, (complete_wp F fuel s); done|]. intros [] s1 (Hrest1 & Hcalm1 & _).
  pose proof (calm_forwarding _ _ Hcalm1 Hfw) as Hfw1. wstep. wstep.
  destruct (rx_peek (opt_batch_size o) (env s1)) as [[m i] k] eqn:E. cbn [fst snd].
  destruct (rx_peek_law _ _ _ _ _ Hbatch E) as (r & Hk & Hm & Hmr & -> & Hv). fold (ring s1) in Hk.
  set (s2 := s1 <| @env K := k |>). assert (Hr2 : ring s2 = rx_take m r) by exact Hv.
  apply kmoves_steady in Hk. destruct Hk as [[Hf _] [Hc _] [Hr Hrn] [Ht Htn] (Hg & Hse & Hra) Hfr Hi _].
  destruct (frames_rx_take m r) as [Hft Hit].
  destruct Hrest1 as [Rf Rc Rfr Ro], Hfw1 as [Wt Wn Ws Wr Wf].
  assert (Hrest2 : at_rest F s2).
  { split; rewrite ?Hr2; cbn; try congruence.
    - change (frames (rx_take m r) ≡ₚ F). now rewrite Hft, Hfr.
    - change (out s1 = inflight (rx_take m r)). congruence. }
  destruct (Z.eqb_spec m 0) as [-> | Hm0].
  - apply wp_idles; [apply idles_fq_wait|]. intros _ s3 H3.
    split; [now apply (idle_at_rest F s2)|]. apply (calm_forwarding s2); [now apply idle_calm|].
    split; rewrite ?Hr2; cbn; rewrite ?app_nil_r; congruence.
  - apply wp_bind_pair, wp_bind. eapply wp_mono; [apply (tx_wait_wp L F fuel m s2 fuel s2); try done; try lia|].
    { destruct Hlive as [|(Hcopy & Hkick & Hroom & Hfuel)]; [now left|right]. split; [split; [done|split; [done|]]|].
      - rewrite Hr2. cbn. rewrite Ht, Wt. unfold zlength in *. rewrite length_map. destruct Hcalm1. lia.
      - pose proof (inflight_length (ring s2)) as Hl. destruct Hrest2 as [_ _ Hp _].
        rewrite (perm_zlength _ _ Hp) in Hl. unfold inflight, zlength in *. lia. }
    intros idx s3 (Hrest3 & junk & [[Hr3 Hrn3] Ht3 Hj3 Htn3 (Hg3 & Hs3 & Ha3) Hn3]).
    rewrite Hr2 in Hr3, Hrn3, Ht3, Hg3, Hs3, Ha3. cbn in Hr3, Hrn3, Ht3, Hg3, Hs3, Ha3.
    set (new := take (Z.to_nat m) (rx r)) in *. set (old := rx_open r) in *.
    assert (Hnew : zlength new = m) by (unfold new, zlength in *; rewrite length_take; lia).
    assert (Hold : zlength old = nb_frags s2) by (rewrite Hr; done).
    wstep. apply (wp_for L (looped F s3 old new junk (ends true (got r)))).
    + split; cbn [take heads ends map fst]; rewrite ?app_nil_r; try done.
      * rewrite Ht3, Ht, Wt, <- Hr. done.
      * rewrite Hn3, <- Hold. unfold zlength. cbn. lia.
      * rewrite Hg, Wf. now rewrite Hn3.
    + intros j counts s' Hlt Hloop. apply (frame_wp F s3 old new junk m); try done; try congruence; unfold zlength in *; lia.
    + intros [fd ec] s' Hloop. replace (Z.to_nat m) with (length new) in Hloop by (unfold zlength in Hnew; lia).
      apply (close_wp L F s3 s' old new junk (ends true (got r)) m fd ec (got r)); try done; try lia; try congruence.
Qed.

Lemma idles_events : idles (wait_events o).
Proof. apply idles_if; [apply idles_bind|]; auto with idles. Qed.
Lemma l2fwd_loop_wp F turns fuel s :
  at_rest F s -> forwarding s -> zlength F <= FQ_SIZE -> FQ_SIZE < 4294967296 -> 0 <= opt_batch_size o ->
  wp True (l2fwd_loop o turns fuel) (fun _ s' => at_rest F s' /\ forwarding s') s.
Proof.
  intros Hrest Hfw HF Hsize Hbatch. revert s Hrest Hfw.
  induction turns as [|turns IH]; intros s Hrest Hfw; [done|]. cbn [l2fwd_loop].
  apply wp_bind, wp_idles; [apply idles_events|]. intros ret s1 H1.
  assert (Hrest1 : at_rest F s1) by now apply (idle_at_rest F s).
  assert (Hfw1 : forwarding s1) by (apply (calm_forwarding s); [now apply idle_calm|done]).
  destruct (ret <=? 0); [now apply IH|]. wstep.
  eapply wp_mono; [apply (l2fwd_wp True F); auto|]. intros [] s2 [Hrest2 Hfw2].
  apply wp_bind, wp_idles; [apply idles_call, benchmark_done_law|]. intros finished s3 H3.
  assert (Hrest3 : at_rest F s3) by now apply (idle_at_rest F s2).
  assert (Hfw3 : forwarding s3) by (apply (calm_forwarding s2); [now apply idle_calm|done]).
  destruct finished; [now apply wp_ret|now apply IH].
Qed.

(** ** Dropping *)

Definition dropping (s : xsk_state K) : Prop := rx_open (ring s) = [].

(** The addresses of the received frames go to the reserved slots of the fill ring. *)
Lemma drop_loop_wp L n i_rx i_fq s (Q : Z -> xsk_state K -> Prop) :
  let r := ring s in
  length (rx_open r) = n -> length (fq_open r) = n -> fits_index (rx_open r) ->
  u32 i_rx = slot (rx_next r) (rx_open r) 0 -> u32 i_fq = slot (fq_next r) (fq_open r) 0 ->
  (forall eop_cnt s', ring s' = r <| fq_open := map (extract_addr ∘ addr) (rx_open r) |> -> out s' = out s -> Q eop_cnt s') ->
  wp L (for_loop n 0 0 (fun i eop_cnt =>
    d ← observe (rx_desc (u32 (i_rx + i)));
    act (fill_addr (u32 (i_fq + i)) (extract_addr (addr d))) ;;
    mret (u32 (eop_cnt + b2z (IS_EOP_DESC (desc_options d)))))) Q s.
Proof.
  intros r Hc Hf Hfit Hir Hif HQ. set (l := map (extract_addr ∘ addr) (rx_open r)) in *.
  assert (Hl : length l = n) by (unfold l; now rewrite length_map).
  apply (wp_for L (fun j _ s' => ring s' = r <| fq_open := take j l ++ drop j (fq_open r) |> /\ out s' = out s)).
  - split; [|done]. cbn. subst r. now destruct (ring s).
  - intros j c s' Hj (Hr & Ho). wstep. wstep. wstep. wstep. wstep.
    destruct (lookup_lt_is_Some_2 (rx_open r) j) as [d Hd]; [lia|].
    rewrite (slot_plus _ _ _ _ Hir), (slot_plus _ _ _ _ Hif).
    assert (Hrx : rx_desc (slot (rx_next r) (rx_open r) j) (env s') = d).
    { unfold ring in Hr. pose proof (rx_desc_law (env s') j d) as Hlaw. rewrite Hr in Hlaw. cbn in Hlaw. now apply Hlaw. }
    rewrite Hrx. split; [|done]. unfold ring. cbn [env].
    pose proof (fill_addr_law (env s') j (extract_addr (addr d))) as Hlaw. unfold ring in Hr. rewrite Hr in Hlaw. cbn in Hlaw.
    rewrite (slot_length _ (fq_open r) (take j l ++ drop j (fq_open r)))
      by (rewrite length_app, length_take, length_drop; lia).
    rewrite Hlaw.
    + unfold fq_write; cbn. rewrite insert_take_drop_at; [done| |lia]. unfold l. rewrite list_lookup_fmap, Hd. done.
    + unfold fits_index, zlength in *. rewrite length_app, length_take, length_drop. lia.
    + rewrite length_app, length_take, length_drop. lia.
  - intros c s' (Hr & Ho). apply HQ; [|done].
    now rewrite Hr, firstn_all2, drop_ge, app_nil_r by lia.
Qed.

Lemma map_extract l : map frame_of (map (extract_addr ∘ addr) l) = map (frame_of ∘ addr) l.
Proof. rewrite map_map. apply map_ext. intros d. apply extract_addr_law. Qed.
(** The frames go back to the kernel. *)
Lemma recycle_rx_wp F s m (eop_cnt : Z) l :
  rx_open (ring s) = l -> zlength l = m -> fq_open (ring s) = map (extract_addr ∘ addr) l -> cq_open (ring s) = [] ->
  frames (ring s) ≡ₚ F -> out s = inflight (ring s) ->
  wp False (act (fq_submit m) ;;
    act (rx_release m) ;;
    count_ring (fun r => r <| rx_npkts := u64 (rx_npkts r + eop_cnt) |>) ;;
    count_ring (fun r => r <| rx_frags := u64 (rx_frags r + m) |>))
    (fun _ s' => at_rest F s' /\ dropping s') s.
Proof.
  intros Hr Hl Hfq Hcq Hfr Hout. wstep. wstep. wstep. wstep.
  assert (Hlen : zlength (fq_open (ring s)) = m) by (rewrite Hfq; unfold zlength; now rewrite length_map).
  destruct (fq_submit_law m (env s)) as (r1 & H1 & E1); [fold (ring s); unfold zlength in *; lia|].
  fold (ring s) in H1. apply kmoves_steady in H1. destruct H1 as [[F1 _] [C1 _] [R1 _] _ _ Fr1 I1 _].
  destruct (frames_fq_put m r1) as (P1 & I1' & Z1); [now rewrite F1|].
  destruct (rx_release_law m (fq_submit m (env s))) as (r2 & H2 & E2); [rewrite E1; cbn; rewrite R1, Hr; unfold zlength in *; lia|].
  rewrite E1 in H2. apply kmoves_steady in H2. destruct H2 as [[F2 _] [C2 _] [R2 _] _ _ Fr2 I2 _].
  change (rx_open (fq_put m r1)) with (rx_open r1) in R2. change (cq_open (fq_put m r1)) with (cq_open r1) in C2.
  match goal with |- wp _ _ _ ?x => set (s2 := x) end.
  assert (Hring2 : ring s2 = rx_give m r2) by exact E2.
  assert (Hr2 : rx_open r2 = l) by congruence.
  assert (Hrest2 : at_rest F s2).
  { split; rewrite ?Hring2.
    - change (fq_open r2 = []). congruence.
    - change (cq_open r2 = []). congruence.
    - apply (Permutation_app_inv_l (map (frame_of ∘ addr) (take (Z.to_nat m) (rx_open r2)))).
      rewrite <- frames_rx_give, Fr2, P1, F1, Hfq, map_extract, Fr1, Hfr, Hr2, firstn_all2 by (unfold zlength in Hl; lia). done.
    - change (out s = inflight r2). congruence. }
  assert (Hdrop2 : dropping s2) by (unfold dropping; rewrite Hring2; cbn; rewrite Hr2; apply drop_ge; unfold zlength in Hl; lia).
  apply wp_bind, wp_idles; [apply idles_ring|]. intros [] s3 H3. apply wp_idles; [apply idles_ring|]. intros [] s4 H4.
  assert (H24 : idle s2 s4) by now transitivity s3.
  split; [now apply (idle_at_rest F s2)|]. destruct H24 as [[_ _ [R4 _] _ _ _ _ _] _ _]. unfold dropping. congruence.
Qed.

Lemma rx_drop_wp F fuel s :
  at_rest F s -> dropping s -> zlength F <= FQ_SIZE -> FQ_SIZE < 4294967296 -> 0 <= opt_batch_size o ->
  wp False (rx_drop o fuel) (fun _ s' => at_rest F s' /\ dropping s') s.
Proof.
  intros [Rf Rc Rfr Ro] Hdrop HF Hsize Hbatch. unfold rx_drop. wstep. wstep.
  destruct (rx_peek (opt_batch_size o) (env s)) as [[m i] k] eqn:E. cbn [fst snd].
  destruct (rx_peek_law _ _ _ _ _ Hbatch E) as (r & Hk & Hm & Hmr & -> & Hv). fold (ring s) in Hk.
  set (s2 := s <| @env K := k |>). assert (Hr2 : ring s2 = rx_take m r) by exact Hv.
  apply kmoves_steady in Hk. destruct Hk as [[Hf _] [Hc _] [Hr Hrn] _ _ Hfr Hi _].
  destruct (frames_rx_take m r) as [Hft Hit].
  assert (Hrest2 : at_rest F s2).
  { split; rewrite ?Hr2; cbn; try congruence.
    - change (frames (rx_take m r) ≡ₚ F). now rewrite Hft, Hfr.
    - change (out s = inflight (rx_take m r)). congruence. }
  assert (Hrx2 : rx_open (ring s2) = take (Z.to_nat m) (rx r)) by (rewrite Hr2; cbn; now rewrite Hr, Hdrop).
  assert (Hlen : zlength (rx_open (ring s2)) = m) by (rewrite Hrx2; unfold zlength in *; rewrite length_take; lia).
  destruct (Z.eqb_spec m 0) as [-> | Hm0].
  { apply wp_idles; [apply idles_fq_wait|]. intros _ s3 H3. split; [now apply (idle_at_rest F s2)|].
    destruct H3 as [[_ _ [R3 _] _ _ _ _ _] _ _]. unfold dropping. rewrite R3, Hrx2. done. }
  destruct Hrest2 as [Rf2 Rc2 Rfr2 Ro2]. wstep. wstep.
  destruct (fq_reserve m (env s2)) as [[ret idx] k3] eqn:E3. cbn [fst snd].
  destruct (fq_reserve_law m (env s2) ret idx k3 ltac:(lia) E3) as (r3 & Hk3 & Hres). fold (ring s2) in Hk3.
  apply kmoves_steady in Hk3. destruct Hk3 as [[Hf3 _] [Hc3 _] [Hr3 Hn3] _ _ Hfr3 Hi3 _].
  assert (Hroom : zlength (fq r3) + m <= FQ_SIZE).
  { pose proof (frames_length r3) as Hl. rewrite (perm_zlength _ _ Hfr3), (perm_zlength _ _ Rfr2), Hr3, Hlen in Hl.
    unfold zlength in *. lia. }
  destruct Hres as [(-> & -> & junk & Hj & Hv3)|(_ & Hfull & _)];
    [|rewrite Hf3, Rf2 in Hfull; unfold zlength in *; cbn in Hfull; lia].
  wstep. rewrite fq_wait_done. wstep. wstep.
  set (s3 := s2 <| @env K := k3 |>). assert (Hring3 : ring s3 = fq_take junk r3) by exact Hv3.
  apply (drop_loop_wp False (Z.to_nat m) (rx_next r) (fq_next r3) s3); rewrite ?Hring3; cbn.
  - rewrite Hr3. unfold zlength in Hlen. lia.
  - rewrite Hf3, Rf2. unfold zlength in Hj. cbn. lia.
  - rewrite Hr3. unfold fits_index. unfold zlength in *. lia.
  - assert (Hnext : rx_next (ring s2) = u32 (rx_next r + m)) by now rewrite Hr2.
    rewrite Hr3, Hn3, Hnext. unfold slot. rewrite Hlen. unfold u32. clear. zlia.
  - rewrite Hf3, Rf2. unfold slot, u32, zlength in *. cbn. clear -Hj. zlia.
  - intros eop_cnt s' Hring Ho.
    apply (recycle_rx_wp F s' m eop_cnt (rx_open r3)); rewrite ?Hring; cbn; try congruence.
    + change (frames r3 ≡ₚ F). now rewrite Hfr3.
    + change (out s' = inflight r3). rewrite Ho, Hi3. exact Ro2.
Qed.

(** Programs that do not exit with an error. *)
Definition stays {A} (m : xsk K A) (s : xsk_state K) : Prop := forall e, m s <> Exit e.
Lemma stays_bind {A B} (m : xsk K A) (f : A -> xsk K B) s :
  stays m s -> (forall a s', m s = Ret a s' -> stays (f a) s') -> stays (m ≫= f) s.
Proof.
  intros Hm Hf e. change ((m ≫= f) s) with (match m s with Ret a s' => f a s' | Exit e => Exit e | Spin => Spin end).
  destruct (m s) as [a s'|e'|] eqn:E; [now apply Hf|now destruct (Hm e')|done].
Qed.
Lemma stays_call {A} (f : K -> A * K) s : stays (call f) s.
Proof. intros e. unfold call. now destruct (f (env s)). Qed.
Lemma stays_for {A} n i (a : A) body s : (forall i a s, stays (body i a) s) -> stays (for_loop n i a body) s.
Proof. intros Hb. revert i a s. induction n as [|n IH]; intros i a s; cbn [for_loop]; [done|]. apply stays_bind; auto. Qed.
Lemma stays_when b m s : stays m s -> stays (when b m) s.
Proof. now destruct b. Qed.

Lemma stays_fq_wait fuel rcvd ret idx s : 0 < rcvd -> 0 <= ret -> stays (fq_reserve_wait o fuel rcvd ret idx) s.
Proof.
  intros Hr. revert ret idx s. induction fuel as [|fuel IH]; intros ret idx s Hret; cbn [fq_reserve_wait];
    (destruct (ret =? rcvd); [done|]); (destruct (Z.ltb_spec ret 0); [lia|]); [done|].
  apply stays_bind; [destruct (opt_busy_poll o); [done|apply stays_call]|]. intros wakeup s1 _.
  apply stays_bind; [apply stays_when, stays_bind; done|]. intros _ s2 _.
  apply stays_bind; [apply stays_call|]. intros [ret' idx'] s3 Hcall. apply IH.
  unfold call in Hcall. destruct (fq_reserve rcvd (env s2)) as [[m i] k] eqn:E. simplify_eq.
  destruct (fq_reserve_law _ _ _ _ _ Hr E) as (r & _ & [(-> & _)|(-> & _)]); lia.
Qed.
Lemma rx_drop_stays fuel s : 0 <= opt_batch_size o -> stays (rx_drop o fuel) s.
Proof.
  intros Hb. apply stays_bind; [apply stays_call|]. intros [rcvd idx_rx] s1 Hcall.
  unfold call in Hcall. destruct (rx_peek (opt_batch_size o) (env s)) as [[m i] k] eqn:E. simplify_eq.
  destruct (rx_peek_law _ _ _ _ _ Hb E) as (_ & _ & Hm & _). destruct (Z.eqb_spec rcvd 0) as [->|Hne].
  { apply stays_bind; [destruct (opt_busy_poll o); [done|apply stays_call]|]. intros wakeup s2 _.
    apply stays_when, stays_bind; done. }
  apply stays_bind; [apply stays_call|]. intros [ret idx] s2 Hcall.
  unfold call in Hcall. cbn [env] in Hcall. destruct (fq_reserve rcvd k) as [[m i] k'] eqn:E2. simplify_eq.
  assert (0 <= ret) by (destruct (fq_reserve_law rcvd k ret idx k' ltac:(lia) E2) as (r & _ & [(-> & _)|(-> & _)]); lia).
  apply stays_bind; [apply stays_fq_wait; lia|]. intros idx_fq s3 _.
  apply stays_bind; [apply stays_for; done|]. intros eop s4 _. done.
Qed.

(** ** From the start *)

(** The state after the socket has been created: the rings are empty. *)
Record blank (s : xsk_state K) : Prop := {
  blank_frames : frames (ring s) = [];
  blank_open : fq_open (ring s) = [] /\ tx_open (ring s) = [];
  blank_log : got (ring s) = [] /\ sent (ring s) = [] /\ ran (ring s) = [];
  blank_counts : out s = 0 /\ nb_frags s = 0
}.
(** The frames of the memory: frame [i] begins at [i] times the frame size. *)
Definition all_frames (n : nat) : list Z := map frame_of (map (fun i => Z.of_nat i * opt_xsk_frame_size o) (seq 0 n)).

Lemma fill_loop_wp L n i_fq s (Q : unit -> xsk_state K -> Prop) :
  length (fq_open (ring s)) = n -> fits_index (fq_open (ring s)) -> u32 i_fq = slot (fq_next (ring s)) (fq_open (ring s)) 0 ->
  (forall s', ring s' = ((ring s) <| fq_open := map (fun i => Z.of_nat i * opt_xsk_frame_size o) (seq 0 n) |>) ->
     out s' = out s -> nb_frags s' = nb_frags s -> Q tt s') ->
  wp L (for_loop n 0 tt (fun i _ => act (fill_addr (u32 (i_fq + i)) (i * opt_xsk_frame_size o)))) Q s.
Proof.
  intros Hn Hfit Hi HQ. set (l := map _ (seq 0 n)) in *.
  assert (Hl : length l = n) by (unfold l; rewrite length_map; apply length_seq).
  apply (wp_for L (fun j _ s' => ring s' = ((ring s) <| fq_open := take j l ++ drop j (fq_open (ring s)) |>)
    /\ out s' = out s /\ nb_frags s' = nb_frags s)).
  - split; [|done]. cbn. now destruct (ring s).
  - intros j [] s' Hj (Hr & Ho & Hnb). wstep. rewrite (slot_plus _ _ _ _ Hi). split; [|done].
    assert (Hlj : l !! j = Some (Z.of_nat j * opt_xsk_frame_size o)).
    { unfold l. rewrite list_lookup_fmap, lookup_seq_lt by done. done. }
    unfold ring at 1. cbn [env]. pose proof (fill_addr_law (env s') j (Z.of_nat j * opt_xsk_frame_size o)) as Hlaw.
    fold (ring s') in Hlaw. rewrite Hr in Hlaw. cbn in Hlaw.
    rewrite (slot_length _ (fq_open (ring s)) (take j l ++ drop j (fq_open (ring s))))
      by (rewrite length_app, length_take, length_drop; lia).
    rewrite Hlaw.
    + unfold fq_write; cbn. now rewrite insert_take_drop_at by (done || lia).
    + unfold fits_index, zlength in *. rewrite length_app, length_take, length_drop. lia.
    + rewrite length_app, length_take, length_drop. lia.
  - intros [] s' (Hr & Ho & Hnb). apply HQ; [|done|done].
    now rewrite Hr, firstn_all2, drop_ge, app_nil_r by lia.
Qed.

Lemma populate_wp s :
  blank s -> 0 < FQ_SIZE < 4294967296 ->
  wp False (xsk_populate_fill_ring o FQ_SIZE)
    (fun _ s' => at_rest (all_frames (Z.to_nat FQ_SIZE)) s' /\ forwarding s' /\ dropping s') s.
Proof.
  intros [Bf [Bo Bt] (Bg & Bs & Br) [Bout Bn]] [Hpos Hsize]. unfold xsk_populate_fill_ring. wstep. wstep.
  destruct (fq_reserve FQ_SIZE (env s)) as [[ret idx] k] eqn:E. cbn [fst snd].
  destruct (fq_reserve_law FQ_SIZE (env s) ret idx k Hpos E) as (r & Hk & Hres). fold (ring s) in Hk.
  apply kmoves_steady in Hk. destruct Hk as [[Hf _] _ [Hrx _] [Ht _] (Hg & Hse & Hra) Hfr _ _].
  rewrite Bf in Hfr. apply Permutation_nil_r in Hfr.
  assert (Hnil : fq r = [] /\ rx_open r = [] /\ cq_open r = []).
  { pose proof (frames_length r) as Hl. rewrite Hfr in Hl. unfold zlength in Hl. change (length (@nil Z)) with 0%nat in Hl.
    repeat split; apply length_zero_iff_nil; lia. }
  destruct Hnil as (Hfq0 & Hrx0 & Hcq0).
  destruct Hres as [(-> & -> & junk & Hj & Hv)|(_ & Hfull & _)];
    [|rewrite Hfq0, Hf, Bo in Hfull; unfold zlength in Hfull; cbn in Hfull; lia].
  rewrite Z.eqb_refl. cbn [negb]. wstep.
  set (s2 := s <| @env K := k |>). assert (Hr2 : ring s2 = fq_take junk r) by exact Hv.
  apply fill_loop_wp; rewrite ?Hr2;
    [cbn; rewrite Hf, Bo; cbn|cbn; rewrite Hf, Bo; cbn|cbn; rewrite Hf, Bo; cbn|].
  - unfold zlength in Hj. lia.
  - unfold fits_index. lia.
  - unfold slot, u32, zlength in *. clear -Hj. zlia.
  - intros s3 Hr3 Ho3 Hn3. set (l := map _ (seq 0 _)) in *.
    assert (Hl : zlength l = FQ_SIZE) by (unfold l, zlength; rewrite length_map, length_seq; lia).
    apply wp_act. destruct (fq_submit_law FQ_SIZE (env s3)) as (r4 & H4 & E4);
      [fold (ring s3); rewrite Hr3; cbn; lia|].
    fold (ring s3) in H4. apply kmoves_steady in H4. rewrite Hr3 in H4.
    destruct H4 as [[F4 _] [C4 _] [R4 _] [T4 _] (G4 & S4 & A4) Fr4 I4 _]. cbn in F4, C4, R4, T4, G4, S4, A4.
    destruct (frames_fq_put FQ_SIZE r4) as (P4 & I4' & Z4); [now rewrite F4|].
    set (s4 := s3 <| @env K := fq_submit FQ_SIZE (env s3) |>). assert (Hr4 : ring s4 = fq_put FQ_SIZE r4) by exact E4.
    assert (Hin : inflight r = 0).
    { pose proof (inflight_length r) as Hlen. rewrite Hfr in Hlen. change (zlength (@nil Z)) with 0 in Hlen. lia. }
    split; [|split; [split|]]; rewrite ?Hr4; unfold dropping; rewrite ?Hr4; cbn; try congruence.
    + split; rewrite ?Hr4; try done; cbn; try congruence.
      * rewrite P4, F4. unfold all_frames. fold l. rewrite Fr4. change (map frame_of l ++ frames r ≡ₚ map frame_of l).
        now rewrite Hfr, app_nil_r.
      * rewrite I4', I4. change (out s3 = inflight r). rewrite Ho3, Hin. exact Bout.
    + rewrite R4, T4, Hrx0, Ht, Bt. done.
    + rewrite R4, Hrx0. change (nb_frags s3 = 0). rewrite Hn3. exact Bn.
    + rewrite S4, T4, G4, Hse, Ht, Hg, Bs, Bt, Bg. done.
    + rewrite A4, G4, Hra, Hg, Br, Bg. done.
    + rewrite G4, Hg, Bg. change (true = (nb_frags s3 =? 0)). rewrite Hn3. change (true = (nb_frags s =? 0)). now rewrite Bn.
Qed.
End complete.

(** ** The theorems *)

Section theorems.
Context {K : Type} {api : XskApi K} {laws : XskLaws K} (o : options).

(** The forwarding mode of the AF_XDP driver, from the empty rings through any number of turns and
    whatever the kernel does in between: every frame of the packet memory is in exactly one place,
    [outstanding_tx] is the number of frames on their way out, what has been sent together with
    the unfinished packet is what has been received, in order and with its addresses, lengths
    and end-of-packet marks, and the XDP program has run once per packet, on its first frame. *)
Lemma xsk_forwarding turns fuel (s s' : xsk_state K) :
  blank s -> 0 < FQ_SIZE < 4294967296 -> 0 <= opt_batch_size o ->
  (xsk_populate_fill_ring o FQ_SIZE ;; l2fwd_loop o turns fuel) s = Ret tt s' ->
  XskRings.frames frame_of (ring s') ≡ₚ all_frames o (Z.to_nat FQ_SIZE) /\
  outstanding_tx (sock s') = inflight (ring s') /\
  sent (ring s') ++ tx_open (ring s') = map fwd (got (ring s')) /\
  zlength (tx_open (ring s')) = nb_frags s' /\
  ran (ring s') = map area (heads true (got (ring s'))).
Proof.
  intros Hblank Hsize Hbatch Hrun.
  assert (Hwp : wp True (xsk_populate_fill_ring o FQ_SIZE ;; l2fwd_loop o turns fuel)
    (fun _ s' => at_rest (all_frames o (Z.to_nat FQ_SIZE)) s' /\ forwarding s') s).
  { apply wp_bind. eapply wp_mono; [apply wp_weaken, populate_wp; done|]. intros [] s1 (Hrest & Hfw & _).
    apply l2fwd_loop_wp; try done; [|lia]. unfold zlength, all_frames. rewrite !length_map, length_seq. lia. }
  unfold wp in Hwp. rewrite Hrun in Hwp. destruct Hwp as [[_ _ Hfr Ho] [Ht Hn Hs Hr _]].
  split_and!; try done. rewrite Ht, Hn. unfold zlength. now rewrite length_map.
Qed.

(** C13: One turn of the forwarding mode ends: in copy mode, with a kernel that sends at least one frame
    when it is asked to, and room in the transmit ring for an unfinished packet and a batch, the
    driver does not wait forever for the transmit ring or for the fill ring. *)
Theorem l2fwd_turn_ends F fuel (s : xsk_state K) :
  at_rest F s -> forwarding s -> zlength F <= FQ_SIZE -> FQ_SIZE < 4294967296 -> 0 <= opt_batch_size o ->
  nz (Z.land (opt_xdp_bind_flags o) XDP_COPY) = true -> kick_sends K ->
  nb_frags s + opt_batch_size o <= TX_SIZE -> zlength F <= Z.of_nat fuel ->
  l2fwd o fuel s <> Spin.
Proof.
  intros Hrest Hfw HF Hsize Hb Hcopy Hkick Hroom Hfuel Hspin.
  pose proof (l2fwd_wp o False F fuel s Hrest Hfw HF Hsize Hb ltac:(right; auto)) as Hwp.
  unfold wp in Hwp. now rewrite Hspin in Hwp.
Qed.

(** C18: The drop mode hands every received frame back to the fill ring: no frame is lost, the program
    never exits with an error and, since the fill ring can hold all frames, it never waits for
    room there, even with no fuel for waiting. *)
Theorem rx_drop_returns_frames F (s : xsk_state K) :
  at_rest F s -> dropping s -> zlength F <= FQ_SIZE -> FQ_SIZE < 4294967296 -> 0 <= opt_batch_size o ->
  exists s', rx_drop o 0 s = Ret tt s' /\ at_rest F s' /\ dropping s'.
Proof.
  intros Hrest Hdrop HF Hsize Hb. pose proof (rx_drop_wp o F 0 s Hrest Hdrop HF Hsize Hb) as Hwp.
  pose proof (rx_drop_stays o 0 s Hb) as Hstay.
  unfold wp in Hwp. destruct (rx_drop o 0 s) as [[] s'|e|] eqn:E; [eauto|now destruct (Hstay e)|done].
Qed.
End theorems.
