(* ===== verification/XskExamples.v ===== *)
(** * A concrete kernel for the AF_XDP driver

    The laws of XskRings.v can be met: a kernel that receives from a list of packets whenever
    the program looks at the receive ring, and sends everything when it is asked to. *)
From Stdlib Require Import ZArith Lia Permutation.
From stdpp Require Import base numbers list option relations.
From S2P Require Import Prelude Xdp XskOptions XskDriver XskRings XskForward.
#[local] Open Scope Z_scope.
#[local] Open Scope list_scope.

(** [arrivals] are the lengths and options of the frames to come; [verdict] is what every run
    of the XDP program returns. *)
Record kernel := Kernel { kr : rings; arrivals : list (Z * Z); verdict : Z }.
Definition with_rings (r : rings) (k : kernel) : kernel := Kernel r (arrivals k) (verdict k).
Definition frame_at (a : Z) : Z := a / 4096.
Definition small_fq : Z := 8.
Definition small_tx : Z := 4.

(** Frames are received 256 bytes into their chunk. *)
Definition receive (a n opts : Z) (l : list Z) (r : rings) : rings :=
  let r := r <| fq := l |> in r <| rx := rx r ++ [Desc (4096 * frame_at a + 256) n opts] |>.
Fixpoint deliver (arr : list (Z * Z)) (r : rings) : rings * list (Z * Z) :=
  match arr, fq r with
  | (n, opts) :: arr', a :: l => deliver arr' (receive a n opts l r)
  | _, _ => (r, arr)
  end.
(** All that waits is taken and completed. *)
Definition transmit (r : rings) : rings :=
  Rings (fq r) (fq_open r) (fq_next r) (cq r ++ k_tx r ++ map addr (tx r)) (cq_open r) (cq_next r)
    (rx r) (rx_open r) (rx_next r) [] (tx_open r) (tx_next r) (k_rx r) [] (got r) (sent r) (ran r).

Lemma receive_frame a n opts : frame_at a = frame_at (addr (Desc (4096 * frame_at a + 256) n opts)).
Proof. unfold frame_at. cbn [addr]. zlia. Qed.
Lemma receive_moves a n opts l r : fq r = a :: l -> kmoves frame_at r (receive a n opts l r).
Proof.
  intros Hfq. eapply rtc_l; [now apply (k_take_fill frame_at r a l)|]. apply rtc_once.
  assert (He : frame_at a :: k_rx r = [] ++ frame_at (addr (Desc (4096 * frame_at a + 256) n opts)) :: k_rx r)
    by (rewrite <- receive_frame; reflexivity).
  exact (k_receive frame_at (let r := r <| fq := l |> in r <| k_rx := frame_at a :: k_rx r |>) _ [] (k_rx r) He).
Qed.
Lemma deliver_moves arr r : kmoves frame_at r (deliver arr r).1.
Proof.
  revert r. induction arr as [|[n opts] arr IH]; intros r; [apply rtc_refl|]. cbn.
  destruct (fq r) as [|a l] eqn:Hfq; [apply rtc_refl|]. etransitivity; [exact (receive_moves a n opts l r Hfq)|apply IH].
Qed.
Lemma take_all_moves f fo fn c co cn x xo xn t to tn kr kt g s a :
  kmoves frame_at (Rings f fo fn c co cn x xo xn t to tn kr kt g s a)
    (Rings f fo fn c co cn x xo xn [] to tn kr (kt ++ map addr t) g s a).
Proof.
  revert kt. induction t as [|d t IH]; intros kt; cbn; [rewrite app_nil_r; apply rtc_refl|].
  eapply rtc_l; [now apply (k_take_tx frame_at _ d t)|]. cbn. specialize (IH (kt ++ [addr d])).
  rewrite <- app_assoc in IH. exact IH.
Qed.
Lemma complete_all_moves f fo fn c co cn x xo xn t to tn kr kt g s a :
  kmoves frame_at (Rings f fo fn c co cn x xo xn t to tn kr kt g s a)
    (Rings f fo fn (c ++ kt) co cn x xo xn t to tn kr [] g s a).
Proof.
  revert c. induction kt as [|b kt IH]; intros c; cbn; [rewrite app_nil_r; apply rtc_refl|].
  eapply rtc_l; [apply (k_complete frame_at _ b [] kt); reflexivity|]. cbn. specialize (IH (c ++ [b])).
  rewrite <- app_assoc in IH. exact IH.
Qed.
Lemma transmit_moves r : kmoves frame_at r (transmit r).
Proof. destruct r. etransitivity; [apply take_all_moves|apply complete_all_moves]. Qed.

(** ** The operations *)

(** The entry with index [i] of [open] entries when [next] comes after the last. *)
Definition position {A} (next : Z) (l : list A) (i : Z) : nat := Z.to_nat (u32 (i - (next - zlength l))).
Lemma position_slot {A} next (l : list A) j :
  fits_index l -> (j < length l)%nat -> position next l (slot next l j) = j.
Proof.
  unfold fits_index, position, slot, zlength. intros Hf Hj. unfold u32. rewrite Zminus_mod_idemp_l.
  replace (next - Z.of_nat (length l) + Z.of_nat j - (next - Z.of_nat (length l))) with (Z.of_nat j) by lia.
  rewrite Z.mod_small by lia. lia.
Qed.

#[export] Instance kernel_api : XskApi kernel := {
  rx_peek n k :=
    let '(r, arr) := deliver (arrivals k) (kr k) in
    let m := n `min` zlength (rx r) in
    (m, rx_next r, Kernel (rx_take m r) arr (verdict k));
  rx_desc i k := nth (position (rx_next (kr k)) (rx_open (kr k)) i) (rx_open (kr k)) (Desc 0 0 0);
  rx_release n k := with_rings (rx_give n (kr k)) k;
  cq_peek n k :=
    let m := n `min` zlength (cq (kr k)) in (m, cq_next (kr k), with_rings (cq_take m (kr k)) k);
  comp_addr i k := nth (position (cq_next (kr k)) (cq_open (kr k)) i) (cq_open (kr k)) 0;
  cq_release n k := with_rings (cq_give n (kr k)) k;
  fq_reserve n k :=
    if zlength (fq (kr k)) + zlength (fq_open (kr k)) + n <=? small_fq
    then (n, fq_next (kr k), with_rings (fq_take (repeat 0 (Z.to_nat n)) (kr k)) k)
    else (0, 0, k);
  fill_addr i a k := with_rings (fq_write (position (fq_next (kr k)) (fq_open (kr k)) i) a (kr k)) k;
  fq_submit n k := with_rings (fq_put n (kr k)) k;
  fq_needs_wakeup k := (true, k);
  tx_reserve n k :=
    if zlength (tx (kr k)) + zlength (tx_open (kr k)) + n <=? small_tx
    then (n, tx_next (kr k), with_rings (tx_take (repeat (Desc 0 0 0) (Z.to_nat n)) (kr k)) k)
    else (0, 0, k);
  tx_desc i d k := with_rings (tx_write (position (tx_next (kr k)) (tx_open (kr k)) i) d (kr k)) k;
  tx_submit n k := with_rings (tx_put n (kr k)) k;
  tx_needs_wakeup k := (true, k);
  sendto k := (0, 0, with_rings (transmit (kr k)) k);
  recvfrom k := k;
  poll k := (1, k);
  benchmark_done k := (match arrivals k, rx (kr k) with [], [] => true | _, _ => false end, k);
  extract_addr a := a;
  add_offset_to_addr a := a;
  get_data a := a;
  run_at_handler a b k := (verdict k, with_rings (log_run (a, b) (kr k)) k);
  umem_store _ _ k := k
}.

(** ** The laws *)

Lemma no_move r : kmoves frame_at r r.
Proof. apply rtc_refl. Qed.
Lemma nth_position {A} next (l : list A) j x d :
  fits_index l -> l !! j = Some x -> nth (position next l (slot next l j)) l d = x.
Proof.
  intros Hf Hx. rewrite position_slot by (eauto using lookup_lt_Some). now apply nth_lookup_Some.
Qed.
Lemma min_peek {A} n (l : list A) : 0 <= n -> 0 <= n `min` zlength l <= n /\ n `min` zlength l <= zlength l.
Proof. unfold zlength. lia. Qed.
Lemma zlength_repeat {A} (x : A) n : 0 < n -> zlength (repeat x (Z.to_nat n)) = n.
Proof. intros Hn. unfold zlength. rewrite repeat_length. lia. Qed.

#[export] Program Instance kernel_laws : XskLaws kernel := {
  view := kr; frame_of := frame_at; FQ_SIZE := small_fq; TX_SIZE := small_tx
}.
Next Obligation.
  intros n k m i k' Hn. cbn. pose proof (deliver_moves (arrivals k) (kr k)) as Hk.
  destruct (deliver (arrivals k) (kr k)) as [r arr]. intros [= <- <- <-]. exists r.
  destruct (min_peek n (rx r) Hn). auto.
Qed.
Next Obligation. intros k j d Hf Hd. now apply nth_position. Qed.
Next Obligation. intros n k _. exists (kr k). auto using no_move. Qed.
Next Obligation.
  intros n k m i k' Hn. cbn. intros [= <- <- <-]. exists (kr k).
  destruct (min_peek n (cq (kr k)) Hn). auto using no_move.
Qed.
Next Obligation. intros k j a Hf Ha. now apply nth_position. Qed.
Next Obligation. intros n k _. exists (kr k). auto using no_move. Qed.
Next Obligation.
  intros n k m i k' Hn. cbn. exists (kr k). split; [apply no_move|].
  destruct (Z.leb_spec (zlength (fq (kr k)) + zlength (fq_open (kr k)) + n) small_fq); simplify_eq; [left|right; auto].
  split_and!; [done..|]. eexists. split; [by apply zlength_repeat|done].
Qed.
Next Obligation. intros k j a Hf Hj. cbn. now rewrite position_slot. Qed.
Next Obligation. intros n k _. exists (kr k). auto using no_move. Qed.
Next Obligation. intros k. apply no_move. Qed.
Next Obligation.
  intros n k m i k' Hn. cbn. exists (kr k). split; [apply no_move|].
  destruct (Z.leb_spec (zlength (tx (kr k)) + zlength (tx_open (kr k)) + n) small_tx); simplify_eq; [left|right; auto].
  split_and!; [done..|]. eexists. split; [by apply zlength_repeat|done].
Qed.
Next Obligation. intros k j a Hf Hj. cbn. now rewrite position_slot. Qed.
Next Obligation. intros n k _. exists (kr k). auto using no_move. Qed.
Next Obligation. intros k. apply no_move. Qed.
Next Obligation. intros k. apply transmit_moves. Qed.
Next Obligation. intros k. apply no_move. Qed.
Next Obligation. intros k. apply no_move. Qed.
Next Obligation. intros k. apply no_move. Qed.
Next Obligation. intros a b k. exists (kr k). auto using no_move. Qed.
Next Obligation. done. Qed.

Lemma kernel_sends : kick_sends kernel.
Proof. intros k Hk. cbn in *. destruct (tx (kr k)); [done|cbn; lia]. Qed.

(** ** Runs *)

#[local] Existing Instance example_host.
(** Copy mode with batches of two frames. *)
Definition small_options : options :=
  let o := default_options in let o := o <| opt_batch_size := 2 |> in o <| opt_xdp_bind_flags := XDP_COPY |>.
Definition start (verdict : Z) (arr : list (Z * Z)) : xsk_state kernel :=
  Xsk (Socket (RingStats 0 0 0 0) (AppStats 0 0 0 0 0) 0) 0 0
    (Kernel (Rings [] [] 0 [] [] 4294967295 [] [] 4294967294 [] [] 4294967295 [] [] [] [] []) arr verdict).
Definition arriving : list (Z * Z) := [(60, 0); (4096, 1); (4096, 1); (100, 0); (64, 0)].
(** A packet of one frame, one of three and another of one, which the program drops. *)
Definition five_frames : xsk_state kernel := start XDP_DROP arriving.
Definition final (m : xsk kernel unit) (s : xsk_state kernel) : option (xsk_state kernel) :=
  match m s with Ret _ s' => Some s' | _ => None end.

Lemma start_blank v arr : blank (start v arr).
Proof. now split. Qed.

Definition forwarded : xsk_state kernel :=
  Eval vm_compute in
    default five_frames (final (xsk_populate_fill_ring small_options small_fq ;; l2fwd_loop small_options 10 10) five_frames).
Definition first_turn : xsk_state kernel :=
  Eval vm_compute in
    default five_frames (final (xsk_populate_fill_ring small_options small_fq ;; l2fwd small_options 10) five_frames).
Definition populated : xsk_state kernel :=
  Eval vm_compute in default five_frames (final (xsk_populate_fill_ring small_options small_fq) five_frames).

Lemma xsk_forwarding_witness :
  (xsk_populate_fill_ring small_options small_fq ;; l2fwd_loop small_options 10 10) five_frames = Ret tt forwarded /\
  XskRings.frames frame_of (ring forwarded) ≡ₚ all_frames small_options (Z.to_nat FQ_SIZE) /\
  outstanding_tx (sock forwarded) = inflight (ring forwarded) /\
  sent (ring forwarded) ++ tx_open (ring forwarded) = map fwd (got (ring forwarded)) /\
  zlength (tx_open (ring forwarded)) = nb_frags forwarded /\
  ran (ring forwarded) = map area (heads true (got (ring forwarded))).
Proof.
  split; [vm_compute; reflexivity|]. apply (xsk_forwarding small_options 10 10 five_frames forwarded).
  - apply start_blank.
  - split; vm_compute; reflexivity.
  - vm_compute. discriminate.
  - vm_compute. reflexivity.
Defined.

(** In the middle of the packet of three frames. *)
Lemma first_turn_rests : at_rest (XskRings.frames frame_of (ring first_turn)) first_turn /\ forwarding first_turn.
Proof. split; split; try reflexivity. Qed.
Lemma l2fwd_turn_ends_witness : nb_frags first_turn = 1 /\ l2fwd small_options 8 first_turn <> Spin.
Proof.
  split; [reflexivity|].
  apply (l2fwd_turn_ends small_options (XskRings.frames frame_of (ring first_turn)) 8 first_turn).
  - apply first_turn_rests.
  - apply first_turn_rests.
  - vm_compute. discriminate.
  - reflexivity.
  - vm_compute. discriminate.
  - reflexivity.
  - apply kernel_sends.
  - vm_compute. discriminate.
  - vm_compute. discriminate.
Defined.

Lemma rx_drop_returns_frames_witness :
  exists s', rx_drop small_options 0 populated = Ret tt s' /\
    at_rest (XskRings.frames frame_of (ring populated)) s' /\ dropping s'.
Proof.
  apply (rx_drop_returns_frames small_options _ populated).
  - split; reflexivity.
  - reflexivity.
  - vm_compute. discriminate.
  - reflexivity.
  - vm_compute. discriminate.
Defined.

(** The verdict has no effect: what the program drops is sent all the same. *)
Lemma dropped_packets_are_sent :
  verdict (env forwarded) = XDP_DROP /\
  ran (ring forwarded) = [(256, 316); (4352, 8448); (16640, 16704)] /\
  sent (ring forwarded) = map (fun '(a, n, c) => Desc a n c)
    [(256, 60, 0); (4352, 4096, 1); (8448, 4096, 1); (12544, 100, 0); (16640, 64, 0)].
Proof. now vm_compute. Qed.
