(* ===== verification/XskStats.v ===== *)
(** * Statistics of the AF_XDP driver (afxdp/l2fwd/xdpsock.c)

    What the statistics thread reports from the counters of a socket, when the benchmark ends,
    and the two functions on packet bytes, [swap_mac_addresses] and [hex_dump].  A report has the
    difference since the last one and the total; the division by the time is left out. *)
From Stdlib Require Import ZArith Lia Ascii String.
From stdpp Require Import base numbers list option.
From S2P Require Import Prelude CLib XskOptions XskDriver.
#[local] Open Scope Z_scope.
#[local] Open Scope list_scope.

(** ** Data *)

(** @src afxdp/headers/linux/if_xdp.h 81-88 xdp_statistics *)
Record xdp_statistics := XdpStatistics {
  rx_dropped : Z; rx_invalid_descs : Z; tx_invalid_descs : Z; rx_ring_full : Z;
  rx_fill_ring_empty_descs : Z; tx_ring_empty_descs : Z
}.
Definition no_xdp_statistics : xdp_statistics := XdpStatistics 0 0 0 0 0 0.

(** The fields of a socket that only the statistics use: the [prev_] copies, and the counters
    that the kernel or the interrupt file gives.
    @src afxdp/l2fwd/xdpsock.c 166-205 xsk_ring_stats *)
Record printed := Printed {
  prev_ring : xsk_ring_stats; prev_app : xsk_app_stats;
  xdp_stats : xdp_statistics; prev_xdp : xdp_statistics; intrs : Z; prev_intrs : Z
}.
#[global] Instance eta_printed : Eta printed := fun p =>
  Printed (prev_ring p) (prev_app p) (xdp_stats p) (prev_xdp p) (intrs p) (prev_intrs p).
(** As [calloc] leaves them. *)
Definition fresh_printed : printed :=
  Printed (RingStats 0 0 0 0) (AppStats 0 0 0 0 0) no_xdp_statistics no_xdp_statistics 0 0.

(** One line: what is counted, the difference, the total. *)
Record report := Report { r_what : string; r_diff : Z; r_total : Z }.
Definition line (what : string) (now prev : Z) : report := Report what (u64 (now - prev)) now.

(** ** The reports *)

(** The rates of packets, and of frames when they are counted.
    @src afxdp/l2fwd/xdpsock.c 525-569 dump_stats *)
Definition dump_rings (o : options) (k : xsk_socket_info) (p : printed) : list report * printed :=
  let now := ring_stats k in
  let prev := prev_ring p in
  let packets := [line "rx" (rx_npkts now) (rx_npkts prev); line "tx" (tx_npkts now) (tx_npkts prev)] in
  if opt_frags o then
    (packets ++ [line "rx frags" (rx_frags now) (rx_frags prev); line "tx frags" (tx_frags now) (tx_frags prev)],
     p <| prev_ring := now |>)
  else (packets, p <| prev_ring := RingStats (rx_frags prev) (rx_npkts now) (tx_frags prev) (tx_npkts now) |>).

(** [answer] is that of [getsockopt]: its result, the size that it sets, and the counters.  The
    result is the error.
    @src afxdp/l2fwd/xdpsock.c 351-373 xsk_get_xdp_stats *)
Definition xsk_get_xdp_stats (answer : Z * Z * xdp_statistics) (p : printed) : Z * printed :=
  let '(err, optlen, stats) := answer in
  if nz err then (err, p)
  else if optlen =? 48 then (0, p <| xdp_stats := stats |>)
  else (-22, p).

(** @src afxdp/l2fwd/xdpsock.c 571-614 dump_stats *)
Definition dump_extra (o : options) (answer : Z * Z * xdp_statistics) (p : printed) : list report * printed :=
  if negb (opt_extra_stats o) then ([], p) else
  let '(err, p) := xsk_get_xdp_stats answer p in
  if nz err then ([], p) else
  let now := xdp_stats p in
  let prev := prev_xdp p in
  ([line "rx dropped" (rx_dropped now) (rx_dropped prev);
    line "rx invalid" (rx_invalid_descs now) (rx_invalid_descs prev);
    line "tx invalid" (tx_invalid_descs now) (tx_invalid_descs prev);
    line "rx queue full" (rx_ring_full now) (rx_ring_full prev);
    line "fill ring empty" (rx_fill_ring_empty_descs now) (rx_fill_ring_empty_descs prev);
    line "tx ring empty" (tx_ring_empty_descs now) (tx_ring_empty_descs prev)],
   p <| prev_xdp := now |>).

(** @src afxdp/l2fwd/xdpsock.c 379-411 dump_app_stats *)
Definition dump_app (k : xsk_socket_info) (p : printed) : list report * printed :=
  let now := app_stats k in
  let prev := prev_app p in
  ([line "rx empty polls" (rx_empty_polls now) (rx_empty_polls prev);
    line "fill fail polls" (fill_fail_polls now) (fill_fail_polls prev);
    line "copy tx sendtos" (copy_tx_sendtos now) (copy_tx_sendtos prev);
    line "tx wakeup sendtos" (tx_wakeup_sendtos now) (tx_wakeup_sendtos prev);
    line "opt polls" (opt_polls now) (opt_polls prev)],
   p <| prev_app := now |>).

(** [n_ints] is the result of [get_irqs]; [None]: it is negative, and the loop ends.
    @src afxdp/l2fwd/xdpsock.c 497-513 dump_driver_stats *)
Definition dump_driver (o : options) (n_ints : Z) (p : printed) : option (list report * printed) :=
  if n_ints <? 0 then None else
  let p := p <| intrs := u64 (n_ints - irqs_at_init o) |> in
  Some ([line "irqs" (intrs p) (prev_intrs p)], p <| prev_intrs := intrs p |>).

(** All sockets in turn.  [extra] and [irqs] are the answers for each.
    @src afxdp/l2fwd/xdpsock.c 525-615 dump_stats *)
Fixpoint dump_sockets (o : options) (socks : list (xsk_socket_info * printed))
  (extra : list (Z * Z * xdp_statistics)) : list report * list (xsk_socket_info * printed) :=
  match socks with
  | [] => ([], [])
  | (k, p) :: socks =>
      let '(r1, p) := dump_rings o k p in
      let '(r2, p) := dump_extra o (default (-1, 0, no_xdp_statistics) (head extra)) p in
      let '(rs, socks) := dump_sockets o socks (tail extra) in
      (r1 ++ r2 ++ rs, (k, p) :: socks)
  end.
(** @src afxdp/l2fwd/xdpsock.c 375-421 dump_app_stats *)
Fixpoint dump_app_stats (socks : list (xsk_socket_info * printed))
  : list report * list (xsk_socket_info * printed) :=
  match socks with
  | [] => ([], [])
  | (k, p) :: socks =>
      let '(r, p) := dump_app k p in
      let '(rs, socks) := dump_app_stats socks in (r ++ rs, (k, p) :: socks)
  end.
(** @src afxdp/l2fwd/xdpsock.c 492-515 dump_driver_stats *)
Fixpoint dump_driver_stats (o : options) (socks : list (xsk_socket_info * printed)) (irqs : list Z)
  : list report * list (xsk_socket_info * printed) :=
  match socks, irqs with
  | (k, p) :: socks', n_ints :: irqs =>
      match dump_driver o n_ints p with
      | None => ([], socks)
      | Some (r, p) =>
          let '(rs, socks') := dump_driver_stats o socks' irqs in (r ++ rs, (k, p) :: socks')
      end
  | _, _ => ([], socks)
  end.
(** @src afxdp/l2fwd/xdpsock.c 517-621 dump_stats *)
Definition dump_stats (o : options) (extra : list (Z * Z * xdp_statistics)) (irqs : list Z)
  (socks : list (xsk_socket_info * printed)) : list report * list (xsk_socket_info * printed) :=
  let '(r1, socks) := dump_sockets o socks extra in
  let '(r2, socks) := if opt_app_stats o then dump_app_stats socks else ([], socks) in
  let '(r3, socks) := if nz (irq_no o) then dump_driver_stats o socks irqs else ([], socks) in
  (r1 ++ r2 ++ r3, socks).

(** ** The end of the benchmark *)

(** [now] and [start_time] are times in nanoseconds, [finished] the global variable.
    @src afxdp/l2fwd/xdpsock.c 623-632 is_benchmark_done *)
Definition is_benchmark_done (o : options) (start_time now : Z) (finished : bool) : bool :=
  if opt_duration o >? 0 then (u64 (now - start_time) >=? opt_duration o) || finished else finished.
(** [times] are what the clock shows when the thread looks: the reports it makes.
    @src afxdp/l2fwd/xdpsock.c 634-643 poller *)
Fixpoint poller (o : options) (start_time : Z) (times : list (Z * bool)) : nat :=
  match times with
  | [] => 0
  | (now, interrupted) :: times =>
      if is_benchmark_done o start_time now interrupted then 0 else S (poller o start_time times)
  end.

(** ** Bytes of a packet *)

(** @src afxdp/l2fwd/xdpsock.c 691-701 swap_mac_addresses *)
Definition swap_mac_addresses (data : list Z) : list Z :=
  take 6 (drop 6 data) ++ take 6 data ++ drop 12 data.

(** What [hex_dump] prints: bytes in hexadecimal, padding, and the characters of a line. *)
Inductive token := Hex (b : Z) | Pad | Close (line : list Z) | Address.
(** A character is shown as it is, or as a dot.
    @src afxdp/l2fwd/xdpsock.c 723-725 hex_dump *)
Definition shown (c : Z) : Z := if (c <? 33) || (c =? 255) then 0x2e else c.
(** The loop over the bytes: [i] have been printed, [pending] is the line so far.
    @src afxdp/l2fwd/xdpsock.c 716-731 hex_dump *)
Fixpoint hex_loop (i : nat) (pending bytes : list Z) : list token :=
  match bytes with
  | [] => []
  | b :: bytes =>
      let i := S i in
      let pending := pending ++ [b] in
      let last := match bytes with [] => true | _ => false end in
      Hex b ::
      (if (i mod 32 =? 0)%nat || (last && negb (i mod 32 =? 0)%nat) then
         (if last then repeat Pad ((32 - i mod 32) mod 32) else [])
         ++ [Close (map shown pending)] ++ (if last then [] else [Address]) ++ hex_loop i [] bytes
       else hex_loop i pending bytes)
  end.
(** @src afxdp/l2fwd/xdpsock.c 703-733 hex_dump *)
Definition hex_dump (pkt : list Z) : list token := Address :: hex_loop 0 [] pkt.

(** ** The reports add up *)

(** The counters of a socket are 64 bits wide. *)
Definition counters_ok (r : xsk_ring_stats) : Prop :=
  is_u64 (rx_frags r) /\ is_u64 (rx_npkts r) /\ is_u64 (tx_frags r) /\ is_u64 (tx_npkts r).

Fixpoint reported (what : string) (rs : list report) : Z :=
  match rs with
  | [] => 0
  | r :: rs => (if String.eqb (r_what r) what then r_diff r else 0) + reported what rs
  end.
Lemma reports_app what a b : reported what (a ++ b) = reported what a + reported what b.
Proof. induction a as [|r a IH]; cbn [app reported]; [done|]. rewrite IH. lia. Qed.

(** The reports of one socket over a run: [history] are its counters when it is looked at. *)
Fixpoint ring_reports (o : options) (p : printed) (history : list xsk_socket_info) : list report * printed :=
  match history with
  | [] => ([], p)
  | k :: history =>
      let '(r, p) := dump_rings o k p in
      let '(rs, p) := ring_reports o p history in (r ++ rs, p)
  end.

Lemma dump_rings_rx o k p :
  let '(r, p') := dump_rings o k p in
  reported "rx" r = u64 (rx_npkts (ring_stats k) - rx_npkts (prev_ring p))
  /\ reported "tx" r = u64 (tx_npkts (ring_stats k) - tx_npkts (prev_ring p))
  /\ rx_npkts (prev_ring p') = rx_npkts (ring_stats k) /\ tx_npkts (prev_ring p') = tx_npkts (ring_stats k).
Proof. unfold dump_rings. destruct (opt_frags o); cbn; repeat split; lia. Qed.

(** No packet is missing from the reports of a run and none is reported twice, as long as the
    last report is made: the differences add up to the counter. *)
Lemma ring_reports_total o p history k :
  u64 (reported "rx" (ring_reports o p (history ++ [k])).1)
    = u64 (rx_npkts (ring_stats k) - rx_npkts (prev_ring p)) /\
  u64 (reported "tx" (ring_reports o p (history ++ [k])).1)
    = u64 (tx_npkts (ring_stats k) - tx_npkts (prev_ring p)).
Proof.
  revert p. induction history as [|k0 history IH]; intros p; cbn [app ring_reports].
  - pose proof (dump_rings_rx o k p) as Hd. destruct (dump_rings o k p) as [r p'].
    destruct Hd as (Hr & Ht & _ & _). cbn [fst]. rewrite app_nil_r, Hr, Ht. unfold u64. now rewrite !Zmod_mod.
  - pose proof (dump_rings_rx o k0 p) as Hd. destruct (dump_rings o k0 p) as [r p'].
    destruct Hd as (Hr & Ht & Pr & Pt). specialize (IH p').
    destruct (ring_reports o p' (history ++ [k])) as [rs p2]. cbn [fst] in IH |- *.
    rewrite !reports_app, Hr, Ht. destruct IH as [IHr IHt]. rewrite Pr in IHr. rewrite Pt in IHt.
    unfold u64 in *. rewrite !Zplus_mod_idemp_l.
    split; [rewrite <- Zplus_mod_idemp_r, IHr, Zplus_mod_idemp_r|rewrite <- Zplus_mod_idemp_r, IHt, Zplus_mod_idemp_r];
      f_equal; lia.
Qed.

(** The thread ends once the duration is over or the program has been interrupted. *)
Lemma poller_stops o start_time times now interrupted rest :
  0 < opt_duration o -> opt_duration o <= u64 (now - start_time) ->
  (poller o start_time (times ++ (now, interrupted) :: rest) <= length times)%nat.
Proof.
  intros H0 Hd. induction times as [|[t b] times IH]; cbn [app poller length].
  - unfold is_benchmark_done. rewrite (proj2 (Z.gtb_lt _ _)) by lia.
    destruct (Z.geb_spec (u64 (now - start_time)) (opt_duration o)); [cbn; lia|lia].
  - destruct (is_benchmark_done _ _ _ _); lia.
Qed.

(** Exchanging the addresses twice gives the packet back. *)
Lemma swap_mac_twice data : (12 <= length data)%nat -> swap_mac_addresses (swap_mac_addresses data) = data.
Proof.
  intros Hl. unfold swap_mac_addresses.
  assert (L1 : length (take 6 (drop 6 data)) = 6%nat) by (rewrite length_take, length_drop; lia).
  assert (L2 : length (take 6 data) = 6%nat) by (rewrite length_take; lia).
  set (a := take 6 (drop 6 data)) in *. set (b := take 6 data) in *.
  rewrite (drop_app_length' a) by done. rewrite (take_app_length' a) by done.
  rewrite (take_app_length' b) by done.
  replace 12%nat with (6 + 6)%nat by done. rewrite <- !(drop_drop _ 6 6).
  rewrite (drop_app_length' a), (drop_app_length' b) by done.
  unfold a, b. rewrite take_drop. apply take_drop.
Qed.

(** The bytes in hexadecimal are those of the packet, and so are the characters next to them. *)
Definition hexes (ts : list token) : list Z := omap (fun t => match t with Hex b => Some b | _ => None end) ts.
Definition closed (ts : list token) : list Z := flat_map (fun t => match t with Close l => l | _ => [] end) ts.
Lemma hexes_app a b : hexes (a ++ b) = hexes a ++ hexes b.
Proof. unfold hexes. apply omap_app. Qed.
Lemma closed_app a b : closed (a ++ b) = closed a ++ closed b.
Proof. unfold closed. apply flat_map_app. Qed.
Lemma hexes_pad n : hexes (repeat Pad n) = [] /\ closed (repeat Pad n) = [].
Proof. induction n as [|n [IH1 IH2]]; split; cbn; auto. Qed.
Lemma hex_loop_shows i pending bytes :
  hexes (hex_loop i pending bytes) = bytes /\
  (bytes <> [] -> closed (hex_loop i pending bytes) = map shown (pending ++ bytes)).
Proof.
  revert i pending. induction bytes as [|b bytes IH]; intros i pending; [done|].
  cbn [hex_loop]. change (hexes (Hex b :: ?l)) with (b :: hexes l).
  change (closed (Hex b :: ?l)) with (closed l).
  destruct bytes as [|b' bytes].
  - assert (Hb : ((S i mod 32 =? 0) || (true && negb (S i mod 32 =? 0)))%nat = true) by now destruct (_ =? 0)%nat.
    rewrite Hb. cbn [hex_loop app]. rewrite !hexes_app, !closed_app.
    destruct (hexes_pad ((32 - S i mod 32) mod 32)) as [-> ->]. cbn. now rewrite app_nil_r.
  - destruct (IH (S i) []) as [H1 H2]. destruct (IH (S i) (pending ++ [b])) as [H3 H4].
    cbn [andb orb]. rewrite orb_false_r. destruct (_ =? 0)%nat.
    + change ([] ++ ?l) with l. rewrite hexes_app, closed_app. change (hexes [Close ?l]) with (@nil Z).
      change ([Address] ++ ?l) with (Address :: l). change (hexes (Address :: ?l)) with (hexes l).
      change (closed (Address :: ?l)) with (closed l). rewrite H1, H2 by done. cbn [app]. split; [done|].
      intros _. cbn [closed flat_map app]. rewrite app_nil_r, <- map_app. f_equal. now rewrite <- app_assoc.
    + rewrite H3, H4 by done. split; [done|]. intros _. now rewrite <- app_assoc.
Qed.
Lemma hex_dump_shows pkt : pkt <> [] ->
  hexes (hex_dump pkt) = pkt /\ closed (hex_dump pkt) = map shown pkt.
Proof. intros Hp. destruct (hex_loop_shows 0 [] pkt) as [H1 H2]. split; [exact H1|]. now apply H2. Qed.
