(* ===== verification/XskMain.v ===== *)
(** * The AF_XDP driver as a whole (afxdp/l2fwd/xdpsock.c)

    The set-up of the program, the memory and the sockets, the loops over several sockets with
    one memory, and the end.  The functions of XskDriver.v work on one socket; here socket [i]
    has its own receive and transmit rings, the class [apis i], and all share the fill and the
    completion ring, the static variables and the kernel. *)
From Stdlib Require Import ZArith Lia Permutation Ascii String.
From stdpp Require Import base numbers list option relations.
From S2P Require Import Prelude CLib Xdp XskOptions XskPktgen XskDriver XskRings XskForward XskStats.
#[local] Open Scope Z_scope.
#[local] Open Scope list_scope.

(** ** Data *)

(** The variance of the cyclic transmission; the average is kept as its sum, as an integer.
    @src afxdp/l2fwd/xdpsock.c 90-93 tx_cycle_diff_min *)
Record tx_cycle := TxCycle { diff_min : Z; diff_max : Z; diff_sum : Z; cycle_cnt : Z }.

(** The sockets with their statistics, the static variables, and the world. *)
Record msk_state (K : Type) := Msk {
  socks : list (xsk_socket_info * printed); s_nb_frags : Z; s_sequence : Z; s_cycle : tx_cycle; s_env : K
}.
Arguments Msk {K}.
Arguments socks {K}.
Arguments s_nb_frags {K}.
Arguments s_sequence {K}.
Arguments s_cycle {K}.
Arguments s_env {K}.
#[global] Instance eta_msk K : Eta (msk_state K) := fun s =>
  Msk (socks s) (s_nb_frags s) (s_sequence s) (s_cycle s) (s_env s).

(** [MExit] is the end of the process, [MSpin] the end of the fuel, [MFault] a null pointer or
    an index outside an array. *)
Inductive moutcome (K A : Type) := MDone (a : A) (s : msk_state K) | MExit (code : Z) | MSpin | MFault.
Arguments MDone {K A}.
Arguments MExit {K A}.
Arguments MSpin {K A}.
Arguments MFault {K A}.
Definition msk (K A : Type) : Type := msk_state K -> moutcome K A.
#[global] Instance msk_ret K : MRet (msk K) := fun A a s => MDone a s.
#[global] Instance msk_bind K : MBind (msk K) := fun A B k m s =>
  match m s with MDone a s' => k a s' | MExit e => MExit e | MSpin => MSpin | MFault => MFault end.

(** The options of a socket that [xsk_socket__create] is given. *)
Record socket_config := SocketConfig { rx_size : Z; tx_size : Z; libxdp_flags : Z; xdp_flags : Z; bind_flags : Z }.
(** What a map of the loaded program looks like: the descriptor, the error of the query, the
    name and the sizes of key and value. *)
Record map_info := MapInfo { map_fd : Z; map_err : Z; map_name : string; key_size : Z; value_size : Z }.
(** The answers to [socket], [connect] and [recvmsg], with the descriptor in the control message
    if there is one. *)
Record ctrl_node := CtrlNode { c_socket : Z; c_connect : Z; c_errno : Z; c_recv : Z; c_cmsg : option Z }.

(** libxdp, libbpf and the system calls of the set-up and the end; results are return codes. *)
Class XskHostApi (K : Type) := {
  XSK_RING_PROD__DEFAULT_NUM_DESCS : Z;
  XSK_RING_CONS__DEFAULT_NUM_DESCS : Z;
  XSK_LIBXDP_FLAGS__INHIBIT_PROG_LOAD : Z;
  nsecs : K -> Z * K;
  clock_nanosleep : Z -> K -> Z * K;
  poll_out : nat -> K -> Z * bool * K;
  setrlimit : K -> Z * K;
  program_open : K -> Z * K;
  program_set_frags : bool -> K -> Z * K;
  program_attach : K -> Z * K;
  program_detach : K -> Z * K;
  mmap : Z -> K -> bool * K;
  umem_create : Z -> K -> Z * K;
  socket_create : nat -> socket_config -> bool -> bool -> K -> Z * K;
  setsockopt : nat -> Z -> Z -> K -> Z * Z * K;
  find_bss : K -> bool;
  update_bss : Z -> K -> Z * K;
  prog_maps : K -> Z * list map_info;
  update_xsks_map : Z -> nat -> K -> Z * K;
  ctrl : K -> ctrl_node * K;
  update_xskmap : Z -> K -> Z * K;
  pthread_create : K -> Z * K;
  sched_setscheduler : Z -> Z -> K -> Z * K;
  xdp_statistics_of : nat -> K -> Z * Z * xdp_statistics;
  interrupts : K -> list Z;
  socket_delete : nat -> K -> K;
  write_close : K -> Z * Z * K
}.

Section main.
Context {K : Type} (apis : nat -> XskApi K) `{XskHostApi K} (o : options).

Definition mcall {A} (f : K -> A * K) : msk K A := fun s =>
  let '(a, k) := f (s_env s) in MDone a (s <| @s_env K := k |>).
Definition mact (f : K -> K) : msk K unit := fun s => MDone tt (s <| @s_env K := f (s_env s) |>).
Definition mgets {A} (f : msk_state K -> A) : msk K A := fun s => MDone (f s) s.
Definition mupdate (f : msk_state K -> msk_state K) : msk K unit := fun s => MDone tt (f s).
Definition mexit {A} (code : Z) : msk K A := fun _ => MExit code.
Definition mspin {A} : msk K A := fun _ => MSpin.
Definition mfault {A} : msk K A := fun _ => MFault.
Definition mwhen (b : bool) (m : msk K unit) : msk K unit := if b then m else mret tt.
Fixpoint mfor {A} (n : nat) (i : nat) (a : A) (body : nat -> A -> msk K A) : msk K A :=
  match n with O => mret a | S n => a ← body i a; mfor n (S i) a body end.

(** A function of XskDriver.v on socket [i]. *)
Definition on_socket {A} (i : nat) (m : xsk K A) : msk K A := fun s =>
  match socks s !! i with
  | None => MFault
  | Some (k, p) =>
      match m (Xsk k (s_nb_frags s) (s_sequence s) (s_env s)) with
      | Ret a s' => MDone a (Msk (<[i := (sock s', p)]> (socks s)) (nb_frags s') (sequence s') (s_cycle s) (env s'))
      | Exit e => MExit e
      | Spin => MSpin
      end
  end.
Definition num_socks : msk K nat := mgets (fun s => length (socks s)).

(** ** The program *)

(** @src afxdp/l2fwd/xdpsock.c 645-652 remove_xdp_program *)
Definition remove_xdp_program : msk K unit := mcall program_detach ;; mret tt.
(** The exit status is that of a failure whatever the error.
    @src afxdp/l2fwd/xdpsock.c 659-668 __exit_with_error *)
Definition exit_with_error {A} (error : Z) : msk K A :=
  mwhen (load_xdp_prog o) remove_xdp_program ;; mexit 1.
Definition check (ret : Z) : msk K unit := if nz ret then exit_with_error (- ret) else mret tt.

(** @src afxdp/l2fwd/xdpsock.c 1850-1876 load_xdp_program *)
Definition load_xdp_program : msk K unit :=
  err ← mcall program_open;
  mwhen (nz err) (mexit 1) ;;
  err ← mcall (program_set_frags (opt_frags o));
  mwhen (nz err) (mexit 1) ;;
  err ← mcall program_attach;
  mwhen (nz err) (mexit 1).

(** The loop over the maps: the first that is readable and has the name and the sizes; -ENOENT.
    @src afxdp/l2fwd/xdpsock.c 1905-1925 lookup_bpf_map *)
Fixpoint find_xsks_map (maps : list map_info) : Z :=
  match maps with
  | [] => -2
  | m :: maps =>
      if map_fd m <? 0 then find_xsks_map maps
      else if nz (map_err m) then find_xsks_map maps
      else if String.eqb (map_name m) "xsks_map" && (key_size m =? 4) && (value_size m =? 4) then map_fd m
      else find_xsks_map maps
  end.
(** [maps] is the result of the query and the maps of the program.
    @src afxdp/l2fwd/xdpsock.c 1878-1929 lookup_bpf_map *)
Definition lookup_bpf_map (maps : Z * list map_info) : Z :=
  if nz maps.1 then maps.1 else find_xsks_map maps.2.

(** @src afxdp/l2fwd/xdpsock.c 1931-1964 enter_xsks_into_map *)
Definition enter_xsks_into_map : msk K unit :=
  found ← mgets (fun s => find_bss (s_env s));
  mwhen (negb found) (mexit 1) ;;
  n ← num_socks;
  err ← mcall (update_bss (Z.of_nat n));
  mwhen (nz err) (mexit 1) ;;
  xsks_map ← mgets (fun s => lookup_bpf_map (prog_maps (s_env s)));
  mwhen (xsks_map <? 0) (mexit 1) ;;
  mfor n 0 tt (fun i _ => err ← mcall (update_xsks_map xsks_map i); mwhen (nz err) (mexit 1)).

(** The descriptor in the control message; -EINVAL is an error, and a message without control
    data a null pointer.
    @src afxdp/l2fwd/xdpsock.c 1989-2025 recv_xsks_map_fd_from_ctrl_node *)
Definition recv_xsks_map_fd_from_ctrl_node (c : ctrl_node) : option (Z * Z) :=
  if c_recv c <? 0 then Some (-22, 0)
  else if c_recv c =? 0 then Some (-22, 0)
  else match c_cmsg c with Some fd => Some (0, fd) | None => None end.
(** The error and the descriptor.
    @src afxdp/l2fwd/xdpsock.c 2027-2054 recv_xsks_map_fd *)
Definition recv_xsks_map_fd (c : ctrl_node) : option (Z * Z) :=
  if c_socket c <? 0 then Some (c_errno c, 0)
  else if c_connect c <? 0 then Some (c_errno c, 0)
  else match recv_xsks_map_fd_from_ctrl_node c with
       | None => None
       | Some (err, fd) => if nz err then Some (err, 0) else Some (0, fd)
       end.

(** ** The sockets *)

(** @src afxdp/l2fwd/xdpsock.c 1024-1056 xsk_configure_umem *)
Definition xsk_configure_umem (size : Z) : msk K unit := ret ← mcall (umem_create size); check ret.

(** The flags of the XDP program are those of if_link.h.
    @src afxdp/l2fwd/xdpsock.c 1083-1093 xsk_configure_socket *)
Definition config : socket_config :=
  SocketConfig XSK_RING_CONS__DEFAULT_NUM_DESCS XSK_RING_PROD__DEFAULT_NUM_DESCS
    (if load_xdp_prog o || opt_reduced_cap o then XSK_LIBXDP_FLAGS__INHIBIT_PROG_LOAD else 0)
    (match opt_attach_mode o with XDP_MODE_SKB => 2 | XDP_MODE_NATIVE => 4 end)
    (opt_xdp_bind_flags o).
(** @src afxdp/l2fwd/xdpsock.c 1073-1115 xsk_configure_socket *)
Definition xsk_configure_socket (i : nat) (rx tx : bool) : msk K unit :=
  ret ← mcall (socket_create i config rx tx);
  check ret ;;
  mupdate (fun s => s <| @socks K := socks s ++ [(Socket (RingStats 0 0 0 0) (AppStats 0 0 0 0 0) 0, fresh_printed)] |>).

Definition set_option (i : nat) (opt val : Z) : msk K unit :=
  '(ret, errno) ← mcall (setsockopt i opt val);
  mwhen (ret <? 0) (exit_with_error errno).
(** SO_PREFER_BUSY_POLL, SO_BUSY_POLL and SO_BUSY_POLL_BUDGET.
    @src afxdp/l2fwd/xdpsock.c 1966-1987 apply_setsockopt *)
Definition apply_setsockopt (i : nat) : msk K unit :=
  if negb (opt_busy_poll o) then mret tt else
  set_option i 69 1 ;;
  set_option i 46 20 ;;
  set_option i 70 (s32 (opt_batch_size o)).

(** ** The loops over the sockets *)

(** @src afxdp/l2fwd/xdpsock.c 1555-1558 rx_drop_all *)
Definition wait_all : msk K Z :=
  if opt_poll o then
    n ← num_socks;
    mfor n 0 tt (fun i _ => on_socket i (count_app (fun a => a <| opt_polls := opt_polls a + 1 |>))) ;;
    mcall (@poll K (apis 0))
  else mret 1.
Definition each_socket (body : nat -> msk K unit) : msk K unit :=
  n ← num_socks; mfor n 0 tt (fun i _ => body i).
(** @src afxdp/l2fwd/xdpsock.c 1544-1569 rx_drop_all *)
Fixpoint rx_drop_all (turns fuel : nat) : msk K unit :=
  match turns with
  | O => mspin
  | S turns =>
      ret ← wait_all;
      if ret <=? 0 then rx_drop_all turns fuel else
      each_socket (fun i => on_socket i (@rx_drop K (apis i) o fuel)) ;;
      finished ← mcall (@benchmark_done K (apis 0));
      if (finished : bool) then mret tt else rx_drop_all turns fuel
  end.
(** @src afxdp/l2fwd/xdpsock.c 1825-1848 l2fwd_all *)
Fixpoint l2fwd_all (turns fuel : nat) : msk K unit :=
  match turns with
  | O => mspin
  | S turns =>
      ret ← wait_all;
      if ret <=? 0 then l2fwd_all turns fuel else
      each_socket (fun i => on_socket i (@l2fwd K (apis i) o fuel)) ;;
      finished ← mcall (@benchmark_done K (apis 0));
      if (finished : bool) then mret tt else l2fwd_all turns fuel
  end.

(** [pending] is whether the last socket that had something outstanding still has.
    @src afxdp/l2fwd/xdpsock.c 1644-1659 complete_tx_only_all *)
Fixpoint complete_tx_only_all (retries : nat) : msk K unit :=
  n ← num_socks;
  pending ← mfor n 0 false (fun i pending => on_socket i
    (before ← gets (fun s => outstanding_tx (sock s));
     if nz before then
       @complete_tx_only K (apis i) o (opt_batch_size o) ;;
       after ← gets (fun s => outstanding_tx (sock s));
       mret (nz after)
     else mret pending));
  if (pending : bool) then
    match retries with O => mret tt | S retries => complete_tx_only_all retries end
  else mret tt.

(** ** Cyclic transmission *)

(** @src afxdp/l2fwd/xdpsock.c 78 NSEC_PER_SEC *)
Definition NSEC_PER_SEC : Z := 1000000000.
(** @src afxdp/l2fwd/xdpsock.c 79 NSEC_PER_USEC *)
Definition NSEC_PER_USEC : Z := 1000.
Definition s64 (x : Z) : Z := (x + 9223372036854775808) mod 18446744073709551616 - 9223372036854775808.

(** @src afxdp/l2fwd/xdpsock.c 1723-1733 tx_only_all *)
Definition measure (tx_ns next_tx_ns : Z) (c : tx_cycle) : tx_cycle :=
  let diff := s64 (tx_ns - next_tx_ns) in
  TxCycle (if diff <? diff_min c then diff else diff_min c) (if diff >? diff_max c then diff else diff_max c)
    (diff_sum c + diff) (cycle_cnt c + 1).

(** The time of sending, [None] when the sleep fails.
    @src afxdp/l2fwd/xdpsock.c 1711-1736 tx_only_all *)
Definition tx_time (next_tx_ns : Z) : msk K (option Z) :=
  if nz (opt_tx_cycle_ns o) then
    err ← mcall (clock_nanosleep next_tx_ns);
    if nz err then mret None else
    tx_ns ← mcall nsecs;
    mupdate (fun s => s <| @s_cycle K := measure tx_ns next_tx_ns (s_cycle s) |>) ;;
    mret (Some tx_ns)
  else if opt_tstamp o then tx_ns ← mcall nsecs; mret (Some tx_ns)
  else mret (Some 0).

(** Every socket sends a batch; the results are the number of packets and the frame numbers.
    @src afxdp/l2fwd/xdpsock.c 1738-1739 tx_only_all *)
Definition send_all (fuel : nat) (frames_per_pkt batch_size tx_ns : Z) (frame_nb : list Z) : msk K (Z * list Z) :=
  n ← num_socks;
  mfor n 0 (0, frame_nb) (fun i '(tx_cnt, frame_nb) =>
    '(cnt, nb) ← on_socket i (@tx_only K (apis i) o fuel frames_per_pkt (nth i frame_nb 0) batch_size tx_ns);
    mret (s32 (tx_cnt + cnt), <[i := nb]> frame_nb)).

(** The result of [poll], and whether [fds[0]] is ready.
    @src afxdp/l2fwd/xdpsock.c 1700-1708 tx_only_all *)
Definition wait_out : msk K bool :=
  if opt_poll o then
    n ← num_socks;
    mfor n 0 tt (fun i _ => on_socket i (count_app (fun a => a <| opt_polls := opt_polls a + 1 |>))) ;;
    '(ret, ready) ← mcall (poll_out (Nat.pred n));
    mret (negb (ret <=? 0) && ready)
  else mret true.

(** The loop.
    @src afxdp/l2fwd/xdpsock.c 1692-1748 tx_only_all *)
Fixpoint tx_loop (turns fuel : nat) (frames_per_pkt pkt_cnt next_tx_ns : Z) (frame_nb : list Z) : msk K unit :=
  if negb ((nz (opt_pkt_count o) && (pkt_cnt <? opt_pkt_count o)) || negb (nz (opt_pkt_count o))) then mret tt else
  match turns with
  | O => mspin
  | S turns =>
      let batch_size := get_batch_size o frames_per_pkt pkt_cnt in
      ready ← wait_out;
      if negb ready then tx_loop turns fuel frames_per_pkt pkt_cnt next_tx_ns frame_nb else
      t ← tx_time next_tx_ns;
      match (t : option Z) with
      | None => mret tt
      | Some tx_ns =>
          '(tx_cnt, frame_nb) ← send_all fuel frames_per_pkt batch_size tx_ns frame_nb;
          let pkt_cnt := s32 (pkt_cnt + tx_cnt) in
          finished ← mcall (@benchmark_done K (apis 0));
          if (finished : bool) then mret tt else
          let next_tx_ns := if nz (opt_tx_cycle_ns o) then u64 (next_tx_ns + opt_tx_cycle_ns o) else next_tx_ns in
          tx_loop turns fuel frames_per_pkt pkt_cnt next_tx_ns frame_nb
      end
  end.
(** [opt_retries] bounds the waiting for completions at the end.
    @src afxdp/l2fwd/xdpsock.c 1661-1752 tx_only_all *)
Definition tx_only_all (turns fuel : nat) (frames_per_pkt : Z) : msk K unit :=
  if opt_poll o && nz (opt_tx_cycle_ns o) then mret tt else
  next_tx_ns ← (if nz (opt_tx_cycle_ns o) then
                  now ← mcall nsecs;
                  mupdate (fun s => s <| @s_cycle K := TxCycle 1000000000 0 0 (cycle_cnt (s_cycle s)) |>) ;;
                  mret (u64 ((now / NSEC_PER_USEC + 1) * NSEC_PER_USEC + opt_tx_cycle_ns o))
                else mret 0);
  tx_loop turns fuel frames_per_pkt 0 next_tx_ns (replicate (Z.to_nat MAX_SOCKS) 0) ;;
  mwhen (nz (opt_pkt_count o)) (complete_tx_only_all (Z.to_nat (opt_retries o))).
End main.

(** ** The program from start to end *)

Section program.
Context {K : Type} (apis : nat -> XskApi K) `{XskHostApi K} `{XskHost} (o : options).

(** A function that uses the rings of the memory only, before there is a socket. *)
Definition on_umem {A} (m : xsk K A) : msk K A := fun s =>
  match m (Xsk (Socket (RingStats 0 0 0 0) (AppStats 0 0 0 0 0) 0) (s_nb_frags s) (s_sequence s) (s_env s)) with
  | Ret a s' => MDone a (Msk (socks s) (nb_frags s') (sequence s') (s_cycle s) (env s'))
  | Exit e => MExit e
  | Spin => MSpin
  end.

(** Limits and the XDP program.  The capabilities that are dropped have no influence here.
    @src afxdp/l2fwd/xdpsock.c 2074-2101 main *)
Definition prepare : msk K unit :=
  if opt_reduced_cap o then mret tt else
  err ← mcall setrlimit;
  mwhen (nz err) (mexit 1) ;;
  mwhen (load_xdp_prog o) (load_xdp_program o).

(** The product is one of [int]s; where it overflows nothing is defined, here it wraps.
    @src afxdp/l2fwd/xdpsock.c 2104-2117 main *)
Definition make_umem : msk K unit :=
  let size := u64 (s32 (NUM_FRAMES * opt_xsk_frame_size o)) in
  ok ← mcall (mmap size);
  mwhen (negb ok) (mexit 1) ;;
  xsk_configure_umem o size ;;
  mwhen (negb (bool_decide (opt_bench o = BENCH_TXONLY)))
    (on_umem (@xsk_populate_fill_ring K (apis 0) o (XSK_RING_PROD__DEFAULT_NUM_DESCS * 2))).

(** @src afxdp/l2fwd/xdpsock.c 2118-2124 main *)
Definition make_sockets : msk K unit :=
  let rx := negb (bool_decide (opt_bench o = BENCH_TXONLY)) in
  let tx := negb (bool_decide (opt_bench o = BENCH_RXDROP)) in
  mfor (Z.to_nat (opt_num_xsks o)) 0 tt (fun i _ => xsk_configure_socket o i rx tx) ;;
  mfor (Z.to_nat (opt_num_xsks o)) 0 tt (fun i _ => apply_setsockopt o i).

(** The options with the size that the time stamp needs, and the frames.  [pkt_addr] is the
    address of [pkt_data].
    @src afxdp/l2fwd/xdpsock.c 2126-2134 main *)
Definition make_frames (pkt_addr : Z) : msk K unit :=
  match gen_eth_hdr_data pkt_addr (pktgen_options o) (Xst (Frame [] (repeat 0 (Z.to_nat MAX_PKT_SIZE)) []) tt 0) with
  | None => mfault
  | Some (_, d) =>
      let frames := gen_eth_frames (pktgen_options o) (f_data (x_frame d)) 0 (Z.to_nat NUM_FRAMES) in
      mfor (Z.to_nat NUM_FRAMES) 0 tt (fun i _ =>
        mact (@umem_store K (apis 0) (@get_data K (apis 0) (Z.of_nat i * opt_xsk_frame_size o)) (nth i frames [])))
  end.
(** The options that the loops run with. *)
Definition run_options : options := if decide (opt_bench o = BENCH_TXONLY) then pktgen_options o else o.

(** @src afxdp/l2fwd/xdpsock.c 2140-2153 main *)
Definition update_ctrl_map : msk K unit :=
  c ← mcall ctrl;
  match recv_xsks_map_fd c with
  | None => mfault
  | Some (err, fd) =>
      mwhen (nz err) (exit_with_error o err) ;;
      ret ← mcall (update_xskmap fd);
      mwhen (nz ret) (exit_with_error o ret)
  end.

(** Everything before the loops; [false] is the jump to [out].
    @src afxdp/l2fwd/xdpsock.c 2074-2178 main *)
Definition start (pkt_addr : Z) : msk K bool :=
  prepare ;;
  make_umem ;;
  make_sockets ;;
  mwhen (bool_decide (opt_bench o = BENCH_TXONLY)) (make_frames pkt_addr) ;;
  mwhen (load_xdp_prog o && negb (bool_decide (opt_bench o = BENCH_TXONLY))) enter_xsks_into_map ;;
  mwhen (opt_reduced_cap o) update_ctrl_map ;;
  mcall nsecs ;;
  mwhen (negb (opt_quiet o)) (ret ← mcall pthread_create; mwhen (nz ret) (exit_with_error o ret)) ;;
  ret ← mcall (sched_setscheduler (opt_schpolicy o) (opt_schprio o));
  mret (negb (nz ret)).

(** @src afxdp/l2fwd/xdpsock.c 2180-2185 main *)
Definition run_benchmark (turns fuel : nat) : msk K unit :=
  match opt_bench o with
  | BENCH_RXDROP => rx_drop_all apis run_options turns fuel
  | BENCH_TXONLY => tx_only_all apis run_options turns fuel (frames_per_pkt run_options XSK_UMEM__DEFAULT_FRAME_SIZE)
  | BENCH_L2FWD => l2fwd_all apis run_options turns fuel
  end.

(** @src afxdp/l2fwd/xdpsock.c 672-689 xdpsock_cleanup *)
Definition xdpsock_cleanup : msk K (list report) :=
  n ← num_socks;
  extra ← mgets (fun s => map (fun i => xdp_statistics_of i (s_env s)) (seq 0 n));
  irqs ← mgets (fun s => interrupts (s_env s));
  reports ← mgets (fun s => (dump_stats run_options extra irqs (socks s)).1);
  mupdate (fun s => s <| @socks K := (dump_stats run_options extra irqs (socks s)).2 |>) ;;
  mfor n 0 tt (fun i _ => mact (socket_delete i)) ;;
  mwhen (opt_reduced_cap o) ('(ret, errno) ← mcall write_close; mwhen (ret <? 0) (exit_with_error o errno)) ;;
  mwhen (load_xdp_prog o) remove_xdp_program ;;
  mret reports.

(** The driver with the options of the command line; the result are the last reports.
    @src afxdp/l2fwd/xdpsock.c 2056-2198 main *)
Definition run_driver (pkt_addr : Z) (turns fuel : nat) : msk K (list report) :=
  go ← start pkt_addr;
  mwhen go (run_benchmark turns fuel) ;;
  xdpsock_cleanup.
End program.

(** @src afxdp/l2fwd/xdpsock.c 2056-2198 main *)
Definition main {K : Type} (apis : nat -> XskApi K) `{XskHostApi K} `{XskHost} (args : list (ascii * string))
  (pkt_addr : Z) (turns fuel : nat) : msk K (list report) :=
  match parse_command_line args with
  | None => mexit 1
  | Some o => run_driver apis o pkt_addr turns fuel
  end.

(** ** What the sockets share *)

(** The count of the frames of a packet is one variable for all sockets.  When a socket leaves a
    packet of [n] frames unfinished, the next frame of another socket is taken for its
    continuation: the program does not run on it, and [n] frames too many count as done. *)
Lemma frame_of_another_socket {K} {api : XskApi K} idx_rx idx_tx i (s : xsk_state K) :
  let d := rx_desc (u32 (idx_rx + i)) (env s) in
  IS_EOP_DESC (desc_options d) = true -> 0 < nb_frags s < 4294967295 ->
  l2fwd_frame idx_rx idx_tx i (0, 0) s =
    Ret (nb_frags s + 1, 1)
      (Xsk (sock s) 0 (sequence s) (tx_desc (u32 (idx_tx + i)) (Desc (addr d) (len d) 0) (env s))).
Proof.
  intros d He Hn. unfold l2fwd_frame, observe, gets, update, act, mbind, xsk_bind. fold d. cbv zeta.
  rewrite He. rewrite (proj2 (Z.eqb_neq (nb_frags s) 0)) by lia. cbn.
  unfold mret, xsk_ret. do 2 f_equal. rewrite !u32_id by (unfold is_u32; rewrite ?u32_id; unfold is_u32; lia). done.
Qed.

(** The completions of all sockets come back in one ring.  In the transmit mode a socket takes a
    whole batch of them, and where it has less than that outstanding its counter wraps. *)
Lemma completions_of_another_socket {K} {api : XskApi K} o batch (s : xsk_state K) rcvd idx k k' :
  opt_need_wakeup o = true -> tx_needs_wakeup (env s) = (false, k) ->
  cq_peek batch k = (rcvd, idx, k') ->
  0 < outstanding_tx (sock s) < rcvd -> rcvd < 4294967296 ->
  match complete_tx_only o batch s with
  | Ret _ s' => outstanding_tx (sock s') = 4294967296 - (rcvd - outstanding_tx (sock s))
  | _ => False
  end.
Proof.
  intros Hw Hk Hp Ho Hr. unfold complete_tx_only, gets, mbind, xsk_bind.
  rewrite (proj2 (Z.eqb_neq (outstanding_tx (sock s)) 0)) by lia. rewrite Hw. cbn [negb].
  unfold call at 1. rewrite Hk. unfold when at 1, mret, xsk_ret. unfold call. cbn [env]. rewrite Hp.
  rewrite (proj2 (Z.gtb_lt rcvd 0)) by lia. cbn. unfold u32. zlia.
Qed.
