(* ===== verification/XskMainForward.v ===== *)
(** * The AF_XDP driver forwards, from the command line on

    The set-up of XskMain.v leaves the rings as the theorems of XskForward.v want them, and the
    loop over the sockets is, for one socket, the loop of XskDriver.v. *)
From Stdlib Require Import ZArith Lia Permutation Ascii String.
From stdpp Require Import base numbers list option relations.
From S2P Require Import Prelude CLib Xdp XskOptions XskPktgen XskDriver XskRings XskForward XskStats XskMain.
#[local] Open Scope Z_scope.
#[local] Open Scope list_scope.

(** The set-up and its functions let the kernel work, as the ring operations do. *)
Class XskHostLaws (K : Type) {api : XskApi K} {laws : XskLaws K} {host : XskHostApi K} := {
  nsecs_law k : kmoves frame_of (view k) (view (nsecs k).2);
  setrlimit_law k : kmoves frame_of (view k) (view (setrlimit k).2);
  program_open_law k : kmoves frame_of (view k) (view (program_open k).2);
  program_set_frags_law b k : kmoves frame_of (view k) (view (program_set_frags b k).2);
  program_attach_law k : kmoves frame_of (view k) (view (program_attach k).2);
  program_detach_law k : kmoves frame_of (view k) (view (program_detach k).2);
  mmap_law n k : kmoves frame_of (view k) (view (mmap n k).2);
  umem_create_law n k : kmoves frame_of (view k) (view (umem_create n k).2);
  socket_create_law i c rx tx k : kmoves frame_of (view k) (view (socket_create i c rx tx k).2);
  setsockopt_law i a b k : kmoves frame_of (view k) (view (setsockopt i a b k).2);
  update_bss_law n k : kmoves frame_of (view k) (view (update_bss n k).2);
  update_xsks_map_law fd i k : kmoves frame_of (view k) (view (update_xsks_map fd i k).2);
  ctrl_law k : kmoves frame_of (view k) (view (ctrl k).2);
  update_xskmap_law fd k : kmoves frame_of (view k) (view (update_xskmap fd k).2);
  pthread_create_law k : kmoves frame_of (view k) (view (pthread_create k).2);
  sched_setscheduler_law a b k : kmoves frame_of (view k) (view (sched_setscheduler a b k).2)
}.

Section whole.
Context {K : Type} {api : XskApi K} {laws : XskLaws K} {host : XskHostApi K} {hlaws : XskHostLaws K}.
Abbreviation kmoves := (kmoves frame_of).
Implicit Types s : msk_state K.

(** ** Weakest preconditions *)

(** From [s], [m] returns with [Q] or ends the process; it runs out of fuel only if [L], and
    it never reads outside an array or through a null pointer. *)
Definition mwp (L : Prop) {A} (m : msk K A) (Q : A -> msk_state K -> Prop) s : Prop :=
  match m s with MDone a s' => Q a s' | MExit _ => True | MSpin => L | MFault => False end.
Lemma mwp_ret L {A} (a : A) (Q : A -> msk_state K -> Prop) s : Q a s -> mwp L (mret a) Q s.
Proof. done. Qed.
Lemma mwp_bind L {A B} (m : msk K A) (f : A -> msk K B) Q s :
  mwp L m (fun a s' => mwp L (f a) Q s') s -> mwp L (m ≫= f) Q s.
Proof. unfold mwp, mbind, msk_bind. now destruct (m s). Qed.
Lemma mwp_mono L {A} (m : msk K A) (Q R : A -> msk_state K -> Prop) s :
  mwp L m Q s -> (forall a s', Q a s' -> R a s') -> mwp L m R s.
Proof. unfold mwp. destruct (m s); auto. Qed.
Lemma mwp_weaken (L : Prop) {A} (m : msk K A) (Q : A -> msk_state K -> Prop) s : mwp False m Q s -> mwp L m Q s.
Proof. unfold mwp. now destruct (m s). Qed.

(** ** One socket *)

Definition new_socket : xsk_socket_info := Socket (RingStats 0 0 0 0) (AppStats 0 0 0 0 0) 0.
(** The state as the functions on one socket see it; before there is one, a new one. *)
Definition flat s : xsk_state K :=
  Xsk (match socks s with (k, _) :: _ => k | [] => new_socket end) (s_nb_frags s) (s_sequence s) (s_env s).

(** What the set-up changes: as [idle], and the number of sockets is kept. *)
Definition gentle s s' : Prop := length (socks s') = length (socks s) /\ idle (flat s) (flat s').
#[global] Instance gentle_preorder : PreOrder gentle.
Proof.
  split; [intros s; now split|]. intros s1 s2 s3 [L1 H1] [L2 H2]. split; [congruence|now transitivity (flat s2)].
Qed.
Definition gentles {A} (m : msk K A) : Prop := forall s, mwp False m (fun _ s' => gentle s s') s.
Lemma gentles_ret {A} (a : A) : gentles (mret a).
Proof. intros s. now apply mwp_ret. Qed.
Lemma gentles_bind {A B} (m : msk K A) (f : A -> msk K B) : gentles m -> (forall a, gentles (f a)) -> gentles (m ≫= f).
Proof.
  intros Hm Hf s. apply mwp_bind. eapply mwp_mono; [apply Hm|]. intros a s1 H1.
  eapply mwp_mono; [apply Hf|]. intros b s2 H2. now transitivity s1.
Qed.
Lemma gentles_call {A} (f : K -> A * K) : (forall k, kmoves (view k) (view (f k).2)) -> gentles (mcall f).
Proof.
  intros Hf s. unfold mwp, mcall. specialize (Hf (s_env s)). destruct (f (s_env s)) as [a k].
  split; [done|]. now apply (idle_env (flat s) k).
Qed.
Lemma gentles_gets {A} (f : msk_state K -> A) : gentles (mgets f).
Proof. intros s. now split. Qed.
Lemma gentles_exit {A} e : gentles (mexit e : msk K A).
Proof. done. Qed.
Lemma gentles_when b m : gentles m -> gentles (mwhen b m).
Proof. intros Hm. destruct b; [done|apply gentles_ret]. Qed.
Lemma gentles_if {A} (b : bool) (m1 m2 : msk K A) : gentles m1 -> gentles m2 -> gentles (if b then m1 else m2).
Proof. now destruct b. Qed.
Lemma gentles_for {A} n i (a : A) body : (forall i a, gentles (body i a)) -> gentles (mfor n i a body).
Proof.
  intros Hb. revert i a. induction n as [|n IH]; intros i a; [apply gentles_ret|].
  apply gentles_bind; [apply Hb|]. intros a'. apply IH.
Qed.
Lemma mwp_gentles L {A} (m : msk K A) Q s : gentles m -> (forall a s', gentle s s' -> Q a s') -> mwp L m Q s.
Proof. intros Hm HQ. eapply mwp_mono; [apply mwp_weaken, Hm|auto]. Qed.
End whole.

Create HintDb gentles.
#[export] Hint Resolve gentles_ret gentles_bind gentles_call gentles_gets gentles_exit gentles_when gentles_if
  gentles_for nsecs_law setrlimit_law program_open_law program_set_frags_law program_attach_law program_detach_law
  mmap_law umem_create_law socket_create_law setsockopt_law update_bss_law update_xsks_map_law ctrl_law
  update_xskmap_law pthread_create_law sched_setscheduler_law : gentles.
#[export] Hint Extern 1 (gentles (if _ then _ else _)) => apply gentles_if : gentles.
#[export] Hint Extern 2 (gentles (let '_ := ?x in _)) => destruct x : gentles.

Section start.
Context {K : Type} {api : XskApi K} {laws : XskLaws K} {host : XskHostApi K} {hlaws : XskHostLaws K} `{XskHost}.
Context (o : options).
Implicit Types s : msk_state K.
Abbreviation apis := (fun _ : nat => api).

Lemma gentles_exit_with_error {A} e : gentles (XskMain.exit_with_error o e : msk K A).
Proof. unfold XskMain.exit_with_error, remove_xdp_program. auto 7 with gentles. Qed.
Lemma gentles_check e : gentles (XskMain.check o e : msk K unit).
Proof. unfold XskMain.check. auto using gentles_exit_with_error with gentles. Qed.
Hint Resolve gentles_exit_with_error gentles_check : gentles.
Lemma gentles_prepare : gentles (prepare o : msk K unit).
Proof. unfold prepare, load_xdp_program. auto 15 with gentles. Qed.
Lemma gentles_setsockopt i : gentles (apply_setsockopt o i : msk K unit).
Proof.
  unfold apply_setsockopt, set_option.
  repeat first [apply gentles_if|apply gentles_bind; [|intros ?]|progress auto with gentles|case_match].
Qed.
Lemma gentles_enter : gentles (enter_xsks_into_map : msk K unit).
Proof. unfold enter_xsks_into_map, num_socks. auto 25 with gentles. Qed.
(** The message of the control node carries a descriptor whenever it is read. *)
Lemma gentles_ctrl_map :
  (forall k, recv_xsks_map_fd (ctrl k).1 <> None) -> gentles (update_ctrl_map o : msk K unit).
Proof.
  intros Hc s. unfold update_ctrl_map. apply mwp_bind. specialize (Hc (s_env s)). pose proof (ctrl_law (s_env s)) as Hk.
  unfold mwp at 1. unfold mcall at 1. destruct (ctrl (s_env s)) as [c k]. cbn [fst snd] in Hc, Hk. cbn beta.
  destruct (recv_xsks_map_fd c) as [[err fd]|]; [|done].
  assert (G : gentle s (s <| @s_env K := k |>)) by (split; [done|now apply (idle_env (flat s) k)]).
  eapply mwp_gentles; [auto 10 with gentles|]. intros a s' G'. now transitivity (s <| @s_env K := k |>).
Qed.

(** ** From the empty rings to the loop *)

Lemma gentle_blank s s' : gentle s s' -> blank (flat s) -> blank (flat s').
Proof.
  intros [_ [[[Hf _] _ _ [Ht _] (Hg & Hse & Hra) Hfr _ _] Ho Hn]] [Bf [Bo Bt] (Bg & Bs & Br) [Bout Bn]].
  rewrite Bf in Hfr. apply Permutation_nil_r in Hfr. split; [exact Hfr| | |].
  - split; congruence.
  - split_and!; congruence.
  - split; congruence.
Qed.
Lemma gentle_rest F s s' :
  gentle s s' -> at_rest F (flat s) /\ forwarding (flat s) -> at_rest F (flat s') /\ forwarding (flat s').
Proof.
  intros [_ Hi] [Hr Hf]. split; [now apply (idle_at_rest F (flat s))|].
  apply (calm_forwarding (flat s)); [now apply idle_calm|done].
Qed.

(** Functions on the rings of the memory leave the socket alone. *)
Definition keeps_sock {A} (m : xsk K A) : Prop := forall t, wp True m (fun _ t' => sock t' = sock t) t.
Lemma keeps_sock_bind {A B} (m : xsk K A) (f : A -> xsk K B) :
  keeps_sock m -> (forall a, keeps_sock (f a)) -> keeps_sock (m ≫= f).
Proof.
  intros Hm Hf t. apply wp_bind. eapply wp_mono; [apply Hm|]. intros a t1 H1.
  eapply wp_mono; [apply Hf|]. intros b t2 H2. congruence.
Qed.
Lemma keeps_populate n : keeps_sock (xsk_populate_fill_ring o n).
Proof.
  apply keeps_sock_bind; [intros t; now apply wp_call|]. intros [ret idx].
  destruct (negb (ret =? n)); [done|]. apply keeps_sock_bind; [|intros []; done].
  generalize 0 at 1 as i. induction (Z.to_nat n) as [|m IH]; intros i; [done|].
  apply keeps_sock_bind; [done|]. intros []. apply IH.
Qed.

Definition fill_frames : list Z := all_frames o (Z.to_nat FQ_SIZE).
Definition ready_to_forward s : Prop := at_rest fill_frames (flat s) /\ forwarding (flat s).

Lemma make_umem_wp s :
  opt_bench o = BENCH_L2FWD -> XSK_RING_PROD__DEFAULT_NUM_DESCS * 2 = FQ_SIZE -> 0 < FQ_SIZE < 4294967296 ->
  socks s = [] -> blank (flat s) -> mwp False (make_umem apis o) (fun _ s' => socks s' = [] /\ ready_to_forward s') s.
Proof.
  intros Hb Hd Hq Hs Hblank. unfold make_umem. apply mwp_bind.
  apply mwp_gentles; [auto with gentles|]. intros ok s1 H1. apply mwp_bind.
  apply mwp_gentles; [auto with gentles|]. intros [] s2 H2. apply mwp_bind.
  apply mwp_gentles; [unfold xsk_configure_umem; auto using gentles_check with gentles|]. intros [] s3 H3.
  assert (H13 : gentle s s3) by (transitivity s1; [done|now transitivity s2]). clear s1 s2 H1 H2 H3 ok.
  pose proof (gentle_blank _ _ H13 Hblank) as Hblank3. destruct H13 as [Hl _]. rewrite Hs in Hl.
  assert (Hs3 : socks s3 = []) by now destruct (socks s3). clear Hl.
  rewrite Hb, Hd. cbn [negb]. rewrite bool_decide_false by discriminate. cbn [negb mwhen].
  assert (Ef : flat s3 = Xsk new_socket (s_nb_frags s3) (s_sequence s3) (s_env s3)) by (unfold flat; now rewrite Hs3).
  unfold mwp, on_umem. change (Socket _ _ 0) with new_socket. rewrite <- Ef.
  pose proof (populate_wp o (flat s3) Hblank3 Hq) as Hwp. pose proof (keeps_populate FQ_SIZE (flat s3)) as Hk.
  unfold wp in Hwp, Hk. destruct (xsk_populate_fill_ring o FQ_SIZE (flat s3)) as [[] t| |]; [|done|done].
  destruct Hwp as (Hrest & Hfw & _). split; [exact Hs3|]. unfold ready_to_forward.
  assert (Et : flat (Msk (socks s3) (nb_frags t) (sequence t) (s_cycle s3) (env t)) = t).
  { unfold flat. cbn. rewrite Hs3, <- (f_equal sock Ef : sock (flat s3) = new_socket), <- Hk. now destruct t. }
  rewrite Et. done.
Qed.

Lemma make_sockets_wp s :
  opt_num_xsks o = 1 -> socks s = [] -> ready_to_forward s ->
  mwp False (make_sockets o) (fun _ s' => length (socks s') = 1%nat /\ ready_to_forward s') s.
Proof.
  intros H1 Hs Hr. unfold make_sockets. rewrite H1. apply mwp_bind. cbn [Z.to_nat Pos.to_nat Pos.iter_op Nat.add mfor].
  apply mwp_bind. unfold xsk_configure_socket at 1. apply mwp_bind.
  apply mwp_gentles; [auto with gentles|]. intros ret s1 G1. apply mwp_bind.
  apply mwp_gentles; [auto using gentles_check|]. intros [] s2 G2.
  assert (G : gentle s s2) by now transitivity s1. apply (gentle_rest fill_frames s s2 G) in Hr. destruct G as [Hl _].
  rewrite Hs in Hl. assert (Hs2 : socks s2 = []) by now destruct (socks s2).
  unfold mwp at 1, mupdate. cbn [socks]. set (s3 := Msk _ _ _ _ _).
  assert (Ef : flat s3 = flat s2) by (unfold flat, s3; cbn; now rewrite Hs2).
  assert (L3 : length (socks s3) = 1%nat) by (unfold s3; cbn; now rewrite Hs2).
  apply mwp_gentles; [apply gentles_ret|]. intros [] s4 G4. apply mwp_gentles.
  - apply (gentles_for 1). intros i []. apply gentles_setsockopt.
  - intros [] s5 G5. assert (G35 : gentle s3 s5) by now transitivity s4.
    split; [destruct G35 as [-> _]; exact L3|]. apply (gentle_rest fill_frames s3 s5 G35). now rewrite Ef.
Qed.

(** The state when the loop begins. *)
Lemma start_wp pkt_addr s :
  opt_bench o = BENCH_L2FWD -> opt_num_xsks o = 1 -> XSK_RING_PROD__DEFAULT_NUM_DESCS * 2 = FQ_SIZE ->
  0 < FQ_SIZE < 4294967296 -> socks s = [] -> blank (flat s) ->
  (opt_reduced_cap o = true -> forall k, recv_xsks_map_fd (ctrl k).1 <> None) ->
  mwp False (start apis o pkt_addr) (fun _ s' => length (socks s') = 1%nat /\ ready_to_forward s') s.
Proof.
  intros Hb Hn Hd Hq Hs Hblank Hctrl. unfold start. apply mwp_bind.
  apply mwp_gentles; [apply gentles_prepare|]. intros [] s1 G1.
  pose proof (gentle_blank _ _ G1 Hblank) as Hblank1. destruct G1 as [L1 _]. rewrite Hs in L1.
  assert (Hs1 : socks s1 = []) by now destruct (socks s1).
  apply mwp_bind. eapply mwp_mono; [apply make_umem_wp; done|]. intros [] s2 [Hs2 Hr2].
  apply mwp_bind. eapply mwp_mono; [apply make_sockets_wp; done|]. intros [] s3 [L3 Hr3].
  rewrite (bool_decide_false (opt_bench o = BENCH_TXONLY)) by (rewrite Hb; discriminate).
  eapply mwp_gentles.
  - apply gentles_bind; [apply gentles_ret|]. intros []. cbn [negb].
    apply gentles_bind; [apply gentles_when, gentles_enter|]. intros [].
    apply gentles_bind; [destruct (opt_reduced_cap o); [now apply gentles_ctrl_map, Hctrl|apply gentles_ret]|]. intros [].
    apply gentles_bind; [auto with gentles|]. intros t.
    apply gentles_bind; [auto 10 using gentles_exit_with_error with gentles|]. intros [].
    apply gentles_bind; auto with gentles.
  - intros go s4 G4. split; [destruct G4 as [-> _]; exact L3|]. now apply (gentle_rest fill_frames s3).
Qed.
End start.

Section loops.
Context {K : Type} {api : XskApi K} {laws : XskLaws K} {host : XskHostApi K} {hlaws : XskHostLaws K} `{XskHost}.
Context (o : options).
Implicit Types s : msk_state K.
Abbreviation apis := (fun _ : nat => api).

(** For one socket the loop over the sockets is the function itself. *)
Lemma one_socket_wp L (m : xsk K unit) (Q : xsk_state K -> Prop) s :
  length (socks s) = 1%nat -> wp L m (fun _ t => Q t) (flat s) ->
  mwp L (each_socket (fun i => on_socket i m)) (fun _ s' => length (socks s') = 1%nat /\ Q (flat s')) s.
Proof.
  intros Hl Hwp. unfold each_socket, num_socks. apply mwp_bind. unfold mwp at 1, mgets. rewrite Hl. cbn [mfor].
  apply mwp_bind. unfold mwp at 1, on_socket. destruct (socks s) as [|[k p] [|]] eqn:Es; try discriminate Hl.
  cbn [lookup list_lookup]. unfold flat in Hwp. rewrite Es in Hwp. unfold wp in Hwp.
  destruct (m _) as [[] t| |]; [|done|done]. apply mwp_ret. split; [done|]. unfold flat. cbn. now destruct t.
Qed.
Lemma gentles_wait s : length (socks s) = 1%nat -> mwp False (wait_all apis o) (fun _ s' => gentle s s') s.
Proof.
  intros Hl. unfold wait_all. destruct (opt_poll o); [|apply mwp_ret; reflexivity].
  unfold num_socks. apply mwp_bind. unfold mwp at 1, mgets. rewrite Hl. cbn [mfor].
  pose proof (one_socket_wp False (count_app (fun a => a <| opt_polls := opt_polls a + 1 |>))
    (fun t => idle (flat s) t) s Hl) as Hw.
  unfold each_socket, num_socks in Hw. unfold mwp, mbind, msk_bind, mgets in Hw |- *. rewrite Hl in Hw. cbn [mfor] in Hw.
  unfold mbind, msk_bind in Hw. specialize (Hw ltac:(apply (idles_count (fun a => a <| opt_polls := opt_polls a + 1 |>)))).
  cbn beta in Hw |- *.
  destruct (on_socket 0 _ s) as [[] s1| | |]; [|done..]. cbn in Hw |- *. destruct Hw as [L1 I1].
  pose proof (gentles_call (@poll K api) poll_law s1) as Hp. unfold mwp in Hp. destruct (mcall _ s1) as [a s2| | |]; [|done..].
  transitivity s1; [|done]. split; [congruence|done].
Qed.

(** At most [turns] turns of the loop of [l2fwd_all]; the result tells whether it was left. *)
Fixpoint l2fwd_turns (turns fuel : nat) : msk K bool :=
  match turns with
  | O => mret false
  | S turns =>
      ret ← wait_all apis o;
      if ret <=? 0 then l2fwd_turns turns fuel else
      each_socket (fun i => on_socket i (l2fwd o fuel)) ;;
      finished ← mcall benchmark_done;
      if (finished : bool) then mret true else l2fwd_turns turns fuel
  end.
Lemma l2fwd_all_turns turns fuel s :
  l2fwd_all apis o turns fuel s
  = match l2fwd_turns turns fuel s with
    | MDone true s' => MDone tt s' | MDone false _ | MSpin => MSpin | MExit e => MExit e | MFault => MFault
    end.
Proof.
  revert s. induction turns as [|turns IH]; intros s; [done|]. cbn [l2fwd_all l2fwd_turns].
  unfold mbind, msk_bind. destruct (wait_all apis o s) as [ret s1| | |]; [|done..].
  destruct (ret <=? 0); [apply IH|]. destruct (each_socket _ s1) as [[] s2| | |]; [|done..].
  destruct (mcall _ s2) as [[] s3| | |]; [done|apply IH|done..].
Qed.

(** Room in the transmit ring for the unfinished packet and a batch. *)
Definition room s : Prop := s_nb_frags s + opt_batch_size o <= TX_SIZE.
(** When no turn can wait for ever. *)
Definition copying fuel : Prop :=
  nz (Z.land (opt_xdp_bind_flags o) XDP_COPY) = true /\ kick_sends K /\ FQ_SIZE <= Z.of_nat fuel.
Lemma gentle_room s s' : gentle s s' -> room s -> room s'.
Proof. intros [_ [_ _ Hn]]. unfold room. change (s_nb_frags s') with (nb_frags (flat s')). now rewrite Hn. Qed.

Lemma l2fwd_turns_wp F (L : Prop) turns fuel s :
  length (socks s) = 1%nat -> at_rest F (flat s) /\ forwarding (flat s) ->
  zlength F <= FQ_SIZE -> FQ_SIZE < 4294967296 -> 0 <= opt_batch_size o ->
  (L \/ copying fuel /\ forall m s', (m < turns)%nat -> l2fwd_turns m fuel s = MDone false s' -> room s') ->
  mwp L (l2fwd_turns turns fuel)
    (fun _ s' => length (socks s') = 1%nat /\ at_rest F (flat s') /\ forwarding (flat s')) s.
Proof.
  intros Hl Hr HF Hsize Hb. revert s Hl Hr. induction turns as [|turns IH]; intros s Hl Hr Hroom; [done|].
  assert (Hroom0 : L \/ copying fuel /\ room s).
  { destruct Hroom as [|[Hc Hm]]; [auto|right]. split; [done|]. apply (Hm 0%nat); [lia|done]. }
  assert (Hnext : forall s1, (forall m, l2fwd_turns (S m) fuel s = l2fwd_turns m fuel s1) ->
    L \/ copying fuel /\ forall m s', (m < turns)%nat -> l2fwd_turns m fuel s1 = MDone false s' -> room s').
  { intros s1 E. destruct Hroom as [|[Hc Hm]]; [auto|right]. split; [done|].
    intros m s' Hlt Hd. apply (Hm (S m)); [lia|]. now rewrite E. }
  clear Hroom. unfold mwp. cbn [l2fwd_turns] in Hnext |- *. unfold mbind, msk_bind in Hnext |- *.
  pose proof (gentles_wait s Hl) as Gw. unfold mwp in Gw.
  destruct (wait_all apis o s) as [ret s1| | |]; [|done..].
  pose proof (gentle_rest F s s1 Gw Hr) as Hr1. assert (L1 : length (socks s1) = 1%nat) by (destruct Gw; congruence).
  destruct (ret <=? 0); [now apply IH; [| |apply Hnext]|].
  assert (Hw : wp L (l2fwd o fuel) (fun _ t => at_rest F t /\ forwarding t) (flat s1)).
  { destruct Hr1 as [Hr1 Hf1]. apply (l2fwd_wp o L F fuel); auto.
    destruct Hroom0 as [|[(Hc & Hk & Hfu) Hm]]; [auto|right]. apply (gentle_room _ _ Gw) in Hm.
    unfold room in Hm. repeat split; auto; lia. }
  apply (one_socket_wp L (l2fwd o fuel) _ _ L1) in Hw. unfold mwp in Hw.
  destruct (each_socket _ s1) as [[] s2| | |]; [|done..]. destruct Hw as [L2 Hr2].
  pose proof (gentles_call (@benchmark_done K api) benchmark_done_law s2) as Gb. unfold mwp in Gb.
  destruct (mcall _ s2) as [[] s3| | |]; [| |done..];
    pose proof (gentle_rest F s2 s3 Gb Hr2) as Hr3; assert (L3 : length (socks s3) = 1%nat) by (destruct Gb; congruence).
  - done.
  - now apply IH; [| |apply Hnext].
Qed.

(** The driver up to the end of at most [turns] turns. *)
Definition run_turns (pkt_addr : Z) (turns fuel : nat) : msk K bool :=
  go ← start apis o pkt_addr; if (go : bool) then l2fwd_turns turns fuel else mret true.
Lemma main_turns args pkt_addr turns fuel s :
  parse_command_line args = Some o -> opt_bench o = BENCH_L2FWD ->
  XskMain.main apis args pkt_addr turns fuel s
  = match run_turns pkt_addr turns fuel s with
    | MDone true s' => xdpsock_cleanup o s'
    | MDone false _ | MSpin => MSpin | MExit e => MExit e | MFault => MFault
    end.
Proof.
  intros Hargs Hb. unfold XskMain.main, run_driver, run_turns. rewrite Hargs. unfold mbind, msk_bind.
  destruct (start apis o pkt_addr s) as [[] s1| | |]; [|done..]. cbn [mwhen].
  unfold run_benchmark, run_options. rewrite Hb, decide_False by discriminate. rewrite l2fwd_all_turns.
  now destruct (l2fwd_turns turns fuel s1) as [[] s2| | |].
Qed.

(** C5: The AF_XDP driver from its command line: with options that select forwarding on one
    socket, [main] sets everything up, runs the loop and cleans up. After any number of turns,
    whatever the kernel does: every frame of the memory is in exactly one place, [outstanding_tx]
    is the number of frames on their way out, what has been sent with the unfinished packet is
    what has been received, in order, and the XDP program has run once per packet. Its verdict is
    not consulted: a packet is sent for XDP_DROP as for any other, and as the program left it,
    without an exchange of MAC addresses; README.md and the usage text say otherwise (findings).
    No access is outside an array; and in copy mode, with a kernel that sends when asked and room
    in the transmit ring for the unfinished packet and a batch at the start of every turn, no
    turn waits for ever. It is assumed that the fill ring has twice the default size and that a
    control node, asked with reduced capabilities, sends a descriptor. *)
Theorem driver_forwards args pkt_addr turns fuel s :
  parse_command_line args = Some o -> opt_bench o = BENCH_L2FWD -> opt_num_xsks o = 1 ->
  XSK_RING_PROD__DEFAULT_NUM_DESCS * 2 = FQ_SIZE -> 0 < FQ_SIZE < 4294967296 ->
  (opt_reduced_cap o = true -> forall k, recv_xsks_map_fd (ctrl k).1 <> None) ->
  socks s = [] -> blank (flat s) ->
  XskMain.main apis args pkt_addr turns fuel s
    = match run_turns pkt_addr turns fuel s with
      | MDone true s' => xdpsock_cleanup o s'
      | MDone false _ | MSpin => MSpin | MExit e => MExit e | MFault => MFault
      end /\
  match run_turns pkt_addr turns fuel s with
  | MDone _ s' =>
      exists k p, socks s' = [(k, p)] /\
      let r := view (s_env s') in
      XskRings.frames frame_of r ≡ₚ all_frames o (Z.to_nat FQ_SIZE) /\
      outstanding_tx k = inflight r /\
      sent r ++ tx_open r = map fwd (got r) /\ zlength (tx_open r) = s_nb_frags s' /\
      ran r = map area (heads true (got r))
  | MExit _ => True
  | MSpin =>
      ~ (copying fuel /\
         forall m s', (m < turns)%nat -> run_turns pkt_addr m fuel s = MDone false s' -> room s')
  | MFault => False
  end.
Proof.
  intros Hargs Hbench Hone Hdescs Hsize Hctrl Hnone Hblank. split; [now apply main_turns|].
  assert (HF : zlength (fill_frames o) <= FQ_SIZE).
  { unfold zlength, fill_frames, all_frames. rewrite !length_map, length_seq. lia. }
  assert (Hb : 0 <= opt_batch_size o) by now apply (parse_batch_size args).
  pose proof (start_wp o pkt_addr s Hbench Hone Hdescs Hsize Hnone Hblank Hctrl) as Hst. unfold mwp in Hst.
  unfold run_turns, mbind, msk_bind. destruct (start apis o pkt_addr s) as [go s1| | |]; [|done..].
  destruct Hst as [L1 Hr1].
  assert (Hwp : forall L : Prop,
    (L \/ copying fuel /\ forall m s', (m < turns)%nat ->
       (if (go : bool) then l2fwd_turns m fuel s1 else MDone true s1) = MDone false s' -> room s') ->
    mwp L (if go then l2fwd_turns turns fuel else mret true)
      (fun _ s' => length (socks s') = 1%nat /\ at_rest (fill_frames o) (flat s') /\ forwarding (flat s')) s1).
  { intros L HL. destruct go; [|now apply mwp_ret]. apply l2fwd_turns_wp; try done; lia. }
  set (m := if go then l2fwd_turns turns fuel else mret true) in *.
  assert (Hend : m s1 = MSpin -> ~ (copying fuel /\ forall m s', (m < turns)%nat ->
       (if (go : bool) then l2fwd_turns m fuel s1 else MDone true s1) = MDone false s' -> room s')).
  { intros E Hc. pose proof (Hwp False (or_intror Hc)) as Hw. unfold mwp in Hw. now rewrite E in Hw. }
  pose proof (Hwp True (or_introl I)) as Hw. unfold mwp in Hw.
  destruct (m s1) as [b s'| | |] eqn:Em; [|done| |done].
  - destruct Hw as (Hl & [_ _ Hfr Ho] & [Ht Hn Hs Hr _]).
    destruct (socks s') as [|[k p] [|]] eqn:Es; try discriminate Hl. exists k, p. split; [done|].
    unfold ring, out, flat in Hfr, Ho, Ht, Hn, Hs, Hr. rewrite Es in Hfr, Ho, Ht, Hn, Hs, Hr.
    cbn [env sock nb_frags] in Hfr, Ho, Ht, Hn, Hs, Hr. cbv zeta.
    split; [exact Hfr|]. split; [exact Ho|]. split; [exact Hs|]. split; [|exact Hr].
    rewrite Ht, Hn. unfold zlength. now rewrite length_map.
  - intros [Hc Hm]. apply (Hend eq_refl). split; [done|]. intros n s' Hn E. apply (Hm n); [done|]. now destruct go.
Qed.
End loops.
