(* ===== verification/XskMainExamples.v ===== *)
(** * The AF_XDP driver on a concrete command line

    The kernel of XskExamples.v with a host that accepts everything. *)
From Stdlib Require Import ZArith Lia Permutation Ascii String.
From stdpp Require Import base numbers list option relations.
From S2P Require Import Prelude CLib Xdp XskOptions XskPktgen XskDriver XskRings XskForward XskExamples XskStats XskMain XskMainForward.
#[local] Open Scope Z_scope.
#[local] Open Scope list_scope.

#[local] Existing Instance example_host.

#[export] Instance small_host : XskHostApi kernel := {
  XSK_RING_PROD__DEFAULT_NUM_DESCS := small_fq / 2;
  XSK_RING_CONS__DEFAULT_NUM_DESCS := small_fq / 2;
  XSK_LIBXDP_FLAGS__INHIBIT_PROG_LOAD := 1;
  nsecs k := (5, k);
  clock_nanosleep _ k := (0, k);
  poll_out _ k := (1, true, k);
  setrlimit k := (0, k);
  program_open k := (0, k);
  program_set_frags _ k := (0, k);
  program_attach k := (0, k);
  program_detach k := (0, k);
  mmap _ k := (true, k);
  umem_create _ k := (0, k);
  socket_create _ _ _ _ k := (0, k);
  setsockopt _ _ _ k := (0, 0, k);
  find_bss _ := true;
  update_bss _ k := (0, k);
  prog_maps _ := (0, [MapInfo 7 0 "xsks_map" 4 4]);
  update_xsks_map _ _ k := (0, k);
  ctrl k := (CtrlNode 3 0 0 4 (Some 9), k);
  update_xskmap _ k := (0, k);
  pthread_create k := (0, k);
  sched_setscheduler _ _ k := (0, k);
  xdp_statistics_of _ _ := (0, 48, no_xdp_statistics);
  interrupts _ := [];
  socket_delete _ k := k;
  write_close k := (4, 0, k)
}.
#[export] Instance small_host_laws : XskHostLaws kernel.
Proof. split; intros; apply no_move. Qed.

Definition driver_args : list (ascii * string) :=
  [("l"%char, ""%string); ("i"%char, "eth0"%string); ("b"%char, "2"%string); ("c"%char, ""%string)].
Definition driver_opts : options := Eval vm_compute in default default_options (parse_command_line driver_args).
Definition before : msk_state kernel := Msk [] 0 0 (TxCycle 0 0 0 0) (env five_frames).
Abbreviation one_api := (fun _ : nat => kernel_api).
Definition after : msk_state kernel :=
  Eval vm_compute in
    match (go ← start one_api driver_opts 0; mwhen go (run_benchmark one_api driver_opts 10 10)) before with
    | MDone _ s => s | _ => before end.

(** The five frames leave, and the statistics of the clean-up count the three packets. *)
Example driver_reports :
  match XskMain.main one_api driver_args 0 10 10 before with
  | MDone rs s => map (fun r => (r_what r, r_diff r)) rs = [("rx"%string, 3); ("tx"%string, 3)]
      /\ length (sent (kr (s_env s))) = 5%nat
  | _ => False
  end.
Proof. vm_compute. split; reflexivity. Qed.

(** The run ends by itself: the driver copies, and at the start of every turn there is room. *)
Lemma driver_copies : @copying kernel kernel_api kernel_laws driver_opts 10.
Proof. split; [reflexivity|]. split; [exact kernel_sends|]. vm_compute. discriminate. Qed.
Lemma driver_has_room m s' :
  (m < 10)%nat -> run_turns driver_opts 0 m 10 before = MDone false s' -> room driver_opts s'.
Proof.
  intros Hm E. do 10 (destruct m as [|m]; [vm_compute in E; first [discriminate E | injection E as <-; vm_compute; discriminate]|]).
  lia.
Qed.

Lemma driver_forwards_witness :
  (XskMain.main one_api driver_args 0 10 10 before = xdpsock_cleanup driver_opts after /\
   exists k p, socks after = [(k, p)] /\
   let r := view (s_env after) in
   XskRings.frames frame_of r ≡ₚ all_frames driver_opts (Z.to_nat FQ_SIZE) /\
   outstanding_tx k = inflight r /\
   sent r ++ tx_open r = map fwd (got r) /\ zlength (tx_open r) = s_nb_frags after /\
   ran r = map area (heads true (got r))) /\
  copying driver_opts 10 /\
  forall m s', (m < 10)%nat -> run_turns driver_opts 0 m 10 before = MDone false s' -> room driver_opts s'.
Proof.
  split; [|split; [exact driver_copies|exact driver_has_room]].
  assert (E : run_turns driver_opts 0 10 10 before = MDone true after) by (vm_compute; reflexivity).
  pose proof (@driver_forwards kernel kernel_api kernel_laws small_host small_host_laws example_host
    driver_opts driver_args 0 10 10 before) as H. rewrite E in H. apply H.
  - vm_compute. reflexivity.
  - reflexivity.
  - reflexivity.
  - reflexivity.
  - split; vm_compute; reflexivity.
  - discriminate.
  - reflexivity.
  - apply start_blank.
Defined.

(** ** Several sockets *)

(** Two sockets have sent one and two frames, which are all completed: the first takes the three
    completions and its counter wraps. *)
Definition tx_options : options := let o := driver_opts in o <| opt_bench := BENCH_TXONLY |>.
Definition sent_frames (n : Z) (done : list Z) : xsk_state kernel :=
  Xsk (Socket (RingStats 0 0 0 0) (AppStats 0 0 0 0 0) n) 0 0
    (Kernel (Rings [] [] 0 done [] 0 [] [] 0 [] [] 0 [] [] [] [] []) [] XDP_TX).
Example counter_wraps :
  match complete_tx_only tx_options 64 (sent_frames 1 [0; 1; 2]) with
  | Ret _ s => outstanding_tx (sock s) = 4294967294
  | _ => False
  end.
Proof. vm_compute. reflexivity. Qed.
