(* ===== verification/RuntimeLoader.v ===== *)
(** * Loading programs in userspace (module/xdp-runtime.cpp)

    Which program of the shared memory the runtime executes for the drivers, with which helpers
    and in which form, and the runner that measures a program on a file.  bpftime is a class:
    whether a program loads, and what a loaded program computes. *)
From Stdlib Require Import ZArith Lia Ascii String.
From stdpp Require Import base numbers list option.
From S2P Require Import Prelude Xdp XdpRun.
#[local] Open Scope Z_scope.
#[local] Open Scope list_scope.

(** ** Data *)

(** What another process has left in the shared memory. *)
Inductive handler :=
  | ProgHandler (name : string) (insns aot_insns : list Z)
  | OtherHandler.

(** @src module/xdp-runtime.cpp 32-34 csum_diff *)
Definition csum_diff : Z := 28.
(** @src module/xdp-runtime.cpp 36-40 xdp_adjust_tail *)
Definition xdp_adjust_tail : Z := 65.
(** @src module/xdp-runtime.cpp 42-46 bpf_xdp_load_bytes *)
Definition bpf_xdp_load_bytes : Z := 189.
(** @src module/xdp-runtime.cpp 48-52 bpf_redirect_map *)
Definition bpf_redirect_map : Z := 51.
(** @src module/xdp-runtime.cpp 54-58 xdp_adjust_head *)
Definition xdp_adjust_head : Z := 44.

(** How a program is run. *)
Inductive form := Unloaded | Interpreted | Jit | Aot (object : list Z).
(** A [bpftime_prog]: its instructions, the helpers registered besides those of the two groups
    of bpftime, and its form. *)
Record bpf_prog := BpfProg { pr_name : string; pr_insns : list Z; pr_helpers : list Z; pr_form : form }.
#[global] Instance eta_bpf_prog : Eta bpf_prog := fun p =>
  BpfProg (pr_name p) (pr_insns p) (pr_helpers p) (pr_form p).

(** [loads] is whether [bpftime_prog_load] or [load_aot_object] succeeds; [code] is what
    [bpftime_prog_exec] does. *)
Class Bpftime (E : Type) := {
  loads : bpf_prog -> bool;
  code : bpf_prog -> xdp E Z
}.

(** The environment of the process and its files: what [fopen] finds is the size at the end and
    the bytes that can be read. *)
Record process := Process { env_disable_jit : option string; env_aot_object : option string;
  file : string -> option (Z * list Z) }.

(** The state of the module: [entry_prog], and whether the maps are registered. *)
Record module_state := ModuleState { entry_prog : option bpf_prog; maps_registered : list Z }.

Section runtime.
Context {E : Type} `{Bpftime E} (proc : process).

(** ** Choosing the form *)

(** @src module/xdp-runtime.cpp 59-66 if_enable_jit *)
Definition if_enable_jit : bool := match env_disable_jit proc with Some _ => false | None => true end.

(** [None] is the result -1.
    @src module/xdp-runtime.cpp 68-91 get_aot_object *)
Definition get_aot_object : option (list Z) :=
  match env_aot_object proc with
  | None => None
  | Some name =>
      match file proc name with
      | None => None
      | Some (size, bytes) => if negb (zlen bytes =? size) then None else Some bytes
      end
  end.

(** The rest of a short file is zero, as the vector was before.
    @src module/xdp-runtime.cpp 93-107 read_file *)
Definition read_file (name : string) : option (list Z) :=
  match file proc name with
  | None => None
  | Some (size, bytes) => Some (take (Z.to_nat size) (bytes ++ repeat 0 (Z.to_nat size)))
  end.

(** ** The entry program *)

(** The names that are recognised.
    @src module/xdp-runtime.cpp 171-175 load_ebpf_programs *)
Definition is_entry (name : string) : bool :=
  String.eqb name "xdp_pass" || String.eqb name "balancer_ingres".

(** The result and [entry_prog]: the first program in the shared memory is taken, and the loop
    ends with it.
    @src module/xdp-runtime.cpp 109-182 load_ebpf_programs *)
Fixpoint load_ebpf_programs (entry : option bpf_prog) (handlers : list handler) : Z * option bpf_prog :=
  match handlers with
  | [] => (0, entry)
  | OtherHandler :: handlers => load_ebpf_programs entry handlers
  | ProgHandler name insns _ :: _ =>
      let new_prog := BpfProg name insns [csum_diff; xdp_adjust_tail; bpf_redirect_map] Unloaded in
      let new_prog := match get_aot_object with
                      | Some aot_buf => new_prog <| pr_form := Aot aot_buf |>
                      | None => new_prog <| pr_form := if if_enable_jit then Jit else Interpreted |>
                      end in
      if negb (loads new_prog) then (-1, entry)
      else (0, if is_entry name then Some new_prog else entry)
  end.

(** The types of the maps.
    @src module/xdp-runtime.cpp 188-199 register_maps *)
Definition register_maps : list Z := [14; 11; 9].
(** The result is -1 whatever happens; that of the loading is not looked at.
    @src module/xdp-runtime.cpp 201-207 ebpf_module_init *)
Definition ebpf_module_init (handlers : list handler) : Z * module_state :=
  (-1, ModuleState (load_ebpf_programs None handlers).2 register_maps).

(** The result, and [*ret] with what the program leaves; [ret] is the value before.
    @src module/xdp-runtime.cpp 209-217 ebpf_module_run_at_handler *)
Definition ebpf_module_run_at_handler (m : module_state) (ret : Z) (s : xst E) : option (Z * Z * xst E) :=
  match entry_prog m with
  | None => Some (0, ret, s)
  | Some p => '(v, s) ← code p s; Some (0, u64 v, s)
  end.

(** ** The runner *)

(** Runs one after the other, each on what the one before has left.
    @src module/xdp-runtime.cpp 233-235 run_xdp_and_measure *)
Fixpoint repeat_exec (n : nat) (p : bpf_prog) (ret : option Z) (s : xst E) : option (option Z * xst E) :=
  match n with
  | O => Some (ret, s)
  | S n => '(v, s) ← code p s; repeat_exec n p (Some (u64 v)) s
  end.
(** The time per run and the value of the last one, [None] for one that was never set; [clock]
    are the two times in seconds and nanoseconds.  The program has no headroom and no tailroom.
    An outer [None] is undefined: a fault of the program, or a division by zero.
    @src module/xdp-runtime.cpp 219-246 run_xdp_and_measure *)
Definition run_xdp_and_measure (p : bpf_prog) (data_in : list Z) (repeat_N : Z)
  (clock : (Z * Z) * (Z * Z)) (maps : E) : option (Z * option Z) :=
  '(return_val, _) ← repeat_exec (Z.to_nat repeat_N) p None (Xst (Frame [] data_in []) maps 0);
  let '((s0, n0), (s1, n1)) := clock in
  let time_ns := u64 ((s1 - s0) * 1000000000 + (n1 - n0)) in
  if repeat_N =? 0 then None else Some (time_ns / u64 repeat_N, return_val).

(** The program of the runner, [None] for the return of 1.  The results of loading are not looked at.
    @src module/xdp-runtime.cpp 266-294 bpftime_run_xdp_program *)
Definition runner_prog (handlers : list handler) (id : Z) (run_type : string) : option bpf_prog :=
  if (id >=? Z.of_nat (length handlers)) || (id <? 0) then None else
  match handlers !! Z.to_nat id with
  | Some (ProgHandler name insns aot_insns) =>
      let new_prog := BpfProg name insns [csum_diff; xdp_adjust_tail; bpf_redirect_map; xdp_adjust_head] Unloaded in
      if String.eqb run_type "JIT" then Some (new_prog <| pr_form := Jit |>)
      else if String.eqb run_type "AOT" then
        match aot_insns with
        | [] => None
        | _ => Some (new_prog <| pr_form := Aot aot_insns |>)
        end
      else if String.eqb run_type "INTERPRET" then Some (new_prog <| pr_form := Interpreted |>)
      else Some new_prog
  | _ => None
  end.
(** [inl] is a return of 1.
    @src module/xdp-runtime.cpp 248-301 bpftime_run_xdp_program *)
Definition bpftime_run_xdp_program (handlers : list handler) (id : Z) (data_in_file : string) (repeat_N : Z)
  (run_type : string) (clock : (Z * Z) * (Z * Z)) (maps : E) : Z + option (Z * option Z) :=
  match read_file data_in_file with
  | None => inl 1
  | Some data_in =>
      match runner_prog handlers id run_type with
      | None => inl 1
      | Some p => inr (run_xdp_and_measure p data_in repeat_N clock maps)
      end
  end.

(** ** What is executed *)

(** The program handlers of the shared memory, in order. *)
Definition programs (handlers : list handler) : list (string * list Z) :=
  omap (fun h => match h with ProgHandler name insns _ => Some (name, insns) | OtherHandler => None end) handlers.
(** What the first of them becomes. *)
Definition first_form : form :=
  match get_aot_object with Some o => Aot o | None => if if_enable_jit then Jit else Interpreted end.
Definition first_prog (name : string) (insns : list Z) : bpf_prog :=
  BpfProg name insns [csum_diff; xdp_adjust_tail; bpf_redirect_map] first_form.

Lemma load_first entry handlers :
  load_ebpf_programs entry handlers =
  match programs handlers with
  | [] => (0, entry)
  | (name, insns) :: _ =>
      if loads (first_prog name insns) then (0, if is_entry name then Some (first_prog name insns) else entry)
      else (-1, entry)
  end.
Proof.
  induction handlers as [|[name insns aot|] handlers IH]; [done| |exact IH].
  cbn [load_ebpf_programs programs omap list_omap]. unfold first_prog, first_form.
  destruct get_aot_object as [o|]; [|destruct if_enable_jit]; cbn; now destruct (loads _).
Qed.

(** What the drivers execute for a packet: the first program of the shared memory, if it has one
    of the two names and loads; whatever comes after it is never looked at.  Otherwise no program
    runs: the verdict is the 0 that the drivers initialise it with, XDP_ABORTED, and the packet
    and the maps are left alone. *)
Lemma runtime_runs_first handlers (s : xst E) :
  let m := (ebpf_module_init handlers).2 in
  ebpf_module_run_at_handler m 0 s =
  match head (programs handlers) with
  | Some (name, insns) =>
      if is_entry name && loads (first_prog name insns)
      then '(v, s) ← code (first_prog name insns) s; Some (0, u64 v, s)
      else Some (0, XDP_ABORTED, s)
  | None => Some (0, XDP_ABORTED, s)
  end.
Proof.
  cbv zeta. unfold ebpf_module_init, ebpf_module_run_at_handler. cbn [snd entry_prog].
  rewrite load_first. destruct (programs handlers) as [|[name insns] ps]; [done|].
  cbn [head]. destruct (loads _); destruct (is_entry name); reflexivity.
Qed.

(** The entry program as the programs of the other files are: what the drivers are given. *)
Definition driver_program (m : module_state) : xdp E Z :=
  match entry_prog m with Some p => code p | None => mret XDP_ABORTED end.
Lemma driver_program_runs m s :
  ebpf_module_run_at_handler m 0 s = ('(v, s) ← driver_program m s; Some (0, u64 v, s)).
Proof. unfold ebpf_module_run_at_handler, driver_program. now destruct (entry_prog m). Qed.

(** The repetitions compose: the packet that a run measures is the one the last run has left. *)
Lemma repeat_exec_add a b p ret s :
  repeat_exec (a + b) p ret s = ('(r, s) ← repeat_exec a p ret s; repeat_exec b p r s).
Proof.
  revert ret s. induction a as [|a IH]; intros ret s; [done|].
  cbn [Nat.add repeat_exec]. destruct (code p s) as [[v s']|]; [|done]. apply IH.
Qed.
(** Zero repetitions end in a division by zero, before anything is reported. *)
Lemma measure_nothing p data_in clock maps : run_xdp_and_measure p data_in 0 clock maps = None.
Proof. unfold run_xdp_and_measure. cbn. now destruct clock as [[] []]. Qed.
End runtime.
