(* ===== verification/DpdkConfig.v ===== *)
(** * Configuration of the DPDK driver (dpdk/main.c)

    The command line, the pairing of the ports, and the distribution of the ports over the
    logical cores: what [main] computes before it sets the devices up. *)
From Stdlib Require Import ZArith Lia Ascii String Permutation.
From stdpp Require Import base numbers list option.
From S2P Require Import Prelude CLib.
#[local] Open Scope Z_scope.
#[local] Open Scope list_scope.

(** ** Constants and options *)

(** @src dpdk/main.c 57 MAX_PKT_BURST *)
Definition MAX_PKT_BURST : Z := 32.
(** @src dpdk/main.c 58 BURST_TX_DRAIN_US *)
Definition BURST_TX_DRAIN_US : Z := 100.
(** @src dpdk/main.c 59 MEMPOOL_CACHE_SIZE *)
Definition MEMPOOL_CACHE_SIZE : Z := 256.
(** @src dpdk/main.c 64 RX_DESC_DEFAULT *)
Definition RX_DESC_DEFAULT : Z := 1024.
(** @src dpdk/main.c 65 TX_DESC_DEFAULT *)
Definition TX_DESC_DEFAULT : Z := 1024.
(** @src dpdk/main.c 89 MAX_RX_QUEUE_PER_LCORE *)
Definition MAX_RX_QUEUE_PER_LCORE : Z := 16.
(** @src dpdk/main.c 119 MAX_TIMER_PERIOD *)
Definition MAX_TIMER_PERIOD : Z := 86400.

(** What DPDK and the machine decide: the sizes of its build, the ports that
    [RTE_ETH_FOREACH_DEV] visits, in order, and the cores; [rte_strsplit] gives the tokens. *)
Class DpdkHost := {
  RTE_MAX_ETHPORTS : Z;
  RTE_MAX_LCORE : Z;
  rte_eth_devs : list Z;
  rte_eth_dev_count_avail : Z;
  rte_eth_dev_is_valid_port : Z -> bool;
  rte_lcore_is_enabled : Z -> bool;
  rte_get_timer_hz : Z;
  rte_strsplit : string -> nat -> ascii -> list string
}.

(** The options; [port_pair_params] is a null pointer or the pairs read so far.
    @src dpdk/main.c 49-121 l2fwd_enabled_port_mask *)
Record l2fwd_options := L2fwdOptions {
  mac_updating : bool; promiscuous_on : bool; l2fwd_enabled_port_mask : Z;
  port_pair_params : option (list (Z * Z)); l2fwd_rx_queue_per_lcore : Z; timer_period : Z
}.
#[global] Instance eta_l2fwd_options : Eta l2fwd_options := fun o =>
  L2fwdOptions (mac_updating o) (promiscuous_on o) (l2fwd_enabled_port_mask o) (port_pair_params o)
    (l2fwd_rx_queue_per_lcore o) (timer_period o).
(** The initial values; [l2fwd_parse_args] clears the pointer.
    @src dpdk/main.c 49-121 mac_updating *)
Definition initial_options : l2fwd_options := L2fwdOptions true false 0 None 1 10.

(** ** The command line *)

(** The result is an int.
    @src dpdk/main.c 423-435 l2fwd_parse_portmask *)
Definition l2fwd_parse_portmask (portmask : string) : Z :=
  let '(pm, end_, _) := strtoul 16 portmask in
  if is_empty portmask || negb (is_empty end_) then 0 else s32 pm.

(** @src dpdk/main.c 492-508 l2fwd_parse_nqueue *)
Definition l2fwd_parse_nqueue (q_arg : string) : Z :=
  let '(n, end_, _) := strtoul 10 q_arg in
  if is_empty q_arg || negb (is_empty end_) then 0
  else if n =? 0 then 0
  else if n >=? MAX_RX_QUEUE_PER_LCORE then 0
  else u32 n.

(** @src dpdk/main.c 510-524 l2fwd_parse_timer_period *)
Definition l2fwd_parse_timer_period (q_arg : string) : Z :=
  let '(n, end_) := strtol_end 10 q_arg in
  let n := s32 n in
  if is_empty q_arg || negb (is_empty end_) then -1
  else if n >=? MAX_TIMER_PERIOD then -1
  else n.

(** The destination of each port, and the ports of each core. *)
Abbreviation ports := (list Z).
Abbreviation lcore_queue_conf := (list (list Z)).

Section config.
Context `{DpdkHost}.

(** One field of a pair.
    @src dpdk/main.c 470-476 l2fwd_parse_port_pair_config *)
Definition parse_field (str_fld : string) : option Z :=
  let '(n, end_, err) := strtoul 0 str_fld in
  if err || (String.length end_ =? String.length str_fld)%nat || (n >=? RTE_MAX_ETHPORTS) then None else Some (u16 n).

(** The text between the parentheses.
    @src dpdk/main.c 461-486 l2fwd_parse_port_pair_config *)
Definition parse_pair (s : string) (nb_port_pair_params : nat) : option (Z * Z) :=
  if (Nat.leb 256 (String.length s)) then None else
  match rte_strsplit s 2 "," with
  | [f1; f2] =>
      port1 ← parse_field f1;
      port2 ← parse_field f2;
      if Z.of_nat nb_port_pair_params >=? RTE_MAX_ETHPORTS / 2 then None else Some (port1, port2)
  | _ => None
  end.

(** Every turn of the loop consumes a part of the string, whose length is enough fuel; [None] is -1.
    @src dpdk/main.c 455-487 l2fwd_parse_port_pair_config *)
Fixpoint parse_pairs (fuel : nat) (p0 : string) (params : list (Z * Z)) : option (list (Z * Z)) :=
  match strchr "(" p0 with
  | None => Some params
  | Some open =>
      let p := substring 1 (String.length open) open in
      match strchr ")" p, fuel with
      | Some p0, S fuel =>
          let size := (String.length p - String.length p0)%nat in
          pair ← parse_pair (substring 0 size p) (length params);
          parse_pairs fuel p0 (params ++ [pair])
      | _, _ => None
      end
  end.
(** @src dpdk/main.c 437-490 l2fwd_parse_port_pair_config *)
Definition l2fwd_parse_port_pair_config (q_arg : string) : option (list (Z * Z)) :=
  parse_pairs (String.length q_arg) q_arg [].

(** The options in the order in which [getopt_long] returns them. *)
Inductive l2fwd_arg :=
| Opt_p (optarg : string) | Opt_P | Opt_q (optarg : string) | Opt_T (optarg : string)
| Opt_portmap (optarg : string) | Opt_no_mac_updating | Opt_unknown.

(** One turn of the loop; [None] is the usage text and -1.
    @src dpdk/main.c 564-621 l2fwd_parse_args *)
Definition l2fwd_parse_arg (o : l2fwd_options) (arg : l2fwd_arg) : option l2fwd_options :=
  match arg with
  | Opt_p optarg =>
      let mask := u32 (l2fwd_parse_portmask optarg) in
      if mask =? 0 then None else Some (o <| l2fwd_enabled_port_mask := mask |>)
  | Opt_P => Some (o <| promiscuous_on := true |>)
  | Opt_q optarg =>
      let n := l2fwd_parse_nqueue optarg in
      if n =? 0 then None else Some (o <| l2fwd_rx_queue_per_lcore := n |>)
  | Opt_T optarg =>
      let timer_secs := l2fwd_parse_timer_period optarg in
      if timer_secs <? 0 then None else Some (o <| timer_period := timer_secs |>)
  | Opt_portmap optarg =>
      params ← l2fwd_parse_port_pair_config optarg;
      Some (o <| port_pair_params := Some params |>)
  | Opt_no_mac_updating => Some (o <| mac_updating := false |>)
  | Opt_unknown => None
  end.
(** @src dpdk/main.c 553-628 l2fwd_parse_args *)
Fixpoint l2fwd_parse_args (o : l2fwd_options) (args : list l2fwd_arg) : option l2fwd_options :=
  match args with
  | [] => Some o
  | arg :: args => o ← l2fwd_parse_arg o arg; l2fwd_parse_args o args
  end.

(** ** Ports *)

Definition port_bit (portid : Z) : Z := u32 (Z.shiftl 1 portid).
Definition port_enabled (mask portid : Z) : bool := negb (Z.land mask (port_bit portid) =? 0).

(** The inner loop, for one of the two ports of a pair.
    @src dpdk/main.c 644-658 check_port_pair_config *)
Definition check_pair_port (enabled_mask port_pair_mask portid : Z) : option Z :=
  if Z.land enabled_mask (port_bit portid) =? 0 then None
  else if negb (rte_eth_dev_is_valid_port portid) then None
  else Some (Z.lor port_pair_mask (port_bit portid)).
(** The new mask of enabled ports; [None] is -1.
    @src dpdk/main.c 634-670 check_port_pair_config *)
Fixpoint check_port_pairs (enabled_mask port_pair_config_mask : Z) (pairs : list (Z * Z)) : option Z :=
  match pairs with
  | [] => Some (Z.land enabled_mask port_pair_config_mask)
  | (port0, port1) :: pairs =>
      m ← check_pair_port enabled_mask 0 port0;
      m ← check_pair_port enabled_mask m port1;
      if negb (Z.land port_pair_config_mask m =? 0) then None
      else check_port_pairs enabled_mask (Z.lor port_pair_config_mask m) pairs
  end.
Definition check_port_pair_config (enabled_mask : Z) (pairs : list (Z * Z)) : option Z :=
  check_port_pairs enabled_mask 0 pairs.

Definition set_port (dst : ports) (portid value : Z) : ports := <[Z.to_nat portid := value]> dst.
Definition dst_port (dst : ports) (portid : Z) : Z := nth (Z.to_nat portid) dst 0.
(** @src dpdk/main.c 800-802 main *)
Definition reset_dst_ports : ports := replicate (Z.to_nat RTE_MAX_ETHPORTS) 0.
(** Two turns of the loop for each pair.
    @src dpdk/main.c 809-814 main *)
Fixpoint dst_ports_of_pairs (dst : ports) (pairs : list (Z * Z)) : ports :=
  match pairs with
  | [] => dst
  | (port0, port1) :: pairs => dst_ports_of_pairs (set_port (set_port dst port0 port1) port1 port0) pairs
  end.
(** @src dpdk/main.c 816-829 main *)
Fixpoint alternate_ports (mask : Z) (dst : ports) (last_port nb_ports_in_mask : Z) (devs : list Z) : ports * Z * Z :=
  match devs with
  | [] => (dst, last_port, nb_ports_in_mask)
  | portid :: devs =>
      if Z.land mask (port_bit portid) =? 0 then alternate_ports mask dst last_port nb_ports_in_mask devs
      else if nz (nb_ports_in_mask mod 2) then
        alternate_ports mask (set_port (set_port dst portid last_port) last_port portid) last_port
          (u32 (nb_ports_in_mask + 1)) devs
      else alternate_ports mask dst portid (u32 (nb_ports_in_mask + 1)) devs
  end.
(** @src dpdk/main.c 800-834 main *)
Definition dst_ports (mask : Z) (params : option (list (Z * Z))) : ports :=
  match params with
  | Some pairs => dst_ports_of_pairs reset_dst_ports pairs
  | None =>
      let '(dst, last_port, nb_ports_in_mask) := alternate_ports mask reset_dst_ports 0 0 rte_eth_devs in
      if nz (nb_ports_in_mask mod 2) then set_port dst last_port last_port else dst
  end.
(** The checks of the masks; [None] is [rte_exit].
    @src dpdk/main.c 784-796 main *)
Definition check_masks (o : l2fwd_options) : option Z :=
  let nb_ports := rte_eth_dev_count_avail in
  if nb_ports =? 0 then None else
  mask ← match port_pair_params o with
         | Some pairs => check_port_pair_config (l2fwd_enabled_port_mask o) pairs
         | None => Some (l2fwd_enabled_port_mask o)
         end;
  if negb (Z.land mask (u32 (Z.lnot (s32 (Z.shiftl 1 nb_ports - 1)))) =? 0) then None else Some mask.

(** ** Logical cores *)

Definition rx_ports (conf : lcore_queue_conf) (lcore : Z) : list Z := nth (Z.to_nat lcore) conf [].
(** The search for a core with room; [RTE_MAX_LCORE] turns are enough, [None] is [rte_exit].
    @src dpdk/main.c 846-853 main *)
Fixpoint find_lcore (fuel : nat) (per_lcore : Z) (conf : lcore_queue_conf) (rx_lcore_id : Z) : option Z :=
  if negb (rte_lcore_is_enabled rx_lcore_id) || (Z.of_nat (length (rx_ports conf rx_lcore_id)) =? per_lcore) then
    match fuel with
    | O => None
    | S fuel =>
        if rx_lcore_id + 1 >=? RTE_MAX_LCORE then None else find_lcore fuel per_lcore conf (rx_lcore_id + 1)
    end
  else Some rx_lcore_id.
(** [qconf] is the number of the core it points at.
    @src dpdk/main.c 837-865 main *)
Fixpoint assign_lcores (mask per_lcore : Z) (devs : list Z) (conf : lcore_queue_conf) (rx_lcore_id : Z)
    (qconf : option Z) (nb_lcores : Z) : option (lcore_queue_conf * Z) :=
  match devs with
  | [] => Some (conf, nb_lcores)
  | portid :: devs =>
      if Z.land mask (port_bit portid) =? 0
      then assign_lcores mask per_lcore devs conf rx_lcore_id qconf nb_lcores else
      rx_lcore_id ← find_lcore (Z.to_nat RTE_MAX_LCORE) per_lcore conf rx_lcore_id;
      let new := match qconf with Some q => negb (q =? rx_lcore_id) | None => true end in
      let conf := <[Z.to_nat rx_lcore_id := rx_ports conf rx_lcore_id ++ [portid]]> conf in
      assign_lcores mask per_lcore devs conf rx_lcore_id (Some rx_lcore_id) (if new then u32 (nb_lcores + 1) else nb_lcores)
  end.

(** @src dpdk/main.c 867-868 main *)
Definition mbufs_needed (nb_ports nb_rxd nb_txd nb_lcores : Z) : Z :=
  Z.max (u32 (nb_ports * u32 (nb_rxd + nb_txd + MAX_PKT_BURST + u32 (nb_lcores * MEMPOOL_CACHE_SIZE)))) 8192.

(** What [main] has computed when it starts to set the ports up. *)
Record l2fwd_config := L2fwdConfig {
  cfg_mask : Z; cfg_dst : ports; cfg_lcores : lcore_queue_conf; cfg_mbufs : Z; cfg_timer : Z; cfg_promiscuous : bool
}.
(** The arguments are those that follow the ones of the EAL.
    @src dpdk/main.c 773-868 main *)
Definition configure (args : list l2fwd_arg) : option l2fwd_config :=
  o ← l2fwd_parse_args initial_options args;
  mask ← check_masks o;
  let dst := dst_ports mask (port_pair_params o) in
  '(conf, nb_lcores) ← assign_lcores mask (l2fwd_rx_queue_per_lcore o) rte_eth_devs
      (replicate (Z.to_nat RTE_MAX_LCORE) []) 0 None 0;
  Some (L2fwdConfig mask dst conf (mbufs_needed rte_eth_dev_count_avail RX_DESC_DEFAULT TX_DESC_DEFAULT nb_lcores)
          (u64 (timer_period o * rte_get_timer_hz)) (promiscuous_on o)).
End config.

(** ** Masks *)

Lemma port_bit_pow p : 0 <= p < 32 -> port_bit p = 2 ^ p.
Proof.
  intros Hp. unfold port_bit. rewrite Z.shiftl_1_l. apply u32_id. unfold is_u32.
  pose proof (Z.pow_lt_mono_r 2 p 32). pose proof (Z.pow_nonneg 2 p). lia.
Qed.
Lemma land_pow2 m p : 0 <= p -> Z.land m (2 ^ p) = if Z.testbit m p then 2 ^ p else 0.
Proof.
  intros Hp. apply Z.bits_inj'. intros n Hn. rewrite Z.land_spec, Z.pow2_bits_eqb by done.
  destruct (Z.eqb_spec p n) as [->|Hne].
  - destruct (Z.testbit m n); [|now rewrite Z.bits_0]. now rewrite Z.pow2_bits_true.
  - rewrite andb_false_r. destruct (Z.testbit m p); [|now rewrite Z.bits_0].
    symmetry. apply Z.pow2_bits_false. done.
Qed.
Lemma port_enabled_spec m p : 0 <= p < 32 -> port_enabled m p = Z.testbit m p.
Proof.
  intros Hp. unfold port_enabled. rewrite port_bit_pow, land_pow2 by lia.
  destruct (Z.testbit m p); [|done]. pose proof (Z.pow_pos_nonneg 2 p). now destruct (Z.eqb_spec (2 ^ p) 0); [lia|].
Qed.
Lemma land_bit_zero m p : 0 <= p < 32 -> (Z.land m (port_bit p) =? 0) = negb (Z.testbit m p).
Proof. intros Hp. rewrite <- (port_enabled_spec m p Hp). unfold port_enabled. now rewrite negb_involutive. Qed.
Lemma testbit_port_bit p n : 0 <= p < 32 -> Z.testbit (port_bit p) n = (p =? n).
Proof. intros Hp. rewrite port_bit_pow by done. apply Z.pow2_bits_eqb. lia. Qed.
Lemma land_zero_bits a b n : Z.land a b = 0 -> Z.testbit a n = true -> Z.testbit b n = false.
Proof. intros H Ha. apply (f_equal (fun z => Z.testbit z n)) in H. rewrite Z.land_spec, Z.bits_0, Ha in H. exact H. Qed.

Section arrays.
Lemma dst_set_same (dst : ports) p q : 0 <= p < Z.of_nat (length dst) -> dst_port (set_port dst p q) p = q.
Proof.
  intros Hp. unfold dst_port, set_port. apply nth_lookup_Some. apply list_lookup_insert_eq. lia.
Qed.
Lemma dst_set_other (dst : ports) p q r : 0 <= p -> 0 <= r -> p <> r -> dst_port (set_port dst p q) r = dst_port dst r.
Proof.
  intros Hp Hr Hne. unfold dst_port, set_port. rewrite !nth_lookup, list_lookup_insert_ne by lia. done.
Qed.
Lemma length_set_port dst p q : length (set_port dst p q) = length dst.
Proof. apply length_insert. Qed.
End arrays.

(** ** Pairs given on the command line *)

Fixpoint pair_ports (pairs : list (Z * Z)) : list Z :=
  match pairs with [] => [] | (a, b) :: pairs => a :: b :: pair_ports pairs end.
Fixpoint pairs_disjoint (pairs : list (Z * Z)) : Prop :=
  match pairs with
  | [] => True
  | (a, b) :: pairs => (a ∉ pair_ports pairs) /\ (b ∉ pair_ports pairs) /\ pairs_disjoint pairs
  end.
Definition port_ok (p : Z) : Prop := 0 <= p < 32.

Section pairs.
Context `{DpdkHost}.

Lemma check_port_pairs_spec mask cm pairs m :
  Forall port_ok (pair_ports pairs) -> check_port_pairs mask cm pairs = Some m ->
  pairs_disjoint pairs /\
  (forall p, p ∈ pair_ports pairs ->
     Z.testbit mask p = true /\ Z.testbit cm p = false /\ rte_eth_dev_is_valid_port p = true) /\
  (forall p, port_ok p -> Z.testbit m p = Z.testbit mask p && (Z.testbit cm p || bool_decide (p ∈ pair_ports pairs))).
Proof.
  revert cm. induction pairs as [|[a b] pairs IH]; intros cm Hok; cbn [check_port_pairs pair_ports].
  - intros [= <-]. split_and!; [done|intros p Hp; now apply elem_of_nil in Hp|].
    intros p _. rewrite Z.land_spec. cbn. now rewrite orb_false_r.
  - inversion_clear Hok as [|? ? Ha Hok']. inversion_clear Hok' as [|? ? Hb Hok].
    unfold check_pair_port. rewrite !land_bit_zero by done.
    destruct (Z.testbit mask a) eqn:Ea; [|done]. destruct (rte_eth_dev_is_valid_port a) eqn:Va; [|done].
    destruct (Z.testbit mask b) eqn:Eb; [|done]. destruct (rte_eth_dev_is_valid_port b) eqn:Vb; [|done].
    cbn [negb]. cbn [mbind option_bind]. set (ab := Z.lor (Z.lor 0 (port_bit a)) (port_bit b)).
    assert (Hab : forall n, Z.testbit ab n = (a =? n) || (b =? n)).
    { intros n. unfold ab. rewrite !Z.lor_spec, !testbit_port_bit by done. now rewrite Z.bits_0. }
    destruct (Z.eqb_spec (Z.land cm ab) 0) as [Hz|]; [|done]. cbn [negb]. intros Hrun.
    destruct (IH _ Hok Hrun) as (Hdis & Hin & Hbits).
    assert (Hfree : forall p, p = a \/ p = b -> (p ∉ pair_ports pairs) /\ Z.testbit cm p = false).
    { intros p Hp. assert (Habp : Z.testbit ab p = true) by (rewrite Hab; destruct Hp as [-> | ->]; now rewrite Z.eqb_refl, ?orb_true_r).
      split.
      - intros Hpin. destruct (Hin p Hpin) as (_ & Hc & _). rewrite Z.lor_spec, Habp, orb_true_r in Hc. done.
      - rewrite Z.land_comm in Hz. exact (land_zero_bits _ _ _ Hz Habp). }
    split_and!.
    + destruct (Hfree a), (Hfree b); auto. now split_and!.
    + intros p Hp. rewrite !elem_of_cons in Hp. destruct Hp as [-> |[-> |Hp]].
      * split_and!; [done| |done]. apply Hfree. auto.
      * split_and!; [done| |done]. apply Hfree. auto.
      * destruct (Hin p Hp) as (? & Hc & ?). rewrite Z.lor_spec in Hc. apply orb_false_iff in Hc. tauto.
    + intros p Hp. rewrite Hbits, Z.lor_spec, Hab by done. f_equal. rewrite <- orb_assoc. f_equal.
      destruct (Z.eqb_spec a p) as [-> |]; cbn; [now rewrite bool_decide_true by (rewrite !elem_of_cons; auto)|].
      destruct (Z.eqb_spec b p) as [-> |]; cbn; [now rewrite bool_decide_true by (rewrite !elem_of_cons; auto)|].
      apply bool_decide_ext. rewrite !elem_of_cons. split; [tauto|]. intros [?|[?|?]]; congruence.
Qed.

Lemma dst_of_pairs_other dst pairs p :
  Forall port_ok (pair_ports pairs) -> 0 <= p -> p ∉ pair_ports pairs ->
  dst_port (dst_ports_of_pairs dst pairs) p = dst_port dst p.
Proof.
  revert dst. induction pairs as [|[a b] pairs IH]; intros dst Hok Hp Hnin; [done|].
  cbn [pair_ports dst_ports_of_pairs] in *. inversion_clear Hok as [|? ? Ha Hok']. inversion_clear Hok' as [|? ? Hb Hok].
  unfold port_ok in *. rewrite !not_elem_of_cons in Hnin. destruct Hnin as (? & ? & ?). rewrite IH by done. now rewrite !dst_set_other by lia.
Qed.
Lemma dst_of_pairs dst pairs a b :
  Forall (fun p => 0 <= p < Z.of_nat (length dst) /\ port_ok p) (pair_ports pairs) -> pairs_disjoint pairs ->
  (a, b) ∈ pairs ->
  dst_port (dst_ports_of_pairs dst pairs) a = b /\ dst_port (dst_ports_of_pairs dst pairs) b = a.
Proof.
  revert dst. induction pairs as [|[c d] pairs IH]; intros dst Hok Hdis Hin; [now apply elem_of_nil in Hin|].
  cbn [pair_ports dst_ports_of_pairs pairs_disjoint] in *. destruct Hdis as (Hc & Hd & Hdis).
  inversion_clear Hok as [|? ? [Hcl Hco] Hok']. inversion_clear Hok' as [|? ? [Hdl Hdo] Hok].
  apply elem_of_cons in Hin as [[= -> ->]|Hin].
  - assert (Hok2 : Forall port_ok (pair_ports pairs)) by (eapply List.Forall_impl; [|exact Hok]; now intros ? [_ ?]).
    rewrite !dst_of_pairs_other by (done || lia). rewrite (dst_set_same _ d) by (rewrite length_set_port; lia).
    split; [|done]. destruct (Z.eq_dec c d) as [-> |Hne].
    + now rewrite dst_set_same by (rewrite length_set_port; lia).
    + rewrite dst_set_other by lia. now rewrite dst_set_same by lia.
  - apply IH; [|done..]. now rewrite !length_set_port.
Qed.
End pairs.

(** ** Alternating ports *)

(** The other port of the pair that [p] belongs to, when the ports are paired in order; the last
    of an odd number is its own partner. *)
Fixpoint partner (l : list Z) (p : Z) : Z :=
  match l with
  | a :: (b :: l) as tl => if p =? a then b else if p =? b then a else partner l p
  | [a] => a
  | [] => 0
  end.
Definition enabled_ports (mask : Z) (devs : list Z) : list Z := List.filter (port_enabled mask) devs.

(** Pairs of list elements at a time. *)
Lemma pairs_ind (P : list Z -> Prop) : P [] -> (forall a, P [a]) -> (forall a b l, P l -> P (a :: b :: l)) -> forall l, P l.
Proof.
  intros H0 H1 H2 l. enough (P l /\ forall a, P (a :: l)) by tauto.
  induction l as [|b l [IH1 IH2]]; [auto|]. split; [auto|]. intros a. now apply H2.
Qed.

Lemma partner_in l p : p ∈ l -> partner l p ∈ l.
Proof.
  revert l. apply (pairs_ind (fun l => p ∈ l -> partner l p ∈ l)).
  - intros Hp; now apply elem_of_nil in Hp.
  - intros a _. cbn. apply list_elem_of_here.
  - intros a b l IH Hp. cbn [partner]. rewrite !elem_of_cons in *.
    destruct (Z.eqb_spec p a); [tauto|]. destruct (Z.eqb_spec p b); [tauto|]. destruct Hp as [?|[?|Hp]]; [done..|auto].
Qed.
Lemma partner_involutive l p : NoDup l -> p ∈ l -> partner l (partner l p) = p.
Proof.
  revert l. apply (pairs_ind (fun l => NoDup l -> p ∈ l -> partner l (partner l p) = p)).
  - intros _ Hp. now apply elem_of_nil in Hp.
  - intros a _ Hp. apply list_elem_of_singleton in Hp. now subst.
  - intros a b l IH Hnd Hp. rewrite !elem_of_cons in Hp. inversion_clear Hnd as [|? ? Ha Hnd']. inversion_clear Hnd' as [|? ? Hb Hnd].
    rewrite elem_of_cons in Ha. assert (Hab : a <> b) by tauto.
    cbn [partner]. destruct (Z.eqb_spec p a) as [-> |Hpa].
    { destruct (Z.eqb_spec b a); [congruence|]. now rewrite Z.eqb_refl. }
    destruct (Z.eqb_spec p b) as [-> |Hpb]; [now rewrite Z.eqb_refl|].
    assert (Hin : p ∈ l) by tauto. pose proof (partner_in l p Hin) as Hpin.
    destruct (Z.eqb_spec (partner l p) a) as [E|_]; [rewrite E in Hpin; tauto|].
    destruct (Z.eqb_spec (partner l p) b) as [E|_]; [rewrite E in Hpin; tauto|]. auto.
Qed.

Lemma alternate_filter mask dst last n devs :
  alternate_ports mask dst last n devs = alternate_ports mask dst last n (enabled_ports mask devs).
Proof.
  revert dst last n. induction devs as [|p devs IH]; intros dst last n; [done|].
  cbn [alternate_ports enabled_ports List.filter]. unfold port_enabled at 1.
  destruct (Z.land mask (port_bit p) =? 0) eqn:E; cbn [negb]; [apply IH|].
  cbn [alternate_ports]. rewrite E. destruct (nz (n mod 2)); apply IH.
Qed.

Definition finish (dst : ports) (last n : Z) : ports := if nz (n mod 2) then set_port dst last last else dst.

(** The loop pairs the ports of [l] and leaves the others. *)
Definition alternates (mask : Z) (l : list Z) : Prop := forall dst last n,
  Forall (fun p => 0 <= p < Z.of_nat (length dst) /\ port_enabled mask p = true) l -> NoDup l ->
  n mod 2 = 0 -> 0 <= n -> n + Z.of_nat (length l) < 4294967296 ->
  let '(dst', last', n') := alternate_ports mask dst last n l in
  forall p, 0 <= p -> dst_port (finish dst' last' n') p = if bool_decide (p ∈ l) then partner l p else dst_port dst p.
Lemma alternate_spec mask l : alternates mask l.
Proof.
  revert l. apply pairs_ind.
  - intros dst last n _ _ Hn _ _ p _. cbn. unfold finish. rewrite Hn. done.
  - intros a dst last n Hall _ Hn Hn0 Hlt. cbn in Hlt. inversion_clear Hall as [|? ? [Ha He] _].
    cbn [alternate_ports]. unfold port_enabled in He. apply negb_true_iff in He. rewrite He, Hn. cbn.
    intros p Hp. unfold finish. rewrite u32_id by (unfold is_u32; lia).
    replace ((n + 1) mod 2) with 1 by zlia. cbn. case_bool_decide as Hin.
    + apply list_elem_of_singleton in Hin as ->. now apply dst_set_same.
    + apply dst_set_other; try lia. intros ->. apply Hin, list_elem_of_here.
  - intros a b l IH dst last n Hall Hnd Hn Hn0 Hlt. cbn [length] in Hlt.
    inversion_clear Hall as [|? ? [Ha Hea] Hall']. inversion_clear Hall' as [|? ? [Hb Heb] Hall].
    inversion_clear Hnd as [|? ? Hna Hnd']. inversion_clear Hnd' as [|? ? Hnb Hnd]. rewrite elem_of_cons in Hna.
    cbn [alternate_ports]. unfold port_enabled in Hea, Heb. apply negb_true_iff in Hea, Heb. rewrite Hea, Hn. cbn [nz Z.eqb negb].
    rewrite Heb. rewrite (u32_id (n + 1)) by (unfold is_u32; lia). replace ((n + 1) mod 2) with 1 by zlia. cbn [nz Z.eqb negb].
    rewrite u32_id by (unfold is_u32; lia).
    specialize (IH (set_port (set_port dst b a) a b) a (n + 1 + 1)). rewrite !length_set_port in IH.
    specialize (IH Hall Hnd ltac:(zlia) ltac:(lia) ltac:(lia)).
    destruct (alternate_ports _ _ _ _ _) as [[dst' last'] n']. intros p Hp. rewrite IH by done.
    cbn [partner]. destruct (Z.eqb_spec p a) as [-> |Hpa].
    { rewrite bool_decide_false by tauto. rewrite bool_decide_true by apply list_elem_of_here.
      apply dst_set_same. now rewrite length_set_port. }
    destruct (Z.eqb_spec p b) as [-> |Hpb].
    { rewrite bool_decide_false by tauto. rewrite bool_decide_true by (rewrite !elem_of_cons; auto).
      rewrite dst_set_other by lia. now apply dst_set_same. }
    rewrite !dst_set_other by lia. erewrite bool_decide_ext; [reflexivity|]. rewrite !elem_of_cons. tauto.
Qed.

(** ** Ports of the cores *)

Definition used (conf : lcore_queue_conf) : Z := Z.of_nat (length (List.filter (fun l => negb (bool_decide (l = []))) conf)).

Lemma rx_ports_lookup conf j : 0 <= j < Z.of_nat (length conf) -> conf !! Z.to_nat j = Some (rx_ports conf j).
Proof.
  intros Hj. unfold rx_ports. destruct (lookup_lt_is_Some_2 conf (Z.to_nat j)) as [l Hl]; [lia|].
  now rewrite (nth_lookup_Some _ _ [] _ Hl).
Qed.
Lemma rx_ports_insert conf i j l :
  0 <= i < Z.of_nat (length conf) -> 0 <= j -> rx_ports (<[Z.to_nat i := l]> conf) j = if j =? i then l else rx_ports conf j.
Proof.
  intros Hi Hj. unfold rx_ports. destruct (Z.eqb_spec j i) as [-> |Hne].
  - apply nth_lookup_Some, list_lookup_insert_eq. lia.
  - rewrite !nth_lookup, list_lookup_insert_ne by lia. done.
Qed.

Section add_port.
Context (conf : lcore_queue_conf) (i : Z) (p : Z).
Context (Hi : 0 <= i < Z.of_nat (length conf)).
Context (Hlater : forall j, i < j < Z.of_nat (length conf) -> rx_ports conf j = []).
Let conf' : lcore_queue_conf := <[Z.to_nat i := rx_ports conf i ++ [p]]> conf.

Lemma conf_split : exists l1 n, conf = l1 ++ rx_ports conf i :: replicate n [] /\ conf' = l1 ++ (rx_ports conf i ++ [p]) :: replicate n [].
Proof.
  pose proof (rx_ports_lookup conf i Hi) as Hl. exists (take (Z.to_nat i) conf), (length conf - S (Z.to_nat i))%nat.
  assert (Hrest : drop (S (Z.to_nat i)) conf = replicate (length conf - S (Z.to_nat i)) []).
  { apply list_eq. intros k. rewrite lookup_drop. destruct (decide (S (Z.to_nat i) + k < length conf)%nat) as [Hk|Hk].
    - pose proof (rx_ports_lookup conf (Z.of_nat (S (Z.to_nat i) + k)) ltac:(lia)) as Hk'. rewrite Nat2Z.id in Hk'.
      rewrite Hk', Hlater by lia. symmetry. apply lookup_replicate. split; [done|lia].
    - rewrite lookup_ge_None_2 by lia. symmetry. apply lookup_ge_None_2. rewrite length_replicate. lia. }
  rewrite <- Hrest. split; [symmetry; now apply take_drop_middle|].
  unfold conf'. apply insert_take_drop. lia.
Qed.

Lemma concat_replicate_nil n : concat (replicate n (@nil Z)) = [].
Proof. induction n as [|n IH]; [done|]. exact IH. Qed.
Lemma used_replicate n : used (replicate n []) = 0.
Proof. induction n as [|n IH]; [done|exact IH]. Qed.
Lemma add_port_concat : concat conf' = concat conf ++ [p].
Proof.
  destruct conf_split as (l1 & n & E & ->). rewrite E at 2. rewrite !concat_app. cbn [concat].
  now rewrite concat_replicate_nil, !app_nil_r, app_assoc.
Qed.
Lemma add_port_used : used conf' = used conf + (if bool_decide (rx_ports conf i = []) then 1 else 0).
Proof.
  destruct conf_split as (l1 & n & E & ->). rewrite E at 2. unfold used. rewrite !List.filter_app, !length_app. cbn [List.filter].
  rewrite (bool_decide_false (rx_ports conf i ++ [p] = [])) by (intros Hnil; now apply app_nil in Hnil).
  cbn [negb length]. destruct (bool_decide (rx_ports conf i = [])); cbn [negb length]; lia.
Qed.
End add_port.

Section lcores.
Context `{DpdkHost} (per_lcore : Z) (Hper : 0 < per_lcore).
Context (Hmax : 0 < RTE_MAX_LCORE < 4294967296).

Definition full (conf : lcore_queue_conf) (j : Z) : Prop :=
  if rte_lcore_is_enabled j then Z.of_nat (length (rx_ports conf j)) = per_lcore else rx_ports conf j = [].

(** The cores before [id] are full, those after it are empty. *)
Record filling (conf : lcore_queue_conf) (id : Z) (qconf : option Z) (nb_lcores : Z) : Prop := {
  filling_length : Z.of_nat (length conf) = RTE_MAX_LCORE;
  filling_id : 0 <= id < RTE_MAX_LCORE;
  filling_before j : 0 <= j < id -> full conf j;
  filling_after j : id < j < RTE_MAX_LCORE -> rx_ports conf j = [];
  filling_here : Z.of_nat (length (rx_ports conf id)) <= per_lcore;
  filling_enabled : rx_ports conf id <> [] -> rte_lcore_is_enabled id = true;
  filling_qconf : qconf = if bool_decide (rx_ports conf id = []) then None else Some id;
  filling_used : used conf = nb_lcores
}.

(** What the search for a core promises. *)
Definition found (conf : lcore_queue_conf) (id : Z) (r : option Z) : Prop :=
  match r with
  | Some id' => id <= id' < RTE_MAX_LCORE /\ rte_lcore_is_enabled id' = true
      /\ Z.of_nat (length (rx_ports conf id')) < per_lcore /\ (forall j, id <= j < id' -> full conf j)
  | None => forall j, id <= j < RTE_MAX_LCORE -> full conf j
  end.
Lemma find_next r conf id : full conf id -> found conf (id + 1) r -> found conf id r.
Proof.
  intros Hfull. destruct r as [id'|]; cbn.
  - intros (? & ? & ? & Hf). split_and!; [lia..|done|done|]. intros j Hj.
    destruct (Z.eq_dec j id) as [-> |]; [done|]. apply Hf. lia.
  - intros Hf j Hj. destruct (Z.eq_dec j id) as [-> |]; [done|]. apply Hf. lia.
Qed.
Lemma find_lcore_spec fuel conf id qconf nb :
  filling conf id qconf nb -> RTE_MAX_LCORE - id <= Z.of_nat fuel -> found conf id (find_lcore fuel per_lcore conf id).
Proof.
  intros [Hlen Hid _ Hafter Hhere Hen _ _]. 
  assert (Hsmall : forall j, id <= j < RTE_MAX_LCORE -> Z.of_nat (length (rx_ports conf j)) <= per_lcore /\
    (rx_ports conf j <> [] -> rte_lcore_is_enabled j = true)).
  { intros j Hj. destruct (Z.eq_dec j id) as [-> |]; [auto|]. rewrite Hafter by lia. cbn. split; [lia|done]. }
  clear Hafter Hhere Hen. revert id Hid Hsmall. induction fuel as [|fuel IH]; intros id Hid Hsmall Hfuel; [lia|].
  destruct (Hsmall id ltac:(lia)) as [Hle Hen]. cbn [find_lcore].
  destruct (rte_lcore_is_enabled id) eqn:Ee; cbn [negb orb].
  - destruct (Z.eqb_spec (Z.of_nat (length (rx_ports conf id))) per_lcore) as [Heq|Hne].
    2:{ split_and!; [lia..|done|lia|]. intros j Hj. lia. }
    assert (Hfull : full conf id) by (unfold full; now rewrite Ee).
    destruct (Z.geb_spec (id + 1) RTE_MAX_LCORE).
    { intros j Hj. replace j with id by lia. done. }
    specialize (IH (id + 1) ltac:(lia) ltac:(intros; apply Hsmall; lia) ltac:(lia)).
    exact (find_next (find_lcore fuel per_lcore conf (id + 1)) conf id Hfull IH).
  - assert (Hfull : full conf id).
    { unfold full. rewrite Ee. destruct (rx_ports conf id); [done|]. now specialize (Hen ltac:(done)). }
    destruct (Z.geb_spec (id + 1) RTE_MAX_LCORE).
    { intros j Hj. replace j with id by lia. done. }
    specialize (IH (id + 1) ltac:(lia) ltac:(intros; apply Hsmall; lia) ltac:(lia)).
    exact (find_next (find_lcore fuel per_lcore conf (id + 1)) conf id Hfull IH).
Qed.

Lemma filling_add conf id qconf nb id' p :
  filling conf id qconf nb -> found conf id (Some id') ->
  let new := match qconf with Some q => negb (q =? id') | None => true end in
  let conf' := <[Z.to_nat id' := rx_ports conf id' ++ [p]]> conf in
  concat conf' = concat conf ++ [p] /\ filling conf' id' (Some id') (if new then u32 (nb + 1) else nb).
Proof.
  intros [Hlen Hid Hbefore Hafter Hhere Hen Hq Hu] (Hid' & He & Hroom & Hf) new conf'.
  assert (Hi : 0 <= id' < Z.of_nat (length conf)) by lia.
  assert (Hlater : forall j, id' < j < Z.of_nat (length conf) -> rx_ports conf j = []) by (intros; apply Hafter; lia).
  assert (Hget : forall j, 0 <= j -> rx_ports conf' j = if j =? id' then rx_ports conf id' ++ [p] else rx_ports conf j)
    by (intros; now apply rx_ports_insert).
  assert (Hsame : forall j, 0 <= j -> j <> id' -> rx_ports conf' j = rx_ports conf j).
  { intros j Hj Hne. rewrite Hget by done. now destruct (Z.eqb_spec j id'). }
  assert (Hhas : rx_ports conf' id' = rx_ports conf id' ++ [p]) by (rewrite Hget by lia; now rewrite Z.eqb_refl).
  assert (Hsome : rx_ports conf' id' <> []) by (rewrite Hhas; intros Hnil; now apply app_nil in Hnil).
  assert (Hnew : new = bool_decide (rx_ports conf id' = [])).
  { unfold new. rewrite Hq. destruct (Z.eq_dec id id') as [<- |Hne].
    - case_bool_decide; [done|]. now rewrite Z.eqb_refl.
    - rewrite (Hafter id') by lia. rewrite (bool_decide_true ([] = [])) by done.
      case_bool_decide; [done|]. now destruct (Z.eqb_spec id id'). }
  pose proof (add_port_used conf id' p Hi Hlater) as Hused. fold conf' in Hused.
  assert (Hbound : used conf' <= Z.of_nat (length conf')).
  { unfold used. pose proof (List.filter_length_le (fun l : list Z => negb (bool_decide (l = []))) conf'). lia. }
  assert (Hlen' : length conf' = length conf) by apply length_insert.
  split; [now apply add_port_concat|]. split.
  - now rewrite Hlen'.
  - lia.
  - intros j Hj. unfold full. rewrite Hsame by lia. destruct (Z_lt_ge_dec j id); [apply Hbefore|apply Hf]; lia.
  - intros j Hj. rewrite Hsame by lia. apply Hafter. lia.
  - rewrite Hhas, length_app. cbn. lia.
  - done.
  - now rewrite bool_decide_false.
  - assert (Hpos : 0 <= used conf) by (unfold used; lia). rewrite Hnew. rewrite Hused in Hbound |- *. rewrite <- Hu. case_bool_decide; [|lia].
    rewrite u32_id; [done|]. unfold is_u32. lia.
Qed.

(** The cores that can be used. *)
Definition enabled_lcores : list Z := List.filter rte_lcore_is_enabled (seqZ 0 RTE_MAX_LCORE).

Lemma full_length conf k :
  (forall j, 0 <= j < Z.of_nat (length conf) ->
     Z.of_nat (length (rx_ports conf j)) = if rte_lcore_is_enabled (k + j) then per_lcore else 0) ->
  Z.of_nat (length (concat conf)) = per_lcore * Z.of_nat (length (List.filter rte_lcore_is_enabled (seqZ k (Z.of_nat (length conf))))).
Proof.
  revert k. induction conf as [|l conf IH]; intros k Hall; [rewrite seqZ_nil by (cbn; lia); cbn [concat List.filter length]; lia|]. cbn [length].
  rewrite seqZ_cons by lia. cbn [concat List.filter]. rewrite length_app. cbn [length] in Hall.
  specialize (IH (Z.succ k)). rewrite Nat2Z.inj_add, IH.
  - pose proof (Hall 0 ltac:(lia)) as H0. rewrite Z.add_0_r in H0. change (rx_ports (l :: conf) 0) with l in H0.
    replace (Z.pred (Z.of_nat (S (length conf)))) with (Z.of_nat (length conf)) by lia.
    destruct (rte_lcore_is_enabled k); cbn [length]; rewrite ?Nat2Z.inj_succ, ?Z.mul_succ_r; lia.
  - intros j Hj. specialize (Hall (j + 1) ltac:(lia)). unfold rx_ports in *.
    replace (Z.to_nat (j + 1)) with (S (Z.to_nat j)) in Hall by lia.
    replace (Z.succ k + j) with (k + (j + 1)) by lia. exact Hall.
Qed.

Lemma all_full conf : Z.of_nat (length conf) = RTE_MAX_LCORE -> (forall j, 0 <= j < RTE_MAX_LCORE -> full conf j) ->
  Z.of_nat (length (concat conf)) = per_lcore * Z.of_nat (length enabled_lcores).
Proof.
  intros Hlen Hfull. rewrite (full_length conf 0), Hlen; [done|]. intros j Hj. rewrite Hlen in Hj.
  specialize (Hfull j Hj). unfold full in Hfull. rewrite Z.add_0_l. destruct (rte_lcore_is_enabled j); [done|].
  now rewrite Hfull.
Qed.

(** What the distribution of the ports promises. *)
Definition distributed (given : list Z) (r : option (lcore_queue_conf * Z)) : Prop :=
  match r with
  | Some (conf, nb_lcores) =>
      concat conf = given /\ used conf = nb_lcores /\ Z.of_nat (length conf) = RTE_MAX_LCORE /\
      (forall j, 0 <= j < RTE_MAX_LCORE -> Z.of_nat (length (rx_ports conf j)) <= per_lcore /\
         (rx_ports conf j <> [] -> rte_lcore_is_enabled j = true))
  | None => per_lcore * Z.of_nat (length enabled_lcores) < Z.of_nat (length given)
  end.

Lemma assign_spec mask devs conf id qconf nb :
  filling conf id qconf nb ->
  distributed (concat conf ++ enabled_ports mask devs) (assign_lcores mask per_lcore devs conf id qconf nb).
Proof.
  revert conf id qconf nb. induction devs as [|p devs IH]; intros conf id qconf nb Hfill; cbn [assign_lcores enabled_ports List.filter].
  - cbn. rewrite app_nil_r. destruct Hfill as [Hlen Hid Hbefore Hafter Hhere Hen Hq Hu]. split_and!; [done..|].
    intros j Hj. destruct (Z_lt_ge_dec j id) as [Hlt|Hge].
    + pose proof (Hbefore j ltac:(lia)) as Hf. unfold full in Hf. destruct (rte_lcore_is_enabled j); [|rewrite Hf; cbn]; split; [lia|done|lia|done].
    + destruct (Z.eq_dec j id) as [-> |]; [done|]. rewrite Hafter by lia. cbn. split; [lia|done].
  - unfold port_enabled at 1. destruct (Z.land mask (port_bit p) =? 0); cbn [negb]; [now apply IH|].
    pose proof (filling_id _ _ _ _ Hfill) as Hid.
    pose proof (find_lcore_spec (Z.to_nat RTE_MAX_LCORE) conf id qconf nb Hfill ltac:(lia)) as Hfound.
    destruct (find_lcore _ _ _ _) as [id'|]; cbn [mbind option_bind].
    + destruct (filling_add _ _ _ _ _ p Hfill Hfound) as [Hc Hfill'].
      specialize (IH _ _ _ _ Hfill'). rewrite Hc, <- app_assoc in IH. exact IH.
    + cbn. rewrite length_app. cbn [length].
      assert (Hall : forall j, 0 <= j < RTE_MAX_LCORE -> full conf j).
      { intros j Hj. destruct (Z_lt_ge_dec j id); [apply (filling_before _ _ _ _ Hfill)|apply Hfound]; lia. }
      rewrite <- (all_full conf (filling_length _ _ _ _ Hfill) Hall). lia.
Qed.
End lcores.

(** ** Theorems *)

(** The default configuration of DPDK has 32 ports and 128 cores; no port is owned by another
    part of the process, so that all valid ports are visited. *)
Class DpdkHostLaws `{DpdkHost} : Prop := {
  ports_bound : 0 < RTE_MAX_ETHPORTS <= 32;
  devs_nodup : NoDup rte_eth_devs;
  devs_range : Forall (fun p => 0 <= p < RTE_MAX_ETHPORTS) rte_eth_devs;
  devs_valid p : rte_eth_dev_is_valid_port p = true -> p ∈ rte_eth_devs;
  avail_range : 0 <= rte_eth_dev_count_avail <= 32;
  lcores_bound : 0 < RTE_MAX_LCORE <= 65536
}.

Section theorems.
Context `{DpdkHostLaws}.

(** The options that [l2fwd_parse_args] can give. *)
Record options_ok (o : l2fwd_options) : Prop := {
  mask_ok : is_u32 (l2fwd_enabled_port_mask o);
  per_lcore_ok : 1 <= l2fwd_rx_queue_per_lcore o < MAX_RX_QUEUE_PER_LCORE;
  timer_ok : 0 <= timer_period o < MAX_TIMER_PERIOD;
  pairs_ok : match port_pair_params o with
             | Some pairs => Forall (fun p => 0 <= p < RTE_MAX_ETHPORTS) (pair_ports pairs)
                 /\ Z.of_nat (length pairs) <= RTE_MAX_ETHPORTS / 2
             | None => True
             end
}.

Lemma pair_ports_app l l' : pair_ports (l ++ l') = pair_ports l ++ pair_ports l'.
Proof. induction l as [|[a b] l IH]; [done|]. cbn. now rewrite IH. Qed.
Lemma parse_field_ok s p : parse_field s = Some p -> 0 <= p < RTE_MAX_ETHPORTS.
Proof.
  unfold parse_field. pose proof (strtoul_range 0 s) as Hr. destruct (strtoul 0 s) as [[n rest] e]. cbn in Hr.
  destruct e; [done|]. destruct (_ =? _)%nat; [done|]. destruct (Z.geb_spec n RTE_MAX_ETHPORTS); [done|].
  intros [= <-]. pose proof ports_bound. unfold is_u64 in Hr. rewrite u16_id; [lia|]. unfold is_u16. lia.
Qed.
Lemma parse_pair_ok s n pair : parse_pair s n = Some pair ->
  Forall (fun p => 0 <= p < RTE_MAX_ETHPORTS) (pair_ports [pair]) /\ Z.of_nat n < RTE_MAX_ETHPORTS / 2.
Proof.
  unfold parse_pair. destruct (Nat.leb _ _); [done|]. destruct (rte_strsplit s 2 ",") as [|f1 [|f2 [|]]]; try done.
  destruct (parse_field f1) as [p1|] eqn:E1; [|done]. destruct (parse_field f2) as [p2|] eqn:E2; [|done]. cbn.
  destruct (Z.geb_spec (Z.of_nat n) (RTE_MAX_ETHPORTS / 2)); [done|]. intros [= <-]. cbn. split; [|done].
  constructor; [now apply (parse_field_ok f1)|]. constructor; [now apply (parse_field_ok f2)|constructor].
Qed.
(** The length of the string is enough fuel. *)
Lemma strchr_length c s r : strchr c s = Some r -> (String.length r <= String.length s)%nat /\ (0 < String.length r)%nat.
Proof.
  induction s as [|d s IH]; cbn [strchr]; [done|]. destruct (Ascii.eqb c d); [intros [= <-]; cbn; lia|].
  intros Hr. specialize (IH Hr). cbn. lia.
Qed.
Lemma substring_0_all s n : (String.length s <= n)%nat -> substring 0 n s = s.
Proof.
  revert n. induction s as [|c s IH]; intros n Hn; [now destruct n|]. destruct n as [|n]; cbn in *; [lia|]. f_equal. apply IH. lia.
Qed.
Lemma length_substring_1 s : (String.length (substring 1 (String.length s) s) <= String.length s - 1)%nat.
Proof. destruct s as [|c s]; cbn; [lia|]. rewrite substring_0_all by lia. lia. Qed.
Lemma parse_pairs_fuel fuel p0 params :
  (String.length p0 <= fuel)%nat -> parse_pairs (S fuel) p0 params = parse_pairs fuel p0 params.
Proof.
  revert p0 params. induction fuel as [|fuel IH]; intros p0 params Hf.
  - destruct p0; [done|cbn in Hf; lia].
  - set (g := S fuel) at 1. cbn [parse_pairs]. destruct (strchr "(" p0) as [open|] eqn:Eo; [|done]. cbv zeta.
    destruct (strchr_length _ _ _ Eo). pose proof (length_substring_1 open).
    destruct (strchr ")" _) as [p1|] eqn:Ep; [|done]. destruct (strchr_length _ _ _ Ep).
    destruct (parse_pair _ _) as [pair|]; [|done]. apply IH. lia.
Qed.
Lemma parse_pairs_ok fuel p0 params pairs : parse_pairs fuel p0 params = Some pairs ->
  Forall (fun p => 0 <= p < RTE_MAX_ETHPORTS) (pair_ports params) -> Z.of_nat (length params) <= RTE_MAX_ETHPORTS / 2 ->
  Forall (fun p => 0 <= p < RTE_MAX_ETHPORTS) (pair_ports pairs) /\ Z.of_nat (length pairs) <= RTE_MAX_ETHPORTS / 2.
Proof.
  revert p0 params. induction fuel as [|fuel IH]; intros p0 params; cbn [parse_pairs]; destruct (strchr "(" p0) as [open|];
    try (intros [= ->]; done); cbv zeta; destruct (strchr ")" _) as [p1|]; try done.
  destruct (parse_pair _ _) as [pair|] eqn:E; [|done]. cbn [mbind option_bind].
  destruct (parse_pair_ok _ _ _ E) as [Hp Hn]. intros Hrun Hall _. apply (IH _ _ Hrun).
  - rewrite pair_ports_app. now apply Forall_app.
  - rewrite length_app. cbn. lia.
Qed.

Lemma parse_arg_ok o arg o' : options_ok o -> l2fwd_parse_arg o arg = Some o' -> options_ok o'.
Proof.
  intros [Hm Hq Ht Hp]. destruct arg as [s| |s|s|s| |]; cbn [l2fwd_parse_arg].
  - destruct (_ =? 0); [done|]. intros [= <-]. split; try done. apply u32_range.
  - intros [= <-]. now split.
  - unfold l2fwd_parse_nqueue. pose proof (strtoul_range 10 s) as Hr. destruct (strtoul 10 s) as [[n rest] e]. cbn in Hr.
    destruct (_ || _); [done|]. destruct (Z.eqb_spec n 0); [done|]. destruct (Z.geb_spec n MAX_RX_QUEUE_PER_LCORE) as [|Hlt]; [done|].
    unfold MAX_RX_QUEUE_PER_LCORE, is_u64 in *. rewrite u32_id by (unfold is_u32; lia).
    destruct (Z.eqb_spec n 0); [done|]. intros [= <-]. split; cbn; try done. unfold MAX_RX_QUEUE_PER_LCORE. lia.
  - destruct (Z.ltb_spec (l2fwd_parse_timer_period s) 0); [done|]. intros [= <-]. split; cbn; try done.
    split; [done|]. unfold l2fwd_parse_timer_period. destruct (strtol_end 10 s) as [n rest]. destruct (_ || _); [done|].
    destruct (Z.geb_spec (s32 n) MAX_TIMER_PERIOD); [done|lia].
  - unfold l2fwd_parse_port_pair_config. destruct (parse_pairs _ _ _) as [pairs|] eqn:E; [|done]. intros [= <-].
    pose proof ports_bound. split; cbn; try done. apply (parse_pairs_ok _ _ _ _ E); [constructor|]. cbn. zlia.
  - intros [= <-]. now split.
  - done.
Qed.
Lemma parse_args_ok o args o' : options_ok o -> l2fwd_parse_args o args = Some o' -> options_ok o'.
Proof.
  revert o. induction args as [|arg args IH]; intros o Ho; cbn [l2fwd_parse_args]; [now intros [= <-]|].
  destruct (l2fwd_parse_arg o arg) as [o1|] eqn:E; [|done]. apply IH. now apply (parse_arg_ok o arg).
Qed.
Lemma initial_ok : options_ok initial_options.
Proof. now split. Qed.

Lemma devs_ok : Forall port_ok rte_eth_devs.
Proof. eapply List.Forall_impl; [|exact devs_range]. intros p Hp. cbv beta in Hp. pose proof ports_bound. unfold port_ok. lia. Qed.
Lemma length_reset : Z.of_nat (length reset_dst_ports) = RTE_MAX_ETHPORTS.
Proof. unfold reset_dst_ports. rewrite length_replicate. pose proof ports_bound. lia. Qed.
Lemma elem_of_enabled mask p : p ∈ enabled_ports mask rte_eth_devs <-> p ∈ rte_eth_devs /\ port_enabled mask p = true.
Proof. unfold enabled_ports. rewrite !list_elem_of_In. apply List.filter_In. Qed.

(** The pairing of the options [o], on the ports enabled in [mask]. *)
Definition paired (o : l2fwd_options) (mask p q : Z) : Prop :=
  match port_pair_params o with
  | Some pairs => (p, q) ∈ pairs \/ (q, p) ∈ pairs
  | None => q = partner (enabled_ports mask rte_eth_devs) p
  end.

Lemma pair_of_port pairs p : p ∈ pair_ports pairs -> exists q, (p, q) ∈ pairs \/ (q, p) ∈ pairs.
Proof.
  induction pairs as [|[a b] pairs IH]; intros Hp; [now apply elem_of_nil in Hp|]. cbn [pair_ports] in Hp.
  rewrite !elem_of_cons in Hp. destruct Hp as [-> |[-> |Hp]].
  - exists b. left. apply list_elem_of_here.
  - exists a. right. apply list_elem_of_here.
  - destruct (IH Hp) as (q & [Hq|Hq]); exists q; [left|right]; now apply list_elem_of_further.
Qed.
Lemma port_of_pair pairs p q : (p, q) ∈ pairs -> p ∈ pair_ports pairs /\ q ∈ pair_ports pairs.
Proof.
  induction pairs as [|[a b] pairs IH]; intros Hp; [now apply elem_of_nil in Hp|]. cbn [pair_ports].
  apply elem_of_cons in Hp as [[= -> ->]|Hp]; rewrite !elem_of_cons; [tauto|]. destruct (IH Hp). tauto.
Qed.

Lemma explicit_pairing mask pairs m p :
  Forall (fun p => 0 <= p < RTE_MAX_ETHPORTS) (pair_ports pairs) -> check_port_pair_config mask pairs = Some m ->
  0 <= p < 32 -> port_enabled m p = true ->
  let dst := dst_ports_of_pairs reset_dst_ports pairs in let q := dst_port dst p in
  ((p, q) ∈ pairs \/ (q, p) ∈ pairs) /\ dst_port dst q = p /\ port_enabled m q = true /\ q ∈ rte_eth_devs.
Proof.
  intros Hall Hcheck Hp He dst q. pose proof ports_bound.
  assert (Hok : Forall port_ok (pair_ports pairs)) by (eapply List.Forall_impl; [|exact Hall]; unfold port_ok; intros ? Hr; cbv beta in Hr; lia).
  destruct (check_port_pairs_spec _ _ _ _ Hok Hcheck) as (Hdis & Hin & Hbits).
  assert (Hen : forall r, r ∈ pair_ports pairs -> port_enabled m r = true).
  { intros r Hr. assert (Hro : port_ok r) by (now apply (proj1 (list.Forall_forall _ _) Hok)).
    rewrite port_enabled_spec, Hbits by done. destruct (Hin r Hr) as (-> & _ & _). now rewrite bool_decide_true, orb_true_r. }
  assert (Hdst : forall a b, (a, b) ∈ pairs -> dst_port dst a = b /\ dst_port dst b = a).
  { intros a b. apply dst_of_pairs; [|done]. rewrite length_reset. eapply List.Forall_impl; [|exact Hall].
    unfold port_ok. intros ? Hr. cbv beta in Hr. lia. }
  rewrite port_enabled_spec, Hbits in He by done. apply andb_prop in He as [_ He]. rewrite Z.bits_0 in He.
  apply bool_decide_eq_true in He. destruct (pair_of_port _ _ He) as (r & Hr).
  assert (Hqr : q = r) by (destruct Hr as [Hr|Hr]; now destruct (Hdst _ _ Hr)). rewrite Hqr.
  split; [done|]. split; [destruct Hr as [Hr|Hr]; now destruct (Hdst _ _ Hr)|].
  assert (Hrin : r ∈ pair_ports pairs) by (destruct Hr as [Hr|Hr]; destruct (port_of_pair _ _ _ Hr); assumption).
  split; [now apply Hen|]. apply devs_valid. now destruct (Hin r Hrin) as (_ & _ & ?).
Qed.

Lemma default_pairing mask p :
  p ∈ rte_eth_devs -> port_enabled mask p = true -> dst_port (dst_ports mask None) p = partner (enabled_ports mask rte_eth_devs) p.
Proof.
  intros Hp He. unfold dst_ports. rewrite alternate_filter.
  assert (Hin : p ∈ enabled_ports mask rte_eth_devs) by now apply elem_of_enabled.
  pose proof (alternate_spec mask (enabled_ports mask rte_eth_devs) reset_dst_ports 0 0) as Halt.
  rewrite length_reset in Halt. destruct (alternate_ports _ _ _ _ _) as [[dst last] n].
  fold (finish dst last n). rewrite Halt; [now rewrite bool_decide_true| | |done|lia| |].
  - apply list.Forall_forall. intros r Hr. apply elem_of_enabled in Hr as [Hr Her]. split; [|done].
    now apply (proj1 (list.Forall_forall _ _) devs_range).
  - apply NoDup_ListNoDup, List.NoDup_filter, NoDup_ListNoDup, devs_nodup.
  - pose proof (List.filter_length_le (port_enabled mask) rte_eth_devs). unfold enabled_ports.
    enough (Z.of_nat (length rte_eth_devs) <= 32) by lia.
    assert (Hsub : rte_eth_devs ⊆ seqZ 0 32).
    { intros r Hr. apply elem_of_seqZ. pose proof (proj1 (list.Forall_forall _ _) devs_ok r Hr) as Hrok. unfold port_ok in Hrok. lia. }
    pose proof (submseteq_length _ _ (NoDup_submseteq _ _ devs_nodup Hsub)) as Hlen. rewrite length_seqZ in Hlen. lia.
  - pose proof (proj1 (list.Forall_forall _ _) devs_ok p Hp) as Hpok. unfold port_ok in Hpok. lia.
Qed.

Lemma configure_inv args cfg :
  configure args = Some cfg ->
  exists o, l2fwd_parse_args initial_options args = Some o /\ options_ok o /\ check_masks o = Some (cfg_mask cfg)
    /\ cfg_dst cfg = dst_ports (cfg_mask cfg) (port_pair_params o).
Proof.
  unfold configure. destruct (l2fwd_parse_args _ args) as [o|] eqn:Eo; [|done]. cbn [mbind option_bind].
  destruct (check_masks o) as [mask|] eqn:Em; [|done]. cbn [mbind option_bind].
  destruct (assign_lcores _ _ _ _ _ _ _) as [[conf nb]|]; [|done]. intros [= <-]. exists o. cbn.
  split_and!; [done|now apply (parse_args_ok _ _ _ initial_ok Eo)|done|done].
Qed.

Lemma configured_dst args cfg p :
  configure args = Some cfg -> p ∈ rte_eth_devs -> port_enabled (cfg_mask cfg) p = true ->
  let q := dst_port (cfg_dst cfg) p in
  dst_port (cfg_dst cfg) q = p /\ q ∈ rte_eth_devs /\ port_enabled (cfg_mask cfg) q = true
  /\ (forall o, l2fwd_parse_args initial_options args = Some o -> paired o (cfg_mask cfg) p q).
Proof.
  intros Hcfg Hp He. destruct (configure_inv args cfg Hcfg) as (o & Ho & [_ _ _ Hpairs] & Hmask & ->). rewrite Ho.
  pose proof (proj1 (list.Forall_forall _ _) devs_ok p Hp) as Hpok. unfold check_masks in Hmask. unfold paired.
  destruct (_ =? 0); [done|]. destruct (port_pair_params o) as [pairs|] eqn:Epairs.
  - destruct (check_port_pair_config _ pairs) as [m|] eqn:Ec; [|done]. cbn [mbind option_bind] in Hmask.
    destruct (negb _); [done|]. injection Hmask as Hm. rewrite <- Hm in He |- *.
    destruct (explicit_pairing _ _ _ p (proj1 Hpairs) Ec Hpok He) as (? & ? & ? & ?). split_and!; [done..|].
    intros o' [= <-]. now rewrite Epairs.
  - set (mask := cfg_mask cfg) in *. set (l := enabled_ports mask rte_eth_devs).
    assert (Hin : p ∈ l) by now apply elem_of_enabled.
    pose proof (partner_in l p Hin) as Hq. apply elem_of_enabled in Hq as Hqe. destruct Hqe as [Hqd Hqe].
    assert (Hnd : NoDup l) by (apply NoDup_ListNoDup, List.NoDup_filter, NoDup_ListNoDup, devs_nodup).
    cbv zeta. rewrite !default_pairing by (rewrite ?default_pairing by done; done).
    split_and!; [now apply partner_involutive|done|done|]. intros o' [= <-]. now rewrite Epairs.
Qed.

(** Every enabled port has a destination, which is enabled too and has the port as its own
    destination: packets are exchanged inside pairs.  The pairs are those of the command line,
    or else neighbours in the order of the devices, the last of an odd number being alone. *)
Lemma ports_are_paired args cfg p :
  configure args = Some cfg -> p ∈ rte_eth_devs -> port_enabled (cfg_mask cfg) p = true ->
  let q := dst_port (cfg_dst cfg) p in
  dst_port (cfg_dst cfg) q = p /\ q ∈ rte_eth_devs /\ port_enabled (cfg_mask cfg) q = true
  /\ (forall o, l2fwd_parse_args initial_options args = Some o -> paired o (cfg_mask cfg) p q).
Proof. apply configured_dst. Qed.

Lemma configured_cores args o mask :
  l2fwd_parse_args initial_options args = Some o -> check_masks o = Some mask ->
  match configure args with
  | Some cfg =>
      concat (cfg_lcores cfg) = enabled_ports mask rte_eth_devs
      /\ (forall j, 0 <= j < RTE_MAX_LCORE ->
            Z.of_nat (length (rx_ports (cfg_lcores cfg) j)) <= l2fwd_rx_queue_per_lcore o < MAX_RX_QUEUE_PER_LCORE
            /\ (rx_ports (cfg_lcores cfg) j <> [] -> rte_lcore_is_enabled j = true))
      /\ cfg_mbufs cfg = Z.max (rte_eth_dev_count_avail * (1024 + 1024 + 32 + used (cfg_lcores cfg) * 256)) 8192
  | None => l2fwd_rx_queue_per_lcore o * Z.of_nat (length enabled_lcores)
            < Z.of_nat (length (enabled_ports mask rte_eth_devs))
  end.
Proof.
  intros Ho Hmask. destruct (parse_args_ok _ _ _ initial_ok Ho) as [_ Hper _ _].
  unfold configure. rewrite Ho. cbn [mbind option_bind]. rewrite Hmask. cbn [mbind option_bind].
  pose proof lcores_bound as Hlc. set (conf0 := replicate (Z.to_nat RTE_MAX_LCORE) []).
  assert (Hconf0 : forall j, rx_ports conf0 j = []) by (intros j; unfold rx_ports, conf0; rewrite nth_lookup; now destruct (replicate _ _ !! _) eqn:E; [apply lookup_replicate_1 in E as [-> _]|]).
  assert (Hfill : filling (l2fwd_rx_queue_per_lcore o) conf0 0 None 0).
  { split; rewrite ?Hconf0; try done; try lia.
    - unfold conf0. rewrite length_replicate. lia.
    - cbn. lia.
    - apply used_replicate. }
  assert (Hpos : 0 < l2fwd_rx_queue_per_lcore o) by lia. assert (Hlc2 : 0 < RTE_MAX_LCORE < 4294967296) by lia.
  pose proof (assign_spec (l2fwd_rx_queue_per_lcore o) Hpos Hlc2 mask rte_eth_devs _ _ _ _ Hfill) as Hspec.
  unfold conf0 in Hspec at 1. rewrite concat_replicate_nil in Hspec.
  destruct (assign_lcores _ _ _ _ _ _ _) as [[conf nb]|]; cbn [mbind option_bind]; [|exact Hspec].
  destruct Hspec as (Hc & Hu & Hlen & Hj). cbn. split_and!; [done| |].
  - intros j Hjr. destruct (Hj j Hjr). split; [split; [done|apply Hper]|done].
  - assert (Hnb : 0 <= nb <= RTE_MAX_LCORE).
    { rewrite <- Hu, <- Hlen. unfold used. pose proof (List.filter_length_le (fun l : list Z => negb (bool_decide (l = []))) conf). lia. }
    pose proof avail_range. rewrite Hu. unfold mbufs_needed, RX_DESC_DEFAULT, TX_DESC_DEFAULT, MAX_PKT_BURST, MEMPOOL_CACHE_SIZE.
    rewrite (u32_id (nb * 256)) by (unfold is_u32; lia). rewrite (u32_id (1024 + _ + _ + _)) by (unfold is_u32; lia).
    rewrite u32_id by (unfold is_u32; nia). lia.
Qed.

(** C34: The ports are given to the cores in order, each port to exactly one core, at most the number
    of the option [-q] to a core (so that the list of 16 of a core is never overrun) and only to
    enabled cores; the pool of packet buffers is as large as the code means it to be.  The
    distribution fails only when the cores together have too little room. *)
Theorem ports_have_cores args o mask :
  l2fwd_parse_args initial_options args = Some o -> check_masks o = Some mask ->
  match configure args with
  | Some cfg =>
      concat (cfg_lcores cfg) = enabled_ports mask rte_eth_devs
      /\ (forall j, 0 <= j < RTE_MAX_LCORE ->
            Z.of_nat (length (rx_ports (cfg_lcores cfg) j)) <= l2fwd_rx_queue_per_lcore o < MAX_RX_QUEUE_PER_LCORE
            /\ (rx_ports (cfg_lcores cfg) j <> [] -> rte_lcore_is_enabled j = true))
      /\ cfg_mbufs cfg = Z.max (rte_eth_dev_count_avail * (1024 + 1024 + 32 + used (cfg_lcores cfg) * 256)) 8192
  | None => l2fwd_rx_queue_per_lcore o * Z.of_nat (length enabled_lcores)
            < Z.of_nat (length (enabled_ports mask rte_eth_devs))
  end.
Proof. apply configured_cores. Qed.
End theorems.

(** ** Four ports, three cores *)

Definition split_comma (s : string) (max : nat) (delim : ascii) : list string := strtok delim EmptyString s.
#[export] Instance small_host : DpdkHost := {
  RTE_MAX_ETHPORTS := 32; RTE_MAX_LCORE := 4; rte_eth_devs := [0; 1; 2; 3]; rte_eth_dev_count_avail := 4;
  rte_eth_dev_is_valid_port p := (0 <=? p) && (p <? 4);
  rte_lcore_is_enabled j := negb (j =? 1);
  rte_get_timer_hz := 1000; rte_strsplit := split_comma
}.
#[export] Instance small_host_laws : DpdkHostLaws.
Proof.
  split; cbn; try lia.
  - repeat constructor; rewrite ?not_elem_of_cons; split_and?; try lia; apply not_elem_of_nil.
  - repeat constructor; lia.
  - intros p Hp. apply andb_prop in Hp as [H1 H2]. apply Z.leb_le in H1. apply Z.ltb_lt in H2.
    rewrite !elem_of_cons. lia.
Qed.
Local Open Scope string_scope.
(** Ports 0 and 3 exchange packets, and 1 and 2; one port to a core. *)
Definition crossed : list l2fwd_arg := [Opt_p "f"; Opt_portmap "(0,3),(1,2)"; Opt_q "2"].
Definition crossed_config : option l2fwd_config := Eval vm_compute in configure crossed.
Example crossed_result :
  crossed_config = Some (L2fwdConfig 15 ([3; 2; 1; 0]%list ++ replicate 28 0) [[0; 1]; []; [2; 3]; []] 10368 10000 false).
Proof. reflexivity. Qed.

Lemma ports_are_paired_witness :
  exists cfg, configure crossed = Some cfg /\ dst_port (cfg_dst cfg) 3 = 0 /\
    dst_port (cfg_dst cfg) (dst_port (cfg_dst cfg) 3) = 3 /\
    dst_port (cfg_dst cfg) 3 ∈ rte_eth_devs /\ port_enabled (cfg_mask cfg) (dst_port (cfg_dst cfg) 3) = true /\
    (forall o, l2fwd_parse_args initial_options crossed = Some o -> paired o (cfg_mask cfg) 3 (dst_port (cfg_dst cfg) 3)).
Proof.
  eexists. split; [vm_compute; reflexivity|]. split; [reflexivity|].
  apply (ports_are_paired crossed).
  - vm_compute. reflexivity.
  - apply list_elem_of_In. cbn. tauto.
  - reflexivity.
Defined.

(** Four ports in the default order, but room for three. *)
Definition crowded : list l2fwd_arg := [Opt_p "f"].
Lemma ports_have_cores_witness :
  configure crowded = None /\
  (exists o, l2fwd_parse_args initial_options crowded = Some o /\
     l2fwd_rx_queue_per_lcore o * Z.of_nat (length enabled_lcores) < Z.of_nat (length (enabled_ports 15 rte_eth_devs))) /\
  (exists cfg o, configure crossed = Some cfg /\ concat (cfg_lcores cfg) = enabled_ports 15 rte_eth_devs
      /\ (forall j, 0 <= j < RTE_MAX_LCORE ->
            Z.of_nat (length (rx_ports (cfg_lcores cfg) j)) <= l2fwd_rx_queue_per_lcore o < MAX_RX_QUEUE_PER_LCORE
            /\ (rx_ports (cfg_lcores cfg) j <> [] -> rte_lcore_is_enabled j = true))
      /\ cfg_mbufs cfg = Z.max (rte_eth_dev_count_avail * (1024 + 1024 + 32 + used (cfg_lcores cfg) * 256)) 8192).
Proof.
  split; [vm_compute; reflexivity|]. split.
  - eexists. split; [vm_compute; reflexivity|].
    refine (ports_have_cores crowded (L2fwdOptions true false 15 None 1 10) 15 _ _); vm_compute; reflexivity.
  - eexists _, (L2fwdOptions true false 15 (Some [(0, 3); (1, 2)]) 2 10). split; [vm_compute; reflexivity|].
    refine (ports_have_cores crossed _ 15 _ _); vm_compute; reflexivity.
Defined.

(** ** Values that are cut off before they are checked *)

(** The port mask of 33 bits is taken for port 0; a timer period of 2^32 + 5 for 5; the maximal
    period of the usage text is refused; a port map without pairs is accepted. *)
Lemma numbers_are_cut :
  l2fwd_parse_portmask "100000001" = 1 /\ l2fwd_parse_timer_period "4294967301" = 5 /\
  l2fwd_parse_timer_period "86400" = -1 /\ l2fwd_parse_nqueue "16" = 0 /\
  l2fwd_parse_port_pair_config "0,1" = Some [].
Proof. now vm_compute. Qed.
