(* ===== verification/DpdkDriver.v ===== *)
(** * The DPDK driver (dpdk/main.c)

    The set-up of the ports, the forwarding of one packet through the XDP program, and the loop
    of one logical core.  DPDK is the class [DpdkApi]; a step ends with a value, with
    [rte_exit], with undefined behaviour, or with the end of the fuel of the main loop. *)
From Stdlib Require Import ZArith Lia.
From stdpp Require Import base numbers list option.
From S2P Require Import Prelude Xdp DpdkConfig.
#[local] Open Scope Z_scope.
#[local] Open Scope list_scope.

(** ** Data *)

(** A packet buffer: the bytes before, in and after the window of [data_off] and [data_len]. *)
Record mbuf := Mbuf { m_head : list Z; m_data : list Z; m_tail : list Z }.

(** @src dpdk/main.c 110-117 l2fwd_port_statistics *)
Record l2fwd_port_statistics := PortStats { tx : Z; rx : Z; dropped : Z; xdp_pass : Z; xdp_drop : Z }.
#[global] Instance eta_port_stats : Eta l2fwd_port_statistics := fun p =>
  PortStats (tx p) (rx p) (dropped p) (xdp_pass p) (xdp_drop p).
Definition no_stats : l2fwd_port_statistics := PortStats 0 0 0 0 0.

(** The functions of DPDK that the driver calls, on the state [K] of the devices.  Integers are
    return codes.  [eth_tx_buffer] and [eth_tx_buffer_flush] give the packets sent and those
    the error callback is told about; [uninitialised] is the value found in the stack slot of a
    variable that is not set. *)
Class DpdkApi (K : Type) := {
  mempool_create : Z -> K -> bool * K;
  eth_dev_info_get : Z -> K -> Z * bool * K;
  eth_dev_configure : Z -> bool -> K -> Z * K;
  eth_dev_adjust_nb_rx_tx_desc : Z -> Z -> Z -> K -> Z * Z * Z * K;
  eth_macaddr_get : Z -> K -> Z * K;
  eth_rx_queue_setup : Z -> Z -> K -> Z * K;
  eth_tx_queue_setup : Z -> Z -> K -> Z * K;
  zmalloc_tx_buffer : Z -> K -> bool * K;
  eth_tx_buffer_set_err_callback : Z -> K -> Z * K;
  eth_dev_set_ptypes : Z -> K -> Z * K;
  eth_dev_start : Z -> K -> Z * K;
  eth_promiscuous_enable : Z -> K -> Z * K;
  eth_link_get_nowait : Z -> K -> Z * bool * K;
  delay_ms : Z -> K -> K;
  force_quit : K -> bool * K;
  rdtsc : K -> Z * K;
  tsc_hz : Z;
  eth_rx_burst : Z -> Z -> K -> list mbuf * K;
  eth_tx_buffer : Z -> mbuf -> K -> Z * Z * K;
  eth_tx_buffer_flush : Z -> K -> Z * Z * K;
  uninitialised : K -> Z * K;
  eth_dev_stop : Z -> K -> Z * K;
  eth_dev_close : Z -> K -> unit * K
}.

(** The statistics, the transmit buffers (whether the pointer of a port has been set), the
    numbers of descriptors, the maps of the program, and the world. *)
Record dpdk_state (K E : Type) := Dpdk {
  port_statistics : list l2fwd_port_statistics; tx_buffer : list bool;
  nb_rxd : Z; nb_txd : Z; maps : E; ticks : nat; world : K
}.
Arguments Dpdk {K E}.
Arguments port_statistics {K E}.
Arguments tx_buffer {K E}.
Arguments nb_rxd {K E}.
Arguments nb_txd {K E}.
Arguments maps {K E}.
Arguments ticks {K E}.
Arguments world {K E}.
#[global] Instance eta_dpdk_state K E : Eta (dpdk_state K E) := fun s =>
  Dpdk (port_statistics s) (tx_buffer s) (nb_rxd s) (nb_txd s) (maps s) (ticks s) (world s).

Inductive result (K E A : Type) := Ok (a : A) (s : dpdk_state K E) | RteExit | Undefined | OutOfFuel.
Arguments Ok {K E A}.
Arguments RteExit {K E A}.
Arguments Undefined {K E A}.
Arguments OutOfFuel {K E A}.
Definition dpdk (K E A : Type) : Type := dpdk_state K E -> result K E A.
#[global] Instance dpdk_ret K E : MRet (dpdk K E) := fun A a s => Ok a s.
#[global] Instance dpdk_bind K E : MBind (dpdk K E) := fun A B k m s =>
  match m s with Ok a s' => k a s' | RteExit => RteExit | Undefined => Undefined | OutOfFuel => OutOfFuel end.

Section driver.
Context `{DpdkHost} {K E : Type} {api : DpdkApi K}.
Abbreviation M := (dpdk K E).

Definition call {A} (f : K -> A * K) : M A := fun s =>
  let '(a, k) := f (world s) in Ok a (s <| @world K E := k |>).
Definition get {A} (f : dpdk_state K E -> A) : M A := fun s => Ok (f s) s.
Definition set (f : dpdk_state K E -> dpdk_state K E) : M unit := fun s => Ok tt (f s).
Definition rte_exit {A} : M A := fun _ => RteExit.
Definition undefined {A} : M A := fun _ => Undefined.
Definition out_of_fuel {A} : M A := fun _ => OutOfFuel.
Definition check (b : bool) : M unit := if b then mret tt else rte_exit.
Definition when (b : bool) (m : M unit) : M unit := if b then m else mret tt.
(** [port_statistics[portid]]: outside the array nothing is defined. *)
Definition count (portid : Z) (f : l2fwd_port_statistics -> l2fwd_port_statistics) : M unit := fun s =>
  match port_statistics s !! Z.to_nat portid with
  | Some p => if portid <? 0 then Undefined
              else Ok tt (s <| @port_statistics K E := <[Z.to_nat portid := f p]> (port_statistics s) |>)
  | None => Undefined
  end.
Fixpoint for_each {A} (l : list A) (body : A -> M unit) : M unit :=
  match l with [] => mret tt | a :: l => body a ;; for_each l body end.

(** ** Setting the ports up *)

(** @src dpdk/main.c 895-998 main *)
Definition init_port (promiscuous_on : bool) (portid : Z) : M unit :=
  '(ret, fast_free) ← call (eth_dev_info_get portid);
  check (ret =? 0) ;;
  ret ← call (eth_dev_configure portid fast_free);
  check (0 <=? ret) ;;
  rxd ← get nb_rxd;
  txd ← get nb_txd;
  '(ret, rxd, txd) ← call (eth_dev_adjust_nb_rx_tx_desc portid rxd txd);
  set (fun s => let s := s <| @nb_rxd K E := rxd |> in s <| @nb_txd K E := txd |>) ;;
  check (0 <=? ret) ;;
  ret ← call (eth_macaddr_get portid);
  check (0 <=? ret) ;;
  ret ← call (eth_rx_queue_setup portid rxd);
  check (0 <=? ret) ;;
  ret ← call (eth_tx_queue_setup portid txd);
  check (0 <=? ret) ;;
  allocated ← call (zmalloc_tx_buffer portid);
  set (fun s => s <| @tx_buffer K E := <[Z.to_nat portid := allocated]> (tx_buffer s) |>) ;;
  check allocated ;;
  ret ← call (eth_tx_buffer_set_err_callback portid);
  check (0 <=? ret) ;;
  _ ← call (eth_dev_set_ptypes portid);
  ret ← call (eth_dev_start portid);
  check (0 <=? ret) ;;
  when promiscuous_on (ret ← call (eth_promiscuous_enable portid); check (ret =? 0)) ;;
  set (fun s => s <| @port_statistics K E := replicate (Z.to_nat RTE_MAX_ETHPORTS) no_stats |>).

(** The result is [nb_ports_available].
    @src dpdk/main.c 881-999 main *)
Fixpoint init_ports (mask : Z) (promiscuous_on : bool) (nb_ports_available : Z) (devs : list Z) : M Z :=
  match devs with
  | [] => mret nb_ports_available
  | portid :: devs =>
      if Z.land mask (port_bit portid) =? 0 then init_ports mask promiscuous_on nb_ports_available devs else
      init_port promiscuous_on portid ;;
      init_ports mask promiscuous_on (u16 (nb_ports_available + 1)) devs
  end.

(** The pool and the ports.
    @src dpdk/main.c 870-1004 main *)
Definition setup (cfg : l2fwd_config) : M unit :=
  created ← call (mempool_create (cfg_mbufs cfg));
  check created ;;
  n ← init_ports (cfg_mask cfg) (cfg_promiscuous cfg) 0 rte_eth_devs;
  check (negb (n =? 0)).

(** One round over the ports: whether all of them are up, [None] when [force_quit] is set.
    @src dpdk/main.c 689-717 check_all_ports_link_status *)
Fixpoint check_ports_up (port_mask : Z) (print_flag all_ports_up : bool) (devs : list Z) : M (option bool) :=
  match devs with
  | [] => mret (Some all_ports_up)
  | portid :: devs =>
      quit ← call force_quit;
      if (quit : bool) then mret None else
      if Z.land port_mask (port_bit portid) =? 0 then check_ports_up port_mask print_flag all_ports_up devs else
      '(ret, up) ← call (eth_link_get_nowait portid);
      if ret <? 0 then check_ports_up port_mask print_flag false devs
      else if print_flag then check_ports_up port_mask print_flag all_ports_up devs
      else if negb up then mret (Some false)
      else check_ports_up port_mask print_flag all_ports_up devs
  end.
(** [left] counts the rounds down from [MAX_CHECK_TIME]; the result tells whether the rounds
    came to their end.
    @src dpdk/main.c 673-734 check_all_ports_link_status *)
Fixpoint check_all_ports_link_status (port_mask : Z) (rounds : nat) (print_flag : bool) : M bool :=
  quit ← call force_quit;
  if (quit : bool) then mret false else
  up ← check_ports_up port_mask print_flag true rte_eth_devs;
  match (up : option bool) with
  | None => mret false
  | Some up =>
      if print_flag then mret true else
      when (negb up) (set (fun s => s <| @world K E := delay_ms 100 (world s) |>)) ;;
      match rounds with
      | O => mret true
      | S rounds => check_all_ports_link_status port_mask rounds (up || (rounds =? 0)%nat)
      end
  end.
(** @src dpdk/main.c 677 MAX_CHECK_TIME *)
Definition MAX_CHECK_TIME : nat := 90.

(** ** One packet *)

Context (prog : xdp E Z).

(** The program works on the buffer; its window in the mbuf stays where it was. *)
Definition remount (m : mbuf) (f : frame) : mbuf :=
  let buf := f_head f ++ f_data f ++ f_tail f in
  let off := length (m_head m) in
  Mbuf (take off buf) (take (length (m_data m)) (drop off buf)) (drop (off + length (m_data m)) buf).
Definition ebpf_module_run_at_handler (m : mbuf) : M (Z * mbuf) := fun s =>
  match prog (Xst (Frame (m_head m) (m_data m) (m_tail m)) (maps s) (ticks s)) with
  | Some (bpf_ret, x) =>
      Ok (u64 bpf_ret, remount m (x_frame x)) (let s := s <| @maps K E := x_env x |> in s <| @ticks K E := x_tick x |>)
  | None => Undefined
  end.

(** [dst_port] is used as it is found; a null pointer in [tx_buffer] is not checked for.
    @src dpdk/main.c 269-272 l2fwd_simple_forward *)
Definition send (dst_port : Z) (m : mbuf) : M unit :=
  buffer ← get (fun s => tx_buffer s !! Z.to_nat dst_port);
  match (buffer : option bool) with
  | Some true =>
      if dst_port <? 0 then undefined else
      '(sent, failed) ← call (eth_tx_buffer dst_port m);
      count dst_port (fun p => p <| dropped := u64 (dropped p + failed) |>) ;;
      when (negb (sent =? 0)) (count dst_port (fun p => p <| tx := u64 (tx p + sent) |>))
  | _ => undefined
  end.
(** @src dpdk/main.c 217-273 l2fwd_simple_forward *)
Definition l2fwd_simple_forward (m : option mbuf) (portid : Z) : M unit :=
  dst_port ← call uninitialised;
  match m with
  | None => mret tt
  | Some m =>
      '(bpf_ret, m) ← ebpf_module_run_at_handler m;
      if bpf_ret =? XDP_DROP then count dst_port (fun p => p <| xdp_drop := u64 (xdp_drop p + 1) |>)
      else if bpf_ret =? XDP_TX then send dst_port m
      else if bpf_ret =? XDP_PASS then count dst_port (fun p => p <| xdp_pass := u64 (xdp_pass p + 1) |>)
      else if bpf_ret =? XDP_REDIRECT then send dst_port m
      else mret tt
  end.

(** ** The loop of a core *)

(** @src dpdk/main.c 323-332 l2fwd_main_loop *)
Definition drain_port (dst : ports) (rx_port : Z) : M unit :=
  let portid := dst_port dst rx_port in
  buffer ← get (fun s => tx_buffer s !! Z.to_nat portid);
  match (buffer : option bool) with
  | Some true =>
      '(sent, failed) ← call (eth_tx_buffer_flush portid);
      count portid (fun p => p <| dropped := u64 (dropped p + failed) |>) ;;
      when (negb (sent =? 0)) (count portid (fun p => p <| tx := u64 (tx p + sent) |>))
  | _ => undefined
  end.
(** The results are [prev_tsc] and [timer_tsc]; the statistics are printed when it is reset.
    @src dpdk/main.c 287-353 l2fwd_main_loop *)
Definition drain (dst : ports) (rx_ports : list Z) (timer_period : Z) (on_main : bool) (prev_tsc timer_tsc : Z) : M (Z * Z) :=
  let drain_tsc := u64 ((tsc_hz + 999999) / 1000000 * BURST_TX_DRAIN_US) in
  cur_tsc ← call rdtsc;
  let diff_tsc := u64 (cur_tsc - prev_tsc) in
  if diff_tsc >? drain_tsc then
    for_each rx_ports (drain_port dst) ;;
    let timer_tsc := if timer_period >? 0 then
                       let timer_tsc := u64 (timer_tsc + diff_tsc) in
                       if (timer_tsc >=? timer_period) && on_main then 0 else timer_tsc
                     else timer_tsc in
    mret (cur_tsc, timer_tsc)
  else mret (prev_tsc, timer_tsc).

(** @src dpdk/main.c 359-393 l2fwd_main_loop *)
Definition receive_port (portid : Z) : M unit :=
  pkts_burst ← call (eth_rx_burst portid MAX_PKT_BURST);
  let nb_rx := Z.of_nat (length pkts_burst) in
  if nb_rx =? 0 then mret tt else
  count portid (fun p => p <| rx := u64 (rx p + nb_rx) |>) ;;
  for_each pkts_burst (fun m => l2fwd_simple_forward (Some m) portid).

(** @src dpdk/main.c 312-395 l2fwd_main_loop *)
Fixpoint main_loop (turns : nat) (dst : ports) (rx_ports : list Z) (timer_period : Z) (on_main : bool)
    (prev_tsc timer_tsc : Z) : M unit :=
  quit ← call force_quit;
  if (quit : bool) then mret tt else
  match turns with
  | O => out_of_fuel
  | S turns =>
      '(prev_tsc, timer_tsc) ← drain dst rx_ports timer_period on_main prev_tsc timer_tsc;
      for_each rx_ports receive_port ;;
      main_loop turns dst rx_ports timer_period on_main prev_tsc timer_tsc
  end.
(** @src dpdk/main.c 277-396 l2fwd_main_loop *)
Definition l2fwd_main_loop (turns : nat) (cfg : l2fwd_config) (lcore_id : Z) (on_main : bool) : M unit :=
  match rx_ports (cfg_lcores cfg) lcore_id with
  | [] => mret tt
  | ports => main_loop turns (cfg_dst cfg) ports (cfg_timer cfg) on_main 0 0
  end.

(** The result is the last return code, [ret] at first.
    @src dpdk/main.c 1018-1028 main *)
Fixpoint close_ports (mask ret : Z) (devs : list Z) : M Z :=
  match devs with
  | [] => mret ret
  | portid :: devs =>
      if Z.land mask (port_bit portid) =? 0 then close_ports mask ret devs else
      ret ← call (eth_dev_stop portid);
      call (eth_dev_close portid) ;;
      close_ports mask ret devs
  end.

(** [main] with one core at work, from the end of the EAL's initialisation.
    @src dpdk/main.c 773-1035 main *)
Definition main (turns : nat) (args : list l2fwd_arg) (lcore_id : Z) (on_main : bool) : M Z :=
  match configure args with
  | None => rte_exit
  | Some cfg =>
      setup cfg ;;
      check_all_ports_link_status (cfg_mask cfg) MAX_CHECK_TIME false ;;
      l2fwd_main_loop turns cfg lcore_id on_main ;;
      close_ports (cfg_mask cfg) 0 rte_eth_devs
  end.
End driver.

(** ** Functions that are not called *)

(** Eight bytes are written for the destination, and the source over the last two of them.
    @src dpdk/main.c 184-198 l2fwd_mac_updating *)
Definition l2fwd_mac_updating (l2fwd_ports_eth_addr : Z -> list Z) (m : mbuf) (dest_portid : Z) : mbuf :=
  let data := le_split 8 (u64 (2 + Z.shiftl dest_portid 40)) ++ drop 8 (m_data m) in
  Mbuf (m_head m) (take 6 data ++ l2fwd_ports_eth_addr dest_portid ++ drop 12 data) (m_tail m).
(** @src dpdk/main.c 200-214 swap_src_dst_mac *)
Definition swap_src_dst_mac (data : list Z) : list Z := take 6 (drop 6 data) ++ take 6 data ++ drop 12 data.
