(* ===== verification/DpdkForward.v ===== *)
(** * What the DPDK driver does with packets

    The functions of DpdkDriver.v against the documented behaviour of DPDK: with a memory-safe
    program the loop of a core never leaves defined behaviour, every packet goes through the
    program once and in order, and the statistics count the verdicts.  It also shows what is
    lost: the buffers of packets that are not sent. *)
From Stdlib Require Import ZArith Lia.
From stdpp Require Import base numbers list option.
From S2P Require Import Prelude Xdp DpdkConfig DpdkDriver.
#[local] Open Scope Z_scope.
#[local] Open Scope list_scope.

(** ** The devices *)

(** All packets received, all packets given to a transmit buffer and the port, the size of the pool. *)
Record nic := Nic { taken : list mbuf; handed : list (Z * mbuf); pool : Z }.
Definition count_of {A} (l : list A) : Z := Z.of_nat (length l).

Definition mbuf_ok (m : mbuf) : Prop := bytes_ok (m_head m) /\ bytes_ok (m_data m) /\ bytes_ok (m_tail m).

(** A function that neither receives nor sends. *)
Definition quiet {K A} (nic_of : K -> nic) (f : K -> A * K) : Prop := forall k, nic_of (f k).2 = nic_of k.

(** A buffer that has been received is out of the pool until it has been sent: DPDK receives no
    more packets than the pool has buffers left. *)
Class DpdkLaws (K : Type) {api : DpdkApi K} := {
  nic_of : K -> nic;
  mempool_law n k : let '(ok, k') := mempool_create n k in
    taken (nic_of k') = taken (nic_of k) /\ handed (nic_of k') = handed (nic_of k) /\ (ok = true -> pool (nic_of k') = n);
  info_law p : quiet nic_of (eth_dev_info_get p);
  configure_law p b : quiet nic_of (eth_dev_configure p b);
  adjust_law p n m : quiet nic_of (eth_dev_adjust_nb_rx_tx_desc p n m);
  macaddr_law p : quiet nic_of (eth_macaddr_get p);
  rx_queue_law p n : quiet nic_of (eth_rx_queue_setup p n);
  tx_queue_law p n : quiet nic_of (eth_tx_queue_setup p n);
  zmalloc_law p : quiet nic_of (zmalloc_tx_buffer p);
  callback_law p : quiet nic_of (eth_tx_buffer_set_err_callback p);
  ptypes_law p : quiet nic_of (eth_dev_set_ptypes p);
  start_law p : quiet nic_of (eth_dev_start p);
  promiscuous_law p : quiet nic_of (eth_promiscuous_enable p);
  quit_law : quiet nic_of force_quit;
  rdtsc_law : quiet nic_of rdtsc;
  flush_law p : quiet nic_of (eth_tx_buffer_flush p);
  uninitialised_law : quiet nic_of uninitialised;
  link_law p : quiet nic_of (eth_link_get_nowait p);
  delay_law n k : nic_of (delay_ms n k) = nic_of k;
  stop_law p : quiet nic_of (eth_dev_stop p);
  close_law p : quiet nic_of (eth_dev_close p);
  rx_burst_law p n k : let '(ms, k') := eth_rx_burst p n k in
    nic_of k' = Nic (taken (nic_of k) ++ ms) (handed (nic_of k)) (pool (nic_of k)) /\
    Forall mbuf_ok ms /\ count_of ms <= Z.max 0 (Z.min n (pool (nic_of k) + count_of (handed (nic_of k)) - count_of (taken (nic_of k))));
  tx_buffer_law p m k : let '(_, k') := eth_tx_buffer p m k in
    nic_of k' = Nic (taken (nic_of k)) (handed (nic_of k) ++ [(p, m)]) (pool (nic_of k))
}.

(** ** Postconditions

    [wp m Q s]: [m] does not leave defined behaviour from [s], and when it returns it does so with [Q]. *)
Section wp.
Context {K E : Type}.
Implicit Types s : dpdk_state K E.
Definition wp {A} (m : dpdk K E A) (Q : A -> dpdk_state K E -> Prop) s : Prop :=
  match m s with Ok a s' => Q a s' | RteExit | OutOfFuel => True | Undefined => False end.
Lemma dwp_ret {A} (a : A) (Q : A -> dpdk_state K E -> Prop) s : Q a s -> wp (mret a) Q s.
Proof. done. Qed.
Lemma dwp_bind {A B} (m : dpdk K E A) (f : A -> dpdk K E B) Q s : wp m (fun a s' => wp (f a) Q s') s -> wp (m ≫= f) Q s.
Proof.
  unfold wp. change ((m ≫= f) s) with
    (match m s with Ok a s' => f a s' | RteExit => RteExit | Undefined => Undefined | OutOfFuel => OutOfFuel end).
  now destruct (m s).
Qed.
Lemma dwp_mono {A} (m : dpdk K E A) (Q R : A -> dpdk_state K E -> Prop) s : wp m Q s -> (forall a s', Q a s' -> R a s') -> wp m R s.
Proof. unfold wp. destruct (m s); auto. Qed.
Lemma dwp_call {A} (f : K -> A * K) (Q : A -> dpdk_state K E -> Prop) s :
  Q (f (world s)).1 (s <| @world K E := (f (world s)).2 |>) -> wp (call f) Q s.
Proof. unfold wp, call. now destruct (f (world s)). Qed.
Lemma dwp_get {A} (f : dpdk_state K E -> A) (Q : A -> dpdk_state K E -> Prop) s : Q (f s) s -> wp (get f) Q s.
Proof. done. Qed.
Lemma dwp_set f (Q : unit -> dpdk_state K E -> Prop) s : Q tt (f s) -> wp (set f) Q s.
Proof. done. Qed.
Lemma dwp_check b (Q : unit -> dpdk_state K E -> Prop) s : (b = true -> Q tt s) -> wp (check b) Q s.
Proof. unfold wp. destruct b; [now intros H; apply H|done]. Qed.
Lemma dwp_count p f (Q : unit -> dpdk_state K E -> Prop) s st :
  0 <= p -> port_statistics s !! Z.to_nat p = Some st ->
  Q tt (s <| @port_statistics K E := <[Z.to_nat p := f st]> (port_statistics s) |>) -> wp (count p f) Q s.
Proof. intros Hp Hst HQ. unfold wp, count. rewrite Hst. now destruct (Z.ltb_spec p 0); [lia|]. Qed.
Lemma dwp_for_each_from {A} (l pre : list A) body (I : list A -> dpdk_state K E -> Prop) s :
  I pre s ->
  (forall before a rest s, l = before ++ a :: rest -> I (pre ++ before) s -> wp (body a) (fun _ => I (pre ++ before ++ [a])) s) ->
  wp (for_each l body) (fun _ => I (pre ++ l)) s.
Proof.
  revert pre s. induction l as [|a l IH]; intros pre s H0 Hstep; cbn [for_each]; [apply dwp_ret; now rewrite app_nil_r|].
  apply dwp_bind. eapply dwp_mono.
  - apply (Hstep [] a l); [done|]. now rewrite app_nil_r.
  - cbn [app]. intros _ s1 H1. replace (pre ++ a :: l) with ((pre ++ [a]) ++ l) by now rewrite <- app_assoc.
    apply IH; [done|]. intros before b rest s2 -> H2. specialize (Hstep (a :: before) b rest s2 eq_refl).
    rewrite <- !app_assoc in *. exact (Hstep H2).
Qed.
Lemma dwp_for_each {A} (l : list A) body (I : list A -> dpdk_state K E -> Prop) s :
  I [] s ->
  (forall before a rest s, l = before ++ a :: rest -> I before s -> wp (body a) (fun _ => I (before ++ [a])) s) ->
  wp (for_each l body) (fun _ => I l) s.
Proof. exact (dwp_for_each_from l [] body I s). Qed.
End wp.
Ltac wstep :=
  cbv beta zeta;
  lazymatch goal with
  | |- wp (_ ≫= _) _ _ => apply dwp_bind
  | |- wp (mret _) _ _ => apply dwp_ret
  | |- wp (call _) _ _ => apply dwp_call
  | |- wp (get _) _ _ => apply dwp_get
  | |- wp (set _) _ _ => apply dwp_set
  | |- wp (check _) _ _ => apply dwp_check; intros ?
  end.

(** ** The specification *)

Section spec.
Context `{DpdkHost} {K E : Type} {api : DpdkApi K} {laws : DpdkLaws K} (prog : xdp E Z).
Implicit Types s : dpdk_state K E.

(** The program on the packets one after the other: the verdicts, what became of the buffers, and
    the maps and the clock in the end. *)
Fixpoint processed (e : E) (t : nat) (ms : list mbuf) : option (list (Z * mbuf) * E * nat) :=
  match ms with
  | [] => Some ([], e, t)
  | m :: ms =>
      '(v, x) ← prog (Xst (Frame (m_head m) (m_data m) (m_tail m)) e t);
      '(vs, e, t) ← processed (x_env x) (x_tick x) ms;
      Some ((u64 v, remount m (x_frame x)) :: vs, e, t)
  end.
Definition is_sent (v : Z) : bool := (v =? XDP_TX) || (v =? XDP_REDIRECT).
Definition sends (vs : list (Z * mbuf)) : list mbuf := map snd (List.filter (fun p => is_sent p.1) vs).
Definition verdicts (v : Z) (vs : list (Z * mbuf)) : Z := count_of (List.filter (fun p => p.1 =? v) vs).

(** The sum of a counter over the ports. *)
Definition total (f : l2fwd_port_statistics -> Z) s : Z := foldr (fun p n => f p + n) 0 (port_statistics s).
Definition congruent64 (a b : Z) : Prop := (a - b) mod 18446744073709551616 = 0.

(** From [s] to [s'] the packets [grabbed] have been received, [received] packets counted as such,
    and the packets [ms] processed. *)
Record accounts s ms vs (grabbed : list mbuf) (received : Z) s' : Prop := {
  accounts_run : processed (maps s) (ticks s) ms = Some (vs, maps s', ticks s');
  accounts_taken : taken (nic_of (world s')) = taken (nic_of (world s)) ++ grabbed;
  accounts_handed : map snd (handed (nic_of (world s'))) = map snd (handed (nic_of (world s))) ++ sends vs;
  accounts_drop : congruent64 (total xdp_drop s') (total xdp_drop s + verdicts XDP_DROP vs);
  accounts_pass : congruent64 (total xdp_pass s') (total xdp_pass s + verdicts XDP_PASS vs);
  accounts_rx : congruent64 (total rx s') (total rx s + received);
  accounts_pool : pool (nic_of (world s')) = pool (nic_of (world s))
}.

Lemma processed_app e t ms ms' vs e' t' :
  processed e t ms = Some (vs, e', t') ->
  processed e t (ms ++ ms') = '(vs', e'', t'') ← processed e' t' ms'; Some (vs ++ vs', e'', t'').
Proof.
  revert e t vs. induction ms as [|m ms IH]; intros e t vs; cbn [processed app].
  - intros [= <- <- <-]. now destruct (processed e t ms') as [[[vs e1] t1]|].
  - destruct (prog _) as [[v x]|]; [|done]. cbn [mbind option_bind].
    destruct (processed (x_env x) (x_tick x) ms) as [[[vs1 e1] t1]|] eqn:E1; [|done]. intros [= <- <- <-].
    rewrite (IH _ _ _ E1). now destruct (processed _ _ ms') as [[[vs2 e2] t2]|].
Qed.
Lemma sends_app vs vs' : sends (vs ++ vs') = sends vs ++ sends vs'.
Proof. unfold sends. now rewrite List.filter_app, map_app. Qed.
Lemma verdicts_app v vs vs' : verdicts v (vs ++ vs') = verdicts v vs + verdicts v vs'.
Proof. unfold verdicts, count_of. rewrite List.filter_app, length_app. lia. Qed.
Lemma congruent64_refl a : congruent64 a a.
Proof. unfold congruent64. now rewrite Z.sub_diag. Qed.
Lemma congruent64_add a b c m n : congruent64 b (a + m) -> congruent64 c (b + n) -> congruent64 c (a + (m + n)).
Proof. unfold congruent64. intros H1 H2. zlia. Qed.

Lemma accounts_refl s : accounts s [] [] [] 0 s.
Proof. split; try (cbn; now rewrite ?app_nil_r); unfold verdicts; cbn; try rewrite Z.add_0_r; apply congruent64_refl. Qed.
Lemma accounts_trans s1 s2 s3 ms vs g n ms' vs' g' n' :
  accounts s1 ms vs g n s2 -> accounts s2 ms' vs' g' n' s3 -> accounts s1 (ms ++ ms') (vs ++ vs') (g ++ g') (n + n') s3.
Proof.
  intros [P1 T1 H1 D1 Q1 R1 N1] [P2 T2 H2 D2 Q2 R2 N2]. split.
  - rewrite (processed_app _ _ _ _ _ _ _ P1), P2. done.
  - now rewrite T2, T1, app_assoc.
  - now rewrite H2, H1, sends_app, app_assoc.
  - rewrite verdicts_app. eapply congruent64_add; eassumption.
  - rewrite verdicts_app. eapply congruent64_add; eassumption.
  - eapply congruent64_add; eassumption.
  - congruence.
Qed.

(** A step that processes nothing may change counters other than those of [accounts]. *)
Record idle s s' : Prop := {
  idle_maps : maps s' = maps s /\ ticks s' = ticks s;
  idle_nic : nic_of (world s') = nic_of (world s);
  idle_drop : total xdp_drop s' = total xdp_drop s;
  idle_pass : total xdp_pass s' = total xdp_pass s;
  idle_rx : total rx s' = total rx s
}.
Lemma idle_accounts s s' : idle s s' -> accounts s [] [] [] 0 s'.
Proof.
  intros [[Hm Ht] Hn Hd Hp Hr]. split; rewrite ?Hn, ?Hd, ?Hp, ?Hr, ?app_nil_r; cbn; rewrite ?Hm, ?Ht; try done;
    unfold verdicts; cbn; try rewrite Z.add_0_r; apply congruent64_refl.
Qed.

Lemma total_insert f s p st st' :
  port_statistics s !! p = Some st ->
  foldr (fun p n => f p + n) 0 (<[p := st']> (port_statistics s)) = total f s - f st + f st'.
Proof.
  unfold total. generalize (port_statistics s) as l. intros l. revert p. induction l as [|x l IH]; intros p Hp; [done|].
  destruct p as [|p]; [cbn in *; injection Hp as ->; lia|].
  change (<[S p := st']> (x :: l)) with (x :: <[p := st']> l). cbn [foldr]. rewrite (IH p Hp). lia.
Qed.
Lemma congruent64_u64 a : congruent64 (u64 a) a.
Proof. unfold congruent64, u64. zlia. Qed.
Lemma congruent64_zero a : congruent64 a (a + 0).
Proof. unfold congruent64. replace (a - (a + 0)) with 0 by lia. done. Qed.

(** ** The steps *)

Context (mask : Z).
(** A program that is memory safe. *)
Definition prog_safe : Prop := forall x, frame_ok (x_frame x) -> exists v x', prog x = Some (v, x') /\ frame_ok (x_frame x').
(** The uninitialised variable happens to hold an enabled port. *)
Definition garbage_enabled : Prop := forall k,
  (uninitialised k).1 ∈ rte_eth_devs /\ port_enabled mask (uninitialised k).1 = true.
Record ready s : Prop := {
  ready_stats : Z.of_nat (length (port_statistics s)) = RTE_MAX_ETHPORTS;
  ready_buffers p : p ∈ rte_eth_devs -> port_enabled mask p = true -> tx_buffer s !! Z.to_nat p = Some true
}.

Context {host_laws : DpdkHostLaws} (Hsafe : prog_safe) (Hlucky : garbage_enabled).

Lemma dev_range p : p ∈ rte_eth_devs -> 0 <= p < RTE_MAX_ETHPORTS.
Proof. apply (proj1 (list.Forall_forall _ _) devs_range). Qed.

(** The effect of [count]. *)
Record counted (f : l2fwd_port_statistics -> l2fwd_port_statistics) s s' : Prop := {
  counted_maps : maps s' = maps s /\ ticks s' = ticks s;
  counted_world : world s' = world s;
  counted_total : exists st, forall g, total g s' = total g s - g st + g (f st)
}.
Lemma count_wp p f s : ready s -> p ∈ rte_eth_devs -> wp (count p f) (fun _ s' => ready s' /\ counted f s s') s.
Proof.
  intros [Hlen Hbuf] Hp. pose proof (dev_range p Hp) as Hr.
  destruct (lookup_lt_is_Some_2 (port_statistics s) (Z.to_nat p)) as [st Hst]; [lia|].
  apply (dwp_count p f _ s st); [lia|done|]. split.
  - split; cbn; [now rewrite length_insert|done].
  - split; [done..|]. exists st. intros g. exact (total_insert g s _ st (f st) Hst).
Qed.
Definition keeps_counts (f : l2fwd_port_statistics -> l2fwd_port_statistics) : Prop :=
  forall st, rx (f st) = rx st /\ xdp_drop (f st) = xdp_drop st /\ xdp_pass (f st) = xdp_pass st.
Lemma counted_idle f s s' : keeps_counts f -> counted f s s' -> idle s s'.
Proof.
  intros Hf [Hm Hw (st & Ht)]. destruct (Hf st) as (E1 & E2 & E3).
  split; rewrite ?Hw, ?Ht, ?E1, ?E2, ?E3; try done; lia.
Qed.
Lemma idle_trans s1 s2 s3 : idle s1 s2 -> idle s2 s3 -> idle s1 s3.
Proof. intros [[] ] []. destruct_and?. split; try split; congruence. Qed.
Lemma idle_call {A} (f : K -> A * K) s : quiet nic_of f -> idle s (s <| @world K E := (f (world s)).2 |>).
Proof. intros Hf. split; [done|apply Hf|done..]. Qed.

(** The two counters that a transmission changes. *)
Lemma report_wp p (sent failed : Z) s : ready s -> p ∈ rte_eth_devs ->
  wp (count p (fun st => st <| dropped := u64 (dropped st + failed) |>) ;;
      when (negb (sent =? 0)) (count p (fun st => st <| tx := u64 (tx st + sent) |>)))
    (fun _ s' => ready s' /\ idle s s') s.
Proof.
  intros Hs Hp. wstep. eapply dwp_mono; [now apply count_wp|]. intros _ s1 [H1 C1].
  apply counted_idle in C1; [|done]. destruct (negb (sent =? 0)); [|now apply dwp_ret].
  eapply dwp_mono; [now apply count_wp|]. intros _ s2 [H2 C2]. apply counted_idle in C2; [|done].
  split; [done|]. now apply (idle_trans s s1 s2).
Qed.

Lemma send_wp p m s : ready s -> p ∈ rte_eth_devs -> port_enabled mask p = true ->
  wp (send p m) (fun _ s' => ready s' /\ exists k, idle (s <| @world K E := k |>) s' /\
    nic_of k = Nic (taken (nic_of (world s))) (handed (nic_of (world s)) ++ [(p, m)]) (pool (nic_of (world s)))) s.
Proof.
  intros Hs Hp He. pose proof (dev_range p Hp). unfold send. wstep. wstep. rewrite (ready_buffers _ Hs p Hp He).
  destruct (Z.ltb_spec p 0); [lia|]. wstep. wstep. pose proof (tx_buffer_law p m (world s)) as Hlaw.
  destruct (eth_tx_buffer p m (world s)) as [[sent failed] k]. cbn [fst snd].
  eapply dwp_mono; [apply report_wp; [|done]|].
  - destruct Hs. now split.
  - intros _ s' [Hr Hi]. split; [done|]. now exists k.
Qed.

Lemma remount_ok m f : frame_ok f -> mbuf_ok (remount m f).
Proof.
  intros (Hh & Hd & Ht). unfold remount, mbuf_ok. cbn.
  assert (Hb : bytes_ok (f_head f ++ f_data f ++ f_tail f)) by (apply Forall_app; split; [done|]; now apply Forall_app).
  split_and!; repeat first [apply Forall_take|apply Forall_drop]; done.
Qed.

(** One run of the program, the maps being stored. *)
Definition ran s (v : Z) (m m' : mbuf) s' : Prop :=
  exists x r, prog (Xst (Frame (m_head m) (m_data m) (m_tail m)) (maps s) (ticks s)) = Some (r, x) /\
    v = u64 r /\ m' = remount m (x_frame x) /\ s' = (let s := s <| @maps K E := x_env x |> in s <| @ticks K E := x_tick x |>).
Lemma ran_wp m s : ready s -> mbuf_ok m ->
  wp (ebpf_module_run_at_handler prog m) (fun '(v, m') s' => ready s' /\ ran s v m m' s') s.
Proof.
  intros Hs Hm. destruct (Hsafe (Xst (Frame (m_head m) (m_data m) (m_tail m)) (maps s) (ticks s)) Hm) as (r & x & Hrun & _).
  unfold wp, ebpf_module_run_at_handler. rewrite Hrun. split; [destruct Hs; now split|]. now exists x, r.
Qed.
Lemma ran_processed s v m m' s' : ran s v m m' s' -> processed (maps s) (ticks s) [m] = Some ([(v, m')], maps s', ticks s').
Proof. intros (x & r & Hrun & -> & -> & ->). cbn. now rewrite Hrun. Qed.
Lemma ran_world s v m m' s' : ran s v m m' s' -> world s' = world s /\ port_statistics s' = port_statistics s.
Proof. now intros (x & r & _ & _ & _ & ->). Qed.

(** What the packet becomes, by its verdict. *)
Lemma ran_idle s s1 v m m' s' :
  ran s v m m' s1 -> idle s1 s' -> is_sent v = false -> v <> XDP_DROP -> v <> XDP_PASS ->
  accounts s [m] [(v, m')] [] 0 s'.
Proof.
  intros Hran [[Hm Ht] Hn Hd Hp Hr] Hs Hnd Hnp. destruct (ran_world _ _ _ _ _ Hran) as [Hw Hst].
  assert (Htot : forall g, total g s1 = total g s) by (intros g; unfold total; now rewrite Hst).
  split; rewrite ?Hm, ?Ht, ?Hn, ?Hd, ?Hp, ?Hr, ?Htot, ?Hw; rewrite ?app_nil_r; unfold sends, verdicts; cbn; rewrite ?Hs;
    try done; try (now rewrite app_nil_r); try rewrite Z.add_0_r; try apply congruent64_refl.
  - now apply ran_processed in Hran.
  - destruct (Z.eqb_spec v XDP_DROP); [done|]. cbn. rewrite Z.add_0_r. apply congruent64_refl.
  - destruct (Z.eqb_spec v XDP_PASS); [done|]. cbn. rewrite Z.add_0_r. apply congruent64_refl.
Qed.
Lemma ran_counted f s s1 v m m' s' :
  ran s v m m' s1 -> counted f s1 s' -> is_sent v = false ->
  (forall st, rx (f st) = rx st /\
     congruent64 (xdp_drop (f st)) (xdp_drop st + verdicts XDP_DROP [(v, m')]) /\
     congruent64 (xdp_pass (f st)) (xdp_pass st + verdicts XDP_PASS [(v, m')])) ->
  accounts s [m] [(v, m')] [] 0 s'.
Proof.
  intros Hran [[Hm Ht] Hw (st & Hc)] Hs Hf. destruct (ran_world _ _ _ _ _ Hran) as [Hw1 Hst].
  assert (Htot : forall g, total g s1 = total g s) by (intros g; unfold total; now rewrite Hst).
  destruct (Hf st) as (Er & Ed & Ep).
  split; rewrite ?Hm, ?Ht, ?Hw, ?Hw1, ?Hc, ?Htot, ?app_nil_r; try done.
  - now apply ran_processed in Hran.
  - unfold sends. cbn. now rewrite Hs, app_nil_r.
  - unfold congruent64 in *. zlia.
  - unfold congruent64 in *. zlia.
  - rewrite Er. unfold congruent64. replace (_ - _ + _ - _) with 0 by lia. done.
Qed.
Lemma ran_sent s s1 v m m' k s' p :
  ran s v m m' s1 -> idle (s1 <| @world K E := k |>) s' -> is_sent v = true ->
  nic_of k = Nic (taken (nic_of (world s1))) (handed (nic_of (world s1)) ++ [(p, m')]) (pool (nic_of (world s1))) ->
  accounts s [m] [(v, m')] [] 0 s'.
Proof.
  intros Hran [[Hm Ht] Hn Hd Hp Hr] Hs Hk. destruct (ran_world _ _ _ _ _ Hran) as [Hw Hst]. cbn in Hm, Ht, Hn.
  assert (Htot : forall g, total g s1 = total g s) by (intros g; unfold total; now rewrite Hst).
  assert (Hno : forall w, w = XDP_DROP \/ w = XDP_PASS -> verdicts w [(v, m')] = 0).
  { intros w Hw'. unfold verdicts. cbn. destruct (Z.eqb_spec v w) as [-> |]; [|done]. now destruct Hw' as [-> | ->]. }
  split; rewrite ?Hm, ?Ht, ?Hn, ?Hk, ?Hw; cbn [taken handed pool]; rewrite ?app_nil_r; try done.
  - now apply ran_processed in Hran.
  - rewrite map_app. unfold sends. cbn. now rewrite Hs.
  - rewrite Hno by auto. rewrite Z.add_0_r, Hd. change (congruent64 (total xdp_drop s1) (total xdp_drop s)). rewrite Htot. apply congruent64_refl.
  - rewrite Hno by auto. rewrite Z.add_0_r, Hp. change (congruent64 (total xdp_pass s1) (total xdp_pass s)). rewrite Htot. apply congruent64_refl.
  - rewrite Z.add_0_r, Hr. change (congruent64 (total rx s1) (total rx s)). rewrite Htot. apply congruent64_refl.
Qed.

Lemma counted_rx f s s' n :
  counted f s s' ->
  (forall st, xdp_drop (f st) = xdp_drop st /\ xdp_pass (f st) = xdp_pass st /\ congruent64 (rx (f st)) (rx st + n)) ->
  accounts s [] [] [] n s'.
Proof.
  intros [[Hm Ht] Hw (st & Hc)] Hf. destruct (Hf st) as (Ed & Ep & Er).
  split; rewrite ?Hm, ?Ht, ?Hw, ?Hc, ?app_nil_r; try done.
  - change (verdicts XDP_DROP []) with 0. rewrite Ed. unfold congruent64. replace (_ - _ + _ - _) with 0 by lia. done.
  - change (verdicts XDP_PASS []) with 0. rewrite Ep. unfold congruent64. replace (_ - _ + _ - _) with 0 by lia. done.
  - unfold congruent64 in *. zlia.
Qed.

Lemma simple_forward_wp m portid s : ready s -> mbuf_ok m ->
  wp (l2fwd_simple_forward prog (Some m) portid) (fun _ s' => ready s' /\ exists v m', accounts s [m] [(v, m')] [] 0 s') s.
Proof.
  intros Hs Hm. unfold l2fwd_simple_forward. wstep. wstep. destruct (Hlucky (world s)) as [Hp He].
  pose proof (idle_call (@uninitialised K api) s uninitialised_law) as Hidle.
  set (p := (uninitialised (world s)).1) in *. set (s0 := s <| @world K E := (uninitialised (world s)).2 |>) in *.
  assert (H0 : ready s0) by (destruct Hs; now split). apply idle_accounts in Hidle.
  wstep. eapply dwp_mono; [apply (ran_wp m s0 H0 Hm)|]. intros [v m'] s1 [H1 Hran].
  assert (Hfrom : forall s', ready s' -> accounts s0 [m] [(v, m')] [] 0 s' -> ready s' /\ exists v m', accounts s [m] [(v, m')] [] 0 s').
  { intros s' Hr' Ha. split; [done|]. exists v, m'. exact (accounts_trans _ _ _ _ _ _ _ _ _ _ _ Hidle Ha). }
  destruct (Z.eqb_spec v XDP_DROP) as [-> |Hd].
  { eapply dwp_mono; [now apply count_wp|]. intros _ s2 [H2 C2]. apply Hfrom; [done|].
    apply (ran_counted _ _ _ _ _ _ _ Hran C2); [done|]. intros st. cbn. split_and!; [done| |].
    - exact (congruent64_u64 (xdp_drop st + 1)).
    - exact (congruent64_zero (xdp_pass st)). }
  assert (Hsend : is_sent v = true -> wp (send p m') (fun _ s' => ready s' /\ exists v m', accounts s [m] [(v, m')] [] 0 s') s1).
  { intros Hv. eapply dwp_mono; [now apply send_wp|]. intros _ s2 (H2 & k & Hi & Hk). apply Hfrom; [done|].
    exact (ran_sent _ _ _ _ _ _ _ _ Hran Hi Hv Hk). }
  destruct (Z.eqb_spec v XDP_TX) as [-> |Ht]; [now apply Hsend|].
  destruct (Z.eqb_spec v XDP_PASS) as [-> |Hpa].
  { eapply dwp_mono; [now apply count_wp|]. intros _ s2 [H2 C2]. apply Hfrom; [done|].
    apply (ran_counted _ _ _ _ _ _ _ Hran C2); [done|]. intros st. cbn. split_and!; [done| |].
    - exact (congruent64_zero (xdp_drop st)).
    - exact (congruent64_u64 (xdp_pass st + 1)). }
  destruct (Z.eqb_spec v XDP_REDIRECT) as [-> |Hre]; [now apply Hsend|]. apply dwp_ret. apply Hfrom; [done|].
  apply (ran_idle _ s1 _ _ _ _ Hran); [split; done| |done|done].
  unfold is_sent. now destruct (Z.eqb_spec v XDP_TX), (Z.eqb_spec v XDP_REDIRECT).
Qed.

(** ** Before and after the loop *)

Lemma idle_refl s : idle s s.
Proof. now split. Qed.
Lemma ready_world s k : ready s -> ready (s <| @world K E := k |>).
Proof. intros []. now split. Qed.
(** Steps that only ask the devices. *)
Definition asks {A} (m : dpdk K E A) : Prop := forall s, ready s -> wp m (fun _ s' => ready s' /\ idle s s') s.
Lemma asks_ret {A} (a : A) : asks (mret a).
Proof. intros s Hs. apply dwp_ret. split; [done|apply idle_refl]. Qed.
Lemma asks_call {A} (f : K -> A * K) : quiet nic_of f -> asks (call f).
Proof. intros Hf s Hs. apply dwp_call. split; [now apply ready_world|now apply idle_call]. Qed.
Lemma asks_bind {A B} (m : dpdk K E A) (f : A -> dpdk K E B) : asks m -> (forall a, asks (f a)) -> asks (m ≫= f).
Proof.
  intros Hm Hf s Hs. apply dwp_bind. eapply dwp_mono; [exact (Hm s Hs)|]. intros a s1 [H1 I1].
  eapply dwp_mono; [exact (Hf a s1 H1)|]. intros b s2 [H2 I2]. split; [done|]. now apply (idle_trans s s1).
Qed.
Lemma asks_delay n : asks (set (fun s => s <| @world K E := delay_ms n (world s) |>)).
Proof. intros s Hs. apply dwp_set. split; [now apply ready_world|]. split; try done. apply delay_law. Qed.

Lemma asks_ports_up port_mask print_flag up devs : asks (check_ports_up port_mask print_flag up devs).
Proof.
  revert up. induction devs as [|p devs IH]; intros up; cbn [check_ports_up]; [apply asks_ret|].
  apply asks_bind; [apply asks_call, quit_law|]. intros [|]; [apply asks_ret|].
  destruct (_ =? 0); [apply IH|]. apply asks_bind; [apply asks_call, link_law|]. intros [ret link_up].
  destruct (ret <? 0); [apply IH|]. destruct print_flag; [apply IH|]. destruct (negb link_up); [apply asks_ret|apply IH].
Qed.
Lemma asks_link_status port_mask rounds print_flag : asks (check_all_ports_link_status port_mask rounds print_flag).
Proof.
  revert print_flag. induction rounds as [|rounds IH]; intros print_flag; cbn [check_all_ports_link_status];
    (apply asks_bind; [apply asks_call, quit_law|]; intros [|]; [apply asks_ret|]);
    (apply asks_bind; [apply asks_ports_up|]; intros [up|]; [|apply asks_ret]);
    (destruct print_flag; [apply asks_ret|]);
    (apply asks_bind; [destruct up; [apply asks_ret|apply asks_delay]|]; intros _; try apply IH; apply asks_ret).
Qed.
Lemma asks_close port_mask ret devs : asks (close_ports port_mask ret devs).
Proof.
  revert ret. induction devs as [|p devs IH]; intros ret; cbn [close_ports]; [apply asks_ret|].
  destruct (_ =? 0); [apply IH|]. apply asks_bind; [apply asks_call, stop_law|]. intros ret'.
  apply asks_bind; [apply asks_call, close_law|]. intros _. apply IH.
Qed.

(** ** The loop *)

(** All packets received have been processed and counted, and the pool was not overdrawn. *)
Definition within s : Prop := let n := nic_of (world s) in count_of (taken n) <= pool n + count_of (handed n).
Definition step s s' : Prop := (exists ms vs, accounts s ms vs ms (count_of ms) s') /\ (within s -> within s').

Lemma step_refl s : step s s.
Proof. split; [exists [], []; apply accounts_refl|done]. Qed.
Lemma step_trans s1 s2 s3 : step s1 s2 -> step s2 s3 -> step s1 s3.
Proof.
  intros [(ms & vs & H1) W1] [(ms' & vs' & H2) W2]. split; [|auto]. exists (ms ++ ms'), (vs ++ vs').
  unfold count_of. rewrite length_app, Nat2Z.inj_add. now apply (accounts_trans s1 s2).
Qed.
Lemma accounts_within s ms vs n s' : accounts s ms vs [] n s' -> within s -> within s'.
Proof.
  intros [_ Ht Hh _ _ _ Hp]. unfold within, count_of. rewrite Ht, Hp, app_nil_r.
  apply (f_equal length) in Hh. rewrite length_app, !length_map in Hh. lia.
Qed.
Lemma idle_step s s' : idle s s' -> step s s'.
Proof.
  intros Hi. apply idle_accounts in Hi. split; [now exists [], []|]. exact (accounts_within _ _ _ _ _ Hi).
Qed.

Lemma forward_all_wp ms portid s : ready s -> Forall mbuf_ok ms ->
  wp (for_each ms (fun m => l2fwd_simple_forward prog (Some m) portid))
    (fun _ s' => ready s' /\ exists vs, accounts s ms vs [] 0 s') s.
Proof.
  intros Hs Hms.
  apply (dwp_for_each ms _ (fun before s' => ready s' /\ exists vs, accounts s before vs [] 0 s')).
  - split; [done|]. exists []. apply accounts_refl.
  - intros before m rest s1 -> [H1 (vs & Ha)]. apply Forall_app in Hms as [_ Hm]. inversion_clear Hm as [|? ? Hok _].
    eapply dwp_mono; [now apply simple_forward_wp|]. intros _ s2 [H2 (v & m' & Hb)]. split; [done|].
    exists (vs ++ [(v, m')]). exact (accounts_trans _ _ _ _ _ _ _ _ _ _ _ Ha Hb).
Qed.

Lemma receive_wp portid s : ready s -> portid ∈ rte_eth_devs ->
  wp (receive_port prog portid) (fun _ s' => ready s' /\ step s s') s.
Proof.
  intros Hs Hp. unfold receive_port. wstep. wstep. pose proof (rx_burst_law portid MAX_PKT_BURST (world s)) as Hlaw.
  destruct (eth_rx_burst portid MAX_PKT_BURST (world s)) as [ms k]. cbn [fst snd]. destruct Hlaw as (Hk & Hms & Hle).
  set (s1 := s <| @world K E := k |>). assert (H1 : ready s1) by now apply ready_world.
  assert (Ha : accounts s [] [] ms 0 s1).
  { split; cbn; rewrite ?Hk; cbn [taken handed pool]; unfold sends; cbn; rewrite ?app_nil_r; try done; apply congruent64_zero. }
  assert (Hwithin : within s -> within s1).
  { unfold within. change (world s1) with k. rewrite Hk. cbn [taken handed pool]. unfold count_of in *. rewrite length_app. lia. }
  cbv zeta. fold (count_of ms). destruct (Z.eqb_spec (count_of ms) 0) as [Hz|Hnz].
  { apply dwp_ret. split; [done|]. split; [|done]. rewrite Hz in *.
    destruct ms; [now exists [], []|unfold count_of in Hz; cbn in Hz; lia]. }
  wstep. eapply dwp_mono; [now apply count_wp|]. intros _ s2 [H2 C2].
  assert (Hb : accounts s1 [] [] [] (count_of ms) s2).
  { apply (counted_rx _ _ _ _ C2). intros st. cbn. split_and!; [done..|]. apply congruent64_u64. }
  eapply dwp_mono; [now apply forward_all_wp|]. intros _ s3 [H3 (vs & Hv)]. split; [done|]. split.
  - exists ms, vs. pose proof (accounts_trans _ _ _ _ _ _ _ _ _ _ _ (accounts_trans _ _ _ _ _ _ _ _ _ _ _ Ha Hb) Hv) as Hall.
    rewrite ?app_nil_r in Hall. cbn [app] in Hall. now rewrite Z.add_0_l, Z.add_0_r in Hall.
  - intros Hw. apply (accounts_within _ _ _ _ _ Hv), (accounts_within _ _ _ _ _ Hb), Hwithin, Hw.
Qed.

Context (dst : ports) (my_ports : list Z).
Context (Hmine : forall p, p ∈ my_ports -> p ∈ rte_eth_devs /\ dst_port dst p ∈ rte_eth_devs /\ port_enabled mask (dst_port dst p) = true).

Lemma for_ports_wp body s :
  (forall p s, p ∈ my_ports -> ready s -> wp (body p) (fun _ s' => ready s' /\ step s s') s) -> ready s ->
  wp (for_each my_ports body) (fun _ s' => ready s' /\ step s s') s.
Proof.
  intros Hbody Hs. apply (dwp_for_each my_ports body (fun _ s' => ready s' /\ step s s')).
  - split; [done|apply step_refl].
  - intros before p rest s1 Hl [H1 S1]. eapply dwp_mono.
    + apply Hbody; [|done]. rewrite Hl. apply elem_of_app. right. apply list_elem_of_here.
    + intros _ s2 [H2 S2]. split; [done|]. now apply (step_trans s s1).
Qed.

Lemma drain_wp timer on_main prev t s : ready s ->
  wp (drain dst my_ports timer on_main prev t) (fun _ s' => ready s' /\ step s s') s.
Proof.
  intros Hs. unfold drain. wstep. wstep.
  pose proof (idle_step _ _ (idle_call (@rdtsc K api) s rdtsc_law)) as S1.
  set (s1 := s <| @world K E := (rdtsc (world s)).2 |>) in *. assert (H1 : ready s1) by now apply ready_world.
  destruct (_ >? _); [|now apply dwp_ret]. wstep.
  eapply dwp_mono; [apply for_ports_wp; [|exact H1]|].
  2:{ intros _ s2 [H2 S2]. apply dwp_ret. split; [done|]. now apply (step_trans s s1). }
  intros p s2 Hp H2. destruct (Hmine p Hp) as (_ & Hd & He). unfold drain_port. wstep. wstep.
  rewrite (ready_buffers _ H2 _ Hd He). wstep. wstep.
  pose proof (idle_call (eth_tx_buffer_flush (dst_port dst p)) s2) as Hi.
  destruct (eth_tx_buffer_flush (dst_port dst p) (world s2)) as [[sent failed] k] eqn:E1.
  assert (Hq : quiet nic_of (fun k => let '(a, b, k') := eth_tx_buffer_flush (dst_port dst p) k in (a, b, k'))) by
    (intros k'; pose proof (flush_law (dst_port dst p) k') as Hf; now destruct (eth_tx_buffer_flush _ k') as [[] ?]).
  clear Hi. pose proof (idle_call _ s2 Hq) as Hi. cbv beta in Hi. rewrite E1 in Hi. cbn [fst snd] in *.
  eapply dwp_mono; [apply report_wp; [now apply ready_world|done]|].
  intros _ s3 [H3 Hi3]. split; [done|]. apply idle_step. now apply (idle_trans s2 _ s3 Hi).
Qed.

Lemma main_loop_wp turns timer on_main prev t s : ready s ->
  wp (main_loop prog turns dst my_ports timer on_main prev t) (fun _ s' => ready s' /\ step s s') s.
Proof.
  revert prev t s. induction turns as [|turns IH]; intros prev t s Hs; cbn [main_loop]; wstep; wstep;
    pose proof (idle_step _ _ (idle_call (@force_quit K api) s quit_law)) as S1;
    set (s1 := s <| @world K E := (force_quit (world s)).2 |>) in *; assert (H1 : ready s1) by now apply ready_world.
  - destruct (force_quit _).1; [now apply dwp_ret|done].
  - destruct (force_quit _).1; [now apply dwp_ret|]. wstep.
    eapply dwp_mono; [now apply drain_wp|]. intros [prev' t'] s2 [H2 S2]. wstep.
    eapply dwp_mono; [apply for_ports_wp; [|exact H2]|].
    + intros p s3 Hp H3. apply receive_wp; [done|]. now apply Hmine.
    + intros _ s3 [H3 S3]. eapply dwp_mono; [now apply IH|]. intros _ s4 [H4 S4]. split; [done|].
      apply (step_trans s s1); [done|]. apply (step_trans s1 s2); [done|]. now apply (step_trans s2 s3).
Qed.
End spec.

(** ** The set-up *)

Section setup.
Context `{DpdkHost} {K E : Type} {api : DpdkApi K} {laws : DpdkLaws K} {host_laws : DpdkHostLaws}.
Implicit Types s : dpdk_state K E.

(** The ports of [l] have a transmit buffer, all counters are zero, and nothing was received or sent. *)
Record prepared s (l : list Z) s' : Prop := {
  prepared_maps : maps s' = maps s /\ ticks s' = ticks s;
  prepared_nic : nic_of (world s') = nic_of (world s);
  prepared_stats : port_statistics s' = replicate (Z.to_nat RTE_MAX_ETHPORTS) no_stats;
  prepared_length : length (tx_buffer s') = length (tx_buffer s);
  prepared_buffers p : p ∈ l -> tx_buffer s' !! Z.to_nat p = Some true
}.

Lemma prepared_quiet {A} (f : K -> A * K) s s' l : quiet nic_of f -> prepared s l s' ->
  prepared s l (s' <| @world K E := (f (world s')).2 |>).
Proof. intros Hf [Hm Hn Hs Hlen Hb]. split; try done. cbn. now rewrite Hf. Qed.
Lemma prepared_descs s s' l n m : prepared s l s' ->
  prepared s l (let s' := s' <| @nb_rxd K E := n |> in s' <| @nb_txd K E := m |>).
Proof. intros []. now split. Qed.
Lemma prepared_stats_reset s s' l : prepared s l s' ->
  prepared s l (s' <| @port_statistics K E := replicate (Z.to_nat RTE_MAX_ETHPORTS) no_stats |>).
Proof. intros []. now split. Qed.
Lemma prepared_buffer s s' l p : prepared s l s' -> 0 <= p < Z.of_nat (length (tx_buffer s)) -> Forall (Z.le 0) l ->
  prepared s (l ++ [p]) (s' <| @tx_buffer K E := <[Z.to_nat p := true]> (tx_buffer s') |>).
Proof.
  intros [Hm Hn Hs Hlen Hb] Hp Hl. split; cbn; try done; [now rewrite length_insert|].
  intros q Hq. destruct (Z.eq_dec q p) as [-> |Hne].
  - apply list_lookup_insert_eq. lia.
  - apply elem_of_app in Hq as [Hq|Hq]; [|now apply list_elem_of_singleton in Hq].
    pose proof (proj1 (list.Forall_forall _ _) Hl q Hq). cbv beta in *.
    rewrite list_lookup_insert_ne by lia. now apply Hb.
Qed.

(** Steps that keep the state prepared. *)
Definition prepares {A} (m : dpdk K E A) : Prop := forall s l s', prepared s l s' -> wp m (fun _ => prepared s l) s'.
Lemma prepares_call {A} (f : K -> A * K) : quiet nic_of f -> prepares (call f).
Proof. intros Hf s l s' Hp. apply dwp_call. now apply prepared_quiet. Qed.
Lemma prepares_get {A} (f : dpdk_state K E -> A) : prepares (get f).
Proof. intros s l s' Hp. now apply dwp_get. Qed.
Lemma prepares_check b : prepares (check b).
Proof. intros s l s' Hp. apply dwp_check. auto. Qed.
Lemma prepares_bind {A B} (m : dpdk K E A) (f : A -> dpdk K E B) : prepares m -> (forall a, prepares (f a)) -> prepares (m ≫= f).
Proof. intros Hm Hf s l s' Hp. apply dwp_bind. eapply dwp_mono; [exact (Hm s l s' Hp)|]. intros a s1. apply Hf. Qed.
Lemma prepares_when b m : prepares m -> prepares (when b m).
Proof. destruct b; [done|]. intros _ s l s' Hp. now apply dwp_ret. Qed.
Lemma prepares_descs n m : prepares (set (fun s => let s := s <| @nb_rxd K E := n |> in s <| @nb_txd K E := m |>)).
Proof. intros s l s' Hp. apply dwp_set. now apply prepared_descs. Qed.
Lemma prepares_stats : prepares (set (fun s => s <| @port_statistics K E := replicate (Z.to_nat RTE_MAX_ETHPORTS) no_stats |>)).
Proof. intros s l s' Hp. apply dwp_set. now apply prepared_stats_reset. Qed.
Lemma dwp_prepares {A B} (m : dpdk K E A) (f : A -> dpdk K E B) s l s' Q :
  prepares m -> prepared s l s' -> (forall a s'', prepared s l s'' -> wp (f a) Q s'') -> wp (m ≫= f) Q s'.
Proof. intros Hm Hp Hf. apply dwp_bind. eapply dwp_mono; [exact (Hm s l s' Hp)|]. auto. Qed.
End setup.
Create HintDb prepares.
#[export] Hint Resolve prepares_call prepares_get prepares_check prepares_bind prepares_when prepares_descs prepares_stats
  info_law configure_law adjust_law macaddr_law rx_queue_law tx_queue_law zmalloc_law callback_law ptypes_law
  start_law promiscuous_law : prepares.

Ltac prepare :=
  lazymatch goal with
  | Hp : prepared ?s ?l ?s' |- wp (_ ≫= _) _ ?s' =>
      apply (dwp_prepares _ _ s l); [auto with prepares|exact Hp|clear dependent s'; intros ? ? ?]
  end;
  cbv beta zeta;
  repeat lazymatch goal with |- wp (match ?x with (_, _) => _ end) _ _ => destruct x end.

Section configured.
Context `{DpdkHost} {K E : Type} {api : DpdkApi K} {laws : DpdkLaws K} {host_laws : DpdkHostLaws}.
Implicit Types s : dpdk_state K E.

Lemma init_port_wp promiscuous p s l s' : prepared s l s' -> 0 <= p < Z.of_nat (length (tx_buffer s)) -> Forall (Z.le 0) l ->
  wp (init_port promiscuous p) (fun _ => prepared s (l ++ [p])) s'.
Proof.
  intros Hp Hr Hl. unfold init_port. do 15 prepare.
  apply dwp_bind, dwp_call.
  match goal with H1 : prepared s l ?x |- _ => apply (prepared_quiet _ s x l (zmalloc_law p)) in H1 as Hz end.
  match goal with |- context [(zmalloc_tx_buffer p ?w).1] => destruct (zmalloc_tx_buffer p w).1 end.
  - apply (prepared_buffer _ _ _ p) in Hz; [|done..]. apply dwp_bind, dwp_set. match type of Hz with prepared _ _ ?y => cbv beta; set (x := y) in * end. clearbody x.
    do 7 prepare. apply (prepares_stats s (l ++ [p])). done.
  - apply dwp_bind, dwp_set. apply dwp_bind, dwp_check. done.
Qed.

Lemma init_ports_wp mask promiscuous n devs : forall before s s',
  rte_eth_devs = before ++ devs -> prepared s (enabled_ports mask before) s' ->
  Z.of_nat (length (tx_buffer s)) = RTE_MAX_ETHPORTS ->
  wp (init_ports mask promiscuous n devs) (fun _ => prepared s (enabled_ports mask rte_eth_devs)) s'.
Proof.
  revert n. induction devs as [|p devs IH]; intros n before s s' Hdevs Hp Hlen; cbn [init_ports].
  - apply dwp_ret. now rewrite Hdevs, app_nil_r.
  - assert (Hnext : rte_eth_devs = (before ++ [p]) ++ devs) by now rewrite <- app_assoc.
    assert (Henabled : enabled_ports mask (before ++ [p]) = enabled_ports mask before ++ (if port_enabled mask p then [p] else []))
      by (unfold enabled_ports; now rewrite List.filter_app).
    unfold port_enabled in Henabled. destruct (Z.land mask (port_bit p) =? 0); cbn [negb] in Henabled.
    + rewrite app_nil_r in Henabled. apply (IH n (before ++ [p])); [done|now rewrite Henabled|done].
    + apply dwp_bind. eapply dwp_mono.
      * apply (init_port_wp promiscuous p s (enabled_ports mask before)); [done| |].
        -- rewrite Hlen. apply dev_range. rewrite Hdevs. apply elem_of_app. right. apply list_elem_of_here.
        -- apply list.Forall_forall. intros q Hq. apply list_elem_of_In, List.filter_In in Hq as [Hq _].
           apply (dev_range q). rewrite Hdevs. apply elem_of_app. left. now apply list_elem_of_In.
      * intros a s1 H1. cbv beta in *. apply (IH _ (before ++ [p])); [done|now rewrite Henabled|done].
Qed.

(** The state when the driver starts, its counters being static. *)
Record fresh s : Prop := {
  fresh_stats : port_statistics s = replicate (Z.to_nat RTE_MAX_ETHPORTS) no_stats;
  fresh_buffers : Z.of_nat (length (tx_buffer s)) = RTE_MAX_ETHPORTS;
  fresh_nic : taken (nic_of (world s)) = [] /\ handed (nic_of (world s)) = []
}.
Lemma setup_wp cfg s : fresh s -> 0 <= cfg_mbufs cfg ->
  wp (setup cfg) (fun _ s' => ready (cfg_mask cfg) s' /\ (maps s' = maps s /\ ticks s' = ticks s) /\
    nic_of (world s') = Nic [] [] (cfg_mbufs cfg) /\ (forall f, f no_stats = 0 -> total f s' = 0)) s.
Proof.
  intros [Hst Hlen [Ht Hh]] Hm. unfold setup. apply dwp_bind, dwp_call.
  pose proof (mempool_law (cfg_mbufs cfg) (world s)) as Hlaw.
  destruct (mempool_create (cfg_mbufs cfg) (world s)) as [ok k]. destruct Hlaw as (Hk1 & Hk2 & Hk3). cbn [fst snd].
  set (s1 := s <| @world K E := k |>). apply dwp_bind, dwp_check. intros ->.
  assert (Hp : prepared s1 [] s1) by (split; try done; intros p Hp; now apply elem_of_nil in Hp).
  apply dwp_bind. eapply dwp_mono; [exact (init_ports_wp (cfg_mask cfg) (cfg_promiscuous cfg) 0 rte_eth_devs [] s1 s1 eq_refl Hp Hlen)|].
  intros n s2 [Hmaps Hnic Hstats Hl Hb]. apply dwp_check. intros _. split_and!; try apply Hmaps.
  - split; [rewrite Hstats, length_replicate; pose proof ports_bound; lia|]. intros p Hin He.
    apply Hb. apply list_elem_of_In, List.filter_In. split; [now apply list_elem_of_In|done].
  - rewrite Hnic. change (world s1) with k. destruct (nic_of k). cbn in *. rewrite Hk1, Hk2, Hk3 by done. now rewrite Ht, Hh.
  - intros f Hf. unfold total. rewrite Hstats. clear -Hf. induction (Z.to_nat RTE_MAX_ETHPORTS) as [|m IH]; [done|].
    cbn. now rewrite Hf, IH.
Qed.
End configured.

(** ** The whole driver *)

Section driver.
Context `{DpdkHost} {K E : Type} {api : DpdkApi K} {laws : DpdkLaws K} {host_laws : DpdkHostLaws} (prog : xdp E Z).
Implicit Types s : dpdk_state K E.

Lemma core_ports args cfg j p :
  configure args = Some cfg -> p ∈ rx_ports (cfg_lcores cfg) j ->
  p ∈ rte_eth_devs /\ dst_port (cfg_dst cfg) p ∈ rte_eth_devs /\ port_enabled (cfg_mask cfg) (dst_port (cfg_dst cfg) p) = true.
Proof.
  intros Hcfg Hp. destruct (configure_inv args cfg Hcfg) as (o & Ho & _ & Hmask & _).
  pose proof (configured_cores args o _ Ho Hmask) as Hcores. rewrite Hcfg in Hcores. destruct Hcores as (Hc & _).
  assert (Hin : p ∈ concat (cfg_lcores cfg)).
  { unfold rx_ports in Hp. rewrite nth_lookup in Hp. destruct (cfg_lcores cfg !! Z.to_nat j) as [l|] eqn:El; [|now apply elem_of_nil in Hp].
    apply list_elem_of_In, List.in_concat. exists l. split; apply list_elem_of_In; [|done].
    eapply list_elem_of_lookup_2. exact El. }
  rewrite Hc in Hin. apply elem_of_enabled in Hin as [Hd He].
  destruct (configured_dst args cfg p Hcfg Hd He) as (_ & ? & ? & _). auto.
Qed.
Lemma configured_mbufs args cfg : configure args = Some cfg -> 0 <= cfg_mbufs cfg.
Proof.
  intros Hcfg. destruct (configure_inv args cfg Hcfg) as (o & Ho & _ & Hmask & _).
  pose proof (configured_cores args o _ Ho Hmask) as Hcores. rewrite Hcfg in Hcores. destruct Hcores as (_ & _ & ->). lia.
Qed.

(** What the driver has done when a core stops: the packets received have gone through the program
    in order, those with the verdicts to send have been handed to a transmit buffer in order,
    the counters agree, and the others still occupy buffers of the pool. *)
Record served (cfg : l2fwd_config) s s' vs : Prop := {
  served_run : processed prog (maps s) (ticks s) (taken (nic_of (world s'))) = Some (vs, maps s', ticks s');
  served_sent : map snd (handed (nic_of (world s'))) = sends vs;
  served_rx : congruent64 (total rx s') (count_of vs);
  served_drop : congruent64 (total xdp_drop s') (verdicts XDP_DROP vs);
  served_pass : congruent64 (total xdp_pass s') (verdicts XDP_PASS vs);
  served_pool : count_of vs - count_of (sends vs) <= cfg_mbufs cfg
}.

Lemma processed_length e t ms vs e' t' : processed prog e t ms = Some (vs, e', t') -> length vs = length ms.
Proof.
  revert e t vs. induction ms as [|m ms IH]; intros e t vs; cbn [processed]; [now intros [= <- _ _]|].
  destruct (prog _) as [[v x]|]; [|done]. cbn [mbind option_bind].
  destruct (processed prog (x_env x) (x_tick x) ms) as [[[vs1 e1] t1]|] eqn:E1; [|done]. intros [= <- -> ->].
  cbn. f_equal. now apply (IH _ _ _ E1).
Qed.

(** C12: The DPDK driver, from the command line to the end of a core's loop: with a memory-safe program,
    and as long as the variable that [l2fwd_simple_forward] does not initialise happens to hold an
    enabled port, nothing undefined happens; every packet received goes through the program once and
    in order, and exactly those with the verdicts XDP_TX and XDP_REDIRECT are handed on, in order; the
    counters add up.  The packets that are not sent keep their buffers for ever, so their number
    over the life of the driver is bounded by the size of the pool. *)
Theorem dpdk_driver_serves args cfg turns lcore on_main s :
  configure args = Some cfg -> prog_safe prog -> garbage_enabled (K := K) (cfg_mask cfg) -> fresh s ->
  match main prog turns args lcore on_main s with
  | Ok _ s' => exists vs, served cfg s s' vs
  | Undefined => False
  | RteExit | OutOfFuel => True
  end.
Proof.
  intros Hcfg Hsafe Hlucky Hfresh.
  enough (Hwp : wp (main prog turns args lcore on_main) (fun _ s' => exists vs, served cfg s s' vs) s) by exact Hwp.
  unfold main. rewrite Hcfg. wstep. eapply dwp_mono; [apply setup_wp; [done|now apply (configured_mbufs args)]|].
  intros _ s1 (Hready & [Hm Ht] & Hnic & Hzero).
  wstep. eapply dwp_mono; [exact (asks_link_status (cfg_mask cfg) (cfg_mask cfg) MAX_CHECK_TIME false s1 Hready)|]. intros _ s2 [H2 I2].
  assert (Hmain : wp (l2fwd_main_loop prog turns cfg lcore on_main) (fun _ s' => ready (cfg_mask cfg) s' /\ step prog s2 s') s2).
  { unfold l2fwd_main_loop. destruct (rx_ports (cfg_lcores cfg) lcore) as [|p0 l] eqn:Hports.
    - apply dwp_ret. split; [done|apply step_refl].
    - apply main_loop_wp; try done. intros p Hp. apply (core_ports args cfg lcore p Hcfg). now rewrite Hports. }
  wstep. eapply dwp_mono; [exact Hmain|]. intros _ s3 [H3 S3].
  eapply dwp_mono; [exact (asks_close (cfg_mask cfg) (cfg_mask cfg) 0 rte_eth_devs s3 H3)|]. intros ret s' [_ I4].
  pose proof (step_trans prog _ _ _ (idle_step prog _ _ I2) (step_trans prog _ _ _ S3 (idle_step prog _ _ I4))) as [(ms & vs & [P T Hh D Q R N]) W].
  rewrite Hnic in T, Hh, N. cbn in T, Hh, N. rewrite Hm, Ht in P. rewrite Hzero in D, Q, R by done.
  assert (Hlen : count_of vs = count_of ms) by (unfold count_of; now rewrite (processed_length _ _ _ _ _ _ P)).
  exists vs. split; try done.
  - now rewrite T.
  - now rewrite Hlen.
  - assert (Hw : within s') by (apply W; unfold within, count_of; rewrite Hnic; cbn; pose proof (configured_mbufs args cfg Hcfg); lia).
    unfold within in Hw. rewrite N, T in Hw. rewrite <- Hh, Hlen. unfold count_of in *. rewrite length_map. lia.
Qed.
End driver.
