(* ===== verification/DpdkExamples.v ===== *)
(** * The DPDK driver on concrete packets

    Devices that meet the laws of DpdkForward.v, the driver with the ping and the tunnel
    program, and two things that go wrong: the uninitialised port and the fixed window. *)
From Stdlib Require Import ZArith Lia.
From stdpp Require Import base numbers list option.
From S2P Require Import Prelude Xdp OnesComplement XdpRun RuntimeHelpers Xdping XdpTunnel XdpExamples DpdkConfig DpdkDriver DpdkForward.
#[local] Open Scope Z_scope.
#[local] Open Scope list_scope.

(** The packets to come, on port 0 only; the turns until the program is told to stop; a clock. *)
Record devices := Devices { arriving : list mbuf; turns_left : nat; clock : Z; card : nic }.
Definition with_nic (n : nic) (k : devices) : devices := Devices (arriving k) (turns_left k) (clock k) n.
Definition mbuf_okb (m : mbuf) : bool :=
  forallb (fun b => (0 <=? b) && (b <? 256)) (m_head m ++ m_data m ++ m_tail m).
Definition room (n : nic) : nat := Z.to_nat (pool n + count_of (handed n) - count_of (taken n)).
Definition burst (n : Z) (k : devices) : list mbuf :=
  take (Z.to_nat n `min` room (card k)) (List.filter mbuf_okb (arriving k)).
Definition fine {A} (a : A) (k : devices) : A * devices := (a, k).

#[export] Instance devices_api : DpdkApi devices := {
  mempool_create n k := (true, with_nic (Nic (taken (card k)) (handed (card k)) n) k);
  eth_dev_info_get p := fine (0, true);
  eth_dev_configure p b := fine 0;
  eth_dev_adjust_nb_rx_tx_desc p n m := fine (0, n, m);
  eth_macaddr_get p := fine 0;
  eth_rx_queue_setup p n := fine 0;
  eth_tx_queue_setup p n := fine 0;
  zmalloc_tx_buffer p := fine true;
  eth_tx_buffer_set_err_callback p := fine 0;
  eth_dev_set_ptypes p := fine 0;
  eth_dev_start p := fine 0;
  eth_promiscuous_enable p := fine 0;
  eth_link_get_nowait p := fine (0, true);
  delay_ms n k := k;
  force_quit k := match turns_left k with
                  | O => (true, k)
                  | S n => (false, Devices (arriving k) n (clock k) (card k))
                  end;
  rdtsc k := (clock k + 1000000, Devices (arriving k) (turns_left k) (clock k + 1000000) (card k));
  tsc_hz := 1000000000;
  eth_rx_burst p n k :=
    if p =? 0 then
      let ms := burst n k in
      (ms, Devices (drop (length ms) (List.filter mbuf_okb (arriving k))) (turns_left k) (clock k)
             (Nic (taken (card k) ++ ms) (handed (card k)) (pool (card k))))
    else ([], k);
  eth_tx_buffer p m k := (0, 0, with_nic (Nic (taken (card k)) (handed (card k) ++ [(p, m)]) (pool (card k))) k);
  eth_tx_buffer_flush p := fine (1, 0);
  uninitialised := fine 2;
  eth_dev_stop p := fine 0;
  eth_dev_close p := fine tt
}.

Lemma mbuf_okb_ok m : mbuf_okb m = true -> mbuf_ok m.
Proof.
  unfold mbuf_okb, mbuf_ok, bytes_ok. rewrite List.forallb_forall. intros Hall.
  assert (Hb : Forall is_u8 (m_head m ++ m_data m ++ m_tail m)).
  { apply list.Forall_forall. intros b Hb. apply list_elem_of_In, Hall, andb_prop in Hb as [H1 H2].
    apply Z.leb_le in H1. apply Z.ltb_lt in H2. unfold is_u8. lia. }
  apply Forall_app in Hb as [? Hb]. apply Forall_app in Hb. tauto.
Qed.
Lemma burst_ok n k : Forall mbuf_ok (burst n k).
Proof.
  apply Forall_take, list.Forall_forall. intros m Hm. apply list_elem_of_In, List.filter_In in Hm as [_ Hm].
  now apply mbuf_okb_ok.
Qed.

#[export] Instance devices_laws : DpdkLaws devices.
Proof.
  refine {| nic_of := card |}; try (intros; now intros k).
  - intros n k. cbn. split_and!; done.
  - intros k. cbn. now destruct (turns_left k).
  - done.
  - intros p n k. cbn. destruct (p =? 0); cbn.
    + split_and!; [done|apply burst_ok|]. unfold burst, room, count_of. rewrite length_take. lia.
    + rewrite app_nil_r. destruct (card k). split_and!; [done|constructor|]. unfold count_of. cbn. lia.
  - intros p m k. done.
Defined.

(** ** The ping program *)

Definition to_mbuf (s : list Z) : mbuf := Mbuf (repeat 0 128) s (repeat 0 16).
Definition ping_packet : list Z := f_data (x_frame ping_state).
(** An echo message, a packet of another protocol, and another echo message. *)
Definition traffic : list mbuf :=
  [to_mbuf ping_packet; to_mbuf (take 12 ping_packet ++ [8; 6] ++ repeat 9 40); to_mbuf ping_packet].
Definition switched_on : dpdk_state devices unit :=
  Dpdk (replicate 32 no_stats) (replicate 32 false) RX_DESC_DEFAULT TX_DESC_DEFAULT tt 0
    (Devices traffic 20 5 (Nic [] [] 0)).
Definition run_ping : dpdk devices unit Z := main (@xdping unit helpers_x) 20 crossed 0 true.
(** The two echo messages are answered; the other packet stays where it is. *)
Example ping_run :
  match run_ping switched_on with
  | Ok _ s => map (fun p => (p.1, take 14 (m_data p.2))) (handed (card (world s))) = [(2, take 6 (drop 6 ping_packet) ++ take 6 ping_packet ++ [8; 0]);
                                                                       (2, take 6 (drop 6 ping_packet) ++ take 6 ping_packet ++ [8; 0])]
      /\ length (taken (card (world s))) = 3%nat
      /\ port_statistics s !! 0%nat = Some (PortStats 0 3 0 0 0) /\ port_statistics s !! 2%nat = Some (PortStats 10 0 0 1 0)
  | _ => False
  end.
Proof. vm_compute. repeat split; reflexivity. Qed.

Lemma xdping_prog_safe : prog_safe (@xdping unit helpers_x).
Proof. intros x Hx. destruct (@xdping_safe unit helpers_x x Hx) as (v & x' & ? & _ & ? & _). eauto. Qed.

Lemma dpdk_driver_serves_witness :
  exists cfg, configure crossed = Some cfg /\
  match main (@xdping unit helpers_x) 20 crossed 0 true switched_on with
  | Ok _ s' => exists vs, served (@xdping unit helpers_x) cfg switched_on s' vs
  | Undefined => False
  | RteExit | OutOfFuel => True
  end.
Proof.
  eexists. split; [vm_compute; reflexivity|].
  apply (dpdk_driver_serves (@xdping unit helpers_x) crossed _ 20 0 true switched_on).
  - vm_compute. reflexivity.
  - exact xdping_prog_safe.
  - intros k. split; [apply list_elem_of_In; cbn; tauto|reflexivity].
  - split; reflexivity || split; reflexivity.
Defined.

(** ** What goes wrong *)

(** With any value in the uninitialised variable that is not a port with a transmit buffer, the
    first packet to be sent is undefined behaviour. *)
Lemma garbage_port_undefined (s : dpdk_state devices unit) p m :
  tx_buffer s !! Z.to_nat p <> Some true -> send p m s = Undefined.
Proof.
  intros Hp. unfold send, get, mbind, dpdk_bind. destruct (tx_buffer s !! Z.to_nat p) as [[]|]; done.
Qed.

(** The window of an mbuf does not follow the packet: when the program has moved its start by [d]
    bytes to the front, the first [d] bytes of its packet are not sent. *)
Lemma window_keeps_place m f d :
  (d <= length (m_head m))%nat -> length (f_head f) = (length (m_head m) - d)%nat ->
  m_data (remount m f) = take (length (m_data m)) (drop d (f_data f ++ f_tail f)).
Proof.
  intros Hd Hf. unfold remount. cbn. f_equal. rewrite drop_app, drop_ge by lia. cbn. f_equal. lia.
Qed.

(** So a packet that the tunnel program encapsulates leaves without its new Ethernet header and the
    first bytes of the new IP header, and with its old length. *)
Lemma encapsulation_is_lost :
  let m := Mbuf (repeat 0 128) (f_data (x_frame tn_state)) [] in
  match @xdp_tx_iptunnel helpers_x (Xst (Frame (m_head m) (m_data m) (m_tail m)) (x_env tn_state) 0) with
  | Some (v, x) => v = XDP_TX /\ length (f_data (x_frame x)) = (length (m_data m) + 20)%nat
      /\ m_data (remount m (x_frame x)) = drop 20 (f_data (x_frame x))
  | None => False
  end.
Proof. vm_compute. repeat split; reflexivity. Qed.
