(* ===== verification/KatranHealth.v ===== *)
(** * Katran: health checking, the root program, the packet counter

    healthchecking.bpf.c with healthchecking_helpers.h, the older
    healthchecking_ipip.c, xdp_root.c and xdp_pktcntr.c under
    xdp_progs/katran/lib/bpf.  The health checker is a program of the traffic
    control hook: it sends the probes that a prober has marked to the real server
    the mark names, in the encapsulation the balancer uses.  The linear part of
    the socket buffer is the [frame] of Xdp.v; its mark and length, the counters
    and the pending redirection are the environment. *)
From Stdlib Require Import ZArith Lia.
From stdpp Require Import base numbers list option gmap.
From S2P Require Import Prelude Xdp OnesComplement XdpRun KatranDefs KatranCsum KatranForward.
#[local] Open Scope Z_scope.

(** ** Constants *)

Definition TC_ACT_UNSPEC : Z := -1.
Definition TC_ACT_SHOT : Z := 2.
Definition TC_ACT_REDIRECT : Z := 7.

(** @src xdp_progs/katran/lib/bpf/healthchecking_consts.h 20-22 CTRL_MAP_SIZE *)
Definition CTRL_MAP_SIZE : Z := 4.
Definition HC_MAIN_INTF_POSITION : Z := 3.
(** @src xdp_progs/katran/lib/bpf/healthchecking_consts.h 24-25 REDIRECT_EGRESS *)
Definition REDIRECT_EGRESS : Z := 0.
(** @src xdp_progs/katran/lib/bpf/healthchecking_consts.h 34-41 GENERIC_STATS_INDEX *)
Definition GENERIC_STATS_INDEX : Z := 0.
Definition STATS_SIZE : Z := 1.
(** @src xdp_progs/katran/lib/bpf/healthchecking_consts.h 45-54 V6DADDR *)
Definition MANGLED_HC_SRC_PORT : Z := 31337.
Definition V6DADDR : Z := 1.
Definition HC_SRC_MAC_POS : Z := 0.
Definition HC_DST_MAC_POS : Z := 1.
(** @src xdp_progs/katran/lib/bpf/balancer_consts.h 313-315 GUE_CSUM *)
Definition GUE_CSUM : Z := 0.

(** Flags and mode of [bpf_skb_adjust_room] (linux_includes/bpf.h). *)
Definition BPF_ADJ_ROOM_MAC : Z := 1.
Definition BPF_F_ADJ_ROOM_FIXED_GSO : Z := 1.
Definition BPF_F_ADJ_ROOM_ENCAP_L3_IPV4 : Z := 2.
Definition BPF_F_ADJ_ROOM_ENCAP_L3_IPV6 : Z := 4.
Definition BPF_F_ADJ_ROOM_ENCAP_L4_UDP : Z := 16.
Definition BPF_F_TUNINFO_IPV6 : Z := 1.

(** ** Structures and maps *)

(** The union is its four words; [daddr] is the first.
    @src xdp_progs/katran/lib/bpf/healthchecking_structs.h 20-26 hc_real_definition *)
Record hc_real_definition := HcReal { hr_v6daddr : v6addr; hr_flags : Z }.
Definition hr_daddr (r : hc_real_definition) : Z := w0 (hr_v6daddr r).
Definition hc_real_zero : hc_real_definition := HcReal v6_zero 0.

(** @src xdp_progs/katran/lib/bpf/healthchecking_structs.h 28-34 hc_stats *)
Record hc_stats := HcStats {
  pckts_processed : Z; pckts_dropped : Z; pckts_skipped : Z; pckts_too_big : Z }.
Definition hc_stats_zero : hc_stats := HcStats 0 0 0 0.

(** @src xdp_progs/katran/lib/bpf/healthchecking_structs.h 36-44 hc_key *)
Record hc_key := HcKey { hk_addr : v6addr; hk_port : Z; hk_proto : Z }.
#[global] Instance hc_key_eq_dec : EqDecision hc_key.
Proof. solve_decision. Defined.
#[global] Instance hc_key_countable : Countable hc_key.
Proof.
  apply (inj_countable' (fun k => (hk_addr k, hk_port k, hk_proto k)) (fun '(a, b, c) => HcKey a b c)).
  now intros [].
Defined.

(** The six bytes of [mac] as a number.
    @src xdp_progs/katran/lib/bpf/healthchecking_structs.h 46-49 hc_mac *)
Record hc_mac := HcMac { hm_u48 : Z }.
Definition mac (m : hc_mac) : list Z := le_split 6 (hm_u48 m).

(** The compile-time options of the health checker. *)
(** @src xdp_progs/katran/lib/bpf/healthchecking_consts.h 27-32 HC_MAX_PACKET_SIZE *)
Class HcFeatures := { HC_MAX_PACKET_SIZE : Z; MANGLE_HC_SRC : bool }.

(** The maps that only the control plane writes. *)
Class HcTables := {
  hc_ctrl_map : gmap Z Z;
  hc_reals_map : gmap Z hc_real_definition;
  hc_pckt_srcs_map : gmap Z hc_real_definition;
  hc_pckt_macs : gmap Z hc_mac;
  hc_key_map : gmap hc_key Z
}.

(** @src xdp_progs/katran/lib/bpf/healthchecking_maps.h 27-32 hc_ctrl_map *)
Definition lookup_hc_ctrl `{HcTables} (k : Z) : option Z := array_lookup CTRL_MAP_SIZE 0 hc_ctrl_map k.
(** @src xdp_progs/katran/lib/bpf/healthchecking_maps.h 34-39 hc_reals_map *)
Definition lookup_hc_real `{HcTables} (k : Z) : option hc_real_definition := hc_reals_map !! k.
(** @src xdp_progs/katran/lib/bpf/healthchecking_maps.h 41-47 hc_pckt_srcs_map *)
Definition lookup_hc_src `{HcTables} (k : Z) : option hc_real_definition :=
  array_lookup 2 hc_real_zero hc_pckt_srcs_map k.
(** @src xdp_progs/katran/lib/bpf/healthchecking_maps.h 49-55 hc_pckt_macs *)
Definition lookup_hc_mac `{HcTables} (k : Z) : option hc_mac := array_lookup 2 (HcMac 0) hc_pckt_macs k.
(** @src xdp_progs/katran/lib/bpf/healthchecking_maps.h 74-80 hc_key_map *)
Definition lookup_hc_key `{HcTables} (k : hc_key) : option Z := hc_key_map !! k.

(** [bpf_tunnel_key] as far as the programs set it; [remote_ipv4] is the first
    word of the union. *)
Record bpf_tunnel_key := TunnelKey { remote_ipv6 : v6addr; tunnel_ttl : Z }.

(** What a program of the traffic control hook changes outside the packet: the
    fields [mark] and [len] of the buffer, the counters of this CPU, the calls of
    [bpf_redirect] and of [bpf_skb_set_tunnel_key]. *)
(** @src xdp_progs/katran/lib/bpf/healthchecking_maps.h 57-72 hc_stats_map *)
Record hc_env := HcEnv {
  skb_mark : Z; skb_len : Z;
  hc_stats_map : gmap Z hc_stats;
  per_hckey_stats : gmap Z Z;
  redirects : list (Z * Z);
  tunnel_key : option (bpf_tunnel_key * Z) }.

Definition set_mark (x : Z) (e : hc_env) : hc_env :=
  HcEnv x (skb_len e) (hc_stats_map e) (per_hckey_stats e) (redirects e) (tunnel_key e).
Definition upd_hc_stats (g : hc_stats -> hc_stats) (e : hc_env) : hc_env :=
  HcEnv (skb_mark e) (skb_len e) (array_update hc_stats_zero GENERIC_STATS_INDEX g (hc_stats_map e))
    (per_hckey_stats e) (redirects e) (tunnel_key e).
Definition upd_hckey_stats (i : Z) (e : hc_env) : hc_env :=
  HcEnv (skb_mark e) (skb_len e) (hc_stats_map e)
    (array_update 0 i (fun n => u64 (n + 1)) (per_hckey_stats e)) (redirects e) (tunnel_key e).
Definition grow_len (d : Z) (e : hc_env) : hc_env :=
  HcEnv (skb_mark e) (u32 (skb_len e + d)) (hc_stats_map e) (per_hckey_stats e) (redirects e) (tunnel_key e).
Definition add_redirect (r : Z * Z) (e : hc_env) : hc_env :=
  HcEnv (skb_mark e) (skb_len e) (hc_stats_map e) (per_hckey_stats e) (redirects e ++ [r]) (tunnel_key e).
Definition set_tunnel (k : bpf_tunnel_key * Z) (e : hc_env) : hc_env :=
  HcEnv (skb_mark e) (skb_len e) (hc_stats_map e) (per_hckey_stats e) (redirects e) (Some k).

Definition skipped (n : hc_stats) : hc_stats :=
  HcStats (pckts_processed n) (pckts_dropped n) (u64 (pckts_skipped n + 1)) (pckts_too_big n).
Definition dropped (n : hc_stats) : hc_stats :=
  HcStats (pckts_processed n) (u64 (pckts_dropped n + 1)) (pckts_skipped n) (pckts_too_big n).
Definition too_big (n : hc_stats) : hc_stats :=
  HcStats (pckts_processed n) (pckts_dropped n) (pckts_skipped n) (u64 (pckts_too_big n + 1)).
Definition processed (n : hc_stats) : hc_stats :=
  HcStats (u64 (pckts_processed n + 1)) (pckts_dropped n) (pckts_skipped n) (pckts_too_big n).

(** ** The helpers of the kernel

    [bpf_skb_adjust_room] puts room between the MAC header and the network header;
    the documentation does not say what the new bytes are.  [bpf_redirect] answers
    TC_ACT_REDIRECT or TC_ACT_SHOT, and the move happens after the program. *)
Class SkbHelpers := {
  h_adjust_room : frame -> Z -> Z -> Z -> Z * frame;
  h_redirect : Z -> Z -> Z;
  h_set_tunnel_key : bpf_tunnel_key -> Z -> Z;
  h_prandom_u32 : nat -> Z
}.

Class SkbHelperLaws (H : SkbHelpers) : Prop := {
  adjust_room_fail f d mode flags :
    (h_adjust_room f d mode flags).1 <> 0 -> (h_adjust_room f d mode flags).2 = f;
  adjust_room_done f d flags :
    (h_adjust_room f d BPF_ADJ_ROOM_MAC flags).1 = 0 -> 0 <= d -> 14 <= zlen (f_data f) ->
    exists room, length room = Z.to_nat d /\
      f_data (h_adjust_room f d BPF_ADJ_ROOM_MAC flags).2 = take 14 (f_data f) ++ room ++ drop 14 (f_data f);
  redirect_result i flags : h_redirect i flags = TC_ACT_REDIRECT \/ h_redirect i flags = TC_ACT_SHOT
}.

Section helpers.
Context {H : SkbHelpers}.

Definition skb_adjust_room (delta mode flags : Z) : xdp hc_env Z := fun s =>
  let '(r, f) := h_adjust_room (x_frame s) delta mode flags in
  Some (r, Xst f (if r =? 0 then grow_len delta (x_env s) else x_env s) (x_tick s)).
Definition redirect (ifindex flags : Z) : xdp hc_env Z :=
  modify (add_redirect (ifindex, flags)) ;; mret (h_redirect ifindex flags).
Definition skb_set_tunnel_key (k : bpf_tunnel_key) (flags : Z) : xdp hc_env Z :=
  let ret := h_set_tunnel_key k flags in
  when (ret =? 0) (modify (set_tunnel (k, flags))) ;; mret ret.
Definition get_prandom_u32 : xdp hc_env Z := fun s =>
  Some (h_prandom_u32 (x_tick s), Xst (x_frame s) (x_env s) (S (x_tick s))).
End helpers.

(** ** healthchecking_helpers.h *)

(** The result is [None] for [return false]; the key is then not used.
    @src xdp_progs/katran/lib/bpf/healthchecking_helpers.h 37-77 set_hc_key *)
Definition set_hc_key {E} (is_ipv6 : bool) : xdp E (option hc_key) :=
  let iphdr := 14 in
  r ←? (if is_ipv6 then
          need (iphdr + 40) else (inl None) ;;
          daddr ← load 16 (iphdr + 24);
          nexthdr ← load8 (iphdr + 6);
          mret (inr (iphdr + 40, v6_of_bytes daddr, nexthdr))
        else
          need (iphdr + 20) else (inl None) ;;
          daddr ← load32 (iphdr + 16);
          protocol ← load8 (iphdr + 9);
          mret (inr (iphdr + 20, set_w0 v6_zero daddr, protocol)));
  let '(transport_hdr, addr, proto) := r in
  if proto =? IPPROTO_TCP then
    need (transport_hdr + 20) else None ;;
    dest ← load16 (transport_hdr + 2);
    mret (Some (HcKey addr dest proto))
  else if proto =? IPPROTO_UDP then
    need (transport_hdr + 8) else None ;;
    dest ← load16 (transport_hdr + 2);
    mret (Some (HcKey addr dest proto))
  else mret None.

Section encap.
Context {C : HcFeatures} {T : HcTables} {H : SkbHelpers}.

(** @src xdp_progs/katran/lib/bpf/healthchecking_helpers.h 79-149 hc_encap_ipip *)
Definition hc_encap_ipip (real : hc_real_definition) (is_ipv6 : bool) : xdp hc_env bool :=
  len ← asks skb_len;
  let pkt_len := u16 (len - 14) in
  if hr_flags real =? V6DADDR then
    match lookup_hc_src V6_SRC_INDEX with
    | None => mret false
    | Some src =>
        let flags := Z.lor BPF_F_ADJ_ROOM_FIXED_GSO BPF_F_ADJ_ROOM_ENCAP_L3_IPV6 in
        ret ← skb_adjust_room 40 BPF_ADJ_ROOM_MAC flags;
        if nz ret then mret false else
        need (14 + 40) else false ;;
        store16 12 BE_ETH_P_IPV6 ;;
        let ip6h := 14 in
        let proto := if is_ipv6 then IPPROTO_IPV6 else IPPROTO_IPIP in
        let saddr := if MANGLE_HC_SRC then create_encap_ipv6_src MANGLED_HC_SRC_PORT (w3 (hr_v6daddr src))
                     else hr_v6daddr src in
        create_v6_hdr ip6h DEFAULT_TOS saddr (hr_v6daddr real) pkt_len proto ;;
        mret true
    end
  else
    match lookup_hc_src V4_SRC_INDEX with
    | None => mret false
    | Some src =>
        let flags := Z.lor BPF_F_ADJ_ROOM_FIXED_GSO BPF_F_ADJ_ROOM_ENCAP_L3_IPV4 in
        ret ← skb_adjust_room 20 BPF_ADJ_ROOM_MAC flags;
        if nz ret then mret false else
        need (14 + 20) else false ;;
        let iph := 14 in
        let ip_src := if MANGLE_HC_SRC then create_encap_ipv4_src MANGLED_HC_SRC_PORT (hr_daddr src)
                      else hr_daddr src in
        create_v4_hdr iph DEFAULT_TOS ip_src (hr_daddr real) pkt_len IPPROTO_IPIP ;;
        mret true
    end.

(** The port that a random number gives.
    @src xdp_progs/katran/lib/bpf/healthchecking_helpers.h 152-154 gue_sport *)
Definition gue_port (r : Z) : Z := Z.lor (u16 r) 0x400.

(** @src xdp_progs/katran/lib/bpf/healthchecking_helpers.h 151-155 gue_sport *)
Definition gue_sport : xdp hc_env Z := port ← get_prandom_u32; mret (gue_port port).

(** @src xdp_progs/katran/lib/bpf/healthchecking_helpers.h 157-225 hc_encap_gue *)
Definition hc_encap_gue (real : hc_real_definition) (is_ipv6 : bool) : xdp hc_env bool :=
  len ← asks skb_len;
  let pkt_len := u16 (len - 14) in
  if hr_flags real =? V6DADDR then
    sport ← gue_sport;
    match lookup_hc_src V6_SRC_INDEX with
    | None => mret false
    | Some src =>
        let flags := Z.lor (Z.lor BPF_F_ADJ_ROOM_FIXED_GSO BPF_F_ADJ_ROOM_ENCAP_L3_IPV6)
                           BPF_F_ADJ_ROOM_ENCAP_L4_UDP in
        ret ← skb_adjust_room (40 + 8) BPF_ADJ_ROOM_MAC flags;
        if nz ret then mret false else
        need (14 + 40 + 8) else false ;;
        store16 12 BE_ETH_P_IPV6 ;;
        let ip6h := 14 in
        let udph := ip6h + 40 in
        let pkt_len := u16 (pkt_len + 8) in
        create_udp_hdr udph sport GUE_DPORT pkt_len GUE_CSUM ;;
        create_v6_hdr ip6h DEFAULT_TOS (hr_v6daddr src) (hr_v6daddr real) pkt_len IPPROTO_UDP ;;
        mret true
    end
  else
    sport ← gue_sport;
    match lookup_hc_src V4_SRC_INDEX with
    | None => mret false
    | Some src =>
        let flags := Z.lor (Z.lor BPF_F_ADJ_ROOM_FIXED_GSO BPF_F_ADJ_ROOM_ENCAP_L3_IPV4)
                           BPF_F_ADJ_ROOM_ENCAP_L4_UDP in
        ret ← skb_adjust_room (20 + 8) BPF_ADJ_ROOM_MAC flags;
        if nz ret then mret false else
        need (14 + 20 + 8) else false ;;
        let iph := 14 in
        let udph := iph + 20 in
        let pkt_len := u16 (pkt_len + 8) in
        create_udp_hdr udph sport GUE_DPORT pkt_len GUE_CSUM ;;
        create_v4_hdr iph DEFAULT_TOS (hr_daddr src) (hr_daddr real) pkt_len IPPROTO_UDP ;;
        mret true
    end.

(** @src xdp_progs/katran/lib/bpf/balancer_consts.h 382-390 HC_ENCAP *)
Definition HC_ENCAP {F : Features} : hc_real_definition -> bool -> xdp hc_env bool :=
  if GUE_ENCAP then hc_encap_gue else hc_encap_ipip.
End encap.

(** ** healthchecking.bpf.c *)

Section program.
Context {F : Features} {C : HcFeatures} {T : HcTables} {H : SkbHelpers}.

(** [*prog_stats]: the element exists for every index below [STATS_SIZE]. *)
Definition lookup_hc_stats (k : Z) (e : hc_env) : option hc_stats :=
  array_lookup STATS_SIZE hc_stats_zero (hc_stats_map e) k.

(** The counter of the health check that the key names.
    @src xdp_progs/katran/lib/bpf/healthchecking.bpf.c 127-136 healthcheck_encap *)
Definition count_hc_key (hckey : hc_key) : xdp hc_env unit :=
  match lookup_hc_key hckey with
  | None => mret tt
  | Some hc_key_cntr_index =>
      when ((0 <=? hc_key_cntr_index) && (hc_key_cntr_index <? MAX_VIPS))
        (modify (upd_hckey_stats hc_key_cntr_index))
  end.

(** @src xdp_progs/katran/lib/bpf/healthchecking.bpf.c 33-139 healthcheck_encap *)
Definition healthcheck_encap : xdp hc_env Z :=
  somark ← asks skb_mark;
  prog_stats ← asks (lookup_hc_stats GENERIC_STATS_INDEX);
  match prog_stats with None => mret TC_ACT_UNSPEC | Some _ =>
  if somark =? 0 then modify (upd_hc_stats skipped) ;; mret TC_ACT_UNSPEC else
  match lookup_hc_real somark with None => modify (upd_hc_stats skipped) ;; mret TC_ACT_UNSPEC | Some real =>
  len ← asks skb_len;
  if (0 <? HC_MAX_PACKET_SIZE) && (HC_MAX_PACKET_SIZE <? len) then
    modify (upd_hc_stats dropped) ;; modify (upd_hc_stats too_big) ;; mret TC_ACT_SHOT
  else
  match lookup_hc_ctrl HC_MAIN_INTF_POSITION with
  None => modify (upd_hc_stats dropped) ;; mret TC_ACT_SHOT | Some intf_ifindex =>
  match lookup_hc_mac HC_SRC_MAC_POS with
  None => modify (upd_hc_stats dropped) ;; mret TC_ACT_SHOT | Some esrc =>
  match lookup_hc_mac HC_DST_MAC_POS with
  None => modify (upd_hc_stats dropped) ;; mret TC_ACT_SHOT | Some edst =>
  L ← data_len;
  if L <? 14 then modify (upd_hc_stats dropped) ;; mret TC_ACT_SHOT else
  h_proto ← load16 12;
  let is_ipv6 := h_proto =? BE_ETH_P_IPV6 in
  hckey ← set_hc_key is_ipv6;
  modify (set_mark 0) ;;
  ok ← HC_ENCAP real is_ipv6;
  if negb ok then modify (upd_hc_stats dropped) ;; mret TC_ACT_SHOT else
  L ← data_len;
  if L <? 14 then modify (upd_hc_stats dropped) ;; mret TC_ACT_SHOT else
  store 6 (mac esrc) ;;
  store 0 (mac edst) ;;
  modify (upd_hc_stats processed) ;;
  match hckey with Some hckey => count_hc_key hckey | None => mret tt end ;;
  redirect intf_ifindex REDIRECT_EGRESS
  end end end end end.
End program.

(** ** healthchecking_ipip.c

    The same hook with a pair of tunnel devices: the packet is left alone, the
    address of the real server goes to the tunnel metadata. *)

Module Ipip.
(** @src xdp_progs/katran/lib/bpf/healthchecking_ipip.c 34-37 MAX_PACKET_SIZE *)
Definition MAX_PACKET_SIZE : Z := 1474.

Section program.
Context {T : HcTables} {H : SkbHelpers}.

(** @src xdp_progs/katran/lib/bpf/healthchecking_ipip.c 88-157 healthcheck_encap *)
Definition healthcheck_encap_ipip : xdp hc_env Z :=
  somark ← asks skb_mark;
  prog_stats ← asks (lookup_hc_stats GENERIC_STATS_INDEX);
  match prog_stats with None => mret TC_ACT_UNSPEC | Some _ =>
  if somark =? 0 then modify (upd_hc_stats skipped) ;; mret TC_ACT_UNSPEC else
  match lookup_hc_real somark with None => modify (upd_hc_stats skipped) ;; mret TC_ACT_UNSPEC | Some real =>
  len ← asks skb_len;
  if MAX_PACKET_SIZE <? len then
    modify (upd_hc_stats dropped) ;; modify (upd_hc_stats too_big) ;; mret TC_ACT_SHOT
  else
  match lookup_hc_ctrl 1 with
  None => modify (upd_hc_stats dropped) ;; mret TC_ACT_SHOT | Some v4_intf_ifindex =>
  match lookup_hc_ctrl 2 with
  None => modify (upd_hc_stats dropped) ;; mret TC_ACT_SHOT | Some v6_intf_ifindex =>
  modify (set_mark 0) ;;
  let '(tun_flag, remote, ifindex) :=
    if hr_flags real =? V6DADDR then (BPF_F_TUNINFO_IPV6, hr_v6daddr real, v6_intf_ifindex)
    else (0, set_w0 v6_zero (hr_daddr real), v4_intf_ifindex) in
  modify (upd_hc_stats processed) ;;
  skb_set_tunnel_key (TunnelKey remote DEFAULT_TTL) tun_flag ;;
  redirect ifindex REDIRECT_EGRESS
  end end end end.
End program.
End Ipip.

(** ** xdp_root.c and xdp_pktcntr.c *)

Section root.
Context {E : Type}.

(** @src xdp_progs/katran/lib/bpf/xdp_root.c 20-20 ROOT_ARRAY_SIZE *)
Definition ROOT_ARRAY_SIZE : nat := 3.

(** The unrolled loop from slot [i] on, [n] slots being left: a tail call to a
    filled slot does not return, one to an empty slot falls through.
    @src xdp_progs/katran/lib/bpf/xdp_root.c 32-36 xdp_root *)
Fixpoint tail_calls (root_array : Z -> option (xdp E Z)) (i : Z) (n : nat) : xdp E Z :=
  match n with
  | O => mret XDP_PASS
  | S n => match root_array i with
           | Some prog => prog
           | None => tail_calls root_array (i + 1) n
           end
  end.

(** @src xdp_progs/katran/lib/bpf/xdp_root.c 29-37 xdp_root *)
Definition xdp_root (root_array : Z -> option (xdp E Z)) : xdp E Z :=
  tail_calls root_array 0 ROOT_ARRAY_SIZE.
End root.

Module Pktcntr.
(** @src xdp_progs/katran/lib/bpf/xdp_pktcntr.c 28-29 CTRL_ARRAY_SIZE *)
Definition CTRL_ARRAY_SIZE : Z := 2.
Definition CNTRS_ARRAY_SIZE : Z := 512.

(** @src xdp_progs/katran/lib/bpf/xdp_pktcntr.c 31-43 cntrs_array *)
Record cntr_maps := CntrMaps { ctl_flags : gmap Z Z; cntrs_array : gmap Z Z }.

(** @src xdp_progs/katran/lib/bpf/xdp_pktcntr.c 45-62 pktcntr *)
Definition pktcntr : xdp cntr_maps Z :=
  flag ← asks (fun m => array_lookup CTRL_ARRAY_SIZE 0 (ctl_flags m) 0);
  match flag with
  | None => mret XDP_PASS
  | Some flag =>
      if flag =? 0 then mret XDP_PASS else
      cntr_val ← asks (fun m => array_lookup CNTRS_ARRAY_SIZE 0 (cntrs_array m) 0);
      match cntr_val with
      | Some _ => modify (fun m => CntrMaps (ctl_flags m)
                    (array_update 0 0 (fun n => u64 (n + 1)) (cntrs_array m)))
      | None => mret tt
      end ;;
      mret XDP_PASS
  end.
End Pktcntr.

(** ** The key of a health check *)

(** The key of the packet [d]: the destination address, port and protocol of a
    TCP or UDP packet whose headers are in [d]. *)
Definition hc_key_of (d : list Z) (is_ipv6 : bool) : option hc_key :=
  let l3 := drop 14 d in
  let l4 := drop (if is_ipv6 then 40 else 20) l3 in
  let addr := if is_ipv6 then v6_of_bytes (take 16 (drop 24 l3))
              else set_w0 v6_zero (le_join (take 4 (drop 16 l3))) in
  let proto := nth (if is_ipv6 then 6 else 9) l3 0 in
  let room := if proto =? IPPROTO_TCP then 20 else 8 in
  if (proto =? IPPROTO_TCP) || (proto =? IPPROTO_UDP) then
    if zlen d <? 14 + (if is_ipv6 then 40 else 20) + room then None
    else Some (HcKey addr (le_join (take 2 (drop 2 l4))) proto)
  else None.

Section runs.
Context {E : Type}.
Implicit Types s : xst E.

(** The part of [set_hc_key] behind the network header at [t]. *)
Lemma hc_ports_runs s t addr proto :
  0 <= t ->
  runs s (if proto =? IPPROTO_TCP then
            need (t + 20) else None ;; dest ← load16 (t + 2); mret (Some (HcKey addr dest proto))
          else if proto =? IPPROTO_UDP then
            need (t + 8) else None ;; dest ← load16 (t + 2); mret (Some (HcKey addr dest proto))
          else mret None)
    (if (proto =? IPPROTO_TCP) || (proto =? IPPROTO_UDP) then
       if zlen (f_data (x_frame s)) <? t + (if proto =? IPPROTO_TCP then 20 else 8) then None
       else Some (HcKey addr (le_join (take 2 (drop (Z.to_nat (t + 2)) (f_data (x_frame s))))) proto)
     else None) s.
Proof.
  intros Ht.
  assert (forall n, 8 <= n -> runs s (need (t + n) else None ;; dest ← load16 (t + 2); mret (Some (HcKey addr dest proto)))
    (if zlen (f_data (x_frame s)) <? t + n then None
     else Some (HcKey addr (le_join (take 2 (drop (Z.to_nat (t + 2)) (f_data (x_frame s))))) proto)) s) as Hport.
  { intros n Hn. destruct (Z.ltb_spec (zlen (f_data (x_frame s))) (t + n)); [now apply run_need_short|].
    apply run_need; [done|]. eapply runs_bind; [apply runs_load16_at; lia|apply runs_ret]. }
  destruct (proto =? IPPROTO_TCP); [apply Hport; lia|].
  destruct (proto =? IPPROTO_UDP); [apply Hport; lia|apply runs_ret].
Qed.

Lemma set_hc_key_runs s is_ipv6 :
  runs s (set_hc_key is_ipv6) (hc_key_of (f_data (x_frame s)) is_ipv6) s.
Proof.
  set (d := f_data (x_frame s)). unfold set_hc_key. cbv zeta.
  set (hl := if is_ipv6 then 40 else 20).
  destruct (Z.ltb_spec (zlen d) (14 + hl)) as [Hs|Hl].
  - (* too short for the network header *)
    eapply runs_val with (a := None).
    + eapply runs_bind with (a := inl None); [|apply runs_ret].
      destruct is_ipv6; now apply run_need_short.
    + unfold hc_key_of. fold hl. destruct (_ || _); [|done].
      destruct (Z.ltb_spec (zlen d) (14 + hl + (if nth (if is_ipv6 then 6%nat else 9%nat) (drop 14 d) 0 =? IPPROTO_TCP then 20 else 8)));
        [done|]. destruct (_ =? IPPROTO_TCP); lia.
  - eapply runs_bind with (s1 := s)
      (a := inr (14 + hl, if is_ipv6 then v6_of_bytes (take 16 (drop 24 (drop 14 d)))
                          else set_w0 v6_zero (le_join (take 4 (drop 16 (drop 14 d)))),
                 nth (if is_ipv6 then 6%nat else 9%nat) (drop 14 d) 0)).
    + destruct is_ipv6; (apply run_need; [done|]).
      * eapply runs_bind; [apply runs_load_at; fold d; lia|].
        eapply runs_bind; [apply runs_load8_at; fold d; lia|].
        eapply runs_val; [apply runs_ret|]. fold d. rewrite drop_drop, !nth_lookup, lookup_drop. done.
      * eapply runs_bind; [apply runs_load32_at; fold d; lia|].
        eapply runs_bind; [apply runs_load8_at; fold d; lia|].
        eapply runs_val; [apply runs_ret|]. fold d. rewrite drop_drop, !nth_lookup, lookup_drop. done.
    + cbv beta iota. eapply runs_val; [apply hc_ports_runs; destruct is_ipv6; cbv [hl]; lia|].
      fold d. unfold hc_key_of. fold hl. rewrite !drop_drop. now destruct is_ipv6.
Qed.
End runs.

(** ** The encapsulation *)

(** A UDP header. *)
Definition udp_header (sport dport len csum : Z) : list Z :=
  le_split 2 sport ++ le_split 2 (bswap16 dport) ++ le_split 2 (bswap16 len) ++ le_split 2 csum.

Section outer.
Context {F : Features} {C : HcFeatures} {T : HcTables} {H : SkbHelpers}.

(** The configured source addresses, mangled for IPIP when the option says so. *)
Definition hc_src (k : Z) : hc_real_definition := default hc_real_zero (hc_pckt_srcs_map !! k).
Definition hc_saddr6 : v6addr :=
  if negb GUE_ENCAP && MANGLE_HC_SRC
  then create_encap_ipv6_src MANGLED_HC_SRC_PORT (w3 (hr_v6daddr (hc_src V6_SRC_INDEX)))
  else hr_v6daddr (hc_src V6_SRC_INDEX).
Definition hc_saddr4 : Z :=
  if negb GUE_ENCAP && MANGLE_HC_SRC
  then create_encap_ipv4_src MANGLED_HC_SRC_PORT (hr_daddr (hc_src V4_SRC_INDEX))
  else hr_daddr (hc_src V4_SRC_INDEX).

(** The room that the headers towards [real] take, and the flags that announce it. *)
Definition hc_room (real : hc_real_definition) : Z :=
  (if hr_flags real =? V6DADDR then 40 else 20) + (if GUE_ENCAP then 8 else 0).
Definition hc_room_flags (real : hc_real_definition) : Z :=
  Z.lor (Z.lor BPF_F_ADJ_ROOM_FIXED_GSO
           (if hr_flags real =? V6DADDR then BPF_F_ADJ_ROOM_ENCAP_L3_IPV6 else BPF_F_ADJ_ROOM_ENCAP_L3_IPV4))
        (if GUE_ENCAP then BPF_F_ADJ_ROOM_ENCAP_L4_UDP else 0).

(** The outer headers for [len] bytes of inner packet: under GUE a UDP header
    without a checksum follows the network header. *)
Definition hc_outer_ip (real : hc_real_definition) (is_ipv6 : bool) (len : Z) : list Z :=
  let len := if GUE_ENCAP then u16 (len + 8) else len in
  if hr_flags real =? V6DADDR then
    let proto := if GUE_ENCAP then IPPROTO_UDP else if is_ipv6 then IPPROTO_IPV6 else IPPROTO_IPIP in
    v6_header DEFAULT_TOS len proto hc_saddr6 (hr_v6daddr real)
  else
    let proto := if GUE_ENCAP then IPPROTO_UDP else IPPROTO_IPIP in
    let n := u16 (len + 20) in
    v4_header DEFAULT_TOS n proto (v4_check DEFAULT_TOS n proto hc_saddr4 (hr_daddr real))
      hc_saddr4 (hr_daddr real).
Definition hc_outer_udp (len sport : Z) : list Z :=
  if GUE_ENCAP then udp_header sport GUE_DPORT (u16 (len + 8)) GUE_CSUM else [].

(** The packet after the encapsulation: the ethertype becomes that of IPv6 for an
    IPv6 real and otherwise stays. *)
Definition hc_encapsulated (real : hc_real_definition) (is_ipv6 : bool) (len sport : Z)
    (eth inner : list Z) : list Z :=
  take 12 eth ++ (if hr_flags real =? V6DADDR then le_split 2 BE_ETH_P_IPV6 else drop 12 eth)
  ++ hc_outer_ip real is_ipv6 len ++ hc_outer_udp len sport ++ inner.

(** What [bpf_skb_adjust_room] answers for this packet. *)
Definition hc_granted (real : hc_real_definition) (f : frame) : Prop :=
  (h_adjust_room f (hc_room real) BPF_ADJ_ROOM_MAC (hc_room_flags real)).1 = 0.
#[global] Instance hc_granted_dec real f : Decision (hc_granted real f) := decide (_ = _).
End outer.

Section encap_runs.
Context {F : Features} {C : HcFeatures} {T : HcTables} {H : SkbHelpers} {HL : SkbHelperLaws H}.
Implicit Types s : xst hc_env.

Lemma adjust_room_runs s d flags (eth inner : list Z) :
  f_data (x_frame s) = eth ++ inner -> length eth = 14%nat ->
  (h_adjust_room (x_frame s) d BPF_ADJ_ROOM_MAC flags).1 = 0 -> 0 <= d ->
  exists hd tl room, length room = Z.to_nat d /\
    runs s (skb_adjust_room d BPF_ADJ_ROOM_MAC flags) 0
      (Xst (Frame hd (eth ++ room ++ inner) tl) (grow_len d (x_env s)) (x_tick s)).
Proof.
  intros Hd He Hr H0.
  destruct (adjust_room_done (x_frame s) d flags) as (room & Hl & Hf); [done|done| |].
  { rewrite Hd, zlen_app. pose proof (zlen_nonneg inner). unfold zlen at 1. lia. }
  rewrite Hd, <- He, take_app_length, drop_app_length in Hf.
  unfold runs, skb_adjust_room.
  destruct (h_adjust_room (x_frame s) d BPF_ADJ_ROOM_MAC flags) as [r [hd dt tl]]. simpl in *. subst r dt.
  now exists hd, tl, room.
Qed.

Lemma adjust_room_refused s d flags :
  (h_adjust_room (x_frame s) d BPF_ADJ_ROOM_MAC flags).1 <> 0 ->
  runs s (skb_adjust_room d BPF_ADJ_ROOM_MAC flags)
    (h_adjust_room (x_frame s) d BPF_ADJ_ROOM_MAC flags).1 s.
Proof.
  intros Hr. pose proof (adjust_room_fail _ _ _ _ Hr) as Hf. unfold runs, skb_adjust_room.
  destruct (h_adjust_room (x_frame s) d BPF_ADJ_ROOM_MAC flags) as [r f]. simpl in *. subst f.
  destruct (Z.eqb_spec r 0); [done|]. now destruct s.
Qed.

Lemma lookup_hc_src_some k : 0 <= k < 2 -> lookup_hc_src k = Some (hc_src k).
Proof.
  intros Hk. unfold lookup_hc_src, array_lookup.
  destruct (Z.leb_spec 0 k), (Z.ltb_spec k 2); try lia. done.
Qed.

(** The two header writers behind an exploded Ethernet header. *)
Ltac v4_hdr :=
  match goal with |- runs (Xst (Frame _ ?d _) _ _) _ _ _ =>
    eapply (create_v4_hdr_runs _ (take 14 d) (take 20 (drop 14 d)) (drop 34 d)); [reflexivity..|done|done] end.
Ltac v6_hdr :=
  match goal with |- runs (Xst (Frame _ ?d _) _ _) _ _ _ =>
    eapply (create_v6_hdr_runs _ (take 14 d) (take 40 (drop 14 d)) (drop 54 d)); [reflexivity..|try done] end.
(** Through the grant of the room and the guard that follows it, with the first
    bytes of the packet one by one. *)
Ltac room_granted eth Hd He Hr :=
  let room := fresh "room" in let Hroom := fresh in let Hrun := fresh in
  destruct (adjust_room_runs _ _ _ _ _ Hd He Hr ltac:(done)) as (? & ? & room & Hroom & Hrun);
  eapply runs_bind_ex; [exact Hrun|]; clear Hrun; change (nz 0) with false; cbv iota;
  match type of Hroom with _ = ?n => let m := eval vm_compute in n in change n with m in Hroom end;
  explode eth He; explode room Hroom; cbn [app take drop];
  eexists; split; [eapply runs_bind; [apply runs_data_len|]; cbv beta; xneed|].
Ltac hc_unfold Hg :=
  unfold hc_granted, hc_encapsulated, hc_outer_ip, hc_outer_udp, hc_saddr6, hc_saddr4, hc_room, hc_room_flags in *;
  rewrite !Hg in *; cbn [negb andb] in *.

Lemma hc_encap_ipip_runs s (eth inner : list Z) real is_ipv6 sport :
  GUE_ENCAP = false -> f_data (x_frame s) = eth ++ inner -> length eth = 14%nat ->
  hc_granted real (x_frame s) ->
  exists s', runs s (hc_encap_ipip real is_ipv6) true s' /\
    f_data (x_frame s') = hc_encapsulated real is_ipv6 (u16 (skb_len (x_env s) - 14)) sport eth inner
    /\ x_env s' = grow_len (hc_room real) (x_env s).
Proof.
  intros Hg Hd He Hr. hc_unfold Hg.
  assert (forall x, x + 0 = x) as Hz by (intros; lia). rewrite Hz, Z.lor_0_r in *. clear Hz.
  eapply runs_bind_ex; [apply runs_asks|]. cbv beta zeta.
  set (n := u16 (skb_len (x_env s) - 14)).
  destruct (hr_flags real =? V6DADDR).
  - rewrite (lookup_hc_src_some V6_SRC_INDEX) by done. room_granted eth Hd He Hr.
    + xstep; [xstep|]. cbv zeta beta. xstep; [v6_hdr; now destruct is_ipv6|]. apply runs_ret.
    + split; reflexivity.
  - rewrite (lookup_hc_src_some V4_SRC_INDEX) by done. room_granted eth Hd He Hr.
    + xstep; [v4_hdr|]. apply runs_ret.
    + split; reflexivity.
Qed.

Lemma gue_sport_runs s :
  runs s gue_sport (gue_port (h_prandom_u32 (x_tick s))) (Xst (x_frame s) (x_env s) (S (x_tick s))).
Proof. done. Qed.

Lemma hc_encap_gue_runs s (eth inner : list Z) real is_ipv6 :
  GUE_ENCAP = true -> f_data (x_frame s) = eth ++ inner -> length eth = 14%nat ->
  hc_granted real (x_frame s) ->
  exists s', runs s (hc_encap_gue real is_ipv6) true s' /\
    f_data (x_frame s') = hc_encapsulated real is_ipv6 (u16 (skb_len (x_env s) - 14))
      (gue_port (h_prandom_u32 (x_tick s))) eth inner
    /\ x_env s' = grow_len (hc_room real) (x_env s).
Proof.
  intros Hg Hd He Hr. hc_unfold Hg.
  eapply runs_bind_ex; [apply runs_asks|]. cbv beta zeta.
  set (n := u16 (skb_len (x_env s) - 14)). generalize (gue_sport_runs s). set (p := gue_port _).
  set (s1 := Xst (x_frame s) (x_env s) (S (x_tick s))). intros Hp.
  change (x_frame s) with (x_frame s1) in Hd, Hr. change (x_env s) with (x_env s1). clearbody n p s1.
  destruct (hr_flags real =? V6DADDR); (eapply runs_bind_ex; [exact Hp|]; cbv beta zeta).
  - rewrite (lookup_hc_src_some V6_SRC_INDEX) by done. room_granted eth Hd He Hr.
    + xstep; [xstep|]. unfold create_udp_hdr. xrun. v6_hdr.
    + split; reflexivity.
  - rewrite (lookup_hc_src_some V4_SRC_INDEX) by done. room_granted eth Hd He Hr.
    + unfold create_udp_hdr. xrun. v4_hdr.
    + split; reflexivity.
Qed.
(** Either encapsulation, granted or refused. *)
Lemma HC_ENCAP_runs s (eth inner : list Z) real is_ipv6 :
  f_data (x_frame s) = eth ++ inner -> length eth = 14%nat -> hc_granted real (x_frame s) ->
  exists s', runs s (HC_ENCAP real is_ipv6) true s' /\
    f_data (x_frame s') = hc_encapsulated real is_ipv6 (u16 (skb_len (x_env s) - 14))
      (gue_port (h_prandom_u32 (x_tick s))) eth inner
    /\ x_env s' = grow_len (hc_room real) (x_env s).
Proof.
  intros. unfold HC_ENCAP. destruct GUE_ENCAP eqn:Hg; [now apply hc_encap_gue_runs|].
  now apply hc_encap_ipip_runs.
Qed.

Ltac room_refused Hr :=
  eapply runs_bind_ex; [now apply adjust_room_refused|]; rewrite (proj2 (nz_true _) Hr);
  eexists; split; [apply runs_ret|done].

Lemma HC_ENCAP_refused s real is_ipv6 :
  ~ hc_granted real (x_frame s) ->
  exists s', runs s (HC_ENCAP real is_ipv6) false s' /\ x_frame s' = x_frame s /\ x_env s' = x_env s.
Proof.
  unfold HC_ENCAP. intros Hr. destruct GUE_ENCAP eqn:Hg; hc_unfold Hg.
  - eapply runs_bind_ex; [apply runs_asks|]. cbv beta zeta. generalize (gue_sport_runs s).
    set (s1 := Xst (x_frame s) (x_env s) (S (x_tick s))). intros Hp.
    change (x_frame s) with (x_frame s1) in Hr |- *. change (x_env s) with (x_env s1). clearbody s1.
    destruct (hr_flags real =? V6DADDR); (eapply runs_bind_ex; [exact Hp|]; cbv beta zeta).
    + rewrite (lookup_hc_src_some V6_SRC_INDEX) by done. room_refused Hr.
    + rewrite (lookup_hc_src_some V4_SRC_INDEX) by done. room_refused Hr.
  - assert (forall x, x + 0 = x) as Hz by (intros; lia). rewrite Hz, Z.lor_0_r in Hr. clear Hz.
    eapply runs_bind_ex; [apply runs_asks|]. cbv beta zeta.
    destruct (hr_flags real =? V6DADDR).
    + rewrite (lookup_hc_src_some V6_SRC_INDEX) by done. room_refused Hr.
    + rewrite (lookup_hc_src_some V4_SRC_INDEX) by done. room_refused Hr.
Qed.
End encap_runs.

(** ** The program *)

Section program_runs.
Context {F : Features} {C : HcFeatures} {T : HcTables} {H : SkbHelpers} {HL : SkbHelperLaws H}.
Implicit Types s : xst hc_env.

(** What becomes of a packet. *)
Inductive hc_fate :=
  | Skipped
  | TooBig
  | TooShort
  | Refused
  | Probe (real : hc_real_definition).

Definition hc_is_ipv6 (d : list Z) : bool := le_join (take 2 (drop 12 d)) =? BE_ETH_P_IPV6.

(** The fate of a packet, in the order of the checks of the program. *)
Definition hc_fate_of (s : xst hc_env) : hc_fate :=
  let e := x_env s in
  if skb_mark e =? 0 then Skipped else
  match hc_reals_map !! skb_mark e with
  | None => Skipped
  | Some real =>
      if (0 <? HC_MAX_PACKET_SIZE) && (HC_MAX_PACKET_SIZE <? skb_len e) then TooBig else
      if zlen (f_data (x_frame s)) <? 14 then TooShort else
      if decide (hc_granted real (x_frame s)) then Probe real else Refused
  end.

(** The counters after a probe. *)
Definition count_probe (d : list Z) (e : hc_env) : hc_env :=
  let e := upd_hc_stats processed e in
  match hc_key_of d (hc_is_ipv6 d) ≫= lookup_hc_key with
  | Some i => if (0 <=? i) && (i <? MAX_VIPS) then upd_hckey_stats i e else e
  | None => e
  end.

Definition hc_main_intf : Z := default 0 (hc_ctrl_map !! HC_MAIN_INTF_POSITION).
Definition hc_mac_at (k : Z) : hc_mac := default (HcMac 0) (hc_pckt_macs !! k).

(** The result, the packet and the environment that the program leaves. *)
Definition hc_outcome (s : xst hc_env) : Z * list Z * hc_env :=
  let d := f_data (x_frame s) in
  let e := x_env s in
  match hc_fate_of s with
  | Skipped => (TC_ACT_UNSPEC, d, upd_hc_stats skipped e)
  | TooBig => (TC_ACT_SHOT, d, upd_hc_stats too_big (upd_hc_stats dropped e))
  | TooShort => (TC_ACT_SHOT, d, upd_hc_stats dropped e)
  | Refused => (TC_ACT_SHOT, d, upd_hc_stats dropped (set_mark 0 e))
  | Probe real =>
      (h_redirect hc_main_intf REDIRECT_EGRESS,
       mac (hc_mac_at HC_DST_MAC_POS) ++ mac (hc_mac_at HC_SRC_MAC_POS)
       ++ drop 12 (hc_encapsulated real (hc_is_ipv6 d) (u16 (skb_len e - 14))
                     (gue_port (h_prandom_u32 (x_tick s))) (take 14 d) (drop 14 d)),
       add_redirect (hc_main_intf, REDIRECT_EGRESS)
         (count_probe d (grow_len (hc_room real) (set_mark 0 e))))
  end.

Lemma lookup_hc_mac_some k : 0 <= k < 2 -> lookup_hc_mac k = Some (hc_mac_at k).
Proof.
  intros Hk. unfold lookup_hc_mac, array_lookup.
  destruct (Z.leb_spec 0 k), (Z.ltb_spec k 2); try lia. done.
Qed.

Lemma count_probe_runs s d :
  runs s (modify (upd_hc_stats processed) ;;
          match hc_key_of d (hc_is_ipv6 d) with Some hckey => count_hc_key hckey | None => mret tt end) tt
    (Xst (x_frame s) (count_probe d (x_env s)) (x_tick s)).
Proof.
  eapply runs_bind; [apply runs_modify|]. unfold count_probe, count_hc_key.
  destruct (hc_key_of d (hc_is_ipv6 d)) as [k|]; [|apply runs_ret]. cbn [mbind option_bind].
  destruct (lookup_hc_key k) as [i|]; [|apply runs_ret]. unfold when.
  now destruct (_ && _).
Qed.

Lemma store_macs_runs s edst esrc (x y : list Z) :
  f_data (x_frame s) = x ++ y -> length x = 12%nat ->
  runs s (store 6 (mac esrc) ;; store 0 (mac edst)) tt (set_data s (mac edst ++ mac esrc ++ y)).
Proof.
  intros Hd Hx. destruct s as [[hd d tl] e k]. cbn [f_data x_frame] in Hd. subst d. explode x Hx.
  unfold mac. cbn [app le_split]. xstep; [xstep|]. eapply runs_eq; [xstep|]. reflexivity.
Qed.
Lemma length_take_14 (d : list Z) : 14 <= zlen d -> length (take 14 d) = 14%nat.
Proof. unfold zlen. rewrite length_take. lia. Qed.

(** The part of the program behind the checks of the maps, for a packet that has
    an Ethernet header. *)
Lemma healthcheck_runs s :
  exists s', runs s healthcheck_encap (hc_outcome s).1.1 s' /\
    f_data (x_frame s') = (hc_outcome s).1.2 /\ x_env s' = (hc_outcome s).2.
Proof.
  unfold healthcheck_encap, hc_outcome, hc_fate_of.
  eapply runs_bind_ex; [apply runs_asks|]. cbv beta. eapply runs_bind_ex; [apply runs_asks|].
  cbv beta. change (lookup_hc_stats GENERIC_STATS_INDEX (x_env s))
    with (Some (default hc_stats_zero (hc_stats_map (x_env s) !! 0))). cbv iota.
  destruct (skb_mark (x_env s) =? 0).
  { eapply runs_bind_ex; [apply runs_modify|]. eexists. split; [apply runs_ret|done]. }
  unfold lookup_hc_real. destruct (hc_reals_map !! skb_mark (x_env s)) as [real|].
  2: { eapply runs_bind_ex; [apply runs_modify|]. eexists. split; [apply runs_ret|done]. }
  eapply runs_bind_ex; [apply runs_asks|]. cbv beta.
  destruct ((0 <? HC_MAX_PACKET_SIZE) && (HC_MAX_PACKET_SIZE <? skb_len (x_env s))).
  { eapply runs_bind_ex; [apply runs_modify|]. eapply runs_bind_ex; [apply runs_modify|].
    eexists. split; [apply runs_ret|done]. }
  change (lookup_hc_ctrl HC_MAIN_INTF_POSITION) with (Some hc_main_intf). cbv iota.
  rewrite (lookup_hc_mac_some HC_SRC_MAC_POS), (lookup_hc_mac_some HC_DST_MAC_POS) by done. cbv iota.
  eapply runs_bind_ex; [apply runs_data_len|]. cbv beta.
  set (d := f_data (x_frame s)). destruct (Z.ltb_spec (zlen d) 14) as [Hs|Hl].
  { eapply runs_bind_ex; [apply runs_modify|]. eexists. split; [apply runs_ret|done]. }
  eapply runs_bind_ex; [apply runs_load16_at; fold d; lia|]. cbv beta zeta. fold d.
  change (Z.to_nat 12) with 12%nat. fold (hc_is_ipv6 d).
  eapply runs_bind_ex; [apply set_hc_key_runs|]. cbv beta. fold d.
  eapply runs_bind_ex; [apply runs_modify|]. cbv beta.
  set (s1 := Xst (x_frame s) (set_mark 0 (x_env s)) (x_tick s)).
  assert (Hd : f_data (x_frame s1) = take 14 d ++ drop 14 d) by (symmetry; apply take_drop).
  pose proof (length_take_14 d Hl) as He.
  destruct (decide (hc_granted real (x_frame s))) as [Hr|Hr].
  - destruct (HC_ENCAP_runs s1 _ _ real (hc_is_ipv6 d) Hd He Hr) as (s2 & Hrun & Hd2 & He2).
    eapply runs_bind_ex; [exact Hrun|]. cbv beta. cbn [negb].
    eapply runs_bind_ex; [apply runs_data_len|]. cbv beta.
    set (p := hc_encapsulated real _ _ _ _ _) in *.
    assert (14 <= zlen p) as Hp.
    { unfold p, hc_encapsulated, zlen. rewrite !length_app, length_take, He.
      destruct (hr_flags real =? V6DADDR); rewrite ?length_le_split, ?length_drop, ?He; lia. }
    rewrite Hd2. destruct (Z.ltb_spec (zlen p) 14); [lia|].
    eapply runs_assoc_ex.
    { apply (store_macs_runs s2 _ _ (take 12 p) (drop 12 p)); [now rewrite take_drop|].
      rewrite length_take. unfold zlen in Hp. lia. }
    cbv beta. eapply runs_assoc_ex; [apply count_probe_runs|]. cbv beta.
    eapply runs_bind_ex; [apply runs_modify|]. eexists. split; [apply runs_ret|].
    cbn [x_frame x_env f_data set_data fst snd]. now rewrite He2.
  - destruct (HC_ENCAP_refused s1 real (hc_is_ipv6 d) Hr) as (s2 & Hrun & Hf & He2).
    eapply runs_bind_ex; [exact Hrun|]. cbv beta. cbn [negb].
    eapply runs_bind_ex; [apply runs_modify|]. eexists. split; [apply runs_ret|].
    cbn [x_frame x_env fst snd]. rewrite Hf, He2. done.
Qed.
(** The probe is the inner packet behind the outer headers. *)
Lemma hc_outer_length real b len sport :
  length (hc_outer_ip real b len ++ hc_outer_udp len sport) = Z.to_nat (hc_room real).
Proof.
  unfold hc_outer_ip, hc_outer_udp, hc_room. destruct (hr_flags real =? V6DADDR), GUE_ENCAP; reflexivity.
Qed.

Lemma hc_outer_v4_ok real b len :
  hr_flags real <> V6DADDR -> csum_ok (hc_outer_ip real b len).
Proof.
  intros Hv. unfold hc_outer_ip. rewrite (proj2 (Z.eqb_neq _ _) Hv).
  apply v4_header_checks; [done|]. now destruct GUE_ENCAP.
Qed.

(** C35: what the health checker does with any packet.  It returns (so no access is
    outside the packet) with the verdict, the packet and the counters of
    [hc_outcome]: unmarked packets and marks without a real server go on
    untouched, packets that are too big, too short or refused by the kernel are
    dropped, and a probe leaves by the main interface with its own mark cleared,
    its IP packet intact behind outer headers of the length that was asked for,
    whose IPv4 checksum a receiver accepts. *)
Theorem healthcheck_correct s :
  exists s', runs s healthcheck_encap (hc_outcome s).1.1 s'
  /\ f_data (x_frame s') = (hc_outcome s).1.2 /\ x_env s' = (hc_outcome s).2
  /\ forall real, hc_fate_of s = Probe real ->
       let d := f_data (x_frame s) in
       let len := u16 (skb_len (x_env s) - 14) in
       let outer := hc_outer_ip real (hc_is_ipv6 d) len
                    ++ hc_outer_udp len (gue_port (h_prandom_u32 (x_tick s))) in
       f_data (x_frame s') = mac (hc_mac_at HC_DST_MAC_POS) ++ mac (hc_mac_at HC_SRC_MAC_POS)
         ++ (if hr_flags real =? V6DADDR then le_split 2 BE_ETH_P_IPV6 else take 2 (drop 12 d))
         ++ outer ++ drop 14 d
       /\ zlen outer = hc_room real
       /\ (hr_flags real <> V6DADDR -> csum_ok (hc_outer_ip real (hc_is_ipv6 d) len))
       /\ skb_mark (x_env s') = 0
       /\ redirects (x_env s') = redirects (x_env s) ++ [(hc_main_intf, REDIRECT_EGRESS)].
Proof.
  destruct (healthcheck_runs s) as (s' & Hrun & Hd & He). exists s'. do 3 (split; [done|]).
  intros real Hf. cbv zeta. rewrite Hd, He. unfold hc_outcome. rewrite Hf. cbn [fst snd].
  set (d := f_data (x_frame s)) in *.
  assert (14 <= zlen d) as Hl.
  { unfold hc_fate_of in Hf. fold d in Hf. repeat case_match; try done. now apply Z.ltb_ge. }
  split; [|split; [|split; [apply hc_outer_v4_ok|]]].
  - do 2 f_equal. unfold hc_encapsulated. pose proof (length_take_14 d Hl) as H14.
    rewrite drop_app_length' by (rewrite length_take, H14; done).
    rewrite <- app_assoc. f_equal. destruct (hr_flags real =? V6DADDR); [done|].
    now rewrite skipn_firstn_comm.
  - unfold zlen. rewrite hc_outer_length. unfold hc_room.
    destruct (hr_flags real =? V6DADDR), GUE_ENCAP; reflexivity.
  - unfold count_probe. split.
    + destruct (hc_key_of _ _ ≫= _); [destruct (_ && _)|]; reflexivity.
    + destruct (hc_key_of _ _ ≫= _); [destruct (_ && _)|]; reflexivity.
Qed.

(** ** Sequences of packets *)

(** The program on one buffer after another: its frame, mark and length. *)
Fixpoint hc_session (skbs : list (frame * Z * Z)) (e : hc_env) (tick : nat) : option (list Z * hc_env) :=
  match skbs with
  | [] => Some ([], e)
  | (f, mark, len) :: skbs =>
      match healthcheck_encap (Xst f (HcEnv mark len (hc_stats_map e) (per_hckey_stats e) (redirects e)
                                        (tunnel_key e)) tick) with
      | None => None
      | Some (v, s) =>
          match hc_session skbs (x_env s) (x_tick s) with
          | Some (vs, e) => Some (v :: vs, e)
          | None => None
          end
      end
  end.

Definition hc_counters (e : hc_env) : hc_stats := default hc_stats_zero (hc_stats_map e !! GENERIC_STATS_INDEX).
Definition passed (vs : list Z) : Z := Z.of_nat (length (filter (fun v => v = TC_ACT_UNSPEC) vs)).
Definition sent (e : hc_env) : Z := Z.of_nat (length (redirects e)).

(** The counters move by what one packet was. *)
Definition count_one (fate : hc_fate) (n : hc_stats) : hc_stats :=
  match fate with
  | Skipped => skipped n
  | TooBig => too_big (dropped n)
  | TooShort | Refused => dropped n
  | Probe _ => processed n
  end.

Lemma hc_counters_upd g e : hc_counters (upd_hc_stats g e) = g (hc_counters e).
Proof. unfold hc_counters, upd_hc_stats, array_update. cbn [hc_stats_map]. now rewrite lookup_insert_eq. Qed.

Lemma hc_outcome_counts s :
  let e' := (hc_outcome s).2 in
  hc_counters e' = count_one (hc_fate_of s) (hc_counters (x_env s))
  /\ sent e' = sent (x_env s) + match hc_fate_of s with Probe _ => 1 | _ => 0 end
  /\ ((hc_outcome s).1.1 = TC_ACT_UNSPEC <-> hc_fate_of s = Skipped).
Proof.
  unfold hc_outcome. destruct (hc_fate_of s) as [| | | |real]; cbn [fst snd]; rewrite ?hc_counters_upd;
    unfold sent, TC_ACT_UNSPEC, TC_ACT_SHOT; cbn [count_one]; repeat split; try done; try (cbn; lia).
  - unfold count_probe.
    destruct (hc_key_of _ _ ≫= _); [destruct (_ && _)|]; exact (hc_counters_upd processed (x_env s)).
  - cbn [redirects add_redirect]. rewrite length_app. cbn [length]. unfold count_probe.
    destruct (hc_key_of _ _ ≫= _); [destruct (_ && _)|]; cbn [redirects upd_hckey_stats upd_hc_stats grow_len set_mark]; lia.
  - intros Hr. destruct (redirect_result hc_main_intf REDIRECT_EGRESS) as [E|E]; rewrite E in Hr; discriminate Hr.
Qed.

(** C36: the accounts of the health checker.  Over any sequence of buffers it
    returns for each of them, and every packet is counted exactly once: as
    skipped when it was passed on, as processed when it was redirected, and as
    dropped otherwise. *)
Theorem healthcheck_accounts (skbs : list (frame * Z * Z)) (e : hc_env) (tick : nat) :
  exists vs e', hc_session skbs e tick = Some (vs, e') /\ length vs = length skbs /\
    let n := hc_counters e in
    let n' := hc_counters e' in
    let p := sent e' - sent e in
    u64 (pckts_skipped n') = u64 (pckts_skipped n + passed vs)
    /\ u64 (pckts_processed n') = u64 (pckts_processed n + p)
    /\ u64 (pckts_dropped n') = u64 (pckts_dropped n + (Z.of_nat (length skbs) - passed vs - p)).
Proof.
  revert e tick. induction skbs as [|[[f mark] len] skbs IH]; intros e tick.
  { exists [], e. cbn [hc_session length]. unfold passed. cbn [filter list_filter length].
    split; [done|]. split; [done|]. cbv zeta. repeat split; f_equal; lia. }
  cbn [hc_session]. set (s := Xst f _ tick).
  destruct (healthcheck_runs s) as (s' & Hrun & _ & He). unfold runs in Hrun. rewrite Hrun.
  destruct (hc_outcome_counts s) as (Hn & Hs & Hu). cbv zeta in Hn, Hs. rewrite <- He in Hn, Hs.
  destruct (IH (x_env s') (x_tick s')) as (vs & e' & Hrest & Hlen & Hk & Hp & Hdr). rewrite Hrest.
  eexists _, e'. split; [done|]. cbn [length]. split; [lia|]. cbv zeta.
  change (hc_counters (x_env s)) with (hc_counters e) in Hn. change (sent (x_env s)) with (sent e) in Hs.
  assert (passed ((hc_outcome s).1.1 :: vs) = passed vs + match hc_fate_of s with Skipped => 1 | _ => 0 end) as Hv.
  { unfold passed. rewrite filter_cons. destruct (decide _) as [Hd|Hd].
    - rewrite (proj1 Hu Hd). cbn [length]. lia.
    - destruct (hc_fate_of s); try lia. destruct Hd. now apply Hu. }
  rewrite Hv. rewrite Hn in Hk, Hp, Hdr. rewrite Hs in Hp, Hdr.
  rewrite Hk, Hp, Hdr. destruct (hc_fate_of s); cbn [count_one skipped dropped processed too_big
    pckts_skipped pckts_processed pckts_dropped]; unfold u64; repeat split; rewrite ?Zplus_mod_idemp_l; f_equal; lia.
Qed.
End program_runs.

(** ** The other programs *)

(** The port on the wire is not kept above 1023: the random number is stored
    without a change of byte order, so the bit that is set lands in the low byte. *)
Lemma gue_sport_not_high : bswap16 (gue_port 0) = 4.
Proof. reflexivity. Qed.

(** [xdp_root] runs the first program of its three slots. *)
Lemma xdp_root_runs {E} (root_array : Z -> option (xdp E Z)) :
  xdp_root root_array
  = default (mret XDP_PASS) (match root_array 0 with Some p => Some p | None =>
      match root_array 1 with Some p => Some p | None => root_array 2 end end).
Proof.
  unfold xdp_root, ROOT_ARRAY_SIZE, tail_calls. change (0 + 1) with 1. change (1 + 1) with 2.
  now destruct (root_array 0), (root_array 1), (root_array 2).
Qed.

(** [pktcntr] passes every packet, and counts it when the flag is set. *)
Lemma pktcntr_runs (s : xst Pktcntr.cntr_maps) :
  exists s', runs s Pktcntr.pktcntr XDP_PASS s' /\ x_frame s' = x_frame s /\
    Pktcntr.ctl_flags (x_env s') = Pktcntr.ctl_flags (x_env s) /\
    default 0 (Pktcntr.cntrs_array (x_env s') !! 0)
    = (if default 0 (Pktcntr.ctl_flags (x_env s) !! 0) =? 0 then default 0 (Pktcntr.cntrs_array (x_env s) !! 0)
       else u64 (default 0 (Pktcntr.cntrs_array (x_env s) !! 0) + 1)).
Proof.
  unfold Pktcntr.pktcntr. eapply runs_bind_ex; [apply runs_asks|]. cbv beta.
  change (array_lookup Pktcntr.CTRL_ARRAY_SIZE 0 (Pktcntr.ctl_flags (x_env s)) 0)
    with (Some (default 0 (Pktcntr.ctl_flags (x_env s) !! 0))). cbv iota.
  destruct (_ =? 0); [eexists; split; [apply runs_ret|done]|].
  eapply runs_bind_ex; [apply runs_asks|]. cbv beta iota.
  eapply runs_bind_ex; [apply runs_modify|]. eexists. split; [apply runs_ret|]. split; [done|]. split; [done|].
  cbn [x_env Pktcntr.cntrs_array]. unfold array_update. now rewrite lookup_insert_eq.
Qed.

(** ** The older health checker *)

Section ipip_runs.
Context {T : HcTables} {H : SkbHelpers}.

(** Where the tunnel key of a real server points, and the device it leaves by. *)
Definition ipip_key (real : hc_real_definition) : bpf_tunnel_key * Z :=
  if hr_flags real =? V6DADDR then (TunnelKey (hr_v6daddr real) DEFAULT_TTL, BPF_F_TUNINFO_IPV6)
  else (TunnelKey (set_w0 v6_zero (hr_daddr real)) DEFAULT_TTL, 0).
Definition ipip_intf (real : hc_real_definition) : Z :=
  default 0 (hc_ctrl_map !! (if hr_flags real =? V6DADDR then 2 else 1)).

(** The older program leaves the bytes of a probe alone.  A marked packet of at most 1474
    bytes goes to the tunnel device of its family with the address of the real
    server as the remote end, its mark cleared. *)
Lemma ipip_probe (s : xst hc_env) real :
  skb_mark (x_env s) <> 0 -> hc_reals_map !! skb_mark (x_env s) = Some real ->
  skb_len (x_env s) <= Ipip.MAX_PACKET_SIZE ->
  (h_set_tunnel_key (ipip_key real).1 (ipip_key real).2) = 0 ->
  exists s', runs s Ipip.healthcheck_encap_ipip (h_redirect (ipip_intf real) REDIRECT_EGRESS) s'
    /\ x_frame s' = x_frame s
    /\ x_env s' = add_redirect (ipip_intf real, REDIRECT_EGRESS)
         (set_tunnel (ipip_key real) (upd_hc_stats processed (set_mark 0 (x_env s)))).
Proof.
  intros Hm Hr Hl Ht. unfold Ipip.healthcheck_encap_ipip.
  do 2 (eapply runs_bind_ex; [apply runs_asks|]; cbv beta).
  change (lookup_hc_stats GENERIC_STATS_INDEX (x_env s))
    with (Some (default hc_stats_zero (hc_stats_map (x_env s) !! 0))). cbv iota.
  rewrite (proj2 (Z.eqb_neq _ _) Hm). unfold lookup_hc_real. rewrite Hr.
  eapply runs_bind_ex; [apply runs_asks|]. cbv beta. rewrite (proj2 (Z.ltb_ge _ _) Hl).
  change (lookup_hc_ctrl 1) with (Some (default 0 (hc_ctrl_map !! 1))).
  change (lookup_hc_ctrl 2) with (Some (default 0 (hc_ctrl_map !! 2))). cbv iota.
  eapply runs_bind_ex; [apply runs_modify|]. cbv beta.
  unfold ipip_key, ipip_intf in *. unfold skb_set_tunnel_key.
  destruct (hr_flags real =? V6DADDR); cbn [fst snd] in Ht; rewrite Ht;
    (eexists; split; [reflexivity|split; reflexivity]).
Qed.

End ipip_runs.

(** ** A concrete configuration *)

(** A kernel that grants the room, with zero bytes in it, to every packet that
    has an Ethernet header, and whose random numbers are zero. *)
Definition skb_helpers : SkbHelpers := {|
  h_adjust_room f d mode flags :=
    if (14 <=? zlen (f_data f)) && (0 <=? d)
    then (0, Frame (f_head f) (take 14 (f_data f) ++ replicate (Z.to_nat d) 0 ++ drop 14 (f_data f)) (f_tail f))
    else (-1, f);
  h_redirect i flags := TC_ACT_REDIRECT;
  h_set_tunnel_key k flags := 0;
  h_prandom_u32 n := 0 |}.

#[export] Instance skb_helper_laws : SkbHelperLaws skb_helpers.
Proof.
  split; intros *; cbn [h_adjust_room h_redirect skb_helpers]; [..|now left];
    case_match; cbn [fst snd]; try done. intros. eexists. split; [apply length_replicate|done].
Qed.

Definition hc_build : HcFeatures := {| HC_MAX_PACKET_SIZE := 0; MANGLE_HC_SRC := false |}.
Definition hc_features (gue : bool) : Features := {|
  ICMP_TOOBIG_GENERATION := false; LPM_SRC_LOOKUP := false; DEF_INLINE_DECAP := false;
  DEF_INLINE_DECAP_IPIP := false; INLINE_DECAP_GUE := false; GUE_ENCAP := gue;
  KATRAN_INTROSPECTION := false; LOCAL_DELIVERY_OPTIMIZATION := false;
  TCP_SERVER_ID_ROUTING := false; GLOBAL_LRU_LOOKUP := false;
  DECAP_STRICT_DESTINATION := false; SERVER_ID_HASH_MAP := false; RECORD_FLOW_INFO := false |}.

(** Mark 7 stands for 10.0.0.2; probes leave by interface 4. *)
Definition hc_one : HcTables := {|
  hc_ctrl_map := {[ 3 := 4 ]}; hc_reals_map := {[ 7 := HcReal (V6 33554442 0 0 0) 0 ]};
  hc_pckt_srcs_map := {[ 0 := HcReal (V6 67108874 0 0 0) 0 ]};
  hc_pckt_macs := {[ 0 := HcMac 0x010101010101; 1 := HcMac 0x020202020202 ]};
  hc_key_map := {[ HcKey (V6 16777226 0 0 0) 20480 6 := 5 ]} |}.

(** A TCP segment to 10.0.0.1:80, and an IPv6 packet. *)
Definition hc_segment : list Z :=
  replicate 12 9 ++ [8; 0]
  ++ [0x45; 0; 0; 40; 0; 1; 0; 0; 64; 6; 0; 0; 10; 0; 0; 9; 10; 0; 0; 1]
  ++ [4; 210; 0; 80; 0; 0; 0; 1; 0; 0; 0; 0; 0x50; 2; 255; 255; 0; 0; 0; 0].
Definition hc_v6_packet : list Z := replicate 12 9 ++ [0x86; 0xdd] ++ [0x60; 0; 0; 0; 0; 0; 59; 64] ++ replicate 32 1.
Definition hc_env0 (mark len : Z) : hc_env := HcEnv mark len ∅ ∅ [] None.
Definition hc_state (p : list Z) (mark : Z) : xst hc_env := Xst (Frame [] p []) (hc_env0 mark (zlen p)) 0.

(** The segment becomes a probe of 74 bytes, counted in general and under the key
    of its health check; the older run counts the same. *)
Example hc_segment_sent :
  match @healthcheck_encap (hc_features false) hc_build hc_one skb_helpers (hc_state hc_segment 7) with
  | Some (v, s) => v = TC_ACT_REDIRECT
      /\ f_data (x_frame s) = replicate 6 2 ++ replicate 6 1 ++ [8; 0]
         ++ [0x45; 0; 0; 60; 0; 0; 0; 0; 64; 4; 102; 185; 10; 0; 0; 4; 10; 0; 0; 2] ++ drop 14 hc_segment
      /\ per_hckey_stats (x_env s) !! 5 = Some 1 /\ skb_len (x_env s) = 74
  | None => False
  end.
Proof. vm_compute. repeat split; reflexivity. Qed.

(** With an IPv4 real the ethertype of an IPv6 packet stays in front of the outer
    IPv4 header, which moreover announces IPv4 inside (protocol 4). *)
Lemma hc_v6_in_v4_ethertype :
  match @healthcheck_encap (hc_features false) hc_build hc_one skb_helpers (hc_state hc_v6_packet 7) with
  | Some (v, s) => v = TC_ACT_REDIRECT /\ take 3 (drop 12 (f_data (x_frame s))) = [0x86; 0xdd; 0x45]
      /\ nth 23 (f_data (x_frame s)) 0 = IPPROTO_IPIP
  | None => False
  end.
Proof. vm_compute. repeat split; reflexivity. Qed.

(** Under GUE the random number 0 gives the source port 4. *)
Lemma hc_gue_low_port :
  match @healthcheck_encap (hc_features true) hc_build hc_one skb_helpers (hc_state hc_segment 7) with
  | Some (v, s) => v = TC_ACT_REDIRECT /\ take 4 (drop 34 (f_data (x_frame s))) = [0; 4; 0x17; 0xc0]
  | None => False
  end.
Proof. vm_compute. repeat split; reflexivity. Qed.

Lemma healthcheck_correct_witness :
  exists s', runs (hc_state hc_segment 7)
      (@healthcheck_encap (hc_features false) hc_build hc_one skb_helpers) TC_ACT_REDIRECT s'
    /\ skb_mark (x_env s') = 0 /\ drop 34 (f_data (x_frame s')) = drop 14 hc_segment.
Proof.
  destruct (@healthcheck_correct (hc_features false) hc_build hc_one skb_helpers skb_helper_laws
    (hc_state hc_segment 7)) as (s' & Hr & Hd & He & Hp).
  exists s'. assert (((@hc_outcome (hc_features false) hc_build hc_one skb_helpers (hc_state hc_segment 7)).1).1
    = TC_ACT_REDIRECT) as E by (vm_compute; reflexivity). rewrite E in Hr.
  split; [exact Hr|]. specialize (Hp (HcReal (V6 33554442 0 0 0) 0)).
  destruct Hp as (Hf & _ & _ & Hm & _); [vm_compute; reflexivity|]. split; [exact Hm|].
  rewrite Hf. vm_compute. reflexivity.
Defined.

Lemma healthcheck_accounts_witness :
  exists vs e', @hc_session (hc_features true) hc_build hc_one skb_helpers
      [(Frame [] hc_segment [], 7, 54); (Frame [] hc_segment [], 0, 54); (Frame [] [] [], 7, 0)] (hc_env0 0 0) 0
    = Some (vs, e') /\ length vs = 3%nat.
Proof.
  destruct (@healthcheck_accounts (hc_features true) hc_build hc_one skb_helpers skb_helper_laws
    [(Frame [] hc_segment [], 7, 54); (Frame [] hc_segment [], 0, 54); (Frame [] [] [], 7, 0)] (hc_env0 0 0) 0)
    as (vs & e' & H & Hl & _).
  exists vs, e'. split; [exact H|exact Hl].
Defined.
